(* ===== verification/_CoqProject ===== *)
-Q . S2P
Prelude.v
ByteBuffer.v
UpdateMask.v
Timer.v
Utf8.v
Util.v
Events.v
OrderedMap.v
Float32.v
Reputation.v
GroupMgr.v
GroupState.v
Roll.v
GroupInstances.v
Group.v
GroupMembers.v
GroupRules.v
Items.v
Storage.v
Inventory.v
LfgRoles.v
LfgData.v
LfgQueue.v
LfgMgr.v
LfgReach.v
LfgOutcomes.v
Channel.v
ChannelMgr.v
InstanceIds.v
Battleground.v
BattlegroundRegistry.v
BattlegroundQueue.v
BattlegroundMatch.v
BattlegroundJoin.v
BattlegroundWorld.v
Guild.v
GuildBank.v
GuildHandlers.v
GuildRules.v
GuildBankRules.v
GuildStart.v
GuildReach.v
GuildOutcomes.v
GuildStock.v
ArenaTables.v
ArenaTeam.v
ArenaHandlers.v
ArenaMatch.v
ArenaRules.v
ArenaFound.v
ArenaPlay.v
ArenaReach.v
ArenaStock.v
ArenaOutcomes.v
