(* ===== verification/Prelude.v ===== *)
(** * Verification of the TeraCore game server

    TeraCore is a game server in C++: [src/server/shared] holds the packet
    buffer, timers, event queues and database layer; [src/server/game] the
    world, its objects and the players' subsystems; the opcode handlers of
    [game/Handlers] parse a client's packets and call the subsystems. This
    library models parts of it whose behaviour is their own logic rather than
    database content or I/O, and proves what makes them correct.

    ** Files

    - [Prelude]: machine integers ([wrap], [swrap], the ranges [in_u], [in_s]),
      flags ([has]), results with errors, little-endian bytes, lists written at
      an index; the tactic [width] for range conditions and the databases that
      go with it.
    - [ByteBuffer]: [shared/Packets/ByteBuffer.h]. A buffer is its bytes and two
      cursors; operations are state passing with exceptions, so the buffer after
      a failed read is part of the model. The class [Serial] is the contract
      between field types and the buffer: what is encoded is decoded.
    - [UpdateMask]: [game/Entities/Object/Updates/UpdateMask.h]. A bitmap in
      32-bit blocks addressed by bytes and by blocks; its abstract value is a
      finite set of field indices, and each operation refines one on sets.
    - [Timer]: [shared/Utilities/Timer.h] and the timer loop of [World::Update]
      ([game/World/World.cpp]), at the C++ widths and signs.
    - [Utf8]: the UTF-8 and UTF-16 conversions of [dep/utf8cpp], which the text
      functions call; a string is the list of its bytes.
    - [Util]: the text functions of [shared/Utilities/Util.cpp] and the checks of
      names of [game/Globals/ObjectMgr.cpp]. Buffers have their length, and writing
      past it is a fault.
    - [Events]: [shared/Utilities/EventProcessor.cpp]. The queue, the heap of
      events and the iterators; the virtual methods of events are a class
      [BasicEventMethods] and what the queue needs of them is
      [EventDiscipline].
    - [OrderedMap]: [std::map] with integer keys as a sorted list of pairs, for
      the components that iterate in its order.
    - [Float32]: IEEE binary32, for the reputation gains.
    - [Reputation]: [game/Reputation/ReputationMgr.cpp]. Standings, flags,
      counters, packets and rows of a player's factions.
    - [GroupMgr]: [game/Groups/GroupMgr.cpp]. Guids and storage ids of groups.
    - [GroupState]: the data of [game/Groups/Group.h], the monad of the group
      files, and the frame and totality rules ([keeps], [total], [preserves])
      with their tactics.
    - [Roll]: the loot rolls of [game/Groups/Group.cpp], with the loot they
      refer to.
    - [GroupInstances]: the binds of groups and players to instance saves.
    - [Group]: the rest of [game/Groups/Group.cpp], the references of players to
      groups ([game/Entities/Player/Player.cpp]) and most handlers of
      [game/Handlers/GroupHandler.cpp].
    - [GroupMembers], [GroupRules]: the theorems on [Group].
    - [Items]: the items of a player, the lookups and the counting functions of
      [game/Entities/Player/Player.cpp], [Item/Item.cpp] and
      [Item/Container/Bag.cpp].
    - [Storage]: [Player::CanStoreItem] and its helpers, which find the slots an
      item can be put into.
    - [Inventory]: creating and cloning items and putting them into slots,
      [Player::StoreNewItem] and what it calls.
    - [LfgRoles]: [LFGMgr::CheckGroupRoles] of [game/DungeonFinding], which
      gives the players of a group roles they chose.
    - [LfgData]: the data of the dungeon finder ([LFG.h], [LFGPlayerData.cpp],
      [LFGGroupData.cpp]) and the accessors of [LFGMgr.cpp].
    - [LfgQueue]: [LFGQueue.cpp], the queue, its cache of what goes together and
      the search for groups.
    - [LfgMgr]: joining, leaving, role checks, proposals, votes and the update of
      [LFGMgr.cpp], and the hooks of [LFGScripts.cpp].
    - [Channel]: [game/Chat/Channels/Channel.cpp], a chat channel with its members,
      owner, bans and commands.
    - [ChannelMgr]: [ChannelMgr.cpp], the handlers of
      [game/Handlers/ChannelHandler.cpp] and the players' lists of channels; channels
      are addressed by pointers, and using a deleted one is a fault.
    - [LfgReach], [LfgOutcomes]: the theorems on [LfgMgr], over every sequence of
      calls and call by call.
    - [InstanceIds]: the allocator of map instance ids of [game/Maps/MapManager.cpp]
      and its loading at start-up.
    - [Battleground]: the battlegrounds as the queues see them, and the registry of
      [game/Battlegrounds/BattlegroundMgr.cpp]. Battlegrounds are addressed by pointers,
      and using a deleted one is a fault. [BattlegroundRegistry]: its theorems.
    - [BattlegroundQueue]: [BattlegroundQueue.cpp], the queues of groups for
      battlegrounds and arenas, the invitations with their events, and the scheduled
      updates of the manager. Groups are addressed by pointers in the same way.
    - [BattlegroundMatch], [BattlegroundJoin], [BattlegroundWorld]: the theorems on the
      choice of groups for a match, on joining, leaving and waiting times, and on every
      sequence of operations on queues and registry.
    - [Guild]: [game/Guilds/Guild.cpp], [Guild.h] and [GuildMgr.cpp]. A guild with its
      members, ranks, logs and bank; the players in the world as far as a guild reads or
      writes them. [GuildBank]: the moves of items between slots of its bank.
      [GuildHandlers]: the opcodes of [game/Handlers/GuildHandler.cpp], turning
      in a petition ([PetitionsHandler.cpp]), the other callers and the commands of
      [scripts/Commands/cs_guild.cpp].
    - [GuildRules], [GuildBankRules], [GuildStart], [GuildReach], [GuildOutcomes],
      [GuildStock]: the invariant of a guild with the rules that keep it, founding and
      loading, every sequence of steps, the outcomes of single operations, and what is in
      the bank after a move.
    - [ArenaTables]: the tables of the character database for arena teams and petitions,
      with the statements that write them and the queries. [ArenaTeam]:
      [game/Battlegrounds/ArenaTeam.cpp] and [ArenaTeamMgr.cpp], the members, captain,
      ratings and counters of teams, their registry, the load of all teams, the week's
      points, and what [Player] keeps of its teams. [ArenaHandlers]:
      [game/Handlers/ArenaTeamHandler.cpp], the arena part of [PetitionsHandler.cpp], the
      deletion, login and logout of a character. [ArenaMatch]: what the end of a rated match
      and leaving one do to the teams ([Battleground.cpp]).
    - [ArenaRules], [ArenaFound], [ArenaPlay], [ArenaReach], [ArenaStock],
      [ArenaOutcomes]: each packet of a player as a transition of the registry that its
      sender is allowed, founding, matches and weeks, every sequence of events, the tables
      in step with the registry, and the theorems.

    Names follow the source: a definition is called like the function it
    translates, a record field like the member. A translated function is one
    definition, or several when the function has parts worth a name (the loop
    of a function [f] is [f_loop] or has a name of its own, an award branch of
    [CountTheRoll] is [award], the part of [RemoveMember] on an online member is
    [dismiss]).

    ** How components interact

    A component is a state record with operations that pass it on. What an
    operation asks of the rest of the server is an argument: a record [Env] of
    functions (templates, positions, random numbers, whether an item fits into
    the bags) or a class. What it does to the rest, packets, database
    statements, script hooks and calls on other objects, is appended to a trace
    in the order of the code; statements and packets carry the values they are
    given. Errors are values: exceptions of the packet buffer, failed
    assertions, accesses outside an array and null pointers end a run with a
    fault. The group files share one world: the group, the players as far as a
    group reads or writes them, the registry, the loots and the trace. One
    group is modelled at a time; a player's reference to another group is that
    group's guid, and the member list of that group is not followed. Of arena teams the
    whole registry is modelled, with the tables: statements wait in a queue that the
    database's worker executes in its order, while queries read the tables at once. The order of
    hash maps and of sets of pointers is not fixed by the code; the model takes
    the order of insertion, and for the registry and the tables of arena teams that of
    the finite map.

    ** What the theorems show

    - Packet buffer: packed guids, vectors of serialisable fields and packed
      dates are read back as written; a read takes the bytes under the cursor
      or throws and changes nothing; [append] writes where the cursor is.
    - Text: a string of bytes and its UTF-16 form determine each other; a name is
      accepted exactly under the stated conditions, its normal form is a fixed
      point, and normalising overflows its buffer exactly for some names with
      characters above 0xffff; a time that is printed is read back.
    - Update mask: bit and block operations are the operations on sets of
      indices; the block operators fail their assertion on longer arguments and
      leave the array on shorter ones.
    - Timers: interval timers do not drift, periodic timers account for all time
      that passes, millisecond differences survive the wrap of the clock up to
      one millisecond.
    - Event queue: with events that add others for later only, and are not queued when
      they are done, [Update] terminates and starts exactly the due events in order; [KillAllEvents] aborts each event once and keeps the undeletable.
    - Reputation: through loading and any operations the four counters are the
      numbers of factions they count and no access faults; changing a standing
      clamps it and marks the entry; saved standings are loaded back; the
      packets carry each pending faction once and all 128 places.
    - Loot rolls: the tallies are the numbers of votes as long as nobody votes twice;
      a first vote is counted and the last one resolves the roll; the first of
      the highest numbers wins; the timer's loop ends and removes the loot's
      rolls; an offline winner leaves the item blocked.
    - Groups: from a new group on, through every sequence of handlers and calls, no
      subgroup exceeds five members and a raid's counters are exact; a member joins the first subgroup with room; a
      leader is succeeded by the first online member; flags, icons and the round
      robin are unique, moved and fair; disbanding releases everything; storage
      ids are never shared; resetting instances ends.

    - Items: the counting functions are totals over every storage position; the
      search for room, when no slot is named, finds places exactly if there are enough,
      never overfills
      a slot and accounts for what does not fit; storing a new item where the
      search found room adds exactly its number.
    - Dungeon finder: the role check is the search for an assignment of roles; a
      proposal is for five players who fit, and the search loses nobody; whatever
      sequence of calls is made, groups are formed only of five players with the
      right roles who have all agreed; an answer to a role check, a failed
      proposal and a vote have the outcomes the code documents, but for the
      victim of a vote and for those who vote without having been asked.

    - Instance ids: the id given out is the smallest free one unless the vector of
      bits is full, when the code writes outside it; loading fails exactly for a largest
      id that is a multiple of 32.
    - Battlegrounds: whatever happens, a player in a queue is a member of one group,
      every group has members and one place, and no operation uses a deleted group or
      battleground; leaving takes a rated group along and nobody else; outside of testing
      matches have enough players and even sides where asked for; the average waiting time is that of
      the last ten players; the scheduled updates end if there are fewer than 256.
    - Guilds: founded by a petition or repaired after loading, a guild stays consistent
      through every sequence of packets and commands, and no step faults but for texts
      longer than their buffer and a lack of guids for items; a move within the bank keeps
      the number of items of each entry and the tables in step with the bank; disbanding releases every member; a member is removed or
      moved only by one above him, by one rank; a right is tested by the bit of the rank,
      but for ranks without the common bit, which have every right; withdrawals keep to
      the daily limit, and pay out what is below 2^31; the log of events is restored from its rows.
    - Arena teams: through every sequence of packets and events a team has its captain
      among its members and no more than twice its size, as long as a founder has no team
      of the type in the table; while the database keeps up, nobody is in two teams of a
      type and the tables have the members of the registry; each packet is one of a few
      transitions that its sender is allowed, and one who is not the captain leaves all
      but himself in place; a decided match is counted and saved; without a winner one team's members
      keep their numbers; the week gives a player the most points of his teams; the load
      registers the teams whose captain has a row.
    - Channels: at most one member is the owner, and a moderator then; nobody but a GM
      takes a channel from its owner, and only moderators change it; who gets in, who
      is removed, who hears what is said; a stored channel is restored; whatever
      the players do, no deleted channel is used.

    ** Bounds and fuel

    Recursion is structural but for some loops with fuel. The event loops stop
    because an event they start is erased; [next_free] finds a free storage id
    within the length of the vector plus one; [EndRoll_loop] removes a roll each
    round, so one round more than there are rolls is enough; [reset_loop] starts
    over after each bind it erases, so the square of the number of binds plus one
    is enough; [check_roles] takes a role from a player each time, so the total of
    the roles plus one is enough; [match_queued] and [FindGroups_loop] take a guid
    from their list each round, so its length is enough; the search for a free
    instance id looks at each bit once. The balancing of a running battleground takes a
    group from a pool each round, so the groups of both pools are the measure;
    [RemovePlayer] goes on with one player fewer in the queue, so their number plus one
    is enough; the events of a queue add none to it, so a run starts each at most
    once; the loop over scheduled updates has its length as fuel when it is below
    256. A guild that disbands loses a member each round, so their number is enough. Each of these bounds is part of a theorem that the operation returns. The byte
    buffer reads a string until its terminator or the end of the bytes, which bounds its
    loop by the bytes left.

    ** What is not modelled

    Spells, auras, maps, movement, AI and content scripts act on the whole mutable
    world and are left out, as are the network, database, logging and start-up
    code. Of the modelled files the following is left out: floating-point fields
    and the list and map operators of the packet buffer, [getMSTime], which reads
    the system clock, [Group::CanJoinBattlegroundQueue] and
    [Group::InCombatToInstance], and the group handlers for inviting, kicking,
    pings, random rolls and member statistics. Of the items of a
    player equipping, the bank, buyback and trade are left out, and what a spell
    cast on obtaining an item does to the player. Of the dungeon finder the new
    group after a proposal is an event, and teleports, rewards and the locks
    computed from a player's level and items are left out. Of the battlegrounds the
    course of one is left out (players entering, scores, rewards, the end but for the teams of a rated match), and so are
    the handlers of [game/Handlers/BattleGroundHandler.cpp], which parse packets and
    call the queues. Of guilds the moves of items between the bank and the bags of a player are
    left out, an item of a tab is what its packet shows and whether it is soulbound, and
    the loops of [GuildMgr] over the tables are left out; one guild is modelled at a time, as with groups.
    Of arena teams the deletion of an account and the change of faction, which take a
    captain out as well, and the cost and the item of a charter are left out; a match is
    given by its two teams, their matchmaker ratings and its players; the functions [exp]
    and [log] on [float] are parameters. Candidates for
    extending the library are instance saves and the auction house. *)
From stdpp Require Export prelude gmap.
From Stdlib Require Export ZArith Lia.

(** Scope of the development's own notations. *)
Declare Scope tc_scope.
Delimit Scope tc_scope with tc.
#[global] Open Scope tc_scope.
#[global] Open Scope Z_scope.

(** ** Machine integers

    An unsigned C++ integer of [w] bits is the [Z] in [[0, 2^w)]; a conversion
    to it reduces modulo [2^w]. A signed one is the [Z] in
    [[-2^(w-1), 2^(w-1))], and a conversion wraps around (two's complement). *)
Definition wrap (w z : Z) : Z := z mod 2 ^ w.
Definition swrap (w z : Z) : Z := (z + 2 ^ (w - 1)) mod 2 ^ w - 2 ^ (w - 1).

Abbreviation u8 := (wrap 8).
Abbreviation u16 := (wrap 16).
Abbreviation u32 := (wrap 32).
Abbreviation u64 := (wrap 64).
Abbreviation s8 := (swrap 8).
Abbreviation s16 := (swrap 16).
Abbreviation s32 := (swrap 32).
Abbreviation s64 := (swrap 64).

Definition in_u (w z : Z) : Prop := 0 <= z < 2 ^ w.
Definition in_s (w z : Z) : Prop := - 2 ^ (w - 1) <= z < 2 ^ (w - 1).

#[global] Instance in_u_dec w z : Decision (in_u w z).
Proof. unfold in_u. apply _. Defined.
#[global] Instance in_s_dec w z : Decision (in_s w z).
Proof. unfold in_s. apply _. Defined.

(** [x & f] tested as a C++ condition. *)
Definition has (x f : Z) : bool := negb (Z.land x f =? 0).

Create HintDb width.
Create Rewrite HintDb width_rw.

Lemma pow2_pos w : 0 <= w -> 0 < 2 ^ w.
Proof. intros. apply Z.pow_pos_nonneg; lia. Qed.

Lemma wrap_range w z : 0 <= w -> in_u w (wrap w z).
Proof. intros. unfold in_u, wrap. apply Z.mod_pos_bound, pow2_pos; done. Qed.

Lemma wrap_id w z : in_u w z -> wrap w z = z.
Proof. apply Z.mod_small. Qed.

Lemma wrap_wrap w z : 0 <= w -> wrap w (wrap w z) = wrap w z.
Proof. intros. apply wrap_id, wrap_range; done. Qed.

Lemma wrap_add_l w a b : 0 <= w -> wrap w (wrap w a + b) = wrap w (a + b).
Proof. intros. unfold wrap. rewrite Zplus_mod_idemp_l. done. Qed.

Lemma wrap_add_r w a b : 0 <= w -> wrap w (a + wrap w b) = wrap w (a + b).
Proof. intros. unfold wrap. rewrite Zplus_mod_idemp_r. done. Qed.

Lemma swrap_id w z : 0 < w -> in_s w z -> swrap w z = z.
Proof.
  intros Hw [Hl Hu]. unfold swrap.
  assert (2 ^ w = 2 * 2 ^ (w - 1)) as E by (rewrite <- Z.pow_succ_r by lia; f_equal; lia).
  rewrite Z.mod_small; lia.
Qed.

Lemma swrap_range w z : 0 < w -> in_s w (swrap w z).
Proof.
  intros Hw. unfold in_s, swrap.
  assert (2 ^ w = 2 * 2 ^ (w - 1)) as E by (rewrite <- Z.pow_succ_r by lia; f_equal; lia).
  pose proof (Z.mod_pos_bound (z + 2 ^ (w - 1)) (2 ^ w) (pow2_pos w ltac:(lia))). lia.
Qed.

(** The conversion of a signed integer to unsigned and back is the identity. *)
Lemma swrap_wrap w z : 0 < w -> in_s w z -> swrap w (wrap w z) = z.
Proof.
  intros Hw Hz. rewrite <- (swrap_id w z) at 2 by done.
  unfold swrap, wrap. by rewrite Zplus_mod_idemp_l.
Qed.

#[export] Hint Resolve pow2_pos wrap_range swrap_range : width.
#[export] Hint Rewrite wrap_wrap wrap_add_l wrap_add_r using lia : width_rw.

(** [width] closes range goals on literals; [norm] evaluates powers of two. *)
Ltac norm_pow :=
  repeat match goal with
  | H : context [2 ^ ?w] |- _ =>
      is_ground w; let v := eval vm_compute in (2 ^ w) in change (2 ^ w) with v in H
  | |- context [2 ^ ?w] =>
      is_ground w; let v := eval vm_compute in (2 ^ w) in change (2 ^ w) with v
  end.
Ltac width := unfold in_u, in_s in *; norm_pow; simpl Z.sub in *; norm_pow; lia.

(** Arithmetic with division and modulo by literals. *)
Ltac dlia := norm_pow; Z.to_euclidean_division_equations; nia.

(** A boolean fact about bytes, decided on all of them. *)
Lemma forall_u8 (P : Z -> bool) x : forallb P (seqZ 0 256) = true -> in_u 8 x -> P x = true.
Proof.
  intros HP Hx. rewrite forallb_forall in HP. apply HP, list_elem_of_In, elem_of_seqZ. width.
Qed.

(** ** Errors: a computation returns a value or throws. *)
Inductive result (E A : Type) : Type :=
| Ok (a : A)
| Throw (e : E).
Arguments Ok {E A} a.
Arguments Throw {E A} e.

#[global] Instance result_eq_dec `{EqDecision E, EqDecision A} : EqDecision (result E A).
Proof. solve_decision. Defined.

(** Sequencing of errors. *)
Definition bind_result {E A B} (x : result E A) (f : A -> result E B) : result E B :=
  match x with Ok a => f a | Throw e => Throw e end.
Notation "'let?' x := e 'in' f" := (bind_result e (fun x => f))
  (at level 10, x pattern, e at level 100, f at level 200) : tc_scope.

(** The value has [P], the error [F]. *)
Definition ensures {E A} (F : E -> Prop) (P : A -> Prop) (m : result E A) : Prop :=
  match m with Ok a => P a | Throw e => F e end.

Lemma ensures_bind {E A B} (F : E -> Prop) (P : A -> Prop) (Q : B -> Prop) (m : result E A) (k : A -> result E B) :
  ensures F P m -> (forall a, P a -> ensures F Q (k a)) -> ensures F Q (bind_result m k).
Proof. destruct m; cbn; [auto|done]. Qed.
Lemma ensures_weaken {E A} (F : E -> Prop) (P Q : A -> Prop) (m : result E A) :
  ensures F P m -> (forall a, P a -> Q a) -> ensures F Q m.
Proof. destruct m; cbn; auto. Qed.

Lemma ensures_and {E A} (F G : E -> Prop) (P Q : A -> Prop) (m : result E A) :
  ensures F P m -> ensures G Q m -> ensures F (fun a => P a /\ Q a) m.
Proof. destruct m; cbn; auto. Qed.

(** ** Little-endian bytes *)
Fixpoint le_bytes (n : nat) (z : Z) : list Z :=
  match n with
  | O => []
  | S n => z mod 256 :: le_bytes n (z / 256)
  end.

Fixpoint le_value (l : list Z) : Z :=
  match l with
  | [] => 0
  | b :: l => b + 256 * le_value l
  end.

Lemma length_le_bytes n z : length (le_bytes n z) = n.
Proof. revert z. induction n; intros; simpl; auto. Qed.

Lemma le_bytes_range n z : Forall (in_u 8) (le_bytes n z).
Proof.
  revert z. induction n; intros z; simpl; constructor; auto.
  unfold in_u. pose proof (Z.mod_pos_bound z 256). width.
Qed.

Lemma le_value_bytes n z : le_value (le_bytes n z) = wrap (8 * Z.of_nat n) z.
Proof.
  revert z. induction n as [|n IH]; intros z; cbn [le_bytes le_value].
  - unfold wrap. by rewrite Z.mod_1_r.
  - rewrite IH. unfold wrap.
    replace (8 * Z.of_nat (S n)) with (8 + 8 * Z.of_nat n) by lia.
    rewrite Z.pow_add_r by lia. change (2 ^ 8) with 256.
    rewrite (Z.rem_mul_r z 256); lia.
Qed.

#[export] Hint Rewrite length_le_bytes : width_rw.

(** ** Lists *)

(** [splice pos src l]: memcpy of [src] over [l] at [pos]. *)
Definition splice (pos : nat) (src l : list Z) : list Z :=
  take pos l ++ src ++ drop (pos + length src) l.

Lemma length_splice pos src l :
  (pos + length src <= length l)%nat -> length (splice pos src l) = length l.
Proof. intros. unfold splice. rewrite !length_app, length_take, length_drop. lia. Qed.

Lemma splice_end src l : splice (length l) src (l ++ src) = l ++ src.
Proof.
  unfold splice. rewrite take_app_length, drop_ge, app_nil_r; [done|].
  rewrite length_app. lia.
Qed.

Lemma splice_resize x src l :
  splice (length l) src (resize (length l + length src) x l) = l ++ src.
Proof.
  unfold splice. rewrite resize_ge by lia. rewrite take_app_length.
  rewrite drop_ge, app_nil_r; [done|]. rewrite length_app, length_replicate. lia.
Qed.

Lemma filter_all {A} (P : A -> Prop) `{forall x, Decision (P x)} (l : list A) : (forall x, x ∈ l -> P x) -> filter P l = l.
Proof.
  induction l as [|x l IH]; intros HP; [done|]. rewrite filter_cons_True by (apply HP; by left).
  f_equal. apply IH. intros y Hy. apply HP. by right.
Qed.

Lemma filter_iff_in {A} (P Q : A -> Prop) `{forall x, Decision (P x)} `{forall x, Decision (Q x)} (l : list A) :
  (forall x, x ∈ l -> P x <-> Q x) -> filter P l = filter Q l.
Proof.
  induction l as [|x l IH]; intros E; [done|]. rewrite !filter_cons, IH by (intros y Hy; apply E; by right).
  destruct (E x ltac:(by left)). repeat case_decide; tauto.
Qed.

(** ** Bits *)
Lemma has_bit x i : 0 <= i -> has x (Z.shiftl 1 i) = Z.testbit x i.
Proof.
  intros Hi. unfold has. rewrite Z.shiftl_1_l.
  destruct (Z.testbit x i) eqn:E.
  - apply negb_true_iff, Z.eqb_neq. intros H0.
    assert (Z.testbit (Z.land x (2 ^ i)) i = false) as H by (rewrite H0; apply Z.bits_0).
    rewrite Z.land_spec, E, Z.pow2_bits_true in H by done. done.
  - apply negb_false_iff, Z.eqb_eq. apply Z.bits_inj'. intros j Hj.
    rewrite Z.land_spec, Z.bits_0, Z.pow2_bits_eqb by done.
    destruct (Z.eqb_spec i j); subst; rewrite ?E; [done|apply andb_false_r].
Qed.

(** Disjoint [lor] is addition: a byte placed above [8 * i] bits. *)
Lemma lor_shift_add a b i :
  0 <= i -> 0 <= a < 2 ^ i -> Z.lor a (Z.shiftl b i) = a + b * 2 ^ i.
Proof.
  intros Hi Ha. rewrite Z.shiftl_mul_pow2 by done.
  assert (Z.land a (b * 2 ^ i) = 0) as E.
  { apply Z.bits_inj'. intros j Hj. rewrite Z.land_spec, Z.bits_0.
    destruct (Z.lt_ge_cases j i).
    - rewrite Z.mul_pow2_bits_low by done. apply andb_false_r.
    - assert (a = wrap i a) as -> by (symmetry; apply wrap_id; done).
      unfold wrap. rewrite Z.mod_pow2_bits_high by lia. done. }
  pose proof (Z.add_lor_land a (b * 2 ^ i)) as H. rewrite E in H. lia.
Qed.
