(* ===== verification/ByteBuffer.v ===== *)
(** * ByteBuffer: the packet buffer of [shared/Packets/ByteBuffer.h]

    The buffer is a byte vector with a read and a write cursor; every network
    message is built with its [operator<<] and taken apart with [operator>>].
    An operation is a state-passing computation that may throw, so the buffer
    left behind by a failed read is part of the model. The class [Serial] is
    the interface between a packet's field types and the buffer: an encoder
    and a decoder of the same bytes. *)
From S2P Require Import Prelude.

Module ByteBuffer.

(** ** State and errors *)

(** [_storage] is the list of its bytes, each in [[0, 256)]. *)
Record ByteBuffer := mkByteBuffer {
  _rpos : Z;
  _wpos : Z;
  _storage : list Z
}.

(** What a buffer operation throws. The arguments of the two exceptions are in
    the order of the C++ constructors. [AssertFailed] is a failed [ASSERT];
    [MemoryFault] is an access outside the vector, undefined in C++. *)
Inductive exn :=
| ByteBufferPositionException (add : bool) (Pos Size ValueSize : Z)
| ByteBufferSourceException (Pos Size ValueSize : Z)
| AssertFailed
| MemoryFault.

#[export] Instance exn_eq_dec : EqDecision exn.
Proof. solve_decision. Defined.

(** A computation on a buffer: its outcome and the buffer afterwards. *)
Definition BB (A : Type) : Type := ByteBuffer -> result exn A * ByteBuffer.

Definition ret {A} (a : A) : BB A := fun b => (Ok a, b).
Definition throw {A} (e : exn) : BB A := fun b => (Throw e, b).
Definition bind {A B} (m : BB A) (k : A -> BB B) : BB B := fun b =>
  match m b with
  | (Ok a, b') => k a b'
  | (Throw e, b') => (Throw e, b')
  end.
Definition get : BB ByteBuffer := fun b => (Ok b, b).
Definition put_state (b : ByteBuffer) : BB unit := fun _ => (Ok tt, b).

Notation "x <- m ;; k" := (bind m (fun x => k))
  (at level 90, m at next level, right associativity) : tc_scope.
Notation "m ;;; k" := (bind m (fun _ => k))
  (at level 90, right associativity) : tc_scope.

Definition size (b : ByteBuffer) : Z := Z.of_nat (length (_storage b)).

Definition empty : ByteBuffer := mkByteBuffer 0 0 [].

(** ** Cursors and size *)

Definition clear : BB unit := fun b => (Ok tt, mkByteBuffer 0 0 []).

Definition set_rpos (p : Z) (b : ByteBuffer) : ByteBuffer :=
  mkByteBuffer p (_wpos b) (_storage b).
Definition set_wpos (p : Z) (b : ByteBuffer) : ByteBuffer :=
  mkByteBuffer (_rpos b) p (_storage b).

Definition rpos_to (p : Z) : BB Z := fun b => (Ok p, set_rpos p b).
Definition wpos_to (p : Z) : BB Z := fun b => (Ok p, set_wpos p b).
Definition rfinish : BB unit := fun b => (Ok tt, set_rpos (_wpos b) b).

Definition resize_to (newsize : Z) : BB unit := fun b =>
  let st := resize (Z.to_nat newsize) 0 (_storage b) in
  (Ok tt, mkByteBuffer 0 (Z.of_nat (length st)) st).

(** ** Raw access *)

(** [memcpy] out of the vector. *)
Definition slice (pos n : Z) (l : list Z) : option (list Z) :=
  if (0 <=? pos) && (0 <=? n) && (pos + n <=? Z.of_nat (length l))
  then Some (take (Z.to_nat n) (drop (Z.to_nat pos) l)) else None.

(** [memcpy] into the vector. *)
Definition overwrite (pos : Z) (src l : list Z) : option (list Z) :=
  if (0 <=? pos) && (pos + Z.of_nat (length src) <=? Z.of_nat (length l))
  then Some (splice (Z.to_nat pos) src l) else None.

(** [append(const uint8* src, size_t cnt)]; [None] is the null pointer and
    [cnt] bytes of [src] are copied. *)
Definition append (src : option (list Z)) (cnt : Z) : BB unit := fun b =>
  if cnt =? 0 then (Throw (ByteBufferSourceException (_wpos b) (size b) cnt), b)
  else match src with
  | None => (Throw (ByteBufferSourceException (_wpos b) (size b) cnt), b)
  | Some bytes =>
      if negb (size b <? 10000000) then (Throw AssertFailed, b)
      else
        let st := if size b <? u64 (_wpos b + cnt)
                  then resize (Z.to_nat (u64 (_wpos b + cnt))) 0 (_storage b)
                  else _storage b in
        match slice 0 cnt bytes with
        | None => (Throw MemoryFault, b)
        | Some data =>
            match overwrite (_wpos b) data st with
            | None => (Throw MemoryFault, b)
            | Some st' => (Ok tt, mkByteBuffer (_rpos b) (u64 (_wpos b + cnt)) st')
            end
        end
  end.

Definition append_bytes (l : list Z) : BB unit := append (Some l) (Z.of_nat (length l)).

(** [append(const ByteBuffer& buffer)]. *)
Definition append_buffer (buffer : ByteBuffer) : BB unit :=
  if _wpos buffer =? 0 then ret tt else append (Some (_storage buffer)) (_wpos buffer).

(** [put(size_t pos, const uint8* src, size_t cnt)]. *)
Definition put_raw (pos : Z) (src : option (list Z)) (cnt : Z) : BB unit := fun b =>
  if size b <? u64 (pos + cnt)
  then (Throw (ByteBufferPositionException true pos cnt (size b)), b)
  else match src with
  | None => (Throw (ByteBufferSourceException (_wpos b) (size b) cnt), b)
  | Some bytes =>
      match slice 0 cnt bytes with
      | None => (Throw MemoryFault, b)
      | Some data =>
          match overwrite pos data (_storage b) with
          | None => (Throw MemoryFault, b)
          | Some st' => (Ok tt, mkByteBuffer (_rpos b) (_wpos b) st')
          end
      end
  end.

(** [read<T>(size_t pos)] for an unsigned [T] of [n] bytes on a little-endian
    host, where [EndianConvert] is the identity. *)
Definition read_at (n pos : Z) (b : ByteBuffer) : result exn Z :=
  if size b <? u64 (pos + n)
  then Throw (ByteBufferPositionException false pos n (size b))
  else match slice pos n (_storage b) with
  | None => Throw MemoryFault
  | Some bytes => Ok (le_value bytes)
  end.

(** [read<T>()]: the cursor moves only when the read succeeds. *)
Definition read_u (n : Z) : BB Z := fun b =>
  match read_at n (_rpos b) b with
  | Throw e => (Throw e, b)
  | Ok v => (Ok v, set_rpos (u64 (_rpos b + n)) b)
  end.

(** The same bytes at a signed type of [n] bytes. *)
Definition read_s (n : Z) : BB Z := v <- read_u n ;; ret (swrap (8 * n) v).

Definition read_skip (skip : Z) : BB unit := fun b =>
  if size b <? u64 (_rpos b + skip)
  then (Throw (ByteBufferPositionException false (_rpos b) skip (size b)), b)
  else (Ok tt, set_rpos (u64 (_rpos b + skip)) b).

(** [read(uint8* dest, size_t len)]. *)
Definition read_raw (len : Z) : BB (list Z) := fun b =>
  if size b <? u64 (_rpos b + len)
  then (Throw (ByteBufferPositionException false (_rpos b) len (size b)), b)
  else match slice (_rpos b) len (_storage b) with
  | None => (Throw MemoryFault, b)
  | Some bytes => (Ok bytes, set_rpos (u64 (_rpos b + len)) b)
  end.

(** ** Typed access *)

(** [append<T>(value)] and [operator<<] for an integer of [n] bytes; a signed
    value is converted to its two's complement bytes. *)
Definition write_int (n : nat) (value : Z) : BB unit := append_bytes (le_bytes n value).

(** [put<T>(pos, value)]. *)
Definition put_int (n : nat) (pos value : Z) : BB unit :=
  put_raw pos (Some (le_bytes n value)) (Z.of_nat n).

(** [operator>>(bool&)]: a [char] greater than zero. *)
Definition read_bool : BB bool := c <- read_s 1 ;; ret (0 <? c).

(** [operator<<(std::string const&)]: the characters and a closing zero. *)
Definition write_string (value : list Z) : BB unit :=
  (if Z.of_nat (length value) =? 0 then ret tt else append_bytes value) ;;;
  append_bytes [0].

(** [operator>>(std::string&)]: up to a zero or the end of the buffer; each
    round reads one byte, so [size b] rounds are enough. *)
Fixpoint read_string_loop (fuel : nat) (value : list Z) : BB (list Z) := fun b =>
  match fuel with
  | O => (Ok value, b)
  | S fuel =>
      if _rpos b <? size b then
        (c <- read_u 1 ;;
         if c =? 0 then ret value else read_string_loop fuel (value ++ [c])) b
      else (Ok value, b)
  end.

Definition read_string : BB (list Z) := fun b =>
  read_string_loop (length (_storage b)) [] b.

(** ** Packed guids *)

(** The loop of [appendPackGUID]; the stack array has nine bytes, so a tenth
    write is outside it. *)
Fixpoint packGUID_loop (fuel : nat) (i guid mask : Z) (bytes : list Z)
    : option (Z * list Z) :=
  if guid =? 0 then Some (mask, bytes)
  else match fuel with
  | O => None
  | S fuel =>
      let '(mask, bytes) :=
        if has guid 0xFF
        then (u8 (Z.lor mask (u8 (Z.shiftl 1 i))), bytes ++ [u8 (Z.land guid 0xFF)])
        else (mask, bytes) in
      packGUID_loop fuel (u8 (i + 1)) (Z.shiftr guid 8) mask bytes
  end.

Definition appendPackGUID (guid : Z) : BB unit :=
  match packGUID_loop 8 0 guid 0 [] with
  | Some (mask, bytes) => append_bytes (mask :: bytes)
  | None => throw MemoryFault
  end.

(** [if (rpos() + 1 > size()) throw ...]. *)
Definition check_byte : BB unit := fun b =>
  if size b <? u64 (_rpos b + 1)
  then (Throw (ByteBufferPositionException false (_rpos b) 1 (size b)), b)
  else (Ok tt, b).

Fixpoint readPackGUID_loop (idx : list Z) (guidmark guid : Z) : BB Z :=
  match idx with
  | [] => ret guid
  | i :: idx =>
      if has guidmark (Z.shiftl 1 i) then
        check_byte ;;;
        bit <- read_u 1 ;;
        readPackGUID_loop idx guidmark (Z.lor guid (u64 (Z.shiftl bit (i * 8))))
      else readPackGUID_loop idx guidmark guid
  end.

Definition readPackGUID : BB Z :=
  check_byte ;;;
  guidmark <- read_u 1 ;;
  readPackGUID_loop [0; 1; 2; 3; 4; 5; 6; 7] guidmark 0.

(** ** Packed times: the fields of [struct tm] that go into a packet *)
Record tm := mkTm {
  tm_min : Z; tm_hour : Z; tm_mday : Z; tm_mon : Z; tm_year : Z; tm_wday : Z
}.

(** The word [AppendPackedTime] builds from [localtime]'s result. *)
Definition pack_tm (lt : tm) : Z :=
  u32 (Z.lor (Z.lor (Z.lor (Z.lor (Z.lor
    (Z.shiftl (tm_year lt - 100) 24) (Z.shiftl (tm_mon lt) 20))
    (Z.shiftl (tm_mday lt - 1) 14)) (Z.shiftl (tm_wday lt) 11))
    (Z.shiftl (tm_hour lt) 6)) (tm_min lt)).

(** The fields [ReadPackedTime] hands to [mktime]; the week day is not read
    back and stays zero. *)
Definition unpack_tm (packedDate : Z) : tm := mkTm
  (Z.land packedDate 0x3F)
  (Z.land (Z.shiftr packedDate 6) 0x1F)
  (Z.land (Z.shiftr packedDate 14) 0x3F + 1)
  (Z.land (Z.shiftr packedDate 20) 0xF)
  (Z.land (Z.shiftr packedDate 24) 0x1F + 100)
  0.

(** [localtime], [mktime] and [timezone] belong to the C library and the host. *)
Section packed_time.
Variable localtime : Z -> tm.
Variable mktime : tm -> Z.
Variable timezone : Z.

Definition AppendPackedTime (time : Z) : BB unit := write_int 4 (pack_tm (localtime time)).
Definition ReadPackedTime : BB Z :=
  packedDate <- read_u 4 ;; ret (u32 (mktime (unpack_tm packedDate) + timezone)).
End packed_time.

(** ** Contracts of writers and readers

    [writes m l]: at the end of a buffer with room, [m] adds exactly the bytes
    [l]. [reads m l a]: with the bytes [l] at the read cursor, [m] returns [a]
    and moves the cursor past them. [limit] is the size [append] asserts. *)
Definition limit : Z := 10000000.

Definition appended (b : ByteBuffer) (l : list Z) : ByteBuffer :=
  mkByteBuffer (_rpos b) (size b + Z.of_nat (length l)) (_storage b ++ l).

Definition writes (m : BB unit) (l : list Z) : Prop :=
  forall b, _wpos b = size b -> size b + Z.of_nat (length l) < limit ->
  m b = (Ok tt, appended b l).

Definition reads {A} (m : BB A) (l : list Z) (a : A) : Prop :=
  forall pre rest w, Z.of_nat (length (pre ++ l ++ rest)) < limit ->
  m (mkByteBuffer (Z.of_nat (length pre)) w (pre ++ l ++ rest))
  = (Ok a, mkByteBuffer (Z.of_nat (length (pre ++ l))) w (pre ++ l ++ rest)).

(** ** Basic lemmas *)

Lemma size_appended b l : size (appended b l) = size b + Z.of_nat (length l).
Proof. unfold size, appended; simpl. rewrite length_app. lia. Qed.

Lemma appended_app b l1 l2 : appended (appended b l1) l2 = appended b (l1 ++ l2).
Proof.
  unfold appended at 1 3; simpl. rewrite size_appended, length_app, <- app_assoc.
  f_equal; lia.
Qed.

Lemma appended_nil b : _wpos b = size b -> appended b [] = b.
Proof.
  intros E. destruct b; unfold appended, size in *; simpl in *. rewrite app_nil_r.
  f_equal; lia.
Qed.

Lemma slice_all l : slice 0 (Z.of_nat (length l)) l = Some l.
Proof.
  unfold slice. replace (_ && _) with true.
  - rewrite Nat2Z.id. change (Z.to_nat 0) with O. rewrite drop_0, take_ge; done.
  - symmetry. rewrite !andb_true_iff, !Z.leb_le. lia.
Qed.

Lemma slice_mid pre l rest :
  slice (Z.of_nat (length pre)) (Z.of_nat (length l)) (pre ++ l ++ rest) = Some l.
Proof.
  unfold slice. replace (_ && _) with true.
  - rewrite !Nat2Z.id, drop_app_length, take_app_length. done.
  - symmetry. rewrite !andb_true_iff, !Z.leb_le, !length_app. lia.
Qed.

Lemma bind_ok {A B} (m : BB A) (k : A -> BB B) b b' a :
  m b = (Ok a, b') -> bind m k b = k a b'.
Proof. unfold bind. by intros ->. Qed.

(** A bind that ends well went through a first step that ended well. *)
Lemma bind_inv {A B} (m : BB A) (k : A -> BB B) b b' r :
  bind m k b = (Ok r, b') -> exists a b1, m b = (Ok a, b1) /\ k a b1 = (Ok r, b').
Proof. unfold bind. destruct (m b) as [[a|e] b1]; [eauto|done]. Qed.

Lemma append_bytes_writes l : l <> [] -> writes (append_bytes l) l.
Proof.
  intros Hne b Hw Hlim. unfold append_bytes, append.
  assert (0 < Z.of_nat (length l)) by (destruct l; simpl; [done|lia]).
  unfold limit in Hlim. assert (0 <= size b) by (unfold size; lia).
  rewrite slice_all, Hw, (wrap_id 64) by width.
  rewrite (proj2 (Z.eqb_neq _ 0)), (proj2 (Z.ltb_lt (size b) 10000000)) by lia.
  rewrite (proj2 (Z.ltb_lt (size b) _)) by lia. simpl.
  unfold overwrite, size in *. rewrite length_resize.
  replace (_ && _) with true by (symmetry; rewrite andb_true_iff, !Z.leb_le; lia).
  unfold appended, size.
  replace (Z.to_nat (Z.of_nat (length (_storage b)) + Z.of_nat (length l)))
    with (length (_storage b) + length l)%nat by lia.
  rewrite Nat2Z.id, splice_resize. done.
Qed.

Lemma writes_bind m1 m2 l1 l2 :
  writes m1 l1 -> writes m2 l2 -> writes (m1 ;;; m2) (l1 ++ l2).
Proof.
  intros H1 H2 b Hw Hl. rewrite length_app in Hl.
  rewrite (bind_ok _ _ _ _ _ (H1 b Hw ltac:(lia))).
  rewrite H2, appended_app; [done| |]; rewrite size_appended; [done|lia].
Qed.

Lemma writes_ret : writes (ret tt) [].
Proof. intros b Hw _. by rewrite appended_nil. Qed.

Lemma reads_ret {A} (a : A) : reads (ret a) [] a.
Proof. intros pre rest w _. by rewrite app_nil_r. Qed.

Lemma reads_bind {A B} (m : BB A) (k : A -> BB B) l1 l2 a r :
  reads m l1 a -> reads (k a) l2 r -> reads (bind m k) (l1 ++ l2) r.
Proof.
  intros H1 H2 pre rest w Hl. rewrite <- app_assoc in *.
  rewrite (bind_ok _ _ _ _ _ (H1 pre (l2 ++ rest) w Hl)).
  rewrite !app_assoc in *. rewrite <- (app_assoc (pre ++ l1)).
  rewrite H2; [by rewrite !app_assoc|]. by rewrite !app_assoc.
Qed.

Lemma reads_bind' {A B} (m : BB A) (k : A -> BB B) l l1 l2 a r :
  l = l1 ++ l2 -> reads m l1 a -> reads (k a) l2 r -> reads (bind m k) l r.
Proof. intros ->. apply reads_bind. Qed.

Lemma reads_then_ret {A B} (m : BB A) l a (f : A -> B) :
  reads m l a -> reads (x <- m ;; ret (f x)) l (f a).
Proof. intros H. eapply reads_bind'; [symmetry; apply app_nil_r|done|apply reads_ret]. Qed.

Lemma read_u_reads l : reads (read_u (Z.of_nat (length l))) l (le_value l).
Proof.
  intros pre rest w Hl. unfold read_u, read_at, size, limit in *; simpl.
  rewrite !length_app in Hl. rewrite (wrap_id 64) by width.
  rewrite (proj2 (Z.ltb_ge _ _)) by (rewrite !length_app; lia).
  rewrite slice_mid. unfold set_rpos; simpl. rewrite !length_app.
  do 2 f_equal. lia.
Qed.

Lemma write_int_writes n v : (0 < n)%nat -> writes (write_int n v) (le_bytes n v).
Proof. intros Hn. apply append_bytes_writes. destruct n; [lia|done]. Qed.

Lemma read_int_reads n v : reads (read_u (Z.of_nat n)) (le_bytes n v) (wrap (8 * Z.of_nat n) v).
Proof.
  pose proof (read_u_reads (le_bytes n v)) as H.
  by rewrite length_le_bytes, le_value_bytes in H.
Qed.

Create HintDb bb.
#[export] Hint Resolve append_bytes_writes writes_ret reads_ret write_int_writes read_int_reads : bb.

(** ** The interface between field types and the buffer *)

Class Serial (A : Type) := {
  enc : A -> BB unit;
  dec : BB A;
  bytes_of : A -> list Z;
  valid : A -> Prop;
  enc_writes a : valid a -> writes (enc a) (bytes_of a);
  dec_reads a : valid a -> reads dec (bytes_of a) a
}.

(** Integer types by width and signedness. *)
Record uint (n : nat) := UInt { uval : Z }.
Arguments UInt {n} _.
Arguments uval {n} _.
Record sint (n : nat) := SInt { sval : Z }.
Arguments SInt {n} _.
Arguments sval {n} _.

#[export] Program Instance Serial_uint (n : nat) : Serial (uint n) := {
  enc a := write_int n (uval a);
  dec := v <- read_u (Z.of_nat n) ;; ret (UInt v);
  bytes_of a := le_bytes n (uval a);
  valid a := (0 < n)%nat /\ in_u (8 * Z.of_nat n) (uval a)
}.
Next Obligation. intros n a [Hn Ha]. by apply write_int_writes. Qed.
Next Obligation.
  intros n [v] [Hn Ha]; simpl in *. rewrite <- (wrap_id _ v Ha) at 2.
  apply (reads_then_ret _ _ _ UInt), read_int_reads.
Qed.

#[export] Program Instance Serial_sint (n : nat) : Serial (sint n) := {
  enc a := write_int n (sval a);
  dec := v <- read_s (Z.of_nat n) ;; ret (SInt v);
  bytes_of a := le_bytes n (sval a);
  valid a := (0 < n)%nat /\ in_s (8 * Z.of_nat n) (sval a)
}.
Next Obligation. intros n a [Hn Ha]. by apply write_int_writes. Qed.
Next Obligation.
  intros n [v] [Hn Ha]; simpl in *. apply (reads_then_ret _ _ _ SInt).
  rewrite <- (swrap_wrap (8 * Z.of_nat n) v) at 2 by (done || lia).
  apply (reads_then_ret _ _ _ (swrap _)), read_int_reads.
Qed.

(** Strings: bytes other than zero. *)
Definition str_ok (s : list Z) : Prop := Forall (fun c => 0 < c < 256) s.

Lemma write_string_writes s : writes (write_string s) (s ++ [0]).
Proof.
  unfold write_string. apply writes_bind; [|by apply append_bytes_writes].
  destruct s; simpl; [apply writes_ret|]. by apply append_bytes_writes.
Qed.

Lemma read_byte_reads c : reads (read_u 1) [c] c.
Proof.
  pose proof (read_u_reads [c]) as H. cbn -[Z.mul] in H.
  by rewrite Z.mul_0_r, Z.add_0_r in H.
Qed.

Lemma read_string_loop_reads s fuel acc :
  str_ok s -> (length s < fuel)%nat ->
  reads (read_string_loop fuel acc) (s ++ [0]) (acc ++ s).
Proof.
  intros Hs. revert fuel acc. induction Hs as [|c s Hc Hs IH]; intros fuel acc Hf.
  - destruct fuel as [|fuel]; [simpl in Hf; lia|]. intros pre rest w Hl.
    cbn [read_string_loop]. unfold size; simpl _storage; simpl _rpos.
    rewrite (proj2 (Z.ltb_lt _ _)) by (rewrite !length_app; simpl; lia).
    rewrite app_nil_r.
    apply (reads_bind' _ _ [0] [0] [] 0 acc eq_refl (read_byte_reads 0)); [|done].
    apply reads_ret.
  - destruct fuel as [|fuel]; [simpl in Hf; lia|]. intros pre rest w Hl.
    cbn [read_string_loop]. unfold size; simpl _storage; simpl _rpos.
    rewrite (proj2 (Z.ltb_lt _ _)) by (rewrite !length_app; simpl; lia).
    apply (reads_bind' _ _ ((c :: s) ++ [0]) [c] (s ++ [0]) c _ eq_refl (read_byte_reads c)); [|done].
    rewrite (proj2 (Z.eqb_neq c 0)) by lia.
    replace (acc ++ c :: s) with ((acc ++ [c]) ++ s) by by rewrite <- app_assoc.
    apply IH. simpl in Hf. lia.
Qed.

Lemma read_string_reads s : str_ok s -> reads read_string (s ++ [0]) s.
Proof.
  intros Hs pre rest w Hl. unfold read_string.
  apply (read_string_loop_reads s _ []); [done| |done].
  simpl. rewrite !length_app. simpl. lia.
Qed.

Record cstring := CString { chars : list Z }.

#[export] Program Instance Serial_string : Serial cstring := {
  enc a := write_string (chars a);
  dec := s <- read_string ;; ret (CString s);
  bytes_of a := chars a ++ [0];
  valid a := str_ok (chars a)
}.
Next Obligation. intros a _. apply write_string_writes. Qed.
Next Obligation.
  intros [s] Hs. by apply (reads_then_ret _ _ _ CString), read_string_reads.
Qed.

(** Two fields after each other, as in [b << k << v]. *)
#[export] Program Instance Serial_pair `{Serial A, Serial B} : Serial (A * B) := {
  enc a := enc a.1 ;;; enc a.2;
  dec := x <- dec ;; y <- dec ;; ret (x, y);
  bytes_of a := bytes_of a.1 ++ bytes_of a.2;
  valid a := valid a.1 /\ valid a.2
}.
Next Obligation. intros A SA B SB a [Ha Hb]. by apply writes_bind; apply enc_writes. Qed.
Next Obligation.
  intros A SA B SB [x y] [Ha Hb]; simpl in *.
  eapply reads_bind; [by apply dec_reads|].
  by apply (reads_then_ret _ _ _ (pair x)), dec_reads.
Qed.

(** [operator<<(ByteBuffer&, std::vector<T>)]: the [uint32] length and the
    elements. *)
Fixpoint write_items {A} `{Serial A} (v : list A) : BB unit :=
  match v with
  | [] => ret tt
  | a :: v => enc a ;;; write_items v
  end.

Definition write_vector {A} `{Serial A} (v : list A) : BB unit :=
  write_int 4 (Z.of_nat (length v)) ;;; write_items v.

(** The loop [while (vsize--)] of [operator>>(ByteBuffer&, std::vector<T>&)]. *)
Fixpoint read_items {A} `{Serial A} (vsize : nat) (v : list A) : BB (list A) :=
  match vsize with
  | O => ret v
  | S vsize => t <- dec ;; read_items vsize (v ++ [t])
  end.

Definition read_vector {A} `{Serial A} : BB (list A) :=
  vsize <- read_u 4 ;; read_items (Z.to_nat vsize) [].

Definition items_bytes {A} `{Serial A} (v : list A) : list Z := concat (bytes_of <$> v).

Lemma write_items_writes `{Serial A} (v : list A) :
  Forall valid v -> writes (write_items v) (items_bytes v).
Proof.
  induction 1; simpl; [apply writes_ret|].
  apply writes_bind; [by apply enc_writes|done].
Qed.

Lemma read_items_reads `{Serial A} (v acc : list A) :
  Forall valid v -> reads (read_items (length v) acc) (items_bytes v) (acc ++ v).
Proof.
  intros Hv. revert acc. induction Hv as [|a v Ha Hv IH]; intros acc; simpl.
  - rewrite app_nil_r. apply reads_ret.
  - eapply reads_bind; [by apply dec_reads|].
    replace (acc ++ a :: v) with ((acc ++ [a]) ++ v) by by rewrite <- app_assoc.
    apply IH.
Qed.

#[export] Program Instance Serial_vector `{Serial A} : Serial (list A) := {
  enc := write_vector;
  dec := read_vector;
  bytes_of v := le_bytes 4 (Z.of_nat (length v)) ++ items_bytes v;
  valid v := Forall valid v /\ Z.of_nat (length v) < 2 ^ 32
}.
Next Obligation.
  intros A SA v [Hv Hl]. apply writes_bind.
  - apply write_int_writes. lia.
  - by apply write_items_writes.
Qed.
Next Obligation.
  intros A SA v [Hv Hl]. unfold read_vector. eapply reads_bind.
  - apply (read_int_reads 4).
  - rewrite wrap_id by width. rewrite Nat2Z.id. by apply (read_items_reads v []).
Qed.

(** ** Packed guids: the mask marks the non-zero bytes, which follow in order *)

Definition nonzero (c : Z) : bool := negb (c =? 0).
Definition packed_bytes (k : nat) (guid : Z) : list Z := List.filter nonzero (le_bytes k guid).

Lemma land_ff guid : Z.land guid 0xFF = guid mod 256.
Proof. change 0xFF with (Z.ones 8). by rewrite Z.land_ones. Qed.

Lemma testbit_u8_lor_bit mask i j :
  0 <= i < 8 -> 0 <= mask < 256 -> 0 <= j ->
  Z.testbit (u8 (Z.lor mask (u8 (Z.shiftl 1 i)))) j = Z.testbit mask j || (i =? j).
Proof.
  intros Hi Hm Hj. rewrite Z.shiftl_1_l.
  assert (2 ^ i < 2 ^ 8) by (apply Z.pow_lt_mono_r; lia).
  assert (0 < 2 ^ i) by (apply Z.pow_pos_nonneg; lia).
  rewrite (wrap_id 8 (2 ^ i)) by (unfold in_u; lia). unfold wrap.
  destruct (Z.lt_ge_cases j 8).
  - rewrite Z.mod_pow2_bits_low, Z.lor_spec, Z.pow2_bits_eqb by lia. done.
  - rewrite Z.mod_pow2_bits_high by lia.
    rewrite (proj2 (Z.eqb_neq i j)), orb_false_r by lia. symmetry.
    rewrite <- (Z.mod_small mask (2 ^ 8)) by (norm_pow; lia).
    apply Z.mod_pow2_bits_high. lia.
Qed.

Lemma packed_bytes_0 k : packed_bytes k 0 = [].
Proof. unfold packed_bytes. induction k as [|k IH]; [done|]. simpl in *. apply IH. Qed.

(** Byte [j] of a guid, counted from [i]. *)
Definition byte_from (i guid j : Z) : Z := guid / 256 ^ (j - i) mod 256.

Lemma byte_from_0 i j : byte_from i 0 j = 0.
Proof. unfold byte_from. by rewrite Zdiv_0_l. Qed.

Lemma byte_from_here i guid : byte_from i guid i = guid mod 256.
Proof. unfold byte_from. by rewrite Z.sub_diag, Z.pow_0_r, Z.div_1_r. Qed.

Lemma byte_from_next i guid j : i < j -> byte_from (i + 1) (guid / 256) j = byte_from i guid j.
Proof.
  intros Hj. unfold byte_from. rewrite Z.div_div; [|lia|apply Z.pow_pos_nonneg; lia].
  rewrite <- Z.pow_succ_r by lia. do 2 f_equal. f_equal. lia.
Qed.

Lemma in_u_div256 k guid :
  in_u (8 * Z.of_nat (S k)) guid -> in_u (8 * Z.of_nat k) (guid / 256).
Proof.
  unfold in_u. replace (8 * Z.of_nat (S k)) with (8 + 8 * Z.of_nat k) by lia.
  rewrite Z.pow_add_r by lia. change (2 ^ 8) with 256. intros [H0 H1]. split.
  - by apply Z.div_pos.
  - apply Z.div_lt_upper_bound; lia.
Qed.

Lemma packGUID_loop_spec k : forall fuel i guid mask bytes,
  (k <= fuel)%nat -> in_u (8 * Z.of_nat k) guid -> 0 <= i -> i + Z.of_nat k <= 8 ->
  0 <= mask < 256 ->
  exists mask', packGUID_loop fuel i guid mask bytes = Some (mask', bytes ++ packed_bytes k guid)
    /\ 0 <= mask' < 256
    /\ forall j, 0 <= j -> Z.testbit mask' j =
         Z.testbit mask j || (i <=? j) && nonzero (byte_from i guid j).
Proof.
  induction k as [|k IH]; intros fuel i guid mask bytes Hf Hg Hi Hk Hm;
    destruct (decide (guid = 0)) as [->|Hne].
  1, 3: exists mask; rewrite packed_bytes_0, app_nil_r; split_and!;
    [by destruct fuel|lia|lia|];
    intros j Hj; rewrite byte_from_0, andb_false_r; by rewrite orb_false_r.
  - unfold in_u in Hg; simpl in Hg; lia.
  - destruct fuel as [|fuel]; [lia|]. cbn [packGUID_loop].
    rewrite (proj2 (Z.eqb_neq guid 0)) by done.
    rewrite (wrap_id 8 (i + 1)) by width.
    unfold has at 1. rewrite land_ff, (wrap_id 8 (guid mod 256))
      by (pose proof (Z.mod_pos_bound guid 256); width).
    rewrite Z.shiftr_div_pow2 by lia. change (2 ^ 8) with 256.
    change (packed_bytes (S k) guid) with
      (List.filter nonzero (guid mod 256 :: le_bytes k (guid / 256))).
    cbn [List.filter]. fold (nonzero (guid mod 256)).
    set (mask1 := if nonzero (guid mod 256) then u8 (Z.lor mask (u8 (Z.shiftl 1 i))) else mask).
    assert (0 <= mask1 < 256) as Hm1.
    { unfold mask1. destruct (nonzero _); [|done].
      pose proof (wrap_range 8 (Z.lor mask (u8 (Z.shiftl 1 i))) ltac:(lia)). width. }
    destruct (IH fuel (i + 1) (guid / 256) mask1
      (bytes ++ if nonzero (guid mod 256) then [guid mod 256] else []))
      as (mask' & HE & Hr & Hb); [lia|by apply in_u_div256|lia|lia|done|].
    exists mask'. split_and!; [|lia|lia|].
    + rewrite <- app_assoc in HE. unfold mask1, packed_bytes in HE.
      destruct (nonzero (guid mod 256)); simpl app in HE; [done|].
      by rewrite app_nil_r in HE.
    + intros j Hj. rewrite Hb by done. unfold mask1.
      assert (Z.testbit (if nonzero (guid mod 256) then u8 (Z.lor mask (u8 (Z.shiftl 1 i)))
                         else mask) j
              = Z.testbit mask j || nonzero (guid mod 256) && (i =? j)) as ->.
      { destruct (nonzero _); [apply testbit_u8_lor_bit; lia|by rewrite orb_false_r]. }
      rewrite <- orb_assoc. f_equal.
      destruct (Z.lt_trichotomy i j) as [Hij|[<-|Hij]].
      * rewrite byte_from_next by done.
        rewrite (proj2 (Z.eqb_neq i j)), !(proj2 (Z.leb_le _ j)) by lia.
        by rewrite andb_false_r.
      * rewrite byte_from_here, Z.eqb_refl, Z.leb_refl, (proj2 (Z.leb_gt _ i)) by lia.
        by rewrite andb_true_r, orb_false_r.
      * rewrite (proj2 (Z.eqb_neq i j)), !(proj2 (Z.leb_gt _ j)) by lia.
        by rewrite andb_false_r.
Qed.

(** The indices a decoder still has to look at. *)
Definition indices_from (i : Z) (k : nat) : list Z := (fun n => i + Z.of_nat n) <$> seq 0 k.

Lemma indices_from_S i k : indices_from i (S k) = i :: indices_from (i + 1) k.
Proof.
  unfold indices_from. cbn [seq fmap list_fmap]. f_equal; [lia|].
  rewrite <- seq_shift, <- list_fmap_compose. apply list_fmap_ext. intros. simpl. lia.
Qed.

Lemma check_byte_ok pre c rest w :
  Z.of_nat (length (pre ++ c :: rest)) < limit ->
  check_byte (mkByteBuffer (Z.of_nat (length pre)) w (pre ++ c :: rest))
  = (Ok tt, mkByteBuffer (Z.of_nat (length pre)) w (pre ++ c :: rest)).
Proof.
  intros Hl. unfold check_byte, size, limit in *. simpl _rpos. simpl _storage.
  rewrite length_app in Hl. simpl in Hl.
  rewrite (wrap_id 64) by width.
  rewrite (proj2 (Z.ltb_ge _ _)); [done|]. rewrite length_app. simpl. lia.
Qed.

(** Reading a checked byte and going on. *)
Lemma reads_checked_byte {A} (k : Z -> BB A) c l r :
  reads (k c) l r -> reads (check_byte ;;; x <- read_u 1 ;; k x) (c :: l) r.
Proof.
  intros Hk pre rest w Hl.
  rewrite (bind_ok _ _ _ _ _ (check_byte_ok pre c (l ++ rest) w Hl)).
  by apply (reads_bind' _ _ (c :: l) [c] l c r eq_refl (read_byte_reads c)).
Qed.

Lemma readPackGUID_loop_reads k : forall i guid mark acc,
  in_u (8 * Z.of_nat k) guid -> 0 <= i -> i + Z.of_nat k <= 8 -> 0 <= acc < 256 ^ i ->
  (forall j, i <= j < i + Z.of_nat k -> Z.testbit mark j = nonzero (byte_from i guid j)) ->
  reads (readPackGUID_loop (indices_from i k) mark acc) (packed_bytes k guid)
        (acc + guid * 256 ^ i).
Proof.
  induction k as [|k IH]; intros i guid mark acc Hg Hi Hk Hacc Hmark.
  - unfold in_u in Hg; simpl in Hg. assert (guid = 0) as -> by lia.
    rewrite Z.add_0_r. apply reads_ret.
  - rewrite indices_from_S. cbn [readPackGUID_loop].
    rewrite has_bit, (Hmark i), byte_from_here by lia.
    change (packed_bytes (S k) guid) with
      (List.filter nonzero (guid mod 256 :: le_bytes k (guid / 256))). cbn [List.filter].
    pose proof (Z.mod_pos_bound guid 256 ltac:(lia)) as Hb.
    pose proof (Z.div_mod guid 256 ltac:(lia)) as Hdm.
    assert (256 ^ (i + 1) = 256 * 256 ^ i) as Hp by (rewrite <- Z.pow_succ_r by lia; f_equal; lia).
    assert (0 < 256 ^ i) as Hpos by (apply Z.pow_pos_nonneg; lia).
    assert (Hmark' : forall j, i + 1 <= j < i + 1 + Z.of_nat k ->
      Z.testbit mark j = nonzero (byte_from (i + 1) (guid / 256) j)).
    { intros j Hj. rewrite byte_from_next by lia. apply Hmark. lia. }
    destruct (nonzero (guid mod 256)) eqn:Hnz.
    + apply reads_checked_byte.
      assert (Hsh : Z.lor acc (u64 (Z.shiftl (guid mod 256) (i * 8)))
                    = acc + guid mod 256 * 256 ^ i).
      { assert (256 ^ i = 2 ^ (i * 8)) as E8.
        { change 256 with (2 ^ 8). rewrite <- Z.pow_mul_r by lia. f_equal. lia. }
        rewrite wrap_id.
        - rewrite lor_shift_add, E8; [done|lia|]. by rewrite <- E8.
        - rewrite Z.shiftl_mul_pow2, <- E8 by lia. unfold in_u. split; [nia|].
          change (2 ^ 64) with (256 ^ 8).
          apply Z.lt_le_trans with (256 ^ (i + 1)); [nia|].
          apply Z.pow_le_mono_r; lia. }
      rewrite Hsh. replace (acc + guid * 256 ^ i) with
        (acc + guid mod 256 * 256 ^ i + guid / 256 * 256 ^ (i + 1)) by nia.
      apply IH; [by apply in_u_div256|lia|lia|nia|done].
    + apply negb_false_iff, Z.eqb_eq in Hnz.
      replace (acc + guid * 256 ^ i) with (acc + guid / 256 * 256 ^ (i + 1)) by nia.
      apply IH; [by apply in_u_div256|lia|lia|nia|done].
Qed.

Record packed_guid := PackedGuid { guid_val : Z }.

Definition packed_guid_bytes (guid : Z) : list Z :=
  match packGUID_loop 8 0 guid 0 [] with
  | Some (mask, bytes) => mask :: bytes
  | None => []
  end.

#[export] Program Instance Serial_packed_guid : Serial packed_guid := {
  enc a := appendPackGUID (guid_val a);
  dec := g <- readPackGUID ;; ret (PackedGuid g);
  bytes_of a := packed_guid_bytes (guid_val a);
  valid a := in_u 64 (guid_val a)
}.
Next Obligation.
  intros [g] Hg; simpl in *. unfold appendPackGUID, packed_guid_bytes.
  destruct (packGUID_loop_spec 8 8 0 g 0 [] ltac:(lia) Hg ltac:(lia) ltac:(lia) ltac:(lia))
    as (mask & -> & _ & _).
  by apply append_bytes_writes.
Qed.
Next Obligation.
  intros [g] Hg; simpl in *. apply (reads_then_ret _ _ _ PackedGuid). unfold packed_guid_bytes.
  destruct (packGUID_loop_spec 8 8 0 g 0 [] ltac:(lia) Hg ltac:(lia) ltac:(lia) ltac:(lia))
    as (mask & -> & _ & Hbits).
  apply reads_checked_byte.
  replace g with (0 + g * 256 ^ 0) at 2 by lia.
  apply (readPackGUID_loop_reads 8 0 g mask 0 Hg ltac:(lia) ltac:(lia) ltac:(lia)).
  intros j Hj. rewrite Hbits by lia. rewrite Z.bits_0, (proj2 (Z.leb_le 0 j)) by lia. done.
Qed.

(** ** Properties *)

Lemma roundtrip_at_end {A} (m : BB unit) (n : BB A) l a b :
  writes m l -> reads n l a -> _wpos b = size b -> size b + Z.of_nat (length l) < limit ->
  exists b', m b = (Ok tt, b') /\
             n (set_rpos (size b) b') = (Ok a, set_rpos (size b') b').
Proof.
  intros Hm Hn Hw Hl. exists (appended b l). split; [by apply Hm|].
  pose proof (Hn (_storage b) [] (_wpos (appended b l))) as H.
  unfold set_rpos, appended, size in *; simpl in *. rewrite app_nil_r in H.
  rewrite length_app in *. rewrite H; [done|lia].
Qed.

(** C4: a guid packed at the end of a buffer by [appendPackGUID] is read back
    by [readPackGUID] from there, for each 64-bit guid, and the read cursor
    ends exactly at the end of the packed bytes. *)
Theorem appendPackGUID_readPackGUID guid b :
  in_u 64 guid -> _wpos b = size b -> size b + 9 < limit ->
  exists b', appendPackGUID guid b = (Ok tt, b') /\
    readPackGUID (set_rpos (size b) b') = (Ok guid, set_rpos (size b') b').
Proof.
  intros Hg Hw Hl.
  assert (Z.of_nat (length (packed_guid_bytes guid)) <= 9) as Hlen.
  { unfold packed_guid_bytes.
    destruct (packGUID_loop_spec 8 8 0 guid 0 [] ltac:(lia) Hg ltac:(lia) ltac:(lia) ltac:(lia))
      as (mask & -> & _ & _). cbn [length app].
    pose proof (List.filter_length_le nonzero (le_bytes 8 guid)) as Hf.
    unfold packed_bytes. rewrite length_le_bytes in Hf. lia. }
  pose proof (enc_writes (PackedGuid guid) : in_u 64 guid -> _) as Hen.
  pose proof (dec_reads (PackedGuid guid) : in_u 64 guid -> _) as Hde.
  destruct (roundtrip_at_end (enc (PackedGuid guid)) dec (packed_guid_bytes guid) (PackedGuid guid) b)
    as (b' & He & Hd);
    [by apply Hen|by apply Hde|done|lia|].
  exists b'. split; [exact He|].
  apply bind_inv in Hd as (g & b1 & Hr & E). unfold ret in E. by simplify_eq.
Qed.

Lemma appendPackGUID_readPackGUID_witness :
  exists b', appendPackGUID 0xF130000C00000042 empty = (Ok tt, b') /\
    readPackGUID (set_rpos 0 b') = (Ok 0xF130000C00000042, set_rpos (size b') b').
Proof.
  apply (appendPackGUID_readPackGUID 0xF130000C00000042 empty);
    [split; vm_compute; congruence|reflexivity|reflexivity].
Defined.

(** A [std::vector] of any serialisable field type written at the end of a
    buffer is read back whole and in order, leaving the cursor at its end. The
    field types are those of [Serial]: integers of every width and sign,
    strings without zero bytes, packed guids, pairs and vectors of these. *)
Theorem write_vector_read_vector `{Serial A} (v : list A) b :
  Forall valid v -> Z.of_nat (length v) < 2 ^ 32 ->
  _wpos b = size b -> size b + Z.of_nat (length (bytes_of v)) < limit ->
  exists b', write_vector v b = (Ok tt, b') /\
    read_vector (set_rpos (size b) b') = (Ok v, set_rpos (size b') b').
Proof.
  intros Hv Hn Hw Hl.
  pose proof (enc_writes v : Forall valid v /\ _ -> _) as Hen.
  pose proof (dec_reads v : Forall valid v /\ _ -> _) as Hde.
  exact (roundtrip_at_end (enc v) dec (bytes_of v) v b
           (Hen (conj Hv Hn)) (Hde (conj Hv Hn)) Hw Hl).
Qed.

(** A list of (name, guid, level, balance) rows. *)
Definition sample_rows : list (cstring * (packed_guid * (uint 1 * sint 4))) :=
  [(CString [65; 66], (PackedGuid 0x500, (UInt 80, SInt (-7))));
   (CString [], (PackedGuid 0, (UInt 255, SInt 2147483647)))].

Lemma write_vector_read_vector_witness :
  exists b', write_vector sample_rows empty = (Ok tt, b') /\
    read_vector (set_rpos (size empty) b') = (Ok sample_rows, set_rpos (size b') b').
Proof.
  apply (write_vector_read_vector sample_rows empty).
  - repeat constructor; simpl; unfold in_u, in_s; simpl; try lia; vm_compute; congruence.
  - reflexivity.
  - reflexivity.
  - reflexivity.
Defined.

(** A read of [n] bytes on a buffer whose cursor does not wrap [size_t]
    either takes the [n] bytes under the cursor and moves it past them, or
    throws a position exception and leaves the buffer as it was; it never
    touches memory outside the vector. The exception carries the requested
    width in its [Size] field and the buffer size in its [ValueSize] field. *)
Theorem read_u_total n b :
  0 <= n -> 0 <= _rpos b -> _rpos b + n < 2 ^ 64 ->
  read_u n b =
    if _rpos b + n <=? size b
    then (Ok (le_value (take (Z.to_nat n) (drop (Z.to_nat (_rpos b)) (_storage b)))),
          set_rpos (_rpos b + n) b)
    else (Throw (ByteBufferPositionException false (_rpos b) n (size b)), b).
Proof.
  intros Hn H0 Hw. unfold read_u, read_at. rewrite (wrap_id 64) by (unfold in_u; lia).
  destruct (Z.leb_spec (_rpos b + n) (size b)) as [Hle|Hgt].
  - rewrite (proj2 (Z.ltb_ge _ _)) by lia. unfold slice, size in *.
    replace (_ && _) with true; [done|].
    symmetry. rewrite !andb_true_iff, !Z.leb_le. lia.
  - by rewrite (proj2 (Z.ltb_lt _ _)) by lia.
Qed.

Lemma read_u_total_witness :
  read_u 4 (mkByteBuffer 1 3 [1; 2; 3]) =
    (Throw (ByteBufferPositionException false 1 4 3), mkByteBuffer 1 3 [1; 2; 3]).
Proof. rewrite (read_u_total 4 (mkByteBuffer 1 3 [1; 2; 3])); [reflexivity|simpl; lia..]. Defined.

(** [append] at a write cursor inside or at the end of the vector puts the
    bytes there, keeps every byte outside the written range, grows the vector
    only as far as needed and advances the write cursor. *)
Theorem append_bytes_at l b :
  l <> [] -> 0 <= _wpos b <= size b -> size b < limit -> Z.of_nat (length l) < limit ->
  exists st, append_bytes l b
      = (Ok tt, mkByteBuffer (_rpos b) (_wpos b + Z.of_nat (length l)) st)
    /\ Z.of_nat (length st) = Z.max (size b) (_wpos b + Z.of_nat (length l))
    /\ st = take (Z.to_nat (_wpos b)) (_storage b) ++ l ++
            drop (Z.to_nat (_wpos b) + length l) (_storage b).
Proof.
  intros Hne Hw Hs Hl. unfold append_bytes, append, limit in *.
  assert (0 < Z.of_nat (length l)) by (destruct l; simpl; [done|lia]).
  rewrite slice_all, (wrap_id 64) by width.
  rewrite (proj2 (Z.eqb_neq _ 0)), (proj2 (Z.ltb_lt (size b) 10000000)) by lia.
  simpl negb. cbn iota. unfold overwrite, size in *.
  set (st := _storage b) in *. set (w := Z.to_nat (_wpos b)).
  destruct (Z.ltb_spec (Z.of_nat (length st)) (_wpos b + Z.of_nat (length l))) as [Hlt|Hge].
  - rewrite length_resize.
    replace (_ && _) with true by (symmetry; rewrite andb_true_iff, !Z.leb_le; lia).
    assert (Hsp : splice w l (resize (Z.to_nat (_wpos b + Z.of_nat (length l))) 0 st)
                  = take w st ++ l ++ drop (w + length l) st).
    { unfold splice, w. rewrite take_resize_le, resize_le by lia. f_equal. f_equal.
      rewrite !drop_ge; [done|lia|rewrite length_resize; lia]. }
    exists (take w st ++ l ++ drop (w + length l) st). split_and!; [by rewrite <- Hsp| |done].
    rewrite !length_app, length_take, length_drop. lia.
  - replace (_ && _) with true by (symmetry; rewrite andb_true_iff, !Z.leb_le; lia).
    exists (take w st ++ l ++ drop (w + length l) st). split_and!; [done| |done].
    rewrite !length_app, length_take, length_drop. lia.
Qed.

Lemma append_bytes_at_witness :
  exists st, append_bytes [7; 8] (mkByteBuffer 0 1 [1; 2]) = (Ok tt, mkByteBuffer 0 3 st)
    /\ Z.of_nat (length st) = 3 /\ st = [1; 7; 8].
Proof.
  apply (append_bytes_at [7; 8] (mkByteBuffer 0 1 [1; 2]));
    [done|vm_compute; split; congruence|reflexivity|reflexivity].
Defined.

(** The date fields packed by [AppendPackedTime] come back from
    [ReadPackedTime]'s unpacking, for each calendar date of the years 2000 to
    2031; the week day is not carried. *)
Theorem unpack_pack_tm lt :
  0 <= tm_min lt < 60 -> 0 <= tm_hour lt < 24 -> 1 <= tm_mday lt <= 31 ->
  0 <= tm_mon lt < 12 -> 100 <= tm_year lt < 132 -> 0 <= tm_wday lt < 7 ->
  unpack_tm (pack_tm lt) =
    mkTm (tm_min lt) (tm_hour lt) (tm_mday lt) (tm_mon lt) (tm_year lt) 0.
Proof.
  destruct lt as [mi h d mo y wd]; simpl. intros Hmi Hh Hd Hmo Hy Hwd.
  assert (pack_tm (mkTm mi h d mo y wd)
    = mi + 64 * h + 2048 * wd + 16384 * (d - 1) + 1048576 * mo + 16777216 * (y - 100)) as ->.
  { unfold pack_tm; simpl.
    assert (forall a b i, 0 <= i -> 0 <= a < 2 ^ i ->
      Z.lor (Z.shiftl b i) a = a + b * 2 ^ i) as Hlor.
    { intros. rewrite Z.lor_comm. by apply lor_shift_add. }
    rewrite <- !Z.lor_assoc.
    rewrite (Hlor mi h 6), (Hlor (mi + h * 2 ^ 6) wd 11),
      (Hlor _ (d - 1) 14), (Hlor _ mo 20), (Hlor _ (y - 100) 24), wrap_id by width.
    width. }
  unfold unpack_tm. change 0x3F with (Z.ones 6). change 0x1F with (Z.ones 5).
  change 0xF with (Z.ones 4). rewrite !Z.land_ones, !Z.shiftr_div_pow2 by lia.
  f_equal; dlia.
Qed.

Lemma unpack_pack_tm_witness :
  unpack_tm (pack_tm (mkTm 59 23 31 11 131 6)) = mkTm 59 23 31 11 131 0.
Proof. apply (unpack_pack_tm (mkTm 59 23 31 11 131 6)); simpl; lia. Defined.

End ByteBuffer.
