(* ===== verification/UpdateMask.v ===== *)
(** * UpdateMask: the change bitmap of [Entities/Object/Updates/UpdateMask.h]

    One bit per update field, stored as an array of 32-bit blocks that the bit
    operations address byte by byte (little-endian) and the set operations
    block by block. The abstract value of a mask is the finite set of its
    indices; the theorems show that each operation implements the set
    operation it is named after, and when the block loops leave the array. *)
From S2P Require Import Prelude.

Module UpdateMask.

(** [mUpdateMask] is [None] before the first [SetCount] (the null pointer). *)
Record UpdateMask := mkUpdateMask {
  mCount : Z;
  mBlocks : Z;
  mUpdateMask : option (list Z)
}.

(** An access outside the array and a failed [ASSERT]. *)
Inductive fault := OutOfBounds | AssertFailed.

Abbreviation res := (result fault).

Definition new_mask : UpdateMask := mkUpdateMask 0 0 None.

(** ** Bytes of the block array *)

(** The byte at bit offset [s] of a block. *)
Definition get8 (w s : Z) : Z := Z.land (Z.shiftr w s) 0xff.
Definition put8 (w s v : Z) : Z :=
  Z.lor (Z.land w (Z.lxor 0xffffffff (Z.shiftl 0xff s))) (Z.shiftl v s).

(** Element [k] of [mUpdateMask] seen as an array of [uint8]: byte [k mod 4]
    of block [k / 4]. *)
Definition load8 (m : UpdateMask) (k : Z) : res Z :=
  match mUpdateMask m with
  | None => Throw OutOfBounds
  | Some bs =>
      match bs !! Z.to_nat (k / 4) with
      | Some w => Ok (get8 w (8 * (k mod 4)))
      | None => Throw OutOfBounds
      end
  end.

Definition store8 (m : UpdateMask) (k v : Z) : res UpdateMask :=
  match mUpdateMask m with
  | None => Throw OutOfBounds
  | Some bs =>
      match bs !! Z.to_nat (k / 4) with
      | Some w => Ok (mkUpdateMask (mCount m) (mBlocks m)
                        (Some (<[Z.to_nat (k / 4) := put8 w (8 * (k mod 4)) v]> bs)))
      | None => Throw OutOfBounds
      end
  end.

(** ** Operations *)

Definition SetBit (m : UpdateMask) (index : Z) : res UpdateMask :=
  match load8 m (Z.shiftr index 3) with
  | Ok b => store8 m (Z.shiftr index 3) (u8 (Z.lor b (Z.shiftl 1 (Z.land index 0x7))))
  | Throw e => Throw e
  end.

Definition UnsetBit (m : UpdateMask) (index : Z) : res UpdateMask :=
  match load8 m (Z.shiftr index 3) with
  | Ok b => store8 m (Z.shiftr index 3)
              (u8 (Z.land b (Z.lxor 0xff (Z.shiftl 1 (Z.land index 0x7)))))
  | Throw e => Throw e
  end.

Definition GetBit (m : UpdateMask) (index : Z) : res bool :=
  match load8 m (Z.shiftr index 3) with
  | Ok b => Ok (has b (Z.shiftl 1 (Z.land index 0x7)))
  | Throw e => Throw e
  end.

Definition GetBlockCount (m : UpdateMask) : Z := mBlocks m.
Definition GetLength (m : UpdateMask) : Z := u32 (Z.shiftl (mBlocks m) 2).
Definition GetCount (m : UpdateMask) : Z := mCount m.

Definition SetCount (valuesCount : Z) (m : UpdateMask) : UpdateMask :=
  let blocks := u32 (valuesCount + 31) / 32 in
  mkUpdateMask valuesCount blocks (Some (replicate (Z.to_nat blocks) 0)).

Definition Clear (m : UpdateMask) : UpdateMask :=
  match mUpdateMask m with
  | None => m
  | Some bs => mkUpdateMask (mCount m) (mBlocks m) (Some ((fun _ => 0) <$> bs))
  end.

(** [memcpy(mUpdateMask, mask.mUpdateMask, mBlocks << 2)] after [SetCount]; a
    self-assignment keeps the mask. Copying no bytes from a null pointer is
    the only use of a mask without array. *)
Definition assign (m mask : UpdateMask) : res UpdateMask :=
  let m' := SetCount (mCount mask) m in
  let n := Z.to_nat (mBlocks m') in
  match mUpdateMask mask with
  | None => if bool_decide (n = O) then Ok m' else Throw OutOfBounds
  | Some bs =>
      if bool_decide (n <= length bs)%nat
      then Ok (mkUpdateMask (mCount m') (mBlocks m') (Some (take n bs)))
      else Throw OutOfBounds
  end.

(** The loop [for (uint32 i = 0; i < mBlocks; ++i) a[i] = f(a[i], b[i])]. *)
Fixpoint block_loop (f : Z -> Z -> Z) (n : nat) (a b : list Z) : res (list Z) :=
  match n with
  | O => Ok a
  | S n =>
      match a, b with
      | x :: a, y :: b =>
          match block_loop f n a b with
          | Ok r => Ok (f x y :: r)
          | Throw e => Throw e
          end
      | _, _ => Throw OutOfBounds
      end
  end.

Definition block_op (f : Z -> Z -> Z) (m mask : UpdateMask) : res UpdateMask :=
  if negb (mCount mask <=? mCount m) then Throw AssertFailed
  else match block_loop f (Z.to_nat (mBlocks m))
               (default [] (mUpdateMask m)) (default [] (mUpdateMask mask)) with
  | Ok r => Ok (mkUpdateMask (mCount m) (mBlocks m) (match mUpdateMask m with None => None | Some _ => Some r end))
  | Throw e => Throw e
  end.

(** [operator&=] and [operator|=]. *)
Definition and_assign : UpdateMask -> UpdateMask -> res UpdateMask := block_op Z.land.
Definition or_assign : UpdateMask -> UpdateMask -> res UpdateMask := block_op Z.lor.

(** [operator&] and [operator|]: a copy of the left mask, then the assignment. *)
Definition mask_binop (op : UpdateMask -> UpdateMask -> res UpdateMask) (m mask : UpdateMask)
    : res UpdateMask :=
  if negb (mCount mask <=? mCount m) then Throw AssertFailed
  else match assign new_mask m with
  | Ok newmask => op newmask mask
  | Throw e => Throw e
  end.
Definition mask_and := mask_binop and_assign.
Definition mask_or := mask_binop or_assign.

(** ** Abstract value: the set of indices whose bit is set *)

Definition bit (m : UpdateMask) (i : Z) : bool :=
  match default [] (mUpdateMask m) !! Z.to_nat (i / 32) with
  | Some w => Z.testbit w (i mod 32)
  | None => false
  end.

Definition indices (m : UpdateMask) : gset Z :=
  list_to_set (filter (fun i => bit m i = true)
                 (seqZ 0 (32 * Z.of_nat (length (default [] (mUpdateMask m)))))).

(** The array has [mBlocks] blocks of 32 bits, enough for [mCount] fields. *)
Definition wf (m : UpdateMask) : Prop :=
  mBlocks m = (mCount m + 31) / 32 /\ 0 <= mCount m < 2 ^ 32 - 31 /\
  match mUpdateMask m with
  | None => mCount m = 0
  | Some bs => Z.of_nat (length bs) = mBlocks m /\ Forall (in_u 32) bs
  end.

#[export] Instance wf_dec m : Decision (wf m).
Proof. unfold wf. destruct (mUpdateMask m); apply _. Defined.

Definition capacity (m : UpdateMask) : Z := 32 * Z.of_nat (length (default [] (mUpdateMask m))).

(** ** Bits of a block *)

Lemma testbit_get8 w s j :
  0 <= s -> 0 <= j -> Z.testbit (get8 w s) j = Z.testbit w (j + s) && (j <? 8).
Proof.
  intros Hs Hj. unfold get8. change 0xff with (Z.ones 8).
  by rewrite Z.land_spec, Z.shiftr_spec, Z.testbit_ones_nonneg by lia.
Qed.

Lemma testbit_put8 w s v j :
  0 <= s -> 0 <= j ->
  Z.testbit (put8 w s v) j =
    Z.testbit w j && xorb (j <? 32) ((s <=? j) && (j <? s + 8)) || Z.testbit v (j - s).
Proof.
  intros Hs Hj. unfold put8. change 0xff with (Z.ones 8). change 0xffffffff with (Z.ones 32).
  rewrite Z.lor_spec, Z.land_spec, Z.lxor_spec, !Z.shiftl_spec, Z.testbit_ones_nonneg by lia.
  do 3 f_equal. destruct (Z.leb_spec s j); simpl.
  - rewrite Z.testbit_ones_nonneg by lia. by destruct (Z.ltb_spec (j - s) 8), (Z.ltb_spec j (s + 8)); try lia.
  - by rewrite Z.testbit_neg_r by lia.
Qed.

Lemma testbit_out w n j : 0 <= n <= j -> in_u n w -> Z.testbit w j = false.
Proof.
  intros Hn Hw. rewrite <- (Z.mod_small w (2 ^ n)) by done. apply Z.mod_pow2_bits_high. lia.
Qed.

(** The byte-wise [f], applied to byte [s] of [w], is the bit-wise [g] on [w]. *)
Lemma put8_update w s v (g : Z -> bool -> bool) :
  0 <= s -> s + 8 <= 32 -> in_u 32 w ->
  (forall j, 0 <= j -> Z.testbit v j = g (j + s) (Z.testbit w (j + s)) && (j <? 8)) ->
  (forall j b, ~ (s <= j < s + 8) -> g j b = b) ->
  forall j, 0 <= j -> Z.testbit (put8 w s v) j = g j (Z.testbit w j).
Proof.
  intros Hs H32 Hw Hv Hg j Hj. rewrite testbit_put8 by lia.
  destruct (decide (s <= j < s + 8)) as [Hin|Hout].
  - rewrite Hv by lia. replace (j - s + s) with j by lia.
    rewrite (proj2 (Z.ltb_lt j 32)), (proj2 (Z.ltb_lt (j - s) 8)),
      (proj2 (Z.leb_le s j)), (proj2 (Z.ltb_lt j (s + 8))) by lia.
    simpl. by rewrite andb_false_r, andb_true_r.
  - rewrite Hg by done. assert (Z.testbit v (j - s) = false) as ->.
    { destruct (decide (j < s)); [apply Z.testbit_neg_r; lia|].
      rewrite Hv by lia. rewrite (proj2 (Z.ltb_ge (j - s) 8)) by lia. apply andb_false_r. }
    rewrite orb_false_r. destruct (Z.ltb_spec j 32).
    + replace ((s <=? j) && (j <? s + 8)) with false; [apply andb_true_r|].
      symmetry. rewrite andb_false_iff, Z.leb_gt, Z.ltb_ge. lia.
    + by rewrite (testbit_out w 32) by (lia || done).
Qed.

Lemma put8_range w s v : in_u 32 w -> in_u 8 v -> 0 <= s -> s + 8 <= 32 -> in_u 32 (put8 w s v).
Proof.
  intros Hw Hv Hs H32.
  assert (0 <= put8 w s v) as H0.
  { unfold put8. apply Z.lor_nonneg. split; [apply Z.land_nonneg; left|apply Z.shiftl_nonneg];
      unfold in_u in *; lia. }
  split; [done|]. destruct (decide (put8 w s v = 0)) as [->|Hn]; [done|].
  apply Z.log2_lt_pow2; [lia|]. apply Z.nle_gt. intros Hl.
  pose proof (Z.bit_log2 (put8 w s v) ltac:(lia)) as Hb.
  rewrite testbit_put8, (testbit_out w 32), (testbit_out v 8) in Hb by (done || lia). done.
Qed.

Lemma lor_bit_byte w s b j :
  0 <= s -> 0 <= b < 8 -> 0 <= j ->
  Z.testbit (u8 (Z.lor (get8 w s) (Z.shiftl 1 b))) j
  = (bool_decide (j + s = s + b) || Z.testbit w (j + s)) && (j <? 8).
Proof.
  intros Hs Hb Hj. unfold wrap. destruct (Z.ltb_spec j 8).
  - rewrite Z.mod_pow2_bits_low, Z.lor_spec, testbit_get8, Z.shiftl_1_l, Z.pow2_bits_eqb by lia.
    rewrite (proj2 (Z.ltb_lt j 8)), !andb_true_r, orb_comm by lia. f_equal.
    destruct (Z.eqb_spec b j); [rewrite bool_decide_true|rewrite bool_decide_false]; done || lia.
  - rewrite Z.mod_pow2_bits_high by lia. by rewrite andb_false_r.
Qed.

Lemma ldiff_bit_byte w s b j :
  0 <= s -> 0 <= b < 8 -> 0 <= j ->
  Z.testbit (u8 (Z.land (get8 w s) (Z.lxor 0xff (Z.shiftl 1 b)))) j
  = (negb (bool_decide (j + s = s + b)) && Z.testbit w (j + s)) && (j <? 8).
Proof.
  intros Hs Hb Hj. unfold wrap. destruct (Z.ltb_spec j 8).
  - change 0xff with (Z.ones 8).
    rewrite Z.mod_pow2_bits_low, Z.land_spec, Z.lxor_spec, testbit_get8, Z.shiftl_1_l,
      Z.pow2_bits_eqb, Z.testbit_ones_nonneg by lia.
    rewrite (proj2 (Z.ltb_lt j 8)), !andb_true_r, andb_comm by lia. f_equal.
    destruct (Z.eqb_spec b j); [rewrite bool_decide_true|rewrite bool_decide_false]; done || lia.
  - rewrite Z.mod_pow2_bits_high by lia. by rewrite andb_false_r.
Qed.

(** ** Bits of a mask *)

Lemma index_parts i :
  0 <= i -> Z.shiftr i 3 / 4 = i / 32 /\ 0 <= 8 * (Z.shiftr i 3 mod 4) <= 24 /\
  Z.land i 0x7 = i mod 8 /\ 8 * (Z.shiftr i 3 mod 4) + i mod 8 = i mod 32.
Proof.
  intros Hi. change 0x7 with (Z.ones 3). rewrite Z.land_ones, Z.shiftr_div_pow2 by lia.
  change (2 ^ 3) with 8. split_and!; dlia.
Qed.

Lemma capacity_lookup m i :
  0 <= i < capacity m -> exists bs w, mUpdateMask m = Some bs /\ bs !! Z.to_nat (i / 32) = Some w.
Proof.
  unfold capacity. intros Hi. destruct (mUpdateMask m) as [bs|]; simpl in *; [|lia].
  destruct (lookup_lt_is_Some_2 bs (Z.to_nat (i / 32))) as [w Hw]; [|eauto].
  apply Nat2Z.inj_lt. rewrite Z2Nat.id by (apply Z.div_pos; lia).
  apply Z.div_lt_upper_bound; lia.
Qed.

(** A byte update at an index inside the array changes exactly its bit. *)
Lemma store8_bit m i v (g : bool -> bool) :
  wf m -> 0 <= i < capacity m -> in_u 8 v ->
  (forall w, default [] (mUpdateMask m) !! Z.to_nat (i / 32) = Some w ->
   forall j, 0 <= j -> let s := 8 * (Z.shiftr i 3 mod 4) in
     Z.testbit v j = (if bool_decide (j + s = i mod 32) then g (Z.testbit w (j + s))
                      else Z.testbit w (j + s)) && (j <? 8)) ->
  exists m', store8 m (Z.shiftr i 3) v = Ok m' /\ wf m' /\ capacity m' = capacity m /\
    forall j, 0 <= j < capacity m -> bit m' j = if decide (i = j) then g (bit m i) else bit m j.
Proof.
  intros Hwf Hi Hv8 Hv. destruct (capacity_lookup m i Hi) as (bs & w & Hm & Hw).
  destruct (index_parts i ltac:(lia)) as (Hk & Hs & _ & Hsb).
  destruct Hwf as (HB & HC & Hbs). rewrite Hm in Hbs. destruct Hbs as [Hlen Hall].
  assert (in_u 32 w) as Hw32 by (eapply Forall_lookup_1; eauto).
  unfold store8. rewrite Hm, Hk, Hw. eexists. split; [done|]. split_and!.
  - unfold wf. cbn [mBlocks mCount mUpdateMask]. rewrite length_insert. split_and!; [done|lia|lia|done|].
    apply Forall_insert; [done|]. apply put8_range; done || lia.
  - unfold capacity. rewrite Hm. simpl. by rewrite length_insert.
  - intros j Hj. unfold bit; simpl. rewrite Hm; simpl. rewrite Hm in Hv; simpl in Hv.
    destruct (decide (Z.to_nat (i / 32) = Z.to_nat (j / 32))) as [Heq|Hne].
    + assert (i / 32 = j / 32) as Hq by (apply Z2Nat.inj; try apply Z.div_pos; lia).
      rewrite <- Heq, list_lookup_insert_eq, Hw by (by eapply lookup_lt_Some).
      pose proof (Z.mod_pos_bound j 32 ltac:(lia)).
      rewrite (put8_update w _ v (fun j b => if bool_decide (j = i mod 32) then g b else b));
        [|lia|lia|done|by apply Hv| |lia].
      * pose proof (Z.div_mod i 32). pose proof (Z.div_mod j 32).
        case_bool_decide; destruct (decide (i = j)); subst; done || (exfalso; lia).
      * intros j' b Hj'. rewrite bool_decide_false; [done|].
        pose proof (Z.mod_pos_bound i 8). lia.
    + rewrite list_lookup_insert_ne by done. destruct (decide (i = j)); [by subst|done].
Qed.

Lemma load8_ok m i :
  0 <= i < capacity m -> exists w, default [] (mUpdateMask m) !! Z.to_nat (i / 32) = Some w /\
    load8 m (Z.shiftr i 3) = Ok (get8 w (8 * (Z.shiftr i 3 mod 4))).
Proof.
  intros Hi. destruct (capacity_lookup m i Hi) as (bs & w & Hm & Hw). exists w.
  destruct (index_parts i ltac:(lia)) as (Hk & _). unfold load8. rewrite Hm, Hk, Hw. done.
Qed.

Lemma SetBit_bit m i :
  wf m -> 0 <= i < capacity m ->
  exists m', SetBit m i = Ok m' /\ wf m' /\ capacity m' = capacity m /\
    forall j, 0 <= j < capacity m -> bit m' j = if decide (i = j) then true else bit m j.
Proof.
  intros Hwf Hi. destruct (load8_ok m i Hi) as (w & Hw & Hl).
  destruct (index_parts i ltac:(lia)) as (Hk & Hs & Hb & Hsb).
  unfold SetBit. rewrite Hl, Hb. apply (store8_bit m i _ (fun _ => true)); [done|done|by apply wrap_range|].
  intros w' Hw' j Hj. simplify_eq. cbv zeta. pose proof (Z.mod_pos_bound i 8 ltac:(lia)).
  rewrite lor_bit_byte, Hsb by lia. by case_bool_decide.
Qed.

Lemma UnsetBit_bit m i :
  wf m -> 0 <= i < capacity m ->
  exists m', UnsetBit m i = Ok m' /\ wf m' /\ capacity m' = capacity m /\
    forall j, 0 <= j < capacity m -> bit m' j = if decide (i = j) then false else bit m j.
Proof.
  intros Hwf Hi. destruct (load8_ok m i Hi) as (w & Hw & Hl).
  destruct (index_parts i ltac:(lia)) as (Hk & Hs & Hb & Hsb).
  unfold UnsetBit. rewrite Hl, Hb. apply (store8_bit m i _ (fun _ => false)); [done|done|by apply wrap_range|].
  intros w' Hw' j Hj. simplify_eq. cbv zeta. pose proof (Z.mod_pos_bound i 8 ltac:(lia)).
  rewrite ldiff_bit_byte, Hsb by lia. by case_bool_decide.
Qed.

Lemma GetBit_bit m i : 0 <= i < capacity m -> GetBit m i = Ok (bit m i).
Proof.
  intros Hi. destruct (load8_ok m i Hi) as (w & Hw & Hl).
  destruct (index_parts i ltac:(lia)) as (Hk & Hs & Hb & Hsb).
  pose proof (Z.mod_pos_bound i 8 ltac:(lia)).
  unfold GetBit. rewrite Hl, Hb, has_bit, testbit_get8 by lia.
  rewrite (proj2 (Z.ltb_lt _ 8)), andb_true_r, Z.add_comm, Hsb by lia.
  unfold bit. by rewrite Hw.
Qed.

(** ** The abstract set *)

Lemma elem_of_indices m i : i ∈ indices m <-> 0 <= i < capacity m /\ bit m i = true.
Proof.
  unfold indices, capacity. rewrite elem_of_list_to_set, list_elem_of_filter, elem_of_seqZ.
  intuition lia.
Qed.

(** Two masks of one capacity, bit by bit. *)
Lemma indices_ext m m' (P : Z -> Prop) (X : gset Z) :
  capacity m' = capacity m ->
  (forall j, 0 <= j < capacity m -> (bit m' j = true <-> j ∈ X)) ->
  (forall j, j ∈ X -> 0 <= j < capacity m) -> indices m' = X.
Proof.
  intros Hc Hb HX. apply set_eq. intros j. rewrite elem_of_indices, Hc.
  split; [intros [Hj Hj']; by apply Hb|intros Hj; split; [by apply HX|by apply Hb; auto]].
Qed.

(** ** Block loops *)

Lemma block_loop_ok f a b :
  length a = length b -> block_loop f (length a) a b = Ok (zip_with f a b).
Proof.
  revert b. induction a as [|x a IH]; intros [|y b] Hl; simpl in *; try done.
  rewrite IH by lia. done.
Qed.

Lemma block_loop_short f a b :
  (length b < length a)%nat -> block_loop f (length a) a b = Throw OutOfBounds.
Proof.
  revert b. induction a as [|x a IH]; intros [|y b] Hl; simpl in *; try done; try lia.
  rewrite IH by lia. done.
Qed.

Lemma wf_blocks m : wf m -> Z.of_nat (length (default [] (mUpdateMask m))) = mBlocks m.
Proof.
  intros (HB & HC & Hbs). destruct (mUpdateMask m) as [bs|]; [by destruct Hbs|].
  rewrite HB, Hbs. done.
Qed.

Lemma wf_all m : wf m -> Forall (in_u 32) (default [] (mUpdateMask m)).
Proof. intros (_ & _ & Hbs). destruct (mUpdateMask m); [by destruct Hbs|by constructor]. Qed.

(** What a block operation does, on each of its three outcomes. *)
Lemma block_op_cases f m mask :
  wf m -> wf mask ->
  block_op f m mask =
    if bool_decide (mCount m < mCount mask) then Throw AssertFailed
    else if bool_decide (mBlocks mask < mBlocks m) then Throw OutOfBounds
    else Ok (mkUpdateMask (mCount m) (mBlocks m)
      (match mUpdateMask m with
       | None => None
       | Some bs => Some (zip_with f bs (default [] (mUpdateMask mask)))
       end)).
Proof.
  intros Hm Hk. unfold block_op. pose proof (wf_blocks m Hm) as HA.
  pose proof (wf_blocks mask Hk) as HK.
  destruct (Z.leb_spec (mCount mask) (mCount m)) as [Hle|Hgt]; simpl.
  2: by rewrite bool_decide_true by lia.
  rewrite bool_decide_false by lia.
  replace (Z.to_nat (mBlocks m)) with (length (default [] (mUpdateMask m))) by lia.
  case_bool_decide.
  - rewrite block_loop_short by lia. done.
  - assert (mBlocks mask <= mBlocks m) as Hb.
    { destruct Hm as (-> & _), Hk as (-> & _). apply Z.div_le_mono; lia. }
    rewrite block_loop_ok by lia. by destruct (mUpdateMask m).
Qed.

(** The result of a bit-wise block operation on equally long masks. *)
Lemma block_op_bit f (g : bool -> bool -> bool) m mask bs :
  wf m -> wf mask -> mBlocks mask = mBlocks m -> mUpdateMask m = Some bs ->
  (forall x y j, Z.testbit (f x y) j = g (Z.testbit x j) (Z.testbit y j)) ->
  let m' := mkUpdateMask (mCount m) (mBlocks m)
              (Some (zip_with f bs (default [] (mUpdateMask mask)))) in
  capacity m' = capacity m /\
  forall j, 0 <= j < capacity m -> bit m' j = g (bit m j) (bit mask j).
Proof.
  intros Hm Hk Hb Hbs Hf m'. pose proof (wf_blocks m Hm) as HA.
  pose proof (wf_blocks mask Hk) as HK. rewrite Hbs in HA; simpl in HA.
  split.
  - unfold capacity, m'; simpl. rewrite length_zip_with, Hbs. simpl. lia.
  - intros j Hj. unfold bit, m'; simpl. rewrite Hbs; simpl. rewrite lookup_zip_with.
    assert (Z.to_nat (j / 32) < length bs)%nat as Hlt.
    { unfold capacity in Hj. rewrite Hbs in Hj; simpl in Hj. apply Nat2Z.inj_lt.
      rewrite Z2Nat.id by (apply Z.div_pos; lia). apply Z.div_lt_upper_bound; lia. }
    destruct (lookup_lt_is_Some_2 bs _ Hlt) as [x Hx].
    destruct (lookup_lt_is_Some_2 (default [] (mUpdateMask mask)) (Z.to_nat (j / 32)))
      as [y Hy]; [lia|]. rewrite Hx, Hy. simpl. apply Hf.
Qed.

(** ** Properties *)

(** C37: setting, clearing and reading a bit inside the array are insertion,
    removal and membership on the set of indices; both writes keep the mask
    well formed. *)
Theorem bit_operations_refine_set m i :
  wf m -> 0 <= i < capacity m ->
  exists ms mu, SetBit m i = Ok ms /\ UnsetBit m i = Ok mu /\
    wf ms /\ wf mu /\
    indices ms = {[i]} ∪ indices m /\ indices mu = indices m ∖ {[i]} /\
    GetBit m i = Ok (bool_decide (i ∈ indices m)).
Proof.
  intros Hwf Hi.
  destruct (SetBit_bit m i Hwf Hi) as (ms & Hs & Hws & Hcs & Hbs).
  destruct (UnsetBit_bit m i Hwf Hi) as (mu & Hu & Hwu & Hcu & Hbu).
  exists ms, mu. split_and!; [done|done|done|done| | |].
  - apply (indices_ext m ms (fun _ => True)); [done| |].
    + intros j Hj. rewrite (Hbs j Hj), elem_of_union, elem_of_singleton, elem_of_indices.
      destruct (decide (i = j)); naive_solver.
    + intros j. rewrite elem_of_union, elem_of_singleton, elem_of_indices. naive_solver.
  - apply (indices_ext m mu (fun _ => True)); [done| |].
    + intros j Hj. rewrite (Hbu j Hj), elem_of_difference, elem_of_singleton, elem_of_indices.
      destruct (decide (i = j)); naive_solver.
    + intros j. rewrite elem_of_difference, elem_of_indices. naive_solver.
  - rewrite (GetBit_bit m i Hi). f_equal. symmetry.
    destruct (bit m i) eqn:E;
      [apply bool_decide_true|apply bool_decide_false]; rewrite elem_of_indices;
      rewrite E; tauto || (intros [_ ?]; done).
Qed.

Definition sample_mask : UpdateMask := mkUpdateMask 40 2 (Some [5; 0x80]).

Lemma bit_operations_refine_set_witness :
  exists ms mu, SetBit sample_mask 33 = Ok ms /\ UnsetBit sample_mask 33 = Ok mu /\
    wf ms /\ wf mu /\
    indices ms = {[33]} ∪ indices sample_mask /\ indices mu = indices sample_mask ∖ {[33]} /\
    GetBit sample_mask 33 = Ok (bool_decide (33 ∈ indices sample_mask)).
Proof.
  apply (bit_operations_refine_set sample_mask 33); [|vm_compute; split; congruence].
  by apply (bool_decide_unpack _).
Defined.

(** [operator|=] and [operator&=] are union and intersection when the two
    masks have equally many blocks. When the argument has fewer, its size
    still passes the assertion, and the loop over the blocks of the target
    reads past the end of the argument's array; when it has a larger count the
    assertion fails. *)
Theorem or_and_assign_refine_set m mask bs :
  wf m -> wf mask -> mUpdateMask m = Some bs ->
  (mCount m < mCount mask ->
     or_assign m mask = Throw AssertFailed /\ and_assign m mask = Throw AssertFailed) /\
  (mBlocks mask < mBlocks m ->
     or_assign m mask = Throw OutOfBounds /\ and_assign m mask = Throw OutOfBounds) /\
  (mCount mask <= mCount m -> mBlocks mask = mBlocks m ->
     exists mo ma, or_assign m mask = Ok mo /\ and_assign m mask = Ok ma /\
       indices mo = indices m ∪ indices mask /\ indices ma = indices m ∩ indices mask).
Proof.
  intros Hm Hk Hbs. unfold or_assign, and_assign. rewrite !block_op_cases by done.
  pose proof (wf_blocks m Hm) as HA. pose proof (wf_blocks mask Hk) as HK.
  split_and!.
  - intros H. by rewrite bool_decide_true by done.
  - intros H. assert (mCount mask <= mCount m).
    { destruct Hm as (Hm & _), Hk as (Hk & _). apply Z.nlt_ge. intros Hlt.
      assert ((mCount m + 31) / 32 <= (mCount mask + 31) / 32) by (apply Z.div_le_mono; lia). lia. }
    by rewrite bool_decide_false, bool_decide_true by lia.
  - intros Hc Hb. rewrite !bool_decide_false, Hbs by lia. do 2 eexists. split; [done|].
    split; [done|].
    destruct (block_op_bit Z.lor orb m mask bs Hm Hk Hb Hbs Z.lor_spec) as [Ho1 Ho2].
    destruct (block_op_bit Z.land andb m mask bs Hm Hk Hb Hbs Z.land_spec) as [Ha1 Ha2].
    assert (capacity mask = capacity m) as Hcap by (unfold capacity; lia).
    split.
    + apply (indices_ext m _ (fun _ => True)); [done| |].
      * intros j Hj. rewrite (Ho2 j Hj), elem_of_union, !elem_of_indices, Hcap, orb_true_iff.
        naive_solver.
      * intros j. rewrite elem_of_union, !elem_of_indices, Hcap. naive_solver.
    + apply (indices_ext m _ (fun _ => True)); [done| |].
      * intros j Hj. rewrite (Ha2 j Hj), elem_of_intersection, !elem_of_indices, Hcap, andb_true_iff.
        naive_solver.
      * intros j. rewrite elem_of_intersection, !elem_of_indices. naive_solver.
Qed.

Lemma or_and_assign_refine_set_witness :
  or_assign sample_mask (SetCount 20 new_mask) = Throw OutOfBounds /\
  and_assign sample_mask (SetCount 20 new_mask) = Throw OutOfBounds.
Proof.
  apply (or_and_assign_refine_set sample_mask (SetCount 20 new_mask) [5; 0x80]); [| |done|reflexivity].
  - by apply (bool_decide_unpack _).
  - by apply (bool_decide_unpack _).
Defined.

(** [SetCount n] gives a well-formed empty mask with a bit for each of the
    [n] fields and fewer than 32 spare ones, and copying a mask keeps its set
    of indices. *)
Theorem SetCount_assign n m mask :
  0 <= n < 2 ^ 32 - 31 -> wf mask ->
  let m' := SetCount n m in
  wf m' /\ indices m' = ∅ /\ n <= capacity m' < n + 32 /\
  exists mc, assign m mask = Ok mc /\ wf mc /\ mCount mc = mCount mask /\
             indices mc = indices mask.
Proof.
  assert (HSC : forall n m, 0 <= n < 2 ^ 32 - 31 ->
    wf (SetCount n m) /\ mBlocks (SetCount n m) = (n + 31) / 32 /\
    forall i, bit (SetCount n m) i = false).
  { clear. intros n m Hn. unfold SetCount, wf, bit; simpl.
    rewrite (wrap_id 32) by (unfold in_u; lia). rewrite length_replicate, Z2Nat.id
      by (apply Z.div_pos; lia).
    split_and!; [done|lia|lia|done| |done|].
    - apply Forall_replicate. vm_compute; split; congruence.
    - intros i. destruct (_ !! _) as [w|] eqn:E; [|done].
      apply lookup_replicate in E as [-> _]. apply Z.bits_0. }
  intros Hn Hk m'. destruct (HSC n m Hn) as (Hwf & HB & Hb). fold m' in Hwf, HB, Hb.
  split_and!; [done| | | |].
  - apply set_eq. intros i. rewrite elem_of_indices, Hb. set_solver.
  - unfold capacity. rewrite wf_blocks, HB by done. dlia.
  - unfold capacity. rewrite wf_blocks, HB by done. dlia.
  - destruct (HSC (mCount mask) m ltac:(apply Hk)) as (Hwf2 & HB2 & Hb2).
    pose proof Hk as (HkB & HkC & Hkb). unfold assign. rewrite HB2.
    pose proof (wf_blocks mask Hk) as HK.
    destruct (mUpdateMask mask) as [bs|] eqn:Hbs; simpl in HK.
    + rewrite bool_decide_true by lia. destruct Hkb as [Hlen Hall].
      rewrite take_ge by lia. eexists. split; [done|]. split; [|split; [done|]].
      * split_and!; simpl; done || lia || (split; [lia|done]).
      * apply set_eq. intros i. rewrite !elem_of_indices. unfold capacity, bit; simpl.
        by rewrite Hbs.
    + assert (mCount mask = 0) as E0 by done. rewrite E0 in *.
      rewrite bool_decide_true by done. eexists. split; [done|]. split_and!; [done|done|].
      apply set_eq. intros i. rewrite !elem_of_indices. unfold bit at 2. rewrite Hbs, Hb2.
      simpl. naive_solver.
Qed.

Lemma SetCount_assign_witness :
  let m' := SetCount 1326 new_mask in
  wf m' /\ indices m' = ∅ /\ 1326 <= capacity m' < 1326 + 32 /\
  exists mc, assign new_mask sample_mask = Ok mc /\ wf mc /\ mCount mc = mCount sample_mask /\
             indices mc = indices sample_mask.
Proof.
  apply (SetCount_assign 1326 new_mask sample_mask); [lia|].
  by apply (bool_decide_unpack _).
Defined.

End UpdateMask.
