(* ===== verification/Timer.v ===== *)
(** * Timer: the clocks of [shared/Utilities/Timer.h]

    Millisecond differences, the interval timers that pace [World::Update], and
    the countdown timers of the maps and the spell code. Each keeps its C++
    width: [time_t] and [int32] are signed, [uint32] operands convert. *)
From S2P Require Import Prelude.

Module Timer.

(** ** Millisecond differences *)

Definition getMSTimeDiff (oldMSTime newMSTime : Z) : Z :=
  if newMSTime <? oldMSTime
  then u32 (u32 (0xFFFFFFFF - oldMSTime) + newMSTime)
  else u32 (newMSTime - oldMSTime).

(** ** IntervalTimer *)

Record IntervalTimer := mkInterval { _interval : Z; _current : Z }.

Definition new_interval : IntervalTimer := mkInterval 0 0.
Definition Update (diff : Z) (t : IntervalTimer) : IntervalTimer :=
  let c := s64 (_current t + diff) in
  mkInterval (_interval t) (if c <? 0 then 0 else c).
Definition Passed (t : IntervalTimer) : bool := _interval t <=? _current t.
Definition Reset (t : IntervalTimer) : IntervalTimer :=
  if _interval t <=? _current t
  then mkInterval (_interval t) (s64 (_current t - _interval t)) else t.
Definition SetCurrent (current : Z) (t : IntervalTimer) : IntervalTimer :=
  mkInterval (_interval t) current.
Definition SetInterval (interval : Z) (t : IntervalTimer) : IntervalTimer :=
  mkInterval interval (_current t).

(** One [World::Update(diff)] as one of its timers sees it: the timer loop,
    then [if (Passed()) { Reset(); ... }]. The boolean tells whether the
    guarded action ran. *)
Definition world_tick (diff : Z) (t : IntervalTimer) : bool * IntervalTimer :=
  let t := if 0 <=? _current t then Update diff t else SetCurrent 0 t in
  if Passed t then (true, Reset t) else (false, t).

Fixpoint world_ticks (diffs : list Z) (t : IntervalTimer) : Z * IntervalTimer :=
  match diffs with
  | [] => (0, t)
  | d :: diffs =>
      let '(fired, t) := world_tick d t in
      let '(n, t) := world_ticks diffs t in
      ((if fired then 1 else 0) + n, t)
  end.

(** ** TimeTracker and TimeTrackerSmall: a countdown of [time_t] or [int32]. *)

Record TimeTracker := mkTracker { i_expiryTime : Z }.

Definition tracker_update (w diff : Z) (t : TimeTracker) : TimeTracker :=
  mkTracker (swrap w (i_expiryTime t - diff)).
Definition tracker_passed (t : TimeTracker) : bool := i_expiryTime t <=? 0.
Definition tracker_reset (w interval : Z) (t : TimeTracker) : TimeTracker :=
  mkTracker (swrap w interval).

(** ** PeriodicTimer *)

Record PeriodicTimer := mkPeriodic { i_period : Z; i_expireTime : Z }.

(** [i_expireTime -= diff] is computed in [uint32] and converted back; the
    conditional expression has type [uint32]. *)
Definition periodic_update (diff : Z) (t : PeriodicTimer) : bool * PeriodicTimer :=
  let e := s32 (u32 (i_expireTime t) - diff) in
  if 0 <? e then (false, mkPeriodic (i_period t) e)
  else (true, mkPeriodic (i_period t)
                (s32 (u32 e + (if s32 diff <? i_period t then u32 (i_period t) else diff)))).
Definition SetPeriodic (period start_time : Z) (t : PeriodicTimer) : PeriodicTimer :=
  mkPeriodic period start_time.
Definition TUpdate (diff : Z) (t : PeriodicTimer) : PeriodicTimer :=
  mkPeriodic (i_period t) (s32 (i_expireTime t - diff)).
Definition TPassed (t : PeriodicTimer) : bool := i_expireTime t <=? 0.
Definition TReset (diff period : Z) (t : PeriodicTimer) : PeriodicTimer :=
  mkPeriodic (i_period t) (s32 (i_expireTime t + (if diff <? period then period else diff))).

Fixpoint periodic_updates (diffs : list Z) (t : PeriodicTimer) : Z * PeriodicTimer :=
  match diffs with
  | [] => (0, t)
  | d :: diffs =>
      let '(fired, t) := periodic_update d t in
      let '(n, t) := periodic_updates diffs t in
      ((if fired then 1 else 0) + n, t)
  end.

(** ** Lemmas *)

Definition sum (l : list Z) : Z := foldr Z.add 0 l.

Lemma sum_nonneg l : Forall (fun d => 0 <= d) l -> 0 <= sum l.
Proof. induction 1; simpl; lia. Qed.

Lemma swrap_uncast w e k : 0 < w -> swrap w (wrap w e + k) = swrap w (e + k).
Proof.
  intros. unfold swrap, wrap. rewrite <- !Z.add_assoc. by rewrite Zplus_mod_idemp_l.
Qed.

Lemma world_tick_spec diff t :
  0 <= _current t -> 0 <= diff -> 0 < _interval t -> _current t + diff < 2 ^ 63 ->
  let c := _current t + diff in
  world_tick diff t =
    if _interval t <=? c then (true, mkInterval (_interval t) (c - _interval t))
    else (false, mkInterval (_interval t) c).
Proof.
  intros Hc Hd Hi Hb c. unfold world_tick, Update, Passed, Reset.
  rewrite (proj2 (Z.leb_le 0 _)) by done. cbn [_interval _current].
  rewrite swrap_id by width. fold c. rewrite (proj2 (Z.ltb_ge c 0)) by lia.
  destruct (Z.leb_spec (_interval t) c); [|done]. rewrite swrap_id; [done|lia|width].
Qed.

Lemma periodic_update_spec diff t :
  0 < i_expireTime t < 2 ^ 31 -> 0 <= diff < 2 ^ 31 -> 0 <= i_period t < 2 ^ 31 ->
  periodic_update diff t =
    if diff <? i_expireTime t then (false, mkPeriodic (i_period t) (i_expireTime t - diff))
    else (true, mkPeriodic (i_period t) (i_expireTime t - diff + Z.max (i_period t) diff)).
Proof.
  intros He Hd Hp. unfold periodic_update.
  assert (s32 (u32 (i_expireTime t) - diff) = i_expireTime t - diff) as ->.
  { rewrite <- (swrap_id 32 (i_expireTime t - diff)) by width. by apply swrap_uncast. }
  rewrite swrap_uncast, (swrap_id 32 diff) by width.
  destruct (Z.ltb_spec 0 (i_expireTime t - diff)), (Z.ltb_spec diff (i_expireTime t)); try lia;
    [done|]. do 2 f_equal. destruct (Z.ltb_spec diff (i_period t)).
  - rewrite (wrap_id 32 (i_period t)), swrap_id by width. lia.
  - rewrite swrap_id by width. lia.
Qed.

(** ** Properties *)

(** Between two readings of the 32-bit millisecond clock less than its
    range apart, [getMSTimeDiff] is the elapsed time when the clock did not
    wrap around in between, and one millisecond less when it did. *)
Theorem getMSTimeDiff_elapsed t elapsed :
  in_u 32 t -> 0 <= elapsed < 2 ^ 32 ->
  getMSTimeDiff t (u32 (t + elapsed)) =
    if t + elapsed <? 2 ^ 32 then elapsed else elapsed - 1.
Proof.
  intros Ht He. unfold getMSTimeDiff, wrap, in_u in *.
  destruct (Z.ltb_spec (t + elapsed) (2 ^ 32)).
  - rewrite (Z.mod_small (t + elapsed)) by lia. rewrite (proj2 (Z.ltb_ge _ t)) by lia.
    rewrite Z.mod_small by lia. lia.
  - assert ((t + elapsed) mod 2 ^ 32 = t + elapsed - 2 ^ 32) as -> by dlia.
    rewrite (proj2 (Z.ltb_lt _ t)) by lia.
    rewrite (Z.mod_small (0xFFFFFFFF - t)), Z.mod_small by width. lia.
Qed.

Lemma getMSTimeDiff_elapsed_witness :
  getMSTimeDiff 4294967290 (u32 (4294967290 + 50)) = 49.
Proof. apply (getMSTimeDiff_elapsed 4294967290 50); [vm_compute; split; congruence|lia]. Defined.

(** An interval timer of [World::Update] does not drift: over any sequence
    of updates the number of firings times the interval plus what is left on
    the timer is the time that passed; and when no update is longer than the
    interval, the number of firings is the number of full intervals that
    passed. *)
Theorem world_ticks_no_drift diffs t n t' :
  0 < _interval t -> 0 <= _current t -> Forall (fun d => 0 <= d) diffs ->
  _current t + sum diffs < 2 ^ 63 ->
  world_ticks diffs t = (n, t') ->
  n * _interval t + _current t' = _current t + sum diffs /\ 0 <= _current t' /\
  (_current t < _interval t -> Forall (fun d => d <= _interval t) diffs ->
     n = (_current t + sum diffs) / _interval t).
Proof.
  assert (Hgen : forall diffs t n t',
    0 < _interval t -> 0 <= _current t -> Forall (fun d => 0 <= d) diffs ->
    _current t + sum diffs < 2 ^ 63 -> world_ticks diffs t = (n, t') ->
    n * _interval t + _current t' = _current t + sum diffs /\ 0 <= _current t' /\
    (_current t < _interval t -> Forall (fun d => d <= _interval t) diffs ->
       _current t' < _interval t)).
  { clear. induction diffs as [|d diffs IH]; intros t n t' Hi Hc Hall Hb Hrun; simpl in *.
    - simplify_eq. split_and!; [lia|lia|done].
    - inversion Hall as [|? ? Hd Hall']; subst. pose proof (sum_nonneg _ Hall').
      rewrite world_tick_spec in Hrun by (done || lia).
      destruct (Z.leb_spec (_interval t) (_current t + d)) as [Hle|Hlt];
        destruct (world_ticks diffs _) as [m u] eqn:E; simplify_eq;
        apply IH in E as (E1 & E2 & E3); simpl in *; try done; try lia;
        split_and!; try lia; intros ? Hs; inversion Hs; subst; apply E3; done || lia. }
  intros Hi Hc Hall Hb Hrun. destruct (Hgen _ _ _ _ Hi Hc Hall Hb Hrun) as (H1 & H2 & H3).
  split_and!; [done|done|]. intros Hlt Hs. specialize (H3 Hlt Hs).
  apply Z.div_unique with (_current t'); lia.
Qed.

Lemma world_ticks_no_drift_witness :
  world_ticks [400; 700; 950; 1000; 30] (mkInterval 1000 0) = (3, mkInterval 1000 80) /\
  3 * 1000 + 80 = 0 + sum [400; 700; 950; 1000; 30] /\ 0 <= 80 /\
  (0 < 1000 -> Forall (fun d => d <= 1000) [400; 700; 950; 1000; 30] ->
     3 = (0 + sum [400; 700; 950; 1000; 30]) / 1000).
Proof.
  split; [reflexivity|].
  apply (world_ticks_no_drift [400; 700; 950; 1000; 30] (mkInterval 1000 0) 3 (mkInterval 1000 80));
    [done|done| |done|reflexivity].
  by apply (bool_decide_unpack _).
Defined.

(** A periodic timer started in the future stays in the future after each
    [Update], at most one period or one update ahead of the start, and as long
    as no update is longer than the period it fires exactly once per period:
    the firings account for all of the elapsed time. *)
Theorem periodic_updates_rate diffs t n t' :
  0 < i_expireTime t < 2 ^ 31 -> 0 < i_period t < 2 ^ 30 ->
  Forall (fun d => 0 <= d <= i_period t) diffs ->
  periodic_updates diffs t = (n, t') ->
  i_expireTime t' = i_expireTime t - sum diffs + n * i_period t /\
  0 < i_expireTime t' <= Z.max (i_expireTime t) (i_period t).
Proof.
  revert t n t'. induction diffs as [|d diffs IH]; intros t n t' He Hp Hall Hrun; simpl in *.
  - simplify_eq. lia.
  - inversion Hall as [|? ? Hd Hall']; subst.
    rewrite periodic_update_spec in Hrun by lia.
    destruct (Z.ltb_spec d (i_expireTime t)) as [Hlt|Hle];
      destruct (periodic_updates diffs _) as [m u] eqn:E; simplify_eq;
      apply IH in E as (E1 & E2); simpl in *; try done; try lia.
Qed.

Lemma periodic_updates_rate_witness :
  periodic_updates [300; 900; 50; 1000] (mkPeriodic 1000 500) = (2, mkPeriodic 1000 250) /\
  250 = 500 - sum [300; 900; 50; 1000] + 2 * 1000 /\ 0 < 250 <= Z.max 500 1000.
Proof.
  split; [reflexivity|].
  apply (periodic_updates_rate [300; 900; 50; 1000] (mkPeriodic 1000 500) 2 (mkPeriodic 1000 250));
    [done|done| |reflexivity].
  by apply (bool_decide_unpack _).
Defined.

End Timer.
