(* ===== verification/Utf8.v ===== *)
(** * Utf8: UTF-8 and UTF-16

    The checked conversions that the text functions of the server use
    ([dep/utf8cpp/utf8/core.h] and [checked.h]). A string is the list of its
    bytes, an iterator the rest of the list; exceptions are errors. *)
From S2P Require Import Prelude.
#[global] Open Scope Z_scope.

Module Utf8.

(** ** core.h *)
Inductive utf_error :=
| NOT_ENOUGH_ROOM | INVALID_LEAD | INCOMPLETE_SEQUENCE | OVERLONG_SEQUENCE | INVALID_CODE_POINT | INVALID_UTF16.
#[global] Instance utf_error_eq_dec : EqDecision utf_error.
Proof. solve_decision. Defined.

Definition LEAD_SURROGATE_MIN := 0xd800.
Definition LEAD_SURROGATE_MAX := 0xdbff.
Definition TRAIL_SURROGATE_MIN := 0xdc00.
Definition TRAIL_SURROGATE_MAX := 0xdfff.
Definition LEAD_OFFSET := LEAD_SURROGATE_MIN - Z.shiftr 0x10000 10.
Definition SURROGATE_OFFSET := u32 (0x10000 - Z.shiftl LEAD_SURROGATE_MIN 10 - TRAIL_SURROGATE_MIN).
Definition CODE_POINT_MAX := 0x0010ffff.

Definition mask8 (oc : Z) : Z := Z.land 0xff oc.
Definition mask16 (oc : Z) : Z := Z.land 0xffff oc.
Definition is_trail (oc : Z) : bool := Z.shiftr (mask8 oc) 6 =? 2.
Definition is_lead_surrogate (cp : Z) : bool := (LEAD_SURROGATE_MIN <=? cp) && (cp <=? LEAD_SURROGATE_MAX).
Definition is_trail_surrogate (cp : Z) : bool := (TRAIL_SURROGATE_MIN <=? cp) && (cp <=? TRAIL_SURROGATE_MAX).
Definition is_surrogate (cp : Z) : bool := (LEAD_SURROGATE_MIN <=? cp) && (cp <=? TRAIL_SURROGATE_MAX).
Definition is_code_point_valid (cp : Z) : bool := (cp <=? CODE_POINT_MAX) && negb (is_surrogate cp).

Definition sequence_length (lead_it : Z) : Z :=
  let lead := mask8 lead_it in
  if lead <? 0x80 then 1
  else if Z.shiftr lead 5 =? 0x6 then 2
  else if Z.shiftr lead 4 =? 0xe then 3
  else if Z.shiftr lead 3 =? 0x1e then 4
  else 0.

Definition is_overlong_sequence (cp length : Z) : bool :=
  if cp <? 0x80 then negb (length =? 1)
  else if cp <? 0x800 then negb (length =? 2)
  else if cp <? 0x10000 then negb (length =? 3)
  else false.

(** The octet after the iterator, which is moved to it. *)
Definition increase_safely (rest : list Z) : result utf_error (Z * list Z) :=
  match rest with
  | [] => Throw NOT_ENOUGH_ROOM
  | b :: rest => if is_trail b then Ok (b, rest) else Throw INCOMPLETE_SEQUENCE
  end.

(** The code point of the sequence that starts with [lead], and what follows. *)
Definition get_sequence_1 (lead : Z) (rest : list Z) : result utf_error (Z * list Z) := Ok (mask8 lead, rest).
Definition get_sequence_2 (lead : Z) (rest : list Z) : result utf_error (Z * list Z) :=
  let? (b1, rest) := increase_safely rest in
  Ok (Z.land (Z.shiftl (mask8 lead) 6) 0x7ff + Z.land b1 0x3f, rest).
Definition get_sequence_3 (lead : Z) (rest : list Z) : result utf_error (Z * list Z) :=
  let? (b1, rest) := increase_safely rest in
  let? (b2, rest) := increase_safely rest in
  Ok (Z.land (Z.shiftl (mask8 lead) 12) 0xffff + Z.land (Z.shiftl (mask8 b1) 6) 0xfff + Z.land b2 0x3f, rest).
Definition get_sequence_4 (lead : Z) (rest : list Z) : result utf_error (Z * list Z) :=
  let? (b1, rest) := increase_safely rest in
  let? (b2, rest) := increase_safely rest in
  let? (b3, rest) := increase_safely rest in
  Ok (Z.land (Z.shiftl (mask8 lead) 18) 0x1fffff + Z.land (Z.shiftl (mask8 b1) 12) 0x3ffff
      + Z.land (Z.shiftl (mask8 b2) 6) 0xfff + Z.land b3 0x3f, rest).

(** [lead] is [*it]. *)
Definition validate_next (lead : Z) (rest : list Z) : result utf_error (Z * list Z) :=
  let length := sequence_length lead in
  let? (cp, rest) :=
    if length =? 0 then Throw INVALID_LEAD
    else if length =? 1 then get_sequence_1 lead rest
    else if length =? 2 then get_sequence_2 lead rest
    else if length =? 3 then get_sequence_3 lead rest
    else get_sequence_4 lead rest in
  if is_code_point_valid cp then
    if is_overlong_sequence cp length then Throw OVERLONG_SEQUENCE else Ok (cp, rest)
  else Throw INVALID_CODE_POINT.

(** ** checked.h *)
Definition append (cp : Z) : result utf_error (list Z) :=
  if negb (is_code_point_valid cp) then Throw INVALID_CODE_POINT
  else if cp <? 0x80 then Ok [u8 cp]
  else if cp <? 0x800 then
    Ok [u8 (Z.lor (Z.shiftr cp 6) 0xc0); u8 (Z.lor (Z.land cp 0x3f) 0x80)]
  else if cp <? 0x10000 then
    Ok [u8 (Z.lor (Z.shiftr cp 12) 0xe0); u8 (Z.lor (Z.land (Z.shiftr cp 6) 0x3f) 0x80); u8 (Z.lor (Z.land cp 0x3f) 0x80)]
  else
    Ok [u8 (Z.lor (Z.shiftr cp 18) 0xf0); u8 (Z.lor (Z.land (Z.shiftr cp 12) 0x3f) 0x80);
        u8 (Z.lor (Z.land (Z.shiftr cp 6) 0x3f) 0x80); u8 (Z.lor (Z.land cp 0x3f) 0x80)].

(** The loop [while (first < last) next(first, last)], with the code points; a
    call takes an octet at least. *)
Fixpoint next_loop (fuel : nat) (it : list Z) : result utf_error (list Z) :=
  match fuel, it with
  | S fuel, lead :: rest =>
      let? (cp, rest) := validate_next lead rest in
      let? cps := next_loop fuel rest in
      Ok (cp :: cps)
  | _, _ => Ok []
  end.
Definition code_points (s : list Z) : result utf_error (list Z) := next_loop (length s) s.

Definition distance (s : list Z) : result utf_error Z :=
  let? cps := code_points s in Ok (Z.of_nat (length cps)).

(** The units of a code point: two, a surrogate pair, above 0xffff. *)
Definition units (cp : Z) : list Z :=
  if 0xffff <? cp then [u16 (Z.shiftr cp 10 + LEAD_OFFSET); u16 (Z.land cp 0x3ff + TRAIL_SURROGATE_MIN)]
  else [u16 cp].
Definition utf8to16 (s : list Z) : result utf_error (list Z) :=
  let? cps := code_points s in Ok (cps ≫= units).

Fixpoint utf16to8 (ws : list Z) : result utf_error (list Z) :=
  match ws with
  | [] => Ok []
  | w :: ws =>
      let cp := mask16 w in
      if is_lead_surrogate cp then
        match ws with
        | [] => Throw INVALID_UTF16
        | w2 :: ws =>
            let trail_surrogate := mask16 w2 in
            if is_trail_surrogate trail_surrogate then
              let? bs := append (u32 (Z.shiftl cp 10 + trail_surrogate + SURROGATE_OFFSET)) in
              let? s := utf16to8 ws in Ok (bs ++ s)
            else Throw INVALID_UTF16
        end
      else if is_trail_surrogate cp then Throw INVALID_UTF16
      else
        let? bs := append cp in
        let? s := utf16to8 ws in Ok (bs ++ s)
  end.

Example decode_euro : code_points [0xe2; 0x82; 0xac; 0x41] = Ok [0x20ac; 0x41].
Proof. reflexivity. Qed.
Example encode_pair : utf16to8 [0xd83d; 0xde00] = append 0x1f600.
Proof. reflexivity. Qed.

(** ** Octets and code points *)
Definition scalar (cp : Z) : Prop := 0 <= cp /\ is_code_point_valid cp = true.

Lemma scalar_spec cp : scalar cp <-> 0 <= cp <= 0x10ffff /\ ~ (0xd800 <= cp <= 0xdfff).
Proof.
  unfold scalar, is_code_point_valid, is_surrogate, CODE_POINT_MAX, LEAD_SURROGATE_MIN, TRAIL_SURROGATE_MAX.
  rewrite andb_true_iff, negb_true_iff, andb_false_iff, !Z.leb_le, !Z.leb_gt. lia.
Qed.

(** Linear arithmetic with division by literals. *)
Ltac edlia := norm_pow; Z.to_euclidean_division_equations; lia.

(** The octets of a code point, in arithmetic. *)
Definition octets (cp : Z) : list Z :=
  if cp <? 0x80 then [cp]
  else if cp <? 0x800 then [192 + cp / 64; 128 + cp mod 64]
  else if cp <? 0x10000 then [224 + cp / 4096; 128 + cp / 64 mod 64; 128 + cp mod 64]
  else [240 + cp / 262144; 128 + cp / 4096 mod 64; 128 + cp / 64 mod 64; 128 + cp mod 64].

Lemma below (P : Z -> bool) n x : forallb P (seqZ 0 n) = true -> 0 <= x < n -> P x = true.
Proof. intros HP Hx. rewrite forallb_forall in HP. apply HP, list_elem_of_In, elem_of_seqZ. lia. Qed.

Lemma lor_mark x mark n :
  forallb (fun x => Z.lor x mark =? mark + x) (seqZ 0 n) = true -> 0 <= x < n -> Z.lor x mark = mark + x.
Proof. intros HP Hx. apply (below _ _ x) in HP; [|done]. by apply Z.eqb_eq. Qed.

Lemma land_mask a k : 0 <= k -> Z.land a (Z.ones k) = a mod 2 ^ k.
Proof. apply Z.land_ones. Qed.

Lemma append_octets cp : scalar cp -> append cp = Ok (octets cp).
Proof.
  intros [H0 Hv]. unfold append. rewrite Hv. cbn [negb]. assert (scalar cp) as Hs by done. apply scalar_spec in Hs.
  unfold octets. change 0x3f with (Z.ones 6). rewrite !land_mask, !Z.shiftr_div_pow2 by lia.
  change (2 ^ 6) with 64. change (2 ^ 12) with 4096. change (2 ^ 18) with 262144.
  destruct (Z.ltb_spec cp 0x80); [by rewrite wrap_id by width|].
  assert (forall x, 0 <= x mod 64 < 64) as Hm by (intros; by apply Z.mod_pos_bound).
  rewrite !(lor_mark _ 0x80 64 eq_refl) by done.
  assert (forall x, wrap 8 (128 + x mod 64) = 128 + x mod 64) as Hw by (intros x; specialize (Hm x); apply wrap_id; width).
  rewrite !Hw. clear Hm Hw.
  destruct (Z.ltb_spec cp 0x800); [|destruct (Z.ltb_spec cp 0x10000)].
  - assert (0 <= cp / 64 < 32) by edlia. rewrite (lor_mark _ 0xc0 32 eq_refl) by done. rewrite wrap_id by width. done.
  - assert (0 <= cp / 4096 < 16) by edlia. rewrite (lor_mark _ 0xe0 16 eq_refl) by done. rewrite wrap_id by width. done.
  - assert (0 <= cp / 262144 < 5) by edlia. rewrite (lor_mark _ 0xf0 5 eq_refl) by done. rewrite wrap_id by width. done.
Qed.

(** *** Decoding *)
Definition trail_octet (b : Z) : Prop := 128 <= b < 192.

Lemma mask8_id b : in_u 8 b -> mask8 b = b.
Proof. intros Hb. unfold mask8. rewrite Z.land_comm. change 0xff with (Z.ones 8). rewrite land_mask by lia. by apply Z.mod_small. Qed.

Lemma is_trail_spec b : in_u 8 b -> is_trail b = true <-> trail_octet b.
Proof.
  intros Hb. unfold is_trail, trail_octet. rewrite mask8_id by done. rewrite Z.shiftr_div_pow2 by lia. change (2 ^ 6) with 64.
  rewrite Z.eqb_eq. edlia.
Qed.

Definition octet_length (b : Z) : Z :=
  if b <? 128 then 1 else if b <? 192 then 0 else if b <? 224 then 2 else if b <? 240 then 3 else if b <? 248 then 4 else 0.

Lemma sequence_length_spec b : in_u 8 b -> sequence_length b = octet_length b.
Proof.
  intros Hb. apply Z.eqb_eq.
  exact (forall_u8 (fun b => sequence_length b =? octet_length b) b ltac:(vm_compute; reflexivity) Hb).
Qed.

Lemma increase_safely_inv rest b r :
  Forall (in_u 8) rest -> increase_safely rest = Ok (b, r) -> rest = b :: r /\ trail_octet b /\ Forall (in_u 8) r.
Proof.
  intros Hr. unfold increase_safely. destruct rest as [|x rest]; [done|]. inversion Hr as [|? ? Hx Hrest]; subst.
  destruct (is_trail x) eqn:E; [|done]. intros [= <- <-]. by apply is_trail_spec in E.
Qed.

Lemma increase_safely_trail b r : trail_octet b -> increase_safely (b :: r) = Ok (b, r).
Proof. intros Hb. unfold increase_safely. assert (is_trail b = true) as ->; [|done]. apply is_trail_spec; [|done]. unfold trail_octet in Hb. width. Qed.

(** The value of a sequence, in arithmetic. *)
Lemma sequence_2 b b1 : 192 <= b < 224 -> trail_octet b1 ->
  Z.land (Z.shiftl (mask8 b) 6) 0x7ff + Z.land b1 0x3f = 64 * (b - 192) + (b1 - 128).
Proof.
  intros Hb Hb1. unfold trail_octet in Hb1. rewrite mask8_id by width. change 0x7ff with (Z.ones 11). change 0x3f with (Z.ones 6).
  rewrite !land_mask, Z.shiftl_mul_pow2 by lia. edlia.
Qed.
Lemma sequence_3 b b1 b2 : 224 <= b < 240 -> trail_octet b1 -> trail_octet b2 ->
  Z.land (Z.shiftl (mask8 b) 12) 0xffff + Z.land (Z.shiftl (mask8 b1) 6) 0xfff + Z.land b2 0x3f
  = 4096 * (b - 224) + 64 * (b1 - 128) + (b2 - 128).
Proof.
  intros Hb Hb1 Hb2. unfold trail_octet in *. rewrite !mask8_id by width. change 0xffff with (Z.ones 16). change 0xfff with (Z.ones 12).
  change 0x3f with (Z.ones 6). rewrite !land_mask, !Z.shiftl_mul_pow2 by lia. edlia.
Qed.
Lemma sequence_4 b b1 b2 b3 : 240 <= b < 248 -> trail_octet b1 -> trail_octet b2 -> trail_octet b3 ->
  Z.land (Z.shiftl (mask8 b) 18) 0x1fffff + Z.land (Z.shiftl (mask8 b1) 12) 0x3ffff + Z.land (Z.shiftl (mask8 b2) 6) 0xfff
  + Z.land b3 0x3f = 262144 * (b - 240) + 4096 * (b1 - 128) + 64 * (b2 - 128) + (b3 - 128).
Proof.
  intros Hb Hb1 Hb2 Hb3. unfold trail_octet in *. rewrite !mask8_id by width. change 0x1fffff with (Z.ones 21).
  change 0x3ffff with (Z.ones 18). change 0xfff with (Z.ones 12). change 0x3f with (Z.ones 6).
  rewrite !land_mask, !Z.shiftl_mul_pow2 by lia. edlia.
Qed.

(** A sequence that is read is the encoding of the code point. *)
Lemma octets_2 cp b b1 : 192 <= b < 224 -> trail_octet b1 -> cp = 64 * (b - 192) + (b1 - 128) -> 0x80 <= cp -> octets cp = [b; b1].
Proof.
  intros Hb Hb1 E H. unfold trail_octet in Hb1. unfold octets. rewrite (proj2 (Z.ltb_ge cp 0x80)), (proj2 (Z.ltb_lt cp 0x800)) by lia.
  f_equal; [edlia|]. f_equal. edlia.
Qed.
Lemma octets_3 cp b b1 b2 : 224 <= b < 240 -> trail_octet b1 -> trail_octet b2 ->
  cp = 4096 * (b - 224) + 64 * (b1 - 128) + (b2 - 128) -> 0x800 <= cp -> octets cp = [b; b1; b2].
Proof.
  intros Hb Hb1 Hb2 E H. unfold trail_octet in *. unfold octets.
  rewrite (proj2 (Z.ltb_ge cp 0x80)), (proj2 (Z.ltb_ge cp 0x800)), (proj2 (Z.ltb_lt cp 0x10000)) by lia.
  repeat f_equal; edlia.
Qed.
Lemma octets_4 cp b b1 b2 b3 : 240 <= b < 248 -> trail_octet b1 -> trail_octet b2 -> trail_octet b3 ->
  cp = 262144 * (b - 240) + 4096 * (b1 - 128) + 64 * (b2 - 128) + (b3 - 128) -> 0x10000 <= cp -> octets cp = [b; b1; b2; b3].
Proof.
  intros Hb Hb1 Hb2 Hb3 E H. unfold trail_octet in *. unfold octets.
  rewrite (proj2 (Z.ltb_ge cp 0x80)), (proj2 (Z.ltb_ge cp 0x800)), (proj2 (Z.ltb_ge cp 0x10000)) by lia.
  repeat f_equal; edlia.
Qed.

Lemma is_overlong_spec cp n :
  is_overlong_sequence cp n = false <->
  (cp < 0x80 /\ n = 1) \/ (0x80 <= cp < 0x800 /\ n = 2) \/ (0x800 <= cp < 0x10000 /\ n = 3) \/ 0x10000 <= cp.
Proof.
  unfold is_overlong_sequence. destruct (Z.ltb_spec cp 0x80), (Z.ltb_spec cp 0x800), (Z.ltb_spec cp 0x10000);
    rewrite ?negb_false_iff, ?Z.eqb_eq; lia.
Qed.

(** What is left to check once the sequence has been read. *)
Definition checked (cp length : Z) (r : list Z) : result utf_error (Z * list Z) :=
  if is_code_point_valid cp then if is_overlong_sequence cp length then Throw OVERLONG_SEQUENCE else Ok (cp, r)
  else Throw INVALID_CODE_POINT.

Lemma checked_ok cp n r cp' r' :
  checked cp n r = Ok (cp', r') <-> is_code_point_valid cp = true /\ is_overlong_sequence cp n = false /\ cp' = cp /\ r' = r.
Proof.
  unfold checked. destruct (is_code_point_valid cp); [|by split; [|intros [? _]]].
  destruct (is_overlong_sequence cp n); [by split; [|intros (_ & ? & _)]|]. split; [by intros [= <- <-]|by intros (_ & _ & -> & ->)].
Qed.

Lemma octet_length_cases b :
  in_u 8 b ->
  (b < 128 /\ octet_length b = 1) \/ (192 <= b < 224 /\ octet_length b = 2) \/ (224 <= b < 240 /\ octet_length b = 3)
  \/ (240 <= b < 248 /\ octet_length b = 4) \/ ((128 <= b < 192 \/ 248 <= b) /\ octet_length b = 0).
Proof.
  intros Hb. unfold octet_length.
  destruct (Z.ltb_spec b 128), (Z.ltb_spec b 192), (Z.ltb_spec b 224), (Z.ltb_spec b 240), (Z.ltb_spec b 248); lia.
Qed.

(** The sequence of a given length, read. *)
Lemma validate_next_length b r :
  in_u 8 b ->
  validate_next b r =
    let n := octet_length b in
    if n =? 0 then Throw INVALID_LEAD
    else if n =? 1 then checked b 1 r
    else if n =? 2 then bind_result (get_sequence_2 b r) (fun '(cp, r) => checked cp 2 r)
    else if n =? 3 then bind_result (get_sequence_3 b r) (fun '(cp, r) => checked cp 3 r)
    else bind_result (get_sequence_4 b r) (fun '(cp, r) => checked cp n r).
Proof.
  intros Hb. unfold validate_next. rewrite sequence_length_spec by done. cbv zeta.
  destruct (octet_length_cases b Hb) as [[_ ->]|[[_ ->]|[[_ ->]|[[_ ->]|[_ ->]]]]]; try done.
  cbn. unfold get_sequence_1. cbn. by rewrite mask8_id.
Qed.

Lemma validate_next_octets cp r :
  scalar cp -> exists lead rest, octets cp = lead :: rest /\ validate_next lead (rest ++ r) = Ok (cp, r).
Proof.
  intros Hs. pose proof Hs as [_ Hv]. apply scalar_spec in Hs.
  assert (forall c n, c = cp -> is_overlong_sequence cp n = false -> checked c n r = Ok (cp, r)) as Hc.
  { intros c n -> Ho. by apply checked_ok. }
  destruct (Z.lt_ge_cases cp 0x80); [|destruct (Z.lt_ge_cases cp 0x800); [|destruct (Z.lt_ge_cases cp 0x10000)]].
  - exists cp, []. split; [unfold octets; by rewrite (proj2 (Z.ltb_lt cp 0x80))|]. rewrite validate_next_length by width.
    destruct (octet_length_cases cp ltac:(width)) as [[_ ->]|Hl]; [|lia]. apply Hc; [done|]. apply is_overlong_spec. lia.
  - set (b := 192 + cp / 64). set (b1 := 128 + cp mod 64). exists b, [b1].
    assert (192 <= b < 224 /\ trail_octet b1 /\ cp = 64 * (b - 192) + (b1 - 128)) as (Hb & Hb1 & E) by (unfold trail_octet, b, b1; edlia).
    split; [by apply octets_2|]. rewrite validate_next_length by width.
    destruct (octet_length_cases b ltac:(width)) as [Hl|[[_ ->]|Hl]]; [lia| |lia].
    cbn [Z.eqb Pos.eqb]. unfold get_sequence_2. cbn [app]. rewrite increase_safely_trail by done. cbn [bind_result].
    apply Hc; [by rewrite sequence_2|]. apply is_overlong_spec. lia.
  - set (b := 224 + cp / 4096). set (b1 := 128 + cp / 64 mod 64). set (b2 := 128 + cp mod 64). exists b, [b1; b2].
    assert (224 <= b < 240 /\ trail_octet b1 /\ trail_octet b2 /\ cp = 4096 * (b - 224) + 64 * (b1 - 128) + (b2 - 128))
      as (Hb & Hb1 & Hb2 & E) by (unfold trail_octet, b, b1, b2; edlia).
    split; [by apply octets_3|]. rewrite validate_next_length by width.
    destruct (octet_length_cases b ltac:(width)) as [Hl|[Hl|[[_ ->]|Hl]]]; [lia|lia| |lia].
    cbn [Z.eqb Pos.eqb]. unfold get_sequence_3. cbn [app]. rewrite !increase_safely_trail by done. cbn [bind_result].
    rewrite increase_safely_trail by done. cbn [bind_result].
    apply Hc; [by rewrite sequence_3|]. apply is_overlong_spec. lia.
  - set (b := 240 + cp / 262144). set (b1 := 128 + cp / 4096 mod 64). set (b2 := 128 + cp / 64 mod 64).
    set (b3 := 128 + cp mod 64). exists b, [b1; b2; b3].
    assert (240 <= b < 248 /\ trail_octet b1 /\ trail_octet b2 /\ trail_octet b3
      /\ cp = 262144 * (b - 240) + 4096 * (b1 - 128) + 64 * (b2 - 128) + (b3 - 128))
      as (Hb & Hb1 & Hb2 & Hb3 & E) by (unfold trail_octet, b, b1, b2, b3; edlia).
    split; [by apply octets_4|]. rewrite validate_next_length by width.
    destruct (octet_length_cases b ltac:(width)) as [Hl|[Hl|[Hl|[[_ ->]|Hl]]]]; [lia|lia|lia| |lia].
    cbn [Z.eqb Pos.eqb]. unfold get_sequence_4. cbn [app]. rewrite increase_safely_trail by done. cbn [bind_result].
    rewrite increase_safely_trail by done. cbn [bind_result]. rewrite increase_safely_trail by done. cbn [bind_result].
    apply Hc; [by rewrite sequence_4|]. apply is_overlong_spec. lia.
Qed.

Lemma validate_next_inv lead rest cp r :
  in_u 8 lead -> Forall (in_u 8) rest -> validate_next lead rest = Ok (cp, r) ->
  scalar cp /\ lead :: rest = octets cp ++ r.
Proof.
  intros Hl Hr. rewrite validate_next_length by done. cbv zeta.
  destruct (octet_length_cases lead Hl) as [[Hb ->]|[[Hb ->]|[[Hb ->]|[[Hb ->]|[_ ->]]]]]; cbn [Z.eqb Pos.eqb]; [| | | |done].
  - rewrite checked_ok. intros (Hv & Ho & -> & ->). split; [split; [unfold in_u in Hl; lia|done]|].
    unfold octets. by rewrite (proj2 (Z.ltb_lt lead 0x80)).
  - unfold get_sequence_2. destruct (increase_safely rest) as [[b1 r1]|] eqn:E; [|done].
    apply increase_safely_inv in E as (-> & Hb1 & Hr1); [|done]. cbn [bind_result]. rewrite sequence_2 by done.
    rewrite checked_ok. intros (Hv & Ho & E & ->). apply is_overlong_spec in Ho. unfold trail_octet in Hb1.
    split; [split; [lia|by rewrite E]|]. rewrite (octets_2 cp lead b1); [done|done|done|done|lia].
  - unfold get_sequence_3. destruct (increase_safely rest) as [[b1 r1]|] eqn:E; [|done].
    apply increase_safely_inv in E as (-> & Hb1 & Hr1); [|done]. cbn [bind_result].
    destruct (increase_safely r1) as [[b2 r2]|] eqn:E; [|done].
    apply increase_safely_inv in E as (-> & Hb2 & Hr2); [|done]. cbn [bind_result]. rewrite sequence_3 by done.
    rewrite checked_ok. intros (Hv & Ho & E & ->). apply is_overlong_spec in Ho. unfold trail_octet in Hb1, Hb2.
    split; [split; [lia|by rewrite E]|]. rewrite (octets_3 cp lead b1 b2); [done|done|done|done|done|lia].
  - unfold get_sequence_4. destruct (increase_safely rest) as [[b1 r1]|] eqn:E; [|done].
    apply increase_safely_inv in E as (-> & Hb1 & Hr1); [|done]. cbn [bind_result].
    destruct (increase_safely r1) as [[b2 r2]|] eqn:E; [|done].
    apply increase_safely_inv in E as (-> & Hb2 & Hr2); [|done]. cbn [bind_result].
    destruct (increase_safely r2) as [[b3 r3]|] eqn:E; [|done].
    apply increase_safely_inv in E as (-> & Hb3 & Hr3); [|done]. cbn [bind_result]. rewrite sequence_4 by done.
    rewrite checked_ok. intros (Hv & Ho & E & ->). apply is_overlong_spec in Ho. unfold trail_octet in Hb1, Hb2, Hb3.
    split; [split; [lia|by rewrite E]|]. rewrite (octets_4 cp lead b1 b2 b3); [done|done|done|done|done|done|lia].
Qed.

(** ** Strings of code points *)
Lemma octets_nonempty cp : exists b bs, octets cp = b :: bs.
Proof. unfold octets. repeat case_match; eauto. Qed.

Lemma octets_bytes cp : scalar cp -> Forall (in_u 8) (octets cp).
Proof.
  intros Hs. apply scalar_spec in Hs. unfold octets.
  destruct (Z.ltb_spec cp 0x80); [|destruct (Z.ltb_spec cp 0x800); [|destruct (Z.ltb_spec cp 0x10000)]];
    repeat constructor; edlia.
Qed.

Lemma next_loop_octets cps fuel :
  Forall scalar cps -> (length (cps ≫= octets) <= fuel)%nat -> next_loop fuel (cps ≫= octets) = Ok cps.
Proof.
  intros H. revert fuel. induction H as [|cp cps Hcp Hcps IH]; intros fuel Hf; [by destruct fuel|].
  rewrite bind_cons in *. destruct (validate_next_octets cp (cps ≫= octets) Hcp) as (lead & rest & E & Ev).
  rewrite E in *. destruct fuel as [|fuel]; [cbn in Hf; lia|]. cbn [app next_loop]. rewrite Ev. cbn [bind_result].
  rewrite IH; [done|]. rewrite length_app in Hf. cbn in Hf. lia.
Qed.

Lemma next_loop_inv fuel s cps :
  Forall (in_u 8) s -> (length s <= fuel)%nat -> next_loop fuel s = Ok cps -> Forall scalar cps /\ s = cps ≫= octets.
Proof.
  revert s cps. induction fuel as [|fuel IH]; intros s cps Hs Hf.
  { destruct s; [|cbn in Hf; lia]. intros [= <-]. done. }
  destruct s as [|lead rest]; [intros [= <-]; done|]. inversion Hs as [|? ? Hl Hr]; subst. cbn [next_loop].
  destruct (validate_next lead rest) as [[cp r]|] eqn:Ev; [|done]. cbn [bind_result].
  destruct (validate_next_inv _ _ _ _ Hl Hr Ev) as [Hcp E].
  destruct (octets_nonempty cp) as (b & bs & Eo). rewrite Eo in E. cbn [app] in E. injection E as E1 E2. subst b rest.
  apply Forall_app in Hr as [_ Hr].
  destruct (next_loop fuel r) as [cps'|] eqn:En; [|done]. cbn [bind_result]. intros [= <-].
  cbn in Hf. rewrite length_app in Hf. destruct (IH r cps' Hr ltac:(lia) En) as [Hcps ->].
  split; [by constructor|]. by rewrite bind_cons, Eo.
Qed.

(** A string of bytes decodes to code points exactly if these are Unicode
    scalar values and the string is their encodings one after the other, in the
    shortest form; anything else throws. *)
Lemma code_points_spec s cps :
  Forall (in_u 8) s -> (code_points s = Ok cps <-> Forall scalar cps /\ s = cps ≫= octets).
Proof.
  intros Hs. unfold code_points. split; [by apply next_loop_inv|]. intros [Hc ->]. by apply next_loop_octets.
Qed.

(** *** UTF-16 *)
Definition pair_units (cp : Z) : list Z :=
  if 0xffff <? cp then [0xd7c0 + cp / 1024; 0xdc00 + cp mod 1024] else [cp].

Lemma units_spec cp : scalar cp -> units cp = pair_units cp.
Proof.
  intros Hs. apply scalar_spec in Hs. unfold units, pair_units. destruct (Z.ltb_spec 0xffff cp).
  - change 0x3ff with (Z.ones 10). rewrite land_mask, Z.shiftr_div_pow2 by lia. change (2 ^ 10) with 1024.
    unfold LEAD_OFFSET, LEAD_SURROGATE_MIN, TRAIL_SURROGATE_MIN. change (Z.shiftr 0x10000 10) with 64.
    repeat f_equal; rewrite wrap_id; [lia|red; edlia|lia|red; edlia].
  - rewrite wrap_id; [done|width].
Qed.

Lemma mask16_id b : in_u 16 b -> mask16 b = b.
Proof. intros Hb. unfold mask16. rewrite Z.land_comm. change 0xffff with (Z.ones 16). rewrite land_mask by lia. by apply Z.mod_small. Qed.

Lemma surrogates_combine w w2 :
  0xd800 <= w <= 0xdbff -> 0xdc00 <= w2 <= 0xdfff ->
  u32 (Z.shiftl w 10 + w2 + SURROGATE_OFFSET) = 0x10000 + 1024 * (w - 0xd800) + (w2 - 0xdc00).
Proof.
  intros Hw Hw2. rewrite Z.shiftl_mul_pow2 by lia. unfold SURROGATE_OFFSET.
  change (u32 (0x10000 - Z.shiftl LEAD_SURROGATE_MIN 10 - TRAIL_SURROGATE_MIN)) with (2 ^ 32 - 56613888).
  rewrite <- (wrap_id 32 (0x10000 + 1024 * (w - 0xd800) + (w2 - 0xdc00))) by width.
  unfold wrap. replace (w * 2 ^ 10 + w2 + (2 ^ 32 - 56613888)) with (65536 + 1024 * (w - 55296) + (w2 - 56320) + 1 * 2 ^ 32) by lia.
  by rewrite Z.mod_add.
Qed.

Lemma is_lead_spec w : is_lead_surrogate w = true <-> 0xd800 <= w <= 0xdbff.
Proof. unfold is_lead_surrogate, LEAD_SURROGATE_MIN, LEAD_SURROGATE_MAX. rewrite andb_true_iff, !Z.leb_le. lia. Qed.
Lemma is_trail_surrogate_spec w : is_trail_surrogate w = true <-> 0xdc00 <= w <= 0xdfff.
Proof. unfold is_trail_surrogate, TRAIL_SURROGATE_MIN, TRAIL_SURROGATE_MAX. rewrite andb_true_iff, !Z.leb_le. lia. Qed.

Lemma utf16to8_units cps :
  Forall scalar cps -> utf16to8 (cps ≫= units) = Ok (cps ≫= octets).
Proof.
  induction 1 as [|cp cps Hcp Hcps IH]; [done|]. rewrite !bind_cons, units_spec by done.
  pose proof (append_octets _ Hcp) as Ha. pose proof Hcp as Hs. apply scalar_spec in Hs. unfold pair_units.
  destruct (Z.ltb_spec 0xffff cp); cbn [app utf16to8].
  - assert (0xd800 <= 0xd7c0 + cp / 1024 <= 0xdbff) as H1 by edlia.
    assert (0xdc00 <= 0xdc00 + cp mod 1024 <= 0xdfff) as H2 by edlia.
    rewrite !mask16_id by width. rewrite (proj2 (is_lead_spec _) H1), (proj2 (is_trail_surrogate_spec _) H2).
    rewrite surrogates_combine by done. replace (0x10000 + _ + _) with cp by edlia. rewrite Ha. cbn [bind_result]. by rewrite IH.
  - rewrite mask16_id by width.
    destruct (is_lead_surrogate cp) eqn:E; [apply is_lead_spec in E; lia|].
    destruct (is_trail_surrogate cp) eqn:E2; [apply is_trail_surrogate_spec in E2; lia|].
    rewrite Ha. cbn [bind_result]. by rewrite IH.
Qed.

Lemma append_inv cp bs : 0 <= cp -> append cp = Ok bs -> scalar cp /\ bs = octets cp.
Proof.
  intros H0 Ha. destruct (is_code_point_valid cp) eqn:Hv; [|unfold append in Ha; by rewrite Hv in Ha].
  assert (scalar cp) as Hs by done. rewrite append_octets in Ha by done. split; [done|congruence].
Qed.

Lemma utf16to8_inv n ws s :
  (length ws <= n)%nat -> Forall (in_u 16) ws -> utf16to8 ws = Ok s ->
  exists cps, Forall scalar cps /\ ws = cps ≫= units /\ s = cps ≫= octets.
Proof.
  revert ws s. induction n as [|n IH]; intros ws s Hn Hws E.
  { destruct ws; [|cbn in Hn; lia]. injection E as <-. by exists []. }
  destruct ws as [|w ws]; [injection E as <-; by exists []|]. inversion Hws as [|? ? Hw Hws']; subst.
  cbn [utf16to8] in E. rewrite mask16_id in E by done. cbn in Hn.
  destruct (is_lead_surrogate w) eqn:El.
  - destruct ws as [|w2 ws]; [done|]. inversion Hws' as [|? ? Hw2 Hws'']; subst. rewrite mask16_id in E by done.
    destruct (is_trail_surrogate w2) eqn:Et; [|done]. apply is_lead_spec in El. apply is_trail_surrogate_spec in Et.
    rewrite surrogates_combine in E by done. set (cp := 0x10000 + 1024 * (w - 0xd800) + (w2 - 0xdc00)) in *.
    destruct (append cp) as [bs|] eqn:Ea; [|done]. apply append_inv in Ea as [Hcp ->]; [|unfold cp; lia]. cbn [bind_result] in E.
    destruct (utf16to8 ws) as [s'|] eqn:E'; [|done]. cbn [bind_result] in E. injection E as <-.
    destruct (IH ws s') as (cps & Hcps & -> & ->); [cbn in Hn; lia|done|done|].
    exists (cp :: cps). split; [by constructor|]. rewrite !bind_cons, units_spec by done. split; [|done].
    unfold pair_units. assert ((0xffff <? cp) = true) as -> by (apply Z.ltb_lt; unfold cp; lia). cbn [app].
    assert (w = 55232 + cp / 1024) as <- by (unfold cp; edlia). assert (w2 = 56320 + cp mod 1024) as <- by (unfold cp; edlia). done.
  - destruct (is_trail_surrogate w) eqn:Et; [done|].
    destruct (append w) as [bs|] eqn:Ea; [|done]. apply append_inv in Ea as [Hcp ->]; [|unfold in_u in Hw; lia]. cbn [bind_result] in E.
    destruct (utf16to8 ws) as [s'|] eqn:E'; [|done]. cbn [bind_result] in E. injection E as <-.
    destruct (IH ws s') as (cps & Hcps & -> & ->); [lia|done|done|].
    exists (w :: cps). split; [by constructor|]. rewrite !bind_cons, units_spec by done. split; [|done].
    unfold pair_units. destruct (Z.ltb_spec 0xffff w); [exfalso; revert Hw; unfold in_u; norm_pow; lia|done].
Qed.

(** C40: converting a string from UTF-8 to UTF-16 and back are inverse: [ws] is the
    UTF-16 form of the bytes [s] exactly if converting it back gives [s]. *)
Theorem utf8to16_utf16to8 s ws :
  Forall (in_u 8) s -> Forall (in_u 16) ws -> (utf8to16 s = Ok ws <-> utf16to8 ws = Ok s).
Proof.
  intros Hs Hws. unfold utf8to16. split.
  - destruct (code_points s) as [cps|] eqn:E; [|done]. intros [= <-]. apply code_points_spec in E as [Hc ->]; [|done].
    by apply utf16to8_units.
  - intros E. apply (utf16to8_inv (length ws)) in E as (cps & Hc & -> & ->); [|done|done].
    rewrite (proj2 (code_points_spec _ cps Hs)); [done|]. done.
Qed.

Lemma utf8to16_utf16to8_witness : utf16to8 [0x41; 0x20ac; 0xd83d; 0xde00] = Ok [0x41; 0xe2; 0x82; 0xac; 0xf0; 0x9f; 0x98; 0x80].
Proof. apply (utf8to16_utf16to8 [0x41; 0xe2; 0x82; 0xac; 0xf0; 0x9f; 0x98; 0x80]); [repeat constructor; vm_compute; congruence..|]. reflexivity. Defined.

End Utf8.
