(* ===== verification/Util.v ===== *)
(** * Util: text functions

    The functions on strings of [shared/Utilities/Util.cpp] and [Util.h], and the
    checks of names of [game/Globals/ObjectMgr.cpp] that use them. A [std::string]
    is the list of its bytes, a [std::wstring] the list of its characters; a
    buffer that is written past its end and a substring that starts past the end
    are faults. *)
From S2P Require Import Prelude Utf8.
Import Utf8.
#[global] Open Scope Z_scope.

Module Util.

Inductive fault := BufferOverflow | OutOfRange.
#[global] Instance fault_eq_dec : EqDecision fault.
Proof. solve_decision. Defined.

(** ** Tokens and numbers *)

(** Splitting at [sep] up to the terminator; an empty last token is dropped. [acc] is
    the text between [posold] and [posnew]. *)
Fixpoint tokenize (sep : Z) (acc src : list Z) : list (list Z) :=
  match src with
  | [] => if decide (acc = []) then [] else [acc]
  | c :: src =>
      if c =? sep then acc :: tokenize sep [] src
      else if c =? 0 then (if decide (acc = []) then [] else [acc])
      else tokenize sep (acc ++ [c]) src
  end.
Definition Tokenizer (src : list Z) (sep : Z) : list (list Z) := tokenize sep [] src.

(** Decimal digits, as a stream writes an unsigned number; twenty are enough for
    64 bits. *)
Fixpoint digits (fuel : nat) (n : Z) : list Z :=
  match fuel with
  | O => []
  | S fuel => if n <? 10 then [48 + n] else digits fuel (n / 10) ++ [48 + n mod 10]
  end.
Definition decimal (n : Z) : list Z := digits 20 n.

Definition isdigit (c : Z) : bool := (48 <=? c) && (c <=? 57).
Definition isspace (c : Z) : bool := (c =? 32) || ((9 <=? c) && (c <=? 13)).

(** [strtol] with base ten, saturated at the width of [long]. *)
Fixpoint read_digits (n : Z) (s : list Z) : Z :=
  match s with
  | c :: s => if isdigit c then read_digits (10 * n + (c - 48)) s else n
  | [] => n
  end.
Fixpoint strtol (s : list Z) : Z :=
  match s with
  | [] => 0
  | c :: s' =>
      if isspace c then strtol s'
      else if c =? 45 then Z.max (- 2 ^ 63) (- read_digits 0 s')
      else if c =? 43 then Z.min (2 ^ 63 - 1) (read_digits 0 s')
      else Z.min (2 ^ 63 - 1) (read_digits 0 s)
  end.
Definition atol (s : list Z) : Z := strtol s.
Definition atoi (s : list Z) : Z := s32 (strtol s).

(** ** Lines, times and money *)
Definition invChars : list Z := [32; 9; 7; 10].

(** The loop over [pos]: what has been written, the last of it being a space. *)
Fixpoint strip_loop (space : bool) (str : list Z) : list Z :=
  match str with
  | [] => []
  | c :: str =>
      if decide (c ∈ invChars) then (if space then strip_loop true str else 32 :: strip_loop true str)
      else c :: strip_loop false str
  end.

(** [std::string::find]. *)
Fixpoint is_prefix (p s : list Z) : bool :=
  match p, s with
  | [], _ => true
  | x :: p, y :: s => (x =? y) && is_prefix p s
  | _, _ => false
  end.
Fixpoint contains (s p : list Z) : bool :=
  is_prefix p s || match s with [] => false | _ :: s => contains s p end.

(** [|TInterface] *)
Definition interface_mark : list Z := [124; 84; 73; 110; 116; 101; 114; 102; 97; 99; 101].
Definition stripLineInvisibleChars (str : list Z) : list Z :=
  let str := strip_loop false str in
  if contains str interface_mark then [] else str.

Definition MINUTE := 60.
Definition HOUR := 60 * MINUTE.
Definition DAY := 24 * HOUR.

(** The words after a number, short and long. *)
Definition day_text (shortText : bool) : list Z := if shortText then [100] else [32; 68; 97; 121; 40; 115; 41; 32].
Definition hour_text (shortText : bool) : list Z := if shortText then [104] else [32; 72; 111; 117; 114; 40; 115; 41; 32].
Definition minute_text (shortText : bool) : list Z :=
  if shortText then [109] else [32; 77; 105; 110; 117; 116; 101; 40; 115; 41; 32].
Definition second_text (shortText : bool) : list Z :=
  if shortText then [115] else [32; 83; 101; 99; 111; 110; 100; 40; 115; 41; 46].

Definition secsToTimeString (timeInSecs : Z) (shortText hoursOnly : bool) : list Z :=
  let secs := timeInSecs mod MINUTE in
  let minutes := timeInSecs mod HOUR / MINUTE in
  let hours := timeInSecs mod DAY / HOUR in
  let days := timeInSecs / DAY in
  (if days =? 0 then [] else decimal days ++ day_text shortText)
  ++ (if negb (hours =? 0) || hoursOnly then decimal hours ++ hour_text shortText else [])
  ++ (if hoursOnly then []
      else (if minutes =? 0 then [] else decimal minutes ++ minute_text shortText)
        ++ (if negb (secs =? 0) || ((days =? 0) && (hours =? 0) && (minutes =? 0))
            then decimal secs ++ second_text shortText else [])).

(** [buffer] is the number read and not yet counted. *)
Fixpoint time_loop (secs buffer : Z) (s : list Z) : Z :=
  match s with
  | [] => secs
  | c :: s =>
      if isdigit c then time_loop secs (u32 (u32 (buffer * 10) + (c - 48))) s
      else
        let multiplier :=
          if c =? 100 then DAY else if c =? 104 then HOUR else if c =? 109 then MINUTE else if c =? 115 then 1 else 0 in
        if multiplier =? 0 then 0                           (* bad format *)
        else time_loop (u32 (secs + u32 (buffer * multiplier))) 0 s
  end.
Definition TimeStringToSecs (timestring : list Z) : Z := time_loop 0 0 timestring.

Definition count (c : Z) (s : list Z) : Z := Z.of_nat (length (filter (fun x => x = c) s)).

Fixpoint money_loop (money : Z) (tokens : list (list Z)) : Z :=
  match tokens with
  | [] => money
  | t :: tokens =>
      let gCount := count 103 t in
      let sCount := count 115 t in
      let cCount := count 99 t in
      if negb (gCount + sCount + cCount =? 1) then 0
      else
        let amount := u32 (atoi t) in
        money_loop
          (s32 (u32 money + u32 (if gCount =? 1 then amount * 100 * 100 else if sCount =? 1 then amount * 100 else amount)))
          tokens
  end.
Definition MoneyStringToMoney (moneyString : list Z) : Z :=
  if negb ((count 103 moneyString =? 1) || (count 115 moneyString =? 1) || (count 99 moneyString =? 1)) then 0
  else money_loop 0 (Tokenizer moneyString 32).

(** ** Conversions *)

(** A wide string is resized to the number of code points and then written unit by
    unit, so a code point above 0xffff is written past its end. An empty string
    leaves [wstr] as it is. *)
Definition Utf8toWStr (utf8str wstr : list Z) : result fault (bool * list Z) :=
  match distance utf8str with
  | Throw _ => Ok (false, [])
  | Ok len =>
      if len =? 0 then Ok (true, wstr)
      else match utf8to16 utf8str with
           | Throw _ => Ok (false, [])
           | Ok us => if len <? Z.of_nat (length us) then Throw BufferOverflow else Ok (true, us)
           end
  end.

Definition store (i : Z) (x : Z) (buf : list Z) : result fault (list Z) :=
  if i <? Z.of_nat (length buf) then Ok (<[Z.to_nat i := x]> buf) else Throw BufferOverflow.

(** The overload on a buffer of [length wstr] characters: the result, the buffer
    and the new [wsize]. *)
Definition no_wstr (wstr : list Z) (wsize : Z) : result fault (bool * list Z * Z) :=
  if 0 <? wsize then let? wstr := store 0 0 wstr in Ok (false, wstr, 0) else Ok (false, wstr, 0).
Definition Utf8toWStr_buffer (utf8str wstr : list Z) (wsize : Z) : result fault (bool * list Z * Z) :=
  match distance utf8str with
  | Throw _ => no_wstr wstr wsize
  | Ok len =>
      if wsize <? len then no_wstr wstr wsize
      else match utf8to16 utf8str with
           | Throw _ => no_wstr wstr len
           | Ok us =>
               if (length wstr <? length us)%nat then Throw BufferOverflow
               else let? wstr := store len 0 (splice 0 us wstr) in Ok (true, wstr, len)
           end
  end.

(** Both overloads: the new value of [utf8str]. *)
Definition WStrToUtf8 (wstr : list Z) : bool * list Z :=
  match utf16to8 wstr with Ok utf8str => (true, utf8str) | Throw _ => (false, []) end.

(** The length, and the string, which is emptied when it is not well-formed. *)
Definition utf8length (utf8str : list Z) : Z * list Z :=
  match distance utf8str with Ok n => (n, utf8str) | Throw _ => (0, []) end.

Definition utf8truncate (utf8str : list Z) (len : Z) : result fault (list Z) :=
  match distance utf8str with
  | Throw _ => Ok []
  | Ok wlen =>
      if wlen <=? len then Ok utf8str
      else match utf8to16 utf8str with
           | Throw _ => Ok []
           | Ok wstr =>
               if wlen <? Z.of_nat (length wstr) then Throw BufferOverflow
               else match utf16to8 (take (Z.to_nat len) wstr) with Ok s => Ok s | Throw _ => Ok [] end
           end
  end.

(** ** Characters *)
Definition between (a b c : Z) : bool := (a <=? c) && (c <=? b).

Definition isBasicLatinCharacter (wchar : Z) : bool := between 97 122 wchar || between 65 90 wchar.
Definition isExtendedLatinCharacter (wchar : Z) : bool :=
  isBasicLatinCharacter wchar || between 0x00C0 0x00D6 wchar || between 0x00D8 0x00DF wchar || (wchar =? 0x00DF)
  || between 0x00E0 0x00F6 wchar || between 0x00F8 0x00FE wchar || between 0x0100 0x012F wchar || (wchar =? 0x1E9E).
Definition isCyrillicCharacter (wchar : Z) : bool :=
  between 0x0410 0x044F wchar || (wchar =? 0x0401) || (wchar =? 0x0451).
Definition isEastAsianCharacter (wchar : Z) : bool :=
  between 0x1100 0x11F9 wchar || between 0x3041 0x30FF wchar || between 0x3131 0x318E wchar
  || between 0x31F0 0x31FF wchar || between 0x3400 0x4DB5 wchar || between 0x4E00 0x9FC3 wchar
  || between 0xAC00 0xD7A3 wchar || between 0xFF01 0xFFEE wchar.
Definition isNumeric (wchar : Z) : bool := between 48 57 wchar.
Definition isNumericOrSpace (wchar : Z) : bool := isNumeric wchar || (wchar =? 32).

Definition isBasicLatinString (wstr : list Z) (numericOrSpace : bool) : bool :=
  forallb (fun c => isBasicLatinCharacter c || (numericOrSpace && isNumericOrSpace c)) wstr.
Definition isExtendedLatinString (wstr : list Z) (numericOrSpace : bool) : bool :=
  forallb (fun c => isExtendedLatinCharacter c || (numericOrSpace && isNumericOrSpace c)) wstr.
Definition isCyrillicString (wstr : list Z) (numericOrSpace : bool) : bool :=
  forallb (fun c => isCyrillicCharacter c || (numericOrSpace && isNumericOrSpace c)) wstr.
Definition isEastAsianString (wstr : list Z) (numericOrSpace : bool) : bool :=
  forallb (fun c => isEastAsianCharacter c || (numericOrSpace && isNumericOrSpace c)) wstr.

Definition wcharToUpper (wchar : Z) : Z :=
  if between 97 122 wchar then u16 wchar - 0x0020
  else if wchar =? 0x00DF then 0x1E9E
  else if between 0x00E0 0x00F6 wchar then u16 wchar - 0x0020
  else if between 0x00F8 0x00FE wchar then u16 wchar - 0x0020
  else if between 0x0101 0x012F wchar && (wchar mod 2 =? 1) then u16 wchar - 0x0001
  else if between 0x0430 0x044F wchar then u16 wchar - 0x0020
  else if wchar =? 0x0451 then 0x0401
  else wchar.
Definition wcharToUpperOnlyLatin (wchar : Z) : Z :=
  if isBasicLatinCharacter wchar then wcharToUpper wchar else wchar.
Definition wcharToLower (wchar : Z) : Z :=
  if between 65 90 wchar then u16 wchar + 0x0020
  else if between 0x00C0 0x00D6 wchar then u16 wchar + 0x0020
  else if between 0x00D8 0x00DE wchar then u16 wchar + 0x0020
  else if between 0x0100 0x012E wchar && (wchar mod 2 =? 0) then u16 wchar + 0x0001
  else if wchar =? 0x1E9E then 0x00DF
  else if wchar =? 0x0401 then 0x0451
  else if between 0x0410 0x042F wchar then u16 wchar + 0x0020
  else wchar.
Definition wstrToUpper (str : list Z) : list Z := map wcharToUpper str.
Definition wstrToLower (str : list Z) : list Z := map wcharToLower str.

Definition Utf8FitTo (str search : list Z) : result fault bool :=
  let? (ok, temp) := Utf8toWStr str [] in
  Ok (ok && contains (wstrToLower temp) search).

Definition hex_digit (n : Z) : Z := if n <? 10 then 48 + n else 55 + n.
Definition ByteArrayToHexStr (bytes : list Z) (reverse : bool) : list Z :=
  (if reverse then rev bytes else bytes) ≫= (fun b => [hex_digit (b / 16); hex_digit (b mod 16)]).

(** ** Declined names *)
Definition dropEnds (declension : Z) : list (list Z) :=
  let a := [0x0430] in let o := [0x043E] in let ya := [0x044F] in let ie := [0x0435] in
  let i := [0x0438] in let yeru := [0x044B] in let u := [0x0443] in let yu := [0x044E] in
  let oj := [0x043E; 0x0439] in let ie_j := [0x0435; 0x0439] in let io_j := [0x0451; 0x0439] in
  let o_m := [0x043E; 0x043C] in let io_m := [0x0451; 0x043C] in let ie_m := [0x0435; 0x043C] in
  let soft := [0x044C] in let j := [0x0439] in
  if declension =? 0 then [a; o; ya; ie; soft; j]
  else if declension =? 1 then [a; ya; yeru; i]
  else if declension =? 2 then [ie; u; yu; i]
  else if declension =? 3 then [u; yu; o; ie; soft; ya; a]
  else if declension =? 4 then [oj; io_j; ie_j; o_m; io_m; ie_m; yu]
  else [ie; i].

(** [wname.size()-len] wraps around below zero, and [substr] throws. *)
Fixpoint drop_end (wname : list Z) (ends : list (list Z)) : result fault (list Z) :=
  match ends with
  | [] => Ok wname
  | e :: ends =>
      if (length wname <? length e)%nat then Throw OutOfRange
      else
        let n := (length wname - length e)%nat in
        if decide (drop n wname = e) then Ok (take n wname) else drop_end wname ends
  end.
Definition GetMainPartOfName (wname : list Z) (declension : Z) : result fault (list Z) :=
  match wname with
  | c :: _ => if negb (isCyrillicCharacter c) || (5 <? declension) then Ok wname else drop_end wname (dropEnds declension)
  | [] => Ok wname
  end.

Fixpoint declined_loop (w_ownname mainpart : list Z) (x y : bool) (i : Z) (names : list (list Z)) : result fault bool :=
  match names with
  | [] => Ok (x || y)
  | name :: names =>
      let? (ok, wname) := Utf8toWStr name [] in
      if negb ok then Ok false
      else
        let? part := GetMainPartOfName wname (i + 1) in
        declined_loop w_ownname mainpart (if decide (mainpart = part) then x else false)
          (if decide (w_ownname = wname) then y else false) (i + 1) names
  end.
Definition CheckDeclinedNames (w_ownname : list Z) (names : list (list Z)) : result fault bool :=
  let? mainpart := GetMainPartOfName w_ownname 0 in
  declined_loop w_ownname mainpart true true 0 names.

(** ** Names *)
Definition MAX_PLAYER_NAME := 12.
Definition MAX_INTERNAL_PLAYER_NAME := 15.
Definition MAX_PET_NAME := 12.
Definition MAX_CHARTER_NAME := 24.

(** [wstr_buf] holds [MAX_INTERNAL_PLAYER_NAME + 1] characters, of which the first
    [wstr_len] are written before they are read. *)
Definition normalizePlayerName (name : list Z) : result fault (bool * list Z) :=
  if decide (name = []) then Ok (false, name)
  else
    let? (ok, wstr_buf, wstr_len) :=
      Utf8toWStr_buffer name (replicate (Z.to_nat (MAX_INTERNAL_PLAYER_NAME + 1)) 0) MAX_INTERNAL_PLAYER_NAME in
    if negb ok then Ok (false, name)
    else
      let wstr := take (Z.to_nat wstr_len)
        match wstr_buf with [] => [] | c :: cs => wcharToUpper c :: map wcharToLower cs end in
      Ok (WStrToUtf8 wstr).

Definition LT_BASIC_LATIN := 0x0000.
Definition LT_EXTENDEN_LATIN := 0x0001.
Definition LT_CYRILLIC := 0x0002.
Definition LT_EAST_ASIA := 0x0004.
Definition LT_ANY := 0xFFFF.

(** The configuration the checks read: the realm zone and, for each kind of name,
    the minimal length and the strictness. *)
Record Config := mkConfig { CONFIG_REALM_ZONE : Z; min_name : Z; strict_names : Z }.

Definition GetRealmLanguageType (zone : Z) (create : bool) : Z :=
  if decide (zone ∈ [0; 1; 26; 28]) then LT_ANY
  else if decide (zone ∈ [2; 3; 4; 8; 9; 10; 11]) then LT_EXTENDEN_LATIN
  else if decide (zone ∈ [6; 14; 16]) then LT_EAST_ASIA
  else if zone =? 12 then LT_CYRILLIC
  else if create then LT_BASIC_LATIN else LT_ANY.

Definition isValidString (zone : Z) (wstr : list Z) (strictMask : Z) (numericOrSpace create : bool) : bool :=
  if strictMask =? 0 then
    isExtendedLatinString wstr numericOrSpace || isCyrillicString wstr numericOrSpace || isEastAsianString wstr numericOrSpace
  else
    let lt := GetRealmLanguageType zone create in
    (has strictMask 2
     && ((has lt LT_EXTENDEN_LATIN && isExtendedLatinString wstr numericOrSpace)
         || (has lt LT_CYRILLIC && isCyrillicString wstr numericOrSpace)
         || (has lt LT_EAST_ASIA && isEastAsianString wstr numericOrSpace)))
    || (has strictMask 1 && isBasicLatinString wstr numericOrSpace).

Inductive NameResult :=
| CHAR_NAME_SUCCESS | CHAR_NAME_INVALID_CHARACTER | CHAR_NAME_TOO_LONG | CHAR_NAME_TOO_SHORT
| CHAR_NAME_MIXED_LANGUAGES | CHAR_NAME_THREE_CONSECUTIVE.

Fixpoint three_consecutive (s : list Z) : bool :=
  match s with
  | a :: ((b :: c :: _) as s') => ((c =? b) && (c =? a)) || three_consecutive s'
  | _ => false
  end.

Definition CheckPlayerName (cfg : Config) (name : list Z) (create : bool) : result fault NameResult :=
  let? (ok, wname) := Utf8toWStr name [] in
  if negb ok then Ok CHAR_NAME_INVALID_CHARACTER
  else
    let size := Z.of_nat (length wname) in
    if MAX_PLAYER_NAME <? size then Ok CHAR_NAME_TOO_LONG
    else if size <? min_name cfg then Ok CHAR_NAME_TOO_SHORT
    else if negb (isValidString (CONFIG_REALM_ZONE cfg) wname (strict_names cfg) false create) then Ok CHAR_NAME_MIXED_LANGUAGES
    else if three_consecutive (wstrToLower wname) then Ok CHAR_NAME_THREE_CONSECUTIVE
    else Ok CHAR_NAME_SUCCESS.

Definition IsValidCharterName (cfg : Config) (name : list Z) : result fault bool :=
  let? (ok, wname) := Utf8toWStr name [] in
  let size := Z.of_nat (length wname) in
  Ok (ok && (size <=? MAX_CHARTER_NAME) && (min_name cfg <=? size)
      && isValidString (CONFIG_REALM_ZONE cfg) wname (strict_names cfg) true false).

Inductive PetNameInvalidReason :=
| PET_NAME_SUCCESS | PET_NAME_INVALID | PET_NAME_TOO_LONG | PET_NAME_TOO_SHORT | PET_NAME_MIXED_LANGUAGES.
Definition CheckPetName (cfg : Config) (name : list Z) : result fault PetNameInvalidReason :=
  let? (ok, wname) := Utf8toWStr name [] in
  if negb ok then Ok PET_NAME_INVALID
  else
    let size := Z.of_nat (length wname) in
    if MAX_PET_NAME <? size then Ok PET_NAME_TOO_LONG
    else if size <? min_name cfg then Ok PET_NAME_TOO_SHORT
    else if negb (isValidString (CONFIG_REALM_ZONE cfg) wname (strict_names cfg) false false) then Ok PET_NAME_MIXED_LANGUAGES
    else Ok PET_NAME_SUCCESS.

Definition IsReservedName (_reservedNamesStore : list (list Z)) (name : list Z) : result fault bool :=
  let? (ok, wstr) := Utf8toWStr name [] in
  Ok (ok && bool_decide (wstrToLower wstr ∈ _reservedNamesStore)).

Example normalized : normalizePlayerName [97; 66; 195; 137] = Ok (true, [65; 98; 195; 169]).
Proof. reflexivity. Qed.
Example declined_letter : GetMainPartOfName [0x0430] 4 = Throw OutOfRange.
Proof. reflexivity. Qed.
Example time_1d : secsToTimeString 90061 true false = [49; 100; 49; 104; 49; 109; 49; 115].
Proof. reflexivity. Qed.
Example money_2g : MoneyStringToMoney [50; 103; 32; 53; 99] = 20005.
Proof. reflexivity. Qed.

(** ** Numbers *)
Lemma wrap_mul_l w a b : 0 <= w -> wrap w (wrap w a * b) = wrap w (a * b).
Proof. intros. unfold wrap. by rewrite Zmult_mod_idemp_l. Qed.

Lemma isdigit_spec d : 0 <= d < 10 -> isdigit (48 + d) = true.
Proof. intros. unfold isdigit. apply andb_true_iff. rewrite !Z.leb_le. lia. Qed.

Lemma digits_digit f n : 0 <= n -> Forall (fun c => exists d, 0 <= d < 10 /\ c = 48 + d) (digits f n).
Proof.
  revert n. induction f as [|f IH]; intros n Hn; [by constructor|]. cbn [digits]. destruct (Z.ltb_spec n 10).
  - repeat constructor. exists n. lia.
  - apply Forall_app. split; [apply IH, Z.div_pos; lia|]. repeat constructor. exists (n mod 10).
    split; [apply Z.mod_pos_bound; lia|done].
Qed.

(** Every loop that shifts digits into a number reads [decimal n] as [n]; [step] is what
    it does with a digit. *)
Lemma read_decimal {A} (step : A -> Z -> A) (value : Z -> A) f n :
  (forall b d, 0 <= d < 10 -> step (value b) (48 + d) = value (10 * b + d)) ->
  0 <= n < 10 ^ Z.of_nat f -> foldl step (value 0) (digits f n) = value n.
Proof.
  intros Hstep. revert n. induction f as [|f IH]; intros n Hn.
  { change (10 ^ Z.of_nat 0) with 1 in Hn. assert (n = 0) as -> by lia. done. }
  cbn [digits]. destruct (Z.ltb_spec n 10); [cbn [foldl]; rewrite Hstep by lia; f_equal; lia|].
  rewrite Nat2Z.inj_succ, Z.pow_succ_r in Hn by lia.
  rewrite foldl_app, IH; [|split; [apply Z.div_pos; lia|apply Z.div_lt_upper_bound; lia]]. cbn [foldl].
  rewrite Hstep by (apply Z.mod_pos_bound; lia). f_equal. pose proof (Z.div_mod n 10). lia.
Qed.

Lemma time_loop_digits secs b ds rest :
  Forall (fun c => exists d, 0 <= d < 10 /\ c = 48 + d) ds ->
  time_loop secs b (ds ++ rest) = time_loop secs (foldl (fun b c => u32 (u32 (b * 10) + (c - 48))) b ds) rest.
Proof.
  intros Hds. revert b. induction Hds as [|c ds (d & Hd & ->) _ IH]; intros b; [done|]. cbn [app time_loop].
  rewrite isdigit_spec by done. apply IH.
Qed.

Lemma time_loop_decimal secs n rest :
  0 <= n < 10 ^ 20 -> time_loop secs 0 (decimal n ++ rest) = time_loop secs (u32 n) rest.
Proof.
  intros Hn. unfold decimal. rewrite time_loop_digits by (apply digits_digit; lia). f_equal.
  apply (read_decimal _ u32); [|done]. intros b d Hd. rewrite wrap_mul_l, wrap_add_l by lia. f_equal. lia.
Qed.

Lemma read_digits_digits n ds rest :
  Forall (fun c => exists d, 0 <= d < 10 /\ c = 48 + d) ds ->
  read_digits n (ds ++ rest) = read_digits (foldl (fun n c => 10 * n + (c - 48)) n ds) rest.
Proof.
  intros Hds. revert n. induction Hds as [|c ds (d & Hd & ->) _ IH]; intros n; [done|]. cbn [app read_digits].
  rewrite isdigit_spec by done. apply IH.
Qed.

(** Reading a number back from its decimal digits. *)
Lemma atol_decimal n : 0 <= n < 2 ^ 63 -> atol (decimal n) = n.
Proof.
  intros Hn. unfold atol, decimal. pose proof (digits_digit 20 n ltac:(lia)) as Hd.
  assert (read_digits 0 (digits 20 n) = n) as E.
  { rewrite <- (app_nil_r (digits 20 n)), read_digits_digits by done. cbn [read_digits].
    apply (read_decimal _ (fun n => n)); [intros; lia|]. split; [lia|]. etransitivity; [apply Hn|]. by vm_compute. }
  destruct (digits 20 n) as [|c ds] eqn:Eq.
  { cbn in E. subst n. discriminate Eq. }
  apply Forall_cons in Hd as [(d & Hd' & ->) _]. cbn [strtol].
  assert (isspace (48 + d) = false) as ->.
  { unfold isspace. rewrite orb_false_iff, andb_false_iff, Z.eqb_neq, Z.leb_gt, Z.leb_gt. lia. }
  rewrite (proj2 (Z.eqb_neq (48 + d) 45)), (proj2 (Z.eqb_neq (48 + d) 43)) by lia. rewrite E. lia.
Qed.

(** Splitting a list of words, each followed by the separator. *)
Lemma tokenize_word sep acc w rest :
  Forall (fun c => c <> sep /\ c <> 0) w -> tokenize sep acc (w ++ sep :: rest) = (acc ++ w) :: tokenize sep [] rest.
Proof.
  intros Hw. revert acc. induction Hw as [|c w [H1 H2] _ IH]; intros acc; cbn [app tokenize].
  - rewrite Z.eqb_refl, app_nil_r. done.
  - rewrite (proj2 (Z.eqb_neq _ _) H1), (proj2 (Z.eqb_neq _ _) H2), IH. by rewrite <- app_assoc.
Qed.
Lemma Tokenizer_words sep ws :
  Forall (Forall (fun c => c <> sep /\ c <> 0)) ws -> Tokenizer (ws ≫= (fun w => w ++ [sep])) sep = ws.
Proof.
  unfold Tokenizer. induction 1 as [|w ws Hw _ IH]; [done|]. rewrite bind_cons, <- app_assoc. cbn [app].
  rewrite tokenize_word by done. by rewrite IH.
Qed.

Definition time_unit (c : Z) : Z :=
  if c =? 100 then DAY else if c =? 104 then HOUR else if c =? 109 then MINUTE else if c =? 115 then 1 else 0.

Lemma time_loop_part secs n c rest :
  in_u 32 secs -> 0 <= n < 10 ^ 20 -> isdigit c = false -> time_unit c <> 0 ->
  time_loop secs 0 (decimal n ++ [c] ++ rest) = time_loop (u32 (secs + n * time_unit c)) 0 rest.
Proof.
  intros Hs Hn Hc Hu. rewrite time_loop_decimal by done. cbn [app time_loop]. rewrite Hc. fold (time_unit c).
  rewrite (proj2 (Z.eqb_neq _ _) Hu). cbv zeta. by rewrite wrap_mul_l, wrap_add_r.
Qed.

Lemma time_loop_optional (b : bool) secs n c rest :
  in_u 32 secs -> 0 <= n < 10 ^ 20 -> isdigit c = false -> time_unit c <> 0 -> (b = false -> n = 0) ->
  time_loop secs 0 ((if b then decimal n ++ [c] else []) ++ rest) = time_loop (u32 (secs + n * time_unit c)) 0 rest.
Proof.
  intros Hs Hn Hc Hu Hb. destruct b; [rewrite <- app_assoc; by apply time_loop_part|].
  rewrite Hb by done. cbn [app]. by rewrite Z.mul_0_l, Z.add_0_r, wrap_id.
Qed.

Lemma if_negb {A} (b : bool) (x y : A) : (if b then x else y) = if negb b then y else x.
Proof. by destruct b. Qed.

Lemma split_time t :
  0 <= t ->
  t = t / DAY * DAY + t mod DAY / HOUR * HOUR + t mod HOUR / MINUTE * MINUTE + t mod MINUTE
  /\ 0 <= t / DAY <= t /\ 0 <= t mod DAY / HOUR < 24 /\ 0 <= t mod HOUR / MINUTE < 60 /\ 0 <= t mod MINUTE < 60.
Proof.
  intros Ht.
  assert (t mod DAY mod HOUR = t mod HOUR) as E1 by (apply Z.mod_mod_divide; by exists 24).
  assert (t mod HOUR mod MINUTE = t mod MINUTE) as E2 by (apply Z.mod_mod_divide; by exists 60).
  pose proof (Z.div_mod t DAY). pose proof (Z.div_mod (t mod DAY) HOUR). pose proof (Z.div_mod (t mod HOUR) MINUTE).
  pose proof (Z.mod_pos_bound t DAY). pose proof (Z.mod_pos_bound t HOUR). pose proof (Z.mod_pos_bound t MINUTE).
  change DAY with 86400 in *. change HOUR with 3600 in *. change MINUTE with 60 in *.
  repeat split; try (apply Z.div_pos; lia); try (apply Z.div_lt_upper_bound; lia); try (apply Z.div_le_upper_bound; lia); lia.
Qed.

(** A time printed in the short form is read back, modulo 2^32. *)
Theorem secsToTimeString_TimeStringToSecs t :
  in_u 64 t -> TimeStringToSecs (secsToTimeString t true false) = u32 t.
Proof.
  intros Ht. unfold TimeStringToSecs, secsToTimeString. cbv zeta.
  cbn [day_text hour_text minute_text second_text]. rewrite orb_false_r.
  assert (0 <= t < 18446744073709551616) as Hb by (clear - Ht; width). clear Ht.
  set (secs := t mod MINUTE). set (minutes := t mod HOUR / MINUTE). set (hours := t mod DAY / HOUR). set (days := t / DAY).
  assert (t = days * DAY + hours * HOUR + minutes * MINUTE + secs /\ 0 <= days <= t /\ 0 <= hours < 24 /\ 0 <= minutes < 60
    /\ 0 <= secs < 60) as (Et & Hd & Hh & Hm & Hs).
  { apply split_time. lia. }
  assert (10 ^ 20 = 100000000000000000000) as E10 by done.
  assert (in_u 32 0) as H0 by (vm_compute; split; congruence).
  assert (forall x, in_u 32 (u32 x)) as Hw by (intros; by apply wrap_range).
  rewrite (if_negb (days =? 0)), (if_negb (minutes =? 0)).
  rewrite time_loop_optional; [|done|lia|done|done|rewrite negb_false_iff, Z.eqb_eq; done].
  rewrite time_loop_optional; [|done|lia|done|done|rewrite negb_false_iff, Z.eqb_eq; done].
  rewrite time_loop_optional; [|done|lia|done|done|rewrite negb_false_iff, Z.eqb_eq; done].
  rewrite <- (app_nil_r (if negb (secs =? 0) || _ then _ else _)).
  rewrite time_loop_optional; [|done|lia|done|done|].
  2:{ rewrite orb_false_iff, negb_false_iff, Z.eqb_eq. by intros [? _]. }
  cbn [time_loop]. change (time_unit 100) with DAY. change (time_unit 104) with HOUR. change (time_unit 109) with MINUTE.
  change (time_unit 115) with 1.
  rewrite !wrap_add_l, <- (Z.add_assoc (u32 _)), wrap_add_l by lia. f_equal. lia.
Qed.

Lemma secsToTimeString_TimeStringToSecs_witness : TimeStringToSecs (secsToTimeString 4294967296 true false) = 0.
Proof. apply (secsToTimeString_TimeStringToSecs 4294967296). vm_compute. split; congruence. Defined.

(** ** Names *)

(** A character of the basic multilingual plane. *)
Definition basic (c : Z) : Prop := scalar c /\ c <= 0xffff.

Lemma basic_units cps : Forall basic cps -> cps ≫= units = cps.
Proof.
  induction 1 as [|c cps [Hc Hb] _ IH]; [done|]. rewrite bind_cons, IH, units_spec by done. unfold pair_units.
  by rewrite (proj2 (Z.ltb_ge _ _) Hb).
Qed.

Lemma basic_scalar cps : Forall basic cps -> Forall scalar cps.
Proof. intros H. eapply Forall_impl; [exact H|]. by intros c []. Qed.

Lemma units_length cps : (length cps <= length (cps ≫= units))%nat.
Proof.
  induction cps as [|c cps IH]; [done|]. rewrite bind_cons, length_app. cbn [length].
  assert (1 <= length (units c))%nat by (unfold units; case_match; cbn; lia). lia.
Qed.

Lemma units_basic cps : Forall scalar cps -> (length (cps ≫= units) <= length cps)%nat -> Forall basic cps.
Proof.
  induction 1 as [|c cps Hc _ IH]; [constructor|]. rewrite bind_cons, length_app. cbn [length]. intros Hl.
  pose proof (units_length cps) as Hu. rewrite units_spec in Hl by done. unfold pair_units in Hl.
  destruct (Z.ltb_spec 0xffff c); cbn in Hl; [lia|]. constructor; [done|]. apply IH. lia.
Qed.

(** Above the last character that has a case the functions do nothing; below they
    are computed. *)
Lemma case_above c : 1120 <= c -> c <> 7838 -> wcharToUpper c = c /\ wcharToLower c = c.
Proof.
  intros Hc Hn. unfold wcharToUpper, wcharToLower, between.
  repeat match goal with |- context [c <=? ?k] => rewrite (proj2 (Z.leb_gt c k)) by lia
  | |- context [c =? ?k] => rewrite (proj2 (Z.eqb_neq c k)) by lia end. by rewrite !andb_false_r.
Qed.

Lemma case_spec (P : Z -> bool) c :
  forallb P (7838 :: seqZ 0 1120) = true -> 0 <= c -> (1120 <= c -> c <> 7838 -> P c = true) -> P c = true.
Proof.
  cbn [forallb]. intros [H1 HP]%andb_true_iff Hc Ha. destruct (Z.eq_dec c 7838) as [->|]; [done|].
  destruct (Z.lt_ge_cases c 1120); [|by apply Ha]. by apply (below P 1120).
Qed.

Definition basicb (c : Z) : bool := is_code_point_valid c && (0 <=? c) && (c <=? 0xffff).
Lemma basicb_spec c : basicb c = true <-> basic c.
Proof. unfold basicb, basic, scalar. rewrite !andb_true_iff, !Z.leb_le. tauto. Qed.

Lemma wcharToUpper_basic c : basic c -> basic (wcharToUpper c).
Proof.
  intros Hc. apply basicb_spec in Hc. apply basicb_spec. rewrite <- (implb_true_l (basicb (wcharToUpper c))), <- Hc at 1.
  apply (case_spec (fun c => implb (basicb c) (basicb (wcharToUpper c)))); [by vm_compute|by apply basicb_spec in Hc as [[] _]|].
  intros Ha Hn. rewrite (proj1 (case_above c Ha Hn)). by destruct (basicb c).
Qed.
Lemma wcharToLower_basic c : basic c -> basic (wcharToLower c).
Proof.
  intros Hc. apply basicb_spec in Hc. apply basicb_spec. rewrite <- (implb_true_l (basicb (wcharToLower c))), <- Hc at 1.
  apply (case_spec (fun c => implb (basicb c) (basicb (wcharToLower c)))); [by vm_compute|by apply basicb_spec in Hc as [[] _]|].
  intros Ha Hn. rewrite (proj2 (case_above c Ha Hn)). by destruct (basicb c).
Qed.

(** Normalising the case twice is normalising it once. *)
Lemma wcharToLower_idemp c : 0 <= c -> wcharToLower (wcharToLower c) = wcharToLower c.
Proof.
  intros Hc. apply Z.eqb_eq. apply (case_spec (fun c => wcharToLower (wcharToLower c) =? wcharToLower c)); [by vm_compute|done|].
  intros Ha Hn. rewrite !(proj2 (case_above c Ha Hn)). apply Z.eqb_refl.
Qed.
Lemma wcharToUpper_idemp c : 0 <= c -> wcharToUpper (wcharToUpper c) = wcharToUpper c.
Proof.
  intros Hc. apply Z.eqb_eq. apply (case_spec (fun c => wcharToUpper (wcharToUpper c) =? wcharToUpper c)); [by vm_compute|done|].
  intros Ha Hn. rewrite !(proj1 (case_above c Ha Hn)). apply Z.eqb_refl.
Qed.

Lemma code_points_encode cps : Forall scalar cps -> code_points (cps ≫= octets) = Ok cps.
Proof. intros H. by apply next_loop_octets. Qed.

Lemma take_splice n (src l : list Z) : n = length src -> take n (splice 0 src l) = src.
Proof. intros ->. unfold splice. rewrite take_0, app_nil_l. apply take_app_length. Qed.

(** The conversion of a well-formed name that fits into the buffer. *)
Lemma Utf8toWStr_buffer_fits cps buf n :
  Forall scalar cps -> Z.of_nat (length cps) <= n < Z.of_nat (length buf) ->
  Utf8toWStr_buffer (cps ≫= octets) buf n =
    if (length buf <? length (cps ≫= units))%nat then Throw BufferOverflow
    else Ok (true, <[length cps := 0]> (splice 0 (cps ≫= units) buf), Z.of_nat (length cps)).
Proof.
  intros Hc [Hn Hb]. unfold Utf8toWStr_buffer, distance, utf8to16. rewrite code_points_encode by done. cbn [bind_result].
  rewrite (proj2 (Z.ltb_ge _ _)) by lia. destruct (Nat.ltb_spec (length buf) (length (cps ≫= units))); [done|].
  unfold store. rewrite length_splice by lia. rewrite (proj2 (Z.ltb_lt _ _)) by lia. cbn [bind_result]. by rewrite Nat2Z.id.
Qed.

(** What is not a string of code points, or of too many. *)
Lemma Utf8toWStr_buffer_refuses s buf n :
  0 < n -> buf <> [] -> (forall cps, code_points s = Ok cps -> n < Z.of_nat (length cps)) ->
  exists buf' m, Utf8toWStr_buffer s buf n = Ok (false, buf', m).
Proof.
  intros Hn Hb Hc. assert (exists buf' m, no_wstr buf n = Ok (false, buf', m)) as Hno.
  { unfold no_wstr, store. rewrite (proj2 (Z.ltb_lt 0 n)) by done. destruct buf; [done|]. cbn. eauto. }
  unfold Utf8toWStr_buffer, distance. destruct (code_points s) as [cps|] eqn:E; [|done]. cbn [bind_result].
  rewrite (proj2 (Z.ltb_lt _ _)) by eauto. done.
Qed.

Definition capitalised (cps : list Z) : list Z :=
  match cps with [] => [] | c :: cs => wcharToUpper c :: map wcharToLower cs end.

Lemma capitalised_basic cps : Forall basic cps -> Forall basic (capitalised cps).
Proof.
  destruct 1 as [|c cs Hc Hcs]; [constructor|]. constructor; [by apply wcharToUpper_basic|].
  apply Forall_map. eapply Forall_impl; [exact Hcs|]. apply wcharToLower_basic.
Qed.

Lemma capitalised_idemp cps : Forall basic cps -> capitalised (capitalised cps) = capitalised cps.
Proof.
  destruct 1 as [|c cs [[Hc _] _] Hcs]; [done|]. cbn. f_equal; [by apply wcharToUpper_idemp|]. rewrite map_map.
  apply map_ext_Forall. eapply Forall_impl; [exact Hcs|]. intros x [[Hx _] _]. by apply wcharToLower_idemp.
Qed.

(** The cases of [normalizePlayerName]. *)
Lemma normalizePlayerName_refuses name :
  (forall cps, code_points name = Ok cps -> 15 < Z.of_nat (length cps)) -> normalizePlayerName name = Ok (false, name).
Proof.
  intros Hc. unfold normalizePlayerName. case_decide; [done|].
  destruct (Utf8toWStr_buffer_refuses name (replicate 16 0) 15) as (buf & m & E); [done|done|done|].
  change (Z.to_nat (MAX_INTERNAL_PLAYER_NAME + 1)) with 16%nat. unfold MAX_INTERNAL_PLAYER_NAME. by rewrite E.
Qed.

Lemma normalizePlayerName_fits cps :
  Forall scalar cps -> cps <> [] -> Z.of_nat (length cps) <= 15 ->
  normalizePlayerName (cps ≫= octets) =
    if (16 <? length (cps ≫= units))%nat then Throw BufferOverflow
    else Ok (WStrToUtf8 (take (length cps) (capitalised (<[length cps := 0]> (splice 0 (cps ≫= units) (replicate 16 0)))))).
Proof.
  intros Hc Hne Hl. unfold normalizePlayerName. rewrite decide_False.
  2:{ destruct cps as [|c cps]; [done|]. rewrite bind_cons. destruct (octets_nonempty c) as (b & bs & ->). done. }
  change (Z.to_nat (MAX_INTERNAL_PLAYER_NAME + 1)) with 16%nat. unfold MAX_INTERNAL_PLAYER_NAME.
  rewrite Utf8toWStr_buffer_fits; [|done|rewrite length_replicate; lia]. rewrite length_replicate.
  case_match; [done|]. cbn [bind_result negb]. by rewrite Nat2Z.id.
Qed.

Lemma normalizePlayerName_basic cps :
  Forall basic cps -> cps <> [] -> Z.of_nat (length cps) <= 15 ->
  normalizePlayerName (cps ≫= octets) = Ok (true, capitalised cps ≫= octets).
Proof.
  intros Hb Hne Hl. rewrite normalizePlayerName_fits by (try done; by apply basic_scalar).
  rewrite basic_units by done. rewrite (proj2 (Nat.ltb_ge _ _)) by lia.
  assert (take (length cps) (capitalised (<[length cps:=0]> (splice 0 cps (replicate 16 0)))) = capitalised cps) as ->.
  { destruct cps as [|c cs]; [done|]. unfold splice. rewrite take_0, app_nil_l. cbn [length app].
    set (l := drop _ _). change (<[S (length cs) := 0]> (c :: cs ++ l)) with (c :: <[length cs := 0]> (cs ++ l)).
    rewrite insert_app_r_alt by done. cbn [capitalised firstn]. f_equal.
    rewrite map_app. rewrite <- (length_map wcharToLower cs) at 1. by rewrite take_app_length. }
  pose proof (capitalised_basic _ Hb) as Hcb.
  unfold WStrToUtf8. rewrite <- (basic_units (capitalised cps)) at 1 by done.
  rewrite utf16to8_units; [done|by apply basic_scalar].
Qed.

(** A name of up to fifteen characters of the basic plane is normalised to the
    same name with its first character in upper case and the others in lower case,
    and normalising a normalised name changes nothing. *)
Theorem normalizePlayerName_normal_form cps :
  Forall basic cps -> cps <> [] -> Z.of_nat (length cps) <= 15 ->
  normalizePlayerName (cps ≫= octets) = Ok (true, capitalised cps ≫= octets)
  /\ normalizePlayerName (capitalised cps ≫= octets) = Ok (true, capitalised cps ≫= octets).
Proof.
  intros Hb Hne Hl. split; [by apply normalizePlayerName_basic|].
  rewrite normalizePlayerName_basic; [by rewrite capitalised_idemp|by apply capitalised_basic|by destruct cps|].
  destruct cps; [done|]. cbn. by rewrite length_map.
Qed.

Lemma normalizePlayerName_normal_form_witness :
  normalizePlayerName [97; 66; 195; 137] = Ok (true, [65; 98; 195; 169])
  /\ normalizePlayerName [65; 98; 195; 169] = Ok (true, [65; 98; 195; 169]).
Proof. apply (normalizePlayerName_normal_form [97; 66; 201]); [repeat constructor; by vm_compute|done|done]. Defined.

(** C22: normalising a name never fails but for one reason: it writes past the end of
    its buffer on the stack exactly if the name has at most fifteen characters but
    more than sixteen UTF-16 units. *)
Theorem normalizePlayerName_overflow name f :
  Forall (in_u 8) name ->
  (normalizePlayerName name = Throw f <->
   f = BufferOverflow /\ exists cps, code_points name = Ok cps /\ (length cps <= 15)%nat /\ (16 < length (cps ≫= units))%nat).
Proof.
  intros Hn. destruct (code_points name) as [cps|] eqn:E.
  2:{ rewrite normalizePlayerName_refuses by (intros ? E'; congruence). split; [done|]. by intros (_ & ? & ? & _). }
  destruct (Z.lt_ge_cases 15 (Z.of_nat (length cps))).
  { rewrite normalizePlayerName_refuses by (intros ? E'; congruence).
    split; [done|]. intros (_ & ? & [= <-] & ? & _). lia. }
  destruct (decide (name = [])) as [->|Hne].
  { injection E as <-. split; [done|]. intros (_ & ? & [= <-] & _ & Hu). cbn in Hu. lia. }
  apply code_points_spec in E as [Hc ->]; [|done].
  rewrite normalizePlayerName_fits; [|done|by intros ->|done].
  destruct (Nat.ltb_spec 16 (length (cps ≫= units))).
  - split; [intros [= <-]; split; [done|]; exists cps; split; [done|]; lia|by intros [-> _]].
  - split; [done|]. intros (_ & ? & [= <-] & _ & Hu). lia.
Qed.

Lemma normalizePlayerName_overflow_witness :
  normalizePlayerName (concat (replicate 9 [240; 159; 152; 128])) = Throw BufferOverflow.
Proof.
  apply (normalizePlayerName_overflow _ BufferOverflow); [repeat constructor; by vm_compute|].
  split; [done|]. exists (replicate 9 0x1f600). split; [reflexivity|]. vm_compute. lia.
Defined.

(** A string converts to a wide string exactly if it is the encoding of characters of
    the basic plane, which then are the wide string. *)
Lemma Utf8toWStr_true s ws :
  Forall (in_u 8) s -> (Utf8toWStr s [] = Ok (true, ws) <-> Forall basic ws /\ s = ws ≫= octets).
Proof.
  intros Hs. unfold Utf8toWStr, distance, utf8to16. destruct (code_points s) as [cps|] eqn:E; cbn [bind_result].
  2:{ split; [done|]. intros [Hb ->]. rewrite code_points_encode in E by (by apply basic_scalar). done. }
  apply code_points_spec in E as [Hc ->]; [|done].
  assert (forall ws, cps ≫= octets = ws ≫= octets -> Forall basic ws -> ws = cps) as Hinj.
  { intros ws' E' Hb. apply basic_scalar in Hb. pose proof (code_points_encode ws' Hb) as H1. rewrite <- E', code_points_encode in H1 by done.
    congruence. }
  destruct (Z.eqb_spec (Z.of_nat (length cps)) 0) as [H0|H0].
  { destruct cps; [|done]. split; [intros [= <-]; done|]. intros [Hb E]. by rewrite (Hinj ws). }
  destruct (Z.ltb_spec (Z.of_nat (length cps)) (Z.of_nat (length (cps ≫= units)))).
  - split; [done|]. intros [Hb E]. rewrite (Hinj ws) in Hb by done. rewrite basic_units in H by done. lia.
  - apply units_basic in Hc; [|lia]. rewrite basic_units by done.
    split; [intros [= <-]; done|]. intros [Hb E]. by rewrite (Hinj ws).
Qed.

Lemma three_consecutive_spec s :
  three_consecutive s = true <-> exists i c, s !! i = Some c /\ s !! S i = Some c /\ s !! S (S i) = Some c.
Proof.
  induction s as [|a s IH]; [split; [done|by intros (i & c & ? & _)]|]. destruct s as [|b [|d s]].
  - split; [done|]. intros ([|i] & c & _ & H & _); done.
  - split; [done|]. intros ([|[|i]] & c & _ & _ & H); done.
  - change (three_consecutive (a :: b :: d :: s)) with (((d =? b) && (d =? a)) || three_consecutive (b :: d :: s)).
    rewrite orb_true_iff, IH, andb_true_iff, !Z.eqb_eq. split.
    + intros [[-> ->]|(i & c & H)]; [exists 0%nat, a; done|exists (S i), c; exact H].
    + intros ([|i] & c & H1 & H2 & H3); [left; cbn in *; split; congruence|right; exists i, c; done].
Qed.

(** A player's name is accepted exactly if it is well-formed, its characters are
    of the basic plane, their number is from the configured minimum to twelve, the
    script is allowed, and no character, in lower case, stands three times in a
    row. *)
Theorem CheckPlayerName_accepts cfg name create :
  Forall (in_u 8) name ->
  (CheckPlayerName cfg name create = Ok CHAR_NAME_SUCCESS <->
   exists ws, Forall basic ws /\ name = ws ≫= octets /\ min_name cfg <= Z.of_nat (length ws) <= 12
     /\ isValidString (CONFIG_REALM_ZONE cfg) ws (strict_names cfg) false create = true
     /\ ~ exists i c, wstrToLower ws !! i = Some c /\ wstrToLower ws !! S i = Some c /\ wstrToLower ws !! S (S i) = Some c).
Proof.
  intros Hn. unfold CheckPlayerName.
  assert (forall ws, Utf8toWStr name [] = Ok (true, ws) <-> Forall basic ws /\ name = ws ≫= octets) as Hw by (intros; by apply Utf8toWStr_true).
  destruct (Utf8toWStr name []) as [[[] ws]|] eqn:E; cbn [bind_result negb]; cycle 1.
  { split; [done|]. intros (ws' & H1 & H2 & _). assert (Ok (A:=bool * list Z) (E:=fault) (false, ws) = Ok (true, ws')) by (by apply Hw). congruence. }
  { split; [done|]. intros (ws' & H1 & H2 & _). assert (Throw (A:=bool * list Z) e = Ok (true, ws')) by (by apply Hw). congruence. }
  destruct (proj1 (Hw ws) eq_refl) as [Hb Hname]. setoid_rewrite <- three_consecutive_spec. unfold MAX_PLAYER_NAME.
  transitivity (min_name cfg <= Z.of_nat (length ws) <= 12
     /\ isValidString (CONFIG_REALM_ZONE cfg) ws (strict_names cfg) false create = true /\ three_consecutive (wstrToLower ws) <> true).
  2:{ split; [intros (? & ? & ?); by exists ws|]. intros (ws' & H1 & H2 & H).
      assert (Ok (E:=fault) (true, ws) = Ok (true, ws')) as [= <-] by (by apply Hw). done. }
  destruct (Z.ltb_spec 12 (Z.of_nat (length ws))); [split; [done|]; intros [[] _]; lia|].
  destruct (Z.ltb_spec (Z.of_nat (length ws)) (min_name cfg)); [split; [done|]; intros [[] _]; lia|].
  destruct (isValidString _ _ _ _ _); cbn [negb]; [|split; [done|]; by intros (_ & ? & _)].
  destruct (three_consecutive _); [split; [done|]; by intros (_ & _ & [])|]. split; [|done]. intros _. split; [lia|done].
Qed.

Lemma CheckPlayerName_accepts_witness :
  CheckPlayerName (mkConfig 8 2 0) [84; 101; 114; 114; 97] true = Ok CHAR_NAME_SUCCESS.
Proof.
  apply (CheckPlayerName_accepts (mkConfig 8 2 0)); [repeat constructor; by vm_compute|].
  exists [84; 101; 114; 114; 97]. split; [repeat constructor; by vm_compute|]. split; [reflexivity|].
  split; [cbn; lia|]. split; [reflexivity|]. rewrite <- three_consecutive_spec. by vm_compute.
Defined.

(** ** Declined names *)
Lemma drop_end_spec wname ends :
  Forall (fun e => length e <= length wname)%nat ends ->
  exists e, drop_end wname ends = Ok (take (length wname - length e) wname)
    /\ wname = take (length wname - length e) wname ++ e /\ (e = [] \/ e ∈ ends).
Proof.
  induction 1 as [|e ends He _ (e' & IH1 & IH2 & IH3)].
  { exists []. cbn. rewrite Nat.sub_0_r, take_ge by done. rewrite app_nil_r. auto. }
  cbn [drop_end]. rewrite (proj2 (Nat.ltb_ge _ _)) by done. case_decide as Hd.
  - exists e. split; [done|]. split; [by rewrite <- Hd at 2; rewrite take_drop|]. right. left.
  - exists e'. split; [done|]. split; [done|]. destruct IH3; [by left|right; by right].
Qed.

Lemma dropEnds_length declension :
  Forall (fun e => (length e <= if (declension =? 4)%Z then 2 else 1)%nat) (dropEnds declension).
Proof. unfold dropEnds. repeat case_match; try lia; repeat constructor; cbn; lia. Qed.

(** The main part of a name is the name without one of the endings of the
    declension, or the whole name; but for the fifth form of a name that is a single
    Cyrillic letter the function throws. *)
Theorem GetMainPartOfName_ending wname declension :
  0 <= declension ->
  match GetMainPartOfName wname declension with
  | Throw f => f = OutOfRange /\ declension = 4 /\ exists c, wname = [c] /\ isCyrillicCharacter c = true
  | Ok part => exists e, wname = part ++ e /\ (e = [] \/ e ∈ dropEnds declension)
      /\ ~ (declension = 4 /\ exists c, wname = [c] /\ isCyrillicCharacter c = true)
  end.
Proof.
  intros Hd. unfold GetMainPartOfName. destruct wname as [|c cs].
  { exists []. split; [done|]. split; [by left|]. by intros (_ & ? & ? & _). }
  destruct (isCyrillicCharacter c) eqn:Ec; cbn [negb orb].
  2:{ exists []. rewrite app_nil_r. split; [done|]. split; [by left|]. intros (_ & c' & [= -> ->] & ?). congruence. }
  destruct (Z.ltb_spec 5 declension).
  { exists []. rewrite app_nil_r. split; [done|]. split; [by left|]. intros [-> _]. lia. }
  destruct (decide (declension = 4 /\ cs = [])) as [[-> ->]|Hn].
  { cbn. split; [done|]. split; [done|]. by exists c. }
  destruct (drop_end_spec (c :: cs) (dropEnds declension)) as (e & -> & E & He).
  { eapply Forall_impl; [apply dropEnds_length|]. intros e. cbn beta. destruct (Z.eqb_spec declension 4); cbn [length]; [|lia].
    destruct cs; [tauto|]. cbn [length]. lia. }
  exists e. split; [done|]. split; [done|]. intros (-> & c' & [= -> ->] & _). tauto.
Qed.

Lemma GetMainPartOfName_ending_witness :
  GetMainPartOfName [0x0430] 4 = Throw OutOfRange /\ GetMainPartOfName [0x0418; 0x0432; 0x0430] 0 = Ok [0x0418; 0x0432].
Proof.
  pose proof (GetMainPartOfName_ending [0x0430] 4 ltac:(done)) as H. revert H.
  destruct (GetMainPartOfName [0x0430] 4) as [p|f] eqn:E; [by vm_compute in E|]. intros (-> & _). split; [done|reflexivity].
Defined.

End Util.
