(* ===== verification/Events.v ===== *)
(** * Events: the event queue of [shared/Utilities/EventProcessor.cpp]

    Every unit and game object owns an [EventProcessor]: a time-ordered
    multimap of heap-allocated events whose virtual methods run from
    [Update]. The methods of the derived classes are the interface
    [BasicEventMethods]; what the processor needs from them is
    [EventDiscipline], against which its theorems are proved. *)
From S2P Require Import Prelude.
From Stdlib Require Import Sorting.Sorted.

Module Events.

(** ** State *)

Record BasicEvent := mkEvent { to_Abort : bool; m_addTime : Z; m_execTime : Z }.

(** A node of the multimap; [n_id] is its address, which iterators hold. *)
Record node := mkNode { n_key : Z; n_id : nat; n_event : Z }.

(** What the processor did to an event, in order. *)
Inductive action := Executed (e : Z) | Aborted (e : Z) | Deleted (e : Z).

#[export] Instance action_eq_dec : EqDecision action.
Proof. solve_decision. Defined.

(** [events] is the heap of live events by address; [user] is everything else
    the virtual methods may change. *)
Record EventProcessor (W : Type) := mkEP {
  m_time : Z;
  m_aborting : bool;
  m_events : list node;
  next_node : nat;
  events : gmap Z BasicEvent;
  trace : list action;
  user : W
}.
Arguments mkEP {W} _ _ _ _ _ _ _.
Arguments m_time {W} _.
Arguments m_aborting {W} _.
Arguments m_events {W} _.
Arguments next_node {W} _.
Arguments events {W} _.
Arguments trace {W} _.
Arguments user {W} _.

(** An access to an event that was deleted, an iterator to an erased node, and
    the model's own fuel. *)
Inductive fault := DanglingEvent | InvalidIterator | OutOfFuel.

(** The virtual methods, by the event's address. *)
Class BasicEventMethods (W : Type) := {
  Execute : Z -> Z -> Z -> EventProcessor W -> bool * EventProcessor W;
  Abort_ : Z -> Z -> EventProcessor W -> EventProcessor W;
  IsDeletable : Z -> EventProcessor W -> bool
}.

Section processor.
Context {W : Type}.
Abbreviation EP := (EventProcessor W).
Abbreviation res := (result fault).

Definition new_processor (w : W) : EP := mkEP 0 false [] 0 ∅ [] w.

Definition set_time (t : Z) (s : EP) : EP :=
  mkEP t (m_aborting s) (m_events s) (next_node s) (events s) (trace s) (user s).
Definition set_aborting (s : EP) : EP :=
  mkEP (m_time s) true (m_events s) (next_node s) (events s) (trace s) (user s).
Definition set_queue (q : list node) (s : EP) : EP :=
  mkEP (m_time s) (m_aborting s) q (next_node s) (events s) (trace s) (user s).
Definition set_events (h : gmap Z BasicEvent) (s : EP) : EP :=
  mkEP (m_time s) (m_aborting s) (m_events s) (next_node s) h (trace s) (user s).
Definition note (a : action) (s : EP) : EP :=
  mkEP (m_time s) (m_aborting s) (m_events s) (next_node s) (events s) (trace s ++ [a]) (user s).

(** [multimap::insert]: after the nodes whose key is not greater. *)
Fixpoint insert_node (n : node) (q : list node) : list node :=
  match q with
  | [] => [n]
  | x :: q' => if n_key x <=? n_key n then x :: insert_node n q' else n :: q
  end.

Definition erase (i : nat) (q : list node) : list node := filter (fun n => n_id n <> i) q.

Definition AddEvent (e e_time : Z) (set_addtime : bool) (s : EP) : res EP :=
  match events s !! e with
  | None => Throw DanglingEvent
  | Some ev =>
      let ev := if set_addtime then mkEvent (to_Abort ev) (m_time s) (m_execTime ev) else ev in
      let ev := mkEvent (to_Abort ev) (m_addTime ev) e_time in
      Ok (mkEP (m_time s) (m_aborting s) (insert_node (mkNode e_time (next_node s) e) (m_events s))
            (S (next_node s)) (<[e := ev]> (events s)) (trace s) (user s))
  end.

Definition CalculateTime (t_offset : Z) (s : EP) : Z := u64 (m_time s + t_offset).

Context `{!BasicEventMethods W}.

(** [delete Event]. *)
Definition delete_event (e : Z) (s : EP) : res EP :=
  match events s !! e with
  | None => Throw DanglingEvent
  | Some _ => Ok (note (Deleted e) (set_events (delete e (events s)) s))
  end.

(** The body of the loop of [Update] for the node at the head. *)
Definition handle (p_time : Z) (n : node) (s : EP) : res EP :=
  let s := set_queue (erase (n_id n) (m_events s)) s in
  let e := n_event n in
  match events s !! e with
  | None => Throw DanglingEvent
  | Some ev =>
      if negb (to_Abort ev) then
        let '(finished, s) := Execute e (m_time s) p_time (note (Executed e) s) in
        if (finished : bool) then delete_event e s else Ok s
      else delete_event e (Abort_ e (m_time s) (note (Aborted e) s))
  end.

Fixpoint update_loop (fuel : nat) (p_time : Z) (s : EP) : res EP :=
  match fuel with
  | O => Throw OutOfFuel
  | S fuel =>
      match m_events s with
      | [] => Ok s
      | n :: _ =>
          if n_key n <=? m_time s
          then match handle p_time n s with
               | Ok s => update_loop fuel p_time s
               | Throw e => Throw e
               end
          else Ok s
      end
  end.

Definition Update (fuel : nat) (p_time : Z) (s : EP) : res EP :=
  update_loop fuel p_time (set_time (u64 (m_time s + p_time)) s).

(** [++i] on the iterator at node [i]; [None] is [end()]. *)
Fixpoint next (i : nat) (q : list node) : option (option node) :=
  match q with
  | [] => None
  | n :: q => if decide (n_id n = i) then Some (head q) else next i q
  end.

(** The loop of [KillAllEvents], with the iterator at node [i]. *)
Fixpoint kill_loop (fuel : nat) (force : bool) (i : option node) (s : EP) : res EP :=
  match fuel with
  | O => Throw OutOfFuel
  | S fuel =>
      match i with
      | None => Ok s
      | Some n =>
          match next (n_id n) (m_events s) with
          | None => Throw InvalidIterator
          | Some i =>
              let e := n_event n in
              match events s !! e with
              | None => Throw DanglingEvent
              | Some ev =>
                  let s := set_events (<[e := mkEvent true (m_addTime ev) (m_execTime ev)]>
                                         (events s)) s in
                  let s := Abort_ e (m_time s) (note (Aborted e) s) in
                  if force || IsDeletable e s then
                    match delete_event e s with
                    | Ok s =>
                        kill_loop fuel force i
                          (if negb force then set_queue (erase (n_id n) (m_events s)) s else s)
                    | Throw x => Throw x
                    end
                  else kill_loop fuel force i s
              end
          end
      end
  end.

Definition KillAllEvents (fuel : nat) (force : bool) (s : EP) : res EP :=
  let s := set_aborting s in
  match kill_loop fuel force (head (m_events s)) s with
  | Ok s => Ok (if force then set_queue [] s else s)
  | Throw e => Throw e
  end.

(** ** Well-formed queues *)

(** The multimap is sorted by key, node addresses are distinct and below the
    allocator's, and each live event is queued at most once. *)
Record wf (s : EP) : Prop := {
  wf_sorted : StronglySorted (fun a b => n_key a <= n_key b) (m_events s);
  wf_nodes : NoDup (n_id <$> m_events s);
  wf_fresh : Forall (fun n => n_id n < next_node s)%nat (m_events s);
  wf_once : NoDup (n_event <$> m_events s);
  wf_live : Forall (fun n => is_Some (events s !! n_event n)) (m_events s)
}.

(** The nodes the loop of [Update] has to handle. *)
Definition due (t : Z) (q : list node) : list node := filter (fun n => n_key n <= t) q.

(** [s'] after a virtual method of the unqueued event [e] ran on [s]: the clock
    stands, nothing already due or falling due now was added or removed, and
    [e] itself is alive. *)
Record method_step (e : Z) (s s' : EP) : Prop := {
  step_wf : wf s';
  step_time : m_time s' = m_time s;
  step_due : due (m_time s) (m_events s') = due (m_time s) (m_events s);
  step_trace : trace s' = trace s;
  step_alive : is_Some (events s' !! e)
}.
End processor.

Arguments wf {W} s.
Arguments method_step {W} e s s'.

(** The discipline of a family of events: a method adds events for later only,
    and an event that reports it is done, or is aborted, is not queued. *)
Class EventDiscipline (W : Type) `{!BasicEventMethods W} := {
  execute_step e t p (s : EventProcessor W) :
    wf s -> is_Some (events s !! e) -> e ∉ (n_event <$> m_events s) ->
    method_step e s (Execute e t p s).2 /\
    ((Execute e t p s).1 = true -> e ∉ (n_event <$> m_events (Execute e t p s).2));
  abort_step e t (s : EventProcessor W) :
    wf s -> is_Some (events s !! e) -> e ∉ (n_event <$> m_events s) ->
    method_step e s (Abort_ e t s) /\ e ∉ (n_event <$> m_events (Abort_ e t s))
}.

(** ** Lemmas on queues *)

Section lemmas.
Context {W : Type} `{!BasicEventMethods W}.
Implicit Types (s : EventProcessor W) (q : list node).

Lemma insert_node_perm n q : insert_node n q ≡ₚ n :: q.
Proof.
  induction q as [|x q IH]; simpl; [done|]. destruct (_ <=? _); [|done].
  rewrite IH. apply Permutation_swap.
Qed.

Lemma insert_node_sorted n q :
  StronglySorted (fun a b => n_key a <= n_key b) q ->
  StronglySorted (fun a b => n_key a <= n_key b) (insert_node n q).
Proof.
  induction 1 as [|x q Hs IH Hx]; simpl; [repeat constructor|].
  destruct (Z.leb_spec (n_key x) (n_key n)).
  - constructor; [done|]. rewrite insert_node_perm. by constructor.
  - constructor; [by constructor|]. constructor; [lia|].
    eapply Forall_impl; [apply Hx|]. simpl; lia.
Qed.

Lemma due_insert_later t n q : t < n_key n -> due t (insert_node n q) = due t q.
Proof.
  intros Ht. unfold due. induction q as [|x q IH]; simpl.
  - rewrite filter_cons_False by lia. done.
  - destruct (_ <=? _).
    + rewrite !filter_cons, IH. done.
    + rewrite filter_cons_False by lia. done.
Qed.

Lemma erase_fresh i q : i ∉ (n_id <$> q) -> erase i q = q.
Proof.
  intros Hi. unfold erase.
  induction q as [|x q IH]; [done|]. rewrite fmap_cons, not_elem_of_cons in Hi.
  rewrite filter_cons_True by naive_solver. f_equal. apply IH; tauto.
Qed.

Lemma erase_head n q : NoDup (n_id <$> n :: q) -> erase (n_id n) (n :: q) = q.
Proof.
  rewrite fmap_cons, NoDup_cons. intros [Hn _]. unfold erase.
  rewrite filter_cons_False by auto. by apply erase_fresh.
Qed.

Lemma due_nil_head t n q :
  StronglySorted (fun a b => n_key a <= n_key b) (n :: q) -> t < n_key n -> due t (n :: q) = [].
Proof.
  intros Hs Ht. inversion_clear Hs as [|? ? _ Hall]. unfold due.
  rewrite filter_cons_False by lia.
  induction Hall as [|x q Hx Hall IH]; [done|]. by rewrite filter_cons_False by lia.
Qed.

(** Adding an unqueued live event for later is a step of the discipline. *)
Lemma AddEvent_step e e_time b s :
  wf s -> is_Some (events s !! e) -> e ∉ (n_event <$> m_events s) -> m_time s < e_time ->
  exists s', AddEvent e e_time b s = Ok s' /\ method_step e s s'.
Proof.
  intros [Hs Hn Hf Ho Hl] [ev He] Hq Ht. unfold AddEvent. rewrite He. eexists; split; [done|].
  split; simpl; [split; simpl| | | |].
  - by apply insert_node_sorted.
  - rewrite insert_node_perm. simpl. constructor; [|done].
    intros (x & Hx & Hin)%list_elem_of_fmap. rewrite Forall_forall in Hf. specialize (Hf x Hin). lia.
  - rewrite insert_node_perm. constructor; simpl; [lia|].
    eapply Forall_impl; [apply Hf|]. simpl; lia.
  - rewrite insert_node_perm. by constructor.
  - rewrite insert_node_perm. constructor; simpl; [rewrite lookup_insert_eq; eauto|].
    eapply Forall_impl; [apply Hl|]. intros x [v Hx]. apply lookup_insert_is_Some'; eauto.
  - done.
  - by apply due_insert_later.
  - done.
  - rewrite lookup_insert_eq; eauto.
Qed.

(** Events whose method was started, in order. *)
Definition started (l : list action) : list Z :=
  omap (fun a => match a with Executed e | Aborted e => Some e | Deleted _ => None end) l.

Lemma started_app l k : started (l ++ k) = started l ++ started k.
Proof. apply omap_app. Qed.

Lemma delete_event_ok e s :
  wf s -> is_Some (events s !! e) -> e ∉ (n_event <$> m_events s) ->
  exists s', delete_event e s = Ok s' /\ wf s' /\ m_time s' = m_time s /\ m_events s' = m_events s /\ trace s' = trace s ++ [Deleted e].
Proof.
  intros [Hs Hn Hf Ho Hl] [ev He] Hq. unfold delete_event. rewrite He.
  eexists; split; [done|]. split_and!; try done. split; simpl; try done.
  rewrite Forall_forall in Hl |- *. intros x Hx. rewrite lookup_delete_ne; [by apply Hl|].
  intros ->. apply Hq. by apply list_elem_of_fmap_2.
Qed.
End lemmas.

(** ** Update *)

Section update.
Context {W : Type} `{!BasicEventMethods W} `{!EventDiscipline W}.
Implicit Types (s : EventProcessor W).

(** Handling the head removes it, starts its event, and leaves the rest of the
    due nodes as they are. *)
Lemma handle_ok p n q s :
  wf s -> m_events s = n :: q ->
  exists s', handle p n s = Ok s' /\ wf s' /\ m_time s' = m_time s /\
    due (m_time s) (m_events s') = due (m_time s) q /\
    started (trace s') = started (trace s) ++ [n_event n].
Proof.
  intros [Hs Hn Hf Ho Hl] Hq. rewrite Hq in Hs, Hn, Hf, Ho, Hl.
  unfold handle. cbv zeta. rewrite Hq, erase_head by done.
  inversion Hl as [|? ? [ev He] Hl']; subst.
  assert (events (set_queue q s) !! n_event n = Some ev) as -> by done.
  rewrite fmap_cons, NoDup_cons in Ho. destruct Ho as [Hnot Ho].
  assert (Hw : forall a, wf (note a (set_queue q s))).
  { intros a. split; simpl; try done; [by inversion Hs| |by inversion Hf].
    by inversion Hn. }
  destruct (to_Abort ev); simpl negb; cbv iota.
  - destruct (abort_step (n_event n) (m_time (set_queue q s)) (note (Aborted (n_event n)) (set_queue q s))
      (Hw _) ltac:(by eexists) Hnot) as [[H1 H2 H3 H4 H5] Hout].
    destruct (delete_event_ok (n_event n) _ H1 H5 Hout) as (s' & -> & Hw' & Ht & Hq' & Htr).
    exists s'. split; [done|]. simpl in *. rewrite Ht, Hq', Htr, H4, !started_app. simpl.
    rewrite app_nil_r. done.
  - destruct (execute_step (n_event n) (m_time (set_queue q s)) p (note (Executed (n_event n)) (set_queue q s))
      (Hw _) ltac:(by eexists) Hnot) as [Hm Hout].
    destruct (Execute _ _ _ _) as [fin s1]. simpl in Hm, Hout. destruct Hm as [H1 H2 H3 H4 H5].
    destruct fin.
    + destruct (delete_event_ok (n_event n) _ H1 H5 (Hout eq_refl)) as (s' & -> & Hw' & Ht & Hq' & Htr).
      exists s'. split; [done|]. simpl in *. rewrite Ht, Hq', Htr, H4, !started_app. simpl.
      rewrite app_nil_r. done.
    + exists s1. split; [done|]. simpl in H2, H3, H4. rewrite H4, started_app. done.
Qed.

Lemma update_loop_ok p fuel s :
  wf s -> (length (due (m_time s) (m_events s)) < fuel)%nat ->
  exists s', update_loop fuel p s = Ok s' /\ wf s' /\ m_time s' = m_time s /\
    due (m_time s) (m_events s') = [] /\
    started (trace s') = started (trace s) ++ (n_event <$> due (m_time s) (m_events s)).
Proof.
  revert s. induction fuel as [|fuel IH]; intros s Hw Hf; [lia|]. simpl.
  destruct (m_events s) as [|n q] eqn:Hq.
  { exists s. rewrite Hq. simpl. rewrite app_nil_r. done. }
  destruct (Z.leb_spec (n_key n) (m_time s)) as [Hle|Hgt].
  - destruct (handle_ok p n q s Hw Hq) as (s1 & -> & Hw1 & Ht1 & Hd1 & Htr1).
    unfold due in Hf |- *. rewrite filter_cons_True in Hf |- * by done. simpl in Hf.
    destruct (IH s1 Hw1) as (s2 & -> & Hw2 & Ht2 & Hd2 & Htr2).
    { rewrite Ht1, Hd1. unfold due. lia. }
    rewrite Ht1 in *. exists s2. rewrite Hd1, Htr1 in Htr2.
    split_and!; try done. by rewrite Htr2, <- app_assoc.
  - assert (due (m_time s) (n :: q) = []) as Hd.
    { apply due_nil_head; [rewrite <- Hq; apply Hw|done]. }
    exists s. rewrite Hq, Hd. simpl. rewrite app_nil_r. done.
Qed.

(** C33: [Update] advances the clock and, when the events keep to the
    discipline, returns after one round for each due node (the fuel), with a
    well-formed queue that has nothing due left; it starts (executes or
    aborts) exactly the events that were due, in the order of their times and,
    among equal times, of insertion. *)
Theorem Update_runs_due p fuel s :
  wf s -> (length (due (u64 (m_time s + p)) (m_events s)) < fuel)%nat ->
  exists s', Update fuel p s = Ok s' /\ wf s' /\ m_time s' = u64 (m_time s + p) /\
    due (m_time s') (m_events s') = [] /\
    started (trace s') =
      started (trace s) ++ (n_event <$> due (u64 (m_time s + p)) (m_events s)).
Proof.
  intros Hw Hf. unfold Update.
  assert (wf (set_time (u64 (m_time s + p)) s)) as Hw' by (destruct Hw; by split).
  destruct (update_loop_ok p fuel _ Hw' Hf) as (s' & Hr & Hws & Ht & Hd & Htr).
  exists s'. rewrite Ht. done.
Qed.
End update.

(** ** KillAllEvents *)

Section kill.
Context {W : Type} `{!BasicEventMethods W} (deletable : Z -> bool).
Implicit Types (s : EventProcessor W) (q k : list node).

(** The abort methods leave the processor alone, and deletability is the
    event's own. *)
Context (Abort_quiet : forall e t s, Abort_ e t s =
  mkEP (m_time s) (m_aborting s) (m_events s) (next_node s) (events s) (trace s)
    (user (Abort_ e t s))).
Context (IsDeletable_own : forall e s, IsDeletable e s = deletable e).

Lemma next_middle k n q :
  NoDup (n_id <$> k ++ n :: q) -> next (n_id n) (k ++ n :: q) = Some (head q).
Proof.
  induction k as [|x k IH]; simpl; intros Hn.
  - by rewrite decide_True by done.
  - inversion Hn as [|? ? Hx Hn']; subst. rewrite decide_False; [by apply IH|].
    intros Heq. apply Hx. rewrite Heq, fmap_app. set_solver.
Qed.

Lemma erase_middle k n q :
  NoDup (n_id <$> k ++ n :: q) -> erase (n_id n) (k ++ n :: q) = k ++ q.
Proof.
  intros Hn. pose proof Hn as Hn'. rewrite fmap_app, NoDup_app in Hn. destruct Hn as (_ & Hd & Hq).
  unfold erase. rewrite filter_app. change (filter _ k) with (erase (n_id n) k).
  change (filter _ (n :: q)) with (erase (n_id n) (n :: q)).
  rewrite erase_head, erase_fresh by (done || (intros Hin; apply (Hd _ Hin); simpl; set_solver)).
  done.
Qed.

(** What is done to a queued event. *)
Definition fate (force : bool) (n : node) : list action :=
  if force || deletable (n_event n) then [Aborted (n_event n); Deleted (n_event n)]
  else [Aborted (n_event n)].

(** The event's entry in the heap afterwards. *)
Definition fate_entry (force : bool) (h : gmap Z BasicEvent) (n : node) : Prop :=
  match h !! n_event n with
  | None => force || deletable (n_event n) = true
  | Some ev => force || deletable (n_event n) = false /\ to_Abort ev = true
  end.

(** The nodes [KillAllEvents] leaves, before the final [clear]. *)
Definition kept (force : bool) (q : list node) : list node :=
  filter (fun n => force || negb (deletable (n_event n)) = true) q.

Lemma kill_step force k n q fuel s :
  m_events s = k ++ n :: q -> NoDup (n_id <$> m_events s) -> is_Some (events s !! n_event n) ->
  exists s1, kill_loop (S fuel) force (Some n) s = kill_loop fuel force (head q) s1 /\
    m_events s1 = k ++ kept force [n] ++ q /\ m_aborting s1 = m_aborting s /\
    trace s1 = trace s ++ fate force n /\ fate_entry force (events s1) n /\
    (forall e, e <> n_event n -> events s1 !! e = events s !! e).
Proof.
  intros Hq Hn [ev He]. cbn [kill_loop]. rewrite Hq, next_middle by (by rewrite <- Hq).
  rewrite He, Abort_quiet, IsDeletable_own. unfold fate, fate_entry, kept, delete_event.
  cbn [events note set_events]. rewrite lookup_insert_eq.
  destruct (force || deletable (n_event n)) eqn:Ed; eexists; (split; [done|]).
  - assert (forall e, e <> n_event n -> delete (n_event n)
      (<[n_event n:=mkEvent true (m_addTime ev) (m_execTime ev)]> (events s)) !! e = events s !! e)
      by (intros; by rewrite lookup_delete_ne, lookup_insert_ne by done).
    destruct force; simpl in *; rewrite ?Ed; cbn;
      rewrite ?lookup_delete_eq, <- ?app_assoc, ?Hq, ?erase_middle by (by rewrite <- Hq).
    all: split_and!; try done.
    by rewrite decide_False by (rewrite Ed; done).
  - apply orb_false_iff in Ed as [-> Ed]. cbn. rewrite lookup_insert_eq.
    split_and!; try done; [by rewrite decide_True by (rewrite Ed; done)|].
    intros; by rewrite lookup_insert_ne by done.
Qed.

Lemma kill_loop_ok force q k fuel s :
  (length q < fuel)%nat -> m_events s = k ++ q -> NoDup (n_id <$> m_events s) ->
  NoDup (n_event <$> q) -> Forall (fun n => is_Some (events s !! n_event n)) q ->
  exists s', kill_loop fuel force (head q) s = Ok s' /\
    m_events s' = k ++ kept force q /\ m_aborting s' = m_aborting s /\
    trace s' = trace s ++ flat_map (fate force) q /\
    Forall (fate_entry force (events s')) q /\
    (forall e, e ∉ (n_event <$> q) -> events s' !! e = events s !! e).
Proof.
  revert k s fuel. induction q as [|n q IH]; intros k s [|fuel] Hf Hq Hn Ho Hl; simpl in Hf; try lia.
  { exists s. simpl. rewrite !app_nil_r in *. split_and!; try done. }
  inversion Hl as [|? ? He Hl']; subst.
  rewrite fmap_cons, NoDup_cons in Ho. destruct Ho as [Hnot Ho].
  destruct (kill_step force k n q fuel s Hq Hn He) as (s1 & Hr & Hq1 & Hab1 & Htr1 & Hf1 & Hfr1).
  assert (Hsub : sublist (m_events s1) (m_events s)).
  { rewrite Hq, Hq1. apply sublist_app; [done|]. change (n :: q) with ([n] ++ q).
    apply sublist_app; [apply sublist_filter|done]. }
  destruct (IH (k ++ kept force [n]) s1 fuel) as (s' & Hr' & Hq' & Hab' & Htr' & Hf' & Hfr').
  - lia.
  - by rewrite Hq1, app_assoc.
  - eapply sublist_NoDup; [apply Hn|]. by apply fmap_sublist.
  - done.
  - rewrite Forall_forall in Hl' |- *. intros x Hx. rewrite Hfr1; [by apply Hl'|].
    intros E. apply Hnot. rewrite <- E. by apply list_elem_of_fmap_2.
  - exists s'. cbn [head]. rewrite Hr, Hr'. split_and!; [done| |congruence| | |].
    + rewrite Hq', <- app_assoc. f_equal. unfold kept. by rewrite <- filter_app.
    + by rewrite Htr', Htr1, <- app_assoc.
    + constructor; [|done]. unfold fate_entry in *. rewrite Hfr'; done.
    + intros e He'. rewrite fmap_cons, not_elem_of_cons in He'. rewrite Hfr', Hfr1; tauto.
Qed.

(** [KillAllEvents] returns after one round for each queued event (the
    fuel); it aborts every queued event once, in order, and deletes at once
    the ones that are deletable or all when forced. A forced call empties the
    queue; an unforced one leaves exactly the undeletable events queued and
    marked as aborted. Other events are untouched. *)
Theorem KillAllEvents_aborts force fuel s :
  wf s -> (length (m_events s) < fuel)%nat ->
  exists s', KillAllEvents fuel force s = Ok s' /\ m_aborting s' = true /\
    m_events s' = (if force then [] else kept false (m_events s)) /\
    trace s' = trace s ++ flat_map (fate force) (m_events s) /\
    Forall (fate_entry force (events s')) (m_events s) /\
    (forall e, e ∉ (n_event <$> m_events s) -> events s' !! e = events s !! e).
Proof.
  intros [_ Hn _ Ho Hl] Hf. unfold KillAllEvents.
  destruct (kill_loop_ok force (m_events s) [] fuel (set_aborting s)) as
    (s' & Hr & Hq & Hab & Htr & Hfa & Hfr); try done.
  cbv zeta. change (head (m_events (set_aborting s))) with (head (m_events s)). rewrite Hr.
  exists (if force then set_queue [] s' else s'). simpl in Hq.
  destruct force; split_and!; done.
Qed.
End kill.

(** ** A concrete family: an event that re-adds itself a fixed time later for
    a given number of runs *)

Section repeating.

(** The number of runs left, by event. *)
Definition runs := gmap Z nat.

Definition repeat_execute (e t p : Z) (s : EventProcessor runs) : bool * EventProcessor runs :=
  match user s !! e with
  | Some (S n) =>
      match AddEvent e (m_time s + 10) true
              (mkEP (m_time s) (m_aborting s) (m_events s) (next_node s) (events s) (trace s)
                 (<[e := n]> (user s))) with
      | Ok s => (false, s)
      | Throw _ => (true, s)
      end
  | _ => (true, s)
  end.

#[local] Instance repeat_methods : BasicEventMethods runs := {
  Execute := repeat_execute;
  Abort_ := fun e t s => s;
  IsDeletable := fun e s => Z.even e
}.

Lemma method_step_refl e (s : EventProcessor runs) :
  wf s -> is_Some (events s !! e) -> method_step e s s.
Proof. by split. Qed.

#[local] Instance repeat_discipline : EventDiscipline runs.
Proof.
  split.
  - intros e t p s Hw He Hq. simpl. unfold repeat_execute.
    destruct (user s !! e) as [[|n]|]; simpl; try (split; [by apply method_step_refl|done]).
    set (s0 := mkEP _ _ _ _ _ _ _).
    destruct (AddEvent_step e (m_time s + 10) true s0) as (s' & -> & Hst); simpl; try done; try lia.
    { destruct Hw; by split. }
    split; [|done]. destruct Hst; by split.
  - intros e t s Hw He Hq. simpl. split; [by apply method_step_refl|done].
Qed.

Definition sample : EventProcessor runs :=
  mkEP 100 false [mkNode 103 0 7; mkNode 105 1 8; mkNode 300 2 9] 3
    {[7 := mkEvent false 100 103; 8 := mkEvent true 100 105; 9 := mkEvent false 100 300]} []
    {[7 := 1%nat]}.

Lemma sample_wf : wf sample.
Proof.
  split; simpl; [repeat constructor; simpl; lia|by apply (bool_decide_unpack _)
    |repeat constructor; simpl; lia|by apply (bool_decide_unpack _)|].
  repeat constructor; by eexists.
Qed.

Lemma Update_runs_due_witness :
  exists s', Update 3 8 sample = Ok s' /\ wf s' /\ m_time s' = 108 /\
    due (m_time s') (m_events s') = [] /\ started (trace s') = [7; 8].
Proof. apply (Update_runs_due 8 3 sample); [apply sample_wf|vm_compute; lia]. Defined.

Lemma KillAllEvents_aborts_witness :
  exists s', KillAllEvents 4 false sample = Ok s' /\ m_aborting s' = true /\
    m_events s' = kept Z.even false (m_events sample) /\
    trace s' = trace sample ++ flat_map (fate Z.even false) (m_events sample) /\
    Forall (fate_entry Z.even false (events s')) (m_events sample) /\
    (forall e, e ∉ (n_event <$> m_events sample) -> events s' !! e = events sample !! e).
Proof.
  apply (KillAllEvents_aborts Z.even) with (s := sample) (fuel := 4%nat) (force := false);
    [by intros ? ? []|done|apply sample_wf|vm_compute; lia].
Defined.
End repeating.
End Events.
