(* ===== verification/OrderedMap.v ===== *)
(** * OrderedMap: [std::map] with integer keys

    The components that iterate over a [std::map] depend on its order, so the
    map is the list of its pairs in the order of the keys. Its lemmas are the
    usual laws of lookup and insertion, and how a sum over the map changes when
    one entry does. *)
From S2P Require Import Prelude.
From Stdlib Require Import Sorting.Sorted.

Section ordered_map.
Context {A : Type}.
Implicit Types (m : list (Z * A)).

(** [find(k)]. *)
Fixpoint map_find (k : Z) m : option A :=
  match m with
  | [] => None
  | (k', a) :: m => if k =? k' then Some a else map_find k m
  end.

(** [m[k] = a]: overwrite, or insert at the place of the key. *)
Fixpoint map_set (k : Z) (a : A) m : list (Z * A) :=
  match m with
  | [] => [(k, a)]
  | (k', b) :: m' =>
      if k <? k' then (k, a) :: m
      else if k =? k' then (k, a) :: m'
      else (k', b) :: map_set k a m'
  end.

(** [erase(k)]. *)
Definition map_erase (k : Z) m : list (Z * A) := filter (fun kv => kv.1 <> k) m.

Definition map_sorted m : Prop := StronglySorted Z.lt (m.*1).

Lemma map_find_above k m : Forall (fun k' => k < k') (m.*1) -> map_find k m = None.
Proof.
  induction m as [|[k' a] m IH]; simpl; [done|]. inversion 1; subst.
  rewrite (proj2 (Z.eqb_neq k k')) by lia. auto.
Qed.

Lemma map_find_set k a m : map_find k (map_set k a m) = Some a.
Proof.
  induction m as [|[k' b] m IH]; simpl; [by rewrite Z.eqb_refl|].
  destruct (Z.ltb_spec k k'); simpl; [by rewrite Z.eqb_refl|].
  destruct (Z.eqb_spec k k') as [->|]; simpl; [by rewrite Z.eqb_refl|].
  by rewrite (proj2 (Z.eqb_neq k k')).
Qed.

Lemma map_find_set_ne k j a m : j <> k -> map_find j (map_set k a m) = map_find j m.
Proof.
  intros Hj. induction m as [|[k' b] m IH]; simpl; [by rewrite (proj2 (Z.eqb_neq j k))|].
  destruct (Z.ltb_spec k k'); simpl; [by rewrite (proj2 (Z.eqb_neq j k))|].
  destruct (Z.eqb_spec k k') as [->|]; simpl; [by rewrite (proj2 (Z.eqb_neq j k'))|].
  by rewrite IH.
Qed.

Lemma map_set_set k a b m : map_set k a (map_set k b m) = map_set k a m.
Proof.
  induction m as [|[k' x] m IH]; cbn; [by rewrite Z.ltb_irrefl, Z.eqb_refl|].
  destruct (Z.ltb_spec k k') as [|Hk]; cbn; [by rewrite Z.ltb_irrefl, Z.eqb_refl|].
  destruct (Z.eqb_spec k k') as [->|]; cbn; [by rewrite Z.ltb_irrefl, Z.eqb_refl|].
  rewrite (proj2 (Z.ltb_ge k k')), (proj2 (Z.eqb_neq k k')) by done. by rewrite IH.
Qed.

Lemma map_set_keys k a m j : j ∈ (map_set k a m).*1 <-> j = k \/ j ∈ m.*1.
Proof.
  induction m as [|[k' b] m IH]; simpl; [set_solver|].
  destruct (Z.ltb_spec k k'); simpl; [set_solver|].
  destruct (Z.eqb_spec k k') as [->|]; simpl; set_solver.
Qed.

Lemma map_set_sorted k a m : map_sorted m -> map_sorted (map_set k a m).
Proof.
  unfold map_sorted. induction m as [|[k' b] m IH]; simpl; intros Hs; [repeat constructor|].
  inversion Hs as [|? ? Hs' Hall]; subst.
  destruct (Z.ltb_spec k k'); simpl.
  - constructor; [done|]. constructor; [done|]. eapply Forall_impl; [exact Hall|simpl; lia].
  - destruct (Z.eqb_spec k k') as [->|]; simpl; [done|].
    constructor; [by apply IH|]. rewrite Forall_forall in Hall |- *.
    intros j [->|Hj]%map_set_keys; [lia|by apply Hall].
Qed.

Lemma map_find_elem m k a : map_sorted m -> map_find k m = Some a <-> (k, a) ∈ m.
Proof.
  unfold map_sorted. induction m as [|[k' b] m IH]; simpl; intros Hs; [set_solver|].
  inversion Hs as [|? ? Hs' Hall]; subst. rewrite elem_of_cons.
  destruct (Z.eqb_spec k k') as [->|]; [|rewrite IH by done; naive_solver].
  split; [naive_solver|]. intros [|Hin]; [naive_solver|].
  rewrite Forall_forall in Hall. specialize (Hall k').
  assert (k' ∈ m.*1) as Hk by (apply list_elem_of_fmap; by exists (k', a)). apply Hall in Hk. lia.
Qed.

Lemma map_find_None m k : map_find k m = None <-> k ∉ m.*1.
Proof.
  induction m as [|[k' b] m IH]; simpl; [set_solver|].
  rewrite not_elem_of_cons. destruct (Z.eqb_spec k k') as [->|]; naive_solver.
Qed.

(** Writing back what is there. *)
Lemma map_set_id k a m : map_sorted m -> map_find k m = Some a -> map_set k a m = m.
Proof.
  unfold map_sorted. induction m as [|[k' c] m IH]; simpl; intros Hs Hf; [done|].
  inversion Hs as [|? ? Hs' Hall]; subst.
  destruct (Z.eqb_spec k k') as [->|].
  - rewrite (proj2 (Z.ltb_ge k' k')) by lia. naive_solver.
  - destruct (Z.ltb_spec k k'); simpl; [|f_equal; by apply IH].
    rewrite map_find_above in Hf; [done|]. eapply Forall_impl; [exact Hall|simpl; lia].
Qed.

(** ** Sums over the entries *)

Definition map_sum (f : Z -> A -> Z) m : Z := foldr (fun kv acc => f kv.1 kv.2 + acc) 0 m.

Lemma map_sum_set f k a m :
  map_sorted m ->
  map_sum f (map_set k a m) =
    map_sum f m + f k a - match map_find k m with Some b => f k b | None => 0 end.
Proof.
  unfold map_sorted. induction m as [|[k' b] m IH]; simpl; intros Hs; [lia|].
  inversion Hs as [|? ? Hs' Hall]; subst.
  destruct (Z.ltb_spec k k'); simpl.
  - rewrite (proj2 (Z.eqb_neq k k')), map_find_above; try lia.
    eapply Forall_impl; [exact Hall|simpl; lia].
  - destruct (Z.eqb_spec k k') as [->|]; simpl; [lia|]. rewrite IH by done. lia.
Qed.

Lemma map_sum_ext f g m :
  (forall k a, (k, a) ∈ m -> f k a = g k a) -> map_sum f m = map_sum g m.
Proof.
  intros Hfg. induction m as [|[k a] m IH]; simpl; [done|].
  rewrite (Hfg k a), IH; [done| |set_solver]. intros; apply Hfg; set_solver.
Qed.

(** An update of the value under a present key keeps the keys. *)
Lemma map_set_same_keys k a b m :
  map_sorted m -> map_find k m = Some b -> (map_set k a m).*1 = m.*1.
Proof.
  unfold map_sorted. induction m as [|[k' c] m IH]; simpl; intros Hs Hf; [done|].
  inversion Hs as [|? ? Hs' Hall]; subst.
  destruct (Z.eqb_spec k k') as [->|].
  - rewrite (proj2 (Z.ltb_ge k' k')) by lia. done.
  - destruct (Z.ltb_spec k k'); simpl; [|f_equal; by apply IH].
    rewrite map_find_above in Hf; [done|]. eapply Forall_impl; [exact Hall|simpl; lia].
Qed.

Lemma map_erase_keys k m j : j ∈ (map_erase k m).*1 <-> j <> k /\ j ∈ m.*1.
Proof.
  unfold map_erase. rewrite !list_elem_of_fmap. split.
  - intros ([j' a] & -> & [Hj Hin]%list_elem_of_filter). simpl in *. split; [done|]. by exists (j', a).
  - intros (Hj & [j' a] & -> & Hin). exists (j', a). split; [done|]. by apply list_elem_of_filter.
Qed.

Lemma map_find_erase_ne k j m : j <> k -> map_find j (map_erase k m) = map_find j m.
Proof.
  intros Hj. unfold map_erase. induction m as [|[k' a] m IH]; [done|]. rewrite filter_cons. simpl.
  destruct (decide _) as [Hk|Hk]; simpl; [by rewrite IH|]. apply dec_stable in Hk as ->. by rewrite (proj2 (Z.eqb_neq j k)).
Qed.

Lemma map_erase_sorted k m : map_sorted m -> map_sorted (map_erase k m).
Proof.
  unfold map_sorted, map_erase. induction m as [|[k' a] m IH]; simpl; intros Hs; [done|].
  inversion Hs as [|? ? Hs' Hall]; subst. rewrite filter_cons.
  destruct (decide _); [|by apply IH]. simpl. constructor; [by apply IH|].
  rewrite Forall_forall in Hall |- *. intros j [_ Hj]%map_erase_keys. by apply Hall.
Qed.

Lemma map_erase_absent k m : k ∉ m.*1 -> map_erase k m = m.
Proof.
  unfold map_erase. induction m as [|[k' a] m IH]; simpl; [done|].
  rewrite not_elem_of_cons. intros [Hne Hin]. rewrite filter_cons_True by (simpl; congruence).
  f_equal. by apply IH.
Qed.

Lemma map_sum_erase f k m :
  map_sorted m ->
  map_sum f (map_erase k m) = map_sum f m - match map_find k m with Some b => f k b | None => 0 end.
Proof.
  unfold map_sorted. induction m as [|[k' b] m IH]; simpl; intros Hs; [lia|].
  inversion Hs as [|? ? Hs' Hall]; subst. unfold map_erase. rewrite filter_cons. simpl.
  destruct (Z.eqb_spec k k') as [->|Hne].
  - rewrite decide_False by auto. change (filter _ m) with (map_erase k' m).
    rewrite map_erase_absent; [lia|]. intros Hin. rewrite Forall_forall in Hall.
    specialize (Hall k' Hin). lia.
  - rewrite decide_True by auto. change (filter _ m) with (map_erase k m). simpl.
    rewrite IH by done. lia.
Qed.

Lemma length_map_erase k m : (length (map_erase k m) <= length m)%nat.
Proof. apply length_filter. Qed.

Lemma map_find_erase k m : map_find k (map_erase k m) = None.
Proof. apply map_find_None. rewrite map_erase_keys. tauto. Qed.

Lemma length_map_set k a m : (length (map_set k a m) <= S (length m))%nat.
Proof.
  induction m as [|[k' b] m IH]; simpl; [lia|].
  destruct (k <? k'); simpl; [lia|]. destruct (k =? k'); simpl; lia.
Qed.
End ordered_map.

(** *** Updates of all values *)
Lemma map_set_fmap {A B} (f : A -> B) k a l : prod_map id f <$> map_set k a l = map_set k (f a) (prod_map id f <$> l).
Proof. induction l as [|[k' b] l IH]; [done|]. cbn. destruct (k <? k'); [done|]. destruct (k =? k'); [done|]. cbn. by rewrite <- IH. Qed.

Lemma map_find_fmap {A B} (f : A -> B) k l : map_find k (prod_map id f <$> l) = f <$> map_find k l.
Proof. induction l as [|[k' b] l IH]; [done|]. simpl. by destruct (k =? k'). Qed.

(** ** [std::set] of integers: the sorted list of its elements *)
Fixpoint set_add (k : Z) (l : list Z) : list Z :=
  match l with
  | [] => [k]
  | j :: l' => if k <? j then k :: l else if k =? j then l else j :: set_add k l'
  end.

(** [erase(k)], and [remove(k)] of a [std::list]. *)
Definition set_del (k : Z) (l : list Z) : list Z := filter (fun j => j <> k) l.

Lemma elem_of_set_add k l j : j ∈ set_add k l <-> j = k \/ j ∈ l.
Proof.
  induction l as [|i l IH]; simpl; [set_solver|].
  destruct (Z.ltb_spec k i); [set_solver|]. destruct (Z.eqb_spec k i) as [->|]; set_solver.
Qed.

Lemma elem_of_set_del k l j : j ∈ set_del k l <-> j <> k /\ j ∈ l.
Proof. unfold set_del. by rewrite list_elem_of_filter. Qed.

Lemma set_add_sorted k l : StronglySorted Z.lt l -> StronglySorted Z.lt (set_add k l).
Proof.
  induction 1 as [|i l Hs IH Hall]; simpl; [repeat constructor|].
  destruct (Z.ltb_spec k i).
  - constructor; [by constructor|]. constructor; [done|]. eapply Forall_impl; [exact Hall|simpl; lia].
  - destruct (Z.eqb_spec k i) as [->|]; [by constructor|]. constructor; [done|].
    rewrite Forall_forall in Hall |- *. intros j [->|Hj]%elem_of_set_add; [lia|by apply Hall].
Qed.

Lemma set_del_sorted k l : StronglySorted Z.lt l -> StronglySorted Z.lt (set_del k l).
Proof.
  unfold set_del. induction 1 as [|i l Hs IH Hall]; [constructor|]. rewrite filter_cons.
  destruct (decide _); [|done]. constructor; [done|]. rewrite Forall_forall in Hall |- *.
  intros j [_ Hj]%list_elem_of_filter. by apply Hall.
Qed.

Lemma length_set_del k l : (length (set_del k l) <= length l)%nat.
Proof. apply length_filter. Qed.

Lemma set_sorted_NoDup l : StronglySorted Z.lt l -> NoDup l.
Proof.
  induction 1 as [|i l Hs IH Hall]; constructor; [|done]. intros Hi. rewrite Forall_forall in Hall.
  specialize (Hall i Hi). lia.
Qed.
