(* ===== verification/Float32.v ===== *)
(** * Float32: single-precision arithmetic of the program

    [float] is IEEE binary32 with rounding to nearest even, as in the Standard
    Library's [SpecFloat]; each operation rounds (SSE arithmetic, no excess
    precision). *)
From S2P Require Import Prelude.
From Stdlib Require Import Floats.SpecFloat.

Module Float32.

Abbreviation float := spec_float.

(** [m * 2^e] rounded to [float]. *)
Definition make (m e : Z) : float := binary_normalize 24 128 m e false.
Definition of_Z (z : Z) : float := make z 0.
Definition add (x y : float) : float := SFadd 24 128 x y.
Definition sub (x y : float) : float := SFsub 24 128 x y.
Definition mul (x y : float) : float := SFmul 24 128 x y.
Definition div (x y : float) : float := SFdiv 24 128 x y.
Definition eqb (x y : float) : bool := SFeqb x y.
Definition ltb (x y : float) : bool := SFltb x y.
Definition leb (x y : float) : bool := SFleb x y.

(** The integers a finite number rounds to, towards minus infinity and towards
    zero. *)
Definition floor (x : float) : option Z :=
  match x with
  | S754_zero _ => Some 0
  | S754_finite s m e =>
      let v := if s then Zneg m else Zpos m in
      Some (if 0 <=? e then v * 2 ^ e else v / 2 ^ (- e))
  | _ => None
  end.
Definition trunc (x : float) : option Z :=
  match x with
  | S754_zero _ => Some 0
  | S754_finite s m e =>
      let v := if s then Zneg m else Zpos m in
      Some (if 0 <=? e then v * 2 ^ e else Z.quot v (2 ^ (- e)))
  | _ => None
  end.

(** The integer a finite number rounds to towards plus infinity: [ceil], which is exact on
    [float]. *)
Definition ceil (x : float) : option Z := Z.opp <$> floor (SFopp x).

(** Conversion to [int32]; a value out of range (undefined in C++) gives the
    processor's indefinite integer. *)
Definition int32_of (z : option Z) : Z :=
  match z with
  | Some z => if bool_decide (in_s 32 z) then z else - 2 ^ 31
  | None => - 2 ^ 31
  end.
Definition to_int32 (x : float) : Z := int32_of (trunc x).
(** Conversion to [uint32]: the low half of the conversion to 64 bits, which of a value out
    of range (undefined in C++) is 0. *)
Definition to_uint32 (x : float) : Z :=
  match trunc x with Some z => if bool_decide (in_s 64 z) then wrap 32 z else 0 | None => 0 end.

Lemma int32_of_range z : in_s 32 (int32_of z).
Proof.
  unfold int32_of. destruct z as [z|]; [case_bool_decide; [done|]|]; vm_compute; split; congruence.
Qed.

Lemma to_uint32_range x : in_u 32 (to_uint32 x).
Proof.
  unfold to_uint32. destruct (trunc x) as [z|]; [case_bool_decide; [apply wrap_range; lia|]|]; vm_compute; split; congruence.
Qed.

End Float32.
