(* ===== verification/Reputation.v ===== *)
(** * Reputation: faction standings of [Reputation/ReputationMgr.cpp]

    Each player owns a [ReputationMgr]: a [std::map] of faction states keyed by
    reputation-list id, forced reactions, and four 8-bit counters (visible
    factions and factions at least honored, revered, exalted) that are kept
    incrementally. What the manager sends to the client, the player object and
    the database is the trace of its effects, in order. The faction store, the
    spillover templates, the gain rate, the player's masks and the script hook
    are its environment. *)
From S2P Require Import Prelude OrderedMap Float32.
From Stdlib Require Import Sorting.Sorted.

Module Reputation.
Import Float32.

(** ** Data *)

(** [ReputationRank]. *)
Definition REP_HATED := 0.
Definition REP_HOSTILE := 1.
Definition REP_NEUTRAL := 3.
Definition REP_HONORED := 5.
Definition REP_REVERED := 6.
Definition REP_EXALTED := 7.
Definition MAX_REPUTATION_RANK := 8.

(** [FactionFlags]. *)
Definition FACTION_FLAG_VISIBLE := 0x01.
Definition FACTION_FLAG_AT_WAR := 0x02.
Definition FACTION_FLAG_HIDDEN := 0x04.
Definition FACTION_FLAG_INVISIBLE_FORCED := 0x08.
Definition FACTION_FLAG_PEACE_FORCED := 0x10.
Definition FACTION_FLAG_INACTIVE := 0x20.
Definition FACTION_FLAG_SPECIAL := 0x80.

Definition PointsInRank : list Z := [36000; 3000; 3000; 3000; 6000; 12000; 21000; 1000].
Definition Reputation_Cap := 42999.
Definition Reputation_Bottom := -42000.

(** A row of Faction.dbc; the four base reputations as (race mask, class mask,
    value, flags). *)
Record FactionEntry := mkFaction {
  fe_ID : Z;
  reputationListID : Z;
  BaseRep : list (Z * Z * Z * Z);
  team : Z;
  spilloverRateIn : float;
  spilloverRateOut : float;
  spilloverMaxRankIn : Z
}.

Definition CanHaveReputation (fe : FactionEntry) : bool := 0 <=? reputationListID fe.

(** [RepSpilloverTemplate]: (faction, rate, rank), four of them. *)
Definition RepSpilloverTemplate : Type := list (Z * float * Z).

Record FactionState := mkState {
  ID : Z;
  ReputationListID : Z;
  Standing : Z;
  Flags : Z;
  needSend : bool;
  needSave : bool
}.

(** What leaves the manager: packets, calls of the player object, and the
    statements appended to the save transaction. *)
Inductive effect :=
| SMSG_SET_FORCED_REACTIONS (count : Z) (reactions : list (Z * Z))
| SMSG_SET_FACTION_STANDING (increased : bool) (count : Z) (standings : list (Z * Z))
| SMSG_INITIALIZE_FACTIONS (count : Z) (factions : list (Z * Z))
| SMSG_SET_FACTION_VISIBLE (repListID : Z)
| ReputationChanged (faction : Z)
| UpdateAchievementCriteria (criteria faction : Z)
| DelReputation (faction : Z)
| InsReputation (faction standing flags : Z).

Record ReputationMgr := mkMgr {
  _factions : list (Z * FactionState);
  _forcedReactions : list (Z * Z);
  _visibleFactionCount : Z;
  _honoredFactionCount : Z;
  _reveredFactionCount : Z;
  _exaltedFactionCount : Z;
  _sendFactionIncreased : bool;
  effects : list effect
}.

(** A null faction pointer that is dereferenced. *)
Inductive fault := NullFaction.

(** The environment of a manager. *)
Record Env := mkEnv {
  sFactionStore : gmap Z FactionEntry;
  GetNumRows : Z;
  getRaceMask : Z;
  getClassMask : Z;
  GetRepSpilloverTemplate : gmap Z RepSpilloverTemplate;
  rate_reputation_gain : float;
  PlayerLoading : bool;
  OnPlayerReputationChange : Z -> Z -> bool -> Z
}.

(** ** Field updates *)

Definition new_mgr : ReputationMgr := mkMgr [] [] 0 0 0 0 false [].

Definition set_factions (fs : list (Z * FactionState)) (s : ReputationMgr) : ReputationMgr :=
  mkMgr fs (_forcedReactions s) (_visibleFactionCount s) (_honoredFactionCount s)
    (_reveredFactionCount s) (_exaltedFactionCount s) (_sendFactionIncreased s) (effects s).
Definition set_forced (fr : list (Z * Z)) (s : ReputationMgr) : ReputationMgr :=
  mkMgr (_factions s) fr (_visibleFactionCount s) (_honoredFactionCount s)
    (_reveredFactionCount s) (_exaltedFactionCount s) (_sendFactionIncreased s) (effects s).
Definition set_counters (v h r e : Z) (s : ReputationMgr) : ReputationMgr :=
  mkMgr (_factions s) (_forcedReactions s) v h r e (_sendFactionIncreased s) (effects s).
Definition set_increased (b : bool) (s : ReputationMgr) : ReputationMgr :=
  mkMgr (_factions s) (_forcedReactions s) (_visibleFactionCount s) (_honoredFactionCount s)
    (_reveredFactionCount s) (_exaltedFactionCount s) b (effects s).
Definition emit (l : list effect) (s : ReputationMgr) : ReputationMgr :=
  mkMgr (_factions s) (_forcedReactions s) (_visibleFactionCount s) (_honoredFactionCount s)
    (_reveredFactionCount s) (_exaltedFactionCount s) (_sendFactionIncreased s) (effects s ++ l).

Definition put (k : Z) (f : FactionState) (s : ReputationMgr) : ReputationMgr :=
  set_factions (map_set k f (_factions s)) s.

Definition with_flags (fl : Z) (f : FactionState) : FactionState :=
  mkState (ID f) (ReputationListID f) (Standing f) fl true true.
Definition sent (f : FactionState) : FactionState :=
  mkState (ID f) (ReputationListID f) (Standing f) (Flags f) false (needSave f).

(** ** Ranks *)

(** The loop of [ReputationToRank] from index [n - 1] down to [0]. *)
Fixpoint rank_loop (n : nat) (limit standing : Z) : Z :=
  match n with
  | O => REP_HATED
  | S i =>
      let limit := limit - nth i PointsInRank 0 in
      if limit <=? standing then Z.of_nat i else rank_loop i limit standing
  end.
Definition ReputationToRank (standing : Z) : Z := rank_loop 8 (Reputation_Cap + 1) standing.

Definition UpdateRankCounters (old_rank new_rank : Z) (s : ReputationMgr) : ReputationMgr :=
  let dec (r c : Z) := if r <=? old_rank then u8 (c - 1) else c in
  let inc (r c : Z) := if r <=? new_rank then u8 (c + 1) else c in
  set_counters (_visibleFactionCount s)
    (inc REP_HONORED (dec REP_HONORED (_honoredFactionCount s)))
    (inc REP_REVERED (dec REP_REVERED (_reveredFactionCount s)))
    (inc REP_EXALTED (dec REP_EXALTED (_exaltedFactionCount s))) s.

Section manager.
Context (E : Env).

Definition LookupEntry (id : Z) : option FactionEntry := sFactionStore E !! id.

(** The first of the four base reputations that applies to the player. *)
Definition base_applies (b : Z * Z * Z * Z) : bool :=
  let '(race, cls, _, _) := b in
  (has race (getRaceMask E) || ((race =? 0) && negb (cls =? 0))) &&
  (has cls (getClassMask E) || (cls =? 0)).

Definition GetBaseReputation (fe : option FactionEntry) : Z :=
  match fe with
  | None => 0
  | Some fe =>
      match find base_applies (BaseRep fe) with
      | Some (_, _, v, _) => v
      | None => 0
      end
  end.

Definition GetDefaultStateFlags (fe : option FactionEntry) : Z :=
  match fe with
  | None => 0
  | Some fe =>
      match find base_applies (BaseRep fe) with
      | Some (_, _, _, fl) => fl
      | None => 0
      end
  end.

Definition GetState_id (id : Z) (s : ReputationMgr) : option FactionState :=
  map_find id (_factions s).
Definition GetState (fe : FactionEntry) (s : ReputationMgr) : option FactionState :=
  if CanHaveReputation fe then GetState_id (u32 (reputationListID fe)) s else None.

Definition IsAtWar (fe : option FactionEntry) (s : ReputationMgr) : bool :=
  match fe with
  | None => false
  | Some fe =>
      match GetState fe s with Some f => has (Flags f) FACTION_FLAG_AT_WAR | None => false end
  end.
Definition IsAtWar_id (faction_id : Z) (s : ReputationMgr) : bool :=
  match LookupEntry faction_id with None => false | Some fe => IsAtWar (Some fe) s end.

Definition GetReputation (fe : option FactionEntry) (s : ReputationMgr) : Z :=
  match fe with
  | None => 0
  | Some fe0 =>
      match GetState fe0 s with
      | Some f => s32 (GetBaseReputation fe + Standing f)
      | None => 0
      end
  end.
Definition GetReputation_id (faction_id : Z) (s : ReputationMgr) : Z :=
  match LookupEntry faction_id with None => 0 | Some fe => GetReputation (Some fe) s end.

Definition GetRank (fe : option FactionEntry) (s : ReputationMgr) : Z :=
  ReputationToRank (GetReputation fe s).
Definition GetBaseRank (fe : option FactionEntry) : Z := ReputationToRank (GetBaseReputation fe).

(** [Player::GetReputationRank]. *)
Definition GetReputationRank (faction : Z) (s : ReputationMgr) : Z := GetRank (LookupEntry faction) s.

Definition ApplyForceReaction (faction_id rank : Z) (apply : bool) (s : ReputationMgr)
    : ReputationMgr :=
  set_forced (if apply then map_set faction_id rank (_forcedReactions s)
              else map_erase faction_id (_forcedReactions s)) s.
Definition GetForcedRankIfAny (faction : Z) (s : ReputationMgr) : option Z :=
  map_find faction (_forcedReactions s).

(** ** Senders *)

Definition SendForceReactions (s : ReputationMgr) : ReputationMgr :=
  emit [SMSG_SET_FORCED_REACTIONS (u32 (Z.of_nat (length (_forcedReactions s)))) (_forcedReactions s)] s.

(** The loop of [SendState] over the map: the standings to report besides
    [own], and the map with [needSend] reset. *)
Fixpoint collect_pending (own : Z) (fs : list (Z * FactionState))
    : list (Z * Z) * list (Z * FactionState) :=
  match fs with
  | [] => ([], [])
  | (k, f) :: fs =>
      let '(rest, fs') := collect_pending own fs in
      if needSend f then
        (if negb (ReputationListID f =? own)
         then (ReputationListID f, u32 (Standing f)) :: rest else rest, (k, sent f) :: fs')
      else (rest, (k, f) :: fs')
  end.

Definition SendState (faction : FactionState) (s : ReputationMgr) : ReputationMgr :=
  let increased := _sendFactionIncreased s in
  let '(rest, fs) := collect_pending (ReputationListID faction) (_factions s) in
  emit [SMSG_SET_FACTION_STANDING increased (u32 (1 + Z.of_nat (length rest)))
          ((ReputationListID faction, u32 (Standing faction)) :: rest)]
    (set_factions fs (set_increased false s)).

(** [for (; a != b; a++) data << uint8(0) << uint32(0)] on [uint32]. *)
Definition absent (a b : Z) : list (Z * Z) := replicate (Z.to_nat (u32 (b - a))) (0, 0).

Fixpoint initial_loop (a : Z) (fs : list (Z * FactionState)) : list (Z * Z) * Z :=
  match fs with
  | [] => ([], a)
  | (k, f) :: fs =>
      let '(rest, a') := initial_loop (u32 (k + 1)) fs in
      (absent a k ++ (Flags f, u32 (Standing f)) :: rest, a')
  end.

Definition SendInitialReputations (s : ReputationMgr) : ReputationMgr :=
  let '(l, a) := initial_loop 0 (_factions s) in
  emit [SMSG_INITIALIZE_FACTIONS 0x80 (l ++ absent a 128)]
    (set_factions ((fun kf => (kf.1, sent kf.2)) <$> _factions s) s).

(** The loop visits the nodes of the map; [SendState] keeps its keys. *)
Definition SendStates (s : ReputationMgr) : ReputationMgr :=
  foldl (fun s k => match map_find k (_factions s) with Some f => SendState f s | None => s end)
    s ((_factions s).*1).

Definition SendVisible (faction : FactionState) (s : ReputationMgr) : ReputationMgr :=
  if PlayerLoading E then s else emit [SMSG_SET_FACTION_VISIBLE (ReputationListID faction)] s.

(** ** Flags. The [FactionState*] of the internal functions is the entry of
    the map at key [k]. *)

Definition SetVisible_at (k : Z) (s : ReputationMgr) : ReputationMgr :=
  match map_find k (_factions s) with
  | None => s
  | Some f =>
      if has (Flags f) (Z.lor FACTION_FLAG_INVISIBLE_FORCED FACTION_FLAG_HIDDEN)
         && negb (has (Flags f) FACTION_FLAG_SPECIAL) then s
      else if has (Flags f) FACTION_FLAG_VISIBLE then s
      else
        let f := with_flags (Z.lor (Flags f) FACTION_FLAG_VISIBLE) f in
        let s := put k f s in
        SendVisible f (set_counters (u8 (_visibleFactionCount s + 1)) (_honoredFactionCount s)
                         (_reveredFactionCount s) (_exaltedFactionCount s) s)
  end.

Definition SetVisible (fe : FactionEntry) (s : ReputationMgr) : ReputationMgr :=
  if reputationListID fe <? 0 then s
  else match map_find (u32 (reputationListID fe)) (_factions s) with
  | None => s
  | Some _ => SetVisible_at (u32 (reputationListID fe)) s
  end.

(** [SetVisible(FactionTemplateEntry const* )], by the template's faction. *)
Definition SetVisible_template (faction : Z) (s : ReputationMgr) : ReputationMgr :=
  if faction =? 0 then s
  else match LookupEntry faction with
  | None => s
  | Some fe =>
      let '(race, _, value, _) := nth 1 (BaseRep fe) (0, 0, 0, 0) in
      if negb (has race (getRaceMask E) && (value =? Reputation_Bottom)) then SetVisible fe s else s
  end.

Definition SetAtWar_at (k : Z) (atWar : bool) (s : ReputationMgr) : ReputationMgr :=
  match map_find k (_factions s) with
  | None => s
  | Some f =>
      if atWar && has (Flags f) FACTION_FLAG_PEACE_FORCED then s
      else if Bool.eqb (has (Flags f) FACTION_FLAG_AT_WAR) atWar then s
      else put k (with_flags (if atWar then u8 (Z.lor (Flags f) FACTION_FLAG_AT_WAR)
                              else u8 (Z.ldiff (Flags f) FACTION_FLAG_AT_WAR)) f) s
  end.

Definition SetAtWar (repListID : Z) (on : bool) (s : ReputationMgr) : ReputationMgr :=
  match map_find repListID (_factions s) with
  | None => s
  | Some f =>
      if has (Flags f) (Z.lor FACTION_FLAG_INVISIBLE_FORCED FACTION_FLAG_HIDDEN) then s
      else SetAtWar_at repListID on s
  end.

Definition SetInactive_at (k : Z) (inactive : bool) (s : ReputationMgr) : ReputationMgr :=
  match map_find k (_factions s) with
  | None => s
  | Some f =>
      if inactive && (has (Flags f) (Z.lor FACTION_FLAG_INVISIBLE_FORCED FACTION_FLAG_HIDDEN)
                      || negb (has (Flags f) FACTION_FLAG_VISIBLE)) then s
      else if Bool.eqb (has (Flags f) FACTION_FLAG_INACTIVE) inactive then s
      else put k (with_flags (if inactive then u8 (Z.lor (Flags f) FACTION_FLAG_INACTIVE)
                              else u8 (Z.ldiff (Flags f) FACTION_FLAG_INACTIVE)) f) s
  end.

Definition SetInactive (repListID : Z) (on : bool) (s : ReputationMgr) : ReputationMgr :=
  match map_find repListID (_factions s) with
  | None => s
  | Some _ => SetInactive_at repListID on s
  end.

(** ** Initialisation *)

Definition Initialize_step (s : ReputationMgr) (i : Z) : ReputationMgr :=
  match LookupEntry i with
  | None => s
  | Some fe =>
      if 0 <=? reputationListID fe then
        let f := mkState (fe_ID fe) (u32 (reputationListID fe)) 0
                   (u8 (GetDefaultStateFlags (Some fe))) true true in
        let s := if has (Flags f) FACTION_FLAG_VISIBLE
                 then set_counters (u8 (_visibleFactionCount s + 1)) (_honoredFactionCount s)
                        (_reveredFactionCount s) (_exaltedFactionCount s) s
                 else s in
        let s := UpdateRankCounters REP_HOSTILE (GetBaseRank (Some fe)) s in
        put (ReputationListID f) f s
      else s
  end.

Definition Initialize (s : ReputationMgr) : ReputationMgr :=
  foldl Initialize_step (mkMgr [] (_forcedReactions s) 0 0 0 0 false (effects s))
    (seqZ 1 (GetNumRows E - 1)).

(** ** Standings *)

(** [int32(floor((float)standing * rate + 0.5f))]. *)
Definition gain (standing : Z) : Z :=
  int32_of (floor (add (mul (of_Z standing) (rate_reputation_gain E)) (make 1 (-1)))).

Definition clamp (standing : Z) : Z :=
  if Reputation_Cap <? standing then Reputation_Cap
  else if standing <? Reputation_Bottom then Reputation_Bottom else standing.

(** The player callbacks of a changed standing, in order. *)
Definition standing_effects (faction : Z) : list effect :=
  [ReputationChanged faction;
   UpdateAchievementCriteria 89 faction;
   UpdateAchievementCriteria 46 faction;
   UpdateAchievementCriteria 47 faction;
   UpdateAchievementCriteria 87 faction;
   UpdateAchievementCriteria 88 faction].

Definition SetOneFactionReputation (fe : option FactionEntry) (standing : Z) (incremental : bool)
    (s : ReputationMgr) : result fault (bool * ReputationMgr) :=
  match fe with
  | None => Throw NullFaction
  | Some fe0 =>
      let k := u32 (reputationListID fe0) in
      match map_find k (_factions s) with
      | None => Ok (false, s)
      | Some f =>
          let base := GetBaseReputation fe in
          let standing := if incremental then s32 (gain standing + s32 (Standing f + base))
                          else standing in
          let standing := clamp standing in
          let old_rank := ReputationToRank (s32 (Standing f + base)) in
          let new_rank := ReputationToRank standing in
          let s := put k (mkState (ID f) (ReputationListID f) (s32 (standing - base)) (Flags f)
                            true true) s in
          let s := SetVisible_at k s in
          let s := if new_rank <=? REP_HOSTILE then SetAtWar_at k true s else s in
          let s := if old_rank <? new_rank then set_increased true s else s in
          let s := UpdateRankCounters old_rank new_rank s in
          Ok (true, emit (standing_effects (fe_ID fe0)) s)
      end
  end.

(** [GetFactionTeamList], from the lists built when the store is loaded: the
    factions of the team in the order of their ids. *)
Definition GetFactionTeamList (faction : Z) : option (list Z) :=
  match filter (fun i => match LookupEntry i with
                         | Some fe => bool_decide (team fe <> 0 /\ team fe = faction)
                         | None => false
                         end = true) (seqZ 0 (GetNumRows E)) with
  | [] => None
  | l => Some l
  end.

(** The loop over a spillover template of the database. *)
Fixpoint spill_template (l : RepSpilloverTemplate) (standing : Z) (incremental : bool)
    (s : ReputationMgr) : result fault ReputationMgr :=
  match l with
  | [] => Ok s
  | (faction, rate, rank) :: l =>
      if negb (faction =? 0) && (GetReputationRank faction s <=? rank) then
        let spilloverRep := to_int32 (mul (of_Z standing) rate) in
        match SetOneFactionReputation (LookupEntry faction) spilloverRep incremental s with
        | Ok (_, s) => spill_template l standing incremental s
        | Throw e => Throw e
        end
      else spill_template l standing incremental s
  end.

(** The loop over the affiliated factions. *)
Fixpoint spill_list (l : list Z) (self : Z) (out : float) (incremental res : bool)
    (s : ReputationMgr) : result fault (bool * ReputationMgr) :=
  match l with
  | [] => Ok (res, s)
  | i :: l =>
      match LookupEntry i with
      | None => spill_list l self out incremental res s
      | Some fe =>
          if (fe_ID fe =? self) || (spilloverMaxRankIn fe <? GetRank (Some fe) s)
          then spill_list l self out incremental res s
          else
            let spilloverRep := to_int32 (mul out (spilloverRateIn fe)) in
            if negb (spilloverRep =? 0) || negb incremental then
              match SetOneFactionReputation (Some fe) spilloverRep incremental s with
              | Ok (res, s) => spill_list l self out incremental res s
              | Throw e => Throw e
              end
            else spill_list l self out incremental res s
      end
  end.

(** The spillover to the team of the faction: the team's own standing, or the
    list of sister factions; also the amount that is passed on. *)
Definition spill_parent (fe : FactionEntry) (standing : Z) (incremental : bool) (s : ReputationMgr)
    : result fault (option (list Z) * float * ReputationMgr) :=
  let out := of_Z standing in
  match GetFactionTeamList (fe_ID fe) with
  | Some l => Ok (Some l, out, s)
  | None =>
      if negb (team fe =? 0) && negb (eqb (spilloverRateOut fe) (of_Z 0)) then
        let out := mul out (spilloverRateOut fe) in
        match LookupEntry (team fe) with
        | None => Ok (None, out, s)
        | Some parent =>
            match map_find (u32 (reputationListID parent)) (_factions s) with
            | Some p =>
                if has (Flags p) FACTION_FLAG_SPECIAL then
                  match SetOneFactionReputation (Some parent) (to_int32 out) incremental s with
                  | Ok (_, s) => Ok (None, out, s)
                  | Throw e => Throw e
                  end
                else Ok (GetFactionTeamList (team fe), out, s)
            | None => Ok (GetFactionTeamList (team fe), out, s)
            end
        end
      else Ok (None, out, s)
  end.

Definition spill (fe : FactionEntry) (standing : Z) (incremental : bool) (s : ReputationMgr)
    : result fault (bool * ReputationMgr) :=
  match GetRepSpilloverTemplate E !! fe_ID fe with
  | Some repTemplate =>
      match spill_template repTemplate standing incremental s with
      | Ok s => Ok (false, s)
      | Throw e => Throw e
      end
  | None =>
      match spill_parent fe standing incremental s with
      | Throw e => Throw e
      | Ok (None, _, s) => Ok (false, s)
      | Ok (Some l, out, s) => spill_list l (fe_ID fe) out incremental false s
      end
  end.

Definition SetReputation (fe : FactionEntry) (standing : Z) (incremental : bool) (s : ReputationMgr)
    : result fault (bool * ReputationMgr) :=
  let standing := OnPlayerReputationChange E (fe_ID fe) standing incremental in
  match spill fe standing incremental s with
  | Throw e => Throw e
  | Ok (res, s) =>
      let k := u32 (reputationListID fe) in
      match map_find k (_factions s) with
      | None => Ok (res, s)
      | Some _ =>
          match SetOneFactionReputation (Some fe) standing incremental s with
          | Throw e => Throw e
          | Ok (res, s) =>
              match map_find k (_factions s) with
              | Some f => Ok (res, SendState f s)
              | None => Ok (res, s)
              end
          end
      end
  end.

(** ** Database *)

(** A row of character_reputation: faction, standing, flags. *)
Definition row : Type := Z * Z * Z.

(** One round of the loop of [LoadFromDB]. *)
Definition LoadFromDB_step (s : ReputationMgr) (r : row) : ReputationMgr :=
  let '(faction, standing, dbFactionFlags) := r in
  match LookupEntry faction with
  | None => s
  | Some fe =>
      if 0 <=? reputationListID fe then
        let k := u32 (reputationListID fe) in
        let f := default (mkState 0 0 0 0 false false) (map_find k (_factions s)) in
        let s := put k (mkState (ID f) (ReputationListID f) standing (Flags f)
                          (needSend f) (needSave f)) s in
        let base := GetBaseReputation (Some fe) in
        let s := UpdateRankCounters (ReputationToRank base)
                   (ReputationToRank (s32 (base + standing))) s in
        let s := if has dbFactionFlags FACTION_FLAG_VISIBLE then SetVisible_at k s else s in
        let s := if has dbFactionFlags FACTION_FLAG_INACTIVE then SetInactive_at k true s else s in
        let s := if has dbFactionFlags FACTION_FLAG_AT_WAR then SetAtWar_at k true s
                 else match map_find k (_factions s) with
                 | Some f => if has (Flags f) FACTION_FLAG_VISIBLE then SetAtWar_at k false s else s
                 | None => s
                 end in
        let s := if GetRank (Some fe) s <=? REP_HOSTILE then SetAtWar_at k true s else s in
        match map_find k (_factions s) with
        | Some f =>
            if Flags f =? dbFactionFlags
            then put k (mkState (ID f) (ReputationListID f) (Standing f) (Flags f) false false) s
            else s
        | None => s
        end
      else s
  end.

Definition LoadFromDB (rows : list row) (s : ReputationMgr) : ReputationMgr :=
  foldl LoadFromDB_step (Initialize s) rows.

(** The loop of [SaveToDB]: the statements, and the map with [needSave] reset. *)
Fixpoint save_loop (fs : list (Z * FactionState)) : list effect * list (Z * FactionState) :=
  match fs with
  | [] => ([], [])
  | (k, f) :: fs =>
      let '(stmts, fs') := save_loop fs in
      if needSave f then
        (DelReputation (u16 (ID f)) :: InsReputation (u16 (ID f)) (Standing f) (Flags f) :: stmts,
         (k, mkState (ID f) (ReputationListID f) (Standing f) (Flags f) (needSend f) false) :: fs')
      else (stmts, (k, f) :: fs')
  end.

Definition SaveToDB (s : ReputationMgr) : ReputationMgr :=
  let '(stmts, fs) := save_loop (_factions s) in emit stmts (set_factions fs s).

(** ** Invariant

    [shape] holds at every point inside an operation; the rank counters are
    restored at its end, so they are stated apart ([ranks_ok]), as a function
    of the identities and standings of the factions. *)

Definition base_of (id : Z) : Z := GetBaseReputation (LookupEntry id).
Definition rank_at (q : Z * Z) : Z := ReputationToRank (s32 (base_of q.1 + q.2)).
Definition visible (k : Z) (f : FactionState) : Z :=
  if has (Flags f) FACTION_FLAG_VISIBLE then 1 else 0.
Definition at_least (r k : Z) (q : Z * Z) : Z := if r <=? rank_at q then 1 else 0.

Definition standings (s : ReputationMgr) : list (Z * (Z * Z)) :=
  (fun kf => (kf.1, (ID kf.2, Standing kf.2))) <$> _factions s.

(** An entry at key [k] belongs to the faction of the store with that list id. *)
Definition entry_ok (k : Z) (f : FactionState) : Prop :=
  ReputationListID f = k /\ in_u 8 (Flags f) /\
  exists fe, LookupEntry (ID f) = Some fe /\ 0 <= reputationListID fe /\ reputationListID fe = k.

Record shape (s : ReputationMgr) : Prop := {
  shape_sorted : map_sorted (_factions s);
  shape_entries k f : map_find k (_factions s) = Some f -> entry_ok k f;
  shape_visible : _visibleFactionCount s = u8 (map_sum visible (_factions s))
}.

Definition rank_counters (s : ReputationMgr) : Z * Z * Z :=
  (_honoredFactionCount s, _reveredFactionCount s, _exaltedFactionCount s).
Definition counted (m : list (Z * (Z * Z))) : Z * Z * Z :=
  (u8 (map_sum (at_least REP_HONORED) m), u8 (map_sum (at_least REP_REVERED) m),
   u8 (map_sum (at_least REP_EXALTED) m)).
Definition ranks_ok (s : ReputationMgr) : Prop := rank_counters s = counted (standings s).

Definition wf (s : ReputationMgr) : Prop := shape s /\ ranks_ok s.

(** Assumptions on the data files: ids index the store, list ids are unique,
    and integers have their widths. *)
Record env_ok : Prop := {
  env_id i fe : LookupEntry i = Some fe -> fe_ID fe = i /\ 1 <= i < GetNumRows E;
  env_width i fe : LookupEntry i = Some fe -> in_s 32 (reputationListID fe) /\
    Forall (fun b => let '(_, _, v, _) := b in in_s 32 v) (BaseRep fe);
  env_unique i j fe gf : LookupEntry i = Some fe -> LookupEntry j = Some gf ->
    0 <= reputationListID fe -> reputationListID fe = reputationListID gf -> i = j;
  env_templates i l : GetRepSpilloverTemplate E !! i = Some l ->
    Forall (fun t => let '(faction, _, _) := t in faction <> 0 -> is_Some (LookupEntry faction)) l
}.

(** ** Lemmas on ranks *)

Lemma GetBaseReputation_range i : env_ok -> in_s 32 (base_of i).
Proof.
  intros HE. unfold base_of, GetBaseReputation.
  destruct (LookupEntry i) as [fe|] eqn:Hi; [|vm_compute; split; congruence].
  destruct (find base_applies (BaseRep fe)) as [[[[? ?] v] ?]|] eqn:Hf;
    [|vm_compute; split; congruence].
  apply (env_width HE) in Hi as [_ Hall]. rewrite Forall_forall in Hall.
  apply find_some in Hf as [Hin _]. apply list_elem_of_In in Hin. by apply Hall in Hin.
Qed.

Lemma clamp_range z : Reputation_Bottom <= clamp z <= Reputation_Cap.
Proof. unfold clamp. repeat case_match; unfold Reputation_Cap, Reputation_Bottom in *; lia. Qed.

(** Storing a standing relative to the base and adding the base again. *)
Lemma rebase v base : Reputation_Bottom <= v <= Reputation_Cap -> s32 (base + s32 (v - base)) = v.
Proof.
  intros Hv. rewrite <- (swrap_id 32 v) at 2 by (unfold Reputation_Bottom, Reputation_Cap in *; width).
  unfold swrap. f_equal. change (2 ^ 32) with 4294967296. change (2 ^ (32 - 1)) with 2147483648.
  Z.to_euclidean_division_equations. lia.
Qed.

Lemma counters_shift c S r old new :
  c = u8 S ->
  (if r <=? new then u8 ((if r <=? old then u8 (c - 1) else c) + 1)
   else (if r <=? old then u8 (c - 1) else c))
  = u8 (S + (if r <=? new then 1 else 0) - (if r <=? old then 1 else 0)).
Proof.
  intros ->. destruct (r <=? new), (r <=? old); unfold wrap; change (2 ^ 8) with 256;
    try (rewrite Z.add_0_r, Z.sub_0_r; done); Z.to_euclidean_division_equations; lia.
Qed.

Lemma standings_put k f s :
  standings (put k f s) = map_set k (ID f, Standing f) (standings s).
Proof.
  unfold standings, put; simpl. induction (_factions s) as [|[k' g] m IH]; simpl; [done|].
  destruct (k <? k'); [done|]. destruct (k =? k'); [done|]. simpl. f_equal. apply IH.
Qed.

Lemma standings_find k s :
  map_find k (standings s) = (fun f => (ID f, Standing f)) <$> map_find k (_factions s).
Proof.
  unfold standings. induction (_factions s) as [|[k' g] m IH]; simpl; [done|].
  destruct (k =? k'); done.
Qed.

Lemma standings_sorted s : map_sorted (_factions s) -> map_sorted (standings s).
Proof. unfold map_sorted, standings. by rewrite <- list_fmap_compose. Qed.

(** The counters follow a change of one faction's standing. *)
Lemma UpdateRankCounters_ok s0 s k old q' :
  map_sorted (_factions s0) -> ranks_ok s0 ->
  rank_counters s = rank_counters s0 ->
  match map_find k (standings s0) with
  | Some q => rank_at q = old
  | None => old < REP_HONORED
  end ->
  standings s = map_set k q' (standings s0) ->
  ranks_ok (UpdateRankCounters old (rank_at q') s).
Proof.
  intros Hs Hok Hc Hk Hst. unfold ranks_ok in *. rewrite Hok in Hc.
  change (standings (UpdateRankCounters _ _ s)) with (standings s). rewrite Hst.
  unfold rank_counters, counted in *. inversion Hc as [[H1 H2 H3]].
  unfold UpdateRankCounters. cbn -[Z.leb rank_at].
  rewrite !map_sum_set by (by apply standings_sorted).
  rewrite (counters_shift _ _ _ _ _ H1), (counters_shift _ _ _ _ _ H2), (counters_shift _ _ _ _ _ H3).
  destruct (map_find k (standings s0)) as [x|].
  - subst old. unfold at_least. done.
  - unfold at_least, REP_HONORED, REP_REVERED, REP_EXALTED in *.
    rewrite (proj2 (Z.leb_gt 5 old)), (proj2 (Z.leb_gt 6 old)), (proj2 (Z.leb_gt 7 old)) by lia.
    rewrite !Z.sub_0_r. done.
Qed.

(** ** Flag changes leave standings and counters alone *)

(** [s'] follows [s] by a step that changes no standing. *)
Definition quiet (s s' : ReputationMgr) : Prop :=
  shape s -> shape s' /\ standings s' = standings s /\ rank_counters s' = rank_counters s.

Lemma quiet_refl s : quiet s s.
Proof. done. Qed.

Lemma quiet_trans s1 s2 s3 : quiet s1 s2 -> quiet s2 s3 -> quiet s1 s3.
Proof.
  intros H1 H2 Hs. destruct (H1 Hs) as (Hs2 & E1 & E2). destruct (H2 Hs2) as (Hs3 & E3 & E4).
  split_and!; congruence.
Qed.

Lemma quiet_wf s s' : quiet s s' -> wf s -> wf s'.
Proof.
  intros H [Hs Hr]. destruct (H Hs) as (Hs' & E1 & E2). split; [done|].
  unfold ranks_ok. by rewrite E1, E2.
Qed.

(** What is sent and whether the increase effect is due does not matter. *)
Lemma quiet_emit l s : quiet s (emit l s).
Proof. intros []. split_and!; [by split|done|done]. Qed.
Lemma quiet_increased b s : quiet s (set_increased b s).
Proof. intros []. split_and!; [by split|done|done]. Qed.
Lemma quiet_forced fr s : quiet s (set_forced fr s).
Proof. intros []. split_and!; [by split|done|done]. Qed.

(** Replacing the flags of an entry, with the visible counter adjusted. *)
Lemma put_quiet k f fl b1 b2 v s :
  map_find k (_factions s) = Some f -> (in_u 8 (Flags f) -> in_u 8 fl) ->
  v = u8 (_visibleFactionCount s +
          visible k (mkState (ID f) (ReputationListID f) (Standing f) fl b1 b2) - visible k f) ->
  quiet s (set_counters v (_honoredFactionCount s) (_reveredFactionCount s) (_exaltedFactionCount s)
             (put k (mkState (ID f) (ReputationListID f) (Standing f) fl b1 b2) s)).
Proof.
  intros Hf Hfl Hv [Hs He Hc]. set (f' := mkState _ _ _ _ _ _) in *.
  assert (Hst : standings (put k f' s) = standings s).
  { rewrite standings_put. apply map_set_id; [by apply standings_sorted|].
    by rewrite standings_find, Hf. }
  split_and!; [|exact Hst|done]. split; simpl.
  - by apply map_set_sorted.
  - intros j g. destruct (decide (j = k)) as [->|Hj].
    + rewrite map_find_set. intros [= <-]. destruct (He k f Hf) as (H1 & H2 & H3).
      by split_and!; auto.
    + rewrite map_find_set_ne by done. apply He.
  - rewrite Hv, Hc, map_sum_set, Hf by done. unfold wrap. rewrite <- Z.add_sub_assoc, Zplus_mod_idemp_l.
    f_equal. lia.
Qed.

(** A flag function that keeps the visible flag, checked on all bytes. *)
Definition keeps_visible (g : Z -> Z) : bool :=
  forallb (fun x => bool_decide (in_u 8 (g x)) &&
    Bool.eqb (has (g x) FACTION_FLAG_VISIBLE) (has x FACTION_FLAG_VISIBLE)) (seqZ 0 256).

Lemma put_flags_quiet k f g s :
  keeps_visible g = true -> map_find k (_factions s) = Some f ->
  quiet s (put k (with_flags (g (Flags f)) f) s).
Proof.
  intros Hg Hf Hsh. destruct (shape_entries s Hsh k f Hf) as (_ & Hb & _).
  pose proof (forall_u8 _ (Flags f) Hg Hb) as [H1%bool_decide_eq_true H2%eqb_prop]%andb_prop.
  revert Hsh. intros Hsh.
  pose proof (put_quiet k f (g (Flags f)) true true (_visibleFactionCount s) s Hf) as H.
  apply H; [done| |done]. unfold visible; simpl. rewrite H2, Z.add_simpl_r.
  rewrite (shape_visible s Hsh). by rewrite wrap_wrap by lia.
Qed.

Lemma SetVisible_at_quiet k s : quiet s (SetVisible_at k s).
Proof.
  unfold SetVisible_at. destruct (map_find k (_factions s)) as [f|] eqn:Hf; [|apply quiet_refl].
  destruct (_ && _); [apply quiet_refl|].
  destruct (has (Flags f) FACTION_FLAG_VISIBLE) eqn:Hv; [apply quiet_refl|].
  assert (forall f' s0, quiet s0 (SendVisible f' s0)) as Hsend.
  { intros. unfold SendVisible. destruct (PlayerLoading E); [apply quiet_refl|apply quiet_emit]. }
  eapply quiet_trans; [|apply Hsend]. unfold with_flags.
  refine (put_quiet k f (Z.lor (Flags f) FACTION_FLAG_VISIBLE) true true
            (u8 (_visibleFactionCount s + 1)) s Hf _ _).
  - intros Hb. exact (proj1 (bool_decide_eq_true _)
      (forall_u8 (fun x => bool_decide (in_u 8 (Z.lor x FACTION_FLAG_VISIBLE))) _ eq_refl Hb)).
  - unfold visible; simpl. rewrite Hv.
    assert (has (Z.lor (Flags f) FACTION_FLAG_VISIBLE) FACTION_FLAG_VISIBLE = true) as ->.
    { unfold FACTION_FLAG_VISIBLE. change 1 with (Z.shiftl 1 0). rewrite has_bit by done.
      by rewrite Z.lor_spec, orb_true_r. }
    by rewrite Z.sub_0_r.
Qed.

Lemma SetAtWar_at_quiet k b s : quiet s (SetAtWar_at k b s).
Proof.
  unfold SetAtWar_at. destruct (map_find k (_factions s)) as [f|] eqn:Hf; [|apply quiet_refl].
  destruct (_ && _); [apply quiet_refl|]. destruct (Bool.eqb _ _); [apply quiet_refl|].
  destruct b; [apply (put_flags_quiet k f (fun x => u8 (Z.lor x FACTION_FLAG_AT_WAR)))
              |apply (put_flags_quiet k f (fun x => u8 (Z.ldiff x FACTION_FLAG_AT_WAR)))]; done.
Qed.

Lemma SetInactive_at_quiet k b s : quiet s (SetInactive_at k b s).
Proof.
  unfold SetInactive_at. destruct (map_find k (_factions s)) as [f|] eqn:Hf; [|apply quiet_refl].
  destruct (_ && _); [apply quiet_refl|]. destruct (Bool.eqb _ _); [apply quiet_refl|].
  destruct b; [apply (put_flags_quiet k f (fun x => u8 (Z.lor x FACTION_FLAG_INACTIVE)))
              |apply (put_flags_quiet k f (fun x => u8 (Z.ldiff x FACTION_FLAG_INACTIVE)))]; done.
Qed.

(** ** Steps that rewrite the whole map *)

(** Entries that differ in the pending flags only. *)
Definition same_entry (x y : Z * FactionState) : Prop :=
  x.1 = y.1 /\ ID x.2 = ID y.2 /\ ReputationListID x.2 = ReputationListID y.2 /\
  Standing x.2 = Standing y.2 /\ Flags x.2 = Flags y.2.

Lemma set_factions_quiet fs s : Forall2 same_entry (_factions s) fs -> quiet s (set_factions fs s).
Proof.
  intros HF [Hs He Hv].
  assert (Hkeys : fs.*1 = (_factions s).*1).
  { clear -HF. induction HF as [|[k f] [k' f'] m m' H HF IH]; simpl; [done|].
    destruct H as [H _]; simpl in H. f_equal; [done|apply IH]. }
  assert (Hfind : forall k f', map_find k fs = Some f' ->
    exists f, map_find k (_factions s) = Some f /\ same_entry (k, f) (k, f')).
  { clear -HF. induction HF as [|[k0 f] [k0' f'] m m' H HF IH]; simpl; [done|].
    destruct H as (H1 & H2); simpl in *. subst k0'. intros k g.
    destruct (k =? k0); [intros [= <-]; by exists f|auto]. }
  split_and!; [split; simpl| |done].
  - unfold map_sorted. by rewrite Hkeys.
  - intros k f' (f & Hf & _ & H1 & H2 & H3 & H4)%Hfind. simpl in *. unfold entry_ok.
    rewrite <- H1, <- H2, <- H4. by apply He.
  - rewrite Hv. f_equal. clear -HF. induction HF as [|[k f] [k' f'] m m' H HF IH]; simpl; [done|].
    destruct H as (_ & _ & _ & _ & H); simpl in H. unfold visible at 1 3. by rewrite H, IH.
  - unfold standings; simpl. clear -HF.
    induction HF as [|[k f] [k' f'] m m' H HF IH]; simpl; [done|].
    destruct H as (H1 & H2 & _ & H3 & _); simpl in *. rewrite H1, H2, H3. f_equal. done.
Qed.

Lemma collect_pending_same own fs : Forall2 same_entry fs (collect_pending own fs).2.
Proof.
  induction fs as [|[k f] fs IH]; simpl; [constructor|].
  destruct (collect_pending own fs) as [rest fs']. destruct (needSend f); by constructor.
Qed.

Lemma save_loop_same fs : Forall2 same_entry fs (save_loop fs).2.
Proof.
  induction fs as [|[k f] fs IH]; simpl; [constructor|].
  destruct (save_loop fs) as [stmts fs']. destruct (needSave f); by constructor.
Qed.

Lemma SendState_quiet f s : quiet s (SendState f s).
Proof.
  unfold SendState. pose proof (collect_pending_same (ReputationListID f) (_factions s)) as H.
  destruct (collect_pending _ _) as [rest fs].
  eapply quiet_trans; [|apply quiet_emit]. eapply quiet_trans; [apply (quiet_increased false)|].
  by apply set_factions_quiet.
Qed.

Lemma SendStates_quiet s : quiet s (SendStates s).
Proof.
  unfold SendStates. generalize ((_factions s).*1) as ks. intros ks. revert s.
  induction ks as [|k ks IH]; intros s; simpl; [apply quiet_refl|].
  eapply quiet_trans; [|apply IH]. destruct (map_find k (_factions s)); [|apply quiet_refl].
  apply SendState_quiet.
Qed.

Lemma SendInitialReputations_quiet s : quiet s (SendInitialReputations s).
Proof.
  unfold SendInitialReputations. destruct (initial_loop 0 (_factions s)) as [l a].
  eapply quiet_trans; [|apply quiet_emit]. apply set_factions_quiet.
  induction (_factions s) as [|[k f] fs IH]; simpl; by constructor.
Qed.

Lemma SaveToDB_quiet s : quiet s (SaveToDB s).
Proof.
  unfold SaveToDB. pose proof (save_loop_same (_factions s)) as H.
  destruct (save_loop (_factions s)) as [stmts fs].
  eapply quiet_trans; [|apply quiet_emit]. by apply set_factions_quiet.
Qed.

(** ** Standings *)

(** The entry found for a faction of the store is that faction's. *)
Lemma find_faction i fe f s :
  env_ok -> shape s -> LookupEntry i = Some fe ->
  map_find (u32 (reputationListID fe)) (_factions s) = Some f ->
  ID f = i /\ u32 (reputationListID fe) = reputationListID fe /\ 0 <= reputationListID fe.
Proof.
  intros HE Hs Hi Hf. destruct (shape_entries s Hs _ f Hf) as (_ & _ & fe' & Hl & H0 & Hk).
  pose proof (proj1 (env_width HE _ _ Hi)) as Hw. pose proof (proj1 (env_width HE _ _ Hl)) as Hw'.
  assert (0 <= reputationListID fe).
  { destruct (Z.lt_ge_cases (reputationListID fe) 0) as [Hneg|]; [|done]. exfalso.
    unfold wrap in Hk. rewrite <- (Z.mod_add _ 1), Z.mod_small in Hk by width. width. }
  rewrite wrap_id in Hk |- * by width. split_and!; [|done|done].
  symmetry. by apply (env_unique HE i (ID f) fe fe').
Qed.

Lemma put_shape k f f' s :
  shape s -> map_find k (_factions s) = Some f ->
  ID f' = ID f -> ReputationListID f' = ReputationListID f -> Flags f' = Flags f ->
  shape (put k f' s).
Proof.
  intros [Hs He Hv] Hf H1 H2 H3. split; simpl.
  - by apply map_set_sorted.
  - intros j g. destruct (decide (j = k)) as [->|Hj].
    + rewrite map_find_set. intros [= <-]. unfold entry_ok. rewrite H1, H2, H3. by apply He.
    + rewrite map_find_set_ne by done. apply He.
  - rewrite map_sum_set, Hf by done. unfold visible at 2 3. rewrite H3, Z.add_simpl_r. done.
Qed.

Lemma SetOneFactionReputation_ok i fe standing incremental s :
  env_ok -> wf s -> LookupEntry i = Some fe ->
  exists res s', SetOneFactionReputation (Some fe) standing incremental s = Ok (res, s') /\ wf s' /\
    res = match map_find (u32 (reputationListID fe)) (_factions s) with Some _ => true | None => false end.
Proof.
  intros HE [Hs Hr] Hi. unfold SetOneFactionReputation.
  destruct (map_find _ (_factions s)) as [f|] eqn:Hf; [|by exists false, s].
  destruct (find_faction i fe f s HE Hs Hi Hf) as (Hid & Hk & H0).
  assert (Hbase : GetBaseReputation (Some fe) = base_of (ID f)) by (unfold base_of; by rewrite Hid, Hi).
  rewrite Hbase. set (k := u32 (reputationListID fe)) in *.
  set (v := clamp _). pose proof (clamp_range (if incremental
    then s32 (gain standing + s32 (Standing f + base_of (ID f))) else standing)) as Hv. fold v in Hv.
  set (q := (ID f, Standing f)). set (q' := (ID f, s32 (v - base_of (ID f)))).
  assert (Hold : ReputationToRank (s32 (Standing f + base_of (ID f))) = rank_at q)
    by (unfold rank_at, q; simpl; by rewrite Z.add_comm).
  assert (Hnew : ReputationToRank v = rank_at q') by (unfold rank_at, q'; simpl; by rewrite rebase).
  rewrite Hold, Hnew. clearbody v.
  set (s1 := put k _ s). assert (Hs1 : shape s1) by (by eapply put_shape).
  assert (Hst1 : standings s1 = map_set k q' (standings s)) by apply standings_put.
  set (s3 := if rank_at q' <=? REP_HOSTILE then _ else _).
  assert (Hq3 : quiet s1 s3).
  { unfold s3. eapply quiet_trans; [apply SetVisible_at_quiet|].
    destruct (_ <=? _); [apply SetAtWar_at_quiet|apply quiet_refl]. }
  set (s4 := if rank_at q <? rank_at q' then set_increased true s3 else s3).
  assert (Hq4 : quiet s1 s4).
  { eapply quiet_trans; [exact Hq3|]. unfold s4.
    destruct (_ <? _); [apply quiet_increased|apply quiet_refl]. }
  destruct (Hq4 Hs1) as (Hs4 & Hst4 & Hc4).
  eexists true, _. split; [done|]. split; [|done]. eapply quiet_wf; [apply quiet_emit|].
  split; [by destruct Hs4; split|].
  apply (UpdateRankCounters_ok s s4 k _ q'); [apply Hs|done|by rewrite Hc4| |congruence].
  by rewrite standings_find, Hf.
Qed.

Lemma spill_template_ok l standing incremental s :
  env_ok -> wf s ->
  Forall (fun t => let '(faction, _, _) := t in faction <> 0 -> is_Some (LookupEntry faction)) l ->
  exists s', spill_template l standing incremental s = Ok s' /\ wf s'.
Proof.
  intros HE Hw Hl. revert s Hw. induction Hl as [|[[faction rate] rank] l Hf Hl IH]; intros s Hw; cbn [spill_template].
  { by exists s. }
  destruct (Z.eqb_spec faction 0) as [|Hne]; simpl; [by apply IH|].
  destruct (_ <=? _); [|by apply IH]. destruct (Hf Hne) as [fe Hi]. rewrite Hi.
  destruct (SetOneFactionReputation_ok faction fe (to_int32 (mul (of_Z standing) rate)) incremental s
    HE Hw Hi) as (r & s1 & -> & Hw1 & _). by apply IH.
Qed.

Lemma spill_list_ok l self out incremental res s :
  env_ok -> wf s -> exists r s', spill_list l self out incremental res s = Ok (r, s') /\ wf s'.
Proof.
  intros HE. revert res s. induction l as [|i l IH]; intros res s Hw; cbn [spill_list]; [by exists res, s|].
  destruct (LookupEntry i) as [fe|] eqn:Hi; [|by apply IH].
  destruct (_ || _); [by apply IH|]. destruct (_ || _); [|by apply IH].
  destruct (SetOneFactionReputation_ok i fe (to_int32 (mul out (spilloverRateIn fe))) incremental s
    HE Hw Hi) as (r & s1 & -> & Hw1 & _). by apply IH.
Qed.

Lemma spill_ok fe standing incremental s :
  env_ok -> wf s -> exists r s', spill fe standing incremental s = Ok (r, s') /\ wf s'.
Proof.
  intros HE Hw. unfold spill. destruct (GetRepSpilloverTemplate E !! fe_ID fe) as [l|] eqn:Ht.
  { destruct (spill_template_ok l standing incremental s HE Hw (env_templates HE _ _ Ht))
      as (s1 & -> & Hw1). eauto. }
  assert (exists l out s1, spill_parent fe standing incremental s = Ok (l, out, s1) /\ wf s1)
    as (l & out & s1 & -> & Hw1).
  { unfold spill_parent. destruct (GetFactionTeamList (fe_ID fe)); [do 3 eexists; done|].
    destruct (_ && _); [|do 3 eexists; done].
    destruct (LookupEntry (team fe)) as [parent|] eqn:Hp; [|do 3 eexists; done].
    destruct (map_find _ (_factions s)) as [p|]; [|do 3 eexists; done].
    destruct (has _ _); [|do 3 eexists; done].
    destruct (SetOneFactionReputation_ok _ parent (to_int32 (mul (of_Z standing) (spilloverRateOut fe)))
      incremental s HE Hw Hp) as (r & s1 & -> & Hw1 & _). do 3 eexists; done. }
  destruct l as [l|]; [by apply spill_list_ok|eauto].
Qed.

Lemma SetReputation_ok i fe standing incremental s :
  env_ok -> wf s -> LookupEntry i = Some fe ->
  exists r s', SetReputation fe standing incremental s = Ok (r, s') /\ wf s'.
Proof.
  intros HE Hw Hi. unfold SetReputation. set (st := OnPlayerReputationChange E _ _ _).
  destruct (spill_ok fe st incremental s HE Hw) as (r & s1 & -> & Hw1).
  destruct (map_find _ (_factions s1)) as [f|] eqn:Hf; [|eauto].
  destruct (SetOneFactionReputation_ok i fe st incremental s1 HE Hw1 Hi) as (r' & s2 & -> & Hw2 & _).
  destruct (map_find _ (_factions s2)) as [f2|]; [|eauto]. do 2 eexists. split; [done|].
  eapply quiet_wf; [apply SendState_quiet|done].
Qed.

(** ** Loading *)

(** After the first [n] ids, only their factions are in the map. *)
Definition loaded_below (n : Z) (s : ReputationMgr) : Prop :=
  forall k f, map_find k (_factions s) = Some f -> ID f < n /\ Standing f = 0.

Lemma put_new_shape k f s :
  shape s -> map_find k (_factions s) = None -> entry_ok k f ->
  shape (put k f (set_counters (u8 (_visibleFactionCount s + visible k f)) (_honoredFactionCount s)
                    (_reveredFactionCount s) (_exaltedFactionCount s) s)).
Proof.
  intros [Hs He Hv] Hf Hok. split; simpl.
  - by apply map_set_sorted.
  - intros j g. destruct (decide (j = k)) as [->|Hj].
    + rewrite map_find_set. by intros [= <-].
    + rewrite map_find_set_ne by done. apply He.
  - rewrite map_sum_set, Hf, Hv by done. rewrite wrap_add_l by lia. f_equal. lia.
Qed.

Lemma Initialize_step_ok i s :
  env_ok -> wf s -> loaded_below i s ->
  wf (Initialize_step s i) /\ loaded_below (i + 1) (Initialize_step s i).
Proof.
  intros HE [Hs Hr] Hb.
  assert (Hlift : loaded_below (i + 1) s) by (intros k f Hf; apply Hb in Hf; lia).
  unfold Initialize_step. destruct (LookupEntry i) as [fe|] eqn:Hi; [|done].
  destruct (Z.leb_spec 0 (reputationListID fe)) as [H0|]; [|done].
  destruct (env_id HE i fe Hi) as [Hid _]. destruct (env_width HE i fe Hi) as [Hw _].
  assert (Hk : u32 (reputationListID fe) = reputationListID fe) by (apply wrap_id; width).
  assert (Hnone : map_find (reputationListID fe) (_factions s) = None).
  { destruct (map_find _ (_factions s)) as [g|] eqn:Hg; [|done]. exfalso.
    rewrite <- Hk in Hg. destruct (find_faction i fe g s HE Hs Hi Hg) as (Heq & _).
    apply Hb in Hg. lia. }
  cbn [ReputationListID Flags]. rewrite Hk, Hid. set (f := mkState i _ 0 _ true true).
  set (s1 := if has _ _ then _ else s).
  assert (Es1 : s1 = set_counters (u8 (_visibleFactionCount s + visible (reputationListID fe) f)) (_honoredFactionCount s)
                  (_reveredFactionCount s) (_exaltedFactionCount s) s).
  { unfold s1, visible, f; simpl. destruct (has _ _); [done|]. rewrite Z.add_0_r.
    rewrite (shape_visible s Hs), wrap_wrap, <- (shape_visible s Hs) by lia. by destruct s. }
  assert (Hs1 : shape (put (reputationListID fe) f s1)).
  { rewrite Es1. apply put_new_shape; [done|done|]. split_and!; [done|by apply wrap_range|].
    exists fe. done. }
  split.
  - split; [destruct Hs1; by split|].
    assert (Hrank : GetBaseRank (Some fe) = rank_at (i, 0)).
    { unfold GetBaseRank, rank_at; simpl. rewrite Z.add_0_r, swrap_id; [|done|by apply GetBaseReputation_range].
      unfold base_of. by rewrite Hi. }
    rewrite Hrank.
    apply (UpdateRankCounters_ok s (put (reputationListID fe) f s1) (reputationListID fe));
      [apply Hs|done|by rewrite Es1| |].
    + rewrite standings_find, Hnone. done.
    + rewrite Es1. unfold f. rewrite standings_put. done.
  - intros k g. unfold put; simpl. replace (_factions s1) with (_factions s) by (by rewrite Es1).
    destruct (decide (k = reputationListID fe)) as [->|Hne].
    + rewrite map_find_set. intros [= <-]. simpl. lia.
    + rewrite map_find_set_ne by done. apply Hlift.
Qed.

(** Every faction of the store with a list id below [n] has its entry. *)
Definition present_below (n : Z) (s : ReputationMgr) : Prop :=
  forall i fe, LookupEntry i = Some fe -> i < n -> 0 <= reputationListID fe ->
    exists f, map_find (reputationListID fe) (_factions s) = Some f.

Lemma Initialize_step_present i s :
  env_ok -> present_below i s -> present_below (i + 1) (Initialize_step s i).
Proof.
  intros HE Hp j gf Hj Hlt H0. unfold Initialize_step. destruct (LookupEntry i) as [fe|] eqn:Hi.
  2:{ destruct (decide (i = j)); [congruence|]. apply (Hp j gf); lia || done. }
  destruct (Z.leb_spec 0 (reputationListID fe)).
  2:{ destruct (decide (i = j)) as [->|]; [|apply (Hp j gf); lia || done].
      rewrite Hj in Hi. injection Hi as ->. lia. }
  cbn [ReputationListID]. destruct (env_width HE i fe Hi) as [Hw _].
  rewrite (wrap_id 32 (reputationListID fe)) by width. unfold put. cbn.
  destruct (decide (reputationListID gf = reputationListID fe)) as [->|Hne].
  { rewrite map_find_set. eauto. }
  rewrite map_find_set_ne by done.
  destruct (Hp j gf Hj) as [g Hg]; [|done|].
  { destruct (decide (i = j)) as [->|]; [|lia]. rewrite Hj in Hi. congruence. }
  exists g. rewrite <- Hg. by destruct (has _ _).
Qed.

Lemma Initialize_ok s :
  env_ok -> wf (Initialize s) /\ loaded_below (GetNumRows E) (Initialize s) /\
  present_below (GetNumRows E) (Initialize s).
Proof.
  intros HE. unfold Initialize.
  assert (H : forall n s0, wf s0 -> loaded_below 1 s0 -> present_below 1 s0 ->
    let s1 := foldl Initialize_step s0 (seqZ 1 (Z.of_nat n)) in
    wf s1 /\ loaded_below (Z.of_nat n + 1) s1 /\ present_below (Z.of_nat n + 1) s1).
  { clear s. induction n as [|n IH]; intros s0 Hw Hb Hp; [by rewrite Z.add_0_l|].
    replace (Z.of_nat (S n)) with (Z.of_nat n + 1) by lia.
    rewrite seqZ_app by lia. cbv zeta. rewrite foldl_app.
    destruct (IH s0 Hw Hb Hp) as (Hw1 & Hb1 & Hp1). simpl.
    replace (1 + Z.of_nat n) with (Z.of_nat n + 1) by lia.
    destruct (Initialize_step_ok _ _ HE Hw1 Hb1) as [Hw2 Hb2].
    split_and!; [done|done|]. by apply Initialize_step_present. }
  set (s0 := mkMgr _ _ _ _ _ _ _ _).
  assert (wf s0) as Hw0.
  { split; [|done]. split; simpl; [constructor|done|done]. }
  assert (loaded_below 1 s0) as Hb0 by done.
  assert (present_below 1 s0) as Hp0.
  { intros i fe Hi Hlt H0. apply (env_id HE) in Hi. lia. }
  destruct (Z.le_gt_cases 1 (GetNumRows E)) as [Hn|Hn].
  - specialize (H (Z.to_nat (GetNumRows E - 1)) s0 Hw0 Hb0 Hp0).
    rewrite Z2Nat.id in H by lia. by replace (GetNumRows E - 1 + 1) with (GetNumRows E) in H by lia.
  - rewrite seqZ_nil by lia. simpl. split_and!; [done|done|].
    intros i fe Hi Hlt H0. apply (env_id HE) in Hi. lia.
Qed.

Lemma put_pending_quiet k f b1 b2 s :
  map_find k (_factions s) = Some f ->
  quiet s (put k (mkState (ID f) (ReputationListID f) (Standing f) (Flags f) b1 b2) s).
Proof.
  intros Hf Hsh. pose proof (put_quiet k f (Flags f) b1 b2 (_visibleFactionCount s) s Hf) as H.
  apply H; [done| |done]. unfold visible; simpl. rewrite Z.add_simpl_r.
  rewrite (shape_visible s Hsh). by rewrite wrap_wrap by lia.
Qed.

(** A row of the database sets the standing of its faction, which must not
    have been set before. *)
Lemma LoadFromDB_step_ok i fe standing fl s f :
  env_ok -> wf s -> in_s 32 standing -> LookupEntry i = Some fe ->
  map_find (reputationListID fe) (_factions s) = Some f -> Standing f = 0 ->
  let s' := LoadFromDB_step s (i, standing, fl) in
  wf s' /\ standings s' = map_set (reputationListID fe) (i, standing) (standings s).
Proof.
  intros HE [Hs Hr] Hst Hi Hf H0. unfold LoadFromDB_step. rewrite Hi.
  destruct (shape_entries s Hs _ f Hf) as (_ & _ & fe' & Hl & Hpos & Heq).
  pose proof (env_unique HE _ _ _ _ Hl Hi Hpos Heq) as Hid.
  pose proof (proj1 (env_width HE _ _ Hi)) as Hw. rewrite Heq in Hpos.
  rewrite (proj2 (Z.leb_le 0 _)) by lia. rewrite wrap_id by width.
  set (k := reputationListID fe) in *. rewrite Hf. cbn [default ID ReputationListID Flags].
  set (s1 := put k _ s). assert (Hs1 : shape s1) by (by eapply put_shape).
  assert (Hst1 : standings s1 = map_set k (i, standing) (standings s)).
  { unfold s1. rewrite standings_put. simpl. by rewrite Hid. }
  assert (Hbase : GetBaseReputation (Some fe) = base_of i) by (unfold base_of; by rewrite Hi).
  assert (Hnew : ReputationToRank (s32 (GetBaseReputation (Some fe) + standing)) = rank_at (i, standing))
    by (by rewrite Hbase).
  rewrite Hnew. set (s2 := UpdateRankCounters _ _ s1).
  assert (Hw2 : wf s2).
  { split; [destruct Hs1; by split|].
    apply (UpdateRankCounters_ok s s1 k); [apply Hs|done|done| |done].
    rewrite standings_find, Hf, Hbase. unfold rank_at; simpl.
    by rewrite H0, Hid, Z.add_0_r, swrap_id by (done || by apply GetBaseReputation_range). }
  change (standings s1) with (standings s2) in Hst1.
  assert (Hend : forall s3, quiet s2 s3 -> wf s3 /\ standings s3 = map_set k (i, standing) (standings s)).
  { intros s3 Hq. split; [by eapply quiet_wf|]. destruct (Hq (proj1 Hw2)) as (_ & -> & _). done. }
  clearbody s2. cbv zeta. apply Hend.
  set (s3 := if has fl FACTION_FLAG_VISIBLE then _ else s2).
  assert (Hq3 : quiet s2 s3).
  { unfold s3. destruct (has _ _); [apply SetVisible_at_quiet|apply quiet_refl]. }
  clearbody s3. set (s4 := if has fl FACTION_FLAG_INACTIVE then _ else s3).
  assert (Hq4 : quiet s2 s4).
  { eapply quiet_trans; [exact Hq3|]. unfold s4.
    destruct (has _ _); [apply SetInactive_at_quiet|apply quiet_refl]. }
  clearbody s4. set (s5 := if has fl FACTION_FLAG_AT_WAR then _ else _).
  assert (Hq5 : quiet s2 s5).
  { eapply quiet_trans; [exact Hq4|]. unfold s5. destruct (has _ _); [apply SetAtWar_at_quiet|].
    destruct (map_find k (_factions s4)); [|apply quiet_refl].
    destruct (has _ _); [apply SetAtWar_at_quiet|apply quiet_refl]. }
  clearbody s5. set (s6 := if GetRank _ _ <=? _ then _ else _).
  assert (Hq6 : quiet s2 s6).
  { eapply quiet_trans; [exact Hq5|]. unfold s6.
    destruct (_ <=? _); [apply SetAtWar_at_quiet|apply quiet_refl]. }
  clearbody s6. eapply quiet_trans; [exact Hq6|]. destruct (map_find k (_factions s6)) eqn:E6; [|apply quiet_refl].
  destruct (_ =? _); [by apply put_pending_quiet|apply quiet_refl].
Qed.

(** The standings after loading: the row's, or what was there. *)
Definition row_standing (rows : list row) (i d : Z) : Z :=
  match find (fun r => r.1.1 =? i) rows with Some r => r.1.2 | None => d end.

Lemma load_rows_ok rows s (g : Z -> Z) :
  env_ok -> wf s -> NoDup (fst <$> (fst <$> rows)) -> Forall (fun r => in_s 32 r.1.2) rows ->
  (forall i fe, LookupEntry i = Some fe -> 0 <= reputationListID fe ->
     map_find (reputationListID fe) (standings s) = Some (i, g i)) ->
  (forall r, r ∈ rows -> g r.1.1 = 0) ->
  let s' := foldl LoadFromDB_step s rows in
  wf s' /\ forall i fe, LookupEntry i = Some fe -> 0 <= reputationListID fe ->
     map_find (reputationListID fe) (standings s') = Some (i, row_standing rows i (g i)).
Proof.
  intros HE. revert s g. induction rows as [|[[i st] fl] rows IH]; intros s g Hw Hnd Hall Hg Hz; cbn [foldl].
  { done. }
  inversion Hnd as [|? ? Hnot Hnd']; subst. inversion Hall as [|? ? Hst Hall']; subst. simpl in Hst, Hnot.
  set (g' := fun j => if decide (j = i) then st else g j).
  assert (Hfresh : forall r, r ∈ rows -> g' r.1.1 = 0).
  { intros r Hr. unfold g'. destruct (decide (r.1.1 = i)) as [E0|]; [|apply Hz; by right].
    exfalso. apply Hnot. rewrite <- E0. do 2 apply list_elem_of_fmap_2. done. }
  assert (Hstep : wf (LoadFromDB_step s (i, st, fl)) /\
    forall j fe, LookupEntry j = Some fe -> 0 <= reputationListID fe ->
      map_find (reputationListID fe) (standings (LoadFromDB_step s (i, st, fl))) = Some (j, g' j)).
  { destruct (LookupEntry i) as [fe|] eqn:Hi; [destruct (Z.leb_spec 0 (reputationListID fe)) as [H0|Hneg]|].
    - pose proof (Hg i fe Hi H0) as Hf. rewrite standings_find in Hf.
      destruct (map_find _ (_factions s)) as [f|] eqn:Ef; [|done]. simpl in Hf. injection Hf as Hid Hs0.
      pose proof (Hz (i, st, fl) ltac:(by left)) as Hz0. simpl in Hz0. rewrite Hz0 in Hs0.
      destruct (LoadFromDB_step_ok i fe st fl s f HE Hw Hst Hi Ef Hs0) as [Hw' ->].
      split; [done|]. intros j gf Hj Hj0. unfold g'.
      destruct (decide (j = i)) as [->|Hne].
      + replace gf with fe by congruence. apply map_find_set.
      + rewrite map_find_set_ne; [by apply Hg|]. intros Heq. apply Hne. by eapply (env_unique HE).
    - unfold LoadFromDB_step. rewrite Hi, (proj2 (Z.leb_gt 0 _)) by done. split; [done|].
      intros j gf Hj Hj0. unfold g'. rewrite decide_False; [by apply Hg|].
      intros ->. replace gf with fe in Hj0 by congruence. lia.
    - unfold LoadFromDB_step. rewrite Hi. split; [done|]. intros j gf Hj Hj0. unfold g'.
      rewrite decide_False; [by apply Hg|]. congruence. }
  destruct Hstep as [Hw' Hg']. destruct (IH _ g' Hw' Hnd' Hall' Hg' Hfresh) as [Hw2 Hfin].
  split; [done|]. intros j fe Hj Hj0. rewrite (Hfin j fe Hj Hj0). f_equal. f_equal.
  unfold row_standing; simpl. destruct (Z.eqb_spec i j) as [->|Hne].
  - unfold g'. rewrite decide_True by done.
    destruct (find _ rows) as [r|] eqn:Ef; [|done]. exfalso. apply find_some in Ef as [Hin Heq].
    apply Z.eqb_eq in Heq. apply list_elem_of_In in Hin. apply Hnot. rewrite <- Heq.
    do 2 apply list_elem_of_fmap_2. done.
  - unfold g'. by rewrite decide_False by congruence.
Qed.

Lemma LoadFromDB_ok rows s :
  env_ok -> NoDup (fst <$> (fst <$> rows)) -> Forall (fun r => in_s 32 r.1.2) rows ->
  wf (LoadFromDB rows s) /\ forall i fe, LookupEntry i = Some fe -> 0 <= reputationListID fe ->
     map_find (reputationListID fe) (standings (LoadFromDB rows s)) = Some (i, row_standing rows i 0).
Proof.
  intros HE Hnd Hall. destruct (Initialize_ok s HE) as (Hw & Hb & Hp).
  apply (load_rows_ok rows (Initialize s) (fun _ => 0)); try done.
  intros i fe Hi H0. destruct (Hp i fe Hi) as [f Hf]; [apply (env_id HE) in Hi; lia|done|].
  rewrite standings_find, Hf. simpl. destruct (Hb _ _ Hf) as [_ ->]. do 2 f_equal.
  destruct (env_width HE i fe Hi) as [Hwd _].
  rewrite <- (wrap_id 32 (reputationListID fe)) in Hf by width.
  by apply (find_faction i fe f _ HE (proj1 Hw) Hi) in Hf as (-> & _).
Qed.

(** ** Entries after a flag change *)

Definition vis_entry (f : FactionState) : FactionState :=
  if has (Flags f) (Z.lor FACTION_FLAG_INVISIBLE_FORCED FACTION_FLAG_HIDDEN)
     && negb (has (Flags f) FACTION_FLAG_SPECIAL) then f
  else if has (Flags f) FACTION_FLAG_VISIBLE then f
  else with_flags (Z.lor (Flags f) FACTION_FLAG_VISIBLE) f.

Definition war_entry (f : FactionState) : FactionState :=
  if has (Flags f) FACTION_FLAG_PEACE_FORCED then f
  else if has (Flags f) FACTION_FLAG_AT_WAR then f
  else with_flags (u8 (Z.lor (Flags f) FACTION_FLAG_AT_WAR)) f.

Lemma SetVisible_at_find k j s :
  map_find j (_factions (SetVisible_at k s)) =
    if decide (j = k) then vis_entry <$> map_find k (_factions s) else map_find j (_factions s).
Proof.
  unfold SetVisible_at, vis_entry.
  destruct (map_find k (_factions s)) as [f|] eqn:Hf; simpl; [|destruct (decide _); congruence].
  destruct (_ && _); [destruct (decide _); congruence|].
  destruct (has (Flags f) FACTION_FLAG_VISIBLE); [destruct (decide _); congruence|].
  unfold SendVisible. destruct (PlayerLoading E); simpl; destruct (decide _) as [->|];
    by rewrite ?map_find_set, ?map_find_set_ne.
Qed.

Lemma SetAtWar_at_find k j s :
  map_find j (_factions (SetAtWar_at k true s)) =
    if decide (j = k) then war_entry <$> map_find k (_factions s) else map_find j (_factions s).
Proof.
  unfold SetAtWar_at, war_entry.
  destruct (map_find k (_factions s)) as [f|] eqn:Hf; simpl; [|destruct (decide _); congruence].
  destruct (has (Flags f) FACTION_FLAG_PEACE_FORCED); [destruct (decide _); congruence|].
  destruct (has (Flags f) FACTION_FLAG_AT_WAR); simpl; [destruct (decide _); congruence|].
  destruct (decide _) as [->|]; by rewrite ?map_find_set, ?map_find_set_ne.
Qed.

Lemma vis_entry_fields f :
  ID (vis_entry f) = ID f /\ Standing (vis_entry f) = Standing f.
Proof. unfold vis_entry. repeat case_match; done. Qed.
Lemma war_entry_fields f :
  ID (war_entry f) = ID f /\ Standing (war_entry f) = Standing f.
Proof. unfold war_entry. repeat case_match; done. Qed.
End manager.

(** ** The public operations of a manager *)

Inductive op :=
| OpSetReputation (faction standing : Z) (incremental : bool)
| OpSetOneFactionReputation (faction standing : Z) (incremental : bool)
| OpSetVisible (faction : Z)
| OpSetVisibleTemplate (faction : Z)
| OpSetAtWar (repListID : Z) (on : bool)
| OpSetInactive (repListID : Z) (on : bool)
| OpApplyForceReaction (faction rank : Z) (apply : bool)
| OpSendForceReactions
| OpSendInitialReputations
| OpSendStates
| OpSaveToDB.

(** A faction argument is the store's entry of that id. *)
Definition run_op (E : Env) (o : op) (s : ReputationMgr) : result fault ReputationMgr :=
  match o with
  | OpSetReputation i standing incremental =>
      match LookupEntry E i with
      | None => Throw NullFaction
      | Some fe => match SetReputation E fe standing incremental s with
                   | Ok (_, s) => Ok s
                   | Throw e => Throw e
                   end
      end
  | OpSetOneFactionReputation i standing incremental =>
      match SetOneFactionReputation E (LookupEntry E i) standing incremental s with
      | Ok (_, s) => Ok s
      | Throw e => Throw e
      end
  | OpSetVisible i =>
      match LookupEntry E i with None => Throw NullFaction | Some fe => Ok (SetVisible E fe s) end
  | OpSetVisibleTemplate i => Ok (SetVisible_template E i s)
  | OpSetAtWar k on => Ok (SetAtWar k on s)
  | OpSetInactive k on => Ok (SetInactive k on s)
  | OpApplyForceReaction i r a => Ok (ApplyForceReaction i r a s)
  | OpSendForceReactions => Ok (SendForceReactions s)
  | OpSendInitialReputations => Ok (SendInitialReputations s)
  | OpSendStates => Ok (SendStates s)
  | OpSaveToDB => Ok (SaveToDB s)
  end.

Fixpoint run_ops (E : Env) (os : list op) (s : ReputationMgr) : result fault ReputationMgr :=
  match os with
  | [] => Ok s
  | o :: os => match run_op E o s with Ok s => run_ops E os s | Throw e => Throw e end
  end.

(** The faction arguments exist. *)
Definition op_known (E : Env) (o : op) : bool :=
  match o with
  | OpSetReputation i _ _ | OpSetOneFactionReputation i _ _ | OpSetVisible i =>
      bool_decide (is_Some (sFactionStore E !! i))
  | _ => true
  end.

Lemma SetVisible_quiet E fe s : quiet E s (SetVisible E fe s).
Proof.
  unfold SetVisible. destruct (_ <? _); [apply quiet_refl|].
  destruct (map_find _ _); [apply SetVisible_at_quiet|apply quiet_refl].
Qed.

Lemma run_op_ok E o s :
  env_ok E -> wf E s -> op_known E o = true -> exists s', run_op E o s = Ok s' /\ wf E s'.
Proof.
  intros HE Hw Hk. destruct o as [i st inc|i st inc|i|i|k on|k on|i r a| | | |]; simpl in *;
    try (apply bool_decide_eq_true in Hk as [fe Hi]; change (LookupEntry E i = Some fe) in Hi;
         rewrite Hi).
  - destruct (SetReputation_ok E i fe st inc s HE Hw Hi) as (r & s' & -> & ?). eauto.
  - destruct (SetOneFactionReputation_ok E i fe st inc s HE Hw Hi) as (r & s' & -> & ? & _). eauto.
  - eexists; split; [done|]. eapply quiet_wf; [apply SetVisible_quiet|done].
  - eexists; split; [done|]. eapply quiet_wf; [|done]. unfold SetVisible_template.
    destruct (i =? 0); [apply quiet_refl|]. destruct (LookupEntry E i) as [fe|]; [|apply quiet_refl].
    destruct (nth 1 _ _) as [[[? ?] ?] ?].
    destruct (negb _); [apply SetVisible_quiet|apply quiet_refl].
  - eexists; split; [done|]. eapply quiet_wf; [|done]. unfold SetAtWar.
    destruct (map_find _ _); [|apply quiet_refl].
    destruct (has _ _); [apply quiet_refl|apply SetAtWar_at_quiet].
  - eexists; split; [done|]. eapply quiet_wf; [|done]. unfold SetInactive.
    destruct (map_find _ _); [apply SetInactive_at_quiet|apply quiet_refl].
  - eexists; split; [done|]. eapply quiet_wf; [apply quiet_forced|done].
  - eexists; split; [done|]. eapply quiet_wf; [apply quiet_emit|done].
  - eexists; split; [done|]. eapply quiet_wf; [apply SendInitialReputations_quiet|done].
  - eexists; split; [done|]. eapply quiet_wf; [apply SendStates_quiet|done].
  - eexists; split; [done|]. eapply quiet_wf; [apply SaveToDB_quiet|done].
Qed.

(** ** Properties *)

(** The lower bounds of the ranks above hated. *)
Definition rank_bounds : list Z := [-6000; -3000; 0; 3000; 9000; 21000; 42000].

(** The rank of a standing is the number of rank bounds it reaches, so it
    is one of the eight ranks and grows with the standing. *)
Theorem ReputationToRank_bounds standing :
  ReputationToRank standing =
    Z.of_nat (length (List.filter (fun b => b <=? standing) rank_bounds)) /\
  0 <= ReputationToRank standing < MAX_REPUTATION_RANK /\
  forall higher, standing <= higher -> ReputationToRank standing <= ReputationToRank higher.
Proof.
  assert (H : forall z,
    ReputationToRank z = Z.of_nat (length (List.filter (fun b => b <=? z) rank_bounds))).
  { intros z. unfold ReputationToRank, rank_bounds, Reputation_Cap.
    cbn [rank_loop nth PointsInRank List.filter].
    repeat match goal with
    | |- context [?a <=? z] => destruct (Z.leb_spec a z); [|try (exfalso; lia)]; try reflexivity
    end. all: exfalso; lia. }
  assert (Hmono : forall a b l, a <= b ->
    (length (List.filter (fun x => (x <=? a)%Z) l) <= length (List.filter (fun x => (x <=? b)%Z) l)
       <= length l)%nat).
  { intros a b l Hab. induction l as [|x l IH]; simpl; [lia|].
    destruct (Z.leb_spec x a), (Z.leb_spec x b); simpl; lia. }
  rewrite !H. split_and!; [done|lia| |].
  - pose proof (Hmono standing standing rank_bounds ltac:(lia)) as [_ Hle].
    change (length rank_bounds) with 7%nat in Hle. unfold MAX_REPUTATION_RANK. lia.
  - intros higher Hle. rewrite H. apply inj_le. by apply Hmono.
Qed.

(** C2: after loading any rows of the database and running any sequence of
    operations on known factions, the operations have not faulted and the
    manager is well formed: each entry is under its faction's list id, and the
    four counters are the numbers, modulo 256, of visible factions and of
    factions that are at least honored, revered and exalted. *)
Theorem counters_invariant E rows os s0 :
  env_ok E -> NoDup (fst <$> (fst <$> rows)) -> Forall (fun r => in_s 32 r.1.2) rows ->
  forallb (op_known E) os = true ->
  exists s, run_ops E os (LoadFromDB E rows s0) = Ok s /\ wf E s.
Proof.
  intros HE Hnd Hall Hk.
  destruct (LoadFromDB_ok E rows s0 HE Hnd Hall) as [Hw _]. revert Hw.
  generalize (LoadFromDB E rows s0) as s. induction os as [|o os IH]; intros s Hw; simpl; [eauto|].
  simpl in Hk. apply andb_prop in Hk as [Ho Hk].
  destruct (run_op_ok E o s HE Hw Ho) as (s' & -> & Hw'). by apply IH.
Qed.

(** The flags an entry has after a change of its standing to rank [r]. *)
Definition flags_after (r fl : Z) : Z :=
  let hidden := has fl (Z.lor FACTION_FLAG_INVISIBLE_FORCED FACTION_FLAG_HIDDEN)
                && negb (has fl FACTION_FLAG_SPECIAL) in
  let fl := if hidden then fl else Z.lor fl FACTION_FLAG_VISIBLE in
  if (r <=? REP_HOSTILE) && negb (has fl FACTION_FLAG_PEACE_FORCED)
  then Z.lor fl FACTION_FLAG_AT_WAR else fl.

Lemma Flags_war_entry f :
  Flags (war_entry f) =
    if has (Flags f) FACTION_FLAG_PEACE_FORCED || has (Flags f) FACTION_FLAG_AT_WAR then Flags f
    else u8 (Z.lor (Flags f) FACTION_FLAG_AT_WAR).
Proof. unfold war_entry. by destruct (has _ _), (has _ _). Qed.

Lemma Flags_vis_entry f :
  Flags (vis_entry f) =
    if has (Flags f) (Z.lor FACTION_FLAG_INVISIBLE_FORCED FACTION_FLAG_HIDDEN)
       && negb (has (Flags f) FACTION_FLAG_SPECIAL) || has (Flags f) FACTION_FLAG_VISIBLE
    then Flags f else Z.lor (Flags f) FACTION_FLAG_VISIBLE.
Proof. unfold vis_entry. by destruct (_ && _), (has _ _). Qed.

(** Re-setting a flag that is set changes nothing, on all bytes. *)
Lemma set_flag_again x fl :
  forallb (fun x => negb (has x fl) || (Z.lor x fl =? x)) (seqZ 0 256) = true ->
  in_u 8 x -> has x fl = true -> Z.lor x fl = x.
Proof.
  intros Hall Hx Hf. pose proof (forall_u8 _ x Hall Hx) as H. cbv beta in H.
  rewrite Hf in H. by apply Z.eqb_eq.
Qed.

Lemma flags_after_ok r f :
  in_u 8 (Flags f) ->
  Flags (if r <=? REP_HOSTILE then war_entry (vis_entry f) else vis_entry f) = flags_after r (Flags f).
Proof.
  intros Hb. unfold flags_after. set (x := Flags f) in *.
  set (hidden := has x (Z.lor FACTION_FLAG_INVISIBLE_FORCED FACTION_FLAG_HIDDEN)
                 && negb (has x FACTION_FLAG_SPECIAL)).
  assert (Hv : Flags (vis_entry f) = if hidden then x else Z.lor x FACTION_FLAG_VISIBLE).
  { rewrite Flags_vis_entry. fold x. fold hidden. destruct hidden; [done|]. simpl.
    destruct (has x FACTION_FLAG_VISIBLE) eqn:E1; [|done].
    symmetry. by apply set_flag_again. }
  assert (Hvb : in_u 8 (Flags (vis_entry f))).
  { rewrite Hv. destruct hidden; [done|].
    exact (proj1 (bool_decide_eq_true _)
      (forall_u8 (fun x => bool_decide (in_u 8 (Z.lor x FACTION_FLAG_VISIBLE))) _ eq_refl Hb)). }
  destruct (r <=? REP_HOSTILE); simpl; [|done]. rewrite Flags_war_entry, <- Hv.
  set (y := Flags (vis_entry f)) in *. destruct (has y FACTION_FLAG_PEACE_FORCED); [done|]. simpl.
  destruct (has y FACTION_FLAG_AT_WAR) eqn:E2; [symmetry; by apply set_flag_again|].
  apply wrap_id. exact (proj1 (bool_decide_eq_true _)
    (forall_u8 (fun x => bool_decide (in_u 8 (Z.lor x FACTION_FLAG_AT_WAR))) _ eq_refl Hvb)).
Qed.

Lemma entry_pending f :
  needSend f = true -> needSave f = true ->
  needSend (vis_entry f) = true /\ needSave (vis_entry f) = true /\
  needSend (war_entry f) = true /\ needSave (war_entry f) = true.
Proof. intros. unfold vis_entry, war_entry. repeat case_match; done. Qed.

Lemma increased_SetVisible_at E k s :
  _sendFactionIncreased (SetVisible_at E k s) = _sendFactionIncreased s.
Proof. unfold SetVisible_at, SendVisible. repeat case_match; done. Qed.
Lemma increased_SetAtWar_at k b s :
  _sendFactionIncreased (SetAtWar_at k b s) = _sendFactionIncreased s.
Proof. unfold SetAtWar_at. repeat case_match; done. Qed.

(** C31: changing the standing of a listed faction clamps the new total to the
    limits and stores it: afterwards the reputation is that total, its entry
    is visible unless hidden and at war when hostile unless peace is forced,
    the change is pending for the client and the database, a rise in rank is
    remembered for the next standing packet, and no other entry changed. *)
Theorem SetOneFactionReputation_spec E i fe standing (incremental : bool) s f :
  env_ok E -> wf E s -> LookupEntry E i = Some fe ->
  map_find (reputationListID fe) (_factions s) = Some f ->
  let total := clamp (if incremental then s32 (gain E standing + GetReputation E (Some fe) s)
                      else standing) in
  exists s' f', SetOneFactionReputation E (Some fe) standing incremental s = Ok (true, s') /\
    map_find (reputationListID fe) (_factions s') = Some f' /\
    Reputation_Bottom <= total <= Reputation_Cap /\ GetReputation E (Some fe) s' = total /\
    Flags f' = flags_after (ReputationToRank total) (Flags f) /\
    needSend f' = true /\ needSave f' = true /\
    _sendFactionIncreased s' =
      _sendFactionIncreased s || (GetRank E (Some fe) s <? ReputationToRank total) /\
    (forall k, k <> reputationListID fe -> map_find k (_factions s') = map_find k (_factions s)).
Proof.
  intros HE [Hs _] Hi Hf total. destruct (shape_entries E s Hs _ f Hf) as (_ & Hb & fe' & _ & H0 & Heq).
  pose proof (proj1 (env_width E HE _ _ Hi)) as Hw. rewrite Heq in H0.
  assert (Hk : u32 (reputationListID fe) = reputationListID fe) by (apply wrap_id; width).
  assert (Hrep : forall s, GetReputation E (Some fe) s =
    match map_find (reputationListID fe) (_factions s) with
    | Some f => s32 (GetBaseReputation E (Some fe) + Standing f) | None => 0 end).
  { intros s0. unfold GetReputation, GetState, GetState_id, CanHaveReputation.
    by rewrite (proj2 (Z.leb_le 0 _)), Hk by done. }
  unfold SetOneFactionReputation. rewrite Hk, Hf.
  unfold GetRank. rewrite (Z.add_comm (Standing f)). unfold total in *. clear total.
  rewrite (Hrep s), Hf. set (base := GetBaseReputation E (Some fe)) in *.
  set (total := clamp (if incremental then _ else standing)).
  pose proof (clamp_range (if incremental then s32 (gain E standing + s32 (base + Standing f))
                           else standing)) as Hr. fold total in Hr. clearbody total.
  set (f1 := mkState _ _ _ _ true true). set (k := reputationListID fe) in *.
  assert (Hf1 : map_find k (_factions (put k f1 s)) = Some f1) by apply map_find_set.
  set (s2 := SetVisible_at E k (put k f1 s)).
  set (s3 := if ReputationToRank total <=? REP_HOSTILE then SetAtWar_at k true s2 else s2).
  assert (Hs3 : forall j, map_find j (_factions s3) = if decide (j = k)
    then Some (if ReputationToRank total <=? REP_HOSTILE then war_entry (vis_entry f1) else vis_entry f1)
    else map_find j (_factions s)).
  { intros j. unfold s3. destruct (_ <=? _); rewrite ?SetAtWar_at_find; unfold s2;
      rewrite !SetVisible_at_find, Hf1; destruct (decide (j = k)) as [|Hne]; try done;
      rewrite ?decide_True by done; simpl; try done; by rewrite map_find_set_ne. }
  assert (Hi3 : _sendFactionIncreased s3 = _sendFactionIncreased s).
  { unfold s3, s2. destruct (_ <=? _); rewrite ?increased_SetAtWar_at, increased_SetVisible_at; done. }
  clearbody s3. set (s4 := if ReputationToRank (s32 (base + Standing f)) <? _ then _ else s3).
  assert (Hs4 : _factions s4 = _factions s3 /\ _sendFactionIncreased s4 =
    _sendFactionIncreased s || (ReputationToRank (s32 (base + Standing f)) <? ReputationToRank total)).
  { unfold s4. destruct (_ <? _); simpl; rewrite ?Hi3, ?orb_true_r, ?orb_false_r; done. }
  destruct Hs4 as [Hs4 Hi4]. do 2 eexists. split; [done|]. cbn [_factions emit UpdateRankCounters set_counters].
  rewrite Hs4, Hs3, decide_True by done. split; [done|].
  destruct (vis_entry_fields f1) as [_ Hst]. destruct (war_entry_fields (vis_entry f1)) as [_ Hst'].
  destruct (entry_pending f1 eq_refl eq_refl) as (P1 & P2 & _).
  destruct (entry_pending (vis_entry f1) P1 P2) as (_ & _ & P3 & P4).
  split_and!; try done; [lia|lia| | | | |].
  - rewrite Hrep. cbn [_factions emit UpdateRankCounters set_counters]. rewrite Hs4, Hs3, decide_True by done.
    destruct (_ <=? _); rewrite ?Hst', Hst; by apply rebase.
  - by apply (flags_after_ok _ f1).
  - by destruct (_ <=? _).
  - by destruct (_ <=? _).
  - intros j Hj. rewrite Hs3. by rewrite decide_False.
Qed.

(** [SendState] sends one packet: the given faction first, then each other
    faction with a pending change once, in the order of the map, with their
    number; afterwards nothing is pending and the increase effect is spent,
    and the entries are otherwise the same. *)
Theorem SendState_reports_pending f s :
  let pending := filter (fun kf => needSend kf.2 = true /\ ReputationListID kf.2 <> ReputationListID f)
                   (_factions s) in
  let l := (ReputationListID f, u32 (Standing f)) ::
           ((fun kf => (ReputationListID kf.2, u32 (Standing kf.2))) <$> pending) in
  effects (SendState f s) =
    effects s ++ [SMSG_SET_FACTION_STANDING (_sendFactionIncreased s) (u32 (Z.of_nat (length l))) l] /\
  Forall (fun kf => needSend kf.2 = false) (_factions (SendState f s)) /\
  _sendFactionIncreased (SendState f s) = false /\
  Forall2 same_entry (_factions s) (_factions (SendState f s)).
Proof.
  intros pending l. unfold SendState.
  pose proof (collect_pending_same (ReputationListID f) (_factions s)) as Hsame.
  assert (H : (collect_pending (ReputationListID f) (_factions s)).1 =
      (fun kf => (ReputationListID kf.2, u32 (Standing kf.2))) <$> pending /\
    Forall (fun kf => needSend kf.2 = false) (collect_pending (ReputationListID f) (_factions s)).2).
  { unfold pending. clear. induction (_factions s) as [|[k g] fs [IH1 IH2]]; simpl; [done|].
    destruct (collect_pending _ fs) as [rest fs']. simpl in *. rewrite filter_cons.
    destruct (needSend g) eqn:Hg; simpl.
    - destruct (Z.eqb_spec (ReputationListID g) (ReputationListID f)); simpl.
      + rewrite decide_False by naive_solver. by auto.
      + rewrite decide_True by done. simpl. rewrite IH1. auto.
    - rewrite decide_False by (intros [? _]; congruence). auto. }
  destruct (collect_pending _ _) as [rest fs']. simpl in *. destruct H as [-> Hall].
  split_and!; [|done|done|done]. rewrite Z.add_1_l, Nat2Z.inj_succ. done.
Qed.

Lemma initial_loop_ok a fs :
  map_sorted fs -> Forall (fun k => a <= k < 128) (fs.*1) -> 0 <= a <= 128 ->
  let '(l, a') := initial_loop a fs in
  a <= a' <= 128 /\ Z.of_nat (length l) = a' - a /\
  (forall i, a <= i < a' -> l !! Z.to_nat (i - a) =
     Some (match map_find i fs with Some f => (Flags f, u32 (Standing f)) | None => (0, 0) end)) /\
  (forall i, a' <= i -> map_find i fs = None).
Proof.
  unfold map_sorted. revert a. induction fs as [|[k f] fs IH]; intros a Hs Hk Ha; cbn [initial_loop].
  { split_and!; [lia|lia|simpl; lia|intros; lia|done]. }
  inversion Hs as [|? ? Hs' Habove]; subst. inversion Hk as [|? ? Hk0 Hk']; subst. simpl in Hk0, Habove.
  rewrite (wrap_id 32 (k + 1)) by width.
  specialize (IH (k + 1) Hs'). destruct (initial_loop (k + 1) fs) as [l a'].
  destruct IH as (H1 & H2 & H3 & H4); [|lia|].
  { apply Forall_forall. intros j Hj. rewrite Forall_forall in Habove, Hk'.
    specialize (Habove j Hj). specialize (Hk' j Hj). lia. }
  assert (Hlen : length (absent a k) = Z.to_nat (k - a)).
  { unfold absent. rewrite length_replicate, wrap_id by width. done. }
  split_and!; [lia|lia| | |].
  - rewrite length_app, Hlen. simpl. lia.
  - intros i Hi. cbn [map_find]. destruct (Z.lt_trichotomy i k) as [Hlt|[->|Hgt]].
    + rewrite (proj2 (Z.eqb_neq i k)) by lia. rewrite lookup_app_l by lia.
      unfold absent. rewrite wrap_id by width. rewrite lookup_replicate_2 by lia.
      rewrite map_find_above; [done|]. eapply Forall_impl; [exact Habove|simpl; lia].
    + rewrite Z.eqb_refl, lookup_app_r, Hlen, Nat.sub_diag by lia. done.
    + rewrite (proj2 (Z.eqb_neq i k)) by lia. rewrite lookup_app_r, Hlen by lia.
      replace (Z.to_nat (i - a) - Z.to_nat (k - a))%nat with (S (Z.to_nat (i - (k + 1)))) by lia.
      simpl. apply H3. lia.
  - intros i Hi. cbn [map_find]. rewrite (proj2 (Z.eqb_neq i k)) by lia. by apply H4.
Qed.

(** When the list ids are below 128, the initial packet has exactly 128
    entries: at each list id the flags and standing of its faction, and zeros
    where the player has none. *)
Theorem SendInitialReputations_128 s :
  map_sorted (_factions s) -> Forall (fun k => 0 <= k < 128) ((_factions s).*1) ->
  exists l, effects (SendInitialReputations s) = effects s ++ [SMSG_INITIALIZE_FACTIONS 128 l] /\
    length l = 128%nat /\
    (forall i, 0 <= i < 128 -> l !! Z.to_nat i =
       Some (match map_find i (_factions s) with
             | Some f => (Flags f, u32 (Standing f)) | None => (0, 0) end)) /\
    Forall (fun kf => needSend kf.2 = false) (_factions (SendInitialReputations s)).
Proof.
  intros Hs Hk. unfold SendInitialReputations.
  pose proof (initial_loop_ok 0 (_factions s) Hs Hk ltac:(lia)) as H.
  destruct (initial_loop 0 (_factions s)) as [l a]. destruct H as (H1 & H2 & H3 & H4).
  assert (Habs : length (absent a 128) = Z.to_nat (128 - a)).
  { unfold absent. rewrite length_replicate, wrap_id by width. done. }
  exists (l ++ absent a 128). split_and!; [done| | |].
  - rewrite length_app, Habs. lia.
  - intros i Hi. destruct (Z.lt_ge_cases i a).
    + rewrite lookup_app_l by lia. specialize (H3 i ltac:(lia)). by rewrite Z.sub_0_r in H3.
    + rewrite lookup_app_r, H4 by lia. unfold absent. rewrite wrap_id by width.
      rewrite lookup_replicate_2 by lia. done.
  - simpl. apply Forall_fmap. apply Forall_true. done.
Qed.

(** ** Saving and loading *)

(** The effect of the statements on the player's rows of character_reputation. *)
Abbreviation table := (gmap Z (Z * Z)).
Definition run_stmt (t : table) (e : effect) : table :=
  match e with
  | DelReputation i => delete i t
  | InsReputation i st fl => <[i := (st, fl)]> t
  | _ => t
  end.
Definition table_rows (t : table) : list row := (fun r => (r.1, r.2.1, r.2.2)) <$> map_to_list t.

Lemma save_loop_table fs t :
  NoDup (ID <$> fs.*2) -> Forall (fun f => in_u 16 (ID f)) (fs.*2) ->
  let t' := foldl run_stmt t (save_loop fs).1 in
  (forall i, i ∉ (ID <$> fs.*2) -> t' !! i = t !! i) /\
  Forall (fun f => t' !! ID f = if needSave f then Some (Standing f, Flags f) else t !! ID f) (fs.*2).
Proof.
  revert t. induction fs as [|[k f] fs IH]; intros t Hnd Hw; [done|].
  cbn [save_loop fmap list_fmap snd] in *. inversion Hnd as [|? ? Hnot Hnd']; subst.
  inversion Hw as [|? ? Hw0 Hw']; subst.
  assert (Hgo : forall t0, t0 !! ID f = (if needSave f then Some (Standing f, Flags f) else t !! ID f) ->
    (forall i, i <> ID f -> t0 !! i = t !! i) ->
    let t' := foldl run_stmt t0 (save_loop fs).1 in
    (forall i, i ∉ ID f :: (ID <$> fs.*2) -> t' !! i = t !! i) /\
    Forall (fun f => t' !! ID f = if needSave f then Some (Standing f, Flags f) else t !! ID f)
      (f :: fs.*2)).
  { intros t0 H0 Hne. destruct (IH t0 Hnd' Hw') as [H1 H2]. split.
    - intros i [Hi Hi']%not_elem_of_cons. rewrite H1 by done. by apply Hne.
    - constructor; [by rewrite H1|]. rewrite Forall_forall in H2 |- *. intros g Hg.
      rewrite H2 by done. destruct (needSave g); [done|]. apply Hne. intros Heq. apply Hnot.
      rewrite <- Heq. by apply list_elem_of_fmap_2. }
  destruct (save_loop fs) as [stmts fs'] eqn:E. destruct (needSave f) eqn:Hs.
  - cbn [fst foldl run_stmt]. rewrite (wrap_id 16) by done. apply Hgo.
    + by rewrite lookup_insert_eq.
    + intros i Hi. by rewrite lookup_insert_ne, lookup_delete_ne.
  - cbn [fst]. by apply Hgo.
Qed.

(** C39: saving and loading keep the standings. If the player's rows agree with
    every entry that is not marked for saving, then after the statements of
    [SaveToDB] a manager loaded from the rows has the standing of every
    faction, and every entry of the saved manager is marked as saved. *)
Theorem SaveToDB_LoadFromDB E s (t : table) :
  env_ok E -> GetNumRows E <= 65536 -> wf E s ->
  (forall k f, map_find k (_factions s) = Some f -> in_s 32 (Standing f) /\
     (needSave f = false -> t !! ID f = Some (Standing f, Flags f))) ->
  map_Forall (fun _ v => in_s 32 v.1) t ->
  exists stmts, effects (SaveToDB s) = effects s ++ stmts /\
    Forall (fun kf => needSave kf.2 = false) (_factions (SaveToDB s)) /\
    forall s0 k f, map_find k (_factions s) = Some f ->
      map_find k (standings (LoadFromDB E (table_rows (foldl run_stmt t stmts)) s0)) =
        Some (ID f, Standing f).
Proof.
  intros HE Hrows Hw Hent Ht. pose proof (proj1 Hw) as [Hsort Hok _].
  assert (Hmem : forall k f, (k, f) ∈ _factions s -> entry_ok E k f /\ map_find k (_factions s) = Some f).
  { intros k f Hin%map_find_elem; [|done]. split; [by apply Hok|done]. }
  assert (Hid : forall f, f ∈ (_factions s).*2 -> in_u 16 (ID f)).
  { intros f [[k g] [-> Hin]]%list_elem_of_fmap. destruct (Hmem k g Hin) as [(_ & _ & fe & Hl & _) _].
    apply (env_id E HE) in Hl. simpl. width. }
  assert (Hnd : NoDup (ID <$> (_factions s).*2)).
  { rewrite <- list_fmap_compose. apply NoDup_fmap_2_strong.
    - intros [k f] [j g] H1 H2 Heq. simpl in Heq.
      destruct (Hmem k f H1) as [(_ & _ & fe & Hl & _ & <-) Hf].
      destruct (Hmem j g H2) as [(_ & _ & ge & Hl' & _ & <-) Hg].
      rewrite Heq, Hl' in Hl. injection Hl as ->. congruence.
    - apply (NoDup_fmap_1 fst). unfold map_sorted in Hsort.
      clear -Hsort. induction Hsort as [|k l _ IH Hall]; constructor; [|done].
      intros Hin. rewrite Forall_forall in Hall. specialize (Hall k Hin). lia. }
  unfold SaveToDB. destruct (save_loop_table (_factions s) t Hnd) as [Hother Hsaved];
    [by apply Forall_forall|].
  assert (Hclean : Forall (fun kf => needSave kf.2 = false) (save_loop (_factions s)).2).
  { clear. induction (_factions s) as [|[k f] fs IH]; simpl; [constructor|].
    destruct (save_loop fs) as [a b]. destruct (needSave f) eqn:Hf; constructor; done. }
  destruct (save_loop (_factions s)) as [stmts fs'] eqn:El. simpl in Hother, Hsaved, Hclean.
  exists stmts. split; [done|]. split; [done|]. set (t' := foldl run_stmt t stmts) in *.
  assert (Hval : forall k f, map_find k (_factions s) = Some f -> t' !! ID f = Some (Standing f, Flags f)).
  { intros k f Hf. rewrite Forall_forall in Hsaved. rewrite Hsaved.
    - destruct (needSave f) eqn:Hs; [done|]. by apply (Hent k f Hf).
    - apply list_elem_of_fmap. exists (k, f). split; [done|]. by apply map_find_elem. }
  assert (Hndr : NoDup (fst <$> (fst <$> table_rows t'))).
  { unfold table_rows. rewrite <- !list_fmap_compose. apply (NoDup_fst_map_to_list t'). }
  assert (Hrange : Forall (fun r => in_s 32 r.1.2) (table_rows t')).
  { unfold table_rows. apply Forall_fmap, Forall_forall. intros [i [st fl]] Hin%elem_of_map_to_list.
    simpl. destruct (decide (i ∈ (ID <$> (_factions s).*2))) as [Hi|Hi].
    - apply list_elem_of_fmap in Hi as (f & -> & Hf). apply list_elem_of_fmap in Hf as ([k g] & -> & Hg).
      destruct (Hmem k g Hg) as [_ Hfind]. simpl in Hin. rewrite (Hval k g Hfind) in Hin.
      injection Hin as <- <-. by apply (Hent k g Hfind).
    - rewrite Hother in Hin by done. by apply (Ht i) in Hin. }
  intros s0 k f Hf. destruct (LoadFromDB_ok E (table_rows t') s0 HE Hndr Hrange) as [_ Hload].
  destruct (Hok k f Hf) as (_ & _ & fe & Hl & H0 & <-). rewrite (Hload (ID f) fe Hl H0). do 2 f_equal.
  unfold row_standing. destruct (List.find _ _) as [r|] eqn:Ef.
  - apply find_some in Ef as [Hin Heq%Z.eqb_eq]. apply list_elem_of_In in Hin.
    unfold table_rows in Hin. apply list_elem_of_fmap in Hin as ([i [st fl]] & -> & Hin).
    simpl in *. subst i. apply elem_of_map_to_list in Hin. rewrite (Hval _ _ Hf) in Hin. congruence.
  - exfalso. assert (Hin : In (ID f, Standing f, Flags f) (table_rows t')).
    { apply list_elem_of_In. unfold table_rows. apply list_elem_of_fmap.
      exists (ID f, (Standing f, Flags f)). split; [done|]. apply elem_of_map_to_list.
      by apply (Hval _ _ Hf). }
    pose proof (find_none _ _ Ef _ Hin) as H. simpl in H. by rewrite Z.eqb_refl in H.
Qed.

(** ** A concrete environment *)

Definition city : FactionEntry :=
  mkFaction 1 19 [(1, 0, 3100, 0x11); (2, 0, -42000, 0x06); (0, 0, 0, 0); (0, 0, 0, 0)] 0
    (of_Z 1) (of_Z 0) 7.
Definition rebels : FactionEntry :=
  mkFaction 2 4 [(0, 1, -500, 0x02); (0, 0, 0, 0); (0, 0, 0, 0); (0, 0, 0, 0)] 3
    (make 1 (-1)) (make 1 (-1)) 5.
Definition guard : FactionEntry :=
  mkFaction 3 5 [(0, 1, 8900, 0); (0, 0, 0, 0); (0, 0, 0, 0); (0, 0, 0, 0)] 3
    (make 1 (-2)) (of_Z 1) 7.

Definition sample_env : Env :=
  mkEnv {[1 := city; 2 := rebels; 3 := guard]} 4 1 1 {[1 := [(2, make 1 (-1), 7); (0, of_Z 0, 0)]]}
    (make 3 (-1)) false (fun _ standing _ => standing).

Lemma sample_entry i fe :
  LookupEntry sample_env i = Some fe ->
  i = 1 /\ fe = city \/ i = 2 /\ fe = rebels \/ i = 3 /\ fe = guard.
Proof.
  unfold LookupEntry, sample_env; simpl. rewrite !lookup_insert_Some, lookup_singleton_Some. naive_solver.
Qed.

Lemma sample_env_ok : env_ok sample_env.
Proof.
  split.
  - intros i fe [[-> ->]|[[-> ->]|[-> ->]]]%sample_entry; simpl; lia.
  - intros i fe [[-> ->]|[[-> ->]|[-> ->]]]%sample_entry;
      (split; [by apply (bool_decide_unpack _)|repeat constructor; by apply (bool_decide_unpack _)]).
  - intros i j fe gf [[-> ->]|[[-> ->]|[-> ->]]]%sample_entry
      [[-> ->]|[[-> ->]|[-> ->]]]%sample_entry; simpl; lia.
  - intros i l. simpl. rewrite lookup_singleton_Some. intros [<- <-].
    repeat constructor; [|done]. intros _. by exists rebels.
Qed.

Definition sample_rows : list row := [(3, 200, 0); (1, 6000, 0x01)].
Definition sample_ops : list op :=
  [OpSetReputation 2 700 true; OpSetAtWar 19 true; OpSetOneFactionReputation 3 13000 false;
   OpSetInactive 5 true; OpSendStates; OpSetReputation 1 (-60000) false; OpSaveToDB].

(** The run computed: reputations, flags and counters at its end. *)
Example sample_run :
  match run_ops sample_env sample_ops (LoadFromDB sample_env sample_rows new_mgr) with
  | Ok s => ((fun kf => (kf.1, Standing kf.2, Flags kf.2)) <$> _factions s,
             [_visibleFactionCount s; _honoredFactionCount s; _reveredFactionCount s;
              _exaltedFactionCount s])
  | Throw _ => ([], [])
  end = ([(4, -29500, 0x03); (5, 4100, 0x21); (19, -45100, 0x11)], [3; 1; 0; 0]).
Proof. vm_compute. reflexivity. Qed.

Lemma counters_invariant_witness :
  exists s, run_ops sample_env sample_ops (LoadFromDB sample_env sample_rows new_mgr) = Ok s /\
    wf sample_env s.
Proof.
  apply (counters_invariant sample_env sample_rows sample_ops new_mgr sample_env_ok);
    [by apply (bool_decide_unpack _)|by apply (bool_decide_unpack _)|reflexivity].
Defined.

Definition sample_mgr : ReputationMgr := LoadFromDB sample_env sample_rows new_mgr.

Lemma sample_mgr_wf : wf sample_env sample_mgr.
Proof.
  apply (LoadFromDB_ok sample_env sample_rows new_mgr sample_env_ok);
    by apply (bool_decide_unpack _).
Qed.

Lemma SetOneFactionReputation_spec_witness :
  exists s' f', SetOneFactionReputation sample_env (Some guard) 31000 true sample_mgr = Ok (true, s') /\
    map_find 5 (_factions s') = Some f' /\
    Reputation_Bottom <= 42999 <= Reputation_Cap /\ GetReputation sample_env (Some guard) s' = 42999 /\
    Flags f' = flags_after (ReputationToRank 42999) 0 /\
    needSend f' = true /\ needSave f' = true /\
    _sendFactionIncreased s' =
      _sendFactionIncreased sample_mgr ||
        (GetRank sample_env (Some guard) sample_mgr <? ReputationToRank 42999) /\
    (forall k, k <> 5 -> map_find k (_factions s') = map_find k (_factions sample_mgr)).
Proof.
  exact (SetOneFactionReputation_spec sample_env 3 guard 31000 true sample_mgr
    (mkState 3 5 200 0 false false) sample_env_ok sample_mgr_wf eq_refl eq_refl).
Defined.

Lemma SendInitialReputations_128_witness :
  exists l, effects (SendInitialReputations sample_mgr) =
      effects sample_mgr ++ [SMSG_INITIALIZE_FACTIONS 128 l] /\
    length l = 128%nat /\
    (forall i, 0 <= i < 128 -> l !! Z.to_nat i =
       Some (match map_find i (_factions sample_mgr) with
             | Some f => (Flags f, u32 (Standing f)) | None => (0, 0) end)) /\
    Forall (fun kf => needSend kf.2 = false) (_factions (SendInitialReputations sample_mgr)).
Proof.
  apply (SendInitialReputations_128 sample_mgr); [apply sample_mgr_wf|].
  apply (bool_decide_unpack _). vm_compute. exact I.
Defined.

Lemma SaveToDB_LoadFromDB_witness :
  let t : table := {[3 := (200, 0)]} in
  exists stmts, effects (SaveToDB sample_mgr) = effects sample_mgr ++ stmts /\
    Forall (fun kf => needSave kf.2 = false) (_factions (SaveToDB sample_mgr)) /\
    forall s0 k f, map_find k (_factions sample_mgr) = Some f ->
      map_find k (standings (LoadFromDB sample_env (table_rows (foldl run_stmt t stmts)) s0)) =
        Some (ID f, Standing f).
Proof.
  intros t. apply (SaveToDB_LoadFromDB sample_env sample_mgr t sample_env_ok);
    [simpl; lia|apply sample_mgr_wf| |].
  - assert (Forall (fun kf => in_s 32 (Standing kf.2) /\
      (needSave kf.2 = false -> t !! ID kf.2 = Some (Standing kf.2, Flags kf.2)))
      (_factions sample_mgr)) as Hall by (apply (bool_decide_unpack _); vm_compute; exact I).
    intros k f Hf. apply map_find_elem in Hf; [|apply sample_mgr_wf].
    rewrite Forall_forall in Hall. exact (Hall (k, f) Hf).
  - intros i v. unfold t. rewrite lookup_singleton_Some. intros [<- <-].
    by apply (bool_decide_unpack _).
Defined.

End Reputation.
