(* ===== verification/GroupMgr.v ===== *)
(** * GroupMgr: the group registry of [Groups/GroupMgr.cpp]

    Allocation of group guids and of database storage ids. A storage id is
    taken from the first free place of the vector of registered groups and is
    reused when its group is disbanded. Groups are named by their guid. *)
From S2P Require Import Prelude.

Module GroupMgr.

(** [GroupDbStore] is the vector of group pointers, null where free. *)
Record GroupMgr := mkGroupMgr {
  NextGroupId : Z;
  NextGroupDbStoreId : Z;
  GroupStore : gmap Z Z;
  GroupDbStore : list (option Z)
}.

(** The server stops on an exhausted id space; [OutOfRange] is an access to
    the vector outside its size. *)
Inductive fault := StopNow | OutOfRange.

Definition new_mgr : GroupMgr := mkGroupMgr 1 1 ∅ [].

(** The entry of [GroupDbStore] at [i] is null or beyond the end. *)
Definition is_free (m : GroupMgr) (i : Z) : bool :=
  match GroupDbStore m !! Z.to_nat i with
  | Some (Some _) => false
  | _ => true
  end.

(** The search of [GenerateNewGroupDbStoreId] from [i] on; [fuel] rounds. The
    vector has an end, so its length plus one rounds find a free place. *)
Fixpoint next_free (fuel : nat) (m : GroupMgr) (i : Z) : option Z :=
  match fuel with
  | O => None
  | S fuel =>
      if i <? 0xFFFFFFFF then if is_free m i then Some i else next_free fuel m (i + 1) else None
  end.

(** The first [++] is part of the initialiser of the loop. *)
Definition GenerateNewGroupDbStoreId (m : GroupMgr) : result fault (Z * GroupMgr) :=
  let newStorageId := NextGroupDbStoreId m in
  let start := u32 (newStorageId + 1) in
  let next := default start (next_free (S (length (GroupDbStore m))) m start) in
  let m := mkGroupMgr (NextGroupId m) next (GroupStore m) (GroupDbStore m) in
  if newStorageId =? next then Throw StopNow else Ok (newStorageId, m).

Definition RegisterGroupDbStoreId (storageId group : Z) (m : GroupMgr) : GroupMgr :=
  let st := if Z.of_nat (length (GroupDbStore m)) <=? storageId
            then resize (Z.to_nat (u32 (storageId + 1))) None (GroupDbStore m)
            else GroupDbStore m in
  mkGroupMgr (NextGroupId m) (NextGroupDbStoreId m) (GroupStore m)
    (<[Z.to_nat storageId := Some group]> st).

(** [FreeGroupDbStoreId] of the group with this storage id. *)
Definition FreeGroupDbStoreId (storageId : Z) (m : GroupMgr) : result fault GroupMgr :=
  if bool_decide (Z.to_nat storageId < length (GroupDbStore m))%nat then
    Ok (mkGroupMgr (NextGroupId m)
          (if storageId <? NextGroupDbStoreId m then storageId else NextGroupDbStoreId m)
          (GroupStore m) (<[Z.to_nat storageId := None]> (GroupDbStore m)))
  else Throw OutOfRange.

Definition GetGroupByDbStoreId (storageId : Z) (m : GroupMgr) : option Z :=
  match GroupDbStore m !! Z.to_nat storageId with Some g => g | None => None end.

Definition GenerateGroupId (m : GroupMgr) : result fault (Z * GroupMgr) :=
  if 0xFFFFFFFE <=? NextGroupId m then Throw StopNow
  else Ok (NextGroupId m, mkGroupMgr (u32 (NextGroupId m + 1)) (NextGroupDbStoreId m)
                            (GroupStore m) (GroupDbStore m)).

Definition GetGroupByGUID (groupId : Z) (m : GroupMgr) : option Z := GroupStore m !! groupId.
Definition AddGroup (lowguid group : Z) (m : GroupMgr) : GroupMgr :=
  mkGroupMgr (NextGroupId m) (NextGroupDbStoreId m) (<[lowguid := group]> (GroupStore m))
    (GroupDbStore m).
Definition RemoveGroup (lowguid : Z) (m : GroupMgr) : GroupMgr :=
  mkGroupMgr (NextGroupId m) (NextGroupDbStoreId m) (delete lowguid (GroupStore m))
    (GroupDbStore m).

(** One row of the first loop of [LoadGroups]: the group is registered under
    its stored id, and the next id moves on when it was this one. *)
Definition LoadGroups_step (m : GroupMgr) (row : Z * Z) : GroupMgr :=
  let '(storageId, group) := row in
  let m := RegisterGroupDbStoreId storageId group m in
  mkGroupMgr (NextGroupId m)
    (if storageId =? NextGroupDbStoreId m then u32 (NextGroupDbStoreId m + 1)
     else NextGroupDbStoreId m) (GroupStore m) (GroupDbStore m).

Definition LoadGroups (rows : list (Z * Z)) (m : GroupMgr) : GroupMgr := foldl LoadGroups_step m rows.

(** ** Allocation *)

(** The next storage id is free and every positive id below it is in use. *)
Record wf (m : GroupMgr) : Prop := {
  wf_next : 1 <= NextGroupDbStoreId m;
  wf_free : is_free m (NextGroupDbStoreId m) = true;
  wf_size : Z.of_nat (length (GroupDbStore m)) < 2 ^ 32 - 3
}.

(** The groups in use, by storage id. *)
Definition in_use (m : GroupMgr) (i group : Z) : Prop := GetGroupByDbStoreId i m = Some group.

Lemma is_free_get m i : is_free m i = true <-> GetGroupByDbStoreId i m = None.
Proof.
  unfold is_free, GetGroupByDbStoreId. destruct (GroupDbStore m !! Z.to_nat i) as [[g|]|]; naive_solver.
Qed.

Lemma is_free_beyond m i : Z.of_nat (length (GroupDbStore m)) <= i -> is_free m i = true.
Proof. intros Hi. unfold is_free. by rewrite lookup_ge_None_2 by lia. Qed.

Lemma wf_next_bound m : wf m -> NextGroupDbStoreId m <= Z.of_nat (length (GroupDbStore m)) \/
  Z.of_nat (length (GroupDbStore m)) < NextGroupDbStoreId m.
Proof. lia. Qed.

Lemma next_free_ok fuel m i :
  1 <= i -> Z.of_nat (length (GroupDbStore m)) < 2 ^ 32 - 3 ->
  Z.max 0 (Z.of_nat (length (GroupDbStore m)) - i) < Z.of_nat fuel -> i < 2 ^ 32 - 1 ->
  exists j, next_free fuel m i = Some j /\ i <= j /\ is_free m j = true /\
    (forall k, i <= k < j -> is_free m k = false).
Proof.
  revert i. induction fuel as [|fuel IH]; intros i Hi Hsz Hf Hlt; [lia|]. cbn [next_free].
  rewrite (proj2 (Z.ltb_lt i 0xFFFFFFFF)) by lia.
  destruct (is_free m i) eqn:Ef; [exists i; split_and!; [done|lia|done|lia]|].
  destruct (Z.le_gt_cases (Z.of_nat (length (GroupDbStore m))) i) as [Hge|Hlt'].
  { rewrite is_free_beyond in Ef by lia. done. }
  destruct (IH (i + 1)) as (j & -> & H1 & H2 & H3); [lia|lia|lia|lia|].
  exists j. split_and!; [done|lia|done|]. intros k Hk.
  destruct (decide (k = i)) as [->|]; [done|]. apply H3. lia.
Qed.

Lemma get_register m i j group :
  0 <= i < 2 ^ 32 - 1 -> 0 <= j ->
  GetGroupByDbStoreId j (RegisterGroupDbStoreId i group m) =
    if decide (j = i) then Some group else GetGroupByDbStoreId j m.
Proof.
  intros Hi Hj. unfold GetGroupByDbStoreId, RegisterGroupDbStoreId; simpl.
  set (st := if _ <=? i then _ else _).
  assert (Hlen : (Z.to_nat i < length st)%nat).
  { unfold st. destruct (Z.leb_spec (Z.of_nat (length (GroupDbStore m))) i); [|lia].
    rewrite length_resize, wrap_id by width. lia. }
  destruct (decide (j = i)) as [->|Hne].
  - by rewrite list_lookup_insert_eq.
  - rewrite list_lookup_insert_ne by lia. unfold st.
    destruct (Z.leb_spec (Z.of_nat (length (GroupDbStore m))) i) as [Hle|]; [|done].
    rewrite wrap_id by width.
    destruct (decide (Z.to_nat j < length (GroupDbStore m))%nat) as [Hin|Hout].
    + by rewrite lookup_resize by lia.
    + rewrite (lookup_ge_None_2 (GroupDbStore m)) by lia.
      destruct (decide (Z.to_nat j < Z.to_nat (i + 1))%nat).
      * by rewrite lookup_resize_new by lia.
      * by rewrite lookup_resize_old by lia.
Qed.

(** Creating a group takes a storage id that no registered group has and
    keeps every registered group under its id; disbanding one frees exactly its
    id; and both leave the next id free, so ids are never shared. *)
Theorem storage_ids_unique m group :
  wf m -> NextGroupDbStoreId m < 2 ^ 32 - 3 ->
  exists id m1, GenerateNewGroupDbStoreId m = Ok (id, m1) /\
    GetGroupByDbStoreId id m = None /\
    let m2 := RegisterGroupDbStoreId id group m1 in
    is_free m2 (NextGroupDbStoreId m2) = true /\ in_use m2 id group /\
    (forall i g, 0 <= i -> in_use m i g -> in_use m2 i g) /\
    exists m3, FreeGroupDbStoreId id m2 = Ok m3 /\
      is_free m3 (NextGroupDbStoreId m3) = true /\
      (forall i, 0 <= i -> GetGroupByDbStoreId i m3 = GetGroupByDbStoreId i m).
Proof.
  intros [Hn Hf Hs] Hlt. unfold GenerateNewGroupDbStoreId. set (n := NextGroupDbStoreId m) in *.
  rewrite (wrap_id 32 (n + 1)) by width.
  destruct (next_free_ok (S (length (GroupDbStore m))) m (n + 1)) as (j & -> & Hj & Hjf & _); [lia|lia|lia|lia|].
  simpl default. rewrite (proj2 (Z.eqb_neq n j)) by lia. do 2 eexists. split; [done|].
  split; [by apply is_free_get|]. set (m1 := mkGroupMgr _ j _ _).
  assert (Hget : forall i, 0 <= i -> GetGroupByDbStoreId i (RegisterGroupDbStoreId n group m1) =
    if decide (i = n) then Some group else GetGroupByDbStoreId i m).
  { intros i Hi. rewrite get_register by lia. done. }
  cbv zeta. set (m2 := RegisterGroupDbStoreId n group m1) in *.
  assert (Hn2 : NextGroupDbStoreId m2 = j) by done.
  assert (Hlen2 : (Z.to_nat n < length (GroupDbStore m2))%nat).
  { unfold m2, RegisterGroupDbStoreId. simpl. rewrite length_insert.
    destruct (Z.leb_spec (Z.of_nat (length (GroupDbStore m))) n); [|lia].
    rewrite length_resize, wrap_id by width. lia. }
  clearbody m2. split_and!.
  - rewrite Hn2. apply is_free_get. rewrite Hget, decide_False by lia. by apply is_free_get.
  - unfold in_use. rewrite Hget, decide_True by lia. done.
  - intros i g Hi Hg. unfold in_use. rewrite Hget by lia. rewrite decide_False; [done|].
    intros ->. apply is_free_get in Hf. unfold in_use in Hg. congruence.
  - unfold FreeGroupDbStoreId. rewrite bool_decide_true by done.
    rewrite Hn2, (proj2 (Z.ltb_lt n j)) by lia. eexists. split; [done|].
    assert (Hget3 : forall i, 0 <= i -> GetGroupByDbStoreId i
      (mkGroupMgr (NextGroupId m2) n (GroupStore m2) (<[Z.to_nat n := None]> (GroupDbStore m2))) =
      GetGroupByDbStoreId i m).
    { intros i Hi. unfold GetGroupByDbStoreId at 1; simpl.
      destruct (decide (i = n)) as [->|Hne].
      - apply is_free_get in Hf. rewrite Hf. by rewrite list_lookup_insert_eq.
      - rewrite list_lookup_insert_ne by lia. specialize (Hget i Hi). rewrite decide_False in Hget by done.
        done. }
    split; [|done]. simpl. apply is_free_get. rewrite Hget3 by lia. by apply is_free_get.
Qed.

Definition sample : GroupMgr := mkGroupMgr 7 2 ∅ [None; Some 11; None; Some 33].

Lemma sample_registry_wf : wf sample.
Proof. split; simpl; [lia|reflexivity|lia]. Qed.

Lemma storage_ids_unique_witness :
  exists id m1, GenerateNewGroupDbStoreId sample = Ok (id, m1) /\
    GetGroupByDbStoreId id sample = None /\
    let m2 := RegisterGroupDbStoreId id 99 m1 in
    is_free m2 (NextGroupDbStoreId m2) = true /\ in_use m2 id 99 /\
    (forall i g, 0 <= i -> in_use sample i g -> in_use m2 i g) /\
    exists m3, FreeGroupDbStoreId id m2 = Ok m3 /\
      is_free m3 (NextGroupDbStoreId m3) = true /\
      (forall i, 0 <= i -> GetGroupByDbStoreId i m3 = GetGroupByDbStoreId i sample).
Proof. apply (storage_ids_unique sample 99 sample_registry_wf). simpl. lia. Defined.

End GroupMgr.
