(* ===== verification/GroupState.v ===== *)
(** * GroupState: the state of a player group

    The data of [Groups/Group.h], the other objects a group's operations read
    and write (players, loots, the group registry), and the state monad they
    are written in. What an operation sends, stores or calls on another object
    is appended to the trace of effects, in order. *)
From S2P Require Import Prelude OrderedMap GroupMgr.
From stdpp Require Export strings.
#[global] Open Scope Z_scope.
#[global] Open Scope tc_scope.

Module GroupState.

(** ** Effects *)

(** A field of a packet with its width. *)
Inductive field := U8 (z : Z) | U32 (z : Z) | U64 (z : Z) | Str (s : string).

(** A packet to a player's session, a database statement, a script hook, and a
    method called on another object that does not change the modelled state. *)
Inductive effect :=
| Packet (receiver : Z) (opcode : string) (data : list field)
| Db (stmt : string) (args : list Z)
| Script (hook : string) (args : list Z)
| Call (object : Z) (method : string) (args : list Z).

(** ** Data *)

Definition MAXGROUPSIZE := 5.
Definition MAXRAIDSIZE := 40.
Definition MAX_RAID_SUBGROUPS := 8.
Definition TARGETICONCOUNT := 8.
Definition MAX_DIFFICULTY := 4.

Definition GROUPTYPE_BGRAID := 0x03.
Definition GROUPTYPE_RAID := 0x02.
Definition GROUPTYPE_UNK1 := 0x04.
Definition GROUPTYPE_LFG := 0x08.

Definition MEMBER_FLAG_ASSISTANT := 0x01.
Definition MEMBER_FLAG_MAINTANK := 0x02.
Definition MEMBER_FLAG_MAINASSIST := 0x04.

Definition FREE_FOR_ALL := 0.
Definition MASTER_LOOT := 2.
Definition NEED_BEFORE_GREED := 4.

Record MemberSlot := mkSlot {
  ms_guid : Z;
  ms_name : string;
  ms_group : Z;
  ms_flags : Z;
  ms_roles : Z
}.

(** [InstanceGroupBind]: the id of the instance save. *)
Record InstanceGroupBind := mkBind { save : Z; perm : bool }.

Inductive RollVote := PASS | NEED | GREED | DISENCHANT | NOT_EMITED_YET | NOT_VALID.

#[export] Instance RollVote_eq_dec : EqDecision RollVote.
Proof. solve_decision. Defined.

Definition vote_code (v : RollVote) : Z :=
  match v with
  | PASS => 0 | NEED => 1 | GREED => 2 | DISENCHANT => 3 | NOT_EMITED_YET => 4 | NOT_VALID => 5
  end.

(** [roll_loot] is the link to the loot, [None] once the loot is gone. *)
Record Roll := mkRoll {
  itemGUID : Z;
  r_itemid : Z;
  r_randomPropId : Z;
  r_randomSuffix : Z;
  r_count : Z;
  playerVote : list (Z * RollVote);
  totalPlayersRolling : Z;
  totalNeed : Z;
  totalGreed : Z;
  totalPass : Z;
  itemSlot : Z;
  rollVoteMask : Z;
  roll_loot : option Z
}.

Record LootItem := mkLootItem {
  li_itemid : Z;
  li_randomSuffix : Z;
  li_randomPropertyId : Z;
  li_count : Z;
  is_looted : bool;
  is_blocked : bool;
  freeforall : bool;
  is_underthreshold : bool;
  follow_loot_rules : bool;
  allowedGUIDs : list Z
}.

Record Loot := mkLoot {
  items : list LootItem;
  quest_items : list LootItem;
  unlootedCount : Z;
  PlayersLooting : list Z
}.

(** What a group reads and writes of a player: [m_group] and [m_originalGroup]
    as (group guid, subgroup), the rest as the accessors of [Player] report it;
    instance binds per difficulty as (instance save, permanent). *)
Record Player := mkPlayer {
  p_name : string;
  p_group : option (Z * Z);
  p_originalGroup : option (Z * Z);
  p_groupInvite : option Z;
  p_inWorld : bool;
  p_session : bool;
  p_skill : Z;
  p_level : Z;
  p_dungeonDifficulty : Z;
  p_raidDifficulty : Z;
  p_instanceId : Z;
  p_mapId : Z;
  p_instanceValid : bool;
  p_haveBot : bool;
  p_gameMaster : bool;
  p_alive : bool;
  p_passOnLoot : bool;
  p_boundInstances : list (list (Z * bool))
}.

Definition set_p_group (v : option (Z * Z)) (p : Player) : Player :=
  mkPlayer (p_name p) v (p_originalGroup p) (p_groupInvite p) (p_inWorld p) (p_session p)
    (p_skill p) (p_level p) (p_dungeonDifficulty p) (p_raidDifficulty p) (p_instanceId p)
    (p_mapId p) (p_instanceValid p) (p_haveBot p) (p_gameMaster p) (p_alive p) (p_passOnLoot p)
    (p_boundInstances p).
Definition set_p_originalGroup (v : option (Z * Z)) (p : Player) : Player :=
  mkPlayer (p_name p) (p_group p) v (p_groupInvite p) (p_inWorld p) (p_session p) (p_skill p)
    (p_level p) (p_dungeonDifficulty p) (p_raidDifficulty p) (p_instanceId p) (p_mapId p)
    (p_instanceValid p) (p_haveBot p) (p_gameMaster p) (p_alive p) (p_passOnLoot p)
    (p_boundInstances p).
Definition set_p_groupInvite (v : option Z) (p : Player) : Player :=
  mkPlayer (p_name p) (p_group p) (p_originalGroup p) v (p_inWorld p) (p_session p) (p_skill p)
    (p_level p) (p_dungeonDifficulty p) (p_raidDifficulty p) (p_instanceId p) (p_mapId p)
    (p_instanceValid p) (p_haveBot p) (p_gameMaster p) (p_alive p) (p_passOnLoot p)
    (p_boundInstances p).
Definition set_p_dungeonDifficulty (v : Z) (p : Player) : Player :=
  mkPlayer (p_name p) (p_group p) (p_originalGroup p) (p_groupInvite p) (p_inWorld p)
    (p_session p) (p_skill p) (p_level p) v (p_raidDifficulty p) (p_instanceId p) (p_mapId p)
    (p_instanceValid p) (p_haveBot p) (p_gameMaster p) (p_alive p) (p_passOnLoot p)
    (p_boundInstances p).
Definition set_p_raidDifficulty (v : Z) (p : Player) : Player :=
  mkPlayer (p_name p) (p_group p) (p_originalGroup p) (p_groupInvite p) (p_inWorld p)
    (p_session p) (p_skill p) (p_level p) (p_dungeonDifficulty p) v (p_instanceId p) (p_mapId p)
    (p_instanceValid p) (p_haveBot p) (p_gameMaster p) (p_alive p) (p_passOnLoot p)
    (p_boundInstances p).
Definition set_p_instanceValid (v : bool) (p : Player) : Player :=
  mkPlayer (p_name p) (p_group p) (p_originalGroup p) (p_groupInvite p) (p_inWorld p)
    (p_session p) (p_skill p) (p_level p) (p_dungeonDifficulty p) (p_raidDifficulty p)
    (p_instanceId p) (p_mapId p) v (p_haveBot p) (p_gameMaster p) (p_alive p) (p_passOnLoot p)
    (p_boundInstances p).
Definition set_p_boundInstances (v : list (list (Z * bool))) (p : Player) : Player :=
  mkPlayer (p_name p) (p_group p) (p_originalGroup p) (p_groupInvite p) (p_inWorld p)
    (p_session p) (p_skill p) (p_level p) (p_dungeonDifficulty p) (p_raidDifficulty p)
    (p_instanceId p) (p_mapId p) (p_instanceValid p) (p_haveBot p) (p_gameMaster p) (p_alive p)
    (p_passOnLoot p) v.

(** Invitees are in the order of their insertion; linked members, the first
    first; the instance binds are one map per difficulty. *)
Record Group := mkGroup {
  m_memberSlots : list MemberSlot;
  m_memberMgr : list Z;
  m_invitees : list Z;
  m_leaderGuid : Z;
  m_leaderName : string;
  m_groupType : Z;
  m_dungeonDifficulty : Z;
  m_raidDifficulty : Z;
  m_bgGroup : option Z;
  m_bfGroup : option Z;
  m_targetIcons : list Z;
  m_lootMethod : Z;
  m_lootThreshold : Z;
  m_looterGuid : Z;
  RollId : list Roll;
  m_boundInstances : list (list (Z * InstanceGroupBind));
  m_subGroupsCounts : option (list Z);
  m_guid : Z;
  m_counter : Z;
  m_maxEnchantingLevel : Z;
  m_dbStoreId : Z
}.

Definition set_memberSlots (v : list MemberSlot) (g : Group) : Group :=
  mkGroup v (m_memberMgr g) (m_invitees g) (m_leaderGuid g) (m_leaderName g) (m_groupType g)
    (m_dungeonDifficulty g) (m_raidDifficulty g) (m_bgGroup g) (m_bfGroup g) (m_targetIcons g)
    (m_lootMethod g) (m_lootThreshold g) (m_looterGuid g) (RollId g) (m_boundInstances g)
    (m_subGroupsCounts g) (m_guid g) (m_counter g) (m_maxEnchantingLevel g) (m_dbStoreId g).
Definition set_memberMgr (v : list Z) (g : Group) : Group :=
  mkGroup (m_memberSlots g) v (m_invitees g) (m_leaderGuid g) (m_leaderName g) (m_groupType g)
    (m_dungeonDifficulty g) (m_raidDifficulty g) (m_bgGroup g) (m_bfGroup g) (m_targetIcons g)
    (m_lootMethod g) (m_lootThreshold g) (m_looterGuid g) (RollId g) (m_boundInstances g)
    (m_subGroupsCounts g) (m_guid g) (m_counter g) (m_maxEnchantingLevel g) (m_dbStoreId g).
Definition set_invitees (v : list Z) (g : Group) : Group :=
  mkGroup (m_memberSlots g) (m_memberMgr g) v (m_leaderGuid g) (m_leaderName g) (m_groupType g)
    (m_dungeonDifficulty g) (m_raidDifficulty g) (m_bgGroup g) (m_bfGroup g) (m_targetIcons g)
    (m_lootMethod g) (m_lootThreshold g) (m_looterGuid g) (RollId g) (m_boundInstances g)
    (m_subGroupsCounts g) (m_guid g) (m_counter g) (m_maxEnchantingLevel g) (m_dbStoreId g).
Definition set_leaderGuid (v : Z) (g : Group) : Group :=
  mkGroup (m_memberSlots g) (m_memberMgr g) (m_invitees g) v (m_leaderName g) (m_groupType g)
    (m_dungeonDifficulty g) (m_raidDifficulty g) (m_bgGroup g) (m_bfGroup g) (m_targetIcons g)
    (m_lootMethod g) (m_lootThreshold g) (m_looterGuid g) (RollId g) (m_boundInstances g)
    (m_subGroupsCounts g) (m_guid g) (m_counter g) (m_maxEnchantingLevel g) (m_dbStoreId g).
Definition set_leaderName (v : string) (g : Group) : Group :=
  mkGroup (m_memberSlots g) (m_memberMgr g) (m_invitees g) (m_leaderGuid g) v (m_groupType g)
    (m_dungeonDifficulty g) (m_raidDifficulty g) (m_bgGroup g) (m_bfGroup g) (m_targetIcons g)
    (m_lootMethod g) (m_lootThreshold g) (m_looterGuid g) (RollId g) (m_boundInstances g)
    (m_subGroupsCounts g) (m_guid g) (m_counter g) (m_maxEnchantingLevel g) (m_dbStoreId g).
Definition set_groupType (v : Z) (g : Group) : Group :=
  mkGroup (m_memberSlots g) (m_memberMgr g) (m_invitees g) (m_leaderGuid g) (m_leaderName g) v
    (m_dungeonDifficulty g) (m_raidDifficulty g) (m_bgGroup g) (m_bfGroup g) (m_targetIcons g)
    (m_lootMethod g) (m_lootThreshold g) (m_looterGuid g) (RollId g) (m_boundInstances g)
    (m_subGroupsCounts g) (m_guid g) (m_counter g) (m_maxEnchantingLevel g) (m_dbStoreId g).
Definition set_dungeonDifficulty (v : Z) (g : Group) : Group :=
  mkGroup (m_memberSlots g) (m_memberMgr g) (m_invitees g) (m_leaderGuid g) (m_leaderName g)
    (m_groupType g) v (m_raidDifficulty g) (m_bgGroup g) (m_bfGroup g) (m_targetIcons g)
    (m_lootMethod g) (m_lootThreshold g) (m_looterGuid g) (RollId g) (m_boundInstances g)
    (m_subGroupsCounts g) (m_guid g) (m_counter g) (m_maxEnchantingLevel g) (m_dbStoreId g).
Definition set_raidDifficulty (v : Z) (g : Group) : Group :=
  mkGroup (m_memberSlots g) (m_memberMgr g) (m_invitees g) (m_leaderGuid g) (m_leaderName g)
    (m_groupType g) (m_dungeonDifficulty g) v (m_bgGroup g) (m_bfGroup g) (m_targetIcons g)
    (m_lootMethod g) (m_lootThreshold g) (m_looterGuid g) (RollId g) (m_boundInstances g)
    (m_subGroupsCounts g) (m_guid g) (m_counter g) (m_maxEnchantingLevel g) (m_dbStoreId g).
Definition set_bgGroup (v : option Z) (g : Group) : Group :=
  mkGroup (m_memberSlots g) (m_memberMgr g) (m_invitees g) (m_leaderGuid g) (m_leaderName g)
    (m_groupType g) (m_dungeonDifficulty g) (m_raidDifficulty g) v (m_bfGroup g) (m_targetIcons g)
    (m_lootMethod g) (m_lootThreshold g) (m_looterGuid g) (RollId g) (m_boundInstances g)
    (m_subGroupsCounts g) (m_guid g) (m_counter g) (m_maxEnchantingLevel g) (m_dbStoreId g).
Definition set_bfGroup (v : option Z) (g : Group) : Group :=
  mkGroup (m_memberSlots g) (m_memberMgr g) (m_invitees g) (m_leaderGuid g) (m_leaderName g)
    (m_groupType g) (m_dungeonDifficulty g) (m_raidDifficulty g) (m_bgGroup g) v (m_targetIcons g)
    (m_lootMethod g) (m_lootThreshold g) (m_looterGuid g) (RollId g) (m_boundInstances g)
    (m_subGroupsCounts g) (m_guid g) (m_counter g) (m_maxEnchantingLevel g) (m_dbStoreId g).
Definition set_targetIcons (v : list Z) (g : Group) : Group :=
  mkGroup (m_memberSlots g) (m_memberMgr g) (m_invitees g) (m_leaderGuid g) (m_leaderName g)
    (m_groupType g) (m_dungeonDifficulty g) (m_raidDifficulty g) (m_bgGroup g) (m_bfGroup g) v
    (m_lootMethod g) (m_lootThreshold g) (m_looterGuid g) (RollId g) (m_boundInstances g)
    (m_subGroupsCounts g) (m_guid g) (m_counter g) (m_maxEnchantingLevel g) (m_dbStoreId g).
Definition set_lootMethod (v : Z) (g : Group) : Group :=
  mkGroup (m_memberSlots g) (m_memberMgr g) (m_invitees g) (m_leaderGuid g) (m_leaderName g)
    (m_groupType g) (m_dungeonDifficulty g) (m_raidDifficulty g) (m_bgGroup g) (m_bfGroup g)
    (m_targetIcons g) v (m_lootThreshold g) (m_looterGuid g) (RollId g) (m_boundInstances g)
    (m_subGroupsCounts g) (m_guid g) (m_counter g) (m_maxEnchantingLevel g) (m_dbStoreId g).
Definition set_lootThreshold (v : Z) (g : Group) : Group :=
  mkGroup (m_memberSlots g) (m_memberMgr g) (m_invitees g) (m_leaderGuid g) (m_leaderName g)
    (m_groupType g) (m_dungeonDifficulty g) (m_raidDifficulty g) (m_bgGroup g) (m_bfGroup g)
    (m_targetIcons g) (m_lootMethod g) v (m_looterGuid g) (RollId g) (m_boundInstances g)
    (m_subGroupsCounts g) (m_guid g) (m_counter g) (m_maxEnchantingLevel g) (m_dbStoreId g).
Definition set_looterGuid (v : Z) (g : Group) : Group :=
  mkGroup (m_memberSlots g) (m_memberMgr g) (m_invitees g) (m_leaderGuid g) (m_leaderName g)
    (m_groupType g) (m_dungeonDifficulty g) (m_raidDifficulty g) (m_bgGroup g) (m_bfGroup g)
    (m_targetIcons g) (m_lootMethod g) (m_lootThreshold g) v (RollId g) (m_boundInstances g)
    (m_subGroupsCounts g) (m_guid g) (m_counter g) (m_maxEnchantingLevel g) (m_dbStoreId g).
Definition set_RollId (v : list Roll) (g : Group) : Group :=
  mkGroup (m_memberSlots g) (m_memberMgr g) (m_invitees g) (m_leaderGuid g) (m_leaderName g)
    (m_groupType g) (m_dungeonDifficulty g) (m_raidDifficulty g) (m_bgGroup g) (m_bfGroup g)
    (m_targetIcons g) (m_lootMethod g) (m_lootThreshold g) (m_looterGuid g) v (m_boundInstances g)
    (m_subGroupsCounts g) (m_guid g) (m_counter g) (m_maxEnchantingLevel g) (m_dbStoreId g).
Definition set_boundInstances (v : list (list (Z * InstanceGroupBind))) (g : Group) : Group :=
  mkGroup (m_memberSlots g) (m_memberMgr g) (m_invitees g) (m_leaderGuid g) (m_leaderName g)
    (m_groupType g) (m_dungeonDifficulty g) (m_raidDifficulty g) (m_bgGroup g) (m_bfGroup g)
    (m_targetIcons g) (m_lootMethod g) (m_lootThreshold g) (m_looterGuid g) (RollId g) v
    (m_subGroupsCounts g) (m_guid g) (m_counter g) (m_maxEnchantingLevel g) (m_dbStoreId g).
Definition set_subGroupsCounts (v : option (list Z)) (g : Group) : Group :=
  mkGroup (m_memberSlots g) (m_memberMgr g) (m_invitees g) (m_leaderGuid g) (m_leaderName g)
    (m_groupType g) (m_dungeonDifficulty g) (m_raidDifficulty g) (m_bgGroup g) (m_bfGroup g)
    (m_targetIcons g) (m_lootMethod g) (m_lootThreshold g) (m_looterGuid g) (RollId g)
    (m_boundInstances g) v (m_guid g) (m_counter g) (m_maxEnchantingLevel g) (m_dbStoreId g).
Definition set_guid (v : Z) (g : Group) : Group :=
  mkGroup (m_memberSlots g) (m_memberMgr g) (m_invitees g) (m_leaderGuid g) (m_leaderName g)
    (m_groupType g) (m_dungeonDifficulty g) (m_raidDifficulty g) (m_bgGroup g) (m_bfGroup g)
    (m_targetIcons g) (m_lootMethod g) (m_lootThreshold g) (m_looterGuid g) (RollId g)
    (m_boundInstances g) (m_subGroupsCounts g) v (m_counter g) (m_maxEnchantingLevel g)
    (m_dbStoreId g).
Definition set_counter (v : Z) (g : Group) : Group :=
  mkGroup (m_memberSlots g) (m_memberMgr g) (m_invitees g) (m_leaderGuid g) (m_leaderName g)
    (m_groupType g) (m_dungeonDifficulty g) (m_raidDifficulty g) (m_bgGroup g) (m_bfGroup g)
    (m_targetIcons g) (m_lootMethod g) (m_lootThreshold g) (m_looterGuid g) (RollId g)
    (m_boundInstances g) (m_subGroupsCounts g) (m_guid g) v (m_maxEnchantingLevel g)
    (m_dbStoreId g).
Definition set_maxEnchantingLevel (v : Z) (g : Group) : Group :=
  mkGroup (m_memberSlots g) (m_memberMgr g) (m_invitees g) (m_leaderGuid g) (m_leaderName g)
    (m_groupType g) (m_dungeonDifficulty g) (m_raidDifficulty g) (m_bgGroup g) (m_bfGroup g)
    (m_targetIcons g) (m_lootMethod g) (m_lootThreshold g) (m_looterGuid g) (RollId g)
    (m_boundInstances g) (m_subGroupsCounts g) (m_guid g) (m_counter g) v (m_dbStoreId g).
Definition set_dbStoreId (v : Z) (g : Group) : Group :=
  mkGroup (m_memberSlots g) (m_memberMgr g) (m_invitees g) (m_leaderGuid g) (m_leaderName g)
    (m_groupType g) (m_dungeonDifficulty g) (m_raidDifficulty g) (m_bgGroup g) (m_bfGroup g)
    (m_targetIcons g) (m_lootMethod g) (m_lootThreshold g) (m_looterGuid g) (RollId g)
    (m_boundInstances g) (m_subGroupsCounts g) (m_guid g) (m_counter g) (m_maxEnchantingLevel g) v.

(** [urands] counts the random numbers drawn; [deleted] is set by
    [delete this]. *)
Record World := mkWorld {
  group : Group;
  players : gmap Z Player;
  mgr : GroupMgr.GroupMgr;
  loots : gmap Z Loot;
  urands : nat;
  item_guids : Z;
  deleted : bool;
  trace : list effect
}.

Definition set_group (v : Group) (w : World) : World :=
  mkWorld v (players w) (mgr w) (loots w) (urands w) (item_guids w) (deleted w) (trace w).
Definition set_players (v : gmap Z Player) (w : World) : World :=
  mkWorld (group w) v (mgr w) (loots w) (urands w) (item_guids w) (deleted w) (trace w).
Definition set_mgr (v : GroupMgr.GroupMgr) (w : World) : World :=
  mkWorld (group w) (players w) v (loots w) (urands w) (item_guids w) (deleted w) (trace w).
Definition set_loots (v : gmap Z Loot) (w : World) : World :=
  mkWorld (group w) (players w) (mgr w) v (urands w) (item_guids w) (deleted w) (trace w).
Definition set_urands (v : nat) (w : World) : World :=
  mkWorld (group w) (players w) (mgr w) (loots w) v (item_guids w) (deleted w) (trace w).
Definition set_item_guids (v : Z) (w : World) : World :=
  mkWorld (group w) (players w) (mgr w) (loots w) (urands w) v (deleted w) (trace w).
Definition set_deleted (v : bool) (w : World) : World :=
  mkWorld (group w) (players w) (mgr w) (loots w) (urands w) (item_guids w) v (trace w).
Definition set_trace (v : list effect) (w : World) : World :=
  mkWorld (group w) (players w) (mgr w) (loots w) (urands w) (item_guids w) (deleted w) v.

(** An item template, as far as loot rolls read it. *)
Record ItemTemplate := mkTemplate {
  Quality : Z;
  DisenchantID : Z;
  RequiredDisenchantSkill : Z;
  Flags2 : Z
}.

(** A map of Map.dbc and an instance save. *)
Record MapEntry := mkMapEntry { IsDungeon : bool; IsRaid : bool; map_type : Z }.
Record InstanceSave := mkSave { save_map : Z; save_difficulty : Z; CanReset : bool }.

(** What the operations ask of the rest of the server. [canStore], the result of
    resetting a map and the players inside may depend on what happened before,
    so they take the trace. *)
Record Env := mkEnv {
  bot_loot_method : Z;
  player_names : gmap Z string;
  IsWithinDistInMap : Z -> Z -> bool;
  IsWithinSight : Z -> Z -> bool;
  HaveAtClient : Z -> Z -> bool;
  HasUpdateData : Z -> Z -> bool;
  AllowedForPlayer : LootItem -> Z -> bool;
  canStore : list effect -> Z -> Z -> Z -> Z;
  CanRollForItemInLFG : Z -> Z -> Z -> Z;
  item_templates : gmap Z ItemTemplate;
  urand : nat -> Z;
  lfg_finished : Z -> bool;
  lfg_dungeon : Z -> Z;
  lfg_dungeon_map : Z -> Z;
  maps : gmap Z MapEntry;
  saves : gmap Z InstanceSave;
  downscale : Z -> Z -> Z;
  loaded_dungeon : Z -> bool;
  map_reset : list effect -> Z -> Z -> bool;
  have_players : list effect -> Z -> bool;
  other_bg_or_bf : Z -> bool;
  in_battleground : Z -> bool;
  guid_by_name : string -> Z;
  looted_kind : Z -> option bool;
  GetMapId : Z -> Z
}.

(** ** The monad *)

Inductive fault :=
| OutOfBounds                (* an access outside an array or vector *)
| NullPointer                (* a null pointer that is dereferenced *)
| AssertFailed
| Deleted                    (* a use of the group after [delete this] *)
| ServerStopped
| OutOfFuel.

#[export] Instance fault_eq_dec : EqDecision fault.
Proof. solve_decision. Defined.

Definition M (A : Type) : Type := World -> result fault (A * World).

Definition ret {A} (a : A) : M A := fun w => Ok (a, w).
Definition throw {A} (e : fault) : M A := fun _ => Throw e.
Definition bind {A B} (m : M A) (k : A -> M B) : M B := fun w =>
  match m w with
  | Ok (a, w) => k a w
  | Throw e => Throw e
  end.

Notation "x <- m ;; k" := (bind m (fun x => k))
  (at level 90, m at next level, right associativity) : tc_scope.
Notation "m ;;; k" := (bind m (fun _ => k))
  (at level 90, right associativity) : tc_scope.

Definition gets {A} (f : World -> A) : M A := fun w => Ok (f w, w).
Definition modify (f : World -> World) : M unit := fun w => Ok (tt, f w).
Definition getg {A} (f : Group -> A) : M A := gets (fun w => f (group w)).
Definition modg (f : Group -> Group) : M unit := modify (fun w => set_group (f (group w)) w).
Definition emit (e : effect) : M unit := modify (fun w => set_trace (trace w ++ [e]) w).
Definition when (b : bool) (m : M unit) : M unit := if b then m else ret tt.

(** [for (x : l) f(x)]. *)
Fixpoint for_each {A} (l : list A) (f : A -> M unit) : M unit :=
  match l with
  | [] => ret tt
  | x :: l => f x ;;; for_each l f
  end.

(** ** Players *)

(** [ObjectAccessor::FindPlayer]: players in the world only. *)
Definition find_player (w : World) (guid : Z) : option Player :=
  match players w !! guid with
  | Some p => if p_inWorld p then Some p else None
  | None => None
  end.
Definition FindPlayer (guid : Z) : M (option Player) := gets (fun w => find_player w guid).

(** The player object behind a pointer. *)
Definition get_player (guid : Z) : M Player := fun w =>
  match players w !! guid with Some p => Ok (p, w) | None => Throw NullPointer end.
Definition mod_player (guid : Z) (f : Player -> Player) : M unit := fun w =>
  match players w !! guid with
  | Some p => Ok (tt, set_players (<[guid := f p]> (players w)) w)
  | None => Throw NullPointer
  end.

(** A packet to a player, if it has a session. *)
Definition send_if_session (p : Player) (guid : Z) (opcode : string) (data : list field) : M unit :=
  when (p_session p) (emit (Packet guid opcode data)).

(** ** Guids *)

Definition MAKE_NEW_GUID (l e h : Z) : Z := Z.lor l (Z.lor (Z.shiftl e 24) (Z.shiftl h 48)).
Definition HIGHGUID_ITEM := 0x4000.
Definition HIGHGUID_GROUP := 0x1F50.
(** [GUID_LOPART] of a guid without entry part (players, items, groups). *)
Definition GUID_LOPART (guid : Z) : Z := Z.land guid 0xFFFFFFFF.
Definition IS_PLAYER_GUID (guid : Z) : bool := (Z.shiftr guid 48 =? 0) && negb (guid =? 0).

(** ** Members *)

(** [_getMemberCSlot] and [_getMemberWSlot]; the iterator is an index. *)
Fixpoint slot_index (guid : Z) (l : list MemberSlot) : option nat :=
  match l with
  | [] => None
  | s :: l => if ms_guid s =? guid then Some O else S <$> slot_index guid l
  end.
Definition find_slot (guid : Z) (l : list MemberSlot) : option MemberSlot :=
  find (fun s => ms_guid s =? guid) l.

(** A write through the slot of [guid]. *)
Fixpoint update_slot (guid : Z) (f : MemberSlot -> MemberSlot) (l : list MemberSlot)
    : list MemberSlot :=
  match l with
  | [] => []
  | s :: l => if ms_guid s =? guid then f s :: l else s :: update_slot guid f l
  end.

(** [m_memberSlots.erase(slot)]. *)
Fixpoint erase_slot (guid : Z) (l : list MemberSlot) : list MemberSlot :=
  match l with
  | [] => []
  | s :: l => if ms_guid s =? guid then l else s :: erase_slot guid l
  end.

Lemma update_slot_guids guid f l :
  (forall s, ms_guid (f s) = ms_guid s) -> ms_guid <$> update_slot guid f l = ms_guid <$> l.
Proof.
  intros Hf. induction l as [|s l IH]; [done|]. cbn [update_slot].
  destruct (_ =? _); by rewrite !fmap_cons, ?Hf, ?IH.
Qed.

Definition isBGGroup (g : Group) : bool := match m_bgGroup g with Some _ => true | None => false end.
Definition isBFGroup (g : Group) : bool := match m_bfGroup g with Some _ => true | None => false end.
Definition isLFGGroup (g : Group) : bool := has (m_groupType g) GROUPTYPE_LFG.
Definition isRaidGroup (g : Group) : bool := has (m_groupType g) GROUPTYPE_RAID.
Definition is_regular (g : Group) : bool := negb (isBGGroup g) && negb (isBFGroup g).
Definition GetMembersCount (g : Group) : Z := u32 (Z.of_nat (length (m_memberSlots g))).

Definition in_group (g : Group) (p : Player) : bool :=
  match p_group p with Some (gid, _) => gid =? m_guid g | None => false end.

(** The subgroup of the player's reference to the group, its current or its
    original one. *)
Definition ref_subgroup (g : Group) (p : Player) : Z :=
  match p_group p, p_originalGroup p with
  | Some (gid, sub), o =>
      if gid =? m_guid g then sub else match o with Some (_, sub) => sub | None => 0 end
  | None, Some (_, sub) => sub
  | None, None => 0
  end.

Definition BroadcastPacket (opcode : string) (data : list field) (ignorePlayersInBGRaid : bool)
    (subgroup ignore : Z) : M unit :=
  members <- getg m_memberMgr ;;
  for_each members (fun guid =>
    p <- get_player guid ;;
    g <- getg id ;;
    if (negb (ignore =? 0) && (guid =? ignore)) || (ignorePlayersInBGRaid && negb (in_group g p))
    then ret tt
    else when (p_session p &&
               ((subgroup =? -1) || (ref_subgroup g p =? subgroup)))
           (emit (Packet guid opcode data))).

(** ** Frames

    [keeps f m]: whenever [m] succeeds it leaves the part [f] of the world as
    it was. [safe m]: [m] succeeds on every world. *)
Definition keeps {B A} (f : World -> B) (m : M A) : Prop :=
  forall w a w', m w = Ok (a, w') -> f w' = f w.

Section keeps.
Context {B : Type} (f : World -> B).

Lemma keeps_ret {A} (a : A) : keeps f (ret a).
Proof. by intros w b w' [= <- <-]. Qed.
Lemma keeps_throw {A} e : keeps f (@throw A e).
Proof. done. Qed.
Lemma keeps_gets {A} (h : World -> A) : keeps f (gets h).
Proof. by intros w b w' [= <- <-]. Qed.
Lemma keeps_modify h : (forall w, f (h w) = f w) -> keeps f (modify h).
Proof. intros Hh w b w' [= <- <-]. apply Hh. Qed.
Lemma keeps_bind {A C} (m : M A) (k : A -> M C) :
  keeps f m -> (forall a, keeps f (k a)) -> keeps f (bind m k).
Proof.
  intros Hm Hk w c w'. unfold bind. destruct (m w) as [[a w1]|] eqn:E1; [|done].
  intros E2. rewrite (Hk _ _ _ _ E2). by eapply Hm.
Qed.
Lemma keeps_when b m : keeps f m -> keeps f (when b m).
Proof. intros. destruct b; [done|apply keeps_ret]. Qed.
Lemma keeps_for_each {A} (l : list A) (k : A -> M unit) :
  (forall a, keeps f (k a)) -> keeps f (for_each l k).
Proof.
  intros Hk. induction l as [|x l IH]; [apply keeps_ret|]. by apply keeps_bind.
Qed.
Lemma keeps_get_player guid : keeps f (get_player guid).
Proof. intros w p w'. unfold get_player. by destruct (players w !! guid); intros [= <- <-]. Qed.
Lemma keeps_mod_player guid h :
  (forall ps w, f (set_players ps w) = f w) -> keeps f (mod_player guid h).
Proof.
  intros Hf w p w'. unfold mod_player. destruct (players w !! guid); [|done]. by intros [= <- <-].
Qed.
Lemma keeps_if {A} (b : bool) (m1 m2 : M A) : keeps f m1 -> keeps f m2 -> keeps f (if b then m1 else m2).
Proof. by destruct b. Qed.
End keeps.

Create HintDb keeps.
#[export] Hint Resolve keeps_ret keeps_throw keeps_gets keeps_get_player : keeps.

(** Splits a composed operation into its primitive steps. *)
Ltac keeps_step :=
  match goal with
  | |- keeps _ (bind _ _) => apply keeps_bind; [|intros ?]
  | |- keeps _ (when _ _) => apply keeps_when
  | |- keeps _ (for_each _ _) => apply keeps_for_each; intros ?
  | |- keeps _ (modify _) => apply keeps_modify; intros ?; reflexivity
  | |- keeps _ (modg _) => unfold modg
  | |- keeps _ (getg _) => unfold getg
  | |- keeps _ (emit _) => unfold emit
  | |- keeps _ (FindPlayer _) => unfold FindPlayer
  | |- keeps _ (mod_player _ _) => apply keeps_mod_player; intros ??; reflexivity
  | |- keeps _ (if _ then _ else _) => apply keeps_if
  | |- keeps _ (match ?x with _ => _ end) => destruct x
  | |- keeps _ (let '_ := ?x in _) => destruct x
  | _ => solve [eauto with keeps]
  end.
Ltac keeps_tac := repeat (cbv zeta; keeps_step).

(** [total P m]: from a world with [P], [m] succeeds and keeps [P]. *)
Definition total {A} (P : World -> Prop) (m : M A) : Prop :=
  forall w, P w -> exists a w', m w = Ok (a, w') /\ P w'.

Section total.
Context (P : World -> Prop).

Lemma total_ret {A} (a : A) : total P (ret a).
Proof. intros w HP. by exists a, w. Qed.
Lemma total_gets {A} (h : World -> A) : total P (gets h).
Proof. intros w HP. by exists (h w), w. Qed.
Lemma total_modify h : (forall w, P w -> P (h w)) -> total P (modify h).
Proof. intros Hh w HP. exists tt, (h w). auto. Qed.
Lemma total_bind {A C} (m : M A) (k : A -> M C) :
  total P m -> (forall a, total P (k a)) -> total P (bind m k).
Proof.
  intros Hm Hk w HP. unfold bind. destruct (Hm w HP) as (a & w1 & -> & HP1). by apply Hk.
Qed.
Lemma total_when b m : total P m -> total P (when b m).
Proof. intros. destruct b; [done|apply total_ret]. Qed.
Lemma total_for_each {A} (l : list A) (k : A -> M unit) :
  (forall a, total P (k a)) -> total P (for_each l k).
Proof.
  intros Hk. induction l as [|x l IH]; [apply total_ret|]. by apply total_bind.
Qed.
Lemma total_if {A} (b : bool) (m1 m2 : M A) : total P m1 -> total P m2 -> total P (if b then m1 else m2).
Proof. by destruct b. Qed.
End total.

Create HintDb total.
#[export] Hint Resolve total_ret total_gets : total.
Ltac total_step :=
  match goal with
  | |- total _ (bind _ _) => apply total_bind; [|intros ?]
  | |- total _ (when _ _) => apply total_when
  | |- total _ (for_each _ _) => apply total_for_each; intros ?
  | |- total _ (getg _) => unfold getg
  | |- total _ (FindPlayer _) => unfold FindPlayer
  | |- total _ (if _ then _ else _) => apply total_if
  | |- total _ (match ?x with _ => _ end) => destruct x
  | |- total _ (let '_ := ?x in _) => destruct x
  | _ => solve [eauto with total]
  end.
Ltac total_tac := repeat (cbv zeta; total_step).

(** Inversion of the steps of a successful run. *)
Lemma bind_Ok {A B} (m : M A) (k : A -> M B) w b w' :
  bind m k w = Ok (b, w') -> exists a w1, m w = Ok (a, w1) /\ k a w1 = Ok (b, w').
Proof. unfold bind. destruct (m w) as [[a w1]|]; [eauto|done]. Qed.

Lemma for_each_app {A} (l1 l2 : list A) k w :
  for_each (l1 ++ l2) k w = (for_each l1 k ;;; for_each l2 k) w.
Proof.
  revert w. induction l1 as [|x l1 IH]; intros w; [done|]. simpl. unfold bind.
  destruct (k x w) as [[[] w1]|]; [|done]. rewrite IH. unfold bind. done.
Qed.

(** An invariant of the world that each step of a loop preserves. *)
Definition preserves {A} (P : World -> Prop) (m : M A) : Prop :=
  forall w a w', P w -> m w = Ok (a, w') -> P w'.

Lemma preserves_keeps {A B} (f : World -> B) (Q : B -> Prop) (m : M A) :
  keeps f m -> preserves (fun w => Q (f w)) m.
Proof. intros Hk w a w' HQ E. by rewrite (Hk _ _ _ E). Qed.

Lemma preserves_bind {A C} (P : World -> Prop) (m : M A) (k : A -> M C) :
  preserves P m -> (forall a, preserves P (k a)) -> preserves P (bind m k).
Proof. intros Hm Hk w c w' HP (a & w1 & E1 & E2)%bind_Ok. eapply Hk; [|done]. by eapply Hm. Qed.

Lemma preserves_for_each {A} (P : World -> Prop) (l : list A) (k : A -> M unit) :
  (forall a, preserves P (k a)) -> preserves P (for_each l k).
Proof.
  intros Hk. induction l as [|x l IH]; simpl.
  - by intros w a w' HP [= <- <-].
  - apply preserves_bind; auto.
Qed.

(** ** A sample world

    Three players of a party, on which the properties are evaluated. *)
Definition sample_player (name : string) (group : option (Z * Z)) : Player :=
  mkPlayer name group None None true true 0 80 0 0 0 0 true false false true false [[]; []; []; []].

Definition sample_slot (guid : Z) (name : string) : MemberSlot := mkSlot guid name 0 0 0.

Definition sample_env : Env := mkEnv 3 {[1 := "Anna"; 2 := "Bert"; 3 := "Cora"]}
  (fun _ _ => true) (fun _ _ => true) (fun _ _ => true) (fun _ _ => true) (fun _ _ => true)
  (fun _ _ _ _ => 0) (fun _ _ _ => 0) {[500 := mkTemplate 3 0 0 0]}
  (fun n => 1 + (Z.of_nat n * 37 + 11) mod 100) (fun _ => false) (fun _ => 0) (fun _ => 0)
  {[0 := mkMapEntry false false 0]} ∅ (fun _ d => d) (fun _ => true) (fun _ _ _ => true) (fun _ _ => false) (fun _ => false)
  (fun _ => false) (fun _ => 0) (fun _ => Some true) (fun _ => 0).

Definition sample_guid := MAKE_NEW_GUID 1 0 HIGHGUID_GROUP.

Definition sample_group (rolls : list Roll) : Group :=
  mkGroup [sample_slot 1 "Anna"; sample_slot 2 "Bert"; sample_slot 3 "Cora"] [3; 2; 1] [] 1 "Anna"
    0 0 0 None None (replicate 8 0) 3 2 1 rolls [[]; []; []; []] None sample_guid 0 0 1.

Definition sample_world (rolls : list Roll) : World :=
  mkWorld (sample_group rolls)
    {[1 := sample_player "Anna" (Some (sample_guid, 0)); 2 := sample_player "Bert" (Some (sample_guid, 0));
      3 := sample_player "Cora" (Some (sample_guid, 0))]}
    (GroupMgr.RegisterGroupDbStoreId 1 sample_guid GroupMgr.new_mgr)
    {[7 := mkLoot [mkLootItem 500 0 0 1 false true false false true []] [] 1 []]} 0 1 false [].

End GroupState.
