(* ===== verification/Roll.v ===== *)
(** * Roll: group loot rolls of [Groups/Group.cpp]

    Starting the rolls for a loot ([GroupLoot], [NeedBeforeGreed],
    [MasterLoot]), the players' votes ([CountRollVote]), the evaluation
    ([CountTheRoll], [EndRoll]) and what the removal of a member and the
    destruction of a loot do to the rolls. A roll is addressed by its index in
    [RollId]; random numbers come from the environment's [urand]. *)
From S2P Require Import Prelude OrderedMap GroupMgr GroupState.
#[global] Open Scope Z_scope.

Module Roll.
Import GroupState.

Definition ROLL_PASS := 0.
Definition ROLL_NEED := 1.
Definition ROLL_GREED := 2.
Definition ROLL_DISENCHANT := 3.
Definition MAX_ROLL_TYPE := 4.
Definition ROLL_FLAG_TYPE_NEED := 0x02.
Definition ROLL_FLAG_TYPE_DISENCHANT := 0x08.
Definition ROLL_ALL_TYPE_NO_DISENCHANT := 0x07.
Definition ITEM_FLAGS_EXTRA_NEED_ROLL_DISABLED := 0x100.

(** ** Field updates *)

Definition set_tallies (votes : list (Z * RollVote)) (rolling need greed pass : Z) (r : Roll) : Roll :=
  mkRoll (itemGUID r) (r_itemid r) (r_randomPropId r) (r_randomSuffix r) (r_count r) votes
    rolling need greed pass (itemSlot r) (rollVoteMask r) (roll_loot r).
Definition set_slot (slot mask : Z) (loot : option Z) (r : Roll) : Roll :=
  mkRoll (itemGUID r) (r_itemid r) (r_randomPropId r) (r_randomSuffix r) (r_count r) (playerVote r)
    (totalPlayersRolling r) (totalNeed r) (totalGreed r) (totalPass r) slot mask loot.

Definition looted_item (i : LootItem) : LootItem :=
  mkLootItem (li_itemid i) (li_randomSuffix i) (li_randomPropertyId i) (li_count i) true
    (is_blocked i) (freeforall i) (is_underthreshold i) (follow_loot_rules i) (allowedGUIDs i).
Definition block_item (b : bool) (i : LootItem) : LootItem :=
  mkLootItem (li_itemid i) (li_randomSuffix i) (li_randomPropertyId i) (li_count i) (is_looted i)
    b (freeforall i) (is_underthreshold i) (follow_loot_rules i) (allowedGUIDs i).
Definition underthreshold_item (i : LootItem) : LootItem :=
  mkLootItem (li_itemid i) (li_randomSuffix i) (li_randomPropertyId i) (li_count i) (is_looted i)
    (is_blocked i) (freeforall i) true (follow_loot_rules i) (allowedGUIDs i).

(** [Roll::Roll(_guid, li)]. *)
Definition new_roll (guid : Z) (li : LootItem) : Roll :=
  mkRoll guid (li_itemid li) (li_randomPropertyId li) (li_randomSuffix li) (li_count li) []
    0 0 0 0 0 ROLL_ALL_TYPE_NO_DISENCHANT None.

Definition set_roll (i : nat) (r : Roll) : M unit :=
  modg (fun g => GroupState.set_RollId (<[i := r]> (RollId g)) g).
Definition erase_roll (i : nat) : M unit :=
  modg (fun g => GroupState.set_RollId (delete i (RollId g)) g).

Definition get_loot (id : Z) : M Loot := fun w =>
  match loots w !! id with Some l => Ok (l, w) | None => Throw NullPointer end.
Definition put_loot (id : Z) (l : Loot) : M unit :=
  modify (fun w => set_loots (<[id := l]> (loots w)) w).

(** The item of a roll's slot: among the items, or past them among the quest
    items. *)
Definition slot_item (l : Loot) (slot : Z) : option LootItem :=
  if Z.of_nat (length (items l)) <=? slot
  then quest_items l !! Z.to_nat (slot - Z.of_nat (length (items l)))
  else items l !! Z.to_nat slot.
Definition update_item (f : LootItem -> LootItem) (slot : Z) (l : Loot) : Loot :=
  if Z.of_nat (length (items l)) <=? slot
  then mkLoot (items l) (alter f (Z.to_nat (slot - Z.of_nat (length (items l)))) (quest_items l))
         (unlootedCount l) (PlayersLooting l)
  else mkLoot (alter f (Z.to_nat slot) (items l)) (quest_items l) (unlootedCount l) (PlayersLooting l).

Definition get_slot_item (id slot : Z) : M LootItem :=
  l <- get_loot id ;;
  match slot_item l slot with Some i => ret i | None => throw OutOfBounds end.
Definition mod_slot_item (f : LootItem -> LootItem) (id slot : Z) : M unit :=
  l <- get_loot id ;; put_loot id (update_item f slot l).

(** ** Packets *)

(** The loop over the votes that sends a packet to each online voter whose
    vote satisfies [sel]. *)
Definition send_to_voters (sel : RollVote -> bool) (opcode : string) (data : list field) (r : Roll)
    : M unit :=
  for_each (playerVote r) (fun gv =>
    p <- FindPlayer gv.1 ;;
    match p with
    | Some p => when (p_session p && sel gv.2) (emit (Packet gv.1 opcode data))
    | None => ret tt
    end).

Definition not_valid (v : RollVote) : bool := bool_decide (v = NOT_VALID).

Definition start_roll_data (CountDown mapid mask : Z) (r : Roll) : list field :=
  [U64 (itemGUID r); U32 mapid; U32 (itemSlot r); U32 (r_itemid r); U32 (r_randomSuffix r);
   U32 (u32 (r_randomPropId r)); U32 (r_count r); U32 CountDown; U8 mask].

Definition SendLootStartRoll (CountDown mapid : Z) (r : Roll) : M unit :=
  send_to_voters (fun v => bool_decide (v = NOT_EMITED_YET)) "SMSG_LOOT_START_ROLL"
    (start_roll_data CountDown mapid (rollVoteMask r) r) r.

Definition SendLootStartRollToPlayer (countDown mapId : Z) (guid : Z) (canNeed : bool) (r : Roll)
    : M unit :=
  p <- get_player guid ;;
  when (p_session p)
    (emit (Packet guid "SMSG_LOOT_START_ROLL" (start_roll_data countDown mapId
       (if canNeed then rollVoteMask r else u8 (Z.ldiff (rollVoteMask r) ROLL_FLAG_TYPE_NEED)) r))).

Definition SendLootRoll (sourceGuid targetGuid rollNumber rollType : Z) (r : Roll) : M unit :=
  send_to_voters (fun v => negb (not_valid v)) "SMSG_LOOT_ROLL"
    [U64 sourceGuid; U32 (itemSlot r); U64 targetGuid; U32 (r_itemid r); U32 (r_randomSuffix r);
     U32 (u32 (r_randomPropId r)); U8 rollNumber; U8 rollType; U8 0] r.

Definition SendLootRollWon (sourceGuid targetGuid rollNumber rollType : Z) (r : Roll) : M unit :=
  send_to_voters (fun v => negb (not_valid v)) "SMSG_LOOT_ROLL_WON"
    [U64 sourceGuid; U32 (itemSlot r); U32 (r_itemid r); U32 (r_randomSuffix r);
     U32 (u32 (r_randomPropId r)); U64 targetGuid; U8 rollNumber; U8 rollType] r.

Definition SendLootAllPassed (r : Roll) : M unit :=
  send_to_voters (fun v => negb (not_valid v)) "SMSG_LOOT_ALL_PASSED"
    [U64 (itemGUID r); U32 (itemSlot r); U32 (r_itemid r); U32 (u32 (r_randomPropId r));
     U32 (r_randomSuffix r)] r.

(** [SendLooter]; the packed guid is sent as the guid. *)
Definition SendLooter (creature : Z) (groupLooter : option Z) : M unit :=
  BroadcastPacket "SMSG_LOOT_LIST"
    [U64 creature; U8 0; match groupLooter with Some p => U64 p | None => U8 0 end] false (-1) 0.

Section rolls.
Context (E : Env).

(** ** Starting rolls *)

(** The loop over the linked members: who may roll, and who passes at once when
    [pass_option] is consulted. *)
Fixpoint gather (li : LootItem) (object : Z) (pass_option : bool) (members : list Z) (r : Roll)
    : M Roll :=
  match members with
  | [] => ret r
  | guid :: members =>
      p <- get_player guid ;;
      if p_session p && AllowedForPlayer E li guid && IsWithinDistInMap E guid object then
        let rolling := u8 (totalPlayersRolling r + 1) in
        if pass_option && p_passOnLoot p
        then gather li object pass_option members
               (set_tallies (map_set guid PASS (playerVote r)) rolling (totalNeed r) (totalGreed r)
                  (u8 (totalPass r + 1)) r)
        else gather li object pass_option members
               (set_tallies (map_set guid NOT_EMITED_YET (playerVote r)) rolling (totalNeed r)
                  (totalGreed r) (totalPass r) r)
      else gather li object pass_option members r
  end.

Definition new_item_guid : M Z := fun w =>
  Ok (MAKE_NEW_GUID (item_guids w) 0 HIGHGUID_ITEM, set_item_guids (item_guids w + 1) w).

(** The loot timer of the creature or object that was looted. *)
Definition set_loot_timer (object : Z) : M unit :=
  g <- getg id ;;
  match looted_kind E object with
  | Some _ => emit (Call object "m_groupLootTimer, lootingGroupLowGUID" [60000; GUID_LOPART (m_guid g)])
  | None => ret tt
  end.

Definition push_roll (r : Roll) : M unit :=
  modg (fun g => GroupState.set_RollId (RollId g ++ [r]) g).

(** The roll mask of an item of the loot. *)
Definition roll_mask (nbg : bool) (t : ItemTemplate) (maxEnchanting mask : Z) : Z :=
  let mask := if negb (DisenchantID t =? 0) && (RequiredDisenchantSkill t <=? maxEnchanting)
              then Z.lor mask ROLL_FLAG_TYPE_DISENCHANT else mask in
  if nbg && has (Flags2 t) ITEM_FLAGS_EXTRA_NEED_ROLL_DISABLED
  then u8 (Z.ldiff mask ROLL_FLAG_TYPE_NEED) else mask.

(** The announcement of a roll: automatic passes and the start of the roll,
    vote by vote under need before greed. *)
Definition announce (nbg : bool) (newitemGUID object : Z) (r : Roll) : M unit :=
  if nbg then
    for_each (playerVote r) (fun gv =>
      p <- FindPlayer gv.1 ;;
      match p with
      | Some p =>
          if p_session p then
            if bool_decide (gv.2 = PASS) then SendLootRoll newitemGUID gv.1 128 ROLL_PASS r
            else SendLootStartRollToPlayer 60000 (GetMapId E object) gv.1
                   (CanRollForItemInLFG E (r_itemid r) gv.1 object =? 0) r
          else ret tt
      | None => ret tt
      end)
  else
    (when (0 <? totalPass r)
      (for_each (playerVote r) (fun gv =>
        p <- FindPlayer gv.1 ;;
        match p with
        | Some p => when (p_session p && bool_decide (gv.2 = PASS))
                      (SendLootRoll newitemGUID gv.1 128 ROLL_PASS r)
        | None => ret tt
        end))) ;;;
    SendLootStartRoll 60000 (GetMapId E object) r.

(** One item of the loot: [nbg] tells [NeedBeforeGreed] from [GroupLoot]. A
    missing template is skipped by the one and dereferenced by the other. *)
Definition roll_item (nbg : bool) (lootId object : Z) (slot : nat) : M unit :=
  l <- get_loot lootId ;;
  match items l !! slot with
  | None => throw OutOfBounds
  | Some li =>
      if freeforall li then ret tt
      else match item_templates E !! li_itemid li with
      | None => if nbg then throw NullPointer else ret tt
      | Some t =>
          g <- getg id ;;
          if m_lootThreshold g <=? Quality t then
            guid <- new_item_guid ;;
            r <- gather li object true (m_memberMgr g) (new_roll guid li) ;;
            if 0 <? totalPlayersRolling r then
              let r := set_slot (u8 (Z.of_nat slot))
                         (roll_mask nbg t (m_maxEnchantingLevel g) (rollVoteMask r)) (Some lootId) r in
              mod_slot_item (block_item true) lootId (Z.of_nat slot) ;;;
              announce nbg guid object r ;;;
              push_roll r ;;;
              set_loot_timer object
            else ret tt
          else mod_slot_item underthreshold_item lootId (Z.of_nat slot)
      end
  end.

(** One quest item; nobody passes automatically on these. *)
Definition roll_quest_item (nbg : bool) (lootId object : Z) (index : nat) : M unit :=
  l <- get_loot lootId ;;
  match quest_items l !! index with
  | None => throw OutOfBounds
  | Some li =>
      if negb (follow_loot_rules li) then ret tt
      else match item_templates E !! li_itemid li, nbg with
      | None, false => ret tt
      | _, _ =>
          g <- getg id ;;
          guid <- new_item_guid ;;
          r <- gather li object false (m_memberMgr g) (new_roll guid li) ;;
          if 0 <? totalPlayersRolling r then
            let slot := Z.of_nat (length (items l)) + Z.of_nat index in
            let r := set_slot (u8 slot) (rollVoteMask r) (Some lootId) r in
            mod_slot_item (block_item true) lootId slot ;;;
            (if nbg then announce true guid object r
             else SendLootStartRoll 60000 (GetMapId E object) r) ;;;
            push_roll r ;;;
            set_loot_timer object
          else ret tt
      end
  end.

Definition start_rolls (nbg : bool) (lootId object : Z) : M unit :=
  l <- get_loot lootId ;;
  for_each (seq 0 (length (items l))) (roll_item nbg lootId object) ;;;
  for_each (seq 0 (length (quest_items l))) (roll_quest_item nbg lootId object).

Definition GroupLoot : Z -> Z -> M unit := start_rolls false.
Definition NeedBeforeGreed : Z -> Z -> M unit := start_rolls true.

(** [MasterLoot]: the linked members near the object. *)
Definition MasterLoot (object : Z) : M unit :=
  members <- getg m_memberMgr ;;
  ps <- gets players ;;
  let near := filter (fun guid => IsWithinDistInMap E guid object = true) members in
  let listed := filter (fun guid => match ps !! guid with Some p => p_inWorld p | None => false end = true)
                  near in
  for_each near (fun guid =>
    p <- get_player guid ;;
    if p_session p
    then emit (Packet guid "SMSG_LOOT_MASTER_LIST" (U8 (u8 (Z.of_nat (length listed))) :: (U64 <$> listed)))
    else throw NullPointer).

(** ** Evaluation *)

Definition draw : M Z := fun w => Ok (urand E (urands w), set_urands (S (urands w)) w).

(** The loop over the votes: each selected vote rolls; the first of the highest
    rolls wins. *)
Fixpoint roll_loop (sel : RollVote -> bool) (r : Roll) (votes : list (Z * RollVote))
    (maxresul maxguid : Z) (rollvote : RollVote) : M (Z * Z * RollVote) :=
  match votes with
  | [] => ret (maxresul, maxguid, rollvote)
  | (guid, v) :: votes =>
      if negb (sel v) then roll_loop sel r votes maxresul maxguid rollvote
      else
        n <- draw ;;
        let randomN := u8 n in
        SendLootRoll 0 guid randomN (vote_code v) r ;;;
        if maxresul <? randomN then roll_loop sel r votes randomN guid v
        else roll_loop sel r votes maxresul maxguid rollvote
  end.

(** [Loot::NotifyItemRemoved]: players that left are dropped from the set. *)
Definition NotifyItemRemoved (id lootIndex : Z) : M unit :=
  l <- get_loot id ;;
  for_each (PlayersLooting l) (fun guid =>
    p <- FindPlayer guid ;;
    match p with
    | Some _ => emit (Call guid "SendNotifyLootItemRemoved" [lootIndex])
    | None => l <- get_loot id ;;
              put_loot id (mkLoot (items l) (quest_items l) (unlootedCount l)
                             (filter (fun x => x <> guid) (PlayersLooting l)))
    end).

(** [is_looted], the notification, and the count of items left. *)
Definition take_item (id slot : Z) : M unit :=
  mod_slot_item looted_item id slot ;;;
  NotifyItemRemoved id slot ;;;
  l <- get_loot id ;;
  put_loot id (mkLoot (items l) (quest_items l) (u8 (unlootedCount l - 1)) (PlayersLooting l)).

(** The won item goes to the winner's bags, or is unblocked with an error. *)
Definition store_won (r : Roll) (id winner : Z) : M unit :=
  li <- get_slot_item id (itemSlot r) ;;
  history <- gets trace ;;
  let msg := canStore E history winner (r_itemid r) (li_count li) in
  if msg =? 0 then
    take_item id (itemSlot r) ;;;
    emit (Call winner "StoreNewItem"
            (r_itemid r :: li_count li :: li_randomPropertyId li :: allowedGUIDs li))
  else
    mod_slot_item (block_item false) id (itemSlot r) ;;;
    emit (Call winner "SendEquipError" [msg; r_itemid r]).

Definition disenchant_won (r : Roll) (id winner : Z) : M unit :=
  (* the pointer to the item is taken before *)
  _ <- get_slot_item id (itemSlot r) ;;
  take_item id (itemSlot r) ;;;
  match item_templates E !! r_itemid r with
  | None => throw NullPointer
  | Some t =>
      emit (Call winner "AutoStoreLoot" [DisenchantID t]) ;;;
      emit (Call winner "UpdateAchievementCriteria" [29; 13262])
  end.

(** What follows the loop of an award branch: the result is sent, and a winner
    who is online gets the item. *)
Definition settle (need : bool) (r : Roll) (id : Z) (res : Z * Z * RollVote) : M unit :=
  let '(maxresul, maxguid, rollvote) := res in
  SendLootRollWon 0 maxguid maxresul (if need then ROLL_NEED else vote_code rollvote) r ;;;
  p <- FindPlayer maxguid ;;
  match p with
  | None => ret tt
  | Some p =>
      if negb (p_session p) then ret tt
      else
        emit (Call maxguid "UpdateAchievementCriteria"
                [if need then 50 else 51; r_itemid r; maxresul]) ;;;
        if need then store_won r id maxguid
        else match rollvote with
             | GREED => store_won r id maxguid
             | DISENCHANT => disenchant_won r id maxguid
             | _ => _ <- get_slot_item id (itemSlot r) ;; ret tt
             end
  end.

(** The votes that roll in the need and in the greed branch. *)
Definition contends (need : bool) (v : RollVote) : bool :=
  if need then bool_decide (v = NEED) else bool_decide (v = GREED) || bool_decide (v = DISENCHANT).

(** One of the two award branches of [CountTheRoll]. *)
Definition award (need : bool) (r : Roll) (id : Z) : M unit :=
  match playerVote r with
  | [] => ret tt
  | (first, _) :: _ =>
      res <- roll_loop (contends need) r (playerVote r) 0 first NOT_VALID ;;
      settle need r id res
  end.

Definition CountTheRoll (i : nat) : M unit :=
  rolls <- getg RollId ;;
  match rolls !! i with
  | None => throw OutOfBounds
  | Some r =>
      match roll_loot r with
      | None => erase_roll i
      | Some id =>
          (if 0 <? totalNeed r then award true r id
           else if 0 <? totalGreed r then award false r id
           else
             SendLootAllPassed r ;;;
             _ <- get_slot_item id (itemSlot r) ;;
             mod_slot_item (block_item false) id (itemSlot r)) ;;;
          erase_roll i
      end
  end.

(** ** Votes *)

(** [GetRoll]: the first valid roll for the item. *)
Fixpoint GetRoll (guid : Z) (l : list Roll) : option nat :=
  match l with
  | [] => None
  | r :: l =>
      if (itemGUID r =? guid) && match roll_loot r with Some _ => true | None => false end
      then Some O else S <$> GetRoll guid l
  end.

(** The switch on the choice: the packet's fields and the roll with the vote. *)
Definition cast (playerGUID choice : Z) (r : Roll) : option (Z * Z * Roll) :=
  let vote v := map_set playerGUID v (playerVote r) in
  if choice =? ROLL_PASS then
    Some (128, ROLL_PASS, set_tallies (vote PASS) (totalPlayersRolling r) (totalNeed r) (totalGreed r)
                            (u8 (totalPass r + 1)) r)
  else if choice =? ROLL_NEED then
    Some (0, 0, set_tallies (vote NEED) (totalPlayersRolling r) (u8 (totalNeed r + 1)) (totalGreed r)
                  (totalPass r) r)
  else if choice =? ROLL_GREED then
    Some (128, ROLL_GREED, set_tallies (vote GREED) (totalPlayersRolling r) (totalNeed r)
                             (u8 (totalGreed r + 1)) (totalPass r) r)
  else if choice =? ROLL_DISENCHANT then
    Some (128, ROLL_DISENCHANT, set_tallies (vote DISENCHANT) (totalPlayersRolling r) (totalNeed r)
                                  (u8 (totalGreed r + 1)) (totalPass r) r)
  else None.

Definition all_voted (r : Roll) : bool :=
  totalPlayersRolling r <=? totalPass r + totalNeed r + totalGreed r.

Definition CountRollVote (playerGUID guid choice : Z) : M unit :=
  rolls <- getg RollId ;;
  match GetRoll guid rolls with
  | None => ret tt
  | Some i =>
      match rolls !! i with
      | None => throw OutOfBounds
      | Some r =>
          match map_find playerGUID (playerVote r), roll_loot r with
          | None, _ => ret tt
          | Some _, None => throw NullPointer
          | Some _, Some id =>
              l <- get_loot id ;;
              match items l with
              | [] => ret tt
              | _ =>
                  r <- (match cast playerGUID choice r with
                        | Some (number, type, r') =>
                            SendLootRoll 0 playerGUID number type r ;;; set_roll i r' ;;; ret r'
                        | None => ret r
                        end) ;;
                  when (all_voted r) (CountTheRoll i)
              end
          end
      end
  end.

(** [EndRoll]: each round evaluates the first roll of the loot, which removes
    it, so one round more than there are rolls ends the loop. *)
Fixpoint loot_index (id : Z) (l : list Roll) : option nat :=
  match l with
  | [] => None
  | r :: l => if bool_decide (roll_loot r = Some id) then Some O else S <$> loot_index id l
  end.

Fixpoint EndRoll_loop (fuel : nat) (id : Z) : M unit :=
  match fuel with
  | O => throw OutOfFuel
  | S fuel =>
      rolls <- getg RollId ;;
      match loot_index id rolls with
      | None => ret tt
      | Some i => CountTheRoll i ;;; EndRoll_loop fuel id
      end
  end.
Definition EndRoll (id : Z) : M unit :=
  rolls <- getg RollId ;; EndRoll_loop (S (length rolls)) id.

(** The part of [RemoveMember] on the rolls: the member's vote is taken out of
    the tallies and erased, then counted as a vote of no type. *)
Definition withdraw (guid : Z) (v : RollVote) (r : Roll) : Roll :=
  let need := if bool_decide (v = NEED) then u8 (totalNeed r - 1) else totalNeed r in
  let greed := if bool_decide (v = GREED) || bool_decide (v = DISENCHANT)
               then u8 (totalGreed r - 1) else totalGreed r in
  let pass := if bool_decide (v = PASS) then u8 (totalPass r - 1) else totalPass r in
  let rolling := if bool_decide (v <> NOT_VALID) then u8 (totalPlayersRolling r - 1)
                 else totalPlayersRolling r in
  set_tallies (map_erase guid (playerVote r)) rolling need greed pass r.

Definition remove_from_roll (guid : Z) (i : nat) : M unit :=
  rolls <- getg RollId ;;
  match rolls !! i with
  | None => throw OutOfBounds
  | Some r =>
      match map_find guid (playerVote r) with
      | None => ret tt
      | Some v =>
          set_roll i (withdraw guid v r) ;;;
          CountRollVote guid (itemGUID r) MAX_ROLL_TYPE
      end
  end.
Definition remove_from_rolls (guid : Z) : M unit :=
  rolls <- getg RollId ;; for_each (seq 0 (length rolls)) (remove_from_roll guid).

(** [Loot::clear] as far as rolls see it: the items are gone and every link to
    the loot is cut. *)
Definition loot_clear (id : Z) : M unit :=
  l <- get_loot id ;;
  put_loot id (mkLoot [] [] 0 []) ;;;
  modg (fun g => GroupState.set_RollId
    ((fun r => if bool_decide (roll_loot r = Some id)
               then set_slot (itemSlot r) (rollVoteMask r) None r else r) <$> RollId g) g).

(** [WorldSession::HandleLootRoll]. *)
Definition HandleLootRoll (player guid rollType : Z) : M unit :=
  p <- get_player player ;;
  g <- getg id ;;
  if negb (in_group g p) then ret tt
  else
    CountRollVote player guid rollType ;;;
    if rollType =? ROLL_NEED then emit (Call player "UpdateAchievementCriteria" [93; 1])
    else if rollType =? ROLL_GREED then emit (Call player "UpdateAchievementCriteria" [94; 1])
    else ret tt.
End rolls.

(** ** Tallies *)

Definition count (sel : RollVote -> bool) (votes : list (Z * RollVote)) : Z :=
  map_sum (fun _ v => if sel v then 1 else 0) votes.
Definition is_vote (v v' : RollVote) : bool := bool_decide (v' = v).

(** The tallies of a roll are the numbers of its votes of each kind. *)
Record tally_ok (r : Roll) : Prop := {
  tally_sorted : map_sorted (playerVote r);
  tally_size : (length (playerVote r) < 128)%nat;
  tally_need : totalNeed r = count (is_vote NEED) (playerVote r);
  tally_greed : totalGreed r = count (contends false) (playerVote r);
  tally_pass : totalPass r = count (is_vote PASS) (playerVote r);
  tally_rolling : totalPlayersRolling r = count (fun v => negb (not_valid v)) (playerVote r)
}.

Definition rolls_ok (w : World) : Prop := Forall tally_ok (RollId (group w)).

Lemma send_to_voters_keeps {B} (f : World -> B) sel op d r :
  (forall t w, f (set_trace t w) = f w) -> keeps f (send_to_voters sel op d r).
Proof. intros Hf. unfold send_to_voters. keeps_tac. apply keeps_modify. auto. Qed.

Lemma get_loot_keeps {B} (f : World -> B) id : keeps f (get_loot id).
Proof. intros w l w'. unfold get_loot. by destruct (loots w !! id); intros [= <- <-]. Qed.
#[local] Hint Resolve get_loot_keeps : keeps.

Lemma put_loot_keeps id l : keeps group (put_loot id l).
Proof. unfold put_loot. keeps_tac. Qed.
#[local] Hint Resolve put_loot_keeps : keeps.

Lemma SendLootRoll_keeps s t n ty r : keeps group (SendLootRoll s t n ty r).
Proof. by apply send_to_voters_keeps. Qed.
#[local] Hint Resolve SendLootRoll_keeps : keeps.

Lemma mod_slot_item_keeps f id slot : keeps group (mod_slot_item f id slot).
Proof. unfold mod_slot_item. keeps_tac. Qed.
Lemma get_slot_item_keeps {B} (f : World -> B) id slot : keeps f (get_slot_item id slot).
Proof. unfold get_slot_item. keeps_tac. Qed.
#[local] Hint Resolve mod_slot_item_keeps get_slot_item_keeps : keeps.

Section frames.
Context (E : Env).

Lemma draw_keeps : keeps group (draw E).
Proof. by intros w a w' [= <- <-]. Qed.
#[local] Hint Resolve draw_keeps : keeps.

Lemma roll_loop_keeps sel r votes m g v : keeps group (roll_loop E sel r votes m g v).
Proof. revert m g v. induction votes as [|[guid x] votes IH]; intros m g v; simpl; keeps_tac. Qed.

Lemma take_item_keeps id slot : keeps group (take_item id slot).
Proof. unfold take_item, NotifyItemRemoved. keeps_tac. Qed.
#[local] Hint Resolve roll_loop_keeps take_item_keeps : keeps.

Lemma store_won_keeps r id g : keeps group (store_won E r id g).
Proof. unfold store_won. keeps_tac. Qed.
Lemma disenchant_won_keeps r id g : keeps group (disenchant_won E r id g).
Proof. unfold disenchant_won. keeps_tac. Qed.
#[local] Hint Resolve store_won_keeps disenchant_won_keeps : keeps.

Lemma settle_keeps need r id res : keeps group (settle E need r id res).
Proof.
  unfold settle, SendLootRollWon. destruct res as [[m g] v].
  apply keeps_bind; [by apply send_to_voters_keeps|intros _]. keeps_tac.
Qed.
#[local] Hint Resolve settle_keeps : keeps.

Lemma award_keeps need r id : keeps group (award E need r id).
Proof. unfold award. keeps_tac. Qed.

(** [CountTheRoll] removes the roll from the group and changes nothing else of
    it. *)
Lemma CountTheRoll_group i w u w' :
  CountTheRoll E i w = Ok (u, w') ->
  group w' = GroupState.set_RollId (delete i (RollId (group w))) (group w).
Proof.
  unfold CountTheRoll. intros (rolls & w1 & [= <- <-] & H)%bind_Ok.
  destruct (RollId (group w) !! i) as [r|]; [|done].
  destruct (roll_loot r) as [id|]; [|by injection H as <- <-].
  apply bind_Ok in H as (a & w2 & H1 & [= <- <-]). simpl.
  assert (keeps group (if 0 <? totalNeed r then award E true r id
           else if 0 <? totalGreed r then award E false r id
           else SendLootAllPassed r ;;; _ <- get_slot_item id (itemSlot r) ;;
             mod_slot_item (block_item false) id (itemSlot r))) as Hk.
  { apply keeps_if; [apply award_keeps|]. apply keeps_if; [apply award_keeps|].
    apply keeps_bind; [by apply send_to_voters_keeps|intros _]. keeps_tac. }
  by rewrite (Hk _ _ _ H1).
Qed.

(** [CountRollVote] rewrites at most the roll it finds, and may remove it. *)
Lemma CountRollVote_group player guid choice w u w' :
  CountRollVote E player guid choice w = Ok (u, w') ->
  group w' = group w \/
  exists i r r', GetRoll guid (RollId (group w)) = Some i /\ RollId (group w) !! i = Some r /\
    is_Some (map_find player (playerVote r)) /\
    r' = (match cast player choice r with Some (_, _, r') => r' | None => r end) /\
    let l := <[i := r']> (RollId (group w)) in
    group w' = GroupState.set_RollId (if all_voted r' then delete i l else l) (group w).
Proof.
  unfold CountRollVote. intros (rolls & w1 & [= <- <-] & H)%bind_Ok.
  destruct (GetRoll guid (RollId (group w))) as [i|] eqn:Hi; [|injection H as <- <-; by left].
  destruct (RollId (group w) !! i) as [r|] eqn:Hr; [|done].
  destruct (map_find player (playerVote r)) as [v|] eqn:Hv; [|injection H as <- <-; by left].
  destruct (roll_loot r) as [id|]; [|done].
  apply bind_Ok in H as (l & w1 & H1 & H). pose proof (get_loot_keeps group id _ _ _ H1) as G1.
  destruct (items l); [injection H as <- <-; by left|].
  apply bind_Ok in H as (r' & w2 & H2 & H). right. exists i, r, r'.
  assert (G2 : r' = (match cast player choice r with Some (_, _, r') => r' | None => r end) /\
    group w2 = GroupState.set_RollId (<[i := r']> (RollId (group w))) (group w)).
  { destruct (cast player choice r) as [[[n t] r1]|].
    - apply bind_Ok in H2 as (? & w3 & H2 & H3). apply bind_Ok in H3 as (? & w4 & H3 & [= <- <-]).
      injection H3 as <- <-. split; [done|]. simpl.
      rewrite (SendLootRoll_keeps _ _ _ _ _ _ _ _ H2), G1. done.
    - injection H2 as <- <-. split; [done|]. rewrite list_insert_id by done. rewrite G1.
      by destruct (group w). }
  destruct G2 as [-> G2]. split_and!; [done|done|by eexists|done|]. cbv zeta.
  destruct (all_voted _).
  - apply CountTheRoll_group in H. rewrite H, G2. done.
  - injection H as <- <-. done.
Qed.
End frames.

(** ** Counting votes *)

Definition ind (sel : RollVote -> bool) (v : RollVote) : Z := if sel v then 1 else 0.
Definition old_ind (sel : RollVote -> bool) (o : option RollVote) : Z :=
  match o with Some v => ind sel v | None => 0 end.

Lemma count_set sel p v votes :
  map_sorted votes ->
  count sel (map_set p v votes) = count sel votes + ind sel v - old_ind sel (map_find p votes).
Proof. intros. unfold count. by rewrite map_sum_set. Qed.

Lemma count_erase sel p votes :
  map_sorted votes ->
  count sel (map_erase p votes) = count sel votes - old_ind sel (map_find p votes).
Proof. intros. unfold count. by rewrite map_sum_erase. Qed.

Lemma count_range sel votes : 0 <= count sel votes <= Z.of_nat (length votes).
Proof.
  unfold count. induction votes as [|[p v] votes IH]; simpl; [lia|]. destruct (sel v); lia.
Qed.

Lemma count_pos sel p v votes : map_find p votes = Some v -> sel v = true -> 1 <= count sel votes.
Proof.
  unfold count. induction votes as [|[q u] votes IH]; simpl; [done|]. intros Hf Hs.
  pose proof (count_range sel votes) as Hr. unfold count in Hr.
  destruct (p =? q); [simplify_eq; rewrite Hs; lia|]. specialize (IH Hf Hs). destruct (sel u); lia.
Qed.

Lemma count_zero sel votes : count sel votes = 0 <-> Forall (fun gv => sel gv.2 = false) votes.
Proof.
  induction votes as [|[p v] votes IH]; [by split|].
  pose proof (count_range sel votes) as Hr. rewrite Forall_cons, <- IH.
  change (count sel ((p, v) :: votes)) with ((if sel v then 1 else 0) + count sel votes). simpl.
  destruct (sel v); split; intros H;
    first [lia | by destruct H | split; [done|lia] | destruct H; lia].
Qed.

(** Every vote is of exactly one kind. *)
Lemma count_kinds votes :
  count (fun v => negb (not_valid v)) votes =
    count (is_vote NEED) votes + count (contends false) votes + count (is_vote PASS) votes +
    count (is_vote NOT_EMITED_YET) votes.
Proof.
  unfold count. induction votes as [|[p v] votes IH]; [done|]. cbn [map_sum foldr snd fst] in *.
  unfold map_sum in IH. rewrite IH. destruct v; simpl; lia.
Qed.

Lemma tally_bound r sel : tally_ok r -> 0 <= count sel (playerVote r) < 128.
Proof. intros H. pose proof (count_range sel (playerVote r)). pose proof (tally_size r H). lia. Qed.

(** The roll is complete exactly when no valid vote is missing. *)
Lemma all_voted_ok r :
  tally_ok r -> all_voted r = (count (is_vote NOT_EMITED_YET) (playerVote r) =? 0).
Proof.
  intros [_ _ H1 H2 H3 H4]. unfold all_voted. rewrite H1, H2, H3, H4, count_kinds.
  pose proof (count_range (is_vote NOT_EMITED_YET) (playerVote r)).
  destruct (Z.leb_spec (count (is_vote NEED) (playerVote r) + count (contends false) (playerVote r) +
    count (is_vote PASS) (playerVote r) + count (is_vote NOT_EMITED_YET) (playerVote r))
    (count (is_vote PASS) (playerVote r) + count (is_vote NEED) (playerVote r) +
     count (contends false) (playerVote r))); symmetry; [apply Z.eqb_eq|apply Z.eqb_neq]; lia.
Qed.

(** The vote a choice stands for. *)
Definition vote_of (choice : Z) : RollVote :=
  if choice =? 0 then PASS else if choice =? 1 then NEED else if choice =? 2 then GREED
  else DISENCHANT.

Lemma cast_ok p choice r :
  tally_ok r -> map_find p (playerVote r) = Some NOT_EMITED_YET -> 0 <= choice < MAX_ROLL_TYPE ->
  exists n t r', cast p choice r = Some (n, t, r') /\ tally_ok r' /\
    playerVote r' = map_set p (vote_of choice) (playerVote r) /\
    roll_loot r' = roll_loot r /\ itemSlot r' = itemSlot r /\ r_itemid r' = r_itemid r.
Proof.
  intros Hr Hf Hc. pose proof Hr as [Hs Hl H1 H2 H3 H4].
  assert (Hlen : forall v, length (map_set p v (playerVote r)) = length (playerVote r)).
  { intros v. rewrite <- !(length_fmap fst). f_equal. by eapply map_set_same_keys. }
  assert (Hb : forall sel, 0 <= count sel (playerVote r) < 128) by (intros; by apply tally_bound).
  assert (Hok : forall v n g pa, v <> NOT_VALID ->
    n = count (is_vote NEED) (playerVote r) + ind (is_vote NEED) v ->
    g = count (contends false) (playerVote r) + ind (contends false) v ->
    pa = count (is_vote PASS) (playerVote r) + ind (is_vote PASS) v ->
    tally_ok (set_tallies (map_set p v (playerVote r)) (totalPlayersRolling r) n g pa r)).
  { intros v n g pa Hv -> -> ->. split; simpl.
    - by apply map_set_sorted.
    - by rewrite Hlen.
    - rewrite count_set, Hf by done. change (old_ind _ (Some NOT_EMITED_YET)) with 0. lia.
    - rewrite count_set, Hf by done. change (old_ind _ (Some NOT_EMITED_YET)) with 0. lia.
    - rewrite count_set, Hf by done. change (old_ind _ (Some NOT_EMITED_YET)) with 0. lia.
    - rewrite count_set, Hf, H4 by done. change (old_ind _ (Some NOT_EMITED_YET)) with 1.
      unfold ind, not_valid. rewrite bool_decide_false by done. simpl negb. cbv iota. lia. }
  unfold cast, vote_of, ROLL_PASS, ROLL_NEED, ROLL_GREED, ROLL_DISENCHANT, MAX_ROLL_TYPE in *.
  rewrite H1, H2, H3.
  pose proof (Hb (is_vote NEED)). pose proof (Hb (contends false)). pose proof (Hb (is_vote PASS)).
  destruct (Z.eqb_spec choice 0); [|destruct (Z.eqb_spec choice 1); [|destruct (Z.eqb_spec choice 2);
    [|rewrite (proj2 (Z.eqb_eq choice 3)) by lia]]];
    do 3 eexists; (split; [reflexivity|]); (split; [|done]); rewrite wrap_id by width;
    apply Hok; try done; unfold ind; simpl; lia.
Qed.

Lemma withdraw_ok p v r :
  tally_ok r -> map_find p (playerVote r) = Some v -> tally_ok (withdraw p v r).
Proof.
  intros Hr Hf. pose proof Hr as [Hs Hl H1 H2 H3 H4]. unfold withdraw.
  assert (Hb : forall sel, ind sel v <= count sel (playerVote r) < 128).
  { intros sel. pose proof (tally_bound r sel Hr). split; [|lia]. unfold ind.
    destruct (sel v) eqn:E; [by eapply count_pos|lia]. }
  assert (Hsub : forall (b : bool) x sel, x = count sel (playerVote r) -> b = sel v ->
    (if b then u8 (x - 1) else x) = count sel (map_erase p (playerVote r))).
  { intros b x sel -> ->. rewrite count_erase, Hf by done. specialize (Hb sel). simpl.
    unfold ind in *. destruct (sel v); [rewrite wrap_id by width|]; lia. }
  split; simpl.
  - by apply map_erase_sorted.
  - pose proof (length_map_erase p (playerVote r)). lia.
  - by apply Hsub.
  - by apply Hsub.
  - by apply Hsub.
  - apply Hsub; [done|]. by destruct v.
Qed.
(** ** Every operation keeps the tallies *)

Lemma gather_reads E li object po members r w r' w' :
  gather E li object po members r w = Ok (r', w') -> w' = w.
Proof.
  revert r. induction members as [|m members IH]; intros r; simpl; [by intros [= _ <-]|].
  intros (p & w1 & H1 & H)%bind_Ok.
  assert (w1 = w) as -> by (unfold get_player in H1; destruct (players w !! m); by simplify_eq).
  destruct (_ && _); [destruct (_ && _)|]; by apply IH in H.
Qed.

Lemma gather_ok E li object po members r w r' w' :
  gather E li object po members r w = Ok (r', w') ->
  tally_ok r -> NoDup members -> (forall m, m ∈ members -> map_find m (playerVote r) = None) ->
  (length (playerVote r) + length members < 128)%nat -> tally_ok r'.
Proof.
  revert r. induction members as [|m members IH]; intros r; simpl; [by intros [= <- _]|].
  intros (p & w1 & H1 & H)%bind_Ok Hr Hnd Hfree Hlen.
  assert (w1 = w) as -> by (unfold get_player in H1; destruct (players w !! m); by simplify_eq).
  inversion Hnd as [|? ? Hm Hnd']; subst.
  pose proof (Hfree m ltac:(by left)) as Hfind.
  assert (Hnext : forall v rolling pass, v = PASS \/ v = NOT_EMITED_YET ->
    rolling = u8 (totalPlayersRolling r + 1) -> pass = u8 (totalPass r + ind (is_vote PASS) v) ->
    gather E li object po members
      (set_tallies (map_set m v (playerVote r)) rolling (totalNeed r) (totalGreed r) pass r) w
      = Ok (r', w') -> tally_ok r').
  { intros v rolling pass Hv -> -> Hg. apply IH in Hg; [done| |done| |].
    - pose proof Hr as [Hs Hl T1 T2 T3 T4].
      pose proof (count_range (is_vote PASS) (playerVote r)).
      pose proof (count_range (fun v => negb (not_valid v)) (playerVote r)).
      rewrite T3, T4. split; simpl.
      + by apply map_set_sorted.
      + pose proof (length_map_set m v (playerVote r)). lia.
      + rewrite count_set, Hfind, T1 by done. destruct Hv as [-> | ->]; unfold ind; simpl; lia.
      + rewrite count_set, Hfind, T2 by done. destruct Hv as [-> | ->]; unfold ind; simpl; lia.
      + rewrite count_set, Hfind, wrap_id by (done || destruct Hv as [-> | ->]; unfold ind; simpl; width).
        simpl. lia.
      + rewrite count_set, Hfind, wrap_id by (done || width).
        destruct Hv as [-> | ->]; unfold ind; simpl; lia.
    - intros j Hj. simpl. rewrite map_find_set_ne by (intros ->; done). apply Hfree. by right.
    - simpl. pose proof (length_map_set m v (playerVote r)). lia. }
  destruct (_ && _).
  - destruct (_ && _).
    + by apply (Hnext PASS) in H; auto.
    + apply (Hnext NOT_EMITED_YET) in H; auto. unfold ind; simpl. rewrite Z.add_0_r.
      pose proof (tally_bound r (is_vote PASS) Hr). rewrite (tally_pass r Hr), wrap_id by width. done.
  - apply IH in H; [done|done|done| |lia]. intros j Hj. apply Hfree. by right.
Qed.

Lemma new_roll_ok guid li : tally_ok (new_roll guid li).
Proof. split; simpl; try done; [constructor|lia]. Qed.

Lemma set_slot_ok slot mask loot r : tally_ok r -> tally_ok (set_slot slot mask loot r).
Proof. by intros []. Qed.

(** The rolls are well tallied and the linked members are few and distinct. *)
Definition group_rolls_ok (g : Group) : Prop :=
  Forall tally_ok (RollId g) /\ NoDup (m_memberMgr g) /\ (length (m_memberMgr g) < 128)%nat.

Lemma group_rolls_set g l :
  group_rolls_ok g -> Forall tally_ok l -> group_rolls_ok (GroupState.set_RollId l g).
Proof. by intros (_ & H1 & H2) H. Qed.

Abbreviation keeps_rolls m := (preserves (fun w => group_rolls_ok (group w)) m).

Lemma keeps_group_rolls {A} (m : M A) : keeps group m -> keeps_rolls m.
Proof. intros Hk. by apply (preserves_keeps group group_rolls_ok). Qed.

Lemma CountTheRoll_rolls E i : keeps_rolls (CountTheRoll E i).
Proof.
  intros w u w' Hok H. apply CountTheRoll_group in H. rewrite H. apply group_rolls_set; [done|].
  destruct Hok as [Hall _]. rewrite Forall_forall in Hall |- *. intros r Hr. apply Hall.
  by eapply list_elem_of_delete_inv.
Qed.

Section invariant.
Context (E : Env).

Lemma preserves_if {A} (P : World -> Prop) (b : bool) (m1 m2 : M A) :
  preserves P m1 -> preserves P m2 -> preserves P (if b then m1 else m2).
Proof. by destruct b. Qed.

Lemma announce_keeps nbg guid object r : keeps group (announce E nbg guid object r).
Proof.
  unfold announce, SendLootStartRoll, SendLootRoll, SendLootStartRollToPlayer.
  destruct nbg; keeps_tac; by apply send_to_voters_keeps.
Qed.

Lemma set_loot_timer_keeps object : keeps group (set_loot_timer E object).
Proof. unfold set_loot_timer. keeps_tac. Qed.

Lemma push_roll_rolls r : tally_ok r -> keeps_rolls (push_roll r).
Proof.
  intros Hr w u w' Hok [= <- <-]. simpl. apply group_rolls_set; [done|].
  apply Forall_app. split; [apply Hok|by constructor].
Qed.

(** The common tail of the two kinds of items: gather, announce, push. *)
Lemma start_roll_rolls li guid object po (k : Roll -> M unit) w u w' :
  (forall r, tally_ok r -> keeps_rolls (k r)) -> group_rolls_ok (group w) ->
  (r <- gather E li object po (m_memberMgr (group w)) (new_roll guid li) ;;
   if 0 <? totalPlayersRolling r then k r else ret tt) w = Ok (u, w') ->
  group_rolls_ok (group w').
Proof.
  intros Hk Hok (r & w1 & H1 & H)%bind_Ok. pose proof (gather_reads _ _ _ _ _ _ _ _ _ H1) as ->.
  pose proof Hok as (_ & Hnd & Hlen).
  assert (tally_ok r) as Hr.
  { eapply gather_ok; [exact H1|apply new_roll_ok|done|done|]. simpl. lia. }
  destruct (0 <? totalPlayersRolling r); [by eapply Hk|by injection H as _ <-].
Qed.

Lemma mod_slot_item_rolls f id slot : keeps_rolls (mod_slot_item f id slot).
Proof. apply keeps_group_rolls, mod_slot_item_keeps. Qed.

Lemma new_item_guid_rolls : keeps_rolls new_item_guid.
Proof. by apply keeps_group_rolls; intros w a w' [= _ <-]. Qed.

Lemma roll_item_rolls nbg lootId object slot : keeps_rolls (roll_item E nbg lootId object slot).
Proof.
  intros w u w' Hok. unfold roll_item. intros (l & w1 & H1 & H)%bind_Ok.
  pose proof (get_loot_keeps group _ _ _ _ H1) as G1. rewrite <- G1 in Hok. clear H1 G1.
  destruct (items l !! slot) as [li|]; [|done].
  destruct (freeforall li); [by injection H as _ <-|].
  destruct (item_templates E !! li_itemid li) as [t|]; [|destruct nbg; [done|by injection H as _ <-]].
  apply bind_Ok in H as (g & w2 & [= <- <-] & H).
  destruct (_ <=? _); [|by eapply mod_slot_item_rolls].
  apply bind_Ok in H as (guid & w3 & H3 & H). pose proof (new_item_guid_rolls _ _ _ Hok H3) as Hok3.
  assert (group w3 = group w1) as G3 by (by injection H3 as _ <-). simpl in H. rewrite <- G3 in H.
  refine (start_roll_rolls li guid object true _ _ _ _ _ Hok3 H).
  intros r Hr. cbv beta zeta. apply preserves_bind; [apply mod_slot_item_rolls|intros _].
  apply preserves_bind; [apply keeps_group_rolls, announce_keeps|intros _].
  apply preserves_bind; [by apply push_roll_rolls, set_slot_ok|intros _].
  apply keeps_group_rolls, set_loot_timer_keeps.
Qed.

Lemma roll_quest_item_rolls nbg lootId object index :
  keeps_rolls (roll_quest_item E nbg lootId object index).
Proof.
  intros w u w' Hok. unfold roll_quest_item. intros (l & w1 & H1 & H)%bind_Ok.
  pose proof (get_loot_keeps group _ _ _ _ H1) as G1. rewrite <- G1 in Hok. clear H1 G1.
  destruct (quest_items l !! index) as [li|]; [|done].
  destruct (negb _); [by injection H as _ <-|].
  assert (Htail : forall b, (g <- getg id ;; guid <- new_item_guid ;;
    r <- gather E li object false (m_memberMgr g) (new_roll guid li) ;;
    if 0 <? totalPlayersRolling r then
      let slot := Z.of_nat (length (items l)) + Z.of_nat index in
      let r := set_slot (u8 slot) (rollVoteMask r) (Some lootId) r in
      mod_slot_item (block_item true) lootId slot ;;;
      (if b : bool then announce E true guid object r
       else SendLootStartRoll 60000 (GetMapId E object) r) ;;;
      push_roll r ;;; set_loot_timer E object
    else ret tt) w1 = Ok (u, w') -> group_rolls_ok (group w')).
  { clear H. intros b H. apply bind_Ok in H as (g & w2 & [= <- <-] & H).
    apply bind_Ok in H as (guid & w3 & H3 & H). pose proof (new_item_guid_rolls _ _ _ Hok H3) as Hok3.
    assert (group w3 = group w1) as G3 by (by injection H3 as _ <-).
    cbv beta in H. change (id (group w1)) with (group w1) in H. rewrite <- G3 in H.
    refine (start_roll_rolls li guid object false _ _ _ _ _ Hok3 H).
    intros r Hr. cbv beta zeta. apply preserves_bind; [apply mod_slot_item_rolls|intros _].
    apply preserves_bind; [|intros _].
    { apply preserves_if; apply keeps_group_rolls; [apply announce_keeps|].
      by apply send_to_voters_keeps. }
    apply preserves_bind; [by apply push_roll_rolls, set_slot_ok|intros _].
    apply keeps_group_rolls, set_loot_timer_keeps. }
  destruct (item_templates E !! li_itemid li), nbg;
    first [exact (Htail true H) | exact (Htail false H) | by injection H as _ <-].
Qed.

Lemma start_rolls_rolls nbg lootId object : keeps_rolls (start_rolls E nbg lootId object).
Proof.
  unfold start_rolls. apply preserves_bind; [apply keeps_group_rolls, get_loot_keeps|intros l].
  apply preserves_bind; [|intros _]; apply preserves_for_each; intros slot;
    [apply roll_item_rolls|apply roll_quest_item_rolls].
Qed.

(** The player has not voted yet in the roll the vote is for. *)
Definition first_vote (player guid : Z) (w : World) : Prop :=
  forall i r v, GetRoll guid (RollId (group w)) = Some i -> RollId (group w) !! i = Some r ->
    map_find player (playerVote r) = Some v -> v = NOT_EMITED_YET.

Lemma CountRollVote_rolls player guid choice w u w' :
  0 <= choice -> (choice < MAX_ROLL_TYPE -> first_vote player guid w) ->
  group_rolls_ok (group w) -> CountRollVote E player guid choice w = Ok (u, w') ->
  group_rolls_ok (group w').
Proof.
  intros H0 Hfirst Hok H.
  destruct (CountRollVote_group E _ _ _ _ _ _ H) as [->|(i & r & r' & Hi & Hr & [v Hv] & Hr' & G)];
    [done|]. cbv zeta in G. rewrite G. apply group_rolls_set; [done|].
  destruct Hok as [Hall _]. assert (tally_ok r) as Htr by (by eapply Forall_lookup_1).
  assert (tally_ok r') as Htr'.
  { rewrite Hr'. destruct (Z.lt_ge_cases choice MAX_ROLL_TYPE) as [Hc|Hc].
    - rewrite (Hfirst Hc i r v Hi Hr Hv) in Hv.
      destruct (cast_ok player choice r Htr Hv (conj H0 Hc)) as (n & t & r1 & -> & ? & _). done.
    - unfold cast, ROLL_PASS, ROLL_NEED, ROLL_GREED, ROLL_DISENCHANT, MAX_ROLL_TYPE in *.
      rewrite !(proj2 (Z.eqb_neq choice _)) by lia. done. }
  assert (Forall tally_ok (<[i:=r']> (RollId (group w)))) as Hins by (by apply Forall_insert).
  destruct (all_voted r'); [|done]. rewrite Forall_forall in Hins |- *.
  intros x Hx. apply Hins. by eapply list_elem_of_delete_inv.
Qed.

Lemma set_roll_rolls i r : tally_ok r -> keeps_rolls (set_roll i r).
Proof.
  intros Hr w u w' Hok [= <- <-]. simpl. apply group_rolls_set; [done|].
  apply Forall_insert; [apply Hok|done].
Qed.

Lemma remove_from_roll_rolls guid i : keeps_rolls (remove_from_roll E guid i).
Proof.
  intros w u w' Hok. unfold remove_from_roll. intros (rolls & w1 & [= <- <-] & H)%bind_Ok.
  destruct (RollId (group w) !! i) as [r|] eqn:Hr; [|done].
  destruct (map_find guid (playerVote r)) as [v|] eqn:Hv; [|by injection H as _ <-].
  apply bind_Ok in H as (x & w2 & H2 & H).
  assert (tally_ok r) as Htr by (eapply Forall_lookup_1; [apply Hok|done]).
  refine (CountRollVote_rolls _ _ _ _ _ _ _ _ _ H); [done|unfold MAX_ROLL_TYPE; lia|].
  refine (set_roll_rolls _ _ (withdraw_ok _ _ _ Htr Hv) _ _ _ Hok H2).
Qed.

Lemma remove_from_rolls_rolls guid : keeps_rolls (remove_from_rolls E guid).
Proof.
  unfold remove_from_rolls. apply preserves_bind; [apply keeps_group_rolls; keeps_tac|intros rolls].
  apply preserves_for_each. intros i. apply remove_from_roll_rolls.
Qed.

Lemma EndRoll_loop_rolls fuel id : keeps_rolls (EndRoll_loop E fuel id).
Proof.
  induction fuel as [|fuel IH]; simpl; [by intros w u w' ? ?|].
  apply preserves_bind; [apply keeps_group_rolls; keeps_tac|intros rolls].
  destruct (loot_index id rolls) as [i|]; [|apply keeps_group_rolls; keeps_tac].
  apply preserves_bind; [apply CountTheRoll_rolls|done].
Qed.

Lemma loot_clear_rolls id : keeps_rolls (loot_clear id).
Proof.
  unfold loot_clear. apply preserves_bind; [apply keeps_group_rolls, get_loot_keeps|intros l].
  apply preserves_bind; [apply keeps_group_rolls, put_loot_keeps|intros _].
  intros w u w' Hok [= <- <-]. simpl. apply group_rolls_set; [done|].
  apply Forall_fmap. eapply Forall_impl; [apply Hok|]. intros r Hr. simpl.
  case_bool_decide; [by apply set_slot_ok|done].
Qed.
End invariant.

(** ** Operations on rolls *)

Inductive roll_op :=
| StartRolls (need_before_greed : bool) (loot object : Z)
| Vote (player guid choice : Z)
| TimerExpired (loot : Z)
| MemberLeaves (guid : Z)
| LootCleared (loot : Z).

Definition run_roll_op (E : Env) (o : roll_op) : M unit :=
  match o with
  | StartRolls nbg loot object => start_rolls E nbg loot object
  | Vote player guid choice => CountRollVote E player guid choice
  | TimerExpired loot => EndRoll E loot
  | MemberLeaves guid => remove_from_rolls E guid
  | LootCleared loot => loot_clear loot
  end.

(** A vote comes from a player who has not voted on the item, or has no type. *)
Definition allowed (o : roll_op) (w : World) : Prop :=
  match o with
  | Vote player guid choice => 0 <= choice /\ (choice < MAX_ROLL_TYPE -> first_vote player guid w)
  | _ => True
  end.

(** C3: as long as no player votes on an item for the second time, which the code would
    count again, the tallies of every roll stay the numbers of its votes: need, greed or
    disenchant, pass, and valid votes, whatever rolls are started, votes cast, members
    removed, loots destroyed and timers expired. *)
Theorem tally_invariant E o w u w' :
  group_rolls_ok (group w) -> allowed o w -> run_roll_op E o w = Ok (u, w') ->
  group_rolls_ok (group w').
Proof.
  intros Hok Ha H. destruct o as [nbg l o|p g c|l|g|l]; simpl in H.
  - by eapply start_rolls_rolls.
  - destruct Ha. by eapply CountRollVote_rolls.
  - unfold EndRoll in H. apply bind_Ok in H as (rolls & w1 & [= <- <-] & H).
    by eapply EndRoll_loop_rolls.
  - by eapply remove_from_rolls_rolls.
  - by eapply loot_clear_rolls.
Qed.

(** ** Evaluations always return

    A loot that is there and holds the items of some slots stays so while a
    roll on one of the slots is evaluated, and then no step of the evaluation
    fails. *)
Definition holds (id : Z) (slots : Z -> Prop) (w : World) : Prop :=
  exists l, loots w !! id = Some l /\ forall slot, slots slot -> is_Some (slot_item l slot).

Lemma lookup_alter_is_Some {A} (f : A -> A) i j (l : list A) :
  is_Some (alter f i l !! j) <-> is_Some (l !! j).
Proof. by rewrite !lookup_lt_is_Some, length_alter. Qed.

Lemma slot_item_update f slot slot' l :
  is_Some (slot_item (update_item f slot l) slot') <-> is_Some (slot_item l slot').
Proof.
  unfold slot_item, update_item. destruct (_ <=? slot); simpl; rewrite ?length_alter;
    destruct (_ <=? slot'); by rewrite ?lookup_alter_is_Some.
Qed.

Section evaluation.
Context (E : Env) (id : Z) (slots : Z -> Prop).

Lemma holds_emit e : total (holds id slots) (emit e).
Proof. by apply total_modify. Qed.
#[local] Hint Resolve holds_emit : total.

Lemma holds_voters sel op d r : total (holds id slots) (send_to_voters sel op d r).
Proof. unfold send_to_voters. total_tac. Qed.

Lemma holds_draw : total (holds id slots) (draw E).
Proof. intros w H. by eexists _, _. Qed.

Lemma holds_get slot : slots slot -> total (holds id slots) (get_slot_item id slot).
Proof.
  intros Hs w (l & Hl & Hh). destruct (Hh slot Hs) as [i Hi]. exists i, w. split; [|by exists l].
  unfold get_slot_item, bind, get_loot. by rewrite Hl, Hi.
Qed.

(** A write to the loot that keeps its slots. *)
Lemma holds_put (f : Loot -> Loot) :
  (forall l slot, is_Some (slot_item (f l) slot) <-> is_Some (slot_item l slot)) ->
  total (holds id slots) (l <- get_loot id ;; put_loot id (f l)).
Proof.
  intros Hf w (l & Hl & Hi). eexists tt, _. split; [unfold bind, get_loot; by rewrite Hl|].
  exists (f l). split; [apply lookup_insert_eq|]. intros slot Hs. by apply Hf, Hi.
Qed.

Lemma holds_mod f slot : total (holds id slots) (mod_slot_item f id slot).
Proof. apply (holds_put (update_item f slot)). intros l slot'. apply slot_item_update. Qed.
#[local] Hint Resolve holds_voters holds_draw holds_get holds_mod : total.

Lemma holds_notify index : total (holds id slots) (NotifyItemRemoved id index).
Proof.
  unfold NotifyItemRemoved. intros w Hw. destruct Hw as (l & Hl & Hi).
  unfold bind at 1, get_loot. rewrite Hl.
  revert w l Hl Hi. enough (forall ps, total (holds id slots) (for_each ps (fun guid =>
    p <- FindPlayer guid ;;
    match p with
    | Some _ => emit (Call guid "SendNotifyLootItemRemoved" [index])
    | None => l <- get_loot id ;;
              put_loot id (mkLoot (items l) (quest_items l) (unlootedCount l)
                             (filter (fun x => x <> guid) (PlayersLooting l)))
    end))) as H by (intros w l Hl Hi; apply H; by exists l).
  intros ps. apply total_for_each. intros guid. apply total_bind; [apply total_gets|].
  intros [p|]; [apply holds_emit|]. by apply (holds_put (fun l => mkLoot _ _ _ _)).
Qed.
#[local] Hint Resolve holds_notify : total.

Lemma holds_take slot : total (holds id slots) (take_item id slot).
Proof.
  unfold take_item. apply total_bind; [apply holds_mod|intros _].
  apply total_bind; [apply holds_notify|intros _]. by apply (holds_put (fun l => mkLoot _ _ _ _)).
Qed.
#[local] Hint Resolve holds_take : total.

(** The item of the roll is known, for its disenchanting. *)
Definition disenchantable (r : Roll) : Prop := is_Some (item_templates E !! r_itemid r).

Lemma holds_settle need r res :
  slots (itemSlot r) -> disenchantable r -> total (holds id slots) (settle E need r id res).
Proof.
  intros Hs [t Ht]. unfold settle, store_won, disenchant_won, SendLootRollWon.
  rewrite Ht. destruct res as [[m g] v]. total_tac.
Qed.

Lemma holds_roll_loop sel r votes m g v :
  total (holds id slots) (roll_loop E sel r votes m g v).
Proof.
  revert m g v. induction votes as [|[guid x] votes IH]; intros m g v; simpl; [total_tac|].
  unfold SendLootRoll. apply total_if; [apply IH|]. total_tac; apply IH.
Qed.

(** [CountTheRoll] on a roll of this loot returns. *)
Lemma CountTheRoll_total i r w :
  RollId (group w) !! i = Some r -> roll_loot r = Some id -> slots (itemSlot r) ->
  disenchantable r -> holds id slots w ->
  exists w', CountTheRoll E i w = Ok (tt, w') /\ holds id slots w'.
Proof.
  intros Hi Hl Hs Hd Hw. unfold CountTheRoll. unfold bind at 1, getg, gets. rewrite Hi, Hl.
  assert (forall need, total (holds id slots) (award E need r id)) as Haward.
  { intros need. unfold award. destruct (playerVote r) as [|[g0 v0] votes]; [total_tac|].
    apply total_bind; [apply holds_roll_loop|]. intros res. by apply holds_settle. }
  assert (total (holds id slots) ((if 0 <? totalNeed r then award E true r id
           else if 0 <? totalGreed r then award E false r id
           else SendLootAllPassed r ;;; _ <- get_slot_item id (itemSlot r) ;;
             mod_slot_item (block_item false) id (itemSlot r)) ;;; erase_roll i)) as H.
  { apply total_bind; [|intros _; by apply total_modify].
    apply total_if; [apply Haward|]. apply total_if; [apply Haward|].
    unfold SendLootAllPassed. total_tac. }
  destruct (H w Hw) as ([] & w' & E1 & E2). by exists w'.
Qed.
End evaluation.

Lemma delete_insert {A} (i : nat) (x : A) (l : list A) : delete i (<[i := x]> l) = delete i l.
Proof. revert i. induction l as [|y l IH]; intros [|i]; simpl; [done..|]. f_equal. apply IH. Qed.

(** A roll that can be evaluated: its loot holds its item, and the item is
    known. *)
Definition evaluable (E : Env) (w : World) (r : Roll) : Prop :=
  disenchantable E r /\ exists id, roll_loot r = Some id /\ holds id (eq (itemSlot r)) w.

(** The vote of a player that has not voted yet is counted, whatever the
    other votes are: the roll then has the player's choice and the tallies of
    its new votes; as long as a vote is missing it stays among the rolls, and
    with the last missing vote it is evaluated and removed. *)
Theorem vote_resolves E player guid choice i r l w :
  group_rolls_ok (group w) -> 0 <= choice < MAX_ROLL_TYPE ->
  GetRoll guid (RollId (group w)) = Some i -> RollId (group w) !! i = Some r ->
  map_find player (playerVote r) = Some NOT_EMITED_YET -> evaluable E w r ->
  (forall id, roll_loot r = Some id -> loots w !! id = Some l) -> items l <> [] ->
  exists w' r', CountRollVote E player guid choice w = Ok (tt, w') /\ tally_ok r' /\
    playerVote r' = map_set player (vote_of choice) (playerVote r) /\
    RollId (group w') =
      (if count (is_vote NOT_EMITED_YET) (playerVote r') =? 0
       then delete i (RollId (group w)) else <[i := r']> (RollId (group w))).
Proof.
  intros Hok Hc Hi Hr Hv (Hd & id & Hid & Hh) Hl Hne. pose proof (Hl id Hid) as Hl'.
  assert (tally_ok r) as Htr by (eapply Forall_lookup_1; [apply Hok|done]).
  destruct (cast_ok player choice r Htr Hv Hc) as (n & t & r' & Hcast & Htr' & Hv' & L1 & L2 & L3).
  unfold CountRollVote. unfold bind at 1, getg, gets. rewrite Hi, Hr, Hv, Hid.
  unfold bind at 1, get_loot. rewrite Hl'. destruct (items l) as [|li lis]; [done|]. rewrite Hcast.
  unfold bind at 2.
  destruct (holds_voters id (eq (itemSlot r)) (fun v => negb (not_valid v)) "SMSG_LOOT_ROLL"
    [U64 0; U32 (itemSlot r); U64 player; U32 (r_itemid r); U32 (r_randomSuffix r);
     U32 (u32 (r_randomPropId r)); U8 n; U8 t; U8 0] r w Hh) as ([] & w1 & E1 & H1).
  change (SendLootRoll 0 player n t r w = Ok ((), w1)) in E1.
  pose proof (SendLootRoll_keeps _ _ _ _ _ _ _ _ E1) as G1.
  unfold bind at 1. rewrite E1. cbv beta iota. unfold bind at 1, set_roll, modg, modify, ret.
  unfold when. rewrite (all_voted_ok r' Htr').
  assert (i < length (RollId (group w)))%nat as Hlt by (by eapply lookup_lt_Some).
  destruct (count _ (playerVote r') =? 0) eqn:Hz.
  - set (w2 := set_group _ w1).
    assert (RollId (group w2) = <[i:=r']> (RollId (group w))) as R2 by (simpl; by rewrite G1).
    destruct (CountTheRoll_total E id (eq (itemSlot r')) i r' w2) as (w' & Ew & _).
    + rewrite R2. by apply list_lookup_insert_eq.
    + congruence.
    + done.
    + unfold disenchantable. by rewrite L3.
    + by rewrite L2.
    + exists w', r'. split_and!; [done|done|done|]. rewrite Hz.
      rewrite (CountTheRoll_group _ _ _ _ _ Ew). simpl. rewrite G1.
      apply delete_insert.
  - eexists _, r'. split_and!; [reflexivity|done|done|]. rewrite Hz. simpl. by rewrite G1.
Qed.

(** ** The end of the rolls of a loot *)

Definition of_loot (id : Z) (r : Roll) : Prop := roll_loot r = Some id.
#[export] Instance of_loot_dec id r : Decision (of_loot id r).
Proof. unfold of_loot. apply _. Defined.

Lemma loot_index_spec id l :
  match loot_index id l with
  | Some i => exists r, l !! i = Some r /\ of_loot id r /\
      filter (fun r => ~ of_loot id r) (delete i l) = filter (fun r => ~ of_loot id r) l
  | None => filter (fun r => ~ of_loot id r) l = l
  end.
Proof.
  induction l as [|r l IH]; simpl; [done|]. case_bool_decide as Hr; fold (of_loot id r) in Hr.
  - exists r. split_and!; [done|done|]. rewrite filter_cons, decide_False by (by intros ?). done.
  - destruct (loot_index id l) as [i|]; simpl.
    + destruct IH as (r' & H1 & H2 & H3). exists r'. split_and!; [done|done|].
      by rewrite !filter_cons, H3.
    + by rewrite filter_cons, decide_True, IH by done.
Qed.

Section end_roll.
Context (E : Env) (id : Z) (slots : Z -> Prop).

Lemma EndRoll_loop_total fuel w :
  (length (RollId (group w)) < fuel)%nat ->
  Forall (fun r => of_loot id r -> disenchantable E r /\ slots (itemSlot r)) (RollId (group w)) ->
  holds id slots w ->
  exists w', EndRoll_loop E fuel id w = Ok (tt, w') /\ holds id slots w' /\
    group w' = GroupState.set_RollId
      (filter (fun r => ~ of_loot id r) (RollId (group w))) (group w).
Proof.
  revert w. induction fuel as [|fuel IH]; intros w Hlen Hall Hh; [lia|]. simpl.
  unfold bind at 1, getg, gets. pose proof (loot_index_spec id (RollId (group w))) as Hi.
  destruct (loot_index id (RollId (group w))) as [i|].
  - destruct Hi as (r & Hr & Hof & Hfilter).
    destruct (Forall_lookup_1 _ _ _ _ Hall Hr Hof) as [Hd Hs].
    destruct (CountTheRoll_total E id slots i r w Hr Hof Hs Hd Hh) as (w1 & E1 & Hh1).
    unfold bind. rewrite E1. pose proof (CountTheRoll_group _ _ _ _ _ E1) as G1.
    destruct (IH w1) as (w2 & E2 & Hh2 & G2).
    + rewrite G1. simpl. pose proof (length_delete (RollId (group w)) i (mk_is_Some _ _ Hr)).
      apply lookup_lt_Some in Hr. lia.
    + rewrite G1. simpl. by apply Forall_delete.
    + done.
    + exists w2. split_and!; [done|done|]. rewrite G2, G1. simpl. by rewrite Hfilter.
  - exists w. split_and!; [done|done|]. rewrite Hi. by destruct (group w).
Qed.
End end_roll.

(** When the timer of a loot expires, the loop over its rolls comes to an
    end: every roll of the loot is evaluated and removed, and the rolls of other
    loots stay, in their order. *)
Theorem EndRoll_removes E id l w :
  loots w !! id = Some l ->
  Forall (fun r => of_loot id r -> disenchantable E r /\ is_Some (slot_item l (itemSlot r)))
    (RollId (group w)) ->
  exists w', EndRoll E id w = Ok (tt, w') /\
    group w' = GroupState.set_RollId
      (filter (fun r => ~ of_loot id r) (RollId (group w))) (group w).
Proof.
  intros Hl Hall. unfold EndRoll, bind at 1, getg, gets.
  destruct (EndRoll_loop_total E id (fun s => is_Some (slot_item l s))
    (S (length (RollId (group w)))) w) as (w' & E1 & _ & G1); [lia|done|by exists l|].
  by exists w'.
Qed.

(** ** The winner *)

(** The votes of a branch in the order of the voters. *)
Definition contenders (need : bool) (r : Roll) : list (Z * RollVote) :=
  filter (fun gv => contends need gv.2 = true) (playerVote r).

(** The first of the highest of the numbers [ns k], [ns (k+1)], ... of the
    contenders, starting from a best number, player and vote so far. *)
Fixpoint best (ns : nat -> Z) (k : nat) (cs : list (Z * RollVote)) (acc : Z * Z * RollVote)
    : Z * Z * RollVote :=
  match cs with
  | [] => acc
  | (g, v) :: cs => best ns (S k) cs (if acc.1.1 <? ns k then (ns k, g, v) else acc)
  end.

(** The best so far stays, or a later contender that beats it and all others
    takes over. *)
Lemma best_spec ns k cs m g v :
  (best ns k cs (m, g, v) = (m, g, v) /\ (forall j, (j < length cs)%nat -> ns (k + j)%nat <= m)) \/
  (exists j gv, cs !! j = Some gv /\ m < ns (k + j)%nat /\
    best ns k cs (m, g, v) = (ns (k + j)%nat, gv.1, gv.2) /\
    (forall j', (j' < length cs)%nat -> ns (k + j')%nat <= ns (k + j)%nat) /\
    (forall j', (j' < j)%nat -> ns (k + j')%nat < ns (k + j)%nat)).
Proof.
  revert k m g v. induction cs as [|[g1 v1] cs IH]; intros k m g v; simpl.
  { left. split; [done|]. lia. }
  assert (Hcons : forall (Q : nat -> Prop) n, Q k -> (forall j, (j < n)%nat -> Q (S k + j)%nat) ->
    forall j, (j < S n)%nat -> Q (k + j)%nat).
  { intros Q n H0 HS [|j] Hj; [by rewrite Nat.add_0_r|]. rewrite Nat.add_succ_r. apply HS. lia. }
  destruct (Z.ltb_spec m (ns k)).
  - right. destruct (IH (S k) (ns k) g1 v1) as [[-> Hle]|(j & gv & H1 & H2 & -> & H3 & H4)].
    + exists O, (g1, v1). rewrite Nat.add_0_r. split_and!; [done|done|done| |lia].
      by apply (Hcons (fun n => ns n <= ns k)).
    + exists (S j), gv. rewrite Nat.add_succ_r. split_and!; [done|simpl in *; lia|done| |].
      * apply (Hcons (fun n => ns n <= ns (S k + j)%nat)); [lia|done].
      * apply (Hcons (fun n => ns n < ns (S k + j)%nat)); [lia|done].
  - destruct (IH (S k) m g v) as [[-> Hle]|(j & gv & H1 & H2 & -> & H3 & H4)].
    + left. split; [done|]. by apply (Hcons (fun n => ns n <= m)).
    + right. exists (S j), gv. rewrite Nat.add_succ_r. split_and!; [done|simpl in *; lia|done| |].
      * apply (Hcons (fun n => ns n <= ns (S k + j)%nat)); [lia|done].
      * apply (Hcons (fun n => ns n < ns (S k + j)%nat)); [lia|done].
Qed.

(** The part of the world the winner depends on: everything but the trace and
    the random numbers drawn. *)
Definition settled (w : World) : Group * gmap Z Player * gmap Z Loot := (group w, players w, loots w).

Lemma send_to_voters_Ok sel op d r w :
  exists w', send_to_voters sel op d r w = Ok (tt, w') /\ urands w' = urands w /\
    settled w' = settled w.
Proof.
  pose (P := fun w' => urands w' = urands w /\ settled w' = settled w).
  assert (total P (send_to_voters sel op d r)) as H.
  { unfold send_to_voters. total_tac. by apply total_modify. }
  destruct (H w ltac:(done)) as ([] & w' & E1 & H1 & H2). by exists w'.
Qed.

Section winner.
Context (E : Env) (Hu : forall n, 1 <= urand E n <= 100).

Lemma roll_loop_best need r votes m g v w :
  exists w', roll_loop E (contends need) r votes m g v w =
      Ok (best (urand E) (urands w) (filter (fun gv => contends need gv.2 = true) votes) (m, g, v), w') /\
    urands w' = (urands w + length (filter (fun gv => contends need gv.2 = true) votes))%nat /\
    settled w' = settled w.
Proof.
  revert m g v w. induction votes as [|[gd x] votes IH]; intros m g v w; simpl.
  { exists w. split_and!; [done| |done]. simpl. lia. }
  rewrite filter_cons. simpl. destruct (contends need x); simpl; [|apply IH].
  unfold bind at 1, draw.
  destruct (send_to_voters_Ok (fun v => negb (not_valid v)) "SMSG_LOOT_ROLL"
    [U64 0; U32 (itemSlot r); U64 gd; U32 (r_itemid r); U32 (r_randomSuffix r);
     U32 (u32 (r_randomPropId r)); U8 (u8 (urand E (urands w))); U8 (vote_code x); U8 0] r
    (set_urands (S (urands w)) w)) as (w1 & E1 & U1 & S1).
  change (SendLootRoll 0 gd (u8 (urand E (urands w))) (vote_code x) r (set_urands (S (urands w)) w)
    = Ok ((), w1)) in E1.
  unfold bind at 1. rewrite E1. pose proof (Hu (urands w)) as Hb. rewrite wrap_id by width.
  simpl in U1. change (settled w1 = settled w) in S1.
  destruct (m <? urand E (urands w)).
  - destruct (IH (urand E (urands w)) gd x w1) as (w2 & E2 & U2 & S2). exists w2.
    rewrite E2, U2, S2, S1, U1. split_and!; [done|lia|done].
  - destruct (IH m g v w1) as (w2 & E2 & U2 & S2). exists w2.
    rewrite E2, U2, S2, S1, U1. split_and!; [done|lia|done].
Qed.

Lemma award_settles need r id w :
  contenders need r <> [] ->
  exists k g v w1, contenders need r !! k = Some (g, v) /\
    (forall j, (j < length (contenders need r))%nat ->
       urand E (urands w + j)%nat <= urand E (urands w + k)%nat) /\
    (forall j, (j < k)%nat -> urand E (urands w + j)%nat < urand E (urands w + k)%nat) /\
    award E need r id w = settle E need r id (urand E (urands w + k)%nat, g, v) w1 /\
    urands w1 = (urands w + length (contenders need r))%nat /\ settled w1 = settled w.
Proof.
  intros Hne. unfold award. destruct (playerVote r) as [|[g0 v0] votes] eqn:Hv.
  { unfold contenders in Hne. by rewrite Hv in Hne. }
  destruct (roll_loop_best need r ((g0, v0) :: votes) 0 g0 NOT_VALID w) as (w1 & E1 & U1 & S1).
  rewrite <- Hv in E1, U1 |- *. fold (contenders need r) in E1, U1.
  destruct (best_spec (urand E) (urands w) (contenders need r) 0 g0 NOT_VALID)
    as [[_ Hle]|(k & [g v] & H1 & _ & H2 & H3 & H4)].
  { destruct (contenders need r); [done|]. specialize (Hle O ltac:(simpl; lia)).
    specialize (Hu (urands w + 0)%nat). lia. }
  exists k, g, v, w1. split_and!; [done|done|done| |done|done].
  unfold bind at 1. rewrite E1, H2. done.
Qed.

(** C24: each contender of a branch draws one number, in the order of the
    votes, and the first with the highest number is the one the item is settled
    on, with its number and its vote. *)
Theorem award_winner need r id w :
  contenders need r <> [] ->
  exists k g v w1, contenders need r !! k = Some (g, v) /\
    (forall j, (j < length (contenders need r))%nat ->
       urand E (urands w + j)%nat <= urand E (urands w + k)%nat) /\
    (forall j, (j < k)%nat -> urand E (urands w + j)%nat < urand E (urands w + k)%nat) /\
    award E need r id w = settle E need r id (urand E (urands w + k)%nat, g, v) w1 /\
    urands w1 = (urands w + length (contenders need r))%nat /\ settled w1 = settled w.
Proof. apply award_settles. Qed.

(** When the winner is not in the world any more the roll is removed but
    the item stays as it was, blocked for everybody. *)
Theorem offline_winner_blocks i r id need w :
  RollId (group w) !! i = Some r -> roll_loot r = Some id ->
  need = (0 <? totalNeed r) -> (need = false -> 0 < totalGreed r) -> contenders need r <> [] ->
  Forall (fun gv => find_player w gv.1 = None) (contenders need r) ->
  exists w', CountTheRoll E i w = Ok (tt, w') /\ loots w' = loots w /\
    RollId (group w') = delete i (RollId (group w)).
Proof.
  intros Hi Hid Hneed Hgreed Hne Hoff.
  assert (exists w1, award E need r id w = Ok (tt, w1) /\ settled w1 = settled w)
    as (w1 & Ew & Hw1).
  { destruct (award_settles need r id w Hne) as (k & g & v & w1 & Hk & _ & _ & Ha & _ & Hs).
    assert (find_player w1 g = None) as Hg.
    { rewrite Forall_lookup in Hoff. specialize (Hoff k (g, v) Hk). simpl in Hoff.
      unfold find_player in *. injection Hs as _ -> _. done. }
    rewrite Ha. unfold settle, SendLootRollWon. edestruct send_to_voters_Ok as (w2 & E2 & _ & S2).
    unfold bind at 1. rewrite E2. unfold bind, FindPlayer, gets.
    assert (find_player w2 g = None) as ->.
    { unfold find_player in *. injection S2 as _ -> _. done. }
    exists w2. by rewrite S2. }
  unfold CountTheRoll. unfold bind at 1, getg, gets. rewrite Hi, Hid. unfold bind at 1.
  assert ((if 0 <? totalNeed r then award E true r id
           else if 0 <? totalGreed r then award E false r id
           else SendLootAllPassed r ;;; _ <- get_slot_item id (itemSlot r) ;;
             mod_slot_item (block_item false) id (itemSlot r)) = award E need r id) as ->.
  { rewrite Hneed in *. destruct (0 <? totalNeed r); [done|].
    by rewrite (proj2 (Z.ltb_lt _ _) (Hgreed eq_refl)). }
  rewrite Ew. injection Hw1 as H1 _ H3. eexists. split; [reflexivity|]. simpl. by rewrite H1, H3.
Qed.
End winner.

(** ** The properties on the sample world: one item, three votes *)

Definition sample_roll (votes : list (Z * RollVote)) (need greed pass : Z) : Roll :=
  mkRoll 900 500 0 0 1 votes 3 need greed pass 0 7 (Some 7).
Definition open_roll := sample_roll [(1, NEED); (2, NOT_EMITED_YET); (3, NOT_EMITED_YET)] 1 0 0.
Definition last_vote := sample_roll [(1, NEED); (2, NOT_EMITED_YET); (3, NEED)] 2 0 0.
Definition offline_world :=
  set_players {[1 := sample_player "Anna" (Some (sample_guid, 0))]}
    (sample_world [sample_roll [(1, PASS); (2, NEED); (3, NEED)] 2 0 1]).

Lemma sample_tally votes need greed pass :
  map_sorted votes -> (length votes < 128)%nat ->
  need = count (is_vote NEED) votes -> greed = count (contends false) votes ->
  pass = count (is_vote PASS) votes -> 3 = count (fun v => negb (not_valid v)) votes ->
  tally_ok (sample_roll votes need greed pass).
Proof. by split. Qed.

Ltac sample_sorted := repeat (constructor; simpl; try lia).

Lemma sample_rolls_ok r : tally_ok r -> group_rolls_ok (sample_group [r]).
Proof.
  intros Hr. split; [by constructor|]. simpl. split; [|lia].
  repeat constructor; set_solver.
Qed.

Lemma open_roll_ok : tally_ok open_roll.
Proof. apply sample_tally; [sample_sorted|simpl; lia|done..]. Qed.
Lemma last_vote_ok : tally_ok last_vote.
Proof. apply sample_tally; [sample_sorted|simpl; lia|done..]. Qed.

Definition after (o : roll_op) (w : World) : World :=
  match run_roll_op sample_env o w with Ok (_, w') => w' | Throw _ => w end.

Lemma tally_invariant_witness :
  group_rolls_ok (group (after (Vote 2 900 2) (sample_world [open_roll]))).
Proof.
  apply (tally_invariant sample_env (Vote 2 900 2) (sample_world [open_roll]) tt).
  - apply sample_rolls_ok, open_roll_ok.
  - split; [done|]. intros _ i r v Hi Hr Hv. vm_compute in Hi. injection Hi as <-.
    injection Hr as <-. vm_compute in Hv. by injection Hv as <-.
  - vm_compute. reflexivity.
Defined.

Lemma vote_resolves_witness :
  exists w' r', CountRollVote sample_env 2 900 1 (sample_world [last_vote]) = Ok (tt, w') /\
    tally_ok r' /\ playerVote r' = map_set 2 (vote_of 1) (playerVote last_vote) /\
    RollId (group w') =
      (if count (is_vote NOT_EMITED_YET) (playerVote r') =? 0
       then delete 0%nat (RollId (group (sample_world [last_vote])))
       else <[0%nat := r']> (RollId (group (sample_world [last_vote])))).
Proof.
  apply (vote_resolves sample_env 2 900 1 0 last_vote
    (mkLoot [mkLootItem 500 0 0 1 false true false false true []] [] 1 []) (sample_world [last_vote])).
  - apply sample_rolls_ok, last_vote_ok.
  - split; [done|reflexivity].
  - reflexivity.
  - reflexivity.
  - reflexivity.
  - split; [by eexists|]. exists 7. split; [done|]. eexists. split; [reflexivity|].
    intros s <-. by eexists.
  - intros id [= <-]. reflexivity.
  - done.
Defined.

Lemma sample_urand n : 1 <= urand sample_env n <= 100.
Proof. simpl. pose proof (Z.mod_pos_bound (Z.of_nat n * 37 + 11) 100 ltac:(lia)). lia. Qed.

Lemma award_winner_witness :
  exists k g v w1, contenders true last_vote !! k = Some (g, v) /\
    (forall j, (j < length (contenders true last_vote))%nat ->
       urand sample_env (urands (sample_world []) + j)%nat <=
       urand sample_env (urands (sample_world []) + k)%nat) /\
    (forall j, (j < k)%nat ->
       urand sample_env (urands (sample_world []) + j)%nat <
       urand sample_env (urands (sample_world []) + k)%nat) /\
    award sample_env true last_vote 7 (sample_world []) =
      settle sample_env true last_vote 7
        (urand sample_env (urands (sample_world []) + k)%nat, g, v) w1 /\
    urands w1 = (urands (sample_world []) + length (contenders true last_vote))%nat /\
    settled w1 = settled (sample_world []).
Proof. apply (award_winner sample_env sample_urand). done. Defined.

Lemma offline_winner_blocks_witness :
  exists w', CountTheRoll sample_env 0 offline_world = Ok (tt, w') /\
    loots w' = loots offline_world /\
    RollId (group w') = delete 0%nat (RollId (group offline_world)).
Proof.
  apply (offline_winner_blocks sample_env sample_urand 0
    (sample_roll [(1, PASS); (2, NEED); (3, NEED)] 2 0 1) 7 true offline_world); try done.
  repeat constructor.
Defined.

Lemma EndRoll_removes_witness :
  exists w', EndRoll sample_env 7 (sample_world [open_roll; last_vote]) = Ok (tt, w') /\
    group w' = GroupState.set_RollId
      (filter (fun r => ~ of_loot 7 r) (RollId (group (sample_world [open_roll; last_vote]))))
      (group (sample_world [open_roll; last_vote])).
Proof.
  apply (EndRoll_removes sample_env 7
    (mkLoot [mkLootItem 500 0 0 1 false true false false true []] [] 1 [])).
  - reflexivity.
  - repeat constructor; by eexists.
Defined.
End Roll.
