(* ===== verification/GroupInstances.v ===== *)
(** * GroupInstances: instance binds of groups and players

    The binds of a group and of its players to instance saves: the bind
    operations of [Groups/Group.cpp] and those of [Entities/Player/Player.cpp]
    that a group's operations call. The binds of one difficulty are an
    association list in the order of their insertion; the hash map of the code
    fixes no order. *)
From S2P Require Import Prelude OrderedMap GroupMgr GroupState.
#[global] Open Scope Z_scope.

Module GroupInstances.
Import GroupState.

Definition MAP_RAID := 2.
Definition DUNGEON_DIFFICULTY_HEROIC := 1.
Definition INSTANCE_RESET_ALL := 0.
Definition INSTANCE_RESET_CHANGE_DIFFICULTY := 1.
Definition INSTANCE_RESET_GROUP_DISBAND := 3.
Definition INSTANCE_RESET_GROUP_JOIN := 4.

Definition GetDifficulty (g : Group) (isRaid : bool) : Z :=
  if isRaid then m_raidDifficulty g else m_dungeonDifficulty g.

(** [m_boundInstances[diff]] and a write to it. *)
Definition binds_of (diff : Z) (g : Group) : option (list (Z * InstanceGroupBind)) :=
  if diff <? 0 then None else m_boundInstances g !! Z.to_nat diff.
Definition get_binds (diff : Z) : M (list (Z * InstanceGroupBind)) := fun w =>
  match binds_of diff (group w) with Some l => Ok (l, w) | None => Throw OutOfBounds end.
Definition put_binds (diff : Z) (l : list (Z * InstanceGroupBind)) : M unit :=
  modg (fun g => set_boundInstances (<[Z.to_nat diff := l]> (m_boundInstances g)) g).

Fixpoint assoc {A} (k : Z) (l : list (Z * A)) : option A :=
  match l with
  | [] => None
  | (k', a) :: l => if k' =? k then Some a else assoc k l
  end.
(** [m[k] = a]. *)
Fixpoint assoc_set {A} (k : Z) (a : A) (l : list (Z * A)) : list (Z * A) :=
  match l with
  | [] => [(k, a)]
  | (k', a') :: l => if k' =? k then (k, a) :: l else (k', a') :: assoc_set k a l
  end.
Definition assoc_erase {A} (k : Z) (l : list (Z * A)) : list (Z * A) :=
  filter (fun x => x.1 <> k) l.

Section instances.
Context (E : Env).

Definition get_save (id : Z) : M InstanceSave := fun w =>
  match saves E !! id with Some s => Ok (s, w) | None => Throw NullPointer end.

(** [GetBoundInstance(MapEntry const* )] of the entry of a map. *)
Definition GetBoundInstance (mapid : Z) : M (option InstanceGroupBind) :=
  match maps E !! mapid with
  | None => ret None
  | Some entry =>
      g <- getg id ;;
      l <- get_binds (downscale E mapid (GetDifficulty g (IsRaid entry))) ;;
      ret (assoc mapid l)
  end.

(** [GetBoundInstance(Map* )], of a map that exists. *)
Definition GetBoundInstance_map (mapid : Z) (isRaid : bool) : M (option InstanceGroupBind) :=
  g <- getg id ;;
  l <- get_binds (downscale E mapid (GetDifficulty g isRaid)) ;;
  ret (assoc mapid l).

(** [save_id] is [None] for a null save. *)
Definition BindToInstance (save_id : option Z) (permanent load : bool)
    : M (option InstanceGroupBind) :=
  g <- getg id ;;
  match save_id with
  | None => ret None
  | Some sid =>
      if negb (is_regular g) then ret None
      else
        s <- get_save sid ;;
        l <- get_binds (save_difficulty s) ;;
        let old := assoc (save_map s) l in
        let same := match old with Some b => save b =? sid | None => false end in
        let same_perm := match old with Some b => Bool.eqb permanent (perm b) | None => false end in
        when (negb load && negb (same && same_perm))
          (emit (Db "CHAR_REP_GROUP_INSTANCE" [m_dbStoreId g; sid; Z.b2z permanent])) ;;;
        (if same then ret tt
         else
           match old with Some b => emit (Call (save b) "RemoveGroup" [m_guid g]) | None => ret tt end ;;;
           emit (Call sid "AddGroup" [m_guid g])) ;;;
        put_binds (save_difficulty s) (assoc_set (save_map s) (mkBind sid permanent) l) ;;;
        ret (Some (mkBind sid permanent))
  end.

Definition UnbindInstance (mapid difficulty : Z) (unload : bool) : M unit :=
  g <- getg id ;;
  l <- get_binds difficulty ;;
  match assoc mapid l with
  | None => ret tt
  | Some b =>
      when (negb unload) (emit (Db "CHAR_DEL_GROUP_INSTANCE_BY_GUID" [m_dbStoreId g; save b])) ;;;
      emit (Call (save b) "RemoveGroup" [m_guid g]) ;;;
      put_binds difficulty (assoc_erase mapid l)
  end.

(** Whether a bind is passed over by the reset, and whether its map is empty
    after it. *)
Definition reset_skips (method diff : Z) (isRaid : bool) (mapid : Z) (s : InstanceSave) : bool :=
  match maps E !! mapid with
  | None => true
  | Some entry =>
      negb (Bool.eqb (IsRaid entry) isRaid) ||
      (negb (CanReset s) && negb (method =? INSTANCE_RESET_GROUP_DISBAND)) ||
      ((method =? INSTANCE_RESET_ALL) &&
       ((map_type entry =? MAP_RAID) || (diff =? DUNGEON_DIFFICULTY_HEROIC)))
  end.

Definition reset_map (method sid : Z) (s : InstanceSave) : M bool :=
  if loaded_dungeon E sid && negb ((method =? INSTANCE_RESET_GROUP_DISBAND) && negb (CanReset s)) then
    history <- gets trace ;;
    if CanReset s
    then emit (Call sid "Reset" [method]) ;;; ret (map_reset E history sid method)
    else ret (negb (have_players E history sid))
  else ret true.

(** The loop of [ResetInstances]; it starts over after every bind it erases, so
    the square of the number of binds plus one bounds its rounds. *)
Fixpoint reset_loop (fuel : nat) (method diff : Z) (isRaid : bool) (SendMsgTo : option Z) (i : nat)
    : M unit :=
  match fuel with
  | O => throw OutOfFuel
  | S fuel =>
      l <- get_binds diff ;;
      match l !! i with
      | None => ret tt
      | Some (mapid, b) =>
          s <- get_save (save b) ;;
          if reset_skips method diff isRaid mapid s
          then reset_loop fuel method diff isRaid SendMsgTo (S i)
          else
            isEmpty <- reset_map method (save b) s ;;
            match SendMsgTo with
            | Some p => emit (if isEmpty : bool then Call p "SendResetInstanceSuccess" [save_map s]
                              else Call p "SendResetInstanceFailed" [0; save_map s])
            | None => ret tt
            end ;;;
            if isEmpty || (method =? INSTANCE_RESET_GROUP_DISBAND) ||
               (method =? INSTANCE_RESET_CHANGE_DIFFICULTY)
            then
              emit (if CanReset s then Call (save b) "DeleteFromDB" []
                    else Db "CHAR_DEL_GROUP_INSTANCE_BY_INSTANCE" [save b]) ;;;
              put_binds diff (delete i l) ;;;
              g <- getg id ;;
              emit (Call (save b) "RemoveGroup" [m_guid g]) ;;;
              reset_loop fuel method diff isRaid SendMsgTo O
            else reset_loop fuel method diff isRaid SendMsgTo (S i)
      end
  end.

Definition ResetInstances (method : Z) (isRaid : bool) (SendMsgTo : option Z) : M unit :=
  g <- getg id ;;
  if negb (is_regular g) then ret tt
  else
    l <- get_binds (GetDifficulty g isRaid) ;;
    let n := S (length l) in
    reset_loop (n * n) method (GetDifficulty g isRaid) isRaid SendMsgTo O.

(** ** The player's binds *)

Definition put_player_binds (guid : Z) (diff : nat) (l : list (Z * bool)) : M unit :=
  mod_player guid (fun p => set_p_boundInstances (<[diff := l]> (p_boundInstances p)) p).

(** [Player::UnbindInstance] of the first of the binds [(sid, perm) :: rest]
    left to visit, after the binds [kept]. *)
Definition unbind_player (guid : Z) (diff : nat) (kept : list (Z * bool)) (sid : Z) (perm : bool)
    (rest : list (Z * bool)) : M unit :=
  emit (Db "CHAR_DEL_CHAR_INSTANCE_BY_INSTANCE_GUID" [GUID_LOPART guid; sid]) ;;;
  when perm (emit (Call guid "SendCalendarRaidLockout" [sid; 0])) ;;;
  emit (Call sid "RemovePlayer" [guid]) ;;;
  put_player_binds guid diff (kept ++ rest).

(** [Player::ConvertInstancesToGroup]: the loop over one difficulty. *)
Fixpoint convert_binds (guid : Z) (switchLeader : bool) (diff : nat) (kept l : list (Z * bool))
    : M unit :=
  match l with
  | [] => ret tt
  | (sid, perm) :: l =>
      _ <- BindToInstance (Some sid) perm false ;;
      if switchLeader && negb perm
      then unbind_player guid diff kept sid perm l ;;; convert_binds guid switchLeader diff kept l
      else convert_binds guid switchLeader diff (kept ++ [(sid, perm)]) l
  end.

Definition ConvertInstancesToGroup (guid : Z) (switchLeader : bool) : M unit :=
  for_each (seq 0 (Z.to_nat MAX_DIFFICULTY)) (fun diff =>
    p <- get_player guid ;;
    match p_boundInstances p !! diff with
    | Some l => convert_binds guid switchLeader diff [] l
    | None => throw OutOfBounds
    end).

(** [Player::ResetInstances]: solo binds. *)
Fixpoint player_reset_loop (guid method : Z) (isRaid : bool) (diff : nat) (kept l : list (Z * bool))
    : M unit :=
  match l with
  | [] => ret tt
  | (sid, perm) :: l =>
      s <- get_save sid ;;
      let skips := match maps E !! save_map s with
        | None => true
        | Some entry =>
            negb (Bool.eqb (IsRaid entry) isRaid) || negb (CanReset s) ||
            ((method =? INSTANCE_RESET_ALL) &&
             ((map_type entry =? MAP_RAID) || (Z.of_nat diff =? DUNGEON_DIFFICULTY_HEROIC)))
        end in
      if skips then player_reset_loop guid method isRaid diff (kept ++ [(sid, perm)]) l
      else
        history <- gets trace ;;
        when (loaded_dungeon E sid) (emit (Call sid "Reset" [method])) ;;;
        if loaded_dungeon E sid && negb (map_reset E history sid method)
        then player_reset_loop guid method isRaid diff (kept ++ [(sid, perm)]) l
        else
          when ((method =? INSTANCE_RESET_ALL) || (method =? INSTANCE_RESET_CHANGE_DIFFICULTY))
            (emit (Call guid "SendResetInstanceSuccess" [save_map s])) ;;;
          emit (Call sid "DeleteFromDB" []) ;;;
          put_player_binds guid diff (kept ++ l) ;;;
          emit (Call sid "RemovePlayer" [guid]) ;;;
          player_reset_loop guid method isRaid diff kept l
  end.

Definition player_ResetInstances (guid method : Z) (isRaid : bool) : M unit :=
  p <- get_player guid ;;
  let diff := if isRaid then p_raidDifficulty p else p_dungeonDifficulty p in
  if diff <? 0 then throw OutOfBounds
  else match p_boundInstances p !! Z.to_nat diff with
  | Some l => player_reset_loop guid method isRaid (Z.to_nat diff) [] l
  | None => throw OutOfBounds
  end.

(** [_homebindIfInstance], of a player that is not null. *)
Definition _homebindIfInstance (guid : Z) : M unit :=
  p <- get_player guid ;;
  if p_gameMaster p then ret tt
  else match maps E !! p_mapId p with
  | None => throw NullPointer
  | Some entry => when (IsDungeon entry) (mod_player guid (set_p_instanceValid false))
  end.
End instances.

(** ** Resetting the instances of a group *)

(** The group with other binds of one difficulty. *)
Definition with_binds (diff : Z) (l : list (Z * InstanceGroupBind)) (g : Group) : Group :=
  set_boundInstances (<[Z.to_nat diff := l]> (m_boundInstances g)) g.

Lemma binds_with diff l l0 g :
  binds_of diff g = Some l0 -> binds_of diff (with_binds diff l g) = Some l.
Proof.
  unfold binds_of. destruct (diff <? 0); [done|]. intros Hl. simpl.
  apply list_lookup_insert_eq. by eapply lookup_lt_Some.
Qed.

Lemma with_binds_twice diff l1 l2 g :
  with_binds diff l1 (with_binds diff l2 g) = with_binds diff l1 g.
Proof. unfold with_binds, set_boundInstances. simpl. by rewrite list_insert_insert_eq. Qed.

Lemma with_binds_same diff l g : binds_of diff g = Some l -> with_binds diff l g = g.
Proof.
  unfold binds_of, with_binds. destruct (diff <? 0); [done|]. intros Hl.
  rewrite list_insert_id by done. by destruct g.
Qed.

Section reset.
Context (E : Env) (method diff : Z) (isRaid : bool) (SendMsgTo : option Z).

(** The bind is of a save that exists, and whether it is passed over. *)
Definition bind_known (mb : Z * InstanceGroupBind) : Prop := is_Some (saves E !! save mb.2).
Definition bind_stays (mb : Z * InstanceGroupBind) : Prop :=
  exists s, saves E !! save mb.2 = Some s /\ reset_skips E method diff isRaid mb.1 s = true.

Lemma reset_map_Ok sid s w :
  exists b w', reset_map E method sid s w = Ok (b, w') /\ group w' = group w.
Proof.
  unfold reset_map. destruct (_ && _); [|by do 2 eexists].
  unfold bind, gets. destruct (CanReset s); by do 2 eexists.
Qed.

(** What the loop leaves of the binds: some are erased, none that it passes
    over, and with a method that unbinds in any case nothing else stays. *)
Definition reset_leaves (l l' : list (Z * InstanceGroupBind)) : Prop :=
  l' `sublist_of` l /\ (forall mb, mb ∈ l -> bind_stays mb -> mb ∈ l') /\
  (method = INSTANCE_RESET_GROUP_DISBAND \/ method = INSTANCE_RESET_CHANGE_DIFFICULTY ->
   Forall bind_stays l').

Lemma reset_loop_Ok fuel i w l :
  binds_of diff (group w) = Some l -> (i <= length l)%nat ->
  (length l * length l + (length l + 1 - i) <= fuel)%nat ->
  Forall bind_known l ->
  (method = INSTANCE_RESET_GROUP_DISBAND \/ method = INSTANCE_RESET_CHANGE_DIFFICULTY ->
   Forall bind_stays (take i l)) ->
  exists w' l', reset_loop E fuel method diff isRaid SendMsgTo i w = Ok (tt, w') /\
    group w' = with_binds diff l' (group w) /\ reset_leaves l l'.
Proof.
  revert i w l. induction fuel as [|fuel IH]; intros i w l Hl Hi Hfuel Hknown Hpre; [lia|].
  simpl. unfold bind at 1, get_binds. rewrite Hl.
  destruct (l !! i) as [[mapid b]|] eqn:Hb.
  - pose proof (lookup_lt_Some _ _ _ Hb) as Hlt.
    destruct (Forall_lookup_1 _ _ _ _ Hknown Hb) as [s Hs]. simpl in Hs.
    unfold bind at 1, get_save. rewrite Hs.
    destruct (reset_skips E method diff isRaid mapid s) eqn:Hskip.
    { apply IH; [done|lia|lia|done|]. intros Hm. rewrite (take_S_r _ _ _ Hb). apply Forall_app.
      split; [by apply Hpre|]. constructor; [|done]. by exists s. }
    destruct (reset_map_Ok (save b) s w) as (e & w1 & E1 & G1). unfold bind at 1. rewrite E1.
    assert (exists w2, match SendMsgTo with
            | Some p => emit (if e then Call p "SendResetInstanceSuccess" [save_map s]
                              else Call p "SendResetInstanceFailed" [0; save_map s])
            | None => ret tt
            end w1 = Ok (tt, w2) /\ group w2 = group w) as (w2 & E2 & G2)
      by (destruct SendMsgTo; eexists; split; [reflexivity|done|reflexivity|done]).
    unfold bind at 1. rewrite E2.
    destruct (e || _ || _) eqn:Herase.
    + unfold bind at 1, emit, modify. unfold bind at 1, put_binds, modg, modify.
      unfold bind at 1, getg, gets. unfold bind at 1.
      match goal with |- context [reset_loop _ fuel _ _ _ _ O ?x] => set (w3 := x) end.
      assert (group w3 = with_binds diff (delete i l) (group w)) as G3 by (simpl; by rewrite G2).
      clearbody w3.
      assert (length (delete i l) = length l - 1)%nat as Hlen.
      { rewrite length_delete by done. lia. }
      destruct (IH O w3 (delete i l)) as (w' & l' & Ew & Gw & Hsub & Hstay & Hall).
      * rewrite G3. by eapply binds_with.
      * lia.
      * rewrite Hlen. nia.
      * by apply Forall_delete.
      * by constructor.
      * exists w', l'. split; [done|]. split; [by rewrite Gw, G3, with_binds_twice|].
        split_and!; [|intros mb Hin Hmb|done].
        -- transitivity (delete i l); [done|apply sublist_delete].
        -- apply Hstay; [|done]. apply list_elem_of_lookup in Hin as [j Hj].
           assert (j <> i) as Hne.
           { intros ->. rewrite Hb in Hj. injection Hj as <-. destruct Hmb as (s' & Hs' & Hr).
             simpl in *. congruence. }
           apply list_elem_of_lookup. destruct (decide (j < i)%nat).
           ++ exists j. by rewrite list_lookup_delete_lt.
           ++ exists (j - 1)%nat. rewrite list_lookup_delete_ge by lia.
              by replace (S (j - 1)) with j by lia.
    + destruct (IH (S i) w2 l) as (w' & l' & Ew & Gw & Hleaves).
      * by rewrite G2.
      * lia.
      * lia.
      * done.
      * intros [-> | ->]; by destruct e.
      * exists w', l'. by rewrite Gw, G2.
  - apply lookup_ge_None in Hb. exists w, l. split; [done|].
    split; [by rewrite with_binds_same|]. split; [done|]. split; [done|].
    intros Hm. specialize (Hpre Hm). by rewrite take_ge in Hpre.
Qed.
End reset.

(** Resetting the instances of a group comes to an end although its loop
    starts over after each erased bind, changes only the binds of the
    difficulty, keeps every bind it has to pass over and, when the group is
    disbanded or the difficulty changes, no other. *)
Theorem ResetInstances_total E method isRaid SendMsgTo w l :
  is_regular (group w) = true ->
  binds_of (GetDifficulty (group w) isRaid) (group w) = Some l ->
  Forall (bind_known E) l ->
  exists w' l', ResetInstances E method isRaid SendMsgTo w = Ok (tt, w') /\
    group w' = with_binds (GetDifficulty (group w) isRaid) l' (group w) /\
    reset_leaves E method (GetDifficulty (group w) isRaid) isRaid l l'.
Proof.
  intros Hreg Hl Hknown. unfold ResetInstances. unfold bind at 1, getg, gets.
  cbv beta iota. unfold id. rewrite Hreg. cbn [negb]. unfold bind at 1, get_binds. rewrite Hl.
  apply reset_loop_Ok; [done|lia|nia|done|]. intros _. constructor.
Qed.

Definition sample_binds : Group :=
  set_boundInstances [[(33, mkBind 501 false); (36, mkBind 502 true)]; []; []; []] (sample_group []).
Definition sample_saves : Env :=
  mkEnv 3 ∅ (fun _ _ => true) (fun _ _ => true) (fun _ _ => true) (fun _ _ => true) (fun _ _ => true)
    (fun _ _ _ _ => 0) (fun _ _ _ => 0) ∅ (fun _ => 1) (fun _ => false) (fun _ => 0) (fun _ => 0)
    {[33 := mkMapEntry true false 1; 36 := mkMapEntry true false 1]}
    {[501 := mkSave 33 0 true; 502 := mkSave 36 0 false]}
    (fun _ d => d) (fun _ => true) (fun _ _ _ => false) (fun _ _ => false) (fun _ => false)
    (fun _ => false) (fun _ => 0) (fun _ => Some true) (fun _ => 0).

Lemma ResetInstances_total_witness :
  exists w' l', ResetInstances sample_saves INSTANCE_RESET_ALL false (Some 1)
      (set_group sample_binds (sample_world [])) = Ok (tt, w') /\
    group w' = with_binds 0 l' sample_binds /\
    reset_leaves sample_saves INSTANCE_RESET_ALL 0 false
      [(33, mkBind 501 false); (36, mkBind 502 true)] l'.
Proof.
  apply (ResetInstances_total sample_saves INSTANCE_RESET_ALL false (Some 1)
    (set_group sample_binds (sample_world []))); [done|done|].
  repeat constructor; by eexists.
Defined.

End GroupInstances.
