(* ===== verification/Group.v ===== *)
(** * Group: members of a party or raid

    [Groups/Group.cpp] but for the loot rolls and the instance binds: creation
    and loading, invites, members and their subgroups, leader, flags, loot
    method, raid target icons and difficulties, and the packets they send; with
    the references of [Player] to its groups and the opcode handlers of
    [Handlers/GroupHandler.cpp]. *)
From S2P Require Import Prelude OrderedMap GroupMgr GroupState Roll GroupInstances.
#[global] Open Scope Z_scope.

Module Group.
Import GroupState GroupInstances.

Definition GROUP_REMOVEMETHOD_KICK := 1.
Definition GROUP_REMOVEMETHOD_KICK_LFG := 3.
Definition LEVELREQUIREMENT_HEROIC := 70.
Definition SKILL_ENCHANTING := 333.
Definition ITEM_QUALITY_UNCOMMON := 2.
Definition MAX_DUNGEON_DIFFICULTY := 3.
Definition MAX_RAID_DIFFICULTY := 4.
Definition MEMBER_STATUS_ONLINE := 1.
Definition MEMBER_STATUS_PVP := 2.

(** ** Queries *)

Definition IsFull (g : Group) : bool :=
  if isRaidGroup g then bool_decide (MAXRAIDSIZE <= Z.of_nat (length (m_memberSlots g)))
  else bool_decide (MAXGROUPSIZE <= Z.of_nat (length (m_memberSlots g))).
Definition IsCreated (g : Group) : bool := 0 <? GetMembersCount g.
Definition IsMember (guid : Z) (g : Group) : bool :=
  match find_slot guid (m_memberSlots g) with Some _ => true | None => false end.
Definition IsLeader (guid : Z) (g : Group) : bool := m_leaderGuid g =? guid.
Definition GetMemberGUID (name : string) (g : Group) : Z :=
  match find (fun s => bool_decide (ms_name s = name)) (m_memberSlots g) with
  | Some s => ms_guid s
  | None => 0
  end.
Definition IsAssistant (guid : Z) (g : Group) : bool :=
  match find_slot guid (m_memberSlots g) with
  | Some s => has (ms_flags s) MEMBER_FLAG_ASSISTANT
  | None => false
  end.
Definition SameSubGroup_slot (guid1 : Z) (slot2 : option MemberSlot) (g : Group) : bool :=
  match find_slot guid1 (m_memberSlots g), slot2 with
  | Some s1, Some s2 => ms_group s1 =? ms_group s2
  | _, _ => false
  end.
Definition SameSubGroup (guid1 guid2 : Z) (g : Group) : bool :=
  match find_slot guid2 (m_memberSlots g) with
  | Some s2 => SameSubGroup_slot guid1 (Some s2) g
  | None => false
  end.
(** The overload for two players. *)
Definition SameSubGroup_players (p1 p2 : option Player) (g : Group) : bool :=
  match p1, p2 with
  | Some p1, Some p2 =>
      match p_group p1, p_group p2 with
      | Some (g1, sub1), Some (g2, sub2) =>
          if negb (g1 =? m_guid g) || negb (g2 =? m_guid g) then false else sub1 =? sub2
      | _, _ => false
      end
  | _, _ => false
  end.
Definition GetMemberGroup (guid : Z) (g : Group) : Z :=
  match find_slot guid (m_memberSlots g) with
  | Some s => ms_group s
  | None => MAX_RAID_SUBGROUPS + 1
  end.
Definition HasFreeSlotSubGroup (subgroup : Z) (g : Group) : option bool :=
  match m_subGroupsCounts g with
  | None => Some false
  | Some cs => (fun c => c <? MAXGROUPSIZE) <$> cs !! Z.to_nat subgroup
  end.
Definition GetInvited (guid : Z) (g : Group) : option Z :=
  find (fun i => i =? guid) (m_invitees g).
Definition GetInvited_name (name : string) (w : World) : option Z :=
  find (fun i => match players w !! i with
                 | Some p => bool_decide (p_name p = name)
                 | None => false end) (m_invitees (group w)).
Definition isRollLootActive (g : Group) : bool :=
  match RollId g with [] => false | _ => true end.

(** ** Subgroup counters *)

Definition counter_update (f : Z -> Z) (subgroup : Z) : M unit :=
  counts <- getg m_subGroupsCounts ;;
  match counts with
  | None => ret tt
  | Some cs =>
      match cs !! Z.to_nat subgroup with
      | Some c => modg (set_subGroupsCounts (Some (<[Z.to_nat subgroup := f c]> cs)))
      | None => throw OutOfBounds
      end
  end.
Definition SubGroupCounterIncrease : Z -> M unit := counter_update (fun c => u8 (c + 1)).
Definition SubGroupCounterDecrease : Z -> M unit := counter_update (fun c => u8 (c - 1)).

(** The counting loop of [_initRaidSubGroupsCounter]. *)
Fixpoint count_slots (l : list MemberSlot) (cs : list Z) : result fault (list Z) :=
  match l with
  | [] => Ok cs
  | s :: l =>
      match cs !! Z.to_nat (ms_group s) with
      | Some c => count_slots l (<[Z.to_nat (ms_group s) := u8 (c + 1)]> cs)
      | None => Throw OutOfBounds
      end
  end.
Definition _initRaidSubGroupsCounter : M unit := fun w =>
  match count_slots (m_memberSlots (group w)) (replicate (Z.to_nat MAX_RAID_SUBGROUPS) 0) with
  | Ok cs => Ok (tt, set_group (set_subGroupsCounts (Some cs) (group w)) w)
  | Throw e => Throw e
  end.

(** The search of [AddMember] for a subgroup that is not full. *)
Fixpoint first_free (i : Z) (cs : list Z) : option Z :=
  match cs with
  | [] => None
  | c :: cs => if c <? MAXGROUPSIZE then Some i else first_free (i + 1) cs
  end.

(** ** The players' references to groups

    A reference is a group's guid and a subgroup. The member list of the
    modelled group follows its links. *)
Fixpoint remove_first (x : Z) (l : list Z) : list Z :=
  match l with
  | [] => []
  | y :: l => if y =? x then l else y :: remove_first x l
  end.

Definition unlink (guid : Z) (ref : option (Z * Z)) : M unit :=
  g <- getg id ;;
  match ref with
  | Some (gid, _) => when (gid =? m_guid g) (modg (set_memberMgr (remove_first guid (m_memberMgr g))))
  | None => ret tt
  end.
(** [link] of a reference that is not valid, with [LinkMember]. *)
Definition link (guid gid : Z) : M unit :=
  g <- getg id ;; when (gid =? m_guid g) (modg (set_memberMgr (guid :: m_memberMgr g))).

(** [SetGroup] and [SetOriginalGroup]; the subgroup is an int8. *)
Definition SetGroup (guid : Z) (to : option (Z * Z)) : M unit :=
  p <- get_player guid ;;
  match to with
  | None => unlink guid (p_group p) ;;; mod_player guid (set_p_group None)
  | Some (gid, subgroup) =>
      if s8 subgroup <? 0 then throw AssertFailed
      else
        unlink guid (p_group p) ;;; link guid gid ;;;
        mod_player guid (set_p_group (Some (gid, u8 (s8 subgroup))))
  end ;;;
  emit (Call guid "UpdateObjectVisibility" [0]).

Definition SetOriginalGroup (guid : Z) (to : option (Z * Z)) : M unit :=
  p <- get_player guid ;;
  match to with
  | None => unlink guid (p_originalGroup p) ;;; mod_player guid (set_p_originalGroup None)
  | Some (gid, subgroup) =>
      if s8 subgroup <? 0 then throw AssertFailed
      else
        unlink guid (p_originalGroup p) ;;; link guid gid ;;;
        mod_player guid (set_p_originalGroup (Some (gid, u8 (s8 subgroup))))
  end.

Definition SetBattlegroundOrBattlefieldRaid (guid gid subgroup : Z) : M unit :=
  p <- get_player guid ;;
  SetOriginalGroup guid (p_group p) ;;;
  unlink guid (p_group p) ;;; link guid gid ;;;
  mod_player guid (set_p_group (Some (gid, u8 (s8 subgroup)))).

Definition RemoveFromBattlegroundOrBattlefieldRaid (guid : Z) : M unit :=
  p <- get_player guid ;;
  unlink guid (p_group p) ;;;
  match p_originalGroup p with
  | Some (gid, sub) => link guid gid ;;; mod_player guid (set_p_group (Some (gid, sub)))
  | None => mod_player guid (set_p_group None)
  end ;;;
  SetOriginalGroup guid None.

(** [DelinkMember]: the first reference of the player in the member list. *)
Definition DelinkMember (guid : Z) : M unit :=
  g <- getg id ;;
  if existsb (Z.eqb guid) (m_memberMgr g) then
    p <- get_player guid ;;
    modg (set_memberMgr (remove_first guid (m_memberMgr g))) ;;;
    mod_player guid (if in_group g p then set_p_group None else set_p_originalGroup None)
  else ret tt.

Definition send_session (guid : Z) (opcode : string) (data : list field) : M unit :=
  p <- get_player guid ;;
  if p_session p then emit (Packet guid opcode data) else throw NullPointer.

Definition pvp_status (g : Group) : Z := if is_regular g then 0 else MEMBER_STATUS_PVP.

Section group.
Context (E : Env).

(** ** Updates to the members *)

Definition member_entry (slot : MemberSlot) (citr : MemberSlot) : M (list field) :=
  member <- FindPlayer (ms_guid citr) ;;
  g <- getg id ;;
  ret (if ms_guid slot =? ms_guid citr then []
       else [Str (ms_name citr); U64 (ms_guid citr);
             U8 (Z.lor (match member with Some _ => MEMBER_STATUS_ONLINE | None => 0 end) (pvp_status g));
             U8 (ms_group citr); U8 (ms_flags citr); U8 (ms_roles citr)]).

Fixpoint member_entries (slot : MemberSlot) (l : list MemberSlot) : M (list field) :=
  match l with
  | [] => ret []
  | citr :: l =>
      fs <- member_entry slot citr ;;
      rest <- member_entries slot l ;;
      ret (fs ++ rest)
  end.

(** [SendUpdateToPlayer]; the slot is looked up if it is not given. *)
Definition SendUpdateToPlayer (playerGUID : Z) (slot : option MemberSlot) : M unit :=
  p <- FindPlayer playerGUID ;;
  g <- getg id ;;
  match p with
  | None => ret tt
  | Some p =>
      if negb (p_session p) || negb (in_group g p) then ret tt
      else
        match (match slot with Some s => Some s | None => find_slot playerGUID (m_memberSlots g) end) with
        | None => ret tt
        | Some slot =>
            let others := u32 (GetMembersCount g - 1) in
            entries <- member_entries slot (m_memberSlots g) ;;
            modg (set_counter (u32 (m_counter g + 1))) ;;;
            emit (Packet playerGUID "SMSG_GROUP_LIST"
              ([U8 (m_groupType g); U8 (ms_group slot); U8 (ms_flags slot); U8 (ms_roles slot)] ++
               (if isLFGGroup g
                then [U8 (if lfg_finished E (m_guid g) then 2 else 0); U32 (lfg_dungeon E (m_guid g))]
                else []) ++
               [U64 (m_guid g); U32 (m_counter g); U32 others] ++ entries ++
               [U64 (m_leaderGuid g)] ++
               (if others =? 0 then []
                else [U8 (m_lootMethod g); U64 (m_looterGuid g); U8 (m_lootThreshold g);
                      U8 (m_dungeonDifficulty g); U8 (m_raidDifficulty g); U8 0])))
        end
  end.

Definition SendUpdate : M unit :=
  slots <- getg m_memberSlots ;;
  for_each slots (fun s => SendUpdateToPlayer (ms_guid s) (Some s)).

Definition UpdatePlayerOutOfRange (guid : Z) : M unit :=
  p <- get_player guid ;;
  if negb (p_inWorld p) then ret tt
  else if negb (p_session p) then throw NullPointer
  else
    members <- getg m_memberMgr ;;
    for_each members (fun member =>
      when (negb (IsWithinSight E member guid)) (send_session member "SMSG_PARTY_MEMBER_STATS" [U64 guid])).

Definition BroadcastReadyCheck (opcode : string) (data : list field) : M unit :=
  members <- getg m_memberMgr ;;
  for_each members (fun guid =>
    p <- get_player guid ;;
    g <- getg id ;;
    when (p_session p && (IsLeader guid g || IsAssistant guid g)) (emit (Packet guid opcode data))).

Definition OfflineReadyCheck : M unit :=
  slots <- getg m_memberSlots ;;
  for_each slots (fun s =>
    p <- FindPlayer (ms_guid s) ;;
    when (match p with Some p => negb (p_session p) | None => true end)
      (BroadcastReadyCheck "MSG_RAID_READY_CHECK_CONFIRM" [U64 (ms_guid s); U8 0])).

Definition BroadcastGroupUpdate : M unit :=
  slots <- getg m_memberSlots ;;
  for_each slots (fun s =>
    p <- FindPlayer (ms_guid s) ;;
    match p with
    | Some _ => emit (Call (ms_guid s) "ForceValuesUpdateAtIndex" [0x7A]) ;;;
                emit (Call (ms_guid s) "ForceValuesUpdateAtIndex" [0x37])
    | None => ret tt
    end).

(** ** Enchanting level *)

Definition ResetMaxEnchantingLevel : M unit :=
  modg (set_maxEnchantingLevel 0) ;;;
  slots <- getg m_memberSlots ;;
  for_each slots (fun s =>
    p <- FindPlayer (ms_guid s) ;;
    match p with
    | Some p => modg (fun g => set_maxEnchantingLevel (Z.max (m_maxEnchantingLevel g) (p_skill p)) g)
    | None => ret tt
    end).

(** ** Setters *)

Definition SetLootMethod (v : Z) : M unit := modg (set_lootMethod v).
Definition SetLooterGuid (v : Z) : M unit := modg (set_looterGuid v).
Definition SetLootThreshold (v : Z) : M unit := modg (set_lootThreshold v).
Definition SetBattlegroundGroup (bg : option Z) : M unit := modg (set_bgGroup bg).
Definition SetBattlefieldGroup (bf : option Z) : M unit := modg (set_bfGroup bf).
Definition SetLfgRoles (guid roles : Z) : M unit :=
  slots <- getg m_memberSlots ;;
  match find_slot guid slots with
  | None => ret tt
  | Some _ =>
      modg (set_memberSlots (update_slot guid
        (fun s => mkSlot (ms_guid s) (ms_name s) (ms_group s) (ms_flags s) roles) slots)) ;;;
      SendUpdate
  end.

(** The flags and the subgroup of a slot. *)
Definition slot_flags (f : Z -> Z) (s : MemberSlot) : MemberSlot :=
  mkSlot (ms_guid s) (ms_name s) (ms_group s) (f (ms_flags s)) (ms_roles s).
Definition slot_group (group : Z) (s : MemberSlot) : MemberSlot :=
  mkSlot (ms_guid s) (ms_name s) group (ms_flags s) (ms_roles s).
Definition toggle (flag : Z) (apply : bool) (flags : Z) : Z :=
  if apply then Z.lor flags flag else Z.ldiff flags flag.

Definition RemoveUniqueGroupMemberFlag (flag : Z) : M unit :=
  modg (fun g => set_memberSlots
    ((fun s => if has (ms_flags s) flag then slot_flags (toggle flag false) s else s) <$> m_memberSlots g) g).
Definition ToggleGroupMemberFlag (guid flag : Z) (apply : bool) : M unit :=
  modg (fun g => set_memberSlots (update_slot guid (slot_flags (toggle flag apply)) (m_memberSlots g)) g).

Definition SetGroupMemberFlag (guid : Z) (apply : bool) (flag : Z) : M unit :=
  g <- getg id ;;
  if negb (isRaidGroup g) then ret tt
  else match find_slot guid (m_memberSlots g) with
  | None => ret tt
  | Some _ =>
      if negb ((flag =? MEMBER_FLAG_MAINASSIST) || (flag =? MEMBER_FLAG_MAINTANK) ||
               (flag =? MEMBER_FLAG_ASSISTANT)) then ret tt
      else
        when ((flag =? MEMBER_FLAG_MAINASSIST) || (flag =? MEMBER_FLAG_MAINTANK))
          (RemoveUniqueGroupMemberFlag flag) ;;;
        ToggleGroupMemberFlag guid flag apply ;;;
        slots <- getg m_memberSlots ;;
        emit (Db "CHAR_UPD_GROUP_MEMBER_FLAG"
          [match find_slot guid slots with Some s => ms_flags s | None => 0 end; GUID_LOPART guid]) ;;;
        SendUpdate
  end.

(** [_setMembersGroup], which no caller uses. *)
Definition _setMembersGroup (guid group : Z) : M bool :=
  g <- getg id ;;
  match find_slot guid (m_memberSlots g) with
  | None => ret false
  | Some _ =>
      modg (fun g => set_memberSlots (update_slot guid (slot_group group) (m_memberSlots g)) g) ;;;
      SubGroupCounterIncrease group ;;;
      when (is_regular g) (emit (Db "CHAR_UPD_GROUP_MEMBER_SUBGROUP" [group; GUID_LOPART guid])) ;;;
      ret true
  end.

Definition ChangeMembersGroup (guid group : Z) : M unit :=
  g <- getg id ;;
  if negb (isRaidGroup g) then ret tt
  else match find_slot guid (m_memberSlots g) with
  | None => ret tt
  | Some slot =>
      let prevSubGroup := ms_group slot in
      if prevSubGroup =? group then ret tt
      else
        modg (fun g => set_memberSlots (update_slot guid (slot_group group) (m_memberSlots g)) g) ;;;
        SubGroupCounterIncrease group ;;;
        SubGroupCounterDecrease prevSubGroup ;;;
        when (is_regular g) (emit (Db "CHAR_UPD_GROUP_MEMBER_SUBGROUP" [group; GUID_LOPART guid])) ;;;
        p <- FindPlayer guid ;;
        match p with
        | None => ret tt
        | Some p =>
            if in_group g p
            then mod_player guid (set_p_group ((fun r => (r.1, group)) <$> p_group p))
            else mod_player guid (set_p_originalGroup ((fun r => (r.1, group)) <$> p_originalGroup p))
        end ;;;
        SendUpdate
  end.

(** ** Raid target icons *)

(** One icon is written and broadcast. *)
Definition write_icon (id whoGuid targetGuid : Z) : M unit :=
  modg (fun g => set_targetIcons (<[Z.to_nat id := targetGuid]> (m_targetIcons g)) g) ;;;
  BroadcastPacket "MSG_RAID_TARGET_UPDATE" [U8 0; U64 whoGuid; U8 id; U64 targetGuid] true (-1) 0.

(** [SetTargetIcon]: an icon that has the target is cleared by a call with
    target 0, whose own loop over the icons is not run. *)
Definition SetTargetIcon (id whoGuid targetGuid : Z) : M unit :=
  if TARGETICONCOUNT <=? id then ret tt
  else
    when (negb (targetGuid =? 0))
      (for_each (seq 0 (Z.to_nat TARGETICONCOUNT)) (fun i =>
        icons <- getg m_targetIcons ;;
        match icons !! i with
        | None => throw OutOfBounds
        | Some t => when (t =? targetGuid) (write_icon (Z.of_nat i) 0 0)
        end)) ;;;
    write_icon id whoGuid targetGuid.

Fixpoint icon_list (i : Z) (icons : list Z) : list field :=
  match icons with
  | [] => []
  | t :: icons => (if t =? 0 then [] else [U8 i; U64 t]) ++ icon_list (i + 1) icons
  end.
Definition SendTargetIconList (player : Z) : M unit :=
  p <- get_player player ;;
  icons <- getg m_targetIcons ;;
  when (p_session p) (emit (Packet player "MSG_RAID_TARGET_UPDATE" (U8 1 :: icon_list 0 icons))).

(** ** Round robin looting *)

(** The first member of the slots that is online and near the object. *)
Fixpoint find_near (object : Z) (w : World) (l : list MemberSlot) : option Z :=
  match l with
  | [] => None
  | s :: l =>
      match find_player w (ms_guid s) with
      | Some _ => if IsWithinDistInMap E (ms_guid s) object then Some (ms_guid s)
                  else find_near object w l
      | None => find_near object w l
      end
  end.

(** The slots after the looter's, if it has one, and those up to it. *)
Definition after_looter (g : Group) : list MemberSlot * list MemberSlot :=
  match slot_index (m_looterGuid g) (m_memberSlots g) with
  | Some i => (drop (S i) (m_memberSlots g), take (S i) (m_memberSlots g))
  | None => ([], m_memberSlots g)
  end.

Definition next_looter (object : Z) (w : World) : option Z :=
  let '(later, earlier) := after_looter (group w) in
  match find_near object w later with
  | Some p => Some p
  | None => find_near object w earlier
  end.

Definition UpdateLooterGuid (object : Z) (ifneed : bool) : M unit :=
  g <- getg id ;;
  if (m_lootMethod g =? MASTER_LOOT) || (m_lootMethod g =? FREE_FOR_ALL) then ret tt
  else
    p <- FindPlayer (m_looterGuid g) ;;
    if ifneed && IsMember (m_looterGuid g) g &&
       match p with Some _ => IsWithinDistInMap E (m_looterGuid g) object | None => false end
    then ret tt
    else
      next <- gets (next_looter object) ;;
      match next with
      | Some p => if m_looterGuid g =? p then ret tt else SetLooterGuid p ;;; SendUpdate
      | None => SetLooterGuid 0 ;;; SendUpdate
      end.

(** ** Difficulties *)

Definition SetDungeonDifficulty (difficulty : Z) : M unit :=
  modg (set_dungeonDifficulty difficulty) ;;;
  g <- getg id ;;
  when (is_regular g) (emit (Db "CHAR_UPD_GROUP_DIFFICULTY" [difficulty; m_dbStoreId g])) ;;;
  for_each (m_memberMgr g) (fun guid =>
    p <- get_player guid ;;
    when (p_session p)
      (mod_player guid (set_p_dungeonDifficulty difficulty) ;;;
       emit (Call guid "SendDungeonDifficulty" [1]))).

Definition SetRaidDifficulty (difficulty : Z) : M unit :=
  modg (set_raidDifficulty difficulty) ;;;
  g <- getg id ;;
  when (is_regular g) (emit (Db "CHAR_UPD_GROUP_RAID_DIFFICULTY" [difficulty; m_dbStoreId g])) ;;;
  for_each (m_memberMgr g) (fun guid =>
    p <- get_player guid ;;
    when (p_session p)
      (mod_player guid (set_p_raidDifficulty difficulty) ;;;
       emit (Call guid "SendRaidDifficulty" [1]))).

(** ** Conversion *)

Definition store_type : M unit :=
  g <- getg id ;;
  when (is_regular g) (emit (Db "CHAR_UPD_GROUP_TYPE" [u8 (m_groupType g); m_dbStoreId g])).

Definition ConvertToLFG : M unit :=
  modg (fun g => set_groupType (Z.lor (m_groupType g) (Z.lor GROUPTYPE_LFG GROUPTYPE_UNK1)) g) ;;;
  modg (set_lootMethod NEED_BEFORE_GREED) ;;;
  store_type ;;;
  SendUpdate.

Definition ConvertToRaid : M unit :=
  modg (fun g => set_groupType (Z.lor (m_groupType g) GROUPTYPE_RAID) g) ;;;
  _initRaidSubGroupsCounter ;;;
  store_type ;;;
  SendUpdate ;;;
  slots <- getg m_memberSlots ;;
  for_each slots (fun s =>
    p <- FindPlayer (ms_guid s) ;;
    match p with
    | Some _ => emit (Call (ms_guid s) "UpdateForQuestWorldObjects" [])
    | None => ret tt
    end).

(** ** Invites *)

Definition RemoveInvite (player : Z) : M unit :=
  modg (fun g => set_invitees (filter (fun i => i <> player) (m_invitees g)) g) ;;;
  mod_player player (set_p_groupInvite None).

Definition RemoveAllInvites : M unit :=
  invitees <- getg m_invitees ;;
  for_each invitees (fun i => mod_player i (set_p_groupInvite None)) ;;;
  modg (set_invitees []).

(** Whether the group a player references is a battleground's or battlefield's. *)
Definition ref_bg_or_bf (g : Group) (gid : Z) : bool :=
  if gid =? m_guid g then negb (is_regular g) else other_bg_or_bf E gid.

(** The regular group of the player: a battleground group gives way to the
    original one. *)
Definition regular_group (g : Group) (p : Player) : option (Z * Z) :=
  match p_group p with
  | Some (gid, sub) => if ref_bg_or_bf g gid then p_originalGroup p else Some (gid, sub)
  | None => None
  end.

(** [AddInvite]; [None] is a null player. *)
Definition AddInvite (player : option Z) : M bool :=
  match player with
  | None => ret false
  | Some player =>
      p <- get_player player ;;
      g <- getg id ;;
      match p_groupInvite p, regular_group g p with
      | Some _, _ | _, Some _ => ret false
      | None, None =>
          RemoveInvite player ;;;
          modg (fun g => set_invitees (m_invitees g ++ [player]) g) ;;;
          mod_player player (set_p_groupInvite (Some (m_guid g))) ;;;
          emit (Script "OnGroupInviteMember" [m_guid g; player]) ;;;
          ret true
      end
  end.

Definition AddLeaderInvite (player : option Z) : M bool :=
  added <- AddInvite player ;;
  match added, player with
  | true, Some player =>
      p <- get_player player ;;
      modg (fun g => set_leaderName (p_name p) (set_leaderGuid player g)) ;;;
      ret true
  | _, _ => ret false
  end.

(** ** Adding a member *)

(** The player's reference to the group it joins. *)
Definition join (guid subGroup : Z) : M unit :=
  mod_player guid (set_p_groupInvite None) ;;;
  p <- get_player guid ;;
  g <- getg id ;;
  match p_group p with
  | Some _ => if is_regular g then SetOriginalGroup guid (Some (m_guid g, subGroup))
              else SetBattlegroundOrBattlefieldRaid guid (m_guid g) subGroup
  | None => SetGroup guid (Some (m_guid g, subGroup))
  end ;;;
  bind <- GetBoundInstance E (p_mapId p) ;;
  match bind with
  | Some b => when (save b =? p_instanceId p) (mod_player guid (set_p_instanceValid true))
  | None => ret tt
  end.

(** The difficulties of the group are forced on the new member. *)
Definition take_difficulties (guid : Z) : M unit :=
  p <- get_player guid ;;
  g <- getg id ;;
  when (LEVELREQUIREMENT_HEROIC <=? p_level p)
    (when (negb (p_dungeonDifficulty p =? m_dungeonDifficulty g))
       (mod_player guid (set_p_dungeonDifficulty (m_dungeonDifficulty g)) ;;;
        emit (Call guid "SendDungeonDifficulty" [1])) ;;;
     when (negb (p_raidDifficulty p =? m_raidDifficulty g))
       (mod_player guid (set_p_raidDifficulty (m_raidDifficulty g)) ;;;
        emit (Call guid "SendRaidDifficulty" [1]))).

(** The exchange of the member fields between the new member and the others. *)
Definition exchange_fields (guid : Z) : M unit :=
  emit (Call guid "SetFieldNotifyFlag" [0x040]) ;;;
  members <- getg m_memberMgr ;;
  for_each members (fun member =>
    if member =? guid then ret tt
    else
      when (HaveAtClient E guid member)
        (emit (Call member "SetFieldNotifyFlag" [0x040]) ;;;
         emit (Call member "BuildValuesUpdateBlockForPlayer" [guid]) ;;;
         emit (Call member "RemoveFieldNotifyFlag" [0x040])) ;;;
      when (HaveAtClient E member guid)
        (emit (Call guid "BuildValuesUpdateBlockForPlayer" [member]) ;;;
         send_session member "SMSG_UPDATE_OBJECT" [U64 guid])) ;;;
  when (existsb (fun member => negb (member =? guid) && HaveAtClient E guid member) members)
    (send_session guid "SMSG_UPDATE_OBJECT" []) ;;;
  emit (Call guid "RemoveFieldNotifyFlag" [0x040]).

Definition welcome (guid : Z) : M unit :=
  g <- getg id ;;
  when (negb (IsLeader guid g) && is_regular g)
    (player_ResetInstances E guid INSTANCE_RESET_GROUP_JOIN false ;;;
     player_ResetInstances E guid INSTANCE_RESET_GROUP_JOIN true ;;;
     take_difficulties guid) ;;;
  emit (Call guid "SetGroupUpdateFlag" [0x0007FFFF]) ;;;
  UpdatePlayerOutOfRange guid ;;;
  when (isRaidGroup g) (emit (Call guid "UpdateForQuestWorldObjects" [])) ;;;
  exchange_fields guid ;;;
  p <- get_player guid ;;
  modg (fun g => set_maxEnchantingLevel (Z.max (m_maxEnchantingLevel g) (p_skill p)) g).

Definition AddMember (guid : Z) : M bool :=
  g <- getg id ;;
  match (match m_subGroupsCounts g with Some cs => first_free 0 cs | None => Some 0 end) with
  | None => ret false
  | Some subGroup =>
      p <- get_player guid ;;
      modg (fun g => set_memberSlots (m_memberSlots g ++ [mkSlot guid (p_name p) subGroup 0 0]) g) ;;;
      SubGroupCounterIncrease subGroup ;;;
      when (IS_PLAYER_GUID guid) (join guid subGroup) ;;;
      when (negb (isRaidGroup g))
        (modg (set_targetIcons (replicate (Z.to_nat TARGETICONCOUNT) 0))) ;;;
      when (is_regular g)
        (emit (Db "CHAR_INS_GROUP_MEMBER" [m_dbStoreId g; GUID_LOPART guid; 0; subGroup; 0])) ;;;
      SendUpdate ;;;
      emit (Script "OnGroupAddMember" [m_guid g; guid]) ;;;
      when (IS_PLAYER_GUID guid) (welcome guid) ;;;
      ret true
  end.

(** ** Changing the leader *)

(** The permanent binds are removed, difficulty by difficulty. *)
Definition remove_permanent_binds : M unit :=
  for_each (seq 0 (Z.to_nat MAX_DIFFICULTY)) (fun i =>
    g <- getg id ;;
    match m_boundInstances g !! i with
    | None => throw OutOfBounds
    | Some l =>
        for_each l (fun mb => when (perm mb.2) (emit (Call (save mb.2) "RemoveGroup" [m_guid g]))) ;;;
        modg (set_boundInstances (<[i := filter (fun mb => perm mb.2 = false) l]> (m_boundInstances g)))
    end).

Definition ChangeLeader (guid : Z) : M unit :=
  g <- getg id ;;
  match find_slot guid (m_memberSlots g) with
  | None => ret tt
  | Some slot =>
      p <- FindPlayer (ms_guid slot) ;;
      match p with
      | None => ret tt
      | Some p =>
          emit (Script "OnGroupChangeLeader" [m_guid g; m_leaderGuid g; guid]) ;;;
          when (is_regular g)
            (remove_permanent_binds ;;;
             emit (Db "CHAR_DEL_GROUP_INSTANCE_PERM_BINDING" [m_dbStoreId g; GUID_LOPART guid]) ;;;
             ConvertInstancesToGroup E guid true ;;;
             emit (Db "CHAR_UPD_GROUP_LEADER" [GUID_LOPART guid; m_dbStoreId g])) ;;;
          modg (fun g => set_leaderName (p_name p) (set_leaderGuid guid g)) ;;;
          ToggleGroupMemberFlag guid MEMBER_FLAG_ASSISTANT false ;;;
          BroadcastPacket "SMSG_GROUP_SET_LEADER" [Str (ms_name slot)] true (-1) 0
      end
  end.

(** ** Disbanding *)

(** [~Group] and the end of the object: the references to it are cut. *)
Definition delete_group : M unit :=
  g <- getg id ;;
  match m_bgGroup g with
  | Some bg => emit (Call bg "SetBgRaid" [m_guid g; 0])
  | None => ret tt
  end ;;;
  modg (set_RollId []) ;;;
  for_each (m_boundInstances g) (fun l =>
    for_each l (fun mb => emit (Call (save mb.2) "RemoveGroup" [m_guid g]))) ;;;
  for_each (m_memberMgr g) (fun guid =>
    p <- get_player guid ;;
    mod_player guid (if in_group g p then set_p_group None else set_p_originalGroup None)) ;;;
  modg (set_memberMgr []) ;;;
  modify (set_deleted true).

(** The member leaves the group as far as its references go. *)
Definition leave (guid : Z) : M unit :=
  g <- getg id ;;
  p <- get_player guid ;;
  if negb (is_regular g) then RemoveFromBattlegroundOrBattlefieldRaid guid
  else match p_originalGroup p with
  | Some (gid, _) => if gid =? m_guid g then SetOriginalGroup guid None else SetGroup guid None
  | None => SetGroup guid None
  end.

Definition empty_group_list (guid : Z) : M unit :=
  g <- getg id ;;
  send_session guid "SMSG_GROUP_LIST"
    [U8 0x10; U8 0; U8 0; U8 0; U64 (m_guid g); U32 (m_counter g); U32 0; U64 0].

Definition disband_member (hideDestroy : bool) (guid : Z) : M unit :=
  p <- FindPlayer guid ;;
  match p with
  | None => ret tt
  | Some p =>
      leave guid ;;;
      g <- getg id ;;
      when (isRaidGroup g) (emit (Call guid "UpdateForQuestWorldObjects" [])) ;;;
      if negb (p_session p) then ret tt
      else
        when (negb hideDestroy) (emit (Packet guid "SMSG_GROUP_DESTROYED" [])) ;;;
        p <- get_player guid ;;
        match p_group p with
        | Some (gid, _) => if gid =? m_guid g then SendUpdate else emit (Call gid "SendUpdate" [])
        | None => empty_group_list guid
        end ;;;
        _homebindIfInstance E guid
  end.

Definition registry (f : GroupMgr.GroupMgr -> result GroupMgr.fault GroupMgr.GroupMgr) : M unit :=
  fun w => match f (mgr w) with
           | Ok m => Ok (tt, set_mgr m w)
           | Throw GroupMgr.StopNow => Throw ServerStopped
           | Throw GroupMgr.OutOfRange => Throw OutOfBounds
           end.

Definition Disband (hideDestroy : bool) : M unit :=
  g <- getg id ;;
  emit (Script "OnGroupDisband" [m_guid g]) ;;;
  for_each (m_memberSlots g) (fun s => disband_member hideDestroy (ms_guid s)) ;;;
  modg (set_RollId []) ;;;
  modg (set_memberSlots []) ;;;
  RemoveAllInvites ;;;
  when (is_regular g)
    (emit (Db "CHAR_DEL_GROUP" [m_dbStoreId g]) ;;;
     emit (Db "CHAR_DEL_GROUP_MEMBER_ALL" [m_dbStoreId g]) ;;;
     ResetInstances E INSTANCE_RESET_GROUP_DISBAND false None ;;;
     ResetInstances E INSTANCE_RESET_GROUP_DISBAND true None ;;;
     emit (Db "CHAR_DEL_LFG_DATA" [m_dbStoreId g]) ;;;
     registry (GroupMgr.FreeGroupDbStoreId (m_dbStoreId g))) ;;;
  registry (fun m => Ok (GroupMgr.RemoveGroup (GUID_LOPART (m_guid g)) m)) ;;;
  delete_group.

(** ** Removing a member *)

(** What an online member that is removed is told. *)
Definition dismiss (guid method : Z) : M unit :=
  g <- getg id ;;
  leave guid ;;;
  when (is_regular g) (emit (Call guid "UpdateForQuestWorldObjects" [])) ;;;
  when ((method =? GROUP_REMOVEMETHOD_KICK) || (method =? GROUP_REMOVEMETHOD_KICK_LFG))
    (send_session guid "SMSG_GROUP_UNINVITE" []) ;;;
  empty_group_list guid ;;;
  _homebindIfInstance E guid.

(** Its slot is erased and its subgroup's counter decreased. *)
Definition erase_member (guid : Z) : M unit :=
  g <- getg id ;;
  match find_slot guid (m_memberSlots g) with
  | Some slot =>
      SubGroupCounterDecrease (ms_group slot) ;;;
      modg (fun g => set_memberSlots (erase_slot guid (m_memberSlots g)) g)
  | None => ret tt
  end.

(** The first member in the order of the slots that is online. *)
Definition online_member (w : World) : option MemberSlot :=
  find (fun s => match find_player w (ms_guid s) with Some _ => true | None => false end)
    (m_memberSlots (group w)).
Definition succeed_leader (guid : Z) : M unit :=
  g <- getg id ;;
  if m_leaderGuid g =? guid then
    next <- gets online_member ;;
    match next with
    | Some s => ChangeLeader (ms_guid s)
    | None => ret tt
    end
  else ret tt.

(** The end of [RemoveMember]: a group left too small is disbanded. *)
Definition after_removal : M bool :=
  g <- getg id ;;
  leader <- FindPlayer (m_leaderGuid g) ;;
  let mapId := lfg_dungeon_map E (m_guid g) in
  if isLFGGroup g && (GetMembersCount g =? 1) &&
     ((mapId =? 0) ||
      match leader with Some l => p_alive l && negb (p_mapId l =? mapId) | None => true end)
  then Disband false ;;; ret false
  else
    when ((Z.of_nat (length (m_memberMgr g)) <? (if isLFGGroup g || isBGGroup g then 1 else 2)) &&
          (GetMembersCount g <? (if isBGGroup g || isLFGGroup g then 1 else 2)))
      (Disband false) ;;;
    ret true.

Definition RemoveMember (guid method kicker : Z) : M bool :=
  BroadcastGroupUpdate ;;;
  g <- getg id ;;
  emit (Script "OnGroupRemoveMember" [m_guid g; guid; method; kicker]) ;;;
  if isLFGGroup g && (method =? GROUP_REMOVEMETHOD_KICK)
  then ret (negb (Z.of_nat (length (m_memberSlots g)) =? 0))
  else if (if isBGGroup g || isLFGGroup g || isBFGroup g then 1 else 2) <? GetMembersCount g then
    p <- FindPlayer guid ;;
    match p with Some _ => dismiss guid method | None => ret tt end ;;;
    when (is_regular g) (emit (Db "CHAR_DEL_GROUP_MEMBER" [GUID_LOPART guid]) ;;; DelinkMember guid) ;;;
    when (match p with Some p => negb (p_skill p =? 0) | None => true end) ResetMaxEnchantingLevel ;;;
    Roll.remove_from_rolls E guid ;;;
    erase_member guid ;;;
    succeed_leader guid ;;;
    SendUpdate ;;;
    after_removal
  else Disband false ;;; ret false.

(** ** Creating and loading a group *)

Definition GenerateGroupId : M Z := fun w =>
  match GroupMgr.GenerateGroupId (mgr w) with
  | Ok (i, m) => Ok (i, set_mgr m w)
  | Throw _ => Throw ServerStopped
  end.
Definition GenerateNewGroupDbStoreId : M Z := fun w =>
  match GroupMgr.GenerateNewGroupDbStoreId (mgr w) with
  | Ok (i, m) => Ok (i, set_mgr m w)
  | Throw _ => Throw ServerStopped
  end.

(** [Group::Group()]. *)
Definition new_group : Group :=
  mkGroup [] [] [] 0 "" 0 0 0 None None (replicate 8 0) FREE_FOR_ALL ITEM_QUALITY_UNCOMMON 0 []
    [[]; []; []; []] None 0 0 0 0.

Definition store_group : M unit :=
  g <- getg id ;;
  emit (Db "CHAR_INS_GROUP"
    ([m_dbStoreId g; GUID_LOPART (m_leaderGuid g); u8 (m_lootMethod g); GUID_LOPART (m_looterGuid g);
      u8 (m_lootThreshold g)] ++ (u32 <$> m_targetIcons g) ++
     [u8 (m_groupType g); u8 (m_dungeonDifficulty g); u8 (m_raidDifficulty g)])).

Definition Create (leader : Z) : M bool :=
  lowguid <- GenerateGroupId ;;
  p <- get_player leader ;;
  modg (fun g =>
    set_leaderName (p_name p) (set_leaderGuid leader
      (GroupState.set_guid (MAKE_NEW_GUID lowguid 0 HIGHGUID_GROUP)
        (if is_regular g then g else set_groupType GROUPTYPE_BGRAID g)))) ;;;
  g <- getg id ;;
  when (isRaidGroup g) _initRaidSubGroupsCounter ;;;
  (if p_haveBot p then SetLootMethod FREE_FOR_ALL
   else when (negb (isLFGGroup g)) (SetLootMethod (bot_loot_method E))) ;;;
  SetLootThreshold ITEM_QUALITY_UNCOMMON ;;;
  SetLooterGuid leader ;;;
  modg (set_dungeonDifficulty 0) ;;;
  modg (set_raidDifficulty 0) ;;;
  if is_regular g then
    modg (set_dungeonDifficulty (p_dungeonDifficulty p)) ;;;
    modg (set_raidDifficulty (p_raidDifficulty p)) ;;;
    storeId <- GenerateNewGroupDbStoreId ;;
    modg (set_dbStoreId storeId) ;;;
    registry (fun m => Ok (GroupMgr.RegisterGroupDbStoreId storeId (m_guid g) m)) ;;;
    store_group ;;;
    added <- AddMember leader ;;
    if added : bool then ConvertInstancesToGroup E leader false ;;; ret true else throw AssertFailed
  else AddMember leader.

(** [LoadGroupFromDB]: column [k] of the row. *)
Definition LoadGroupFromDB (fields : list Z) : M unit :=
  let f k := default 0 (fields !! k) in
  modg (set_dbStoreId (u32 (f 15%nat))) ;;;
  lowguid <- GenerateGroupId ;;
  modg (GroupState.set_guid (MAKE_NEW_GUID lowguid 0 HIGHGUID_GROUP)) ;;;
  modg (set_leaderGuid (MAKE_NEW_GUID (u32 (f 0%nat)) 0 0)) ;;;
  match player_names E !! u32 (f 0%nat) with
  | None => ret tt
  | Some name =>
      modg (set_leaderName name) ;;;
      SetLootMethod (u8 (f 1%nat)) ;;;
      SetLooterGuid (MAKE_NEW_GUID (u32 (f 2%nat)) 0 0) ;;;
      SetLootThreshold (u8 (f 3%nat)) ;;;
      modg (set_targetIcons ((fun i => u32 (f (4 + i)%nat)) <$> seq 0 (Z.to_nat TARGETICONCOUNT))) ;;;
      modg (set_groupType (u8 (f 12%nat))) ;;;
      g <- getg id ;;
      when (isRaidGroup g) _initRaidSubGroupsCounter ;;;
      modg (set_dungeonDifficulty
        (if MAX_DUNGEON_DIFFICULTY <=? u8 (f 13%nat) then 0 else u8 (f 13%nat))) ;;;
      modg (set_raidDifficulty
        (if MAX_RAID_DIFFICULTY <=? u8 (f 14%nat) then 0 else u8 (f 14%nat))) ;;;
      when (isLFGGroup g) (emit (Call (m_guid g) "LFGMgr::_LoadFromDB" []))
  end.

Definition LoadMemberFromDB (guidLow memberFlags subgroup roles : Z) : M unit :=
  let guid := MAKE_NEW_GUID guidLow 0 0 in
  match player_names E !! guid with
  | None => emit (Db "CHAR_DEL_GROUP_MEMBER" [guidLow])
  | Some name =>
      modg (fun g => set_memberSlots
        (m_memberSlots g ++ [mkSlot guid name subgroup memberFlags roles]) g) ;;;
      SubGroupCounterIncrease subgroup ;;;
      g <- getg id ;;
      emit (Call guid "LFGMgr::SetupGroupMember" [m_guid g])
  end.

(** ** Opcode handlers

    The handlers are those of a player whose group, or the group that invited
    it, is the modelled one; with no group they return at once. *)
Definition ERR_PARTY_RESULT_OK := 0.
Definition ERR_GROUP_FULL := 4.
Definition PARTY_OP_INVITE := 0.

Definition SendPartyResult (player operation : Z) (member : string) (res : Z) : M unit :=
  emit (Packet player "SMSG_PARTY_COMMAND_RESULT" [U32 operation; Str member; U32 res; U32 0]).

Definition with_group (player : Z) (k : Group -> M unit) : M unit :=
  p <- get_player player ;;
  g <- getg id ;;
  if in_group g p then k g else ret tt.

Definition AddGroup : M unit :=
  g <- getg id ;; registry (fun m => Ok (GroupMgr.AddGroup (GUID_LOPART (m_guid g)) (m_guid g) m)).

Definition HandleGroupAcceptOpcode (player : Z) : M unit :=
  p <- get_player player ;;
  match p_groupInvite p with
  | None => ret tt
  | Some _ =>
      RemoveInvite player ;;;
      g <- getg id ;;
      if IsLeader player g then ret tt
      else if IsFull g then SendPartyResult player PARTY_OP_INVITE "" ERR_GROUP_FULL
      else
        leader <- FindPlayer (m_leaderGuid g) ;;
        match IsCreated g, leader with
        | false, None => RemoveAllInvites
        | created, _ =>
            when (negb created)
              (RemoveInvite (m_leaderGuid g) ;;; _ <- Create (m_leaderGuid g) ;; AddGroup) ;;;
            added <- AddMember player ;;
            when added BroadcastGroupUpdate
        end
  end.

(** [Player::UninviteFromGroup]. *)
Definition UninviteFromGroup (player : Z) : M unit :=
  p <- get_player player ;;
  match p_groupInvite p with
  | None => ret tt
  | Some _ =>
      RemoveInvite player ;;;
      g <- getg id ;;
      if GetMembersCount g <=? 1
      then if IsCreated g then Disband true else RemoveAllInvites ;;; delete_group
      else ret tt
  end.

Definition HandleGroupDeclineOpcode (player : Z) : M unit :=
  p <- get_player player ;;
  match p_groupInvite p with
  | None => ret tt
  | Some _ =>
      g <- getg id ;;
      leader <- FindPlayer (m_leaderGuid g) ;;
      UninviteFromGroup player ;;;
      match leader with
      | Some l => when (p_session l) (emit (Packet (m_leaderGuid g) "SMSG_GROUP_DECLINE" [Str (p_name p)]))
      | None => ret tt
      end
  end.

Definition HandleGroupSetLeaderOpcode (player guid : Z) : M unit :=
  p <- FindPlayer guid ;;
  with_group player (fun g =>
    match p with
    | Some p =>
        if negb (IsLeader player g) || negb (in_group g p) then ret tt
        else ChangeLeader guid ;;; SendUpdate
    | None => ret tt
    end).

Definition HandleLootMethodOpcode (player lootMethod lootMaster lootThreshold : Z) : M unit :=
  with_group player (fun g =>
    if negb (IsLeader player g) then ret tt
    else SetLootMethod lootMethod ;;; SetLooterGuid lootMaster ;;; SetLootThreshold lootThreshold ;;;
         SendUpdate).

Definition HandleRaidTargetUpdateOpcode (player x guid : Z) : M unit :=
  with_group player (fun g =>
    if x =? 0xFF then SendTargetIconList player
    else if negb (IsLeader player g) && negb (IsAssistant player g) then ret tt
    else SetTargetIcon x player guid).

Definition HandleGroupRaidConvertOpcode (player : Z) : M unit :=
  with_group player (fun g =>
    if in_battleground E player then ret tt
    else if negb (IsLeader player g) || (GetMembersCount g <? 2) then ret tt
    else SendPartyResult player PARTY_OP_INVITE "" ERR_PARTY_RESULT_OK ;;; ConvertToRaid).

(** [ObjectAccessor::FindPlayerByName]: a player in the world, without regard to
    the case of the name; or else the guid the name is stored with. *)
Definition tolower (c : Ascii.ascii) : Ascii.ascii :=
  let n := Ascii.N_of_ascii c in
  if ((65 <=? n) && (n <=? 90))%N then Ascii.ascii_of_N (n + 32) else c.
Fixpoint lower (s : string) : string :=
  match s with
  | EmptyString => EmptyString
  | String c s => String (tolower c) (lower s)
  end.
Definition player_by_name (name : string) (w : World) : Z :=
  match List.find (fun gp => p_inWorld gp.2 && bool_decide (lower (p_name gp.2) = lower name))
          (map_to_list (players w)) with
  | Some (guid, _) => guid
  | None => guid_by_name E name
  end.

Definition HandleGroupChangeSubGroupOpcode (player : Z) (name : string) (groupNr : Z) : M unit :=
  with_group player (fun g =>
    if MAX_RAID_SUBGROUPS <=? groupNr then ret tt
    else if negb (IsLeader player g) && negb (IsAssistant player g) then ret tt
    else match HasFreeSlotSubGroup groupNr g with
    | None => throw OutOfBounds
    | Some false => ret tt
    | Some true => guid <- gets (player_by_name name) ;; ChangeMembersGroup guid groupNr
    end).

Definition HandleGroupAssistantLeaderOpcode (player guid : Z) (apply : bool) : M unit :=
  with_group player (fun g =>
    if negb (IsLeader player g) then ret tt
    else SetGroupMemberFlag guid apply MEMBER_FLAG_ASSISTANT ;;; SendUpdate).

Definition HandlePartyAssignmentOpcode (player assignment guid : Z) (apply : bool) : M unit :=
  with_group player (fun g =>
    if negb (IsLeader player g) && negb (IsAssistant player g) then ret tt
    else
      (if assignment =? 1 then
         RemoveUniqueGroupMemberFlag MEMBER_FLAG_MAINASSIST ;;;
         SetGroupMemberFlag guid apply MEMBER_FLAG_MAINASSIST
       else if assignment =? 0 then
         RemoveUniqueGroupMemberFlag MEMBER_FLAG_MAINTANK ;;;
         SetGroupMemberFlag guid apply MEMBER_FLAG_MAINTANK
       else ret tt) ;;;
      SendUpdate).

(** [state] is [None] for a request. *)
Definition HandleRaidReadyCheckOpcode (player : Z) (state : option Z) : M unit :=
  with_group player (fun g =>
    match state with
    | None =>
        if negb (IsLeader player g) && negb (IsAssistant player g) then ret tt
        else BroadcastPacket "MSG_RAID_READY_CHECK" [U64 player] false (-1) 0 ;;; OfflineReadyCheck
    | Some state => BroadcastReadyCheck "MSG_RAID_READY_CHECK_CONFIRM" [U64 player; U8 state]
    end).
End group.
End Group.
