(* ===== verification/GroupMembers.v ===== *)
(** * GroupMembers: the members and subgroups of a group stay consistent

    What the operations of [Group.v] keep of the members: the counters of the
    subgroups are the numbers of their members and no subgroup exceeds five; who
    joins where, who leads next and what disbanding leaves. Most operations do
    not touch the members at all; the lemmas named [.._core] say so, and the
    hint database [keeps] collects them. *)
From S2P Require Import Prelude OrderedMap GroupMgr GroupState Roll GroupInstances Group.
#[global] Open Scope Z_scope.

Module GroupMembers.
Import GroupState GroupInstances Group.

(** ** The invariant *)

Definition in_subgroup (i : Z) (s : MemberSlot) : Z := if ms_group s =? i then 1 else 0.
(** The number of members of a subgroup. *)
Fixpoint members_of (i : Z) (l : list MemberSlot) : Z :=
  match l with
  | [] => 0
  | s :: l => in_subgroup i s + members_of i l
  end.

Definition subgroups : list Z := [0; 1; 2; 3; 4; 5; 6; 7].

Record members_ok (slots : list MemberSlot) (counts : option (list Z)) (raid : bool) : Prop := {
  groups_valid : Forall (fun s => 0 <= ms_group s < MAX_RAID_SUBGROUPS) slots;
  groups_small : forall i, members_of i slots <= MAXGROUPSIZE;
  counts_exact : match counts with
    | None => raid = false /\ Forall (fun s => ms_group s = 0) slots
    | Some cs => raid = true /\ cs = (fun i => members_of i slots) <$> subgroups
    end
}.

Definition group_ok (g : Group) : Prop :=
  members_ok (m_memberSlots g) (m_subGroupsCounts g) (isRaidGroup g).

(** What the invariant depends on. *)
Definition view (w : World) : list MemberSlot * option (list Z) * Z :=
  (m_memberSlots (group w), m_subGroupsCounts (group w), m_groupType (group w)).
Definition view_ok (v : list MemberSlot * option (list Z) * Z) : Prop :=
  members_ok v.1.1 v.1.2 (has v.2 GROUPTYPE_RAID).

Lemma group_ok_view w : group_ok (group w) <-> view_ok (view w).
Proof. done. Qed.

(** ** Operations that leave the core alone *)

(** What most operations leave as it is: the view, the leader, the kind and the
    ids of the group, whether it is deleted, the registry, and who is in the
    world. *)
Definition core (w : World) :=
  (m_memberSlots (group w), m_subGroupsCounts (group w), m_groupType (group w),
   m_leaderGuid (group w), (m_guid (group w), m_dbStoreId (group w)),
   (m_bgGroup (group w), m_bfGroup (group w)), deleted w, mgr w, p_inWorld <$> players w).


Abbreviation keeps_view m := (keeps view m).
Abbreviation keeps_core m := (keeps core m).

Lemma view_of_core {A} (m : M A) : keeps_core m -> keeps_view m.
Proof. intros Hk w a w' H. apply Hk in H. unfold core in H. unfold view. congruence. Qed.
#[export] Hint Resolve view_of_core : keeps.

(** What a run of such an operation does to the view. *)
Ltac view_step H :=
  match type of H with
  | ?m ?w = Ok (_, ?w') =>
      let V := fresh "V" in
      assert (view w' = view w) as V by (refine ((_ : keeps_view m) _ _ _ H); keeps_tac);
      clear H; rename V into H
  end.

(** A write to a player that leaves it in the world. *)
Lemma mod_player_core guid h : (forall p, p_inWorld (h p) = p_inWorld p) -> keeps_core (mod_player guid h).
Proof.
  intros Hh w u w'. unfold mod_player. destruct (players w !! guid) as [p|] eqn:Hp; [|done].
  intros [= _ <-]. unfold core. cbn. rewrite fmap_insert, Hh, insert_id; [done|].
  by rewrite lookup_fmap, Hp.
Qed.
#[export] Hint Resolve mod_player_core : keeps.

#[local] Hint Resolve Roll.get_loot_keeps : keeps.

Lemma BroadcastPacket_core op d b s i : keeps_core (BroadcastPacket op d b s i).
Proof. unfold BroadcastPacket. keeps_tac. Qed.
Lemma unlink_core guid ref : keeps_core (unlink guid ref).
Proof. unfold unlink. keeps_tac. Qed.
Lemma link_core guid gid : keeps_core (link guid gid).
Proof. unfold link. keeps_tac. Qed.
#[local] Hint Resolve BroadcastPacket_core unlink_core link_core : keeps.
Lemma SetGroup_core guid to : keeps_core (SetGroup guid to).
Proof. unfold SetGroup. keeps_tac. Qed.
Lemma SetOriginalGroup_core guid to : keeps_core (SetOriginalGroup guid to).
Proof. unfold SetOriginalGroup. keeps_tac. Qed.
#[local] Hint Resolve SetGroup_core SetOriginalGroup_core : keeps.
Lemma SetBg_core guid gid sub : keeps_core (SetBattlegroundOrBattlefieldRaid guid gid sub).
Proof. unfold SetBattlegroundOrBattlefieldRaid. keeps_tac. Qed.
Lemma RemoveFromBg_core guid : keeps_core (RemoveFromBattlegroundOrBattlefieldRaid guid).
Proof. unfold RemoveFromBattlegroundOrBattlefieldRaid. keeps_tac. Qed.
Lemma DelinkMember_core guid : keeps_core (DelinkMember guid).
Proof.
  unfold DelinkMember. keeps_tac. apply mod_player_core. intros q. by destruct (in_group _ _).
Qed.
Lemma send_session_core guid op d : keeps_core (send_session guid op d).
Proof. unfold send_session. keeps_tac. Qed.
#[local] Hint Resolve SetBg_core RemoveFromBg_core DelinkMember_core send_session_core : keeps.

Section frames.
Context (E : Env).

Lemma member_entries_core slot l : keeps_core (member_entries slot l).
Proof. induction l as [|s l IH]; simpl; unfold member_entry; keeps_tac. Qed.
#[local] Hint Resolve member_entries_core : keeps.
Lemma SendUpdateToPlayer_core guid slot : keeps_core (SendUpdateToPlayer E guid slot).
Proof. unfold SendUpdateToPlayer. keeps_tac. Qed.
#[local] Hint Resolve SendUpdateToPlayer_core : keeps.
Lemma SendUpdate_core : keeps_core (SendUpdate E).
Proof. unfold SendUpdate. keeps_tac. Qed.
#[local] Hint Resolve SendUpdate_core : keeps.

Lemma UpdatePlayerOutOfRange_core guid : keeps_core (UpdatePlayerOutOfRange E guid).
Proof. unfold UpdatePlayerOutOfRange. keeps_tac. Qed.
Lemma BroadcastReadyCheck_core op d : keeps_core (BroadcastReadyCheck op d).
Proof. unfold BroadcastReadyCheck. keeps_tac. Qed.
#[local] Hint Resolve UpdatePlayerOutOfRange_core BroadcastReadyCheck_core : keeps.
Lemma OfflineReadyCheck_core : keeps_core OfflineReadyCheck.
Proof. unfold OfflineReadyCheck. keeps_tac. Qed.
Lemma BroadcastGroupUpdate_core : keeps_core BroadcastGroupUpdate.
Proof. unfold BroadcastGroupUpdate. keeps_tac. Qed.
Lemma ResetMaxEnchantingLevel_core : keeps_core ResetMaxEnchantingLevel.
Proof. unfold ResetMaxEnchantingLevel. keeps_tac. Qed.
Lemma write_icon_core i w t : keeps_core (write_icon i w t).
Proof. unfold write_icon. keeps_tac. Qed.
#[local] Hint Resolve write_icon_core : keeps.
Lemma SetTargetIcon_core i w t : keeps_core (SetTargetIcon i w t).
Proof. unfold SetTargetIcon. keeps_tac. Qed.
Lemma SendTargetIconList_core p : keeps_core (SendTargetIconList p).
Proof. unfold SendTargetIconList. keeps_tac. Qed.

Lemma get_save_core sid : keeps_core (get_save E sid).
Proof. intros w s w'. unfold get_save. by destruct (saves E !! sid); intros [= <- <-]. Qed.
Lemma get_binds_core d : keeps_core (get_binds d).
Proof. intros w l w'. unfold get_binds. by destruct (binds_of d (group w)); intros [= <- <-]. Qed.
Lemma put_binds_core d l : keeps_core (put_binds d l).
Proof. unfold put_binds. keeps_tac. Qed.
#[local] Hint Resolve get_save_core get_binds_core put_binds_core : keeps.
Lemma GetBoundInstance_core m : keeps_core (GetBoundInstance E m).
Proof. unfold GetBoundInstance. keeps_tac. Qed.
Lemma BindToInstance_core s p l : keeps_core (BindToInstance E s p l).
Proof. unfold BindToInstance. keeps_tac. Qed.
#[local] Hint Resolve GetBoundInstance_core BindToInstance_core : keeps.
Lemma reset_loop_core fuel m d r s i : keeps_core (reset_loop E fuel m d r s i).
Proof. revert i. induction fuel as [|fuel IH]; intros i; simpl; unfold reset_map; keeps_tac. Qed.
#[local] Hint Resolve reset_loop_core : keeps.
Lemma ResetInstances_core m r s : keeps_core (ResetInstances E m r s).
Proof. unfold ResetInstances. keeps_tac. Qed.
Lemma put_player_binds_core guid d l : keeps_core (put_player_binds guid d l).
Proof. unfold put_player_binds. keeps_tac. Qed.
#[local] Hint Resolve ResetInstances_core put_player_binds_core : keeps.
Lemma convert_binds_core guid b d k l : keeps_core (convert_binds E guid b d k l).
Proof.
  revert k. induction l as [|[sid perm] l IH]; intros k; simpl; unfold unbind_player; keeps_tac.
Qed.
#[local] Hint Resolve convert_binds_core : keeps.
Lemma ConvertInstancesToGroup_core guid b : keeps_core (ConvertInstancesToGroup E guid b).
Proof. unfold ConvertInstancesToGroup. keeps_tac. Qed.
Lemma player_reset_loop_core guid m r d k l : keeps_core (player_reset_loop E guid m r d k l).
Proof. revert k. induction l as [|[sid perm] l IH]; intros k; simpl; keeps_tac. Qed.
#[local] Hint Resolve ConvertInstancesToGroup_core player_reset_loop_core : keeps.
Lemma player_ResetInstances_core guid m r : keeps_core (player_ResetInstances E guid m r).
Proof. unfold player_ResetInstances. keeps_tac. Qed.
Lemma homebind_core guid : keeps_core (_homebindIfInstance E guid).
Proof. unfold _homebindIfInstance. keeps_tac. Qed.
#[local] Hint Resolve player_ResetInstances_core homebind_core : keeps.

Lemma join_core guid sub : keeps_core (join E guid sub).
Proof. unfold join. keeps_tac. Qed.
Lemma welcome_core guid : keeps_core (welcome E guid).
Proof. unfold welcome, take_difficulties, exchange_fields. keeps_tac. Qed.
Lemma remove_permanent_binds_core : keeps_core remove_permanent_binds.
Proof. unfold remove_permanent_binds. keeps_tac. Qed.
Lemma leave_core guid : keeps_core (leave guid).
Proof. unfold leave. keeps_tac. Qed.
Lemma empty_group_list_core guid : keeps_core (empty_group_list guid).
Proof. unfold empty_group_list. keeps_tac. Qed.
#[local] Hint Resolve leave_core empty_group_list_core : keeps.
Lemma dismiss_core guid m : keeps_core (dismiss E guid m).
Proof. unfold dismiss. keeps_tac. Qed.
Lemma RemoveInvite_core p : keeps_core (RemoveInvite p).
Proof. unfold RemoveInvite. keeps_tac. Qed.
Lemma RemoveAllInvites_core : keeps_core RemoveAllInvites.
Proof. unfold RemoveAllInvites. keeps_tac. Qed.
Lemma registry_view f : keeps_view (registry f).
Proof.
  intros w u w'. unfold registry. destruct (f (mgr w)) as [m|[]]; [|done..]. by intros [= _ <-].
Qed.

(** A vote reads the players and changes none. *)
Definition others (w : World) := (deleted w, mgr w, players w).

Lemma CountRollVote_others p guid c : keeps others (Roll.CountRollVote E p guid c).
Proof.
  assert (forall sel r l m x v, keeps others (Roll.roll_loop E sel r l m x v)) as Hloop.
  { intros sel r l. induction l as [|[x v] l IH]; intros m y v'; simpl;
      unfold Roll.draw, Roll.SendLootRoll, Roll.send_to_voters; keeps_tac.
    intros w a w' Hw. by injection Hw as _ <-. }
  unfold Roll.CountRollVote, Roll.CountTheRoll, Roll.award, Roll.settle, Roll.store_won,
    Roll.disenchant_won, Roll.take_item, Roll.NotifyItemRemoved, Roll.mod_slot_item,
    Roll.get_slot_item, Roll.put_loot, Roll.erase_roll, Roll.set_roll, Roll.SendLootRoll,
    Roll.SendLootRollWon, Roll.SendLootAllPassed, Roll.send_to_voters.
  keeps_tac.
Qed.

Lemma CountRollVote_core p guid c : keeps_core (Roll.CountRollVote E p guid c).
Proof.
  intros w u w' H. pose proof (CountRollVote_others _ _ _ _ _ _ H) as [= H1 H2 H3]. unfold core.
  rewrite H1, H2, H3.
  destruct (Roll.CountRollVote_group _ _ _ _ _ _ _ H) as [G|(j & r1 & r2 & _ & _ & _ & _ & G)];
    by rewrite G.
Qed.
#[local] Hint Resolve CountRollVote_core : keeps.

Lemma remove_from_rolls_core guid : keeps_core (Roll.remove_from_rolls E guid).
Proof. unfold Roll.remove_from_rolls, Roll.remove_from_roll, Roll.set_roll. keeps_tac. Qed.
End frames.

#[export] Hint Resolve SendUpdate_core UpdatePlayerOutOfRange_core BroadcastReadyCheck_core
  OfflineReadyCheck_core BroadcastGroupUpdate_core ResetMaxEnchantingLevel_core SetTargetIcon_core
  SendTargetIconList_core ConvertInstancesToGroup_core player_ResetInstances_core join_core
  welcome_core remove_permanent_binds_core dismiss_core RemoveInvite_core RemoveAllInvites_core
  ResetInstances_core registry_view remove_from_rolls_core DelinkMember_core BroadcastPacket_core : keeps.

(** ** Counting the members of a subgroup *)

Lemma in_subgroup_range i s : 0 <= in_subgroup i s <= 1.
Proof. unfold in_subgroup. destruct (_ =? _); lia. Qed.

Lemma members_of_range i l : 0 <= members_of i l <= Z.of_nat (length l).
Proof.
  induction l as [|s l IH]; simpl members_of; [simpl; lia|].
  pose proof (in_subgroup_range i s). rewrite length_cons. lia.
Qed.

Lemma members_of_app i l1 l2 : members_of i (l1 ++ l2) = members_of i l1 + members_of i l2.
Proof. induction l1 as [|s l1 IH]; simpl; lia. Qed.

Lemma members_of_update i guid f l s :
  find_slot guid l = Some s ->
  members_of i (update_slot guid f l) = members_of i l - in_subgroup i s + in_subgroup i (f s).
Proof.
  unfold find_slot. induction l as [|s' l IH]; simpl; [done|].
  destruct (ms_guid s' =? guid); [intros [= ->]; simpl; lia|]. intros H. simpl. rewrite IH by done. lia.
Qed.

Lemma members_of_erase i guid l s :
  find_slot guid l = Some s -> members_of i (erase_slot guid l) = members_of i l - in_subgroup i s.
Proof.
  unfold find_slot. induction l as [|s' l IH]; simpl; [done|].
  destruct (ms_guid s' =? guid); [intros [= ->]; simpl; lia|]. intros H. simpl. rewrite IH by done. lia.
Qed.

(** A map of the slots that keeps their subgroups keeps the counts. *)
Lemma members_of_groups i l1 l2 : ms_group <$> l1 = ms_group <$> l2 -> members_of i l1 = members_of i l2.
Proof.
  revert l2. induction l1 as [|s1 l1 IH]; intros [|s2 l2]; simpl; try done.
  intros [= H1 H2]. unfold in_subgroup. rewrite H1. f_equal. by apply IH.
Qed.

Lemma update_slot_groups guid f l :
  (forall s, ms_group (f s) = ms_group s) -> ms_group <$> update_slot guid f l = ms_group <$> l.
Proof.
  intros Hf. induction l as [|s l IH]; [done|]. cbn [update_slot].
  destruct (_ =? _); by rewrite !fmap_cons, ?Hf, ?IH.
Qed.

Lemma update_slot_Forall (P : MemberSlot -> Prop) guid f l :
  Forall P l -> (forall s, P s -> P (f s)) -> Forall P (update_slot guid f l).
Proof.
  intros Hl Hf. induction Hl as [|s l Hs Hl IH]; simpl; [done|].
  destruct (_ =? _); constructor; auto.
Qed.

Lemma erase_slot_Forall (P : MemberSlot -> Prop) guid l : Forall P l -> Forall P (erase_slot guid l).
Proof. intros Hl. induction Hl; simpl; [done|]. destruct (_ =? _); [done|by constructor]. Qed.

Lemma find_slot_Forall (P : MemberSlot -> Prop) guid l s :
  Forall P l -> find_slot guid l = Some s -> P s.
Proof.
  unfold find_slot. intros Hl. induction Hl as [|s' l Hs Hl IH]; simpl; [done|].
  destruct (_ =? _); [by intros [= ->]|done].
Qed.

Lemma Forall_groups (P : Z -> Prop) l1 l2 :
  ms_group <$> l1 = ms_group <$> l2 ->
  Forall (fun s => P (ms_group s)) l1 -> Forall (fun s => P (ms_group s)) l2.
Proof.
  intros H Hl. change (Forall (P ∘ ms_group) l2). rewrite <- Forall_fmap, <- H, Forall_fmap. done.
Qed.

(** The invariant only reads the subgroups of the slots. *)
Lemma members_ok_groups l1 l2 counts raid :
  ms_group <$> l1 = ms_group <$> l2 -> members_ok l1 counts raid -> members_ok l2 counts raid.
Proof.
  intros H [H1 H2 H3]. split.
  - by apply (Forall_groups (fun i => 0 <= i < MAX_RAID_SUBGROUPS) l1).
  - intros i. by rewrite <- (members_of_groups i _ _ H).
  - destruct counts as [cs|].
    + destruct H3 as [-> ->]. split; [done|]. apply list_fmap_ext. intros _ i _.
      by apply members_of_groups.
    + destruct H3. split; [done|]. by apply (Forall_groups (fun i => i = 0) l1).
Qed.

(** ** The array of counters *)

Lemma subgroups_lookup (f : Z -> Z) i :
  0 <= i < MAX_RAID_SUBGROUPS -> (f <$> subgroups) !! Z.to_nat i = Some (f i).
Proof.
  unfold MAX_RAID_SUBGROUPS. intros Hi. rewrite list_lookup_fmap.
  assert (subgroups !! Z.to_nat i = Some i) as ->; [|done].
  assert (i = 0 \/ i = 1 \/ i = 2 \/ i = 3 \/ i = 4 \/ i = 5 \/ i = 6 \/ i = 7) as Hc by lia.
  by repeat (destruct Hc as [->|Hc]; [done|]); subst.
Qed.

Lemma subgroups_insert (f : Z -> Z) i v :
  0 <= i < MAX_RAID_SUBGROUPS ->
  <[Z.to_nat i := v]> (f <$> subgroups) = (fun j => if j =? i then v else f j) <$> subgroups.
Proof.
  unfold MAX_RAID_SUBGROUPS. intros Hi.
  assert (i = 0 \/ i = 1 \/ i = 2 \/ i = 3 \/ i = 4 \/ i = 5 \/ i = 6 \/ i = 7) as Hc by lia.
  by repeat (destruct Hc as [->|Hc]; [done|]); subst.
Qed.

Lemma elem_of_subgroups i : i ∈ subgroups <-> 0 <= i < MAX_RAID_SUBGROUPS.
Proof. unfold subgroups, MAX_RAID_SUBGROUPS. rewrite !elem_of_cons, elem_of_nil. lia. Qed.

Lemma first_free_spec k cs :
  match first_free k cs with
  | Some i => exists c, k <= i /\ cs !! Z.to_nat (i - k) = Some c /\ c < MAXGROUPSIZE /\
      (forall j, k <= j < i -> exists c, cs !! Z.to_nat (j - k) = Some c /\ MAXGROUPSIZE <= c)
  | None => Forall (fun c => MAXGROUPSIZE <= c) cs
  end.
Proof.
  revert k. induction cs as [|c cs IH]; intros k; simpl; [done|].
  destruct (Z.ltb_spec c MAXGROUPSIZE) as [Hc|Hc].
  - exists c. rewrite Z.sub_diag. split_and!; [lia|done|done|lia].
  - specialize (IH (k + 1)). destruct (first_free (k + 1) cs) as [i|]; [|by constructor].
    destruct IH as (c' & H1 & H2 & H3 & H4).
    assert (Hs : forall j, k + 1 <= j -> Z.to_nat (j - k) = S (Z.to_nat (j - (k + 1)))) by lia.
    exists c'. rewrite Hs by lia. split_and!; [lia|done|done|]. intros j Hj.
    destruct (decide (j = k)) as [->|]; [exists c; by rewrite Z.sub_diag|].
    rewrite Hs by lia. apply H4. lia.
Qed.

(** The counters after the change of the counter of one subgroup. *)
Lemma counter_update_view f i w u w' :
  counter_update f i w = Ok (u, w') ->
  view w' = (m_memberSlots (group w),
    (fun cs => <[Z.to_nat i := f (default 0 (cs !! Z.to_nat i))]> cs) <$> m_subGroupsCounts (group w),
    m_groupType (group w)).
Proof.
  unfold counter_update. intros (counts & w1 & [= <- <-] & H)%bind_Ok. unfold view.
  destruct (m_subGroupsCounts (group w)) as [cs|] eqn:Hcs; [|injection H as _ <-; by rewrite Hcs].
  destruct (cs !! Z.to_nat i) as [c|] eqn:Hc; [|done]. injection H as _ <-. simpl. by rewrite Hc.
Qed.

Lemma small_u8 n : 0 <= n <= MAXGROUPSIZE -> u8 (n + 1) = n + 1.
Proof. unfold MAXGROUPSIZE. intros. apply wrap_id. width. Qed.

(** The counters after [f] on one of them, as [counter_update_view] has them. *)
Definition update_count (f : Z -> Z) (i : Z) (counts : option (list Z)) : option (list Z) :=
  (fun cs => <[Z.to_nat i := f (default 0 (cs !! Z.to_nat i))]> cs) <$> counts.

Lemma update_count_exact f i (n : Z -> Z) :
  0 <= i < MAX_RAID_SUBGROUPS ->
  update_count f i (Some (n <$> subgroups)) =
    Some ((fun j => if j =? i then f (n i) else n j) <$> subgroups).
Proof.
  intros Hi. unfold update_count, fmap at 1, option_fmap, option_map.
  by rewrite subgroups_lookup, subgroups_insert.
Qed.

Lemma counts_ext (n1 n2 : Z -> Z) :
  (forall i, 0 <= i < MAX_RAID_SUBGROUPS -> n1 i = n2 i) -> n1 <$> subgroups = n2 <$> subgroups.
Proof.
  intros H. apply list_fmap_ext. intros k i Hk. apply H, elem_of_subgroups.
  by eapply list_elem_of_lookup_2.
Qed.

Lemma members_of_zero slots : Forall (fun s => ms_group s = 0) slots ->
  members_of 0 slots = Z.of_nat (length slots) /\ forall i, i <> 0 -> members_of i slots = 0.
Proof.
  induction 1 as [|s slots Hs _ [IH1 IH2]]; [done|]. simpl members_of. unfold in_subgroup.
  rewrite Hs, length_cons. split; [simpl; lia|]. intros i Hi.
  rewrite (proj2 (Z.eqb_neq 0 i)), IH2 by lia. done.
Qed.

(** Where a new member can go. *)
Definition has_room (slots : list MemberSlot) (raid : bool) (i : Z) : Prop :=
  0 <= i < MAX_RAID_SUBGROUPS /\ members_of i slots < MAXGROUPSIZE /\ (raid = false -> i = 0).

Lemma members_ok_add slots counts raid s :
  members_ok slots counts raid -> has_room slots raid (ms_group s) ->
  members_ok (slots ++ [s]) (update_count (fun c => u8 (c + 1)) (ms_group s) counts) raid.
Proof.
  intros [H1 H2 H3] (Hi & Hroom & Hparty). split.
  - apply Forall_app. split; [done|]. by constructor.
  - intros i. rewrite members_of_app. simpl. unfold in_subgroup.
    destruct (Z.eqb_spec (ms_group s) i) as [<-|]; [lia|]. specialize (H2 i). lia.
  - destruct counts as [cs|].
    + destruct H3 as [-> ->]. rewrite update_count_exact by done. split; [done|].
      apply counts_ext. intros i Hi'. rewrite members_of_app. simpl. unfold in_subgroup.
      pose proof (members_of_range (ms_group s) slots). rewrite small_u8 by lia.
      rewrite Z.eqb_sym. destruct (Z.eqb_spec (ms_group s) i) as [<-|]; lia.
    + destruct H3 as [-> H3]. split; [done|]. apply Forall_app. split; [done|].
      constructor; [by apply Hparty|done].
Qed.

Lemma members_ok_erase slots counts raid guid s :
  members_ok slots counts raid -> find_slot guid slots = Some s ->
  members_ok (erase_slot guid slots) (update_count (fun c => u8 (c - 1)) (ms_group s) counts) raid.
Proof.
  intros [H1 H2 H3] Hs. pose proof (find_slot_Forall _ _ _ _ H1 Hs) as Hi. simpl in Hi. split.
  - by apply erase_slot_Forall.
  - intros i. rewrite (members_of_erase _ _ _ _ Hs). pose proof (in_subgroup_range i s).
    specialize (H2 i). lia.
  - destruct counts as [cs|].
    + destruct H3 as [-> ->]. rewrite update_count_exact by done. split; [done|].
      apply counts_ext. intros i Hi'. rewrite (members_of_erase _ _ _ _ Hs).
      pose proof (members_of_range (ms_group s) (erase_slot guid slots)) as Hr.
      rewrite (members_of_erase _ _ _ _ Hs) in Hr. unfold in_subgroup in *.
      rewrite Z.eqb_refl in Hr. rewrite (Z.eqb_sym i). specialize (H2 (ms_group s)).
      destruct (Z.eqb_spec (ms_group s) i) as [<-|]; [|lia].
      unfold MAXGROUPSIZE in *. rewrite wrap_id by width. lia.
    + destruct H3 as [-> H3]. split; [done|]. by apply erase_slot_Forall.
Qed.

(** A member moves from its subgroup to another with room. *)
Lemma members_ok_move slots counts guid s to :
  members_ok slots counts true -> find_slot guid slots = Some s -> ms_group s <> to ->
  has_room slots true to ->
  members_ok (update_slot guid (slot_group to) slots)
    (update_count (fun c => u8 (c - 1)) (ms_group s) (update_count (fun c => u8 (c + 1)) to counts)) true.
Proof.
  intros [H1 H2 H3] Hs Hne (Hto & Hroom & _).
  pose proof (find_slot_Forall _ _ _ _ H1 Hs) as Hi. simpl in Hi.
  assert (Hcount : forall i, members_of i (update_slot guid (slot_group to) slots) =
    members_of i slots - (if ms_group s =? i then 1 else 0) + (if to =? i then 1 else 0)).
  { intros i. by rewrite (members_of_update _ _ _ _ _ Hs). }
  split.
  - by apply update_slot_Forall.
  - intros i. rewrite Hcount. specialize (H2 i).
    destruct (Z.eqb_spec (ms_group s) i), (Z.eqb_spec to i); subst; lia.
  - destruct counts as [cs|]; [|by destruct H3]. destruct H3 as [_ ->].
    rewrite !update_count_exact by done. split; [done|]. apply counts_ext. intros i Hi'.
    rewrite Hcount. pose proof (members_of_range to slots).
    rewrite small_u8 by (unfold MAXGROUPSIZE in *; lia).
    rewrite (proj2 (Z.eqb_neq (ms_group s) to) Hne), !(Z.eqb_sym i).
    pose proof (members_of_range (ms_group s) (erase_slot guid slots)) as Hr.
    rewrite (members_of_erase _ _ _ _ Hs) in Hr. unfold in_subgroup in Hr. rewrite Z.eqb_refl in Hr.
    pose proof (H2 (ms_group s)). unfold MAXGROUPSIZE in *. rewrite (wrap_id 8) by width.
    destruct (Z.eqb_spec (ms_group s) i), (Z.eqb_spec to i); subst; lia.
Qed.

(** ** The operations on members *)

(** The subgroup [AddMember] looks for. *)
Definition target (slots : list MemberSlot) (raid : bool) (i : Z) : Prop :=
  if raid then members_of i slots < MAXGROUPSIZE /\ 0 <= i < MAX_RAID_SUBGROUPS /\
    forall j, 0 <= j < i -> members_of j slots = MAXGROUPSIZE
  else i = 0.

Definition all_full (slots : list MemberSlot) : Prop :=
  forall i, 0 <= i < MAX_RAID_SUBGROUPS -> members_of i slots = MAXGROUPSIZE.

Section operations.
Context (E : Env).

Lemma choose_subgroup slots counts raid :
  members_ok slots counts raid ->
  match (match counts with Some cs => first_free 0 cs | None => Some 0 end) with
  | Some i => target slots raid i
  | None => raid = true /\ all_full slots
  end.
Proof.
  intros [H1 H2 H3]. destruct counts as [cs|]; [|by destruct H3 as [-> _]].
  destruct H3 as [-> ->]. pose proof (first_free_spec 0 ((fun i => members_of i slots) <$> subgroups)) as Hf.
  destruct (first_free 0 _) as [i|].
  - destruct Hf as (c & H0 & Hc & Hlt & Hbefore). rewrite Z.sub_0_r in Hc.
    assert (i < MAX_RAID_SUBGROUPS) as Hi.
    { apply lookup_lt_Some in Hc. rewrite length_fmap in Hc.
      unfold subgroups, MAX_RAID_SUBGROUPS in *. simpl in Hc. lia. }
    rewrite subgroups_lookup in Hc by lia. injection Hc as <-. split; [done|]. split; [lia|].
    intros j Hj. destruct (Hbefore j Hj) as (c & Hc & Hge). rewrite Z.sub_0_r in Hc.
    rewrite subgroups_lookup in Hc by lia. injection Hc as <-. specialize (H2 j). lia.
  - split; [done|]. intros i Hi. rewrite Forall_forall in Hf.
    specialize (Hf (members_of i slots)). specialize (H2 i).
    enough (MAXGROUPSIZE <= members_of i slots) by lia. apply Hf.
    apply list_elem_of_fmap. exists i. split; [done|]. by apply elem_of_subgroups.
Qed.

Lemma AddMember_view guid w b w' :
  group_ok (group w) -> AddMember E guid w = Ok (b, w') ->
  (b = false /\ w' = w /\ isRaidGroup (group w) = true /\ all_full (m_memberSlots (group w))) \/
  (b = true /\ exists name i, target (m_memberSlots (group w)) (isRaidGroup (group w)) i /\
    view w' = (m_memberSlots (group w) ++ [mkSlot guid name i 0 0],
      update_count (fun c => u8 (c + 1)) i (m_subGroupsCounts (group w)), m_groupType (group w))).
Proof.
  intros Hok. unfold AddMember. intros (g & w1 & [= <- <-] & H)%bind_Ok. unfold id in H.
  pose proof (choose_subgroup _ _ _ Hok) as Hc.
  destruct (match m_subGroupsCounts (group w) with Some cs => first_free 0 cs | None => Some 0 end)
    as [i|]; [|left; injection H as <- <-; by destruct Hc].
  right. apply bind_Ok in H as (p & w1 & H1 & H).
  assert (w1 = w) as -> by (unfold get_player in H1; destruct (players w !! guid); by simplify_eq).
  apply bind_Ok in H as (u2 & w2 & [= <- <-] & H).
  apply bind_Ok in H as (u3 & w3 & H3 & H). apply counter_update_view in H3.
  apply bind_Ok in H as (u4 & w4 & H4 & H).
  assert (view w4 = view w3) as V4 by (refine ((_ : keeps_view (when _ _)) _ _ _ H4); keeps_tac).
  apply bind_Ok in H as (u5 & w5 & H5 & H).
  assert (view w5 = view w4) as V5 by (refine ((_ : keeps_view (when _ _)) _ _ _ H5); keeps_tac).
  assert (b = true /\ view w' = view w5) as [-> V].
  { repeat (apply bind_Ok in H as (? & ? & ?H & H)). injection H as <- <-. split; [done|].
    repeat match goal with
    | HH : ?m ?x = Ok (_, ?y) |- view ?y = _ =>
        rewrite ((ltac:(keeps_tac) : keeps_view m) _ _ _ HH); clear HH
    end. done. }
  split; [done|]. exists (p_name p), i. split; [done|]. rewrite V, V5, V4, H3. done.
Qed.

(** *** The subgroups only

    What the invariant reads of the slots are their subgroups: writing flags
    or roles keeps it. *)
Definition gview (w : World) : list Z * option (list Z) * Z :=
  (ms_group <$> m_memberSlots (group w), m_subGroupsCounts (group w), m_groupType (group w)).

Lemma keeps_gview {A} (m : M A) : keeps_view m -> keeps gview m.
Proof. intros Hk w a w' H. apply Hk in H. injection H as H1 H2 H3. unfold gview. congruence. Qed.

Lemma gview_ok w w' : gview w' = gview w -> group_ok (group w) -> group_ok (group w').
Proof.
  intros [= H1 H2 H3] Hok. unfold group_ok, isRaidGroup. rewrite H2, H3.
  by apply (members_ok_groups (m_memberSlots (group w))).
Qed.

#[local] Hint Resolve keeps_gview : keeps.

Lemma RemoveUnique_gview flag : keeps gview (RemoveUniqueGroupMemberFlag flag).
Proof.
  intros w u w' [= _ <-]. unfold gview. cbn. f_equal. f_equal.
  rewrite <- list_fmap_compose. apply list_fmap_ext. intros _ s _. cbn. by destruct (has _ _).
Qed.
Lemma Toggle_gview guid flag apply : keeps gview (ToggleGroupMemberFlag guid flag apply).
Proof. intros w u w' [= _ <-]. unfold gview. cbn. by rewrite update_slot_groups. Qed.
#[local] Hint Resolve RemoveUnique_gview Toggle_gview : keeps.

Lemma SetGroupMemberFlag_gview guid apply flag : keeps gview (SetGroupMemberFlag E guid apply flag).
Proof. unfold SetGroupMemberFlag. keeps_tac. Qed.
Lemma ChangeLeader_gview guid : keeps gview (ChangeLeader E guid).
Proof. unfold ChangeLeader. keeps_tac. Qed.
#[local] Hint Resolve SetGroupMemberFlag_gview ChangeLeader_gview : keeps.
Lemma succeed_leader_gview guid : keeps gview (succeed_leader E guid).
Proof. unfold succeed_leader. keeps_tac. Qed.

(** *** Moving a member *)

Lemma ChangeMembersGroup_ok guid to w u w' :
  group_ok (group w) -> has_room (m_memberSlots (group w)) true to ->
  ChangeMembersGroup E guid to w = Ok (u, w') -> group_ok (group w').
Proof.
  intros Hok Hroom. unfold ChangeMembersGroup. intros (g & w1 & [= <- <-] & H)%bind_Ok. unfold id in H.
  destruct (isRaidGroup (group w)) eqn:Hraid; [|by injection H as _ <-]. cbn [negb] in H.
  destruct (find_slot guid (m_memberSlots (group w))) as [s|] eqn:Hs; [|by injection H as _ <-].
  cbv zeta in H. destruct (Z.eqb_spec (ms_group s) to) as [|Hne]; [by injection H as _ <-|].
  apply bind_Ok in H as (u2 & w2 & [= <- <-] & H).
  apply bind_Ok in H as (u3 & w3 & H3 & H). apply counter_update_view in H3.
  apply bind_Ok in H as (u4 & w4 & H4 & H). apply counter_update_view in H4.
  assert (view w' = view w4) as V.
  { refine ((_ : keeps_view _) _ _ _ H). clear -E. keeps_tac. }
  rewrite group_ok_view, V, H4. injection H3 as H31 H32 H33. rewrite H31, H32, H33.
  unfold group_ok in Hok. rewrite Hraid in Hok. unfold isRaidGroup in Hraid.
  unfold view_ok. cbn. rewrite Hraid. by apply members_ok_move.
Qed.

(** *** Becoming a raid *)

Lemma count_slots_exact l (n : Z -> Z) :
  Forall (fun s => 0 <= ms_group s < MAX_RAID_SUBGROUPS) l ->
  (forall i, 0 <= n i /\ n i + members_of i l < 256) ->
  count_slots l (n <$> subgroups) = Ok ((fun i => n i + members_of i l) <$> subgroups).
Proof.
  intros Hl. revert n. induction Hl as [|s l Hs Hl IH]; intros n Hn.
  { cbn [count_slots members_of]. f_equal. apply counts_ext. intros. lia. }
  cbn [count_slots]. rewrite subgroups_lookup, subgroups_insert by done. rewrite IH.
  - f_equal. apply counts_ext. intros i Hi. cbn [members_of]. unfold in_subgroup.
    destruct (Hn (ms_group s)) as [H0 Hb]. cbn [members_of] in Hb. unfold in_subgroup in Hb.
    rewrite Z.eqb_refl in Hb. pose proof (members_of_range (ms_group s) l).
    rewrite wrap_id by width. rewrite (Z.eqb_sym i). destruct (Z.eqb_spec (ms_group s) i); subst; lia.
  - intros i. destruct (Hn (ms_group s)) as [H0 Hb]. cbn [members_of] in Hb. unfold in_subgroup in Hb.
    rewrite Z.eqb_refl in Hb. pose proof (members_of_range (ms_group s) l).
    rewrite wrap_id by width. destruct (Hn i) as [Hi0 Hib]. cbn [members_of] in Hib.
    unfold in_subgroup in Hib. rewrite (Z.eqb_sym i). destruct (Z.eqb_spec (ms_group s) i); subst; lia.
Qed.

Lemma initRaid_ok w :
  Forall (fun s => 0 <= ms_group s < MAX_RAID_SUBGROUPS) (m_memberSlots (group w)) ->
  (forall i, members_of i (m_memberSlots (group w)) <= MAXGROUPSIZE) ->
  _initRaidSubGroupsCounter w = Ok (tt, set_group (set_subGroupsCounts
    (Some ((fun i => members_of i (m_memberSlots (group w))) <$> subgroups)) (group w)) w).
Proof.
  intros H1 H2. unfold _initRaidSubGroupsCounter.
  change (replicate (Z.to_nat MAX_RAID_SUBGROUPS) 0) with ((fun _ : Z => 0) <$> subgroups).
  rewrite count_slots_exact; [done|done|]. intros i. specialize (H2 i). unfold MAXGROUPSIZE in H2. lia.
Qed.

Lemma has_raid_lor t : has (Z.lor t GROUPTYPE_RAID) GROUPTYPE_RAID = true.
Proof.
  unfold has, GROUPTYPE_RAID. apply negb_true_iff, Z.eqb_neq. intros H.
  assert (Z.testbit (Z.land (Z.lor t 2) 2) 1 = false) as Hb by by rewrite H.
  rewrite Z.land_spec, Z.lor_spec in Hb. by rewrite orb_true_r in Hb.
Qed.

Lemma has_raid_lor_lfg t : has (Z.lor t (Z.lor GROUPTYPE_LFG GROUPTYPE_UNK1)) GROUPTYPE_RAID = has t GROUPTYPE_RAID.
Proof. unfold has. by rewrite Z.land_lor_distr_l, Z.lor_0_r. Qed.

Lemma ConvertToRaid_ok w u w' :
  group_ok (group w) -> ConvertToRaid E w = Ok (u, w') -> group_ok (group w').
Proof.
  intros [H1 H2 H3]. unfold ConvertToRaid. intros (u1 & w1 & [= <- <-] & H)%bind_Ok.
  apply bind_Ok in H as (u2 & w2 & Hi & H). rewrite initRaid_ok in Hi by done.
  injection Hi as _ <-.
  match type of H with _ ?x = _ => assert (view w' = view x) as V end.
  { refine ((_ : keeps_view _) _ _ _ H). clear -E. unfold store_type. keeps_tac. }
  rewrite group_ok_view, V. unfold view_ok. cbn. rewrite has_raid_lor. split; [done|done|done].
Qed.

(** *** The size of a group *)

Definition total_members (l : list MemberSlot) : Z :=
  foldr Z.add 0 ((fun i => members_of i l) <$> subgroups).

Lemma total_members_length l :
  Forall (fun s => 0 <= ms_group s < MAX_RAID_SUBGROUPS) l -> total_members l = Z.of_nat (length l).
Proof.
  induction 1 as [|s l Hs Hl IH]; [done|]. rewrite length_cons. rewrite Nat2Z.inj_succ, <- IH.
  unfold total_members, subgroups, MAX_RAID_SUBGROUPS in *. cbn [fmap list_fmap foldr members_of].
  unfold in_subgroup. assert (ms_group s = 0 \/ ms_group s = 1 \/ ms_group s = 2 \/ ms_group s = 3 \/
    ms_group s = 4 \/ ms_group s = 5 \/ ms_group s = 6 \/ ms_group s = 7) as Hc by lia.
  repeat (destruct Hc as [->|Hc]; [simpl; lia|]). rewrite Hc. simpl. lia.
Qed.

Lemma members_ok_length slots counts raid :
  members_ok slots counts raid -> Z.of_nat (length slots) <= 40.
Proof.
  intros [H1 H2 _]. rewrite <- total_members_length by done.
  unfold total_members, subgroups. cbn [fmap list_fmap foldr].
  pose proof (H2 0). pose proof (H2 1). pose proof (H2 2). pose proof (H2 3).
  pose proof (H2 4). pose proof (H2 5). pose proof (H2 6). pose proof (H2 7).
  unfold MAXGROUPSIZE in *. lia.
Qed.

(** *** Leaving *)

Lemma delete_group_deletes w u w' : delete_group w = Ok (u, w') -> deleted w' = true.
Proof.
  unfold delete_group. intros H. repeat (apply bind_Ok in H as (? & ? & _ & H)).
  by injection H as _ <-.
Qed.
Lemma Disband_deletes h w u w' : Disband E h w = Ok (u, w') -> deleted w' = true.
Proof.
  unfold Disband. intros H. repeat (apply bind_Ok in H as (? & ? & _ & H)).
  by injection H as _ <-.
Qed.

(** A group that is not deleted is consistent. *)
Definition alive_ok (w : World) : Prop := deleted w = true \/ group_ok (group w).

Lemma erase_member_ok guid w u w' :
  group_ok (group w) -> erase_member guid w = Ok (u, w') -> group_ok (group w').
Proof.
  intros Hok. unfold erase_member. intros (g & w1 & [= <- <-] & H)%bind_Ok. unfold id in H.
  destruct (find_slot guid (m_memberSlots (group w))) as [s|] eqn:Hs; [|by injection H as _ <-].
  apply bind_Ok in H as (u2 & w2 & H2 & [= _ <-]). apply counter_update_view in H2.
  injection H2 as H21 H22 H23. unfold group_ok, isRaidGroup. cbn. rewrite H21, H22, H23.
  by apply members_ok_erase.
Qed.

Lemma after_removal_ok w b w' :
  group_ok (group w) -> after_removal E w = Ok (b, w') -> alive_ok w'.
Proof.
  intros Hok. unfold after_removal. intros (g & w1 & [= <- <-] & H)%bind_Ok.
  apply bind_Ok in H as (l & w1 & [= <- <-] & H). cbv zeta in H.
  destruct (_ && _ && _).
  - apply bind_Ok in H as (u & w1 & H1 & [= _ <-]). left. by eapply Disband_deletes.
  - apply bind_Ok in H as (u & w1 & H1 & [= _ <-]). destruct (_ && _).
    + left. by eapply Disband_deletes.
    + injection H1 as _ <-. by right.
Qed.

Lemma RemoveMember_ok guid m k w b w' :
  group_ok (group w) -> RemoveMember E guid m k w = Ok (b, w') -> alive_ok w'.
Proof.
  intros Hok. unfold RemoveMember. intros (u1 & w1 & H1 & H)%bind_Ok.
  view_step H1. apply bind_Ok in H as (g & w1' & [= <- <-] & H).
  apply bind_Ok in H as (u2 & w2 & [= _ <-] & H).
  assert (group_ok (group w1)) as Hok1 by (by rewrite group_ok_view, H1, <- group_ok_view).
  destruct (_ && _); [injection H as _ <-; by right|].
  destruct (_ <? _).
  - apply bind_Ok in H as (p & w3 & [= <- <-] & H).
    apply bind_Ok in H as (u4 & w4 & H4 & H). apply bind_Ok in H as (u5 & w5 & H5 & H).
    apply bind_Ok in H as (u6 & w6 & H6 & H). apply bind_Ok in H as (u7 & w7 & H7 & H).
    apply bind_Ok in H as (u8 & w8 & H8 & H). apply bind_Ok in H as (u9 & w9 & H9 & H).
    apply bind_Ok in H as (u10 & w10 & H10 & H).
    eapply (after_removal_ok w10); [|exact H].
    assert (view w7 = view w1) as V.
    { view_step H7. rewrite H7. clear H7.
      etransitivity; [refine ((_ : keeps_view (when _ _)) _ _ _ H6); keeps_tac|].
      etransitivity; [refine ((_ : keeps_view (when _ _)) _ _ _ H5); keeps_tac|].
      etransitivity; [refine ((_ : keeps_view _) _ _ _ H4); keeps_tac|done]. }
    assert (group_ok (group w8)) as Hok8.
    { eapply erase_member_ok; [|exact H8]. by rewrite group_ok_view, V, <- group_ok_view. }
    apply (gview_ok w9); [refine ((_ : keeps gview _) _ _ _ H10); keeps_tac|].
    apply (gview_ok w8); [by apply succeed_leader_gview in H9|done].
  - apply bind_Ok in H as (u3 & w3 & H3 & [= _ <-]). left. by eapply Disband_deletes.
Qed.

Lemma UninviteFromGroup_ok p w u w' :
  group_ok (group w) -> UninviteFromGroup E p w = Ok (u, w') -> alive_ok w'.
Proof.
  intros Hok. unfold UninviteFromGroup. intros (q & w1 & H1 & H)%bind_Ok.
  apply (keeps_get_player view) in H1.
  assert (group_ok (group w1)) as Hok1 by (by rewrite group_ok_view, H1, <- group_ok_view).
  destruct (p_groupInvite q); [|injection H as _ <-; by right].
  apply bind_Ok in H as (u2 & w2 & H2 & H). view_step H2.
  apply bind_Ok in H as (g & w3 & [= <- <-] & H).
  destruct (_ <=? _); [destruct (IsCreated _)|].
  - left. by eapply Disband_deletes.
  - apply bind_Ok in H as (u4 & w4 & H4 & H). left. by eapply delete_group_deletes.
  - injection H as _ <-. right. by rewrite group_ok_view, H2, <- group_ok_view.
Qed.

(** *** Creation *)

Lemma AddMember_ok guid w b w' :
  group_ok (group w) ->
  (isRaidGroup (group w) = false -> (length (m_memberSlots (group w)) < 5)%nat) ->
  AddMember E guid w = Ok (b, w') -> group_ok (group w').
Proof.
  intros Hok Hlen H. destruct (AddMember_view _ _ _ _ Hok H)
    as [(-> & -> & _)|(-> & name & i & Ht & V)]; [done|].
  rewrite group_ok_view, V. unfold view_ok. cbn.
  apply members_ok_add; [done|]. cbn. unfold target in Ht. fold (isRaidGroup (group w)).
  destruct (isRaidGroup (group w)) eqn:Hraid.
  - destruct Ht as (H1 & H2 & _). split_and!; [lia|lia|done|done].
  - subst i. specialize (Hlen eq_refl). split_and!; [done|done| |done].
    pose proof (members_of_range 0 (m_memberSlots (group w))). unfold MAXGROUPSIZE. lia.
Qed.

Lemma GenerateGroupId_view : keeps_view GenerateGroupId.
Proof. intros w a w'. unfold GenerateGroupId. destruct (GroupMgr.GenerateGroupId _) as [[? ?]|]; by intros [= _ <-]. Qed.
Lemma GenerateNewGroupDbStoreId_view : keeps_view GenerateNewGroupDbStoreId.
Proof.
  intros w a w'. unfold GenerateNewGroupDbStoreId.
  destruct (GroupMgr.GenerateNewGroupDbStoreId _) as [[? ?]|]; by intros [= _ <-].
Qed.
#[local] Hint Resolve GenerateGroupId_view GenerateNewGroupDbStoreId_view : keeps.

(** A new group has no members; as a raid it gets its counters. *)
Lemma init_if_raid_ok w u w' :
  m_memberSlots (group w) = [] -> (isRaidGroup (group w) = false -> m_subGroupsCounts (group w) = None) ->
  when (isRaidGroup (group w)) _initRaidSubGroupsCounter w = Ok (u, w') ->
  group_ok (group w') /\ m_memberSlots (group w') = [].
Proof.
  intros Hs Hc. destruct (isRaidGroup (group w)) eqn:Hraid; cbn [when]; intros H.
  - rewrite initRaid_ok in H; [|by rewrite Hs|by rewrite Hs]. injection H as _ <-. cbn. rewrite Hs.
    split; [|done]. unfold group_ok. cbn. unfold isRaidGroup in *. cbn. rewrite Hraid, Hs.
    split; [done|done|done].
  - injection H as _ <-. split; [|done]. unfold group_ok. rewrite Hs, Hc, Hraid by done.
    by split.
Qed.

Lemma Create_ok leader w b w' :
  group_ok (group w) -> m_memberSlots (group w) = [] ->
  Create E leader w = Ok (b, w') ->
  group_ok (group w') /\ (isRaidGroup (group w') = false -> (length (m_memberSlots (group w')) <= 1)%nat).
Proof.
  intros Hok Hs. unfold Create. intros (i & w1 & H1 & H)%bind_Ok. apply GenerateGroupId_view in H1.
  apply bind_Ok in H as (p & w2 & H2 & H). apply (keeps_get_player view) in H2.
  apply bind_Ok in H as (u3 & w3 & H3 & H). apply bind_Ok in H as (g & w4 & [= <- <-] & H).
  apply bind_Ok in H as (u5 & w5 & H5 & H).
  assert (group_ok (group w5) /\ m_memberSlots (group w5) = []) as [Hok5 Hs5].
  { assert (view w2 = view w) as V by congruence. injection V as V1 V2 V3.
    injection H3 as _ <-. refine (init_if_raid_ok _ _ _ _ _ H5).
    - cbn. destruct (is_regular _); cbn; congruence.
    - cbn. unfold isRaidGroup. destruct (is_regular _); cbn; [|done]. rewrite V2, V3. intros Hr.
      pose proof (counts_exact _ _ _ Hok) as Hx. unfold isRaidGroup in Hx. rewrite Hr in Hx.
      destruct (m_subGroupsCounts (group w)); [by destruct Hx|done]. }
  clear H1 H2 H3 H5. apply bind_Ok in H as (u6 & w6 & H6 & H).
  apply bind_Ok in H as (u7 & w7 & H7 & H). apply bind_Ok in H as (u8 & w8 & H8 & H).
  apply bind_Ok in H as (u9 & w9 & H9 & H). apply bind_Ok in H as (u10 & w10 & H10 & H).
  assert (view w10 = view w5) as V.
  { injection H7 as _ <-. injection H8 as _ <-. injection H9 as _ <-. injection H10 as _ <-. cbn.
    change (view w6 = view w5). refine ((_ : keeps_view _) _ _ _ H6). unfold SetLootMethod. keeps_tac. }
  clear H6 H7 H8 H9 H10.
  assert (Hadd : forall x b y, view x = view w10 -> AddMember E leader x = Ok (b, y) ->
    group_ok (group y) /\ (isRaidGroup (group y) = false -> (length (m_memberSlots (group y)) <= 1)%nat)).
  { intros x b' y Vx Hy. rewrite V in Vx. injection Vx as Vx1 Vx2 Vx3.
    assert (group_ok (group x)) as Hokx by (unfold group_ok, isRaidGroup; by rewrite Vx1, Vx2, Vx3).
    split; [eapply AddMember_ok; [exact Hokx| |exact Hy]; rewrite Vx1, Hs5; simpl; lia|].
    destruct (AddMember_view _ _ _ _ Hokx Hy) as [(_ & -> & _)|(_ & name & j & _ & Vy)].
    - rewrite Vx1, Hs5. simpl. lia.
    - injection Vy as -> _ _. rewrite Vx1, Hs5. simpl. lia. }
  destruct (is_regular (group w3)); [|by apply (Hadd w10 b w')].
  apply bind_Ok in H as (u11 & w11 & H11 & H). apply bind_Ok in H as (u12 & w12 & H12 & H).
  apply bind_Ok in H as (sid & w13 & H13 & H). apply bind_Ok in H as (u14 & w14 & H14 & H).
  apply bind_Ok in H as (u15 & w15 & H15 & H). apply bind_Ok in H as (u16 & w16 & H16 & H).
  apply bind_Ok in H as (added & w17 & H17 & H). destruct added; [|done].
  apply bind_Ok in H as (u18 & w18 & H18 & [= _ <-]). view_step H18.
  injection H18 as E1 E2 E3. unfold group_ok, isRaidGroup. rewrite E1, E2, E3.
  eapply Hadd; [|exact H17].
  assert (view w16 = view w15) as -> by (refine ((_ : keeps_view _) _ _ _ H16); unfold store_group; keeps_tac).
  view_step H15. rewrite H15. injection H14 as _ <-. cbn.
  change (view w13 = view w10). rewrite (GenerateNewGroupDbStoreId_view _ _ _ H13).
  injection H12 as _ <-. injection H11 as _ <-. done.
Qed.

(** *** Loot rolls do not touch the members *)

Lemma keeps_view_of_group {A} (m : M A) : keeps group m -> keeps_view m.
Proof. intros Hk w a w' H. unfold view. by rewrite (Hk _ _ _ H). Qed.

Lemma gather_view li object po l r : keeps_view (Roll.gather E li object po l r).
Proof. intros w a w' H. by apply Roll.gather_reads in H as ->. Qed.
Lemma CountTheRoll_view i : keeps_view (Roll.CountTheRoll E i).
Proof. intros w u w' H. apply Roll.CountTheRoll_group in H. unfold view. by rewrite H. Qed.
Lemma CountRollVote_view p guid c : keeps_view (Roll.CountRollVote E p guid c).
Proof.
  intros w u w' H.
  destruct (Roll.CountRollVote_group _ _ _ _ _ _ _ H) as [G|(j & r1 & r2 & _ & _ & _ & _ & G)];
    unfold view; by rewrite G.
Qed.
#[local] Hint Resolve gather_view CountTheRoll_view CountRollVote_view : keeps.
Lemma EndRoll_view id : keeps_view (Roll.EndRoll E id).
Proof.
  unfold Roll.EndRoll. apply keeps_bind; [keeps_tac|intros rolls].
  generalize (S (length rolls)). intros fuel. induction fuel as [|fuel IH]; simpl; keeps_tac.
Qed.
Lemma start_rolls_view nbg lootId object : keeps_view (Roll.start_rolls E nbg lootId object).
Proof.
  unfold Roll.start_rolls, Roll.roll_item, Roll.roll_quest_item, Roll.push_roll.
  pose proof (fun b g r => keeps_view_of_group _ (Roll.announce_keeps E b g object r)).
  pose proof (fun f i j => keeps_view_of_group _ (Roll.mod_slot_item_keeps f i j)).
  pose proof (keeps_view_of_group _ (Roll.set_loot_timer_keeps E object)).
  assert (forall t m r, keeps_view (Roll.SendLootStartRoll t m r))
    by (intros; by apply Roll.send_to_voters_keeps).
  assert (keeps_view Roll.new_item_guid) by (intros w a w' Hw; by injection Hw as _ <-).
  keeps_tac.
Qed.

(** ** Every operation *)

Inductive group_op :=
| Accept (player : Z)
| Decline (player : Z)
| SetLeader (player guid : Z)
| LootMethod (player lootMethod lootMaster lootThreshold : Z)
| RaidTargetUpdate (player x guid : Z)
| RaidConvert (player : Z)
| ChangeSubGroup (player : Z) (name : string) (groupNr : Z)
| AssistantLeader (player guid : Z) (apply : bool)
| PartyAssignment (player assignment guid : Z) (apply : bool)
| ReadyCheck (player : Z) (state : option Z)
| LootRoll (player guid rollType : Z)
| StartLoot (need_before_greed : bool) (loot object : Z)
| LootTimer (loot : Z)
| NextLooter (object : Z) (ifneed : bool)
| Remove (guid method kicker : Z)
| DisbandGroup (hideDestroy : bool)
| Invite (player : option Z)
| InviteLeader (player : option Z)
| Found (leader : Z)
| Add (guid : Z)
| ToRaid
| ToLFG
| DungeonDifficulty (difficulty : Z)
| RaidDifficulty (difficulty : Z)
| LoadGroup (fields : list Z)
| LoadMember (guidLow memberFlags subgroup roles : Z).

Definition run_group_op (o : group_op) : M unit :=
  match o with
  | Accept p => HandleGroupAcceptOpcode E p
  | Decline p => HandleGroupDeclineOpcode E p
  | SetLeader p guid => HandleGroupSetLeaderOpcode E p guid
  | LootMethod p m master t => HandleLootMethodOpcode E p m master t
  | RaidTargetUpdate p x guid => HandleRaidTargetUpdateOpcode p x guid
  | RaidConvert p => HandleGroupRaidConvertOpcode E p
  | ChangeSubGroup p name nr => HandleGroupChangeSubGroupOpcode E p name nr
  | AssistantLeader p guid b => HandleGroupAssistantLeaderOpcode E p guid b
  | PartyAssignment p a guid b => HandlePartyAssignmentOpcode E p a guid b
  | ReadyCheck p s => HandleRaidReadyCheckOpcode p s
  | LootRoll p guid t => Roll.HandleLootRoll E p guid t
  | StartLoot nbg loot object => Roll.start_rolls E nbg loot object
  | LootTimer loot => Roll.EndRoll E loot
  | NextLooter object b => UpdateLooterGuid E object b
  | Remove guid m k => _ <- RemoveMember E guid m k ;; ret tt
  | DisbandGroup h => Disband E h
  | Invite p => _ <- AddInvite E p ;; ret tt
  | InviteLeader p => _ <- AddLeaderInvite E p ;; ret tt
  | Found leader => _ <- Create E leader ;; ret tt
  | Add guid => _ <- AddMember E guid ;; ret tt
  | ToRaid => ConvertToRaid E
  | ToLFG => ConvertToLFG E
  | DungeonDifficulty d => SetDungeonDifficulty d
  | RaidDifficulty d => SetRaidDifficulty d
  | LoadGroup fields => LoadGroupFromDB E fields
  | LoadMember guid flags subgroup roles => LoadMemberFromDB E guid flags subgroup roles
  end.

(** What the callers see to: the number in the packet is a byte; a member is added only to
    a group that is not full; a group is created and loaded once, before it has members and
    counters; the row of a member has a subgroup with room. *)
Definition op_valid (o : group_op) (g : Group) : Prop :=
  match o with
  | ChangeSubGroup _ _ nr => 0 <= nr
  | Add _ => IsFull g = false
  | Found _ => m_memberSlots g = []
  | LoadGroup _ => m_memberSlots g = [] /\ m_subGroupsCounts g = None
  | LoadMember _ _ subgroup _ => has_room (m_memberSlots g) (isRaidGroup g) subgroup
  | _ => True
  end.

Lemma keeps_gview_alive {A} (m : M A) w a w' :
  keeps gview m -> group_ok (group w) -> m w = Ok (a, w') -> alive_ok w'.
Proof. intros Hk Hok H. right. by apply (gview_ok w); [eapply Hk|]. Qed.

Lemma with_group_alive player k w u w' :
  (forall v u v', gview v = gview w -> group_ok (group v) -> k (group v) v = Ok (u, v') -> alive_ok v') ->
  group_ok (group w) -> with_group player k w = Ok (u, w') -> alive_ok w'.
Proof.
  intros Hk Hok. unfold with_group. intros (p & w1 & H1 & H)%bind_Ok.
  apply (keeps_get_player gview) in H1. apply bind_Ok in H as (g & w2 & [= <- <-] & H).
  assert (group_ok (group w1)) as Hok1 by (by apply (gview_ok w)).
  destruct (in_group _ _); [by eapply Hk|]. injection H as _ <-. by right.
Qed.

Lemma Accept_ok player w u w' :
  group_ok (group w) -> HandleGroupAcceptOpcode E player w = Ok (u, w') -> group_ok (group w').
Proof.
  intros Hok. unfold HandleGroupAcceptOpcode. intros (p & w1 & H1 & H)%bind_Ok.
  apply (keeps_get_player view) in H1.
  assert (group_ok (group w1)) as Hok1 by (by rewrite group_ok_view, H1, <- group_ok_view).
  destruct (p_groupInvite p); [|by injection H as _ <-].
  apply bind_Ok in H as (u2 & w2 & H2 & H). view_step H2.
  assert (group_ok (group w2)) as Hok2 by (by rewrite group_ok_view, H2, <- group_ok_view).
  apply bind_Ok in H as (g & w2' & [= <- <-] & H). unfold id in H.
  destruct (IsLeader _ _); [by injection H as _ <-|].
  destruct (IsFull (group w2)) eqn:Hfull; [by injection H as _ <-|].
  apply bind_Ok in H as (l & w2' & [= <- <-] & H).
  assert (Hroom : isRaidGroup (group w2) = false -> (length (m_memberSlots (group w2)) < 5)%nat).
  { intros Hr. unfold IsFull in Hfull. rewrite Hr in Hfull. apply bool_decide_eq_false in Hfull.
    unfold MAXGROUPSIZE in Hfull. lia. }
  assert (Hend : forall x, group_ok (group x) ->
    (isRaidGroup (group x) = false -> (length (m_memberSlots (group x)) < 5)%nat) ->
    (added <- AddMember E player ;; when added BroadcastGroupUpdate) x = Ok (u, w') -> group_ok (group w')).
  { intros x Hx Hr (added & y & H3 & H4)%bind_Ok. eapply (AddMember_ok player x) in H3; [|done..].
    rewrite group_ok_view, ((ltac:(keeps_tac) : keeps_view (when added BroadcastGroupUpdate)) _ _ _ H4).
    done. }
  destruct (IsCreated (group w2)) eqn:Hcr.
  { cbn [negb when] in H. apply bind_Ok in H as (? & w3 & [= _ <-] & H). by apply (Hend w2). }
  destruct (find_player w2 (m_leaderGuid (group w2))).
  2: { view_step H. by rewrite group_ok_view, H. }
  cbn [negb when] in H. apply bind_Ok in H as (u3 & w3 & H3 & H).
  apply bind_Ok in H3 as (u4 & w4 & H4 & H3). view_step H4.
  apply bind_Ok in H3 as (u5 & w5 & H5 & H3).
  assert (group_ok (group w4)) as Hok4 by (by rewrite group_ok_view, H4, <- group_ok_view).
  apply Create_ok in H5 as [Hok5 Hlen5]; [|done|].
  2: { injection H4 as -> _ _. unfold IsCreated, GetMembersCount in Hcr.
       apply Z.ltb_ge in Hcr. destruct (m_memberSlots (group w2)) as [|s l'] eqn:Hs; [done|]. exfalso.
       assert (0 < Z.of_nat (length (s :: l')) <= 40) as Hn.
       { split; [rewrite length_cons; lia|]. rewrite <- Hs. by eapply members_ok_length. }
       revert Hcr Hn. generalize (Z.of_nat (length (s :: l'))). intros n Hcr Hn.
       rewrite wrap_id in Hcr by width. lia. }
  assert (view w3 = view w5) as V.
  { refine ((_ : keeps_view AddGroup) _ _ _ H3). unfold AddGroup. keeps_tac. }
  injection V as V1 V2 V3.
  apply (Hend w3); [unfold group_ok, isRaidGroup; by rewrite V1, V2, V3| |done].
  intros Hr. rewrite V1. unfold isRaidGroup in Hr. rewrite V3 in Hr. specialize (Hlen5 Hr). lia.
Qed.

Lemma Decline_ok player w u w' :
  group_ok (group w) -> HandleGroupDeclineOpcode E player w = Ok (u, w') -> alive_ok w'.
Proof.
  intros Hok. unfold HandleGroupDeclineOpcode. intros (p & w1 & H1 & H)%bind_Ok.
  apply (keeps_get_player gview) in H1.
  destruct (p_groupInvite p); [|injection H as _ <-; right; by apply (gview_ok w)].
  apply bind_Ok in H as (g & w1' & [= <- <-] & H). apply bind_Ok in H as (l & w1' & [= <- <-] & H).
  apply bind_Ok in H as (u2 & w2 & H2 & H). apply UninviteFromGroup_ok in H2; [|by apply (gview_ok w)].
  assert (alive_ok w2 -> alive_ok w') as Hend; [|by apply Hend].
  destruct (find_player w1 _); [|by injection H as _ <-].
  destruct (p_session _); by injection H as _ <-.
Qed.

Lemma HasFree_room nr g :
  group_ok g -> 0 <= nr -> HasFreeSlotSubGroup nr g = Some true ->
  nr < MAX_RAID_SUBGROUPS -> has_room (m_memberSlots g) true nr.
Proof.
  intros Hok H0 Hfree Hlt. unfold HasFreeSlotSubGroup in Hfree. pose proof (counts_exact _ _ _ Hok) as Hc.
  destruct (m_subGroupsCounts g) as [cs|]; [|done]. destruct Hc as [_ ->].
  rewrite subgroups_lookup in Hfree by lia. injection Hfree as Hfree. apply Z.ltb_lt in Hfree.
  split_and!; [lia|lia|done|done].
Qed.

Lemma ConvertToLFG_ok w u w' : group_ok (group w) -> ConvertToLFG E w = Ok (u, w') -> group_ok (group w').
Proof.
  intros Hok. unfold ConvertToLFG. intros (u1 & w1 & [= <- <-] & H)%bind_Ok.
  match type of H with _ ?x = _ => assert (view w' = view x) as V end.
  { refine ((_ : keeps_view _) _ _ _ H). clear -E. unfold store_type. keeps_tac. }
  rewrite group_ok_view, V. unfold view_ok. cbn. rewrite has_raid_lor_lfg. exact Hok.
Qed.
Lemma AddInvite_view p : keeps_view (AddInvite E p).
Proof. unfold AddInvite. keeps_tac. Qed.
Lemma AddLeaderInvite_view p : keeps_view (AddLeaderInvite E p).
Proof. unfold AddLeaderInvite. pose proof (AddInvite_view p). keeps_tac. Qed.
Lemma SetDungeonDifficulty_view d : keeps_view (SetDungeonDifficulty d).
Proof. unfold SetDungeonDifficulty. keeps_tac. Qed.
Lemma SetRaidDifficulty_view d : keeps_view (SetRaidDifficulty d).
Proof. unfold SetRaidDifficulty. keeps_tac. Qed.
Lemma Add_ok guid w b w' :
  group_ok (group w) -> IsFull (group w) = false -> AddMember E guid w = Ok (b, w') -> group_ok (group w').
Proof.
  intros Hok Hfull. apply AddMember_ok; [done|]. intros Hraid. unfold IsFull in Hfull. rewrite Hraid in Hfull.
  apply bool_decide_eq_false in Hfull. unfold MAXGROUPSIZE in Hfull. lia.
Qed.
Lemma LoadGroupFromDB_ok fields w u w' :
  group_ok (group w) -> m_memberSlots (group w) = [] -> m_subGroupsCounts (group w) = None ->
  LoadGroupFromDB E fields w = Ok (u, w') -> group_ok (group w').
Proof.
  intros Hok Hs Hc. unfold LoadGroupFromDB. intros (u1 & w1 & [= <- <-] & H)%bind_Ok.
  apply bind_Ok in H as (i & w2 & H2 & H). apply GenerateGroupId_view in H2.
  apply bind_Ok in H as (u3 & w3 & [= <- <-] & H). apply bind_Ok in H as (u4 & w4 & [= <- <-] & H).
  injection H2 as E1 E2 E3. destruct (player_names E !! _).
  2:{ injection H as _ <-. unfold group_ok, isRaidGroup. cbn. by rewrite E1, E2, E3. }
  do 6 apply bind_Ok in H as (? & ? & [= <- <-] & H). apply bind_Ok in H as (g & ? & [= <- <-] & H).
  apply bind_Ok in H as (u5 & w5 & H5 & H).
  assert (group_ok (group w5)) as Hok5.
  { refine (proj1 (init_if_raid_ok _ _ _ _ _ H5)); cbn; [by rewrite E1, Hs|by rewrite E2]. }
  match type of Hok5 with group_ok (group ?x) => assert (view w' = view x) as V end.
  { refine ((_ : keeps_view _) _ _ _ H). clear -E. keeps_tac. }
  by rewrite group_ok_view, V, <- group_ok_view.
Qed.
Lemma LoadMemberFromDB_ok guid flags subgroup roles w u w' :
  group_ok (group w) -> has_room (m_memberSlots (group w)) (isRaidGroup (group w)) subgroup ->
  LoadMemberFromDB E guid flags subgroup roles w = Ok (u, w') -> group_ok (group w').
Proof.
  intros Hok Hroom. unfold LoadMemberFromDB. destruct (player_names E !! _) as [name|]; [|by intros [= _ <-]].
  intros (u1 & w1 & [= <- <-] & H)%bind_Ok. apply bind_Ok in H as (u2 & w2 & H2 & H). apply counter_update_view in H2.
  apply bind_Ok in H as (g & ? & [= <- <-] & [= _ <-]).
  change (view_ok (view w2)). rewrite H2. unfold view_ok. cbn.
  by apply (members_ok_add _ _ _ (mkSlot (MAKE_NEW_GUID guid 0 0) name subgroup flags roles)).
Qed.
End operations.

(** One operation. *)
Lemma run_group_op_keeps E o w u w' :
  group_ok (group w) -> op_valid o (group w) -> run_group_op E o w = Ok (u, w') -> alive_ok w'.
Proof.
  intros Hok Hv H. destruct o; cbn [run_group_op op_valid] in *.
  - right. by eapply Accept_ok.
  - by eapply Decline_ok.
  - unfold HandleGroupSetLeaderOpcode in H. apply bind_Ok in H as (p & w1 & [= <- <-] & H).
    eapply with_group_alive; [|exact Hok|exact H]. intros v x v' _ Hv' Hk.
    eapply keeps_gview_alive; [|exact Hv'|exact Hk].
    pose proof (ChangeLeader_gview E). pose proof (keeps_gview _ (view_of_core _ (SendUpdate_core E))). keeps_tac.
  - eapply with_group_alive; [|exact Hok|exact H]. intros v x v' _ Hv' Hk.
    eapply keeps_gview_alive; [|exact Hv'|exact Hk]. pose proof (keeps_gview _ (view_of_core _ (SendUpdate_core E))).
    unfold SetLootMethod, SetLooterGuid, SetLootThreshold. keeps_tac.
  - eapply with_group_alive; [|exact Hok|exact H]. intros v y v' _ Hv' Hk.
    eapply keeps_gview_alive; [|exact Hv'|exact Hk]. apply keeps_gview. keeps_tac.
  - eapply with_group_alive; [|exact Hok|exact H]. intros v x v' _ Hv' Hk. cbv beta in Hk.
    destruct (in_battleground _ _); [injection Hk as _ <-; by right|].
    destruct (_ || _); [injection Hk as _ <-; by right|].
    apply bind_Ok in Hk as (u1 & w1 & [= _ <-] & Hk). right. eapply ConvertToRaid_ok; [|exact Hk]. done.
  - eapply with_group_alive; [|exact Hok|exact H]. intros v x v' _ Hv' Hk. cbv beta in Hk.
    destruct (Z.leb_spec MAX_RAID_SUBGROUPS groupNr); [injection Hk as _ <-; by right|].
    destruct (_ && _); [injection Hk as _ <-; by right|].
    destruct (HasFreeSlotSubGroup groupNr (group v)) as [[]|] eqn:Hfree;
      [|injection Hk as _ <-; by right|done].
    apply bind_Ok in Hk as (guid & w1 & [= <- <-] & Hk). right.
    eapply ChangeMembersGroup_ok; [done| |exact Hk]. by apply HasFree_room.
  - eapply with_group_alive; [|exact Hok|exact H]. intros v x v' _ Hv' Hk.
    eapply keeps_gview_alive; [|exact Hv'|exact Hk]. pose proof (SetGroupMemberFlag_gview E).
    pose proof (keeps_gview _ (view_of_core _ (SendUpdate_core E))). keeps_tac.
  - eapply with_group_alive; [|exact Hok|exact H]. intros v x v' _ Hv' Hk.
    eapply keeps_gview_alive; [|exact Hv'|exact Hk]. pose proof (SetGroupMemberFlag_gview E).
    pose proof RemoveUnique_gview. pose proof (keeps_gview _ (view_of_core _ (SendUpdate_core E))). keeps_tac.
  - eapply with_group_alive; [|exact Hok|exact H]. intros v x v' _ Hv' Hk.
    eapply keeps_gview_alive; [|exact Hv'|exact Hk]. apply keeps_gview. keeps_tac.
  - eapply keeps_gview_alive; [|exact Hok|exact H]. apply keeps_gview. unfold Roll.HandleLootRoll.
    pose proof (CountRollVote_view E). keeps_tac.
  - eapply keeps_gview_alive; [|exact Hok|exact H]. apply keeps_gview, start_rolls_view.
  - eapply keeps_gview_alive; [|exact Hok|exact H]. apply keeps_gview, EndRoll_view.
  - eapply keeps_gview_alive; [|exact Hok|exact H]. apply keeps_gview.
    unfold UpdateLooterGuid, SetLooterGuid. keeps_tac.
  - apply bind_Ok in H as (b & w1 & H & [= _ <-]). by eapply RemoveMember_ok.
  - left. by eapply Disband_deletes.
  - apply bind_Ok in H as (b & w1 & H & [= _ <-]). eapply keeps_gview_alive; [|exact Hok|exact H]. apply keeps_gview, AddInvite_view.
  - apply bind_Ok in H as (b & w1 & H & [= _ <-]). eapply keeps_gview_alive; [|exact Hok|exact H]. apply keeps_gview, AddLeaderInvite_view.
  - apply bind_Ok in H as (b & w1 & H & [= _ <-]). right. by eapply Create_ok.
  - apply bind_Ok in H as (b & w1 & H & [= _ <-]). right. by eapply Add_ok.
  - right. by eapply ConvertToRaid_ok.
  - right. by eapply ConvertToLFG_ok.
  - eapply keeps_gview_alive; [|exact Hok|exact H]. apply keeps_gview, SetDungeonDifficulty_view.
  - eapply keeps_gview_alive; [|exact Hok|exact H]. apply keeps_gview, SetRaidDifficulty_view.
  - right. destruct Hv. by eapply LoadGroupFromDB_ok.
  - right. by eapply LoadMemberFromDB_ok.
Qed.

(** Sequences of operations on a group that is not deleted. *)
Inductive group_reach (E : Env) : World -> World -> Prop :=
| group_reach_refl w : group_reach E w w
| group_reach_step w w1 w2 o u :
    group_reach E w w1 -> deleted w1 = false -> op_valid o (group w1) -> run_group_op E o w1 = Ok (u, w2) -> group_reach E w w2.

Lemma new_group_ok : group_ok new_group.
Proof. by repeat split. Qed.

(** C1: from a new group on, through every sequence of packets of its players (to accept
    and decline invites, to leave, to change the leader, subgroups, flags, icons and loot,
    to roll, to convert to a raid) and of calls of the rest of the server (to create or load
    the group, to load members into subgroups with room, to invite, to add a member to a
    group that is not full, to convert it to a raid or for the dungeon finder, to remove a
    member, to disband it), while the group is not deleted no subgroup has more than five
    members, the counters of a raid are exactly the members of its subgroups, a party has no
    counters, and there are at most forty members. *)
Theorem members_invariant E w w' :
  group w = new_group -> group_reach E w w' ->
  deleted w' = true \/
  (group_ok (group w') /\ Z.of_nat (length (m_memberSlots (group w'))) <= 40).
Proof.
  intros Hw Hr. assert (alive_ok w') as [Hd|Hok]; [|by left|right; split; [done|by eapply members_ok_length]].
  induction Hr as [w|w w1 w2 o u _ IH Hd Hv H]; [right; rewrite Hw; apply new_group_ok|].
  destruct (IH Hw) as [Hd1|Hok1]; [congruence|]. by eapply run_group_op_keeps.
Qed.

(** ** The leader *)

(** The first member in the order of the slots that is in the world. *)
Definition first_online (w : World) (l : list MemberSlot) : option MemberSlot :=
  find (fun s => match find_player w (ms_guid s) with Some _ => true | None => false end) l.

Lemma find_player_online w w' guid :
  p_inWorld <$> players w' = p_inWorld <$> players w ->
  is_Some (find_player w' guid) <-> is_Some (find_player w guid).
Proof.
  intros H. assert (p_inWorld <$> players w' !! guid = p_inWorld <$> players w !! guid) as Hg.
  { by rewrite <- !lookup_fmap, H. }
  unfold find_player. destruct (players w' !! guid) as [p'|], (players w !! guid) as [p|]; try done.
  injection Hg as ->. by destruct (p_inWorld p); split; intros [? ?].
Qed.

Lemma first_online_ext w w' l :
  p_inWorld <$> players w' = p_inWorld <$> players w -> first_online w' l = first_online w l.
Proof.
  intros H. unfold first_online. induction l as [|s l IH]; [done|]. cbn [find].
  pose proof (find_player_online w w' (ms_guid s) H) as Hi.
  destruct (find_player w' (ms_guid s)), (find_player w (ms_guid s)); try done;
    exfalso; destruct Hi as [H1 H2]; (by destruct H1) || (by destruct H2).
Qed.

(** What changing the leader leaves: the members by their guids, and the parts
    of the core besides the leader and the flags of the slots. *)
Definition idview (w : World) := (ms_guid <$> m_memberSlots (group w), deleted w).

Lemma idview_of_core {A} (m : M A) : keeps core m -> keeps idview m.
Proof. intros Hk w a w' H. apply Hk in H. unfold core in H. unfold idview. congruence. Qed.

Section leader.
Context (E : Env).

Lemma find_slot_guid guid l s : find_slot guid l = Some s -> ms_guid s = guid.
Proof. unfold find_slot. intros H. apply find_some in H as [_ H]. by apply Z.eqb_eq. Qed.

Lemma first_online_slot w l s :
  first_online w l = Some s -> is_Some (find_slot (ms_guid s) l) /\ is_Some (find_player w (ms_guid s)).
Proof.
  intros H. apply find_some in H as [Hin Hp]. split.
  - unfold find_slot. destruct (find _ l) as [s'|] eqn:Hf; [by eexists|].
    by apply (find_none _ _ Hf), Z.eqb_neq in Hin.
  - by destruct (find_player w (ms_guid s)).
Qed.

(** The new leader is set, and loses the assistant's flag. *)
Lemma ChangeLeader_sets guid w u w' :
  is_Some (find_slot guid (m_memberSlots (group w))) -> is_Some (find_player w guid) ->
  ChangeLeader E guid w = Ok (u, w') ->
  m_leaderGuid (group w') = guid /\ idview w' = idview w.
Proof.
  intros [s Hs] [p Hp]. unfold ChangeLeader. intros (g & w1 & [= <- <-] & H)%bind_Ok. unfold id in H.
  rewrite Hs in H. pose proof (find_slot_guid _ _ _ Hs) as Hg. rewrite Hg in H.
  apply bind_Ok in H as (q & w1 & [= <- <-] & H). rewrite Hp in H.
  apply bind_Ok in H as (u2 & w2 & [= _ <-] & H).
  apply bind_Ok in H as (u3 & w3 & H3 & H).
  assert (idview w3 = idview w) as V3.
  { etransitivity; [refine (idview_of_core _ (_ : keeps core (when _ _)) _ _ _ H3); keeps_tac|done]. }
  apply bind_Ok in H as (u4 & w4 & [= _ <-] & H). apply bind_Ok in H as (u5 & w5 & [= _ <-] & H).
  apply BroadcastPacket_core in H. unfold core in H. injection H as H1 _ _ H2 _ _ _ _ H3' _ _.
  split; [by rewrite H2|]. unfold idview in *. rewrite H1, H3'. cbn.
  rewrite update_slot_guids by done. exact V3.
Qed.

Lemma succeed_leader_sets guid w u w' :
  m_leaderGuid (group w) = guid -> succeed_leader E guid w = Ok (u, w') ->
  idview w' = idview w /\
  m_leaderGuid (group w') =
    match first_online w (m_memberSlots (group w)) with Some s => ms_guid s | None => guid end.
Proof.
  intros Hl. unfold succeed_leader. intros (g & w1 & [= <- <-] & H)%bind_Ok. unfold id in H.
  rewrite Hl, Z.eqb_refl in H. apply bind_Ok in H as (next & w1 & [= <- <-] & H).
  unfold online_member in H. fold (first_online w (m_memberSlots (group w))) in H.
  destruct (first_online w (m_memberSlots (group w))) as [s|] eqn:Hs.
  - apply first_online_slot in Hs as [H1 H2]. apply ChangeLeader_sets in H as [H3 H4]; done.
  - by injection H as _ <-.
Qed.

Lemma after_removal_alive w b w' :
  after_removal E w = Ok (b, w') -> deleted w' = false -> w' = w.
Proof.
  unfold after_removal. intros (g & w1 & [= <- <-] & H)%bind_Ok Hd.
  apply bind_Ok in H as (l & w1 & [= <- <-] & H). cbv zeta in H. destruct (_ && _ && _).
  - apply bind_Ok in H as (u & w1 & H1 & [= _ <-]). apply Disband_deletes in H1. congruence.
  - apply bind_Ok in H as (u & w1 & H1 & [= _ <-]). destruct (_ && _).
    + apply Disband_deletes in H1. congruence.
    + by injection H1 as _ <-.
Qed.
End leader.

(** The smallest number of members a group must exceed to lose one. *)
Definition least_members (g : Group) : Z :=
  if isBGGroup g || isLFGGroup g || isBFGroup g then 1 else 2.

Section removal.
Context (E : Env).

Lemma erase_member_core guid w u w' :
  erase_member guid w = Ok (u, w') ->
  m_memberSlots (group w') = erase_slot guid (m_memberSlots (group w)) /\
  m_leaderGuid (group w') = m_leaderGuid (group w) /\ players w' = players w /\ deleted w' = deleted w.
Proof.
  unfold erase_member. intros (g & w1 & [= <- <-] & H)%bind_Ok. unfold id in H.
  destruct (find_slot guid (m_memberSlots (group w))) as [s|] eqn:Hs.
  - apply bind_Ok in H as (u2 & w2 & H2 & [= _ <-]). cbn. unfold SubGroupCounterDecrease, counter_update in H2.
    apply bind_Ok in H2 as (cs & w3 & [= <- <-] & H2).
    destruct (m_subGroupsCounts (group w)) as [cs|]; [|by injection H2 as _ <-].
    destruct (cs !! _); [|done]. by injection H2 as _ <-.
  - injection H as _ <-. split_and!; [|done..]. revert Hs. unfold find_slot.
    generalize (m_memberSlots (group w)). intros l. induction l as [|s l IH]; [done|]. cbn [find erase_slot].
    destruct (_ =? _); [done|]. intros Hl. by rewrite <- IH.
Qed.

(** C32: when the leader leaves a group that goes on, its slot is the only one
    erased and the first of the remaining members that is online leads, or the
    group keeps its leader's guid if none is. *)
Theorem leader_succession guid method kicker w b w' :
  m_leaderGuid (group w) = guid -> least_members (group w) < GetMembersCount (group w) ->
  (isLFGGroup (group w) && (method =? GROUP_REMOVEMETHOD_KICK)) = false ->
  RemoveMember E guid method kicker w = Ok (b, w') -> deleted w' = false ->
  ms_guid <$> m_memberSlots (group w') = ms_guid <$> erase_slot guid (m_memberSlots (group w)) /\
  m_leaderGuid (group w') =
    match first_online w (erase_slot guid (m_memberSlots (group w))) with
    | Some s => ms_guid s
    | None => guid
    end.
Proof.
  intros Hl Hn Hkick. unfold RemoveMember. intros (u1 & w1 & H1 & H)%bind_Ok Hd.
  apply BroadcastGroupUpdate_core in H1. apply bind_Ok in H as (g & w1' & [= <- <-] & H). unfold id in H.
  apply bind_Ok in H as (u2 & w2 & [= _ <-] & H).
  assert (isLFGGroup (group w1) = isLFGGroup (group w) /\ isBGGroup (group w1) = isBGGroup (group w) /\
    isBFGroup (group w1) = isBFGroup (group w) /\ GetMembersCount (group w1) = GetMembersCount (group w))
    as (G1 & G2 & G3 & G4).
  { unfold core in H1. injection H1 as K1 _ K3 _ _ _ K5 K6 _ _ _.
    unfold isLFGGroup, isBGGroup, isBFGroup, GetMembersCount. by rewrite K1, K3, K5, K6. }
  rewrite G1, G2, G3, G4, Hkick in H.
  change (if isBGGroup (group w) || isLFGGroup (group w) || isBFGroup (group w) then 1 else 2)
    with (least_members (group w)) in H. rewrite (proj2 (Z.ltb_lt _ _) Hn) in H.
  apply bind_Ok in H as (p & w3 & [= <- <-] & H).
  apply bind_Ok in H as (u4 & w4 & H4 & H). apply bind_Ok in H as (u5 & w5 & H5 & H).
  apply bind_Ok in H as (u6 & w6 & H6 & H). apply bind_Ok in H as (u7 & w7 & H7 & H).
  apply bind_Ok in H as (u8 & w8 & H8 & H). apply bind_Ok in H as (u9 & w9 & H9 & H).
  apply bind_Ok in H as (u10 & w10 & H10 & H).
  apply after_removal_alive in H as ->; [|done].
  assert (core w7 = core w) as V.
  { rewrite (remove_from_rolls_core E guid _ _ _ H7).
    etransitivity; [refine ((_ : keeps_core (when _ _)) _ _ _ H6); keeps_tac|].
    etransitivity; [refine ((_ : keeps_core (when _ _)) _ _ _ H5); keeps_tac|].
    etransitivity; [refine ((_ : keeps_core _) _ _ _ H4); keeps_tac|]. exact H1. }
  apply erase_member_core in H8 as (S8 & L8 & P8 & _).
  unfold core in V. injection V as V1 _ _ V4 _ _ _ _ _ _ V9. rewrite V1 in S8. rewrite V4 in L8.
  rewrite <- P8 in V9. apply (succeed_leader_sets E) in H9 as [I9 L9]; [|congruence].
  apply SendUpdate_core in H10. unfold core in H10. injection H10 as S10 _ _ L10 _ _ _ _ _ _ _.
  unfold idview in I9. injection I9 as I9 _. rewrite S10, L10, I9, L9, S8. split; [done|].
  by rewrite (first_online_ext w w8 _ V9).
Qed.
End removal.

(** ** Disbanding *)

Section disband.
Context (E : Env).

Lemma disband_member_core h guid : keeps_core (disband_member E h guid).
Proof.
  pose proof (SendUpdate_core E). pose proof (homebind_core E). pose proof empty_group_list_core.
  pose proof leave_core. unfold disband_member. keeps_tac.
Qed.

Lemma ResetInstances_invitees m r s : keeps (fun w => m_invitees (group w)) (ResetInstances E m r s).
Proof.
  assert (forall fuel d i, keeps (fun w => m_invitees (group w)) (reset_loop E fuel m d r s i)) as Hl.
  { intros fuel d. induction fuel as [|fuel IH]; intros i; simpl;
      unfold reset_map, get_save, get_binds, put_binds; keeps_tac; intros ???; repeat case_match; try done; by intros [= <- <-]. }
  unfold ResetInstances, get_binds. keeps_tac. intros ???. case_match; [|done]. by intros [= <- <-].
Qed.

Lemma free_then_lookup id m m' :
  GroupMgr.FreeGroupDbStoreId id m = Ok m' -> GroupMgr.GetGroupByDbStoreId id m' = None.
Proof.
  unfold GroupMgr.FreeGroupDbStoreId. case_bool_decide as Hlt; [|done]. intros [= <-].
  unfold GroupMgr.GetGroupByDbStoreId. cbn. by rewrite list_lookup_insert_eq.
Qed.

Lemma registry_Ok f w u w' :
  registry f w = Ok (u, w') -> exists m, f (mgr w) = Ok m /\ w' = set_mgr m w.
Proof. unfold registry. destruct (f (mgr w)) as [m|[]]; [|done..]. intros [= _ <-]. by exists m. Qed.

Lemma delete_group_core w u w' :
  delete_group w = Ok (u, w') ->
  m_memberSlots (group w') = m_memberSlots (group w) /\ RollId (group w') = [] /\
  m_memberMgr (group w') = [] /\ m_invitees (group w') = m_invitees (group w) /\
  mgr w' = mgr w /\ deleted w' = true.
Proof.
  pose (f := fun w => (m_memberSlots (group w), m_invitees (group w), mgr w)).
  unfold delete_group. intros (g & w1 & [= <- <-] & H)%bind_Ok. unfold id in H.
  apply bind_Ok in H as (u2 & w2 & H2 & H).
  assert (f w2 = f w) as F2 by (destruct (m_bgGroup (group w)); by injection H2 as _ <-).
  apply bind_Ok in H as (u3 & w3 & [= _ <-] & H).
  apply bind_Ok in H as (u4 & w4 & H4 & H).
  assert (f w4 = f w2 /\ RollId (group w4) = []) as [F4 R4].
  { split.
    - etransitivity; [refine ((_ : keeps f (for_each _ _)) _ _ _ H4); keeps_tac|done].
    - etransitivity; [refine ((_ : keeps (fun w => RollId (group w)) (for_each _ _)) _ _ _ H4); keeps_tac|done]. }
  apply bind_Ok in H as (u5 & w5 & H5 & H).
  assert (f w5 = f w4 /\ RollId (group w5) = RollId (group w4)) as [F5 R5].
  { split.
    - refine ((_ : keeps f (for_each _ _)) _ _ _ H5). keeps_tac.
    - refine ((_ : keeps (fun w => RollId (group w)) (for_each _ _)) _ _ _ H5). keeps_tac. }
  apply bind_Ok in H as (u6 & w6 & [= _ <-] & [= _ <-]). cbn.
  unfold f in *. assert (f w5 = f w) as F by (unfold f; congruence). unfold f in F. injection F as -> -> ->.
  split_and!; try done. congruence.
Qed.

(** Nothing is left in a deleted group. *)
Definition emptied (w : World) : Prop :=
  deleted w = true /\ m_memberSlots (group w) = [] /\ m_memberMgr (group w) = [] /\
  m_invitees (group w) = [] /\ RollId (group w) = [].

(** Disbanding a group empties it (no members, no linked players, no
    invitees, no rolls), deletes it, and releases its guid and, for a regular
    group, its storage id. *)
Theorem Disband_releases h w u w' :
  Disband E h w = Ok (u, w') ->
  emptied w' /\
  GroupMgr.GetGroupByGUID (GUID_LOPART (m_guid (group w))) (mgr w') = None /\
  (is_regular (group w) = true ->
   GroupMgr.GetGroupByDbStoreId (m_dbStoreId (group w)) (mgr w') = None).
Proof.
  unfold Disband. intros (g & w1 & [= <- <-] & H)%bind_Ok. unfold id in H.
  apply bind_Ok in H as (u2 & w2 & [= _ <-] & H).
  apply bind_Ok in H as (u3 & w3 & H3 & H).
  apply bind_Ok in H as (u4 & w4 & [= _ <-] & H). apply bind_Ok in H as (u5 & w5 & [= _ <-] & H).
  apply bind_Ok in H as (u6 & w6 & H6 & H).
  assert (m_memberSlots (group w6) = [] /\ m_invitees (group w6) = []) as [S6 I6].
  { unfold RemoveAllInvites in H6. apply bind_Ok in H6 as (l & w6' & [= <- <-] & H6).
    apply bind_Ok in H6 as (u7 & w7 & H7 & [= _ <-]). cbn. split; [|done].
    etransitivity; [refine ((_ : keeps (fun w => m_memberSlots (group w)) (for_each _ _)) _ _ _ H7); keeps_tac|done]. }
  apply bind_Ok in H as (u7 & w7 & H7 & H). apply bind_Ok in H as (u8 & w8 & H8 & H).
  apply registry_Ok in H8 as (m8 & [= <-] & ->). apply delete_group_core in H as (D1 & D2 & D3 & D4 & D5 & D6).
  assert (m_memberSlots (group w7) = [] /\ m_invitees (group w7) = [] /\ (is_regular (group w) = true ->
    GroupMgr.GetGroupByDbStoreId (m_dbStoreId (group w)) (mgr w7) = None)) as (S7 & I7 & Hfree).
  { destruct (is_regular (group w)); cbn [when] in H7; [|injection H7 as _ <-; by split_and!].
    apply bind_Ok in H7 as (x1 & v1 & [= _ <-] & H7). apply bind_Ok in H7 as (x2 & v2 & [= _ <-] & H7).
    apply bind_Ok in H7 as (x3 & v3 & R3 & H7). apply bind_Ok in H7 as (x4 & v4 & R4 & H7).
    apply bind_Ok in H7 as (x5 & v5 & [= _ <-] & H7). apply registry_Ok in H7 as (m7 & Hm & ->). cbn.
    pose proof (ResetInstances_invitees _ _ _ _ _ _ R3) as J3.
    pose proof (ResetInstances_invitees _ _ _ _ _ _ R4) as J4. view_step R3. view_step R4.
    injection R3 as R3 _ _. injection R4 as R4 _ _. cbn in *.
    split_and!; [congruence|congruence|]. intros _. by eapply free_then_lookup. }
  unfold emptied. rewrite D1, D2, D4, D5. cbn. split_and!; try done. apply lookup_delete_eq.
Qed.
End disband.

(** A raid takes a new member into its first subgroup with fewer than five
    members, a party into the only one it has; the member is refused, and then
    nothing changes, exactly when the group is a raid with all eight subgroups
    full. *)
Theorem AddMember_first_free E guid w b w' :
  group_ok (group w) -> AddMember E guid w = Ok (b, w') ->
  (b = false <-> isRaidGroup (group w) = true /\ all_full (m_memberSlots (group w))) /\
  (b = false -> w' = w) /\
  (b = true -> exists name i, target (m_memberSlots (group w)) (isRaidGroup (group w)) i /\
     m_memberSlots (group w') = m_memberSlots (group w) ++ [mkSlot guid name i 0 0] /\
     m_subGroupsCounts (group w') =
       update_count (fun c => u8 (c + 1)) i (m_subGroupsCounts (group w))).
Proof.
  intros Hok H. destruct (AddMember_view E _ _ _ _ Hok H)
    as [(-> & -> & Hr & Hf)|(-> & name & i & Ht & V)]; [done|].
  split_and!; [|done|].
  - split; [done|]. intros [Hr Hf]. unfold target in Ht. rewrite Hr in Ht.
    destruct Ht as (Hlt & Hi & _). rewrite Hf in Hlt by done. lia.
  - intros _. exists name, i. by injection V as -> -> _.
Qed.

(** ** The properties on sample groups *)

Lemma members_ok_dec slots counts raid :
  Forall (fun s => 0 <= ms_group s < MAX_RAID_SUBGROUPS) slots ->
  Forall (fun i => members_of i slots <= MAXGROUPSIZE) subgroups ->
  match counts with
  | None => raid = false /\ Forall (fun s => ms_group s = 0) slots
  | Some cs => raid = true /\ cs = (fun i => members_of i slots) <$> subgroups
  end -> members_ok slots counts raid.
Proof.
  intros H1 H2 H3. split; [done| |done]. intros i.
  destruct (decide (i ∈ subgroups)) as [Hi|Hi]; [rewrite Forall_forall in H2; by apply H2|].
  enough (members_of i slots = 0) as -> by done. rewrite elem_of_subgroups in Hi.
  clear H2 H3. induction H1 as [|s l Hs Hl IH]; [done|]. cbn [members_of]. unfold in_subgroup.
  rewrite IH, (proj2 (Z.eqb_neq _ _)); [done|]. intros <-. done.
Qed.

Lemma sample_ok rolls : group_ok (sample_group rolls).
Proof.
  apply members_ok_dec; cbn; [|unfold subgroups|split; [done|]];
    repeat (apply Forall_cons; split; [done|]); apply Forall_nil; done.
Qed.

(** The world after an operation. *)
Definition after (o : group_op) (w : World) : World :=
  match run_group_op sample_env o w with Ok (_, w') => w' | Throw _ => w end.

(** A group that 1 founds, that 2 joins and that becomes a raid. *)
Definition unfounded : World := set_group new_group (sample_world []).
Definition raid_of_two : World := after ToRaid (after (Add 2) (after (Found 1) unfounded)).
Lemma reach_after o w :
  group_reach sample_env unfounded w -> deleted w = false -> op_valid o (group w) ->
  (match run_group_op sample_env o w with Ok _ => true | Throw _ => false end) = true -> group_reach sample_env unfounded (after o w).
Proof.
  intros Hr Hd Hv Hok. unfold after. destruct (run_group_op sample_env o w) as [[u w']|] eqn:H; [|done]. by eapply group_reach_step.
Qed.
Lemma raid_of_two_reach : group_reach sample_env unfounded raid_of_two.
Proof.
  unfold raid_of_two. repeat (apply reach_after; [|vm_compute; reflexivity|vm_compute; reflexivity || exact I|vm_compute; reflexivity]).
  constructor.
Qed.
Lemma members_invariant_witness :
  length (m_memberSlots (group raid_of_two)) = 2%nat /\ isRaidGroup (group raid_of_two) = true /\
  (deleted raid_of_two = true \/ (group_ok (group raid_of_two) /\ Z.of_nat (length (m_memberSlots (group raid_of_two))) <= 40)).
Proof.
  split; [vm_compute; reflexivity|]. split; [vm_compute; reflexivity|].
  apply (members_invariant sample_env unfounded raid_of_two); [reflexivity|apply raid_of_two_reach].
Defined.

Definition after_remove : World :=
  match RemoveMember sample_env 1 2 0 (sample_world []) with Ok (_, w') => w' | Throw _ => sample_world [] end.

Lemma leader_succession_witness :
  ms_guid <$> m_memberSlots (group after_remove) =
    ms_guid <$> erase_slot 1 (m_memberSlots (group (sample_world []))) /\
  m_leaderGuid (group after_remove) =
    match first_online (sample_world []) (erase_slot 1 (m_memberSlots (group (sample_world [])))) with
    | Some s => ms_guid s
    | None => 1
    end.
Proof.
  apply (leader_succession sample_env 1 2 0 (sample_world []) true);
    [reflexivity|reflexivity|reflexivity|vm_compute; reflexivity|vm_compute; reflexivity].
Defined.

Definition after_disband : World :=
  match Disband sample_env false (sample_world []) with Ok (_, w') => w' | Throw _ => sample_world [] end.

Lemma Disband_releases_witness :
  emptied after_disband /\
  GroupMgr.GetGroupByGUID (GUID_LOPART (m_guid (group (sample_world [])))) (mgr after_disband) = None /\
  (is_regular (group (sample_world [])) = true ->
   GroupMgr.GetGroupByDbStoreId (m_dbStoreId (group (sample_world []))) (mgr after_disband) = None).
Proof. apply (Disband_releases sample_env false (sample_world []) tt). vm_compute. reflexivity. Defined.

(** A fourth player joins the sample party. *)
Definition joining : World :=
  set_players (<[4 := sample_player "Dora" None]> (players (sample_world []))) (sample_world []).
Definition joined : World :=
  match AddMember sample_env 4 joining with Ok (_, w') => w' | Throw _ => joining end.

Lemma AddMember_first_free_witness :
  (true = false <-> isRaidGroup (group joining) = true /\ all_full (m_memberSlots (group joining))) /\
  (true = false -> joined = joining) /\
  (true = true -> exists name i, target (m_memberSlots (group joining)) (isRaidGroup (group joining)) i /\
     m_memberSlots (group joined) = m_memberSlots (group joining) ++ [mkSlot 4 name i 0 0] /\
     m_subGroupsCounts (group joined) =
       update_count (fun c => u8 (c + 1)) i (m_subGroupsCounts (group joining))).
Proof.
  apply (AddMember_first_free sample_env 4 joining true joined); [apply sample_ok|].
  vm_compute. reflexivity.
Defined.

End GroupMembers.
