(* ===== verification/GroupRules.v ===== *)
(** * GroupRules: flags, target icons and round robin looting

    Functional theorems on [Group.v]'s operations on the flags of members, the
    raid target icons and the round robin looter. They send updates to the
    members and change nothing else; [quiet] is that part. *)
From S2P Require Import Prelude OrderedMap GroupMgr GroupState Roll GroupInstances Group.
#[global] Open Scope Z_scope.

Module GroupRules.
Import GroupState GroupInstances Group.

(** ** Sending updates *)

Definition is_db (e : effect) : bool := match e with Db _ _ => true | _ => false end.
Definition db_writes (t : list effect) : list effect := filter (fun e => is_db e = true) t.

(** The world without what sending updates changes: the packets sent and the
    counter of the updates. *)
Definition quiet (w : World) : World :=
  set_trace (db_writes (trace w)) (set_group (set_counter 0 (group w)) w).

Lemma db_writes_app t1 t2 : db_writes (t1 ++ t2) = db_writes t1 ++ db_writes t2.
Proof. apply filter_app. Qed.

Definition at_rest (q : World) (w : World) : Prop := quiet w = q.

Section sending.
Context (E : Env) (q : World).

Lemma emit_rest e : is_db e = false -> total (at_rest q) (emit e).
Proof.
  intros He. apply total_modify. intros w <-. unfold at_rest, quiet. cbn.
  rewrite db_writes_app. unfold db_writes at 2. rewrite filter_cons, He. cbn. by rewrite app_nil_r.
Qed.

Lemma counter_rest f : total (at_rest q) (modg (fun g => set_counter (f g) g)).
Proof. by apply total_modify. Qed.

Lemma set_counter_rest v : forall w, at_rest q w -> at_rest q (set_group (set_counter v (group w)) w).
Proof. done. Qed.

Lemma member_entries_rest slot l : total (at_rest q) (member_entries slot l).
Proof. induction l as [|s l IH]; simpl; unfold member_entry; total_tac. Qed.
#[local] Hint Resolve member_entries_rest : total.

Lemma SendUpdateToPlayer_rest guid slot : total (at_rest q) (SendUpdateToPlayer E guid slot).
Proof.
  unfold SendUpdateToPlayer. total_tac; first [by apply emit_rest | by apply total_modify].
Qed.
#[local] Hint Resolve SendUpdateToPlayer_rest : total.

Lemma SendUpdate_rest : total (at_rest q) (SendUpdate E).
Proof. unfold SendUpdate. total_tac. Qed.
End sending.

(** [SendUpdate] returns and is quiet. *)
Lemma SendUpdate_quiet E w : exists w', SendUpdate E w = Ok (tt, w') /\ quiet w' = quiet w.
Proof. destruct (SendUpdate_rest E (quiet w) w eq_refl) as ([] & w' & H1 & H2). by exists w'. Qed.

(** Every linked member is a player. *)
Definition linked (w : World) : Prop :=
  Forall (fun guid => is_Some (players w !! guid)) (m_memberMgr (group w)).

Lemma total_for_each_in {A} (P : World -> Prop) (l : list A) (k : A -> M unit) :
  Forall (fun a => total P (k a)) l -> total P (for_each l k).
Proof. induction 1; [apply total_ret|]. by apply total_bind. Qed.

Lemma BroadcastPacket_quiet op d b s i w :
  linked w -> exists w', BroadcastPacket op d b s i w = Ok (tt, w') /\ quiet w' = quiet w.
Proof.
  intros Hl. pose (P := fun v => at_rest (quiet w) v /\ players v = players w).
  assert (total P (for_each (m_memberMgr (group w)) (fun guid =>
    p <- get_player guid ;;
    g <- getg id ;;
    if (negb (i =? 0) && (guid =? i)) || (b && negb (in_group g p)) then ret tt
    else when (p_session p && ((s =? -1) || (ref_subgroup g p =? s))) (emit (Packet guid op d))))) as H.
  { apply total_for_each_in. eapply Forall_impl; [exact Hl|]. intros guid [p Hp].
    apply total_bind.
    { intros v [Hv1 Hv2]. exists p, v. unfold get_player. by rewrite Hv2, Hp. }
    intros p'. total_tac. intros v [Hv1 Hv2]. edestruct (emit_rest (quiet w)) as (x & v' & Ev & Hv');
      [| exact Hv1|]; [|exists x, v'; split; [exact Ev|]]; [done|]. split; [done|].
    by injection Ev as _ <-. }
  destruct (H w) as ([] & w' & E1 & [Q _]); [done|]. by exists w'.
Qed.

(** ** Unique flags *)

Definition holders (flag : Z) (l : list MemberSlot) : list Z :=
  ms_guid <$> filter (fun s => has (ms_flags s) flag = true) l.

Definition unique_flag (flag : Z) : Prop :=
  flag = MEMBER_FLAG_MAINTANK \/ flag = MEMBER_FLAG_MAINASSIST.

Lemma has_ldiff x flag : has (Z.ldiff x flag) flag = false.
Proof.
  unfold has. apply negb_false_iff, Z.eqb_eq. apply Z.bits_inj_0. intros n.
  rewrite Z.land_spec, Z.ldiff_spec. by destruct (Z.testbit x n), (Z.testbit flag n).
Qed.

Lemma has_lor x flag : unique_flag flag -> has (Z.lor x flag) flag = true.
Proof.
  intros Hf. unfold has. apply negb_true_iff, Z.eqb_neq. intros H.
  rewrite Z.land_comm, Z.land_lor_distr_r, Z.land_diag in H.
  apply Z.lor_eq_0_iff in H as [_ H]. by destruct Hf as [-> | ->].
Qed.

Definition clear_flag (flag : Z) (l : list MemberSlot) : list MemberSlot :=
  (fun s => if has (ms_flags s) flag then slot_flags (toggle flag false) s else s) <$> l.

Lemma holders_cons flag s l :
  holders flag (s :: l) = (if has (ms_flags s) flag then [ms_guid s] else []) ++ holders flag l.
Proof. unfold holders. rewrite filter_cons. by destruct (has (ms_flags s) flag). Qed.

Lemma holders_clear flag l : holders flag (clear_flag flag l) = [].
Proof.
  unfold clear_flag. induction l as [|s l IH]; [done|]. rewrite fmap_cons, holders_cons, IH.
  destruct (has (ms_flags s) flag) eqn:Hs; cbn; by rewrite ?has_ldiff, ?Hs.
Qed.

(** Giving the flag to a member when nobody has it. *)
Lemma holders_toggle flag guid apply l s :
  unique_flag flag -> holders flag l = [] -> find_slot guid l = Some s ->
  holders flag (update_slot guid (slot_flags (toggle flag apply)) l) = if apply then [guid] else [].
Proof.
  intros Hf. unfold find_slot. induction l as [|s' l IH]; [done|]. cbn [find update_slot].
  rewrite holders_cons. destruct (has (ms_flags s') flag) eqn:Hs'; [done|]. cbn [app]. intros Hl.
  destruct (Z.eqb_spec (ms_guid s') guid) as [<-|].
  - intros [= ->]. rewrite holders_cons, Hl. cbn. destruct apply; cbn; by rewrite ?has_lor, ?has_ldiff.
  - intros H. rewrite holders_cons, Hs'. by apply IH.
Qed.

Lemma clear_flag_guids flag l : ms_guid <$> clear_flag flag l = ms_guid <$> l.
Proof.
  unfold clear_flag. induction l as [|s l IH]; [done|]. rewrite !fmap_cons, IH.
  by destruct (has (ms_flags s) flag).
Qed.

Lemma find_slot_clear guid flag l :
  find_slot guid (clear_flag flag l) =
    (fun s => if has (ms_flags s) flag then slot_flags (toggle flag false) s else s) <$> find_slot guid l.
Proof.
  unfold find_slot, clear_flag. induction l as [|s l IH]; [done|]. cbn.
  destruct (has (ms_flags s) flag) eqn:Hh; cbn; destruct (_ =? _); cbn; rewrite ?Hh; done.
Qed.

Lemma find_slot_update guid f l s :
  (forall s, ms_guid (f s) = ms_guid s) -> find_slot guid l = Some s ->
  find_slot guid (update_slot guid f l) = Some (f s).
Proof.
  intros Hf. unfold find_slot. induction l as [|s' l IH]; [done|]. cbn [find update_slot].
  destruct (ms_guid s' =? guid) eqn:Hg.
  - intros [= ->]. cbn [find]. by rewrite Hf, Hg.
  - intros H. cbn [find]. rewrite Hg. by apply IH.
Qed.

(** Making a member of a raid the main tank or main assist takes the flag
    from whoever has it: afterwards the member alone has it, or nobody when the
    flag is taken away. Only the member's own row is written to the database,
    so a previous holder keeps the flag there. *)
Theorem SetGroupMemberFlag_unique E guid apply flag w s :
  isRaidGroup (group w) = true -> unique_flag flag ->
  find_slot guid (m_memberSlots (group w)) = Some s ->
  exists w', SetGroupMemberFlag E guid apply flag w = Ok (tt, w') /\
    holders flag (m_memberSlots (group w')) = (if apply then [guid] else []) /\
    ms_guid <$> m_memberSlots (group w') = ms_guid <$> m_memberSlots (group w) /\
    exists flags, db_writes (trace w') =
      db_writes (trace w) ++ [Db "CHAR_UPD_GROUP_MEMBER_FLAG" [flags; GUID_LOPART guid]].
Proof.
  intros Hr Hf Hs. unfold SetGroupMemberFlag. unfold bind at 1, getg, gets. unfold id.
  rewrite Hr, Hs. cbn [negb].
  assert (((flag =? MEMBER_FLAG_MAINASSIST) || (flag =? MEMBER_FLAG_MAINTANK)) = true) as Hu
    by (by destruct Hf as [-> | ->]).
  rewrite Hu. cbn [orb negb when]. unfold bind at 1, RemoveUniqueGroupMemberFlag, modg, modify.
  fold (clear_flag flag (m_memberSlots (group w))).
  unfold bind at 1, ToggleGroupMemberFlag, modg, modify. unfold bind at 1, getg, gets.
  unfold bind at 1, emit, modify.
  match goal with |- context [SendUpdate E ?x] => set (w1 := x) end.
  destruct (SendUpdate_quiet E w1) as (w' & -> & Q). exists w'. split; [done|].
  assert (m_memberSlots (group w') = m_memberSlots (group w1)) as ->
    by (apply (f_equal (fun w => m_memberSlots (group w))) in Q; exact Q).
  assert (db_writes (trace w') = db_writes (trace w1)) as ->
    by (apply (f_equal trace) in Q; exact Q).
  cbn. split_and!.
  - eapply holders_toggle; [done|apply holders_clear|by rewrite find_slot_clear, Hs].
  - rewrite update_slot_guids by done. apply clear_flag_guids.
  - eexists. rewrite db_writes_app. reflexivity.
Qed.

(** ** Target icons *)

(** The icons without a target. *)
Definition clear_target (t : Z) (icons : list Z) : list Z :=
  (fun x => if x =? t then 0 else x) <$> icons.

Lemma write_icon_quiet id who t w :
  linked w -> exists w', write_icon id who t w = Ok (tt, w') /\
    quiet w' = quiet (set_group (set_targetIcons (<[Z.to_nat id := t]> (m_targetIcons (group w))) (group w)) w).
Proof. intros Hl. unfold write_icon. unfold bind at 1, modg, modify. by apply BroadcastPacket_quiet. Qed.

(** The world with other icons. *)
Definition with_icons (icons : list Z) (w : World) : World :=
  set_group (set_targetIcons icons (group w)) w.

Lemma quiet_icons w1 w2 : quiet w1 = quiet w2 -> m_targetIcons (group w1) = m_targetIcons (group w2).
Proof. intros H. by apply (f_equal (fun w => m_targetIcons (group w))) in H. Qed.
Lemma quiet_linked w1 w2 : quiet w1 = quiet w2 -> linked w1 <-> linked w2.
Proof.
  intros H. unfold linked. pose proof (f_equal players H) as Hp.
  pose proof (f_equal (fun w => m_memberMgr (group w)) H) as Hm. cbn in Hp, Hm. by rewrite Hp, Hm.
Qed.
Lemma quiet_with_icons icons w1 w2 :
  quiet w1 = quiet w2 -> quiet (with_icons icons w1) = quiet (with_icons icons w2).
Proof.
  intros H. apply (f_equal (with_icons icons)) in H. exact H.
Qed.

(** The loop that clears a target, from an icon on. *)
Lemma clear_loop_quiet t pre icons w :
  linked w -> m_targetIcons (group w) = pre ++ icons ->
  exists w', for_each (seq (length pre) (length icons)) (fun i =>
      icons <- getg m_targetIcons ;;
      match icons !! i with
      | None => throw OutOfBounds
      | Some x => when (x =? t) (write_icon (Z.of_nat i) 0 0)
      end) w = Ok (tt, w') /\ quiet w' = quiet (with_icons (pre ++ clear_target t icons) w).
Proof.
  revert pre w. induction icons as [|x icons IH]; intros pre w Hl Hi; cbn [length seq for_each].
  { exists w. split; [done|]. unfold with_icons, clear_target. cbn [fmap list_fmap]. rewrite <- Hi.
    by destruct w as [[] ? ? ? ? ? ? ?]. }
  unfold bind at 1, getg, gets, bind at 1. rewrite Hi, lookup_app_r, Nat.sub_diag by done. cbn [lookup list_lookup].
  assert (exists w1, when (x =? t) (write_icon (Z.of_nat (length pre)) 0 0) w = Ok (tt, w1) /\
    quiet w1 = quiet (with_icons ((pre ++ [if x =? t then 0 else x]) ++ icons) w)) as (w1 & E1 & Q1).
  { destruct (x =? t); cbn [when].
    - destruct (write_icon_quiet (Z.of_nat (length pre)) 0 0 w Hl) as (w1 & E1 & Q1). exists w1.
      split; [done|]. rewrite Q1, Hi, Nat2Z.id, insert_app_r_alt, Nat.sub_diag by done.
      by rewrite <- app_assoc.
    - exists w. split; [done|]. rewrite <- app_assoc. cbn [app]. rewrite <- Hi. unfold with_icons.
      by destruct w as [[] ? ? ? ? ? ? ?]. }
  rewrite E1. destruct (IH (pre ++ [if x =? t then 0 else x]) w1) as (w2 & E2 & Q2).
  - apply quiet_linked in Q1. by apply Q1.
  - by rewrite (quiet_icons _ _ Q1).
  - rewrite length_app in E2. cbn [length] in E2. rewrite Nat.add_1_r in E2. exists w2. split; [done|].
    rewrite Q2. rewrite (quiet_with_icons _ _ _ Q1). unfold clear_target. rewrite fmap_cons, <- app_assoc. done.
Qed.

(** Setting a raid icon on a target clears every other icon of it, so that a
    target never carries two icons; a write past the eight icons does nothing,
    and nothing else of the group changes. *)
Theorem SetTargetIcon_moves id who t w :
  linked w -> 0 <= id -> length (m_targetIcons (group w)) = 8%nat ->
  exists w', SetTargetIcon id who t w = Ok (tt, w') /\
    quiet w' = quiet (if id <? TARGETICONCOUNT
      then with_icons (<[Z.to_nat id := t]>
             (if t =? 0 then m_targetIcons (group w) else clear_target t (m_targetIcons (group w)))) w
      else w) /\
    (id < TARGETICONCOUNT -> t <> 0 ->
     forall i j, m_targetIcons (group w') !! i = Some t -> m_targetIcons (group w') !! j = Some t -> i = j).
Proof.
  intros Hl H0 H8. unfold SetTargetIcon. rewrite Z.leb_antisym.
  destruct (Z.ltb_spec id TARGETICONCOUNT) as [Hid|Hid]; cbn [negb].
  2: { exists w. split_and!; [done|done|lia]. }
  assert (exists w1, when (negb (t =? 0))
      (for_each (seq 0 (Z.to_nat TARGETICONCOUNT)) (fun i =>
        icons <- getg m_targetIcons ;;
        match icons !! i with
        | None => throw OutOfBounds
        | Some x => when (x =? t) (write_icon (Z.of_nat i) 0 0)
        end)) w = Ok (tt, w1) /\
    quiet w1 = quiet (with_icons (if t =? 0 then m_targetIcons (group w)
                                  else clear_target t (m_targetIcons (group w))) w)) as (w1 & E1 & Q1).
  { destruct (t =? 0); cbn [negb when].
    - exists w. split; [done|]. unfold with_icons. by destruct w as [[] ? ? ? ? ? ? ?].
    - destruct (clear_loop_quiet t [] (m_targetIcons (group w)) w Hl eq_refl) as (w1 & E1 & Q1).
      exists w1. rewrite H8 in E1. done. }
  unfold bind at 1. rewrite E1. destruct (write_icon_quiet id who t w1) as (w2 & -> & Q2).
  { apply quiet_linked in Q1. by apply Q1. }
  exists w2. fold (with_icons (<[Z.to_nat id := t]> (m_targetIcons (group w1))) w1) in Q2.
  rewrite (quiet_with_icons _ _ _ Q1), (quiet_icons _ _ Q1) in Q2. cbn in Q2. split_and!; [done|done|].
  intros _ Ht i j. rewrite (quiet_icons _ _ Q2). cbn. rewrite (proj2 (Z.eqb_neq t 0) Ht).
  enough (forall i, <[Z.to_nat id:=t]> (clear_target t (m_targetIcons (group w))) !! i = Some t ->
    i = Z.to_nat id) as Hu by (intros H1 H2; rewrite (Hu i), (Hu j) by done; done).
  intros k Hk. destruct (decide (k = Z.to_nat id)) as [|Hne]; [done|].
  rewrite list_lookup_insert_ne in Hk by done. unfold clear_target in Hk.
  rewrite list_lookup_fmap in Hk. destruct (m_targetIcons (group w) !! k) as [x|]; [|done].
  injection Hk as Hk. destruct (Z.eqb_spec x t); congruence.
Qed.

(** ** Round robin *)

Definition eligible (E : Env) (object : Z) (w : World) (s : MemberSlot) : bool :=
  match find_player w (ms_guid s) with
  | Some _ => IsWithinDistInMap E (ms_guid s) object
  | None => false
  end.

(** The members in the order of their turns: from the one after the looter on,
    around to the looter itself. *)
Definition turn_order (g : Group) : list MemberSlot :=
  let '(later, earlier) := after_looter g in later ++ earlier.

Lemma find_near_find E object w l : find_near E object w l = ms_guid <$> find (eligible E object w) l.
Proof.
  induction l as [|s l IH]; [done|]. cbn [find_near find]. unfold eligible at 1.
  destruct (find_player w (ms_guid s)); [|done]. by destruct (IsWithinDistInMap _ _ _).
Qed.

Lemma find_app {A} (f : A -> bool) l1 l2 :
  find f (l1 ++ l2) = match find f l1 with Some x => Some x | None => find f l2 end.
Proof. induction l1 as [|x l1 IH]; [done|]. cbn. by destruct (f x). Qed.

Lemma next_looter_find E object w :
  next_looter E object w = ms_guid <$> find (eligible E object w) (turn_order (group w)).
Proof.
  unfold next_looter, turn_order. destruct (after_looter (group w)) as [later earlier].
  rewrite !find_near_find, find_app. by destruct (find _ later).
Qed.

Definition with_looter (guid : Z) (w : World) : World :=
  set_group (set_looterGuid guid (group w)) w.

Definition robin (g : Group) : Prop := m_lootMethod g <> MASTER_LOOT /\ m_lootMethod g <> FREE_FOR_ALL.

(** The next looter of a group is the first member after the current one, in
    the circular order of the members, that is online and near the object, and
    nobody if no member is; nothing else of the group changes. *)
Theorem UpdateLooterGuid_next E object w :
  robin (group w) ->
  exists w', UpdateLooterGuid E object false w = Ok (tt, w') /\
    quiet w' = quiet (with_looter
      match find (eligible E object w) (turn_order (group w)) with
      | Some s => ms_guid s
      | None => 0
      end w).
Proof.
  intros [H1 H2]. unfold UpdateLooterGuid. unfold bind at 1, getg, gets. unfold id.
  rewrite (proj2 (Z.eqb_neq _ _) H1), (proj2 (Z.eqb_neq _ _) H2). cbn [orb].
  unfold bind at 1, FindPlayer, gets. cbn [andb]. unfold bind at 1, gets. rewrite next_looter_find.
  destruct (find _ (turn_order (group w))) as [s|]; cbn [fmap option_fmap option_map].
  - destruct (Z.eqb_spec (m_looterGuid (group w)) (ms_guid s)) as [<-|].
    + exists w. split; [done|]. by destruct w as [[] ? ? ? ? ? ? ?].
    + unfold bind, SetLooterGuid, modg, modify. apply SendUpdate_quiet.
  - unfold bind, SetLooterGuid, modg, modify. apply SendUpdate_quiet.
Qed.

Lemma slot_index_nth l i s :
  NoDup (ms_guid <$> l) -> l !! i = Some s -> slot_index (ms_guid s) l = Some i.
Proof.
  revert i. induction l as [|s' l IH]; intros i Hnd Hi; [done|]. rewrite fmap_cons in Hnd.
  apply NoDup_cons in Hnd as [Hn Hnd]. cbn [slot_index]. destruct i as [|i].
  - injection Hi as ->. by rewrite Z.eqb_refl.
  - cbn in Hi. rewrite (proj2 (Z.eqb_neq _ _)), (IH i) by
      (done || (intros He; apply Hn; rewrite He; apply list_elem_of_fmap; exists s;
                split; [done|by eapply list_elem_of_lookup_2])). done.
Qed.

(** The head of the turns after the member at [i] is the next one around. *)
Lemma turn_order_head g i s n :
  NoDup (ms_guid <$> m_memberSlots g) -> m_memberSlots g !! i = Some s -> m_looterGuid g = ms_guid s ->
  n = length (m_memberSlots g) -> head (turn_order g) = m_memberSlots g !! (S i mod n)%nat.
Proof.
  intros Hnd Hi Hl ->. unfold turn_order, after_looter. rewrite Hl, (slot_index_nth _ _ _ Hnd Hi).
  pose proof (lookup_lt_Some _ _ _ Hi) as Hlt. destruct (decide (S i = length (m_memberSlots g))) as [He|Hne].
  - rewrite drop_ge by lia. cbn [app]. rewrite He, Nat.Div0.mod_same.
    destruct (m_memberSlots g); [done|]. done.
  - rewrite Nat.mod_small by lia. destruct (lookup_lt_is_Some_2 (m_memberSlots g) (S i)) as [x Hx]; [lia|].
    rewrite Hx. by rewrite (drop_S _ _ _ Hx).
Qed.

Fixpoint turns (E : Env) (object : Z) (k : nat) : M unit :=
  match k with
  | O => ret tt
  | S k => UpdateLooterGuid E object false ;;; turns E object k
  end.

(** With all members online and near, the turn goes around: [k] loots after
    the member at place [i] it is the turn of the member at place [i + k],
    modulo the number of members, so each has every turn once a round. *)
Theorem round_robin E object k i s w :
  robin (group w) -> NoDup (ms_guid <$> m_memberSlots (group w)) ->
  Forall (fun s => eligible E object w s = true) (m_memberSlots (group w)) ->
  m_memberSlots (group w) !! i = Some s -> m_looterGuid (group w) = ms_guid s ->
  exists w' s', turns E object k w = Ok (tt, w') /\
    m_memberSlots (group w) !! ((i + k) mod length (m_memberSlots (group w)))%nat = Some s' /\
    m_looterGuid (group w') = ms_guid s'.
Proof.
  revert i s w. induction k as [|k IH]; intros i s w Hr Hnd Hall Hi Hl.
  { exists w, s. pose proof (lookup_lt_Some _ _ _ Hi). rewrite Nat.add_0_r, Nat.mod_small by lia. done. }
  cbn [turns]. destruct (UpdateLooterGuid_next E object w Hr) as (w1 & E1 & Q1).
  unfold bind. rewrite E1. set (n := length (m_memberSlots (group w))) in *.
  pose proof (lookup_lt_Some _ _ _ Hi) as Hlt.
  assert (Hn : (S i mod n < n)%nat) by (apply Nat.mod_upper_bound; lia).
  destruct (lookup_lt_is_Some_2 _ _ Hn) as [s1 Hs1].
  pose proof (turn_order_head _ _ _ n Hnd Hi Hl eq_refl) as Hhead. rewrite Hs1 in Hhead.
  assert (find (eligible E object w) (turn_order (group w)) = Some s1) as Hf.
  { destruct (turn_order (group w)) as [|x l]; [done|]. injection Hhead as ->. cbn.
    by rewrite (Forall_lookup_1 _ _ _ _ Hall Hs1). }
  rewrite Hf in Q1.
  pose proof (f_equal (fun w => m_memberSlots (group w)) Q1) as S1.
  pose proof (f_equal (fun w => m_lootMethod (group w)) Q1) as M1.
  pose proof (f_equal (fun w => m_looterGuid (group w)) Q1) as L1.
  pose proof (f_equal players Q1) as P1. cbn in S1, M1, L1, P1.
  destruct (IH (S i mod n)%nat s1 w1) as (w2 & s2 & E2 & Hs2 & L2).
  - unfold robin. by rewrite M1.
  - by rewrite S1.
  - rewrite S1. eapply Forall_impl; [exact Hall|]. intros x. unfold eligible, find_player. by rewrite P1.
  - by rewrite S1.
  - done.
  - exists w2, s2. split; [exact E2|]. split; [|done]. rewrite S1 in Hs2. fold n in Hs2.
    rewrite <- Hs2. f_equal. rewrite Nat.Div0.add_mod_idemp_l. f_equal. lia.
Qed.

(** ** The properties on sample groups *)

Definition sample_raid : World :=
  set_group (set_groupType GROUPTYPE_RAID (set_memberSlots
    [mkSlot 1 "Anna" 0 MEMBER_FLAG_MAINTANK 0; sample_slot 2 "Bert"; sample_slot 3 "Cora"]
    (set_targetIcons [7; 0; 0; 9; 0; 0; 0; 0] (sample_group [])))) (sample_world []).

Lemma SetGroupMemberFlag_unique_witness :
  exists w', SetGroupMemberFlag sample_env 2 true MEMBER_FLAG_MAINTANK sample_raid = Ok (tt, w') /\
    holders MEMBER_FLAG_MAINTANK (m_memberSlots (group w')) = [2] /\
    ms_guid <$> m_memberSlots (group w') = ms_guid <$> m_memberSlots (group sample_raid) /\
    exists flags, db_writes (trace w') = db_writes (trace sample_raid) ++
      [Db "CHAR_UPD_GROUP_MEMBER_FLAG" [flags; GUID_LOPART 2]].
Proof.
  apply (SetGroupMemberFlag_unique sample_env 2 true MEMBER_FLAG_MAINTANK sample_raid
    (sample_slot 2 "Bert")); [done|by left|done].
Defined.

Lemma sample_raid_linked : linked sample_raid.
Proof. unfold linked. cbn. repeat (apply Forall_cons; split; [by eexists|]). by apply Forall_nil. Qed.

Lemma SetTargetIcon_moves_witness :
  exists w', SetTargetIcon 5 1 9 sample_raid = Ok (tt, w') /\
    quiet w' = quiet (if 5 <? TARGETICONCOUNT
      then with_icons (<[Z.to_nat 5 := 9]>
             (if 9 =? 0 then m_targetIcons (group sample_raid)
              else clear_target 9 (m_targetIcons (group sample_raid)))) sample_raid
      else sample_raid) /\
    (5 < TARGETICONCOUNT -> 9 <> 0 -> forall i j, m_targetIcons (group w') !! i = Some 9 ->
     m_targetIcons (group w') !! j = Some 9 -> i = j).
Proof. apply (SetTargetIcon_moves 5 1 9 sample_raid); [apply sample_raid_linked|lia|done]. Defined.

Lemma UpdateLooterGuid_next_witness :
  exists w', UpdateLooterGuid sample_env 50 false (sample_world []) = Ok (tt, w') /\
    quiet w' = quiet (with_looter
      match find (eligible sample_env 50 (sample_world [])) (turn_order (group (sample_world []))) with
      | Some s => ms_guid s
      | None => 0
      end (sample_world [])).
Proof. apply (UpdateLooterGuid_next sample_env 50 (sample_world [])). by split. Defined.

Lemma round_robin_witness :
  exists w' s', turns sample_env 50 4 (sample_world []) = Ok (tt, w') /\
    m_memberSlots (group (sample_world [])) !!
      ((0 + 4) mod length (m_memberSlots (group (sample_world []))))%nat = Some s' /\
    m_looterGuid (group w') = ms_guid s'.
Proof.
  apply (round_robin sample_env 50 4 0 (sample_slot 1 "Anna") (sample_world [])); [by split| | |done|done].
  - by apply (bool_decide_unpack _).
  - by apply (bool_decide_unpack _).
Defined.

End GroupRules.
