(* ===== verification/Items.v ===== *)
(** * Items: what a player carries

    The items of a player and the lookups over them: [Entities/Item/Item.cpp],
    [Entities/Item/Container/Bag.cpp] and the counting functions of
    [Entities/Player/Player.cpp]. An item is an object at an address of
    [memory]; the player's slots and the slots of bags hold addresses, and a
    comparison of item pointers compares addresses. A slot is addressed by a bag
    and an index; bag 255 stands for the player itself.

    What the database holds (item templates, gem enchantments, limit categories)
    is the record [Stores]. Code that reads through the template pointer without
    checking it reads [NullTemplate] if the template does not exist: that is
    undefined in C++, so nothing is known of [NullTemplate]. *)
From S2P Require Import Prelude.
#[global] Open Scope Z_scope.

Module Items.

Definition PLAYER_SLOT_END := 150.
Definition INVENTORY_SLOT_BAG_0 := 255.
Definition EQUIPMENT_SLOT_START := 0.
Definition EQUIPMENT_SLOT_END := 19.
Definition INVENTORY_SLOT_BAG_START := 19.
Definition INVENTORY_SLOT_BAG_END := 23.
Definition INVENTORY_SLOT_ITEM_START := 23.
Definition INVENTORY_SLOT_ITEM_END := 39.
Definition BANK_SLOT_ITEM_START := 39.
Definition BANK_SLOT_ITEM_END := 67.
Definition BANK_SLOT_BAG_START := 67.
Definition BANK_SLOT_BAG_END := 74.
Definition BUYBACK_SLOT_START := 74.
Definition BUYBACK_SLOT_END := 86.
Definition KEYRING_SLOT_START := 86.
Definition KEYRING_SLOT_END := 118.
Definition CURRENCYTOKEN_SLOT_START := 118.
Definition CURRENCYTOKEN_SLOT_END := 150.
Definition NULL_BAG := 0.
Definition NULL_SLOT := 255.
Definition MAX_BAG_SIZE := 36.

Definition INVTYPE_BAG := 18.
Definition SOCK_ENCHANTMENT_SLOT := 2.
Definition PRISMATIC_ENCHANTMENT_SLOT := 6.
Definition MAX_GEM_SOCKETS := 3.
Definition ITEM_PROTO_FLAG_BIND_TO_ACCOUNT := 0x08000000.
Definition ITEM_FLAG_SOULBOUND := 0x00000001.
Definition ITEM_FLAG_BOP_TRADEABLE := 0x00000100.
Definition BAG_FAMILY_MASK_CURRENCY_TOKENS := 0x00002000.

(** ** Data *)
Record ItemTemplate := mkTemplate {
  ItemId : Z;
  ItemClass : Z;
  ItemSubClass : Z;
  InventoryType : Z;
  Flags : Z;
  MaxCount : Z;              (* signed *)
  Stackable : Z;             (* signed *)
  ContainerSlots : Z;
  BagFamily : Z;
  Socket0_Color : Z;
  GemProperties : Z;
  ItemLimitCategory : Z;
  Bonding : Z;
  Spells : list (Z * Z)      (* SpellTrigger, SpellId *)
}.

Record Item := mkItem {
  GetEntry : Z;
  GetCount : Z;
  m_lootGenerated : bool;
  mb_in_trade : bool;
  ITEM_FIELD_FLAGS : Z;
  GetOwnerGUID : Z;
  allowedGUIDs : list Z;
  GetEnchantmentId : Z -> Z;
  GetBagSize : Z;            (* CONTAINER_FIELD_NUM_SLOTS of a bag *)
  m_bagslot : Z -> option Z; (* of a bag: the addresses of its items *)
  item_guid : Z;
  ITEM_FIELD_CONTAINED : Z;
  m_slot : Z;
  m_container : option Z     (* the address of the bag that holds the item *)
}.

(** The entries of the database and of the client data the items refer to. *)
Record Stores := mkStores {
  GetItemTemplate : Z -> option ItemTemplate;
  NullTemplate : ItemTemplate;
  EnchantmentGemID : Z -> option Z;
  LimitCategory : Z -> option (Z * Z)  (* mode, maxCount *)
}.

Record Player := mkPlayer {
  GetGUID : Z;
  memory : Z -> Item;
  m_items : Z -> option Z
}.

Definition IsCurrencyToken (p : ItemTemplate) : bool := has (BagFamily p) BAG_FAMILY_MASK_CURRENCY_TOKENS.

Definition GetMaxStackSize (p : ItemTemplate) : Z :=
  if (Stackable p =? 2147483647) || (Stackable p <=? 0) then u32 (0x7FFFFFFF - 1) else u32 (Stackable p).

(** [for (i = a; i < b; ++i)] *)
Definition slots (a b : Z) : list Z := seqZ a (b - a).

Section Lookup.
Context (S : Stores) (P : Player).

Definition GetTemplate (it : Item) : option ItemTemplate := GetItemTemplate S (GetEntry it).
Definition Template (it : Item) : ItemTemplate := default (NullTemplate S) (GetTemplate it).

Definition IsBag (it : Item) : bool := InventoryType (Template it) =? INVTYPE_BAG.
Definition IsSoulBound (it : Item) : bool := has (ITEM_FIELD_FLAGS it) ITEM_FLAG_SOULBOUND.
Definition IsBoundAccountWide (it : Item) : bool := has (Flags (Template it)) ITEM_PROTO_FLAG_BIND_TO_ACCOUNT.

Definition ToBag (a : Z) : option Z := if IsBag (memory P a) then Some a else None.

Definition GetBagSlot (it : Item) : Z :=
  match m_container it with Some g => m_slot (memory P g) | None => INVENTORY_SLOT_BAG_0 end.

Definition IsEmpty (bag : Item) : bool :=
  forallb (fun i => match m_bagslot bag i with Some _ => false | None => true end) (slots 0 (GetBagSize bag)).

Definition IsNotEmptyBag (a : Z) : bool :=
  match ToBag a with Some b => negb (IsEmpty (memory P b)) | None => false end.

Definition GetGUIDLow : Z := u32 (GetGUID P).

Definition IsBindedNotWith (it : Item) : bool :=
  if negb (IsSoulBound it) then false
  else if GetOwnerGUID it =? GetGUID P then false
  else if has (ITEM_FIELD_FLAGS it) ITEM_FLAG_BOP_TRADEABLE && bool_decide (GetGUIDLow ∈ allowedGUIDs it) then false
  else if IsBoundAccountWide it then false
  else true.

Definition Bag_GetItemByPos (bag : Item) (slot : Z) : option Z :=
  if slot <? GetBagSize bag then m_bagslot bag slot else None.

(** The player's own slots that hold items. *)
Definition holds_item (slot : Z) : bool :=
  (slot <? BANK_SLOT_BAG_END) || ((KEYRING_SLOT_START <=? slot) && (slot <? CURRENCYTOKEN_SLOT_END)).

(** [GetItemByPos] on bag 255. *)
Definition InventoryItem (slot : Z) : option Z := if holds_item slot then m_items P slot else None.

Definition GetBagByPos (bag : Z) : option Z :=
  if ((INVENTORY_SLOT_BAG_START <=? bag) && (bag <? INVENTORY_SLOT_BAG_END))
     || ((BANK_SLOT_BAG_START <=? bag) && (bag <? BANK_SLOT_BAG_END))
  then match InventoryItem bag with Some a => ToBag a | None => None end
  else None.

Definition GetItemByPos (bag slot : Z) : option Z :=
  if (bag =? INVENTORY_SLOT_BAG_0) && holds_item slot then m_items P slot
  else match GetBagByPos bag with
       | Some b => Bag_GetItemByPos (memory P b) slot
       | None => None
       end.

Definition IsBagPos (pos : Z) : bool :=
  let bag := u8 (Z.shiftr pos 8) in
  let slot := Z.land pos 255 in
  ((bag =? INVENTORY_SLOT_BAG_0) && ((INVENTORY_SLOT_BAG_START <=? slot) && (slot <? INVENTORY_SLOT_BAG_END)))
  || ((bag =? INVENTORY_SLOT_BAG_0) && ((BANK_SLOT_BAG_START <=? slot) && (slot <? BANK_SLOT_BAG_END))).

(** ** Counting *)

Definition GetGemCountWithID (it : Item) (GemID : Z) : Z :=
  fold_left (fun count e =>
    let enchant_id := GetEnchantmentId it e in
    if enchant_id =? 0 then count
    else match EnchantmentGemID S enchant_id with
         | None => count
         | Some g => if GemID =? g then u8 (count + 1) else count
         end) (slots SOCK_ENCHANTMENT_SLOT (SOCK_ENCHANTMENT_SLOT + MAX_GEM_SOCKETS)) 0.

(** The bodies of the counting loops, on the item of one slot. *)
Definition count_entry (item : Z) (skip : option Z) (count : Z) (o : option Z) : Z :=
  match o with
  | Some a => if negb (bool_decide (Some a = skip)) && (GetEntry (memory P a) =? item)
              then u32 (count + GetCount (memory P a)) else count
  | None => count
  end.
Definition count_gems (item : Z) (skip : option Z) (count : Z) (o : option Z) : Z :=
  match o with
  | Some a => if negb (bool_decide (Some a = skip)) && negb (Socket0_Color (Template (memory P a)) =? 0)
              then u32 (count + GetGemCountWithID (memory P a) item) else count
  | None => count
  end.
Definition count_category (limitCategory : Z) (skip : option Z) (count : Z) (o : option Z) : Z :=
  match o with
  | Some a => if negb (bool_decide (Some a = skip))
              then match GetTemplate (memory P a) with
                   | Some p => if ItemLimitCategory p =? limitCategory
                               then u32 (count + GetCount (memory P a)) else count
                   | None => count
                   end
              else count
  | None => count
  end.

(** A loop over the slots of the player, and over the slots of a bag. *)
Definition over_inventory (f : Z -> option Z -> Z) (a b : Z) (count : Z) : Z :=
  fold_left (fun c i => f c (GetItemByPos INVENTORY_SLOT_BAG_0 i)) (slots a b) count.
Definition over_bag (f : Z -> option Z -> Z) (bag : Item) (count : Z) : Z :=
  fold_left (fun c i => f c (m_bagslot bag i)) (slots 0 (GetBagSize bag)) count.

Definition has_gem_properties (skip : option Z) : bool :=
  match skip with Some a => negb (GemProperties (Template (memory P a)) =? 0) | None => false end.

Definition Bag_GetItemCount (bag : Item) (item : Z) (eItem : option Z) : Z :=
  let count := over_bag (count_entry item eItem) bag 0 in
  if has_gem_properties eItem then over_bag (count_gems item eItem) bag count else count.

Definition Bag_GetItemCountWithLimitCategory (bag : Item) (limitCategory : Z) (skipItem : option Z) : Z :=
  over_bag (count_category limitCategory skipItem) bag 0.

(** [for (i = a; i < b; ++i) if (Bag* pBag = GetBagByPos(i)) count += f(pBag)] *)
Definition over_bags (f : Item -> Z) (a b : Z) (count : Z) : Z :=
  fold_left (fun c i => match GetBagByPos i with Some g => u32 (c + f (memory P g)) | None => c end) (slots a b) count.

Definition GetItemCount (item : Z) (inBankAlso : bool) (skipItem : option Z) : Z :=
  let entries := over_inventory (count_entry item skipItem) in
  let gems := over_inventory (count_gems item skipItem) in
  let bags := over_bags (fun bag => Bag_GetItemCount bag item skipItem) in
  let count := entries EQUIPMENT_SLOT_START INVENTORY_SLOT_ITEM_END 0 in
  let count := entries KEYRING_SLOT_START CURRENCYTOKEN_SLOT_END count in
  let count := bags INVENTORY_SLOT_BAG_START INVENTORY_SLOT_BAG_END count in
  let count := if has_gem_properties skipItem
               then gems EQUIPMENT_SLOT_START INVENTORY_SLOT_ITEM_END count else count in
  if inBankAlso then
    let count := entries BANK_SLOT_ITEM_START BANK_SLOT_BAG_END count in
    let count := bags BANK_SLOT_BAG_START BANK_SLOT_BAG_END count in
    if has_gem_properties skipItem then gems BANK_SLOT_ITEM_START BANK_SLOT_ITEM_END count else count
  else count.

Definition GetItemCountWithLimitCategory (limitCategory : Z) (skipItem : option Z) : Z :=
  let items := over_inventory (count_category limitCategory skipItem) in
  let bags := over_bags (fun bag => Bag_GetItemCountWithLimitCategory bag limitCategory skipItem) in
  let count := items EQUIPMENT_SLOT_START INVENTORY_SLOT_ITEM_END 0 in
  let count := items KEYRING_SLOT_START CURRENCYTOKEN_SLOT_END count in
  let count := bags INVENTORY_SLOT_BAG_START INVENTORY_SLOT_BAG_END count in
  let count := items BANK_SLOT_ITEM_START BANK_SLOT_BAG_END count in
  bags BANK_SLOT_BAG_START BANK_SLOT_BAG_END count.

(** [HasItemCount]: each loop stops as soon as [count] is reached. A loop ends
    with the verdict [inl true] or goes on with the items counted so far. *)
Definition enough (item count : Z) (t : bool + Z) (o : option Z) : bool + Z :=
  match t, o with
  | inr tempcount, Some a =>
      if (GetEntry (memory P a) =? item) && negb (mb_in_trade (memory P a)) then
        let tempcount := u32 (tempcount + GetCount (memory P a)) in
        if count <=? tempcount then inl true else inr tempcount
      else t
  | _, _ => t
  end.

Definition HasItemCount (item count : Z) (inBankAlso : bool) : bool :=
  let items a b t := fold_left (fun t i => enough item count t (GetItemByPos INVENTORY_SLOT_BAG_0 i)) (slots a b) t in
  let bags a b t := fold_left (fun t i =>
      match GetBagByPos i with
      | Some g => fold_left (fun t j => enough item count t (GetItemByPos i (u8 j))) (slots 0 (GetBagSize (memory P g))) t
      | None => t
      end) (slots a b) t in
  let t := items EQUIPMENT_SLOT_START INVENTORY_SLOT_ITEM_END (inr 0) in
  let t := items KEYRING_SLOT_START CURRENCYTOKEN_SLOT_END t in
  let t := bags INVENTORY_SLOT_BAG_START INVENTORY_SLOT_BAG_END t in
  let t := if inBankAlso then
             bags BANK_SLOT_BAG_START BANK_SLOT_BAG_END (items BANK_SLOT_ITEM_START BANK_SLOT_ITEM_END t)
           else t in
  match t with inl v => v | inr _ => false end.

End Lookup.
(** ** What the player carries

    The contract of the counting functions: the addresses of the items a
    player carries, each storage position once, and the total of their stacks. *)

(** The contents of the bags worn in slots [a] to [b]. *)
Definition bag_contents (S : Stores) (P : Player) (a b : Z) : list Z :=
  concat (map (fun i => match GetBagByPos S P i with
                        | Some g => omap (m_bagslot (memory P g)) (slots 0 (GetBagSize (memory P g)))
                        | None => []
                        end) (slots a b)).

Definition own_items (P : Player) (a b : Z) : list Z := omap (m_items P) (slots a b).

(** Without the bank, and in the bank up to slot [bank_end]. *)
Definition carried (S : Stores) (P : Player) : list Z :=
  own_items P EQUIPMENT_SLOT_START INVENTORY_SLOT_ITEM_END
  ++ own_items P KEYRING_SLOT_START CURRENCYTOKEN_SLOT_END
  ++ bag_contents S P INVENTORY_SLOT_BAG_START INVENTORY_SLOT_BAG_END.
Definition banked (S : Stores) (P : Player) (bank_end : Z) : list Z :=
  own_items P BANK_SLOT_ITEM_START bank_end ++ bag_contents S P BANK_SLOT_BAG_START BANK_SLOT_BAG_END.

(** The items in the stacks that satisfy [sel]. *)
Definition stack_total (P : Player) (sel : Item -> bool) (l : list Z) : Z :=
  foldr (fun a t => if sel (memory P a) then GetCount (memory P a) + t else t) 0 l.

(** The fields have their C++ types and a bag its largest size. *)
Definition typed (P : Player) : Prop :=
  forall a, in_u 32 (GetCount (memory P a)) /\ 0 <= GetBagSize (memory P a) <= MAX_BAG_SIZE.

Definition is_entry (item : Z) (it : Item) : bool := GetEntry it =? item.
Definition is_free_entry (item : Z) (it : Item) : bool := (GetEntry it =? item) && negb (mb_in_trade it).

Lemma stack_total_app P sel l k : stack_total P sel (l ++ k) = stack_total P sel l + stack_total P sel k.
Proof. unfold stack_total. induction l as [|a l IH]; simpl; [done|]. destruct (sel _); lia. Qed.

Section Counting.
Context (S : Stores) (P : Player).

Lemma GetItemByPos_inventory i : holds_item i = true -> GetItemByPos S P INVENTORY_SLOT_BAG_0 i = m_items P i.
Proof. unfold GetItemByPos. by intros ->. Qed.

Lemma count_entry_total item l c :
  in_u 32 c ->
  fold_left (count_entry P item None) l c = u32 (c + stack_total P (is_entry item) (omap id l)).
Proof.
  revert c. induction l as [|o l IH]; intros c Hc; simpl.
  - rewrite Z.add_0_r, wrap_id; done.
  - destruct o as [a|]; simpl; [|by apply IH].
    change (bool_decide (Some a = None)) with false. simpl.
    change (is_entry item (memory P a)) with (GetEntry (memory P a) =? item).
    destruct (GetEntry (memory P a) =? item) eqn:E.
    + rewrite IH by (apply wrap_range; lia). rewrite wrap_add_l by lia. f_equal. symmetry. apply Z.add_assoc.
    + by rewrite IH.
Qed.

Lemma fold_slots {A B} (f : A -> B -> A) (g : Z -> B) l c :
  fold_left (fun c i => f c (g i)) l c = fold_left f (map g l) c.
Proof. revert c. induction l; simpl; auto. Qed.

Lemma omap_map_id {A B} (g : A -> option B) l : omap id (map g l) = omap g l.
Proof. induction l as [|x l IH]; [done|]. cbn. destruct (g x); [f_equal|]; apply IH. Qed.

(** A stretch of own slots read through [GetItemByPos]. *)
Lemma own_slots a b :
  forallb holds_item (slots a b) = true ->
  map (GetItemByPos S P INVENTORY_SLOT_BAG_0) (slots a b) = map (m_items P) (slots a b).
Proof.
  intros H. apply map_ext_in. intros i Hi. apply GetItemByPos_inventory.
  rewrite forallb_forall in H. auto.
Qed.

Lemma over_inventory_total item a b c :
  forallb holds_item (slots a b) = true -> in_u 32 c ->
  over_inventory S P (count_entry P item None) a b c = u32 (c + stack_total P (is_entry item) (own_items P a b)).
Proof.
  intros H Hc. unfold over_inventory.
  rewrite fold_slots, own_slots, count_entry_total, omap_map_id by done. done.
Qed.

Lemma over_bags_total item a b c :
  in_u 32 c ->
  over_bags S P (fun bag => Bag_GetItemCount S P bag item None) a b c
  = u32 (c + stack_total P (is_entry item) (bag_contents S P a b)).
Proof.
  unfold over_bags, bag_contents. generalize (slots a b) as l. intros l. revert c.
  induction l as [|i l IH]; intros c Hc; simpl.
  - rewrite Z.add_0_r, wrap_id; done.
  - destruct (GetBagByPos S P i) as [g|]; [|by apply IH].
    rewrite IH by (apply wrap_range; lia). rewrite stack_total_app. unfold Bag_GetItemCount, over_bag. simpl.
    rewrite fold_slots, count_entry_total, omap_map_id by width.
    rewrite wrap_add_l, Z.add_0_l, Z.add_assoc by lia.
    rewrite <- wrap_add_l, wrap_add_r, wrap_add_l by lia. done.
Qed.


(** The same on a count that is already a total modulo 2^32. *)
Lemma over_inventory_wrap item a b z :
  forallb holds_item (slots a b) = true ->
  over_inventory S P (count_entry P item None) a b (u32 z)
  = u32 (z + stack_total P (is_entry item) (own_items P a b)).
Proof. intros H. rewrite over_inventory_total, wrap_add_l by (done || lia || (apply wrap_range; lia)). done. Qed.

Lemma over_bags_wrap item a b z :
  over_bags S P (fun bag => Bag_GetItemCount S P bag item None) a b (u32 z)
  = u32 (z + stack_total P (is_entry item) (bag_contents S P a b)).
Proof. rewrite over_bags_total, wrap_add_l by (lia || (apply wrap_range; lia)). done. Qed.

(** GetItemCount counts every stack of the item that the player carries
    exactly once, and with the bank every stack in it, the bank bags and their
    contents included, modulo 2^32. *)
Theorem GetItemCount_total (item : Z) (inBankAlso : bool) :
  GetItemCount S P item inBankAlso None
  = u32 (stack_total P (is_entry item)
           (carried S P ++ if inBankAlso then banked S P BANK_SLOT_BAG_END else [])).
Proof.
  unfold GetItemCount, carried, banked. simpl has_gem_properties. cbv iota.
  rewrite !stack_total_app.
  replace (over_inventory S P (count_entry P item None) EQUIPMENT_SLOT_START INVENTORY_SLOT_ITEM_END 0)
    with (u32 (stack_total P (is_entry item) (own_items P EQUIPMENT_SLOT_START INVENTORY_SLOT_ITEM_END)))
    by (symmetry; exact (over_inventory_wrap item EQUIPMENT_SLOT_START INVENTORY_SLOT_ITEM_END 0 eq_refl)).
  rewrite over_inventory_wrap, over_bags_wrap by done.
  destruct inBankAlso.
  - rewrite over_inventory_wrap, over_bags_wrap, stack_total_app by done. f_equal. lia.
  - f_equal. cbn [stack_total foldr]. lia.
Qed.

(** ** HasItemCount *)

(** What a loop of [HasItemCount] does with the items [l]. *)
Definition counted (item count : Z) (l : list Z) (t : bool + Z) : bool + Z :=
  fold_left (fun t a => enough P item count t (Some a)) l t.

Lemma counted_app item count l k t : counted item count (l ++ k) t = counted item count k (counted item count l t).
Proof. apply fold_left_app. Qed.

Lemma enough_omap item count (g : Z -> option Z) l t :
  fold_left (fun t i => enough P item count t (g i)) l t = counted item count (omap g l) t.
Proof.
  revert t. induction l as [|i l IH]; intros t; [done|]. cbn.
  destruct (g i); simpl; [by rewrite IH|]. rewrite IH. by destruct t.
Qed.

Lemma counted_inl item count l v : counted item count l (inl v) = inl v.
Proof. induction l; simpl; auto. Qed.

(** The loops find [count] exactly if the item is there and its stacks reach it. *)
Lemma counted_verdict item count l c :
  typed P -> 0 <= c ->
  c + stack_total P (is_free_entry item) l < 2 ^ 32 ->
  counted item count l (inr c)
  = if existsb (fun a => is_free_entry item (memory P a)) l
       && (count <=? c + stack_total P (is_free_entry item) l)
    then inl true else inr (c + stack_total P (is_free_entry item) l).
Proof.
  intros Ht. assert (forall a, 0 <= GetCount (memory P a)) as Hpos by (intros a; destruct (Ht a) as [[? ?] _]; done).
  revert c. induction l as [|a l IH]; intros c Hc Hlt; simpl in *; [by rewrite Z.add_0_r|].
  assert (0 <= stack_total P (is_free_entry item) l) as Hs.
  { clear - Hpos. induction l as [|b l IH]; simpl; [lia|]. specialize (Hpos b). destruct (is_free_entry _ _); lia. }
  specialize (Hpos a). unfold is_free_entry in *.
  destruct ((GetEntry (memory P a) =? item) && negb (mb_in_trade (memory P a))); simpl; [|by apply IH].
  rewrite wrap_id by width.
  destruct (Z.leb_spec count (c + GetCount (memory P a))).
  - rewrite counted_inl. destruct (Z.leb_spec count (c + (GetCount (memory P a) + stack_total P (fun it => (GetEntry it =? item) && negb (mb_in_trade it)) l))); [done|lia].
  - rewrite IH by lia. rewrite <- Z.add_assoc.
    destruct (existsb _ l) eqn:E; simpl; [done|].
    assert (stack_total P (fun it => (GetEntry it =? item) && negb (mb_in_trade it)) l = 0) as ->.
    { clear - E. induction l as [|b l IH]; simpl in *; [done|]. apply orb_false_iff in E as [-> E]. auto. }
    destruct (Z.leb_spec count (c + (GetCount (memory P a) + 0))); [lia|done].
Qed.

(** A slot of a bag read through the bag and read through the player. *)
Lemma GetBagByPos_not_0 i g : GetBagByPos S P i = Some g -> (i =? INVENTORY_SLOT_BAG_0) = false.
Proof.
  unfold GetBagByPos. destruct (_ || _) eqn:E; [|done]. intros _.
  unfold INVENTORY_SLOT_BAG_START, INVENTORY_SLOT_BAG_END, BANK_SLOT_BAG_START, BANK_SLOT_BAG_END, INVENTORY_SLOT_BAG_0 in *.
  lia.
Qed.

Lemma GetItemByPos_bag i g j :
  GetBagByPos S P i = Some g -> GetItemByPos S P i j = Bag_GetItemByPos (memory P g) j.
Proof. intros H. unfold GetItemByPos. by rewrite (GetBagByPos_not_0 i g H), H. Qed.

Lemma bag_slot_items i g :
  typed P -> GetBagByPos S P i = Some g ->
  omap (fun j => GetItemByPos S P i (u8 j)) (slots 0 (GetBagSize (memory P g)))
  = omap (m_bagslot (memory P g)) (slots 0 (GetBagSize (memory P g))).
Proof.
  intros Ht Hg. destruct (Ht g) as [_ Hs]. unfold MAX_BAG_SIZE in Hs.
  assert (Forall (fun j => 0 <= j < GetBagSize (memory P g)) (slots 0 (GetBagSize (memory P g)))) as Hf.
  { apply Forall_forall. intros j Hj. apply elem_of_seqZ in Hj. lia. }
  revert Hf. generalize (slots 0 (GetBagSize (memory P g))). intros l Hf.
  induction Hf as [|j l Hj Hf IH]; [done|]. cbn.
  rewrite (GetItemByPos_bag i g) by done. rewrite wrap_id by width.
  unfold Bag_GetItemByPos. replace (j <? GetBagSize (memory P g)) with true by lia.
  destruct (m_bagslot (memory P g) j); [f_equal|]; apply IH.
Qed.

(** The loops of [HasItemCount] as [counted]. *)
Lemma counted_slots item count a b t :
  forallb holds_item (slots a b) = true ->
  fold_left (fun t i => enough P item count t (GetItemByPos S P INVENTORY_SLOT_BAG_0 i)) (slots a b) t
  = counted item count (own_items P a b) t.
Proof.
  intros H. rewrite enough_omap. unfold own_items.
  by rewrite <- (omap_map_id (m_items P)), <- own_slots, omap_map_id.
Qed.

Lemma counted_bags item count a b t :
  typed P ->
  fold_left (fun t i =>
      match GetBagByPos S P i with
      | Some g => fold_left (fun t j => enough P item count t (GetItemByPos S P i (u8 j)))
                    (slots 0 (GetBagSize (memory P g))) t
      | None => t
      end) (slots a b) t
  = counted item count (bag_contents S P a b) t.
Proof.
  intros Ht. unfold bag_contents. generalize (slots a b) as l. intros l. revert t.
  induction l as [|i l IH]; intros t; [done|]. cbn [map concat fold_left]. rewrite counted_app, IH. f_equal.
  destruct (GetBagByPos S P i) as [g|] eqn:Hg; [|done].
  by rewrite (enough_omap item count (fun j => GetItemByPos S P i (u8 j))), bag_slot_items.
Qed.

(** HasItemCount answers whether the stacks of the item that are not in
    trade reach [count], over the carried items and, if asked, the bank: one
    such stack must exist and their total be at least [count]. Unlike
    [GetItemCount] it does not count the bags worn in the bank themselves. *)
Theorem HasItemCount_spec (item count : Z) (inBankAlso : bool) :
  let l := carried S P ++ if inBankAlso then banked S P BANK_SLOT_ITEM_END else [] in
  typed P -> stack_total P (is_free_entry item) l < 2 ^ 32 ->
  HasItemCount S P item count inBankAlso
  = existsb (fun a => is_free_entry item (memory P a)) l && (count <=? stack_total P (is_free_entry item) l).
Proof.
  intros l Ht Hl.
  assert (HasItemCount S P item count inBankAlso
          = match counted item count l (inr 0) return bool with inl v => v | inr _ => false end) as ->.
  { unfold HasItemCount, l, carried, banked.
    destruct inBankAlso; rewrite !counted_slots, !counted_bags, ?app_nil_r, !counted_app by done; done. }
  rewrite counted_verdict by (done || lia). rewrite Z.add_0_l. by destruct (_ && _).
Qed.
End Counting.

(** A player with three of item 100 in the backpack, two in a worn bag and five
    in trade. *)
Definition demo_stores : Stores := mkStores
  (fun e => if e =? 200 then Some (mkTemplate 200 1 0 INVTYPE_BAG 0 0 1 2 0 0 0 0 0 [])
            else Some (mkTemplate e 15 0 0 0 0 20 0 0 0 0 0 0 []))
  (mkTemplate 0 0 0 0 0 0 0 0 0 0 0 0 0 []) (fun _ => None) (fun _ => None).
Definition demo_memory (a : Z) : Item :=
  let item entry count trade size content := mkItem entry count false trade 0 7 [] (fun _ => 0) size content 0 0 0 None in
  if a =? 1 then item 100 3 false 0 (fun _ => None)
  else if a =? 2 then item 100 2 false 0 (fun _ => None)
  else if a =? 3 then item 100 5 true 0 (fun _ => None)
  else item 200 1 false 2 (fun j => if j =? 1 then Some 2 else None).
Definition demo_player : Player := mkPlayer 7 demo_memory
  (fun i => if i =? 19 then Some 4 else if i =? 23 then Some 1 else if i =? 24 then Some 3 else None).

Lemma HasItemCount_spec_witness :
  let l := carried demo_stores demo_player ++ [] in
  stack_total demo_player (is_free_entry 100) l = 5
  /\ HasItemCount demo_stores demo_player 100 5 false
     = existsb (fun a => is_free_entry 100 (memory demo_player a)) l
       && (5 <=? stack_total demo_player (is_free_entry 100) l).
Proof.
  split; [vm_compute; reflexivity|].
  apply (HasItemCount_spec demo_stores demo_player 100 5 false); [|vm_compute; reflexivity].
  intros a. simpl. unfold demo_memory.
  repeat match goal with |- context [if ?c then _ else _] => destruct c end; done.
Defined.
End Items.
