(* ===== verification/Storage.v ===== *)
(** * Storage: where a player can put items

    [Player::CanStoreItem] of [Entities/Player/Player.cpp] and its helpers: given
    an item and a number of them, find the positions that can take them, filling
    existing stacks first. The functions read the player and extend the list
    [dest] of positions with counts; a call returns the result code, [dest], what
    is left to place, and what it wrote through [no_space_count] (nothing, if it
    did not). *)
From S2P Require Import Prelude Items.
#[global] Open Scope Z_scope.

Module Storage.
Import Items.

Definition EQUIP_ERR_OK := 0.
Definition EQUIP_ERR_NONEMPTY_BAG_OVER_OTHER_BAG := 5.
Definition EQUIP_ERR_ITEM_DOESNT_GO_INTO_BAG := 15.
Definition EQUIP_ERR_CANT_CARRY_MORE_OF_THIS := 17.
Definition EQUIP_ERR_ITEM_CANT_STACK := 19.
Definition EQUIP_ERR_ITEM_CANT_BE_EQUIPPED := 20.
Definition EQUIP_ERR_ITEMS_CANT_BE_SWAPPED := 21.
Definition EQUIP_ERR_ITEM_NOT_FOUND := 23.
Definition EQUIP_ERR_CAN_ONLY_DO_WITH_EMPTY_BAGS := 31.
Definition EQUIP_ERR_DONT_OWN_THAT_ITEM := 32.
Definition EQUIP_ERR_ALREADY_LOOTED := 49.
Definition EQUIP_ERR_INVENTORY_FULL := 50.
Definition EQUIP_ERR_ITEM_MAX_LIMIT_CATEGORY_COUNT_EXCEEDED := 84.

Definition ITEM_LIMIT_CATEGORY_MODE_HAVE := 0.

Definition BAG_FAMILY_MASK_ARROWS := 0x00000001.
Definition BAG_FAMILY_MASK_BULLETS := 0x00000002.
Definition BAG_FAMILY_MASK_SOUL_SHARDS := 0x00000004.
Definition BAG_FAMILY_MASK_LEATHERWORKING_SUPP := 0x00000008.
Definition BAG_FAMILY_MASK_INSCRIPTION_SUPP := 0x00000010.
Definition BAG_FAMILY_MASK_HERBS := 0x00000020.
Definition BAG_FAMILY_MASK_ENCHANTING_SUPP := 0x00000040.
Definition BAG_FAMILY_MASK_ENGINEERING_SUPP := 0x00000080.
Definition BAG_FAMILY_MASK_KEYS := 0x00000100.
Definition BAG_FAMILY_MASK_GEMS := 0x00000200.
Definition BAG_FAMILY_MASK_MINING_SUPP := 0x00000400.

Definition ITEM_CLASS_CONTAINER := 1.
Definition ITEM_CLASS_QUIVER := 11.
Definition ITEM_SUBCLASS_CONTAINER := 0.
Definition ITEM_SUBCLASS_SOUL_CONTAINER := 1.
Definition ITEM_SUBCLASS_HERB_CONTAINER := 2.
Definition ITEM_SUBCLASS_ENCHANTING_CONTAINER := 3.
Definition ITEM_SUBCLASS_ENGINEERING_CONTAINER := 4.
Definition ITEM_SUBCLASS_GEM_CONTAINER := 5.
Definition ITEM_SUBCLASS_MINING_CONTAINER := 6.
Definition ITEM_SUBCLASS_LEATHERWORKING_CONTAINER := 7.
Definition ITEM_SUBCLASS_INSCRIPTION_CONTAINER := 8.
Definition ITEM_SUBCLASS_QUIVER := 2.
Definition ITEM_SUBCLASS_AMMO_POUCH := 3.

(** [ItemPosCount]; the list of them and the number still to place. *)
Record ItemPosCount := mkPosCount { ipc_pos : Z; ipc_count : Z }.
Definition ItemPosCountVec := list ItemPosCount.
Definition Places : Type := ItemPosCountVec * Z.

(** What [CanStoreItem] gives back: result, [dest], [*no_space_count]. *)
Record StoreResult := mkStoreResult { sr_res : Z; sr_dest : ItemPosCountVec; sr_no_space : option Z }.

Definition GetMaxKeyringSize : Z := KEYRING_SLOT_END - KEYRING_SLOT_START.

Definition ItemCanGoIntoBag (p bag : ItemTemplate) : bool :=
  if ItemClass bag =? ITEM_CLASS_CONTAINER then
    let s := ItemSubClass bag in
    if s =? ITEM_SUBCLASS_CONTAINER then true
    else if s =? ITEM_SUBCLASS_SOUL_CONTAINER then has (BagFamily p) BAG_FAMILY_MASK_SOUL_SHARDS
    else if s =? ITEM_SUBCLASS_HERB_CONTAINER then has (BagFamily p) BAG_FAMILY_MASK_HERBS
    else if s =? ITEM_SUBCLASS_ENCHANTING_CONTAINER then has (BagFamily p) BAG_FAMILY_MASK_ENCHANTING_SUPP
    else if s =? ITEM_SUBCLASS_MINING_CONTAINER then has (BagFamily p) BAG_FAMILY_MASK_MINING_SUPP
    else if s =? ITEM_SUBCLASS_ENGINEERING_CONTAINER then has (BagFamily p) BAG_FAMILY_MASK_ENGINEERING_SUPP
    else if s =? ITEM_SUBCLASS_GEM_CONTAINER then has (BagFamily p) BAG_FAMILY_MASK_GEMS
    else if s =? ITEM_SUBCLASS_LEATHERWORKING_CONTAINER then has (BagFamily p) BAG_FAMILY_MASK_LEATHERWORKING_SUPP
    else if s =? ITEM_SUBCLASS_INSCRIPTION_CONTAINER then has (BagFamily p) BAG_FAMILY_MASK_INSCRIPTION_SUPP
    else false
  else if ItemClass bag =? ITEM_CLASS_QUIVER then
    if ItemSubClass bag =? ITEM_SUBCLASS_QUIVER then has (BagFamily p) BAG_FAMILY_MASK_ARROWS
    else if ItemSubClass bag =? ITEM_SUBCLASS_AMMO_POUCH then has (BagFamily p) BAG_FAMILY_MASK_BULLETS
    else false
  else false.

Definition CanBeMergedPartlyWith (it : Item) (proto : ItemTemplate) : Z :=
  if m_lootGenerated it then EQUIP_ERR_ALREADY_LOOTED
  else if negb (GetEntry it =? ItemId proto) then EQUIP_ERR_ITEM_CANT_STACK
  else if GetMaxStackSize proto <=? GetCount it then EQUIP_ERR_ITEM_CANT_STACK
  else EQUIP_ERR_OK.

Definition isContainedIn (p : ItemPosCount) (vec : ItemPosCountVec) : bool :=
  existsb (fun q => ipc_pos q =? ipc_pos p) vec.

Create HintDb storage.

Section CanStore.
Context (S : Stores) (P : Player).

(** Result code and [*no_space_count]. *)
Definition CanTakeMoreSimilarItems (entry count : Z) (pItem : option Z) : Z * option Z :=
  match GetItemTemplate S entry with
  | None => (EQUIP_ERR_CANT_CARRY_MORE_OF_THIS, Some count)
  | Some pProto =>
      if match pItem with Some a => m_lootGenerated (memory P a) | None => false end
      then (EQUIP_ERR_ALREADY_LOOTED, None)
      else if ((MaxCount pProto <=? 0) && (ItemLimitCategory pProto =? 0)) || (MaxCount pProto =? 2147483647)
      then (EQUIP_ERR_OK, None)
      else
        let curcount := GetItemCount S P (ItemId pProto) true pItem in
        if (0 <? MaxCount pProto) && (u32 (MaxCount pProto) <? u32 (curcount + count))
        then (EQUIP_ERR_CANT_CARRY_MORE_OF_THIS, Some (u32 (count + curcount - MaxCount pProto)))
        else if ItemLimitCategory pProto =? 0 then (EQUIP_ERR_OK, None)
        else match LimitCategory S (ItemLimitCategory pProto) with
             | None => (EQUIP_ERR_ITEM_CANT_BE_EQUIPPED, Some count)
             | Some (mode, maxCount) =>
                 if mode =? ITEM_LIMIT_CATEGORY_MODE_HAVE then
                   let curcount := GetItemCountWithLimitCategory S P (ItemLimitCategory pProto) pItem in
                   if maxCount <? u32 (curcount + count)
                   then (EQUIP_ERR_ITEM_MAX_LIMIT_CATEGORY_COUNT_EXCEEDED, Some (u32 (count + curcount - maxCount)))
                   else (EQUIP_ERR_OK, None)
                 else (EQUIP_ERR_OK, None)
             end
  end.

(** The item of a slot, ignoring the item that is being moved. *)
Definition other_item (o pSrcItem : option Z) : option Z := if bool_decide (o = pSrcItem) then None else o.

Definition src_not_empty_bag (pSrcItem : option Z) : bool :=
  match pSrcItem with Some a => IsNotEmptyBag S P a | None => false end.

(** [ItemPosCount newPosition = ...]: push it unless its position is taken. The
    flag says whether it was pushed. *)
Definition push_position (pos need_space : Z) (st : Places) : Places * bool :=
  let '(dest, count) := st in
  let need_space := if count <? need_space then count else need_space in
  let newPosition := mkPosCount (u16 pos) need_space in
  if isContainedIn newPosition dest then (st, false)
  else ((dest ++ [newPosition], u32 (count - need_space)), true).

(** The position of a slot: [(bag << 8) | slot]. *)
Definition position (bag slot : Z) : Z := Z.lor (Z.shiftl bag 8) slot.

Definition CanStoreItem_InSpecificSlot (bag slot : Z) (pProto : ItemTemplate) (swap : bool)
    (pSrcItem : option Z) (st : Places) : Z * Places :=
  let pItem2 := other_item (GetItemByPos S P bag slot) pSrcItem in
  if src_not_empty_bag pSrcItem && negb (IsBagPos (Z.lor (Z.shiftl (u16 bag) 8) slot))
  then (EQUIP_ERR_CAN_ONLY_DO_WITH_EMPTY_BAGS, st)
  else
    let fill need_space := (EQUIP_ERR_OK, fst (push_position (position bag slot) need_space st)) in
    let empty :=
      if bag =? INVENTORY_SLOT_BAG_0 then
        if (KEYRING_SLOT_START <=? slot) && (slot <? KEYRING_SLOT_START + GetMaxKeyringSize)
           && negb (has (BagFamily pProto) BAG_FAMILY_MASK_KEYS)
        then (EQUIP_ERR_ITEM_DOESNT_GO_INTO_BAG, st)
        else if (CURRENCYTOKEN_SLOT_START <=? slot) && (slot <? CURRENCYTOKEN_SLOT_END)
                && negb (IsCurrencyToken pProto)
        then (EQUIP_ERR_ITEM_DOESNT_GO_INTO_BAG, st)
        else if ((BUYBACK_SLOT_START <=? slot) && (slot <? BUYBACK_SLOT_END)) || (PLAYER_SLOT_END <=? slot)
        then (EQUIP_ERR_ITEM_DOESNT_GO_INTO_BAG, st)
        else fill (GetMaxStackSize pProto)
      else
        match GetBagByPos S P bag with
        | None => (EQUIP_ERR_ITEM_DOESNT_GO_INTO_BAG, st)
        | Some pBag =>
            match GetTemplate S (memory P pBag) with
            | None => (EQUIP_ERR_ITEM_DOESNT_GO_INTO_BAG, st)
            | Some pBagProto =>
                if ContainerSlots pBagProto <=? slot then (EQUIP_ERR_ITEM_DOESNT_GO_INTO_BAG, st)
                else if negb (ItemCanGoIntoBag pProto pBagProto) then (EQUIP_ERR_ITEM_DOESNT_GO_INTO_BAG, st)
                else fill (GetMaxStackSize pProto)
            end
        end in
    match pItem2 with
    | Some a =>
        if swap then empty
        else
          let res := CanBeMergedPartlyWith (memory P a) pProto in
          if negb (res =? EQUIP_ERR_OK) then (res, st)
          else fill (u32 (GetMaxStackSize pProto - GetCount (memory P a)))
    | None => empty
    end.

(** The loop over the slots [js] of a bag (255: of the player); [skip] tells
    the slots to pass over. It ends once nothing is left to place. *)
Fixpoint store_slots (bag : Z) (skip : Z -> bool) (pProto : ItemTemplate) (merge : bool)
    (pSrcItem : option Z) (js : list Z) (st : Places) : Places :=
  match js with
  | [] => st
  | j :: js =>
      let next := store_slots bag skip pProto merge pSrcItem js in
      let push need_space :=
        let '(st', pushed) := push_position (position bag j) need_space st in
        if pushed && (snd st' =? 0) then st' else next st' in
      if skip j then next st
      else
        match other_item (GetItemByPos S P bag (u8 j)) pSrcItem with
        | Some a =>
            if negb merge then next st
            else if negb (u8 (CanBeMergedPartlyWith (memory P a) pProto) =? EQUIP_ERR_OK) then next st
            else push (u32 (GetMaxStackSize pProto - GetCount (memory P a)))
        | None =>
            if merge then next st else push (GetMaxStackSize pProto)
        end
  end.

Definition CanStoreItem_InBag (bag : Z) (pProto : ItemTemplate) (merge non_specialized : bool)
    (pSrcItem : option Z) (skip_bag skip_slot : Z) (st : Places) : Z * Places :=
  if bag =? skip_bag then (EQUIP_ERR_ITEM_DOESNT_GO_INTO_BAG, st)
  else
    match GetBagByPos S P bag with
    | None => (EQUIP_ERR_ITEM_DOESNT_GO_INTO_BAG, st)
    | Some pBag =>
        if bool_decide (Some pBag = pSrcItem) then (EQUIP_ERR_ITEM_DOESNT_GO_INTO_BAG, st)
        else if src_not_empty_bag pSrcItem then (EQUIP_ERR_CAN_ONLY_DO_WITH_EMPTY_BAGS, st)
        else
          match GetTemplate S (memory P pBag) with
          | None => (EQUIP_ERR_ITEM_DOESNT_GO_INTO_BAG, st)
          | Some pBagProto =>
              if negb (Bool.eqb non_specialized
                         ((ItemClass pBagProto =? ITEM_CLASS_CONTAINER)
                          && (ItemSubClass pBagProto =? ITEM_SUBCLASS_CONTAINER)))
              then (EQUIP_ERR_ITEM_DOESNT_GO_INTO_BAG, st)
              else if negb (ItemCanGoIntoBag pProto pBagProto) then (EQUIP_ERR_ITEM_DOESNT_GO_INTO_BAG, st)
              else (EQUIP_ERR_OK, store_slots bag (fun j => j =? skip_slot) pProto merge pSrcItem
                                    (slots 0 (GetBagSize (memory P pBag))) st)
          end
    end.

Definition CanStoreItem_InInventorySlots (slot_begin slot_end : Z) (pProto : ItemTemplate) (merge : bool)
    (pSrcItem : option Z) (skip_bag skip_slot : Z) (st : Places) : Z * Places :=
  if src_not_empty_bag pSrcItem then (EQUIP_ERR_CAN_ONLY_DO_WITH_EMPTY_BAGS, st)
  else (EQUIP_ERR_OK, store_slots INVENTORY_SLOT_BAG_0
                        (fun j => (INVENTORY_SLOT_BAG_0 =? skip_bag) && (j =? skip_slot))
                        pProto merge pSrcItem (slots slot_begin slot_end) st).

(** ** CanStoreItem

    Its body is a sequence of searches. A search ends the call with a result
    ([inl]) or leaves something to place ([inr]). *)
Definition Search : Type := Places -> StoreResult + Places.

Definition andThen (s1 s2 : Search) : Search := fun st =>
  match s1 st with inl r => inl r | inr st' => s2 st' end.

Definition when (b : bool) (s : Search) : Search := if b then s else inr.

Section Phases.
Context (pProto : ItemTemplate) (pItem : option Z) (swap : bool) (bag slot no_similar_count : Z).

Definition no_space (st : Places) : option Z := Some (u32 (snd st + no_similar_count)).

(** [if (count == 0) { ... }] after a search. *)
Definition finish (st : Places) : StoreResult + Places :=
  if snd st =? 0 then
    inl (if no_similar_count =? 0 then mkStoreResult EQUIP_ERR_OK (fst st) None
         else mkStoreResult EQUIP_ERR_CANT_CARRY_MORE_OF_THIS (fst st) (no_space st))
  else inr st.

(** A search whose failure ends the call, and one whose failure is passed over. *)
Definition must (f : Places -> Z * Places) : Search := fun st =>
  let '(res, st') := f st in
  if negb (res =? EQUIP_ERR_OK) then inl (mkStoreResult res (fst st') (no_space st')) else finish st'.
Definition may (f : Places -> Z * Places) : Search := fun st =>
  let '(res, st') := f st in
  if negb (res =? EQUIP_ERR_OK) then inr st' else finish st'.

(** [for (i = INVENTORY_SLOT_BAG_START; i < INVENTORY_SLOT_BAG_END; i++)] *)
Definition in_bags (merge non_specialized : bool) : Search :=
  foldr (fun i s => andThen (may (CanStoreItem_InBag i pProto merge non_specialized pItem bag slot)) s) inr
    (slots INVENTORY_SLOT_BAG_START INVENTORY_SLOT_BAG_END).

Definition in_slots (a b : Z) (merge : bool) : Search :=
  must (CanStoreItem_InInventorySlots a b pProto merge pItem bag slot).

(** The bag the caller named: specialised bags first, then plain ones. *)
Definition in_named_bag (merge : bool) : Search :=
  must (fun st =>
    let '(res, st') := CanStoreItem_InBag bag pProto merge false pItem NULL_BAG slot st in
    if negb (res =? EQUIP_ERR_OK)
    then CanStoreItem_InBag bag pProto merge true pItem NULL_BAG slot st' else (res, st')).

Definition is_key : bool := has (BagFamily pProto) BAG_FAMILY_MASK_KEYS.

Definition specific_slot : Search :=
  when (negb (bag =? NULL_BAG) && negb (slot =? NULL_SLOT))
    (must (CanStoreItem_InSpecificSlot bag slot pProto swap pItem)).

Definition specific_bag_merge : Search :=
  when (negb (Stackable pProto =? 1))
    (if bag =? INVENTORY_SLOT_BAG_0 then
       andThen (in_slots KEYRING_SLOT_START CURRENCYTOKEN_SLOT_END true)
               (in_slots INVENTORY_SLOT_ITEM_START INVENTORY_SLOT_ITEM_END true)
     else in_named_bag true).

Definition specific_bag_free : Search :=
  if bag =? INVENTORY_SLOT_BAG_0 then
    andThen
      (if is_key then
         andThen (in_slots KEYRING_SLOT_START (KEYRING_SLOT_START + GetMaxKeyringSize) false)
                 (in_slots CURRENCYTOKEN_SLOT_START CURRENCYTOKEN_SLOT_END false)
       else when (IsCurrencyToken pProto) (in_slots CURRENCYTOKEN_SLOT_START CURRENCYTOKEN_SLOT_END false))
      (in_slots INVENTORY_SLOT_ITEM_START INVENTORY_SLOT_ITEM_END false)
  else in_named_bag false.

Definition specific_bag : Search :=
  when (negb (bag =? NULL_BAG)) (andThen specific_bag_merge specific_bag_free).

Definition merge_search : Search :=
  when (negb (Stackable pProto =? 1))
    (andThen (in_slots KEYRING_SLOT_START CURRENCYTOKEN_SLOT_END true)
      (andThen (in_slots INVENTORY_SLOT_ITEM_START INVENTORY_SLOT_ITEM_END true)
        (andThen (when (negb (BagFamily pProto =? 0)) (in_bags true false))
          (in_bags true true)))).

Definition special_search : Search :=
  when (negb (BagFamily pProto =? 0))
    (andThen
      (if is_key then in_slots KEYRING_SLOT_START (KEYRING_SLOT_START + GetMaxKeyringSize) false
       else when (IsCurrencyToken pProto) (in_slots CURRENCYTOKEN_SLOT_START CURRENCYTOKEN_SLOT_END false))
      (in_bags false false)).

Definition free_search : Search := fun st =>
  if src_not_empty_bag pItem
  then inl (mkStoreResult EQUIP_ERR_NONEMPTY_BAG_OVER_OTHER_BAG (fst st) None)
  else andThen (in_slots INVENTORY_SLOT_ITEM_START INVENTORY_SLOT_ITEM_END false) (in_bags false true) st.

Definition all_searches : Search :=
  andThen specific_slot (andThen specific_bag (andThen merge_search (andThen special_search free_search))).
End Phases.

Definition CanStoreItem (bag slot : Z) (dest : ItemPosCountVec) (entry count : Z)
    (pItem : option Z) (swap : bool) : StoreResult :=
  match GetItemTemplate S entry with
  | None => mkStoreResult (if swap then EQUIP_ERR_ITEMS_CANT_BE_SWAPPED else EQUIP_ERR_ITEM_NOT_FOUND) dest (Some count)
  | Some pProto =>
      if match pItem with Some a => m_lootGenerated (memory P a) | None => false end
      then mkStoreResult EQUIP_ERR_ALREADY_LOOTED dest (Some count)
      else if match pItem with Some a => IsBindedNotWith S P (memory P a) | None => false end
      then mkStoreResult EQUIP_ERR_DONT_OWN_THAT_ITEM dest (Some count)
      else
        let '(res, written) := CanTakeMoreSimilarItems entry count pItem in
        let no_similar_count := default 0 written in
        if negb (res =? EQUIP_ERR_OK) && (count =? no_similar_count)
        then mkStoreResult res dest (Some no_similar_count)
        else
          let count := if negb (res =? EQUIP_ERR_OK) then u32 (count - no_similar_count) else count in
          match all_searches pProto pItem swap bag slot no_similar_count (dest, count) with
          | inl r => r
          | inr st => mkStoreResult EQUIP_ERR_INVENTORY_FULL (fst st) (no_space no_similar_count st)
          end
  end.

(** [CanStoreNewItem], and [CanStoreItem] on an item. *)
Definition CanStoreNewItem (bag slot : Z) (dest : ItemPosCountVec) (item count : Z) : StoreResult :=
  CanStoreItem bag slot dest item count None false.
Definition CanStoreExistingItem (bag slot : Z) (dest : ItemPosCountVec) (pItem : option Z) (swap : bool) : StoreResult :=
  match pItem with
  | None => mkStoreResult EQUIP_ERR_ITEM_NOT_FOUND dest None
  | Some a => let it := memory P a in
              let r := CanStoreItem bag slot dest (GetEntry it) (GetCount it) pItem swap in
              mkStoreResult (sr_res r) (sr_dest r) None
  end.
End CanStore.
(** ** Positions *)

Lemma position_add b j : in_u 8 j -> position b j = b * 256 + j.
Proof.
  intros Hj. unfold position. rewrite Z.lor_comm, lor_shift_add by (unfold in_u in Hj; lia).
  change (2 ^ 8) with 256. lia.
Qed.

Lemma position_u16 b j : in_u 8 b -> in_u 8 j -> u16 (position b j) = position b j.
Proof. intros Hb Hj. rewrite position_add by done. apply wrap_id. width. Qed.

Lemma position_bag b j : in_u 8 j -> Z.shiftr (position b j) 8 = b.
Proof.
  intros Hj. rewrite position_add, Z.shiftr_div_pow2 by (done || lia).
  rewrite Z.div_add_l by done. rewrite Z.div_small; [lia|width].
Qed.

Lemma position_slot b j : in_u 8 j -> Z.land (position b j) 255 = j.
Proof.
  intros Hj. rewrite position_add by done. change 255 with (Z.ones 8). rewrite Z.land_ones by lia.
  change (2 ^ 8) with 256. rewrite Z.add_comm, Z.mod_add by done. apply Z.mod_small. width.
Qed.

Lemma isContainedIn_spec e vec : isContainedIn e vec = true <-> ipc_pos e ∈ map ipc_pos vec.
Proof.
  unfold isContainedIn. rewrite existsb_exists, list_elem_of_In, in_map_iff.
  split; intros (q & H1 & H2); exists q; [apply Z.eqb_eq in H2|apply Z.eqb_eq in H1]; done.
Qed.

Definition count_sum (l : ItemPosCountVec) : Z := foldr (fun e t => ipc_count e + t) 0 l.

Lemma count_sum_app l k : count_sum (l ++ k) = count_sum l + count_sum k.
Proof. unfold count_sum. induction l; simpl; lia. Qed.

(** ** What a search may do

    Fixed: the player, the item and the slot the caller named. *)
Section Spec.
Context (S : Stores) (P : Player) (pProto : ItemTemplate) (pItem : option Z) (swap : bool) (bag slot : Z).
Context (Ht : typed P).

(** The item another one would be merged with, and the room of a slot. *)
Definition other_at (b j : Z) : option Z := other_item (GetItemByPos S P b j) pItem.
Definition named (b j : Z) : bool :=
  negb (bag =? NULL_BAG) && negb (slot =? NULL_SLOT) && (b =? bag) && (j =? slot).
Definition mergeable (a : Z) : bool := CanBeMergedPartlyWith (memory P a) pProto =? EQUIP_ERR_OK.
Definition stackable : bool := negb (Stackable pProto =? 1).
Definition space (b j : Z) : Z :=
  match other_at b j with
  | None => GetMaxStackSize pProto
  | Some a => if swap && named b j then GetMaxStackSize pProto
              else if mergeable a && (stackable || named b j) then GetMaxStackSize pProto - GetCount (memory P a) else 0
  end.

(** The bag [b] takes the item. *)
Definition takes (b : Z) : option Z :=
  match GetBagByPos S P b with
  | Some g => match GetTemplate S (memory P g) with
              | Some bp => if ItemCanGoIntoBag pProto bp && negb (bool_decide (Some g = pItem)) then Some g else None
              | None => None
              end
  | None => None
  end.

(** An empty token slot takes tokens and, if the caller named the inventory, keys. *)
Definition tokens_take : bool :=
  if is_key pProto then bag =? INVENTORY_SLOT_BAG_0 else IsCurrencyToken pProto.

(** The slots an item may be put into: the one the caller named; a slot of the
    backpack; a slot of the keyring or of the tokens that holds a stack of it,
    or an empty one that suits it; a slot of one of the worn bags, or of the bag
    the caller named, if that bag takes it. *)
Definition accepts (b j : Z) : bool :=
  named b j
  || ((b =? INVENTORY_SLOT_BAG_0)
      && (((INVENTORY_SLOT_ITEM_START <=? j) && (j <? INVENTORY_SLOT_ITEM_END))
          || ((KEYRING_SLOT_START <=? j) && (j <? KEYRING_SLOT_END)
              && (bool_decide (is_Some (other_at b j)) || is_key pProto))
          || ((CURRENCYTOKEN_SLOT_START <=? j) && (j <? CURRENCYTOKEN_SLOT_END)
              && (bool_decide (is_Some (other_at b j)) || tokens_take))))
  || (((INVENTORY_SLOT_BAG_START <=? b) && (b <? INVENTORY_SLOT_BAG_END)) || (b =? bag))
     && match takes b with Some g => (0 <=? j) && (j <? GetBagSize (memory P g)) | None => false end.

(** On the position of a [dest] entry. *)
Definition space_at (pos : Z) : Z := space (Z.shiftr pos 8) (Z.land pos 255).
Definition accepts_at (pos : Z) : bool := accepts (Z.shiftr pos 8) (Z.land pos 255).
Definition fits (e : ItemPosCount) : Prop := accepts_at (ipc_pos e) = true /\ 0 <= ipc_count e <= space_at (ipc_pos e).
Definition full (e : ItemPosCount) : Prop := ipc_count e = space_at (ipc_pos e).

(** [st'] comes from [st] by placing items: what is placed and what is left add
    up, every new entry fits at a position not used before, and as long as
    something is left every new entry uses all the space of its slot. *)
Definition placed (st st' : Places) (added : ItemPosCountVec) : Prop :=
  fst st' = fst st ++ added /\ count_sum added + snd st' = snd st /\ Forall fits added
  /\ (NoDup (map ipc_pos (fst st)) -> NoDup (map ipc_pos (fst st')))
  /\ in_u 32 (snd st') /\ (snd st' <> 0 -> Forall full added).
Definition extends (st st' : Places) : Prop := in_u 32 (snd st) -> exists added, placed st st' added.

Lemma count_sum_fits l : Forall fits l -> 0 <= count_sum l.
Proof. induction 1 as [|e l He Hl IH]; simpl; [lia|]. destruct He as [_ ?]. lia. Qed.

#[local] Instance extends_refl : Reflexive extends.
Proof.
  intros st Hst. exists []. unfold placed. rewrite app_nil_r. repeat split; try constructor; simpl; try lia; apply Hst || auto.
Qed.

#[local] Instance extends_trans : Transitive extends.
Proof.
  intros [d1 c1] [d2 c2] [d3 c3] H1 H2 Hc.
  destruct (H1 Hc) as (a1 & E1 & S1 & F1 & N1 & R1 & U1). destruct (H2 R1) as (a2 & E2 & S2 & F2 & N2 & R2 & U2).
  simpl in *. exists (a1 ++ a2). unfold placed. simpl. subst d2 d3. rewrite app_assoc, count_sum_app.
  repeat split; [lia|by apply Forall_app|auto|apply R2|apply R2|].
  intros Hn. apply Forall_app. split; [|auto]. apply U1.
  apply count_sum_fits in F2.
  unfold in_u in *. lia.
Qed.

Lemma GetMaxStackSize_nonneg p : 0 <= GetMaxStackSize p < 2 ^ 32.
Proof. unfold GetMaxStackSize. destruct (_ || _); apply wrap_range; lia. Qed.

Lemma mergeable_room a :
  mergeable a = true -> GetCount (memory P a) < GetMaxStackSize pProto.
Proof.
  unfold mergeable, CanBeMergedPartlyWith. destruct (m_lootGenerated _); [done|].
  destruct (negb (_ =? _)); [done|]. destruct (Z.leb_spec (GetMaxStackSize pProto) (GetCount (memory P a))); done.
Qed.

Lemma mergeable_space a : mergeable a = true ->
  u32 (GetMaxStackSize pProto - GetCount (memory P a)) = GetMaxStackSize pProto - GetCount (memory P a).
Proof.
  intros H. apply mergeable_room in H. destruct (Ht a) as [Hc _]. pose proof (GetMaxStackSize_nonneg pProto).
  apply wrap_id. unfold in_u in *. lia.
Qed.

Lemma space_nonneg b j : 0 <= space b j.
Proof.
  pose proof (GetMaxStackSize_nonneg pProto). unfold space.
  destruct (other_at b j) as [a|]; [|lia]. destruct (swap && named b j); [lia|].
  destruct (mergeable a) eqn:E; [|simpl; lia]. apply mergeable_room in E. destruct (_ && _); lia.
Qed.

(** Pushing a position with the space of its slot. *)
Lemma push_extends b j st :
  in_u 8 b -> in_u 8 j -> accepts b j = true ->
  let r := push_position (position b j) (space b j) st in
  extends st (fst r) /\ position b j ∈ map ipc_pos (fst (fst r)).
Proof.
  intros Hb Hj Ha r. subst r. destruct st as [d c]. unfold push_position. rewrite position_u16 by done.
  pose proof (space_nonneg b j) as Hs.
  destruct (isContainedIn _ d) eqn:E; simpl.
  - apply isContainedIn_spec in E. split; [reflexivity|done].
  - assert (position b j ∉ map ipc_pos d) as Hn.
    { intros H. rewrite <- not_true_iff_false in E. apply E, isContainedIn_spec, H. }
    split; [|rewrite map_app; set_solver].
    intros Hc. simpl in Hc. eexists. split; [reflexivity|]. simpl.
    assert (space_at (position b j) = space b j) as Es by (unfold space_at; by rewrite position_bag, position_slot).
    destruct (Z.ltb_spec c (space b j)); rewrite wrap_id by width; repeat split; try lia; try width.
    + constructor; [|constructor]. split; simpl; [|rewrite Es; width].
      unfold accepts_at. by rewrite position_bag, position_slot.
    + intros HN. rewrite map_app. apply NoDup_app. repeat split; [done| |apply NoDup_singleton]. set_solver.
    + constructor; [|constructor]. split; simpl; [|rewrite Es; width].
      unfold accepts_at. by rewrite position_bag, position_slot.
    + intros HN. rewrite map_app. apply NoDup_app. repeat split; [done| |apply NoDup_singleton]. set_solver.
    + intros _. constructor; [|constructor]. done.
Qed.

Lemma extends_keeps st st' pos : extends st st' -> in_u 32 (snd st) -> pos ∈ map ipc_pos (fst st) -> pos ∈ map ipc_pos (fst st').
Proof. intros H Hc Hp. destruct (H Hc) as (a & -> & _). rewrite map_app. set_solver. Qed.

Lemma extends_range st st' : extends st st' -> in_u 32 (snd st) -> in_u 32 (snd st').
Proof. intros H Hc. by destruct (H Hc) as (a & _ & _ & _ & _ & ? & _). Qed.

(** The slots a loop looks at, and what it finds in them. *)
Definition visits (merge : bool) (b j : Z) : bool :=
  match other_at b j with None => negb merge | Some a => merge && mergeable a end.

Lemma CanBeMerged_u8 a : (u8 (CanBeMergedPartlyWith (memory P a) pProto) =? EQUIP_ERR_OK) = mergeable a.
Proof.
  unfold mergeable, CanBeMergedPartlyWith. destruct (m_lootGenerated _); [done|].
  destruct (negb (_ =? _)); [done|]. by destruct (_ <=? _).
Qed.

Definition loop_ok (b : Z) (skip : Z -> bool) (merge : bool) (js : list Z) : Prop :=
  in_u 8 b /\ (merge = true -> stackable = true) /\ Forall (fun j => in_u 8 j
    /\ (skip j = false -> visits merge b j = true -> accepts b j = true /\ swap && named b j = false)) js.

(** One round of the loop. *)
Lemma store_slots_cons b skip merge j js st :
  in_u 8 j -> (merge = true -> stackable = true) -> (visits merge b j = true -> swap && named b j = false) ->
  store_slots S P b skip pProto merge pItem (j :: js) st
  = (let next := store_slots S P b skip pProto merge pItem js in
     if negb (skip j) && visits merge b j then
       let '(st', pushed) := push_position (position b j) (space b j) st in
       if pushed && (snd st' =? 0) then st' else next st'
     else next st).
Proof.
  intros Hj Hm Hn. simpl. rewrite (wrap_id 8 j) by done. destruct (skip j); [done|]. simpl.
  unfold visits, space in *. fold (other_at b j). destruct (other_at b j) as [a|] eqn:Ea.
  - destruct merge; [|done]. simpl in *. rewrite CanBeMerged_u8.
    destruct (mergeable a) eqn:Em; [|done]. simpl. rewrite (Hn eq_refl), (Hm eq_refl). simpl.
    by rewrite mergeable_space.
  - by destruct merge.
Qed.

Lemma store_slots_extends b skip merge js st :
  loop_ok b skip merge js -> extends st (store_slots S P b skip pProto merge pItem js st).
Proof.
  intros (Hb & Hm & Hl). revert st. induction Hl as [|j js [Hj Ha] Hl IH]; intros st; [reflexivity|].
  destruct (skip j) eqn:Es; [simpl; rewrite Es; apply IH|].
  rewrite store_slots_cons by (done || (intros; apply Ha; done)). rewrite Es.
  destruct (visits merge b j) eqn:Ev; [|apply IH]. cbn.
  destruct (Ha eq_refl eq_refl) as [Hacc _]. pose proof (push_extends b j st Hb Hj Hacc) as [He _].
  destruct (push_position _ _ st) as [st' pushed]. simpl in He.
  destruct (pushed && (snd st' =? 0)); [done|]. etransitivity; [apply He|apply IH].
Qed.

(** If something is left, every slot the loop looks at is in [dest]. *)
Lemma store_slots_covers b skip merge js st j :
  loop_ok b skip merge js -> in_u 32 (snd st) ->
  snd (store_slots S P b skip pProto merge pItem js st) <> 0 ->
  j ∈ js -> skip j = false -> visits merge b j = true ->
  position b j ∈ map ipc_pos (fst (store_slots S P b skip pProto merge pItem js st)).
Proof.
  intros (Hb & Hm & Hl). revert st. induction Hl as [|k js [Hk Ha] Hl IH]; intros st Hc H0 Hj Hs Hv; [set_solver|].
  assert (loop_ok b skip merge js) as Hok by done.
  destruct (skip k) eqn:Es.
  { simpl in *. rewrite Es in *. apply list_elem_of_In in Hj as [->|Hj]; [congruence|].
    apply IH; try done. by apply list_elem_of_In. }
  rewrite store_slots_cons in * by (done || (intros; apply Ha; done)). rewrite Es in *.
  destruct (visits merge b k) eqn:Ev; cbn in *.
  - destruct (Ha eq_refl eq_refl) as [Hacc _]. pose proof (push_extends b k st Hb Hk Hacc) as [He Hp].
    destruct (push_position _ _ st) as [st' pushed]. simpl in He, Hp.
    destruct (pushed && (snd st' =? 0)) eqn:Ez.
    { apply andb_true_iff in Ez as [_ Ez]. apply Z.eqb_eq in Ez. done. }
    apply list_elem_of_In in Hj as [->|Hj].
    + eapply extends_keeps; [by apply store_slots_extends| |done]. by eapply extends_range.
    + apply IH; try done; [by eapply extends_range|by apply list_elem_of_In].
  - apply list_elem_of_In in Hj as [->|Hj]; [congruence|]. apply IH; try done. by apply list_elem_of_In.
Qed.

(** Every position is a bag and a slot. *)
Lemma position_split pos : pos = position (Z.shiftr pos 8) (Z.land pos 255) /\ in_u 8 (Z.land pos 255).
Proof.
  assert (in_u 8 (Z.land pos 255)) as Hj.
  { change 255 with (Z.ones 8). rewrite Z.land_ones by lia. apply wrap_range. lia. }
  split; [|done]. rewrite position_add by done. change 255 with (Z.ones 8).
  rewrite Z.shiftr_div_pow2, Z.land_ones by lia. change (2 ^ 8) with 256. pose proof (Z.div_mod pos 256). lia.
Qed.

(** ** The helpers *)
Context (Hbag : in_u 8 bag) (Hslot : in_u 8 slot).

(** A helper only places items, and does not report a full inventory. *)
Definition keeps (f : Places -> Z * Places) : Prop :=
  forall st, extends st (snd (f st)) /\ fst (f st) <> EQUIP_ERR_INVENTORY_FULL.

Lemma accepts_at_range pos : accepts_at pos = true -> 0 <= pos < 65536.
Proof.
  unfold accepts_at. destruct (position_split pos) as [Hpos Hj].
  set (b := Z.shiftr pos 8) in *. set (j := Z.land pos 255) in *. clearbody b j. subst pos. intros Ha.
  assert (b = bag \/ b = 255 \/ 19 <= b < 23) as Hb.
  { unfold accepts, named in Ha.
    unfold INVENTORY_SLOT_BAG_0, INVENTORY_SLOT_BAG_START, INVENTORY_SLOT_BAG_END in *.
    apply orb_true_iff in Ha as [Ha|Ha]; [apply orb_true_iff in Ha as [Ha|Ha]|];
      rewrite !andb_true_iff in Ha; destruct Ha as [Ha _]; lia. }
  rewrite position_add by done. unfold in_u in *. norm_pow. lia.
Qed.

Lemma named_skip b j : (b =? bag) && (j =? slot) = false -> swap && named b j = false.
Proof. unfold named. intros H. rewrite <- andb_assoc, H. by rewrite andb_false_r, andb_false_r. Qed.

Definition searched_bag (b : Z) : Prop :=
  ((INVENTORY_SLOT_BAG_START <=? b) && (b <? INVENTORY_SLOT_BAG_END)) || (b =? bag) = true.

Lemma in_bag_loop b g merge :
  in_u 8 b -> (merge = true -> stackable = true) -> searched_bag b -> takes b = Some g ->
  loop_ok b (fun j => j =? slot) merge (slots 0 (GetBagSize (memory P g))).
Proof.
  intros Hb Hm Hsb Hg. split; [done|]. split; [done|]. apply Forall_forall. intros j Hj. apply elem_of_seqZ in Hj.
  destruct (Ht g) as [_ Hs]. unfold MAX_BAG_SIZE in Hs. split; [width|]. intros Hn _. split.
  - unfold accepts, searched_bag in *. rewrite Hg, Hsb. rewrite (proj2 (Z.leb_le 0 j)), (proj2 (Z.ltb_lt j (GetBagSize (memory P g)))) by lia. apply orb_true_r.
  - apply named_skip. rewrite Hn. apply andb_false_r.
Qed.

Lemma in_bag_keeps b merge non_specialized skip_bag :
  in_u 8 b -> (merge = true -> stackable = true) -> searched_bag b ->
  keeps (CanStoreItem_InBag S P b pProto merge non_specialized pItem skip_bag slot).
Proof.
  intros Hb Hm Hsb st. unfold CanStoreItem_InBag.
  destruct (b =? skip_bag); [split; [reflexivity|done]|].
  pose proof (in_bag_loop b) as Hl. unfold takes in Hl.
  destruct (GetBagByPos S P b) as [g|]; [|split; [reflexivity|done]].
  case_bool_decide as Hg; [split; [reflexivity|done]|].
  destruct (src_not_empty_bag S P pItem); [split; [reflexivity|done]|].
  destruct (GetTemplate S (memory P g)) as [bp|]; [|split; [reflexivity|done]].
  destruct (negb (Bool.eqb _ _)); [split; [reflexivity|done]|].
  destruct (ItemCanGoIntoBag pProto bp); [|split; [reflexivity|done]].
  split; [|done]. apply store_slots_extends, Hl; done.
Qed.

Lemma in_slots_loop a b merge :
  0 <= a -> b <= 256 -> (merge = true -> stackable = true) ->
  (forall j, a <= j < b -> visits merge INVENTORY_SLOT_BAG_0 j = true -> accepts INVENTORY_SLOT_BAG_0 j = true) ->
  loop_ok INVENTORY_SLOT_BAG_0 (fun j => (INVENTORY_SLOT_BAG_0 =? bag) && (j =? slot)) merge (slots a b).
Proof.
  intros Ha Hb Hm Hv. split; [done|]. split; [done|]. apply Forall_forall. intros j Hj. apply elem_of_seqZ in Hj.
  split; [width|]. intros Hn Hj'. split; [apply Hv; [lia|done]|by apply named_skip].
Qed.

Lemma specific_keeps :
  bag <> NULL_BAG -> slot <> NULL_SLOT -> keeps (CanStoreItem_InSpecificSlot S P bag slot pProto swap pItem).
Proof.
  intros Hb Hs st.
  assert (named bag slot = true) as Hn.
  { unfold named. apply Z.eqb_neq in Hb, Hs. by rewrite Hb, Hs, !Z.eqb_refl. }
  assert (accepts bag slot = true) as Ha by (unfold accepts; by rewrite Hn).
  pose proof (push_extends bag slot st Hbag Hslot Ha) as [He _].
  unfold CanStoreItem_InSpecificSlot. fold (other_at bag slot).
  assert (forall code, code <> EQUIP_ERR_INVENTORY_FULL ->
    extends st (snd (code, st)) /\ fst (code, st) <> EQUIP_ERR_INVENTORY_FULL) as Hfail by (split; [reflexivity|done]).
  assert (extends st (snd (EQUIP_ERR_OK, fst (push_position (position bag slot) (space bag slot) st)))
          /\ fst (EQUIP_ERR_OK, fst (push_position (position bag slot) (space bag slot) st)) <> EQUIP_ERR_INVENTORY_FULL) as Hok by done.
  clear He. unfold space in Hok. rewrite Hn, orb_true_r, !andb_true_r in Hok.
  destruct (_ && negb (IsBagPos _)); [by apply Hfail|].
  destruct (other_at bag slot) as [a|].
  1: destruct swap.
  2: { unfold mergeable in Hok. destruct (CanBeMergedPartlyWith _ _ =? EQUIP_ERR_OK) eqn:E; simpl.
       - by rewrite mergeable_space by done.
       - split; [reflexivity|]. unfold CanBeMergedPartlyWith.
         repeat match goal with |- context [if ?c then _ else _] => destruct c end; done. }
  all: repeat match goal with
    | |- context [if ?c then _ else _] => destruct c
    | |- context [match ?c with Some _ => _ | None => _ end] => destruct c
    end; (by apply Hfail) || done.
Qed.

(** ** Searches *)
Context (no_similar_count : Z).

(** A result of a call that started at [st]: it reports the places it has found,
    and what [*no_space_count] gets is what is left plus what may not be taken. *)
Definition accounts (st : Places) (r : StoreResult) : Prop :=
  exists st', extends st st' /\ sr_dest r = fst st'
    /\ (sr_res r = EQUIP_ERR_OK -> snd st' = 0 /\ no_similar_count = 0)
    /\ sr_res r <> EQUIP_ERR_INVENTORY_FULL
    /\ match sr_no_space r with
       | Some n => n = u32 (snd st' + no_similar_count)
       | None => sr_res r = EQUIP_ERR_OK \/ sr_res r = EQUIP_ERR_NONEMPTY_BAG_OVER_OTHER_BAG
       end.

Definition sound (s : Search) : Prop := forall st,
  match s st with inl r => accounts st r | inr st' => extends st st' end.

(** If the search leaves something, every position of [Q] is in [dest]. *)
Definition covers (s : Search) (Q : Z -> Prop) : Prop := forall st st',
  in_u 32 (snd st) -> s st = inr st' -> forall pos, Q pos -> pos ∈ map ipc_pos (fst st').

Lemma sound_inr : sound inr.
Proof. intros st. reflexivity. Qed.

Lemma sound_andThen s1 s2 : sound s1 -> sound s2 -> sound (andThen s1 s2).
Proof.
  intros H1 H2 st. unfold andThen. specialize (H1 st). destruct (s1 st) as [r|st1]; [done|].
  specialize (H2 st1). destruct (s2 st1) as [r|st2]; [|by etransitivity].
  destruct H2 as (st' & He & H). exists st'. split; [by etransitivity|done].
Qed.

Lemma sound_when b s : (b = true -> sound s) -> sound (when b s).
Proof. intros H. destruct b; [by apply H|apply sound_inr]. Qed.

Lemma finish_accounts st st' :
  extends st st' ->
  match finish no_similar_count st' with inl r => accounts st r | inr st'' => extends st st'' end.
Proof.
  intros He. unfold finish. destruct (Z.eqb_spec (snd st') 0); [|done]. exists st'.
  destruct (Z.eqb_spec no_similar_count 0); repeat split; simpl; auto; done.
Qed.

Lemma sound_must f : keeps f -> sound (must no_similar_count f).
Proof.
  intros Hf st. unfold must. destruct (Hf st) as [He Hr]. destruct (f st) as [res st']. simpl in *.
  destruct (Z.eqb_spec res EQUIP_ERR_OK); simpl; [by apply finish_accounts|].
  exists st'. repeat split; done.
Qed.

Lemma sound_may f : keeps f -> sound (may no_similar_count f).
Proof.
  intros Hf st. unfold may. destruct (Hf st) as [He Hr]. destruct (f st) as [res st']. simpl in *.
  destruct (Z.eqb_spec res EQUIP_ERR_OK); simpl; [by apply finish_accounts|done].
Qed.

Lemma sound_foldr (f : Z -> Search) l : Forall (fun i => sound (f i)) l -> sound (foldr (fun i s => andThen (f i) s) inr l).
Proof. induction 1; simpl; [apply sound_inr|by apply sound_andThen]. Qed.

#[local] Hint Resolve sound_inr sound_andThen sound_when sound_must sound_may : storage.

Lemma sound_in_bags merge non_specialized :
  (merge = true -> stackable = true) ->
  sound (in_bags S P pProto pItem bag slot no_similar_count merge non_specialized).
Proof.
  intros Hm. apply sound_foldr, Forall_forall. intros i Hi. apply elem_of_seqZ in Hi.
  apply sound_may, in_bag_keeps; unfold searched_bag, INVENTORY_SLOT_BAG_START, INVENTORY_SLOT_BAG_END in *;
    [width|done|lia].
Qed.

Lemma sound_in_named_bag merge :
  (merge = true -> stackable = true) -> sound (in_named_bag S P pProto pItem bag slot no_similar_count merge).
Proof.
  intros Hm. assert (searched_bag bag) as Hb by (unfold searched_bag; rewrite Z.eqb_refl; apply orb_true_r).
  apply sound_must. intros st. pose proof (in_bag_keeps bag merge false NULL_BAG Hbag Hm Hb st) as [H1 N1].
  destruct (CanStoreItem_InBag _ _ _ _ _ false _ _ _ st) as [res st1]. simpl in *.
  destruct (negb _); [|done].
  pose proof (in_bag_keeps bag merge true NULL_BAG Hbag Hm Hb st1) as [H2 N2].
  split; [by etransitivity|done].
Qed.

(** The stretches of own slots the searches use. *)
Lemma visits_some merge b j : visits merge b j = true -> merge = true -> is_Some (other_at b j).
Proof. unfold visits. intros H ->. by destruct (other_at b j). Qed.

Lemma accepts_own j :
  ((INVENTORY_SLOT_ITEM_START <=? j) && (j <? INVENTORY_SLOT_ITEM_END))
  || ((KEYRING_SLOT_START <=? j) && (j <? KEYRING_SLOT_END)
       && (bool_decide (is_Some (other_at INVENTORY_SLOT_BAG_0 j)) || is_key pProto))
  || ((CURRENCYTOKEN_SLOT_START <=? j) && (j <? CURRENCYTOKEN_SLOT_END)
       && (bool_decide (is_Some (other_at INVENTORY_SLOT_BAG_0 j)) || tokens_take)) = true ->
  accepts INVENTORY_SLOT_BAG_0 j = true.
Proof. unfold accepts. rewrite Z.eqb_refl. intros ->. simpl. by rewrite orb_true_r. Qed.

Definition own_stretch (a b : Z) (merge : bool) : Prop :=
  (merge = true -> stackable = true)
  /\ ((a, b) = (INVENTORY_SLOT_ITEM_START, INVENTORY_SLOT_ITEM_END)
      \/ (a, b, merge) = (KEYRING_SLOT_START, CURRENCYTOKEN_SLOT_END, true)
      \/ (a, b) = (KEYRING_SLOT_START, KEYRING_SLOT_START + GetMaxKeyringSize) /\ is_key pProto = true
      \/ (a, b) = (CURRENCYTOKEN_SLOT_START, CURRENCYTOKEN_SLOT_END) /\ tokens_take = true).

Lemma own_stretch_loop a b merge :
  own_stretch a b merge ->
  loop_ok INVENTORY_SLOT_BAG_0 (fun j => (INVENTORY_SLOT_BAG_0 =? bag) && (j =? slot)) merge (slots a b).
Proof.
  intros [Hm H]. apply in_slots_loop; [| |done|].
  1,2: destruct H as [[= -> ->]|[[= -> -> ->]|[[[= -> ->] _]|[[= -> ->] _]]]]; done.
  intros j Hj Hv. apply accepts_own.
  unfold INVENTORY_SLOT_ITEM_START, INVENTORY_SLOT_ITEM_END, KEYRING_SLOT_START, KEYRING_SLOT_END,
    CURRENCYTOKEN_SLOT_START, CURRENCYTOKEN_SLOT_END in *.
  destruct H as [[= -> ->]|[[= -> -> ->]|[[[= -> ->] K]|[[= -> ->] K]]]];
    try (rewrite (bool_decide_eq_true_2 _ (visits_some _ _ _ Hv eq_refl))); try rewrite K; clear Hv;
    unfold GetMaxKeyringSize, KEYRING_SLOT_START, KEYRING_SLOT_END in *; try destruct (bool_decide _);
    destruct (is_key pProto), tokens_take; try discriminate; lia.
Qed.

Lemma in_slots_keeps a b merge :
  own_stretch a b merge -> keeps (CanStoreItem_InInventorySlots S P a b pProto merge pItem bag slot).
Proof.
  intros Ho st. unfold CanStoreItem_InInventorySlots.
  destruct (src_not_empty_bag S P pItem); [split; [reflexivity|done]|].
  split; [|done]. by apply store_slots_extends, own_stretch_loop.
Qed.

Lemma sound_in_slots a b merge :
  own_stretch a b merge -> sound (in_slots S P pProto pItem bag slot no_similar_count a b merge).
Proof. intros Ho. by apply sound_must, in_slots_keeps. Qed.
#[local] Hint Resolve sound_in_bags sound_in_named_bag : storage.
#[local] Hint Extern 1 (sound (in_slots _ _ _ _ _ _ _ _ _ _)) =>
  apply sound_in_slots; split; [done || auto; fail|tauto] : storage.

Lemma sound_specific_slot : sound (specific_slot S P pProto pItem swap bag slot no_similar_count).
Proof.
  apply sound_when. intros H. apply andb_true_iff in H as [Hb Hs].
  apply negb_true_iff, Z.eqb_neq in Hb, Hs. by apply sound_must, specific_keeps.
Qed.

Lemma sound_specific_bag : sound (specific_bag S P pProto pItem bag slot no_similar_count).
Proof.
  apply sound_when. intros _. apply sound_andThen.
  - apply sound_when. intros Hst. destruct (bag =? _); auto with storage.
  - unfold specific_bag_free. destruct (bag =? _) eqn:Eb; [|apply sound_in_named_bag; done].
    assert (tokens_take = if is_key pProto then true else IsCurrencyToken pProto) as Et by (unfold tokens_take; by rewrite Eb).
    apply sound_andThen; [|auto with storage].
    destruct (is_key pProto) eqn:K; [auto with storage|]. apply sound_when. intros K'. rewrite K' in Et. auto with storage.
Qed.

Lemma sound_merge : sound (merge_search S P pProto pItem bag slot no_similar_count).
Proof. apply sound_when. intros Hst. auto 8 with storage. Qed.

Lemma sound_special : sound (special_search S P pProto pItem bag slot no_similar_count).
Proof.
  apply sound_when. intros _. apply sound_andThen; [|apply sound_in_bags; done].
  destruct (is_key pProto) eqn:K; [auto with storage|]. apply sound_when. intros K'.
  assert (tokens_take = true) by (unfold tokens_take; by rewrite K). auto with storage.
Qed.

Lemma sound_free : sound (free_search S P pProto pItem bag slot no_similar_count).
Proof.
  intros st. unfold free_search. destruct (src_not_empty_bag S P pItem).
  - exists st. repeat split; try done. by right.
  - apply sound_andThen; [auto with storage|by apply sound_in_bags].
Qed.

Lemma sound_all : sound (all_searches S P pProto pItem swap bag slot no_similar_count).
Proof.
  repeat apply sound_andThen;
    [apply sound_specific_slot|apply sound_specific_bag|apply sound_merge|apply sound_special|apply sound_free].
Qed.

(** ** What a search that leaves something has used *)

Lemma covers_l s1 s2 Q : sound s1 -> covers s1 Q -> sound s2 -> covers (andThen s1 s2) Q.
Proof.
  intros H0 H1 H2 st st' Hc. unfold andThen. specialize (H0 st). specialize (H1 st).
  destruct (s1 st) as [r|st1]; [done|]. intros E2 pos Hp.
  specialize (H2 st1). rewrite E2 in H2. eapply extends_keeps; [done| |by apply (H1 st1)].
  by eapply extends_range.
Qed.

Lemma covers_r s1 s2 Q : sound s1 -> covers s2 Q -> covers (andThen s1 s2) Q.
Proof.
  intros H1 H2 st st' Hc. unfold andThen. specialize (H1 st). destruct (s1 st) as [r|st1]; [done|].
  apply H2. by eapply extends_range.
Qed.

Lemma covers_when b s Q : b = true -> covers s Q -> covers (when b s) Q.
Proof. by intros ->. Qed.

Lemma covers_foldr (f : Z -> Search) l i Q :
  Forall (fun k => sound (f k)) l -> i ∈ l -> covers (f i) Q ->
  covers (foldr (fun k s => andThen (f k) s) inr l) Q.
Proof.
  intros Hl Hi Hf. induction Hl as [|k l Hk Hl IH]; [set_solver|]. simpl.
  apply list_elem_of_In in Hi as [->|Hi].
  - apply covers_l; [done|done|by apply sound_foldr].
  - apply covers_r; [done|]. by apply IH, list_elem_of_In.
Qed.

Lemma finish_inr st st' : finish no_similar_count st = inr st' -> st' = st /\ snd st <> 0.
Proof. unfold finish. destruct (Z.eqb_spec (snd st) 0); by intros [= <-]. Qed.

(** The slots of a stretch that a search looks at. *)
Definition seen (merge : bool) (b lo hi pos : Z) : Prop :=
  exists j, lo <= j < hi /\ pos = position b j /\ (b =? bag) && (j =? slot) = false /\ visits merge b j = true.

Lemma covers_in_slots a b merge :
  own_stretch a b merge ->
  covers (in_slots S P pProto pItem bag slot no_similar_count a b merge) (seen merge INVENTORY_SLOT_BAG_0 a b).
Proof.
  intros Ho st st' Hc. unfold in_slots, must, CanStoreItem_InInventorySlots.
  destruct (src_not_empty_bag S P pItem); [done|]. simpl. intros [-> H0]%finish_inr pos (j & Hj & -> & Hn & Hvis).
  apply store_slots_covers; try done; [by apply own_stretch_loop|]. apply elem_of_seqZ. lia.
Qed.

(** A worn bag the item may go into, searched in the mode that fits it. *)
Definition is_plain (g : Z) : bool :=
  match GetTemplate S (memory P g) with
  | Some bp => (ItemClass bp =? ITEM_CLASS_CONTAINER) && (ItemSubClass bp =? ITEM_SUBCLASS_CONTAINER)
  | None => false
  end.

Lemma covers_in_bag b g merge :
  in_u 8 b -> (merge = true -> stackable = true) -> searched_bag b -> takes b = Some g -> (b =? bag) = false ->
  src_not_empty_bag S P pItem = false -> slot = NULL_SLOT ->
  covers (may no_similar_count (CanStoreItem_InBag S P b pProto merge (is_plain g) pItem bag slot))
    (seen merge b 0 (GetBagSize (memory P g))).
Proof.
  intros Hb Hm Hsb Hg Hbb Hsrc Hns st st' Hc. pose proof (in_bag_loop b g merge Hb Hm Hsb Hg) as Hl.
  unfold may, CanStoreItem_InBag. rewrite Hbb, Hsrc. unfold takes, is_plain in *.
  destruct (GetBagByPos S P b) as [g'|]; [|done]. destruct (GetTemplate S (memory P g')) as [bp|] eqn:Et; [|done].
  destruct (ItemCanGoIntoBag pProto bp) eqn:Ec; [|done]. simpl in Hg.
  case_bool_decide as Hne; [done|]. simpl in Hg. injection Hg as ->. rewrite Et.
  rewrite eqb_reflx. simpl. intros [-> H0]%finish_inr pos (j & Hj & -> & Hn & Hvis).
  destruct (Ht g) as [_ Hs]. unfold MAX_BAG_SIZE in Hs.
  apply store_slots_covers; try done; [apply elem_of_seqZ; lia|].
  apply Z.eqb_neq. unfold NULL_SLOT in Hns. lia.
Qed.

Lemma in_bags_covers b g merge :
  INVENTORY_SLOT_BAG_START <= b < INVENTORY_SLOT_BAG_END -> (merge = true -> stackable = true) ->
  takes b = Some g -> (b =? bag) = false -> src_not_empty_bag S P pItem = false -> slot = NULL_SLOT ->
  covers (in_bags S P pProto pItem bag slot no_similar_count merge (is_plain g))
    (seen merge b 0 (GetBagSize (memory P g))).
Proof.
  intros Hb Hm Hg Hbb Hsrc Hns. assert (searched_bag b) as Hsb by (unfold searched_bag; lia).
  unfold INVENTORY_SLOT_BAG_START, INVENTORY_SLOT_BAG_END in Hb.
  unfold in_bags. apply covers_foldr with (i := b).
  - apply Forall_forall. intros i Hi. apply elem_of_seqZ in Hi.
    apply sound_may, in_bag_keeps; unfold searched_bag, INVENTORY_SLOT_BAG_START, INVENTORY_SLOT_BAG_END in *;
      [width|done|lia].
  - apply elem_of_seqZ. unfold INVENTORY_SLOT_BAG_START, INVENTORY_SLOT_BAG_END. lia.
  - apply covers_in_bag; try done. width.
Qed.

Lemma takes_special b g : takes b = Some g -> is_plain g = false -> BagFamily pProto <> 0.
Proof.
  unfold takes, is_plain. destruct (GetBagByPos S P b) as [g'|]; [|done].
  destruct (GetTemplate S (memory P g')) as [bp|] eqn:Et; [|done].
  destruct (ItemCanGoIntoBag pProto bp) eqn:Ec; [|done]. simpl. case_bool_decide; [done|]. intros [= <-].
  rewrite Et. intros Hp H0. revert Ec. unfold ItemCanGoIntoBag.
  destruct (ItemClass bp =? ITEM_CLASS_CONTAINER); simpl in Hp; [rewrite Hp|];
    rewrite H0; repeat match goal with |- context [if ?c then _ else _] => destruct c end; done.
Qed.

(** A call that names no slot and no bag and brings no item of the player. *)
Section NewItem.
Context (Hnew : pItem = None) (Hbn : bag = NULL_BAG) (Hsn : slot = NULL_SLOT).

Lemma not_here b j : (b =? bag) && (j =? slot) = (b =? NULL_BAG) && (j =? NULL_SLOT).
Proof. by rewrite Hbn, Hsn. Qed.

Lemma no_source : src_not_empty_bag S P pItem = false.
Proof. by rewrite Hnew. Qed.

Lemma worn_not_named b : INVENTORY_SLOT_BAG_START <= b < INVENTORY_SLOT_BAG_END -> (b =? bag) = false.
Proof. rewrite Hbn. unfold INVENTORY_SLOT_BAG_START, NULL_BAG. lia. Qed.

Lemma covers_weaken s (Q R : Z -> Prop) : covers s Q -> (forall pos, R pos -> Q pos) -> covers s R.
Proof. intros H HR st st' Hc E pos Hp. apply (H st st' Hc E), HR, Hp. Qed.

Lemma merge_covers_own lo hi :
  stackable = true ->
  (lo, hi) = (KEYRING_SLOT_START, CURRENCYTOKEN_SLOT_END) \/ (lo, hi) = (INVENTORY_SLOT_ITEM_START, INVENTORY_SLOT_ITEM_END) ->
  covers (merge_search S P pProto pItem bag slot no_similar_count) (seen true INVENTORY_SLOT_BAG_0 lo hi).
Proof.
  intros Hst H. apply covers_when; [done|]. destruct H as [[= -> ->]|[= -> ->]].
  - apply covers_l; [auto with storage| |auto 8 with storage]. apply covers_in_slots. split; [done|tauto].
  - apply covers_r; [auto with storage|]. apply covers_l; [auto with storage| |auto 8 with storage].
    apply covers_in_slots. split; [done|tauto].
Qed.

Lemma merge_covers_bag b g :
  stackable = true -> INVENTORY_SLOT_BAG_START <= b < INVENTORY_SLOT_BAG_END -> takes b = Some g ->
  covers (merge_search S P pProto pItem bag slot no_similar_count) (seen true b 0 (GetBagSize (memory P g))).
Proof.
  intros Hst Hb Hg. apply covers_when; [done|].
  apply covers_r; [auto with storage|]. apply covers_r; [auto with storage|].
  pose proof (in_bags_covers b g true Hb (fun _ => Hst) Hg (worn_not_named b Hb) no_source Hsn) as Hc.
  destruct (is_plain g) eqn:Hp.
  - apply covers_r; auto with storage.
  - apply covers_l; [auto with storage| |auto with storage]. apply covers_when; [|done].
    apply negb_true_iff, Z.eqb_neq. by eapply takes_special.
Qed.

Lemma special_covers_own lo hi :
  (lo, hi) = (KEYRING_SLOT_START, KEYRING_SLOT_END) /\ is_key pProto = true
  \/ (lo, hi) = (CURRENCYTOKEN_SLOT_START, CURRENCYTOKEN_SLOT_END) /\ tokens_take = true ->
  covers (special_search S P pProto pItem bag slot no_similar_count) (seen false INVENTORY_SLOT_BAG_0 lo hi).
Proof.
  intros H. unfold special_search.
  assert (tokens_take = negb (is_key pProto) && IsCurrencyToken pProto) as Et
    by (unfold tokens_take; rewrite Hbn; by destruct (is_key pProto)).
  apply covers_when.
  { apply negb_true_iff, Z.eqb_neq. intros H0. unfold is_key, IsCurrencyToken in *. rewrite H0 in *.
    destruct H as [[_ H]|[_ H]]; [by vm_compute in H|]. rewrite Et in H. by vm_compute in H. }
  apply covers_l; [| |apply sound_in_bags; done].
  - destruct (is_key pProto) eqn:K; [auto with storage|]. apply sound_when. intros K'.
    rewrite K' in Et. auto with storage.
  - destruct H as [[[= -> ->] H]|[[= -> ->] H]].
    + rewrite H. apply (covers_in_slots KEYRING_SLOT_START (KEYRING_SLOT_START + GetMaxKeyringSize)).
      split; [done|tauto].
    + rewrite H in Et. symmetry in Et. apply andb_true_iff in Et as [K K']. apply negb_true_iff in K. rewrite K.
      apply covers_when; [done|]. apply covers_in_slots. split; [done|tauto].
Qed.

Lemma special_covers_bag b g :
  INVENTORY_SLOT_BAG_START <= b < INVENTORY_SLOT_BAG_END -> takes b = Some g -> is_plain g = false ->
  covers (special_search S P pProto pItem bag slot no_similar_count) (seen false b 0 (GetBagSize (memory P g))).
Proof.
  intros Hb Hg Hp. unfold special_search. apply covers_when.
  { apply negb_true_iff, Z.eqb_neq. by eapply takes_special. }
  apply covers_r.
  - destruct (is_key pProto) eqn:K; [auto with storage|]. apply sound_when. intros K'.
    assert (tokens_take = true) by (unfold tokens_take; by rewrite K). auto with storage.
  - pose proof (in_bags_covers b g false Hb ltac:(done) Hg (worn_not_named b Hb) no_source Hsn) as H.
    by rewrite Hp in H.
Qed.

Lemma free_covers_own :
  covers (free_search S P pProto pItem bag slot no_similar_count)
    (seen false INVENTORY_SLOT_BAG_0 INVENTORY_SLOT_ITEM_START INVENTORY_SLOT_ITEM_END).
Proof.
  intros st st' Hc. unfold free_search. rewrite no_source. revert st st' Hc.
  apply covers_l; [auto with storage| |by apply sound_in_bags]. apply covers_in_slots. split; [done|tauto].
Qed.

Lemma free_covers_bag b g :
  INVENTORY_SLOT_BAG_START <= b < INVENTORY_SLOT_BAG_END -> takes b = Some g -> is_plain g = true ->
  covers (free_search S P pProto pItem bag slot no_similar_count) (seen false b 0 (GetBagSize (memory P g))).
Proof.
  intros Hb Hg Hp st st' Hc. unfold free_search. rewrite no_source. revert st st' Hc.
  apply covers_r; [auto with storage|]. pose proof (in_bags_covers b g false Hb ltac:(done) Hg (worn_not_named b Hb) no_source Hsn) as H.
    by rewrite Hp in H.
Qed.
(** The phases of a call. *)
Lemma all_covers_merge Q :
  covers (merge_search S P pProto pItem bag slot no_similar_count) Q ->
  covers (all_searches S P pProto pItem swap bag slot no_similar_count) Q.
Proof.
  intros H. apply covers_r; [apply sound_specific_slot|]. apply covers_r; [apply sound_specific_bag|].
  apply covers_l; [apply sound_merge|done|]. apply sound_andThen; [apply sound_special|apply sound_free].
Qed.

Lemma all_covers_special Q :
  covers (special_search S P pProto pItem bag slot no_similar_count) Q ->
  covers (all_searches S P pProto pItem swap bag slot no_similar_count) Q.
Proof.
  intros H. apply covers_r; [apply sound_specific_slot|]. apply covers_r; [apply sound_specific_bag|].
  apply covers_r; [apply sound_merge|]. apply covers_l; [apply sound_special|done|apply sound_free].
Qed.

Lemma all_covers_free Q :
  covers (free_search S P pProto pItem bag slot no_similar_count) Q ->
  covers (all_searches S P pProto pItem swap bag slot no_similar_count) Q.
Proof.
  intros H. apply covers_r; [apply sound_specific_slot|]. apply covers_r; [apply sound_specific_bag|].
  apply covers_r; [apply sound_merge|]. apply covers_r; [apply sound_special|done].
Qed.

(** A slot that has room, as a merge search or a free search sees it. *)
Lemma room_visits b j :
  0 < space b j -> named b j = false ->
  (is_Some (other_at b j) /\ stackable = true /\ visits true b j = true)
  \/ (other_at b j = None /\ visits false b j = true).
Proof.
  unfold space, visits. intros H Hn. rewrite Hn, andb_false_r, orb_false_r in H.
  destruct (other_at b j) as [a|]; [left|by right].
  destruct (mergeable a); [|simpl in H; lia]. destruct stackable; [done|simpl in H; lia].
Qed.

(** The own slots that accept the item. *)
Lemma accepts_own_inv j :
  named INVENTORY_SLOT_BAG_0 j = false -> accepts INVENTORY_SLOT_BAG_0 j = true ->
  INVENTORY_SLOT_ITEM_START <= j < INVENTORY_SLOT_ITEM_END
  \/ (KEYRING_SLOT_START <= j < KEYRING_SLOT_END
      /\ (is_Some (other_at INVENTORY_SLOT_BAG_0 j) \/ is_key pProto = true))
  \/ (CURRENCYTOKEN_SLOT_START <= j < CURRENCYTOKEN_SLOT_END
      /\ (is_Some (other_at INVENTORY_SLOT_BAG_0 j) \/ tokens_take = true)).
Proof.
  intros Hn Ha. unfold accepts in Ha. rewrite Hn in Ha. unfold takes, GetBagByPos in Ha. simpl in Ha.
  rewrite andb_false_r, orb_false_r in Ha.
  repeat first [ apply orb_true_iff in Ha as [Ha|Ha] | apply andb_true_iff in Ha as [? Ha] ];
    try (apply bool_decide_eq_true in Ha); rewrite ?andb_true_iff, ?Z.leb_le, ?Z.ltb_lt in *; auto 6 with lia.
  all: try (apply Z.ltb_lt in Ha). all: try tauto.
Qed.

Lemma all_covers_own j :
  accepts INVENTORY_SLOT_BAG_0 j = true -> 0 < space INVENTORY_SLOT_BAG_0 j ->
  covers (all_searches S P pProto pItem swap bag slot no_similar_count) (eq (position INVENTORY_SLOT_BAG_0 j)).
Proof.
  intros Ha Hs. assert (named INVENTORY_SLOT_BAG_0 j = false) as Hn by (unfold named; by rewrite Hbn).
  assert (forall merge lo hi, lo <= j < hi -> visits merge INVENTORY_SLOT_BAG_0 j = true ->
    forall pos, position INVENTORY_SLOT_BAG_0 j = pos -> seen merge INVENTORY_SLOT_BAG_0 lo hi pos) as Hseen.
  { intros merge lo hi Hj Hv pos <-. exists j. rewrite not_here. done. }
  apply (accepts_own_inv j Hn) in Ha.
  unfold INVENTORY_SLOT_ITEM_START, INVENTORY_SLOT_ITEM_END, KEYRING_SLOT_START, KEYRING_SLOT_END,
    CURRENCYTOKEN_SLOT_START, CURRENCYTOKEN_SLOT_END in Ha.
  destruct (room_visits _ _ Hs Hn) as [([a Eo] & Hst & Hv)|(Eo & Hv)].
  - apply all_covers_merge.
    destruct (decide (j < 39)) as [Hj|Hj]; eapply covers_weaken;
      [apply (merge_covers_own INVENTORY_SLOT_ITEM_START INVENTORY_SLOT_ITEM_END); auto
      |apply Hseen; [unfold INVENTORY_SLOT_ITEM_START, INVENTORY_SLOT_ITEM_END; lia|done]
      |apply (merge_covers_own KEYRING_SLOT_START CURRENCYTOKEN_SLOT_END); auto
      |apply Hseen; [unfold KEYRING_SLOT_START, CURRENCYTOKEN_SLOT_END; lia|done]].
  - rewrite Eo in Ha. assert (~ is_Some (None : option Z)) as Hno by (by intros [? [=]]).
    destruct (decide (j < 39)) as [Hj|Hj].
    { apply all_covers_free. eapply covers_weaken; [apply free_covers_own|].
      apply Hseen; [unfold INVENTORY_SLOT_ITEM_START, INVENTORY_SLOT_ITEM_END; lia|done]. }
    apply all_covers_special. destruct (decide (j < 118)) as [Hj'|Hj']; eapply covers_weaken.
    + apply (special_covers_own KEYRING_SLOT_START KEYRING_SLOT_END). left. split; [done|]. destruct Ha as [?|[(? & [?|?])|(? & _)]]; done || lia.
    + apply Hseen; [unfold KEYRING_SLOT_START, KEYRING_SLOT_END; lia|done].
    + apply (special_covers_own CURRENCYTOKEN_SLOT_START CURRENCYTOKEN_SLOT_END). right. split; [done|]. destruct Ha as [?|[(? & _)|(? & [?|?])]]; done || lia.
    + apply Hseen; [unfold CURRENCYTOKEN_SLOT_START, CURRENCYTOKEN_SLOT_END; lia|done].
Qed.

Lemma all_covers_bag b j :
  b <> INVENTORY_SLOT_BAG_0 -> accepts b j = true -> 0 < space b j ->
  covers (all_searches S P pProto pItem swap bag slot no_similar_count) (eq (position b j)).
Proof.
  intros Hb Ha Hs. assert (named b j = false) as Hn by (unfold named; by rewrite Hbn).
  unfold accepts in Ha. rewrite Hn, (proj2 (Z.eqb_neq b INVENTORY_SLOT_BAG_0) Hb) in Ha. simpl in Ha.
  apply andb_true_iff in Ha as [Hr Ha]. destruct (takes b) as [g|] eqn:Hg; [|done].
  assert (INVENTORY_SLOT_BAG_START <= b < INVENTORY_SLOT_BAG_END) as Hw.
  { destruct (Z.eqb_spec b bag) as [E|]; [|lia]. exfalso. rewrite E, Hbn in Hg. by vm_compute in Hg. }
  assert (forall merge, visits merge b j = true ->
    forall pos, position b j = pos -> seen merge b 0 (GetBagSize (memory P g)) pos) as Hseen.
  { intros merge Hv pos <-. exists j. rewrite (worn_not_named b Hw). repeat split; [lia|lia|done]. }
  destruct (room_visits _ _ Hs Hn) as [(_ & Hst & Hv)|(_ & Hv)].
  - apply all_covers_merge. eapply covers_weaken; [by apply merge_covers_bag|by apply Hseen].
  - destruct (is_plain g) eqn:Hp.
    + apply all_covers_free. eapply covers_weaken; [by apply free_covers_bag|by apply Hseen].
    + apply all_covers_special. eapply covers_weaken; [by apply special_covers_bag|by apply Hseen].
Qed.

(** If something is left, every slot with room is used. *)
Lemma all_covers_room pos :
  0 <= pos < 65536 -> accepts_at pos = true -> 0 < space_at pos ->
  covers (all_searches S P pProto pItem swap bag slot no_similar_count) (eq pos).
Proof.
  intros Hp Ha Hs. unfold accepts_at, space_at in *.
  destruct (position_split pos) as [Hpos Hj].
  set (b := Z.shiftr pos 8) in *. set (j := Z.land pos 255) in *.
  clearbody b j. subst pos.
  destruct (decide (b = INVENTORY_SLOT_BAG_0)) as [E|E]; [rewrite E in *; by apply all_covers_own|by apply all_covers_bag].
Qed.

(** A call that runs through all searches has something left. *)
Lemma in_bag_fail b merge ns skip st :
  fst (CanStoreItem_InBag S P b pProto merge ns pItem skip slot st) <> EQUIP_ERR_OK ->
  snd (CanStoreItem_InBag S P b pProto merge ns pItem skip slot st) = st.
Proof.
  unfold CanStoreItem_InBag. destruct (b =? skip); [done|]. destruct (GetBagByPos S P b) as [g|]; [|done].
  destruct (bool_decide _); [done|]. destruct (src_not_empty_bag S P pItem); [done|].
  destruct (GetTemplate S (memory P g)) as [bp|]; [|done].
  destruct (negb (Bool.eqb _ _)); [done|]. destruct (negb _); done.
Qed.

Lemma in_bags_leave merge ns st st' :
  snd st <> 0 -> in_bags S P pProto pItem bag slot no_similar_count merge ns st = inr st' -> snd st' <> 0.
Proof.
  unfold in_bags. generalize (slots INVENTORY_SLOT_BAG_START INVENTORY_SLOT_BAG_END). intros l. revert st.
  induction l as [|i l IH]; intros st H0; simpl; [by intros [= <-]|]. unfold andThen, may at 1.
  pose proof (in_bag_fail i merge ns bag st) as Hf.
  destruct (CanStoreItem_InBag _ _ i _ _ _ _ _ _ st) as [res st1]. simpl in Hf.
  destruct (Z.eqb_spec res EQUIP_ERR_OK); simpl.
  - destruct (finish no_similar_count st1) as [r|st2] eqn:E; [done|]. apply finish_inr in E as [-> H1]. by apply IH.
  - rewrite Hf by done. by apply IH.
Qed.

Lemma all_leave st st' :
  all_searches S P pProto pItem swap bag slot no_similar_count st = inr st' -> snd st' <> 0.
Proof.
  unfold all_searches, andThen.
  destruct (specific_slot _ _ _ _ _ _ _ _ st) as [|st1]; [done|]. destruct (specific_bag _ _ _ _ _ _ _ st1) as [|st2]; [done|].
  destruct (merge_search _ _ _ _ _ _ _ st2) as [|st3]; [done|]. destruct (special_search _ _ _ _ _ _ _ st3) as [|st4]; [done|].
  unfold free_search. destruct (src_not_empty_bag S P pItem); [done|]. unfold andThen, in_slots, must.
  destruct (CanStoreItem_InInventorySlots _ _ _ _ _ _ _ _ _ st4) as [res st5]. destruct (negb _); [done|].
  destruct (finish no_similar_count st5) as [|st6] eqn:E; [done|]. apply finish_inr in E as [-> H0]. by apply in_bags_leave.
Qed.

(** The searches of such a call end it with success, if they end it. *)
Definition quiet (s : Search) : Prop := forall st r, s st = inl r -> sr_res r = EQUIP_ERR_OK.

Lemma quiet_andThen s1 s2 : quiet s1 -> quiet s2 -> quiet (andThen s1 s2).
Proof. intros H1 H2 st r. unfold andThen. specialize (H1 st). destruct (s1 st); [intros [= <-]; auto|apply H2]. Qed.

Lemma quiet_when b s : quiet s -> quiet (when b s).
Proof. by destruct b. Qed.

Context (Hno : no_similar_count = 0).

Lemma quiet_finish st r : finish no_similar_count st = inl r -> sr_res r = EQUIP_ERR_OK.
Proof. unfold finish. rewrite Hno. destruct (_ =? 0); [intros [= <-]|]; done. Qed.

Lemma quiet_in_slots a b merge : quiet (in_slots S P pProto pItem bag slot no_similar_count a b merge).
Proof.
  intros st r. unfold in_slots, must, CanStoreItem_InInventorySlots. rewrite no_source. apply quiet_finish.
Qed.

Lemma quiet_in_bags merge ns : quiet (in_bags S P pProto pItem bag slot no_similar_count merge ns).
Proof.
  unfold in_bags. induction (slots INVENTORY_SLOT_BAG_START INVENTORY_SLOT_BAG_END) as [|i l IH]; [done|].
  simpl. apply quiet_andThen; [|done]. intros st r. unfold may. destruct (CanStoreItem_InBag _ _ _ _ _ _ _ _ _ _) as [res st'].
  destruct (negb _); [done|apply quiet_finish].
Qed.
#[local] Hint Resolve quiet_andThen quiet_when quiet_in_slots quiet_in_bags : storage.

Lemma quiet_all : quiet (all_searches S P pProto pItem swap bag slot no_similar_count).
Proof.
  apply quiet_andThen; [unfold specific_slot; by rewrite Hbn|].
  apply quiet_andThen; [unfold specific_bag; by rewrite Hbn|].
  apply quiet_andThen; [unfold merge_search; auto 8 with storage|].
  apply quiet_andThen.
  - unfold special_search. apply quiet_when, quiet_andThen; [destruct (is_key pProto)|]; auto with storage.
  - intros st r. unfold free_search. rewrite no_source. revert st r. apply quiet_andThen; auto with storage.
Qed.
End NewItem.
End Spec.

(** ** The whole call *)
Section Whole.
Context (S : Stores) (P : Player) (bag slot entry : Z) (pItem : option Z).
Context (Ht : typed P) (Hbag : in_u 8 bag) (Hslot : in_u 8 slot).

(** The carried numbers do not exceed the limits of the item's template. *)
Definition within_limits (p : ItemTemplate) : Prop :=
  (0 < MaxCount p -> GetItemCount S P (ItemId p) true pItem <= MaxCount p)
  /\ (forall mode mx, LimitCategory S (ItemLimitCategory p) = Some (mode, mx) ->
       GetItemCountWithLimitCategory S P (ItemLimitCategory p) pItem <= mx).

Lemma fold_u32_range {A} (f : Z -> A -> Z) l c :
  (forall c x, in_u 32 c -> in_u 32 (f c x)) -> in_u 32 c -> in_u 32 (fold_left f l c).
Proof. intros Hf. revert c. induction l; simpl; auto. Qed.

Lemma tally_range item (f : Z -> option Z -> Z) a b c :
  f = count_entry P item pItem \/ f = count_gems S P item pItem \/ f = count_category S P item pItem ->
  in_u 32 c -> in_u 32 (over_inventory S P f a b c).
Proof.
  intros Hf. apply fold_u32_range. intros c' i Hc.
  unfold count_entry, count_gems, count_category in Hf.
  destruct Hf as [->|[->| ->]]; destruct (GetItemByPos _ _ _ _); try done;
    repeat match goal with |- context [if ?b then _ else _] => destruct b
           | |- context [match GetTemplate ?s ?x with Some _ => _ | None => _ end] => destruct (GetTemplate s x) end;
    try done; apply wrap_range; lia.
Qed.

Lemma over_bags_range f a b c : in_u 32 c -> in_u 32 (over_bags S P f a b c).
Proof. apply fold_u32_range. intros c' i Hc. destruct (GetBagByPos _ _ _); [apply wrap_range; lia|done]. Qed.

Lemma GetItemCount_range item b : in_u 32 (GetItemCount S P item b pItem).
Proof.
  unfold GetItemCount.
  repeat match goal with |- context [if ?b then _ else _] => destruct b end;
    repeat (apply over_bags_range || (eapply tally_range; [by auto|])); done.
Qed.

Lemma GetItemCountWithLimitCategory_range c : in_u 32 (GetItemCountWithLimitCategory S P c pItem).
Proof.
  unfold GetItemCountWithLimitCategory.
  repeat (apply over_bags_range || (eapply tally_range; [by auto|])); done.
Qed.

Lemma excess_le_count cur mx count :
  in_u 32 cur -> in_u 32 count -> cur <= mx -> mx < u32 (cur + count) -> 0 <= mx < 2 ^ 32 ->
  0 <= u32 (count + cur - mx) <= count.
Proof.
  intros Hc Hn Hle Hlt Hm.
  destruct (Z.lt_ge_cases (cur + count) (2 ^ 32)) as [H|H].
  - rewrite (wrap_id 32 (cur + count)) in Hlt by (unfold in_u in *; lia).
    rewrite wrap_id by (unfold in_u in *; lia). lia.
  - exfalso. revert Hlt. unfold wrap.
    replace (cur + count) with ((cur + count - 2 ^ 32) + 1 * 2 ^ 32) by lia.
    rewrite Z.mod_add, Z.mod_small by (unfold in_u in *; lia). unfold in_u in *. lia.
Qed.

Definition sane (p : ItemTemplate) : Prop :=
  in_s 32 (MaxCount p) /\ (forall mode mx, LimitCategory S (ItemLimitCategory p) = Some (mode, mx) -> in_u 32 mx).

Lemma no_similar_le_count count p :
  GetItemTemplate S entry = Some p -> sane p -> within_limits p -> in_u 32 count ->
  0 <= default 0 (snd (CanTakeMoreSimilarItems S P entry count pItem)) <= count
  /\ (fst (CanTakeMoreSimilarItems S P entry count pItem) = EQUIP_ERR_OK ->
       snd (CanTakeMoreSimilarItems S P entry count pItem) = None).
Proof.
  intros Hp [Hs1 Hs2] [H1 H2] Hc. unfold CanTakeMoreSimilarItems. rewrite Hp.
  pose proof (GetItemCount_range (ItemId p) true) as R1.
  pose proof (GetItemCountWithLimitCategory_range (ItemLimitCategory p)) as R2.
  set (c1 := GetItemCount S P (ItemId p) true pItem) in *.
  set (c2 := GetItemCountWithLimitCategory S P (ItemLimitCategory p) pItem) in *. clearbody c1 c2.
  assert (0 <= 0 <= count) as H0 by (unfold in_u in Hc; lia).
  destruct (match pItem with Some a => _ | None => false end); [done|].
  destruct (_ || (MaxCount p =? 2147483647)); [done|].
  destruct (Z.ltb_spec 0 (MaxCount p)) as [Hm|Hm]; simpl.
  1: rewrite (wrap_id 32 (MaxCount p)) by (unfold in_u, in_s in *; simpl in *; width).
  1: destruct (Z.ltb_spec (MaxCount p) (u32 (c1 + count))) as [Hx|Hx]; simpl.
  1: { split; [|done]. apply excess_le_count; auto. unfold in_s in Hs1. simpl in Hs1. width. }
  all: destruct (ItemLimitCategory p =? 0); [done|].
  all: destruct (LimitCategory S (ItemLimitCategory p)) as [[mode mx]|]; [|simpl; split; [lia|done]].
  all: destruct (mode =? ITEM_LIMIT_CATEGORY_MODE_HAVE); [|done].
  all: match goal with |- context [if ?a <? ?b then _ else _] => destruct (Z.ltb_spec a b) end; [|done].
  all: simpl; split; [|done]; apply excess_le_count; eauto; exact (Hs2 _ _ eq_refl).
Qed.

(** What the searches give a call of [CanStoreItem] that reaches them. *)
Definition searched (p : ItemTemplate) (swap : bool) (dest : ItemPosCountVec) (count no_similar : Z) (r : StoreResult) : Prop :=
  exists st', extends S P p pItem swap bag slot (dest, count) st' /\ sr_dest r = fst st'
    /\ (sr_res r = EQUIP_ERR_OK -> snd st' = 0 /\ no_similar = 0)
    /\ match sr_no_space r with
       | Some n => n = u32 (snd st' + no_similar)
       | None => sr_res r = EQUIP_ERR_OK \/ sr_res r = EQUIP_ERR_NONEMPTY_BAG_OVER_OTHER_BAG
       end.

Lemma searches_give p swap dest count no_similar :
  searched p swap dest count no_similar
    match all_searches S P p pItem swap bag slot no_similar (dest, count) with
    | inl r => r
    | inr st => mkStoreResult EQUIP_ERR_INVENTORY_FULL (fst st) (no_space no_similar st)
    end.
Proof.
  pose proof (sound_all S P p pItem swap bag slot Ht Hbag Hslot no_similar (dest, count)) as H.
  destruct (all_searches _ _ _ _ _ _ _ _ _) as [r|st].
  - destruct H as (st' & He & Hd & Hok & _ & Hn). by exists st'.
  - exists st. by repeat split.
Qed.

(** Either nothing is placed and everything refused, or the searches run on
    what may be taken. *)
Lemma CanStoreItem_cases dest count swap :
  let r := CanStoreItem S P bag slot dest entry count pItem swap in
  (sr_dest r = dest /\ sr_res r <> EQUIP_ERR_OK /\ sr_no_space r = Some count)
  \/ exists p, GetItemTemplate S entry = Some p
     /\ let take := CanTakeMoreSimilarItems S P entry count pItem in
        let no_similar := default 0 (snd take) in
        searched p swap dest (if negb (fst take =? EQUIP_ERR_OK) then u32 (count - no_similar) else count) no_similar r.
Proof.
  intros r. subst r. unfold CanStoreItem. destruct (GetItemTemplate S entry) as [p|]; [|left; by destruct swap].
  destruct (match pItem with Some a => m_lootGenerated _ | None => false end); [by left|].
  destruct (match pItem with Some a => IsBindedNotWith _ _ _ | None => false end); [by left|].
  destruct (CanTakeMoreSimilarItems S P entry count pItem) as [res written].
  cbn [fst snd]. destruct (negb (res =? EQUIP_ERR_OK) && (count =? default 0 written)) eqn:E.
  - apply andb_true_iff in E as [E1 E2]. apply Z.eqb_eq in E2 as ->. left.
    split_and!; [done| |done]. intros H. simpl in H. subst res. by vm_compute in E1.
  - right. exists p. split; [done|]. apply searches_give.
Qed.
End Whole.

(** Whatever the result, the positions [CanStoreItem] adds are pairwise
    distinct and not in [dest] before; each is the slot the caller named, or a
    slot of the backpack, or a keyring or token slot that already holds a stack
    or suits the item, or a slot of a bag that takes the item; and no entry
    exceeds the room of its slot: the stack limit less what lies there, for a
    stack of the same item that is not being looted. *)
Theorem CanStoreItem_fits S P bag slot dest entry count pItem swap :
  typed P -> in_u 8 bag -> in_u 8 slot -> in_u 32 count ->
  let r := CanStoreItem S P bag slot dest entry count pItem swap in
  exists added, sr_dest r = dest ++ added
    /\ (NoDup (map ipc_pos dest) -> NoDup (map ipc_pos (sr_dest r)))
    /\ forall p, GetItemTemplate S entry = Some p -> Forall (fits S P p pItem swap bag slot) added.
Proof.
  intros Ht Hb Hs Hc r.
  destruct (CanStoreItem_cases S P bag slot entry pItem Ht Hb Hs dest count swap) as [(Hd & _)|(p & Hp & Hr)].
  - exists []. fold r in Hd. rewrite Hd, app_nil_r. auto.
  - destruct Hr as (st' & He & Hd & _). destruct He as (added & E & _ & F & N & _).
    { simpl. destruct (negb _); [apply wrap_range; lia|done]. }
    exists added. fold r in Hd. rewrite Hd. split_and!; [done|done|]. intros p' Hp'. by simplify_eq.
Qed.

(** [CanStoreItem] accounts for every item: with OK the counts it adds to
    [dest] sum to [count]; with any other result the counts it adds and
    [*no_space_count] sum to [count], and only the refusal of a filled bag leaves
    [*no_space_count] unwritten. The numbers the player carries must not exceed
    the limits of the item before the call. *)
Theorem CanStoreItem_accounts S P bag slot entry count pItem swap p :
  typed P -> in_u 8 bag -> in_u 8 slot -> in_u 32 count ->
  GetItemTemplate S entry = Some p -> sane S p -> within_limits S P pItem p ->
  let r := CanStoreItem S P bag slot [] entry count pItem swap in
  match sr_no_space r with
  | Some n => count_sum (sr_dest r) + n = count
  | None => sr_res r = EQUIP_ERR_OK \/ sr_res r = EQUIP_ERR_NONEMPTY_BAG_OVER_OTHER_BAG
  end /\ (sr_res r = EQUIP_ERR_OK -> count_sum (sr_dest r) = count).
Proof.
  intros Ht Hb Hs Hc Hp Hsane Hlim r.
  destruct (no_similar_le_count S P entry pItem count p Hp Hsane Hlim Hc) as [Hle Hnone].
  destruct (CanStoreItem_cases S P bag slot entry pItem Ht Hb Hs [] count swap) as [(Hd & Hr & Hn)|(p' & Hp' & Hr)].
  - fold r in Hd, Hr, Hn. rewrite Hd, Hn. split; [simpl; lia|done].
  - destruct Hr as (st' & He & Hd & Hok & Hn).
    set (take := CanTakeMoreSimilarItems S P entry count pItem) in *. clearbody take.
    set (left := if negb (fst take =? EQUIP_ERR_OK) then _ else count) in *.
    assert (left = count - default 0 (snd take)) as Eleft.
    { unfold left. destruct (Z.eqb_spec (fst take) EQUIP_ERR_OK) as [E|E]; simpl.
      - rewrite Hnone by done. simpl. lia.
      - apply wrap_id. unfold in_u in *. lia. }
    destruct He as (added & E & Sum & F & _ & Hr' & _); [simpl; rewrite Eleft; unfold in_u in *; lia|].
    apply count_sum_fits in F.
    fold r in Hd, Hok, Hn. simpl in *. rewrite Hd, E. split.
    + destruct (sr_no_space r); [|done]. subst. rewrite wrap_id; unfold in_u in *; lia.
    + intros H. destruct (Hok H) as [H1 H0]. lia.
Qed.

(** ** Room for a new item

    The room a player has for an item: over all positions, the space of those
    that accept it. *)
Definition room (S : Stores) (P : Player) (p : ItemTemplate) (pos : Z) : Z :=
  if accepts_at S P p None NULL_BAG NULL_SLOT pos then space_at S P p None false NULL_BAG NULL_SLOT pos else 0.
Definition sum_over (f : Z -> Z) (l : list Z) : Z := foldr (fun x t => f x + t) 0 l.
Definition capacity (S : Stores) (P : Player) (p : ItemTemplate) : Z := sum_over (room S P p) (seqZ 0 65536).

Lemma sum_over_perm f l k : l ≡ₚ k -> sum_over f l = sum_over f k.
Proof. unfold sum_over. induction 1; simpl; lia. Qed.

Lemma sum_over_nonneg f l : (forall x, 0 <= f x) -> 0 <= sum_over f l.
Proof. intros Hf. unfold sum_over. induction l as [|x l IH]; simpl; [|specialize (Hf x)]; lia. Qed.

Lemma count_sum_le f l ks :
  (forall x, 0 <= f x) -> NoDup (map ipc_pos l) ->
  (forall e, e ∈ l -> ipc_pos e ∈ ks /\ ipc_count e <= f (ipc_pos e)) ->
  count_sum l <= sum_over f ks.
Proof.
  intros Hf. revert ks. induction l as [|e l IH]; intros ks Hn Hl; simpl.
  - by apply sum_over_nonneg.
  - apply NoDup_cons in Hn as [Hne Hn]. destruct (Hl e) as [Hin Hle]; [set_solver|].
    apply elem_of_Permutation in Hin as [ks' Hk].
    rewrite (sum_over_perm f _ _ Hk). simpl.
    enough (count_sum l <= sum_over f ks') by (unfold sum_over in *; lia).
    apply IH; [done|]. intros e' He'. destruct (Hl e') as [Hin' Hle']; [set_solver|]. split; [|done].
    rewrite Hk in Hin'. apply elem_of_cons in Hin' as [E|?]; [|done].
    exfalso. apply Hne. rewrite <- E. by apply list_elem_of_fmap_2.
Qed.

Lemma sum_le_count f l ks :
  NoDup ks -> (forall e, e ∈ l -> 0 <= ipc_count e) ->
  (forall x, x ∈ ks -> 0 < f x -> exists e, e ∈ l /\ ipc_pos e = x /\ ipc_count e = f x) ->
  sum_over f ks <= count_sum l.
Proof.
  intros Hn. revert l. induction Hn as [|x ks Hx Hn IH]; intros l Hl Hks; simpl.
  - clear - Hl. unfold sum_over. simpl. induction l as [|e l IH]; simpl; [lia|].
    specialize (Hl e ltac:(set_solver)) as H0. specialize (IH ltac:(set_solver)). lia.
  - destruct (Z.lt_ge_cases 0 (f x)) as [H0|H0].
    + destruct (Hks x) as (e & He & Ep & Ec); [set_solver|done|].
      apply elem_of_Permutation in He as [l' Hl'].
      assert (count_sum l = ipc_count e + count_sum l') as ->.
      { clear - Hl'. unfold count_sum. change (ipc_count e + foldr (fun e t => ipc_count e + t) 0 l')
          with (foldr (fun e t => ipc_count e + t) 0 (e :: l')).
        induction Hl'; simpl in *; lia. }
      enough (sum_over f ks <= count_sum l') by (unfold sum_over in *; lia).
      apply IH; [intros e' He'; apply Hl; rewrite Hl'; set_solver|].
      intros y Hy Hfy. destruct (Hks y) as (e' & He' & Ep' & Ec'); [set_solver|done|].
      exists e'. split; [|done]. rewrite Hl' in He'. apply elem_of_cons in He' as [->|?]; [|done]. congruence.
    + enough (sum_over f ks <= count_sum l) by (unfold sum_over in *; lia). apply IH; [done|]. intros; apply Hks; [set_solver|done].
Qed.

Lemma take_ok_none S P entry count pItem :
  fst (CanTakeMoreSimilarItems S P entry count pItem) = EQUIP_ERR_OK ->
  snd (CanTakeMoreSimilarItems S P entry count pItem) = None.
Proof.
  unfold CanTakeMoreSimilarItems.
  repeat match goal with
    | |- context [match ?x with _ => _ end] =>
        lazymatch x with context [match _ with _ => _ end] => fail | _ => destruct x end
    end; done.
Qed.

Section Capacity.
Context (S : Stores) (P : Player) (p : ItemTemplate) (Ht : typed P).

Lemma room_nonneg pos : 0 <= room S P p pos.
Proof. unfold room. destruct (accepts_at _ _ _ _ _ _ _); [apply space_nonneg|]; lia. Qed.

(** Entries that fit at distinct positions sum to no more than the room. *)
Lemma fits_capacity l :
  NoDup (map ipc_pos l) -> Forall (fits S P p None false NULL_BAG NULL_SLOT) l -> count_sum l <= capacity S P p.
Proof.
  intros Hn Hl. apply count_sum_le; [apply room_nonneg|done|].
  intros e He. rewrite Forall_forall in Hl. destruct (Hl e He) as [Ha Hs]. unfold room. rewrite Ha.
  split; [|lia]. apply elem_of_seqZ. apply accepts_at_range in Ha; [lia|done].
Qed.

(** Entries that use all the space of every slot with room sum to the room. *)
Lemma full_capacity l :
  Forall (fits S P p None false NULL_BAG NULL_SLOT) l -> Forall (full S P p None false NULL_BAG NULL_SLOT) l ->
  (forall pos, 0 <= pos < 65536 -> accepts_at S P p None NULL_BAG NULL_SLOT pos = true ->
     0 < space_at S P p None false NULL_BAG NULL_SLOT pos -> pos ∈ map ipc_pos l) ->
  capacity S P p <= count_sum l.
Proof.
  intros Hl Hf Hcov. apply sum_le_count; [apply NoDup_seqZ| |].
  - intros e He. rewrite Forall_forall in Hl. destruct (Hl e He) as [_ ?]. lia.
  - intros pos Hpos Hr. apply elem_of_seqZ in Hpos. unfold room in *.
    destruct (accepts_at _ _ _ _ _ _ pos) eqn:Ha; [|lia].
    specialize (Hcov pos ltac:(lia) Ha Hr). apply list_elem_of_fmap in Hcov as (e & -> & He).
    exists e. rewrite Forall_forall in Hf. split_and!; [done|done|by apply Hf].
Qed.
End Capacity.

(** C5: For a new item whose number is within the carrying limits,
    [CanStoreNewItem] without a named slot succeeds exactly if the player has room
    for all of them: it neither overlooks a slot or a stack with room nor counts
    one twice. Otherwise it reports a full inventory. *)
Theorem CanStoreNewItem_finds_room S P p item count :
  typed P -> in_u 32 count -> GetItemTemplate S item = Some p ->
  fst (CanTakeMoreSimilarItems S P item count None) = EQUIP_ERR_OK ->
  sr_res (CanStoreNewItem S P NULL_BAG NULL_SLOT [] item count)
  = if count <=? capacity S P p then EQUIP_ERR_OK else EQUIP_ERR_INVENTORY_FULL.
Proof.
  intros Ht Hc Hp Hok. pose proof (take_ok_none _ _ _ _ _ Hok) as Hnone.
  unfold CanStoreNewItem, CanStoreItem. rewrite Hp.
  destruct (CanTakeMoreSimilarItems S P item count None) as [res w]. simpl in Hok, Hnone. subst. simpl.
  assert (in_u 8 NULL_BAG) as Hb by done. assert (in_u 8 NULL_SLOT) as Hs by done.
  pose proof (sound_all S P p None false NULL_BAG NULL_SLOT Ht Hb Hs 0 ([], count)) as Hsound.
  pose proof (quiet_all S P p None false NULL_BAG NULL_SLOT 0 eq_refl eq_refl eq_refl ([], count)) as Hq.
  pose proof (fun pos H1 H2 H3 st' E => all_covers_room S P p None false NULL_BAG NULL_SLOT Ht Hb Hs 0
                eq_refl eq_refl eq_refl pos H1 H2 H3 ([], count) st' Hc E pos eq_refl) as Hcov.
  pose proof (all_leave S P p None false NULL_BAG NULL_SLOT 0 ([], count)) as Hleft.
  destruct (all_searches _ _ _ _ _ _ _ _ _) as [r|st].
  - rewrite (Hq r eq_refl). destruct Hsound as (st' & He & _ & Hres & _).
    destruct (Hres (Hq r eq_refl)) as [H0 _]. destruct (He Hc) as (l & E & Sum & F & N & _).
    simpl in E, Sum. rewrite E in N. specialize (N ltac:(constructor)).
    pose proof (fits_capacity S P p l N F). destruct (Z.leb_spec count (capacity S P p)); [done|lia].
  - destruct (Hsound Hc) as (l & E & Sum & F & N & R & U). simpl in E, Sum.
    destruct (Z.leb_spec count (capacity S P p)) as [Hle|]; [|done]. exfalso.
    specialize (Hleft st eq_refl).
    pose proof (full_capacity S P p l F) as H1.
    assert (capacity S P p <= count_sum l) as H2.
    { apply H1; [apply U, Hleft|]. intros pos Hp1 Hp2 Hp3. rewrite <- E. by apply (Hcov pos Hp1 Hp2 Hp3 st). }
    unfold in_u in *. lia.
Qed.

(** ** Concrete players *)
Definition plain_template (id maxcount stackable family : Z) : ItemTemplate :=
  mkTemplate id 15 0 0 0 maxcount stackable 0 family 0 0 0 0 [].
Definition bag_template (id size : Z) : ItemTemplate :=
  mkTemplate id ITEM_CLASS_CONTAINER ITEM_SUBCLASS_CONTAINER INVTYPE_BAG 0 0 1 size 0 0 0 0 0 [].
Definition sample_stores : Stores := mkStores
  (fun e => if e =? 100 then Some (plain_template 100 0 20 0)
            else if e =? 101 then Some (plain_template 101 1 20 0)
            else if e =? 102 then Some (plain_template 102 0 1 BAG_FAMILY_MASK_KEYS)
            else if e =? 200 then Some (bag_template 200 1)
            else None)
  (plain_template 0 0 0 0) (fun _ => None) (fun _ => None).
Definition sample_item (entry count size : Z) (content : Z -> option Z) : Item :=
  mkItem entry count false false 0 7 [] (fun _ => 0) size content 0 0 0 None.
Definition no_content : Z -> option Z := fun _ => None.
(** At address 1 three of item 100, at 3 eighteen, at 4 and 6 bags with one slot
    ([3] in the first), at 5 a key, at 2 three of the limited item 101. *)
Definition sample_memory (a : Z) : Item :=
  if a =? 1 then sample_item 100 3 0 no_content
  else if a =? 2 then sample_item 101 3 0 no_content
  else if a =? 3 then sample_item 100 18 0 no_content
  else if a =? 4 then sample_item 200 1 1 (fun j => if j =? 0 then Some 3 else None)
  else if a =? 5 then sample_item 102 1 0 no_content
  else sample_item 200 1 1 no_content.
Definition sample_player (m_items : Z -> option Z) : Player := mkPlayer 7 sample_memory m_items.
Definition worn (i : Z) : option Z :=
  if i =? 19 then Some 4 else if i =? 20 then Some 6 else if i =? 23 then Some 1 else None.

Lemma sample_typed m : typed (sample_player m).
Proof.
  intros a. simpl. unfold sample_memory.
  repeat match goal with |- context [if ?c then _ else _] => destruct c end; done.
Qed.

Lemma CanStoreItem_fits_witness :
  typed (sample_player worn)
  /\ sr_dest (CanStoreItem sample_stores (sample_player worn) 19 0 [] 100 10 None false)
     = [mkPosCount (19 * 256) 2; mkPosCount (255 * 256 + 23) 8]
  /\ let r := CanStoreItem sample_stores (sample_player worn) 19 0 [] 100 10 None false in
     exists added, sr_dest r = [] ++ added
       /\ (NoDup (map ipc_pos ([] : ItemPosCountVec)) -> NoDup (map ipc_pos (sr_dest r)))
       /\ forall p, GetItemTemplate sample_stores 100 = Some p ->
          Forall (fits sample_stores (sample_player worn) p None false 19 0) added.
Proof.
  split; [apply sample_typed|]. split; [vm_compute; reflexivity|].
  apply (CanStoreItem_fits sample_stores (sample_player worn) 19 0 [] 100 10 None false);
    [apply sample_typed|done|done|done].
Defined.

Lemma CanStoreItem_accounts_witness :
  let r := CanStoreItem sample_stores (sample_player worn) NULL_BAG NULL_SLOT [] 100 400 None false in
  (sr_res r = EQUIP_ERR_INVENTORY_FULL /\ sr_no_space r = Some 61)
  /\ match sr_no_space r with
     | Some n => count_sum (sr_dest r) + n = 400
     | None => sr_res r = EQUIP_ERR_OK \/ sr_res r = EQUIP_ERR_NONEMPTY_BAG_OVER_OTHER_BAG
     end /\ (sr_res r = EQUIP_ERR_OK -> count_sum (sr_dest r) = 400).
Proof.
  split; [vm_compute; done|].
  apply (CanStoreItem_accounts sample_stores (sample_player worn) NULL_BAG NULL_SLOT 100 400 None false
           (plain_template 100 0 20 0)); [apply sample_typed|done|done|done|done| |].
  - split; [done|]. intros mode mx H. discriminate H.
  - split; [intros H; by vm_compute in H|]. intros mode mx H. discriminate H.
Defined.

Lemma CanStoreNewItem_finds_room_witness :
  fst (CanTakeMoreSimilarItems sample_stores (sample_player worn) 100 339 None) = EQUIP_ERR_OK
  /\ sr_res (CanStoreNewItem sample_stores (sample_player worn) NULL_BAG NULL_SLOT [] 100 339)
     = if 339 <=? capacity sample_stores (sample_player worn) (plain_template 100 0 20 0)
       then EQUIP_ERR_OK else EQUIP_ERR_INVENTORY_FULL.
Proof.
  split; [vm_compute; reflexivity|].
  apply (CanStoreNewItem_finds_room sample_stores (sample_player worn) (plain_template 100 0 20 0) 100 339);
    [apply sample_typed|done|done|vm_compute; reflexivity].
Defined.

(** The subtraction [count -= no_similar_count] wraps if the player already has
    more than the limit: asked for one item of which three are carried and one
    is allowed, the call finds places for 317. *)
Example over_limit_wraps :
  let r := CanStoreItem sample_stores (sample_player (fun i => if i =? 23 then Some 2 else None))
             NULL_BAG NULL_SLOT [] 101 1 None false in
  sr_res r = EQUIP_ERR_INVENTORY_FULL /\ count_sum (sr_dest r) = 317 /\ sr_no_space r = Some (u32 (1 - 317)).
Proof. vm_compute. done. Qed.

(** The slot index the caller named is skipped in every other bag too: the free
    slot 0 of bag 20 is overlooked although the player has room. *)
Example skip_slot_overlooks :
  let r := CanStoreItem sample_stores
             (sample_player (fun i => if i =? 19 then Some 4 else if i =? 20 then Some 6
                                      else if (23 <=? i) && (i <? 39) then Some 5 else None))
             19 0 [] 100 10 None false in
  sr_res r = EQUIP_ERR_INVENTORY_FULL /\ sr_dest r = [mkPosCount (19 * 256) 2] /\ sr_no_space r = Some 8.
Proof. vm_compute. done. Qed.

(** With the keyring full, a key for the inventory goes to a token slot, which
    refuses it when it is named. *)
Example key_in_token_slot :
  let P := sample_player (fun i => if (86 <=? i) && (i <? 118) then Some 5 else None) in
  sr_dest (CanStoreItem sample_stores P INVENTORY_SLOT_BAG_0 NULL_SLOT [] 102 1 None false)
  = [mkPosCount (255 * 256 + 118) 1]
  /\ sr_res (CanStoreItem sample_stores P INVENTORY_SLOT_BAG_0 118 [] 102 1 None false)
     = EQUIP_ERR_ITEM_DOESNT_GO_INTO_BAG.
Proof. vm_compute. done. Qed.
End Storage.
