(* ===== verification/Inventory.v ===== *)
(** * Inventory: putting items into a player's slots

    [Item::CreateItem], [Item::CloneItem] ([Entities/Item/Item.cpp]),
    [Bag::StoreItem] ([Entities/Item/Container/Bag.cpp]) and
    [Player::StoreNewItem], [StoreItem] and [_StoreItem]
    ([Entities/Player/Player.cpp]). The functions pass on the player, the
    addresses and guids not used yet and a trace of the calls to other parts of
    the server; [None] is a failed assertion. What a spell cast on obtaining an
    item does to the player is outside the model, as are the update fields that
    mirror the slots for the client.

    The invariant [linked] says that a stored item records its slot and bag, so
    that no two slots share an item; [grown] is the effect of storing on one
    slot, and every step of the code is shown to have it. *)
From S2P Require Import Prelude Items Storage.
#[global] Open Scope Z_scope.

Module Inventory.
Import Items Storage.

Definition BIND_WHEN_PICKED_UP := 1.
Definition BIND_WHEN_EQUIPED := 2.
Definition BIND_QUEST_ITEM := 4.
Definition ITEM_SPELLTRIGGER_ON_NO_DELAY_USE := 5.
Definition HIGHGUID_ITEM := 0x4000.
Definition ITEM_CHANGED := 1.
Definition ITEM_REMOVED := 3.

(** Calls on other parts of the server; items are given by address. *)
Inductive Event :=
| EClone (from to : Z)
| ESetItemRandomProperties (item randomPropertyId : Z)
| EItemAddedQuestCheck (entry count : Z)
| EReceiveItemCriteria (entry count : Z)
| EOwnItemCriteria (entry count : Z)
| EAddKnownCurrency (entry : Z)
| EAddToWorld (item : Z)
| ERemoveFromWorld (item : Z)
| EDestroyForPlayer (item : Z)
| ESendUpdate (item : Z)
| ESetState (item state : Z)
| EAddEnchantmentDurations (item : Z)
| ERemoveEnchantmentDurations (item : Z)
| EAddItemDurations (item : Z)
| ERemoveItemDurations (item : Z)
| ESetNotRefundable (item : Z)
| EClearSoulboundTradeable (item : Z)
| EAddTradeableItem (item : Z)
| ERemoveTradeableItem (item : Z)
| ESaveTradeable (item : Z) (looters : list Z)
| ECastSpell (spell item : Z).

Record World := mkWorld {
  w_player : Player;
  next_address : Z;
  next_guid : Z;
  w_trace : list Event
}.

(** ** Updates of items, of the player and of the trace *)
Definition set_count (count : Z) (it : Item) : Item :=
  mkItem (GetEntry it) count (m_lootGenerated it) (mb_in_trade it) (ITEM_FIELD_FLAGS it) (GetOwnerGUID it)
    (allowedGUIDs it) (GetEnchantmentId it) (GetBagSize it) (m_bagslot it) (item_guid it)
    (ITEM_FIELD_CONTAINED it) (m_slot it) (m_container it).
Definition set_flags (flags : Z) (it : Item) : Item :=
  mkItem (GetEntry it) (GetCount it) (m_lootGenerated it) (mb_in_trade it) flags (GetOwnerGUID it)
    (allowedGUIDs it) (GetEnchantmentId it) (GetBagSize it) (m_bagslot it) (item_guid it)
    (ITEM_FIELD_CONTAINED it) (m_slot it) (m_container it).
Definition set_looters (looters : list Z) (it : Item) : Item :=
  mkItem (GetEntry it) (GetCount it) (m_lootGenerated it) (mb_in_trade it) (ITEM_FIELD_FLAGS it) (GetOwnerGUID it)
    looters (GetEnchantmentId it) (GetBagSize it) (m_bagslot it) (item_guid it)
    (ITEM_FIELD_CONTAINED it) (m_slot it) (m_container it).
Definition set_owner (owner : Z) (it : Item) : Item :=
  mkItem (GetEntry it) (GetCount it) (m_lootGenerated it) (mb_in_trade it) (ITEM_FIELD_FLAGS it) owner
    (allowedGUIDs it) (GetEnchantmentId it) (GetBagSize it) (m_bagslot it) (item_guid it)
    (ITEM_FIELD_CONTAINED it) (m_slot it) (m_container it).
Definition set_bagslot (f : Z -> option Z) (it : Item) : Item :=
  mkItem (GetEntry it) (GetCount it) (m_lootGenerated it) (mb_in_trade it) (ITEM_FIELD_FLAGS it) (GetOwnerGUID it)
    (allowedGUIDs it) (GetEnchantmentId it) (GetBagSize it) f (item_guid it)
    (ITEM_FIELD_CONTAINED it) (m_slot it) (m_container it).
Definition set_place (contained slot : Z) (container : option Z) (it : Item) : Item :=
  mkItem (GetEntry it) (GetCount it) (m_lootGenerated it) (mb_in_trade it) (ITEM_FIELD_FLAGS it) (GetOwnerGUID it)
    (allowedGUIDs it) (GetEnchantmentId it) (GetBagSize it) (m_bagslot it) (item_guid it)
    contained slot container.

Definition update {A} (f : Z -> A) (k : Z) (v : A) : Z -> A := fun i => if i =? k then v else f i.

Definition item_at (w : World) (x : Z) : Item := memory (w_player w) x.
Definition with_player (p : Player) (w : World) : World := mkWorld p (next_address w) (next_guid w) (w_trace w).
Definition modify (x : Z) (f : Item -> Item) (w : World) : World :=
  let p := w_player w in
  with_player (mkPlayer (GetGUID p) (update (memory p) x (f (memory p x))) (m_items p)) w.
Definition set_slot (slot : Z) (o : option Z) (w : World) : World :=
  let p := w_player w in with_player (mkPlayer (GetGUID p) (memory p) (update (m_items p) slot o)) w.
Definition log (es : list Event) (w : World) : World :=
  mkWorld (w_player w) (next_address w) (next_guid w) (w_trace w ++ es).

Definition SetCount (count x : Z) : World -> World := modify x (set_count count).
Definition SetBinding (x : Z) : World -> World :=
  modify x (fun it => set_flags (Z.lor (ITEM_FIELD_FLAGS it) ITEM_FLAG_SOULBOUND) it).

Section Store.
(** Whether the player is in the world, and the auras after a trace. *)
Context (S : Stores) (IsInWorld : bool) (HasAura : list Event -> Z -> bool).

(** ** Creating items *)

Definition make_guid (guidlow : Z) : Z := Z.lor guidlow (Z.shiftl HIGHGUID_ITEM 48).

(** [NewItemOrBag] and [Item::Create] or [Bag::Create]; the count is 1. *)
Definition new_item (pProto : ItemTemplate) (item owner guidlow : Z) : Item :=
  let is_bag := InventoryType pProto =? INVTYPE_BAG in
  mkItem item 1 false false 0 owner [] (fun _ => 0) (if is_bag then ContainerSlots pProto else 0) (fun _ => None)
    (make_guid guidlow) owner 0 None.

Definition CreateItem (item count : Z) (w : World) : option (option Z * World) :=
  if count <? 1 then Some (None, w)
  else
    match GetItemTemplate S item with
    | None => None
    | Some pProto =>
        let count := if GetMaxStackSize pProto <? count then GetMaxStackSize pProto else count in
        if count =? 0 then None
        else if 0xFFFFFFFE <=? next_guid w then None
        else
          let x := next_address w in
          let guidlow := next_guid w in
          let w := mkWorld (w_player w) (x + 1) (guidlow + 1) (w_trace w) in
          if (InventoryType pProto =? INVTYPE_BAG) && (MAX_BAG_SIZE <? ContainerSlots pProto)
          then Some (None, w)
          else
            let w := modify x (fun _ => new_item pProto item (GetGUID (w_player w)) guidlow) w in
            Some (Some x, SetCount count x w)
    end.

Definition CloneItem (count x : Z) (w : World) : option (option Z * World) :=
  match CreateItem (GetEntry (item_at w x)) count w with
  | Some (Some y, w') =>
      Some (Some y, log [EClone x y] (modify y (set_flags (ITEM_FIELD_FLAGS (item_at w x))) w'))
  | r => r
  end.

(** ** Bags *)
Definition Bag_StoreItem (g slot x : Z) (w : World) : option World :=
  if MAX_BAG_SIZE <=? slot then None
  else if item_guid (item_at w x) =? item_guid (item_at w g) then Some w
  else
    let w := modify g (fun bag => set_bagslot (update (m_bagslot bag) slot (Some x)) bag) w in
    let bag := item_at w g in
    Some (modify x (fun it => set_owner (GetOwnerGUID bag) (set_place (item_guid bag) slot (Some g) it)) w).

(** ** Storing *)
Definition binds (it : Item) (pos : Z) : bool :=
  let b := Bonding (Template S it) in
  (b =? BIND_WHEN_PICKED_UP) || (b =? BIND_QUEST_ITEM) || ((b =? BIND_WHEN_EQUIPED) && IsBagPos pos).

(** The spells that trigger when an item is obtained. *)
Definition on_obtain (bag x : Z) (w : World) : World :=
  fold_left (fun w sp =>
    if (fst sp =? ITEM_SPELLTRIGGER_ON_NO_DELAY_USE) && (0 <? snd sp)
       && ((bag =? INVENTORY_SLOT_BAG_0) || ((INVENTORY_SLOT_BAG_START <=? bag) && (bag <? INVENTORY_SLOT_BAG_END)))
       && negb (HasAura (w_trace w) (snd sp))
    then log [ECastSpell (snd sp) x] w else w) (Spells (Template S (item_at w x))) w.

(** The branch of [_StoreItem] for an empty slot, on the item to put there. *)
Definition put_item (pos bag slot x : Z) (update_client : bool) (w : World) : option World :=
  let w := if binds (item_at w x) pos then SetBinding x w else w in
  let pBag := if bag =? INVENTORY_SLOT_BAG_0 then None else GetBagByPos S (w_player w) bag in
  match
    match pBag with
    | None =>
        if PLAYER_SLOT_END <=? slot then None
        else
        let w := set_slot slot (Some x) w in
        let me := GetGUID (w_player w) in
        let w := modify x (fun it => set_owner me (set_place me slot None it)) w in
        Some (if (CURRENCYTOKEN_SLOT_START <=? slot) && (slot <? CURRENCYTOKEN_SLOT_END)
              then log [EAddKnownCurrency (GetEntry (item_at w x))] w else w)
    | Some g => Bag_StoreItem g slot x w
    end
  with
  | None => None
  | Some w =>
      let w := if IsInWorld && update_client then log [EAddToWorld x; ESendUpdate x] w else w in
      let w := log [ESetState x ITEM_CHANGED] w in
      let w := match pBag with Some g => log [ESetState g ITEM_CHANGED] w | None => w end in
      Some (on_obtain bag x (log [EAddEnchantmentDurations x; EAddItemDurations x] w))
  end.

(** The branch for a slot that holds the item [y]. *)
Definition merge_item (pos bag y x count : Z) (clone update_client : bool) (w : World) : World :=
  let w := if binds (item_at w y) pos then SetBinding y w else w in
  let w := SetCount (u32 (GetCount (item_at w y) + count)) y w in
  let w := if IsInWorld && update_client then log [ESendUpdate y] w else w in
  let w := if clone then w
           else
             let w := if IsInWorld && update_client then log [ERemoveFromWorld x; EDestroyForPlayer x] w else w in
             let w := log [ERemoveEnchantmentDurations x; ERemoveItemDurations x] w in
             let w := modify x (set_owner (GetGUID (w_player w))) w in
             log [ESetNotRefundable x; EClearSoulboundTradeable x; ERemoveTradeableItem x; ESetState x ITEM_REMOVED] w in
  on_obtain bag y (log [EAddEnchantmentDurations y; ESetState y ITEM_CHANGED] w).

Definition _StoreItem (pos : Z) (pItem : option Z) (count : Z) (clone update_client : bool) (w : World)
    : option (option Z * World) :=
  match pItem with
  | None => Some (None, w)
  | Some x =>
      let bag := u8 (Z.shiftr pos 8) in
      let slot := Z.land pos 255 in
      match GetItemByPos S (w_player w) bag slot with
      | None =>
          match (if clone then CloneItem count x w else Some (Some x, SetCount count x w)) with
          | None => None
          | Some (None, w) => Some (None, w)
          | Some (Some x, w) =>
              match put_item pos bag slot x update_client w with
              | Some w => Some (Some x, w)
              | None => None
              end
          end
      | Some y => Some (Some y, merge_item pos bag y x count clone update_client w)
      end
  end.

Fixpoint StoreItem_loop (dest : ItemPosCountVec) (pItem lastItem : option Z) (update_client : bool) (w : World)
    : option (option Z * World) :=
  match dest with
  | [] => Some (lastItem, w)
  | [e] => _StoreItem (ipc_pos e) pItem (ipc_count e) false update_client w
  | e :: rest =>
      match _StoreItem (ipc_pos e) pItem (ipc_count e) true update_client w with
      | Some (lastItem, w) => StoreItem_loop rest pItem lastItem update_client w
      | None => None
      end
  end.

Definition StoreItem (dest : ItemPosCountVec) (pItem : option Z) (update_client : bool) (w : World)
    : option (option Z * World) :=
  match pItem with
  | None => Some (None, w)
  | Some _ => StoreItem_loop dest pItem pItem update_client w
  end.

Definition StoreNewItem (dest : ItemPosCountVec) (item : Z) (update_client : bool) (randomPropertyId : Z)
    (allowedLooters : list Z) (w : World) : option (option Z * World) :=
  let count := fold_left (fun c e => u32 (c + ipc_count e)) dest 0 in
  match CreateItem item count w with
  | Some (Some x, w) =>
      let w := log [EItemAddedQuestCheck item count; EReceiveItemCriteria item count; EOwnItemCriteria item 1] w in
      let w := if randomPropertyId =? 0 then w else log [ESetItemRandomProperties x randomPropertyId] w in
      match StoreItem dest (Some x) update_client w with
      | Some (Some y, w) =>
          let it := item_at w y in
          if (1 <? Z.of_nat (length allowedLooters)) && (GetMaxStackSize (Template S it) =? 1) && IsSoulBound it
          then
            let w := modify y (fun it => set_looters allowedLooters
                       (set_flags (Z.lor (ITEM_FIELD_FLAGS it) ITEM_FLAG_BOP_TRADEABLE) it)) w in
            Some (Some y, log [EAddTradeableItem y; ESaveTradeable y allowedLooters] w)
          else Some (Some y, w)
      | Some (None, w) => if 1 <? Z.of_nat (length allowedLooters) then None else Some (None, w)
      | None => None
      end
  | r => r
  end.
End Store.

(** ** The layout of the storage *)
Section Layout.
Context (S : Stores).

Definition item_in (w : World) (b j : Z) : option Z := GetItemByPos S (w_player w) b j.
Definition bag_in (w : World) (b : Z) : option Z := GetBagByPos S (w_player w) b.

(** The number of items [e] in a slot, and in the whole storage. *)
Definition amount (w : World) (e b j : Z) : Z :=
  match item_in w b j with
  | Some a => if GetEntry (item_at w a) =? e then GetCount (item_at w a) else 0
  | None => 0
  end.
Definition held (w : World) (e : Z) : Z :=
  sum_over (fun pos => amount w e (Z.shiftr pos 8) (Z.land pos 255)) (seqZ 0 65536).

(** A slot is a slot of the player or of a bag the player wears; what holds bags
    is left out. *)
Definition storable (w : World) (b j : Z) : Prop :=
  (b = INVENTORY_SLOT_BAG_0 /\ holds_item j = true /\ IsBagPos (position b j) = false)
  \/ (exists g, bag_in w b = Some g /\ 0 <= j < GetBagSize (item_at w g)).

(** Every stored item records the slot it is in and the bag, so that it is in
    one slot only; it has been allocated, and its guid has been given out. *)
Record linked (w : World) : Prop := {
  linked_place : forall b j a, item_in w b j = Some a ->
    m_slot (item_at w a) = j
    /\ m_container (item_at w a) = (if b =? INVENTORY_SLOT_BAG_0 then None else bag_in w b);
  linked_old : forall b j a, item_in w b j = Some a -> a < next_address w;
  linked_guid : forall b j a n, item_in w b j = Some a -> next_guid w <= n < 2 ^ 32 ->
    item_guid (item_at w a) <> make_guid n;
  linked_sized : forall a, GetBagSize (item_at w a) <= MAX_BAG_SIZE
}.

(** An item that is in no slot. *)
Record loose (w : World) (x : Z) : Prop := {
  loose_nowhere : forall b j, item_in w b j <> Some x;
  loose_old : x < next_address w;
  loose_guid : forall b g, bag_in w b = Some g -> item_guid (item_at w x) <> item_guid (item_at w g);
  loose_fresh : forall n, next_guid w <= n < 2 ^ 32 -> item_guid (item_at w x) <> make_guid n
}.

(** What [GetItemByPos] depends on. *)
Definition same_layout (w w' : World) : Prop :=
  m_items (w_player w') = m_items (w_player w)
  /\ forall a, GetEntry (item_at w' a) = GetEntry (item_at w a)
       /\ GetBagSize (item_at w' a) = GetBagSize (item_at w a)
       /\ m_bagslot (item_at w' a) = m_bagslot (item_at w a).

Lemma same_layout_bag w w' b : same_layout w w' -> bag_in w' b = bag_in w b.
Proof.
  intros [Hm Ha]. unfold bag_in, GetBagByPos, InventoryItem, ToBag, IsBag, Template, GetTemplate. rewrite Hm.
  destruct (_ || _); [|done]. destruct (holds_item b); [|done].
  destruct (m_items (w_player w) b) as [a|]; [|done]. destruct (Ha a) as [E _]. unfold item_at in E. by rewrite E.
Qed.

Lemma same_layout_item w w' b j : same_layout w w' -> item_in w' b j = item_in w b j.
Proof.
  intros H. pose proof (same_layout_bag w w' b H) as Hb. destruct H as [Hm Ha].
  unfold item_in, GetItemByPos, bag_in in *. rewrite Hm, Hb. destruct (_ && _); [done|].
  destruct (GetBagByPos S (w_player w) b) as [g|]; [|done].
  unfold Bag_GetItemByPos. destruct (Ha g) as (_ & E1 & E2). unfold item_at in E1, E2. by rewrite E1, E2.
Qed.

Lemma item_at_modify x f w a : item_at (modify x f w) a = if a =? x then f (item_at w x) else item_at w a.
Proof. done. Qed.

Lemma modify_layout x f w :
  (forall it, GetEntry (f it) = GetEntry it /\ GetBagSize (f it) = GetBagSize it /\ m_bagslot (f it) = m_bagslot it) ->
  same_layout w (modify x f w).
Proof.
  intros Hf. split; [done|]. intros a. rewrite item_at_modify. destruct (Z.eqb_spec a x) as [->|]; [apply Hf|done].
Qed.

Lemma log_item_at es w a : item_at (log es w) a = item_at w a.
Proof. done. Qed.
Lemma log_item_in es w b j : item_in (log es w) b j = item_in w b j.
Proof. done. Qed.

(** Bags are the items of the bag slots. *)
Lemma bag_in_slot w b g :
  bag_in w b = Some g -> (b =? INVENTORY_SLOT_BAG_0) = false /\ item_in w INVENTORY_SLOT_BAG_0 b = Some g.
Proof.
  intros H. pose proof (GetBagByPos_not_0 _ _ _ _ H) as H0. split; [done|].
  unfold bag_in, GetBagByPos in H. destruct (_ || _); [|done]. unfold InventoryItem in H.
  destruct (holds_item b) eqn:Hh; [|done]. destruct (m_items (w_player w) b) as [a|] eqn:Ha; [|done].
  unfold ToBag in H. destruct (IsBag _ _); [|done]. injection H as ->.
  unfold item_in. by rewrite GetItemByPos_inventory.
Qed.

Lemma item_in_bag w b g j : bag_in w b = Some g -> item_in w b j = Bag_GetItemByPos (item_at w g) j.
Proof. apply GetItemByPos_bag. Qed.

(** A bag is worn in one slot, and an item is in one slot. *)
Lemma bag_unique w b b' g : linked w -> bag_in w b = Some g -> bag_in w b' = Some g -> b = b'.
Proof.
  intros Hl [_ H1]%bag_in_slot [_ H2]%bag_in_slot.
  destruct (linked_place w Hl _ _ _ H1) as [<- _]. by destruct (linked_place w Hl _ _ _ H2) as [<- _].
Qed.

Lemma item_in_cases w b j a :
  item_in w b j = Some a -> b = INVENTORY_SLOT_BAG_0 \/ exists g, bag_in w b = Some g.
Proof.
  unfold item_in, GetItemByPos. fold (bag_in w b).
  destruct ((b =? INVENTORY_SLOT_BAG_0) && holds_item j) eqn:E; [left; lia|].
  destruct (bag_in w b) as [g|]; [right; by exists g|done].
Qed.

Lemma item_unique w b j b' j' a :
  linked w -> item_in w b j = Some a -> item_in w b' j' = Some a -> b = b' /\ j = j'.
Proof.
  intros Hl H1 H2. destruct (linked_place w Hl _ _ _ H1) as [E1 C1]. destruct (linked_place w Hl _ _ _ H2) as [E2 C2].
  split; [|congruence]. rewrite C1 in C2.
  destruct (item_in_cases _ _ _ _ H1) as [->|[g Hg]]; destruct (item_in_cases _ _ _ _ H2) as [->|[g' Hg']].
  - done.
  - destruct (bag_in_slot _ _ _ Hg') as [E _]. rewrite E, Hg' in C2. by rewrite Z.eqb_refl in C2.
  - destruct (bag_in_slot _ _ _ Hg) as [E _]. rewrite E, Hg in C2. by rewrite Z.eqb_refl in C2.
  - destruct (bag_in_slot _ _ _ Hg) as [E _]. destruct (bag_in_slot _ _ _ Hg') as [E' _].
    rewrite E, E', Hg, Hg' in C2. simplify_eq. by eapply bag_unique.
Qed.

(** ** One slot grows *)

(** From [w] to [w'] the slot [(b, j)] gained [d] items of entry [e]; every other
    slot holds the same stack, and the bags are worn where they were. *)
Record grown (w w' : World) (b j e d : Z) : Prop := {
  grown_else : forall b' j', (b', j') <> (b, j) -> item_in w' b' j' = item_in w b' j';
  grown_same : forall b' j' a, (b', j') <> (b, j) -> item_in w b' j' = Some a ->
    GetEntry (item_at w' a) = GetEntry (item_at w a) /\ GetCount (item_at w' a) = GetCount (item_at w a);
  grown_here : forall e', amount w' e' b j = amount w e' b j + (if e =? e' then d else 0);
  grown_bags : forall b', bag_in w' b' = bag_in w b';
  grown_sizes : forall b' g, bag_in w b' = Some g ->
    GetBagSize (item_at w' g) = GetBagSize (item_at w g) /\ item_guid (item_at w' g) = item_guid (item_at w g);
  grown_linked : linked w'
}.

(** The trace does not matter. *)
Definition core (w : World) : Player * Z * Z := (w_player w, next_address w, next_guid w).

Lemma linked_core w w' : core w = core w' -> linked w -> linked w'.
Proof.
  destruct w as [p na ng t], w' as [p' na' ng' t']. unfold core. simpl. intros [= -> -> ->] [H1 H2 H3 H4].
  by constructor.
Qed.

Lemma loose_core w w' x : core w = core w' -> loose w x -> loose w' x.
Proof.
  destruct w as [p na ng t], w' as [p' na' ng' t']. unfold core. simpl. intros [= -> -> ->] [H1 H2 H3 H4].
  by constructor.
Qed.

Lemma grown_core w w1 w2 b j e d : core w1 = core w2 -> grown w w1 b j e d -> grown w w2 b j e d.
Proof.
  intros Hc [H1 H2 H3 H4 H5 H6]. pose proof (linked_core _ _ Hc H6) as H6'. clear H6.
  destruct w1 as [p na ng t], w2 as [p' na' ng' t']. unfold core in Hc. simpl in Hc. injection Hc as -> -> ->.
  by constructor.
Qed.

(** What a change of the items leaves as it is. *)
Definition keeps_item (it it' : Item) : Prop :=
  GetEntry it' = GetEntry it /\ GetCount it' = GetCount it /\ m_slot it' = m_slot it
  /\ m_container it' = m_container it /\ item_guid it' = item_guid it /\ GetBagSize it' = GetBagSize it.

(** A loose item has been put into an empty slot. *)
Definition placed_in (w w' : World) (b j x count : Z) : Prop :=
  grown w w' b j (GetEntry (item_at w x)) count /\ item_in w' b j = Some x
  /\ forall a, GetEntry (item_at w' a) = GetEntry (item_at w a) /\ item_guid (item_at w' a) = item_guid (item_at w a).

Lemma placed_in_core w w1 w2 b j x count :
  core w1 = core w2 -> placed_in w w1 b j x count -> placed_in w w2 b j x count.
Proof.
  intros Hc (G & I & F). assert (w_player w1 = w_player w2) as Hp by (unfold core in Hc; congruence).
  split_and!; [by eapply grown_core|unfold item_in; by rewrite <- Hp|].
  intros a. unfold item_at at 1 3. rewrite <- Hp. apply F.
Qed.

Lemma put_grown w w' b j x :
  linked w -> loose w x -> item_in w b j = None ->
  (forall b' j', item_in w' b' j' = if (b' =? b) && (j' =? j) then Some x else item_in w b' j') ->
  (forall b', bag_in w' b' = bag_in w b') ->
  (forall a, a <> x -> keeps_item (item_at w a) (item_at w' a)) ->
  GetEntry (item_at w' x) = GetEntry (item_at w x) -> item_guid (item_at w' x) = item_guid (item_at w x) ->
  GetBagSize (item_at w' x) = GetBagSize (item_at w x) -> m_slot (item_at w' x) = j ->
  m_container (item_at w' x) = (if b =? INVENTORY_SLOT_BAG_0 then None else bag_in w b) ->
  next_address w' = next_address w -> next_guid w' = next_guid w ->
  placed_in w w' b j x (GetCount (item_at w' x)).
Proof.
  intros Hl Hx Hempty Hin Hbag Hkeep He Hg Hs Hsl Hco Hna Hng.
  assert (forall b' j', (b', j') <> (b, j) -> item_in w' b' j' = item_in w b' j') as Helse.
  { intros b' j' Hne. rewrite Hin. destruct (Z.eqb_spec b' b) as [->|]; [|done].
    destruct (Z.eqb_spec j' j) as [->|]; done. }
  assert (forall b' j' a, item_in w b' j' = Some a -> a <> x) as Hnx.
  { intros b' j' a Ha ->. by apply (loose_nowhere w x Hx) in Ha. }
  assert (item_in w' b j = Some x) as Hhere by (rewrite Hin, !Z.eqb_refl; done).
  split_and!; [|done|].
  2: { intros a. destruct (Z.eq_dec a x) as [->|Ha]; [done|]. by destruct (Hkeep a Ha) as (? & _ & _ & _ & ? & _). }
  constructor; [done| | |done| |].
  - intros b' j' a _ Ha. apply Hnx in Ha. destruct (Hkeep a Ha) as (? & ? & _). done.
  - intros e'. unfold amount. rewrite Hhere, Hempty, He. by destruct (_ =? e').
  - intros b' g Hb. apply bag_in_slot in Hb as [_ Hb]. apply Hnx in Hb. by destruct (Hkeep g Hb) as (_ & _ & _ & _ & ? & ?).
  - constructor.
    + intros b' j' a. rewrite Hin, Hbag. destruct (Z.eqb_spec b' b) as [->|]; simpl.
      1: destruct (Z.eqb_spec j' j) as [->|].
      1: { intros [= <-]. done. }
      all: intros Ha; destruct (Hkeep a (Hnx _ _ _ Ha)) as (_ & _ & -> & -> & _); by apply (linked_place w Hl).
    + intros b' j' a. rewrite Hin, Hna. destruct (_ && _); [intros [= <-]; apply Hx|apply (linked_old w Hl)].
    + intros b' j' a n. rewrite Hin, Hng. destruct (_ && _).
      * intros [= <-] Hn. rewrite Hg. by apply (loose_fresh w x Hx).
      * intros Ha Hn. destruct (Hkeep a (Hnx _ _ _ Ha)) as (_ & _ & _ & _ & -> & _). by eapply (linked_guid w Hl).
    + intros a. destruct (Z.eq_dec a x) as [->|Ha]; [rewrite Hs; apply Hl|].
      destruct (Hkeep a Ha) as (_ & _ & _ & _ & _ & ->). apply Hl.
Qed.

(** An empty slot of the player. *)
Lemma item_in_set_slot w j x b' j' :
  holds_item j = true -> IsBagPos (position INVENTORY_SLOT_BAG_0 j) = false -> in_u 8 j ->
  let w' := set_slot j (Some x) w in
  item_in w' b' j' = (if (b' =? INVENTORY_SLOT_BAG_0) && (j' =? j) then Some x else item_in w b' j')
  /\ bag_in w' b' = bag_in w b'.
Proof.
  intros Hh Hp Hj w'.
  assert (forall k, bag_in w' k = bag_in w k) as Hb.
  { intros k. unfold bag_in, GetBagByPos. destruct (_ || _) eqn:E; [|done].
    unfold InventoryItem. simpl. unfold update. destruct (Z.eqb_spec k j) as [->|]; [|done]. exfalso.
    unfold IsBagPos in Hp. rewrite position_bag, position_slot in Hp by done. simpl in Hp.
    change (u8 INVENTORY_SLOT_BAG_0 =? INVENTORY_SLOT_BAG_0) with true in Hp. simpl in Hp. congruence. }
  split; [|apply Hb]. unfold item_in, GetItemByPos. fold (bag_in w' b') (bag_in w b'). rewrite Hb. simpl.
  unfold update. destruct (Z.eqb_spec b' INVENTORY_SLOT_BAG_0) as [->|]; simpl; [|done].
  destruct (Z.eqb_spec j' j) as [->|]; [by rewrite Hh|]. by destruct (holds_item j').
Qed.

(** A slot of a worn bag. *)
Lemma item_in_set_bagslot w b g j x b' j' :
  linked w -> bag_in w b = Some g -> 0 <= j < GetBagSize (item_at w g) ->
  let w' := modify g (fun bag => set_bagslot (update (m_bagslot bag) j (Some x)) bag) w in
  item_in w' b' j' = (if (b' =? b) && (j' =? j) then Some x else item_in w b' j') /\ bag_in w' b' = bag_in w b'.
Proof.
  intros Hl Hg Hj w'.
  assert (forall k, bag_in w' k = bag_in w k) as Hb.
  { intros k. unfold bag_in, GetBagByPos, InventoryItem, ToBag, IsBag, Template, GetTemplate. simpl.
    destruct (_ || _); [|done]. destruct (holds_item k); [|done].
    destruct (m_items (w_player w) k) as [a|]; [|done]. unfold update. by destruct (Z.eqb_spec a g) as [->|]. }
  split; [|apply Hb]. unfold item_in, GetItemByPos. fold (bag_in w' b') (bag_in w b'). rewrite Hb. simpl.
  pose proof (bag_in_slot w b g Hg) as [Hb0 _].
  destruct (Z.eqb_spec b' INVENTORY_SLOT_BAG_0) as [->|]; cbn [andb].
  - rewrite (Z.eqb_sym INVENTORY_SLOT_BAG_0 b), Hb0. cbn [andb]. destruct (holds_item j'); [done|].
    destruct (bag_in w INVENTORY_SLOT_BAG_0) as [g'|] eqn:E; [|done]. by apply bag_in_slot in E as [E _].
  - destruct (Z.eqb_spec b' b) as [->|Hne]; simpl.
    + rewrite Hg. unfold update, Bag_GetItemByPos. rewrite Z.eqb_refl. simpl.
      destruct (Z.eqb_spec j' j) as [->|]; [|done].
      unfold item_at in Hj. by rewrite (proj2 (Z.ltb_lt j (GetBagSize (memory (w_player w) g)))) by lia.
    + destruct (bag_in w b') as [g'|] eqn:E; [|done]. unfold update.
      destruct (Z.eqb_spec g' g) as [->|]; [|done]. exfalso. apply Hne. by eapply bag_unique.
Qed.

(** ** One call of _StoreItem *)
Context (IsInWorld : bool) (HasAura : list Event -> Z -> bool).

Lemma on_obtain_core bag x w : core (on_obtain S HasAura bag x w) = core w.
Proof.
  unfold on_obtain. generalize (Spells (Template S (item_at w x))) as l. intros l. revert w.
  induction l as [|sp l IH]; intros w; simpl; [done|]. rewrite IH.
  by match goal with |- context [if ?c then _ else _] => destruct c end.
Qed.

(** The bind flag does not concern the layout. *)
Definition bound (c : bool) (x : Z) (w : World) : World := if c then SetBinding x w else w.

Lemma bound_layout c x w : same_layout w (bound c x w).
Proof. destruct c; [by apply modify_layout|]. split; [done|]. done. Qed.

Lemma bound_keeps c x w a : keeps_item (item_at w a) (item_at (bound c x w) a).
Proof.
  destruct c; [|done]. unfold bound, SetBinding. rewrite item_at_modify. by destruct (Z.eqb_spec a x) as [->|].
Qed.

Lemma bound_next c x w : next_address (bound c x w) = next_address w /\ next_guid (bound c x w) = next_guid w.
Proof. by destruct c. Qed.

Lemma keeps_item_eq it it' : keeps_item it it' -> GetEntry it' = GetEntry it /\ GetBagSize it' = GetBagSize it /\ item_guid it' = item_guid it /\ GetCount it' = GetCount it.
Proof. by intros (? & ? & ? & ? & ? & ?). Qed.

Lemma put_own_grown w c j x me :
  linked w -> loose w x -> item_in w INVENTORY_SLOT_BAG_0 j = None ->
  holds_item j = true -> IsBagPos (position INVENTORY_SLOT_BAG_0 j) = false -> in_u 8 j ->
  placed_in w (modify x (fun it => set_owner me (set_place me j None it)) (set_slot j (Some x) (bound c x w)))
    INVENTORY_SLOT_BAG_0 j x (GetCount (item_at w x)).
Proof.
  intros Hl Hx He Hh Hp Hj. set (w1 := bound c x w). set (w2 := set_slot j (Some x) w1).
  set (w3 := modify x _ w2).
  assert (same_layout w2 w3) as L by (by apply modify_layout).
  pose proof (bound_layout c x w) as L1. fold w1 in L1.
  pose proof (bound_keeps c x w) as K. fold w1 in K.
  destruct (keeps_item_eq _ _ (K x)) as (Ke & Ks & Kg & Kc).
  assert (GetCount (item_at w x) = GetCount (item_at w3 x)) as ->.
  { unfold w3. rewrite item_at_modify, Z.eqb_refl. unfold w2. simpl. symmetry. apply Kc. }
  apply put_grown; try done.
  - intros b' j'. rewrite (same_layout_item _ _ _ _ L).
    destruct (item_in_set_slot w1 j x b' j' Hh Hp Hj) as [Hi _]. rewrite (same_layout_item _ _ _ _ L1) in Hi. exact Hi.
  - intros b'. rewrite (same_layout_bag _ _ _ L).
    destruct (item_in_set_slot w1 j x b' j Hh Hp Hj) as [_ Hi]. rewrite (same_layout_bag _ _ _ L1) in Hi. exact Hi.
  - intros a Ha. unfold w3. rewrite item_at_modify. apply Z.eqb_neq in Ha. rewrite Ha. apply (K a).
  - unfold w3. rewrite item_at_modify, Z.eqb_refl. apply Ke.
  - unfold w3. rewrite item_at_modify, Z.eqb_refl. apply Kg.
  - unfold w3. rewrite item_at_modify, Z.eqb_refl. apply Ks.
  - unfold w3. by rewrite item_at_modify, Z.eqb_refl.
  - unfold w3. by rewrite item_at_modify, Z.eqb_refl.
  - apply (bound_next c x w).
  - apply (bound_next c x w).
Qed.

Lemma put_bag_grown w c b g j x :
  linked w -> loose w x -> item_in w b j = None -> bag_in w b = Some g -> 0 <= j < GetBagSize (item_at w g) ->
  exists w', Bag_StoreItem g j x (bound c x w) = Some w'
    /\ placed_in w w' b j x (GetCount (item_at w x))
    /\ next_address w' = next_address w /\ next_guid w' = next_guid w.
Proof.
  intros Hl Hx He Hg Hj. set (w1 := bound c x w).
  pose proof (bound_layout c x w) as L1. fold w1 in L1.
  pose proof (bound_keeps c x w) as K. fold w1 in K.
  destruct (keeps_item_eq _ _ (K x)) as (Ke & Ks & Kg & Kc).
  pose proof (linked_sized w Hl g) as Hsz. pose proof (loose_guid w x Hx b g Hg) as Hgu.
  destruct (keeps_item_eq _ _ (K g)) as (Ge & Gs & Gg & Gc).
  destruct (bag_in_slot w b g Hg) as [Hb0 Hslot].
  assert ((x =? g) = false) as Hxg by (apply Z.eqb_neq; intros ->; by apply (loose_nowhere w g Hx) in Hslot).
  unfold Bag_StoreItem. replace (MAX_BAG_SIZE <=? j) with false by lia.
  rewrite Kg, Gg, (proj2 (Z.eqb_neq _ _) Hgu). eexists. split; [reflexivity|].
  set (w2 := modify g _ w1). set (w3 := modify x _ w2).
  split; [|split; apply (bound_next c x w)].
  assert (same_layout w2 w3) as L by (by apply modify_layout).
  assert (forall b' j', item_in w2 b' j' = (if (b' =? b) && (j' =? j) then Some x else item_in w b' j') /\ bag_in w2 b' = bag_in w b') as H2.
  { assert (linked w1) as Hl1.
    { constructor.
      - intros b' j' a. rewrite (same_layout_item _ _ _ _ L1), (same_layout_bag _ _ _ L1). intros Ha.
        destruct (K a) as (_ & _ & -> & -> & _). by apply (linked_place w Hl).
      - intros b' j' a. rewrite (same_layout_item _ _ _ _ L1). unfold w1. rewrite (proj1 (bound_next c x w)). apply (linked_old w Hl).
      - intros b' j' a n. rewrite (same_layout_item _ _ _ _ L1). unfold w1 at 1. rewrite (proj2 (bound_next c x w)).
        destruct (keeps_item_eq _ _ (K a)) as (_ & _ & -> & _). apply (linked_guid w Hl).
      - intros a. destruct (keeps_item_eq _ _ (K a)) as (_ & -> & _). apply Hl. }
    intros b' j'. rewrite <- (same_layout_bag _ _ b' L1), <- (same_layout_item _ _ b' j' L1).
    apply item_in_set_bagslot; [done|by rewrite (same_layout_bag _ _ _ L1)|by rewrite Gs]. }
  assert (GetCount (item_at w x) = GetCount (item_at w3 x)) as ->.
  { unfold w3. rewrite item_at_modify, Z.eqb_refl. unfold w2. simpl. rewrite item_at_modify, Hxg. symmetry. apply Kc. }
  apply put_grown; try done.
  - intros b' j'. rewrite (same_layout_item _ _ _ _ L). apply H2.
  - intros b'. rewrite (same_layout_bag _ _ _ L). by apply (H2 b' j).
  - intros a Ha. unfold w3, w2. rewrite !item_at_modify. apply Z.eqb_neq in Ha. rewrite Ha.
    destruct (Z.eqb_spec a g) as [->|]; apply (K _).
  - unfold w3, w2. rewrite !item_at_modify, Z.eqb_refl, Hxg. apply Ke.
  - unfold w3, w2. rewrite !item_at_modify, Z.eqb_refl, Hxg. apply Kg.
  - unfold w3, w2. rewrite !item_at_modify, Z.eqb_refl, Hxg. apply Ks.
  - unfold w3. by rewrite item_at_modify, Z.eqb_refl.
  - unfold w3. rewrite item_at_modify, Z.eqb_refl. simpl. by rewrite Hb0.
  - apply (bound_next c x w).
  - apply (bound_next c x w).
Qed.

(** A change of an item that is in no slot. *)
Lemma modify_nowhere x f w :
  (forall b j, item_in w b j <> Some x) ->
  (forall b j, item_in (modify x f w) b j = item_in w b j) /\ (forall b, bag_in (modify x f w) b = bag_in w b).
Proof.
  intros Hx.
  assert (forall b, bag_in (modify x f w) b = bag_in w b) as Hb.
  { intros b. destruct (bag_in w b) as [g|] eqn:Hg.
    - pose proof (bag_in_slot w b g Hg) as [_ Hs].
      assert (g <> x) as Hne by (intros ->; by apply Hx in Hs).
      revert Hg. unfold bag_in, GetBagByPos, InventoryItem, ToBag, IsBag, Template, GetTemplate. simpl.
      destruct (_ || _); [|done]. destruct (holds_item b); [|done].
      destruct (m_items (w_player w) b) as [a|]; [|done]. unfold update.
      destruct (Z.eqb_spec a x) as [->|]; [|done]. intros H. destruct (_ =? _) in H; [by injection H as ->|done].
    - revert Hg. unfold bag_in, GetBagByPos, InventoryItem, ToBag, IsBag, Template, GetTemplate. simpl.
      destruct (_ || _); [|done]. destruct (holds_item b) eqn:Hh; [|done].
      destruct (m_items (w_player w) b) as [a|] eqn:Ha; [|done]. unfold update.
      destruct (Z.eqb_spec a x) as [->|]; [|done]. exfalso. apply (Hx INVENTORY_SLOT_BAG_0 b).
      unfold item_in. by rewrite GetItemByPos_inventory. }
  split; [|done]. intros b j. unfold item_in, GetItemByPos. fold (bag_in (modify x f w) b) (bag_in w b). rewrite Hb.
  simpl. destruct (_ && _); [done|]. destruct (bag_in w b) as [g|] eqn:Hg; [|done].
  pose proof (bag_in_slot w b g Hg) as [_ Hs]. unfold update.
  destruct (Z.eqb_spec g x) as [->|]; [by apply Hx in Hs|done].
Qed.

(** An item without a slot keeps being without one while another slot grows. *)
Lemma loose_grown w w' b j e d x :
  loose w x -> grown w w' b j e d -> item_in w' b j <> Some x ->
  item_guid (item_at w' x) = item_guid (item_at w x) ->
  next_address w <= next_address w' -> next_guid w <= next_guid w' -> loose w' x.
Proof.
  intros Hx Hg Hne Hgu Hna Hng. constructor.
  - intros b' j'. destruct (decide ((b', j') = (b, j))) as [E|E]; [by injection E as -> ->|].
    rewrite (grown_else _ _ _ _ _ _ Hg) by done. apply Hx.
  - pose proof (loose_old w x Hx). lia.
  - intros b' g. rewrite (grown_bags _ _ _ _ _ _ Hg), Hgu. intros Hb.
    destruct (grown_sizes _ _ _ _ _ _ Hg _ _ Hb) as [_ ->]. by eapply loose_guid.
  - intros n Hn. rewrite Hgu. apply (loose_fresh w x Hx). lia.
Qed.

(** A stack grows. *)
Lemma merge_grown w pos bag b j y x count clone upd :
  linked w -> item_in w b j = Some y ->
  0 <= count -> in_u 32 (GetCount (item_at w y) + count) ->
  let w' := merge_item S IsInWorld HasAura pos bag y x count clone upd w in
  grown w w' b j (GetEntry (item_at w y)) count
  /\ (forall a, item_guid (item_at w' a) = item_guid (item_at w a) /\ GetEntry (item_at w' a) = GetEntry (item_at w a))
  /\ item_in w' b j = Some y /\ next_address w' = next_address w /\ next_guid w' = next_guid w.
Proof.
  intros Hl Hy Hc Hsum w'.
  set (w1 := bound (binds S (item_at w y) pos) y w).
  set (w2 := SetCount (u32 (GetCount (item_at w1 y) + count)) y w1).
  set (w3 := if clone then w2 else modify x (set_owner (GetGUID (w_player w2))) w2).
  assert (core w3 = core w') as Hcore.
  { unfold w', merge_item. rewrite on_obtain_core. fold (bound (binds S (item_at w y) pos) y w). fold w1 w2.
    unfold w3. destruct (IsInWorld && upd), clone; done. }
  pose proof (bound_keeps (binds S (item_at w y) pos) y w) as K. fold w1 in K.
  assert (forall a, GetEntry (item_at w3 a) = GetEntry (item_at w a) /\ m_slot (item_at w3 a) = m_slot (item_at w a)
    /\ m_container (item_at w3 a) = m_container (item_at w a) /\ item_guid (item_at w3 a) = item_guid (item_at w a)
    /\ GetBagSize (item_at w3 a) = GetBagSize (item_at w a)
    /\ m_bagslot (item_at w3 a) = m_bagslot (item_at w1 a)
    /\ GetCount (item_at w3 a) = if a =? y then GetCount (item_at w y) + count else GetCount (item_at w a)) as F.
  { intros a. destruct (K a) as (Ke & Kc & Ks & Kco & Kg & Kz).
    assert (GetCount (item_at w1 y) = GetCount (item_at w y)) as Kcy by apply (K y).
    unfold w3, w2, SetCount. destruct clone; rewrite ?item_at_modify.
    - destruct (Z.eqb_spec a y) as [->|]; simpl; [rewrite Kcy, wrap_id by done|]; done.
    - destruct (Z.eqb_spec a x) as [->|]; [destruct (Z.eqb_spec x y) as [->|]|destruct (Z.eqb_spec a y) as [->|]];
        simpl; rewrite ?item_at_modify, ?Z.eqb_refl; simpl; rewrite ?Kcy, ?wrap_id by done; try done.
      all: rewrite ?(proj2 (Z.eqb_neq _ _) n); done. }
  assert (same_layout w w3) as L.
  { split; [unfold w3, w2, w1; destruct clone, (binds S (item_at w y) pos); done|]. intros a.
    destruct (F a) as (Fe & _ & _ & _ & Fz & Fb & _). rewrite Fe, Fz, Fb. split_and!; [done..|].
    destruct (bound_layout (binds S (item_at w y) pos) y w) as [_ L1]. apply L1. }
  assert (item_in w3 b j = Some y) as Hy3 by (by rewrite (same_layout_item _ _ _ _ L)).
  assert (forall b' j' a, (b', j') <> (b, j) -> item_in w b' j' = Some a -> (a =? y) = false) as Hother.
  { intros b' j' a Hne Ha. apply Z.eqb_neq. intros ->. apply Hne.
    destruct (item_unique w b' j' b j y Hl Ha Hy) as [-> ->]. done. }
  assert (next_address w3 = next_address w /\ next_guid w3 = next_guid w) as [Hna Hng].
  { unfold w3, w2, w1. destruct clone, (binds S (item_at w y) pos); done. }
  assert (grown w w3 b j (GetEntry (item_at w y)) count) as G.
  { constructor.
    - intros b' j' _. by apply same_layout_item.
    - intros b' j' a Hne Ha. destruct (F a) as (Fe & _ & _ & _ & _ & _ & Fc).
      by rewrite (Hother _ _ _ Hne Ha) in Fc.
    - intros e'. unfold amount. rewrite Hy3, Hy. destruct (F y) as (-> & _ & _ & _ & _ & _ & ->).
      rewrite Z.eqb_refl. by destruct (_ =? e').
    - intros b'. by apply same_layout_bag.
    - intros b' g _. destruct (F g) as (_ & _ & _ & -> & -> & _). done.
    - constructor.
      + intros b' j' a. rewrite (same_layout_item _ _ _ _ L), (same_layout_bag _ _ _ L).
        destruct (F a) as (_ & -> & -> & _). apply (linked_place w Hl).
      + intros b' j' a. rewrite (same_layout_item _ _ _ _ L), Hna. apply (linked_old w Hl).
      + intros b' j' a n. rewrite (same_layout_item _ _ _ _ L), Hng. destruct (F a) as (_ & _ & _ & -> & _).
        apply (linked_guid w Hl).
      + intros a. destruct (F a) as (_ & _ & _ & _ & -> & _). apply Hl. }
  assert (w_player w3 = w_player w') as Hp by (unfold core in Hcore; congruence).
  split_and!.
  - by eapply grown_core.
  - intros a. unfold item_at. rewrite <- Hp. destruct (F a) as (? & _ & _ & ? & _). done.
  - unfold item_in. rewrite <- Hp. exact Hy3.
  - unfold core in Hcore. congruence.
  - unfold core in Hcore. congruence.
Qed.

(** ** New items *)

(** The template of the items to create, as the loader leaves it. *)
Definition creatable (e : Z) (p : ItemTemplate) : Prop :=
  GetItemTemplate S e = Some p /\ ContainerSlots p <= MAX_BAG_SIZE /\ 0 < GetMaxStackSize p.

Lemma make_guid_inj n m : 0 <= n < 2 ^ 32 -> 0 <= m < 2 ^ 32 -> make_guid n = make_guid m -> n = m.
Proof.
  intros Hn Hm. unfold make_guid. rewrite !lor_shift_add; [lia|lia| |lia|];
    (split; [lia|]; eapply Z.lt_trans; [apply Hn || apply Hm|done]).
Qed.

(** [fresh_world]: the world after an allocation. *)
Record created (w w' : World) (x e count : Z) : Prop := {
  created_new : x = next_address w;
  created_entry : GetEntry (item_at w' x) = e;
  created_count : GetCount (item_at w' x) = count;
  created_else : forall a, a <> x -> item_at w' a = item_at w a;
  created_slots : forall b j, item_in w' b j = item_in w b j;
  created_bags : forall b, bag_in w' b = bag_in w b;
  created_linked : linked w';
  created_loose : loose w' x;
  created_next : next_address w' = next_address w + 1 /\ next_guid w' = next_guid w + 1
}.

Lemma CreateItem_creates e p count w :
  creatable e p -> 0 < count <= GetMaxStackSize p -> linked w -> 0 <= next_guid w < 0xFFFFFFFE ->
  exists w', CreateItem S e count w = Some (Some (next_address w), w') /\ created w w' (next_address w) e count.
Proof.
  intros (Hp & Hsz & Hmax) Hc Hl Hg. unfold CreateItem. rewrite Hp.
  replace (count <? 1) with false by lia. replace (GetMaxStackSize p <? count) with false by lia.
  replace (count =? 0) with false by lia. replace (0xFFFFFFFE <=? next_guid w) with false by lia.
  replace ((InventoryType p =? INVTYPE_BAG) && (MAX_BAG_SIZE <? ContainerSlots p)) with false
    by (destruct (_ =? INVTYPE_BAG); simpl; lia).
  eexists. split; [reflexivity|]. set (x := next_address w).
  set (w0 := mkWorld _ _ _ _). set (w1 := modify x _ w0). set (w2 := SetCount count x w1).
  assert (forall b j, item_in w0 b j <> Some x) as Hx0.
  { intros b j H. apply (linked_old w Hl) in H. unfold x in H. lia. }
  destruct (modify_nowhere x (fun _ => new_item p e (GetGUID (w_player w0)) (next_guid w)) w0 Hx0) as [I1 B1].
  fold w1 in I1, B1.
  assert (forall b j, item_in w1 b j <> Some x) as Hx1 by (intros b j; rewrite I1; apply Hx0).
  destruct (modify_nowhere x (set_count count) w1 Hx1) as [I2 B2]. fold (SetCount count x) in I2, B2. fold w2 in I2, B2.
  assert (forall b j, item_in w2 b j = item_in w b j) as I by (intros; by rewrite I2, I1).
  assert (forall b, bag_in w2 b = bag_in w b) as B by (intros; by rewrite B2, B1).
  assert (item_at w2 x = set_count count (new_item p e (GetGUID (w_player w0)) (next_guid w))) as Ex.
  { unfold w2, SetCount. rewrite item_at_modify, Z.eqb_refl. unfold w1. by rewrite item_at_modify, Z.eqb_refl. }
  assert (forall a, a <> x -> item_at w2 a = item_at w a) as Ea.
  { intros a Ha. apply Z.eqb_neq in Ha. unfold w2, SetCount, w1. by rewrite !item_at_modify, Ha. }
  assert (forall b j a, item_in w b j = Some a -> a <> x) as Hne by (intros b j a Ha ->; by apply Hx0 in Ha).
  constructor; try done; try (by rewrite Ex).
  - constructor.
    + intros b j a. rewrite I, B. intros Ha. rewrite (Ea a (Hne _ _ _ Ha)). by apply (linked_place w Hl).
    + intros b j a. rewrite I. intros Ha. apply (linked_old w Hl) in Ha. simpl. lia.
    + intros b j a n. rewrite I. intros Ha Hn. rewrite (Ea a (Hne _ _ _ Ha)). eapply (linked_guid w Hl); [done|]. simpl in Hn. lia.
    + intros a. destruct (Z.eq_dec a x) as [->|Ha]; [rewrite Ex|rewrite (Ea a Ha); apply Hl].
      simpl. unfold MAX_BAG_SIZE in *. destruct (_ =? _); lia.
  - constructor.
    + intros b j. rewrite I. apply Hx0.
    + simpl. unfold x. lia.
    + intros b g. rewrite B. intros Hb. pose proof (bag_in_slot w b g Hb) as [_ Hs].
      rewrite Ex, (Ea g (Hne _ _ _ Hs)). simpl. intros E. eapply (linked_guid w Hl _ _ _ (next_guid w) Hs); [lia|done].
    + intros n Hn. rewrite Ex. simpl. intros E. apply make_guid_inj in E; simpl in Hn; lia.
Qed.

Lemma holds_item_range j : holds_item j = true -> (PLAYER_SLOT_END <=? j) = false.
Proof.
  unfold holds_item, PLAYER_SLOT_END, BANK_SLOT_BAG_END, KEYRING_SLOT_START, CURRENCYTOKEN_SLOT_END. lia.
Qed.

(** [put_item] puts the item there. *)
Lemma put_item_places b j x upd w :
  linked w -> loose w x -> in_u 8 b -> in_u 8 j -> storable w b j -> item_in w b j = None ->
  exists w', put_item S IsInWorld HasAura (position b j) b j x upd w = Some w'
    /\ placed_in w w' b j x (GetCount (item_at w x))
    /\ next_address w' = next_address w /\ next_guid w' = next_guid w.
Proof.
  intros Hl Hx Hb Hj Hst He. unfold put_item. fold (bound (binds S (item_at w x) (position b j)) x w).
  set (c := binds S (item_at w x) (position b j)). set (w1 := bound c x w).
  destruct Hst as [(-> & Hh & Hp)|(g & Hg & Hjg)].
  - rewrite Z.eqb_refl, (holds_item_range j Hh).
    pose proof (put_own_grown w c j x (GetGUID (w_player (set_slot j (Some x) w1))) Hl Hx He Hh Hp Hj) as P.
    fold w1 in P. set (w3 := modify x _ _) in *.
    assert (forall w4, core w3 = core w4 -> placed_in w w4 INVENTORY_SLOT_BAG_0 j x (GetCount (item_at w x))
      /\ next_address w4 = next_address w /\ next_guid w4 = next_guid w) as Hfin.
    { intros w4 Hc. split; [by eapply placed_in_core|]. pose proof (bound_next c x w) as [N1 N2].
      unfold core in Hc. injection Hc as _ <- <-. done. }
    eexists. split; [reflexivity|]. apply Hfin. rewrite on_obtain_core.
    repeat match goal with |- context [if ?d then _ else _] => destruct d end; done.
  - destruct (bag_in_slot w b g Hg) as [Hb0 _]. rewrite Hb0.
    assert (GetBagByPos S (w_player w1) b = Some g) as ->.
    { pose proof (same_layout_bag w w1 b (bound_layout c x w)) as E. unfold bag_in in E. by rewrite E. }
    destruct (put_bag_grown w c b g j x Hl Hx He Hg Hjg) as (w3 & E3 & P & N). fold w1 in E3. rewrite E3.
    assert (forall w4, core w3 = core w4 -> placed_in w w4 b j x (GetCount (item_at w x))
      /\ next_address w4 = next_address w /\ next_guid w4 = next_guid w) as Hfin.
    { intros w4 Hc. split; [by eapply placed_in_core|]. unfold core in Hc. injection Hc as _ <- <-. done. }
    eexists. split; [reflexivity|]. apply Hfin. rewrite on_obtain_core.
    repeat match goal with |- context [if ?d then _ else _] => destruct d end; done.
Qed.

(** Growth from a world with the same storage. *)
Lemma grown_from w w1 w' b j e d :
  (forall b j, item_in w1 b j = item_in w b j) -> (forall b, bag_in w1 b = bag_in w b) ->
  (forall b j a, item_in w b j = Some a -> item_at w1 a = item_at w a) ->
  grown w1 w' b j e d -> grown w w' b j e d.
Proof.
  intros HI HB HA [H1 H2 H3 H4 H5 H6]. constructor; [| | | | |done].
  - intros b' j' Hne. by rewrite H1, HI.
  - intros b' j' a Hne Ha. rewrite <- (HA _ _ _ Ha). apply (H2 b' j'); [done|by rewrite HI].
  - intros e'. rewrite H3. f_equal. unfold amount. rewrite HI.
    destruct (item_in w b j) as [a|] eqn:Ha; [by rewrite (HA _ _ _ Ha)|done].
  - intros b'. by rewrite H4, HB.
  - intros b' g Hg. pose proof (bag_in_slot w b' g Hg) as [_ Hs]. rewrite <- (HA _ _ _ Hs). apply (H5 b'). by rewrite HB.
Qed.

Lemma grown_refl w b j e : linked w -> grown w w b j e 0.
Proof. intros Hl. constructor; try done. intros e'. destruct (e =? e'); lia. Qed.

Lemma grown_zero w w' b j e e' : grown w w' b j e 0 -> grown w w' b j e' 0.
Proof.
  intros [H1 H2 H3 H4 H5 H6]. constructor; try done. intros e2. rewrite H3. by destruct (e =? e2), (e' =? e2).
Qed.

(** ** Storing at one position *)
Lemma created_modify w w1 y e count f :
  (forall it, GetEntry (f it) = GetEntry it /\ GetCount (f it) = GetCount it /\ item_guid (f it) = item_guid it
     /\ GetBagSize (f it) = GetBagSize it) ->
  created w w1 y e count -> created w (modify y f w1) y e count.
Proof.
  intros Hf [H1 H2 H3 H4 H5 H6 H7 H8 H9].
  destruct (modify_nowhere y f w1 (loose_nowhere _ _ H8)) as [HI HB].
  assert (item_at (modify y f w1) y = f (item_at w1 y)) as Ey by (rewrite item_at_modify, Z.eqb_refl; done).
  assert (forall a, a <> y -> item_at (modify y f w1) a = item_at w1 a) as Ea.
  { intros a Ha. apply Z.eqb_neq in Ha. by rewrite item_at_modify, Ha. }
  assert (forall b j a, item_in w1 b j = Some a -> a <> y) as Hne.
  { intros b j a Ha ->. by apply (loose_nowhere _ _ H8) in Ha. }
  destruct (Hf (item_at w1 y)) as (F1 & F2 & F3 & F4).
  constructor; try done; try (rewrite Ey; congruence).
  - intros a Ha. by rewrite Ea, H4.
  - intros b j. by rewrite HI.
  - intros b. by rewrite HB.
  - constructor.
    + intros b j a. rewrite HI, HB. intros Ha. rewrite (Ea _ (Hne _ _ _ Ha)). by apply (linked_place _ H7).
    + intros b j a. rewrite HI. apply (linked_old _ H7).
    + intros b j a n. rewrite HI. intros Ha. rewrite (Ea _ (Hne _ _ _ Ha)). by eapply (linked_guid _ H7).
    + intros a. destruct (Z.eq_dec a y) as [->|Ha]; [rewrite Ey, F4|rewrite Ea by done]; apply H7.
  - constructor; [|apply H8| |].
    + intros b j. rewrite HI. apply H8.
    + intros b g. rewrite HB. intros Hg. pose proof (bag_in_slot w1 b g Hg) as [_ Hs].
      rewrite Ey, F3, (Ea g (Hne _ _ _ Hs)). by eapply (loose_guid _ _ H8).
    + intros n Hn. rewrite Ey, F3. by apply (loose_fresh _ _ H8).
Qed.

(** The trace of the clone does not matter to what follows. *)
Lemma created_log w w' x e count es : created w w' x e count -> created w (log es w') x e count.
Proof.
  intros [H1 H2 H3 H4 H5 H6 H7 H8 H9]. constructor; try done; [by apply (linked_core w')|by apply (loose_core w')].
Qed.

Lemma CloneItem_creates e p count x w :
  GetEntry (item_at w x) = e -> creatable e p -> 0 < count <= GetMaxStackSize p -> linked w ->
  0 <= next_guid w < 0xFFFFFFFE ->
  exists w', CloneItem S count x w = Some (Some (next_address w), w') /\ created w w' (next_address w) e count.
Proof.
  intros <- Hp Hc Hl Hg. destruct (CreateItem_creates _ p count w Hp Hc Hl Hg) as (w1 & E & C).
  unfold CloneItem. rewrite E. eexists. split; [reflexivity|].
  by apply created_log, created_modify.
Qed.

(** The number of items a position may still take. *)
Definition takes_more (w : World) (b j e max count : Z) : Prop :=
  0 <= count <= max
  /\ forall y, item_in w b j = Some y ->
     (count = 0 \/ GetEntry (item_at w y) = e) /\ in_u 32 (GetCount (item_at w y) + count).

Lemma loose_set_count count x w : linked w -> loose w x ->
  (forall b j, item_in (SetCount count x w) b j = item_in w b j) /\ (forall b, bag_in (SetCount count x w) b = bag_in w b)
  /\ (forall b j a, item_in w b j = Some a -> item_at (SetCount count x w) a = item_at w a)
  /\ linked (SetCount count x w) /\ loose (SetCount count x w) x.
Proof.
  intros Hl Hx. destruct (modify_nowhere x (set_count count) w (loose_nowhere w x Hx)) as [HI HB].
  fold (SetCount count x w) in HI, HB.
  assert (forall b j a, item_in w b j = Some a -> item_at (SetCount count x w) a = item_at w a) as Ea.
  { intros b j a Ha. unfold SetCount. rewrite item_at_modify. destruct (Z.eqb_spec a x) as [->|]; [|done].
    by apply (loose_nowhere w x Hx) in Ha. }
  split_and!; try done.
  - constructor.
    + intros b j a. rewrite HI, HB. intros Ha. rewrite (Ea b j a Ha). by apply (linked_place _ Hl).
    + intros b j a. rewrite HI. apply (linked_old _ Hl).
    + intros b j a n. rewrite HI. intros Ha. rewrite (Ea b j a Ha). by eapply (linked_guid _ Hl).
    + intros a. unfold SetCount. rewrite item_at_modify. destruct (Z.eqb_spec a x) as [->|]; apply Hl.
  - constructor; [|apply Hx| |].
    + intros b j. rewrite HI. apply Hx.
    + intros b g. rewrite HB. intros Hg. pose proof (bag_in_slot w b g Hg) as [_ Hs]. rewrite (Ea _ _ _ Hs).
      unfold SetCount. rewrite item_at_modify, Z.eqb_refl. by eapply (loose_guid _ _ Hx).
    + intros n Hn. unfold SetCount. rewrite item_at_modify, Z.eqb_refl. by apply (loose_fresh _ _ Hx).
Qed.

Lemma store_step b j x e p count clone upd w :
  creatable e p -> linked w -> loose w x -> GetEntry (item_at w x) = e -> in_u 8 b -> in_u 8 j -> storable w b j ->
  takes_more w b j e (GetMaxStackSize p) count -> 0 <= next_guid w < 0xFFFFFFFE ->
  exists r w', _StoreItem S IsInWorld HasAura (position b j) (Some x) count clone upd w = Some (r, w')
    /\ grown w w' b j e count
    /\ (clone = true -> loose w' x /\ GetEntry (item_at w' x) = e)
    /\ next_guid w <= next_guid w' <= next_guid w + 1 /\ (clone = false -> is_Some r).
Proof.
  intros Hp Hl Hx Hxe Hb Hj Hst [Hc Htake] Hg. unfold _StoreItem.
  rewrite position_bag, position_slot, wrap_id by done. fold (item_in w b j).
  destruct (item_in w b j) as [y|] eqn:Hy.
  - destruct (Htake y eq_refl) as [Hey Hsum].
    destruct (merge_grown w (position b j) b b j y x count clone upd Hl Hy (proj1 Hc) Hsum) as (G & F & I & Na & Ng).
    set (w' := merge_item _ _ _ _ _ _ _ _ _ _ _) in *. exists (Some y), w'. split_and!; [done| | |lia|lia|done].
    + destruct Hey as [->|<-]; [by eapply grown_zero|done].
    + intros _. destruct (F x) as [F1 F2]. split; [|congruence].
      eapply loose_grown; [done|done| |done|lia|lia]. rewrite I. intros [= ->]. by apply (loose_nowhere w x Hx) in Hy.
  - destruct clone.
    + destruct (decide (count = 0)) as [->|Hc0].
      { unfold CloneItem, CreateItem. replace (0 <? 1) with true by done. exists None, w.
        split_and!; [done|by apply grown_refl|done|lia|lia|done]. }
      destruct (CloneItem_creates e p count x w Hxe Hp ltac:(lia) Hl Hg) as (w1 & -> & C).
      destruct (put_item_places b j (next_address w) upd w1) as (w' & E & (G & I & F) & Na & Ng);
        [apply C|apply C|done|done| |by rewrite (created_slots _ _ _ _ _ C)|].
      { destruct Hst as [Hst|(g & Hbg & Hjg)]; [by left|right]. exists g. rewrite (created_bags _ _ _ _ _ C).
        split; [done|]. pose proof (bag_in_slot w b g Hbg) as [_ Hs]. apply (linked_old w Hl) in Hs.
        rewrite (created_else _ _ _ _ _ C) by lia. done. }
      rewrite E. exists (Some (next_address w)), w'. rewrite (created_entry _ _ _ _ _ C), (created_count _ _ _ _ _ C) in G.
      assert (grown w w' b j e count) as G'.
      { eapply grown_from; [apply C|apply C| |done]. intros b' j' a Ha. apply (created_else _ _ _ _ _ C).
        apply (linked_old w Hl) in Ha. lia. }
      pose proof (loose_old w x Hx) as Hxo. destruct (created_next _ _ _ _ _ C) as [N1 N2].
      assert (item_at w1 x = item_at w x) as Ex by (apply (created_else _ _ _ _ _ C); lia).
      split_and!; [done|done| |lia|lia|done]. intros _. destruct (F x) as [F1 F2]. rewrite Ex in F1, F2.
      split; [|congruence]. eapply loose_grown; [done|done| |done|lia|lia]. rewrite I. intros [= ?]. lia.
    + destruct (loose_set_count count x w Hl Hx) as (HI & HB & HA & Hl' & Hx').
      destruct (put_item_places b j x upd (SetCount count x w)) as (w' & E & (G & I & F) & Na & Ng);
        [done|done|done|done| |by rewrite HI|].
      { destruct Hst as [Hst|(g & Hbg & Hjg)]; [by left|right]. exists g. rewrite HB. split; [done|].
        pose proof (bag_in_slot w b g Hbg) as [_ Hs]. by rewrite (HA _ _ _ Hs). }
      rewrite E. exists (Some x), w'. split_and!; [done| |done|simpl in Ng; lia|simpl in Ng; lia|done].
      eapply grown_from; [done|done|done|].
      unfold SetCount in G at 2 3. rewrite !item_at_modify, !Z.eqb_refl in G. simpl in G. by rewrite Hxe in G.
Qed.

(** ** Storing at all positions *)
Lemma sum_over_point f g l k d :
  NoDup l -> k ∈ l -> (forall x, x ∈ l -> g x = f x + if x =? k then d else 0) -> sum_over g l = sum_over f l + d.
Proof.
  intros Hn. induction Hn as [|x l Hx Hn IH]; intros Hk H; [set_solver|]. simpl.
  rewrite (H x) by set_solver. apply elem_of_cons in Hk as [->|Hk].
  - rewrite Z.eqb_refl. enough (sum_over g l = sum_over f l) by (unfold sum_over in *; lia).
    clear IH. induction l as [|y l IHl]; [done|]. simpl. rewrite (H y) by set_solver.
    replace (y =? x) with false by (symmetry; apply Z.eqb_neq; intros ->; apply Hx; set_solver).
    apply NoDup_cons in Hn as [_ Hn]. unfold sum_over in *. rewrite IHl; [lia|set_solver|done|].
    intros z Hz. apply H. set_solver.
  - replace (x =? k) with false by (symmetry; apply Z.eqb_neq; intros ->; done).
    enough (sum_over g l = sum_over f l + d) by (unfold sum_over in *; lia).
    apply IH; [done|]. intros y Hy. apply H. set_solver.
Qed.

Lemma held_grown w w' b j e d e' :
  grown w w' b j e d -> in_u 8 b -> in_u 8 j -> held w' e' = held w e' + if e =? e' then d else 0.
Proof.
  intros G Hb Hj. unfold held. apply (sum_over_point _ _ _ (position b j)); [apply NoDup_seqZ| |].
  - apply elem_of_seqZ. rewrite position_add by done. unfold in_u in *. norm_pow. lia.
  - intros pos Hpos. destruct (position_split pos) as [Hsp Hjp].
    destruct (Z.eqb_spec pos (position b j)) as [->|Hne].
    + rewrite position_bag, position_slot by done. apply (grown_here _ _ _ _ _ _ G).
    + assert ((Z.shiftr pos 8, Z.land pos 255) <> (b, j)) as Hpair.
      { intros [= E1 E2]. apply Hne. by rewrite Hsp, E1, E2. }
      unfold amount. rewrite (grown_else _ _ _ _ _ _ G _ _ Hpair).
      destruct (item_in w _ _) as [a|] eqn:Ha; [|lia].
      destruct (grown_same _ _ _ _ _ _ G _ _ _ Hpair Ha) as [-> ->]. lia.
Qed.

Lemma held_same w w' :
  (forall b j, item_in w' b j = item_in w b j) ->
  (forall b j a, item_in w b j = Some a -> GetEntry (item_at w' a) = GetEntry (item_at w a)
     /\ GetCount (item_at w' a) = GetCount (item_at w a)) ->
  forall e, held w' e = held w e.
Proof.
  intros HI HA e. unfold held.
  assert (forall l, sum_over (fun pos => amount w' e (Z.shiftr pos 8) (Z.land pos 255)) l
    = sum_over (fun pos => amount w e (Z.shiftr pos 8) (Z.land pos 255)) l) as H; [|apply H].
  intros l. induction l as [|pos l IH]; [done|]. simpl. f_equal; [|exact IH].
  unfold amount. rewrite HI. destruct (item_in w _ _) as [a|] eqn:Ha; [|done].
  by destruct (HA _ _ _ Ha) as [-> ->].
Qed.

#[local] Opaque held.

(** A [dest] entry that can be stored. *)
Definition storable_entry (w : World) (e max : Z) (i : ItemPosCount) : Prop :=
  exists b j, ipc_pos i = position b j /\ in_u 8 b /\ in_u 8 j /\ storable w b j
    /\ takes_more w b j e max (ipc_count i).

Lemma storable_entry_grown w w' b j e0 d e max i :
  grown w w' b j e0 d -> in_u 8 j -> ipc_pos i <> position b j -> storable_entry w e max i -> storable_entry w' e max i.
Proof.
  intros G Hj Hne (b' & j' & Hpos & Hb' & Hj' & Hst & Hc & Ht). exists b', j'.
  assert ((b', j') <> (b, j)) as Hpair by (intros [= -> ->]; done).
  split_and!; try done.
  - destruct Hst as [Hst|(g & Hg & Hs)]; [by left|right]. exists g.
    rewrite (grown_bags _ _ _ _ _ _ G). destruct (grown_sizes _ _ _ _ _ _ G _ _ Hg) as [-> _]. done.
  - split; [done|]. intros y. rewrite (grown_else _ _ _ _ _ _ G _ _ Hpair). intros Hy.
    destruct (grown_same _ _ _ _ _ _ G _ _ _ Hpair Hy) as [-> ->]. by apply Ht.
Qed.

Lemma StoreItem_loop_adds e p dest x last upd w :
  creatable e p -> linked w -> loose w x -> GetEntry (item_at w x) = e ->
  NoDup (map ipc_pos dest) -> Forall (storable_entry w e (GetMaxStackSize p)) dest ->
  0 <= next_guid w -> next_guid w + Z.of_nat (length dest) <= 0xFFFFFFFE ->
  exists r w', StoreItem_loop S IsInWorld HasAura dest (Some x) last upd w = Some (r, w')
    /\ linked w' /\ (is_Some last \/ dest <> [] -> is_Some r)
    /\ forall e', held w' e' = held w e' + if e =? e' then count_sum dest else 0.
Proof.
  intros Hp. revert w last. induction dest as [|i dest IH]; intros w last Hl Hx He Hn Hd Hg Hlen.
  - exists last, w. split_and!; [done|done|by intros [?|]|]. intros e'. simpl. destruct (e =? e'); lia.
  - apply Forall_cons in Hd as [(b & j & Hpos & Hb & Hj & Hst & Ht) Hd].
    apply NoDup_cons in Hn as [Hni Hn]. simpl length in Hlen.
    assert (forall clone, exists r w', _StoreItem S IsInWorld HasAura (ipc_pos i) (Some x) (ipc_count i) clone upd w = Some (r, w')
      /\ grown w w' b j e (ipc_count i) /\ (clone = true -> loose w' x /\ GetEntry (item_at w' x) = e)
      /\ next_guid w <= next_guid w' <= next_guid w + 1 /\ (clone = false -> is_Some r)) as Hstep.
    { intros clone. rewrite Hpos. apply (store_step b j x e p); try done. lia. }
    destruct dest as [|i' dest].
    + destruct (Hstep false) as (r & w' & E & G & _ & _ & Hr). exists r, w'. cbn [StoreItem_loop]. rewrite E.
      split_and!; [done|by destruct G|by intros _; apply Hr|]. intros e'. rewrite (held_grown w w' b j e (ipc_count i) e' G Hb Hj).
      simpl. destruct (e =? e'); lia.
    + destruct (Hstep true) as (r & w1 & E & G & Hkeep & Hg1 & _). destruct (Hkeep eq_refl) as [Hx1 He1].
      destruct (IH w1 r) as (r' & w' & E' & Hl' & Hr & Hh); [by destruct G|done|done|done| |lia|lia|].
      { apply Forall_forall. intros k Hk. rewrite Forall_forall in Hd.
        eapply storable_entry_grown; [done|done| |by apply Hd]. rewrite <- Hpos. intros Ek. apply Hni.
        rewrite <- Ek. apply list_elem_of_In, (in_map ipc_pos (i' :: dest)). by apply list_elem_of_In. }
      exists r', w'. split_and!; [|done|by intros _; apply Hr; right|].
      * change (StoreItem_loop S IsInWorld HasAura (i :: i' :: dest) (Some x) last upd w)
          with (match _StoreItem S IsInWorld HasAura (ipc_pos i) (Some x) (ipc_count i) true upd w with
                | Some (l, w) => StoreItem_loop S IsInWorld HasAura (i' :: dest) (Some x) l upd w
                | None => None end). by rewrite E.
      * intros e'. rewrite Hh, (held_grown w w1 b j e (ipc_count i) e' G Hb Hj).
        change (count_sum (i :: i' :: dest)) with (ipc_count i + count_sum (i' :: dest)). destruct (e =? e'); lia.
Qed.

(** ** From the search to the storage *)

(** A slot that accepts a new item can be stored into. *)
Lemma accepts_storable w p b j :
  accepts S (w_player w) p None NULL_BAG NULL_SLOT b j = true -> in_u 8 j ->
  in_u 8 b /\ storable w b j.
Proof.
  intros Ha Hj. destruct (decide (b = INVENTORY_SLOT_BAG_0)) as [->|Hb].
  - split; [done|]. left. split; [done|].
    assert (23 <= j < 39 \/ 86 <= j < 150) as Hr.
    { apply accepts_own_inv in Ha; [|done].
      unfold INVENTORY_SLOT_ITEM_START, INVENTORY_SLOT_ITEM_END, KEYRING_SLOT_START, KEYRING_SLOT_END,
        CURRENCYTOKEN_SLOT_START, CURRENCYTOKEN_SLOT_END in Ha. lia. }
    unfold holds_item, IsBagPos. rewrite position_bag, position_slot by done.
    unfold BANK_SLOT_BAG_START, BANK_SLOT_BAG_END, KEYRING_SLOT_START, CURRENCYTOKEN_SLOT_END,
      INVENTORY_SLOT_BAG_START, INVENTORY_SLOT_BAG_END. lia.
  - unfold accepts in Ha. unfold named in Ha. simpl in Ha. apply Z.eqb_neq in Hb. rewrite Hb in Ha. simpl in Ha.
    apply andb_true_iff in Ha as [Hr Ha]. destruct (takes S (w_player w) p None b) as [g|] eqn:Hg; [|done].
    assert (GetBagByPos S (w_player w) b = Some g) as Hbag.
    { unfold takes in Hg. destruct (GetBagByPos _ _ _) as [g'|]; [|done].
      destruct (GetTemplate _ _); [|done].
      match type of Hg with (if ?c then _ else _) = _ => destruct c end; by simplify_eq. }
    assert (19 <= b < 23) as Hw.
    { unfold INVENTORY_SLOT_BAG_START, INVENTORY_SLOT_BAG_END, NULL_BAG in Hr.
      destruct (Z.eqb_spec b 0) as [->|]; [by vm_compute in Hbag|lia]. }
    split; [width|]. right. exists g. split; [exact Hbag|]. unfold item_at. lia.
Qed.

(** The entries [CanStoreNewItem] finds can be stored. *)
Lemma fits_storable w p i :
  typed (w_player w) -> fits S (w_player w) p None false NULL_BAG NULL_SLOT i ->
  storable_entry w (ItemId p) (GetMaxStackSize p) i.
Proof.
  intros Ht [Ha Hs]. destruct (position_split (ipc_pos i)) as [Hpos Hj].
  unfold accepts_at, space_at in *. set (b := Z.shiftr (ipc_pos i) 8) in *. set (j := Z.land (ipc_pos i) 255) in *.
  destruct (accepts_storable w p b j Ha Hj) as [Hb Hst]. exists b, j. split_and!; try done.
  unfold takes_more. unfold space, named in Hs. simpl in Hs.
  pose proof (GetMaxStackSize_nonneg p) as Hm. unfold item_in.
  assert (other_at S (w_player w) None b j = GetItemByPos S (w_player w) b j) as E.
  { unfold other_at, other_item. case_bool_decide as H; [by rewrite H|done]. }
  rewrite E in Hs. destruct (GetItemByPos S (w_player w) b j) as [y|].
  2: { split; [lia|done]. }
  destruct (Ht y) as [Hy _]. rewrite orb_false_r in Hs.
  assert (mergeable (w_player w) p y && stackable p = true \/ ipc_count i = 0) as [Hmy|H0].
  { destruct (_ && _); [by left|right; lia]. }
  - rewrite Hmy in Hs. apply andb_true_iff in Hmy as [Hmy _]. pose proof (mergeable_room _ _ _ Hmy) as Hroom.
    split; [unfold in_u in Hy; lia|]. intros y' [= <-]. unfold item_at. split; [right|unfold in_u in *; lia].
    unfold mergeable, CanBeMergedPartlyWith in Hmy. destruct (m_lootGenerated _); [done|].
    destruct (Z.eqb_spec (GetEntry (memory (w_player w) y)) (ItemId p)); done.
  - rewrite H0. split; [lia|]. intros y' [= <-]. unfold item_at. split; [by left|]. by rewrite Z.add_0_r.
Qed.

(** What an OK of [CanStoreNewItem] gives. *)
Lemma CanStoreNewItem_places P item count p :
  typed P -> in_u 32 count -> GetItemTemplate S item = Some p ->
  let r := CanStoreNewItem S P NULL_BAG NULL_SLOT [] item count in
  sr_res r = EQUIP_ERR_OK ->
  count_sum (sr_dest r) = count /\ NoDup (map ipc_pos (sr_dest r))
  /\ Forall (fits S P p None false NULL_BAG NULL_SLOT) (sr_dest r).
Proof.
  intros Ht Hc Hp r Hok.
  destruct (CanStoreItem_cases S P NULL_BAG NULL_SLOT item None Ht ltac:(done) ltac:(done) [] count false)
    as [(_ & Hne & _)|(p' & Hp' & st & He & Hd & H0 & _)]; [by apply Hne in Hok|].
  simplify_eq. fold (CanStoreNewItem S P NULL_BAG NULL_SLOT [] item count) in Hd, H0. fold r in Hd, H0.
  destruct (H0 Hok) as [Hz Hns]. rewrite Hns, Z.sub_0_r in He.
  assert ((if negb (fst (CanTakeMoreSimilarItems S P item count None) =? EQUIP_ERR_OK) then u32 count else count) = count) as E.
  { rewrite wrap_id by done. by destruct (negb _). }
  rewrite E in He. destruct (He Hc) as (added & Ea & Sum & F & N & _). simpl in Ea, Sum.
  rewrite Hd, Ea in *. split_and!; [lia|apply N; constructor|done].
Qed.
(** ** The whole of StoreNewItem *)

Lemma count_fold dest c :
  Forall (fun i => 0 <= ipc_count i) dest -> 0 <= c -> c + count_sum dest < 2 ^ 32 ->
  fold_left (fun c e => u32 (c + ipc_count e)) dest c = c + count_sum dest.
Proof.
  intros Hd. revert c. induction Hd as [|i dest Hi Hd IH]; intros c Hc Hlt; cbn [fold_left count_sum foldr]; [lia|].
  change (count_sum (i :: dest)) with (ipc_count i + count_sum dest) in Hlt.
  assert (0 <= count_sum dest) by (clear - Hd; induction Hd; simpl; lia).
  rewrite wrap_id by (unfold in_u; lia). rewrite IH by lia. unfold count_sum. lia.
Qed.

Lemma CreateItem_clamp e p count w :
  GetItemTemplate S e = Some p -> 0 < count -> 0 < GetMaxStackSize p ->
  CreateItem S e count w = CreateItem S e (Z.min count (GetMaxStackSize p)) w.
Proof.
  intros Hp Hc Hm. unfold CreateItem. rewrite Hp.
  replace (count <? 1) with false by lia. replace (Z.min count (GetMaxStackSize p) <? 1) with false by lia.
  assert ((if GetMaxStackSize p <? Z.min count (GetMaxStackSize p) then GetMaxStackSize p else Z.min count (GetMaxStackSize p))
          = (if GetMaxStackSize p <? count then GetMaxStackSize p else count)) as ->; [|done].
  destruct (Z.ltb_spec (GetMaxStackSize p) (Z.min count (GetMaxStackSize p))),
    (Z.ltb_spec (GetMaxStackSize p) count); lia.
Qed.

(** A change that the storage does not depend on. *)
Lemma modify_linked w x f :
  (forall it, keeps_item it (f it) /\ m_bagslot (f it) = m_bagslot it) ->
  linked w -> linked (modify x f w) /\ forall e, held (modify x f w) e = held w e.
Proof.
  intros Hf Hl.
  assert (same_layout w (modify x f w)) as L.
  { apply modify_layout. intros it. destruct (Hf it) as [(? & ? & ? & ? & ? & ?) ?]. done. }
  assert (forall a, keeps_item (item_at w a) (item_at (modify x f w) a)) as K.
  { intros a. rewrite item_at_modify. destruct (Z.eqb_spec a x) as [->|]; [apply Hf|done]. }
  split.
  - constructor.
    + intros b j a. rewrite (same_layout_item _ _ _ _ L), (same_layout_bag _ _ _ L).
      destruct (K a) as (_ & _ & -> & -> & _). apply (linked_place w Hl).
    + intros b j a. rewrite (same_layout_item _ _ _ _ L). apply (linked_old w Hl).
    + intros b j a n. rewrite (same_layout_item _ _ _ _ L). destruct (K a) as (_ & _ & _ & _ & -> & _). apply (linked_guid w Hl).
    + intros a. destruct (K a) as (_ & _ & _ & _ & _ & ->). apply Hl.
  - apply held_same; [intros b j; by apply same_layout_item|]. intros b j a _. destruct (K a) as (? & ? & _). done.
Qed.

Lemma held_core w w' e : core w = core w' -> held w e = held w' e.
Proof.
  intros Hc. assert (w_player w = w_player w') as Hp by (unfold core in Hc; congruence).
  symmetry. apply held_same; unfold item_in, item_at; by rewrite Hp.
Qed.

(** The entries can be stored after the allocation as before. *)
Lemma storable_entry_created w w1 w2 x e0 c0 e max i :
  linked w -> created w w1 x e0 c0 -> core w1 = core w2 -> storable_entry w e max i -> storable_entry w2 e max i.
Proof.
  intros Hl C Hcore (b & j & Hpos & Hb & Hj & Hst & Hc & Htk).
  assert (w_player w1 = w_player w2) as Hp by (unfold core in Hcore; congruence).
  assert (forall b j a, item_in w b j = Some a -> item_at w2 a = item_at w a) as HA.
  { intros b' j' a Ha. apply (linked_old w Hl) in Ha. unfold item_at at 1. rewrite <- Hp.
    apply (created_else _ _ _ _ _ C). rewrite (created_new _ _ _ _ _ C). lia. }
  assert (forall b, bag_in w2 b = bag_in w b) as HB.
  { intros b'. unfold bag_in. rewrite <- Hp. apply (created_bags _ _ _ _ _ C). }
  assert (forall b j, item_in w2 b j = item_in w b j) as HI.
  { intros b' j'. unfold item_in. rewrite <- Hp. apply (created_slots _ _ _ _ _ C). }
  exists b, j. split_and!; try done.
  - destruct Hst as [Hst|(g & Hg & Hs)]; [by left|right]. exists g. rewrite HB.
    pose proof (bag_in_slot w b g Hg) as [_ Hgs]. by rewrite (HA _ _ _ Hgs).
  - split; [done|]. intros y. rewrite HI. intros Hy. rewrite (HA _ _ _ Hy). by apply Htk.
Qed.

(** C6: Storing new items where [CanStoreNewItem] found room for all of them
    adds exactly their number to what the player holds and leaves the numbers of
    all other items as they are; no assertion fails, and every stored item still
    knows the one slot it is in. *)
Theorem StoreNewItem_adds w item p count upd rand looters :
  linked w -> typed (w_player w) -> creatable item p -> ItemId p = item -> in_u 32 count -> 0 < count ->
  0 <= next_guid w ->
  let r := CanStoreNewItem S (w_player w) NULL_BAG NULL_SLOT [] item count in
  sr_res r = EQUIP_ERR_OK -> next_guid w + Z.of_nat (length (sr_dest r)) < 0xFFFFFFFE ->
  exists y w', StoreNewItem S IsInWorld HasAura (sr_dest r) item upd rand looters w = Some (Some y, w')
    /\ linked w' /\ forall e, held w' e = held w e + if item =? e then count else 0.
Proof.
  intros Hl Ht Hp Hid Hc Hpos Hg r Hok Hlen.
  destruct (CanStoreNewItem_places _ item count p Ht Hc (proj1 Hp) Hok) as (Sum & Hn & Hf).
  fold r in Sum, Hn, Hf. set (dest := sr_dest r) in *. clearbody dest.
  assert (Forall (storable_entry w item (GetMaxStackSize p)) dest) as Hd.
  { eapply Forall_impl; [exact Hf|]. intros i Hi. rewrite <- Hid. by apply fits_storable. }
  assert (Forall (fun i => 0 <= ipc_count i) dest) as Hge.
  { eapply Forall_impl; [exact Hf|]. intros i [_ ?]. lia. }
  unfold StoreNewItem. rewrite (count_fold dest 0 Hge) by (unfold in_u in Hc; lia). rewrite Z.add_0_l, Sum.
  rewrite (CreateItem_clamp item p count w (proj1 Hp) Hpos) by apply Hp.
  assert (0 < Z.min count (GetMaxStackSize p) <= GetMaxStackSize p) as Hmin by (destruct Hp as (_ & _ & ?); lia).
  destruct (CreateItem_creates item p _ w Hp Hmin Hl ltac:(lia)) as (w1 & -> & C).
  set (w2 := if rand =? 0 then _ else _).
  assert (core w1 = core w2) as Hcore by (unfold w2; by destruct (rand =? 0)).
  assert (w_player w1 = w_player w2 /\ next_guid w2 = next_guid w + 1) as [Hpl Hg2].
  { destruct (created_next _ _ _ _ _ C). unfold core in Hcore. split; congruence. }
  destruct (StoreItem_loop_adds item p dest (next_address w) (Some (next_address w)) upd w2) as (y & w3 & E & Hl3 & Hy & Hh).
  { exact Hp. }
  { apply (linked_core w1); [done|apply C]. }
  { apply (loose_core w1); [done|apply C]. }
  { unfold item_at. rewrite <- Hpl. apply (created_entry _ _ _ _ _ C). }
  { exact Hn. }
  { eapply Forall_impl; [exact Hd|]. intros i. by eapply (storable_entry_created w w1). }
  { lia. }
  { lia. }
  assert (forall e, held w3 e = held w e + if item =? e then count else 0) as Hheld.
  { intros e. rewrite Hh, <- (held_core w1 w2 e Hcore), Sum.
    assert (held w1 e = held w e) as ->; [|reflexivity]. apply held_same; [apply C|]. intros b j a Ha. apply (linked_old w Hl) in Ha.
    rewrite (created_else _ _ _ _ _ C) by lia. done. }
  unfold StoreItem. rewrite E. destruct Hy as [y' ->]; [by left|].
  rename y' into y.
  destruct (_ && IsSoulBound _); [|by exists y, w3].
  eexists _, _. split; [reflexivity|].
  edestruct (modify_linked w3 y) as [Hl4 Hh4]; [|exact Hl3|]; cycle 1.
  - split; [by eapply (linked_core (modify y _ w3))|]. intros e. rewrite <- Hheld, <- Hh4. by apply held_core.
  - done.
Qed.
End Layout.
(** ** A concrete player: three of item 100 in the backpack, eighteen in a bag *)
Definition demo_memory (a : Z) : Item :=
  if a =? 1 then set_place 7 23 None (sample_item 100 3 0 no_content)
  else if a =? 3 then set_place 0 0 (Some 4) (sample_item 100 18 0 no_content)
  else set_place 7 19 None (sample_item 200 1 1 (fun j => if j =? 0 then Some 3 else None)).
Definition demo_world : World :=
  mkWorld (mkPlayer 7 demo_memory (fun i => if i =? 19 then Some 4 else if i =? 23 then Some 1 else None)) 10 50 [].

Lemma demo_items b j a :
  item_in sample_stores demo_world b j = Some a ->
  (b = 255 /\ j = 19 /\ a = 4) \/ (b = 255 /\ j = 23 /\ a = 1) \/ (b = 19 /\ j = 0 /\ a = 3).
Proof.
  intros H. destruct (item_in_cases _ _ _ _ _ H) as [->|[g Hg]].
  - unfold item_in, GetItemByPos in H. rewrite Z.eqb_refl in H. simpl in H.
    destruct (holds_item j); [|by vm_compute in H].
    destruct (Z.eqb_spec j 19) as [->|]; [left; by simplify_eq|]. destruct (Z.eqb_spec j 23) as [->|]; [right; left; by simplify_eq|done].
  - rewrite (item_in_bag _ _ _ _ _ Hg) in H. apply bag_in_slot in Hg as Hs. destruct Hs as [Hb Hs].
    unfold item_in, GetItemByPos in Hs. rewrite Z.eqb_refl in Hs. simpl in Hs.
    destruct (holds_item b); [|by vm_compute in Hs].
    destruct (Z.eqb_spec b 19) as [->|].
    + injection Hs as <-. unfold Bag_GetItemByPos in H. simpl in H. destruct (j <? 1); [|done].
      destruct (Z.eqb_spec j 0) as [->|]; [right; right; by simplify_eq|done].
    + destruct (Z.eqb_spec b 23) as [->|]; [|done]. by vm_compute in Hg.
Qed.

Lemma demo_guid n : 0 <= n < 2 ^ 32 -> 0 <> make_guid n.
Proof.
  intros Hn. unfold make_guid. rewrite lor_shift_add; [change (HIGHGUID_ITEM * 2 ^ 48) with (2 ^ 62); lia|lia|].
  split; [lia|]. eapply Z.lt_trans; [apply Hn|done].
Qed.

Lemma demo_linked : linked sample_stores demo_world.
Proof.
  constructor.
  - intros b j a H. apply demo_items in H as [(-> & -> & ->)|[(-> & -> & ->)|(-> & -> & ->)]]; done.
  - intros b j a H. simpl. apply demo_items in H. lia.
  - intros b j a n H Hn. simpl in Hn.
    apply demo_items in H as [(_ & _ & ->)|[(_ & _ & ->)|(_ & _ & ->)]]; apply demo_guid; lia.
  - intros a. unfold item_at, demo_world. simpl. unfold demo_memory. destruct (a =? 1), (a =? 3); done.
Qed.

Lemma demo_typed : typed (w_player demo_world).
Proof. intros a. simpl. unfold demo_memory. destruct (a =? 1), (a =? 3); done. Qed.

Lemma StoreNewItem_adds_witness :
  let r := CanStoreNewItem sample_stores (w_player demo_world) NULL_BAG NULL_SLOT [] 100 50 in
  sr_dest r = [mkPosCount (255 * 256 + 23) 17; mkPosCount (19 * 256) 2;
               mkPosCount (255 * 256 + 24) 20; mkPosCount (255 * 256 + 25) 11]
  /\ exists y w', StoreNewItem sample_stores true (fun _ _ => false) (sr_dest r) 100 true 0 [] demo_world = Some (Some y, w')
     /\ linked sample_stores w'
     /\ forall e, held sample_stores w' e = held sample_stores demo_world e + if 100 =? e then 50 else 0.
Proof.
  split; [vm_compute; reflexivity|].
  apply (StoreNewItem_adds sample_stores true (fun _ _ => false) demo_world 100 (plain_template 100 0 20 0) 50 true 0 []);
    [apply demo_linked|apply demo_typed|done|done|done|done|done|vm_compute; reflexivity|vm_compute; reflexivity].
Defined.
End Inventory.
