(* ===== verification/LfgRoles.v ===== *)
(** * LfgRoles: the role check of the dungeon finder

    [LFGMgr::CheckGroupRoles] ([game/DungeonFinding/LFGMgr.cpp]): a backtracking
    search that removes roles from players who chose several, one at a time, and
    calls itself on what is left. The map of roles is changed in place. The
    reference is the existence of an assignment of single roles. *)
From S2P Require Import Prelude.
#[global] Open Scope Z_scope.

Module LfgRoles.

Definition PLAYER_ROLE_NONE := 0x00.
Definition PLAYER_ROLE_LEADER := 0x01.
Definition PLAYER_ROLE_TANK := 0x02.
Definition PLAYER_ROLE_HEALER := 0x04.
Definition PLAYER_ROLE_DAMAGE := 0x08.
Definition LFG_TANKS_NEEDED := 1.
Definition LFG_HEALERS_NEEDED := 1.
Definition LFG_DPS_NEEDED := 3.

(** The players in the order of their guids, with their roles. *)
Abbreviation LfgRolesMap := (list (Z * Z)).

(** [roles & ~PLAYER_ROLE_LEADER] *)
Definition without_leader (r : Z) : Z := Z.land r (255 - PLAYER_ROLE_LEADER).
Definition remove_leaders (m : LfgRolesMap) : LfgRolesMap := map (prod_map id without_leader) m.

(** One of the three blocks of the loop, for the player at [i]: either the
    function returns, or the loop goes on with the count of the role. *)
Definition try_role (again : LfgRolesMap -> bool * LfgRolesMap) (i : nat) (role needed count : Z) (m : LfgRolesMap)
    : bool * LfgRolesMap + LfgRolesMap * Z :=
  match m !! i with
  | Some (_, r) =>
      if has r role then
        if negb (r =? role) then
          match again (alter (prod_map id (fun r => r - role)) i m) with
          | (true, m) => inl (true, m)
          | (false, m) => inr (alter (prod_map id (fun r => r + role)) i m, count)
          end
        else if count =? needed then inl (false, m)
        else inr (m, count + 1)
      else inr (m, count)
  | None => inr (m, count)
  end.

(** The loop over the players from [i] on, [n] of them. *)
Fixpoint check_loop (again : LfgRolesMap -> bool * LfgRolesMap) (n i : nat) (damage tank healer : Z) (m : LfgRolesMap)
    : bool * LfgRolesMap :=
  match n with
  | O => (tank + healer + damage =? u8 (Z.of_nat (length m)), m)
  | S n =>
      match m !! i with
      | None => (false, m)
      | Some (_, r) =>
          if r =? PLAYER_ROLE_NONE then (false, m)
          else
            match try_role again i PLAYER_ROLE_DAMAGE LFG_DPS_NEEDED damage m with
            | inl r => r
            | inr (m, damage) =>
                match try_role again i PLAYER_ROLE_HEALER LFG_HEALERS_NEEDED healer m with
                | inl r => r
                | inr (m, healer) =>
                    match try_role again i PLAYER_ROLE_TANK LFG_TANKS_NEEDED tank m with
                    | inl r => r
                    | inr (m, tank) => check_loop again n (S i) damage tank healer m
                    end
                end
            end
      end
  end.

(** The recursive calls, which do not remove the leader's flag. *)
Fixpoint check_roles (fuel : nat) (groles : LfgRolesMap) : bool * LfgRolesMap :=
  match fuel with
  | O => (false, groles)
  | S fuel =>
      match groles with
      | [] => (false, groles)
      | _ => check_loop (check_roles fuel) (length groles) 0 0 0 0 groles
      end
  end.

(** Every recursive call takes a role, at least 2, from a player. *)
Definition total_roles (m : LfgRolesMap) : Z := foldr (fun p acc => snd p + acc) 0 m.

Definition CheckGroupRoles (groles : LfgRolesMap) : bool * LfgRolesMap :=
  let m := remove_leaders groles in
  check_roles (S (Z.to_nat (total_roles m))) m.

Example roles_assigned :
  CheckGroupRoles [(1, 14); (2, 9); (3, 12); (4, 8); (5, 10)]
  = (true, [(1, 2); (2, 8); (3, 4); (4, 8); (5, 8)]).
Proof. vm_compute. reflexivity. Qed.

(** Two healers. *)
Example roles_refused :
  CheckGroupRoles [(1, 4); (2, 6); (3, 4)] = (false, [(1, 4); (2, 6); (3, 4)]).
Proof. vm_compute. reflexivity. Qed.

(** ** The reference: assignments of single roles *)
Definition one_role (x : Z) : Prop := x = PLAYER_ROLE_TANK \/ x = PLAYER_ROLE_HEALER \/ x = PLAYER_ROLE_DAMAGE.

(** [x] is one of the three roles, and one that [r] holds. *)
Definition chooses (r x : Z) : Prop := one_role x /\ Z.land r x = x.

Definition players_as (role : Z) (m : LfgRolesMap) : Z := Z.of_nat (length (filter (fun p => p.2 = role) m)).

(** [m'] gives each player of [m] one of the roles chosen, and no role to more
    players than a group has places for. *)
Record fills (m m' : LfgRolesMap) : Prop := {
  fills_players : Forall2 (fun p q => p.1 = q.1 /\ chooses p.2 q.2) m m';
  fills_tanks : players_as PLAYER_ROLE_TANK m' <= LFG_TANKS_NEEDED;
  fills_healers : players_as PLAYER_ROLE_HEALER m' <= LFG_HEALERS_NEEDED;
  fills_damage : players_as PLAYER_ROLE_DAMAGE m' <= LFG_DPS_NEEDED
}.

(** There are players, and no roles but the three. *)
Definition proper (m : LfgRolesMap) : Prop := m <> [] /\ Forall (fun p => Z.land p.2 14 = p.2) m.
Definition assignable (m : LfgRolesMap) : Prop := proper m /\ exists m', fills m m'.

(** ** Roles as bits *)
Definition roles_facts (r : Z) : bool :=
  forallb (fun role =>
    implb (has r role)
      ((r - role <? r) && (2 <=? role) && (0 <=? r - role)
       && forallb (fun x => implb (Z.land (r - role) x =? x) (Z.land r x =? x)
                            && implb ((Z.land r x =? x) && negb (x =? role)) (Z.land (r - role) x =? x)) [2; 4; 8]
       && implb (Z.land r 14 =? r) (Z.land (r - role) 14 =? r - role)
       && implb (Z.land (r - role) 14 =? r - role) (Z.land r 14 =? r))) [2; 4; 8]
  && implb ((Z.land r 14 =? r) && negb (r =? 0) && negb (existsb (Z.eqb r) [2; 4; 8]))
       (forallb (fun x => existsb (fun b => has r b && negb (b =? x)) [2; 4; 8]) [2; 4; 8]).

Lemma roles_facts_hold r : in_u 8 r -> roles_facts r = true.
Proof. apply forall_u8. vm_compute. reflexivity. Qed.

Lemma one_role_in x : one_role x <-> In x [2; 4; 8].
Proof. unfold one_role, PLAYER_ROLE_TANK, PLAYER_ROLE_HEALER, PLAYER_ROLE_DAMAGE. simpl. naive_solver. Qed.

(** Removing a role that is there. *)
Lemma remove_role r role :
  in_u 8 r -> one_role role -> has r role = true ->
  2 <= role /\ 0 <= r - role < r
  /\ (forall x, chooses (r - role) x -> chooses r x)
  /\ (forall x, chooses r x -> x <> role -> chooses (r - role) x)
  /\ (Z.land r 14 = r <-> Z.land (r - role) 14 = r - role).
Proof.
  intros Hr Hrole Hhas. pose proof (roles_facts_hold r Hr) as F. unfold roles_facts in F.
  apply andb_true_iff in F as [F _]. rewrite forallb_forall in F. apply one_role_in in Hrole as Hin.
  specialize (F _ Hin). rewrite Hhas in F. cbn [implb] in F. repeat (apply andb_true_iff in F as [F ?]).
  rewrite forallb_forall in H1. rewrite !Z.ltb_lt, !Z.leb_le in *.
  split_and!; try lia.
  - intros x [Hx E]. split; [done|]. apply one_role_in in Hx. specialize (H1 _ Hx).
    rewrite (proj2 (Z.eqb_eq _ _) E) in H1. cbn [implb] in H1. apply andb_true_iff in H1 as [H1 _]. by apply Z.eqb_eq.
  - intros x [Hx E] Hne. split; [done|]. apply one_role_in in Hx. specialize (H1 _ Hx).
    apply andb_true_iff in H1 as [_ H1]. rewrite (proj2 (Z.eqb_eq _ _) E), (proj2 (Z.eqb_neq _ _) Hne) in H1.
    by apply Z.eqb_eq.
Qed.

(** Of several roles there is one to remove, whichever is chosen. *)
Lemma several_roles r x :
  in_u 8 r -> Z.land r 14 = r -> r <> 0 -> ~ one_role r -> one_role x ->
  exists b, one_role b /\ has r b = true /\ b <> x.
Proof.
  intros Hr Hv H0 Hn Hx. pose proof (roles_facts_hold r Hr) as F. unfold roles_facts in F.
  apply andb_true_iff in F as [_ F].
  rewrite (proj2 (Z.eqb_eq _ _) Hv), (proj2 (Z.eqb_neq _ _) H0) in F.
  assert (existsb (Z.eqb r) [2; 4; 8] = false) as E.
  { apply not_true_iff_false. rewrite existsb_exists. intros (y & Hy & ->%Z.eqb_eq). by apply Hn, one_role_in. }
  rewrite E in F. cbn [implb andb negb] in F. rewrite forallb_forall in F. apply one_role_in in Hx.
  specialize (F _ Hx). rewrite existsb_exists in F. destruct F as (b & Hb & F).
  apply andb_true_iff in F as [Hhas Hne]. exists b. split_and!; [by apply one_role_in|done|].
  by apply negb_true_iff, Z.eqb_neq in Hne.
Qed.

(** ** Assignments and the role removed *)
Definition take_role (role : Z) (i : nat) (m : LfgRolesMap) : LfgRolesMap := alter (prod_map id (fun r => r - role)) i m.

Definition roles_bytes (m : LfgRolesMap) : Prop := Forall (fun p => in_u 8 p.2) m.

Lemma give_back role i (m : LfgRolesMap) : alter (prod_map id (fun r => r + role)) i (take_role role i m) = m.
Proof.
  unfold take_role. rewrite list_alter_alter_eq. apply list_alter_id. intros [g r].
  unfold compose. simpl. f_equal. unfold id. lia.
Qed.

Lemma total_roles_take role i m g r :
  m !! i = Some (g, r) -> total_roles (take_role role i m) = total_roles m - role.
Proof.
  revert i. induction m as [|[g' r'] m IH]; intros [|i]; simpl; intros E; simplify_eq; [lia|].
  specialize (IH i E). unfold take_role in IH |- *. simpl in *. lia.
Qed.

Lemma total_roles_nonneg m : roles_bytes m -> 0 <= total_roles m.
Proof. induction 1 as [|[g r] m H]; simpl in *; [lia|]. destruct H. lia. Qed.

Section Take.
Context (role : Z) (i : nat) (m : LfgRolesMap) (g r : Z).
Hypothesis (Hi : m !! i = Some (g, r)) (Hm : roles_bytes m) (Hrole : one_role role) (Hhas : has r role = true).

Let Hr : in_u 8 r.
Proof. exact (proj1 (Forall_lookup _ _) Hm _ _ Hi). Qed.

Lemma take_bytes : roles_bytes (take_role role i m).
Proof.
  apply Forall_alter; [done|]. intros [g' r'] Hi'. rewrite Hi in Hi'. injection Hi' as <- <-. simpl.
  destruct (remove_role r role Hr Hrole Hhas) as (_ & ? & _). destruct Hr. unfold in_u. lia.
Qed.

Lemma take_proper : proper (take_role role i m) <-> proper m.
Proof.
  assert (take_role role i m <> [] <-> m <> []) as Hne.
  { unfold take_role. rewrite <- !length_zero_iff_nil, length_alter. done. }
  unfold proper. rewrite Hne. apply and_iff_compat_l. rewrite !Forall_lookup. destruct (remove_role r role Hr Hrole Hhas) as (_ & _ & _ & _ & V).
  split; intros H j [g' r'] Hj; destruct (decide (j = i)) as [->|Hji].
  - rewrite Hi in Hj. injection Hj as <- <-. specialize (H i (g, r - role)). apply V, H.
    unfold take_role. by rewrite list_lookup_alter_eq, Hi.
  - apply (H j). unfold take_role. by rewrite list_lookup_alter_ne.
  - unfold take_role in Hj. rewrite list_lookup_alter_eq, Hi in Hj. injection Hj as <- <-. simpl. apply V, (H i (g, r) Hi).
  - unfold take_role in Hj. rewrite list_lookup_alter_ne in Hj by done. by apply (H j).
Qed.

Lemma take_fills m' : fills (take_role role i m) m' -> fills m m'.
Proof.
  intros [Hp Ht Hh Hd]. split; try done. rewrite Forall2_lookup in Hp |- *. intros j. specialize (Hp j).
  unfold take_role in Hp. destruct (decide (j = i)) as [->|Hj]; [|by rewrite list_lookup_alter_ne in Hp].
  rewrite list_lookup_alter_eq, Hi in Hp. rewrite Hi. simpl in Hp. inversion Hp as [? q [Hg Hc]|]; subst.
  constructor. split; [done|]. by apply (remove_role r role Hr Hrole Hhas).
Qed.

Lemma take_assignable m' q : fills m m' -> m' !! i = Some q -> q.2 <> role -> fills (take_role role i m) m'.
Proof.
  intros [Hp Ht Hh Hd] Hq Hne. split; try done. rewrite Forall2_lookup in Hp |- *. intros j. specialize (Hp j).
  unfold take_role. destruct (decide (j = i)) as [->|Hj]; [|by rewrite list_lookup_alter_ne].
  rewrite list_lookup_alter_eq, Hi. rewrite Hi, Hq in Hp. simpl. inversion Hp as [? ? [Hg Hc]|]; subst. rewrite Hq.
  constructor. split; [done|]. by apply (remove_role r role Hr Hrole Hhas).
Qed.
End Take.

(** ** The search *)

(** What a call promises: an assignment if there is one, and otherwise the map
    as it was. *)
Definition answers (m : LfgRolesMap) (res : bool * LfgRolesMap) : Prop :=
  if res.1 then proper m /\ fills m res.2 else res.2 = m /\ ~ assignable m.

(** The first [i] players have single roles, counted so far, or there is no
    assignment. *)
Definition seen (i : nat) (m : LfgRolesMap) : Prop :=
  Forall (fun p => one_role p.2) (take i m) \/ ~ assignable m.
Record counts (i : nat) (damage tank healer : Z) (m : LfgRolesMap) : Prop := {
  count_damage : damage = players_as PLAYER_ROLE_DAMAGE (take i m) /\ damage <= LFG_DPS_NEEDED;
  count_tank : tank = players_as PLAYER_ROLE_TANK (take i m) /\ tank <= LFG_TANKS_NEEDED;
  count_healer : healer = players_as PLAYER_ROLE_HEALER (take i m) /\ healer <= LFG_HEALERS_NEEDED
}.

Definition needed (role : Z) : Z := if role =? PLAYER_ROLE_DAMAGE then LFG_DPS_NEEDED else 1.

Lemma players_as_app role m1 m2 : players_as role (m1 ++ m2) = players_as role m1 + players_as role m2.
Proof. unfold players_as. rewrite filter_app, length_app. lia. Qed.

Lemma players_as_snoc role i m g r :
  m !! i = Some (g, r) -> players_as role (take (S i) m) = players_as role (take i m) + if r =? role then 1 else 0.
Proof.
  intros Hi. rewrite (take_S_r _ _ _ Hi), players_as_app. f_equal. unfold players_as. rewrite filter_cons, filter_nil.
  destruct (Z.eqb_spec r role) as [->|]; [rewrite decide_True|rewrite decide_False]; done.
Qed.

Lemma fills_needed role m m' : one_role role -> fills m m' -> players_as role m' <= needed role.
Proof. intros [->|[->| ->]] F; apply F. Qed.

(** Single roles are kept by every assignment. *)
Lemma fills_single m m' role : Forall (fun p => one_role p.2) m -> Forall2 (fun p q => p.1 = q.1 /\ chooses p.2 q.2) m m' -> players_as role m' = players_as role m.
Proof.
  intros H F. assert (m' = m) as ->; [|done]. revert H. induction F as [|[g r] [g' x] m m' [Hg [Hx E]] F IH]; [done|].
  inversion 1; subst. simpl in *. f_equal; [|by apply IH]. f_equal; [done|].
  unfold one_role in *. destruct Hx as [->|[->| ->]], H2 as [->|[->| ->]]; done.
Qed.

(** One more player than there are places. *)
Lemma overfull role i m g :
  one_role role -> m !! i = Some (g, role) -> seen i m -> players_as role (take i m) = needed role -> ~ assignable m.
Proof.
  intros Hrole Hi [Hs|Hn] Hc; [|done]. intros [_ [m' F]]. pose proof (fills_needed role m m' Hrole F) as Hle.
  pose proof (fills_players m m' F) as F2. rewrite <- (take_drop (S i) m) in F2.
  apply Forall2_app_inv_l in F2 as (m1 & m2 & F1 & F2 & ->). rewrite players_as_app in Hle.
  rewrite (fills_single (take (S i) m) m1) in Hle; [| |done].
  - rewrite (players_as_snoc _ _ _ _ _ Hi), Z.eqb_refl in Hle. unfold players_as in Hle at 2. lia.
  - rewrite (take_S_r _ _ _ Hi). apply Forall_app. split; [done|]. by constructor.
Qed.

Lemma needed_count role i damage tank healer m :
  counts i damage tank healer m -> one_role role -> players_as role (take i m) <= needed role.
Proof. intros [] [->|[->| ->]]; unfold needed; simpl; unfold LFG_TANKS_NEEDED, LFG_HEALERS_NEEDED in *; lia. Qed.

Section Search.
Context (again : LfgRolesMap -> bool * LfgRolesMap) (m : LfgRolesMap).
Hypothesis (Hm : roles_bytes m).
Hypothesis (Hagain : forall m', roles_bytes m' -> length m' = length m -> total_roles m' < total_roles m -> answers m' (again m')).

(** A block returns with an answer, or has counted the player if he has that
    role only, or has found that giving up the role does not help. *)
Lemma try_role_spec role i n g r :
  m !! i = Some (g, r) -> one_role role -> seen i m -> n = players_as role (take i m) -> n <= needed role ->
  match try_role again i role (needed role) n m with
  | inl res => answers m res
  | inr (m', n') =>
      m' = m /\ n' = players_as role (take (S i) m) /\ n' <= needed role
      /\ (has r role = true -> r <> role -> ~ assignable (take_role role i m))
  end.
Proof.
  intros Hi Hrole Hs Hn Hle. unfold try_role. rewrite Hi, (players_as_snoc _ _ _ _ _ Hi), <- Hn.
  destruct (has r role) eqn:Hhas; [|split_and!; [done| |done|done]]; cycle 1.
  { destruct (Z.eqb_spec r role) as [->|]; [|lia]. by destruct Hrole as [->|[->| ->]]. }
  destruct (Z.eqb_spec r role) as [->|Hne]; cbn [negb].
  - destruct (Z.eqb_spec n (needed role)) as [E|E].
    + split; [done|]. eapply (overfull role); [done..|congruence].
    + split_and!; [done|done|lia|done].
  - fold (take_role role i m). assert (answers (take_role role i m) (again (take_role role i m))) as A.
    { apply Hagain; [by eapply take_bytes|apply length_alter|].
      rewrite (total_roles_take _ _ _ _ _ Hi). assert (in_u 8 r) as Hr by exact (proj1 (Forall_lookup _ _) Hm _ _ Hi).
      destruct (remove_role r role Hr Hrole Hhas) as (? & _). lia. }
    destruct (again _) as [[] m1]; unfold answers in A; simpl in A.
    + destruct A as [A1 A2]. split; [|simpl; by eapply take_fills].
      by apply (take_proper role i m g r Hi Hm Hrole Hhas).
    + destruct A as [-> A]. split_and!; [apply give_back|lia|lia|done].
Qed.

(** A player with several roles can do without one of them. *)
Lemma seen_next i g r :
  m !! i = Some (g, r) -> r <> 0 -> seen i m ->
  (forall role, one_role role -> has r role = true -> r <> role -> ~ assignable (take_role role i m)) ->
  seen (S i) m.
Proof.
  intros Hi H0 [Hs|Hn] Hrest; [|by right]. destruct (decide (one_role r)) as [H1|H1].
  { left. rewrite (take_S_r _ _ _ Hi). apply Forall_app. split; [done|]. by constructor. }
  right. intros [[Hne V] [m' F]]. pose proof (fills_players m m' F) as F2. rewrite Forall2_lookup in F2.
  specialize (F2 i). rewrite Hi in F2. inversion F2 as [? q [_ [Hq Hland]] E Eq|]; subst. simpl in *.
  rewrite Forall_lookup in V. pose proof (V _ _ Hi) as Vr. simpl in Vr.
  assert (in_u 8 r) as Hr by exact (proj1 (Forall_lookup _ _) Hm _ _ Hi).
  destruct (several_roles r q.2 Hr Vr H0 H1 Hq) as (b & Hb & Hhas & Hbq).
  apply (Hrest b Hb Hhas); [by intros ->|]. split.
  - eapply take_proper; [done..|]. split; [done|by apply Forall_lookup].
  - exists m'. eapply take_assignable; [done..|]. congruence.
Qed.

Lemma players_as_split m0 :
  Forall (fun p : Z * Z => one_role p.2) m0 ->
  players_as PLAYER_ROLE_TANK m0 + players_as PLAYER_ROLE_HEALER m0 + players_as PLAYER_ROLE_DAMAGE m0 = Z.of_nat (length m0).
Proof.
  unfold players_as. induction 1 as [|[g r] m0 H _ IH]; [done|]. rewrite !filter_cons. simpl in *.
  destruct H as [->|[->| ->]]; simpl; lia.
Qed.

Lemma players_as_full m0 :
  players_as PLAYER_ROLE_TANK m0 + players_as PLAYER_ROLE_HEALER m0 + players_as PLAYER_ROLE_DAMAGE m0 = Z.of_nat (length m0) ->
  Forall (fun p : Z * Z => one_role p.2) m0.
Proof.
  assert (forall m1 : LfgRolesMap, players_as PLAYER_ROLE_TANK m1 + players_as PLAYER_ROLE_HEALER m1
    + players_as PLAYER_ROLE_DAMAGE m1 <= Z.of_nat (length m1)) as Hle.
  { induction m1 as [|[g r] m1 IH]; [done|]. unfold players_as in *. rewrite !filter_cons. simpl.
    repeat case_decide; simplify_eq; simpl; lia. }
  induction m0 as [|[g r] m0 IH]; [constructor|]. specialize (Hle m0). unfold players_as in *.
  rewrite !filter_cons. simpl. intros H.
  constructor; [|apply IH]; repeat case_decide; simplify_eq; simpl in *; unfold one_role; try tauto; lia.
Qed.

Lemma check_loop_spec n i damage tank healer :
  m <> [] -> Z.of_nat (length m) < 256 -> (i + n)%nat = length m -> seen i m -> counts i damage tank healer m ->
  answers m (check_loop again n i damage tank healer m).
Proof.
  intros Hne Hlen. revert i damage tank healer. induction n as [|n IH]; intros i damage tank healer Hin Hs C.
  - simpl. rewrite Nat.add_0_r in Hin. rewrite wrap_id by (unfold in_u; width).
    destruct C as [[-> ?] [-> ?] [-> ?]]. unfold seen in Hs. rewrite take_ge in * by lia.
    destruct (Z.eqb_spec (players_as PLAYER_ROLE_TANK m + players_as PLAYER_ROLE_HEALER m + players_as PLAYER_ROLE_DAMAGE m)
      (Z.of_nat (length m))) as [E|E].
    + apply players_as_full in E. split.
      * split; [done|]. eapply Forall_impl; [exact E|]. simpl. intros [g r] [->|[->| ->]]; done.
      * split; [|done..]. apply Forall_Forall2_diag. eapply Forall_impl; [exact E|]. simpl. intros [g r] Hr.
        split; [done|]. split; [done|]. apply Z.land_diag.
    + split; [done|]. destruct Hs as [Hs|Hs]; [|done]. by apply players_as_split in Hs.
  - cbn [check_loop]. destruct (m !! i) as [[g r]|] eqn:Hi; [|apply lookup_ge_None in Hi; lia].
    destruct (Z.eqb_spec r PLAYER_ROLE_NONE) as [->|H0].
    { split; [done|]. intros [_ [m' F]]. apply fills_players in F. rewrite Forall2_lookup in F. specialize (F i).
      rewrite Hi in F. inversion F as [? ? [_ [Hq E]] E1 E2|]; subst. simpl in *. rewrite Z.land_0_l in E.
      unfold one_role, PLAYER_ROLE_TANK, PLAYER_ROLE_HEALER, PLAYER_ROLE_DAMAGE in Hq. lia. }
    destruct C as [[Cd Ld] [Ct Lt] [Ch Lh]].
    pose proof (try_role_spec PLAYER_ROLE_DAMAGE i damage g r Hi ltac:(unfold one_role; tauto) Hs Cd Ld) as Td.
    change LFG_DPS_NEEDED with (needed PLAYER_ROLE_DAMAGE). destruct (try_role _ i PLAYER_ROLE_DAMAGE _ _ _) as [|[m1 d']]; [done|].
    destruct Td as (-> & Ed & Ld' & Nd).
    pose proof (try_role_spec PLAYER_ROLE_HEALER i healer g r Hi ltac:(unfold one_role; tauto) Hs Ch Lh) as Th.
    change LFG_HEALERS_NEEDED with (needed PLAYER_ROLE_HEALER). destruct (try_role _ i PLAYER_ROLE_HEALER _ _ _) as [|[m1 h']]; [done|].
    destruct Th as (-> & Eh & Lh' & Nh).
    pose proof (try_role_spec PLAYER_ROLE_TANK i tank g r Hi ltac:(unfold one_role; tauto) Hs Ct Lt) as Tt.
    change LFG_TANKS_NEEDED with (needed PLAYER_ROLE_TANK). destruct (try_role _ i PLAYER_ROLE_TANK _ _ _) as [|[m1 t']]; [done|].
    destruct Tt as (-> & Et & Lt' & Nt).
    apply IH; [lia| |by split].
    eapply seen_next; [done..|]. intros role [->|[->| ->]]; done.
Qed.
End Search.

Lemma check_roles_answers fuel m :
  roles_bytes m -> Z.of_nat (length m) < 256 -> total_roles m < Z.of_nat fuel -> answers m (check_roles fuel m).
Proof.
  revert m. induction fuel as [|fuel IH]; intros m Hm Hlen Hf.
  { pose proof (total_roles_nonneg m Hm). lia. }
  cbn [check_roles]. destruct m as [|p m'] eqn:Em; [split; [done|]; by intros [[? _] _]|]. rewrite <- Em in *.
  apply check_loop_spec; [done| |by rewrite Em|done|done|by left|].
  - intros m1 Hm1 Hl Ht. apply IH; [done|lia|lia].
  - by split.
Qed.

Lemma remove_leaders_bytes m : roles_bytes (remove_leaders m).
Proof.
  unfold remove_leaders. apply Forall_map, Forall_true. intros [g r]. simpl. unfold without_leader.
  assert (Z.land r (255 - PLAYER_ROLE_LEADER) = Z.land (Z.land r (255 - PLAYER_ROLE_LEADER)) (Z.ones 8)) as ->.
  { by rewrite <- Z.land_assoc. }
  rewrite Z.land_ones by done. apply wrap_range. done.
Qed.

Lemma check_group_roles groles :
  Z.of_nat (length groles) < 256 ->
  let '(ok, m) := CheckGroupRoles groles in
  (ok = true <-> assignable (remove_leaders groles))
  /\ (ok = true -> fills (remove_leaders groles) m)
  /\ (ok = false -> m = remove_leaders groles).
Proof.
  intros Hlen. unfold CheckGroupRoles. set (g := remove_leaders groles).
  pose proof (check_roles_answers (S (Z.to_nat (total_roles g))) g) as A.
  pose proof (total_roles_nonneg g (remove_leaders_bytes groles)).
  destruct (check_roles _ g) as [ok m]. unfold answers in A. simpl in A.
  assert (if ok then proper g /\ fills g m else m = g /\ ~ assignable g) as A'.
  { apply A; [apply remove_leaders_bytes|unfold g, remove_leaders; by rewrite length_map|lia]. }
  destruct ok; destruct A' as [A1 A2]; split_and!; try done. split; [|done]. intros _. split; [done|by exists m].
Qed.

Lemma check_group_roles_true groles m :
  Z.of_nat (length groles) < 256 -> CheckGroupRoles groles = (true, m) -> fills (remove_leaders groles) m.
Proof. intros Hl E. pose proof (check_group_roles groles Hl) as H. rewrite E in H. by apply H. Qed.

Lemma check_group_roles_full groles :
  Z.of_nat (length groles) < 256 -> assignable (remove_leaders groles) ->
  fills (remove_leaders groles) (snd (CheckGroupRoles groles)).
Proof.
  intros Hl Ha. pose proof (check_group_roles groles Hl) as H. destruct (CheckGroupRoles groles) as [ok m]. simpl.
  apply H. by apply H.
Qed.

(** The role check finds an assignment whenever there is one. It succeeds
    exactly if the players chose nothing but the three roles and each can be
    given one of those he chose so that there are at most one tank, one healer and
    three damage dealers; the map then holds such an assignment, and otherwise
    the choices as they were, but for the leader's flag, which is gone from
    both. The recursion ends. *)
Theorem CheckGroupRoles_decides groles :
  Z.of_nat (length groles) < 256 ->
  let '(ok, m) := CheckGroupRoles groles in
  (ok = true <-> assignable (remove_leaders groles))
  /\ (ok = true -> fills (remove_leaders groles) m)
  /\ (ok = false -> m = remove_leaders groles).
Proof. apply check_group_roles. Qed.

Lemma CheckGroupRoles_decides_witness :
  let g := [(1, 14); (2, 9); (3, 12); (4, 8); (5, 10)] in
  assignable (remove_leaders g) /\ fills (remove_leaders g) (snd (CheckGroupRoles g)).
Proof.
  intros g. pose proof (CheckGroupRoles_decides g ltac:(vm_compute; done)) as H.
  destruct (CheckGroupRoles g) as [ok m] eqn:E. assert (ok = true) as Hok by by vm_compute in E; injection E.
  split; by apply H.
Defined.

End LfgRoles.
