(* ===== verification/LfgData.v ===== *)
(** * LfgData: the state of the dungeon finder

    The data of [game/DungeonFinding]: [LFGPlayerData], [LFGGroupData],
    [LFGQueue.h] and [LFGMgr.h]. A map of the source whose order the code can
    observe is a sorted list of pairs, a set a sorted list. The stores of player
    and group data are read with [operator[]], which makes a default entry where
    there is none; a read here gives the default data and leaves the map as it is,
    which no operation can tell apart. Packets and calls on other parts of the
    server are appended to the trace. *)
From S2P Require Import Prelude OrderedMap LfgRoles.
From stdpp Require Export strings pretty.
#[global] Open Scope Z_scope.

Module LfgData.
Import LfgRoles.

Definition MAXGROUPSIZE := 5.
Definition LFG_TIME_ROLECHECK := 40 * 1000.
Definition LFG_TIME_BOOT := 120.
Definition LFG_TIME_PROPOSAL := 120.
Definition LFG_QUEUEUPDATE_INTERVAL := 15 * 1000.
Definition LFG_GROUP_KICK_VOTES_NEEDED := 3.
Definition LFG_GROUP_MAX_KICKS := 3.
Definition HIGHGUID_GROUP := 0x1F50.

Definition GUID_HIPART (g : Z) : Z := Z.land (Z.shiftr g 48) 0xFFFF.
Definition IS_GROUP (g : Z) : bool := GUID_HIPART g =? HIGHGUID_GROUP.

Inductive LfgState :=
| LFG_STATE_NONE | LFG_STATE_ROLECHECK | LFG_STATE_QUEUED | LFG_STATE_PROPOSAL | LFG_STATE_BOOT
| LFG_STATE_DUNGEON | LFG_STATE_FINISHED_DUNGEON | LFG_STATE_RAIDBROWSER.
#[global] Instance LfgState_eq_dec : EqDecision LfgState.
Proof. solve_decision. Defined.

Inductive LfgAnswer := LFG_ANSWER_PENDING | LFG_ANSWER_DENY | LFG_ANSWER_AGREE.
#[global] Instance LfgAnswer_eq_dec : EqDecision LfgAnswer.
Proof. solve_decision. Defined.

Inductive LfgUpdateType :=
| LFG_UPDATETYPE_DEFAULT | LFG_UPDATETYPE_LEADER_UNK1 | LFG_UPDATETYPE_ROLECHECK_ABORTED
| LFG_UPDATETYPE_JOIN_PROPOSAL | LFG_UPDATETYPE_ROLECHECK_FAILED | LFG_UPDATETYPE_REMOVED_FROM_QUEUE
| LFG_UPDATETYPE_PROPOSAL_FAILED | LFG_UPDATETYPE_PROPOSAL_DECLINED | LFG_UPDATETYPE_GROUP_FOUND
| LFG_UPDATETYPE_ADDED_TO_QUEUE | LFG_UPDATETYPE_PROPOSAL_BEGIN | LFG_UPDATETYPE_UPDATE_STATUS
| LFG_UPDATETYPE_GROUP_MEMBER_OFFLINE | LFG_UPDATETYPE_GROUP_DISBAND_UNK16.
#[global] Instance LfgUpdateType_eq_dec : EqDecision LfgUpdateType.
Proof. solve_decision. Defined.

Inductive LfgProposalState := LFG_PROPOSAL_INITIATING | LFG_PROPOSAL_FAILED | LFG_PROPOSAL_SUCCESS.
#[global] Instance LfgProposalState_eq_dec : EqDecision LfgProposalState.
Proof. solve_decision. Defined.

Inductive LfgRoleCheckState :=
| LFG_ROLECHECK_DEFAULT | LFG_ROLECHECK_FINISHED | LFG_ROLECHECK_INITIALITING | LFG_ROLECHECK_MISSING_ROLE
| LFG_ROLECHECK_WRONG_ROLES | LFG_ROLECHECK_ABORTED | LFG_ROLECHECK_NO_ROLE.
#[global] Instance LfgRoleCheckState_eq_dec : EqDecision LfgRoleCheckState.
Proof. solve_decision. Defined.

Inductive LfgJoinResult :=
| LFG_JOIN_OK | LFG_JOIN_FAILED | LFG_JOIN_GROUPFULL | LFG_JOIN_INTERNAL_ERROR | LFG_JOIN_NOT_MEET_REQS
| LFG_JOIN_PARTY_NOT_MEET_REQS | LFG_JOIN_MIXED_RAID_DUNGEON | LFG_JOIN_MULTI_REALM | LFG_JOIN_DISCONNECTED
| LFG_JOIN_PARTY_INFO_FAILED | LFG_JOIN_DUNGEON_INVALID | LFG_JOIN_DESERTER | LFG_JOIN_PARTY_DESERTER
| LFG_JOIN_RANDOM_COOLDOWN | LFG_JOIN_PARTY_RANDOM_COOLDOWN | LFG_JOIN_TOO_MUCH_MEMBERS
| LFG_JOIN_USING_BG_SYSTEM.
#[global] Instance LfgJoinResult_eq_dec : EqDecision LfgJoinResult.
Proof. solve_decision. Defined.

(** In the order of the source: what comes before [WITH_LESS_PLAYERS] is not
    compatible. *)
Inductive LfgCompatibility :=
| LFG_COMPATIBILITY_PENDING | LFG_INCOMPATIBLES_WRONG_GROUP_SIZE | LFG_INCOMPATIBLES_TOO_MUCH_PLAYERS
| LFG_INCOMPATIBLES_MULTIPLE_LFG_GROUPS | LFG_INCOMPATIBLES_HAS_IGNORES | LFG_INCOMPATIBLES_NO_ROLES
| LFG_INCOMPATIBLES_NO_DUNGEONS | LFG_COMPATIBLES_WITH_LESS_PLAYERS | LFG_COMPATIBLES_BAD_STATES
| LFG_COMPATIBLES_MATCH.
#[global] Instance LfgCompatibility_eq_dec : EqDecision LfgCompatibility.
Proof. solve_decision. Defined.

(** [c < LFG_COMPATIBLES_WITH_LESS_PLAYERS] *)
Definition incompatible (c : LfgCompatibility) : bool :=
  match c with
  | LFG_COMPATIBLES_WITH_LESS_PLAYERS | LFG_COMPATIBLES_BAD_STATES | LFG_COMPATIBLES_MATCH => false
  | _ => true
  end.

(** ** Records *)
Record LfgPlayerData := mkPlayerData {
  m_State : LfgState;
  m_OldState : LfgState;
  m_LockedDungeons : list (Z * Z);
  m_Team : Z;
  m_Group : Z;
  m_Roles : Z;
  m_SelectedDungeons : list Z;
  m_Comment : string
}.

Record LfgGroupData := mkGroupData {
  g_State : LfgState;
  g_OldState : LfgState;
  m_Leader : Z;
  m_Players : list Z;
  m_Dungeon : Z;
  m_KicksLeft : Z
}.

Record LfgCompatibilityData := mkCompatibility {
  compatibility : LfgCompatibility;
  c_roles : LfgRolesMap
}.

Record LfgQueueData := mkQueueData {
  joinTime : Z;
  tanks : Z;
  healers : Z;
  dps : Z;
  dungeons : list Z;
  roles : LfgRolesMap;
  bestCompatible : string
}.

Record LfgWaitTime := mkWaitTime { wt_time : Z; wt_number : Z }.

Record LfgProposalPlayer := mkProposalPlayer {
  pp_role : Z;
  pp_accept : LfgAnswer;
  pp_group : Z
}.

Record LfgProposal := mkProposal {
  dungeonId : Z;
  pr_state : LfgProposalState;
  pr_group : Z;
  pr_leader : Z;
  pr_cancelTime : Z;
  encounters : Z;
  isNew : bool;
  queues : list Z;
  pr_players : list (Z * LfgProposalPlayer)
}.

Record LfgRoleCheck := mkRoleCheck {
  rc_cancelTime : Z;
  rc_roles : LfgRolesMap;
  rc_state : LfgRoleCheckState;
  rc_dungeons : list Z;
  rDungeonId : Z;
  rc_leader : Z
}.

Record LfgPlayerBoot := mkBoot {
  bt_cancelTime : Z;
  inProgress : bool;
  votes : list (Z * LfgAnswer);
  victim : Z;
  bt_reason : string
}.

(** [LfgUpdateData] *)
Record LfgUpdateData := mkUpdateData {
  updateType : LfgUpdateType;
  u_dungeons : list Z;
  u_comment : string
}.
Definition update_data (t : LfgUpdateType) : LfgUpdateData := mkUpdateData t [] "".

Inductive Event :=
| SendLfgQueueStatus (guid dungeonId waitTime wtAvg wtTank wtHealer wtDps queuedTime tanks healers dps : Z)
| SendLfgRoleChosen (guid pguid roles : Z)
| SendLfgRoleCheckUpdate (guid : Z) (check : LfgRoleCheck)
| SendLfgJoinResult (guid : Z) (result : LfgJoinResult) (state : LfgRoleCheckState) (lockmap : list (Z * list (Z * Z)))
| SendLfgUpdateParty (guid : Z) (data : LfgUpdateData)
| SendLfgUpdatePlayer (guid : Z) (data : LfgUpdateData)
| SendLfgUpdateProposal (guid proposalId : Z) (proposal : LfgProposal)
| SendLfgBootProposalUpdate (guid : Z) (boot : LfgPlayerBoot)
| RemoveFromGroup (gguid guid : Z)
| MakeNewGroup (proposal : LfgProposal).

Record LFGQueue := mkQueue {
  QueueDataStore : list (Z * LfgQueueData);
  CompatibleMapStore : list (string * LfgCompatibilityData);
  waitTimesAvgStore : list (Z * LfgWaitTime);
  waitTimesTankStore : list (Z * LfgWaitTime);
  waitTimesHealerStore : list (Z * LfgWaitTime);
  waitTimesDpsStore : list (Z * LfgWaitTime);
  currentQueueStore : list Z;
  newToQueueStore : list Z
}.

Record LFGMgr := mkMgr {
  m_QueueTimer : Z;
  m_lfgProposalId : Z;
  QueuesStore : list (Z * LFGQueue);
  RoleChecksStore : list (Z * LfgRoleCheck);
  ProposalsStore : list (Z * LfgProposal);
  BootsStore : list (Z * LfgPlayerBoot);
  PlayersStore : gmap Z LfgPlayerData;
  GroupsStore : gmap Z LfgGroupData;
  teleportStore : list Z;
  trace : list Event
}.

(** ** Updates of fields *)
Definition set_p_State (v : LfgState) (d : LfgPlayerData) : LfgPlayerData :=
  mkPlayerData v (m_OldState d) (m_LockedDungeons d) (m_Team d) (m_Group d) (m_Roles d)
    (m_SelectedDungeons d) (m_Comment d).
Definition set_p_OldState (v : LfgState) (d : LfgPlayerData) : LfgPlayerData :=
  mkPlayerData (m_State d) v (m_LockedDungeons d) (m_Team d) (m_Group d) (m_Roles d)
    (m_SelectedDungeons d) (m_Comment d).
Definition set_p_LockedDungeons (v : list (Z * Z)) (d : LfgPlayerData) : LfgPlayerData :=
  mkPlayerData (m_State d) (m_OldState d) v (m_Team d) (m_Group d) (m_Roles d)
    (m_SelectedDungeons d) (m_Comment d).
Definition set_p_Team (v : Z) (d : LfgPlayerData) : LfgPlayerData :=
  mkPlayerData (m_State d) (m_OldState d) (m_LockedDungeons d) v (m_Group d) (m_Roles d)
    (m_SelectedDungeons d) (m_Comment d).
Definition set_p_Group (v : Z) (d : LfgPlayerData) : LfgPlayerData :=
  mkPlayerData (m_State d) (m_OldState d) (m_LockedDungeons d) (m_Team d) v (m_Roles d)
    (m_SelectedDungeons d) (m_Comment d).
Definition set_p_Roles (v : Z) (d : LfgPlayerData) : LfgPlayerData :=
  mkPlayerData (m_State d) (m_OldState d) (m_LockedDungeons d) (m_Team d) (m_Group d) v
    (m_SelectedDungeons d) (m_Comment d).
Definition set_p_SelectedDungeons (v : list Z) (d : LfgPlayerData) : LfgPlayerData :=
  mkPlayerData (m_State d) (m_OldState d) (m_LockedDungeons d) (m_Team d) (m_Group d) (m_Roles d)
    v (m_Comment d).
Definition set_p_Comment (v : string) (d : LfgPlayerData) : LfgPlayerData :=
  mkPlayerData (m_State d) (m_OldState d) (m_LockedDungeons d) (m_Team d) (m_Group d) (m_Roles d)
    (m_SelectedDungeons d) v.

Definition set_g_State (v : LfgState) (d : LfgGroupData) : LfgGroupData :=
  mkGroupData v (g_OldState d) (m_Leader d) (m_Players d) (m_Dungeon d) (m_KicksLeft d).
Definition set_g_OldState (v : LfgState) (d : LfgGroupData) : LfgGroupData :=
  mkGroupData (g_State d) v (m_Leader d) (m_Players d) (m_Dungeon d) (m_KicksLeft d).
Definition set_g_Leader (v : Z) (d : LfgGroupData) : LfgGroupData :=
  mkGroupData (g_State d) (g_OldState d) v (m_Players d) (m_Dungeon d) (m_KicksLeft d).
Definition set_g_Players (v : list Z) (d : LfgGroupData) : LfgGroupData :=
  mkGroupData (g_State d) (g_OldState d) (m_Leader d) v (m_Dungeon d) (m_KicksLeft d).
Definition set_g_Dungeon (v : Z) (d : LfgGroupData) : LfgGroupData :=
  mkGroupData (g_State d) (g_OldState d) (m_Leader d) (m_Players d) v (m_KicksLeft d).
Definition set_g_KicksLeft (v : Z) (d : LfgGroupData) : LfgGroupData :=
  mkGroupData (g_State d) (g_OldState d) (m_Leader d) (m_Players d) (m_Dungeon d) v.

Definition set_bestCompatible (v : string) (d : LfgQueueData) : LfgQueueData :=
  mkQueueData (joinTime d) (tanks d) (healers d) (dps d) (dungeons d) (roles d) v.

Definition set_QueueDataStore (v : list (Z * LfgQueueData)) (q : LFGQueue) : LFGQueue :=
  mkQueue v (CompatibleMapStore q) (waitTimesAvgStore q) (waitTimesTankStore q)
    (waitTimesHealerStore q) (waitTimesDpsStore q) (currentQueueStore q) (newToQueueStore q).
Definition set_CompatibleMapStore (v : list (string * LfgCompatibilityData)) (q : LFGQueue) : LFGQueue :=
  mkQueue (QueueDataStore q) v (waitTimesAvgStore q) (waitTimesTankStore q)
    (waitTimesHealerStore q) (waitTimesDpsStore q) (currentQueueStore q) (newToQueueStore q).
Definition set_waitTimesAvgStore (v : list (Z * LfgWaitTime)) (q : LFGQueue) : LFGQueue :=
  mkQueue (QueueDataStore q) (CompatibleMapStore q) v (waitTimesTankStore q)
    (waitTimesHealerStore q) (waitTimesDpsStore q) (currentQueueStore q) (newToQueueStore q).
Definition set_waitTimesTankStore (v : list (Z * LfgWaitTime)) (q : LFGQueue) : LFGQueue :=
  mkQueue (QueueDataStore q) (CompatibleMapStore q) (waitTimesAvgStore q) v
    (waitTimesHealerStore q) (waitTimesDpsStore q) (currentQueueStore q) (newToQueueStore q).
Definition set_waitTimesHealerStore (v : list (Z * LfgWaitTime)) (q : LFGQueue) : LFGQueue :=
  mkQueue (QueueDataStore q) (CompatibleMapStore q) (waitTimesAvgStore q) (waitTimesTankStore q) v
    (waitTimesDpsStore q) (currentQueueStore q) (newToQueueStore q).
Definition set_waitTimesDpsStore (v : list (Z * LfgWaitTime)) (q : LFGQueue) : LFGQueue :=
  mkQueue (QueueDataStore q) (CompatibleMapStore q) (waitTimesAvgStore q) (waitTimesTankStore q)
    (waitTimesHealerStore q) v (currentQueueStore q) (newToQueueStore q).
Definition set_currentQueueStore (v : list Z) (q : LFGQueue) : LFGQueue :=
  mkQueue (QueueDataStore q) (CompatibleMapStore q) (waitTimesAvgStore q) (waitTimesTankStore q)
    (waitTimesHealerStore q) (waitTimesDpsStore q) v (newToQueueStore q).
Definition set_newToQueueStore (v : list Z) (q : LFGQueue) : LFGQueue :=
  mkQueue (QueueDataStore q) (CompatibleMapStore q) (waitTimesAvgStore q) (waitTimesTankStore q)
    (waitTimesHealerStore q) (waitTimesDpsStore q) (currentQueueStore q) v.

Definition set_QueueTimer (v : Z) (m : LFGMgr) : LFGMgr :=
  mkMgr v (m_lfgProposalId m) (QueuesStore m) (RoleChecksStore m) (ProposalsStore m)
    (BootsStore m) (PlayersStore m) (GroupsStore m) (teleportStore m) (trace m).
Definition set_lfgProposalId (v : Z) (m : LFGMgr) : LFGMgr :=
  mkMgr (m_QueueTimer m) v (QueuesStore m) (RoleChecksStore m) (ProposalsStore m) (BootsStore m)
    (PlayersStore m) (GroupsStore m) (teleportStore m) (trace m).
Definition set_QueuesStore (v : list (Z * LFGQueue)) (m : LFGMgr) : LFGMgr :=
  mkMgr (m_QueueTimer m) (m_lfgProposalId m) v (RoleChecksStore m) (ProposalsStore m)
    (BootsStore m) (PlayersStore m) (GroupsStore m) (teleportStore m) (trace m).
Definition set_RoleChecksStore (v : list (Z * LfgRoleCheck)) (m : LFGMgr) : LFGMgr :=
  mkMgr (m_QueueTimer m) (m_lfgProposalId m) (QueuesStore m) v (ProposalsStore m) (BootsStore m)
    (PlayersStore m) (GroupsStore m) (teleportStore m) (trace m).
Definition set_ProposalsStore (v : list (Z * LfgProposal)) (m : LFGMgr) : LFGMgr :=
  mkMgr (m_QueueTimer m) (m_lfgProposalId m) (QueuesStore m) (RoleChecksStore m) v (BootsStore m)
    (PlayersStore m) (GroupsStore m) (teleportStore m) (trace m).
Definition set_BootsStore (v : list (Z * LfgPlayerBoot)) (m : LFGMgr) : LFGMgr :=
  mkMgr (m_QueueTimer m) (m_lfgProposalId m) (QueuesStore m) (RoleChecksStore m)
    (ProposalsStore m) v (PlayersStore m) (GroupsStore m) (teleportStore m) (trace m).
Definition set_PlayersStore (v : gmap Z LfgPlayerData) (m : LFGMgr) : LFGMgr :=
  mkMgr (m_QueueTimer m) (m_lfgProposalId m) (QueuesStore m) (RoleChecksStore m)
    (ProposalsStore m) (BootsStore m) v (GroupsStore m) (teleportStore m) (trace m).
Definition set_GroupsStore (v : gmap Z LfgGroupData) (m : LFGMgr) : LFGMgr :=
  mkMgr (m_QueueTimer m) (m_lfgProposalId m) (QueuesStore m) (RoleChecksStore m)
    (ProposalsStore m) (BootsStore m) (PlayersStore m) v (teleportStore m) (trace m).
Definition set_teleportStore (v : list Z) (m : LFGMgr) : LFGMgr :=
  mkMgr (m_QueueTimer m) (m_lfgProposalId m) (QueuesStore m) (RoleChecksStore m)
    (ProposalsStore m) (BootsStore m) (PlayersStore m) (GroupsStore m) v (trace m).
Definition set_trace (v : list Event) (m : LFGMgr) : LFGMgr :=
  mkMgr (m_QueueTimer m) (m_lfgProposalId m) (QueuesStore m) (RoleChecksStore m)
    (ProposalsStore m) (BootsStore m) (PlayersStore m) (GroupsStore m) (teleportStore m) v.

(** ** LFGPlayerData.cpp *)
Definition new_player_data : LfgPlayerData := mkPlayerData LFG_STATE_NONE LFG_STATE_NONE [] 0 0 0 [] "".

Definition PlayerData_SetState (state : LfgState) (d : LfgPlayerData) : LfgPlayerData :=
  let d :=
    match state with
    | LFG_STATE_NONE | LFG_STATE_FINISHED_DUNGEON => set_p_SelectedDungeons [] (set_p_Roles 0 d)
    | _ => d
    end in
  let d :=
    match state with
    | LFG_STATE_NONE | LFG_STATE_FINISHED_DUNGEON | LFG_STATE_DUNGEON => set_p_OldState state d
    | _ => d
    end in
  set_p_State state d.

Definition PlayerData_ClearState (d : LfgPlayerData) : LfgPlayerData :=
  let d := set_p_Roles 0 (set_p_SelectedDungeons [] d) in
  set_p_State (m_OldState d) d.

(** ** LFGGroupData.cpp *)
Definition new_group_data : LfgGroupData := mkGroupData LFG_STATE_NONE LFG_STATE_NONE 0 [] 0 LFG_GROUP_MAX_KICKS.

Definition GroupData_IsLfgGroup (d : LfgGroupData) : bool := negb (bool_decide (g_OldState d = LFG_STATE_NONE)).

Definition GroupData_SetState (state : LfgState) (d : LfgGroupData) : LfgGroupData :=
  let d :=
    match state with
    | LFG_STATE_FINISHED_DUNGEON | LFG_STATE_NONE | LFG_STATE_DUNGEON => set_g_OldState state d
    | _ => d
    end in
  set_g_State state d.

Definition GroupData_RestoreState (d : LfgGroupData) : LfgGroupData := set_g_State (g_OldState d) d.

Definition AddPlayer (guid : Z) (d : LfgGroupData) : LfgGroupData := set_g_Players (set_add guid (m_Players d)) d.

(** With the number of players left. *)
Definition RemovePlayer (guid : Z) (d : LfgGroupData) : LfgGroupData * Z :=
  let d := set_g_Players (set_del guid (m_Players d)) d in
  (d, u8 (Z.of_nat (length (m_Players d)))).

Definition GroupData_DecreaseKicksLeft (d : LfgGroupData) : LfgGroupData :=
  if m_KicksLeft d =? 0 then d else set_g_KicksLeft (m_KicksLeft d - 1) d.

Definition GroupData_GetDungeon (asId : bool) (d : LfgGroupData) : Z :=
  if asId then Z.land (m_Dungeon d) 0x00FFFFFF else m_Dungeon d.

(** ** The accessors of LFGMgr.cpp *)
Definition player_data (guid : Z) (m : LFGMgr) : LfgPlayerData := default new_player_data (PlayersStore m !! guid).
Definition group_data (guid : Z) (m : LFGMgr) : LfgGroupData := default new_group_data (GroupsStore m !! guid).
Definition modify_player (guid : Z) (f : LfgPlayerData -> LfgPlayerData) (m : LFGMgr) : LFGMgr :=
  set_PlayersStore (<[guid := f (player_data guid m)]> (PlayersStore m)) m.
Definition modify_group (guid : Z) (f : LfgGroupData -> LfgGroupData) (m : LFGMgr) : LFGMgr :=
  set_GroupsStore (<[guid := f (group_data guid m)]> (GroupsStore m)) m.
Definition log (es : list Event) (m : LFGMgr) : LFGMgr := set_trace (trace m ++ es) m.

Definition GetState (guid : Z) (m : LFGMgr) : LfgState :=
  if IS_GROUP guid then g_State (group_data guid m) else m_State (player_data guid m).
Definition SetState (guid : Z) (state : LfgState) (m : LFGMgr) : LFGMgr :=
  if IS_GROUP guid then modify_group guid (GroupData_SetState state) m
  else modify_player guid (PlayerData_SetState state) m.
Definition RestoreState (guid : Z) : LFGMgr -> LFGMgr := modify_group guid GroupData_RestoreState.
Definition ClearState (guid : Z) : LFGMgr -> LFGMgr := modify_player guid PlayerData_ClearState.
Definition SetRoles (guid roles : Z) : LFGMgr -> LFGMgr := modify_player guid (set_p_Roles roles).
Definition SetComment (guid : Z) (comment : string) : LFGMgr -> LFGMgr := modify_player guid (set_p_Comment comment).
Definition SetSelectedDungeons (guid : Z) (dungeons : list Z) : LFGMgr -> LFGMgr :=
  modify_player guid (set_p_SelectedDungeons dungeons).
Definition SetLockedDungeons (guid : Z) (lock : list (Z * Z)) : LFGMgr -> LFGMgr :=
  modify_player guid (set_p_LockedDungeons lock).
Definition SetGroup (guid group : Z) : LFGMgr -> LFGMgr := modify_player guid (set_p_Group group).
Definition SetTeam (allow_two_side_interaction : bool) (guid team : Z) : LFGMgr -> LFGMgr :=
  modify_player guid (set_p_Team (if allow_two_side_interaction then 0 else team)).
Definition SetDungeon (guid dungeon : Z) : LFGMgr -> LFGMgr := modify_group guid (set_g_Dungeon dungeon).
Definition SetLeader (gguid leader : Z) : LFGMgr -> LFGMgr := modify_group gguid (set_g_Leader leader).
Definition DecreaseKicksLeft (guid : Z) : LFGMgr -> LFGMgr := modify_group guid GroupData_DecreaseKicksLeft.
Definition AddPlayerToGroup (gguid guid : Z) : LFGMgr -> LFGMgr := modify_group gguid (AddPlayer guid).
Definition RemovePlayerFromGroup (gguid guid : Z) (m : LFGMgr) : LFGMgr * Z :=
  (modify_group gguid (fun d => (RemovePlayer guid d).1) m, (RemovePlayer guid (group_data gguid m)).2).

Definition GetGroup (guid : Z) (m : LFGMgr) : Z := m_Group (player_data guid m).
Definition GetTeam (guid : Z) (m : LFGMgr) : Z := m_Team (player_data guid m).
Definition GetRoles (guid : Z) (m : LFGMgr) : Z := m_Roles (player_data guid m).
Definition GetComment (guid : Z) (m : LFGMgr) : string := m_Comment (player_data guid m).
Definition GetSelectedDungeons (guid : Z) (m : LFGMgr) : list Z := m_SelectedDungeons (player_data guid m).
Definition GetLockedDungeons (guid : Z) (m : LFGMgr) : list (Z * Z) := m_LockedDungeons (player_data guid m).
Definition GetPlayers (guid : Z) (m : LFGMgr) : list Z := m_Players (group_data guid m).
Definition GetLeader (guid : Z) (m : LFGMgr) : Z := m_Leader (group_data guid m).
Definition GetDungeon (guid : Z) (asId : bool) (m : LFGMgr) : Z := GroupData_GetDungeon asId (group_data guid m).
Definition GetKicksLeft (guid : Z) (m : LFGMgr) : Z := m_KicksLeft (group_data guid m).
Definition IsLfgGroup (guid : Z) (m : LFGMgr) : bool :=
  negb (guid =? 0) && IS_GROUP guid && GroupData_IsLfgGroup (group_data guid m).

Definition AllQueued (check : list Z) (m : LFGMgr) : bool :=
  match check with
  | [] => false
  | _ => forallb (fun guid => bool_decide (GetState guid m = LFG_STATE_QUEUED)) check
  end.

(** The id of the queue of a player's team, or of a group's first player. *)
Definition GetQueue (guid : Z) (m : LFGMgr) : Z :=
  if IS_GROUP guid then
    match GetPlayers guid m with
    | pguid :: _ => if pguid =? 0 then 0 else GetTeam pguid m
    | [] => 0
    end
  else GetTeam guid m.

Definition AddProposal (proposal : LfgProposal) (m : LFGMgr) : LFGMgr :=
  let id := u32 (m_lfgProposalId m + 1) in
  set_ProposalsStore (map_set id proposal (ProposalsStore m)) (set_lfgProposalId id m).

End LfgData.
