(* ===== verification/LfgQueue.v ===== *)
(** * LfgQueue: finding groups for dungeons

    [LFGQueue] ([game/DungeonFinding/LFGQueue.cpp]). A queued player or group is
    a guid; the compatibility of a list of guids is cached under a key, the
    concatenation of their decimal digits, and entries are found again by
    searching the digits in the key, as the code does. The functions pass on the
    queue and the manager's data. Random choices are functions of the number of
    the proposal; who is online and ignores whom are arguments. *)
From Stdlib Require Import Ascii.
From S2P Require Import Prelude OrderedMap LfgRoles LfgData.
#[global] Open Scope Z_scope.

Module LfgQueue.
Import LfgRoles LfgData.

(** ** Keys *)

Definition digits (guid : Z) : string := pretty guid.

Fixpoint join (l : list Z) : string :=
  match l with
  | [] => ""
  | [g] => digits g
  | g :: l => digits g +:+ "|" +:+ join l
  end.

Definition ConcatenateGuids (check : list Z) : string := join (foldr set_add [] check).

(** [npos != key.find(s)] *)
Fixpoint contains (s key : string) : bool :=
  String.prefix s key ||
  match key with
  | EmptyString => false
  | String _ key => contains s key
  end.

(** [std::count(begin, end, '|')] *)
Fixpoint count_bars (key : string) : Z :=
  match key with
  | EmptyString => 0
  | String c key => (if Ascii.eqb c "|"%char then 1 else 0) + count_bars key
  end.

(** [std::map] with keys that are strings. *)
Fixpoint key_find {A} (key : string) (m : list (string * A)) : option A :=
  match m with
  | [] => None
  | (k, a) :: m => if String.eqb key k then Some a else key_find key m
  end.

Fixpoint key_set {A} (key : string) (a : A) (m : list (string * A)) : list (string * A) :=
  match m with
  | [] => [(key, a)]
  | (k, b) :: m' =>
      if String.ltb key k then (key, a) :: m
      else if String.eqb key k then (key, a) :: m'
      else (k, b) :: key_set key a m'
  end.

(** ** The cache *)
Definition SetCompatibilityData (key : string) (data : LfgCompatibilityData) (q : LFGQueue) : LFGQueue :=
  set_CompatibleMapStore (key_set key data (CompatibleMapStore q)) q.

Definition SetCompatibles (key : string) (c : LfgCompatibility) (q : LFGQueue) : LFGQueue :=
  let roles := match key_find key (CompatibleMapStore q) with Some d => c_roles d | None => [] end in
  SetCompatibilityData key (mkCompatibility c roles) q.

Definition GetCompatibles (key : string) (q : LFGQueue) : LfgCompatibility :=
  match key_find key (CompatibleMapStore q) with
  | Some d => compatibility d
  | None => LFG_COMPATIBILITY_PENDING
  end.

Definition RemoveFromCompatibles (guid : Z) (q : LFGQueue) : LFGQueue :=
  set_CompatibleMapStore (List.filter (fun kd => negb (contains (digits guid) (fst kd))) (CompatibleMapStore q)) q.

(** ** The best combination so far *)

(** What is still needed, for the roles assigned; 8-bit counters. *)
Definition still_needed (roles : LfgRolesMap) : Z * Z * Z :=
  fold_left (fun '(tanks, healers, dps) p =>
    if has (snd p) PLAYER_ROLE_TANK then (u8 (tanks - 1), healers, dps)
    else if has (snd p) PLAYER_ROLE_HEALER then (tanks, u8 (healers - 1), dps)
    else (tanks, healers, u8 (dps - 1))) roles (LFG_TANKS_NEEDED, LFG_HEALERS_NEEDED, LFG_DPS_NEEDED).

Definition update_best (key : string) (roles : LfgRolesMap) (d : LfgQueueData) : LfgQueueData :=
  let storedSize := if String.eqb (bestCompatible d) "" then 0 else u8 (count_bars (bestCompatible d) + 1) in
  let size := u8 (count_bars key + 1) in
  if size <=? storedSize then d
  else
    let '(tanks, healers, dps) := still_needed roles in
    mkQueueData (joinTime d) tanks healers dps (dungeons d) (LfgData.roles d) key.

Definition UpdateBestCompatibleInQueue (guid : Z) (key : string) (roles : LfgRolesMap) (q : LFGQueue) : LFGQueue :=
  match map_find guid (QueueDataStore q) with
  | Some d => set_QueueDataStore (map_set guid (update_best key roles d) (QueueDataStore q)) q
  | None => q
  end.

Definition FindBestCompatibleInQueue (guid : Z) (q : LFGQueue) : LFGQueue :=
  fold_left (fun q kd =>
    if bool_decide (compatibility (snd kd) = LFG_COMPATIBLES_WITH_LESS_PLAYERS) && contains (digits guid) (fst kd)
    then UpdateBestCompatibleInQueue guid (fst kd) (c_roles (snd kd)) q
    else q) (CompatibleMapStore q) q.

(** ** Adding and removing *)
Definition AddToNewQueue (guid : Z) (q : LFGQueue) : LFGQueue := set_newToQueueStore (newToQueueStore q ++ [guid]) q.
Definition AddToCurrentQueue (guid : Z) (q : LFGQueue) : LFGQueue :=
  set_currentQueueStore (currentQueueStore q ++ [guid]) q.
Definition RemoveFromNewQueue (guid : Z) (q : LFGQueue) : LFGQueue :=
  set_newToQueueStore (set_del guid (newToQueueStore q)) q.
Definition RemoveFromCurrentQueue (guid : Z) (q : LFGQueue) : LFGQueue :=
  set_currentQueueStore (set_del guid (currentQueueStore q)) q.

Definition AddToQueue (guid : Z) (q : LFGQueue) : LFGQueue :=
  match map_find guid (QueueDataStore q) with
  | None => q
  | Some _ => AddToNewQueue guid q
  end.

Definition new_queue_data (time : Z) (dungeons : list Z) (roles : LfgRolesMap) : LfgQueueData :=
  mkQueueData time LFG_TANKS_NEEDED LFG_HEALERS_NEEDED LFG_DPS_NEEDED dungeons roles "".

Definition AddQueueData (guid joinTime : Z) (dungeons : list Z) (rolesMap : LfgRolesMap) (q : LFGQueue) : LFGQueue :=
  AddToQueue guid (set_QueueDataStore (map_set guid (new_queue_data joinTime dungeons rolesMap) (QueueDataStore q)) q).

Definition RemoveQueueData (guid : Z) (q : LFGQueue) : LFGQueue :=
  set_QueueDataStore (map_erase guid (QueueDataStore q)) q.

(** The loop body of [RemoveFromQueue], for an entry. *)
Definition forget_in (guid : Z) (q : LFGQueue) (other : Z) : LFGQueue :=
  match map_find other (QueueDataStore q) with
  | Some d =>
      if negb (other =? guid) && contains (digits guid) (bestCompatible d) then
        FindBestCompatibleInQueue other
          (set_QueueDataStore (map_set other (set_bestCompatible "" d) (QueueDataStore q)) q)
      else q
  | None => q
  end.

Definition RemoveFromQueue (guid : Z) (q : LFGQueue) : LFGQueue :=
  let q := RemoveFromCompatibles guid (RemoveFromCurrentQueue guid (RemoveFromNewQueue guid q)) in
  let q := fold_left (forget_in guid) (map fst (QueueDataStore q)) q in
  set_QueueDataStore (map_erase guid (QueueDataStore q)) q.

(** [GetJoinTime] makes an entry when there is none. *)
Definition GetJoinTime (now guid : Z) (q : LFGQueue) : Z * LFGQueue :=
  match map_find guid (QueueDataStore q) with
  | Some d => (joinTime d, q)
  | None => (now, set_QueueDataStore (map_set guid (new_queue_data now [] []) (QueueDataStore q)) q)
  end.

(** ** Waiting times *)
Definition new_wait_time : LfgWaitTime := mkWaitTime (-1) 0.
Definition wait_time (dungeonId : Z) (m : list (Z * LfgWaitTime)) : LfgWaitTime :=
  default new_wait_time (map_find dungeonId m).

(** [int32((wt.time * old_number + waitTime) / wt.number)]: the operands are
    converted to [uint32]. *)
Definition average_in (waitTime : Z) (wt : LfgWaitTime) : LfgWaitTime :=
  let number := u32 (wt_number wt + 1) in
  mkWaitTime (s32 (u32 (u32 (wt_time wt) * wt_number wt + waitTime) / number)) number.

Definition update_wait_time (waitTime dungeonId : Z) (m : list (Z * LfgWaitTime)) : list (Z * LfgWaitTime) :=
  map_set dungeonId (average_in waitTime (wait_time dungeonId m)) m.

Definition UpdateWaitTimeAvg (waitTime dungeonId : Z) (q : LFGQueue) : LFGQueue :=
  set_waitTimesAvgStore (update_wait_time waitTime dungeonId (waitTimesAvgStore q)) q.
Definition UpdateWaitTimeTank (waitTime dungeonId : Z) (q : LFGQueue) : LFGQueue :=
  set_waitTimesTankStore (update_wait_time waitTime dungeonId (waitTimesTankStore q)) q.
Definition UpdateWaitTimeHealer (waitTime dungeonId : Z) (q : LFGQueue) : LFGQueue :=
  set_waitTimesHealerStore (update_wait_time waitTime dungeonId (waitTimesHealerStore q)) q.
Definition UpdateWaitTimeDps (waitTime dungeonId : Z) (q : LFGQueue) : LFGQueue :=
  set_waitTimesDpsStore (update_wait_time waitTime dungeonId (waitTimesDpsStore q)) q.

(** ** Compatibility *)

(** The queue and the manager's data. *)
Record QW := mkQW { queue : LFGQueue; mgr : LFGMgr }.
Definition on_queue (f : LFGQueue -> LFGQueue) (w : QW) : QW := mkQW (f (queue w)) (mgr w).

Class Surroundings := {
  now : Z;
  FindPlayer : Z -> bool;
  Social_HasIgnore : Z -> Z -> bool;
  SelectRandom : Z -> list Z -> Z;
  coin : Z -> Z -> bool
}.

Section Queue.
Context `{Surroundings}.

(** The low part of the guid of a player. *)
Definition GUID_LOPART (guid : Z) : Z := Z.land guid 0xFFFFFFFF.

Definition HasIgnore (guid1 guid2 : Z) : bool :=
  FindPlayer guid1 && FindPlayer guid2
  && (Social_HasIgnore guid1 (GUID_LOPART guid2) || Social_HasIgnore guid2 (GUID_LOPART guid1)).

(** The players counted, the LFG groups, the group of each player and the group
    of the proposal. *)
Record Joining := mkJoining {
  numPlayers : Z;
  numLfgGroups : Z;
  proposalGroups : list (Z * Z);
  lfgGroup : Z
}.

(** The first loop; it stops at a guid without data. *)
Fixpoint count_joining (check : list Z) (j : Joining) (w : QW) : Joining + Z :=
  match check with
  | [] => inl j
  | guid :: check =>
      if (numLfgGroups j <? 2) && (numPlayers j <=? MAXGROUPSIZE) then
        match map_find guid (QueueDataStore (queue w)) with
        | None => inr guid
        | Some d =>
            let groups := fold_left (fun m p => map_set (fst p) (if IS_GROUP guid then guid else 0) m) (roles d)
                            (proposalGroups j) in
            let players := u8 (numPlayers j + Z.of_nat (length (roles d))) in
            let lfg := IsLfgGroup guid (mgr w) in
            count_joining check
              (mkJoining players (if lfg then numLfgGroups j + 1 else numLfgGroups j) groups
                 (if lfg && (numLfgGroups j =? 0) then guid else lfgGroup j)) w
        end
      else inl j
  end.

(** The players of the groups; one is left out if he and one before him ignore
    each other. *)
Definition add_player (m : LfgRolesMap) (p : Z * Z) : LfgRolesMap :=
  if existsb (fun p' => negb (fst p =? fst p') && HasIgnore (fst p) (fst p')) m then m
  else map_set (fst p) (snd p) m.
Definition collect_roles (check : list Z) (q : LFGQueue) : LfgRolesMap :=
  fold_left (fun m guid =>
    match map_find guid (QueueDataStore q) with Some d => fold_left add_player (roles d) m | None => m end) check [].

Definition dungeons_of (guid : Z) (q : LFGQueue) : list Z :=
  match map_find guid (QueueDataStore q) with Some d => dungeons d | None => [] end.

(** [std::set_intersection] *)
Definition intersection (a b : list Z) : list Z := filter (fun d => d ∈ b) a.
Definition common_dungeons (check : list Z) (q : LFGQueue) : list Z :=
  match check with
  | [] => []
  | guid :: rest => fold_left (fun ds g => intersection ds (dungeons_of g q)) rest (dungeons_of guid q)
  end.

(** The leader of the proposal: the last of those who draw a coin, the first
    player to begin with; those with the leader's flag go before. *)
Definition consider_leader (id : Z) (st : Z * bool) (p : Z * Z) : Z * bool :=
  let '(proposal_leader, leader) := st in
  if has (snd p) PLAYER_ROLE_LEADER then
    (if negb leader || (proposal_leader =? 0) || coin id (fst p) then fst p else proposal_leader, true)
  else if negb leader && ((proposal_leader =? 0) || coin id (fst p)) then (fst p, leader)
  else (proposal_leader, leader).
Definition choose_leader (id : Z) (players : LfgRolesMap) : Z :=
  fst (fold_left (consider_leader id) players (0, false)).

Definition make_proposal (check : list Z) (j : Joining) (proposalDungeons : list Z) (proposalRoles : LfgRolesMap) (id : Z)
    : LfgProposal :=
  let isNew :=
    negb ((length check =? 1)%nat
          && existsb (fun pg => negb (lfgGroup j =? 0) && negb (snd pg =? lfgGroup j)) (proposalGroups j)) in
  mkProposal (SelectRandom id proposalDungeons) LFG_PROPOSAL_INITIATING (lfgGroup j) (choose_leader id proposalRoles)
    (now + LFG_TIME_PROPOSAL) 0 isNew check
    (map (fun p =>
       let group := default 0 (map_find (fst p) (proposalGroups j)) in
       (fst p, mkProposalPlayer (snd p)
                 (if negb isNew && negb (group =? 0) && (group =? lfgGroup j) then LFG_ANSWER_AGREE
                  else LFG_ANSWER_PENDING) group)) proposalRoles).

(** From the test for five players on. *)
Definition propose (check : list Z) (strGuids : string) (j : Joining) (proposalDungeons : list Z)
    (proposalRoles : LfgRolesMap) (w : QW) : LfgCompatibility * QW :=
  if negb (numPlayers j =? MAXGROUPSIZE) then
    let q := fold_left (fun q guid => UpdateBestCompatibleInQueue guid strGuids proposalRoles q) check (queue w) in
    (LFG_COMPATIBLES_WITH_LESS_PLAYERS,
     mkQW (SetCompatibilityData strGuids (mkCompatibility LFG_COMPATIBLES_WITH_LESS_PLAYERS proposalRoles) q) (mgr w))
  else if negb (AllQueued check (mgr w)) then
    (LFG_COMPATIBLES_BAD_STATES, on_queue (SetCompatibles strGuids LFG_COMPATIBLES_BAD_STATES) w)
  else
    let proposal := make_proposal check j proposalDungeons proposalRoles (u32 (m_lfgProposalId (mgr w) + 1)) in
    let q := fold_left (fun q guid => RemoveFromCurrentQueue guid (RemoveFromNewQueue guid q)) check (queue w) in
    (LFG_COMPATIBLES_MATCH, mkQW (SetCompatibles strGuids LFG_COMPATIBLES_MATCH q) (AddProposal proposal (mgr w))).

(** From the first loop on. *)
Definition check_joining (check : list Z) (w : QW) : LfgCompatibility * QW :=
  let strGuids := ConcatenateGuids check in
  let answer c := (c, on_queue (SetCompatibles strGuids c) w) in
  match count_joining check (mkJoining 0 0 [] 0) w with
  | inr guid => (LFG_COMPATIBILITY_PENDING, on_queue (RemoveFromQueue guid) w)
  | inl j =>
      let single := (length check =? 1)%nat in
      let guid := default 0 (head check) in
      let own := match map_find guid (QueueDataStore (queue w)) with Some d => roles d | None => [] end in
      if single && negb (numPlayers j =? MAXGROUPSIZE) then
        let data := mkCompatibility LFG_COMPATIBLES_WITH_LESS_PLAYERS (snd (CheckGroupRoles own)) in
        (LFG_COMPATIBLES_WITH_LESS_PLAYERS,
         on_queue (fun q => SetCompatibilityData strGuids data (UpdateBestCompatibleInQueue guid strGuids (c_roles data) q)) w)
      else if 1 <? numLfgGroups j then answer LFG_INCOMPATIBLES_MULTIPLE_LFG_GROUPS
      else if MAXGROUPSIZE <? numPlayers j then answer LFG_INCOMPATIBLES_TOO_MUCH_PLAYERS
      else if negb single then
        let proposalRoles := collect_roles check (queue w) in
        if negb (u8 (numPlayers j - Z.of_nat (length proposalRoles)) =? 0) then answer LFG_INCOMPATIBLES_HAS_IGNORES
        else
          match CheckGroupRoles proposalRoles with
          | (false, _) => answer LFG_INCOMPATIBLES_NO_ROLES
          | (true, proposalRoles) =>
              match common_dungeons check (queue w) with
              | [] => answer LFG_INCOMPATIBLES_NO_DUNGEONS
              | proposalDungeons => propose check strGuids j proposalDungeons proposalRoles w
              end
          end
      else propose check strGuids j (dungeons_of guid (queue w)) (snd (CheckGroupRoles own)) w
  end.

(** All but the first are checked first. *)
Fixpoint CheckCompatibility (check : list Z) (w : QW) : LfgCompatibility * QW :=
  if (5 <? length check)%nat then (LFG_INCOMPATIBLES_WRONG_GROUP_SIZE, w)
  else
    match check with
    | [] => (LFG_INCOMPATIBLES_WRONG_GROUP_SIZE, w)
    | _ :: rest =>
        if (2 <? length check)%nat then
          let '(child_compatibles, w) := CheckCompatibility rest w in
          if incompatible child_compatibles then
            (child_compatibles, on_queue (SetCompatibles (ConcatenateGuids check) child_compatibles) w)
          else check_joining check w
        else check_joining check w
    end.

(** ** The search *)

(** The head of [FindNewGroups]: what is known or found out about [check]. *)
Definition known_or_checked (check : list Z) (w : QW) : LfgCompatibility * QW :=
  let strGuids := ConcatenateGuids check in
  let '(compatibles, w) :=
    match GetCompatibles strGuids (queue w) with
    | LFG_COMPATIBILITY_PENDING => CheckCompatibility check w
    | c => (c, w)
    end in
  if bool_decide (compatibles = LFG_COMPATIBLES_BAD_STATES) && AllQueued check (mgr w)
  then (LFG_COMPATIBLES_MATCH, on_queue (SetCompatibles strGuids LFG_COMPATIBLES_MATCH) w)
  else (compatibles, w).

(** The loop of [FindNewGroups], with the recursive call; both take from [all]. *)
Fixpoint match_queued (fuel : nat) (check all : list Z) (compatibles : LfgCompatibility) (w : QW)
    : LfgCompatibility * list Z * QW :=
  match fuel, all with
  | S fuel, guid :: all =>
      let '(sub, w) := known_or_checked (check ++ [guid]) w in
      let '(sub, all, w) :=
        if bool_decide (sub = LFG_COMPATIBLES_WITH_LESS_PLAYERS) then match_queued fuel (check ++ [guid]) all sub w
        else (sub, all, w) in
      if bool_decide (sub = LFG_COMPATIBLES_MATCH) then (LFG_COMPATIBLES_MATCH, all, w)
      else match_queued fuel check all compatibles w
  | _, _ => (compatibles, all, w)
  end.

Definition FindNewGroups (check all : list Z) (w : QW) : LfgCompatibility * list Z * QW :=
  let '(compatibles, w) := known_or_checked check w in
  if bool_decide (compatibles = LFG_COMPATIBLES_WITH_LESS_PLAYERS) then match_queued (length all) check all compatibles w
  else (compatibles, all, w).

Fixpoint FindGroups_loop (fuel : nat) (proposals : Z) (w : QW) : Z * QW :=
  match fuel, newToQueueStore (queue w) with
  | S fuel, frontguid :: _ =>
      let w := on_queue (RemoveFromNewQueue frontguid) w in
      let '(compatibles, _, w) := FindNewGroups [frontguid] (currentQueueStore (queue w)) w in
      if bool_decide (compatibles = LFG_COMPATIBLES_MATCH) then FindGroups_loop fuel (u8 (proposals + 1)) w
      else FindGroups_loop fuel proposals (on_queue (AddToCurrentQueue frontguid) w)
  | _, _ => (proposals, w)
  end.

Definition FindGroups (w : QW) : Z * QW := FindGroups_loop (length (newToQueueStore (queue w))) 0 w.

(** ** The queue status *)

(** The waiting time shown for the roles of a group, and the message to its
    players; [None] where [*dungeons.begin()] has nothing to point to. *)
Definition queue_status (currTime guid : Z) (q : LFGQueue) : option (list Event) :=
  match map_find guid (QueueDataStore q) with
  | None => Some []
  | Some d =>
      match dungeons d with
      | [] => None
      | dungeonId :: _ =>
          let time_in store := wt_time (wait_time dungeonId (store q)) in
          let role := without_leader (fold_left (fun r p => Z.lor r (snd p)) (roles d) PLAYER_ROLE_NONE) in
          let waitTime :=
            if role =? PLAYER_ROLE_NONE then -1
            else if role =? PLAYER_ROLE_TANK then time_in waitTimesTankStore
            else if role =? PLAYER_ROLE_HEALER then time_in waitTimesHealerStore
            else if role =? PLAYER_ROLE_DAMAGE then time_in waitTimesDpsStore
            else time_in waitTimesAvgStore in
          Some (map (fun p =>
            SendLfgQueueStatus (fst p) dungeonId waitTime (time_in waitTimesAvgStore) (time_in waitTimesTankStore)
              (time_in waitTimesHealerStore) (time_in waitTimesDpsStore) (u32 (currTime - joinTime d))
              (tanks d) (healers d) (dps d)) (roles d))
      end
  end.

Definition UpdateQueueTimers (currTime : Z) (w : QW) : option QW :=
  fold_left (fun ow guid =>
    match ow with
    | None => None
    | Some w =>
        let best := match map_find guid (QueueDataStore (queue w)) with Some d => bestCompatible d | None => "" end in
        let q := if String.eqb best "" then FindBestCompatibleInQueue guid (queue w) else queue w in
        match queue_status currTime guid q with
        | Some es => Some (mkQW q (log es (mgr w)))
        | None => None
        end
    end) (map fst (QueueDataStore (queue w))) (Some w).
End Queue.

(** ** Concrete queues *)

(** Players 1, 2, ... with the roles and dungeons given, queued in this order. *)
Definition queued_state : LfgPlayerData := PlayerData_SetState LFG_STATE_QUEUED new_player_data.
Definition empty_queue : LFGQueue := mkQueue [] [] [] [] [] [] [] [].
Definition empty_mgr : LFGMgr := mkMgr 0 0 [] [] [] [] ∅ ∅ [] [].
Definition example_world (l : list (Z * (Z * list Z))) : QW :=
  mkQW (fold_left (fun q e => AddQueueData (fst e) 0 (snd (snd e)) [(fst e, fst (snd e))] q) l empty_queue)
    (fold_left (fun m e => SetState (fst e) LFG_STATE_QUEUED m) l empty_mgr).
Definition example_surroundings (ignores : Z -> Z -> bool) : Surroundings := {|
  now := 1000;
  FindPlayer := fun _ => true;
  Social_HasIgnore := ignores;
  SelectRandom := fun _ l => default 0 (head l);
  coin := fun _ _ => false
|}.
Definition proposals_of (w : QW) : list (list Z) := map (fun p => queues (snd p)) (ProposalsStore (mgr w)).

(** Five players who fit are put into a proposal. *)
Example five_matched :
  let w := snd (@FindGroups (example_surroundings (fun _ _ => false))
             (example_world [(1, (9, [10; 20])); (2, (2, [20])); (3, (8, [20])); (4, (12, [10; 20])); (5, (8, [20; 30]))])) in
  map snd (ProposalsStore (mgr w)) =
    [mkProposal 20 LFG_PROPOSAL_INITIATING 0 1 1120 0 true [5; 1; 2; 3; 4]
       [(1, mkProposalPlayer 8 LFG_ANSWER_PENDING 0); (2, mkProposalPlayer 2 LFG_ANSWER_PENDING 0);
        (3, mkProposalPlayer 8 LFG_ANSWER_PENDING 0); (4, mkProposalPlayer 4 LFG_ANSWER_PENDING 0);
        (5, mkProposalPlayer 8 LFG_ANSWER_PENDING 0)]]
  /\ newToQueueStore (queue w) = [] /\ currentQueueStore (queue w) = [].
Proof. vm_compute. repeat split. Qed.

(** ** What a proposal is made of *)

(** The roles and dungeons a guid is queued with. *)
Definition data_of (q : LFGQueue) (guid : Z) : option (LfgRolesMap * list Z) :=
  (fun d => (roles d, dungeons d)) <$> map_find guid (QueueDataStore q).

(** What joining makes of an entry: the players in the order of their guids, and
    a full group only if its roles and dungeons have been checked. *)
Definition entry_ok (e : LfgRolesMap * list Z) : Prop :=
  map_sorted e.1 /\ Z.of_nat (length e.1) <= 40
  /\ (Z.of_nat (length e.1) = MAXGROUPSIZE -> assignable (remove_leaders e.1) /\ e.2 <> []).
Definition queue_ok (q : LFGQueue) : Prop := forall g e, data_of q g = Some e -> entry_ok e.

Definition players_of (q : LFGQueue) (check : list Z) : LfgRolesMap :=
  check ≫= (fun g => default [] (fst <$> data_of q g)).

(** A group that can start: five players, the players of the guids it was put
    together from, one tank, one healer and three damage dealers, each in a role
    he chose; nobody ignores another from a different guid; a dungeon all have
    chosen; a leader from among them; at most one group that has started. *)
Record sound_proposal `{Surroundings} (q : LFGQueue) (m : LFGMgr) (p : LfgProposal) : Prop := {
  sound_size : Z.of_nat (length (pr_players p)) = MAXGROUPSIZE;
  sound_sorted : map_sorted (pr_players p);
  sound_players : forall x, x ∈ (pr_players p).*1 <-> x ∈ (players_of q (queues p)).*1;
  sound_roles : forall x pp, (x, pp) ∈ pr_players p ->
    exists r, (x, r) ∈ players_of q (queues p) /\ chooses (without_leader r) (pp_role pp);
  sound_counts : forall role n, (role, n) ∈ [(PLAYER_ROLE_TANK, 1); (PLAYER_ROLE_HEALER, 1); (PLAYER_ROLE_DAMAGE, 3)] ->
    players_as role (prod_map id pp_role <$> pr_players p) = n;
  sound_groups : forall x pp, (x, pp) ∈ pr_players p ->
    exists g, g ∈ queues p /\ x ∈ (players_of q [g]).*1 /\ pp_group pp = if IS_GROUP g then g else 0;
  sound_ignores : (1 < length (queues p))%nat ->
    forall x y, x ∈ (pr_players p).*1 -> y ∈ (pr_players p).*1 -> x <> y -> HasIgnore x y = false;
  sound_dungeon : forall g e, g ∈ queues p -> data_of q g = Some e -> dungeonId p ∈ e.2;
  sound_leader : pr_leader p ∈ (pr_players p).*1;
  sound_lfg : (length (filter (fun g => IsLfgGroup g m = true) (queues p)) <= 1)%nat;
  sound_new : isNew p = true
}.

(** *** Collecting the players *)
Section Collect.
Context `{Surroundings}.

Lemma HasIgnore_sym x y : HasIgnore x y = HasIgnore y x.
Proof. unfold HasIgnore. by rewrite (andb_comm (FindPlayer x)), orb_comm. Qed.

Lemma add_player_length m p :
  map_sorted m ->
  map_sorted (add_player m p) /\ (length (add_player m p) <= S (length m))%nat
  /\ (length (add_player m p) = S (length m) ->
        (p.1 ∉ m.*1) /\ (forall e, (e ∈ add_player m p) <-> (e = p \/ e ∈ m))
        /\ forall x, x ∈ m.*1 -> HasIgnore p.1 x = false).
Proof.
  intros Hs. unfold add_player. destruct (existsb _ m) eqn:E; [split_and!; [done|lia|lia]|].
  split_and!; [by apply map_set_sorted|apply length_map_set|]. intros Hlen.
  assert (p.1 ∉ m.*1) as Hn.
  { intros Hin.
    destruct (map_find p.1 m) as [b|] eqn:Hf; [|by apply map_find_None in Hf].
    pose proof (map_set_same_keys _ p.2 _ _ Hs Hf) as K. apply (f_equal length) in K. rewrite !length_map in K.
    change (p.1) with (fst p) in *. lia. }
  split_and!; [done| |].
  - intros [k a]. destruct p as [x r]. simpl in *.
    rewrite <- (map_find_elem (map_set x r m)) by by apply map_set_sorted. rewrite <- (map_find_elem m) by done.
    destruct (decide (k = x)) as [->|Hne].
    + rewrite map_find_set. apply map_find_None in Hn. rewrite Hn. naive_solver.
    + rewrite map_find_set_ne by done. naive_solver.
  - intros x Hx. apply list_elem_of_fmap in Hx as ([k a] & -> & Hx).
    apply not_true_iff_false. intros Hi. apply not_true_iff_false in E. apply E. apply existsb_exists.
    exists (k, a). split; [by apply list_elem_of_In|]. simpl in *. rewrite Hi, andb_true_r.
    apply negb_true_iff, Z.eqb_neq. intros Hp. apply Hn. rewrite Hp. apply list_elem_of_fmap. by exists (k, a).
Qed.

(** If nobody was left out, the players are distinct and do not ignore each
    other. *)
Lemma add_players_length ps :
  let m := fold_left add_player ps [] in
  map_sorted m /\ (length m <= length ps)%nat
  /\ (length m = length ps ->
        (forall e, e ∈ m <-> e ∈ ps)
        /\ forall x y, x ∈ m.*1 -> y ∈ m.*1 -> x <> y -> HasIgnore x y = false).
Proof.
  induction ps as [|p ps IH] using rev_ind; simpl.
  { split_and!; [constructor|done|]. intros _. split; [done|]. intros x y Hx. by apply elem_of_nil in Hx. }
  rewrite fold_left_app. simpl. set (m := fold_left add_player ps []) in *. destruct IH as (Hs & Hle & IH).
  destruct (add_player_length m p Hs) as (Hs' & Hle' & Hadd). rewrite length_app. simpl.
  split_and!; [done|lia|]. intros Hlen. destruct (IH ltac:(lia)) as [Hm Hi]. destruct (Hadd ltac:(lia)) as (Hn & He & Hg).
  split.
  - intros e. rewrite He, Hm, elem_of_app, list_elem_of_singleton. tauto.
  - assert (forall x, x ∈ (add_player m p).*1 -> x = p.1 \/ x ∈ m.*1) as Hk.
    { intros x Hx. apply list_elem_of_fmap in Hx as (e & -> & Hx). apply He in Hx as [->|Hx]; [by left|].
      right. apply list_elem_of_fmap. by exists e. }
    intros x y Hx Hy Hxy. destruct (Hk x Hx) as [->|Hx'], (Hk y Hy) as [->|Hy']; [done| | |by apply Hi].
    + by apply Hg.
    + rewrite HasIgnore_sym. by apply Hg.
Qed.

Lemma collect_roles_eq check q : collect_roles check q = fold_left add_player (players_of q check) [].
Proof.
  unfold collect_roles. set (f := fun _ _ => _).
  enough (forall m, fold_left f check m = fold_left add_player (players_of q check) m) by done.
  induction check as [|g check IH]; intros m; [done|].
  unfold players_of. rewrite bind_cons, fold_left_app. cbn [fold_left]. rewrite IH. unfold f, data_of.
  by destruct (map_find g (QueueDataStore q)).
Qed.
End Collect.

(** ** What the steps of a check change *)

(** The queue's lists and data; the best combinations and the cache may
    differ. *)
Record same_queued (q q' : LFGQueue) : Prop := {
  same_new : newToQueueStore q' = newToQueueStore q;
  same_current : currentQueueStore q' = currentQueueStore q;
  same_data : forall g, data_of q' g = data_of q g
}.

Lemma same_queued_refl q : same_queued q q.
Proof. by constructor. Qed.
Lemma same_queued_trans q1 q2 q3 : same_queued q1 q2 -> same_queued q2 q3 -> same_queued q1 q3.
Proof. intros [A1 A2 A3] [B1 B2 B3]. split; [congruence|congruence|]. intros g. by rewrite B3. Qed.

Lemma data_of_set q g d d' :
  map_find g (QueueDataStore q) = Some d -> roles d' = roles d -> dungeons d' = dungeons d ->
  forall g', data_of (set_QueueDataStore (map_set g d' (QueueDataStore q)) q) g' = data_of q g'.
Proof.
  intros Hf Hr Hd g'. unfold data_of. simpl. destruct (decide (g' = g)) as [->|Hne].
  - rewrite map_find_set, Hf. simpl. by rewrite Hr, Hd.
  - by rewrite map_find_set_ne.
Qed.

Lemma update_best_data key rs d : roles (update_best key rs d) = roles d /\ dungeons (update_best key rs d) = dungeons d.
Proof.
  unfold update_best. destruct (_ <=? _); [done|]. by destruct (still_needed rs) as [[? ?] ?].
Qed.

Lemma UpdateBest_same g key rs q :
  same_queued q (UpdateBestCompatibleInQueue g key rs q)
  /\ CompatibleMapStore (UpdateBestCompatibleInQueue g key rs q) = CompatibleMapStore q.
Proof.
  unfold UpdateBestCompatibleInQueue. destruct (map_find g (QueueDataStore q)) as [d|] eqn:E; [|done].
  split; [|done]. split; [done|done|]. destruct (update_best_data key rs d). by eapply data_of_set.
Qed.

Lemma FindBest_same g q :
  same_queued q (FindBestCompatibleInQueue g q) /\ CompatibleMapStore (FindBestCompatibleInQueue g q) = CompatibleMapStore q.
Proof.
  unfold FindBestCompatibleInQueue. generalize (CompatibleMapStore q) at 1 2. intros l. revert q.
  induction l as [|kd l IH]; intros q; [done|]. cbn [fold_left]. destruct (_ && _); [|apply IH].
  destruct (UpdateBest_same g (fst kd) (c_roles (snd kd)) q) as [S E].
  destruct (IH (UpdateBestCompatibleInQueue g (fst kd) (c_roles (snd kd)) q)) as [S' E'].
  split; [by eapply same_queued_trans|congruence].
Qed.

Lemma forget_same g q l : same_queued q (fold_left (forget_in g) l q).
Proof.
  revert q. induction l as [|o l IH]; intros q; [done|]. cbn [fold_left]. eapply same_queued_trans; [|apply IH].
  unfold forget_in. destruct (map_find o (QueueDataStore q)) as [d|] eqn:E; [|done]. destruct (_ && _); [|done].
  eapply same_queued_trans; [|apply FindBest_same]. split; [done|done|]. by eapply data_of_set.
Qed.

Lemma data_of_erase g q g' :
  data_of (set_QueueDataStore (map_erase g (QueueDataStore q)) q) g' = if g' =? g then None else data_of q g'.
Proof.
  unfold data_of. simpl. destruct (Z.eqb_spec g' g) as [->|Hne]; [by rewrite map_find_erase|]. f_equal.
  unfold map_erase. induction (QueueDataStore q) as [|[k d] l IH]; [done|]. rewrite filter_cons. simpl.
  destruct (decide _) as [Hk|Hk]; simpl; [by rewrite IH|]. apply dec_stable in Hk as ->.
  by rewrite (proj2 (Z.eqb_neq g' g)).
Qed.

(** Leaving the queue: the guid's data are gone, the others' are kept, and it
    is in neither list. *)
Lemma RemoveFromQueue_data g q g' : data_of (RemoveFromQueue g q) g' = if g' =? g then None else data_of q g'.
Proof.
  unfold RemoveFromQueue. rewrite data_of_erase. destruct (g' =? g); [done|]. by rewrite (same_data _ _ (forget_same _ _ _)).
Qed.

Lemma RemoveFromQueue_lists g q :
  newToQueueStore (RemoveFromQueue g q) = set_del g (newToQueueStore q)
  /\ currentQueueStore (RemoveFromQueue g q) = set_del g (currentQueueStore q).
Proof.
  unfold RemoveFromQueue. set (q1 := RemoveFromCompatibles _ _).
  destruct (forget_same g q1 (map fst (QueueDataStore q1))) as [N C _]. done.
Qed.

Lemma fold_UpdateBest_same check key rs q :
  let q' := fold_left (fun q guid => UpdateBestCompatibleInQueue guid key rs q) check q in
  same_queued q q' /\ CompatibleMapStore q' = CompatibleMapStore q.
Proof.
  revert q. induction check as [|g check IH]; intros q; [done|]. cbn [fold_left].
  destruct (UpdateBest_same g key rs q) as [S E]. destruct (IH (UpdateBestCompatibleInQueue g key rs q)) as [S' E'].
  split; [by eapply same_queued_trans|congruence].
Qed.

Lemma fold_RemoveFromLists check q :
  let q' := fold_left (fun q guid => RemoveFromCurrentQueue guid (RemoveFromNewQueue guid q)) check q in
  (forall g, data_of q' g = data_of q g) /\ CompatibleMapStore q' = CompatibleMapStore q
  /\ (forall g, g ∈ newToQueueStore q' <-> g ∈ newToQueueStore q /\ g ∉ check)
  /\ (forall g, g ∈ currentQueueStore q' <-> g ∈ currentQueueStore q /\ g ∉ check)
  /\ (length (newToQueueStore q') <= length (newToQueueStore q))%nat
  /\ (length (currentQueueStore q') <= length (currentQueueStore q))%nat.
Proof.
  revert q. induction check as [|x check IH]; intros q.
  { split_and!; [done|done| | |done|done]; intros g; simpl; set_solver. }
  cbn [fold_left]. destruct (IH (RemoveFromCurrentQueue x (RemoveFromNewQueue x q))) as (D & C & N & U & L & L').
  split_and!; [done|done| | | |].
  - intros g. rewrite N. simpl. rewrite elem_of_set_del. set_solver.
  - intros g. rewrite U. simpl. rewrite elem_of_set_del. set_solver.
  - etransitivity; [exact L|]. simpl. apply length_set_del.
  - etransitivity; [exact L'|]. simpl. apply length_set_del.
Qed.

(** ** Counting *)
Lemma players_of_cons q g check : players_of q (g :: check) = players_of q [g] ++ players_of q check.
Proof. unfold players_of. by rewrite !bind_cons, app_nil_r. Qed.

Lemma players_of_data q g d : map_find g (QueueDataStore q) = Some d -> players_of q [g] = roles d.
Proof. intros E. unfold players_of, data_of. by rewrite bind_cons, E, app_nil_r. Qed.

Lemma fold_map_set_find (f : Z) (l : LfgRolesMap) m x :
  map_find x (fold_left (fun m p => map_set (fst p) f m) l m) = if bool_decide (x ∈ l.*1) then Some f else map_find x m.
Proof.
  revert m. induction l as [|[k r] l IH]; intros m; [done|]. cbn [fold_left]. rewrite IH. cbn [fmap list_fmap fst].
  destruct (decide (x ∈ l.*1)) as [Hx|Hx].
  - rewrite !bool_decide_eq_true_2 by set_solver. done.
  - rewrite (bool_decide_eq_false_2 (x ∈ l.*1)) by done. destruct (decide (x = k)) as [->|Hne].
    + rewrite bool_decide_eq_true_2 by set_solver. apply map_find_set.
    + rewrite bool_decide_eq_false_2 by set_solver. by apply map_find_set_ne.
Qed.

Lemma fold_map_set_values (f : Z) (l : LfgRolesMap) m :
  Forall (fun pg => pg.2 = f) m -> Forall (fun pg : Z * Z => pg.2 = f) (fold_left (fun m p => map_set (fst p) f m) l m).
Proof.
  revert m. induction l as [|[k r] l IH]; intros m Hm; [done|]. apply IH.
  induction Hm as [|[k' b] m Hb Hm IHm]; simpl; [by apply Forall_singleton|].
  destruct (k <? k'); [by repeat apply Forall_cons_2|]. destruct (k =? k'); by apply Forall_cons_2.
Qed.

(** The loop has seen every guid if it did not stop at too many groups or
    players. *)
Lemma count_joining_all check w j j' :
  queue_ok (queue w) -> 0 <= numPlayers j -> count_joining check j w = inl j' ->
  numLfgGroups j' <= 1 -> numPlayers j' <= MAXGROUPSIZE ->
  Forall (fun g => is_Some (map_find g (QueueDataStore (queue w)))) check
  /\ numPlayers j' = numPlayers j + Z.of_nat (length (players_of (queue w) check))
  /\ numLfgGroups j' = numLfgGroups j + Z.of_nat (length (filter (fun g => IsLfgGroup g (mgr w) = true) check))
  /\ (forall x, x ∉ (players_of (queue w) check).*1 -> map_find x (proposalGroups j') = map_find x (proposalGroups j))
  /\ (forall x, x ∈ (players_of (queue w) check).*1 -> exists g, g ∈ check /\ x ∈ (players_of (queue w) [g]).*1
        /\ map_find x (proposalGroups j') = Some (if IS_GROUP g then g else 0)).
Proof.
  intros Hok. revert j. induction check as [|g check IH]; intros j Hj E HL HP; cbn [count_joining] in E.
  { simplify_eq. split_and!; [constructor|simpl; lia|simpl; lia|done|]. intros x Hx. by apply elem_of_nil in Hx. }
  destruct ((numLfgGroups j <? 2) && (numPlayers j <=? MAXGROUPSIZE)) eqn:C; [|simplify_eq; lia].
  destruct (map_find g (QueueDataStore (queue w))) as [d|] eqn:F; [|done].
  assert (entry_ok (roles d, dungeons d)) as (_ & Hlen & _) by (apply (Hok g); unfold data_of; by rewrite F).
  simpl in Hlen. set (j1 := mkJoining _ _ _ _) in E.
  assert (numPlayers j1 = numPlayers j + Z.of_nat (length (roles d))) as Hj1.
  { simpl. apply wrap_id. unfold in_u. apply andb_true_iff in C as [_ C%Z.leb_le]. unfold MAXGROUPSIZE in C. width. }
  destruct (IH j1 ltac:(lia) E HL HP) as (A1 & A2 & A3 & A4 & A5).
  assert (forall x, map_find x (proposalGroups j1)
    = if bool_decide (x ∈ (players_of (queue w) [g]).*1) then Some (if IS_GROUP g then g else 0) else map_find x (proposalGroups j)) as Hg.
  { intros x. rewrite (players_of_data _ _ _ F). apply fold_map_set_find. }
  rewrite players_of_cons, fmap_app, length_app, filter_cons. rewrite (players_of_data _ _ _ F) at 1.
  split_and!.
  - constructor; [by eexists|done].
  - lia.
  - rewrite A3. simpl. destruct (IsLfgGroup g (mgr w)) eqn:G.
    + rewrite decide_True by done. simpl. lia.
    + rewrite decide_False by done. done.
  - intros x [Hx1 Hx2]%not_elem_of_app. rewrite A4, Hg by done. by rewrite bool_decide_eq_false_2.
  - intros x Hx. destruct (decide (x ∈ (players_of (queue w) check).*1)) as [Hx2|Hx2].
    + destruct (A5 x Hx2) as (g' & ? & ? & ?). exists g'. split_and!; [by right|done|done].
    + apply elem_of_app in Hx as [Hx|Hx]; [|done]. exists g. split_and!; [by left|done|].
      rewrite A4, Hg by done. by rewrite bool_decide_eq_true_2.
Qed.

(** A single guid's group is the proposal's if it is an LFG group. *)
Lemma count_joining_single g w j' :
  count_joining [g] (mkJoining 0 0 [] 0) w = inl j' ->
  existsb (fun pg => negb (lfgGroup j' =? 0) && negb (snd pg =? lfgGroup j')) (proposalGroups j') = false.
Proof.
  intros E. cbn [count_joining numLfgGroups numPlayers proposalGroups lfgGroup] in E.
  change ((0 <? 2) && (0 <=? MAXGROUPSIZE)) with true in E. destruct (map_find g _) as [d|]; [|discriminate].
  apply (inj inl) in E as <-. cbn [lfgGroup proposalGroups].
  apply not_true_iff_false. rewrite existsb_exists. intros ([x pg] & Hin & Hc). cbn [snd] in Hc.
  unfold IsLfgGroup in Hc. destruct (IS_GROUP g), (g =? 0) eqn:G0, (GroupData_IsLfgGroup _);
    cbn [negb andb] in Hc; try discriminate; rewrite ?G0 in Hc; cbn [negb andb] in Hc; try discriminate.
  assert (Forall (fun pg => pg.2 = g) (fold_left (fun m p => map_set (fst p) g m) (roles d) [])) as HF.
  { by apply fold_map_set_values. }
  rewrite Forall_forall in HF. apply list_elem_of_In, HF in Hin. simpl in Hin. subst.
  change (0 =? 0) with true in Hc. cbn iota in Hc. rewrite Z.eqb_refl, andb_false_r in Hc. discriminate.
Qed.

(** ** The parts of a proposal *)
Lemma common_dungeons_in check q d :
  d ∈ common_dungeons check q -> forall g, g ∈ check -> d ∈ dungeons_of g q.
Proof.
  destruct check as [|g0 check]; [by intros ?%elem_of_nil|]. cbn [common_dungeons].
  assert (forall l ds, d ∈ fold_left (fun ds g => intersection ds (dungeons_of g q)) l ds ->
    d ∈ ds /\ forall g, g ∈ l -> d ∈ dungeons_of g q) as Hf.
  { induction l as [|x l IH]; intros ds Hd; [split; [done|]; by intros g ?%elem_of_nil|].
    destruct (IH _ Hd) as [Hi Hl]. apply list_elem_of_filter in Hi as [Hx Hds]. split; [done|].
    intros g [->|Hg]%elem_of_cons; [done|by apply Hl]. }
  intros Hd g. destruct (Hf _ _ Hd) as [H0 Hl]. intros [->|Hg]%elem_of_cons; [done|by apply Hl].
Qed.

Section Propose.
Context `{Surroundings}.
Hypothesis (SelectRandom_in : forall id l, l <> [] -> SelectRandom id l ∈ l).

Lemma choose_leader_in id (m : LfgRolesMap) : m <> [] -> choose_leader id m ∈ m.*1.
Proof.
  unfold choose_leader. set (f := consider_leader id).
  assert (forall (l : LfgRolesMap) a b, fst (fold_left f l (a, b)) = a \/ fst (fold_left f l (a, b)) ∈ l.*1) as Hf.
  { induction l as [|[x r] l IH]; intros a b; [by left|]. cbn [fold_left].
    destruct (f (a, b) (x, r)) as [a' b'] eqn:E. rewrite fmap_cons, elem_of_cons. destruct (IH a' b') as [->|Hin]; [|by right; right].
    unfold f, consider_leader in E. cbn [fst snd] in E. repeat case_match; simplify_eq; auto. }
  destruct m as [|[x r] m]; [done|]. intros _. cbn [fold_left fmap list_fmap fst].
  assert (fst (f (0, false) (x, r)) = x) as Hx.
  { unfold f, consider_leader. cbn [fst snd negb orb andb]. rewrite Z.eqb_refl. by destruct (has r PLAYER_ROLE_LEADER). }
  destruct (f (0, false) (x, r)) as [a b]. simpl in Hx. subst a. destruct (Hf m x b) as [->|Hin]; [by left|by right].
Qed.

(** What is known of the players when a proposal is made. *)
Record collected (q : LFGQueue) (check : list Z) (rs : LfgRolesMap) (ds : list Z) : Prop := {
  collected_length : length rs = length (players_of q check);
  collected_players : forall e, e ∈ rs <-> e ∈ players_of q check;
  collected_sorted : map_sorted rs;
  collected_ignores : (1 < length check)%nat ->
    forall x y, x ∈ rs.*1 -> y ∈ rs.*1 -> x <> y -> HasIgnore x y = false;
  collected_nonempty : ds <> [];
  collected_dungeons : forall d, d ∈ ds -> forall g, g ∈ check -> d ∈ dungeons_of g q
}.

Lemma fills_keys m m' : fills m m' -> m'.*1 = m.*1.
Proof.
  intros [F _ _ _]. induction F as [|[x r] [y c] m m' [E _] F IH]; [done|]. rewrite !fmap_cons.
  by f_equal.
Qed.

Lemma fills_one_role m m' : fills m m' -> Forall (fun p : Z * Z => one_role p.2) m'.
Proof. intros [F _ _ _]. induction F as [|[x r] [y c] m m' [_ [E _]] F IH]; constructor; done. Qed.

Lemma fills_chosen m m' x c : fills m m' -> (x, c) ∈ m' -> exists r, (x, r) ∈ m /\ chooses r c.
Proof.
  intros [F _ _ _] [i Hi]%list_elem_of_lookup. rewrite Forall2_lookup in F. specialize (F i). rewrite Hi in F.
  inversion F as [[y r] ? [Hk Hc] Em|]; simplify_eq. simpl in *. subst. exists r. split; [|done].
  apply list_elem_of_lookup. by exists i.
Qed.

Lemma remove_leaders_keys m : (remove_leaders m).*1 = m.*1.
Proof. unfold remove_leaders. induction m as [|[x r] m IH]; [done|]. simpl. by f_equal. Qed.

Lemma make_proposal_sound check w j rs ds m' pid :
  queue_ok (queue w) -> count_joining check (mkJoining 0 0 [] 0) w = inl j ->
  numLfgGroups j <= 1 -> numPlayers j = MAXGROUPSIZE ->
  collected (queue w) check rs ds -> fills (remove_leaders rs) m' ->
  sound_proposal (queue w) (mgr w) (make_proposal check j ds m' pid).
Proof.
  intros Hok Hj HL HP [Hlen Hps Hnd Hig Hne Hds] F.
  destruct (count_joining_all check w (mkJoining 0 0 [] 0) j Hok ltac:(done) Hj HL ltac:(lia)) as (Hsome & Hn & Hg & _ & Hgr).
  assert (m'.*1 = rs.*1) as Hk by by rewrite (fills_keys _ _ F), remove_leaders_keys.
  assert (length m' = length rs) as Hml by (apply (f_equal length) in Hk; by rewrite !length_fmap in Hk).
  assert (Hpl : (pr_players (make_proposal check j ds m' pid)).*1 = m'.*1).
  { unfold make_proposal. cbn [pr_players]. rewrite <- list_fmap_compose. by apply list_fmap_ext. }
  assert (prod_map id pp_role <$> pr_players (make_proposal check j ds m' pid) = m') as Hroles.
  { unfold make_proposal. cbn [pr_players]. change (map ?f ?l) with (f <$> l). rewrite <- list_fmap_compose.
    rewrite <- (list_fmap_id m') at 2. apply list_fmap_ext. by intros i [x c] _. }
  assert (forall x, x ∈ m'.*1 <-> x ∈ (players_of (queue w) check).*1) as Hx.
  { intros x. rewrite Hk, !list_elem_of_fmap. by setoid_rewrite Hps. }
  assert (forall x pp, (x, pp) ∈ pr_players (make_proposal check j ds m' pid) ->
    (x, pp_role pp) ∈ m' /\ pp_group pp = default 0 (map_find x (proposalGroups j))) as Hin.
  { intros x pp Hin. unfold make_proposal in Hin. cbn [pr_players] in Hin.
    apply list_elem_of_In, in_map_iff in Hin as ([y c] & E & Hin). simplify_eq. split; [|done].
    by apply list_elem_of_In. }
  split.
  - rewrite <- (length_fmap fst), Hpl, length_fmap, Hml, Hlen. simpl in Hn. lia.
  - unfold map_sorted. by rewrite Hpl, Hk.
  - intros x. rewrite Hpl. apply Hx.
  - intros x pp [Hxc _]%Hin. destruct (fills_chosen _ _ _ _ F Hxc) as (r & Hr & Hc).
    unfold remove_leaders in Hr. apply list_elem_of_In, in_map_iff in Hr as ([y r'] & E & Hr).
    cbn in E. injection E as -> <-.
    exists r'. split; [|done]. by apply Hps, list_elem_of_In.
  - rewrite Hroles. pose proof (players_as_split m' (fills_one_role _ _ F)) as Hsum. destruct F as [_ Ft Fh Fd].
    assert (Z.of_nat (length m') = 5) as H5 by (rewrite Hml, Hlen; simpl in Hn; unfold MAXGROUPSIZE in HP; lia).
    unfold LFG_TANKS_NEEDED, LFG_HEALERS_NEEDED, LFG_DPS_NEEDED in *.
    intros role n. rewrite !elem_of_cons, elem_of_nil. intros [[= -> ->]|[[= -> ->]|[[= -> ->]|[]]]]; lia.
  - intros x pp Hxp. destruct (Hin x pp Hxp) as [Hxc ->].
    assert (x ∈ (players_of (queue w) check).*1) as Hxk by (apply Hx, list_elem_of_fmap; by exists (x, pp_role pp)).
    destruct (Hgr x Hxk) as (g & ? & ? & ->). by exists g.
  - cbn [queues make_proposal]. intros Hl x y. rewrite Hpl, Hk. by apply Hig.
  - cbn [queues make_proposal dungeonId]. intros g e Hg' He. pose proof (Hds _ (SelectRandom_in pid ds Hne) g Hg') as Hd.
    unfold dungeons_of in Hd. unfold data_of in He. destruct (map_find g _) as [d|]; [|discriminate].
    apply (inj Some) in He as <-. exact Hd.
  - rewrite Hpl. cbn [pr_leader make_proposal]. apply choose_leader_in. intros ->.
    rewrite <- Hlen, <- Hml in Hn. change (numPlayers j = 0) in Hn. rewrite HP in Hn. discriminate.
  - cbn [queues make_proposal]. simpl in Hg. lia.
  - cbn [isNew make_proposal]. destruct check as [|g [|]]; [done| |done]. cbn [length Nat.eqb andb].
    by rewrite (count_joining_single _ _ _ Hj).
Qed.
End Propose.

(** ** The outcomes of a check *)
Section Outcome.
Context `{Surroundings}.

Definition set_cache (key : string) (d : LfgCompatibilityData) (q q' : LFGQueue) : Prop :=
  CompatibleMapStore q' = key_set key d (CompatibleMapStore q).

(** Something is noted in the cache and nothing else happens, a guid without
    data is removed, or a proposal is made and its guids leave the lists. *)
Inductive outcome (check : list Z) (w : QW) : LfgCompatibility -> QW -> Prop :=
| outcome_noted d q' :
    compatibility d <> LFG_COMPATIBLES_MATCH -> compatibility d <> LFG_COMPATIBILITY_PENDING ->
    (compatibility d = LFG_COMPATIBLES_BAD_STATES -> AllQueued check (mgr w) = false) ->
    same_queued (queue w) q' -> set_cache (ConcatenateGuids check) d (queue w) q' ->
    outcome check w (compatibility d) (mkQW q' (mgr w))
| outcome_missing g :
    g ∈ check -> data_of (queue w) g = None ->
    outcome check w LFG_COMPATIBILITY_PENDING (on_queue (RemoveFromQueue g) w)
| outcome_matched p d q' :
    compatibility d = LFG_COMPATIBLES_MATCH -> AllQueued check (mgr w) = true -> queues p = check ->
    ((forall id l, l <> [] -> SelectRandom id l ∈ l) -> queue_ok (queue w) -> sound_proposal (queue w) (mgr w) p) ->
    (forall g, data_of q' g = data_of (queue w) g) ->
    (forall g, g ∈ newToQueueStore q' <-> g ∈ newToQueueStore (queue w) /\ g ∉ check) ->
    (forall g, g ∈ currentQueueStore q' <-> g ∈ currentQueueStore (queue w) /\ g ∉ check) ->
    (length (newToQueueStore q') <= length (newToQueueStore (queue w)))%nat ->
    (length (currentQueueStore q') <= length (currentQueueStore (queue w)))%nat ->
    set_cache (ConcatenateGuids check) d (queue w) q' ->
    outcome check w LFG_COMPATIBLES_MATCH (mkQW q' (AddProposal p (mgr w))).

Lemma count_joining_missing check j w g : count_joining check j w = inr g -> g ∈ check /\ data_of (queue w) g = None.
Proof.
  revert j. induction check as [|x check IH]; intros j E; cbn [count_joining] in E; [discriminate|].
  destruct (_ && _); [|discriminate]. destruct (map_find x _) as [d|] eqn:F.
  - apply IH in E as [? ?]. split; [by right|done].
  - apply (inj inr) in E as <-. split; [by left|]. unfold data_of. by rewrite F.
Qed.

Lemma outcome_answer check w c :
  c <> LFG_COMPATIBLES_MATCH -> c <> LFG_COMPATIBILITY_PENDING ->
  (c = LFG_COMPATIBLES_BAD_STATES -> AllQueued check (mgr w) = false) ->
  outcome check w c (on_queue (SetCompatibles (ConcatenateGuids check) c) w).
Proof. intros H1 H2 H3. by eapply (outcome_noted check w (mkCompatibility c _)). Qed.

Lemma same_queued_noted key d q q' : same_queued q q' -> same_queued q (SetCompatibilityData key d q').
Proof. by intros []. Qed.

Lemma propose_outcome check w j ds rs :
  (numPlayers j = MAXGROUPSIZE -> (forall id l, l <> [] -> SelectRandom id l ∈ l) -> queue_ok (queue w) ->
    forall pid, sound_proposal (queue w) (mgr w) (make_proposal check j ds rs pid)) ->
  let '(c, w') := propose check (ConcatenateGuids check) j ds rs w in outcome check w c w'.
Proof.
  intros Hsound. unfold propose. destruct (Z.eqb_spec (numPlayers j) MAXGROUPSIZE) as [E|E]; cbn [negb].
  - destruct (AllQueued check (mgr w)) eqn:A; cbn [negb].
    + destruct (fold_RemoveFromLists check (queue w)) as (D & C & N & U & L & L').
      eapply (outcome_matched check w _ (mkCompatibility LFG_COMPATIBLES_MATCH _)); try done.
      * intros Hsel Hok. by apply Hsound.
      * unfold set_cache. cbn [SetCompatibles SetCompatibilityData set_CompatibleMapStore CompatibleMapStore]. by rewrite C.
    + by apply outcome_answer.
  - destruct (fold_UpdateBest_same check (ConcatenateGuids check) rs (queue w)) as [S C].
    apply (outcome_noted check w (mkCompatibility LFG_COMPATIBLES_WITH_LESS_PLAYERS rs)); try done.
    { by apply same_queued_noted. }
    unfold set_cache. simpl. by rewrite C.
Qed.

Lemma collected_single w g j d :
  queue_ok (queue w) -> map_find g (QueueDataStore (queue w)) = Some d -> Z.of_nat (length (roles d)) = MAXGROUPSIZE ->
  numPlayers j = MAXGROUPSIZE ->
  collected (queue w) [g] (roles d) (dungeons_of g (queue w)) /\ fills (remove_leaders (roles d)) (snd (CheckGroupRoles (roles d))).
Proof.
  intros Hok F Hd Hj. assert (entry_ok (roles d, dungeons d)) as (Hs & _ & Hfull).
  { apply (Hok g). unfold data_of. by rewrite F. }
  destruct (Hfull Hd) as [Ha Hne]. cbn [fst snd] in *. split.
  - pose proof (players_of_data _ _ _ F) as Hp. assert (dungeons_of g (queue w) = dungeons d) as Hdg by (unfold dungeons_of; by rewrite F).
    split; rewrite ?Hp; try done.
    + simpl. lia.
    + by rewrite Hdg.
    + intros x Hx g' ->%list_elem_of_singleton. done.
  - pose proof (check_group_roles_full (roles d)) as Hc. unfold MAXGROUPSIZE in Hd. by apply Hc; [lia|].
Qed.

Lemma check_joining_outcome check w : check <> [] -> let '(c, w') := check_joining check w in outcome check w c w'.
Proof.
  intros Hne. unfold check_joining. destruct (count_joining check _ w) as [j|g] eqn:Hj; cycle 1.
  { destruct (count_joining_missing _ _ _ _ Hj). by apply outcome_missing. }
  destruct ((length check =? 1)%nat) eqn:Hs; cbn [negb andb].
  - apply Nat.eqb_eq in Hs. destruct check as [|g [|]]; try discriminate. cbn [head default from_option id].
    destruct (Z.eqb_spec (numPlayers j) MAXGROUPSIZE) as [E|E]; cbn [negb].
    + destruct (1 <? numLfgGroups j) eqn:HL; [by apply outcome_answer|].
      rewrite E, Z.ltb_irrefl. apply propose_outcome. intros _ Hsel Hok pid. apply Z.ltb_ge in HL.
      destruct (count_joining_all [g] w (mkJoining 0 0 [] 0) j Hok ltac:(done) Hj HL ltac:(lia)) as (Hsome & Hn & _).
      inversion Hsome as [|? ? [d F] _]; subst. rewrite (players_of_data _ _ _ F) in Hn. rewrite F.
      change (numPlayers (mkJoining 0 0 [] 0)) with 0 in Hn.
      destruct (collected_single w g j d Hok F) as [C Fl]; [lia|done|]. by eapply make_proposal_sound.
    + destruct (UpdateBest_same g (ConcatenateGuids [g])
        (snd (CheckGroupRoles match map_find g (QueueDataStore (queue w)) with Some d => roles d | None => [] end)) (queue w)) as [S C].
      eapply (outcome_noted [g] w (mkCompatibility LFG_COMPATIBLES_WITH_LESS_PLAYERS _)); try done.
      { by apply same_queued_noted. }
      unfold set_cache. simpl. by rewrite C.
  - destruct (1 <? numLfgGroups j) eqn:HL; [by apply outcome_answer|].
    destruct (MAXGROUPSIZE <? numPlayers j) eqn:HP; [by apply outcome_answer|].
    set (rs := collect_roles check (queue w)).
    destruct (Z.eqb_spec (u8 (numPlayers j - Z.of_nat (length rs))) 0) as [E|E]; cbn [negb]; [|by apply outcome_answer].
    destruct (CheckGroupRoles rs) as [[] rs'] eqn:Er; [|by apply outcome_answer].
    destruct (common_dungeons check (queue w)) as [|d0 ds] eqn:Ed; [by apply outcome_answer|].
    apply propose_outcome. intros E5 Hsel Hok pid. apply Z.ltb_ge in HL, HP.
    destruct (count_joining_all check w (mkJoining 0 0 [] 0) j Hok ltac:(done) Hj HL HP) as (_ & Hn & _).
    change (numPlayers (mkJoining 0 0 [] 0)) with 0 in Hn.
    assert (rs = fold_left add_player (players_of (queue w) check) []) as Hrs by apply collect_roles_eq.
    destruct (add_players_length (players_of (queue w) check)) as (Hsrt & Hle & Hall). rewrite <- Hrs in Hsrt, Hle, Hall.
    assert (length rs = length (players_of (queue w) check)) as Hlen.
    { rewrite wrap_id in E; [lia|]. unfold in_u. unfold MAXGROUPSIZE in HP. width. }
    destruct (Hall Hlen) as [Hin Hig]. eapply make_proposal_sound; [done|done|done|done|done| |].
    + split; [done..|]. intros d Hd. apply common_dungeons_in. by rewrite Ed.
    + pose proof (check_group_roles_true rs rs') as Hc. apply Hc; [unfold MAXGROUPSIZE in HP; lia|done].
Qed.
End Outcome.

(** ** A key determines the guids *)
Lemma count_bars_app a b : count_bars (a +:+ b) = count_bars a + count_bars b.
Proof. induction a as [|c a IH]; [done|]. change (String c a +:+ b) with (String c (a +:+ b)). cbn [count_bars]. rewrite IH. lia. Qed.

Lemma count_bars_nonneg a : 0 <= count_bars a.
Proof. induction a as [|c a IH]; cbn [count_bars]; [lia|]. destruct (Ascii.eqb c _); lia. Qed.

Lemma pretty_N_go_bars x s : count_bars (pretty_N_go x s) = count_bars s.
Proof.
  revert s. induction (N.lt_wf_0 x) as [x _ IH]; intros s.
  assert (x = 0 \/ 0 < x)%N as [->|?] by lia; [by rewrite pretty_N_go_0|].
  rewrite pretty_N_go_step, IH by (try apply N.div_lt; lia). cbn [count_bars].
  assert (Ascii.eqb (pretty_N_char (x `mod` 10)) "|"%char = false) as ->; [|done].
  unfold pretty_N_char. by repeat case_match.
Qed.

Lemma pretty_N_bars (x : N) : count_bars (pretty x) = 0.
Proof. unfold pretty, pretty_N. destruct (decide (x = 0%N)); [done|]. by rewrite pretty_N_go_bars. Qed.

Lemma digits_bars g : count_bars (digits g) = 0.
Proof.
  unfold digits. destruct g as [|x|x]; [done|apply pretty_N_bars|].
  change (pretty (Z.neg x)) with ("-" +:+ pretty (N.pos x)). by rewrite count_bars_app, pretty_N_bars.
Qed.

Lemma bar_split a b s t :
  count_bars a = 0 -> count_bars b = 0 -> a +:+ String "|" s = b +:+ String "|" t -> a = b /\ s = t.
Proof.
  revert b. induction a as [|c a IH]; intros [|d b] Ha Hb E; cbn in E; simplify_eq; try done.
  - cbn [count_bars] in Hb. rewrite Ascii.eqb_refl in Hb. pose proof (count_bars_nonneg b). lia.
  - cbn [count_bars] in Ha. rewrite Ascii.eqb_refl in Ha. pose proof (count_bars_nonneg a). lia.
  - cbn [count_bars] in Ha, Hb. pose proof (count_bars_nonneg a). pose proof (count_bars_nonneg b).
    destruct (IH b) as [-> ->]; [destruct (Ascii.eqb d _); lia|destruct (Ascii.eqb d _); lia|done|done].
Qed.

Lemma join_inj l l' : l <> [] -> l' <> [] -> join l = join l' -> l = l'.
Proof.
  assert (forall g l, l <> [] -> join (g :: l) = digits g +:+ String "|" (join l)) as Hj by by intros g [|].
  revert l'. induction l as [|g l IH]; intros [|g' l'] H1 H2 E; try done.
  destruct l as [|h l], l' as [|h' l'].
  - apply (inj (pretty (A := Z)) g g') in E. by rewrite E.
  - rewrite (Hj g') in E by done. change (join [g]) with (digits g) in E. apply (f_equal count_bars) in E.
    rewrite count_bars_app in E. cbn [count_bars] in E.
    rewrite !digits_bars, Ascii.eqb_refl in E. pose proof (count_bars_nonneg (join (h' :: l'))). lia.
  - rewrite (Hj g) in E by done. change (join [g']) with (digits g') in E. apply (f_equal count_bars) in E.
    rewrite count_bars_app in E. cbn [count_bars] in E.
    rewrite !digits_bars, Ascii.eqb_refl in E. pose proof (count_bars_nonneg (join (h :: l))). lia.
  - rewrite !Hj in E by done. apply bar_split in E as [E1 E2]; [|apply digits_bars..].
    apply (inj (pretty (A := Z)) g g') in E1 as ->. f_equal. by apply IH.
Qed.

Lemma elem_of_sorted_guids check g : g ∈ foldr set_add [] check <-> g ∈ check.
Proof. induction check as [|x check IH]; [done|]. cbn [foldr]. rewrite elem_of_set_add, IH, elem_of_cons. done. Qed.

Lemma key_guids c1 c2 g : c1 <> [] -> c2 <> [] -> ConcatenateGuids c1 = ConcatenateGuids c2 -> g ∈ c1 -> g ∈ c2.
Proof.
  assert (forall c : list Z, c <> [] -> foldr set_add [] c <> []) as Hne.
  { intros [|x c] H E; [done|]. assert (x ∈ foldr set_add [] (x :: c)) as Hx by (apply elem_of_sorted_guids; by left).
    rewrite E in Hx. by apply elem_of_nil in Hx. }
  intros H1 H2 E. apply join_inj in E; [|by apply Hne..].
  rewrite <- (elem_of_sorted_guids c1), <- (elem_of_sorted_guids c2), E. done.
Qed.

Lemma key_find_set {A} key k (d : A) m : key_find key (key_set k d m) = if String.eqb key k then Some d else key_find key m.
Proof.
  induction m as [|[k' b] m IH]; cbn [key_set key_find]; [done|].
  destruct (String.ltb k k'); [done|]. destruct (String.eqb_spec k k') as [->|Hne]; cbn [key_find].
  - by destruct (String.eqb key k').
  - rewrite IH. destruct (String.eqb_spec key k') as [->|]; [|reflexivity].
    destruct (String.eqb_spec k' k) as [E|]; [|reflexivity]. by rewrite E in Hne.
Qed.

(** ** Every proposal is sound *)
Section Sound.
Context `{Surroundings}.

Lemma sound_proposal_ext q q' m m' p :
  (forall g, data_of q' g = data_of q g) -> GroupsStore m' = GroupsStore m ->
  sound_proposal q m p -> sound_proposal q' m' p.
Proof.
  intros Hd Hg. assert (forall l, players_of q' l = players_of q l) as Hp.
  { intros l. unfold players_of. induction l as [|g l IH]; [done|]. by rewrite !bind_cons, IH, Hd. }
  intros []. split; try done.
  - intros x. by rewrite Hp.
  - intros x pp. rewrite Hp. auto.
  - intros x pp Hx. destruct (sound_groups0 x pp Hx) as (g & ? & ? & ?). exists g. by rewrite Hp.
  - intros g e. rewrite Hd. eauto.
  - unfold IsLfgGroup, group_data in *. by rewrite Hg.
Qed.

(** From [w] to [w']: the data of the queued and, but for the proposals, those of
    the manager stay as they are, and every proposal is an old one or sound. *)
Record sound_step (w w' : QW) : Prop := {
  step_data : forall g, data_of (queue w') g = data_of (queue w) g;
  step_rest : set_ProposalsStore [] (set_lfgProposalId 0 (mgr w')) = set_ProposalsStore [] (set_lfgProposalId 0 (mgr w));
  step_sorted : map_sorted (ProposalsStore (mgr w)) -> map_sorted (ProposalsStore (mgr w'));
  step_proposals : forall id p, map_find id (ProposalsStore (mgr w')) = Some p ->
    map_find id (ProposalsStore (mgr w)) = Some p \/ sound_proposal (queue w) (mgr w) p
}.

Lemma sound_step_refl w : sound_step w w.
Proof. split; auto. Qed.

Lemma sound_step_trans w1 w2 w3 : sound_step w1 w2 -> sound_step w2 w3 -> sound_step w1 w3.
Proof.
  intros [D1 R1 O1 S1] [D2 R2 O2 S2]. split; [|congruence|auto|].
  - intros g. by rewrite D2.
  - intros id p Hp. apply S2 in Hp as [Hp|Hp]; [by apply S1|]. right.
    apply (sound_proposal_ext (queue w2) (queue w1) (mgr w2)); [done|by injection R1 as [=]|done].
Qed.

Lemma sound_step_queue w f : (forall g, data_of (f (queue w)) g = data_of (queue w) g) -> sound_step w (on_queue f w).
Proof. intros Hd. split; auto. Qed.

Lemma sound_step_queue_ok w w' : queue_ok (queue w) -> sound_step w w' -> queue_ok (queue w').
Proof. intros Hok S g e. rewrite (step_data _ _ S). apply Hok. Qed.

Hypothesis (SelectRandom_in : forall id l, l <> [] -> SelectRandom id l ∈ l).

Lemma outcome_sound check w c w' : queue_ok (queue w) -> outcome check w c w' -> sound_step w w'.
Proof.
  intros Hok [d q' _ _ _ S _|g _ Hg|p d q' _ _ _ Hs D _ _ _ _ _].
  - split; auto. apply S.
  - apply sound_step_queue. intros g'. rewrite RemoveFromQueue_data. destruct (Z.eqb_spec g' g) as [->|]; [done|done].
  - split; [done|done|by apply map_set_sorted|]. simpl. intros id p' Hp. destruct (decide (id = u32 (m_lfgProposalId (mgr w) + 1))) as [->|Hne].
    + rewrite map_find_set in Hp. apply (inj Some) in Hp as <-. right. by apply Hs.
    + rewrite map_find_set_ne in Hp by done. by left.
Qed.

Lemma CheckCompatibility_sound check w : queue_ok (queue w) -> sound_step w (snd (CheckCompatibility check w)).
Proof.
  revert w. induction check as [|g check IH]; intros w Hok; [apply sound_step_refl|]. cbn [CheckCompatibility].
  destruct (5 <? _)%nat; [apply sound_step_refl|].
  assert (forall w, queue_ok (queue w) -> sound_step w (snd (check_joining (g :: check) w))) as Hj.
  { intros w1 Hok1. pose proof (check_joining_outcome (g :: check) w1 ltac:(done)) as O.
    destruct (check_joining _ w1) as [c w2]. by eapply outcome_sound. }
  destruct (2 <? _)%nat; [|by apply Hj]. specialize (IH w Hok). destruct (CheckCompatibility check w) as [c w1]. cbn [snd] in IH.
  destruct (incompatible c).
  - eapply sound_step_trans; [exact IH|]. by apply sound_step_queue.
  - eapply sound_step_trans; [exact IH|]. apply Hj. by eapply sound_step_queue_ok.
Qed.

Lemma known_or_checked_sound check w : queue_ok (queue w) -> sound_step w (snd (known_or_checked check w)).
Proof.
  intros Hok. unfold known_or_checked.
  assert (sound_step w (snd (match GetCompatibles (ConcatenateGuids check) (queue w) with
    | LFG_COMPATIBILITY_PENDING => CheckCompatibility check w | c => (c, w) end))) as S.
  { destruct (GetCompatibles _ _); try apply sound_step_refl. by apply CheckCompatibility_sound. }
  destruct (match GetCompatibles _ _ with LFG_COMPATIBILITY_PENDING => _ | _ => _ end) as [c w1]. cbn [snd] in S.
  destruct (_ && _); [|done]. eapply sound_step_trans; [exact S|]. by apply sound_step_queue.
Qed.

Lemma match_queued_sound fuel check all c w :
  queue_ok (queue w) -> sound_step w (snd (match_queued fuel check all c w)).
Proof.
  revert check all c w. induction fuel as [|fuel IH]; intros check all c w Hok; [apply sound_step_refl|].
  cbn [match_queued]. destruct all as [|g all]; [apply sound_step_refl|].
  pose proof (known_or_checked_sound (check ++ [g]) w Hok) as S1. destruct (known_or_checked _ w) as [sub w1]. cbn [snd] in S1.
  pose proof (sound_step_queue_ok _ _ Hok S1) as Hok1.
  assert (exists sub' all' w2, (if bool_decide (sub = LFG_COMPATIBLES_WITH_LESS_PLAYERS)
      then match_queued fuel (check ++ [g]) all sub w1 else (sub, all, w1)) = (sub', all', w2) /\ sound_step w1 w2)
    as (sub' & all' & w2 & -> & S2).
  { destruct (bool_decide _); [|by exists sub, all, w1; split; [|apply sound_step_refl]].
    pose proof (IH (check ++ [g]) all sub w1 Hok1) as S. destruct (match_queued _ _ _ _ _) as [[s a] w2]. by exists s, a, w2. }
  destruct (bool_decide _); [by eapply sound_step_trans|].
  eapply sound_step_trans; [exact S1|]. eapply sound_step_trans; [exact S2|]. apply IH. by eapply sound_step_queue_ok.
Qed.

Lemma FindNewGroups_sound check all w : queue_ok (queue w) -> sound_step w (snd (FindNewGroups check all w)).
Proof.
  intros Hok. unfold FindNewGroups. pose proof (known_or_checked_sound check w Hok) as S.
  destruct (known_or_checked check w) as [c w1]. cbn [snd] in S. destruct (bool_decide _); [|done].
  eapply sound_step_trans; [exact S|]. apply match_queued_sound. by eapply sound_step_queue_ok.
Qed.

Lemma FindGroups_loop_sound fuel n w : queue_ok (queue w) -> sound_step w (snd (FindGroups_loop fuel n w)).
Proof.
  revert n w. induction fuel as [|fuel IH]; intros n w Hok; [apply sound_step_refl|]. cbn [FindGroups_loop].
  destruct (newToQueueStore (queue w)) as [|g l]; [apply sound_step_refl|].
  assert (sound_step w (on_queue (RemoveFromNewQueue g) w)) as S1 by by apply sound_step_queue.
  set (w1 := on_queue _ w) in *. pose proof (sound_step_queue_ok _ _ Hok S1) as Hok1.
  pose proof (FindNewGroups_sound [g] (currentQueueStore (queue w1)) w1 Hok1) as S2.
  destruct (FindNewGroups _ _ w1) as [[c a] w2]. cbn [snd] in S2. pose proof (sound_step_queue_ok _ _ Hok1 S2) as Hok2.
  pose proof (sound_step_trans _ _ _ S1 S2) as S12. destruct (bool_decide _).
  - eapply sound_step_trans; [exact S12|by apply IH].
  - eapply sound_step_trans; [exact S12|]. eapply sound_step_trans; [|by apply IH]. by apply sound_step_queue.
Qed.

(** C16: Every proposal that [FindGroups] adds is for a group that can start: five
    players, exactly those of the guids it was put together from, one tank, one
    healer and three damage dealers in roles they chose, for a dungeon they all chose,
    under one of them as leader and with at most one group that has started; when it
    combines several entries of the queue, no two of its players ignore each other; the
    data of the queued are untouched. *)
Theorem FindGroups_sound w :
  queue_ok (queue w) ->
  let w' := snd (FindGroups w) in
  (forall g, data_of (queue w') g = data_of (queue w) g)
  /\ forall id p, map_find id (ProposalsStore (mgr w')) = Some p ->
       map_find id (ProposalsStore (mgr w)) = Some p \/ sound_proposal (queue w') (mgr w') p.
Proof.
  intros Hok w'. destruct (FindGroups_loop_sound (length (newToQueueStore (queue w))) 0 w Hok) as [D R _ P].
  split; [done|]. intros id p Hp. destruct (P id p Hp) as [Ho|Hs]; [by left|right].
  eapply sound_proposal_ext; [done|by injection R as [=]|done].
Qed.
End Sound.

(** ** Nobody is lost *)
Definition booked (w : QW) (g : Z) : Prop := exists id p, map_find id (ProposalsStore (mgr w)) = Some p /\ g ∈ queues p.

Section Kept.
Context `{Surroundings} (L : list Z).

(** All that is listed is in [L], whose guids have data and are in the state
    queued; the cache knows of no match of theirs that is not booked; proposals
    are numbered upwards. *)
Record listed (w : QW) : Prop := {
  listed_data : forall g, g ∈ L -> data_of (queue w) g <> None;
  listed_state : forall g, g ∈ L -> GetState g (mgr w) = LFG_STATE_QUEUED;
  listed_all : forall g, g ∈ newToQueueStore (queue w) \/ g ∈ currentQueueStore (queue w) -> g ∈ L;
  listed_cache : forall check, check <> [] -> check ⊆ L ->
    GetCompatibles (ConcatenateGuids check) (queue w) <> LFG_COMPATIBLES_BAD_STATES
    /\ (GetCompatibles (ConcatenateGuids check) (queue w) = LFG_COMPATIBLES_MATCH -> forall g, g ∈ check -> booked w g);
  listed_fresh : 0 <= m_lfgProposalId (mgr w) /\
    forall id p, map_find id (ProposalsStore (mgr w)) = Some p -> id <= m_lfgProposalId (mgr w)
}.

(** At most [n] proposals are added; who leaves a list is booked. *)
Record kept (n : Z) (w w' : QW) : Prop := {
  kept_booked : forall g, booked w g -> booked w' g;
  kept_new : forall g, g ∈ newToQueueStore (queue w) -> g ∈ newToQueueStore (queue w') \/ booked w' g;
  kept_current : forall g, g ∈ currentQueueStore (queue w) -> g ∈ currentQueueStore (queue w') \/ booked w' g;
  kept_new_from : forall g, g ∈ newToQueueStore (queue w') -> g ∈ newToQueueStore (queue w);
  kept_current_from : forall g, g ∈ currentQueueStore (queue w') -> g ∈ currentQueueStore (queue w);
  kept_length_new : (length (newToQueueStore (queue w')) <= length (newToQueueStore (queue w)))%nat;
  kept_length_current : (length (currentQueueStore (queue w')) <= length (currentQueueStore (queue w)))%nat;
  kept_number : m_lfgProposalId (mgr w) <= m_lfgProposalId (mgr w') <= m_lfgProposalId (mgr w) + n
}.

Lemma kept_refl w : kept 0 w w.
Proof. split; auto; lia. Qed.

Lemma kept_trans n1 n2 n w1 w2 w3 : kept n1 w1 w2 -> kept n2 w2 w3 -> n1 + n2 <= n -> kept n w1 w3.
Proof.
  intros [B1 N1 C1 NF1 CF1 LN1 LC1 I1] [B2 N2 C2 NF2 CF2 LN2 LC2 I2] Hn.
  split; [auto| | |auto|auto|lia|lia|lia]; intros g Hg.
  - destruct (N1 g Hg); auto.
  - destruct (C1 g Hg); auto.
Qed.

Lemma kept_weaken n n' w w' : kept n w w' -> n <= n' -> kept n' w w'.
Proof. intros K Hn. eapply kept_trans; [exact K|apply kept_refl|lia]. Qed.

Lemma listed_AllQueued w check : listed w -> check <> [] -> check ⊆ L -> AllQueued check (mgr w) = true.
Proof.
  intros I Hne Hsub. unfold AllQueued. destruct check as [|g check]; [done|]. apply forallb_forall. intros x Hx.
  apply bool_decide_eq_true, (listed_state w I), Hsub, list_elem_of_In, Hx.
Qed.

(** Noting an answer that is no match. *)
Lemma listed_noted w key d q' :
  listed w -> compatibility d <> LFG_COMPATIBLES_MATCH -> compatibility d <> LFG_COMPATIBLES_BAD_STATES ->
  same_queued (queue w) q' -> set_cache key d (queue w) q' ->
  listed (mkQW q' (mgr w)) /\ kept 0 w (mkQW q' (mgr w)).
Proof.
  intros [D S A C F] H1 H2 [Sn Sc Sd] Hset. split.
  - split; cbn [queue mgr]; [intros g; rewrite Sd; auto|done|by rewrite Sn, Sc| |done].
    intros check Hne Hsub. unfold GetCompatibles. rewrite Hset, key_find_set.
    destruct (String.eqb _ _); [by split|]. by apply C.
  - split; cbn [queue mgr]; rewrite ?Sn, ?Sc; auto; lia.
Qed.

Lemma outcome_kept check w c w' :
  listed w -> check <> [] -> check ⊆ L -> m_lfgProposalId (mgr w) + 1 < 2 ^ 32 -> outcome check w c w' ->
  listed w' /\ kept 1 w w' /\ c <> LFG_COMPATIBLES_BAD_STATES /\ (c = LFG_COMPATIBLES_MATCH -> forall g, g ∈ check -> booked w' g).
Proof.
  intros I Hne Hsub Hroom [d q' H1 H2 H3 S Hset|g Hg Hd|p d q' Hm _ Hq _ D N C Ln Lc Hset].
  - assert (compatibility d <> LFG_COMPATIBLES_BAD_STATES) as Hb.
    { intros E. apply H3 in E. by rewrite (listed_AllQueued w check I Hne Hsub) in E. }
    destruct (listed_noted w _ d q' I H1 Hb S Hset) as [I' K]. split_and!; [done|by eapply kept_weaken|done|done].
  - destruct (listed_data w I g); [by apply Hsub|done].
  - destruct I as [ID IS IA IC [F0 IF]]. set (wm := mkQW q' _).
    assert (u32 (m_lfgProposalId (mgr w) + 1) = m_lfgProposalId (mgr w) + 1) as Hid by (apply wrap_id; unfold in_u; lia).
    assert (forall g, booked w g -> booked wm g) as Hmono.
    { intros g (id & p' & Hp & Hin). exists id, p'. split; [|done]. simpl. rewrite Hid, map_find_set_ne; [done|].
      pose proof (IF id p' Hp). lia. }
    assert (forall g, g ∈ check -> booked wm g) as Hbook.
    { intros g Hg. exists (m_lfgProposalId (mgr w) + 1), p. simpl. rewrite Hid, map_find_set, Hq. done. }
    split_and!; [| |done|done].
    + split; cbn [queue mgr].
      * intros g. rewrite D. auto.
      * done.
      * intros g [Hg|Hg]; apply IA; [apply N in Hg|apply C in Hg]; tauto.
      * intros check' Hne' Hsub'. unfold GetCompatibles. change (queue wm) with q'. rewrite Hset, key_find_set.
        destruct (String.eqb_spec (ConcatenateGuids check') (ConcatenateGuids check)) as [E|E].
        -- rewrite Hm. split; [done|]. intros _ g Hg. apply Hbook. by eapply (key_guids check').
        -- destruct (IC check' Hne' Hsub') as [? Hb]. split; [done|]. intros Hc g Hg. by apply Hmono, Hb.
      * simpl. rewrite Hid. split; [lia|]. intros id p' Hp. destruct (decide (id = m_lfgProposalId (mgr w) + 1)); [lia|].
        rewrite map_find_set_ne in Hp by done. apply IF in Hp. lia.
    + split; cbn [queue mgr]; [done| | | | |done|done|simpl; lia].
      * intros g Hg. destruct (decide (g ∈ check)); [right; by apply Hbook|left; by apply N].
      * intros g Hg. destruct (decide (g ∈ check)); [right; by apply Hbook|left; by apply C].
      * intros g Hg. apply N in Hg. tauto.
      * intros g Hg. apply C in Hg. tauto.
Qed.

(** What a function that checks [check] and adds at most [n] proposals does. *)
Definition checks (check : list Z) (n : Z) (w : QW) (res : LfgCompatibility * QW) : Prop :=
  listed (snd res) /\ kept n w (snd res) /\ fst res <> LFG_COMPATIBLES_BAD_STATES
  /\ (fst res = LFG_COMPATIBLES_MATCH -> forall g, g ∈ check -> booked (snd res) g).

Lemma check_joining_kept check w :
  listed w -> check <> [] -> check ⊆ L -> m_lfgProposalId (mgr w) + 1 < 2 ^ 32 -> checks check 1 w (check_joining check w).
Proof.
  intros I Hne Hsub Hroom. pose proof (check_joining_outcome check w Hne) as O.
  destruct (check_joining check w) as [c w']. by apply outcome_kept.
Qed.

Lemma checks_answer check c w :
  listed w -> incompatible c = true -> checks check 0 w (c, on_queue (SetCompatibles (ConcatenateGuids check) c) w).
Proof.
  intros I Hc. assert (c <> LFG_COMPATIBLES_MATCH /\ c <> LFG_COMPATIBLES_BAD_STATES) as [H1 H2] by by destruct c.
  set (q' := SetCompatibles (ConcatenateGuids check) c (queue w)).
  destruct (listed_noted w (ConcatenateGuids check) (mkCompatibility c
    match key_find (ConcatenateGuids check) (CompatibleMapStore (queue w)) with Some d => c_roles d | None => [] end) q')
    as [I' K]; [done|done|done| |done|].
  - apply same_queued_noted, same_queued_refl.
  - split; [exact I'|]. split; [exact K|]. split; [done|]. intros E. by destruct (H1 E).
Qed.

Lemma CheckCompatibility_kept check w :
  listed w -> check <> [] -> check ⊆ L -> m_lfgProposalId (mgr w) + Z.of_nat (length check) < 2 ^ 32 ->
  checks check (Z.of_nat (length check)) w (CheckCompatibility check w).
Proof.
  revert w. induction check as [|g check IH]; intros w I Hne Hsub Hroom; [done|]. cbn [CheckCompatibility].
  destruct (5 <? _)%nat; [split_and!; [done|eapply kept_weaken; [apply kept_refl|simpl; lia]|done|done]|].
  cbn [length] in *. destruct (2 <? _)%nat eqn:H2.
  - apply Nat.ltb_lt in H2. assert (check <> []) as Hne' by (intros ->; simpl in H2; lia).
    assert (check ⊆ L) as Hsub' by (intros x Hx; apply Hsub; by right).
    destruct (IH w I Hne' Hsub' ltac:(lia)) as (I1 & K1 & _ & _).
    destruct (CheckCompatibility check w) as [c w1]. cbn [fst snd] in *. pose proof (kept_number _ _ _ K1) as Hn1.
    destruct (incompatible c) eqn:Ec.
    + destruct (checks_answer (g :: check) c w1 I1 Ec) as (I2 & K2 & H3 & H4). split_and!; [done| |done|done].
      eapply kept_trans; [exact K1|exact K2|lia].
    + destruct (check_joining_kept (g :: check) w1 I1 ltac:(done) Hsub ltac:(lia)) as (I2 & K2 & H3 & H4).
      split_and!; [done| |done|done]. eapply kept_trans; [exact K1|exact K2|lia].
  - destruct (check_joining_kept (g :: check) w I ltac:(done) Hsub ltac:(lia)) as (I2 & K2 & H3 & H4).
    split_and!; [done| |done|done]. eapply kept_weaken; [exact K2|lia].
Qed.

Lemma CheckCompatibility_long check w : (5 < length check)%nat -> snd (CheckCompatibility check w) = w /\ fst (CheckCompatibility check w) = LFG_INCOMPATIBLES_WRONG_GROUP_SIZE.
Proof. intros Hl. destruct check as [|g check]; [simpl in Hl; lia|]. cbn [CheckCompatibility]. by rewrite (proj2 (Nat.ltb_lt _ _) Hl). Qed.

Lemma known_or_checked_kept check w :
  listed w -> check <> [] -> check ⊆ L -> m_lfgProposalId (mgr w) + 5 < 2 ^ 32 -> checks check 5 w (known_or_checked check w).
Proof.
  intros I Hne Hsub Hroom. unfold known_or_checked.
  assert (checks check 5 w (match GetCompatibles (ConcatenateGuids check) (queue w) with
    | LFG_COMPATIBILITY_PENDING => CheckCompatibility check w | c => (c, w) end)) as (I1 & K1 & H1 & H2).
  { destruct (listed_cache w I check Hne Hsub) as [Hb Hm].
    destruct (decide (GetCompatibles (ConcatenateGuids check) (queue w) = LFG_COMPATIBILITY_PENDING)) as [E|E].
    - rewrite E. destruct (decide (5 < length check)%nat) as [Hl|Hl].
      + destruct (CheckCompatibility_long check w Hl) as [E1 E2]. unfold checks. rewrite E1, E2.
        split_and!; [done|eapply kept_weaken; [apply kept_refl|lia]|done|done].
      + destruct (CheckCompatibility_kept check w I Hne Hsub ltac:(lia)) as (I1 & K1 & H1 & H2).
        split_and!; [done|eapply kept_weaken; [exact K1|lia]|done|done].
    - assert (checks check 5 w (GetCompatibles (ConcatenateGuids check) (queue w), w)) as C.
      { split_and!; [done|eapply kept_weaken; [apply kept_refl|lia]|done|done]. }
      destruct (GetCompatibles _ _); done. }
  destruct (match GetCompatibles _ _ with LFG_COMPATIBILITY_PENDING => _ | _ => _ end) as [c w1]. cbn [fst snd] in *.
  rewrite bool_decide_eq_false_2 by done. done.
Qed.

Lemma match_queued_kept fuel check all c w :
  listed w -> check <> [] -> check ⊆ L -> all ⊆ L -> c <> LFG_COMPATIBLES_MATCH ->
  m_lfgProposalId (mgr w) + 5 * Z.of_nat (length all) < 2 ^ 32 ->
  let '(c', all', w') := match_queued fuel check all c w in
  listed w' /\ (length all' <= length all)%nat /\ all' ⊆ L /\ kept (5 * (Z.of_nat (length all) - Z.of_nat (length all'))) w w'
  /\ (c' = LFG_COMPATIBLES_MATCH -> forall g, g ∈ check -> booked w' g).
Proof.
  revert check all c w. induction fuel as [|fuel IH]; intros check all c w I Hne Hsub Hall Hc Hroom.
  { split_and!; [done|lia|done|eapply kept_weaken; [apply kept_refl|lia]|done]. }
  cbn [match_queued]. destruct all as [|g all].
  { split_and!; [done|lia|done|eapply kept_weaken; [apply kept_refl|lia]|done]. }
  cbn [length] in *.
  assert (all ⊆ L) as Hall' by (intros x Hx; apply Hall; by right).
  assert (check ++ [g] ⊆ L) as Hsub'.
  { intros x [Hx| ->%list_elem_of_singleton]%elem_of_app; [by apply Hsub|apply Hall; by left]. }
  assert (check ++ [g] <> []) as Hne' by by destruct check.
  destruct (known_or_checked_kept (check ++ [g]) w I Hne' Hsub' ltac:(lia)) as (I1 & K1 & H1 & H2).
  destruct (known_or_checked _ w) as [sub w1]. cbn [fst snd] in *. pose proof (kept_number _ _ _ K1) as Hn1.
  assert (exists sub' all' w2, (if bool_decide (sub = LFG_COMPATIBLES_WITH_LESS_PLAYERS)
      then match_queued fuel (check ++ [g]) all sub w1 else (sub, all, w1)) = (sub', all', w2)
      /\ listed w2 /\ (length all' <= length all)%nat /\ all' ⊆ L
      /\ kept (5 * (Z.of_nat (length all) - Z.of_nat (length all'))) w1 w2
      /\ (sub' = LFG_COMPATIBLES_MATCH -> forall g', g' ∈ check ++ [g] -> booked w2 g'))
    as (sub' & all' & w2 & -> & I2 & Hl2 & Ha2 & K2 & M2).
  { destruct (bool_decide_reflect (sub = LFG_COMPATIBLES_WITH_LESS_PLAYERS)) as [->|Hs].
    - pose proof (IH (check ++ [g]) all LFG_COMPATIBLES_WITH_LESS_PLAYERS w1 I1 Hne' Hsub' Hall' ltac:(done) ltac:(lia)) as Hr.
      destruct (match_queued fuel (check ++ [g]) all _ w1) as [[s a] w2]. exists s, a, w2. by split.
    - exists sub, all, w1. split_and!; [done|done|lia|done|eapply kept_weaken; [apply kept_refl|lia]|done]. }
  pose proof (kept_number _ _ _ K2) as Hn2.
  destruct (bool_decide_reflect (sub' = LFG_COMPATIBLES_MATCH)) as [->|Hs].
  - split_and!; [done|lia|done|eapply kept_trans; [exact K1|exact K2|lia]|].
    intros _ x Hx. apply M2; [done|]. apply elem_of_app. by left.
  - pose proof (IH check all' c w2 I2 Hne Hsub Ha2 Hc ltac:(lia)) as Hr.
    destruct (match_queued fuel check all' c w2) as [[c3 a3] w3]. destruct Hr as (I3 & Hl3 & Ha3 & K3 & M3).
    split_and!; [done|lia|done| |done]. eapply kept_trans; [exact K1| |]; [eapply kept_trans; [exact K2|exact K3|reflexivity]|lia].
Qed.

Lemma FindNewGroups_kept g all w :
  listed w -> g ∈ L -> all ⊆ L -> m_lfgProposalId (mgr w) + 5 * (1 + Z.of_nat (length all)) < 2 ^ 32 ->
  let '(c, _, w') := FindNewGroups [g] all w in
  listed w' /\ kept (5 * (1 + Z.of_nat (length all))) w w' /\ (c = LFG_COMPATIBLES_MATCH -> booked w' g).
Proof.
  intros I Hg Hall Hroom. unfold FindNewGroups.
  assert ([g] ⊆ L) as Hsub by by intros x ->%list_elem_of_singleton.
  destruct (known_or_checked_kept [g] w I ltac:(done) Hsub ltac:(lia)) as (I1 & K1 & H1 & H2).
  destruct (known_or_checked [g] w) as [c w1]. cbn [fst snd] in *. pose proof (kept_number _ _ _ K1) as Hn1.
  destruct (bool_decide_reflect (c = LFG_COMPATIBLES_WITH_LESS_PLAYERS)) as [->|Hc].
  - pose proof (match_queued_kept (length all) [g] all LFG_COMPATIBLES_WITH_LESS_PLAYERS w1 I1 ltac:(done) Hsub Hall
      ltac:(done) ltac:(lia)) as Hr.
    destruct (match_queued _ _ _ _ w1) as [[c a] w2]. destruct Hr as (I2 & Hl & _ & K2 & M).
    split_and!; [done|eapply kept_trans; [exact K1|exact K2|lia]|]. intros Hm. apply M; [done|by left].
  - split_and!; [done|eapply kept_weaken; [exact K1|lia]|]. intros Hm. apply H2; [done|by left].
Qed.

Lemma listed_lists w q' :
  listed w -> (forall g, data_of q' g = data_of (queue w) g) -> CompatibleMapStore q' = CompatibleMapStore (queue w) ->
  (forall g, g ∈ newToQueueStore q' \/ g ∈ currentQueueStore q' -> g ∈ L) -> listed (mkQW q' (mgr w)).
Proof.
  intros [D S A C F] Hd Hc Hl. split; cbn [queue mgr]; [intros g; rewrite Hd; auto|done|done| |done].
  unfold GetCompatibles. by rewrite Hc.
Qed.

(** Whoever was listed is in the current list or booked. *)
Definition placed (w w' : QW) : Prop :=
  forall g, g ∈ newToQueueStore (queue w) \/ g ∈ currentQueueStore (queue w) -> g ∈ currentQueueStore (queue w') \/ booked w' g.

Lemma FindGroups_loop_kept fuel n w N :
  listed w -> (length (newToQueueStore (queue w)) <= fuel)%nat ->
  Z.of_nat (length (newToQueueStore (queue w)) + length (currentQueueStore (queue w))) <= N ->
  m_lfgProposalId (mgr w) + 5 * (1 + N) * Z.of_nat (length (newToQueueStore (queue w))) < 2 ^ 32 ->
  let w' := snd (FindGroups_loop fuel n w) in
  newToQueueStore (queue w') = [] /\ placed w w' /\ (forall g, booked w g -> booked w' g)
  /\ forall g, g ∈ currentQueueStore (queue w') -> g ∈ newToQueueStore (queue w) \/ g ∈ currentQueueStore (queue w).
Proof.
  revert n w. induction fuel as [|fuel IH]; intros n w I Hf HN Hroom.
  { destruct (newToQueueStore (queue w)) eqn:E; simpl in Hf; [|lia]. split_and!; [done| |done|by right].
    intros g [Hg|Hg]; [|by left]. rewrite E in Hg. by apply elem_of_nil in Hg. }
  cbn [FindGroups_loop]. destruct (newToQueueStore (queue w)) as [|f l] eqn:E.
  { split_and!; [done| |done|by right]. intros g [Hg|Hg]; [|by left]. rewrite E in Hg. by apply elem_of_nil in Hg. }
  set (w1 := on_queue (RemoveFromNewQueue f) w).
  assert (f ∈ L) as HfL by (apply (listed_all w I); left; rewrite E; by left).
  assert (newToQueueStore (queue w1) = set_del f l) as En1.
  { unfold w1. simpl. rewrite E. unfold set_del. by rewrite filter_cons_False by auto. }
  assert (currentQueueStore (queue w1) = currentQueueStore (queue w)) as Ec1 by done.
  assert (listed w1) as I1.
  { apply (listed_lists w); [done|done|done|]. intros g. change (RemoveFromNewQueue f (queue w)) with (queue w1).
    rewrite En1, Ec1, elem_of_set_del. intros [[_ Hg]|Hg]; apply (listed_all w I); [left|by right]. rewrite E. by right. }
  pose proof (length_set_del f l) as Hdel. cbn [length] in *.
  assert (currentQueueStore (queue w1) ⊆ L) as Hall by (intros g Hg; apply (listed_all w1 I1); by right).
  change (mgr w) with (mgr w1) in Hroom.
  assert (Z.of_nat (length (currentQueueStore (queue w1))) <= N) as HcN by (rewrite Ec1; lia).
  pose proof (FindNewGroups_kept f (currentQueueStore (queue w1)) w1 I1 HfL Hall ltac:(nia)) as Hr.
  destruct (FindNewGroups [f] _ w1) as [[c a] w2]. destruct Hr as (I2 & K & Hm).
  pose proof (kept_number _ _ _ K) as Hn. pose proof (kept_length_new _ _ _ K) as Hln. pose proof (kept_length_current _ _ _ K) as Hlc.
  rewrite En1 in Hln. rewrite Ec1 in Hlc.
  set (w3 := if bool_decide (c = LFG_COMPATIBLES_MATCH) then w2 else on_queue (AddToCurrentQueue f) w2).
  assert (exists m, (if bool_decide (c = LFG_COMPATIBLES_MATCH) then FindGroups_loop fuel (u8 (n + 1)) w2
      else FindGroups_loop fuel n (on_queue (AddToCurrentQueue f) w2)) = FindGroups_loop fuel m w3) as [m ->].
  { unfold w3. destruct (bool_decide _); by eexists. }
  assert (newToQueueStore (queue w3) = newToQueueStore (queue w2) /\ mgr w3 = mgr w2) as [En3 Em3].
  { unfold w3. by destruct (bool_decide _). }
  assert (forall g, g ∈ currentQueueStore (queue w3) -> g ∈ currentQueueStore (queue w2) \/ g = f) as Hc3.
  { unfold w3. destruct (bool_decide _); [by left|]. intros g. simpl. rewrite elem_of_app, list_elem_of_singleton. done. }
  assert ((length (currentQueueStore (queue w3)) <= S (length (currentQueueStore (queue w2))))%nat) as Hlc3.
  { unfold w3. destruct (bool_decide _); [lia|]. simpl. rewrite length_app. simpl. lia. }
  assert (listed w3) as I3.
  { unfold w3. destruct (bool_decide _); [done|]. apply (listed_lists w2); [done|done|done|]. intros g. simpl.
    rewrite elem_of_app, list_elem_of_singleton. intros [Hg|[Hg| ->]]; [apply (listed_all w2 I2); by left|apply (listed_all w2 I2); by right|done]. }
  assert (forall g, g ∈ newToQueueStore (queue w) \/ g ∈ currentQueueStore (queue w) ->
    (g ∈ newToQueueStore (queue w3) \/ g ∈ currentQueueStore (queue w3)) \/ booked w3 g) as P3.
  { assert (forall g, g ∈ currentQueueStore (queue w2) -> g ∈ currentQueueStore (queue w3)) as Hc23.
    { unfold w3. destruct (bool_decide _); [done|]. intros g Hg. simpl. apply elem_of_app. by left. }
    unfold booked. rewrite En3, Em3. intros g. destruct (decide (g = f)) as [->|Hgf].
    { intros _. unfold w3. destruct (bool_decide_reflect (c = LFG_COMPATIBLES_MATCH)) as [Hc|Hc]; [right; by apply Hm|].
      left. right. simpl. apply elem_of_app. right. by left. }
    rewrite E. intros [[->|Hg]%elem_of_cons|Hg]; [done| |].
    - destruct (kept_new _ _ _ K g) as [?|?]; [rewrite En1; by apply elem_of_set_del|by left; left|by right].
    - destruct (kept_current _ _ _ K g) as [?|?]; [done|left; right; auto|by right]. }
  destruct (IH m w3 I3) as (R1 & R2 & R3 & R4).
  - rewrite En3. lia.
  - rewrite En3. lia.
  - rewrite En3, Em3. nia.
  - split_and!; [done| | |].
    + intros g Hg. destruct (P3 g Hg) as [Hg3|Hg3]; [by apply R2|right; by apply R3].
    + intros g Hg. apply R3. unfold booked. rewrite Em3. by apply (kept_booked _ _ _ K).
    + assert (forall g, g ∈ newToQueueStore (queue w2) \/ g ∈ currentQueueStore (queue w2) \/ g = f ->
        g ∈ f :: l \/ g ∈ currentQueueStore (queue w)) as Hback.
      { intros g [Hg|[Hg| ->]]; [|by right; apply (kept_current_from _ _ _ K)|left; by left].
        apply (kept_new_from _ _ _ K) in Hg. rewrite En1, elem_of_set_del in Hg. left. right. tauto. }
      intros g Hg. apply Hback. destruct (R4 g Hg) as [Hg'|Hg']; [left; by rewrite <- En3|].
      destruct (Hc3 g Hg'); tauto.
Qed.
End Kept.

(** What [FindGroups] starts from: every listed guid has data and is queued, and
    no match of listed guids is left in the cache. *)
Record ready (w : QW) : Prop := {
  ready_data : forall g, g ∈ newToQueueStore (queue w) ++ currentQueueStore (queue w) -> data_of (queue w) g <> None;
  ready_state : forall g, g ∈ newToQueueStore (queue w) ++ currentQueueStore (queue w) ->
    GetState g (mgr w) = LFG_STATE_QUEUED;
  ready_cache : forall check, check <> [] -> check ⊆ newToQueueStore (queue w) ++ currentQueueStore (queue w) ->
    GetCompatibles (ConcatenateGuids check) (queue w) <> LFG_COMPATIBLES_BAD_STATES
    /\ GetCompatibles (ConcatenateGuids check) (queue w) <> LFG_COMPATIBLES_MATCH;
  ready_fresh : 0 <= m_lfgProposalId (mgr w) /\
    forall id p, map_find id (ProposalsStore (mgr w)) = Some p -> id <= m_lfgProposalId (mgr w)
}.

(** [FindGroups] loses nobody: it ends with no new guids, and whoever was in
    one of the lists is in the current list or in a proposal; nobody else enters
    the list, and no proposal is lost. *)
Theorem FindGroups_keeps `{Surroundings} w :
  ready w ->
  (let n := Z.of_nat (length (newToQueueStore (queue w)) + length (currentQueueStore (queue w))) in
   m_lfgProposalId (mgr w) + 5 * (1 + n) * n < 2 ^ 32) ->
  let w' := snd (FindGroups w) in
  newToQueueStore (queue w') = []
  /\ (forall g, g ∈ newToQueueStore (queue w) ++ currentQueueStore (queue w) ->
        g ∈ currentQueueStore (queue w') \/ booked w' g)
  /\ (forall g, g ∈ currentQueueStore (queue w') -> g ∈ newToQueueStore (queue w) ++ currentQueueStore (queue w))
  /\ forall g, booked w g -> booked w' g.
Proof.
  intros [D S C F] Hroom. set (L := newToQueueStore (queue w) ++ currentQueueStore (queue w)) in *.
  assert (listed L w) as I.
  { split; [done|done| | |done].
    - intros g Hg. by apply elem_of_app.
    - intros check Hne Hsub. destruct (C check Hne Hsub). done. }
  destruct (FindGroups_loop_kept L (length (newToQueueStore (queue w))) 0 w
    (Z.of_nat (length (newToQueueStore (queue w)) + length (currentQueueStore (queue w)))) I) as (R1 & R2 & R3 & R4);
    [lia|lia|cbn zeta in Hroom; nia|].
  split_and!; [done| | |done].
  - intros g Hg. apply R2. by apply elem_of_app.
  - intros g Hg. apply elem_of_app. by apply R4.
Qed.

(** ** The theorems on a concrete queue *)
Definition five : list (Z * (Z * list Z)) :=
  [(1, (9, [10; 20])); (2, (2, [20])); (3, (8, [20])); (4, (12, [10; 20])); (5, (8, [20; 30]))].

Lemma map_find_in {A} g (d : A) m : map_find g m = Some d -> (g, d) ∈ m.
Proof.
  induction m as [|[k a] m IH]; cbn [map_find]; [done|]. destruct (Z.eqb_spec g k) as [->|]; [intros [= ->]; by left|].
  intros Hf. right. by apply IH.
Qed.

Lemma five_ok : queue_ok (queue (example_world five)).
Proof.
  assert (Forall (fun kd : Z * LfgQueueData => length (roles kd.2) = 1%nat) (QueueDataStore (queue (example_world five)))) as HF.
  { vm_compute. repeat constructor. }
  intros g e He. unfold data_of in He. destruct (map_find g _) as [d|] eqn:Hf; [|discriminate].
  apply (inj Some) in He as <-. apply map_find_in in Hf. rewrite Forall_forall in HF. specialize (HF _ Hf). cbn [snd] in HF.
  unfold entry_ok. cbn [fst snd]. rewrite HF. destruct (roles d) as [|[x r] [|]]; try discriminate.
  split_and!; [repeat constructor|done|done].
Qed.

Lemma example_select ignores : forall id l, l <> [] -> @SelectRandom (example_surroundings ignores) id l ∈ l.
Proof. intros id [|x l] Hl; [done|]. change (x ∈ x :: l). by left. Qed.

Lemma FindGroups_sound_witness :
  let w' := snd (@FindGroups (example_surroundings (fun _ _ => false)) (example_world five)) in
  map fst (ProposalsStore (mgr w')) = [1]
  /\ forall id p, map_find id (ProposalsStore (mgr w')) = Some p ->
       @sound_proposal (example_surroundings (fun _ _ => false)) (queue w') (mgr w') p.
Proof.
  intros w'. split; [vm_compute; reflexivity|]. intros id p Hp.
  pose proof (proj2 (@FindGroups_sound (example_surroundings (fun _ _ => false)) (example_select _)
    (example_world five) five_ok) id p Hp) as [Ho|Hs]; [|exact Hs].
  assert (ProposalsStore (mgr (example_world five)) = []) as E by (vm_compute; reflexivity).
  rewrite E in Ho. discriminate.
Defined.

Lemma five_ready : ready (example_world five).
Proof.
  split.
  - intros g Hg. vm_compute in Hg. repeat (apply elem_of_cons in Hg as [->|Hg]; [vm_compute; discriminate|]).
    by apply elem_of_nil in Hg.
  - intros g Hg. vm_compute in Hg. repeat (apply elem_of_cons in Hg as [->|Hg]; [vm_compute; reflexivity|]).
    by apply elem_of_nil in Hg.
  - intros check _ _. unfold GetCompatibles. assert (CompatibleMapStore (queue (example_world five)) = []) as -> by by vm_compute.
    split; discriminate.
  - split; [by vm_compute|]. intros id p Hp. vm_compute in Hp. discriminate.
Qed.

Lemma FindGroups_keeps_witness :
  let w' := snd (@FindGroups (example_surroundings (fun x y => (x =? 1) && (y =? 2))) (example_world five)) in
  currentQueueStore (queue w') = [1; 2; 3; 4; 5]
  /\ (forall g, g ∈ [1; 2; 3; 4; 5] -> g ∈ currentQueueStore (queue w') \/ booked w' g).
Proof.
  intros w'. split; [vm_compute; reflexivity|].
  destruct (@FindGroups_keeps (example_surroundings (fun x y => (x =? 1) && (y =? 2))) (example_world five) five_ready
    ltac:(vm_compute; reflexivity)) as (_ & Hp & _). exact Hp.
Defined.

(** ** What the search does not do *)

(** The leader's flag has been removed from the roles when the leader is
    chosen: player 3 asked to lead, player 1 does. *)
Example leader_flag_ignored :
  map (fun p => pr_leader (snd p)) (ProposalsStore (mgr (snd (@FindGroups (example_surroundings (fun _ _ => false))
    (example_world [(1, (8, [20])); (2, (2, [20])); (3, (9, [20])); (4, (4, [20])); (5, (8, [20]))]))))) = [1].
Proof. vm_compute. reflexivity. Qed.

(** The recursive call uses up the list of those still to be tried: player 6
    gets along with 1, who ignores all others, and then 2 to 6, who would match,
    are not tried together. Without player 1 they are. *)
Definition one_ignores (x y : Z) : bool := (x =? 1) && (2 <=? y) && (y <=? 5).
Definition damage (guid : Z) : Z * (Z * list Z) := (guid, (8, [20])).
Definition tank_and_healer : list (Z * (Z * list Z)) := [(2, (2, [20])); (3, (4, [20]))].
Example search_gives_up :
  let found l := proposals_of (snd (@FindGroups (example_surroundings one_ignores) (example_world l))) in
  found ([damage 1] ++ tank_and_healer ++ [damage 4; damage 5; damage 6]) = []
  /\ found (tank_and_healer ++ [damage 4; damage 5; damage 6]) = [[6; 2; 3; 4; 5]].
Proof. vm_compute. split; reflexivity. Qed.

(** A check of all but the first may make a proposal itself. Here two groups of
    two are each matched with players 2, 3 and 4, who end up in two proposals,
    while [FindGroups] counts none. *)
Definition two_groups : QW :=
  let group n := Z.shiftl HIGHGUID_GROUP 48 + n in
  let w := example_world ([damage 1] ++ tank_and_healer ++ [damage 4]) in
  mkQW (AddQueueData 9 0 [20] [(9, 8)] (AddQueueData (group 2) 0 [20] [(7, 8); (8, 8)]
         (AddQueueData (group 1) 0 [20] [(5, 8); (6, 8)] (queue w))))
    (fold_left (fun m g => SetState g LFG_STATE_QUEUED m) [group 1; group 2; 9] (mgr w)).
Example booked_twice :
  let '(n, w) := @FindGroups (example_surroundings (fun x y => (x =? 1) && ((2 <=? y) && (y <=? 4) || (y =? 9)))) two_groups in
  n = 0 /\ map (fun p => map fst (pr_players (snd p))) (ProposalsStore (mgr w)) = [[2; 3; 4; 5; 6]; [2; 3; 4; 7; 8]].
Proof. vm_compute. split; reflexivity. Qed.

(** The digits of a guid are looked for anywhere in a key: what is known about
    players 12 and 13 is forgotten when player 1 leaves. *)
Example cache_entry_of_others :
  let q := SetCompatibles (ConcatenateGuids [12; 13]) LFG_COMPATIBLES_WITH_LESS_PLAYERS empty_queue in
  CompatibleMapStore (RemoveFromCompatibles 1 q) = [].
Proof. vm_compute. reflexivity. Qed.

(** The combination shown to player 1 as his best is one of players 12 and 13. *)
Example best_of_others :
  let q := AddQueueData 1 0 [20] [(1, 8)] (SetCompatibilityData (ConcatenateGuids [12; 13])
             (mkCompatibility LFG_COMPATIBLES_WITH_LESS_PLAYERS [(12, 2); (13, 4)]) empty_queue) in
  map (fun d => bestCompatible (snd d)) (QueueDataStore (FindBestCompatibleInQueue 1 q)) = ["12|13"].
Proof. vm_compute. reflexivity. Qed.

End LfgQueue.
