(* ===== verification/LfgMgr.v ===== *)
(** * LfgMgr: role checks, proposals and votes of the dungeon finder

    The operations of [LFGMgr] ([game/DungeonFinding/LFGMgr.cpp]) that move
    players and groups through the dungeon finder: joining and leaving, the role
    check of a group, the answers to a proposal, the vote to kick, and the
    periodic update. [None] is a dereferenced end iterator. What happens to the
    groups when a proposal succeeds is an event, [MakeNewGroup]. *)
From S2P Require Import Prelude OrderedMap LfgRoles LfgData LfgQueue.
#[global] Open Scope Z_scope.

Module LfgMgr.
Import LfgRoles LfgData LfgQueue.

Definition LFG_TYPE_NONE := 0.
Definition LFG_TYPE_DUNGEON := 1.
Definition LFG_TYPE_RAID := 2.
Definition LFG_TYPE_HEROIC := 5.
Definition LFG_TYPE_RANDOM := 6.

(** What the dungeon finder looks at in a player and in his group. *)
Record PlayerView := mkPlayerView {
  pv_guid : Z;
  uses_battlegrounds : bool;
  has_deserter : bool;
  has_cooldown : bool
}.
Record GroupView := mkGroupView {
  gv_guid : Z;
  isLFGGroup : bool;
  GetMembersCount : Z;
  members : list PlayerView
}.

(** The dungeons loaded: the type and group of each, and the cache by group. *)
Class Dungeons := {
  GetLFGDungeon : Z -> option (Z * Z);
  CachedDungeonMapStore : Z -> list Z
}.

(** ** Queues of the manager *)
Definition queue_at (id : Z) (m : LFGMgr) : LFGQueue := default empty_queue (map_find id (QueuesStore m)).
Definition in_queue (id : Z) (f : LFGQueue -> LFGQueue) (m : LFGMgr) : LFGMgr :=
  set_QueuesStore (map_set id (f (queue_at id m)) (QueuesStore m)) m.

(** ** Updates of records *)
Definition set_rc_roles (roles : LfgRolesMap) (c : LfgRoleCheck) : LfgRoleCheck :=
  mkRoleCheck (rc_cancelTime c) roles (rc_state c) (rc_dungeons c) (rDungeonId c) (rc_leader c).
Definition set_rc_state (state : LfgRoleCheckState) (c : LfgRoleCheck) : LfgRoleCheck :=
  mkRoleCheck (rc_cancelTime c) (rc_roles c) state (rc_dungeons c) (rDungeonId c) (rc_leader c).
Definition set_pr_state (state : LfgProposalState) (p : LfgProposal) : LfgProposal :=
  mkProposal (dungeonId p) state (pr_group p) (pr_leader p) (pr_cancelTime p) (encounters p) (isNew p) (queues p) (pr_players p).
Definition set_pr_players (players : list (Z * LfgProposalPlayer)) (p : LfgProposal) : LfgProposal :=
  mkProposal (dungeonId p) (pr_state p) (pr_group p) (pr_leader p) (pr_cancelTime p) (encounters p) (isNew p) (queues p) players.
Definition set_accept (a : LfgAnswer) (pp : LfgProposalPlayer) : LfgProposalPlayer := mkProposalPlayer (pp_role pp) a (pp_group pp).
Definition set_votes (v : list (Z * LfgAnswer)) (b : LfgPlayerBoot) : LfgPlayerBoot :=
  mkBoot (bt_cancelTime b) (inProgress b) v (victim b) (bt_reason b).
Definition set_inProgress (v : bool) (b : LfgPlayerBoot) : LfgPlayerBoot :=
  mkBoot (bt_cancelTime b) v (votes b) (victim b) (bt_reason b).

Section Manager.
Context `{Surroundings, Dungeons}.

(** ** Restrictions *)

(** [lockMap[guid][dungeonId] = status] *)
Definition add_lock (guid dungeonId status : Z) (lockMap : list (Z * list (Z * Z))) : list (Z * list (Z * Z)) :=
  map_set guid (map_set dungeonId status (default [] (map_find guid lockMap))) lockMap.

(** The locks of one player; the loop ends when no dungeon is left. *)
Definition apply_locks (guid : Z) (locks : list (Z * Z)) (dl : list Z * list (Z * list (Z * Z)))
    : list Z * list (Z * list (Z * Z)) :=
  fold_left (fun dl lk =>
    let '(dungeons, lockMap) := dl in
    let dungeonId := Z.land (fst lk) 0x00FFFFFF in
    if bool_decide (dungeonId ∈ dungeons) then (set_del dungeonId dungeons, add_lock guid dungeonId (snd lk) lockMap)
    else dl) locks dl.

Definition GetCompatibleDungeons (dungeons players : list Z) (m : LFGMgr) : list Z * list (Z * list (Z * Z)) :=
  let '(dungeons, lockMap) :=
    fold_left (fun dl guid => match fst dl with [] => dl | _ => apply_locks guid (GetLockedDungeons guid m) dl end)
      players (dungeons, []) in
  (dungeons, match dungeons with [] => lockMap | _ => [] end).

Definition GetDungeonType (dungeonId : Z) : Z :=
  match GetLFGDungeon dungeonId with Some (t, _) => t | None => LFG_TYPE_NONE end.

Definition GetDungeonsByRandom (randomdungeon : Z) : list Z :=
  CachedDungeonMapStore (match GetLFGDungeon randomdungeon with Some (_, group) => group | None => 0 end).

(** ** The role check *)

(** What the answer makes of the check. *)
Definition answer_roles (guid roles : Z) (c : LfgRoleCheck) : LfgRoleCheck :=
  if guid =? 0 then set_rc_state LFG_ROLECHECK_ABORTED c
  else if roles <? PLAYER_ROLE_TANK then set_rc_state LFG_ROLECHECK_NO_ROLE c
  else
    let c := set_rc_roles (map_set guid roles (rc_roles c)) c in
    if forallb (fun p => negb (snd p =? PLAYER_ROLE_NONE)) (rc_roles c)
    then set_rc_state (if fst (CheckGroupRoles (rc_roles c)) then LFG_ROLECHECK_FINISHED else LFG_ROLECHECK_WRONG_ROLES) c
    else c.

(** The loop body, for a player of the check. *)
Definition tell_member (sendRoleChosen : bool) (guid roles : Z) (c : LfgRoleCheck) (m : LFGMgr) (p : Z * Z) : LFGMgr :=
  let pguid := fst p in
  let m := if sendRoleChosen then m else log [SendLfgRoleChosen pguid guid roles] m in
  let m := log [SendLfgRoleCheckUpdate pguid c] m in
  match rc_state c with
  | LFG_ROLECHECK_INITIALITING => m
  | LFG_ROLECHECK_FINISHED =>
      let dungeons := if rDungeonId c =? 0 then rc_dungeons c else [rDungeonId c] in
      let m := SetRoles pguid (snd p) (SetState pguid LFG_STATE_QUEUED m) in
      log [SendLfgUpdateParty pguid (mkUpdateData LFG_UPDATETYPE_ADDED_TO_QUEUE dungeons (GetComment pguid m))] m
  | _ =>
      let m := if rc_leader c =? pguid then log [SendLfgJoinResult pguid LFG_JOIN_FAILED (rc_state c) []] m else m in
      ClearState pguid (log [SendLfgUpdateParty pguid (update_data LFG_UPDATETYPE_ROLECHECK_FAILED)] m)
  end.

Definition UpdateRoleCheck (gguid guid roles : Z) (m : LFGMgr) : LFGMgr :=
  if gguid =? 0 then m
  else
    match map_find gguid (RoleChecksStore m) with
    | None => m
    | Some c =>
        let sendRoleChosen := negb (bool_decide (rc_state c = LFG_ROLECHECK_DEFAULT)) && negb (guid =? 0) in
        let c := answer_roles guid roles c in
        let m := set_RoleChecksStore (map_set gguid c (RoleChecksStore m)) m in
        let m := fold_left (tell_member sendRoleChosen guid roles c) (rc_roles c) m in
        let erase m := set_RoleChecksStore (map_erase gguid (RoleChecksStore m)) m in
        match rc_state c with
        | LFG_ROLECHECK_FINISHED =>
            let m := SetState gguid LFG_STATE_QUEUED m in
            erase (in_queue (GetQueue gguid m) (AddQueueData gguid now (rc_dungeons c) (rc_roles c)) m)
        | LFG_ROLECHECK_INITIALITING => m
        | _ => erase (RestoreState gguid m)
        end
    end.

(** ** Joining *)

(** The checks on the members of a group, up to the first that fails. *)
Fixpoint check_members (l : list PlayerView) (memberCount : Z) (players : list Z) : LfgJoinResult * Z * list Z :=
  match l with
  | [] => (LFG_JOIN_OK, memberCount, players)
  | p :: l =>
      let result :=
        if has_deserter p then LFG_JOIN_PARTY_DESERTER
        else if has_cooldown p then LFG_JOIN_PARTY_RANDOM_COOLDOWN
        else if uses_battlegrounds p then LFG_JOIN_USING_BG_SYSTEM
        else LFG_JOIN_OK in
      let memberCount := u8 (memberCount + 1) in
      let players := set_add (pv_guid p) players in
      if bool_decide (result = LFG_JOIN_OK) then check_members l memberCount players else (result, memberCount, players)
  end.

Definition restrictions (player : PlayerView) (grp : option GroupView) (dungeons : list Z) : LfgJoinResult * list Z :=
  if uses_battlegrounds player then (LFG_JOIN_USING_BG_SYSTEM, [])
  else if has_deserter player then (LFG_JOIN_DESERTER, [])
  else if has_cooldown player then (LFG_JOIN_RANDOM_COOLDOWN, [])
  else
    match dungeons, grp with
    | [], _ => (LFG_JOIN_NOT_MEET_REQS, [])
    | _, Some g =>
        if MAXGROUPSIZE <? GetMembersCount g then (LFG_JOIN_TOO_MUCH_MEMBERS, [])
        else
          let '(result, memberCount, players) := check_members (members g) 0 [] in
          if bool_decide (result = LFG_JOIN_OK) && negb (memberCount =? GetMembersCount g)
          then (LFG_JOIN_DISCONNECTED, players) else (result, players)
    | _, None => (LFG_JOIN_OK, [pv_guid player])
    end.

(** The loop over the dungeons: the result, whether there is a dungeon or a raid
    among them and the random dungeon. *)
Record Selection := mkSelection {
  s_result : LfgJoinResult;
  isDungeon : bool;
  isRaid : bool;
  s_random : Z
}.
Definition check_dungeon (dungeons : list Z) (s : Selection) (d : Z) : Selection :=
  let t := GetDungeonType d in
  if negb (bool_decide (s_result s = LFG_JOIN_OK)) then s
  else if (t =? LFG_TYPE_RANDOM) || (t =? LFG_TYPE_HEROIC) || (t =? LFG_TYPE_DUNGEON) then
    let many := (t =? LFG_TYPE_RANDOM) && (1 <? Z.of_nat (length dungeons)) in
    mkSelection
      (if isRaid s then LFG_JOIN_MIXED_RAID_DUNGEON else if many then LFG_JOIN_DUNGEON_INVALID else LFG_JOIN_OK)
      true (isRaid s)
      (if (t =? LFG_TYPE_RANDOM) && negb many then default 0 (head dungeons) else s_random s)
  else if t =? LFG_TYPE_RAID then
    mkSelection (if isDungeon s then LFG_JOIN_MIXED_RAID_DUNGEON else LFG_JOIN_OK) (isDungeon s) true (s_random s)
  else mkSelection LFG_JOIN_DUNGEON_INVALID (isDungeon s) (isRaid s) (s_random s).

(** A member learns of the role check. *)
Definition enter_rolecheck (isContinue : bool) (dungeons : list Z) (comment : string) (gguid : Z) (m : LFGMgr) (p : PlayerView)
    : LFGMgr :=
  let pguid := pv_guid p in
  let m := log [SendLfgUpdateParty pguid (mkUpdateData LFG_UPDATETYPE_JOIN_PROPOSAL dungeons comment)] m in
  let m := SetState pguid LFG_STATE_ROLECHECK m in
  let m := if isContinue then m else SetSelectedDungeons pguid dungeons m in
  match map_find gguid (RoleChecksStore m) with
  | Some c => set_RoleChecksStore (map_set gguid (set_rc_roles (map_set pguid 0 (rc_roles c)) c) (RoleChecksStore m)) m
  | None => m
  end.

Definition JoinLfg (player : PlayerView) (grp : option GroupView) (roles : Z) (dungeons : list Z) (comment : string)
    (m : LFGMgr) : LFGMgr :=
  match dungeons with
  | [] => m
  | _ =>
      let guid := pv_guid player in
      let gguid := match grp with Some g => gv_guid g | None => guid end in
      let isContinue := match grp with
                        | Some g => isLFGGroup g && negb (bool_decide (GetState gguid m = LFG_STATE_FINISHED_DUNGEON))
                        | None => false
                        end in
      let dungeons := if isContinue then [GetDungeon gguid true m] else dungeons in
      let queued := bool_decide (GetState gguid m = LFG_STATE_QUEUED) in
      if queued && bool_decide (GetSelectedDungeons guid m = dungeons) then
        let data := mkUpdateData LFG_UPDATETYPE_ADDED_TO_QUEUE dungeons comment in
        log (SendLfgJoinResult guid LFG_JOIN_OK LFG_ROLECHECK_DEFAULT []
             :: match grp with Some g => map (fun p => SendLfgUpdateParty (pv_guid p) data) (members g) | None => [] end) m
      else
        let m := if queued then in_queue (GetQueue gguid m) (RemoveFromQueue gguid) m else m in
        let '(result, players) := restrictions player grp dungeons in
        let s := fold_left (check_dungeon dungeons) dungeons (mkSelection result false false 0) in
        let '(result, dungeons, lockmap) :=
          if bool_decide (s_result s = LFG_JOIN_OK) then
            let dungeons := if s_random s =? 0 then dungeons else GetDungeonsByRandom (s_random s) in
            let '(dungeons, lockmap) := GetCompatibleDungeons dungeons players m in
            (match dungeons with
             | [] => match grp with Some _ => LFG_JOIN_PARTY_NOT_MEET_REQS | None => LFG_JOIN_NOT_MEET_REQS end
             | _ => LFG_JOIN_OK
             end, dungeons, lockmap)
          else (s_result s, dungeons, []) in
        if negb (bool_decide (result = LFG_JOIN_OK)) then
          log [SendLfgJoinResult guid result LFG_ROLECHECK_DEFAULT (match dungeons with [] => lockmap | _ => [] end)] m
        else
          let m := SetComment guid comment m in
          if isRaid s then m
          else
            let shown := if s_random s =? 0 then dungeons else [s_random s] in
            match grp with
            | Some g =>
                let old := match map_find gguid (RoleChecksStore m) with Some c => rc_roles c | None => [] end in
                let c := mkRoleCheck (now + LFG_TIME_ROLECHECK) old LFG_ROLECHECK_INITIALITING dungeons (s_random s) guid in
                let m := set_RoleChecksStore (map_set gguid c (RoleChecksStore m)) m in
                let m := SetState gguid LFG_STATE_ROLECHECK m in
                let m := fold_left (enter_rolecheck isContinue shown comment gguid) (members g) m in
                UpdateRoleCheck gguid guid roles m
            | None =>
                let m := in_queue (GetQueue gguid m) (AddQueueData guid now dungeons [(guid, roles)]) m in
                let m := if isContinue then m else SetSelectedDungeons guid shown m in
                let m := log [SendLfgJoinResult guid LFG_JOIN_OK LFG_ROLECHECK_DEFAULT lockmap;
                              SendLfgUpdatePlayer guid (mkUpdateData LFG_UPDATETYPE_JOIN_PROPOSAL shown comment)] m in
                SetRoles guid roles (SetState gguid LFG_STATE_QUEUED m)
            end
  end.

(** ** Proposals *)

Definition queue_guid (p : Z * LfgProposalPlayer) : Z := if pp_group (snd p) =? 0 then fst p else pp_group (snd p).

(** The answers when a proposal fails, and the guids to remove. *)
Definition denied (type : LfgUpdateType) (p : LfgProposal) : LfgProposal :=
  if bool_decide (type = LFG_UPDATETYPE_PROPOSAL_FAILED)
  then set_pr_players (map (prod_map id (fun pp =>
         if bool_decide (pp_accept pp = LFG_ANSWER_PENDING) then set_accept LFG_ANSWER_DENY pp else pp)) (pr_players p)) p
  else p.
Definition to_remove (p : LfgProposal) : list Z :=
  foldr set_add [] (map queue_guid (List.filter (fun p => bool_decide (pp_accept (snd p) = LFG_ANSWER_DENY)) (pr_players p))).

(** The loop body that notifies the players. *)
Definition release (type : LfgUpdateType) (id : Z) (proposal : LfgProposal) (m : LFGMgr) (p : Z * LfgProposalPlayer) : LFGMgr :=
  let guid := fst p in
  let gguid := queue_guid p in
  let m := log [SendLfgUpdateProposal guid id proposal] m in
  if bool_decide (gguid ∈ to_remove proposal) then
    let data := update_data (if bool_decide (pp_accept (snd p) = LFG_ANSWER_DENY) then type
                             else LFG_UPDATETYPE_REMOVED_FROM_QUEUE) in
    let m := ClearState guid m in
    if gguid =? guid then log [SendLfgUpdatePlayer guid data] m
    else log [SendLfgUpdateParty guid data] (RestoreState gguid m)
  else
    let m := SetState guid LFG_STATE_QUEUED m in
    let data m := mkUpdateData LFG_UPDATETYPE_ADDED_TO_QUEUE (GetSelectedDungeons guid m) (GetComment guid m) in
    if gguid =? guid then log [SendLfgUpdatePlayer guid (data m)] m
    else let m := SetState gguid LFG_STATE_QUEUED m in log [SendLfgUpdateParty guid (data m)] m.

Definition RemoveProposal (id : Z) (type : LfgUpdateType) (m : LFGMgr) : option LFGMgr :=
  match map_find id (ProposalsStore m) with
  | None => None
  | Some p =>
      let p := denied type (set_pr_state LFG_PROPOSAL_FAILED p) in
      let m := fold_left (release type id p) (pr_players p) m in
      match pr_players p with
      | [] => None
      | first :: _ =>
          let qid := GetQueue (fst first) m in
          let m := in_queue qid (fun q =>
            let q := fold_left (fun q guid => RemoveFromQueue guid q) (to_remove p) q in
            let stay := List.filter (fun guid => negb (bool_decide (guid ∈ to_remove p))) (queues p) in
            fold_left (fun q guid => AddToQueue guid q) stay q) m in
          Some (set_ProposalsStore (map_erase id (ProposalsStore m)) m)
      end
  end.

(** The loop body of a successful proposal. [qid] is the queue's id. *)
Definition enter_dungeon (sendUpdate : bool) (id qid joinTime : Z) (proposal : LfgProposal)
    (st : option (LFGMgr * LfgUpdateType)) (p : Z * LfgProposalPlayer) : option (LFGMgr * LfgUpdateType) :=
  match st with
  | None => None
  | Some (m, type) =>
      let pguid := fst p in
      let gguid := pp_group (snd p) in
      match GetSelectedDungeons pguid m with
      | [] => None
      | dungeonId :: _ =>
          let m := if sendUpdate then log [SendLfgUpdateProposal pguid id proposal] m else m in
          let '(joined, q) := GetJoinTime now (if gguid =? 0 then pguid else gguid) (queue_at qid m) in
          let m := in_queue qid (fun _ => q) m in
          let waitTime := s32 (Z.quot (joinTime - joined) 1000) in
          let m := log [if gguid =? 0 then SendLfgUpdatePlayer pguid (update_data type)
                        else SendLfgUpdateParty pguid (update_data type)] m in
          let removed := update_data LFG_UPDATETYPE_REMOVED_FROM_QUEUE in
          let m := log [SendLfgUpdatePlayer pguid removed; SendLfgUpdateParty pguid removed] m in
          let role := without_leader (GetRoles pguid m) in
          let m := in_queue qid
            (if role =? PLAYER_ROLE_DAMAGE then UpdateWaitTimeDps waitTime dungeonId
             else if role =? PLAYER_ROLE_HEALER then UpdateWaitTimeHealer waitTime dungeonId
             else if role =? PLAYER_ROLE_TANK then UpdateWaitTimeTank waitTime dungeonId
             else UpdateWaitTimeAvg waitTime dungeonId) m in
          let m := set_teleportStore (teleportStore m ++ [pguid]) m in
          Some (SetState pguid LFG_STATE_DUNGEON m, LFG_UPDATETYPE_REMOVED_FROM_QUEUE)
      end
  end.

Definition UpdateProposal (proposalId guid : Z) (accept : bool) (m : LFGMgr) : option LFGMgr :=
  match map_find proposalId (ProposalsStore m) with
  | None => Some m
  | Some proposal =>
      match map_find guid (pr_players proposal) with
      | None => Some m
      | Some player =>
          let answer := if accept then LFG_ANSWER_AGREE else LFG_ANSWER_DENY in
          let proposal := set_pr_players (map_set guid (set_accept answer player) (pr_players proposal)) proposal in
          let m := set_ProposalsStore (map_set proposalId proposal (ProposalsStore m)) m in
          if negb accept then RemoveProposal proposalId LFG_UPDATETYPE_PROPOSAL_DECLINED m
          else if negb (forallb (fun p => bool_decide (pp_accept (snd p) = LFG_ANSWER_AGREE)) (pr_players proposal)) then
            Some (log (map (fun p => SendLfgUpdateProposal (fst p) proposalId proposal) (pr_players proposal)) m)
          else
            let sendUpdate := negb (bool_decide (pr_state proposal = LFG_PROPOSAL_SUCCESS)) in
            let proposal := set_pr_state LFG_PROPOSAL_SUCCESS proposal in
            let qid := GetQueue guid m in
            match fold_left (enter_dungeon sendUpdate proposalId qid now proposal) (pr_players proposal)
                    (Some (m, LFG_UPDATETYPE_GROUP_FOUND)) with
            | None => None
            | Some (m, _) =>
                let m := in_queue qid (fun q => fold_left (fun q guid => RemoveFromQueue guid q) (queues proposal) q) m in
                let m := log [MakeNewGroup proposal] m in
                Some (set_ProposalsStore (map_erase proposalId (ProposalsStore m)) m)
            end
      end
  end.

(** ** The vote to kick *)

Definition InitBoot (gguid kicker victim : Z) (reason : string) (m : LFGMgr) : LFGMgr :=
  let m := SetState gguid LFG_STATE_BOOT m in
  let players := GetPlayers gguid m in
  let old := match map_find gguid (BootsStore m) with Some b => votes b | None => [] end in
  let '(m, v) := fold_left (fun '(m, v) guid => (SetState guid LFG_STATE_BOOT m, map_set guid LFG_ANSWER_PENDING v))
                   players (m, old) in
  let v := map_set kicker LFG_ANSWER_AGREE (map_set victim LFG_ANSWER_DENY v) in
  let boot := mkBoot (now + LFG_TIME_BOOT) true v victim reason in
  log (map (fun guid => SendLfgBootProposalUpdate guid boot) players)
    (set_BootsStore (map_set gguid boot (BootsStore m)) m).

Definition count_votes (v : list (Z * LfgAnswer)) : Z * Z :=
  fold_left (fun '(votesNum, agreeNum) kv =>
    match snd kv with
    | LFG_ANSWER_PENDING => (votesNum, agreeNum)
    | LFG_ANSWER_DENY => (u8 (votesNum + 1), agreeNum)
    | LFG_ANSWER_AGREE => (u8 (votesNum + 1), u8 (agreeNum + 1))
    end) v (0, 0).

(** [group] is whether the group still exists. [votes[guid]] makes an entry of a
    player who has none, with the value 0, which is a no. *)
Definition UpdateBoot (group : bool) (guid : Z) (accept : bool) (m : LFGMgr) : LFGMgr :=
  let gguid := GetGroup guid m in
  if gguid =? 0 then m
  else
    match map_find gguid (BootsStore m) with
    | None => m
    | Some boot =>
        let store v m := set_BootsStore (map_set gguid (set_votes v boot) (BootsStore m)) m in
        match map_find guid (votes boot) with
        | None => store (map_set guid LFG_ANSWER_DENY (votes boot)) m
        | Some LFG_ANSWER_DENY | Some LFG_ANSWER_AGREE => m
        | Some LFG_ANSWER_PENDING =>
          let v := map_set guid (if accept then LFG_ANSWER_AGREE else LFG_ANSWER_DENY) (votes boot) in
          let '(votesNum, agreeNum) := count_votes v in
          if (agreeNum <? LFG_GROUP_KICK_VOTES_NEEDED) && (votesNum - agreeNum <? LFG_GROUP_KICK_VOTES_NEEDED)
          then store v m
          else
            let boot := set_inProgress false (set_votes v boot) in
            let m := fold_left (fun m kv =>
              if fst kv =? victim boot then m
              else log [SendLfgBootProposalUpdate (fst kv) boot] (SetState (fst kv) LFG_STATE_DUNGEON m)) v m in
            let m := SetState gguid LFG_STATE_DUNGEON m in
            let m := if agreeNum =? LFG_GROUP_KICK_VOTES_NEEDED then
                       DecreaseKicksLeft gguid (if group then log [RemoveFromGroup gguid (victim boot)] m else m)
                     else m in
            set_BootsStore (map_erase gguid (BootsStore m)) m
        end
    end.

(** ** Leaving *)

(** The first proposal with the player, its answer set to no. *)
Fixpoint deny_in (pguid : Z) (l : list (Z * LfgProposal)) : option (Z * LfgProposal) :=
  match l with
  | [] => None
  | (id, p) :: l =>
      match map_find pguid (pr_players p) with
      | Some pp => Some (id, set_pr_players (map_set pguid (set_accept LFG_ANSWER_DENY pp) (pr_players p)) p)
      | None => deny_in pguid l
      end
  end.

Definition LeaveLfg (guid : Z) (m : LFGMgr) : option LFGMgr :=
  let gguid := if IS_GROUP guid then guid else GetGroup guid m in
  let removed := update_data LFG_UPDATETYPE_REMOVED_FROM_QUEUE in
  match GetState guid m with
  | LFG_STATE_QUEUED =>
      Some
        (if gguid =? 0 then
           ClearState guid (log [SendLfgUpdatePlayer guid removed] (in_queue (GetQueue guid m) (RemoveFromQueue guid) m))
         else
           let m := RestoreState gguid (in_queue (GetQueue gguid m) (RemoveFromQueue gguid) m) in
           fold_left (fun m p => log [SendLfgUpdateParty p removed] (ClearState p m)) (GetPlayers gguid m) m)
  | LFG_STATE_ROLECHECK => Some (if gguid =? 0 then m else UpdateRoleCheck gguid 0 PLAYER_ROLE_NONE m)
  | LFG_STATE_PROPOSAL =>
      let pguid := if gguid =? guid then GetLeader gguid m else guid in
      match deny_in pguid (ProposalsStore m) with
      | None => Some m
      | Some (id, p) =>
          RemoveProposal id LFG_UPDATETYPE_PROPOSAL_DECLINED (set_ProposalsStore (map_set id p (ProposalsStore m)) m)
      end
  | _ => Some m
  end.

Definition RemovePlayerData (guid : Z) (m : LFGMgr) : LFGMgr := set_PlayersStore (delete guid (PlayersStore m)) m.

Definition RemoveGroupData (guid : Z) (m : LFGMgr) : LFGMgr :=
  match GroupsStore m !! guid with
  | None => m
  | Some d =>
      let m := fold_left (fun m p =>
        log [SendLfgUpdateParty p (update_data LFG_UPDATETYPE_REMOVED_FROM_QUEUE)] (SetGroup p 0 (ClearState p m)))
        (m_Players d) m in
      set_GroupsStore (delete guid (GroupsStore m)) m
  end.

Definition SetupGroupMember (guid gguid : Z) (m : LFGMgr) : LFGMgr :=
  let m := SetSelectedDungeons guid [GetDungeon gguid true m] m in
  let m := SetState guid (GetState gguid m) m in
  AddPlayerToGroup gguid guid (SetGroup guid gguid m).

Definition IsTeleported (pguid : Z) (m : LFGMgr) : bool * LFGMgr :=
  if bool_decide (pguid ∈ teleportStore m) then (true, set_teleportStore (set_del pguid (teleportStore m)) m) else (false, m).

(** ** The update *)

Definition expire_role_check (m : LFGMgr) (gc : Z * LfgRoleCheck) : LFGMgr :=
  let '(gguid, c) := gc in
  if now <? rc_cancelTime c then m
  else
    let c := set_rc_state LFG_ROLECHECK_MISSING_ROLE c in
    let m := fold_left (fun m p =>
      let guid := fst p in
      let m := log [SendLfgRoleCheckUpdate guid c] (ClearState guid m) in
      if guid =? rc_leader c then log [SendLfgJoinResult guid LFG_JOIN_FAILED LFG_ROLECHECK_MISSING_ROLE []] m else m)
      (rc_roles c) m in
    set_RoleChecksStore (map_erase gguid (RoleChecksStore m)) m.

Definition expire_proposal (om : option LFGMgr) (ip : Z * LfgProposal) : option LFGMgr :=
  match om with
  | None => None
  | Some m =>
      if pr_cancelTime (snd ip) <? now then RemoveProposal (fst ip) LFG_UPDATETYPE_PROPOSAL_FAILED m else Some m
  end.

Definition expire_boot (m : LFGMgr) (gb : Z * LfgPlayerBoot) : LFGMgr :=
  let '(gguid, boot) := gb in
  if bt_cancelTime boot <? now then
    let boot := set_inProgress false boot in
    let m := fold_left (fun m kv =>
      let m := if fst kv =? victim boot then m else log [SendLfgBootProposalUpdate (fst kv) boot] m in
      SetState (fst kv) LFG_STATE_DUNGEON m) (votes boot) m in
    set_BootsStore (map_erase gguid (BootsStore m)) (SetState gguid LFG_STATE_DUNGEON m)
  else m.

Definition find_groups_in (m : LFGMgr) (id : Z) : LFGMgr :=
  let w := snd (FindGroups (mkQW (queue_at id m) m)) in
  in_queue id (fun _ => queue w) (mgr w).

(** A player is told of the proposal. *)
Definition begin_proposal (id : Z) (proposal : LfgProposal) (m : LFGMgr) (guid : Z) : LFGMgr :=
  let m := SetState guid LFG_STATE_PROPOSAL m in
  let gguid := GetGroup guid m in
  let data m := mkUpdateData LFG_UPDATETYPE_PROPOSAL_BEGIN (GetSelectedDungeons guid m) (GetComment guid m) in
  let m := if gguid =? 0 then log [SendLfgUpdatePlayer guid (data m)] m
           else let m := SetState gguid LFG_STATE_PROPOSAL m in log [SendLfgUpdateParty guid (data m)] m in
  log [SendLfgUpdateProposal guid (m_lfgProposalId m) proposal] m.

(** The loop from [find(m_lfgProposalId)] to the end. *)
Definition begin_proposals (m : LFGMgr) : option LFGMgr :=
  let started := if bool_decide (is_Some (map_find (m_lfgProposalId m) (ProposalsStore m)))
                 then List.filter (fun ip => m_lfgProposalId m <=? fst ip) (ProposalsStore m) else [] in
  fold_left (fun om ip =>
    match om with
    | None => None
    | Some m =>
        let '(id, proposal) := ip in
        let m := fold_left (begin_proposal id proposal) (map fst (pr_players proposal)) m in
        if bool_decide (pr_state proposal = LFG_PROPOSAL_SUCCESS)
        then UpdateProposal id (default 0 (last (map fst (pr_players proposal)))) true m else Some m
    end) started (Some m).

Definition update_queues (m : LFGMgr) : option LFGMgr :=
  fold_left (fun om id =>
    match om with
    | None => None
    | Some m =>
        match UpdateQueueTimers now (mkQW (queue_at id m) m) with
        | Some w => Some (in_queue id (fun _ => queue w) (mgr w))
        | None => None
        end
    end) (map fst (QueuesStore m)) (Some m).

(** [m_options] and the number of milliseconds since the last update. *)
Definition Update (m_options diff : Z) (m : LFGMgr) : option LFGMgr :=
  if Z.land m_options 3 =? 0 then Some m
  else
    let m := fold_left expire_role_check (RoleChecksStore m) m in
    match fold_left expire_proposal (ProposalsStore m) (Some m) with
    | None => None
    | Some m =>
        let m := fold_left expire_boot (BootsStore m) m in
        let lastProposalId := m_lfgProposalId m in
        let m := fold_left find_groups_in (map fst (QueuesStore m)) m in
        match (if lastProposalId =? m_lfgProposalId m then Some m else begin_proposals m) with
        | None => None
        | Some m =>
            if LFG_QUEUEUPDATE_INTERVAL <? m_QueueTimer m then update_queues (set_QueueTimer 0 m)
            else Some (set_QueueTimer (u32 (m_QueueTimer m + diff)) m)
        end
    end.

(** ** The hooks of groups and players (LFGScripts.cpp) *)
Definition OnAddMember (gguid leader guid : Z) (online : list Z) (m : LFGMgr) : option LFGMgr :=
  let om :=
    if leader =? guid then Some (SetLeader gguid guid m)
    else
      let gstate := GetState gguid m in
      let state := GetState guid m in
      let data := update_data LFG_UPDATETYPE_UPDATE_STATUS in
      let m := log (flat_map (fun p => [SendLfgUpdatePlayer p data; SendLfgUpdateParty p data]) online) m in
      let leave (cond : bool) (g : Z) (om : option LFGMgr) := match om with Some m => if cond then LeaveLfg g m else Some m | None => None end in
      leave (bool_decide (gstate = LFG_STATE_QUEUED)) gguid
        (leave (bool_decide (state = LFG_STATE_QUEUED)) guid (Some m)) in
  match om with
  | Some m => Some (AddPlayerToGroup gguid guid (SetGroup guid gguid m))
  | None => None
  end.

Definition OnChangeLeader (gguid newLeaderGuid : Z) : LFGMgr -> LFGMgr := SetLeader gguid newLeaderGuid.
Definition OnDisband (gguid : Z) : LFGMgr -> LFGMgr := RemoveGroupData gguid.
Definition OnInviteMember (gguid leader : Z) (m : LFGMgr) : option LFGMgr :=
  if negb (leader =? 0) && (gguid =? 0) then LeaveLfg leader m else Some m.
Definition OnLogout (guid : Z) (m : LFGMgr) : option LFGMgr :=
  match LeaveLfg guid m with
  | Some m =>
      let removed := update_data LFG_UPDATETYPE_REMOVED_FROM_QUEUE in
      Some (RemovePlayerData guid (log [SendLfgUpdateParty guid removed; SendLfgUpdatePlayer guid removed] m))
  | None => None
  end.

Inductive RemoveMethod :=
| GROUP_REMOVEMETHOD_DEFAULT | GROUP_REMOVEMETHOD_KICK | GROUP_REMOVEMETHOD_LEAVE | GROUP_REMOVEMETHOD_KICK_LFG.
#[global] Instance RemoveMethod_eq_dec : EqDecision RemoveMethod.
Proof. solve_decision. Defined.

(** The part of the hook that changes the dungeon finder's data. *)
Definition OnRemoveMember (isLFG : bool) (gguid guid kicker : Z) (method : RemoveMethod) (reason : string) (m : LFGMgr)
    : option LFGMgr :=
  if isLFG && bool_decide (method = GROUP_REMOVEMETHOD_KICK) then Some (InitBoot gguid kicker guid reason m)
  else if bool_decide (GetState gguid m = LFG_STATE_PROPOSAL) && bool_decide (method = GROUP_REMOVEMETHOD_DEFAULT)
  then Some (fst (RemovePlayerFromGroup gguid guid (SetGroup guid 0 m)))
  else
    match LeaveLfg guid m with
    | Some m => Some (fst (RemovePlayerFromGroup gguid guid (SetGroup guid 0 (SetState guid LFG_STATE_NONE m))))
    | None => None
    end.
End Manager.

(** ** Restrictions *)
Section Restrictions.
Context `{Surroundings, Dungeons}.

(** The dungeons of a list of locks. *)
Definition lock_ids (locks : list (Z * Z)) : list Z := (fun lk => Z.land (fst lk) 0x00FFFFFF) <$> locks.

(** An entry of the lock map is a lock of the player for a dungeon that was
    asked for, and every dungeon that went has one. *)
Definition explains (m : LFGMgr) (asked left : list Z) (lockMap : list (Z * list (Z * Z))) (players : list Z) : Prop :=
  (forall d, d ∈ asked -> d ∉ left -> exists guid l status,
     guid ∈ players /\ map_find guid lockMap = Some l /\ map_find d l = Some status)
  /\ forall guid l d status, map_find guid lockMap = Some l -> map_find d l = Some status ->
       d ∈ asked /\ guid ∈ players /\ exists key, (key, status) ∈ GetLockedDungeons guid m /\ d = Z.land key 0x00FFFFFF.

Lemma add_lock_find guid d status lm guid' :
  map_find guid' (add_lock guid d status lm)
  = if guid' =? guid then Some (map_set d status (default [] (map_find guid lm))) else map_find guid' lm.
Proof.
  unfold add_lock. destruct (Z.eqb_spec guid' guid) as [->|Hne]; [apply map_find_set|by apply map_find_set_ne].
Qed.

Lemma explains_add m asked players guid key status ds lm :
  guid ∈ players -> (key, status) ∈ GetLockedDungeons guid m -> ds ⊆ asked -> Z.land key 0x00FFFFFF ∈ ds ->
  explains m asked ds lm players ->
  explains m asked (set_del (Z.land key 0x00FFFFFF) ds) (add_lock guid (Z.land key 0x00FFFFFF) status lm) players.
Proof.
  set (k := Z.land key 0x00FFFFFF). intros Hg Hl Hds Hk [He1 He2]. split.
  - intros d Hd Hnot. destruct (decide (d = k)) as [->|Hdk].
    + exists guid, (map_set k status (default [] (map_find guid lm))), status.
      rewrite add_lock_find, Z.eqb_refl, map_find_set. done.
    + destruct (He1 d Hd) as (g & l & st & Hgp & Hgl & Hst); [rewrite elem_of_set_del in Hnot; tauto|].
      exists g. rewrite add_lock_find. destruct (Z.eqb_spec g guid) as [->|Hgg]; [|by eexists _, _].
      eexists _, st. split; [done|]. split; [reflexivity|]. rewrite Hgl. simpl. by rewrite map_find_set_ne.
  - intros g l d st. rewrite add_lock_find. destruct (Z.eqb_spec g guid) as [->|Hgg]; [|by apply He2].
    intros [= <-]. destruct (decide (d = k)) as [->|Hdk].
    + rewrite map_find_set. intros [= <-]. split; [by apply Hds|]. split; [done|]. by exists key.
    + rewrite map_find_set_ne by done. destruct (map_find guid lm) as [l|] eqn:El; [|done]. by apply He2.
Qed.

Lemma apply_locks_spec m guid asked players locks ds lm :
  guid ∈ players -> (forall lk, lk ∈ locks -> lk ∈ GetLockedDungeons guid m) -> ds ⊆ asked -> explains m asked ds lm players ->
  let '(ds', lm') := apply_locks guid locks (ds, lm) in
  ds' = filter (fun d => d ∉ lock_ids locks) ds /\ explains m asked ds' lm' players.
Proof.
  intros Hg. revert ds lm. induction locks as [|[key status] locks IH]; intros ds lm Hl Hds He.
  { simpl. split; [|done]. symmetry. apply filter_all. intros d _. by apply not_elem_of_nil. }
  unfold apply_locks. cbn [fold_left fst snd].
  assert (forall lk, lk ∈ locks -> lk ∈ GetLockedDungeons guid m) as Hl' by (intros lk Hlk; apply Hl; by right).
  assert (forall d, d ∉ lock_ids ((key, status) :: locks) <-> d <> Z.land key 0x00FFFFFF /\ d ∉ lock_ids locks) as Hids.
  { intros d. unfold lock_ids. rewrite fmap_cons, not_elem_of_cons. done. }
  destruct (bool_decide_reflect (Z.land key 0x00FFFFFF ∈ ds)) as [Hin|Hin].
  - set (ds1 := set_del _ ds). set (lm1 := add_lock _ _ _ lm). change (fold_left _ locks (ds1, lm1)) with (apply_locks guid locks (ds1, lm1)).
    specialize (IH ds1 lm1 Hl'). destruct (apply_locks guid locks (ds1, lm1)) as [ds' lm']. destruct IH as [-> He'].
    + intros d [_ Hd]%elem_of_set_del. by apply Hds.
    + apply explains_add; try done. apply Hl. by left.
    + split; [|done]. unfold ds1, set_del. rewrite list_filter_filter. apply list_filter_iff. intros d. rewrite Hids. tauto.
  - change (fold_left _ locks (ds, lm)) with (apply_locks guid locks (ds, lm)).
    specialize (IH ds lm Hl' Hds He). destruct (apply_locks guid locks (ds, lm)) as [ds' lm']. destruct IH as [-> He'].
    split; [|done]. apply filter_iff_in. intros d Hd. rewrite Hids. split; [|tauto]. intros ?. split; [by intros ->|done].
Qed.

(** The dungeons a group can go to are those asked for that none of its
    players is locked out of, and when there are none the lock map tells, for
    each dungeon asked for, of a player and his lock. *)
Theorem GetCompatibleDungeons_filter asked players m :
  let '(dungeons, lockMap) := GetCompatibleDungeons asked players m in
  dungeons = filter (fun d => Forall (fun guid => d ∉ lock_ids (GetLockedDungeons guid m)) players) asked
  /\ (dungeons <> [] -> lockMap = [])
  /\ (dungeons = [] -> explains m asked [] lockMap players).
Proof.
  unfold GetCompatibleDungeons.
  assert (forall l ds lm, l ⊆ players -> ds ⊆ asked -> explains m asked ds lm players ->
    let '(ds', lm') := fold_left (fun dl guid => match fst dl with [] => dl | _ => apply_locks guid (GetLockedDungeons guid m) dl end) l (ds, lm) in
    ds' = filter (fun d => Forall (fun guid => d ∉ lock_ids (GetLockedDungeons guid m)) l) ds /\ explains m asked ds' lm' players) as Hf.
  { induction l as [|guid l IH]; intros ds lm Hl Hds He.
    { simpl. split; [|done]. symmetry. apply filter_all. intros d _. constructor. }
    cbn [fold_left fst]. assert (guid ∈ players) as Hg by (apply Hl; by left).
    assert (l ⊆ players) as Hl' by (intros x Hx; apply Hl; by right).
    assert (exists lm1, (match ds with [] => (ds, lm) | _ => apply_locks guid (GetLockedDungeons guid m) (ds, lm) end)
      = (filter (fun d => d ∉ lock_ids (GetLockedDungeons guid m)) ds, lm1)
      /\ explains m asked (filter (fun d => d ∉ lock_ids (GetLockedDungeons guid m)) ds) lm1 players) as (lm1 & -> & He1).
    { destruct ds as [|d ds]; [by exists lm|].
      pose proof (apply_locks_spec m guid asked players (GetLockedDungeons guid m) (d :: ds) lm Hg ltac:(done) Hds He) as A.
      destruct (apply_locks _ _ _) as [ds1 lm1]. destruct A as [-> A]. by exists lm1. }
    specialize (IH _ lm1 Hl' ltac:(by intros d [_ Hd]%list_elem_of_filter; apply Hds) He1).
    destruct (fold_left _ l _) as [ds' lm']. destruct IH as [-> IH]. split; [|done].
    rewrite list_filter_filter. apply list_filter_iff. intros d. rewrite Forall_cons. tauto. }
  specialize (Hf players asked [] ltac:(done) ltac:(done)). destruct (fold_left _ players _) as [ds lm].
  destruct Hf as [-> He]. { split; [by intros d Hd Hn|]. intros guid l d st Hf. by simpl in Hf. }
  split; [done|]. destruct (filter _ asked) as [|d ds]; split; done.
Qed.
End Restrictions.

End LfgMgr.
