(* ===== verification/LfgReach.v ===== *)
(** * LfgReach: the groups that the dungeon finder forms

    The calls that reach [LFGMgr] (opcode handlers, the hooks of groups and
    players, the update) as steps of one machine, the invariant of its states, and
    what it says of the groups that are formed. *)
From S2P Require Import Prelude OrderedMap LfgRoles LfgData LfgQueue LfgMgr.
#[global] Open Scope Z_scope.

Module LfgReach.
Import LfgRoles LfgData LfgQueue LfgMgr.

(** ** The calls *)
Inductive Call :=
| JoinLfg_call (player : PlayerView) (grp : option GroupView) (roles : Z) (dungeons : list Z) (comment : string)
| LeaveLfg_call (guid : Z)
| UpdateRoleCheck_call (gguid guid roles : Z)
| UpdateProposal_call (proposalId guid : Z) (accept : bool)
| UpdateBoot_call (group : bool) (guid : Z) (accept : bool)
| Update_call (m_options diff : Z)
| OnAddMember_call (gguid leader guid : Z) (online : list Z)
| OnChangeLeader_call (gguid newLeaderGuid : Z)
| OnDisband_call (gguid : Z)
| OnInviteMember_call (gguid leader : Z)
| OnLogout_call (guid : Z)
| OnRemoveMember_call (isLFG : bool) (gguid guid kicker : Z) (method : RemoveMethod) (reason : string)
| SetupGroupMember_call (guid gguid : Z)
| IsTeleported_call (pguid : Z)
| SetLockedDungeons_call (guid : Z) (lock : list (Z * Z))
| SetTeam_call (allow_two_side_interaction : bool) (guid team : Z)
| SetDungeon_call (gguid dungeon : Z)
| SetState_call (guid : Z) (state : LfgState).

Definition perform `{Surroundings, Dungeons} (c : Call) (m : LFGMgr) : option LFGMgr :=
  match c with
  | JoinLfg_call player grp roles dungeons comment => Some (JoinLfg player grp roles dungeons comment m)
  | LeaveLfg_call guid => LeaveLfg guid m
  | UpdateRoleCheck_call gguid guid roles => Some (UpdateRoleCheck gguid guid roles m)
  | UpdateProposal_call id guid accept => UpdateProposal id guid accept m
  | UpdateBoot_call group guid accept => Some (UpdateBoot group guid accept m)
  | Update_call options diff => Update options diff m
  | OnAddMember_call gguid leader guid online => OnAddMember gguid leader guid online m
  | OnChangeLeader_call gguid guid => Some (OnChangeLeader gguid guid m)
  | OnDisband_call gguid => Some (OnDisband gguid m)
  | OnInviteMember_call gguid leader => OnInviteMember gguid leader m
  | OnLogout_call guid => OnLogout guid m
  | OnRemoveMember_call isLFG gguid guid kicker method reason => OnRemoveMember isLFG gguid guid kicker method reason m
  | SetupGroupMember_call guid gguid => Some (SetupGroupMember guid gguid m)
  | IsTeleported_call pguid => Some (snd (IsTeleported pguid m))
  | SetLockedDungeons_call guid lock => Some (SetLockedDungeons guid lock m)
  | SetTeam_call allow guid team => Some (SetTeam allow guid team m)
  | SetDungeon_call gguid dungeon => Some (SetDungeon gguid dungeon m)
  | SetState_call guid state => Some (SetState guid state m)
  end.

(** The counters of the role check are bytes: its players are at most 200, and a
    group that joins has at most 40 members. *)
Definition allowed (c : Call) (m : LFGMgr) : Prop :=
  match c with
  | JoinLfg_call _ (Some grp) _ _ _ =>
      (forall g c, map_find g (RoleChecksStore m) = Some c -> Z.of_nat (length (rc_roles c)) <= 200)
      /\ Z.of_nat (length (members grp)) <= 40
  | UpdateRoleCheck_call _ _ _ =>
      forall g c, map_find g (RoleChecksStore m) = Some c -> Z.of_nat (length (rc_roles c)) <= 200
  | _ => True
  end.

(** Nobody is queued at the start. *)
Definition started (players : gmap Z LfgPlayerData) (groups : gmap Z LfgGroupData) : LFGMgr :=
  mkMgr 0 0 [] [] [] [] players groups [] [].

Inductive reachable : LFGMgr -> Prop :=
| reach_start players groups : reachable (started players groups)
| reach_call (S : Surroundings) (D : Dungeons) c m m' :
    reachable m -> (forall id l, l <> [] -> SelectRandom id l ∈ l) -> allowed c m -> perform c m = Some m' -> reachable m'.

(** ** The invariant *)

(** The players of a proposal with the roles they are to have. *)
Definition roles_of (p : LfgProposal) : LfgRolesMap := prod_map id pp_role <$> pr_players p.

(** Five players, each once, one of them the leader; one tank, one healer and
    three damage dealers. *)
Record team (p : LfgProposal) : Prop := {
  team_size : Z.of_nat (length (roles_of p)) = MAXGROUPSIZE;
  team_sorted : map_sorted (roles_of p);
  team_counts : forall role n, (role, n) ∈ [(PLAYER_ROLE_TANK, 1); (PLAYER_ROLE_HEALER, 1); (PLAYER_ROLE_DAMAGE, 3)] ->
    players_as role (roles_of p) = n;
  team_leader : pr_leader p ∈ (roles_of p).*1
}.

Definition all_agree (p : LfgProposal) : Prop := Forall (fun pp => pp_accept pp.2 = LFG_ANSWER_AGREE) (pr_players p).

(** The proposals of which groups were formed. *)
Definition made (es : list Event) : list LfgProposal :=
  es ≫= (fun e => match e with MakeNewGroup p => [p] | _ => [] end).

Record mgr_ok (m : LFGMgr) : Prop := {
  ok_queues : forall id q, map_find id (QueuesStore m) = Some q -> queue_ok q;
  ok_checks : forall g c, map_find g (RoleChecksStore m) = Some c ->
    map_sorted (rc_roles c) /\ rc_dungeons c <> [] /\ rc_state c = LFG_ROLECHECK_INITIALITING;
  ok_sorted : map_sorted (ProposalsStore m);
  ok_proposals : forall id p, map_find id (ProposalsStore m) = Some p -> team p;
  ok_made : forall p, p ∈ made (trace m) -> team p /\ all_agree p
}.

(** What the invariant speaks of. *)
Definition core (m : LFGMgr) := (QueuesStore m, RoleChecksStore m, ProposalsStore m, made (trace m)).

Lemma mgr_ok_core m m' : core m' = core m -> mgr_ok m -> mgr_ok m'.
Proof. unfold core. intros [= E1 E2 E3 E4] []. split; by rewrite ?E1, ?E2, ?E3, ?E4. Qed.

Lemma made_app a b : made (a ++ b) = made a ++ made b.
Proof. apply bind_app. Qed.

Lemma core_log es m : made es = [] -> core (log es m) = core m.
Proof. intros E. unfold core, log. simpl. by rewrite made_app, E, app_nil_r. Qed.
Lemma made_map {A} (f : A -> Event) l : (forall a, made [f a] = []) -> made (map f l) = [].
Proof.
  intros Hf. induction l as [|a l IH]; [done|]. change (made ([f a] ++ map f l) = []). by rewrite made_app, Hf.
Qed.
Lemma core_log_map {A} (f : A -> Event) l m : (forall a, made [f a] = []) -> core (log (map f l) m) = core m.
Proof. intros Hf. by apply core_log, made_map. Qed.
Lemma core_log_flat_map {A} (f : A -> list Event) l m : (forall a, made (f a) = []) -> core (log (flat_map f l) m) = core m.
Proof. intros Hf. apply core_log. induction l as [|a l IH]; [done|]. simpl. by rewrite made_app, Hf. Qed.

Lemma core_SetState g st m : core (SetState g st m) = core m.
Proof. unfold SetState. by destruct (IS_GROUP g). Qed.
Lemma core_modify_player g f m : core (modify_player g f m) = core m. Proof. done. Qed.
Lemma core_modify_group g f m : core (modify_group g f m) = core m. Proof. done. Qed.
Lemma core_boots l m : core (set_BootsStore l m) = core m. Proof. done. Qed.
Lemma core_players l m : core (set_PlayersStore l m) = core m. Proof. done. Qed.
Lemma core_groups l m : core (set_GroupsStore l m) = core m. Proof. done. Qed.
Lemma core_teleports l m : core (set_teleportStore l m) = core m. Proof. done. Qed.
Lemma core_timer t m : core (set_QueueTimer t m) = core m. Proof. done. Qed.

Lemma core_fold {A} (f : LFGMgr -> A -> LFGMgr) l m :
  (forall m a, core (f m a) = core m) -> core (fold_left f l m) = core m.
Proof. intros Hf. revert m. induction l as [|a l IH]; intros m; [done|]. cbn [fold_left]. by rewrite IH, Hf. Qed.

Create Rewrite HintDb lfg_core.
Create HintDb lfg_ops.
#[export] Hint Rewrite core_SetState core_modify_player core_modify_group core_boots core_players core_groups
  core_teleports core_timer : lfg_core.
#[export] Hint Rewrite @core_log_map @core_log_flat_map using (intros; reflexivity) : lfg_core.
#[export] Hint Rewrite core_log using reflexivity : lfg_core.
#[export] Hint Unfold SetRoles SetComment SetSelectedDungeons SetLockedDungeons SetTeam SetGroup SetLeader SetDungeon ClearState
  RestoreState DecreaseKicksLeft AddPlayerToGroup RemovePlayerFromGroup : lfg_ops.

(** Closes goals on the core of an operation that leaves it alone. *)
Ltac solve_core :=
  autounfold with lfg_ops; cbv zeta;
  repeat (autorewrite with lfg_core; first [done | rewrite core_fold; [|intros; cbv zeta] | case_match; cbn [fst snd]]).

(** *** Queues, checks and proposals *)
Lemma queue_ok_empty : queue_ok empty_queue.
Proof. intros g e He. done. Qed.

Lemma queue_at_ok id m : mgr_ok m -> queue_ok (queue_at id m).
Proof.
  intros I. unfold queue_at. destruct (map_find id (QueuesStore m)) as [q|] eqn:E; [by eapply ok_queues|apply queue_ok_empty].
Qed.

Lemma in_queue_ok id f m : mgr_ok m -> queue_ok (f (queue_at id m)) -> mgr_ok (in_queue id f m).
Proof.
  intros I Hq. destruct I. split; try done. intros id' q. simpl. destruct (decide (id' = id)) as [->|Hne].
  - rewrite map_find_set. by intros [= <-].
  - rewrite map_find_set_ne by done. eauto.
Qed.

Lemma map_find_erase_some {A} k j (l : list (Z * A)) a : map_find j (map_erase k l) = Some a -> map_find j l = Some a.
Proof.
  destruct (decide (j = k)) as [->|Hne]; [by rewrite map_find_erase|by rewrite map_find_erase_ne].
Qed.

Lemma set_check_ok g c m :
  mgr_ok m -> map_sorted (rc_roles c) /\ rc_dungeons c <> [] /\ rc_state c = LFG_ROLECHECK_INITIALITING ->
  mgr_ok (set_RoleChecksStore (map_set g c (RoleChecksStore m)) m).
Proof.
  intros I Hc. destruct I. split; try done. intros g' c'. simpl. destruct (decide (g' = g)) as [->|Hne].
  - rewrite map_find_set. by intros [= <-].
  - rewrite map_find_set_ne by done. eauto.
Qed.

(** An entry that is about to go does not matter. *)
Lemma erase_check_ok g checks m :
  mgr_ok m -> (forall g' c, g' <> g -> map_find g' checks = Some c -> map_find g' (RoleChecksStore m) = Some c) ->
  mgr_ok (set_RoleChecksStore (map_erase g checks) m).
Proof.
  intros I Hc. destruct I. split; try done. intros g' c'. simpl. destruct (decide (g' = g)) as [->|Hne].
  - by rewrite map_find_erase.
  - intros Hf%map_find_erase_some. eauto.
Qed.

Lemma set_proposal_ok id p m :
  mgr_ok m -> team p -> mgr_ok (set_ProposalsStore (map_set id p (ProposalsStore m)) m).
Proof.
  intros I Hp. destruct I. split; try done; [by apply map_set_sorted|]. intros id' p'. simpl. destruct (decide (id' = id)) as [->|Hne].
  - rewrite map_find_set. by intros [= <-].
  - rewrite map_find_set_ne by done. eauto.
Qed.

Lemma erase_proposal_ok id m : mgr_ok m -> mgr_ok (set_ProposalsStore (map_erase id (ProposalsStore m)) m).
Proof.
  intros I. destruct I. split; try done; [by apply map_erase_sorted|]. intros id' p'. simpl. intros Hf%map_find_erase_some. eauto.
Qed.

Lemma queue_ok_data q q' : (forall g, data_of q' g = data_of q g) -> queue_ok q -> queue_ok q'.
Proof. intros D Hq g e. rewrite D. apply Hq. Qed.

Lemma queue_ok_remove g q : queue_ok q -> queue_ok (RemoveFromQueue g q).
Proof. intros Hq g' e. rewrite RemoveFromQueue_data. destruct (g' =? g); [done|]. apply Hq. Qed.

Lemma queue_ok_remove_all gs q : queue_ok q -> queue_ok (fold_left (fun q guid => RemoveFromQueue guid q) gs q).
Proof. revert q. induction gs as [|g gs IH]; intros q Hq; [done|]. by apply IH, queue_ok_remove. Qed.

Lemma AddToQueue_data g q g' : data_of (AddToQueue g q) g' = data_of q g'.
Proof. unfold AddToQueue. by destruct (map_find g (QueueDataStore q)). Qed.

Lemma queue_ok_add_all gs q : queue_ok q -> queue_ok (fold_left (fun q guid => AddToQueue guid q) gs q).
Proof.
  revert q. induction gs as [|g gs IH]; intros q Hq; [done|]. apply IH. eapply queue_ok_data, Hq. intros g'. apply AddToQueue_data.
Qed.

Lemma set_data_data g d q g' :
  data_of (set_QueueDataStore (map_set g d (QueueDataStore q)) q) g'
  = if g' =? g then Some (roles d, dungeons d) else data_of q g'.
Proof.
  unfold data_of. simpl. destruct (Z.eqb_spec g' g) as [->|Hne]; [by rewrite map_find_set|by rewrite map_find_set_ne].
Qed.

Lemma queue_ok_set g d q :
  entry_ok (roles d, dungeons d) -> queue_ok q -> queue_ok (set_QueueDataStore (map_set g d (QueueDataStore q)) q).
Proof. intros He Hq g' e. rewrite set_data_data. destruct (g' =? g); [by intros [= <-]|apply Hq]. Qed.

Lemma queue_ok_AddQueueData g t ds rs q : entry_ok (rs, ds) -> queue_ok q -> queue_ok (AddQueueData g t ds rs q).
Proof.
  intros He Hq. unfold AddQueueData. eapply queue_ok_data; [intros g'; apply AddToQueue_data|]. by apply queue_ok_set.
Qed.

Lemma queue_ok_GetJoinTime t g q : queue_ok q -> queue_ok (snd (GetJoinTime t g q)).
Proof.
  intros Hq. unfold GetJoinTime. destruct (map_find g (QueueDataStore q)); [done|]. apply queue_ok_set; [|done].
  split_and!; [constructor|done|done].
Qed.

(** *** Teams *)
Lemma team_same p p' : roles_of p' = roles_of p -> pr_leader p' = pr_leader p -> team p -> team p'.
Proof. intros Er El []. split; by rewrite ?Er, ?El. Qed.

Lemma team_answer p g pp a :
  team p -> map_find g (pr_players p) = Some pp -> team (set_pr_players (map_set g (set_accept a pp) (pr_players p)) p).
Proof.
  intros Ht Hf. apply (team_same p); [|done|done]. unfold roles_of. simpl. rewrite map_set_fmap. apply map_set_id.
  - apply (team_sorted _ Ht).
  - by rewrite map_find_fmap, Hf.
Qed.

Lemma sound_team `{Surroundings} q m p : sound_proposal q m p -> team p.
Proof.
  intros [].
  assert ((roles_of p).*1 = (pr_players p).*1) as Hk by (unfold roles_of; rewrite <- list_fmap_compose; by apply list_fmap_ext).
  split; [|unfold map_sorted|done|]; rewrite ?Hk; try done. unfold roles_of. by rewrite length_fmap.
Qed.

(** ** The operations keep the invariant *)
Section Operations.
Context `{Surroundings, Dungeons}.

(** *** Role checks *)
Definition erase_check (g : Z) (m : LFGMgr) : LFGMgr := set_RoleChecksStore (map_erase g (RoleChecksStore m)) m.

Lemma core_erase_check g m m' : core m' = core m -> core (erase_check g m') = core (erase_check g m).
Proof. unfold core. simpl. by intros [= -> -> -> ->]. Qed.

Lemma core_in_queue id f m m' : core m' = core m -> core (in_queue id f m') = core (in_queue id f m).
Proof. unfold core, in_queue, queue_at. simpl. by intros [= -> -> -> ->]. Qed.

Lemma core_tell_member b g rs c m p : core (tell_member b g rs c m p) = core m.
Proof. unfold tell_member. solve_core. Qed.

(** The check that an answer leaves: still open, failed, or that of a group
    whose roles go together. *)
Lemma answer_roles_ok guid roles c :
  map_sorted (rc_roles c) -> rc_dungeons c <> [] -> rc_state c = LFG_ROLECHECK_INITIALITING ->
  (guid <> 0 -> Z.of_nat (length (rc_roles c)) <= 250) ->
  let c' := answer_roles guid roles c in
  map_sorted (rc_roles c') /\ rc_dungeons c' <> []
  /\ (rc_state c' = LFG_ROLECHECK_FINISHED -> entry_ok (rc_roles c', rc_dungeons c')).
Proof.
  intros Hs Hd Hst Hl. unfold answer_roles. destruct (Z.eqb_spec guid 0) as [->|Hg]; [by split_and!|].
  destruct (roles <? PLAYER_ROLE_TANK); [by split_and!|].
  set (rs := map_set guid roles (rc_roles c)). assert (map_sorted rs) as Hrs by by apply map_set_sorted.
  assert (Z.of_nat (length rs) <= 251) as Hlen.
  { pose proof (length_map_set guid roles (rc_roles c)). specialize (Hl Hg). unfold rs. lia. }
  cbn [rc_roles set_rc_roles]. fold rs. destruct (forallb _ rs); cbn [rc_roles rc_dungeons rc_state set_rc_state set_rc_roles];
    [|split_and!; [done|done|by rewrite Hst]].
  split; [done|]. split; [done|]. destruct (CheckGroupRoles rs) as [ok out] eqn:E. cbn [fst]. destruct ok; [|done]. intros _.
  pose proof (check_group_roles rs ltac:(lia)) as Hc. rewrite E in Hc. destruct Hc as (Ha & Hf & _).
  specialize (Hf eq_refl). split_and!; [done| |by intros _; split; [apply Ha|]]. cbn [fst].
  pose proof (players_as_split out (fills_one_role _ _ Hf)) as Hsum. pose proof (fills_keys _ _ Hf) as Hk.
  apply (f_equal length) in Hk. rewrite !length_fmap in Hk. unfold remove_leaders in Hk. rewrite length_map in Hk.
  destruct Hf as [_ Ft Fh Fd]. unfold LFG_TANKS_NEEDED, LFG_HEALERS_NEEDED, LFG_DPS_NEEDED in *. lia.
Qed.

Lemma UpdateRoleCheck_ok gguid guid roles m :
  mgr_ok m ->
  (guid <> 0 -> forall c, map_find gguid (RoleChecksStore m) = Some c -> Z.of_nat (length (rc_roles c)) <= 250) ->
  mgr_ok (UpdateRoleCheck gguid guid roles m).
Proof.
  intros I Hl. unfold UpdateRoleCheck. destruct (gguid =? 0); [done|].
  destruct (map_find gguid (RoleChecksStore m)) as [c|] eqn:Hc; [|done].
  destruct (ok_checks _ I gguid c Hc) as (Hs & Hd & Hst).
  destruct (answer_roles_ok guid roles c Hs Hd Hst) as (Hs' & Hd' & Hf); [eauto|].
  set (c' := answer_roles guid roles c) in *. cbv zeta.
  set (m1 := set_RoleChecksStore (map_set gguid c' (RoleChecksStore m)) m).
  set (m2 := fold_left _ (rc_roles c') m1).
  assert (core m2 = core m1) as E2 by (apply core_fold; intros; apply core_tell_member).
  assert (forall f m', core f = core m' -> mgr_ok (erase_check gguid m') -> mgr_ok (erase_check gguid f)) as He.
  { intros f m' E I'. by eapply mgr_ok_core, I'; apply core_erase_check. }
  assert (forall m', mgr_ok m' -> RoleChecksStore m' = RoleChecksStore m ->
    mgr_ok (set_RoleChecksStore (map_erase gguid (map_set gguid c' (RoleChecksStore m))) m')) as Hm.
  { intros m' I' Er. apply erase_check_ok; [done|]. intros g' x Hne. rewrite map_find_set_ne by done. by rewrite Er. }
  assert (mgr_ok (erase_check gguid (RestoreState gguid m2))) as Hfail.
  { apply (He _ m1); [by rewrite <- E2; solve_core|]. by apply (Hm m). }
  destruct (rc_state c') eqn:Est; try exact Hfail.
  - apply (He _ (in_queue (GetQueue gguid (SetState gguid LFG_STATE_QUEUED m2)) (AddQueueData gguid now (rc_dungeons c') (rc_roles c')) m1)).
    + apply core_in_queue. rewrite <- E2. solve_core.
    + apply (Hm (in_queue _ _ m)); [|done]. apply in_queue_ok; [done|]. apply queue_ok_AddQueueData; [by apply Hf|by apply queue_at_ok].
  - eapply mgr_ok_core; [exact E2|]. by apply set_check_ok.
Qed.

(** *** Joining *)

(** The check of [g] has at most [n] players. *)
Definition check_size (g : Z) (n : Z) (m : LFGMgr) : Prop :=
  forall c, map_find g (RoleChecksStore m) = Some c -> Z.of_nat (length (rc_roles c)) <= n.

Lemma check_size_core g n m m' : core m' = core m -> check_size g n m -> check_size g n m'.
Proof. unfold core, check_size. by intros [= _ -> _ _]. Qed.

Lemma check_size_set g c n m :
  Z.of_nat (length (rc_roles c)) <= n -> check_size g n (set_RoleChecksStore (map_set g c (RoleChecksStore m)) m).
Proof. intros Hn c'. simpl. rewrite map_find_set. by intros [= <-]. Qed.

Lemma enter_rolecheck_ok b ds com g n m p :
  mgr_ok m -> check_size g n m ->
  mgr_ok (enter_rolecheck b ds com g m p) /\ check_size g (n + 1) (enter_rolecheck b ds com g m p).
Proof.
  intros I Hn. unfold enter_rolecheck. cbv zeta. set (m1 := if b then _ else _).
  assert (core m1 = core m) as E1 by (unfold m1; solve_core).
  apply (mgr_ok_core _ _ E1) in I. apply (check_size_core g n _ _ E1) in Hn.
  destruct (map_find g (RoleChecksStore m1)) as [c|] eqn:Hc.
  - destruct (ok_checks _ I g c Hc) as (Hs & Hd & Hst). split.
    + apply set_check_ok; [done|]. split_and!; [by apply map_set_sorted|done|done].
    + intros c'. simpl. rewrite map_find_set. intros [= <-]. simpl.
      pose proof (length_map_set (pv_guid p) 0 (rc_roles c)). specialize (Hn c Hc). lia.
  - split; [done|]. intros c. by rewrite Hc.
Qed.

Lemma enter_all_ok b ds com g l n m :
  mgr_ok m -> check_size g n m ->
  let m' := fold_left (enter_rolecheck b ds com g) l m in mgr_ok m' /\ check_size g (n + Z.of_nat (length l)) m'.
Proof.
  revert n m. induction l as [|p l IH]; intros n m I Hn; [by rewrite Z.add_0_r|].
  destruct (enter_rolecheck_ok b ds com g n m p I Hn) as [I' Hn']. specialize (IH _ _ I' Hn'). cbn [fold_left length].
  by replace (n + Z.of_nat (S (length l))) with (n + 1 + Z.of_nat (length l)) by lia.
Qed.

Lemma JoinLfg_ok player grp roles ds com m :
  mgr_ok m -> allowed (JoinLfg_call player grp roles ds com) m -> mgr_ok (JoinLfg player grp roles ds com m).
Proof.
  intros I A. unfold JoinLfg. destruct ds as [|d0 ds']; [done|]. set (ds := d0 :: ds'). cbv zeta.
  set (isContinue := match grp with Some g => _ | None => false end).
  set (dungeons := if isContinue then _ else ds). set (gguid := match grp with Some g => gv_guid g | None => pv_guid player end).
  set (queued := bool_decide (GetState _ m = LFG_STATE_QUEUED)).
  destruct (queued && bool_decide (_ = dungeons)).
  { eapply mgr_ok_core, I. apply core_log. destruct grp as [g|]; [|done]. by refine (made_map _ (members g) _). }
  set (m1 := if queued then _ else m). assert (mgr_ok m1) as I1.
  { unfold m1. destruct queued; [|done]. apply in_queue_ok; [done|]. by apply queue_ok_remove, queue_at_ok. }
  assert (RoleChecksStore m1 = RoleChecksStore m) as Er by (unfold m1; by destruct queued).
  destruct (restrictions player grp dungeons) as [result players].
  set (s := fold_left _ dungeons _).
  assert (exists result' found lockmap, (if bool_decide (s_result s = LFG_JOIN_OK)
     then let '(dungeons0, lockmap) := GetCompatibleDungeons (if s_random s =? 0 then dungeons else GetDungeonsByRandom (s_random s)) players m1 in
        (match dungeons0 with [] => match grp with Some _ => LFG_JOIN_PARTY_NOT_MEET_REQS | None => LFG_JOIN_NOT_MEET_REQS end | _ :: _ => LFG_JOIN_OK end, dungeons0, lockmap)
     else (s_result s, dungeons, [])) = (result', found, lockmap) /\ (result' = LFG_JOIN_OK -> found <> []))
    as (result' & found & lockmap & -> & Hfound).
  { case_bool_decide as Hs; [|by eexists _, _, _]. destruct (GetCompatibleDungeons _ _ _) as [f lm]. eexists _, _, _. split; [done|].
    by destruct f, grp. }
  case_bool_decide as Hres; cbn [negb]; [|by eapply mgr_ok_core, I1; solve_core].
  specialize (Hfound Hres). set (m2 := SetComment _ com m1). assert (mgr_ok m2) as I2 by by eapply mgr_ok_core, I1; solve_core.
  destruct (isRaid s); [done|]. destruct grp as [g|].
  - destruct A as [Hn Hg]. set (c := mkRoleCheck _ _ _ _ _ _).
    assert (map_sorted (rc_roles c) /\ Z.of_nat (length (rc_roles c)) <= 200) as [Hs Hlen].
    { unfold c. cbn [rc_roles]. change (RoleChecksStore m2) with (RoleChecksStore m1). rewrite Er. destruct (map_find gguid (RoleChecksStore m)) as [old|] eqn:Ho; [|split; [constructor|done]].
      split; [by apply (ok_checks _ I gguid old)|by eapply Hn]. }
    set (m3 := SetState gguid _ _).
    assert (mgr_ok m3) as I3.
    { eapply mgr_ok_core; [apply core_SetState|]. by apply set_check_ok. }
    assert (check_size gguid 200 m3) as H3.
    { eapply check_size_core; [apply core_SetState|]. by apply check_size_set. }
    destruct (enter_all_ok isContinue (if s_random s =? 0 then found else [s_random s]) com gguid (members g) 200 m3 I3 H3) as [I4 H4].
    apply UpdateRoleCheck_ok; [done|]. intros _ c' Hc'. specialize (H4 c' Hc'). lia.
  - apply (mgr_ok_core (in_queue (GetQueue gguid m2) (AddQueueData (pv_guid player) now found [(pv_guid player, roles)]) m2));
      [solve_core|].
    apply in_queue_ok; [done|]. apply queue_ok_AddQueueData; [|by apply queue_at_ok]. split_and!; [repeat constructor|done|done].
Qed.

(** *** Proposals *)
Lemma core_release t i pr m p : core (release t i pr m p) = core m.
Proof. unfold release. solve_core. Qed.

Lemma RemoveProposal_ok i t m m' : mgr_ok m -> RemoveProposal i t m = Some m' -> mgr_ok m'.
Proof.
  intros I. unfold RemoveProposal. destruct (map_find i (ProposalsStore m)) as [p|]; [|done]. cbv zeta.
  set (p' := denied t _). set (m1 := fold_left _ (pr_players p') m).
  assert (mgr_ok m1) as I1 by (eapply mgr_ok_core, I; apply core_fold; intros; apply core_release).
  destruct (pr_players p') as [|[g pp] l]; [done|]. intros E. apply (inj Some) in E as <-.
  apply erase_proposal_ok, in_queue_ok; [done|]. by apply queue_ok_add_all, queue_ok_remove_all, queue_at_ok.
Qed.

Lemma enter_dungeon_ok b i qid t pr m ty p m' ty' :
  mgr_ok m -> enter_dungeon b i qid t pr (Some (m, ty)) p = Some (m', ty') -> mgr_ok m'.
Proof.
  intros I. unfold enter_dungeon. destruct (GetSelectedDungeons _ m) as [|d ds]; [done|]. cbv zeta.
  set (m1 := if b then _ else m). assert (mgr_ok m1) as I1 by (eapply mgr_ok_core, I; unfold m1; solve_core).
  set (g := if _ =? 0 then p.1 else _). pose proof (queue_ok_GetJoinTime now g _ (queue_at_ok qid m1 I1)) as Hq.
  destruct (GetJoinTime now g (queue_at qid m1)) as [joined q]. cbn [snd] in Hq.
  set (m2 := in_queue qid (fun _ => q) m1). assert (mgr_ok m2) as I2 by by apply in_queue_ok.
  set (m3 := log _ (log _ m2)). assert (mgr_ok m3) as I3.
  { eapply mgr_ok_core, I2. unfold m3. by rewrite !core_log by by destruct (_ =? 0). }
  set (m4 := in_queue qid _ m3). assert (mgr_ok m4) as I4.
  { apply in_queue_ok; [done|]. eapply queue_ok_data, queue_at_ok, I3. intros g'. by repeat case_match. }
  intros E. apply (inj Some) in E. injection E as <- _. eapply mgr_ok_core, I4. solve_core.
Qed.

Lemma enter_all_dungeons_ok b i qid t pr l m ty m' ty' :
  mgr_ok m -> fold_left (enter_dungeon b i qid t pr) l (Some (m, ty)) = Some (m', ty') -> mgr_ok m'.
Proof.
  revert m ty. induction l as [|p l IH]; intros m ty I; cbn [fold_left]; [by intros [= <- <-]|].
  destruct (enter_dungeon _ _ _ _ _ (Some (m, ty)) p) as [[m1 ty1]|] eqn:E.
  - apply IH. by eapply enter_dungeon_ok.
  - intros Hf. exfalso. revert Hf. clear. induction l as [|p l IH]; [done|]. exact IH.
Qed.

Lemma made_ok p m : mgr_ok m -> team p -> all_agree p -> mgr_ok (log [MakeNewGroup p] m).
Proof.
  intros I Ht Ha. destruct I. split; try done. intros p'. simpl. rewrite made_app, elem_of_app.
  intros [Hp| ->%list_elem_of_singleton]; [auto|done].
Qed.

Lemma UpdateProposal_ok i g a m m' : mgr_ok m -> UpdateProposal i g a m = Some m' -> mgr_ok m'.
Proof.
  intros I. unfold UpdateProposal. destruct (map_find i (ProposalsStore m)) as [p|] eqn:Hp; [|by intros [= <-]].
  destruct (map_find g (pr_players p)) as [pp|] eqn:Hpp; [|by intros [= <-]]. cbv zeta.
  set (p' := set_pr_players _ p). assert (team p') as Ht by by apply team_answer; [eapply ok_proposals|].
  set (m1 := set_ProposalsStore _ m). assert (mgr_ok m1) as I1 by by apply set_proposal_ok.
  destruct a; cbn [negb]; [|by apply RemoveProposal_ok]. destruct (forallb _ _) eqn:Ha; cbn [negb].
  - destruct (fold_left _ _ _) as [[m2 ty]|] eqn:E; [|done]. intros Em. apply (inj Some) in Em as <-.
    pose proof (enter_all_dungeons_ok _ _ _ _ _ _ _ _ _ _ I1 E) as I2. apply erase_proposal_ok, made_ok.
    + apply in_queue_ok; [done|]. by apply queue_ok_remove_all, queue_at_ok.
    + by eapply team_same, Ht.
    + rewrite forallb_forall in Ha. apply Forall_forall. intros x Hx. apply list_elem_of_In in Hx.
      by apply Ha, bool_decide_eq_true in Hx.
  - intros Em. apply (inj Some) in Em as <-. eapply mgr_ok_core, I1. by rewrite core_log_map.
Qed.

Lemma deny_in_spec g l i p :
  deny_in g l = Some (i, p) ->
  exists p0 pp, (i, p0) ∈ l /\ map_find g (pr_players p0) = Some pp
    /\ p = set_pr_players (map_set g (set_accept LFG_ANSWER_DENY pp) (pr_players p0)) p0.
Proof.
  induction l as [|[i' p0] l IH]; [done|]. cbn [deny_in]. destruct (map_find g (pr_players p0)) as [pp|] eqn:E.
  - intros [= -> <-]. exists p0, pp. split; [by left|done].
  - intros (p1 & pp & Hin & ?)%IH. exists p1, pp. split; [by right|done].
Qed.

(** *** Leaving, votes and hooks *)
Lemma LeaveLfg_ok g m m' : mgr_ok m -> LeaveLfg g m = Some m' -> mgr_ok m'.
Proof.
  intros I. unfold LeaveLfg. cbv zeta. set (gguid := if IS_GROUP g then g else _).
  destruct (GetState g m); intros E; try (apply (inj Some) in E as <-; exact I).
  - apply (inj Some) in E as <-. destruct (gguid =? 0); [done|]. by apply UpdateRoleCheck_ok.
  - assert (forall g', mgr_ok (in_queue (GetQueue g' m) (RemoveFromQueue g') m)) as Hq.
    { intros g'. apply in_queue_ok; [done|]. by apply queue_ok_remove, queue_at_ok. }
    apply (inj Some) in E as <-. destruct (gguid =? 0); (eapply mgr_ok_core; [|apply Hq]); solve_core.
  - destruct (deny_in _ _) as [[i p]|] eqn:Ed; [|by apply (inj Some) in E as <-]. eapply RemoveProposal_ok, E.
    apply set_proposal_ok; [done|]. apply deny_in_spec in Ed as (p0 & pp & Hin & Hf & ->). apply team_answer; [|done].
    apply (ok_proposals _ I i). by apply map_find_elem; [apply ok_sorted|].
Qed.


Lemma core_InitBoot g k v r m : core (InitBoot g k v r m) = core m.
Proof.
  unfold InitBoot. cbv zeta. set (m1 := SetState g _ m). assert (core m1 = core m) as E by (unfold m1; solve_core).
  assert (forall l m0 v0, core (fold_left (fun '(m, v) guid => (SetState guid LFG_STATE_BOOT m, map_set guid LFG_ANSWER_PENDING v))
    l (m0, v0)).1 = core m0) as Hf.
  { induction l as [|x l IH]; intros m0 v0; [done|]. cbn [fold_left]. rewrite IH. solve_core. }
  specialize (Hf (GetPlayers g m1) m1 match map_find g (BootsStore m1) with Some b => votes b | None => [] end).
  destruct (fold_left _ _ _) as [m2 v2]. cbn [fst] in Hf. rewrite <- E, <- Hf. solve_core.
Qed.

Lemma core_UpdateBoot grp g a m : core (UpdateBoot grp g a m) = core m.
Proof. unfold UpdateBoot. solve_core. Qed.

Lemma core_RemoveGroupData g m : core (RemoveGroupData g m) = core m.
Proof. unfold RemoveGroupData. solve_core. Qed.

(** *** The update *)
Lemma fold_ok {A} (f : LFGMgr -> A -> LFGMgr) l m :
  (forall m a, mgr_ok m -> mgr_ok (f m a)) -> mgr_ok m -> mgr_ok (fold_left f l m).
Proof. intros Hf. revert m. induction l as [|a l IH]; intros m I; [done|]. apply IH, Hf, I. Qed.

Lemma option_fold_ok {A} (f : option LFGMgr -> A -> option LFGMgr) l m m' :
  (forall a, f None a = None) -> (forall m a m', mgr_ok m -> f (Some m) a = Some m' -> mgr_ok m') ->
  mgr_ok m -> fold_left f l (Some m) = Some m' -> mgr_ok m'.
Proof.
  intros Hn Hf. revert m. induction l as [|a l IH]; intros m I; cbn [fold_left].
  - intros E. by apply (inj Some) in E as <-.
  - destruct (f (Some m) a) as [m1|] eqn:E; [by eapply IH, Hf|]. clear -Hn. induction l as [|b l IH]; [done|].
    cbn [fold_left]. by rewrite Hn.
Qed.

Lemma expire_role_check_ok m gc : mgr_ok m -> mgr_ok (expire_role_check m gc).
Proof.
  intros I. destruct gc as [g c]. unfold expire_role_check. destruct (now <? _); [done|]. cbv zeta.
  apply erase_check_ok; [|done]. eapply mgr_ok_core, I. solve_core.
Qed.

Lemma expire_proposal_ok m ip m' : mgr_ok m -> expire_proposal (Some m) ip = Some m' -> mgr_ok m'.
Proof.
  intros I. unfold expire_proposal. destruct (_ <? now); [by apply RemoveProposal_ok|]. intros E. by apply (inj Some) in E as <-.
Qed.

Lemma core_expire_boot m gb : core (expire_boot m gb) = core m.
Proof. destruct gb as [g b]. unfold expire_boot. solve_core. Qed.

Lemma core_begin_proposal i p m g : core (begin_proposal i p m g) = core m.
Proof. unfold begin_proposal. solve_core. Qed.

Lemma find_groups_in_ok m i : (forall id l, l <> [] -> SelectRandom id l ∈ l) -> mgr_ok m -> mgr_ok (find_groups_in m i).
Proof.
  intros Hsel I. unfold find_groups_in, FindGroups. cbv zeta. set (w := mkQW (queue_at i m) m).
  destruct (FindGroups_loop_sound Hsel (length (newToQueueStore (queue w))) 0 w (queue_at_ok i m I)) as [D R S P].
  set (w' := snd (FindGroups_loop _ 0 w)) in *. pose proof (f_equal QueuesStore R) as Rq.
  pose proof (f_equal RoleChecksStore R) as Rc. pose proof (f_equal trace R) as Rt. simpl in Rq, Rc, Rt.
  assert (mgr_ok (mgr w')) as I'.
  { destruct I as [Iq Ic Is Ip Im]. split; rewrite ?Rq, ?Rc, ?Rt; try done; [by apply S|].
    intros i' p Hp. destruct (P i' p Hp) as [Ho|Hs]; [by eapply Ip|by eapply sound_team]. }
  apply in_queue_ok; [done|]. eapply queue_ok_data, (queue_at_ok i m I). exact D.
Qed.

Lemma begin_proposals_ok m m' : mgr_ok m -> begin_proposals m = Some m' -> mgr_ok m'.
Proof.
  intros I. unfold begin_proposals. cbv zeta. apply option_fold_ok; [done| |done]. clear. intros m [i p] m' I.
  set (m1 := fold_left _ _ m). assert (mgr_ok m1) as I1.
  { eapply mgr_ok_core, I. apply core_fold. intros. apply core_begin_proposal. }
  destruct (bool_decide _); [by apply UpdateProposal_ok|]. intros E. by apply (inj Some) in E as <-.
Qed.

Lemma made_queue_status t g q es : queue_status t g q = Some es -> made es = [].
Proof.
  unfold queue_status. destruct (map_find g _) as [d|]; [|by intros [= <-]]. destruct (dungeons d); [done|]. cbv zeta.
  intros E. apply (inj Some) in E as <-. by apply made_map.
Qed.

Lemma UpdateQueueTimers_ok t w w' :
  UpdateQueueTimers t w = Some w' ->
  (forall g, data_of (queue w') g = data_of (queue w) g) /\ core (mgr w') = core (mgr w).
Proof.
  unfold UpdateQueueTimers. generalize (map fst (QueueDataStore (queue w))). intros l. revert w. induction l as [|g l IH]; intros w.
  { cbn [fold_left]. intros E. by apply (inj Some) in E as <-. }
  cbn [fold_left]. set (q := if String.eqb _ "" then _ else _). destruct (queue_status t g q) as [es|] eqn:Es.
  - intros E. destruct (IH _ E) as [D C]. split.
    + intros g'. rewrite D. cbn [queue]. unfold q. destruct (String.eqb _ ""); [|done]. by destruct (FindBest_same g (queue w)) as [[] _].
    + rewrite C. apply core_log. by eapply made_queue_status.
  - intros E. exfalso. revert E. clear. induction l as [|g l IH]; [done|]. exact IH.
Qed.

Lemma update_queues_ok m m' : mgr_ok m -> update_queues m = Some m' -> mgr_ok m'.
Proof.
  intros I. unfold update_queues. apply option_fold_ok; [done| |done]. clear. intros m i m' I.
  destruct (UpdateQueueTimers now (mkQW (queue_at i m) m)) as [w|] eqn:E; [|done]. intros Em. apply (inj Some) in Em as <-.
  apply UpdateQueueTimers_ok in E as [D C]. apply in_queue_ok; [by eapply mgr_ok_core, I|].
  eapply queue_ok_data, (queue_at_ok i m I). exact D.
Qed.

Lemma Update_ok o d m m' :
  (forall id l, l <> [] -> SelectRandom id l ∈ l) -> mgr_ok m -> Update o d m = Some m' -> mgr_ok m'.
Proof.
  intros Hsel I. unfold Update. destruct (_ =? 0); [intros E; by apply (inj Some) in E as <-|]. cbv zeta.
  set (m1 := fold_left expire_role_check _ m). assert (mgr_ok m1) as I1 by (by apply fold_ok; [apply expire_role_check_ok|]).
  destruct (fold_left expire_proposal _ _) as [m2|] eqn:E2; [|done].
  assert (mgr_ok m2) as I2 by (by eapply option_fold_ok, E2; [|apply expire_proposal_ok|]).
  set (m3 := fold_left expire_boot _ m2). assert (mgr_ok m3) as I3.
  { eapply mgr_ok_core, I2. apply core_fold. intros. apply core_expire_boot. }
  set (m4 := fold_left find_groups_in _ m3). assert (mgr_ok m4) as I4 by (apply fold_ok; [intros; by apply find_groups_in_ok|done]).
  destruct (if _ =? _ then Some m4 else begin_proposals m4) as [m5|] eqn:E5; [|done].
  assert (mgr_ok m5) as I5.
  { destruct (_ =? _); [by apply (inj Some) in E5 as <-|by eapply begin_proposals_ok]. }
  destruct (_ <? _).
  - apply update_queues_ok. by eapply mgr_ok_core, I5.
  - intros E. apply (inj Some) in E as <-. by eapply mgr_ok_core, I5.
Qed.

Lemma OnAddMember_ok gg ld g on m m' : mgr_ok m -> OnAddMember gg ld g on m = Some m' -> mgr_ok m'.
Proof.
  intros I. unfold OnAddMember. cbv zeta. set (om := if ld =? g then _ else _). assert (forall m1, om = Some m1 -> mgr_ok m1) as Hom.
  { intros m1. unfold om. destruct (ld =? g); [intros E; apply (inj Some) in E as <-; eapply mgr_ok_core, I; solve_core|].
    set (m2 := log _ m). assert (mgr_ok m2) as I2 by (eapply mgr_ok_core, I; unfold m2; solve_core).
    destruct (bool_decide _).
    - destruct (LeaveLfg g m2) as [m3|] eqn:E3; [|done]. apply (LeaveLfg_ok _ _ _ I2) in E3.
      destruct (bool_decide _); [by apply LeaveLfg_ok|]. intros E. by apply (inj Some) in E as <-.
    - destruct (bool_decide _); [by apply LeaveLfg_ok|]. intros E. by apply (inj Some) in E as <-. }
  destruct om as [m1|]; [|done]. intros E. apply (inj Some) in E as <-. eapply mgr_ok_core, (Hom m1 eq_refl). solve_core.
Qed.

Lemma OnRemoveMember_ok l gg g k me r m m' : mgr_ok m -> OnRemoveMember l gg g k me r m = Some m' -> mgr_ok m'.
Proof.
  intros I. unfold OnRemoveMember. destruct (_ && _); [|destruct (_ && _)].
  - intros E. apply (inj Some) in E as <-. eapply mgr_ok_core, I. apply core_InitBoot.
  - intros E. apply (inj Some) in E as <-. by eapply mgr_ok_core, I.
  - destruct (LeaveLfg g m) as [m1|] eqn:E1; [|done]. apply (LeaveLfg_ok _ _ _ I) in E1.
    intros E. apply (inj Some) in E as <-. eapply mgr_ok_core, E1. cbn [fst RemovePlayerFromGroup]. solve_core.
Qed.

Lemma perform_ok c m m' :
  (forall id l, l <> [] -> SelectRandom id l ∈ l) -> mgr_ok m -> allowed c m -> perform c m = Some m' -> mgr_ok m'.
Proof.
  intros Hsel I A. destruct c; cbn [perform];
    try (intros E; apply (inj Some) in E as <-;
         first [by apply JoinLfg_ok | (eapply mgr_ok_core, I);
           (apply core_UpdateBoot || apply core_RemoveGroupData || solve [unfold OnChangeLeader, SetupGroupMember; solve_core])]).
  - by apply LeaveLfg_ok.
  - intros E. apply (inj Some) in E as <-. apply UpdateRoleCheck_ok; [done|]. intros _ c Hc. specialize (A _ _ Hc). lia.
  - by apply UpdateProposal_ok.
  - by apply Update_ok.
  - by apply OnAddMember_ok.
  - unfold OnInviteMember. destruct (_ && _); [by apply LeaveLfg_ok|]. intros E. by apply (inj Some) in E as <-.
  - unfold OnLogout. destruct (LeaveLfg guid m) as [m1|] eqn:E1; [|done]. apply (LeaveLfg_ok _ _ _ I) in E1.
    intros E. apply (inj Some) in E as <-. eapply mgr_ok_core, E1. unfold RemovePlayerData. solve_core.
  - by apply OnRemoveMember_ok.
  - intros E. apply (inj Some) in E as <-. unfold IsTeleported. destruct (bool_decide _); [by eapply mgr_ok_core, I|done].
Qed.
End Operations.

Lemma reachable_ok m : reachable m -> mgr_ok m.
Proof.
  induction 1 as [players groups|S D c m m' _ I Hsel A E]; [|by eapply perform_ok].
  split; try done; [constructor|]. intros p Hp. by apply elem_of_nil in Hp.
Qed.

(** ** The groups that are formed *)

(** C7: Whatever players, groups and the clock do, a group is formed only of five
    players, one of them its leader, with one tank, one healer and three damage
    dealers, all of whom have agreed; and every proposal that waits for answers
    is for such a group. *)
Theorem groups_formed m p :
  reachable m ->
  (MakeNewGroup p ∈ trace m -> team p /\ all_agree p)
  /\ forall id, map_find id (ProposalsStore m) = Some p -> team p.
Proof.
  intros I%reachable_ok. split; [|intros id; by apply ok_proposals]. intros Hp. apply (ok_made _ I), list_elem_of_bind.
  exists (MakeNewGroup p). split; [by apply list_elem_of_singleton|done].
Qed.

(** C36: In every state that is reached, each queue holds only entries that the
    search can work with (the players in the order of their guids; five players
    only if their roles go together and a dungeon is left for them), and each
    role check is open, with a dungeon to go to. *)
Theorem queues_well_formed m :
  reachable m ->
  (forall id q, map_find id (QueuesStore m) = Some q -> queue_ok q)
  /\ forall g c, map_find g (RoleChecksStore m) = Some c ->
       map_sorted (rc_roles c) /\ rc_dungeons c <> [] /\ rc_state c = LFG_ROLECHECK_INITIALITING.
Proof. intros I%reachable_ok. split; apply I. Qed.

(** Players 1 to 5 join for dungeon 20, are matched and agree. *)
Definition example_dungeons : Dungeons := {|
  GetLFGDungeon := fun d => if d =? 20 then Some (LFG_TYPE_DUNGEON, 0) else None;
  CachedDungeonMapStore := fun _ => []
|}.
Definition joins (guid roles : Z) : Call := JoinLfg_call (mkPlayerView guid false false false) None roles [20] "".
Definition example_calls : list Call :=
  [joins 1 PLAYER_ROLE_TANK; joins 2 PLAYER_ROLE_DAMAGE; joins 3 PLAYER_ROLE_DAMAGE; joins 4 12; joins 5 PLAYER_ROLE_DAMAGE;
   Update_call 1 0] ++ map (fun guid => UpdateProposal_call 1 guid true) [1; 2; 3; 4; 5].
Fixpoint perform_all `{Surroundings, Dungeons} (cs : list Call) (m : LFGMgr) : option LFGMgr :=
  match cs with
  | [] => Some m
  | c :: cs => match perform c m with Some m => perform_all cs m | None => None end
  end.
Definition example_run (cs : list Call) : LFGMgr :=
  let S := example_surroundings (fun _ _ => false) in let D := example_dungeons in
  default (started ∅ ∅) (perform_all cs (started ∅ ∅)).

Lemma perform_all_reachable (S : Surroundings) (D : Dungeons) cs m m' :
  (forall id l, l <> [] -> SelectRandom id l ∈ l) -> (forall c m, c ∈ cs -> allowed c m) -> reachable m ->
  perform_all cs m = Some m' -> reachable m'.
Proof.
  intros Hsel. revert m. induction cs as [|c cs IH]; intros m A R E; [by apply (inj Some) in E as <-|].
  cbn [perform_all] in E. destruct (perform c m) as [m1|] eqn:E1; [|done].
  apply (IH m1); [intros; apply A; by right| |done]. eapply reach_call; [done|done| |exact E1]. apply A. by left.
Qed.

Lemma example_reachable n : reachable (example_run (take n example_calls)).
Proof.
  unfold example_run. cbv zeta.
  destruct (@perform_all _ _ (take n example_calls) (started ∅ ∅)) as [m|] eqn:E; [|apply reach_start].
  eapply perform_all_reachable, E; [apply example_select| |apply reach_start]. intros c m' Hc.
  assert (c ∈ example_calls) as Hin by (rewrite <- (take_drop n example_calls); by apply elem_of_app; left).
  clear -Hin. revert c Hin. apply Forall_forall. by repeat constructor.
Qed.

Definition groups_made (m : LFGMgr) : list (Z * list (Z * Z)) :=
  map (fun p => (pr_leader p, roles_of p)) (made (trace m)).

Lemma groups_formed_witness :
  let m := example_run (take 11 example_calls) in
  groups_made m = [(1, [(1, 2); (2, 8); (3, 8); (4, 4); (5, 8)])]
  /\ forall p, MakeNewGroup p ∈ trace m -> team p /\ all_agree p.
Proof.
  intros m. split; [vm_compute; reflexivity|]. intros p. exact (proj1 (groups_formed m p (example_reachable 11))).
Defined.

Lemma queues_well_formed_witness :
  let m := example_run (take 5 example_calls) in
  map fst (QueuesStore m) = [0] /\ forall id q, map_find id (QueuesStore m) = Some q -> queue_ok q.
Proof.
  intros m. split; [vm_compute; reflexivity|]. exact (proj1 (queues_well_formed m (example_reachable 5))).
Defined.

End LfgReach.
