(* ===== verification/LfgOutcomes.v ===== *)
(** * LfgOutcomes: what an answer does

    The outcome of an answer to a role check, of a proposal that fails and of a
    vote to kick: the records that are dropped, what is queued, and the states of
    the players and of the group. *)
From S2P Require Import Prelude OrderedMap LfgRoles LfgData LfgQueue LfgMgr.
#[global] Open Scope Z_scope.

Module LfgOutcomes.
Import LfgRoles LfgData LfgQueue LfgMgr.

(** ** Data after an update *)
Lemma player_data_modify x g f m :
  player_data x (modify_player g f m) = if x =? g then f (player_data x m) else player_data x m.
Proof.
  unfold player_data at 1, modify_player. cbn [PlayersStore set_PlayersStore]. destruct (Z.eqb_spec x g) as [->|Hne].
  - by rewrite lookup_insert_eq.
  - by rewrite lookup_insert_ne.
Qed.

Lemma group_data_modify x g f m :
  group_data x (modify_group g f m) = if x =? g then f (group_data x m) else group_data x m.
Proof.
  unfold group_data at 1, modify_group. cbn [GroupsStore set_GroupsStore]. destruct (Z.eqb_spec x g) as [->|Hne].
  - by rewrite lookup_insert_eq.
  - by rewrite lookup_insert_ne.
Qed.

Lemma player_data_log x es m : player_data x (log es m) = player_data x m. Proof. done. Qed.
Lemma group_data_log x es m : group_data x (log es m) = group_data x m. Proof. done. Qed.
Lemma player_data_modify_group x g f m : player_data x (modify_group g f m) = player_data x m. Proof. done. Qed.
Lemma group_data_modify_player x g f m : group_data x (modify_player g f m) = group_data x m. Proof. done. Qed.
Create Rewrite HintDb lfg_data.
#[export] Hint Rewrite player_data_log group_data_log player_data_modify group_data_modify player_data_modify_group
  group_data_modify_player : lfg_data.

Lemma GetState_SetState x g st m : GetState x (SetState g st m) = if x =? g then st else GetState x m.
Proof.
  unfold GetState, SetState. destruct (Z.eqb_spec x g) as [->|Hne].
  - destruct (IS_GROUP g); [rewrite group_data_modify|rewrite player_data_modify]; rewrite Z.eqb_refl; by destruct st.
  - apply Z.eqb_neq in Hne. destruct (IS_GROUP g).
    + rewrite group_data_modify, Hne. done.
    + rewrite player_data_modify, Hne. done.
Qed.

Lemma trace_SetState g st m : trace (SetState g st m) = trace m.
Proof. unfold SetState. by destruct (IS_GROUP g). Qed.
Lemma BootsStore_SetState g st m : BootsStore (SetState g st m) = BootsStore m.
Proof. unfold SetState. by destruct (IS_GROUP g). Qed.

Lemma GroupsStore_SetState g st m : IS_GROUP g = false -> GroupsStore (SetState g st m) = GroupsStore m.
Proof. unfold SetState. by intros ->. Qed.

Lemma GetState_DecreaseKicksLeft x g m : GetState x (DecreaseKicksLeft g m) = GetState x m.
Proof.
  unfold GetState, DecreaseKicksLeft. destruct (IS_GROUP x); [|done]. rewrite group_data_modify.
  destruct (x =? g); [|done]. unfold GroupData_DecreaseKicksLeft. by destruct (_ =? 0).
Qed.

(** ** The vote to kick *)
Definition votes_for (a : LfgAnswer) (v : list (Z * LfgAnswer)) : Z := Z.of_nat (length (filter (fun kv => kv.2 = a) v)).

Lemma votes_for_snoc a v k b : votes_for a (v ++ [(k, b)]) = votes_for a v + (if bool_decide (b = a) then 1 else 0).
Proof.
  unfold votes_for. rewrite filter_app, length_app, filter_cons, filter_nil. case_bool_decide; cbn [snd].
  - rewrite decide_True by done. cbn [length]. lia.
  - rewrite decide_False by done. cbn [length]. lia.
Qed.

(** The counters do not wrap. *)
Lemma count_votes_spec v :
  Z.of_nat (length v) < 256 ->
  count_votes v = (votes_for LFG_ANSWER_AGREE v + votes_for LFG_ANSWER_DENY v, votes_for LFG_ANSWER_AGREE v)
  /\ votes_for LFG_ANSWER_AGREE v + votes_for LFG_ANSWER_DENY v <= Z.of_nat (length v).
Proof.
  unfold count_votes. induction v as [|[k a] v IH] using rev_ind; [done|]. rewrite length_app. cbn [length]. intros Hl.
  destruct IH as [IH Hle]; [lia|]. rewrite fold_left_app, IH, !votes_for_snoc. cbn [fold_left snd].
  assert (0 <= votes_for LFG_ANSWER_AGREE v) as H1 by (unfold votes_for; lia).
  assert (0 <= votes_for LFG_ANSWER_DENY v) as H2 by (unfold votes_for; lia).
  destruct a; repeat case_bool_decide; try done; rewrite ?wrap_id by width; (split; [f_equal; lia|lia]).
Qed.

(** The voters but the victim are told. *)
Lemma end_vote_states vi b (v : list (Z * LfgAnswer)) m :
  let m' := fold_left (fun m kv => if fst kv =? vi then m
    else log [SendLfgBootProposalUpdate (fst kv) b] (SetState (fst kv) LFG_STATE_DUNGEON m)) v m in
  (forall x, GetState x m' = if bool_decide (x ∈ v.*1) && negb (x =? vi) then LFG_STATE_DUNGEON else GetState x m)
  /\ BootsStore m' = BootsStore m
  /\ (forall g x, RemoveFromGroup g x ∈ trace m' <-> RemoveFromGroup g x ∈ trace m)
  /\ (Forall (fun x => IS_GROUP x = false) v.*1 -> GroupsStore m' = GroupsStore m).
Proof.
  cbv zeta. revert m. induction v as [|[k a] v IH]; intros m; [done|]. cbn [fold_left fst].
  specialize (IH (if k =? vi then m else log [SendLfgBootProposalUpdate k b] (SetState k LFG_STATE_DUNGEON m))) as (IH1 & IH2 & IH3 & IH4).
  split_and!.
  - intros x. rewrite IH1, fmap_cons. rewrite (bool_decide_ext (x ∈ k :: v.*1) (x = k \/ x ∈ v.*1)) by apply elem_of_cons.
    destruct (Z.eqb_spec x k) as [->|Hxk].
    + rewrite (bool_decide_eq_true_2 (k = k \/ _)) by by left. destruct (k =? vi) eqn:Hk; cbn [negb andb]; rewrite ?andb_false_r; [done|].
      change (GetState k (log ?es ?m0)) with (GetState k m0). rewrite GetState_SetState, Z.eqb_refl. by destruct (bool_decide _).
    + rewrite (bool_decide_ext (x = k \/ x ∈ v.*1) (x ∈ v.*1)) by tauto. destruct (bool_decide _ && _); [done|]. destruct (k =? vi); [done|].
      change (GetState x (log ?es ?m0)) with (GetState x m0). by rewrite GetState_SetState, (proj2 (Z.eqb_neq x k)).
  - rewrite IH2. unfold SetState. by destruct (k =? vi), (IS_GROUP k).
  - intros g x. rewrite IH3. destruct (k =? vi); [done|]. cbn [trace log set_trace]. rewrite trace_SetState, elem_of_app, list_elem_of_singleton.
    split; [by intros [?|?]|by left].
  - rewrite fmap_cons, Forall_cons. intros [Hk Hv]. rewrite (IH4 Hv). destruct (k =? vi); [done|]. by apply GroupsStore_SetState.
Qed.

(** A vote is decided by the third player who agrees or the third who denies,
    and by nobody before: until then only the vote is noted. Then the vote is over,
    the group is back in its dungeon, the victim is to be removed if three agreed,
    and the voters but the victim are in the dungeon again; the victim is left in
    the state he was in. Nobody votes twice, and a member who was not asked at the
    start is entered with a no, whatever he answers. *)
Theorem UpdateBoot_decides grp guid accept m b :
  let gguid := GetGroup guid m in
  IS_GROUP gguid = true -> map_find gguid (BootsStore m) = Some b -> Z.of_nat (length (votes b)) < 255 ->
  Forall (fun x => IS_GROUP x = false) (victim b :: (votes b).*1) -> IS_GROUP guid = false ->
  let m' := UpdateBoot grp guid accept m in
  let v := map_set guid (if accept then LFG_ANSWER_AGREE else LFG_ANSWER_DENY) (votes b) in
  match map_find guid (votes b) with
  | Some LFG_ANSWER_PENDING =>
    if (votes_for LFG_ANSWER_AGREE v <? 3) && (votes_for LFG_ANSWER_DENY v <? 3) then
      m' = set_BootsStore (map_set gguid (set_votes v b) (BootsStore m)) m
    else
      map_find gguid (BootsStore m') = None
      /\ GetState gguid m' = LFG_STATE_DUNGEON
      /\ (forall x, x ∈ v.*1 -> x <> victim b -> GetState x m' = LFG_STATE_DUNGEON)
      /\ GetState (victim b) m' = GetState (victim b) m
      /\ (RemoveFromGroup gguid (victim b) ∈ trace m' <->
            RemoveFromGroup gguid (victim b) ∈ trace m \/ (grp = true /\ votes_for LFG_ANSWER_AGREE v = 3))
      /\ GetKicksLeft gguid m'
           = (let n := GetKicksLeft gguid m in if (votes_for LFG_ANSWER_AGREE v =? 3) && negb (n =? 0) then n - 1 else n)
  | Some _ => m' = m
  | None => m' = set_BootsStore (map_set gguid (set_votes (map_set guid LFG_ANSWER_DENY (votes b)) b) (BootsStore m)) m
  end.
Proof.
  cbv zeta. set (gguid := GetGroup guid m). intros Hg Hb Hl Hp Hgu. unfold UpdateBoot. fold gguid.
  destruct (Z.eqb_spec gguid 0) as [E0|E0]; [by rewrite E0 in Hg|]. rewrite Hb.
  destruct (map_find guid (votes b)) as [[]|] eqn:Hv; try done.
  set (v := map_set guid _ (votes b)). assert (Z.of_nat (length v) < 256) as Hlv.
  { pose proof (length_map_set guid (if accept then LFG_ANSWER_AGREE else LFG_ANSWER_DENY) (votes b)). unfold v. lia. }
  destruct (count_votes_spec v Hlv) as [-> _]. unfold LFG_GROUP_KICK_VOTES_NEEDED.
  replace (votes_for LFG_ANSWER_AGREE v + votes_for LFG_ANSWER_DENY v - votes_for LFG_ANSWER_AGREE v)
    with (votes_for LFG_ANSWER_DENY v) by lia.
  destruct ((_ <? 3) && _) eqn:Hd; [done|].
  cbn [inProgress victim set_inProgress set_votes]. set (b' := set_inProgress false (set_votes v b)).
  destruct (end_vote_states (victim b) b' v m) as (S & B & T & G).
  set (m1 := fold_left _ v m) in *. inversion Hp as [|? ? Hvi Hvo]; subst.
  assert (Forall (fun x => IS_GROUP x = false) v.*1) as Hvg.
  { rewrite Forall_forall in Hvo |- *. intros x Hx. unfold v in Hx. rewrite map_set_keys in Hx. destruct Hx as [->|Hx]; auto. }
  specialize (G Hvg). set (m2 := SetState gguid LFG_STATE_DUNGEON m1).
  set (m3 := if _ =? 3 then _ else m2).
  assert (forall x, GetState x m3 = GetState x m2) as S3.
  { intros x. unfold m3. destruct (_ =? 3); [|done]. rewrite GetState_DecreaseKicksLeft. by destruct grp. }
  assert (forall x, IS_GROUP x = false -> GetState x m3 = GetState x m1) as S1.
  { intros x Hx. rewrite S3. unfold m2. rewrite GetState_SetState. destruct (Z.eqb_spec x gguid) as [->|]; [congruence|done]. }
  split_and!.
  - cbn [BootsStore set_BootsStore]. apply map_find_erase.
  - change (GetState gguid m3 = LFG_STATE_DUNGEON). rewrite S3. unfold m2. by rewrite GetState_SetState, Z.eqb_refl.
  - intros x Hx Hne. change (GetState x m3 = LFG_STATE_DUNGEON). rewrite Forall_forall in Hvg. rewrite S1, S by auto.
    rewrite bool_decide_eq_true_2 by done. by rewrite (proj2 (Z.eqb_neq x (victim b))).
  - change (GetState (victim b) m3 = GetState (victim b) m). rewrite S1, S by done. by rewrite Z.eqb_refl, andb_false_r.
  - cbn [trace set_BootsStore]. unfold m3. destruct (Z.eqb_spec (votes_for LFG_ANSWER_AGREE v) 3) as [E3|E3].
    + unfold DecreaseKicksLeft, modify_group. cbn [trace set_GroupsStore]. destruct grp.
      * cbn [trace log set_trace]. rewrite elem_of_app, list_elem_of_singleton. tauto.
      * unfold m2. rewrite trace_SetState, T. naive_solver.
    + unfold m2. rewrite trace_SetState, T. naive_solver.
  - change (GetKicksLeft gguid m3 = let n := GetKicksLeft gguid m in if (votes_for LFG_ANSWER_AGREE v =? 3) && negb (n =? 0) then n - 1 else n).
    assert (group_data gguid m2 = GroupData_SetState LFG_STATE_DUNGEON (group_data gguid m)) as G2.
    { unfold m2, SetState. rewrite Hg, group_data_modify, Z.eqb_refl. unfold group_data. by rewrite G. }
    assert (m_KicksLeft (group_data gguid m2) = GetKicksLeft gguid m) as K2 by by rewrite G2.
    cbv zeta. rewrite <- K2. unfold m3, GetKicksLeft. destruct (_ =? 3); cbn [andb]; [|done]. unfold DecreaseKicksLeft.
    rewrite group_data_modify, Z.eqb_refl. unfold GroupData_DecreaseKicksLeft.
    assert (group_data gguid (if grp then log [RemoveFromGroup gguid (victim b)] m2 else m2) = group_data gguid m2) as -> by by destruct grp.
    by destruct (m_KicksLeft (group_data gguid m2) =? 0).
Qed.


(** ** The role check *)

(** All but the players' data and the messages. *)
Definition rest (m : LFGMgr) : LFGMgr := set_trace [] (set_PlayersStore ∅ m).

(** What the end of a role check makes of a player with role [r]. *)
Definition told (st : LfgRoleCheckState) (r : Z) (d : LfgPlayerData) : LfgPlayerData :=
  match st with
  | LFG_ROLECHECK_INITIALITING => d
  | LFG_ROLECHECK_FINISHED => set_p_Roles r (PlayerData_SetState LFG_STATE_QUEUED d)
  | _ => PlayerData_ClearState d
  end.

(** The data of the players that [l] lists are updated with [f], those of others
    are left. *)
Definition updated {A} (f : Z -> A -> LfgPlayerData -> LfgPlayerData) (l : list (Z * A)) (m m' : LFGMgr) : Prop :=
  forall x, player_data x m' = match map_find x l with Some r => f x r (player_data x m) | None => player_data x m end.

Lemma fold_updated {A} (F : LFGMgr -> Z * A -> LFGMgr) (f : Z -> A -> LfgPlayerData -> LfgPlayerData) l m :
  (forall m k a x, (k, a) ∈ l -> player_data x (F m (k, a)) = if x =? k then f k a (player_data x m) else player_data x m) ->
  NoDup l.*1 -> updated f l m (fold_left F l m).
Proof.
  revert m. induction l as [|[k a] l IH]; intros m Hf Hnd; [done|]. rewrite fmap_cons in Hnd. apply NoDup_cons in Hnd as [Hk Hnd].
  intros x. cbn [fold_left map_find]. rewrite (IH (F m (k, a))) by (try done; intros; apply Hf; by right).
  rewrite Hf by by left. destruct (Z.eqb_spec x k) as [->|Hne]; [|done].
  by rewrite (proj2 (map_find_None l k) Hk).
Qed.

Lemma fold_rest {A} (F : LFGMgr -> A -> LFGMgr) l m : (forall m a, a ∈ l -> rest (F m a) = rest m) -> rest (fold_left F l m) = rest m.
Proof.
  revert m. induction l as [|a l IH]; intros m Hf; [done|]. cbn [fold_left]. rewrite IH by (intros; apply Hf; by right). apply Hf. by left.
Qed.

Lemma tell_member_data `{Surroundings} b g rs c m k r x :
  IS_GROUP k = false ->
  player_data x (tell_member b g rs c m (k, r)) = (if x =? k then told (rc_state c) r (player_data x m) else player_data x m)
  /\ rest (tell_member b g rs c m (k, r)) = rest m.
Proof.
  intros Hk. unfold tell_member, SetState, told. cbn [fst snd]. rewrite Hk. cbv zeta.
  destruct b, (rc_state c), (rc_leader c =? k); unfold SetRoles, ClearState; (split; [|reflexivity]);
    change (player_data ?y (log ?es ?n)) with (player_data y n); rewrite ?player_data_modify;
    change (player_data ?y (log ?es ?n)) with (player_data y n); by destruct (x =? k).
Qed.

Lemma told_Team st r d : m_Team (told st r d) = m_Team d.
Proof. by destruct st. Qed.

Lemma GetQueue_told st l gguid m m2 :
  IS_GROUP gguid = true -> updated (fun _ => told st) l m m2 -> GroupsStore m2 = GroupsStore m ->
  GetQueue gguid (SetState gguid LFG_STATE_QUEUED m2) = GetQueue gguid m.
Proof.
  intros Hg U Rg.
  unfold GetQueue, SetState. rewrite Hg.
  assert (GetPlayers gguid (modify_group gguid (GroupData_SetState LFG_STATE_QUEUED) m2) = GetPlayers gguid m) as ->.
  { unfold GetPlayers. rewrite group_data_modify, Z.eqb_refl. unfold group_data. by rewrite Rg. }
  destruct (GetPlayers gguid m) as [|p ps]; [done|]. destruct (p =? 0); [done|].
  change (GetTeam p (modify_group ?g ?f ?n)) with (GetTeam p n). unfold GetTeam. rewrite (U p).
  destruct (map_find p l) as [r|]; [apply told_Team|done].
Qed.

Lemma tell_members `{Surroundings} b g rs c l m :
  NoDup l.*1 -> Forall (fun x => IS_GROUP x = false) l.*1 ->
  let m' := fold_left (tell_member b g rs c) l m in updated (fun _ => told (rc_state c)) l m m' /\ rest m' = rest m.
Proof.
  intros Hnd Hp. rewrite Forall_forall in Hp.
  assert (forall k a, (k, a) ∈ l -> IS_GROUP k = false) as Hk.
  { intros k a Hka. apply Hp, list_elem_of_fmap. by exists (k, a). }
  split.
  - apply fold_updated; [|done]. intros n k a x Hka. by apply tell_member_data, (Hk k a).
  - apply fold_rest. intros n [k a] Hka. by apply (tell_member_data b g rs c n k a 0), (Hk k a).
Qed.

(** What the answer makes of the check. *)
Lemma answer_state guid roles c :
  rc_state c = LFG_ROLECHECK_INITIALITING -> Z.of_nat (length (rc_roles c)) <= 250 ->
  let given := negb (guid =? 0) && (PLAYER_ROLE_TANK <=? roles) in
  let chosen := if given then map_set guid roles (rc_roles c) else rc_roles c in
  let all := forallb (fun p => negb (p.2 =? PLAYER_ROLE_NONE)) chosen in
  let c' := answer_roles guid roles c in
  rc_roles c' = chosen /\ rc_dungeons c' = rc_dungeons c
  /\ if given && negb all then c' = set_rc_roles chosen c
     else (rc_state c' = LFG_ROLECHECK_FINISHED /\ given = true /\ assignable (remove_leaders chosen))
       \/ (rc_state c' <> LFG_ROLECHECK_FINISHED /\ rc_state c' <> LFG_ROLECHECK_INITIALITING
           /\ ~ (given = true /\ assignable (remove_leaders chosen))).
Proof.
  cbv zeta. intros Hst Hl. unfold answer_roles. destruct (guid =? 0); cbn [negb andb].
  { split_and!; [done|done|]. right. split_and!; [done|done|]. by intros [? _]. }
  rewrite Z.leb_antisym. destruct (roles <? PLAYER_ROLE_TANK); cbn [negb].
  { split_and!; [done|done|]. right. split_and!; [done|done|]. by intros [? _]. }
  set (chosen := map_set guid roles (rc_roles c)). cbn [rc_roles set_rc_roles].
  assert (Z.of_nat (length chosen) < 256) as Hlen by (pose proof (length_map_set guid roles (rc_roles c)); unfold chosen; lia).
  pose proof (check_group_roles chosen Hlen) as Hc. destruct (CheckGroupRoles chosen) as [ok out]. destruct Hc as (Ha & _). cbn [fst].
  change (forallb (fun p : Z * Z => negb (snd p =? PLAYER_ROLE_NONE))) with (forallb (fun p : Z * Z => negb (p.2 =? PLAYER_ROLE_NONE))).
  destruct (forallb _ chosen); cbn [negb]; [|done]. split_and!; [done|done|]. destruct ok.
  - left. split_and!; [done|done|by apply Ha].
  - right. split_and!; [done|done|]. intros [_ H]. by apply Ha in H.
Qed.

(** While a member of the group has not chosen his roles, an answer is only
    noted. The answer that completes the roles ends the check: if the roles go
    together, the group is queued with them and everyone is in the queue with the
    role he chose; if they do not, or somebody chose none or left, nothing is
    queued, everyone's choices are cleared and he and the group are as before. *)
Theorem UpdateRoleCheck_outcome `{Surroundings} gguid guid roles m c :
  IS_GROUP gguid = true -> map_find gguid (RoleChecksStore m) = Some c -> rc_state c = LFG_ROLECHECK_INITIALITING ->
  map_sorted (rc_roles c) -> Z.of_nat (length (rc_roles c)) <= 250 ->
  Forall (fun x => IS_GROUP x = false) (guid :: (rc_roles c).*1) ->
  let m' := UpdateRoleCheck gguid guid roles m in
  let given := negb (guid =? 0) && (PLAYER_ROLE_TANK <=? roles) in
  let chosen := if given then map_set guid roles (rc_roles c) else rc_roles c in
  let same_players := forall x, player_data x m' = player_data x m in
  if given && negb (forallb (fun p => negb (p.2 =? PLAYER_ROLE_NONE)) chosen) then
    map_find gguid (RoleChecksStore m') = Some (set_rc_roles chosen c)
    /\ QueuesStore m' = QueuesStore m /\ GroupsStore m' = GroupsStore m /\ same_players
  else
    map_find gguid (RoleChecksStore m') = None
    /\ ((given = true /\ assignable (remove_leaders chosen)
         /\ (let qid := GetQueue gguid m in
             QueuesStore m' = map_set qid (AddQueueData gguid now (rc_dungeons c) chosen (queue_at qid m)) (QueuesStore m))
         /\ GetState gguid m' = LFG_STATE_QUEUED
         /\ updated (fun _ r d => set_p_Roles r (PlayerData_SetState LFG_STATE_QUEUED d)) chosen m m')
        \/ (~ (given = true /\ assignable (remove_leaders chosen))
            /\ QueuesStore m' = QueuesStore m
            /\ GetState gguid m' = g_OldState (group_data gguid m)
            /\ updated (fun _ _ => PlayerData_ClearState) chosen m m')).
Proof.
  cbv zeta. set (given := negb (guid =? 0) && _). set (chosen := if given then _ else _).
  intros Hg Hc Hst Hs Hl Hp. unfold UpdateRoleCheck.
  assert (gguid <> 0) as E0 by by intros ->. rewrite (proj2 (Z.eqb_neq gguid 0) E0), Hc. cbv zeta.
  set (c' := answer_roles guid roles c). set (b := negb _ && _).
  set (m1 := set_RoleChecksStore (map_set gguid c' (RoleChecksStore m)) m).
  set (m2 := fold_left (tell_member b guid roles c') (rc_roles c') m1).
  destruct (answer_state guid roles c Hst Hl) as (Hr & Hd & Hcase). fold given in Hr, Hcase. fold chosen in Hr, Hcase. fold c' in Hr, Hd, Hcase.
  assert (map_sorted chosen) as Hsc by (unfold chosen; destruct given; [by apply map_set_sorted|done]).
  assert (Forall (fun x => IS_GROUP x = false) chosen.*1) as Hpc.
  { apply Forall_cons in Hp as [Hpg Hp]. unfold chosen. destruct given; [|done]. rewrite Forall_forall in Hp |- *.
    intros x [->|Hx]%map_set_keys; auto. }
  destruct (tell_members b guid roles c' chosen m1) as [U R]; [by apply set_sorted_NoDup|done|].
  fold chosen in m2. unfold m2. rewrite Hr. clear m2. set (m2 := fold_left _ chosen m1) in *.
  pose proof (f_equal QueuesStore R) as Rq. pose proof (f_equal GroupsStore R) as Rg. pose proof (f_equal RoleChecksStore R) as Rc.
  cbn [rest QueuesStore GroupsStore RoleChecksStore set_trace set_PlayersStore set_RoleChecksStore m1] in Rq, Rg, Rc.
  destruct (given && _).
  - rewrite Hcase in U |- *. cbn [set_rc_roles rc_state] in U |- *. rewrite Hst in U |- *. split_and!; [|done|done|].
    + rewrite Rc, Hcase. apply map_find_set.
    + intros x. rewrite (U x). by destruct (map_find x chosen).
  - assert (forall m3, map_find gguid (RoleChecksStore (set_RoleChecksStore (map_erase gguid (RoleChecksStore m3)) m3)) = None) as He
      by (intros m3; apply map_find_erase).
    destruct Hcase as [(E1 & E2 & E3)|(E1 & E2 & E3)].
    + rewrite E1 in U |- *. split; [apply He|]. left.
      pose proof (GetQueue_told LFG_ROLECHECK_FINISHED _ gguid m m2 Hg U Rg) as Hq. set (m3 := SetState gguid LFG_STATE_QUEUED m2) in *.
      assert (QueuesStore m3 = QueuesStore m) as Hqs by by unfold m3, SetState; rewrite Hg.
      split_and!; [done|done| | |].
      * rewrite Hq, Hd. unfold in_queue, queue_at. cbn [QueuesStore set_QueuesStore set_RoleChecksStore]. by rewrite Hqs.
      * change (GetState gguid m3 = LFG_STATE_QUEUED). unfold m3. by rewrite GetState_SetState, Z.eqb_refl.
      * intros x. rewrite <- (U x : player_data x m2 = match map_find x chosen with Some r => set_p_Roles r (PlayerData_SetState LFG_STATE_QUEUED (player_data x m)) | None => player_data x m end). unfold m3, SetState. by rewrite Hg.
    + assert (forall A (a b c0 : A), match rc_state c' with LFG_ROLECHECK_FINISHED => a | LFG_ROLECHECK_INITIALITING => b | _ => c0 end = c0)
        as -> by (intros; by destruct (rc_state c')).
      split; [apply He|]. right. split_and!; [done|done| |].
      * change (GetState gguid (RestoreState gguid m2) = g_OldState (group_data gguid m)). unfold GetState, RestoreState.
        rewrite Hg, group_data_modify, Z.eqb_refl. unfold group_data. by rewrite Rg.
      * intros x. etrans; [exact (U x)|]. change (player_data x m1) with (player_data x m).
        destruct (map_find x chosen); [|done]. by destruct (rc_state c').
Qed.

(** ** A proposal that fails *)

(** The guids taken out of the queue: those of the players who declined, or did
    not answer in time. *)
Definition declined (type : LfgUpdateType) (p : LfgProposal) : list Z := to_remove (denied type p).

Lemma elem_of_foldr_set_add g l : g ∈ foldr set_add [] l <-> g ∈ l.
Proof. induction l as [|x l IH]; [done|]. cbn [foldr]. rewrite elem_of_set_add, elem_of_cons, IH. tauto. Qed.

Lemma elem_of_declined type p g :
  g ∈ declined type p <->
  exists x pp, (x, pp) ∈ pr_players p /\ queue_guid (x, pp) = g
    /\ (pp_accept pp = LFG_ANSWER_DENY \/ (type = LFG_UPDATETYPE_PROPOSAL_FAILED /\ pp_accept pp = LFG_ANSWER_PENDING)).
Proof.
  unfold declined, to_remove. rewrite elem_of_foldr_set_add, list_elem_of_In, in_map_iff.
  setoid_rewrite filter_In. setoid_rewrite bool_decide_eq_true. unfold denied. case_bool_decide as Ht.
  - cbn [pr_players set_pr_players]. split.
    + intros ([x pp] & Hq & Hin & Ha). apply in_map_iff in Hin as ([x' pp'] & [= -> <-] & Hin). exists x, pp'.
      rewrite list_elem_of_In. cbn [snd] in Ha. unfold id in *. split; [done|]. split.
      * rewrite <- Hq. unfold queue_guid. cbn [fst snd]. by case_bool_decide.
      * case_bool_decide; [by right|by left].
    + intros (x & pp & Hin & Hq & Ha). set (pp' := if bool_decide (pp_accept pp = LFG_ANSWER_PENDING) then set_accept LFG_ANSWER_DENY pp else pp).
      exists (x, pp'). split; [|split].
      * rewrite <- Hq. unfold queue_guid, pp'. cbn [fst snd]. by case_bool_decide.
      * apply in_map_iff. exists (x, pp). split; [done|by apply list_elem_of_In].
      * cbn [snd]. unfold pp'. case_bool_decide; [done|]. naive_solver.
  - split.
    + intros ([x pp] & Hq & Hin & Ha). exists x, pp. rewrite list_elem_of_In. auto.
    + intros (x & pp & Hin & Hq & [Ha|[? _]]); [|done]. exists (x, pp). rewrite <- list_elem_of_In. auto.
Qed.

(** What becomes of a player of the proposal. *)
Definition released (out : list Z) (x : Z) (pp : LfgProposalPlayer) (d : LfgPlayerData) : LfgPlayerData :=
  if bool_decide (queue_guid (x, pp) ∈ out) then PlayerData_ClearState d else PlayerData_SetState LFG_STATE_QUEUED d.

Definition released_group (out : list Z) (g : Z) (d : LfgGroupData) : LfgGroupData :=
  if bool_decide (g ∈ out) then GroupData_RestoreState d else GroupData_SetState LFG_STATE_QUEUED d.

Lemma released_group_idem out g d : released_group out g (released_group out g d) = released_group out g d.
Proof. unfold released_group. by destruct (bool_decide _). Qed.

(** Players are players, and the groups they queued in are groups. *)
Definition proper_guids (p : LfgProposal) : Prop :=
  Forall (fun kv => IS_GROUP kv.1 = false /\ (pp_group kv.2 = 0 \/ IS_GROUP (pp_group kv.2) = true)) (pr_players p).

(** Neither the players' and the groups' data nor the messages. *)
Definition rest2 (m : LFGMgr) : LFGMgr := set_GroupsStore ∅ (rest m).

Lemma release_data type i pr m x pp :
  IS_GROUP x = false -> pp_group pp = 0 \/ IS_GROUP (pp_group pp) = true ->
  let m' := release type i pr m (x, pp) in
  (forall y, player_data y m' = if y =? x then released (to_remove pr) x pp (player_data x m) else player_data y m)
  /\ (forall g, IS_GROUP g = true ->
        group_data g m' = if queue_guid (x, pp) =? g then released_group (to_remove pr) g (group_data g m) else group_data g m)
  /\ rest2 m' = rest2 m.
Proof.
  intros Hx Hg. unfold release, released, released_group, queue_guid. cbn [fst snd]. cbv zeta.
  destruct (Z.eqb_spec (pp_group pp) 0) as [Eg|Eg].
  - rewrite Z.eqb_refl. unfold SetState. rewrite Hx.
    assert (forall g, IS_GROUP g = true -> (x =? g) = false) as Hne by (intros g H; apply Z.eqb_neq; congruence).
    case_bool_decide as Hin; (split; [intros y|split; [intros g H; rewrite (Hne g H); reflexivity|reflexivity]]);
      unfold ClearState; autorewrite with lfg_data; by destruct (Z.eqb_spec y x) as [->|].
  - destruct Hg as [Hg|Hg]; [done|]. assert ((pp_group pp =? x) = false) as -> by (apply Z.eqb_neq; congruence).
    unfold SetState. rewrite Hx, Hg.
    case_bool_decide as Hin; (split; [intros y|split; [intros g H|reflexivity]]); unfold ClearState, RestoreState;
      autorewrite with lfg_data; try (by destruct (Z.eqb_spec y x) as [->|]);
      rewrite (Z.eqb_sym g); (destruct (Z.eqb_spec (pp_group pp) g) as [<-|]; [|done]);
      [by rewrite bool_decide_eq_true_2|by rewrite bool_decide_eq_false_2].
Qed.

Lemma release_all type i pr l m :
  NoDup l.*1 -> Forall (fun kv => IS_GROUP kv.1 = false /\ (pp_group kv.2 = 0 \/ IS_GROUP (pp_group kv.2) = true)) l ->
  let m' := fold_left (release type i pr) l m in
  updated (released (to_remove pr)) l m m'
  /\ (forall g, IS_GROUP g = true ->
        group_data g m' = if bool_decide (g ∈ map queue_guid l) then released_group (to_remove pr) g (group_data g m) else group_data g m)
  /\ rest2 m' = rest2 m.
Proof.
  intros Hnd Hp. split.
  { rewrite Forall_forall in Hp. apply fold_updated; [|done]. intros n k a x Hka. destruct (Hp _ Hka).
    destruct (release_data type i pr n k a) as (Hd & _); [done|done|]. rewrite (Hd x). by destruct (Z.eqb_spec x k) as [->|]. }
  clear Hnd. revert m. induction l as [|[k a] l IH]; intros m; [done|]. apply Forall_cons in Hp as [[H1 H2] Hp]. cbn [fold_left map].
  destruct (IH Hp (release type i pr m (k, a))) as [G R]. destruct (release_data type i pr m k a H1 H2) as (_ & G1 & R1).
  split; [|congruence]. intros g Hg. rewrite (G g Hg), (G1 g Hg).
  rewrite (bool_decide_ext (g ∈ queue_guid (k, a) :: map queue_guid l) (g = queue_guid (k, a) \/ g ∈ map queue_guid l)) by apply elem_of_cons.
  destruct (Z.eqb_spec (queue_guid (k, a)) g) as [->|Hne].
  - rewrite (bool_decide_eq_true_2 (g = g \/ _)) by by left. rewrite released_group_idem. by destruct (bool_decide _).
  - by rewrite (bool_decide_ext (g = queue_guid (k, a) \/ g ∈ map queue_guid l) (g ∈ map queue_guid l)) by naive_solver.
Qed.

Lemma denied_players type p :
  exists f, pr_players (denied type p) = (prod_map id f <$> pr_players p) /\ forall pp, pp_group (f pp) = pp_group pp.
Proof.
  unfold denied. case_bool_decide.
  - eexists. split; [reflexivity|]. intros pp. cbn beta. by case_bool_decide.
  - exists id. split; [|done]. symmetry. etrans; [|apply list_fmap_id]. apply list_fmap_ext. by intros ? [].
Qed.

(** *** The queue afterwards *)
Lemma remove_all_data gs q g :
  data_of (fold_left (fun q guid => RemoveFromQueue guid q) gs q) g = if bool_decide (g ∈ gs) then None else data_of q g.
Proof.
  revert q. induction gs as [|x gs IH]; intros q; [done|]. cbn [fold_left]. rewrite IH, RemoveFromQueue_data.
  rewrite (bool_decide_ext (g ∈ x :: gs) (g = x \/ g ∈ gs)) by apply elem_of_cons.
  destruct (Z.eqb_spec g x) as [->|Hne].
  - rewrite (bool_decide_eq_true_2 (x = x \/ _)) by by left. by destruct (bool_decide _).
  - by rewrite (bool_decide_ext (g = x \/ g ∈ gs) (g ∈ gs)) by tauto.
Qed.

Lemma AddToQueue_spec g q :
  (forall x, data_of (AddToQueue g q) x = data_of q x)
  /\ newToQueueStore (AddToQueue g q) = newToQueueStore q ++ (if bool_decide (data_of q g = None) then [] else [g]).
Proof.
  unfold AddToQueue, data_of. destruct (map_find g (QueueDataStore q)) as [d|]; [done|]. split; [done|]. by rewrite app_nil_r.
Qed.

Lemma add_all_spec gs q :
  let q' := fold_left (fun q guid => AddToQueue guid q) gs q in
  (forall x, data_of q' x = data_of q x)
  /\ forall g, g ∈ newToQueueStore q' <-> g ∈ newToQueueStore q \/ (g ∈ gs /\ data_of q g <> None).
Proof.
  cbv zeta. revert q. induction gs as [|x gs IH]; intros q.
  { split; [done|]. intros g. cbn [fold_left]. rewrite elem_of_nil. tauto. }
  cbn [fold_left]. destruct (IH (AddToQueue x q)) as [D N], (AddToQueue_spec x q) as [D1 N1]. split.
  - intros y. by rewrite D, D1.
  - intros g. rewrite N, N1, D1, elem_of_app, elem_of_cons. case_bool_decide as Hx.
    + rewrite elem_of_nil. naive_solver.
    + rewrite list_elem_of_singleton. naive_solver.
Qed.

(** When a proposal fails it is dropped; the guids of those who declined, or
    in time gave no answer, leave the queue with their data, and every other guid
    of the proposal that still has data goes back into the queue. The players of
    the former are out of the dungeon finder (their groups as they were before),
    the others, players and groups, are queued again. *)
Theorem RemoveProposal_outcome pid type m p first rest_players :
  map_find pid (ProposalsStore m) = Some p -> pr_players p = first :: rest_players -> map_sorted (pr_players p) ->
  proper_guids p ->
  exists m' q',
    RemoveProposal pid type m = Some m'
    /\ ProposalsStore m' = map_erase pid (ProposalsStore m)
    /\ (let qid := GetTeam first.1 m in
        QueuesStore m' = map_set qid q' (QueuesStore m)
        /\ (forall g, data_of q' g = if bool_decide (g ∈ declined type p) then None else data_of (queue_at qid m) g)
        /\ (forall g, g ∈ queues p -> g ∉ declined type p -> data_of (queue_at qid m) g <> None -> g ∈ newToQueueStore q'))
    /\ updated (released (declined type p)) (pr_players p) m m'
    /\ (forall g, IS_GROUP g = true -> g ∈ map queue_guid (pr_players p) ->
          GetState g m' = if bool_decide (g ∈ declined type p) then g_OldState (group_data g m) else LFG_STATE_QUEUED).
Proof.
  intros Hp Hf Hs Hg. unfold RemoveProposal. rewrite Hp. cbv zeta.
  set (p' := denied type (set_pr_state LFG_PROPOSAL_FAILED p)). set (m1 := fold_left _ (pr_players p') m).
  assert (to_remove p' = declined type p) as Hd by (unfold p', declined, denied; by case_bool_decide).
  assert (queues p' = queues p) as Hq by (unfold p', denied; by case_bool_decide).
  destruct (denied_players type (set_pr_state LFG_PROPOSAL_FAILED p)) as (f & Hpl & Hfg). fold p' in Hpl.
  cbn [pr_players set_pr_state] in Hpl.
  assert ((pr_players p').*1 = (pr_players p).*1) as Hk by (rewrite Hpl, <- list_fmap_compose; by apply list_fmap_ext).
  destruct (release_all type pid p' (pr_players p') m) as (U & G & R).
  { rewrite Hk. by apply set_sorted_NoDup. }
  { rewrite Hpl. apply Forall_fmap. eapply Forall_impl; [exact Hg|]. intros [x pp]. cbn. by rewrite Hfg. }
  fold m1 in U, G, R. rewrite Hd in U, G.
  pose proof (f_equal QueuesStore R) as Rq. pose proof (f_equal ProposalsStore R) as Rp.
  cbn [rest2 rest QueuesStore ProposalsStore set_trace set_PlayersStore set_GroupsStore] in Rq, Rp.
  assert (updated (released (declined type p)) (pr_players p) m m1) as U'.
  { intros x. rewrite (U x), Hpl, map_find_fmap. destruct (map_find x (pr_players p)) as [pp|]; [|done].
    cbn [fmap option_fmap option_map]. unfold released, queue_guid. cbn [fst snd]. by rewrite Hfg. }
  rewrite Hpl, Hf. destruct first as [x1 pp1]. cbn [fmap list_fmap prod_map fst snd].
  assert (GetQueue (id x1) m1 = GetTeam x1 m) as Eq.
  { unfold id, GetQueue. pose proof Hg as Hg1. unfold proper_guids in Hg1. rewrite Hf in Hg1. apply Forall_cons in Hg1 as [[Hx1 _] _].
    cbn [fst] in Hx1. rewrite Hx1. unfold GetTeam. rewrite (U' x1). destruct (map_find x1 _); [|done]. unfold released.
    by destruct (bool_decide _). }
  rewrite Eq, Hd, Hq. clear Eq.
  set (stay := List.filter _ (queues p)). set (q1 := fold_left (fun q guid => RemoveFromQueue guid q) (declined type p) (queue_at (GetTeam x1 m) m1)).
  destruct (add_all_spec stay q1) as [D N]. eexists _, _. split; [reflexivity|].
  assert (queue_at (GetTeam x1 m) m1 = queue_at (GetTeam x1 m) m) as Hqa by (unfold queue_at; by rewrite Rq).
  split_and!.
  - cbn [ProposalsStore set_ProposalsStore in_queue set_QueuesStore]. by rewrite Rp.
  - cbn [QueuesStore set_ProposalsStore in_queue set_QueuesStore fst]. rewrite Rq. reflexivity.
  - intros g. rewrite D. unfold q1. by rewrite remove_all_data, Hqa.
  - cbn [fst]. intros g Hgq Hgd Hga. apply N. right. split.
    + unfold stay. apply list_elem_of_In, filter_In. split; [by apply list_elem_of_In|]. by rewrite bool_decide_eq_false_2.
    + unfold q1. rewrite remove_all_data, bool_decide_eq_false_2, Hqa; done.
  - rewrite Hf in U'. exact U'.
  - intros g Hgg Hgq. rewrite <- Hf in Hgq. unfold GetState. rewrite Hgg. change (g_State (group_data g m1) = if bool_decide (g ∈ declined type p) then g_OldState (group_data g m) else LFG_STATE_QUEUED).
    rewrite (G g Hgg).
    rewrite bool_decide_eq_true_2.
    + unfold released_group. by case_bool_decide.
    + rewrite Hpl. apply list_elem_of_In, in_map_iff. apply list_elem_of_In, in_map_iff in Hgq as ([x pp] & <- & Hin).
      exists (x, f pp). split; [unfold queue_guid; cbn [fst snd]; by rewrite Hfg|].
      apply list_elem_of_In, list_elem_of_fmap. exists (x, pp). split; [done|by apply list_elem_of_In].
Qed.

(** ** Examples *)
Definition example_group : Z := Z.shiftl HIGHGUID_GROUP 48 + 1.
Definition in_example_group (players : list Z) : LFGMgr :=
  fold_left (fun m x => AddPlayerToGroup example_group x (SetGroup x example_group m)) players empty_mgr.

(** Player 2 wants 5 out, 3 agrees; with 4 it is decided. *)
Definition example_vote : LFGMgr :=
  let S := example_surroundings (fun _ _ => false) in
  UpdateBoot true 3 true (InitBoot example_group 2 5 "" (in_example_group [1; 2; 3; 4; 5])).

Lemma UpdateBoot_decides_witness :
  let m' := UpdateBoot true 4 true example_vote in
  RemoveFromGroup example_group 5 ∈ trace m' /\ GetState 4 m' = LFG_STATE_DUNGEON /\ GetState 5 m' = LFG_STATE_BOOT.
Proof.
  intros m'. set (b := match map_find example_group (BootsStore example_vote) with Some b => b | None => mkBoot 0 false [] 0 "" end).
  assert (map_find 4 (votes b) = Some LFG_ANSWER_PENDING) as E1 by (vm_compute; reflexivity).
  assert ((votes_for LFG_ANSWER_AGREE (map_set 4 LFG_ANSWER_AGREE (votes b)) <? 3)
    && (votes_for LFG_ANSWER_DENY (map_set 4 LFG_ANSWER_AGREE (votes b)) <? 3) = false) as E2 by (vm_compute; reflexivity).
  assert (GetGroup 4 example_vote = example_group) as Eg by (vm_compute; reflexivity).
  pose proof (UpdateBoot_decides true 4 true example_vote b ltac:(rewrite Eg; vm_compute; reflexivity)
    ltac:(rewrite Eg; vm_compute; reflexivity) ltac:(vm_compute; reflexivity) ltac:(repeat constructor) ltac:(vm_compute; reflexivity)) as U.
  cbv zeta in U. rewrite E1, E2, Eg in U. destruct U as (_ & _ & U3 & U4 & U5 & _). split_and!.
  - apply U5. right. split; [reflexivity|]. vm_compute. reflexivity.
  - apply U3; [|discriminate]. vm_compute. repeat (first [left | right]).
  - change (victim b) with 5 in U4. etrans; [exact U4|]. vm_compute. reflexivity.
Defined.

(** A group of two: 1 is a tank, 2 answers last. *)
Definition example_check : LfgRoleCheck := mkRoleCheck 0 [(1, 2); (2, 0)] LFG_ROLECHECK_INITIALITING [20] 0 1.

Lemma UpdateRoleCheck_outcome_witness :
  let m := set_RoleChecksStore [(example_group, example_check)] (in_example_group [1; 2]) in
  let m' := @UpdateRoleCheck (example_surroundings (fun _ _ => false)) example_group 2 8 m in
  GetState example_group m' = LFG_STATE_QUEUED
  /\ updated (fun _ r d => set_p_Roles r (PlayerData_SetState LFG_STATE_QUEUED d)) [(1, 2); (2, 8)] m m'.
Proof.
  intros m m'.
  destruct (@UpdateRoleCheck_outcome (example_surroundings (fun _ _ => false)) example_group 2 8 m example_check
    ltac:(vm_compute; reflexivity) ltac:(vm_compute; reflexivity) eq_refl ltac:(repeat constructor) ltac:(discriminate)
    ltac:(repeat constructor)) as (_ & [(_ & _ & _ & H1 & H2)|(H & _)]).
  - split; [exact H1|exact H2].
  - exfalso. apply H. split; [reflexivity|]. pose proof (check_group_roles [(1, 2); (2, 8)] eq_refl) as Hc.
    destruct (CheckGroupRoles [(1, 2); (2, 8)]) as [ok out] eqn:E. apply Hc. clear -E. vm_compute in E. congruence.
Defined.

(** Player 2 has declined the proposal of the first five. *)
Definition agreed (role : Z) : LfgProposalPlayer := mkProposalPlayer role LFG_ANSWER_AGREE 0.
Definition example_proposal : LfgProposal :=
  mkProposal 20 LFG_PROPOSAL_INITIATING 0 1 1120 0 true [5; 1; 2; 3; 4]
    [(1, agreed 8); (2, mkProposalPlayer 2 LFG_ANSWER_DENY 0); (3, agreed 8); (4, agreed 4); (5, agreed 8)].

Lemma RemoveProposal_outcome_witness :
  let m := set_QueuesStore [(0, queue (example_world five))] (set_ProposalsStore [(1, example_proposal)] (mgr (example_world five))) in
  exists m', RemoveProposal 1 LFG_UPDATETYPE_PROPOSAL_DECLINED m = Some m' /\ ProposalsStore m' = []
    /\ player_data 2 m' = PlayerData_ClearState (player_data 2 m)
    /\ player_data 3 m' = PlayerData_SetState LFG_STATE_QUEUED (player_data 3 m).
Proof.
  intros m. destruct (RemoveProposal_outcome 1 LFG_UPDATETYPE_PROPOSAL_DECLINED m example_proposal
    (1, agreed 8) (tail (pr_players example_proposal)) eq_refl eq_refl ltac:(repeat constructor) ltac:(repeat constructor))
    as (m' & q' & E & P & _ & U & _). unfold updated in U.
  exists m'. split; [exact E|]. split; [etrans; [exact P|]; vm_compute; reflexivity|]. split.
  - rewrite U. vm_compute. reflexivity.
  - rewrite U. vm_compute. reflexivity.
Defined.

End LfgOutcomes.
