(* ===== verification/Channel.v ===== *)
(** * Channel: chat channels

    [game/Chat/Channels/Channel.cpp]: the members of a channel with their flags,
    its owner, its bans and the commands on it. An operation takes the channel and
    what has happened so far, the packets sent, the database statements and the
    changes of the players' lists of channels, and returns both. The players in
    the world, the configuration and the row of the database are arguments. *)
From S2P Require Import Prelude OrderedMap Utf8 Util.
From Stdlib Require Import Sorting.Sorted.
Import Util.
#[global] Open Scope Z_scope.

Module Channel.

(** ** Constants *)
Definition CHANNEL_FLAG_CUSTOM := 0x01.
Definition CHANNEL_FLAG_TRADE := 0x04.
Definition CHANNEL_FLAG_NOT_LFG := 0x08.
Definition CHANNEL_FLAG_GENERAL := 0x10.
Definition CHANNEL_FLAG_CITY := 0x20.
Definition CHANNEL_FLAG_LFG := 0x40.
Definition CHANNEL_DBC_FLAG_TRADE := 0x00008.
Definition CHANNEL_DBC_FLAG_CITY_ONLY2 := 0x00020.
Definition CHANNEL_DBC_FLAG_LFG := 0x40000.
Definition MEMBER_FLAG_NONE := 0x00.
Definition MEMBER_FLAG_OWNER := 0x01.
Definition MEMBER_FLAG_MODERATOR := 0x02.
Definition MEMBER_FLAG_MUTED := 0x08.

Definition SEC_PLAYER := 0.
Definition SEC_GAMEMASTER := 2.
Definition SEC_CONSOLE := 4.
Definition IsPlayerAccount (gmlevel : Z) : bool := gmlevel =? SEC_PLAYER.
Definition IsGMAccount (gmlevel : Z) : bool := (SEC_GAMEMASTER <=? gmlevel) && (gmlevel <=? SEC_CONSOLE).

Definition LANG_UNIVERSAL := 0.
Definition CHAT_MSG_CHANNEL := 0x11.
Definition GUID_LOPART (guid : Z) : Z := Z.land guid 0xFFFFFFFF.

(** ** The rest of the server *)

(** What a channel reads of a player in the world. *)
Record Player := mkPlayer {
  p_name : list Z;
  GetSecurity : Z;
  GetTeam : Z;
  GetGroup : bool;
  GetChatTag : Z;
  isGMVisible : bool;
  HasIgnore : Z -> bool;                    (* by the low part of a guid *)
  IsVisibleGloballyFor : Z -> bool          (* by the guid of the viewer *)
}.

Record Env := mkEnv {
  players_in_world : list (Z * Player);
  GetPlayerNameByGUID : Z -> option (list Z);
  sChatChannelsStore : Z -> option Z;       (* the flags of the entry *)
  CONFIG_PRESERVE_CUSTOM_CHANNELS : bool;
  CONFIG_RESTRICTED_LFG_CHANNEL : bool;
  CONFIG_SILENTLY_GM_JOIN_TO_CHANNEL : bool;
  CONFIG_ALLOW_TWO_SIDE_INTERACTION_CHANNEL : bool;
  CONFIG_GM_LEVEL_IN_WHO_LIST : Z
}.

Fixpoint find_player (guid : Z) (l : list (Z * Player)) : option Player :=
  match l with [] => None | (g, p) :: l => if guid =? g then Some p else find_player guid l end.

(** [tolower] in the C locale. *)
Definition tolower (c : Z) : Z := if (65 <=? c) && (c <=? 90) then c + 32 else c.
Fixpoint find_name (nameStr : list Z) (l : list (Z * Player)) : option (Z * Player) :=
  match l with
  | [] => None
  | (g, p) :: l => if decide (nameStr = map tolower (p_name p)) then Some (g, p) else find_name nameStr l
  end.

Definition FindPlayer (E : Env) (guid : Z) : option Player := find_player guid (players_in_world E).
Definition FindPlayerByName (E : Env) (name : list Z) : option (Z * Player) :=
  find_name (map tolower name) (players_in_world E).

(** ** Packets and effects *)
Inductive field := U8 (z : Z) | U32 (z : Z) | U64 (z : Z) | Str (s : list Z).
Inductive opcode :=
| SMSG_CHANNEL_NOTIFY | SMSG_CHANNEL_LIST | SMSG_MESSAGECHAT | SMSG_USERLIST_ADD | SMSG_USERLIST_UPDATE | SMSG_USERLIST_REMOVE
| SMSG_CHANNEL_MEMBER_COUNT.
Record WorldPacket := mkPacket { op : opcode; body : list field }.

Inductive statement := CHAR_INS_CHANNEL | CHAR_UPD_CHANNEL | CHAR_UPD_CHANNEL_USAGE | CHAR_DEL_OLD_CHANNELS.
Inductive effect :=
| SendPacket (receiver : Z) (data : WorldPacket)
| Execute (stmt : statement) (args : list field)
| JoinedChannel (guid : Z)
| LeftChannel (guid : Z).

(** ** Data *)
Record PlayerInfo := mkInfo { player_of : Z; flags : Z }.
Definition HasFlag (i : PlayerInfo) (flag : Z) : bool := has (flags i) flag.
Definition SetFlag (flag : Z) (i : PlayerInfo) : PlayerInfo :=
  if HasFlag i flag then i else mkInfo (player_of i) (Z.lor (flags i) flag).
Definition set_bit (f : Z) (state : bool) (i : PlayerInfo) : PlayerInfo :=
  mkInfo (player_of i) (if state then Z.lor (flags i) f else Z.ldiff (flags i) f).
Definition IsOwner (i : PlayerInfo) : bool := has (flags i) MEMBER_FLAG_OWNER.
Definition SetOwner_flag : bool -> PlayerInfo -> PlayerInfo := set_bit MEMBER_FLAG_OWNER.
Definition IsModerator (i : PlayerInfo) : bool := has (flags i) MEMBER_FLAG_MODERATOR.
Definition SetModerator_flag : bool -> PlayerInfo -> PlayerInfo := set_bit MEMBER_FLAG_MODERATOR.
Definition IsMuted (i : PlayerInfo) : bool := has (flags i) MEMBER_FLAG_MUTED.
Definition SetMuted_flag : bool -> PlayerInfo -> PlayerInfo := set_bit MEMBER_FLAG_MUTED.

(** [players] and [banned] are in the order of the guids; [trace] is what has
    happened so far. *)
Record Channel := mkChannel {
  players : list (Z * PlayerInfo);
  banned : list Z;
  m_announce : bool;
  m_ownership : bool;
  m_name : list Z;
  m_password : list Z;
  m_flags : Z;
  m_channelId : Z;
  m_ownerGUID : Z;
  m_IsSaved : bool;
  m_Team : Z;
  trace : list effect
}.

Definition set_players (v : list (Z * PlayerInfo)) (c : Channel) : Channel :=
  mkChannel v (banned c) (m_announce c) (m_ownership c) (m_name c) (m_password c) (m_flags c) (m_channelId c)
    (m_ownerGUID c) (m_IsSaved c) (m_Team c) (trace c).
Definition set_banned (v : list Z) (c : Channel) : Channel :=
  mkChannel (players c) v (m_announce c) (m_ownership c) (m_name c) (m_password c) (m_flags c) (m_channelId c)
    (m_ownerGUID c) (m_IsSaved c) (m_Team c) (trace c).
Definition SetAnnounce (v : bool) (c : Channel) : Channel :=
  mkChannel (players c) (banned c) v (m_ownership c) (m_name c) (m_password c) (m_flags c) (m_channelId c)
    (m_ownerGUID c) (m_IsSaved c) (m_Team c) (trace c).
Definition SetOwnership (v : bool) (c : Channel) : Channel :=
  mkChannel (players c) (banned c) (m_announce c) v (m_name c) (m_password c) (m_flags c) (m_channelId c)
    (m_ownerGUID c) (m_IsSaved c) (m_Team c) (trace c).
Definition SetPassword (v : list Z) (c : Channel) : Channel :=
  mkChannel (players c) (banned c) (m_announce c) (m_ownership c) (m_name c) v (m_flags c) (m_channelId c)
    (m_ownerGUID c) (m_IsSaved c) (m_Team c) (trace c).
Definition set_ownerGUID (v : Z) (c : Channel) : Channel :=
  mkChannel (players c) (banned c) (m_announce c) (m_ownership c) (m_name c) (m_password c) (m_flags c) (m_channelId c)
    v (m_IsSaved c) (m_Team c) (trace c).
Definition emit (e : list effect) (c : Channel) : Channel :=
  mkChannel (players c) (banned c) (m_announce c) (m_ownership c) (m_name c) (m_password c) (m_flags c) (m_channelId c)
    (m_ownerGUID c) (m_IsSaved c) (m_Team c) (trace c ++ e).

(** ** Accessors *)
Definition IsConstant (c : Channel) : bool := negb (m_channelId c =? 0).
Definition IsLFG (c : Channel) : bool := has (m_flags c) CHANNEL_FLAG_LFG.
Definition GetNumPlayers (c : Channel) : Z := u32 (Z.of_nat (length (players c))).
Definition IsOn (c : Channel) (who : Z) : bool := match map_find who (players c) with Some _ => true | None => false end.
Definition IsBanned (c : Channel) (guid : Z) : bool := bool_decide (guid ∈ banned c).
Definition GetPlayerFlags (c : Channel) (p : Z) : Z :=
  match map_find p (players c) with Some i => flags i | None => 0 end.

(** [players[p]]: an entry that is not there is made, of zeros. *)
Definition no_info : PlayerInfo := mkInfo 0 0.
Definition info (c : Channel) (p : Z) : PlayerInfo := default no_info (map_find p (players c)).
Definition update_info (p : Z) (f : PlayerInfo -> PlayerInfo) (c : Channel) : Channel :=
  set_players (map_set p (f (info c p)) (players c)) c.

(** ** Sending *)
Definition packet_for (E : Env) (data : WorldPacket) (who : Z) : list effect :=
  match FindPlayer E who with Some _ => [SendPacket who data] | None => [] end.
Definition SendToOne (E : Env) (data : WorldPacket) (who : Z) (c : Channel) : Channel :=
  emit (packet_for E data who) c.

(** [p] is 0 or a guid: the members who ignore that player get nothing. *)
Definition SendToAll (E : Env) (data : WorldPacket) (p : Z) (c : Channel) : Channel :=
  emit ((players c).*1 ≫= (fun m =>
    match FindPlayer E m with
    | Some player => if (p =? 0) || negb (HasIgnore player (GUID_LOPART p)) then [SendPacket m data] else []
    | None => []
    end)) c.
Definition SendToAllButOne (E : Env) (data : WorldPacket) (who : Z) (c : Channel) : Channel :=
  emit ((players c).*1 ≫= (fun m => if m =? who then [] else packet_for E data m)) c.

(** ** Notifications *)
Definition MakeNotifyPacket (c : Channel) (notify_type : Z) (data : list field) : WorldPacket :=
  mkPacket SMSG_CHANNEL_NOTIFY (U8 notify_type :: Str (m_name c) :: data).

Definition MakeJoined (c : Channel) (guid : Z) := MakeNotifyPacket c 0x00 [U64 guid].
Definition MakeLeft (c : Channel) (guid : Z) := MakeNotifyPacket c 0x01 [U64 guid].
Definition MakeYouJoined (c : Channel) := MakeNotifyPacket c 0x02 [U8 (m_flags c); U32 (m_channelId c); U32 0].
Definition MakeYouLeft (c : Channel) := MakeNotifyPacket c 0x03 [U32 (m_channelId c); U8 (Z.b2z (IsConstant c))].
Definition MakeWrongPassword (c : Channel) := MakeNotifyPacket c 0x04 [].
Definition MakeNotMember (c : Channel) := MakeNotifyPacket c 0x05 [].
Definition MakeNotModerator (c : Channel) := MakeNotifyPacket c 0x06 [].
Definition MakePasswordChanged (c : Channel) (guid : Z) := MakeNotifyPacket c 0x07 [U64 guid].
Definition MakeOwnerChanged (c : Channel) (guid : Z) := MakeNotifyPacket c 0x08 [U64 guid].
Definition MakePlayerNotFound (c : Channel) (name : list Z) := MakeNotifyPacket c 0x09 [Str name].
Definition MakeNotOwner (c : Channel) := MakeNotifyPacket c 0x0A [].
Definition MakeAnnouncementsOn (c : Channel) (guid : Z) := MakeNotifyPacket c 0x0D [U64 guid].
Definition MakeAnnouncementsOff (c : Channel) (guid : Z) := MakeNotifyPacket c 0x0E [U64 guid].
Definition MakeModeChange (c : Channel) (guid oldflags : Z) :=
  MakeNotifyPacket c 0x0C [U64 guid; U8 oldflags; U8 (GetPlayerFlags c guid)].
Definition MakeMuted (c : Channel) := MakeNotifyPacket c 0x11 [].
Definition MakePlayerKicked (c : Channel) (bad good : Z) := MakeNotifyPacket c 0x12 [U64 bad; U64 good].
Definition MakeBanned (c : Channel) := MakeNotifyPacket c 0x13 [].
Definition MakePlayerBanned (c : Channel) (bad good : Z) := MakeNotifyPacket c 0x14 [U64 bad; U64 good].
Definition MakePlayerUnbanned (c : Channel) (bad good : Z) := MakeNotifyPacket c 0x15 [U64 bad; U64 good].
Definition MakePlayerAlreadyMember (c : Channel) (guid : Z) := MakeNotifyPacket c 0x17 [U64 guid].
Definition MakeInvite (c : Channel) (guid : Z) := MakeNotifyPacket c 0x18 [U64 guid].
Definition MakeInviteWrongFaction (c : Channel) := MakeNotifyPacket c 0x19 [].
Definition MakePlayerInvited (c : Channel) (name : list Z) := MakeNotifyPacket c 0x1D [Str name].
Definition MakePlayerInviteBanned (c : Channel) (name : list Z) := MakeNotifyPacket c 0x1E [Str name].
Definition MakeNotInLfg (c : Channel) := MakeNotifyPacket c 0x21 [].
Definition MakePlayerNotBanned (c : Channel) (name : list Z) := MakeNotifyPacket c 0x16 [Str name].
Definition MakeWrongFaction (c : Channel) := MakeNotifyPacket c 0x1A [].
Definition MakeInvalidName (c : Channel) := MakeNotifyPacket c 0x1B [].
Definition MakeNotModerated (c : Channel) := MakeNotifyPacket c 0x1C [].
Definition MakeThrottled (c : Channel) := MakeNotifyPacket c 0x1F [].
Definition MakeNotInArea (c : Channel) := MakeNotifyPacket c 0x20 [].
Definition MakeVoiceOn (c : Channel) (guid : Z) := MakeNotifyPacket c 0x22 [U64 guid].
Definition MakeVoiceOff (c : Channel) (guid : Z) := MakeNotifyPacket c 0x23 [U64 guid].

(** [Nobody] and [PLAYER_NOT_FOUND] *)
Definition Nobody : list Z := [78; 111; 98; 111; 100; 121].
Definition not_found_name : list Z := [80; 76; 65; 89; 69; 82; 95; 78; 79; 84; 95; 70; 79; 85; 78; 68].
Definition MakeChannelOwner (E : Env) (c : Channel) : WorldPacket :=
  let name := match GetPlayerNameByGUID E (m_ownerGUID c) with
              | Some name => if decide (name = []) then not_found_name else name
              | None => not_found_name
              end in
  MakeNotifyPacket c 0x0B [Str (if IsConstant c || (m_ownerGUID c =? 0) then Nobody else name)].

Definition JoinNotify (E : Env) (guid : Z) (c : Channel) : Channel :=
  let data := mkPacket (if IsConstant c then SMSG_USERLIST_ADD else SMSG_USERLIST_UPDATE)
    [U64 guid; U8 (GetPlayerFlags c guid); U8 (m_flags c); U32 (GetNumPlayers c); Str (m_name c)] in
  if IsConstant c then SendToAllButOne E data guid c else SendToAll E data 0 c.
Definition LeaveNotify (E : Env) (guid : Z) (c : Channel) : Channel :=
  let data := mkPacket SMSG_USERLIST_REMOVE [U64 guid; U8 (m_flags c); U32 (GetNumPlayers c); Str (m_name c)] in
  if IsConstant c then SendToAllButOne E data guid c else SendToAll E data 0 c.

(** ** The database *)

(** The list of bans as it is stored. *)
Definition banlist (banned : list Z) : list Z := banned ≫= (fun g => decimal g ++ [32]).

Definition UpdateChannelInDB (c : Channel) : Channel :=
  if m_IsSaved c then
    emit [Execute CHAR_UPD_CHANNEL [U8 (Z.b2z (m_announce c)); U8 (Z.b2z (m_ownership c)); Str (m_password c);
            Str (banlist (banned c)); Str (m_name c); U32 (m_Team c)]] c
  else c.
Definition UpdateChannelUseageInDB (c : Channel) : Channel :=
  emit [Execute CHAR_UPD_CHANNEL_USAGE [Str (m_name c); U32 (m_Team c)]] c.

(** [CONFIG_PRESERVE_CUSTOM_CHANNEL_DURATION] is in days. *)
Definition CleanOldChannelsInDB (duration : Z) : list effect :=
  if 0 <? duration then [Execute CHAR_DEL_OLD_CHANNELS [U32 (u32 (duration * DAY))]] else [].

(** A row of [CHAR_SEL_CHANNEL]: announce, ownership, password and the bans, which
    can be NULL. *)
Record ChannelRow := mkRow { r_announce : bool; r_ownership : bool; r_password : list Z; r_bannedList : option (list Z) }.

Definition load_bans (db_BannedList : list Z) (banned : list Z) : list Z :=
  foldl (fun banned t => let banned_guid := u64 (atol t) in if banned_guid =? 0 then banned else set_add banned_guid banned)
    banned (Tokenizer db_BannedList 32).

(** The constructor; [row] is what the query returns. *)
Definition new_channel (E : Env) (row : option ChannelRow) (name : list Z) (channel_id team : Z) : Channel :=
  match sChatChannelsStore E channel_id with
  | Some ch_flags =>
      let m_flags := Z.lor 0 CHANNEL_FLAG_GENERAL in
      let m_flags := if has ch_flags CHANNEL_DBC_FLAG_TRADE then Z.lor m_flags CHANNEL_FLAG_TRADE else m_flags in
      let m_flags := if has ch_flags CHANNEL_DBC_FLAG_CITY_ONLY2 then Z.lor m_flags CHANNEL_FLAG_CITY else m_flags in
      let m_flags := Z.lor m_flags (if has ch_flags CHANNEL_DBC_FLAG_LFG then CHANNEL_FLAG_LFG else CHANNEL_FLAG_NOT_LFG) in
      mkChannel [] [] false false name [] m_flags channel_id 0 false team []
  | None =>
      let m_flags := Z.lor 0 CHANNEL_FLAG_CUSTOM in
      if CONFIG_PRESERVE_CUSTOM_CHANNELS E then
        match row with
        | Some r =>
            mkChannel [] (match r_bannedList r with Some l => load_bans l [] | None => [] end)
              (r_announce r) (r_ownership r) name (r_password r) m_flags channel_id 0 true team []
        | None =>
            mkChannel [] [] true true name [] m_flags channel_id 0 true team [Execute CHAR_INS_CHANNEL [Str name; U32 team]]
        end
      else mkChannel [] [] true true name [] m_flags channel_id 0 false team []
  end.

(** ** The owner *)
Definition SetOwner (E : Env) (guid : Z) (exclaim : bool) (c : Channel) : Channel :=
  let c :=
    if m_ownerGUID c =? 0 then c
    else if IsOn c (m_ownerGUID c) then update_info (m_ownerGUID c) (SetOwner_flag false) c
    else c in
  let c := set_ownerGUID guid c in
  if guid =? 0 then c
  else
    let oldFlag := GetPlayerFlags c guid in
    let c := update_info guid (SetModerator_flag true) c in
    let c := update_info guid (SetOwner_flag true) c in
    let c := SendToAll E (MakeModeChange c guid oldFlag) 0 c in
    let c := if exclaim then SendToAll E (MakeOwnerChanged c guid) 0 c else c in
    UpdateChannelInDB c.

(** [SetModerator] and [SetMute] on a guid. *)
Definition set_moderator (E : Env) (p : Z) (set : bool) (c : Channel) : Channel :=
  if Bool.eqb (IsModerator (info c p)) set then update_info p (fun i => i) c
  else
    let c := update_info p (fun i => i) c in
    let oldFlag := GetPlayerFlags c p in
    let c := update_info p (SetModerator_flag set) c in
    SendToAll E (MakeModeChange c p oldFlag) 0 c.
Definition set_mute (E : Env) (p : Z) (set : bool) (c : Channel) : Channel :=
  if Bool.eqb (IsMuted (info c p)) set then update_info p (fun i => i) c
  else
    let c := update_info p (fun i => i) c in
    let oldFlag := GetPlayerFlags c p in
    let c := update_info p (SetMuted_flag set) c in
    SendToAll E (MakeModeChange c p oldFlag) 0 c.

(** ** Joining and leaving *)

(** GMs come and go without an announcement when the server is so configured. *)
Definition silent (E : Env) (player : option Player) : bool :=
  match player with
  | Some pl => IsGMAccount (GetSecurity pl) && CONFIG_SILENTLY_GM_JOIN_TO_CHANNEL E
  | None => false
  end.

(** [Join] once the player has been admitted. *)
Definition enter (E : Env) (p : Z) (player : option Player) (c : Channel) : Channel :=
  let c := match player with Some _ => emit [JoinedChannel p] c | None => c end in
  let c := if m_announce c && negb (silent E player) then SendToAll E (MakeJoined c p) 0 c else c in
  let c := set_players (map_set p (mkInfo p MEMBER_FLAG_NONE) (players c)) c in
  let c := SendToOne E (MakeYouJoined c) p c in
  JoinNotify E p c.

(** The custom channel handling of [Join]. *)
Definition first_owner (E : Env) (p : Z) (c : Channel) : Channel :=
  if IsConstant c then c
  else
    let c := match players c with [] => c | _ => UpdateChannelUseageInDB c end in
    if (m_ownerGUID c =? 0) && m_ownership c then
      let c := SetOwner E p (1 <? Z.of_nat (length (players c))) c in
      update_info p (SetModerator_flag true) c
    else c.

Definition Join (E : Env) (p : Z) (pass : list Z) (c : Channel) : Channel :=
  if IsOn c p then
    if negb (IsConstant c) then SendToOne E (MakePlayerAlreadyMember c p) p c else c
  else if IsBanned c p then SendToOne E (MakeBanned c) p c
  else if (0 <? Z.of_nat (length (m_password c))) && negb (bool_decide (pass = m_password c)) then
    SendToOne E (MakeWrongPassword c) p c
  else
    let player := FindPlayer E p in
    if match player with
       | Some pl => has (m_flags c) CHANNEL_FLAG_LFG && CONFIG_RESTRICTED_LFG_CHANNEL E
                      && IsPlayerAccount (GetSecurity pl) && GetGroup pl
       | None => false
       end
    then SendToOne E (MakeNotInLfg c) p c
    else first_owner E p (enter E p player c).

(** [Leave] of a member, to the notification. *)
Definition depart (E : Env) (p : Z) (send : bool) (c : Channel) : Channel :=
  let player := FindPlayer E p in
  let c :=
    if send then
      let c := SendToOne E (MakeYouLeft c) p c in
      match player with Some _ => emit [LeftChannel p] c | None => c end
    else c in
  let c := set_players (map_erase p (players c)) c in
  let c := if m_announce c && negb (silent E player) then SendToAll E (MakeLeft c p) 0 c else c in
  LeaveNotify E p c.

(** The custom channel handling of [Leave]. *)
Definition next_owner (E : Env) (changeowner : bool) (c : Channel) : Channel :=
  if IsConstant c then c
  else
    let c := UpdateChannelUseageInDB c in
    match players c with
    | (_, first) :: _ =>
        if changeowner && m_ownership c then
          let newowner := player_of first in
          let c := update_info newowner (SetModerator_flag true) c in
          SetOwner E newowner true c
        else c
    | [] => c
    end.

Definition Leave (E : Env) (p : Z) (send : bool) (c : Channel) : Channel :=
  if negb (IsOn c p) then
    if send then SendToOne E (MakeNotMember c) p c else c
  else
    let changeowner := IsOwner (info c p) in
    next_owner E changeowner (depart E p send c).

(** ** Commands *)

(** The security of a player, 0 for one not in the world. *)
Definition security (player : option Player) : Z := match player with Some pl => GetSecurity pl | None => SEC_PLAYER end.

(** The ban, the notification and the removal. *)
Definition expel (E : Env) (good bad : Z) (ban notify : bool) (c : Channel) : Channel :=
  let c :=
    if ban && negb (IsBanned c bad) then
      let c := UpdateChannelInDB (set_banned (set_add bad (banned c)) c) in
      if notify then SendToAll E (MakePlayerBanned c bad good) 0 c else c
    else if notify then SendToAll E (MakePlayerKicked c bad good) 0 c
    else c in
  let c := set_players (map_erase bad (players c)) c in
  emit [LeftChannel bad] c.

(** The ownership after the owner has been removed. *)
Definition kicker_owns (E : Env) (good : Z) (changeowner : bool) (c : Channel) : Channel :=
  match players c with
  | _ :: _ =>
      if changeowner && m_ownership c then
        let newowner := good in
        let c := update_info newowner (SetModerator_flag true) c in
        SetOwner E newowner true c
      else c
  | [] => c
  end.

Definition KickOrBan (E : Env) (good : Z) (badname : list Z) (ban : bool) (c : Channel) : Channel :=
  let sec := security (FindPlayer E good) in
  if negb (IsOn c good) then SendToOne E (MakeNotMember c) good c
  else if negb (IsModerator (info c good)) && negb (IsGMAccount sec) then SendToOne E (MakeNotModerator c) good c
  else
    match FindPlayerByName E badname with
    | None => SendToOne E (MakePlayerNotFound c badname) good c
    | Some (bad, _) =>
        if negb (IsOn c bad) then SendToOne E (MakePlayerNotFound c badname) good c
        else if negb (IsGMAccount sec) && (bad =? m_ownerGUID c) && negb (good =? m_ownerGUID c) then
          SendToOne E (MakeNotOwner c) good c
        else
          let changeowner := m_ownerGUID c =? bad in
          let notify := negb (IsGMAccount sec && CONFIG_SILENTLY_GM_JOIN_TO_CHANNEL E) in
          kicker_owns E good changeowner (expel E good bad ban notify c)
    end.

Definition UnBan (E : Env) (good : Z) (badname : list Z) (c : Channel) : Channel :=
  let sec := security (FindPlayer E good) in
  if negb (IsOn c good) then SendToOne E (MakeNotMember c) good c
  else if negb (IsModerator (info c good)) && negb (IsGMAccount sec) then SendToOne E (MakeNotModerator c) good c
  else
    match FindPlayerByName E badname with
    | None => SendToOne E (MakePlayerNotFound c badname) good c
    | Some (bad, _) =>
        if negb (IsBanned c bad) then SendToOne E (MakePlayerNotFound c badname) good c
        else
          let c := set_banned (set_del bad (banned c)) c in
          let c := SendToAll E (MakePlayerUnbanned c bad good) 0 c in
          UpdateChannelInDB c
    end.

(** The null pointer of a player who is not in the world is dereferenced. *)
Definition Password (E : Env) (p : Z) (pass : list Z) (c : Channel) : option Channel :=
  match FindPlayer E p with
  | None => None
  | Some player =>
      let sec := GetSecurity player in
      Some
        (if negb (IsOn c p) then SendToOne E (MakeNotMember c) p c
         else if negb (IsModerator (info c p)) && negb (IsGMAccount sec) then SendToOne E (MakeNotModerator c) p c
         else
           let c := SetPassword pass c in
           let c := SendToAll E (MakePasswordChanged c p) 0 c in
           UpdateChannelInDB c)
  end.

Definition SetMode (E : Env) (p : Z) (p2n : list Z) (mod_ set : bool) (c : Channel) : Channel :=
  match FindPlayer E p with
  | None => c
  | Some player =>
      let sec := GetSecurity player in
      if negb (IsOn c p) then SendToOne E (MakeNotMember c) p c
      else if negb (IsModerator (info c p)) && negb (IsGMAccount sec) then SendToOne E (MakeNotModerator c) p c
      else
        match FindPlayerByName E p2n with
        | None => SendToOne E (MakePlayerNotFound c p2n) p c
        | Some (newp, newpl) =>
            if (p =? m_ownerGUID c) && (newp =? m_ownerGUID c) && mod_ then c
            else if negb (IsOn c newp) then SendToOne E (MakePlayerNotFound c p2n) p c
            else if (negb (IsGMAccount (GetSecurity player)) || negb (IsGMAccount (GetSecurity newpl)))
                    && negb (GetTeam player =? GetTeam newpl) && negb (CONFIG_ALLOW_TWO_SIDE_INTERACTION_CHANNEL E) then
              SendToOne E (MakePlayerNotFound c p2n) p c
            else if (m_ownerGUID c =? newp) && negb (m_ownerGUID c =? p) then SendToOne E (MakeNotOwner c) p c
            else if mod_ then set_moderator E newp set c
            else set_mute E newp set c
        end
  end.

(** [SetOwner] on a name. *)
Definition SetOwner_name (E : Env) (p : Z) (newname : list Z) (c : Channel) : Channel :=
  match FindPlayer E p with
  | None => c
  | Some player =>
      let sec := GetSecurity player in
      if negb (IsOn c p) then SendToOne E (MakeNotMember c) p c
      else if negb (IsGMAccount sec) && negb (p =? m_ownerGUID c) then SendToOne E (MakeNotOwner c) p c
      else
        match FindPlayerByName E newname with
        | None => SendToOne E (MakePlayerNotFound c newname) p c
        | Some (newp, newpl) =>
            if negb (IsOn c newp) then SendToOne E (MakePlayerNotFound c newname) p c
            else if negb (GetTeam newpl =? GetTeam player) && negb (CONFIG_ALLOW_TWO_SIDE_INTERACTION_CHANNEL E) then
              SendToOne E (MakePlayerNotFound c newname) p c
            else
              let c := update_info newp (SetModerator_flag true) c in
              SetOwner E newp true c
        end
  end.

Definition SendWhoOwner (E : Env) (p : Z) (c : Channel) : Channel :=
  if negb (IsOn c p) then SendToOne E (MakeNotMember c) p c else SendToOne E (MakeChannelOwner E c) p c.

Definition Announce (E : Env) (p : Z) (c : Channel) : Channel :=
  let sec := security (FindPlayer E p) in
  if negb (IsOn c p) then SendToOne E (MakeNotMember c) p c
  else if negb (IsModerator (info c p)) && negb (IsGMAccount sec) then SendToOne E (MakeNotModerator c) p c
  else
    let c := SetAnnounce (negb (m_announce c)) c in
    let c := SendToAll E (if m_announce c then MakeAnnouncementsOn c p else MakeAnnouncementsOff c p) 0 c in
    UpdateChannelInDB c.

(** The members the player [p] sees in the list. *)
Definition listed (E : Env) (p : Z) (viewer : Player) (c : Channel) : list (Z * PlayerInfo) :=
  filter (fun m =>
    match FindPlayer E m.1 with
    | Some member =>
        (negb (IsPlayerAccount (GetSecurity viewer)) || (GetSecurity member <=? CONFIG_GM_LEVEL_IN_WHO_LIST E))
        && IsVisibleGloballyFor member p
    | None => false
    end = true) (players c).
Definition List (E : Env) (p : Z) (viewer : Player) (c : Channel) : Channel :=
  if negb (IsOn c p) then SendToOne E (MakeNotMember c) p c
  else
    let l := listed E p viewer c in
    SendToOne E (mkPacket SMSG_CHANNEL_LIST
      ([U8 1; Str (m_name c); U8 (m_flags c); U32 (u32 (Z.of_nat (length l)))] ++ (l ≫= (fun m => [U64 m.1; U8 (flags m.2)])))) p c.

Definition Say (E : Env) (p : Z) (what : option (list Z)) (lang : Z) (c : Channel) : Channel :=
  match what with
  | None => c
  | Some what =>
      let lang := if CONFIG_ALLOW_TWO_SIDE_INTERACTION_CHANNEL E then LANG_UNIVERSAL else lang in
      let player := FindPlayer E p in
      if negb (IsOn c p) then SendToOne E (MakeNotMember c) p c
      else if IsMuted (info c p) then SendToOne E (MakeMuted c) p c
      else
        let messageLength := u32 (Z.of_nat (length what) + 1) in
        let data := mkPacket SMSG_MESSAGECHAT
          [U8 CHAT_MSG_CHANNEL; U32 lang; U64 p; U32 0; Str (m_name c); U64 p; U32 messageLength; Str what;
           U8 (match player with Some pl => GetChatTag pl | None => 0 end)] in
        SendToAll E data (if negb (IsModerator (info c p)) then p else 0) c
  end.

Definition Invite (E : Env) (p : Z) (newname : list Z) (c : Channel) : Channel :=
  if negb (IsOn c p) then SendToOne E (MakeNotMember c) p c
  else
    match FindPlayerByName E newname with
    | None => SendToOne E (MakePlayerNotFound c newname) p c
    | Some (newp, newpl) =>
        if negb (isGMVisible newpl) then SendToOne E (MakePlayerNotFound c newname) p c
        else if IsBanned c newp then SendToOne E (MakePlayerInviteBanned c newname) p c
        else
          match FindPlayer E p with
          | None => c
          | Some player =>
              if negb (GetTeam newpl =? GetTeam player) && negb (CONFIG_ALLOW_TWO_SIDE_INTERACTION_CHANNEL E) then
                SendToOne E (MakeInviteWrongFaction c) p c
              else if IsOn c newp then SendToOne E (MakePlayerAlreadyMember c newp) p c
              else
                let c := if negb (HasIgnore newpl (GUID_LOPART p)) then SendToOne E (MakeInvite c p) newp c else c in
                SendToOne E (MakePlayerInvited c (p_name newpl)) p c
          end
    end.

(** What [HandleGetChannelMemberCount] sends. *)
Definition member_count (c : Channel) : WorldPacket :=
  mkPacket SMSG_CHANNEL_MEMBER_COUNT [Str (m_name c); U8 (m_flags c); U32 (GetNumPlayers c)].

(** ** Commands as data *)

(** What players and the server do to a channel; the environment is the one at that
    time. *)
Inductive command :=
| CJoin (p : Z) (pass : list Z)
| CLeave (p : Z) (send : bool)
| CKickOrBan (good : Z) (badname : list Z) (ban : bool)
| CUnBan (good : Z) (badname : list Z)
| CPassword (p : Z) (pass : list Z)
| CSetMode (p : Z) (p2n : list Z) (mod_ set : bool)
| CSetOwner (p : Z) (newname : list Z)
| CSendWhoOwner (p : Z)
| CAnnounce (p : Z)
| CList (p : Z) (viewer : Player)
| CSay (p : Z) (what : option (list Z)) (lang : Z)
| CInvite (p : Z) (newname : list Z)
| CSetOwnership (ownership : bool).

Definition exec (E : Env) (cmd : command) (c : Channel) : option Channel :=
  match cmd with
  | CJoin p pass => Some (Join E p pass c)
  | CLeave p send => Some (Leave E p send c)
  | CKickOrBan good badname ban => Some (KickOrBan E good badname ban c)
  | CUnBan good badname => Some (UnBan E good badname c)
  | CPassword p pass => Password E p pass c
  | CSetMode p p2n mod_ set => Some (SetMode E p p2n mod_ set c)
  | CSetOwner p newname => Some (SetOwner_name E p newname c)
  | CSendWhoOwner p => Some (SendWhoOwner E p c)
  | CAnnounce p => Some (Announce E p c)
  | CList p viewer => Some (List E p viewer c)
  | CSay p what lang => Some (Say E p what lang c)
  | CInvite p newname => Some (Invite E p newname c)
  | CSetOwnership ownership => Some (SetOwnership ownership c)
  end.

Fixpoint run (l : list (Env * command)) (c : Channel) : option Channel :=
  match l with
  | [] => Some c
  | (E, cmd) :: l => match exec E cmd c with Some c => run l c | None => None end
  end.

(** ** Flags *)
Lemma IsOwner_bit i : IsOwner i = Z.testbit (flags i) 0.
Proof. apply (has_bit _ 0). lia. Qed.
Lemma IsModerator_bit i : IsModerator i = Z.testbit (flags i) 1.
Proof. apply (has_bit _ 1). lia. Qed.
Lemma IsMuted_bit i : IsMuted i = Z.testbit (flags i) 3.
Proof. apply (has_bit _ 3). lia. Qed.

Lemma set_bit_testbit f b i k :
  Z.testbit (flags (set_bit f b i)) k = if b then Z.testbit (flags i) k || Z.testbit f k else Z.testbit (flags i) k && negb (Z.testbit f k).
Proof. destruct b; [apply Z.lor_spec|apply Z.ldiff_spec]. Qed.

Ltac bits := rewrite ?IsOwner_bit, ?IsModerator_bit, ?IsMuted_bit;
  unfold SetOwner_flag, SetModerator_flag, SetMuted_flag; rewrite ?set_bit_testbit; cbn [Z.testbit].

Lemma IsOwner_SetOwner b i : IsOwner (SetOwner_flag b i) = b.
Proof. bits. destruct b; [apply orb_true_r|apply andb_false_r]. Qed.
Lemma IsModerator_SetOwner b i : IsModerator (SetOwner_flag b i) = IsModerator i.
Proof. bits. destruct b; [apply orb_false_r|apply andb_true_r]. Qed.
Lemma IsOwner_SetModerator b i : IsOwner (SetModerator_flag b i) = IsOwner i.
Proof. bits. destruct b; [apply orb_false_r|apply andb_true_r]. Qed.
Lemma IsModerator_SetModerator b i : IsModerator (SetModerator_flag b i) = b.
Proof. bits. destruct b; [apply orb_true_r|apply andb_false_r]. Qed.
Lemma IsOwner_SetMuted b i : IsOwner (SetMuted_flag b i) = IsOwner i.
Proof. bits. destruct b; [apply orb_false_r|apply andb_true_r]. Qed.
Lemma IsModerator_SetMuted b i : IsModerator (SetMuted_flag b i) = IsModerator i.
Proof. bits. destruct b; [apply orb_false_r|apply andb_true_r]. Qed.

Create Rewrite HintDb channel.
#[export] Hint Rewrite IsOwner_SetOwner IsModerator_SetOwner IsOwner_SetModerator IsModerator_SetModerator
  IsOwner_SetMuted IsModerator_SetMuted : channel.

(** ** The invariant *)
Definition owner_ok (players : list (Z * PlayerInfo)) (owner : Z) : Prop :=
  forall g i, map_find g players = Some i -> IsOwner i = true -> g = owner /\ g <> 0 /\ IsModerator i = true.
Definition channel_ok (c : Channel) : Prop :=
  map_sorted (players c) /\ StronglySorted Z.lt (banned c) /\ owner_ok (players c) (m_ownerGUID c).

Lemma emit_ok e c : channel_ok c -> channel_ok (emit e c).
Proof. exact id. Qed.
Lemma UpdateChannelInDB_emit c : exists e, UpdateChannelInDB c = emit e c.
Proof.
  unfold UpdateChannelInDB. destruct (m_IsSaved c); [by eexists|]. exists []. unfold emit. rewrite app_nil_r. by destruct c.
Qed.
Lemma UpdateChannelInDB_ok c : channel_ok c -> channel_ok (UpdateChannelInDB c).
Proof. destruct (UpdateChannelInDB_emit c) as [e ->]. apply emit_ok. Qed.

Lemma info_find c p i : map_find p (players c) = Some i -> info c p = i.
Proof. unfold info. by intros ->. Qed.

Lemma update_info_find p f c q :
  map_find q (players (update_info p f c)) = if q =? p then Some (f (info c p)) else map_find q (players c).
Proof.
  cbn. destruct (Z.eqb_spec q p) as [->|Hq]; [apply map_find_set|by apply map_find_set_ne].
Qed.

Lemma info_update p f c : info (update_info p f c) p = f (info c p).
Proof. apply info_find. by rewrite update_info_find, Z.eqb_refl. Qed.

(** An entry that is changed without becoming the owner's. *)
Lemma update_info_ok p f c :
  (forall i, i = info c p -> IsOwner (f i) = true -> IsOwner i = true /\ (IsModerator i = true -> IsModerator (f i) = true)) ->
  channel_ok c -> channel_ok (update_info p f c).
Proof.
  intros Hf (Hs & Hb & Ho). split; [by apply map_set_sorted|]. split; [done|]. intros g i. rewrite update_info_find.
  destruct (Z.eqb_spec g p) as [->|]; [|by apply Ho]. intros [= <-] Hi. apply Hf in Hi as [Hi Hm]; [|done].
  unfold info in *. destruct (map_find p (players c)) as [i|] eqn:E; cbn [default] in *; [|done].
  destruct (Ho p i E Hi) as (-> & ? & ?). auto.
Qed.

Lemma make_moderator_ok p c : channel_ok c -> channel_ok (update_info p (SetModerator_flag true) c).
Proof. apply update_info_ok. intros i _. autorewrite with channel. auto. Qed.

Lemma SetOwner_ok E guid exclaim c : channel_ok c -> channel_ok (SetOwner E guid exclaim c).
Proof.
  intros Hc. unfold SetOwner.
  set (c1 := if m_ownerGUID c =? 0 then c else _).
  assert (map_sorted (players c1) /\ StronglySorted Z.lt (banned c1)
    /\ forall g i, map_find g (players c1) = Some i -> IsOwner i = false) as (Hs & Hb & Hn).
  { destruct Hc as (Hs & Hb & Ho). unfold c1. destruct (Z.eqb_spec (m_ownerGUID c) 0) as [E0|E0].
    - split; [done|]. split; [done|]. intros g i Hg. destruct (IsOwner i) eqn:Ei; [|done].
      destruct (Ho g i Hg Ei) as (? & ? & _). congruence.
    - unfold IsOn. destruct (map_find (m_ownerGUID c) (players c)) as [j|] eqn:Ej.
      + split; [by apply map_set_sorted|]. split; [done|]. intros g i. rewrite update_info_find.
        destruct (Z.eqb_spec g (m_ownerGUID c)) as [->|Hg]; [intros [= <-]; apply IsOwner_SetOwner|]. intros Hf.
        destruct (IsOwner i) eqn:Ei; [|done]. destruct (Ho g i Hf Ei). congruence.
      + split; [done|]. split; [done|]. intros g i Hg. destruct (IsOwner i) eqn:Ei; [|done].
        destruct (Ho g i Hg Ei) as (-> & _). congruence. }
  clearbody c1. destruct (Z.eqb_spec guid 0) as [E0|E0].
  { split; [done|]. split; [done|]. intros g i Hg Hi. rewrite (Hn g i Hg) in Hi. done. }
  set (c2 := update_info guid (SetOwner_flag true) _).
  assert (channel_ok c2) as H2.
  { split; [by do 2 apply map_set_sorted|]. split; [done|]. intros g i. unfold c2. rewrite !update_info_find.
    destruct (Z.eqb_spec g guid) as [->|Hg].
    - intros [= <-] _. split; [done|]. split; [done|]. rewrite IsModerator_SetOwner.
      rewrite (info_find _ _ (SetModerator_flag true (info (set_ownerGUID guid c1) guid))); [apply IsModerator_SetModerator|].
      by rewrite update_info_find, Z.eqb_refl.
    - intros Hf Hi. rewrite (Hn g i Hf) in Hi. done. }
  clearbody c2. apply UpdateChannelInDB_ok. destruct exclaim; do 2 try apply emit_ok; done.
Qed.

Lemma SendToOne_ok E d p c : channel_ok c -> channel_ok (SendToOne E d p c).
Proof. exact id. Qed.
Lemma SendToAll_ok E d p c : channel_ok c -> channel_ok (SendToAll E d p c).
Proof. exact id. Qed.
Lemma SendToAllButOne_ok E d p c : channel_ok c -> channel_ok (SendToAllButOne E d p c).
Proof. exact id. Qed.
Lemma erase_ok p c : channel_ok c -> channel_ok (set_players (map_erase p (players c)) c).
Proof.
  intros (Hs & Hb & Ho). split; [by apply map_erase_sorted|]. split; [done|]. intros g i. cbn. intros Hf.
  destruct (Z.eq_dec g p) as [->|Hg]; [by rewrite map_find_erase in Hf|]. rewrite map_find_erase_ne in Hf by done. by apply Ho.
Qed.
Lemma insert_ok p c : channel_ok c -> channel_ok (set_players (map_set p (mkInfo p MEMBER_FLAG_NONE) (players c)) c).
Proof.
  intros (Hs & Hb & Ho). split; [by apply map_set_sorted|]. split; [done|]. intros g i. cbn. intros Hf.
  destruct (Z.eq_dec g p) as [->|Hg]; [rewrite map_find_set in Hf; by injection Hf as <-|].
  rewrite map_find_set_ne in Hf by done. by apply Ho.
Qed.
Lemma ban_ok p c : channel_ok c -> channel_ok (set_banned (set_add p (banned c)) c).
Proof. intros (Hs & Hb & Ho). split; [done|]. split; [by apply set_add_sorted|done]. Qed.
Lemma unban_ok p c : channel_ok c -> channel_ok (set_banned (set_del p (banned c)) c).
Proof. intros (Hs & Hb & Ho). split; [done|]. split; [by apply set_del_sorted|done]. Qed.
Lemma keep_info_ok p c : channel_ok c -> channel_ok (update_info p (fun i => i) c).
Proof. apply update_info_ok. auto. Qed.
Lemma muted_ok p b c : channel_ok c -> channel_ok (update_info p (SetMuted_flag b) c).
Proof. apply update_info_ok. intros i _. autorewrite with channel. auto. Qed.

Create HintDb channel.
#[export] Hint Resolve emit_ok UpdateChannelInDB_ok make_moderator_ok SetOwner_ok SendToOne_ok SendToAll_ok SendToAllButOne_ok
  erase_ok insert_ok ban_ok unban_ok keep_info_ok muted_ok : channel.

(** Splits the branches of an operation and shows that each keeps the invariant. *)
Ltac each_branch := repeat match goal with |- context [match ?x with _ => _ end] => destruct x end; eauto 20 with channel.

(** Passes the checks at the start of a command. *)
Ltac guards := repeat match goal with |- context [if ?b then _ else _] => destruct b eqn:?; [by eauto with channel|] end.

Lemma LeaveNotify_ok E p c : channel_ok c -> channel_ok (LeaveNotify E p c).
Proof. intros. unfold LeaveNotify. each_branch. Qed.
Lemma JoinNotify_ok E p c : channel_ok c -> channel_ok (JoinNotify E p c).
Proof. intros. unfold JoinNotify. each_branch. Qed.
#[export] Hint Resolve LeaveNotify_ok JoinNotify_ok : channel.

Lemma enter_ok E p pl c : channel_ok c -> channel_ok (enter E p pl c).
Proof. intros. unfold enter. each_branch. Qed.
Lemma first_owner_ok E p c : channel_ok c -> channel_ok (first_owner E p c).
Proof. intros. unfold first_owner, UpdateChannelUseageInDB. each_branch. Qed.
Lemma depart_ok E p send c : channel_ok c -> channel_ok (depart E p send c).
Proof. intros. unfold depart. each_branch. Qed.
Lemma next_owner_ok E b c : channel_ok c -> channel_ok (next_owner E b c).
Proof. intros. unfold next_owner, UpdateChannelUseageInDB. each_branch. Qed.
Lemma expel_ok E good bad ban notify c : channel_ok c -> channel_ok (expel E good bad ban notify c).
Proof. intros. unfold expel. each_branch. Qed.
Lemma kicker_owns_ok E good b c : channel_ok c -> channel_ok (kicker_owns E good b c).
Proof. intros. unfold kicker_owns. each_branch. Qed.
Lemma set_mute_ok E p b c : channel_ok c -> channel_ok (set_mute E p b c).
Proof. intros. unfold set_mute. each_branch. Qed.

Lemma set_moderator_ok E p b c :
  b = true \/ IsOwner (info c p) = false -> channel_ok c -> channel_ok (set_moderator E p b c).
Proof.
  intros Hb Hc. unfold set_moderator. case_match; [by apply keep_info_ok|]. cbv zeta. apply SendToAll_ok.
  apply update_info_ok; [|by apply keep_info_ok]. intros i ->. rewrite info_update.
  autorewrite with channel. intros Hi. split; [done|]. destruct Hb as [->|Hb]; [done|congruence].
Qed.
#[export] Hint Resolve enter_ok first_owner_ok depart_ok next_owner_ok expel_ok kicker_owns_ok set_mute_ok : channel.

(** The owner's entry is the only one with the owner's flag. *)
Lemma not_owner_flag c p : channel_ok c -> p <> m_ownerGUID c -> IsOwner (info c p) = false.
Proof.
  intros (_ & _ & Ho) Hp. unfold info. destruct (map_find p (players c)) as [i|] eqn:E; [|done].
  destruct (IsOwner i) eqn:Ei; [|by rewrite <- Ei]. by destruct (Ho p i E Ei).
Qed.

Lemma SetMode_ok E p p2n mod_ set c : channel_ok c -> channel_ok (SetMode E p p2n mod_ set c).
Proof.
  intros Hc. unfold SetMode. destruct (FindPlayer E p) as [pl|]; [|done]. cbv zeta.
  guards. destruct (FindPlayerByName E p2n) as [[newp npl]|]; [|by eauto with channel].
  destruct ((p =? m_ownerGUID c) && (newp =? m_ownerGUID c) && mod_) eqn:E1; [done|].
  guards. destruct mod_; [|by eauto with channel].
  apply set_moderator_ok; [|done]. right. apply not_owner_flag; [done|]. intros ->.
  rewrite Z.eqb_refl in *. rewrite !andb_true_r, (Z.eqb_sym p) in E1. by rewrite E1 in *.
Qed.

(** The operations, by the branches. *)
Lemma exec_ok E cmd c c' : channel_ok c -> exec E cmd c = Some c' -> channel_ok c'.
Proof.
  intros Hc. destruct cmd; cbn [exec]; [..|intros [= <-]; exact Hc];
    try (intros [= <-]; unfold Join, Leave, KickOrBan, UnBan, SetOwner_name, SendWhoOwner, Announce, List, Say, Invite,
           UpdateChannelUseageInDB; by each_branch).
  - unfold Password. intros H. destruct (FindPlayer E p); [|done]. injection H as <-. by each_branch.
  - intros [= <-]. by apply SetMode_ok.
Qed.

Lemma load_bans_sorted l b : StronglySorted Z.lt b -> StronglySorted Z.lt (load_bans l b).
Proof.
  unfold load_bans. generalize (Tokenizer l 32). intros ts. revert b. induction ts as [|t ts IH]; intros b Hb; [done|].
  cbn [foldl]. apply IH. cbv zeta. case_match; [done|by apply set_add_sorted].
Qed.

Lemma new_channel_ok E row name id team : channel_ok (new_channel E row name id team).
Proof.
  unfold new_channel.
  assert (owner_ok [] 0) as Ho by done. assert (StronglySorted Z.lt []) as Hs by constructor.
  repeat case_match; (split; [apply Hs|split; [|apply Ho]]); try apply Hs. by apply load_bans_sorted.
Qed.

Lemma run_ok l c c' : channel_ok c -> run l c = Some c' -> channel_ok c'.
Proof.
  revert c. induction l as [|[E cmd] l IH]; intros c Hc; cbn [run]; [by intros [= <-]|].
  destruct (exec E cmd c) as [c1|] eqn:E1; [|done]. apply IH. by eapply exec_ok.
Qed.

(** C14: whatever commands are given, at every time at most one member of a channel
    has the owner's flag: the recorded owner, who is a moderator then. *)
Theorem one_owner E row name id team l c g i :
  run l (new_channel E row name id team) = Some c ->
  map_find g (players c) = Some i -> IsOwner i = true -> g = m_ownerGUID c /\ g <> 0 /\ IsModerator i = true.
Proof. intros Hr. apply run_ok in Hr as (_ & _ & Ho); [|apply new_channel_ok]. apply Ho. Qed.

(** ** Who may do what *)

(** The player a command comes from; [CSetOwnership] is the server's. *)
Definition issuer (cmd : command) : option Z :=
  match cmd with
  | CJoin p _ | CLeave p _ | CKickOrBan p _ _ | CUnBan p _ | CPassword p _ | CSetMode p _ _ _ | CSetOwner p _ | CSendWhoOwner p
  | CAnnounce p | CList p _ | CSay p _ _ | CInvite p _ => Some p
  | CSetOwnership _ => None
  end.

Definition is_gm (E : Env) (p : Z) : bool := IsGMAccount (security (FindPlayer E p)).
Definition authorised (E : Env) (cmd : command) (c : Channel) : bool :=
  match cmd with
  | CKickOrBan p _ _ | CUnBan p _ | CPassword p _ | CSetMode p _ _ _ | CAnnounce p =>
      IsOn c p && (IsModerator (info c p) || is_gm E p)
  | CSetOwner p _ => IsOn c p && ((p =? m_ownerGUID c) || is_gm E p)
  | _ => true
  end.

(** Nothing but a packet to the player. *)
Definition refused (E : Env) (p : Z) (c c' : Channel) : Prop := c' = c \/ exists d, c' = emit (packet_for E d p) c.
Lemma refused_send E d p c : refused E p c (SendToOne E d p c).
Proof. right. by exists d. Qed.
#[export] Hint Resolve refused_send : channel.

(** A command that kicks, bans, lifts a ban, sets the password, the mode of a
    member or the announcements does nothing, except for telling the player so,
    unless the player is on the channel and a moderator of it or a GM; one that
    names the owner, unless the player is on it and its owner or a GM. *)
Theorem only_moderators E cmd p c c' :
  issuer cmd = Some p -> authorised E cmd c = false -> exec E cmd c = Some c' -> refused E p c c'.
Proof.
  unfold authorised, is_gm, security. intros Hi Ha He.
  assert (forall b m g : bool, b && (m || g) = false -> negb b = false -> negb m && negb g = false -> False) as Hno by (by intros [] [] []).
  destruct cmd; cbn in Hi; try injection Hi as <-; try done; cbn [exec] in He.
  - injection He as <-. unfold KickOrBan, security. cbv zeta. destruct (negb (IsOn c _)) eqn:E1; [eauto with channel|].
    destruct (negb (IsModerator _) && _) eqn:E2; [eauto with channel|]. destruct (Hno _ _ _ Ha E1 E2).
  - injection He as <-. unfold UnBan, security. cbv zeta. destruct (negb (IsOn c _)) eqn:E1; [eauto with channel|].
    destruct (negb (IsModerator _) && _) eqn:E2; [eauto with channel|]. destruct (Hno _ _ _ Ha E1 E2).
  - unfold Password in He. destruct (FindPlayer E _) as [pl|]; [|done]. injection He as <-. destruct (negb (IsOn c _)) eqn:E1; [eauto with channel|].
    destruct (negb (IsModerator _) && _) eqn:E2; [eauto with channel|]. destruct (Hno _ _ _ Ha E1 E2).
  - injection He as <-. unfold SetMode. destruct (FindPlayer E _) as [pl|]; [|by left]. cbv zeta. destruct (negb (IsOn c _)) eqn:E1; [eauto with channel|].
    destruct (negb (IsModerator _) && _) eqn:E2; [eauto with channel|]. destruct (Hno _ _ _ Ha E1 E2).
  - injection He as <-. unfold SetOwner_name. destruct (FindPlayer E _) as [pl|]; [|by left]. cbv zeta. destruct (negb (IsOn c _)) eqn:E1; [eauto with channel|].
    destruct (negb (IsGMAccount _) && _) eqn:E2; [eauto with channel|]. rewrite andb_comm in E2. destruct (Hno _ _ _ Ha E1 E2).
  - injection He as <-. unfold Announce, security. cbv zeta. destruct (negb (IsOn c _)) eqn:E1; [eauto with channel|].
    destruct (negb (IsModerator _) && _) eqn:E2; [eauto with channel|]. destruct (Hno _ _ _ Ha E1 E2).
Qed.

(** *** The owner *)

(** What the owner keeps: the entry, the ownership and not being banned. *)
Definition owner_keeps (c c' : Channel) : Prop :=
  m_ownerGUID c' = m_ownerGUID c
  /\ map_find (m_ownerGUID c) (players c') = map_find (m_ownerGUID c) (players c)
  /\ (m_ownerGUID c ∈ banned c' -> m_ownerGUID c ∈ banned c).

Lemma owner_keeps_refl c : owner_keeps c c.
Proof. done. Qed.
Lemma owner_keeps_emit c e c' : owner_keeps c c' -> owner_keeps c (emit e c').
Proof. exact id. Qed.
Lemma owner_keeps_update_db c c' : owner_keeps c c' -> owner_keeps c (UpdateChannelInDB c').
Proof. destruct (UpdateChannelInDB_emit c') as [e ->]. exact id. Qed.
Lemma owner_keeps_update c c' p f : owner_keeps c c' -> p <> m_ownerGUID c -> owner_keeps c (update_info p f c').
Proof.
  intros (H1 & H2 & H3) Hp. split; [done|]. split; [|done]. rewrite update_info_find.
  rewrite (proj2 (Z.eqb_neq (m_ownerGUID c) p)); [done|congruence].
Qed.
Lemma owner_keeps_erase c c' p : owner_keeps c c' -> p <> m_ownerGUID c -> owner_keeps c (set_players (map_erase p (players c')) c').
Proof. intros (H1 & H2 & H3) Hp. split; [done|]. split; [|done]. cbn. by rewrite map_find_erase_ne. Qed.
Lemma owner_keeps_insert c c' p i : owner_keeps c c' -> p <> m_ownerGUID c -> owner_keeps c (set_players (map_set p i (players c')) c').
Proof. intros (H1 & H2 & H3) Hp. split; [done|]. split; [|done]. cbn. by rewrite map_find_set_ne. Qed.
Lemma owner_keeps_ban c c' p : owner_keeps c c' -> p <> m_ownerGUID c -> owner_keeps c (set_banned (set_add p (banned c')) c').
Proof. intros (H1 & H2 & H3) Hp. split; [done|]. split; [done|]. cbn. rewrite elem_of_set_add. intros [E|H]; [congruence|by apply H3]. Qed.
Lemma owner_keeps_unban c c' p : owner_keeps c c' -> owner_keeps c (set_banned (set_del p (banned c')) c').
Proof. intros (H1 & H2 & H3). split; [done|]. split; [done|]. cbn. rewrite elem_of_set_del. intros []; auto. Qed.
Lemma owner_keeps_send_one c E d p c' : owner_keeps c c' -> owner_keeps c (SendToOne E d p c').
Proof. exact id. Qed.
Lemma owner_keeps_send_all c E d p c' : owner_keeps c c' -> owner_keeps c (SendToAll E d p c').
Proof. exact id. Qed.
Lemma owner_keeps_send_all_but c E d p c' : owner_keeps c c' -> owner_keeps c (SendToAllButOne E d p c').
Proof. exact id. Qed.
Lemma owner_keeps_password c c' pass : owner_keeps c c' -> owner_keeps c (SetPassword pass c').
Proof. exact id. Qed.
Lemma owner_keeps_announce c c' b : owner_keeps c c' -> owner_keeps c (SetAnnounce b c').
Proof. exact id. Qed.
#[export] Hint Resolve owner_keeps_refl owner_keeps_emit owner_keeps_update_db owner_keeps_update owner_keeps_erase owner_keeps_insert
  owner_keeps_ban owner_keeps_unban owner_keeps_send_one owner_keeps_send_all owner_keeps_send_all_but owner_keeps_password
  owner_keeps_announce : channel.

Lemma enter_keeps E p pl c : p <> m_ownerGUID c -> owner_keeps c (enter E p pl c).
Proof. intros. unfold enter, JoinNotify. each_branch. Qed.
Lemma depart_keeps E p send c : p <> m_ownerGUID c -> owner_keeps c (depart E p send c).
Proof. intros. unfold depart, LeaveNotify. each_branch. Qed.
Lemma expel_keeps E good bad ban notify c : bad <> m_ownerGUID c -> owner_keeps c (expel E good bad ban notify c).
Proof. intros. unfold expel. each_branch. Qed.
Lemma set_moderator_keeps E p b c : p <> m_ownerGUID c -> owner_keeps c (set_moderator E p b c).
Proof. intros. unfold set_moderator. each_branch. Qed.
Lemma set_mute_keeps E p b c : p <> m_ownerGUID c -> owner_keeps c (set_mute E p b c).
Proof. intros. unfold set_mute. each_branch. Qed.
Lemma first_owner_keeps E p c c' : m_ownerGUID c <> 0 -> owner_keeps c c' -> owner_keeps c (first_owner E p c').
Proof.
  intros H0 Hk. unfold first_owner, UpdateChannelUseageInDB. destruct (IsConstant c'); [done|]. cbv zeta.
  assert (m_ownerGUID c' = m_ownerGUID c) as E1 by apply Hk.
  destruct (players c'); cbn [m_ownerGUID emit]; rewrite E1, (proj2 (Z.eqb_neq _ _) H0); exact Hk.
Qed.
Lemma next_owner_keeps E c c' : owner_keeps c c' -> owner_keeps c (next_owner E false c').
Proof. intros. unfold next_owner, UpdateChannelUseageInDB. cbn [andb]. each_branch. Qed.
Lemma kicker_owns_keeps E good c c' : owner_keeps c c' -> owner_keeps c (kicker_owns E good false c').
Proof. intros. unfold kicker_owns. cbn [andb]. each_branch. Qed.
#[export] Hint Resolve enter_keeps depart_keeps expel_keeps set_moderator_keeps set_mute_keeps first_owner_keeps next_owner_keeps
  kicker_owns_keeps : channel.

(** C17: a player who is neither the owner nor a GM cannot take the channel from its
    owner: whatever command the player gives, the owner stays the owner, keeps the
    entry with its flags, and is not banned by it. *)
Theorem owner_protected E cmd p c c' :
  channel_ok c -> m_ownerGUID c <> 0 -> issuer cmd = Some p -> p <> m_ownerGUID c -> is_gm E p = false ->
  exec E cmd c = Some c' -> owner_keeps c c'.
Proof.
  intros Hok H0 Hi Hp Hgm He. unfold is_gm, security in Hgm.
  destruct cmd; cbn in Hi; try injection Hi as ->; try done; cbn [exec] in He; try injection He as <-.
  - unfold Join. each_branch.
  - unfold Leave. rewrite (not_owner_flag c p) by done. each_branch.
  - unfold KickOrBan, security. rewrite Hgm. cbv zeta. guards.
    destruct (FindPlayerByName E _) as [[bad pl]|]; [|by eauto with channel]. guards.
        assert (bad <> m_ownerGUID c) as E1.
    { intros ->. rewrite Z.eqb_refl, (proj2 (Z.eqb_neq _ _) Hp) in *. done. }
    rewrite (proj2 (Z.eqb_neq (m_ownerGUID c) bad)) by congruence. eauto with channel.
  - unfold UnBan. each_branch.
  - unfold Password in He. destruct (FindPlayer E p); [|done]. injection He as <-. each_branch.
  - unfold SetMode. destruct (FindPlayer E p) as [pl|]; [|done]. cbv zeta. guards.
    destruct (FindPlayerByName E _) as [[newp npl]|]; [|by eauto with channel]. guards.
    assert (newp <> m_ownerGUID c).
    { intros ->. rewrite Z.eqb_refl, (proj2 (Z.eqb_neq (m_ownerGUID c) p)) in * by congruence. done. }
    each_branch.
  - unfold SetOwner_name. destruct (FindPlayer E p) as [pl|]; [|done]. cbv zeta. guards.
    by rewrite Hgm, (proj2 (Z.eqb_neq _ _) Hp) in *.
  - unfold SendWhoOwner. each_branch.
  - unfold Announce. each_branch.
  - unfold List. each_branch.
  - unfold Say. each_branch.
  - unfold Invite. each_branch.
Qed.

(** ** Joining *)

(** The parts of the state that sending does not change. *)
Definition core (c : Channel) :=
  (players c, banned c, m_announce c, m_ownership c, m_name c, m_password c, m_flags c, m_channelId c, m_ownerGUID c, m_Team c).

Ltac by_branches := repeat match goal with |- context [match ?x with _ => _ end] => destruct x end; reflexivity.

Lemma core_emit e c : core (emit e c) = core c.
Proof. done. Qed.
Lemma core_UpdateChannelInDB c : core (UpdateChannelInDB c) = core c.
Proof. destruct (UpdateChannelInDB_emit c) as [e ->]. done. Qed.
Lemma core_enter E p pl c : core (enter E p pl c) = core (set_players (map_set p (mkInfo p MEMBER_FLAG_NONE) (players c)) c).
Proof. unfold enter, JoinNotify. by_branches. Qed.
Lemma core_depart E p send c : core (depart E p send c) = core (set_players (map_erase p (players c)) c).
Proof. unfold depart, LeaveNotify. by_branches. Qed.

(** The channel after a change of the owner. *)
Lemma core_SetOwner E guid exclaim c :
  guid <> 0 ->
  core (SetOwner E guid exclaim c) =
    core (update_info guid (fun i => SetOwner_flag true (SetModerator_flag true i)) (set_ownerGUID guid
      (if (m_ownerGUID c =? 0) || negb (IsOn c (m_ownerGUID c)) then c else update_info (m_ownerGUID c) (SetOwner_flag false) c))).
Proof.
  intros H0. unfold SetOwner. cbv zeta. rewrite (proj2 (Z.eqb_neq _ _) H0). rewrite core_UpdateChannelInDB.
  assert (forall c, core (update_info guid (SetOwner_flag true) (update_info guid (SetModerator_flag true) c))
    = core (update_info guid (fun i => SetOwner_flag true (SetModerator_flag true i)) c)) as Hu.
  { intros c1. unfold update_info at 1 3. rewrite info_update. unfold core. cbn. by rewrite map_set_set. }
  destruct (m_ownerGUID c =? 0), (IsOn c (m_ownerGUID c)), exclaim; cbn [orb negb]; apply Hu.
Qed.

Lemma channel_core_players c c' : core c = core c' -> players c = players c'.
Proof. unfold core. congruence. Qed.
Lemma core_owner c c' : core c = core c' -> m_ownerGUID c = m_ownerGUID c'.
Proof. unfold core. congruence. Qed.
Lemma core_ownership c c' : core c = core c' -> m_ownership c = m_ownership c'.
Proof. unfold core. congruence. Qed.
Lemma core_channelId c c' : core c = core c' -> m_channelId c = m_channelId c'.
Proof. unfold core. congruence. Qed.
Lemma core_banned c c' : core c = core c' -> banned c = banned c'.
Proof. unfold core. congruence. Qed.
Lemma core_find c c' g : core c = core c' -> map_find g (players c) = map_find g (players c').
Proof. intros H. by rewrite (channel_core_players _ _ H). Qed.
Lemma core_update p f c c' : core c = core c' -> core (update_info p f c) = core (update_info p f c').
Proof. intros H. unfold update_info, info. rewrite (channel_core_players _ _ H). unfold core in *. cbn. congruence. Qed.

(** The owner-to-be is made owner and moderator. *)
Definition crown (i : PlayerInfo) : PlayerInfo := SetOwner_flag true (SetModerator_flag true i).
Lemma SetModerator_twice i : SetModerator_flag true (SetModerator_flag true i) = SetModerator_flag true i.
Proof. unfold SetModerator_flag, set_bit. cbn. by rewrite <- Z.lor_assoc, Z.lor_diag. Qed.
Lemma crown_owner i : IsOwner (crown i) = true /\ IsModerator (crown i) = true.
Proof. unfold crown. by autorewrite with channel. Qed.

(** A channel whose owner is nobody on it gets [guid] as its owner. *)
Lemma SetOwner_vacant E guid exclaim c g :
  guid <> 0 -> m_ownerGUID c = 0 \/ IsOn c (m_ownerGUID c) = false ->
  m_ownerGUID (SetOwner E guid exclaim c) = guid
  /\ map_find g (players (SetOwner E guid exclaim c)) = if g =? guid then Some (crown (info c guid)) else map_find g (players c).
Proof.
  intros H0 Hv. pose proof (core_SetOwner E guid exclaim c H0) as Hc.
  assert ((m_ownerGUID c =? 0) || negb (IsOn c (m_ownerGUID c)) = true) as Ev.
  { destruct Hv as [->| ->]; [done|]. apply orb_true_r. }
  rewrite Ev in Hc. split; [by rewrite (core_owner _ _ Hc)|]. rewrite (core_find _ _ _ Hc), update_info_find. done.
Qed.

(** Whom [Join] lets in. *)
Definition admitted (E : Env) (p : Z) (pass : list Z) (c : Channel) : bool :=
  negb (IsBanned c p)
  && ((Z.of_nat (length (m_password c)) =? 0) || bool_decide (pass = m_password c))
  && negb (match FindPlayer E p with
           | Some pl => IsLFG c && CONFIG_RESTRICTED_LFG_CHANNEL E && IsPlayerAccount (GetSecurity pl) && GetGroup pl
           | None => false
           end).
(** When the newcomer becomes the owner. *)
Definition unowned (c : Channel) : bool := negb (IsConstant c) && (m_ownerGUID c =? 0) && m_ownership c.

Lemma find_first_owner E p c c' g :
  p <> 0 -> core c' = core (set_players (map_set p (mkInfo p MEMBER_FLAG_NONE) (players c)) c) ->
  m_ownerGUID (first_owner E p c') = (if unowned c then p else m_ownerGUID c)
  /\ map_find g (players (first_owner E p c')) =
       if g =? p then Some (mkInfo p (if unowned c then Z.lor MEMBER_FLAG_OWNER MEMBER_FLAG_MODERATOR else MEMBER_FLAG_NONE))
       else map_find g (players c).
Proof.
  intros Hp Hc. pose proof (core_owner _ _ Hc) as Ho. pose proof (core_ownership _ _ Hc) as Hw. pose proof (core_channelId _ _ Hc) as Hi.
  assert (forall g, map_find g (players c') = if g =? p then Some (mkInfo p MEMBER_FLAG_NONE) else map_find g (players c)) as Hf.
  { intros x. rewrite (core_find _ _ _ Hc). cbn. destruct (Z.eqb_spec x p) as [->|]; [apply map_find_set|by apply map_find_set_ne]. }
  cbn in Ho, Hw, Hi. unfold first_owner, unowned, IsConstant. rewrite Hi. destruct (m_channelId c =? 0); cbn [negb andb]; [|by rewrite Hf].
  cbv zeta. set (c2 := match players c' with [] => c' | _ => _ end).
  assert (core c2 = core c') as H2 by (unfold c2, UpdateChannelUseageInDB; by destruct (players c')).
  rewrite (core_owner _ _ H2), (core_ownership _ _ H2), Ho, Hw.
  destruct ((m_ownerGUID c =? 0) && m_ownership c) eqn:Eu.
  2:{ by rewrite (core_owner _ _ H2), (core_find _ _ _ H2), Ho, Hf. }
  apply andb_true_iff in Eu as [Eu _]. apply Z.eqb_eq in Eu.
  destruct (SetOwner_vacant E p (1 <? Z.of_nat (length (players c2))) c2 g Hp) as [H3 H4].
  { left. rewrite (core_owner _ _ H2). congruence. }
  assert (info c2 p = mkInfo p MEMBER_FLAG_NONE) as E2 by (apply info_find; by rewrite (core_find _ _ _ H2), Hf, Z.eqb_refl).
  split; [exact H3|]. rewrite update_info_find. destruct (Z.eqb_spec g p) as [->|Hg].
  - unfold info. destruct (SetOwner_vacant E p (1 <? Z.of_nat (length (players c2))) c2 p Hp) as [_ H5].
    { left. rewrite (core_owner _ _ H2). congruence. }
    rewrite H5, Z.eqb_refl, E2. done.
  - rewrite H4, (core_find _ _ _ H2), Hf. by rewrite (proj2 (Z.eqb_neq _ _) Hg).
Qed.

(** A player who is not on the channel gets on it exactly if neither banned nor
    without the password nor kept out of a channel for seekers of groups; then the
    entry has no flags, unless the channel hands out ownership and has no owner yet,
    when the newcomer becomes owner and moderator. All others keep their entries. A
    player who is not let in only gets a packet. *)
Theorem Join_admits E p pass c :
  p <> 0 ->
  let c' := Join E p pass c in
  if negb (IsOn c p) && admitted E p pass c then
    m_ownerGUID c' = (if unowned c then p else m_ownerGUID c)
    /\ forall g, map_find g (players c') =
         if g =? p then Some (mkInfo p (if unowned c then Z.lor MEMBER_FLAG_OWNER MEMBER_FLAG_MODERATOR else MEMBER_FLAG_NONE))
         else map_find g (players c)
  else refused E p c c'.
Proof.
  intros Hp. cbv zeta. unfold Join, admitted, IsLFG. destruct (IsOn c p); cbn [negb andb].
  { destruct (IsConstant c); [by left|]. apply refused_send. }
  destruct (IsBanned c p); cbn [negb andb]; [apply refused_send|].
  assert ((0 <? Z.of_nat (length (m_password c))) = negb (Z.of_nat (length (m_password c)) =? 0)) as ->.
  { destruct (m_password c); [done|]. cbn [length]. destruct (Z.eqb_spec (Z.of_nat (S (length l))) 0); [lia|]. apply Z.ltb_lt. lia. }
  destruct (Z.of_nat (length (m_password c)) =? 0), (bool_decide (pass = m_password c)); cbn [negb andb orb];
    try apply refused_send; cbv zeta;
    (destruct (FindPlayer E p) as [pl|]; [|split; [|intros g]; apply find_first_owner; try done; apply core_enter]);
    (destruct (has (m_flags c) CHANNEL_FLAG_LFG && _ && _ && _); cbn [negb];
     [apply refused_send|split; [|intros g]; apply find_first_owner; try done; apply core_enter]).
Unshelve. all: exact 0.
Qed.

(** ** Leaving and being removed *)

(** The entries say whose they are, but for one made by indexing. *)
Definition entries_ok (c : Channel) : Prop := forall g i, map_find g (players c) = Some i -> player_of i = g.

(** The member with the least guid. *)
Definition first_member (c : Channel) : option Z := match players c with [] => None | (g, _) :: _ => Some g end.

Lemma first_member_find c g : first_member c = Some g -> exists i, map_find g (players c) = Some i /\ players c <> [].
Proof. unfold first_member. destruct (players c) as [|[k i] l]; [done|]. intros [= <-]. exists i. cbn. by rewrite Z.eqb_refl. Qed.

(** A member who leaves is off the channel; if it was the owner of a custom
    channel that hands out ownership and somebody is left, the member with the least
    guid becomes owner and moderator; all others keep their entries. *)
Theorem Leave_succession E p send c :
  channel_ok c -> entries_ok c -> ~ IsOn c 0 -> IsOn c p = true ->
  let rest := map_erase p (players c) in
  let heir := first_member (set_players rest c) in
  let passes := IsOwner (info c p) && negb (IsConstant c) && m_ownership c in
  m_ownerGUID (Leave E p send c) = (match heir with Some h => if passes then h else m_ownerGUID c | None => m_ownerGUID c end)
  /\ forall g, map_find g (players (Leave E p send c)) =
       match heir with
       | Some h => if passes && (g =? h) then crown <$> map_find g rest else map_find g rest
       | None => None
       end.
Proof.
  intros Hok He H0 Hp. cbv zeta. unfold Leave. rewrite Hp. cbn [negb]. set (b := IsOwner (info c p)).
  pose proof (core_depart E p send c) as Hc. pose proof (core_owner _ _ Hc) as Ho. pose proof (core_ownership _ _ Hc) as Hw.
  pose proof (core_channelId _ _ Hc) as Hi. pose proof (channel_core_players _ _ Hc) as Hpl.
  cbn [set_players m_ownerGUID m_ownership m_channelId players] in Ho, Hw, Hi, Hpl.
  unfold next_owner, IsConstant, first_member. cbn [set_players players]. rewrite Hi. unfold UpdateChannelUseageInDB.
  destruct (m_channelId c =? 0); cbn [negb andb].
  2:{ rewrite andb_false_r. cbn [andb]. rewrite Ho, Hpl. destruct (map_erase p (players c)) as [|[h i] l]; done. }
  rewrite andb_true_r. cbn [emit players m_ownership]. rewrite Hw, Hpl.
  destruct (map_erase p (players c)) as [|[h i] l] eqn:El; [cbn [emit m_ownerGUID players]; by rewrite Ho, Hpl|].
  destruct (b && m_ownership c) eqn:Eb; cbn [andb]; [|cbn [emit m_ownerGUID players]; rewrite Ho, Hpl; done].
  assert (map_find h (players c) = Some i) as Hh.
  { assert (map_find h (map_erase p (players c)) = Some i) as Hh by (rewrite El; cbn; by rewrite Z.eqb_refl).
    destruct (Z.eq_dec h p) as [->|]; [by rewrite map_find_erase in Hh|by rewrite map_find_erase_ne in Hh]. }
  rewrite (He h i Hh). set (c1 := update_info h (SetModerator_flag true) _).
  assert (h <> 0) as Hh0 by (intros ->; apply H0; unfold IsOn; by rewrite Hh).
  assert (m_ownerGUID c1 = p) as E1.
  { cbn. rewrite Ho. symmetry. destruct (Z.eq_dec p (m_ownerGUID c)); [done|]. apply andb_true_iff in Eb as [Eb _].
    unfold b in Eb. by rewrite not_owner_flag in Eb. }
  assert (forall g, map_find g (players c1) = if g =? h then Some (SetModerator_flag true i) else map_find g ((h, i) :: l)) as Hf.
  { intros g. unfold c1. rewrite update_info_find. unfold info. cbn [emit players]. rewrite Hpl. cbn [map_find].
    rewrite Z.eqb_refl. by destruct (Z.eqb_spec g h). }
  assert (m_ownerGUID c1 = 0 \/ IsOn c1 (m_ownerGUID c1) = false) as Hv.
  { right. rewrite E1. unfold IsOn. rewrite Hf. rewrite <- El, map_find_erase.
    destruct (Z.eqb_spec p h) as [->|]; [|done]. exfalso. assert (map_find h (map_erase h (players c)) = Some i) as Hx by (rewrite El; cbn; by rewrite Z.eqb_refl).
    by rewrite map_find_erase in Hx. }
  split; [apply (SetOwner_vacant _ _ _ _ 0 Hh0 Hv)|]. intros g. rewrite (proj2 (SetOwner_vacant E h true c1 g Hh0 Hv)).
  rewrite Hf. cbn [map_find]. destruct (Z.eqb_spec g h) as [->|]; [|done].
  unfold info. rewrite Hf, Z.eqb_refl. cbn [default fmap option_fmap option_map]. unfold crown. cbn [id].
  by rewrite SetModerator_twice.
Qed.

Lemma expel_core E good bad ban notify c :
  core (expel E good bad ban notify c) =
    core (set_players (map_erase bad (players c)) (if ban && negb (IsBanned c bad) then set_banned (set_add bad (banned c)) c else c))
  /\ LeftChannel bad ∈ trace (expel E good bad ban notify c).
Proof.
  split; [|unfold expel; cbn [emit trace]; rewrite elem_of_app; right; by apply list_elem_of_singleton].
  unfold expel. destruct (ban && negb (IsBanned c bad)).
  - destruct (UpdateChannelInDB_emit (set_banned (set_add bad (banned c)) c)) as [e ->]. by destruct notify.
  - by destruct notify.
Qed.

(** A moderator's kick of somebody else takes the member off the channel and out
    of the player's list of channels, a ban also adds to the bans; if the member was
    the owner and the channel hands out ownership the kicker becomes owner and
    moderator; all others keep their entries. *)
Theorem KickOrBan_removes E good badname ban c bad pl :
  FindPlayerByName E badname = Some (bad, pl) -> good <> bad -> good <> 0 ->
  IsOn c good = true -> IsOn c bad = true -> authorised E (CKickOrBan good badname ban) c = true ->
  bad <> m_ownerGUID c \/ is_gm E good = true ->
  let c' := KickOrBan E good badname ban c in
  let passes := (bad =? m_ownerGUID c) && m_ownership c in
  m_ownerGUID c' = (if passes then good else m_ownerGUID c)
  /\ (forall g, map_find g (players c') =
       if g =? bad then None else if passes && (g =? good) then crown <$> map_find g (players c) else map_find g (players c))
  /\ (forall g, g ∈ banned c' <-> g ∈ banned c \/ ban = true /\ g = bad)
  /\ LeftChannel bad ∈ trace c'.
Proof.
  intros Hn Hne H0 Hg Hb Ha Hown. cbv zeta. unfold KickOrBan. cbn [authorised] in Ha. rewrite Hg in Ha |- *. cbn [andb] in Ha. cbn [negb].
  fold (is_gm E good). assert (negb (IsModerator (info c good)) && negb (is_gm E good) = false) as ->.
  { destruct (IsModerator (info c good)), (is_gm E good); done. }
  rewrite Hn, Hb. cbn [negb].
  assert (negb (is_gm E good) && (bad =? m_ownerGUID c) && negb (good =? m_ownerGUID c) = false) as ->.
  { destruct Hown as [Ho| ->]; [|done]. rewrite (proj2 (Z.eqb_neq _ _) Ho). by rewrite andb_false_r. }
  set (notify := negb _). clearbody notify. destruct (expel_core E good bad ban notify c) as [Hc Ht].
  set (c1 := expel E good bad ban notify c) in *. clearbody c1.
  assert (forall g, map_find g (players c1) = if g =? bad then None else map_find g (players c)) as Hf.
  { intros g. rewrite (core_find _ _ _ Hc). cbn. destruct (Z.eqb_spec g bad) as [->|]; [apply map_find_erase|by apply map_find_erase_ne]. }
  assert (forall g, g ∈ banned c1 <-> g ∈ banned c \/ ban = true /\ g = bad) as Hban.
  { intros g. rewrite (core_banned _ _ Hc). unfold IsBanned. destruct ban; cbn [andb]; [|cbn; intuition congruence].
    case_bool_decide as Hd; cbn [negb banned set_players set_banned]; [|rewrite elem_of_set_add; tauto].
    split; [by left|]. by intros [?|[_ ->]]. }
  assert (m_ownerGUID c1 = m_ownerGUID c) as Ho by (rewrite (core_owner _ _ Hc); by destruct (ban && negb (IsBanned c bad))).
  assert (m_ownership c1 = m_ownership c) as Hw by (rewrite (core_ownership _ _ Hc); by destruct (ban && negb (IsBanned c bad))).
  unfold kicker_owns. rewrite Hw, (Z.eqb_sym (m_ownerGUID c)).
  assert (map_find good (players c1) = map_find good (players c)) as Hgood by (rewrite Hf; by rewrite (proj2 (Z.eqb_neq _ _) Hne)).
  destruct (players c1) as [|m l] eqn:El.
  { unfold IsOn in Hg. rewrite <- Hgood in Hg. done. }
  rewrite <- El in *. clear El. destruct ((bad =? m_ownerGUID c) && m_ownership c) eqn:Ep; cbn [andb]; [|done].
  set (c2 := update_info good (SetModerator_flag true) c1).
  apply andb_true_iff in Ep as [Ep _]. apply Z.eqb_eq in Ep.
  assert (m_ownerGUID c2 = 0 \/ IsOn c2 (m_ownerGUID c2) = false) as Hv.
  { right. cbn. rewrite Ho, <- Ep. unfold IsOn, c2. rewrite update_info_find, (proj2 (Z.eqb_neq bad good)), Hf, Z.eqb_refl by done. done. }
  split; [apply (SetOwner_vacant _ _ _ _ 0 H0 Hv)|]. split; [|split].
  - intros g. rewrite (proj2 (SetOwner_vacant E good true c2 g H0 Hv)). unfold c2. rewrite info_update, update_info_find, Hf.
    destruct (Z.eqb_spec g good) as [->|]; [|done]. rewrite (proj2 (Z.eqb_neq _ _) Hne).
    unfold info, IsOn in *. rewrite Hgood. destruct (map_find good (players c)) as [i|]; [|done]. cbn. unfold crown.
    by rewrite SetModerator_twice.
  - intros g. assert (banned (SetOwner E good true c2) = banned c1) as ->; [|done].
    rewrite (core_banned _ _ (core_SetOwner E good true c2 H0)). destruct (m_ownerGUID c2 =? 0), (IsOn c2 (m_ownerGUID c2)); reflexivity.
  - assert (exists e, trace (SetOwner E good true c2) = trace c1 ++ e) as [e ->]; [|rewrite elem_of_app; by left].
    unfold SetOwner. cbv zeta. rewrite (proj2 (Z.eqb_neq _ _) H0).
    match goal with |- context [UpdateChannelInDB ?x] => destruct (UpdateChannelInDB_emit x) as [e ->] end.
    destruct (m_ownerGUID c2 =? 0), (IsOn c2 (m_ownerGUID c2)); cbn; rewrite <- ?app_assoc; by eexists.
Qed.

(** ** Speaking *)

(** What a member says who is not muted is sent once to each member in the world,
    in the order of their guids, except to those who ignore the speaker, unless that
    is a moderator; nothing else happens. Anybody else only gets a packet. *)
Theorem Say_delivers E p what lang c :
  p <> 0 ->
  if IsOn c p && negb (IsMuted (info c p)) then
    exists data, op data = SMSG_MESSAGECHAT /\ Str what ∈ body data /\ U64 p ∈ body data
      /\ Say E p (Some what) lang c =
           emit (map (fun m => SendPacket m data)
             (filter (fun m => match FindPlayer E m with
                               | Some pl => IsModerator (info c p) || negb (HasIgnore pl (GUID_LOPART p))
                               | None => false
                               end = true) ((players c).*1))) c
  else refused E p c (Say E p (Some what) lang c).
Proof.
  intros Hp. unfold Say. cbv zeta. destruct (IsOn c p); cbn [negb andb]; [|apply refused_send].
  destruct (IsMuted (info c p)); cbn [negb]; [apply refused_send|].
  set (data := mkPacket _ _). exists data. split; [done|]. split; [unfold data; cbn; set_solver|]. split; [unfold data; cbn; set_solver|].
  unfold SendToAll. f_equal. clearbody data. induction ((players c).*1) as [|m ms IH]; [done|]. rewrite bind_cons, filter_cons, IH.
  destruct (FindPlayer E m) as [pl|]; [|done].
  assert (((if negb (IsModerator (info c p)) then p else 0) =? 0) = IsModerator (info c p)) as ->.
  { destruct (IsModerator (info c p)); [done|]. cbn. by apply Z.eqb_neq. }
  destruct (IsModerator (info c p)); cbn [negb orb]; [by rewrite decide_True|].
  destruct (HasIgnore pl (GUID_LOPART p)); cbn [negb]; [by rewrite decide_False|by rewrite decide_True].
Qed.

(** ** The stored channel *)

Lemma decimal_no_space n : 0 <= n -> Forall (fun c => c <> 32 /\ c <> 0) (decimal n).
Proof.
  intros Hn. eapply Forall_impl; [by apply digits_digit|]. intros c (d & Hd & ->). lia.
Qed.

Lemma set_add_append l g : StronglySorted Z.lt (l ++ [g]) -> set_add g l = l ++ [g].
Proof.
  induction l as [|x l IH]; [done|]. cbn. intros Hs. apply StronglySorted_inv in Hs as [Hs Hx].
  assert (x < g) by (rewrite Forall_forall in Hx; apply Hx; rewrite elem_of_app; right; by left).
  rewrite (proj2 (Z.ltb_ge g x)), (proj2 (Z.eqb_neq g x)) by lia. by rewrite IH.
Qed.

Lemma StronglySorted_prefix (l k : list Z) : StronglySorted Z.lt (l ++ k) -> StronglySorted Z.lt l.
Proof.
  induction l as [|x l IH]; cbn; [constructor|]. intros Hs. apply StronglySorted_inv in Hs as [Hs Hx].
  constructor; [by apply IH|]. by apply Forall_app in Hx as [Hx _].
Qed.

Lemma load_bans_banlist l :
  StronglySorted Z.lt l -> Forall (fun g => 0 < g < 2 ^ 63) l -> load_bans (banlist l) [] = l.
Proof.
  intros Hs Hl. unfold load_bans, banlist.
  assert (Tokenizer (l ≫= (fun g => decimal g ++ [32])) 32 = map decimal l) as ->.
  { rewrite <- (Tokenizer_words 32 (map decimal l)).
    - f_equal. clear Hs Hl. induction l as [|g l IH]; [done|]. cbn [map]. by rewrite !bind_cons, IH.
    - apply Forall_map. eapply Forall_impl; [exact Hl|]. intros g Hg. apply decimal_no_space. clear - Hg. cbn beta in Hg. destruct Hg. by apply Z.lt_le_incl. }
  induction l as [|g l IH] using rev_ind; [done|]. rewrite map_app, foldl_app. cbn [map foldl].
  apply Forall_app in Hl as [Hl [Hg _]%Forall_cons]. rewrite IH; [|by eapply StronglySorted_prefix|done].
  rewrite atol_decimal by lia. rewrite wrap_id by (unfold in_u; norm_pow; lia). rewrite (proj2 (Z.eqb_neq g 0)) by lia.
  by apply set_add_append.
Qed.

(** The row that the statement [CHAR_UPD_CHANNEL] writes. *)
Definition stored_row (args : list field) : option ChannelRow :=
  match args with
  | [U8 a; U8 o; Str password; Str bans; Str _; U32 _] => Some (mkRow (negb (a =? 0)) (negb (o =? 0)) password (Some bans))
  | _ => None
  end.

(** A custom channel that is stored and later made again from its row has the same
    bans, password, announcements and ownership rule; members and owner are not
    stored. *)
Theorem UpdateChannelInDB_restores E c :
  channel_ok c -> m_IsSaved c = true -> Forall (fun g => 0 < g < 2 ^ 63) (banned c) ->
  sChatChannelsStore E (m_channelId c) = None -> CONFIG_PRESERVE_CUSTOM_CHANNELS E = true ->
  exists args row, UpdateChannelInDB c = emit [Execute CHAR_UPD_CHANNEL args] c /\ stored_row args = Some row
    /\ let c' := new_channel E (Some row) (m_name c) (m_channelId c) (m_Team c) in
       banned c' = banned c /\ m_password c' = m_password c /\ m_announce c' = m_announce c /\ m_ownership c' = m_ownership c
       /\ players c' = [] /\ m_ownerGUID c' = 0.
Proof.
  intros (_ & Hs & _) Hsaved Hb Hd Hp. unfold UpdateChannelInDB. rewrite Hsaved. do 2 eexists. split; [reflexivity|]. split; [reflexivity|].
  unfold new_channel. rewrite Hd, Hp. cbn. rewrite load_bans_banlist by done.
  by destruct (m_announce c), (m_ownership c).
Qed.

(** ** A channel with three members *)
Definition sample_player (name : Z) (team : Z) : Player := mkPlayer [name] 0 team false 0 true (fun _ => false) (fun _ => true).
Definition sample_env : Env :=
  mkEnv [(1, sample_player 65 469); (2, sample_player 66 469); (3, sample_player 67 469)] (fun _ => None) (fun _ => None)
    true false false false 0.
Definition sample_commands : list (Env * command) :=
  [(sample_env, CJoin 2 []); (sample_env, CJoin 1 []); (sample_env, CJoin 3 [])].
Definition sample_new : Channel := new_channel sample_env None [120] 0 469.
Definition sample : Channel := Eval vm_compute in default sample_new (run sample_commands sample_new).

Lemma channel_sample_run : run sample_commands sample_new = Some sample.
Proof. vm_compute. reflexivity. Qed.
Lemma channel_sample_ok : channel_ok sample.
Proof. eapply run_ok; [apply new_channel_ok|apply channel_sample_run]. Qed.
Lemma sample_entries : entries_ok sample.
Proof.
  intros g i. unfold sample. cbn [players map_find].
  repeat (match goal with |- context [g =? ?k] => destruct (Z.eqb_spec g k) as [->|] end; [by intros [= <-]|]). done.
Qed.

Lemma one_owner_witness : 2 = m_ownerGUID sample /\ 2 <> 0 /\ IsModerator (info sample 2) = true.
Proof. apply (one_owner sample_env None [120] 0 469 sample_commands sample 2 (info sample 2)); reflexivity. Defined.

Lemma only_moderators_witness : refused sample_env 1 sample (Announce sample_env 1 sample).
Proof. apply (only_moderators sample_env (CAnnounce 1) 1); reflexivity. Defined.

Lemma owner_protected_witness : owner_keeps sample (KickOrBan sample_env 1 [66] true sample).
Proof. apply (owner_protected sample_env (CKickOrBan 1 [66] true) 1 sample); [apply channel_sample_ok|done|reflexivity|done|reflexivity|reflexivity]. Defined.

Lemma Join_admits_witness : m_ownerGUID (Join sample_env 3 [] sample_new) = 3.
Proof.
  pose proof (Join_admits sample_env 3 [] sample_new ltac:(done)) as H.
  change (negb (IsOn sample_new 3) && admitted sample_env 3 [] sample_new) with true in H. destruct H as [H _]. exact H.
Defined.

Lemma Leave_succession_witness : m_ownerGUID (Leave sample_env 2 true sample) = 1.
Proof.
  destruct (Leave_succession sample_env 2 true sample) as [H _]; [apply channel_sample_ok|apply sample_entries|by vm_compute|reflexivity|exact H].
Defined.

Lemma KickOrBan_removes_witness : LeftChannel 3 ∈ trace (KickOrBan sample_env 2 [67] true sample).
Proof.
  apply (KickOrBan_removes sample_env 2 [67] true sample 3 (sample_player 67 469)); [reflexivity|done|done|reflexivity..|by left].
Defined.

Lemma Say_delivers_witness :
  exists data, Say sample_env 1 (Some [72; 105]) 7 sample = emit [SendPacket 1 data; SendPacket 2 data; SendPacket 3 data] sample.
Proof.
  pose proof (Say_delivers sample_env 1 [72; 105] 7 sample ltac:(done)) as H.
  change (IsOn sample 1 && negb (IsMuted (info sample 1))) with true in H. destruct H as (data & _ & _ & _ & H). by exists data.
Defined.

Definition sample_saved : Channel := Eval vm_compute in default sample (exec sample_env (CKickOrBan 2 [67] true) sample).
Lemma UpdateChannelInDB_restores_witness : load_bans (banlist (banned sample_saved)) [] = [3].
Proof.
  destruct (UpdateChannelInDB_restores sample_env sample_saved) as (args & row & Ha & Hr & Hb & _); [|reflexivity|by repeat constructor|reflexivity..|].
  { apply (exec_ok sample_env (CKickOrBan 2 [67] true) sample); [apply channel_sample_ok|vm_compute; reflexivity]. }
  injection Ha as <-. injection Hr as <-. exact Hb.
Defined.

(** An owner who kicks himself while others are on the channel stays on it, with an
    entry that does not say whose it is, although it has left his list of channels. *)
Lemma self_kick :
  let c := KickOrBan sample_env 2 [66] false sample in
  IsOn c 2 = true /\ player_of (info c 2) = 0 /\ m_ownerGUID c = 2 /\ LeftChannel 2 ∈ trace c.
Proof. vm_compute. repeat split. repeat (left; reflexivity) || right. Qed.

End Channel.
