(* ===== verification/ChannelMgr.v ===== *)
(** * ChannelMgr: the channels of the realm

    [game/Chat/Channels/ChannelMgr.cpp], the handlers of
    [game/Handlers/ChannelHandler.cpp] and the lists of channels of the players
    ([game/Entities/Player/Player.cpp]). Channels live in a store addressed by
    pointers; the managers of the two sides map names to pointers, the players hold
    lists of them, and using a pointer to a deleted channel is a fault. *)
From S2P Require Import Prelude OrderedMap Utf8 Util Channel.
Import Utf8 Util Channel.
#[global] Open Scope Z_scope.

Module ChannelMgr.

Definition ALLIANCE := 469.
Definition HORDE := 67.
Definition CHANNEL_DBC_FLAG_ZONE_DEP := 0x00002.
Definition CHANNEL_DBC_FLAG_GLOBAL := 0x00004.
Definition CHANNEL_DBC_FLAG_CITY_ONLY := 0x00010.
Definition CHANNEL_DBC_FLAG_GUILD_REQ := 0x20000.
Definition AREA_FLAG_SLAVE_CAPITAL := 0x00000008.
Definition AREA_FLAG_ARENA_INSTANCE := 0x00010000.

Inductive world_fault := TextFault (f : Util.fault) | NullPlayer | DeletedChannel.

(** [UpdateLocalChannels] takes the channels of the store and the name of each in the
    player's zone, which come from the client's files. *)
Record CEnv := mkCEnv {
  base : Env;
  channel_row : list Z -> Z -> option ChannelRow;      (* by name and team *)
  zone_flags : Z -> option Z;                          (* the zone a player is in *)
  GetGuildId : Z -> Z;
  channel_entries : list (Z * Z);                      (* ids and flags *)
  local_name : Z -> list Z
}.

Inductive side := Alliance | Horde.
#[global] Instance side_eq_dec : EqDecision side.
Proof. solve_decision. Defined.

(** A manager: its channels by the lower-case name, and its team. *)
Record Manager := mkManager { channels : gmap (list Z) Z; team : Z }.

Record World := mkWorld {
  alliance : Manager;
  horde : Manager;
  store : gmap Z Channel;
  next_pointer : Z;
  m_channels : gmap Z (list Z);                        (* of each player *)
  log : list effect
}.

Definition manager (s : side) (w : World) : Manager := match s with Alliance => alliance w | Horde => horde w end.
Definition set_manager (s : side) (m : Manager) (w : World) : World :=
  match s with
  | Alliance => mkWorld m (horde w) (store w) (next_pointer w) (m_channels w) (log w)
  | Horde => mkWorld (alliance w) m (store w) (next_pointer w) (m_channels w) (log w)
  end.
Definition set_store (v : gmap Z Channel) (w : World) : World :=
  mkWorld (alliance w) (horde w) v (next_pointer w) (m_channels w) (log w).
Definition set_m_channels (v : gmap Z (list Z)) (w : World) : World :=
  mkWorld (alliance w) (horde w) (store w) (next_pointer w) v (log w).
Definition add_log (e : list effect) (w : World) : World :=
  mkWorld (alliance w) (horde w) (store w) (next_pointer w) (m_channels w) (log w ++ e).

(** ** Lists of channels *)
Definition joined (w : World) (p : Z) : list Z := default [] (m_channels w !! p).
Definition Player_JoinedChannel (p c : Z) (w : World) : World :=
  set_m_channels (<[p := joined w p ++ [c]]> (m_channels w)) w.
Definition Player_LeftChannel (p c : Z) (w : World) : World :=
  set_m_channels (<[p := set_del c (joined w p)]> (m_channels w)) w.

(** What a channel does to the rest. *)
Definition apply_effect (c : Z) (w : World) (e : effect) : World :=
  match e with
  | JoinedChannel p => Player_JoinedChannel p c w
  | LeftChannel p => Player_LeftChannel p c w
  | SendPacket _ _ | Execute _ _ => add_log [e] w
  end.

Definition forget (c : Channel) : Channel :=
  mkChannel (players c) (banned c) (m_announce c) (m_ownership c) (m_name c) (m_password c) (m_flags c) (m_channelId c)
    (m_ownerGUID c) (m_IsSaved c) (m_Team c) [].

(** A method called on a channel. *)
Definition call (ptr : Z) (method : Channel -> option Channel) (w : World) : result world_fault World :=
  match store w !! ptr with
  | None => Throw DeletedChannel
  | Some c =>
      match method c with
      | None => Throw NullPlayer
      | Some c' => Ok (foldl (apply_effect ptr) (set_store (<[ptr := forget c']> (store w)) w) (trace c'))
      end
  end.

Definition GetChannelAt (ptr : Z) (w : World) : result world_fault Channel :=
  match store w !! ptr with Some c => Ok c | None => Throw DeletedChannel end.

(** ** ChannelMgr.cpp *)
Definition forTeam (E : CEnv) (team : Z) : option side :=
  if CONFIG_ALLOW_TWO_SIDE_INTERACTION_CHANNEL (base E) then Some Alliance
  else if team =? ALLIANCE then Some Alliance
  else if team =? HORDE then Some Horde
  else None.

(** The name in lower case; one that is not well-formed is the empty name. *)
Definition channel_key (name : list Z) : result world_fault (list Z) :=
  match Utf8toWStr name [] with
  | Throw f => Throw (TextFault f)
  | Ok (_, wname) => Ok (wstrToLower wname)
  end.

Definition setTeam (s : side) (newTeam : Z) (w : World) : World :=
  set_manager s (mkManager (channels (manager s w)) newTeam) w.

(** The pointer, and the world with the new channel. *)
Definition GetJoinChannel (E : CEnv) (s : side) (name : list Z) (channel_id : Z) (w : World) : result world_fault (Z * World) :=
  let? wname := channel_key name in
  match channels (manager s w) !! wname with
  | Some ptr => Ok (ptr, w)
  | None =>
      let t := team (manager s w) in
      let nchan := new_channel (base E) (channel_row E name t) name channel_id t in
      let ptr := next_pointer w in
      Ok (ptr,
          set_manager s (mkManager (<[wname := ptr]> (channels (manager s w))) t)
            (mkWorld (alliance w) (horde w) (<[ptr := forget nchan]> (store w)) (ptr + 1) (m_channels w) (log w ++ trace nchan)))
  end.

Definition MakeNotOnPacket (name : list Z) : WorldPacket := mkPacket SMSG_CHANNEL_NOTIFY [U8 0x05; Str name].

Definition GetChannel (s : side) (name : list Z) (player : Z) (w : World) : result world_fault (option Z * World) :=
  let? wname := channel_key name in
  match channels (manager s w) !! wname with
  | Some ptr => Ok (Some ptr, w)
  | None => Ok (None, add_log [SendPacket player (MakeNotOnPacket name)] w)
  end.

(** Deletes the channel when it is empty and custom. *)
Definition LeftChannel (s : side) (name : list Z) (w : World) : result world_fault World :=
  let? wname := channel_key name in
  match channels (manager s w) !! wname with
  | None => Ok w
  | Some ptr =>
      let? channel := GetChannelAt ptr w in
      if (GetNumPlayers channel =? 0) && negb (IsConstant channel) then
        let w := set_manager s (mkManager (delete wname (channels (manager s w))) (team (manager s w))) w in
        Ok (set_store (delete ptr (store w)) w)
      else Ok w
  end.

(** ** ChannelHandler.cpp *)

(** [_player] of a session. *)
Definition session_player (E : CEnv) (p : Z) : result world_fault Player :=
  match FindPlayer (base E) p with Some pl => Ok pl | None => Throw NullPlayer end.

Definition CanJoinConstantChannelInZone (E : CEnv) (p channel_flags zone : Z) : bool :=
  if has channel_flags CHANNEL_DBC_FLAG_ZONE_DEP && has zone AREA_FLAG_ARENA_INSTANCE then false
  else if has channel_flags CHANNEL_DBC_FLAG_CITY_ONLY && negb (has zone AREA_FLAG_SLAVE_CAPITAL) then false
  else if has channel_flags CHANNEL_DBC_FLAG_GUILD_REQ && negb (GetGuildId E p =? 0) then false
  else true.

(** The checks on a channel of the store. *)
Definition may_join (E : CEnv) (p channel_id : Z) : bool :=
  if channel_id =? 0 then true
  else match sChatChannelsStore (base E) channel_id, zone_flags E p with
       | Some channel, Some current_zone => CanJoinConstantChannelInZone E p channel current_zone
       | _, _ => false
       end.

Definition HandleJoinChannel (E : CEnv) (p channel_id : Z) (channelname pass : list Z) (w : World) : result world_fault World :=
  let? _player := session_player E p in
  if negb (may_join E p channel_id) then Ok w
  else if decide (channelname = []) then Ok w
  else match forTeam E (GetTeam _player) with
       | None => Ok w
       | Some s =>
           let w := setTeam s (GetTeam _player) w in
           let? (chn, w) := GetJoinChannel E s channelname channel_id w in
           call chn (fun c => Some (Join (base E) p pass c)) w
       end.

Definition HandleLeaveChannel (E : CEnv) (p : Z) (channelname : list Z) (w : World) : result world_fault World :=
  let? _player := session_player E p in
  if decide (channelname = []) then Ok w
  else match forTeam E (GetTeam _player) with
       | None => Ok w
       | Some s =>
           let? (chn, w) := GetChannel s channelname p w in
           let? w := match chn with Some ptr => call ptr (fun c => Some (Leave (base E) p true c)) w | None => Ok w end in
           LeftChannel s channelname w
       end.

(** What the other handlers share: the channel of the player's side, and a method
    called on it. *)
Definition on_channel (E : CEnv) (p : Z) (channelname : list Z) (method : Player -> Channel -> option Channel) (w : World) :
    result world_fault World :=
  let? _player := session_player E p in
  match forTeam E (GetTeam _player) with
  | None => Ok w
  | Some s =>
      let? (chn, w) := GetChannel s channelname p w in
      match chn with Some ptr => call ptr (method _player) w | None => Ok w end
  end.

(** The name of a player in a packet, normalised; without one the handler returns. *)
Definition with_name (name : list Z) (w : World) (k : list Z -> result world_fault World) : result world_fault World :=
  match normalizePlayerName name with
  | Throw f => Throw (TextFault f)
  | Ok (ok, name) => if ok then k name else Ok w
  end.

Definition HandleChannelList (E : CEnv) (p : Z) (channelname : list Z) (w : World) :=
  on_channel E p channelname (fun _player c => Some (List (base E) p _player c)) w.
Definition HandleChannelDisplayListQuery (E : CEnv) (p : Z) (channelname : list Z) (w : World) := HandleChannelList E p channelname w.
Definition HandleChannelPassword (E : CEnv) (p : Z) (channelname pass : list Z) (w : World) :=
  on_channel E p channelname (fun _ c => Password (base E) p pass c) w.
Definition HandleChannelSetOwner (E : CEnv) (p : Z) (channelname newp : list Z) (w : World) :=
  with_name newp w (fun newp => on_channel E p channelname (fun _ c => Some (SetOwner_name (base E) p newp c)) w).
Definition HandleChannelOwner (E : CEnv) (p : Z) (channelname : list Z) (w : World) :=
  on_channel E p channelname (fun _ c => Some (SendWhoOwner (base E) p c)) w.
Definition HandleChannelModerator (E : CEnv) (p : Z) (channelname otp : list Z) (w : World) :=
  with_name otp w (fun otp => on_channel E p channelname (fun _ c => Some (SetMode (base E) p otp true true c)) w).
Definition HandleChannelUnmoderator (E : CEnv) (p : Z) (channelname otp : list Z) (w : World) :=
  with_name otp w (fun otp => on_channel E p channelname (fun _ c => Some (SetMode (base E) p otp true false c)) w).
Definition HandleChannelMute (E : CEnv) (p : Z) (channelname otp : list Z) (w : World) :=
  with_name otp w (fun otp => on_channel E p channelname (fun _ c => Some (SetMode (base E) p otp false true c)) w).
Definition HandleChannelUnmute (E : CEnv) (p : Z) (channelname otp : list Z) (w : World) :=
  with_name otp w (fun otp => on_channel E p channelname (fun _ c => Some (SetMode (base E) p otp false false c)) w).
Definition HandleChannelInvite (E : CEnv) (p : Z) (channelname otp : list Z) (w : World) :=
  with_name otp w (fun otp => on_channel E p channelname (fun _ c => Some (Invite (base E) p otp c)) w).
Definition HandleChannelKick (E : CEnv) (p : Z) (channelname otp : list Z) (w : World) :=
  with_name otp w (fun otp => on_channel E p channelname (fun _ c => Some (KickOrBan (base E) p otp false c)) w).
Definition HandleChannelBan (E : CEnv) (p : Z) (channelname otp : list Z) (w : World) :=
  with_name otp w (fun otp => on_channel E p channelname (fun _ c => Some (KickOrBan (base E) p otp true c)) w).
Definition HandleChannelUnban (E : CEnv) (p : Z) (channelname otp : list Z) (w : World) :=
  with_name otp w (fun otp => on_channel E p channelname (fun _ c => Some (UnBan (base E) p otp c)) w).
Definition HandleChannelAnnouncements (E : CEnv) (p : Z) (channelname : list Z) (w : World) :=
  on_channel E p channelname (fun _ c => Some (Announce (base E) p c)) w.
Definition HandleGetChannelMemberCount (E : CEnv) (p : Z) (channelname : list Z) (w : World) :=
  on_channel E p channelname (fun _ c => Some (emit [SendPacket p (member_count c)] c)) w.

(** The message to a channel of [HandleMessagechatOpcode], after the checks of the
    player's level; the script hook is left out. *)
Definition say_on_channel (E : CEnv) (p : Z) (channel msg : list Z) (lang : Z) (w : World) :=
  on_channel E p channel (fun _ c => Some (Say (base E) p (Some msg) lang c)) w.

(** ** Player.cpp *)

(** One round of the loop for each channel of the list; [Leave] does not change the
    list, as it sends nothing. *)
Fixpoint cleanup_loop (E : CEnv) (p team : Z) (l : list Z) (w : World) : result world_fault World :=
  match l with
  | [] => Ok w
  | ch :: l =>
      let w := set_m_channels (<[p := l]> (m_channels w)) w in
      let? w := call ch (fun c => Some (Leave (base E) p false c)) w in
      let? w := match forTeam E team with
                | Some s => let? c := GetChannelAt ch w in LeftChannel s (m_name c) w
                | None => Ok w
                end in
      cleanup_loop E p team l w
  end.
Definition CleanupChannels (E : CEnv) (p team : Z) (w : World) : result world_fault World :=
  cleanup_loop E p team (joined w p) w.

(** The first of the player's channels with the id. *)
Fixpoint used_channel (id : Z) (l : list Z) (w : World) : result world_fault (option Z) :=
  match l with
  | [] => Ok None
  | ch :: l => let? c := GetChannelAt ch w in if m_channelId c =? id then Ok (Some ch) else used_channel id l w
  end.

Definition leave_local (E : CEnv) (s : side) (p ch : Z) (sendRemove : bool) (w : World) : result world_fault World :=
  let? w := call ch (fun c => Some (Leave (base E) p sendRemove c)) w in
  let? c := GetChannelAt ch w in
  let w := Player_LeftChannel p ch w in
  LeftChannel s (m_name c) w.

Definition join_local (E : CEnv) (p ch : Z) (w : World) : result world_fault World :=
  call ch (fun c => Some (Join (base E) p [] c)) w.

(** One round of the loop over the store: a channel of the zone is joined, one that
    has been replaced is left silently, one that is not for the zone with notice. *)
Definition update_local (E : CEnv) (s : side) (p zone id channel : Z) (w : World) : result world_fault World :=
  let? usedChannel := used_channel id (joined w p) w in
  if CanJoinConstantChannelInZone E p channel zone then
    if has channel CHANNEL_DBC_FLAG_GLOBAL then
      let? (joinChannel, w) := GetJoinChannel E s (local_name E id) id w in
      join_local E p joinChannel w
    else if has channel CHANNEL_DBC_FLAG_CITY_ONLY && match usedChannel with Some _ => true | None => false end then Ok w
    else
      let? (joinChannel, w) := GetJoinChannel E s (local_name E id) id w in
      match usedChannel with
      | Some used =>
          if joinChannel =? used then Ok w
          else let? w := join_local E p joinChannel w in leave_local E s p used false w
      | None => join_local E p joinChannel w
      end
  else
    match usedChannel with Some used => leave_local E s p used true w | None => Ok w end.

Fixpoint local_loop (E : CEnv) (s : side) (p zone : Z) (l : list (Z * Z)) (w : World) : result world_fault World :=
  match l with
  | [] => Ok w
  | (id, channel) :: l => let? w := update_local E s p zone id channel w in local_loop E s p zone l w
  end.

(** [loading] is whether the client handles the change itself, while it loads. *)
Definition UpdateLocalChannels (E : CEnv) (p team : Z) (zone : option Z) (loading : bool) (w : World) : result world_fault World :=
  if loading then Ok w
  else match zone, forTeam E team with
       | Some zone, Some s => local_loop E s p zone (channel_entries E) w
       | _, _ => Ok w
       end.

(** The first channel for seekers of groups is left. *)
Fixpoint lfg_channel (l : list Z) (w : World) : result world_fault (option Z) :=
  match l with
  | [] => Ok None
  | ch :: l => let? c := GetChannelAt ch w in if IsLFG c then Ok (Some ch) else lfg_channel l w
  end.
Definition LeaveLFGChannel (E : CEnv) (p : Z) (w : World) : result world_fault World :=
  let? ch := lfg_channel (joined w p) w in
  match ch with Some ch => call ch (fun c => Some (Leave (base E) p true c)) w | None => Ok w end.

(** ** What a command does to members and lists *)

(** The effects on the players' lists of channels. *)
Definition is_move (e : effect) : bool := match e with JoinedChannel _ | Channel.LeftChannel _ => true | _ => false end.
Definition moves (l : list effect) : list effect := filter (fun e => is_move e = true) l.

Lemma moves_app l k : moves (l ++ k) = moves l ++ moves k.
Proof. apply filter_app. Qed.
Lemma moves_bind {A} (f : A -> list effect) l : (forall x, moves (f x) = []) -> moves (l ≫= f) = [].
Proof. intros Hf. induction l as [|x l IH]; [done|]. by rewrite bind_cons, moves_app, Hf, IH. Qed.

(** Nobody leaves and no list changes. *)
Definition quiet (c c' : Channel) : Prop :=
  moves (trace c') = moves (trace c) /\ forall q, IsOn c q = true -> IsOn c' q = true.

Lemma calm_refl c : quiet c c.
Proof. done. Qed.
Lemma calm_trans c1 c2 c3 : quiet c1 c2 -> quiet c2 c3 -> quiet c1 c3.
Proof. intros [H1 H2] [H3 H4]. split; [congruence|auto]. Qed.
Lemma calm_emit c c' e : moves e = [] -> quiet c c' -> quiet c (emit e c').
Proof. intros He [H1 H2]. split; [|done]. cbn. by rewrite moves_app, He, app_nil_r. Qed.
Lemma moves_packet_for E d p : moves (packet_for E d p) = [].
Proof. unfold packet_for. by destruct (FindPlayer E p). Qed.
Lemma quiet_send_one E d p c c' : quiet c c' -> quiet c (SendToOne E d p c').
Proof. apply calm_emit, moves_packet_for. Qed.
Lemma quiet_send_all E d p c c' : quiet c c' -> quiet c (SendToAll E d p c').
Proof. apply calm_emit, moves_bind. intros m. destruct (FindPlayer E m) as [pl|]; [|done]. by destruct (_ || _). Qed.
Lemma quiet_send_all_but E d p c c' : quiet c c' -> quiet c (SendToAllButOne E d p c').
Proof. apply calm_emit, moves_bind. intros m. destruct (m =? p); [done|apply moves_packet_for]. Qed.
Lemma quiet_update_db c c' : quiet c c' -> quiet c (UpdateChannelInDB c').
Proof. unfold UpdateChannelInDB. destruct (m_IsSaved c'); [|done]. by apply calm_emit. Qed.
Lemma quiet_useage c c' : quiet c c' -> quiet c (UpdateChannelUseageInDB c').
Proof. by apply calm_emit. Qed.
Lemma quiet_update p f c c' : quiet c c' -> quiet c (update_info p f c').
Proof.
  intros [H1 H2]. split; [done|]. intros q Hq. apply H2 in Hq. unfold IsOn in *. rewrite update_info_find. by destruct (q =? p).
Qed.
Lemma quiet_insert p i c c' : quiet c c' -> quiet c (set_players (map_set p i (players c')) c').
Proof.
  intros [H1 H2]. split; [done|]. intros q Hq. apply H2 in Hq. unfold IsOn in *. cbn.
  destruct (Z.eq_dec q p) as [->|]; [by rewrite map_find_set|by rewrite map_find_set_ne].
Qed.
Lemma quiet_owner g c c' : quiet c c' -> quiet c (set_ownerGUID g c').
Proof. exact id. Qed.
Lemma quiet_ban b c c' : quiet c c' -> quiet c (set_banned b c').
Proof. exact id. Qed.
Lemma quiet_password b c c' : quiet c c' -> quiet c (SetPassword b c').
Proof. exact id. Qed.
Lemma quiet_announce b c c' : quiet c c' -> quiet c (SetAnnounce b c').
Proof. exact id. Qed.
Lemma quiet_ownership b c c' : quiet c c' -> quiet c (SetOwnership b c').
Proof. exact id. Qed.
#[export] Hint Resolve calm_refl quiet_send_one quiet_send_all quiet_send_all_but quiet_update_db quiet_useage quiet_update
  quiet_insert quiet_owner quiet_ban quiet_password quiet_announce quiet_ownership : channel.

Lemma quiet_SetOwner E g b c c' : quiet c c' -> quiet c (SetOwner E g b c').
Proof. intros. unfold SetOwner. each_branch. Qed.
Lemma quiet_set_moderator E p b c c' : quiet c c' -> quiet c (set_moderator E p b c').
Proof. intros. unfold set_moderator. each_branch. Qed.
Lemma quiet_set_mute E p b c c' : quiet c c' -> quiet c (set_mute E p b c').
Proof. intros. unfold set_mute. each_branch. Qed.
#[export] Hint Resolve quiet_SetOwner quiet_set_moderator quiet_set_mute : channel.
Lemma quiet_first_owner E p c c' : quiet c c' -> quiet c (first_owner E p c').
Proof. intros. unfold first_owner. each_branch. Qed.
Lemma quiet_next_owner E b c c' : quiet c c' -> quiet c (next_owner E b c').
Proof. intros. unfold next_owner. each_branch. Qed.
Lemma quiet_kicker_owns E g b c c' : quiet c c' -> quiet c (kicker_owns E g b c').
Proof. intros. unfold kicker_owns. each_branch. Qed.
Lemma quiet_join_notify E p c c' : quiet c c' -> quiet c (JoinNotify E p c').
Proof. intros. unfold JoinNotify. each_branch. Qed.
Lemma quiet_leave_notify E p c c' : quiet c c' -> quiet c (LeaveNotify E p c').
Proof. intros. unfold LeaveNotify. each_branch. Qed.
#[export] Hint Resolve quiet_first_owner quiet_next_owner quiet_kicker_owns quiet_join_notify quiet_leave_notify : channel.

(** What can happen to the members: [l] are the changes of lists. *)
Inductive moved (c c' : Channel) : list effect -> Prop :=
| moved_none : (forall q, IsOn c q = true -> IsOn c' q = true) -> moved c c' []
| moved_join p : IsOn c p = false -> (forall q, IsOn c q = true \/ q = p -> IsOn c' q = true) -> moved c c' [JoinedChannel p]
| moved_leave p : (forall q, q <> p -> IsOn c q = true -> IsOn c' q = true) -> moved c c' [Channel.LeftChannel p].

Lemma moved_quiet c c' : trace c = [] -> quiet c c' -> moved c c' (moves (trace c')).
Proof. intros Ht [H1 H2]. rewrite H1, Ht. by apply moved_none. Qed.

Lemma find_erase_ne p q c : q <> p -> IsOn c q = true -> IsOn (set_players (map_erase p (players c)) c) q = true.
Proof. intros Hq. unfold IsOn. cbn. by rewrite map_find_erase_ne. Qed.

(** Entering adds the player, and to the list of one who is in the world. *)
Lemma enter_quiet E p pl c :
  quiet (match pl with Some _ => emit [JoinedChannel p] c | None => c end) (enter E p pl c) /\ IsOn (enter E p pl c) p = true.
Proof.
  split; [unfold enter; each_branch|]. unfold IsOn. rewrite (core_find _ _ p (core_enter E p pl c)). cbn. by rewrite map_find_set.
Qed.

Lemma Join_moved E p pass c : trace c = [] -> moved c (Join E p pass c) (moves (trace (Join E p pass c))).
Proof.
  intros Ht. assert (forall pl, IsOn c p = false ->
    moved c (first_owner E p (enter E p pl c)) (moves (trace (first_owner E p (enter E p pl c))))) as He.
  { intros pl Hp. destruct (enter_quiet E p pl c) as [Hq Hon].
    assert (quiet (enter E p pl c) (first_owner E p (enter E p pl c))) as Hf by (apply quiet_first_owner, calm_refl).
    pose proof (calm_trans _ _ _ Hq Hf) as [H1 H2]. rewrite H1.
    destruct pl; cbn [emit trace]; rewrite Ht.
    - cbn. apply moved_join; [done|]. intros q [Hq'| ->]; [by apply H2|by apply Hf].
    - cbn. apply moved_none. intros q Hq'. by apply H2. }
  unfold Join. destruct (IsOn c p) eqn:Ep.
  { apply moved_quiet; [done|]. each_branch. }
  destruct (IsBanned c p); [apply moved_quiet; eauto with channel|].
  destruct (_ && negb (bool_decide _)); [apply moved_quiet; eauto with channel|]. cbv zeta.
  destruct (FindPlayer E p); [|by apply He]. destruct (_ && _ && _ && _); [apply moved_quiet; eauto with channel|by apply He].
Qed.

(** Leaving removes the player, and from the list of one in the world if told so. *)
Definition left_list (E : Env) (p : Z) (send : bool) : list effect :=
  if send then match FindPlayer E p with Some _ => [Channel.LeftChannel p] | None => [] end else [].

Lemma depart_moves E p send c :
  exists c1, moves (trace c1) = moves (trace c) ++ left_list E p send /\ players c1 = map_erase p (players c)
    /\ quiet c1 (depart E p send c).
Proof.
  unfold depart, left_list. cbv zeta.
  set (c1 := set_players _ (if send then _ else c)). exists c1. split; [|split; [|each_branch]].
  - unfold c1. destruct send; [|by rewrite app_nil_r]. destruct (FindPlayer E p); cbn [set_players emit SendToOne trace];
      rewrite ?moves_app, ?moves_packet_for, ?app_nil_r; done.
  - unfold c1. destruct send; [|done]. by destruct (FindPlayer E p).
Qed.

(** [Leave] of somebody whose list does not have the channel, or is changed. *)
Lemma Leave_moves E p send c :
  trace c = [] -> exists l, moves (trace (Leave E p send c)) = l /\ (l = [] \/ l = [Channel.LeftChannel p])
    /\ (IsOn c p = true -> send = true -> FindPlayer E p <> None -> l = [Channel.LeftChannel p])
    /\ forall q, q <> p -> IsOn c q = true -> IsOn (Leave E p send c) q = true.
Proof.
  intros Ht. unfold Leave. destruct (IsOn c p); cbn [negb].
  2:{ assert (quiet c (if send then SendToOne E (MakeNotMember c) p c else c)) as [H1 H2] by each_branch.
      exists []. split; [by rewrite H1, Ht|]. split; [by left|]. split; [done|]. intros. by apply H2. }
  destruct (depart_moves E p send c) as (c1 & H1 & H2 & H3).
  assert (quiet c1 (next_owner E (IsOwner (info c p)) (depart E p send c))) as [H4 H5] by (by apply quiet_next_owner).
  exists (left_list E p send). rewrite H4, H1, Ht. split; [done|]. unfold left_list.
  split; [destruct send; [destruct (FindPlayer E p)|]; auto|]. split; [intros _ -> ?; by destruct (FindPlayer E p)|].
  intros q Hq Hon. apply H5. unfold IsOn in *. by rewrite H2, map_find_erase_ne.
Qed.

Lemma expel_moves E good bad ban notify c :
  exists c1, moves (trace c1) = moves (trace c) ++ [Channel.LeftChannel bad] /\ players c1 = map_erase bad (players c)
    /\ quiet c1 (expel E good bad ban notify c).
Proof.
  exists (expel E good bad ban notify c). destruct (expel_core E good bad ban notify c) as [Hc _]. split; [|split; [|done]].
  - unfold expel. cbv zeta. cbn [emit set_players trace]. rewrite moves_app. f_equal.
    assert (quiet c (if ban && negb (IsBanned c bad) then
      (if notify then SendToAll E (MakePlayerBanned (UpdateChannelInDB (set_banned (set_add bad (banned c)) c)) bad good) 0
                        (UpdateChannelInDB (set_banned (set_add bad (banned c)) c))
       else UpdateChannelInDB (set_banned (set_add bad (banned c)) c))
      else if notify then SendToAll E (MakePlayerKicked c bad good) 0 c else c)) as [H _] by each_branch. exact H.
  - rewrite (channel_core_players _ _ Hc). by destruct (ban && negb (IsBanned c bad)).
Qed.

Lemma KickOrBan_moved E good badname ban c :
  trace c = [] -> moved c (KickOrBan E good badname ban c) (moves (trace (KickOrBan E good badname ban c))).
Proof.
  intros Ht. unfold KickOrBan. cbv zeta.
  repeat match goal with |- moved _ (if ?b then _ else _) _ => destruct b; [apply moved_quiet; by eauto with channel|] end.
  destruct (FindPlayerByName E badname) as [[bad pl]|]; [|apply moved_quiet; by eauto with channel].
  repeat match goal with |- moved _ (if ?b then _ else _) _ => destruct b; [apply moved_quiet; by eauto with channel|] end.
  set (notify := negb _). clearbody notify. destruct (expel_moves E good bad ban notify c) as (c1 & H1 & H2 & H3).
  set (b := m_ownerGUID c =? bad). clearbody b.
  assert (quiet c1 (kicker_owns E good b (expel E good bad ban notify c))) as [H4 H5] by (by apply quiet_kicker_owns).
  rewrite H4, H1, Ht. cbn. apply moved_leave. intros q Hq Hon. apply H5. unfold IsOn in *. by rewrite H2, map_find_erase_ne.
Qed.

(** Every command but [Leave]. *)
Lemma exec_moved E cmd c c' :
  (forall p send, cmd <> CLeave p send) -> trace c = [] -> exec E cmd c = Some c' -> moved c c' (moves (trace c')).
Proof.
  intros Hl Ht He. destruct cmd; cbn [exec] in He; try injection He as <-.
  - by apply Join_moved.
  - by destruct (Hl p send).
  - by apply KickOrBan_moved.
  - apply moved_quiet; [done|]. unfold UnBan. each_branch.
  - unfold Password in He. destruct (FindPlayer E p); [|done]. injection He as <-. apply moved_quiet; [done|]. each_branch.
  - apply moved_quiet; [done|]. unfold SetMode. each_branch.
  - apply moved_quiet; [done|]. unfold SetOwner_name. each_branch.
  - apply moved_quiet; [done|]. unfold SendWhoOwner. each_branch.
  - apply moved_quiet; [done|]. unfold Announce. each_branch.
  - apply moved_quiet; [done|]. unfold List. each_branch.
  - apply moved_quiet; [done|]. unfold Say. each_branch.
  - apply moved_quiet; [done|]. unfold Invite. each_branch.
  - apply moved_quiet; [done|]. by apply quiet_ownership.
Qed.

(** ** Guids

    An entry says whose it is or, when it was made by indexing, says 0; players'
    guids are below 2^32 - 1 ([ObjectMgr::GenerateLowGuid]), so that the
    number of the members of a channel fits into 32 bits. *)
Definition guid_ok (g : Z) : Prop := 0 <= g < 2 ^ 32 - 1.
Definition guids_ok (c : Channel) : Prop :=
  (forall g i, map_find g (players c) = Some i -> guid_ok g /\ (player_of i = g \/ player_of i = 0)) /\ guid_ok (m_ownerGUID c).

Lemma guid_ok_0 : guid_ok 0.
Proof. unfold guid_ok. lia. Qed.
Lemma guids_emit e c : guids_ok c -> guids_ok (emit e c).
Proof. exact id. Qed.
Lemma guids_send_one E d p c : guids_ok c -> guids_ok (SendToOne E d p c).
Proof. exact id. Qed.
Lemma guids_send_all E d p c : guids_ok c -> guids_ok (SendToAll E d p c).
Proof. exact id. Qed.
Lemma guids_send_all_but E d p c : guids_ok c -> guids_ok (SendToAllButOne E d p c).
Proof. exact id. Qed.
Lemma guids_update_db c : guids_ok c -> guids_ok (UpdateChannelInDB c).
Proof. destruct (UpdateChannelInDB_emit c) as [e ->]. exact id. Qed.
Lemma guids_set_bit p f b c : guid_ok p -> guids_ok c -> guids_ok (update_info p (set_bit f b) c).
Proof.
  intros Hp [H1 H2]. split; [|done]. intros g i. rewrite update_info_find. destruct (Z.eqb_spec g p) as [->|]; [|apply H1].
  intros [= <-]. split; [done|]. unfold info. cbn. destruct (map_find p (players c)) as [i|] eqn:Ei; [by apply (H1 p)|by right].
Qed.
Lemma guids_keep p c : guid_ok p -> guids_ok c -> guids_ok (update_info p (fun i => i) c).
Proof.
  intros Hp [H1 H2]. split; [|done]. intros g i. rewrite update_info_find. destruct (Z.eqb_spec g p) as [->|]; [|apply H1].
  intros [= <-]. split; [done|]. unfold info. destruct (map_find p (players c)) as [i|] eqn:Ei; [by apply (H1 p)|by right].
Qed.
Lemma guids_insert p f c : guid_ok p -> guids_ok c -> guids_ok (set_players (map_set p (mkInfo p f) (players c)) c).
Proof.
  intros Hp [H1 H2]. split; [|done]. intros g i. cbn. destruct (Z.eq_dec g p) as [->|Hg].
  - rewrite map_find_set. intros [= <-]. split; [done|by left].
  - rewrite map_find_set_ne by done. apply H1.
Qed.
Lemma guids_erase p c : guids_ok c -> guids_ok (set_players (map_erase p (players c)) c).
Proof.
  intros [H1 H2]. split; [|done]. intros g i. cbn. destruct (Z.eq_dec g p) as [->|Hg]; [by rewrite map_find_erase|].
  rewrite map_find_erase_ne by done. apply H1.
Qed.
Lemma guids_owner g c : guid_ok g -> guids_ok c -> guids_ok (set_ownerGUID g c).
Proof. intros Hg [H1 H2]. by split. Qed.
Lemma guids_ban b c : guids_ok c -> guids_ok (set_banned b c).
Proof. exact id. Qed.
Lemma guids_owner_of c : guids_ok c -> guid_ok (m_ownerGUID c).
Proof. by intros []. Qed.
#[export] Hint Resolve guid_ok_0 guids_emit guids_send_one guids_send_all guids_send_all_but guids_update_db guids_set_bit guids_keep
  guids_insert guids_erase guids_owner guids_ban guids_owner_of : channel.

Ltac flags := unfold SetOwner_flag, SetModerator_flag, SetMuted_flag in *.

Lemma guids_SetOwner E g b c : guid_ok g -> guids_ok c -> guids_ok (SetOwner E g b c).
Proof. intros. unfold SetOwner. flags. each_branch. Qed.
Lemma guids_set_moderator E p b c : guid_ok p -> guids_ok c -> guids_ok (set_moderator E p b c).
Proof. intros. unfold set_moderator. flags. each_branch. Qed.
Lemma guids_set_mute E p b c : guid_ok p -> guids_ok c -> guids_ok (set_mute E p b c).
Proof. intros. unfold set_mute. flags. each_branch. Qed.
#[export] Hint Resolve guids_SetOwner guids_set_moderator guids_set_mute : channel.
Lemma guids_enter E p pl c : guid_ok p -> guids_ok c -> guids_ok (enter E p pl c).
Proof. intros. unfold enter, JoinNotify. each_branch. Qed.
Lemma guids_first_owner E p c : guid_ok p -> guids_ok c -> guids_ok (first_owner E p c).
Proof. intros. unfold first_owner, UpdateChannelUseageInDB. flags. each_branch. Qed.
Lemma guids_depart E p send c : guids_ok c -> guids_ok (depart E p send c).
Proof. intros. unfold depart, LeaveNotify. each_branch. Qed.
Lemma guids_next_owner E b c : guids_ok c -> guids_ok (next_owner E b c).
Proof.
  intros Hc. unfold next_owner, UpdateChannelUseageInDB. cbv zeta. destruct (IsConstant c); [done|].
  destruct (players _) as [|[g first] l] eqn:E1; [done|]. assert (guid_ok (player_of first)).
  { destruct Hc as [H1 _]. change (players c = (g, first) :: l) in E1.
    destruct (H1 g first) as [Hg [-> | ->]]; [rewrite E1; cbn; by rewrite Z.eqb_refl|done|apply guid_ok_0]. }
  flags. each_branch.
Qed.
Lemma guids_expel E good bad ban notify c : guids_ok c -> guids_ok (expel E good bad ban notify c).
Proof. intros. unfold expel. each_branch. Qed.
Lemma guids_kicker_owns E good b c : guid_ok good -> guids_ok c -> guids_ok (kicker_owns E good b c).
Proof. intros. unfold kicker_owns. flags. each_branch. Qed.
#[export] Hint Resolve guids_enter guids_first_owner guids_depart guids_next_owner guids_expel guids_kicker_owns : channel.

(** The players in the world have such guids. *)
Definition world_guids (E : Env) : Prop := Forall (fun m => guid_ok m.1) (players_in_world E).
Lemma FindPlayerByName_guid E n g pl : world_guids E -> FindPlayerByName E n = Some (g, pl) -> guid_ok g.
Proof.
  unfold FindPlayerByName, world_guids. generalize (map tolower n). intros m. induction 1 as [|[g' pl'] l Hg _ IH]; [done|]. cbn.
  case_decide; [by intros [= <- <-]|done].
Qed.
Lemma FindPlayer_guid E g pl : world_guids E -> FindPlayer E g = Some pl -> guid_ok g.
Proof.
  unfold FindPlayer, world_guids. induction 1 as [|[g' pl'] l Hg _ IH]; [done|]. cbn.
  destruct (Z.eqb_spec g g') as [->|]; done.
Qed.

Lemma exec_guids E cmd c c' :
  world_guids E -> (forall p, issuer cmd = Some p -> guid_ok p) -> guids_ok c -> exec E cmd c = Some c' -> guids_ok c'.
Proof.
  intros HE Hp Hc He. pose proof (fun n g pl => FindPlayerByName_guid E n g pl HE) as Hn.
  assert (forall p, issuer cmd = Some p -> guid_ok p) as Hp' by done.
  destruct cmd; cbn [exec issuer] in *; try injection He as <-; try specialize (Hp' _ eq_refl).
  - unfold Join. each_branch.
  - unfold Leave. each_branch.
  - unfold KickOrBan. destruct (FindPlayerByName E badname) as [[bad pl]|] eqn:Eb; [|each_branch]. apply Hn in Eb. each_branch.
  - unfold UnBan. each_branch.
  - unfold Password in He. destruct (FindPlayer E p); [|done]. injection He as <-. cbv zeta.
    assert (guids_ok (SetPassword pass c)) by exact Hc. each_branch.
  - unfold SetMode. destruct (FindPlayerByName E p2n) as [[newp pl]|] eqn:Eb; [apply Hn in Eb|]; each_branch.
  - unfold SetOwner_name. flags. destruct (FindPlayerByName E newname) as [[newp pl]|] eqn:Eb; [apply Hn in Eb|]; each_branch.
  - unfold SendWhoOwner. each_branch.
  - unfold Announce. cbv zeta. assert (guids_ok (SetAnnounce (negb (m_announce c)) c)) by exact Hc. each_branch.
  - unfold List. each_branch.
  - unfold Say. each_branch.
  - unfold Invite. each_branch.
  - exact Hc.
Qed.

Lemma GetNumPlayers_zero c : map_sorted (players c) -> guids_ok c -> GetNumPlayers c = 0 -> players c = [].
Proof.
  intros Hs [Hg _] H0. unfold GetNumPlayers in H0. rewrite wrap_id in H0; [by destruct (players c)|].
  assert (length (players c) <= length (seqZ 0 (2 ^ 32 - 1)))%nat as Hl.
  { rewrite <- (length_fmap fst (players c)). apply submseteq_length, NoDup_submseteq; [by apply set_sorted_NoDup|].
    intros g (m & -> & Hm)%list_elem_of_fmap. destruct m as [g i]. apply elem_of_seqZ.
    destruct (Hg g i) as [[H1 H2] _]; [by apply map_find_elem|]. cbn. lia. }
  rewrite length_seqZ in Hl. unfold in_u. lia.
Qed.

(** ** The invariant of the realm *)

(** Every channel in a player's list exists and has the player as a member, but for
    the pair [X] in the middle of an operation; no list has a channel twice; the
    managers' names lead to channels that exist, each under one name; the channels
    keep their own invariants. *)
Record world_ok (X : option (Z * Z)) (w : World) : Prop := {
  ok_listed : forall p ptr, Some (p, ptr) <> X -> ptr ∈ joined w p -> exists c, store w !! ptr = Some c /\ IsOn c p = true;
  ok_nodup : forall p, NoDup (joined w p);
  ok_named : forall s k ptr, channels (manager s w) !! k = Some ptr -> is_Some (store w !! ptr);
  ok_once : forall s k s' k' ptr, channels (manager s w) !! k = Some ptr -> channels (manager s' w) !! k' = Some ptr -> s = s' /\ k = k';
  ok_store : forall ptr c, store w !! ptr = Some c -> ptr < next_pointer w /\ trace c = [] /\ channel_ok c /\ guids_ok c
}.

(** Effects change only the lists and the log. *)
Lemma apply_effects_frame ptr es w :
  let w' := foldl (apply_effect ptr) w es in
  alliance w' = alliance w /\ horde w' = horde w /\ store w' = store w /\ next_pointer w' = next_pointer w.
Proof.
  revert w. induction es as [|e es IH]; intros w; [done|]. cbn. destruct (IH (apply_effect ptr w e)) as (-> & -> & -> & ->). by destruct e.
Qed.

Lemma apply_effects_moves ptr es w1 w2 :
  m_channels w1 = m_channels w2 ->
  m_channels (foldl (apply_effect ptr) w1 es) = m_channels (foldl (apply_effect ptr) w2 (moves es)).
Proof.
  revert w1 w2. induction es as [|e es IH]; intros w1 w2 E; [done|]. cbn [foldl]. unfold moves. rewrite filter_cons.
  destruct e; cbn [is_move]; (rewrite decide_False by done) || (rewrite decide_True by done; cbn [foldl]); apply IH; try exact E;
    cbn; unfold joined; by rewrite E.
Qed.

Lemma joined_frame w1 w2 p : m_channels w1 = m_channels w2 -> joined w1 p = joined w2 p.
Proof. unfold joined. by intros ->. Qed.
Lemma joined_joined w p ptr q : joined (Player_JoinedChannel p ptr w) q = if q =? p then joined w p ++ [ptr] else joined w q.
Proof.
  unfold joined at 1. cbn. destruct (Z.eqb_spec q p) as [->|]; [by rewrite lookup_insert_eq|by rewrite lookup_insert_ne].
Qed.
Lemma joined_left w p ptr q : joined (Player_LeftChannel p ptr w) q = if q =? p then set_del ptr (joined w p) else joined w q.
Proof.
  unfold joined at 1. cbn. destruct (Z.eqb_spec q p) as [->|]; [by rewrite lookup_insert_eq|by rewrite lookup_insert_ne].
Qed.

(** The world after a call: the channel is replaced, and the moves are applied. *)
Lemma call_spec ptr method w w' :
  call ptr method w = Ok w' ->
  exists c c', store w !! ptr = Some c /\ method c = Some c' /\ store w' = <[ptr := forget c']> (store w)
    /\ alliance w' = alliance w /\ horde w' = horde w /\ next_pointer w' = next_pointer w
    /\ m_channels w' = m_channels (foldl (apply_effect ptr) w (moves (trace c'))).
Proof.
  unfold call. destruct (store w !! ptr) as [c|] eqn:Ec; [|done]. destruct (method c) as [c'|] eqn:Em; [|done].
  intros [= <-]. exists c, c'. destruct (apply_effects_frame ptr (trace c') (set_store (<[ptr:=forget c']> (store w)) w)) as (-> & -> & -> & ->).
  repeat split; try done. by apply apply_effects_moves.
Qed.

Lemma manager_frame s w w' : alliance w' = alliance w -> horde w' = horde w -> manager s w' = manager s w.
Proof. by destruct s. Qed.

(** The part of the invariant that does not speak of the lists. *)
Lemma call_store_ok X Y ptr w w' c' :
  world_ok X w -> store w' = <[ptr := forget c']> (store w) -> is_Some (store w !! ptr) ->
  alliance w' = alliance w -> horde w' = horde w -> next_pointer w' = next_pointer w ->
  channel_ok c' -> guids_ok c' ->
  (forall p x, Some (p, x) <> Y -> x ∈ joined w' p -> exists c, store w' !! x = Some c /\ IsOn c p = true) ->
  (forall p, NoDup (joined w' p)) -> world_ok Y w'.
Proof.
  intros Hw Hs [c Hc] Ha Hh Hn Hok Hg Hl Hd. split; [done|done| | |].
  - intros s k x Hx. rewrite (manager_frame s w w') in Hx by done. apply (ok_named _ _ Hw) in Hx. rewrite Hs.
    destruct (Z.eq_dec x ptr) as [->|]; [by rewrite lookup_insert_eq|by rewrite lookup_insert_ne].
  - intros s k s' k' x. rewrite !(manager_frame _ w w') by done. apply (ok_once _ _ Hw).
  - intros x cx. rewrite Hs, Hn. destruct (Z.eq_dec x ptr) as [->|].
    + rewrite lookup_insert_eq. intros [= <-]. split; [by apply (ok_store _ _ Hw) in Hc as []|]. done.
    + rewrite lookup_insert_ne by done. apply (ok_store _ _ Hw).
Qed.

(** A method with a move that fits its effect on the members. *)
Lemma call_ok ptr method w w' :
  world_ok None w ->
  (forall c c', store w !! ptr = Some c -> trace c = [] -> channel_ok c -> guids_ok c -> method c = Some c' ->
     channel_ok c' /\ guids_ok c' /\ moved c c' (moves (trace c'))) ->
  call ptr method w = Ok w' -> world_ok None w'.
Proof.
  intros Hw Hm Hc. apply call_spec in Hc as (c & c' & Ec & Em & Es & Ea & Eh & En & Ej).
  destruct (ok_store _ _ Hw ptr c Ec) as (_ & Ht & Hok & Hg). destruct (Hm c c' Ec Ht Hok Hg Em) as (Hok' & Hg' & Hmv).
  assert (forall x, store w' !! x = if x =? ptr then Some (forget c') else store w !! x) as Hst.
  { intros x. rewrite Es. destruct (Z.eqb_spec x ptr) as [->|]; [by rewrite lookup_insert_eq|by rewrite lookup_insert_ne]. }
  assert (forall x p, x ∈ joined w p -> (x = ptr -> IsOn c p = true -> IsOn c' p = true) ->
    exists c, store w' !! x = Some c /\ IsOn c p = true) as Hkeep.
  { intros x p Hx Hk. destruct (ok_listed _ _ Hw p x) as (cx & Hcx & Hon); [done|done|]. rewrite Hst. destruct (Z.eqb_spec x ptr) as [->|]; [|by exists cx].
    exists (forget c'). split; [done|]. apply Hk; [done|]. congruence. }
  apply (call_store_ok None None ptr w w' c'); try done.
  - (* listed *)
    intros p x _ Hx. rewrite (joined_frame _ _ _ Ej) in Hx. inversion Hmv as [Hq E0|p0 Hp0 Hq E0|p0 Hq E0]; rewrite <- E0 in Hx; cbn [foldl apply_effect] in Hx.
    + apply Hkeep; [done|]. intros _. apply Hq.
    + rewrite joined_joined in Hx. destruct (Z.eqb_spec p p0) as [->|Hp].
      * apply elem_of_app in Hx as [Hx|Hx]; [apply Hkeep; [done|]; intros _ ?; apply Hq; by left|].
        apply list_elem_of_singleton in Hx as ->. exists (forget c'). rewrite Hst, Z.eqb_refl. split; [done|]. apply Hq. by right.
      * apply Hkeep; [done|]. intros _ ?. apply Hq. by left.
    + rewrite joined_left in Hx. destruct (Z.eqb_spec p p0) as [->|Hp]; [apply elem_of_set_del in Hx as [Hne Hx]; by apply Hkeep|].
      apply Hkeep; [done|]. intros _. by apply Hq.
  - (* no duplicates *)
    intros p. rewrite (joined_frame _ _ _ Ej). inversion Hmv as [Hq E0|p0 Hp0 Hq E0|p0 Hq E0]; cbn [foldl apply_effect].
    + apply (ok_nodup _ _ Hw).
    + rewrite joined_joined. destruct (Z.eqb_spec p p0) as [->|]; [|apply (ok_nodup _ _ Hw)]. apply NoDup_app.
      split; [apply (ok_nodup _ _ Hw)|]. split; [|apply NoDup_singleton]. intros x Hx ->%list_elem_of_singleton.
      destruct (ok_listed _ _ Hw p0 ptr) as (cx & Hcx & Hon); [done|done|]. congruence.
    + rewrite joined_left. destruct (Z.eqb_spec p p0) as [->|]; [|apply (ok_nodup _ _ Hw)]. apply NoDup_filter, (ok_nodup _ _ Hw).
Qed.

Lemma world_ok_listed p ptr w : world_ok (Some (p, ptr)) w -> ptr ∉ joined w p -> world_ok None w.
Proof.
  intros Hw Hn. destruct Hw as [H1 H2 H3 H4 H5]. split; try done. intros q x _ Hx.
  apply H1; [|done]. intros [= -> ->]. done.
Qed.

(** [Leave]: the pair of the player and the channel is left to the caller. *)
Lemma call_leave E ptr p send w w' :
  world_ok None w -> world_guids E -> guid_ok p -> call ptr (fun c => Some (Leave E p send c)) w = Ok w' ->
  world_ok (Some (p, ptr)) w' /\ is_Some (store w' !! ptr)
  /\ (joined w' p = joined w p \/ joined w' p = set_del ptr (joined w p))
  /\ (send = true -> FindPlayer E p <> None -> ptr ∉ joined w' p).
Proof.
  intros Hw HE Hp Hc. apply call_spec in Hc as (c & c' & Ec & [= Em] & Es & Ea & Eh & En & Ej).
  destruct (ok_store _ _ Hw ptr c Ec) as (_ & Ht & Hok & Hg).
  destruct (Leave_moves E p send c Ht) as (l & El & Hl & Hon & Hq). rewrite Em in *. rewrite El in Ej.
  assert (joined w' p = joined w p \/ joined w' p = set_del ptr (joined w p)) as Hj.
  { rewrite (joined_frame _ _ _ Ej). destruct Hl as [-> | ->]; [by left|right]. cbn [foldl apply_effect]. by rewrite joined_left, Z.eqb_refl. }
  assert (forall q, q <> p -> joined w' q = joined w q) as Hjq.
  { intros q Hne. rewrite (joined_frame _ _ _ Ej). destruct Hl as [-> | ->]; [done|]. cbn [foldl apply_effect]. rewrite joined_left.
    by rewrite (proj2 (Z.eqb_neq q p)). }
  assert (forall x, x ∈ joined w' p -> x ∈ joined w p) as Hsub.
  { intros x. destruct Hj as [-> | ->]; [done|]. by intros [_ ?]%elem_of_set_del. }
  assert (forall x, store w' !! x = if x =? ptr then Some (forget c') else store w !! x) as Hst.
  { intros x. rewrite Es. destruct (Z.eqb_spec x ptr) as [->|]; [by rewrite lookup_insert_eq|by rewrite lookup_insert_ne]. }
  split; [|split; [|split; [done|]]].
  - apply (call_store_ok None (Some (p, ptr)) ptr w w' c'); try done.
    + apply (exec_ok E (CLeave p send) c); [done|by rewrite <- Em].
    + apply (exec_guids E (CLeave p send) c); [done|by intros ? [= <-]|done|by rewrite <- Em].
    + intros q x HX Hx. rewrite Hst. destruct (Z.eq_dec q p) as [->|Hne].
      * assert (x <> ptr) as Hxp by congruence. rewrite (proj2 (Z.eqb_neq _ _) Hxp). apply (ok_listed _ _ Hw); [done|by apply Hsub].
      * rewrite Hjq in Hx by done. destruct (ok_listed _ _ Hw q x) as (cx & Hcx & Hc); [done|done|].
        destruct (Z.eqb_spec x ptr) as [->|]; [|by exists cx]. exists (forget c'). split; [done|]. apply Hq; [done|congruence].
    + intros q. destruct (Z.eq_dec q p) as [->|]; [|rewrite Hjq by done; apply (ok_nodup _ _ Hw)].
      destruct Hj as [-> | ->]; [apply (ok_nodup _ _ Hw)|apply NoDup_filter, (ok_nodup _ _ Hw)].
  - rewrite Hst, Z.eqb_refl. by eexists.
  - intros Hs Hf Hin. destruct (ok_listed _ _ Hw p ptr) as (cx & Hcx & Hc); [done|by apply Hsub|].
    assert (IsOn c p = true) as Hc' by congruence. rewrite (Hon Hc' Hs Hf) in Ej. rewrite (joined_frame _ _ _ Ej) in Hin.
    cbn [foldl apply_effect] in Hin. rewrite joined_left, Z.eqb_refl in Hin. by apply elem_of_set_del in Hin as [? _].
Qed.

Lemma Player_LeftChannel_ok p ptr w : world_ok (Some (p, ptr)) w -> world_ok None (Player_LeftChannel p ptr w).
Proof.
  intros Hw. apply (world_ok_listed p ptr); [|rewrite joined_left, Z.eqb_refl; by intros [? _]%elem_of_set_del].
  split; try apply Hw.
  - intros q x HX. rewrite joined_left. destruct (Z.eqb_spec q p) as [->|]; [|by apply (ok_listed _ _ Hw)].
    intros [_ Hx]%elem_of_set_del. by apply (ok_listed _ _ Hw).
  - intros q. rewrite joined_left. destruct (Z.eqb_spec q p) as [->|]; [apply NoDup_filter|]; apply (ok_nodup _ _ Hw).
Qed.

Lemma world_ok_frame X w w' :
  (forall s, channels (manager s w') = channels (manager s w)) -> store w' = store w -> next_pointer w' = next_pointer w ->
  m_channels w' = m_channels w -> world_ok X w -> world_ok X w'.
Proof.
  intros Hc Hs Hn Hj [H1 H2 H3 H4 H5]. split.
  - intros p ptr HX. rewrite (joined_frame _ _ _ Hj), Hs. by apply H1.
  - intros p. by rewrite (joined_frame _ _ _ Hj).
  - intros s k ptr. rewrite Hc, Hs. apply H3.
  - intros s k s' k' ptr. rewrite !Hc. apply H4.
  - intros ptr c. rewrite Hs, Hn. apply H5.
Qed.

Lemma setTeam_ok s t w : world_ok None w -> world_ok None (setTeam s t w).
Proof. apply world_ok_frame; [by destruct s; intros []|by destruct s..]. Qed.
Lemma add_log_ok e w : world_ok None w -> world_ok None (add_log e w).
Proof. by apply world_ok_frame; [intros []|..]. Qed.

Lemma new_channel_guids E row name id team : guids_ok (new_channel E row name id team).
Proof. unfold new_channel. repeat case_match; (split; [done|apply guid_ok_0]). Qed.

Lemma manager_set s s' m w : manager s' (set_manager s m w) = if decide (s' = s) then m else manager s' w.
Proof. by destruct s, s'. Qed.

Lemma GetJoinChannel_ok E s name id w ptr w' :
  world_ok None w -> GetJoinChannel E s name id w = Ok (ptr, w') ->
  world_ok None w' /\ m_channels w' = m_channels w
  /\ forall x c, store w !! x = Some c -> store w' !! x = Some c.
Proof.
  intros Hw. unfold GetJoinChannel. destruct (channel_key name) as [wname|]; [|done]. cbn [bind_result].
  destruct (channels (manager s w) !! wname) as [x|] eqn:Ek; [by intros [= <- <-]|]. intros [= <- <-].
  set (c := new_channel _ _ _ _ _).
  assert (forall x, is_Some (store w !! x) -> x <> next_pointer w) as Hfresh.
  { intros x [cx Hx] ->. apply (ok_store _ _ Hw) in Hx as [? _]. lia. }
  set (w1 := mkWorld _ _ (<[next_pointer w := forget c]> (store w)) _ _ _).
  assert (forall s' k x, channels (manager s' (set_manager s (mkManager (<[wname := next_pointer w]> (channels (manager s w))) (team (manager s w))) w1)) !! k = Some x ->
    (s' = s /\ k = wname /\ x = next_pointer w) \/ (channels (manager s' w) !! k = Some x /\ ~ (s' = s /\ k = wname))) as Hch.
  { intros s' k x. rewrite manager_set. destruct (decide (s' = s)) as [->|Hs].
    - cbn. destruct (decide (k = wname)) as [->|Hk]; [rewrite lookup_insert_eq; intros [= <-]; by left|].
      rewrite lookup_insert_ne by done. right. split; [done|]. by intros [_ ?].
    - intros Hx. right. split; [by destruct s'|]. by intros [? _]. }
  assert (forall s m, store (set_manager s m w1) = store w1 /\ next_pointer (set_manager s m w1) = next_pointer w + 1
    /\ m_channels (set_manager s m w1) = m_channels w) as Hf by (by intros []).
  destruct (Hf s (mkManager (<[wname := next_pointer w]> (channels (manager s w))) (team (manager s w)))) as (Hf1 & Hf2 & Hf3).
  assert (forall x c, store w !! x = Some c -> store w1 !! x = Some c) as Hold.
  { intros x cx Hx. cbn. rewrite lookup_insert_ne; [done|]. intros <-. by apply (Hfresh (next_pointer w)). }
  split; [|split; [done|by rewrite Hf1]]. split.
  - intros p x _. rewrite (joined_frame _ _ _ Hf3), Hf1. intros Hx. destruct (ok_listed _ _ Hw p x) as (cx & Hcx & Hon); [done|done|].
    exists cx. split; [by apply Hold|done].
  - intros p. rewrite (joined_frame _ _ _ Hf3). apply (ok_nodup _ _ Hw).
  - intros s' k x Hx. rewrite Hf1. apply Hch in Hx as [(_ & _ & ->)|[Hx _]]; [cbn; rewrite lookup_insert_eq; by eexists|].
    apply (ok_named _ _ Hw) in Hx as [cx Hx]. exists cx. by apply Hold.
  - intros s1 k1 s2 k2 x H1 H2. apply Hch in H1 as [(-> & -> & ->)|[H1 _]], H2 as [(-> & -> & E2)|[H2 _]]; try done.
    + apply (ok_named _ _ Hw) in H2. by destruct (Hfresh _ H2).
    + subst x. apply (ok_named _ _ Hw) in H1. by destruct (Hfresh _ H1).
    + by apply (ok_once _ _ Hw s1 k1 s2 k2 x).
  - intros x cx. rewrite Hf1, Hf2. cbn. destruct (decide (x = next_pointer w)) as [->|Hx].
    + rewrite lookup_insert_eq. intros [= <-]. split; [lia|]. split; [done|]. split; [apply new_channel_ok|apply new_channel_guids].
    + rewrite lookup_insert_ne by done. intros Hcx. apply (ok_store _ _ Hw) in Hcx as (? & ? & ? & ?). split; [lia|done].
Qed.

Lemma GetChannel_ok s name p w ptr w' :
  world_ok None w -> GetChannel s name p w = Ok (ptr, w') ->
  world_ok None w' /\ m_channels w' = m_channels w /\ store w' = store w.
Proof.
  intros Hw. unfold GetChannel. destruct (channel_key name); [|done]. cbn [bind_result].
  destruct (_ !! _); intros [= <- <-]; [done|]. split; [by apply add_log_ok|done].
Qed.

(** A channel in a list is not deleted, as it has a member. *)
Lemma LeftChannel_ok s name w w' :
  world_ok None w -> LeftChannel s name w = Ok w' -> world_ok None w' /\ m_channels w' = m_channels w.
Proof.
  intros Hw. unfold LeftChannel. destruct (channel_key name) as [wname|]; [|done]. cbn [bind_result].
  destruct (channels (manager s w) !! wname) as [ptr|] eqn:Ek; [|by intros [= <-]]. unfold GetChannelAt.
  destruct (store w !! ptr) as [c|] eqn:Ec; [|done]. cbn [bind_result].
  destruct ((GetNumPlayers c =? 0) && negb (IsConstant c)) eqn:E0; [|by intros [= <-]]. intros [= <-].
  apply andb_true_iff in E0 as [E0 _]. apply Z.eqb_eq in E0.
  destruct (ok_store _ _ Hw ptr c Ec) as (_ & _ & (Hs & _) & Hg). apply GetNumPlayers_zero in E0; [|done|done].
  set (w1 := set_manager s _ w).
  assert (store w1 = store w /\ next_pointer w1 = next_pointer w /\ m_channels w1 = m_channels w) as (H1 & H2 & H3) by (unfold w1; by destruct s).
  split; [|unfold set_store; cbn; exact H3].
  assert (forall s' k x, channels (manager s' (set_store (delete ptr (store w1)) w1)) !! k = Some x -> channels (manager s' w) !! k = Some x /\ x <> ptr) as Hch.
  { intros s' k x Hx. assert (channels (manager s' w1) !! k = Some x) as Hx' by (by destruct s'). unfold w1 in Hx'. rewrite manager_set in Hx'.
    assert (channels (manager s' w) !! k = Some x /\ ~ (s' = s /\ k = wname)) as [Hy Hn].
    { destruct (decide (s' = s)) as [->|Hs']; [|split; [done|by intros [? _]]]. cbn in Hx'.
      destruct (decide (k = wname)) as [->|Hk]; [by rewrite lookup_delete_eq in Hx'|]. rewrite lookup_delete_ne in Hx' by done.
      split; [done|by intros [_ ?]]. }
    split; [done|]. intros ->. apply Hn. by apply (ok_once _ _ Hw s' k s wname ptr). }
  split.
  - intros p x _ Hx. assert (x ∈ joined w p) as Hx' by (unfold joined in *; cbn in Hx; by rewrite H3 in Hx).
    destruct (ok_listed _ _ Hw p x) as (cx & Hcx & Hon); [done|done|]. exists cx. split; [|done]. cbn. rewrite H1.
    rewrite lookup_delete_ne; [done|]. intros <-. rewrite Ec in Hcx. injection Hcx as <-. unfold IsOn in Hon. by rewrite E0 in Hon.
  - intros p. assert (joined (set_store (delete ptr (store w1)) w1) p = joined w p) as -> by (unfold joined; cbn; by rewrite H3).
    apply (ok_nodup _ _ Hw).
  - intros s' k x Hx. apply Hch in Hx as [Hx Hne]. apply (ok_named _ _ Hw) in Hx as [cx Hx]. exists cx. cbn. rewrite H1.
    by rewrite lookup_delete_ne.
  - intros s1 k1 s2 k2 x [Hx1 _]%Hch [Hx2 _]%Hch. by apply (ok_once _ _ Hw s1 k1 s2 k2 x).
  - intros x cx. cbn. rewrite H1, H2. intros [_ Hcx]%lookup_delete_Some. by apply (ok_store _ _ Hw).
Qed.

(** ** No use of a deleted channel *)

(** The result is not the fault of a deleted channel, and what is returned has [P]. *)
Definition safe {A} (P : A -> Prop) (m : result world_fault A) : Prop := ensures (fun f => f <> DeletedChannel) P m.

Lemma safe_bind {A B} (P : A -> Prop) (Q : B -> Prop) (m : result world_fault A) (k : A -> result world_fault B) :
  safe P m -> (forall a, P a -> safe Q (k a)) -> safe Q (bind_result m k).
Proof. apply ensures_bind. Qed.
Lemma safe_weaken {A} (P Q : A -> Prop) (m : result world_fault A) : safe P m -> (forall a, P a -> Q a) -> safe Q m.
Proof. apply ensures_weaken. Qed.

Lemma safe_channel_key name : safe (fun _ => True) (channel_key name).
Proof. unfold channel_key. by destruct (Utf8toWStr name []) as [[]|]. Qed.
Lemma safe_session_player E p : safe (fun pl => FindPlayer (base E) p = Some pl) (session_player E p).
Proof. unfold session_player. destruct (FindPlayer (base E) p) eqn:H; cbn; done. Qed.

Lemma safe_call ptr method w :
  is_Some (store w !! ptr) -> safe (fun w' => call ptr method w = Ok w') (call ptr method w).
Proof. intros [c Hc]. unfold call. rewrite Hc. by destruct (method c). Qed.
Lemma safe_GetJoinChannel E s name id w :
  safe (fun r => GetJoinChannel E s name id w = Ok r) (GetJoinChannel E s name id w).
Proof. unfold GetJoinChannel. pose proof (safe_channel_key name) as H. destruct (channel_key name); [|done]. cbn. by destruct (_ !! _). Qed.
Lemma safe_GetChannel s name p w : safe (fun r => GetChannel s name p w = Ok r) (GetChannel s name p w).
Proof. unfold GetChannel. pose proof (safe_channel_key name) as H. destruct (channel_key name); [|done]. cbn. by destruct (_ !! _). Qed.
Lemma safe_GetChannelAt w ptr c : store w !! ptr = Some c -> safe (fun x => x = c) (GetChannelAt ptr w).
Proof. unfold GetChannelAt. by intros ->. Qed.

(** The pointer that is found or made leads to a channel. *)
Lemma GetJoinChannel_alive E s name id w ptr w' :
  GetJoinChannel E s name id w = Ok (ptr, w') -> world_ok None w -> is_Some (store w' !! ptr).
Proof.
  intros Hg Hw. revert Hg. unfold GetJoinChannel. destruct (channel_key name) as [wname|]; [|done]. cbn [bind_result].
  destruct (channels (manager s w) !! wname) as [x|] eqn:Ek; [intros [= <- <-]; by apply (ok_named _ _ Hw s wname)|].
  intros [= <- <-]. destruct s; cbn; rewrite lookup_insert_eq; by eexists.
Qed.
Lemma GetChannel_alive s name p w ptr w' :
  GetChannel s name p w = Ok (Some ptr, w') -> world_ok None w -> is_Some (store w' !! ptr).
Proof.
  intros Hg Hw. revert Hg. unfold GetChannel. destruct (channel_key name) as [wname|]; [|done]. cbn [bind_result].
  destruct (channels (manager s w) !! wname) as [x|] eqn:Ek; [intros [= <- <-]; by apply (ok_named _ _ Hw s wname)|done].
Qed.

Lemma safe_LeftChannel s name w : world_ok None w -> safe (fun w' => world_ok None w' /\ m_channels w' = m_channels w) (LeftChannel s name w).
Proof.
  intros Hw. destruct (LeftChannel s name w) as [w'|f] eqn:E; [by eapply LeftChannel_ok|]. intros ->. unfold LeftChannel in E.
  pose proof (safe_channel_key name) as Hk. destruct (channel_key name) as [wname|f]; [|by injection E as ->]. cbn [bind_result] in E.
  destruct (channels (manager s w) !! wname) as [ptr|] eqn:Ek; [|done]. apply (ok_named _ _ Hw) in Ek as [c Hc].
  unfold GetChannelAt in E. rewrite Hc in E. cbn in E. by destruct (_ && _).
Qed.

(** A command that is not [Leave], on a channel. *)
Lemma call_command_ok E cmd ptr w :
  world_ok None w -> world_guids E -> (forall p, issuer cmd = Some p -> guid_ok p) -> (forall p send, cmd <> CLeave p send) ->
  is_Some (store w !! ptr) -> safe (world_ok None) (call ptr (exec E cmd) w).
Proof.
  intros Hw HE Hp Hl Hs. eapply safe_weaken; [by apply safe_call|]. intros w' Hc. eapply call_ok; [done| |exact Hc].
  intros c c' _ Ht Hok Hg He. split; [by eapply exec_ok|]. split; [by eapply exec_guids|]. by eapply exec_moved.
Qed.

Section handlers.
Context (E : CEnv) (HE : world_guids (base E)).

Lemma on_channel_ok p name (cmd : Player -> command) w :
  world_ok None w -> (forall pl, issuer (cmd pl) = Some p \/ issuer (cmd pl) = None) -> (forall pl q send, cmd pl <> CLeave q send) ->
  safe (world_ok None) (on_channel E p name (fun pl c => exec (base E) (cmd pl) c) w).
Proof.
  intros Hw Hi Hl. unfold on_channel. eapply safe_bind; [apply safe_session_player|]. intros pl Hpl. cbv beta in *.
  destruct (forTeam E (GetTeam pl)) as [s|]; [|done]. eapply safe_bind; [apply safe_GetChannel|]. intros [chn w1] Hg.
  destruct (GetChannel_ok _ _ _ _ _ _ Hw Hg) as (Hw1 & _ & _). destruct chn as [ptr|]; [|done].
  apply call_command_ok; [done|done| |by intros; apply Hl|by eapply GetChannel_alive; [exact Hg|]].
  intros q Hq. destruct (Hi pl) as [Hi'|Hi']; [|congruence]. assert (q = p) as -> by congruence. by eapply FindPlayer_guid.
Qed.

Lemma with_name_ok name w k : world_ok None w -> (forall n, safe (world_ok None) (k n)) -> safe (world_ok None) (with_name name w k).
Proof. intros Hw Hk. unfold with_name. destruct (normalizePlayerName name) as [[[] n]|]; [apply Hk|done|done]. Qed.

Lemma HandleJoinChannel_ok p id name pass w : world_ok None w -> safe (world_ok None) (HandleJoinChannel E p id name pass w).
Proof.
  intros Hw. unfold HandleJoinChannel. eapply safe_bind; [apply safe_session_player|]. intros pl Hpl. cbv beta in *.
  destruct (negb (may_join E p id)); [done|]. case_decide; [done|]. destruct (forTeam E (GetTeam pl)) as [s|]; [|done]. cbv zeta.
  pose proof (setTeam_ok s (GetTeam pl) w Hw) as Hw0. eapply safe_bind; [apply safe_GetJoinChannel|]. intros [ptr w1] Hg.
  destruct (GetJoinChannel_ok _ _ _ _ _ _ _ Hw0 Hg) as (Hw1 & _ & _).
  apply (call_command_ok (base E) (CJoin p pass)); [done|done| |done|by eapply GetJoinChannel_alive; [exact Hg|]].
  intros q [= <-]. by eapply FindPlayer_guid.
Qed.

Lemma HandleLeaveChannel_ok p name w : world_ok None w -> safe (world_ok None) (HandleLeaveChannel E p name w).
Proof.
  intros Hw. unfold HandleLeaveChannel. eapply safe_bind; [apply safe_session_player|]. intros pl Hpl. cbv beta in *. case_decide; [done|].
  destruct (forTeam E (GetTeam pl)) as [s|]; [|done]. eapply safe_bind; [apply safe_GetChannel|]. intros [chn w1] Hg.
  destruct (GetChannel_ok _ _ _ _ _ _ Hw Hg) as (Hw1 & _ & _).
  apply (safe_bind (world_ok None)); [|intros w2 Hw2; eapply safe_weaken; [by apply safe_LeftChannel|by intros ? [? _]]].
  destruct chn as [ptr|]; [|done]. eapply safe_weaken; [by apply safe_call; eapply GetChannel_alive; [exact Hg|]|]. intros w2 Hc.
  apply call_leave in Hc as (H1 & _ & _ & H2); [|done|done|by eapply FindPlayer_guid]. eapply world_ok_listed; [done|].
  apply H2; [done|]. by rewrite Hpl.
Qed.

Lemma cleanup_loop_ok p team l w :
  guid_ok p -> world_ok None w -> joined w p = l -> safe (world_ok None) (cleanup_loop E p team l w).
Proof.
  intros Hp. revert w. induction l as [|ch l IH]; intros w Hw Hl; [done|]. cbn [cleanup_loop]. cbv zeta.
  set (w1 := set_m_channels _ w).
  assert (joined w1 p = l) as Hj by (unfold joined; cbn; by rewrite lookup_insert_eq).
  assert (forall q, q <> p -> joined w1 q = joined w q) as Hjq by (intros q Hq; unfold joined at 1; cbn; by rewrite lookup_insert_ne).
  pose proof (ok_nodup _ _ Hw p) as Hnd. rewrite Hl in Hnd. apply NoDup_cons in Hnd as [Hch Hnd].
  assert (world_ok None w1) as Hw1.
  { split; try apply Hw.
    - intros q x _ Hx. destruct (Z.eq_dec q p) as [->|Hq]; [|rewrite Hjq in Hx by done; by apply (ok_listed _ _ Hw)].
      apply (ok_listed _ _ Hw); [done|]. rewrite Hl. right. by rewrite <- Hj.
    - intros q. destruct (Z.eq_dec q p) as [->|Hq]; [by rewrite Hj|]. rewrite Hjq by done. apply (ok_nodup _ _ Hw). }
  destruct (ok_listed _ _ Hw p ch) as (c & Hc & _); [done|rewrite Hl; by left|].
  eapply safe_bind; [apply safe_call; by exists c|]. intros w2 Hcall.
  apply call_leave in Hcall as (H1 & [c2 Hc2] & H3 & _); [|done|done|done].
  assert (joined w2 p = l) as Hj2 by (destruct H3 as [-> | ->]; rewrite Hj; [done|]; by apply filter_all; intros x Hx ->).
  assert (world_ok None w2) as Hw2 by (eapply world_ok_listed; [done|by rewrite Hj2]).
  apply (safe_bind (fun w => world_ok None w /\ joined w p = l)); [|intros w3 [Hw3 Hj3]; by apply IH].
  destruct (forTeam E team) as [s|]; [|done]. eapply safe_bind; [by apply safe_GetChannelAt|]. intros c3 ->.
  eapply safe_weaken; [by apply safe_LeftChannel|]. intros w3 [Hw3 Hm]. split; [done|]. by rewrite (joined_frame _ _ _ Hm).
Qed.

Lemma used_channel_ok id p l w :
  world_ok None w -> (forall x, x ∈ l -> x ∈ joined w p) ->
  safe (fun r => match r with Some ptr => ptr ∈ joined w p | None => True end) (used_channel id l w).
Proof.
  intros Hw. induction l as [|ch l IH]; intros Hl; [done|]. cbn [used_channel].
  destruct (ok_listed _ _ Hw p ch) as (c & Hc & _); [done|apply Hl; by left|].
  eapply safe_bind; [by apply safe_GetChannelAt|]. intros c1 ->. destruct (m_channelId c =? id); [apply Hl; by left|].
  apply IH. intros x Hx. apply Hl. by right.
Qed.
Lemma lfg_channel_ok p l w :
  world_ok None w -> (forall x, x ∈ l -> x ∈ joined w p) ->
  safe (fun r => match r with Some ptr => ptr ∈ joined w p | None => True end) (lfg_channel l w).
Proof.
  intros Hw. induction l as [|ch l IH]; intros Hl; [done|]. cbn [lfg_channel].
  destruct (ok_listed _ _ Hw p ch) as (c & Hc & _); [done|apply Hl; by left|].
  eapply safe_bind; [by apply safe_GetChannelAt|]. intros c1 ->. destruct (IsLFG c); [apply Hl; by left|].
  apply IH. intros x Hx. apply Hl. by right.
Qed.

Lemma join_local_ok p ch w : guid_ok p -> world_ok None w -> is_Some (store w !! ch) ->
  safe (fun w' => world_ok None w' /\ forall x, is_Some (store w !! x) -> is_Some (store w' !! x)) (join_local E p ch w).
Proof.
  intros Hp Hw Hs. pose proof (call_command_ok (base E) (CJoin p []) ch w Hw HE) as H. unfold join_local.
  destruct (call ch _ w) as [w'|f] eqn:Ec.
  - split; [|intros x Hx].
    + apply H; [by intros ? [= <-]|done|done].
    + apply call_spec in Ec as (c & c' & _ & _ & -> & _). destruct (Z.eq_dec x ch) as [->|];
        [rewrite lookup_insert_eq; by eexists|by rewrite lookup_insert_ne].
  - apply H; [by intros ? [= <-]|done|done].
Qed.

Lemma leave_local_ok s p ch send w : guid_ok p -> world_ok None w -> is_Some (store w !! ch) ->
  safe (world_ok None) (leave_local E s p ch send w).
Proof.
  intros Hp Hw Hs. unfold leave_local. eapply safe_bind; [by apply safe_call|]. intros w1 Hc.
  apply call_leave in Hc as (H1 & [c Hc] & _); [|done|done|done]. eapply safe_bind; [by apply safe_GetChannelAt|]. intros c1 ->. cbv zeta.
  eapply safe_weaken; [apply safe_LeftChannel; by apply Player_LeftChannel_ok|by intros ? [? _]].
Qed.

Lemma update_local_ok s p zone id channel w : guid_ok p -> world_ok None w -> safe (world_ok None) (update_local E s p zone id channel w).
Proof.
  intros Hp Hw. unfold update_local. eapply safe_bind; [by apply (used_channel_ok id p)|]. intros used Hu.
  assert (forall ch, used = Some ch -> is_Some (store w !! ch)) as Hs.
  { intros ch ->. destruct (ok_listed _ _ Hw p ch) as (c & Hc & _); [done|done|]. by exists c. }
  destruct (CanJoinConstantChannelInZone E p channel zone).
  - destruct (has channel CHANNEL_DBC_FLAG_GLOBAL).
    { eapply safe_bind; [apply safe_GetJoinChannel|]. intros [ptr w1] Hg. destruct (GetJoinChannel_ok _ _ _ _ _ _ _ Hw Hg) as (Hw1 & _).
      eapply safe_weaken; [apply join_local_ok; [done|done|by eapply GetJoinChannel_alive; [exact Hg|]]|by intros ? [? _]]. }
    destruct (_ && _); [done|].
    eapply safe_bind; [apply safe_GetJoinChannel|]. intros [ptr w1] Hg. destruct (GetJoinChannel_ok _ _ _ _ _ _ _ Hw Hg) as (Hw1 & _ & Hst).
    pose proof (GetJoinChannel_alive _ _ _ _ _ _ _ Hg Hw) as Hal. destruct used as [u|].
    + destruct (ptr =? u); [done|]. eapply safe_bind; [by apply join_local_ok|]. intros w2 [Hw2 Hst2].
      apply leave_local_ok; [done|done|]. apply Hst2. destruct (Hs u eq_refl) as [cu Hcu]. exists cu. by apply Hst.
    + eapply safe_weaken; [by apply join_local_ok|by intros ? [? _]].
  - destruct used as [u|]; [|done]. apply leave_local_ok; [done|done|by apply Hs].
Qed.

Lemma local_loop_ok s p zone l w : guid_ok p -> world_ok None w -> safe (world_ok None) (local_loop E s p zone l w).
Proof.
  intros Hp. revert w. induction l as [|[id ch] l IH]; intros w Hw; [done|]. cbn [local_loop].
  apply (safe_bind (world_ok None)); [by apply update_local_ok|apply IH].
Qed.

End handlers.

(** ** The realm *)

(** What the server does: the handlers, and what the player's object does. *)
Inductive request :=
| Join_ (p id : Z) (name pass : list Z) | Leave_ (p : Z) (name : list Z) | List_ (p : Z) (name : list Z)
| Password_ (p : Z) (name pass : list Z) | SetOwner_ (p : Z) (name newp : list Z) | Owner_ (p : Z) (name : list Z)
| Moderator_ (p : Z) (name otp : list Z) | Unmoderator_ (p : Z) (name otp : list Z)
| Mute_ (p : Z) (name otp : list Z) | Unmute_ (p : Z) (name otp : list Z)
| Invite_ (p : Z) (name otp : list Z) | Kick_ (p : Z) (name otp : list Z) | Ban_ (p : Z) (name otp : list Z) | Unban_ (p : Z) (name otp : list Z)
| Announcements_ (p : Z) (name : list Z) | MemberCount_ (p : Z) (name : list Z) | Say_ (p : Z) (name msg : list Z) (lang : Z)
| Cleanup_ (p team_ : Z) | UpdateLocal_ (p team_ : Z) (zone : option Z) (loading : bool) | LeaveLFG_ (p : Z).

Definition perform (E : CEnv) (r : request) (w : World) : result world_fault World :=
  match r with
  | Join_ p id name pass => HandleJoinChannel E p id name pass w
  | Leave_ p name => HandleLeaveChannel E p name w
  | List_ p name => HandleChannelList E p name w
  | Password_ p name pass => HandleChannelPassword E p name pass w
  | SetOwner_ p name newp => HandleChannelSetOwner E p name newp w
  | Owner_ p name => HandleChannelOwner E p name w
  | Moderator_ p name otp => HandleChannelModerator E p name otp w
  | Unmoderator_ p name otp => HandleChannelUnmoderator E p name otp w
  | Mute_ p name otp => HandleChannelMute E p name otp w
  | Unmute_ p name otp => HandleChannelUnmute E p name otp w
  | Invite_ p name otp => HandleChannelInvite E p name otp w
  | Kick_ p name otp => HandleChannelKick E p name otp w
  | Ban_ p name otp => HandleChannelBan E p name otp w
  | Unban_ p name otp => HandleChannelUnban E p name otp w
  | Announcements_ p name => HandleChannelAnnouncements E p name w
  | MemberCount_ p name => HandleGetChannelMemberCount E p name w
  | Say_ p name msg lang => say_on_channel E p name msg lang w
  | Cleanup_ p team_ => CleanupChannels E p team_ w
  | UpdateLocal_ p team_ zone loading => UpdateLocalChannels E p team_ zone loading w
  | LeaveLFG_ p => LeaveLFGChannel E p w
  end.

Definition empty_world : World := mkWorld (mkManager ∅ 0) (mkManager ∅ 0) ∅ 0 ∅ [].

(** The guids of the environment and of the player whose object acts. *)
Definition request_ok (E : CEnv) (r : request) : Prop :=
  world_guids (base E)
  /\ match r with
     | Cleanup_ p _ | UpdateLocal_ p _ _ _ => guid_ok p
     | LeaveLFG_ p => FindPlayer (base E) p <> None
     | _ => True
     end.

Inductive reachable : World -> Prop :=
| reachable_start : reachable empty_world
| reachable_step E r w w' : reachable w -> request_ok E r -> perform E r w = Ok w' -> reachable w'.

Lemma member_count_ok E p name w :
  world_guids (base E) -> world_ok None w -> safe (world_ok None) (HandleGetChannelMemberCount E p name w).
Proof.
  intros HE Hw. unfold HandleGetChannelMemberCount, on_channel. eapply safe_bind; [apply safe_session_player|]. intros pl Hpl. cbv beta in *.
  destruct (forTeam E (GetTeam pl)) as [s|]; [|done]. eapply safe_bind; [apply safe_GetChannel|]. intros [chn w1] Hg.
  destruct (GetChannel_ok _ _ _ _ _ _ Hw Hg) as (Hw1 & _ & _). destruct chn as [ptr|]; [|done].
  eapply safe_weaken; [apply safe_call; by eapply GetChannel_alive; [exact Hg|]|]. intros w2 Hc. eapply call_ok; [exact Hw1| |exact Hc].
  intros c c' _ Ht Hok Hgu [= <-]. split; [done|]. split; [done|]. cbn. rewrite Ht. by apply moved_none.
Qed.

Lemma LeaveLFGChannel_ok E p w :
  world_guids (base E) -> FindPlayer (base E) p <> None -> world_ok None w -> safe (world_ok None) (LeaveLFGChannel E p w).
Proof.
  intros HE Hp Hw. unfold LeaveLFGChannel. eapply safe_bind; [by apply (lfg_channel_ok p)|]. intros [ch|] Hch; [|done].
  destruct (ok_listed _ _ Hw p ch) as (c & Hc & _); [done|done|]. eapply safe_weaken; [apply safe_call; by exists c|]. intros w' Hcall.
  destruct (FindPlayer (base E) p) as [pl|] eqn:Ep; [|done].
  apply call_leave in Hcall as (H1 & _ & _ & H2); [|done|done|by eapply FindPlayer_guid]. eapply world_ok_listed; [done|].
  apply H2; [done|]. by rewrite Ep.
Qed.

Lemma perform_safe E r w : world_ok None w -> request_ok E r -> safe (world_ok None) (perform E r w).
Proof.
  intros Hw [HE Hr]. assert (forall p name cmd, (issuer cmd = Some p \/ issuer cmd = None) -> (forall q send, cmd <> CLeave q send) ->
    safe (world_ok None) (on_channel E p name (fun _ c => exec (base E) cmd c) w)) as Hc.
  { intros p name cmd Hi Hl. by apply (on_channel_ok E HE p name (fun _ => cmd)). }
  destruct r; cbn [perform].
  - by apply HandleJoinChannel_ok.
  - by apply HandleLeaveChannel_ok.
  - apply (on_channel_ok E HE p name (fun pl => CList p pl)); [done|by left|done].
  - apply (Hc p name (CPassword p pass)); [by left|done].
  - apply with_name_ok; [done|]. intros n. apply (Hc p name (CSetOwner p n)); [by left|done].
  - apply (Hc p name (CSendWhoOwner p)); [by left|done].
  - apply with_name_ok; [done|]. intros n. apply (Hc p name (CSetMode p n true true)); [by left|done].
  - apply with_name_ok; [done|]. intros n. apply (Hc p name (CSetMode p n true false)); [by left|done].
  - apply with_name_ok; [done|]. intros n. apply (Hc p name (CSetMode p n false true)); [by left|done].
  - apply with_name_ok; [done|]. intros n. apply (Hc p name (CSetMode p n false false)); [by left|done].
  - apply with_name_ok; [done|]. intros n. apply (Hc p name (CInvite p n)); [by left|done].
  - apply with_name_ok; [done|]. intros n. apply (Hc p name (CKickOrBan p n false)); [by left|done].
  - apply with_name_ok; [done|]. intros n. apply (Hc p name (CKickOrBan p n true)); [by left|done].
  - apply with_name_ok; [done|]. intros n. apply (Hc p name (CUnBan p n)); [by left|done].
  - apply (Hc p name (CAnnounce p)); [by left|done].
  - by apply member_count_ok.
  - apply (Hc p name (CSay p (Some msg) lang)); [by left|done].
  - by apply (cleanup_loop_ok E HE).
  - unfold UpdateLocalChannels. destruct loading; [done|]. destruct zone as [z|]; [|done]. destruct (forTeam E team_); [|done]. by apply (local_loop_ok E HE).
  - by apply LeaveLFGChannel_ok.
Qed.

Lemma empty_world_ok : world_ok None empty_world.
Proof.
  split.
  - intros p ptr _ H. unfold joined in H. cbn in H. rewrite lookup_empty in H. by apply elem_of_nil in H.
  - intros p. unfold joined. cbn. rewrite lookup_empty. constructor.
  - intros [] k ptr; cbn; by rewrite lookup_empty.
  - intros [] k s' k' ptr; cbn; by rewrite lookup_empty.
  - intros ptr c. cbn. by rewrite lookup_empty.
Qed.

Lemma channel_reachable_ok w : reachable w -> world_ok None w.
Proof.
  induction 1 as [|E r w w' _ IH Hr Hp]; [apply empty_world_ok|]. pose proof (perform_safe E r w IH Hr) as Hs. by rewrite Hp in Hs.
Qed.

(** C15: whatever the players do, every channel in a player's list exists and has the
    player as a member, is in the list once, and no name leads to a channel that has
    been deleted. *)
Theorem listed_channels_exist w :
  reachable w ->
  (forall p ptr, ptr ∈ joined w p -> exists c, store w !! ptr = Some c /\ IsOn c p = true)
  /\ (forall p, NoDup (joined w p))
  /\ (forall s k ptr, channels (manager s w) !! k = Some ptr -> is_Some (store w !! ptr)).
Proof.
  intros Hr%channel_reachable_ok. split; [|split; [apply (ok_nodup _ _ Hr)|apply (ok_named _ _ Hr)]]. intros p ptr. by apply (ok_listed _ _ Hr).
Qed.

(** C18: no request ever uses a channel that has been deleted, though channels are
    deleted when their last member leaves while players and managers hold pointers
    to them. *)
Theorem no_deleted_channel E r w : reachable w -> request_ok E r -> perform E r w <> Throw DeletedChannel.
Proof.
  intros Hr%channel_reachable_ok Hq Hp. pose proof (perform_safe E r w Hr Hq) as Hs. by rewrite Hp in Hs.
Qed.

(** ** Leaving the realm *)

Lemma IsOn_frame c c' q : players c = players c' -> IsOn c q = IsOn c' q.
Proof. unfold IsOn. by intros ->. Qed.
Lemma IsOn_update p f c q : q <> p -> IsOn (update_info p f c) q = IsOn c q.
Proof. intros Hq. unfold IsOn. rewrite update_info_find. by rewrite (proj2 (Z.eqb_neq _ _) Hq). Qed.

Lemma IsOn_SetOwner E g b c q : q <> g -> IsOn c q = false -> IsOn (SetOwner E g b c) q = false.
Proof.
  intros Hq H0. destruct (Z.eq_dec g 0) as [->|Hg].
  { unfold SetOwner. cbn [Z.eqb]. destruct (m_ownerGUID c =? 0); [done|]. destruct (IsOn c (m_ownerGUID c)) eqn:Eo; [|done].
    change (IsOn (update_info (m_ownerGUID c) (SetOwner_flag false) c) q = false). rewrite IsOn_update; [done|]. intros ->. congruence. }
  rewrite (IsOn_frame _ _ q (channel_core_players _ _ (core_SetOwner E g b c Hg))). rewrite IsOn_update by done.
  destruct ((m_ownerGUID c =? 0) || negb (IsOn c (m_ownerGUID c))) eqn:Eo; [done|].
  change (IsOn (update_info (m_ownerGUID c) (SetOwner_flag false) c) q = false). rewrite IsOn_update; [done|]. intros ->.
  rewrite H0 in Eo. by rewrite orb_true_r in Eo.
Qed.

(** Who leaves is off the channel. *)
Lemma Leave_off E p send c : p <> 0 -> guids_ok c -> IsOn (Leave E p send c) p = false.
Proof.
  intros Hp [Hg _]. unfold Leave. destruct (IsOn c p) eqn:Eon; cbn [negb]; [|by destruct send].
  assert (players (depart E p send c) = map_erase p (players c)) as Ed by apply (channel_core_players _ _ (core_depart E p send c)).
  assert (IsOn (depart E p send c) p = false) as Hoff by (unfold IsOn; by rewrite Ed, map_find_erase).
  unfold next_owner. destruct (IsConstant _); [done|]. cbv zeta. cbn [UpdateChannelUseageInDB emit players]. rewrite Ed.
  destruct (map_erase p (players c)) as [|[g first] l] eqn:El; [exact Hoff|]. destruct (_ && _); [|exact Hoff].
  assert (map_find g (map_erase p (players c)) = Some first) as Hf by (rewrite El; cbn; by rewrite Z.eqb_refl).
  assert (g <> p) as Hgp by (intros ->; by rewrite map_find_erase in Hf). rewrite map_find_erase_ne in Hf by done.
  assert (p <> player_of first) as Hne by (destruct (Hg g first Hf) as [_ [-> | ->]]; congruence).
  apply IsOn_SetOwner; [done|]. by rewrite IsOn_update.
Qed.

Lemma LeftChannel_store s name w w' x c : LeftChannel s name w = Ok w' -> store w' !! x = Some c -> store w !! x = Some c.
Proof.
  unfold LeftChannel. destruct (channel_key name) as [wname|]; [|done]. cbn [bind_result].
  destruct (channels (manager s w) !! wname) as [ptr|]; [|by intros [= <-]]. unfold GetChannelAt.
  destruct (store w !! ptr) as [c0|]; [|done]. cbn [bind_result]. destruct (_ && _); intros [= <-]; [|done]. cbn.
  intros [_ H]%lookup_delete_Some. by destruct s.
Qed.

Lemma cleanup_loop_off E p team l w w' :
  world_guids (base E) -> guid_ok p -> p <> 0 -> world_ok None w -> joined w p = l -> cleanup_loop E p team l w = Ok w' ->
  joined w' p = [] /\
  forall x c, store w' !! x = Some c -> IsOn c p = true -> x ∉ l /\ (exists c0, store w !! x = Some c0 /\ IsOn c0 p = true).
Proof.
  intros HE Hp Hp0. revert w. induction l as [|ch l IH]; intros w Hw Hl.
  { intros [= <-]. split; [done|]. intros x c Hc Hon. split; [apply not_elem_of_nil|]. by exists c. }
  cbn [cleanup_loop]. cbv zeta. set (w1 := set_m_channels _ w).
  assert (joined w1 p = l) as Hj by (unfold joined; cbn; by rewrite lookup_insert_eq).
  assert (forall q, q <> p -> joined w1 q = joined w q) as Hjq by (intros q Hq; unfold joined at 1; cbn; by rewrite lookup_insert_ne).
  pose proof (ok_nodup _ _ Hw p) as Hnd. rewrite Hl in Hnd. apply NoDup_cons in Hnd as [Hch Hnd].
  assert (world_ok None w1) as Hw1.
  { split; try apply Hw.
    - intros q x _ Hx. destruct (Z.eq_dec q p) as [->|Hq]; [|rewrite Hjq in Hx by done; by apply (ok_listed _ _ Hw)].
      apply (ok_listed _ _ Hw); [done|]. rewrite Hl. right. by rewrite <- Hj.
    - intros q. destruct (Z.eq_dec q p) as [->|Hq]; [by rewrite Hj|]. rewrite Hjq by done. apply (ok_nodup _ _ Hw). }
  destruct (call ch _ w1) as [w2|] eqn:Hcall; [|done]. cbn [bind_result].
  pose proof (call_spec _ _ _ _ Hcall) as (c0 & c1 & Hc0 & [= Hc1] & Hst & _).
  apply call_leave in Hcall as (H1 & [c2 Hc2] & H3 & _); [|done|done|done].
  assert (joined w2 p = l) as Hj2 by (destruct H3 as [-> | ->]; rewrite Hj; [done|]; by apply filter_all; intros x Hx ->).
  assert (world_ok None w2) as Hw2 by (eapply world_ok_listed; [done|by rewrite Hj2]).
  set (m := match forTeam E team with Some _ => _ | None => _ end). destruct m as [w3|] eqn:Em; [|done]. cbn [bind_result].
  assert (world_ok None w3 /\ joined w3 p = l /\ forall x c, store w3 !! x = Some c -> store w2 !! x = Some c) as (Hw3 & Hj3 & Hs3).
  { unfold m in Em. destruct (forTeam E team) as [s|]; [|by injection Em as <-].
    unfold GetChannelAt in Em. rewrite Hc2 in Em. cbn [bind_result] in Em. pose proof (LeftChannel_ok _ _ _ _ Hw2 Em) as [Hok Hm].
    split; [done|]. split; [by rewrite (joined_frame _ _ _ Hm)|]. intros x c. by apply (LeftChannel_store _ _ _ _ _ _ Em). }
  intros Hrest. destruct (IH w3 Hw3 Hj3 Hrest) as [H5 H6]. split; [done|]. intros x c Hx Hon.
  destruct (H6 x c Hx Hon) as (Hnl & c3 & Hc3 & Hon3). apply Hs3 in Hc3. rewrite Hst in Hc3.
  destruct (Z.eq_dec x ch) as [->|Hne].
  - rewrite lookup_insert_eq in Hc3. injection Hc3 as <-.
    assert (IsOn c1 p = false) as Hoff.
    { rewrite <- Hc1. apply Leave_off; [done|]. by apply (ok_store _ _ Hw1) in Hc0 as (_ & _ & _ & ?). }
    unfold IsOn in *. cbn in Hon3. congruence.
  - rewrite lookup_insert_ne in Hc3 by done. split; [by rewrite not_elem_of_cons|]. by exists c3.
Qed.

(** After the channels of a player have been cleaned up at logout the player's list
    is empty, and the player is on no channel but those that were not in the list. *)
Theorem CleanupChannels_leaves E p team w w' :
  reachable w -> world_guids (base E) -> guid_ok p -> p <> 0 -> CleanupChannels E p team w = Ok w' ->
  joined w' p = [] /\
  forall x c, store w' !! x = Some c -> IsOn c p = true ->
    x ∉ joined w p /\ (exists c0, store w !! x = Some c0 /\ IsOn c0 p = true).
Proof. intros Hr%channel_reachable_ok HE Hp H0 Hc. by apply (cleanup_loop_off E p team (joined w p) w w'). Qed.

(** ** Two players on a channel *)
Definition sample_cenv : CEnv := mkCEnv sample_env (fun _ _ => None) (fun _ => Some 0) (fun _ => 0) [] (fun _ => []).
Definition is_ok {A} (r : result world_fault A) : bool := match r with Ok _ => true | Throw _ => false end.
Definition world_of (r : result world_fault World) : World := match r with Ok w => w | Throw _ => empty_world end.
Lemma world_of_ok r : is_ok r = true -> r = Ok (world_of r).
Proof. by destruct r. Qed.

Lemma sample_request_ok r :
  match r with Cleanup_ _ _ | UpdateLocal_ _ _ _ _ | LeaveLFG_ _ => False | _ => True end -> request_ok sample_cenv r.
Proof. intros Hr. split; [|by destruct r]. repeat constructor; by vm_compute. Qed.

Definition first_world : World := world_of (perform sample_cenv (Join_ 1 0 [120] []) empty_world).
Definition joined_world : World := world_of (perform sample_cenv (Join_ 2 0 [88] []) first_world).
Lemma joined_world_reachable : reachable joined_world.
Proof.
  eapply reachable_step; [|by apply (sample_request_ok (Join_ 2 0 [88] []))|apply world_of_ok; vm_compute; reflexivity].
  eapply reachable_step; [constructor|by apply (sample_request_ok (Join_ 1 0 [120] []))|apply world_of_ok; vm_compute; reflexivity].
Qed.

Lemma listed_channels_exist_witness : exists c, store joined_world !! 0 = Some c /\ IsOn c 2 = true.
Proof. apply (listed_channels_exist joined_world joined_world_reachable). vm_compute. by left. Defined.

Lemma no_deleted_channel_witness : perform sample_cenv (Leave_ 1 [120]) joined_world <> Throw DeletedChannel.
Proof. apply no_deleted_channel; [apply joined_world_reachable|by apply sample_request_ok]. Defined.

Lemma CleanupChannels_leaves_witness : joined (world_of (CleanupChannels sample_cenv 1 469 joined_world)) 1 = [].
Proof.
  refine (proj1 (CleanupChannels_leaves sample_cenv 1 469 joined_world _ joined_world_reachable _ _ _ _)).
  - repeat constructor; by vm_compute.
  - by vm_compute.
  - done.
  - apply world_of_ok. vm_compute. reflexivity.
Defined.

End ChannelMgr.
