(* ===== verification/InstanceIds.v ===== *)
(** * InstanceIds: the ids of map instances

    The allocator of instance ids of [game/Maps/MapManager.cpp], with the loop over
    the stored instances of [game/Instances/InstanceSaveMgr.cpp] that fills it at
    start-up. A bit vector says which ids are in use. An access outside it is a
    fault, and its capacity, which decides how far it grows, is part of the state;
    how much a reallocation reserves is an argument. *)
From S2P Require Import Prelude.
From Stdlib Require Import Sorting.Sorted.
#[global] Open Scope Z_scope.

Module InstanceIds.

Record MapManager := mkMapManager { instanceIds : list bool; capacity : Z; nextInstanceId : Z }.

Inductive fault := StopNow | OutOfRange.

Definition size (m : MapManager) : Z := Z.of_nat (length (instanceIds m)).
Definition used (m : MapManager) (i : Z) : bool := default false (instanceIds m !! Z.to_nat i).
Definition SetNextInstanceId (nextId : Z) (m : MapManager) : MapManager :=
  mkMapManager (instanceIds m) (capacity m) nextId.

(** [_instanceIds[i] = b]. *)
Definition write (i : Z) (b : bool) (m : MapManager) : result fault MapManager :=
  if i <? size m then Ok (mkMapManager (<[Z.to_nat i := b]> (instanceIds m)) (capacity m) (nextInstanceId m))
  else Throw OutOfRange.

Section Growth.

(** What the vector reserves when it has to grow beyond its capacity: the old
    capacity and the size asked for give the new capacity. *)
Variable grow : Z -> Z -> Z.

Definition resize_to (n : Z) (m : MapManager) : MapManager :=
  mkMapManager (resize (Z.to_nat n) false (instanceIds m)) (if capacity m <? n then grow (capacity m) n else capacity m)
    (nextInstanceId m).

(** [(n / 32) * 32 + (n % 32 > 0 ? 32 : 0)]. *)
Definition round32 (n : Z) : Z := u32 (n / 32 * 32 + (if 0 <? n mod 32 then 32 else 0)).

(** [maxId] is the largest id of the stored instances; the row of the query is never
    missing, and its field is 0 when there are none. *)
Definition InitInstanceIds (maxId : option Z) (m : MapManager) : MapManager :=
  let m := SetNextInstanceId 1 m in
  match maxId with Some n => resize_to (round32 n) m | None => m end.

Definition RegisterInstanceId (instanceId : Z) (m : MapManager) : result fault MapManager := write instanceId true m.

(** [(i < size && !_instanceIds[i]) || i >= size]. *)
Definition is_free (m : MapManager) (i : Z) : bool := ((i <? size m) && negb (used m i)) || (size m <=? i).

Fixpoint next_free (fuel : nat) (m : MapManager) (i : Z) : option Z :=
  match fuel with
  | O => None
  | S fuel => if i <? 0xFFFFFFFF then if is_free m i then Some i else next_free fuel m (i + 1) else None
  end.

(** The first [++] is part of the initialiser of the loop. *)
Definition GenerateInstanceId (m : MapManager) : result fault (Z * MapManager) :=
  let newInstanceId := nextInstanceId m in
  let start := u32 (newInstanceId + 1) in
  let next := default start (next_free (S (length (instanceIds m))) m start) in
  if newInstanceId =? next then Throw StopNow
  else
    let m := SetNextInstanceId next m in
    let m := if size m <=? newInstanceId
             then if size m <? capacity m then resize_to (capacity m) m else resize_to (round32 newInstanceId) m
             else m in
    match write newInstanceId true m with
    | Throw f => Throw f
    | Ok m => Ok (newInstanceId, m)
    end.

Definition FreeInstanceId (instanceId : Z) (m : MapManager) : result fault MapManager :=
  let m := if instanceId <? nextInstanceId m then SetNextInstanceId instanceId m else m in
  write instanceId false m.

(** The loop of [LoadResetTimes] over the stored instances, in the order of their ids. *)
Fixpoint load_instances (ids : list Z) (m : MapManager) : result fault MapManager :=
  match ids with
  | [] => Ok m
  | instanceId :: ids =>
      let m := if nextInstanceId m =? instanceId then SetNextInstanceId (u32 (instanceId + 1)) m else m in
      match RegisterInstanceId instanceId m with
      | Throw f => Throw f
      | Ok m => load_instances ids m
      end
  end.

End Growth.

Definition new_manager : MapManager := mkMapManager [] 0 0.

(** ** Allocation *)

(** The next id is free, every positive id below it is in use, and the capacity is a
    whole number of words. *)
Record wf (m : MapManager) : Prop := {
  wf_next : 1 <= nextInstanceId m <= Z.max 1 (size m);
  wf_free : used m (nextInstanceId m) = false;
  wf_below : forall i, 1 <= i < nextInstanceId m -> used m i = true;
  wf_zero : used m 0 = false;
  wf_size : size m <= capacity m;
  wf_words : capacity m mod 32 = 0
}.

Lemma used_beyond m i : size m <= i -> used m i = false.
Proof. unfold size, used. intros. by rewrite lookup_ge_None_2 by lia. Qed.

Lemma is_free_used m i : is_free m i = negb (used m i).
Proof.
  unfold is_free. destruct (Z.ltb_spec i (size m)), (Z.leb_spec (size m) i); try lia; [by rewrite orb_false_r|].
  by rewrite used_beyond by lia.
Qed.

Lemma next_free_spec fuel m i :
  size m < 2 ^ 31 -> Z.max 0 (size m - i) < Z.of_nat fuel -> 0 <= i <= 2 ^ 31 ->
  exists j, next_free fuel m i = Some j /\ i <= j <= Z.max i (size m) /\ used m j = false /\
    (forall k, i <= k < j -> used m k = true).
Proof.
  revert i. induction fuel as [|fuel IH]; intros i Hs Hf Hi; [lia|]. cbn [next_free].
  rewrite (proj2 (Z.ltb_lt i 0xFFFFFFFF)), is_free_used by lia.
  destruct (used m i) eqn:Eu; simpl; [|exists i; split_and!; [done|lia|lia|done|lia]].
  destruct (Z.le_gt_cases (size m) i); [by rewrite used_beyond in Eu by lia|].
  destruct (IH (i + 1)) as (j & -> & ? & ? & Hb); [lia..|].
  exists j. split_and!; [done|lia|lia|done|]. intros k ?. destruct (decide (k = i)) as [->|]; [done|apply Hb; lia].
Qed.

Lemma size_resize grow n m : 0 <= n -> size (resize_to grow n m) = n.
Proof. intros. unfold size. simpl. rewrite length_resize. lia. Qed.

Lemma used_resize grow n m i : size m <= n -> 0 <= i -> used (resize_to grow n m) i = used m i.
Proof.
  unfold size, used. intros Hn Hi. simpl. destruct (decide (Z.to_nat i < length (instanceIds m))%nat).
  - by rewrite lookup_resize by lia.
  - rewrite (lookup_ge_None_2 (instanceIds m)) by lia. destruct (decide (Z.to_nat i < Z.to_nat n)%nat).
    + by rewrite lookup_resize_new by lia.
    + by rewrite lookup_resize_old by lia.
Qed.

Lemma write_ok i b m :
  0 <= i < size m -> exists m', write i b m = Ok m' /\ size m' = size m /\ capacity m' = capacity m /\
    nextInstanceId m' = nextInstanceId m /\ (forall j, 0 <= j -> used m' j = if decide (j = i) then b else used m j).
Proof.
  intros Hi. unfold write. rewrite (proj2 (Z.ltb_lt _ _)) by lia. eexists; split; [done|].
  unfold size, used in *; simpl. rewrite length_insert. split_and!; try done. intros j Hj. case_decide as E.
  - subst. by rewrite list_lookup_insert_eq by lia.
  - by rewrite list_lookup_insert_ne by lia.
Qed.

Lemma round32_spec n : 0 <= n < 2 ^ 31 ->
  round32 n mod 32 = 0 /\ n <= round32 n < n + 32 /\ (n < round32 n <-> n mod 32 <> 0).
Proof.
  intros Hn. unfold round32. pose proof (Z.mod_pos_bound n 32 ltac:(lia)).
  pose proof (Z.div_mod n 32 ltac:(lia)). destruct (Z.ltb_spec 0 (n mod 32)); rewrite wrap_id by width.
  - replace (n / 32 * 32 + 32) with ((n / 32 + 1) * 32) by lia. rewrite Z.mod_mul by lia. lia.
  - rewrite Z.add_0_r, Z.mod_mul by lia. lia.
Qed.

(** What [GenerateInstanceId] relies on: a reallocation reserves whole words, at least
    what is asked for. *)
Definition grows (grow : Z -> Z -> Z) : Prop :=
  forall c n, 0 <= c < n -> n <= grow c n /\ grow c n mod 32 = 0.

(** The vector after making room for [n], which is the next id. *)
Definition make_room (grow : Z -> Z -> Z) (n : Z) (m : MapManager) : MapManager :=
  if size m <=? n
  then if size m <? capacity m then resize_to grow (capacity m) m else resize_to grow (round32 n) m
  else m.

Lemma make_room_ok grow n m :
  grows grow -> 1 <= n <= Z.max 1 (size m) -> size m <= capacity m < 2 ^ 31 -> capacity m mod 32 = 0 ->
  let m' := make_room grow n m in
  nextInstanceId m' = nextInstanceId m /\ (forall i, 0 <= i -> used m' i = used m i) /\
  size m <= size m' <= capacity m' /\ capacity m' mod 32 = 0 /\
  (n < size m' <-> ~ (n = size m /\ size m = capacity m)).
Proof.
  intros HG Hn Hc Hw. unfold make_room. pose proof (Zle_0_nat (length (instanceIds m))) as H0. change (0 <= size m) in H0.
  destruct (Z.leb_spec (size m) n); [|cbv zeta; split_and!; [done|done|lia..]].
  destruct (round32_spec n ltac:(lia)) as (Hr1 & Hr2 & Hr3).
  destruct (Z.ltb_spec (size m) (capacity m)); cbv zeta.
  - rewrite size_resize by lia. split_and!; [done| |lia|..]; simpl; rewrite ?Z.ltb_irrefl; try lia.
    + intros i Hi. apply used_resize; lia.
    + destruct (decide (size m = 0)); [|lia]. split; [lia|]. intros _.
      pose proof (Z.div_mod (capacity m) 32). lia.
  - rewrite size_resize by lia. assert (capacity m = size m) as E by lia.
    split_and!; [done|intros i Hi; apply used_resize; lia|simpl..].
    + lia.
    + destruct (Z.ltb_spec (capacity m) (round32 n)); [|lia]. destruct (HG (capacity m) (round32 n)); lia.
    + destruct (Z.ltb_spec (capacity m) (round32 n)); [|lia]. destruct (HG (capacity m) (round32 n)); lia.
    + rewrite Hr3. destruct (decide (size m = 0)) as [E0|].
      * replace n with 1 by lia. split; [lia|done].
      * replace n with (capacity m) by lia. split; [lia|]. intros []. lia.
Qed.

(** The vector is full: the next id is one past its end, and nothing is reserved. *)
Definition full (m : MapManager) : Prop := nextInstanceId m = size m /\ size m = capacity m.
#[global] Instance full_dec m : Decision (full m).
Proof. unfold full. apply _. Defined.

(** [GenerateInstanceId] in one step: the search, the room and the write. *)
Lemma GenerateInstanceId_unfold grow m :
  wf m -> capacity m < 2 ^ 31 ->
  exists j, nextInstanceId m < j <= Z.max (nextInstanceId m + 1) (size m) /\ used m j = false /\
    (forall k, nextInstanceId m < k < j -> used m k = true) /\
    GenerateInstanceId grow m =
      match write (nextInstanceId m) true (make_room grow (nextInstanceId m) (SetNextInstanceId j m)) with
      | Throw f => Throw f
      | Ok m' => Ok (nextInstanceId m, m')
      end.
Proof.
  intros [Hn Hf Hb Hz Hs Hw] Hsz. unfold GenerateInstanceId. rewrite (wrap_id 32 (nextInstanceId m + 1)) by width.
  destruct (next_free_spec (S (length (instanceIds m))) m (nextInstanceId m + 1)) as (j & -> & Hj & Hu & Hk).
  { lia. } { unfold size. lia. } { lia. }
  exists j. split; [lia|]. split; [done|]. split; [intros k ?; apply Hk; lia|].
  change (default (nextInstanceId m + 1) (Some j)) with j. rewrite (proj2 (Z.eqb_neq (nextInstanceId m) j)) by lia. done.
Qed.

Lemma GenerateInstanceId_full grow m :
  grows grow -> wf m -> capacity m < 2 ^ 31 -> full m -> GenerateInstanceId grow m = Throw OutOfRange.
Proof.
  intros HG HW Hsz Hfull. destruct (GenerateInstanceId_unfold grow m HW Hsz) as (j & Hj & _ & _ & ->).
  destruct HW as [Hn Hf Hb Hz Hs Hw].
  destruct (make_room_ok grow (nextInstanceId m) (SetNextInstanceId j m) HG Hn (conj Hs Hsz) Hw) as (_ & _ & _ & _ & Hroom).
  change (size (SetNextInstanceId j m)) with (size m) in Hroom. change (capacity (SetNextInstanceId j m)) with (capacity m) in Hroom.
  unfold write. destruct (Z.ltb_spec (nextInstanceId m) (size (make_room grow (nextInstanceId m) (SetNextInstanceId j m)))) as [Hx|]; [|done].
  apply Hroom in Hx. by destruct Hx.
Qed.

Lemma GenerateInstanceId_ok grow m :
  grows grow -> wf m -> capacity m < 2 ^ 31 -> ~ full m ->
  exists m', GenerateInstanceId grow m = Ok (nextInstanceId m, m') /\ wf m' /\ nextInstanceId m < nextInstanceId m' /\
    (forall i, 0 <= i -> used m' i = if decide (i = nextInstanceId m) then true else used m i).
Proof.
  intros HG HW Hsz Hfull. destruct (GenerateInstanceId_unfold grow m HW Hsz) as (j & Hj & Hju & Hjk & ->).
  destruct HW as [Hn Hf Hb Hz Hs Hw].
  destruct (make_room_ok grow (nextInstanceId m) (SetNextInstanceId j m) HG Hn (conj Hs Hsz) Hw) as (Hrn & Hru & Hrs & Hrw & Hroom).
  set (m1 := make_room _ _ _) in *. clearbody m1.
  change (size (SetNextInstanceId j m)) with (size m) in *. change (nextInstanceId (SetNextInstanceId j m)) with j in *.
  assert (nextInstanceId m < size m1) as Hlt by (apply Hroom; done).
  destruct (write_ok (nextInstanceId m) true m1) as (m' & -> & Hws & Hwc & Hwn & Hwu); [lia|].
  assert (Hu : forall i, 0 <= i -> used m' i = if decide (i = nextInstanceId m) then true else used m i).
  { intros i Hi. rewrite Hwu by done. case_decide; [done|]. by rewrite Hru by done. }
  exists m'. split; [done|]. split_and!; [|lia|done].
  constructor; rewrite ?Hws, ?Hwc, ?Hwn, ?Hrn; try lia.
  - rewrite Hu, decide_False by lia. done.
  - intros i Hi. rewrite Hu by lia. case_decide; [done|].
    destruct (decide (i < nextInstanceId m)); [apply Hb; lia|apply Hjk; lia].
  - rewrite Hu, decide_False by lia. done.
Qed.

(** Generating an id writes outside the bit vector exactly when the vector is
    full, that is when every place it has and has reserved is taken. *)
Theorem GenerateInstanceId_overflow grow m :
  grows grow -> wf m -> capacity m < 2 ^ 31 ->
  GenerateInstanceId grow m = Throw OutOfRange <-> full m.
Proof.
  intros HG HW Hsz. split; [|by apply GenerateInstanceId_full]. intros E.
  destruct (decide (full m)) as [|Hno]; [done|]. destruct (GenerateInstanceId_ok grow m HG HW Hsz Hno) as (m' & E' & _). congruence.
Qed.

(** C20: unless the vector is full, the id is a positive one that nobody has, it is in
    use afterwards and every other id as before; the next id is again the lowest free
    one, so an id that is given back is the first to be given out again. *)
Theorem GenerateInstanceId_unique grow m :
  grows grow -> wf m -> capacity m < 2 ^ 31 -> ~ full m ->
  exists id m', GenerateInstanceId grow m = Ok (id, m') /\ 1 <= id /\ used m id = false /\ wf m' /\
    (forall i, 0 <= i -> used m' i = if decide (i = id) then true else used m i) /\
    exists m'', FreeInstanceId id m' = Ok m'' /\ wf m'' /\ nextInstanceId m'' = id /\
      (forall i, 0 <= i -> used m'' i = used m i).
Proof.
  intros HG HW Hsz Hfull. destruct (GenerateInstanceId_ok grow m HG HW Hsz Hfull) as (m' & -> & HW' & Hlt & Hu).
  destruct HW as [Hn Hf Hb Hz Hs Hw]. exists (nextInstanceId m), m'. split; [done|]. split; [lia|]. split; [done|]. split; [done|]. split; [done|].
  unfold FreeInstanceId. rewrite (proj2 (Z.ltb_lt _ _)) by lia. destruct HW' as [Hn' _ _ _ Hs' Hw'].
  destruct (write_ok (nextInstanceId m) false (SetNextInstanceId (nextInstanceId m) m')) as (m'' & -> & Hfs & Hfc & Hfn & Hfu).
  { change (size (SetNextInstanceId (nextInstanceId m) m')) with (size m'). lia. }
  assert (Hback : forall i, 0 <= i -> used m'' i = used m i).
  { intros i Hi. rewrite Hfu by done. case_decide; [subst; done|].
    change (used (SetNextInstanceId (nextInstanceId m) m') i) with (used m' i). by rewrite Hu, decide_False by done. }
  exists m''. split; [done|]. split; [|done].
  change (size (SetNextInstanceId (nextInstanceId m) m')) with (size m') in Hfs.
  change (capacity (SetNextInstanceId (nextInstanceId m) m')) with (capacity m') in Hfc.
  constructor; rewrite ?Hfs, ?Hfc, ?Hfn; simpl; try lia.
  - rewrite Hback by lia. done.
  - intros i Hi. rewrite Hback by lia. apply Hb; lia.
  - rewrite Hback by lia. done.
Qed.

(** Start-up: the ids of the stored instances, the largest last. *)
Lemma load_instances_ok ids m :
  (forall i, i ∈ ids -> 1 <= i < size m) -> size m < 2 ^ 31 ->
  exists m', load_instances ids m = Ok m' /\ size m' = size m /\ capacity m' = capacity m /\
    (forall i, 0 <= i -> used m' i = bool_decide (i ∈ ids) || used m i).
Proof.
  revert m. induction ids as [|n ids IH]; intros m Hi Hs; cbn [load_instances].
  { exists m. split_and!; try done. }
  set (m1 := if nextInstanceId m =? n then _ else _).
  assert (size m1 = size m /\ capacity m1 = capacity m /\ forall i, used m1 i = used m i) as (E1 & E2 & E3)
    by (unfold m1; by destruct (nextInstanceId m =? n)). clearbody m1.
  unfold RegisterInstanceId. destruct (write_ok n true m1) as (m2 & -> & H1 & H2 & _ & H3). { rewrite E1. specialize (Hi n ltac:(by left)). lia. }
  destruct (IH m2) as (m' & -> & H4 & H5 & H6). { intros i ?. rewrite H1, E1. apply Hi. by right. } { lia. }
  exists m'. split_and!; [done|congruence|congruence|]. intros i ?. rewrite H6, H3, E3 by done.
  case_decide as E; [subst|].
  - rewrite (bool_decide_true (n ∈ n :: ids)) by by left. apply orb_true_r.
  - rewrite (bool_decide_ext (i ∈ n :: ids) (i ∈ ids)); [done|]. rewrite elem_of_cons. naive_solver.
Qed.

(** The ids in order move the next id past those that follow one another from 1. *)
Lemma load_instances_next ids m m' :
  StronglySorted Z.lt ids -> Forall (fun i => nextInstanceId m <= i < 2 ^ 31) ids -> 1 <= nextInstanceId m ->
  (forall i, 1 <= i < nextInstanceId m -> used m i = true) -> used m (nextInstanceId m) = false ->
  (forall i k, i ∈ ids -> i <= k -> used m k = false) -> load_instances ids m = Ok m' ->
  1 <= nextInstanceId m' /\ (forall i, 1 <= i < nextInstanceId m' -> used m' i = true) /\ used m' (nextInstanceId m') = false.
Proof.
  revert m. induction ids as [|n ids IH]; intros m Hss Hge H1 Hb Hn Ha Hl; cbn [load_instances] in Hl.
  { by inversion Hl; subst. }
  apply StronglySorted_inv in Hss as [Hss Hgt]. apply Forall_cons in Hge as [Hn' Hge]. rewrite Forall_forall in Hgt, Hge.
  set (m1 := if nextInstanceId m =? n then _ else _) in Hl.
  assert (nextInstanceId m1 = (if nextInstanceId m =? n then n + 1 else nextInstanceId m) /\ size m1 = size m /\ forall i, used m1 i = used m i)
    as (E1 & E2 & E3).
  { unfold m1. destruct (nextInstanceId m =? n); [|done]. split; [|done]. simpl. apply wrap_id. width. }
  clearbody m1. unfold RegisterInstanceId, write in Hl. destruct (Z.ltb_spec n (size m1)) as [Hlt|]; [|done].
  destruct (write_ok n true m1) as (m2 & Hw & _ & _ & Hn2 & Hu2); [lia|].
  unfold write in Hw. rewrite (proj2 (Z.ltb_lt _ _)) in Hw by lia. inversion Hw as [Em2]. rewrite Em2 in Hl. clear Hw Em2.
  apply (IH m2); try done; rewrite ?Hn2, ?E1.
  - apply Forall_forall. intros i Hi. specialize (Hgt i Hi). specialize (Hge i Hi). destruct (Z.eqb_spec (nextInstanceId m) n); lia.
  - destruct (Z.eqb_spec (nextInstanceId m) n); lia.
  - intros i Hi. rewrite Hu2, E3 by lia. case_decide; [done|]. apply Hb. destruct (Z.eqb_spec (nextInstanceId m) n); lia.
  - destruct (Z.eqb_spec (nextInstanceId m) n); rewrite Hu2, E3, decide_False by lia; [|done]. apply (Ha n); [by left|lia].
  - intros i k Hi Hk. specialize (Hgt i Hi). rewrite Hu2, E3, decide_False by lia. apply (Ha i); [by right|done].
Qed.

Lemma load_instances_fails ids m i : 0 <= i -> i ∈ ids -> size m <= i -> load_instances ids m = Throw OutOfRange.
Proof.
  revert m. induction ids as [|n ids IH]; intros m Hi Hin Hs; [by apply not_elem_of_nil in Hin|]. cbn [load_instances].
  set (m1 := if nextInstanceId m =? n then _ else _).
  assert (size m1 = size m) as E by (unfold m1; by destruct (nextInstanceId m =? n)). clearbody m1.
  unfold RegisterInstanceId, write. destruct (Z.ltb_spec n (size m1)); [|done].
  apply IH; [done| |].
  - apply elem_of_cons in Hin as [->|]; [lia|done].
  - unfold size in *. simpl. rewrite length_insert. lia.
Qed.

Lemma last_largest ids : StronglySorted Z.lt ids -> forall top, last ids = Some top -> forall i, i ∈ ids -> i <= top.
Proof.
  induction ids as [|n ids IH]; intros Hs top Hl i Hi; [done|]. apply StronglySorted_inv in Hs as [Hs Hn].
  rewrite Forall_forall in Hn. rewrite last_cons in Hl. destruct (last ids) as [t|] eqn:E.
  - inversion Hl; subst t. assert (top ∈ ids) by (by apply last_Some_elem_of). specialize (Hn top H).
    apply elem_of_cons in Hi as [->|]; [lia|by apply IH].
  - apply last_None in E as ->. inversion Hl; subst. apply list_elem_of_singleton in Hi. lia.
Qed.

(** The vector [InitInstanceIds] makes for the ids up to [top]. *)
Lemma InitInstanceIds_new grow top :
  grows grow -> 0 <= top < 2 ^ 31 - 64 ->
  let m := InitInstanceIds grow (Some top) new_manager in
  nextInstanceId m = 1 /\ size m = round32 top /\ (forall i, used m i = false) /\ size m <= capacity m /\ capacity m mod 32 = 0.
Proof.
  intros HG Ht. destruct (round32_spec top ltac:(lia)) as (H1 & H2 & _). cbv zeta. split_and!; [done|..].
  - apply size_resize. lia.
  - intros i. unfold used. simpl. rewrite resize_nil. destruct (replicate _ _ !! _) eqn:E; [|done].
    by apply lookup_replicate in E as [-> _].
  - change (size (InitInstanceIds grow (Some top) new_manager)) with (size (resize_to grow (round32 top) (SetNextInstanceId 1 new_manager))).
    rewrite size_resize by lia. simpl.
    destruct (Z.ltb_spec 0 (round32 top)); [destruct (HG 0 (round32 top)); lia|lia].
  - simpl. destruct (Z.ltb_spec 0 (round32 top)); [destruct (HG 0 (round32 top)); lia|done].
Qed.

(** Loading the stored instances at start-up fails exactly when the largest id is a
    multiple of 32, whose place the vector is not given; otherwise the ids in use are
    the stored ones and the next id is the lowest free one. *)
Theorem load_instances_restores grow ids :
  grows grow -> StronglySorted Z.lt ids -> Forall (fun i => 1 <= i < 2 ^ 31 - 64) ids ->
  let loaded := load_instances ids (InitInstanceIds grow (Some (default 0 (last ids))) new_manager) in
  if decide (ids <> [] /\ default 0 (last ids) mod 32 = 0) then loaded = Throw OutOfRange
  else exists m, loaded = Ok m /\ wf m /\ forall i, 0 <= i -> used m i = bool_decide (i ∈ ids).
Proof.
  intros HG Hss Hr. cbv zeta. rewrite Forall_forall in Hr. set (top := default 0 (last ids)).
  assert (Htop : 0 <= top < 2 ^ 31 - 64 /\ (forall i, i ∈ ids -> i <= top) /\ (ids <> [] -> top ∈ ids)).
  { unfold top. destruct (last ids) as [t|] eqn:E; simpl.
    - assert (t ∈ ids) by (by apply last_Some_elem_of). specialize (Hr t H). split; [lia|]. split; [|done]. by apply last_largest.
    - apply last_None in E as ->. split; [lia|]. split; [|done]. by intros i ?%not_elem_of_nil. }
  destruct Htop as (Ht & Hle & Hin). destruct (InitInstanceIds_new grow top HG Ht) as (Hn & Hs & Hu & Hc & Hw).
  set (m0 := InitInstanceIds _ _ _) in *. clearbody m0. destruct (round32_spec top ltac:(lia)) as (Hr1 & Hr2 & Hr3).
  destruct (decide _) as [[Hne Hm]|Hok].
  - apply (load_instances_fails _ _ top); [lia|by apply Hin|lia].
  - destruct (load_instances_ok ids m0) as (m & Hl & Hms & Hmc & Hmu); [|lia|].
    { intros i Hi. specialize (Hr i Hi). specialize (Hle i Hi). assert (ids <> []) by (by intros ->; apply not_elem_of_nil in Hi).
      assert (top < round32 top) by (apply Hr3; tauto). lia. }
    assert (Hmu' : forall i, 0 <= i -> used m i = bool_decide (i ∈ ids)).
    { intros i Hi. by rewrite Hmu, Hu, orb_false_r. }
    exists m. split; [done|]. split; [|done].
    destruct (load_instances_next ids m0 m) as (H1 & H2 & H3); rewrite ?Hn; try done.
    { apply Forall_forall. intros i Hi. specialize (Hr i Hi). lia. }
    { intros i Hi. lia. }
    constructor; rewrite ?Hms, ?Hmc; try done.
    + split; [done|]. destruct (decide (nextInstanceId m <= Z.max 1 (size m0))) as [|Hno]; [done|].
      specialize (H2 (Z.max 1 (size m0)) ltac:(lia)). rewrite used_beyond in H2 by lia. done.
    + rewrite Hmu' by done. apply bool_decide_false. intros Hx. specialize (Hr 0 Hx). lia.
Qed.

(** The reservations of the vector of bits in libstdc++: words of 64, at least twice
    what there was. *)
Definition grow64 (c n : Z) : Z := (c + Z.max c (n - c) + 63) / 64 * 64.

Lemma grow64_grows : grows grow64.
Proof.
  intros c n ?. unfold grow64. set (x := c + Z.max c (n - c)). assert (n <= x) by lia. clearbody x.
  pose proof (Z.div_mod (x + 63) 64 ltac:(lia)). pose proof (Z.mod_pos_bound (x + 63) 64 ltac:(lia)). split; [lia|].
  replace ((x + 63) / 64 * 64) with ((x + 63) / 64 * 2 * 32) by lia. apply Z.mod_mul. lia.
Qed.

(** [n] ids one after the other. *)
Fixpoint generate (n : nat) (m : MapManager) : result fault (list Z * MapManager) :=
  match n with
  | O => Ok ([], m)
  | S n =>
      match GenerateInstanceId grow64 m with
      | Throw f => Throw f
      | Ok (id, m) => match generate n m with Throw f => Throw f | Ok (ids, m) => Ok (id :: ids, m) end
      end
  end.

(** A server without stored instances. *)
Definition started : MapManager := InitInstanceIds grow64 (Some 0) new_manager.
Definition ids_of (r : result fault (list Z * MapManager)) : list Z := match r with Ok (ids, _) => ids | Throw _ => [] end.
Definition manager_of (r : result fault (list Z * MapManager)) : MapManager :=
  match r with Ok (_, m) => m | Throw _ => new_manager end.

(** The ids 1 to 63 fit, the next one does not. *)
Example sixty_three : ids_of (generate 63 started) = seqZ 1 63.
Proof. vm_compute. reflexivity. Qed.
Example sixty_fourth : generate 64 started = Throw OutOfRange.
Proof. vm_compute. reflexivity. Qed.

Lemma check_wf m (n := nextInstanceId m) :
  (1 <=? n) && (n <=? Z.max 1 (size m)) && negb (used m n) && forallb (used m) (seqZ 1 (n - 1)) && negb (used m 0) &&
  (size m <=? capacity m) && (capacity m mod 32 =? 0) = true -> wf m.
Proof.
  subst n. rewrite !andb_true_iff, !Z.leb_le, !negb_true_iff, Z.eqb_eq, forallb_forall. intros ((((((? & ?) & ?) & Hb) & ?) & ?) & ?).
  constructor; try done. intros i Hi. apply Hb, list_elem_of_In, elem_of_seqZ. lia.
Qed.

Definition sample : MapManager := manager_of (generate 40 started).
Definition sample_full : MapManager := manager_of (generate 63 started).

Lemma GenerateInstanceId_overflow_witness :
  full sample_full /\ GenerateInstanceId grow64 sample_full = Throw OutOfRange /\
  ~ full sample /\ GenerateInstanceId grow64 sample <> Throw OutOfRange.
Proof.
  assert (full sample_full) as Hf by (vm_compute; done). assert (~ full sample) as Hn by (vm_compute; intros []; discriminate).
  split; [done|]. split; [|split; [done|]].
  - apply (GenerateInstanceId_overflow grow64 sample_full grow64_grows); [apply check_wf; vm_compute; done|vm_compute; done|done].
  - intros E. apply Hn.
    apply (GenerateInstanceId_overflow grow64 sample grow64_grows); [apply check_wf; vm_compute; done|vm_compute; done|done].
Defined.

Lemma GenerateInstanceId_unique_witness :
  exists id m', GenerateInstanceId grow64 sample = Ok (id, m') /\ 1 <= id /\ used sample id = false.
Proof.
  destruct (GenerateInstanceId_unique grow64 sample grow64_grows) as (id & m' & ? & ? & ? & _).
  - apply check_wf. vm_compute. done.
  - vm_compute. done.
  - vm_compute. intros []; discriminate.
  - exists id, m'. split; [assumption|split; assumption].
Defined.

Lemma load_instances_restores_witness :
  load_instances [3; 7; 64] (InitInstanceIds grow64 (Some 64) new_manager) = Throw OutOfRange.
Proof.
  assert (StronglySorted Z.lt [3; 7; 64] /\ Forall (fun i => 1 <= i < 2 ^ 31 - 64) [3; 7; 64]) as [Hs Hr]
    by (split; repeat constructor; lia).
  pose proof (load_instances_restores grow64 [3; 7; 64] grow64_grows Hs Hr) as H. cbv zeta in H.
  rewrite decide_True in H by (vm_compute; split; [discriminate|reflexivity]). exact H.
Defined.

End InstanceIds.
