(* ===== verification/Battleground.v ===== *)
(** * Battleground: battlegrounds and their registry

    What the queues for battlegrounds use of [game/Battlegrounds/Battleground.cpp]
    and [Battleground.h], the registry of battlegrounds of [BattlegroundMgr.cpp], and
    the places for queues a player has ([game/Entities/Player/Player.h]). A
    battleground is addressed by a pointer into a store; the registry and the lists of
    battlegrounds with free slots hold pointers, and using one to a deleted
    battleground is a fault. The clock stands still during an operation. *)
From S2P Require Import Prelude OrderedMap InstanceIds.
From Stdlib Require Import Sorting.Sorted.
Import InstanceIds.
#[global] Open Scope Z_scope.

Module Battleground.

(** ** Constants *)
Definition ALLIANCE := 469.
Definition HORDE := 67.
Definition MAX_BATTLEGROUND_BRACKETS := 16.
Definition PLAYER_MAX_BATTLEGROUND_QUEUES := 2.

Definition BATTLEGROUND_TYPE_NONE := 0.
Definition BATTLEGROUND_AV := 1.
Definition BATTLEGROUND_WS := 2.
Definition BATTLEGROUND_AB := 3.
Definition BATTLEGROUND_NA := 4.
Definition BATTLEGROUND_BE := 5.
Definition BATTLEGROUND_AA := 6.
Definition BATTLEGROUND_EY := 7.
Definition BATTLEGROUND_RL := 8.
Definition BATTLEGROUND_SA := 9.
Definition BATTLEGROUND_DS := 10.
Definition BATTLEGROUND_RV := 11.
Definition BATTLEGROUND_IC := 30.
Definition BATTLEGROUND_RB := 32.

Definition BATTLEGROUND_QUEUE_NONE := 0.
Definition BATTLEGROUND_QUEUE_AV := 1.
Definition BATTLEGROUND_QUEUE_WS := 2.
Definition BATTLEGROUND_QUEUE_AB := 3.
Definition BATTLEGROUND_QUEUE_EY := 4.
Definition BATTLEGROUND_QUEUE_SA := 5.
Definition BATTLEGROUND_QUEUE_IC := 6.
Definition BATTLEGROUND_QUEUE_RB := 7.
Definition BATTLEGROUND_QUEUE_2v2 := 8.
Definition BATTLEGROUND_QUEUE_3v3 := 9.
Definition BATTLEGROUND_QUEUE_5v5 := 10.
Definition ARENA_TYPE_2v2 := 2.
Definition ARENA_TYPE_3v3 := 3.
Definition ARENA_TYPE_5v5 := 5.

Definition STATUS_NONE := 0.
Definition STATUS_WAIT_QUEUE := 1.
Definition STATUS_WAIT_JOIN := 2.
Definition STATUS_IN_PROGRESS := 3.
Definition STATUS_WAIT_LEAVE := 4.

(** ** The rest of the server *)
Record PvPDifficultyEntry := mkEntry { entry_bracket : Z; minLevel : Z; maxLevel : Z }.

(** [urand] is asked for a number up to its argument; [arena_team] is the name of a
    team. *)
Record Env := mkEnv {
  now : Z;
  isTesting : bool;
  isArenaTesting : bool;
  CONFIG_ARENA_QUEUE_ANNOUNCER_ENABLE : bool;
  CONFIG_BATTLEGROUND_QUEUE_ANNOUNCER_ENABLE : bool;
  CONFIG_BATTLEGROUND_QUEUE_ANNOUNCER_PLAYERONLY : bool;
  CONFIG_BATTLEGROUND_INVITATION_TYPE : Z;
  CONFIG_BATTLEGROUND_PREMADE_GROUP_WAIT_FOR_MATCH : Z;
  CONFIG_ARENA_MAX_RATING_DIFFERENCE : Z;
  CONFIG_ARENA_RATING_DISCARD_TIMER : Z;
  GetBattlegroundBracketById : Z -> Z -> option PvPDifficultyEntry;       (* by map and bracket *)
  GetBattlegroundBracketByLevel : Z -> Z -> option PvPDifficultyEntry;    (* by map and level *)
  m_ArenaSelectionWeights : list (Z * Z);
  m_BGSelectionWeights : list (Z * Z);
  urand : Z -> Z;
  arena_team : Z -> option (list Z);
  grow : Z -> Z -> Z
}.

(** ** Packets and effects *)
Inductive field := U8 (z : Z) | U16 (z : Z) | U32 (z : Z) | U64 (z : Z) | Str (s : list Z).
Inductive opcode := SMSG_BATTLEFIELD_STATUS | SMSG_GROUP_JOINED_BATTLEGROUND.
Record WorldPacket := mkPacket { op : opcode; body : list field }.

Inductive text :=
| LANG_ARENA_QUEUE_ANNOUNCE_WORLD_JOIN | LANG_ARENA_QUEUE_ANNOUNCE_WORLD_EXIT
| LANG_BG_QUEUE_ANNOUNCE_SELF | LANG_BG_QUEUE_ANNOUNCE_WORLD.

Inductive effect :=
| SendPacket (receiver : Z) (data : WorldPacket)
| SendWorldText (message : text) (args : list field)
| PSendSysMessage (receiver : Z) (message : text) (args : list field)
| MemberLost (arena_team_id guid against : Z)
| OfflineMemberLost (arena_team_id guid against : Z)
| SaveArenaTeam (arena_team_id : Z).

(** ** Battlegrounds *)
Record Battleground := mkBattleground {
  GetName : list Z;
  GetTypeID : Z;
  GetRandomTypeID : Z;
  GetInstanceID : Z;
  GetClientInstanceID : Z;
  GetBracketId : Z;
  GetStatus : Z;
  GetArenaType : Z;
  isArena : bool;
  isRated : bool;
  IsRandom : bool;
  GetMapId : Z;
  GetMinLevel : Z;
  GetMaxLevel : Z;
  GetMinPlayersPerTeam : Z;
  GetMaxPlayersPerTeam : Z;
  GetMaxPlayers : Z;
  m_InvitedAlliance : Z;
  m_InvitedHorde : Z;
  m_PlayersCount : Z * Z;
  GetPlayersSize : Z;
  GetStartTime : Z;
  GetEndTime : Z;
  m_InBGFreeSlotQueue : bool;
  m_ArenaTeamIds : Z * Z;
  m_ArenaTeamMMR : Z * Z
}.
Definition SetTypeID (v : Z) (b : Battleground) : Battleground :=
  mkBattleground (GetName b) v (GetRandomTypeID b) (GetInstanceID b) (GetClientInstanceID b)
    (GetBracketId b) (GetStatus b) (GetArenaType b) (isArena b) (isRated b) (IsRandom b)
    (GetMapId b) (GetMinLevel b) (GetMaxLevel b) (GetMinPlayersPerTeam b) (GetMaxPlayersPerTeam b)
    (GetMaxPlayers b) (m_InvitedAlliance b) (m_InvitedHorde b) (m_PlayersCount b)
    (GetPlayersSize b) (GetStartTime b) (GetEndTime b) (m_InBGFreeSlotQueue b) (m_ArenaTeamIds b)
    (m_ArenaTeamMMR b).
Definition SetRandomTypeID (v : Z) (b : Battleground) : Battleground :=
  mkBattleground (GetName b) (GetTypeID b) v (GetInstanceID b) (GetClientInstanceID b)
    (GetBracketId b) (GetStatus b) (GetArenaType b) (isArena b) (isRated b) (IsRandom b)
    (GetMapId b) (GetMinLevel b) (GetMaxLevel b) (GetMinPlayersPerTeam b) (GetMaxPlayersPerTeam b)
    (GetMaxPlayers b) (m_InvitedAlliance b) (m_InvitedHorde b) (m_PlayersCount b)
    (GetPlayersSize b) (GetStartTime b) (GetEndTime b) (m_InBGFreeSlotQueue b) (m_ArenaTeamIds b)
    (m_ArenaTeamMMR b).
Definition SetInstanceID (v : Z) (b : Battleground) : Battleground :=
  mkBattleground (GetName b) (GetTypeID b) (GetRandomTypeID b) v (GetClientInstanceID b)
    (GetBracketId b) (GetStatus b) (GetArenaType b) (isArena b) (isRated b) (IsRandom b)
    (GetMapId b) (GetMinLevel b) (GetMaxLevel b) (GetMinPlayersPerTeam b) (GetMaxPlayersPerTeam b)
    (GetMaxPlayers b) (m_InvitedAlliance b) (m_InvitedHorde b) (m_PlayersCount b)
    (GetPlayersSize b) (GetStartTime b) (GetEndTime b) (m_InBGFreeSlotQueue b) (m_ArenaTeamIds b)
    (m_ArenaTeamMMR b).
Definition SetClientInstanceID (v : Z) (b : Battleground) : Battleground :=
  mkBattleground (GetName b) (GetTypeID b) (GetRandomTypeID b) (GetInstanceID b) v
    (GetBracketId b) (GetStatus b) (GetArenaType b) (isArena b) (isRated b) (IsRandom b)
    (GetMapId b) (GetMinLevel b) (GetMaxLevel b) (GetMinPlayersPerTeam b) (GetMaxPlayersPerTeam b)
    (GetMaxPlayers b) (m_InvitedAlliance b) (m_InvitedHorde b) (m_PlayersCount b)
    (GetPlayersSize b) (GetStartTime b) (GetEndTime b) (m_InBGFreeSlotQueue b) (m_ArenaTeamIds b)
    (m_ArenaTeamMMR b).
Definition set_bracket (v : Z) (lo : Z) (hi : Z) (b : Battleground) : Battleground :=
  mkBattleground (GetName b) (GetTypeID b) (GetRandomTypeID b) (GetInstanceID b)
    (GetClientInstanceID b) v (GetStatus b) (GetArenaType b) (isArena b) (isRated b) (IsRandom b)
    (GetMapId b) lo hi (GetMinPlayersPerTeam b) (GetMaxPlayersPerTeam b) (GetMaxPlayers b)
    (m_InvitedAlliance b) (m_InvitedHorde b) (m_PlayersCount b) (GetPlayersSize b)
    (GetStartTime b) (GetEndTime b) (m_InBGFreeSlotQueue b) (m_ArenaTeamIds b) (m_ArenaTeamMMR b).
Definition SetStatus (v : Z) (b : Battleground) : Battleground :=
  mkBattleground (GetName b) (GetTypeID b) (GetRandomTypeID b) (GetInstanceID b)
    (GetClientInstanceID b) (GetBracketId b) v (GetArenaType b) (isArena b) (isRated b)
    (IsRandom b) (GetMapId b) (GetMinLevel b) (GetMaxLevel b) (GetMinPlayersPerTeam b)
    (GetMaxPlayersPerTeam b) (GetMaxPlayers b) (m_InvitedAlliance b) (m_InvitedHorde b)
    (m_PlayersCount b) (GetPlayersSize b) (GetStartTime b) (GetEndTime b) (m_InBGFreeSlotQueue b)
    (m_ArenaTeamIds b) (m_ArenaTeamMMR b).
Definition SetArenaType (v : Z) (b : Battleground) : Battleground :=
  mkBattleground (GetName b) (GetTypeID b) (GetRandomTypeID b) (GetInstanceID b)
    (GetClientInstanceID b) (GetBracketId b) (GetStatus b) v (isArena b) (isRated b) (IsRandom b)
    (GetMapId b) (GetMinLevel b) (GetMaxLevel b) (GetMinPlayersPerTeam b) (GetMaxPlayersPerTeam b)
    (GetMaxPlayers b) (m_InvitedAlliance b) (m_InvitedHorde b) (m_PlayersCount b)
    (GetPlayersSize b) (GetStartTime b) (GetEndTime b) (m_InBGFreeSlotQueue b) (m_ArenaTeamIds b)
    (m_ArenaTeamMMR b).
Definition SetRated (v : bool) (b : Battleground) : Battleground :=
  mkBattleground (GetName b) (GetTypeID b) (GetRandomTypeID b) (GetInstanceID b)
    (GetClientInstanceID b) (GetBracketId b) (GetStatus b) (GetArenaType b) (isArena b) v
    (IsRandom b) (GetMapId b) (GetMinLevel b) (GetMaxLevel b) (GetMinPlayersPerTeam b)
    (GetMaxPlayersPerTeam b) (GetMaxPlayers b) (m_InvitedAlliance b) (m_InvitedHorde b)
    (m_PlayersCount b) (GetPlayersSize b) (GetStartTime b) (GetEndTime b) (m_InBGFreeSlotQueue b)
    (m_ArenaTeamIds b) (m_ArenaTeamMMR b).
Definition SetRandom (v : bool) (b : Battleground) : Battleground :=
  mkBattleground (GetName b) (GetTypeID b) (GetRandomTypeID b) (GetInstanceID b)
    (GetClientInstanceID b) (GetBracketId b) (GetStatus b) (GetArenaType b) (isArena b)
    (isRated b) v (GetMapId b) (GetMinLevel b) (GetMaxLevel b) (GetMinPlayersPerTeam b)
    (GetMaxPlayersPerTeam b) (GetMaxPlayers b) (m_InvitedAlliance b) (m_InvitedHorde b)
    (m_PlayersCount b) (GetPlayersSize b) (GetStartTime b) (GetEndTime b) (m_InBGFreeSlotQueue b)
    (m_ArenaTeamIds b) (m_ArenaTeamMMR b).
Definition set_invited (a : Z) (h : Z) (b : Battleground) : Battleground :=
  mkBattleground (GetName b) (GetTypeID b) (GetRandomTypeID b) (GetInstanceID b)
    (GetClientInstanceID b) (GetBracketId b) (GetStatus b) (GetArenaType b) (isArena b)
    (isRated b) (IsRandom b) (GetMapId b) (GetMinLevel b) (GetMaxLevel b) (GetMinPlayersPerTeam b)
    (GetMaxPlayersPerTeam b) (GetMaxPlayers b) a h (m_PlayersCount b) (GetPlayersSize b)
    (GetStartTime b) (GetEndTime b) (m_InBGFreeSlotQueue b) (m_ArenaTeamIds b) (m_ArenaTeamMMR b).
Definition SetStartTime (v : Z) (b : Battleground) : Battleground :=
  mkBattleground (GetName b) (GetTypeID b) (GetRandomTypeID b) (GetInstanceID b)
    (GetClientInstanceID b) (GetBracketId b) (GetStatus b) (GetArenaType b) (isArena b)
    (isRated b) (IsRandom b) (GetMapId b) (GetMinLevel b) (GetMaxLevel b) (GetMinPlayersPerTeam b)
    (GetMaxPlayersPerTeam b) (GetMaxPlayers b) (m_InvitedAlliance b) (m_InvitedHorde b)
    (m_PlayersCount b) (GetPlayersSize b) v (GetEndTime b) (m_InBGFreeSlotQueue b)
    (m_ArenaTeamIds b) (m_ArenaTeamMMR b).
Definition SetEndTime (v : Z) (b : Battleground) : Battleground :=
  mkBattleground (GetName b) (GetTypeID b) (GetRandomTypeID b) (GetInstanceID b)
    (GetClientInstanceID b) (GetBracketId b) (GetStatus b) (GetArenaType b) (isArena b)
    (isRated b) (IsRandom b) (GetMapId b) (GetMinLevel b) (GetMaxLevel b) (GetMinPlayersPerTeam b)
    (GetMaxPlayersPerTeam b) (GetMaxPlayers b) (m_InvitedAlliance b) (m_InvitedHorde b)
    (m_PlayersCount b) (GetPlayersSize b) (GetStartTime b) v (m_InBGFreeSlotQueue b)
    (m_ArenaTeamIds b) (m_ArenaTeamMMR b).
Definition set_InBGFreeSlotQueue (v : bool) (b : Battleground) : Battleground :=
  mkBattleground (GetName b) (GetTypeID b) (GetRandomTypeID b) (GetInstanceID b)
    (GetClientInstanceID b) (GetBracketId b) (GetStatus b) (GetArenaType b) (isArena b)
    (isRated b) (IsRandom b) (GetMapId b) (GetMinLevel b) (GetMaxLevel b) (GetMinPlayersPerTeam b)
    (GetMaxPlayersPerTeam b) (GetMaxPlayers b) (m_InvitedAlliance b) (m_InvitedHorde b)
    (m_PlayersCount b) (GetPlayersSize b) (GetStartTime b) (GetEndTime b) v (m_ArenaTeamIds b)
    (m_ArenaTeamMMR b).
Definition set_PlayersSize (v : Z) (b : Battleground) : Battleground :=
  mkBattleground (GetName b) (GetTypeID b) (GetRandomTypeID b) (GetInstanceID b)
    (GetClientInstanceID b) (GetBracketId b) (GetStatus b) (GetArenaType b) (isArena b)
    (isRated b) (IsRandom b) (GetMapId b) (GetMinLevel b) (GetMaxLevel b) (GetMinPlayersPerTeam b)
    (GetMaxPlayersPerTeam b) (GetMaxPlayers b) (m_InvitedAlliance b) (m_InvitedHorde b)
    (m_PlayersCount b) v (GetStartTime b) (GetEndTime b) (m_InBGFreeSlotQueue b)
    (m_ArenaTeamIds b) (m_ArenaTeamMMR b).
Definition set_ArenaTeamIds (v : Z * Z) (b : Battleground) : Battleground :=
  mkBattleground (GetName b) (GetTypeID b) (GetRandomTypeID b) (GetInstanceID b)
    (GetClientInstanceID b) (GetBracketId b) (GetStatus b) (GetArenaType b) (isArena b)
    (isRated b) (IsRandom b) (GetMapId b) (GetMinLevel b) (GetMaxLevel b) (GetMinPlayersPerTeam b)
    (GetMaxPlayersPerTeam b) (GetMaxPlayers b) (m_InvitedAlliance b) (m_InvitedHorde b)
    (m_PlayersCount b) (GetPlayersSize b) (GetStartTime b) (GetEndTime b) (m_InBGFreeSlotQueue b)
    v (m_ArenaTeamMMR b).
Definition set_ArenaTeamMMR (v : Z * Z) (b : Battleground) : Battleground :=
  mkBattleground (GetName b) (GetTypeID b) (GetRandomTypeID b) (GetInstanceID b)
    (GetClientInstanceID b) (GetBracketId b) (GetStatus b) (GetArenaType b) (isArena b)
    (isRated b) (IsRandom b) (GetMapId b) (GetMinLevel b) (GetMaxLevel b) (GetMinPlayersPerTeam b)
    (GetMaxPlayersPerTeam b) (GetMaxPlayers b) (m_InvitedAlliance b) (m_InvitedHorde b)
    (m_PlayersCount b) (GetPlayersSize b) (GetStartTime b) (GetEndTime b) (m_InBGFreeSlotQueue b)
    (m_ArenaTeamIds b) v.

Definition of_team (t : Z) (ah : Z * Z) : Z := if t =? ALLIANCE then ah.1 else ah.2.
Definition set_of_team (t v : Z) (ah : Z * Z) : Z * Z := if t =? ALLIANCE then (v, ah.2) else (ah.1, v).

Definition isBattleground (b : Battleground) : bool := negb (isArena b).
Definition GetInvitedCount (t : Z) (b : Battleground) : Z := of_team t (m_InvitedAlliance b, m_InvitedHorde b).
Definition IncreaseInvitedCount (t : Z) (b : Battleground) : Battleground :=
  if t =? ALLIANCE then set_invited (u32 (m_InvitedAlliance b + 1)) (m_InvitedHorde b) b
  else set_invited (m_InvitedAlliance b) (u32 (m_InvitedHorde b + 1)) b.
Definition DecreaseInvitedCount (t : Z) (b : Battleground) : Battleground :=
  if t =? ALLIANCE then set_invited (u32 (m_InvitedAlliance b - 1)) (m_InvitedHorde b) b
  else set_invited (m_InvitedAlliance b) (u32 (m_InvitedHorde b - 1)) b.
Definition GetPlayersCountByTeam (t : Z) (b : Battleground) : Z := of_team t (m_PlayersCount b).
Definition SetArenaTeamIdForTeam (t id : Z) (b : Battleground) : Battleground :=
  set_ArenaTeamIds (set_of_team t id (m_ArenaTeamIds b)) b.
Definition SetArenaMatchmakerRating (t mmr : Z) (b : Battleground) : Battleground :=
  set_ArenaTeamMMR (set_of_team t mmr (m_ArenaTeamMMR b)) b.
Definition SetBracket (e : PvPDifficultyEntry) (b : Battleground) : Battleground :=
  set_bracket (entry_bracket e) (minLevel e) (maxLevel e) b.
Definition HasFreeSlots (b : Battleground) : bool := GetPlayersSize b <? GetMaxPlayers b.

Definition GetFreeSlotsForTeam (t : Z) (b : Battleground) : Z :=
  let room := if GetInvitedCount t b <? GetMaxPlayersPerTeam b then u32 (GetMaxPlayersPerTeam b - GetInvitedCount t b) else 0 in
  if GetStatus b =? STATUS_WAIT_JOIN then room
  else
    let other := if t =? ALLIANCE then HORDE else ALLIANCE in
    let otherTeam := GetInvitedCount other b in
    let otherIn := GetPlayersCountByTeam other b in
    if GetStatus b =? STATUS_IN_PROGRESS then
      let diff := if otherTeam =? GetInvitedCount t b then 1
                  else if GetInvitedCount t b <? otherTeam then u32 (otherTeam - GetInvitedCount t b) else 0 in
      let diff3 := if otherIn =? GetPlayersCountByTeam t b then 1
                   else if GetPlayersCountByTeam t b <? otherIn then u32 (otherIn - GetPlayersCountByTeam t b)
                   else if GetInvitedCount t b <=? GetMinPlayersPerTeam b
                        then u32 (GetMinPlayersPerTeam b - GetInvitedCount t b + 1) else 0 in
      Z.min (Z.min diff room) diff3
    else 0.

(** The members that [Reset] clears, the counters of the teams' players are not among
    them; what a subclass resets is left out. *)
Definition Reset (b : Battleground) : Battleground :=
  set_PlayersSize 0 (set_InBGFreeSlotQueue false (set_invited 0 0 (SetEndTime 0 (SetStartTime 0 (SetStatus STATUS_WAIT_QUEUE b))))).

(** ** The queues a player is in *)
Record BgBattlegroundQueueID_Rec := mkRec { bgQueueTypeId : Z; invitedToInstance : Z }.

(** What the queues use of a player in the world. *)
Record Player := mkPlayer {
  m_bgBattlegroundQueueID : list BgBattlegroundQueueID_Rec;
  p_team : Z;
  p_level : Z;
  p_bgInstanceID : Z;
  p_bgTypeID : Z;
  p_bgTeam : Z
}.
Definition set_queue_ids (v : list BgBattlegroundQueueID_Rec) (p : Player) : Player :=
  mkPlayer v (p_team p) (p_level p) (p_bgInstanceID p) (p_bgTypeID p) (p_bgTeam p).

(** The index of the first entry with the property, or the number of entries. *)
Fixpoint index_where (P : BgBattlegroundQueueID_Rec -> bool) (l : list BgBattlegroundQueueID_Rec) : Z :=
  match l with [] => 0 | r :: l => if P r then 0 else 1 + index_where P l end.
(** The first entry with the property, changed. *)
Fixpoint update_where (P : BgBattlegroundQueueID_Rec -> bool) (r' : BgBattlegroundQueueID_Rec)
    (l : list BgBattlegroundQueueID_Rec) : list BgBattlegroundQueueID_Rec :=
  match l with [] => [] | r :: l => if P r then r' :: l else r :: update_where P r' l end.
Definition is_queue (q : Z) (r : BgBattlegroundQueueID_Rec) : bool := bgQueueTypeId r =? q.

Definition InBattlegroundQueue (p : Player) : bool :=
  existsb (fun r => negb (bgQueueTypeId r =? BATTLEGROUND_QUEUE_NONE)) (m_bgBattlegroundQueueID p).
Definition GetBattlegroundQueueIndex (q : Z) (p : Player) : Z := index_where (is_queue q) (m_bgBattlegroundQueueID p).
Fixpoint first_invited (q : Z) (l : list BgBattlegroundQueueID_Rec) : bool :=
  match l with [] => false | r :: l => if is_queue q r then negb (invitedToInstance r =? 0) else first_invited q l end.
Definition IsInvitedForBattlegroundQueueType (q : Z) (p : Player) : bool := first_invited q (m_bgBattlegroundQueueID p).
Definition free_or (q : Z) (r : BgBattlegroundQueueID_Rec) : bool :=
  (bgQueueTypeId r =? BATTLEGROUND_QUEUE_NONE) || (bgQueueTypeId r =? q).
Definition AddBattlegroundQueueId (q : Z) (p : Player) : Z * Player :=
  (index_where (free_or q) (m_bgBattlegroundQueueID p),
   set_queue_ids (update_where (free_or q) (mkRec q 0) (m_bgBattlegroundQueueID p)) p).
Definition HasFreeBattlegroundQueueId (p : Player) : bool :=
  existsb (is_queue BATTLEGROUND_QUEUE_NONE) (m_bgBattlegroundQueueID p).
Definition RemoveBattlegroundQueueId (q : Z) (p : Player) : Player :=
  set_queue_ids (update_where (is_queue q) (mkRec BATTLEGROUND_QUEUE_NONE 0) (m_bgBattlegroundQueueID p)) p.
Definition SetInviteForBattlegroundQueueType (q instanceId : Z) (p : Player) : Player :=
  set_queue_ids (map (fun r => if is_queue q r then mkRec (bgQueueTypeId r) instanceId else r) (m_bgBattlegroundQueueID p)) p.

(** ** BattlegroundMgr *)
Record BattlegroundData := mkData {
  m_Battlegrounds : list (Z * Z);                 (* pointers by instance id *)
  m_ClientBattlegroundIds : gmap Z (list Z);      (* by bracket *)
  BGFreeSlotQueue : list Z                        (* pointers *)
}.
Definition no_data : BattlegroundData := mkData [] ∅ [].

(** The registry, the store of the battlegrounds, the instance ids, the players in the
    world and what has happened. *)
Record Realm := mkRealm {
  bgs : gmap Z Battleground;
  next_bg : Z;
  bgDataStore : list (Z * BattlegroundData);      (* by type *)
  m_QueueUpdateScheduler : list Z;
  map_mgr : MapManager;
  players : gmap Z Player;
  log : list effect
}.

Inductive fault := DeletedBattleground | NoInstanceId (f : InstanceIds.fault) | OutOfArray | DeletedGroup | PastTheEnd | EmptyPool
| InvalidatedIterator | NoFuel.

Definition set_bgs (v : gmap Z Battleground) (R : Realm) : Realm :=
  mkRealm v (next_bg R) (bgDataStore R) (m_QueueUpdateScheduler R) (map_mgr R) (players R) (log R).
Definition set_bgDataStore (v : list (Z * BattlegroundData)) (R : Realm) : Realm :=
  mkRealm (bgs R) (next_bg R) v (m_QueueUpdateScheduler R) (map_mgr R) (players R) (log R).
Definition set_scheduler (v : list Z) (R : Realm) : Realm :=
  mkRealm (bgs R) (next_bg R) (bgDataStore R) v (map_mgr R) (players R) (log R).
Definition set_players (v : gmap Z Player) (R : Realm) : Realm :=
  mkRealm (bgs R) (next_bg R) (bgDataStore R) (m_QueueUpdateScheduler R) (map_mgr R) v (log R).
Definition happened (e : effect) (R : Realm) : Realm :=
  mkRealm (bgs R) (next_bg R) (bgDataStore R) (m_QueueUpdateScheduler R) (map_mgr R) (players R) (log R ++ [e]).

Definition FindPlayer (guid : Z) (R : Realm) : option Player := players R !! guid.
Definition on_player (guid : Z) (f : Player -> Player) (R : Realm) : Realm := set_players (alter f guid (players R)) R.

Definition bg_at (ptr : Z) (R : Realm) : result fault Battleground :=
  match bgs R !! ptr with Some b => Ok b | None => Throw DeletedBattleground end.
Definition on_bg (ptr : Z) (f : Battleground -> Battleground) (R : Realm) : result fault Realm :=
  let? b := bg_at ptr R in Ok (set_bgs (<[ptr := f b]> (bgs R)) R).

(** [bgDataStore[t]], which makes an entry when there is none. *)
Definition data_of (t : Z) (R : Realm) : BattlegroundData := default no_data (map_find t (bgDataStore R)).
Definition on_data (t : Z) (f : BattlegroundData -> BattlegroundData) (R : Realm) : Realm :=
  set_bgDataStore (map_set t (f (data_of t R)) (bgDataStore R)) R.

Fixpoint first_instance (instanceId : Z) (l : list (Z * BattlegroundData)) : option Z :=
  match l with
  | [] => None
  | (_, d) :: l => match map_find instanceId (m_Battlegrounds d) with Some ptr => Some ptr | None => first_instance instanceId l end
  end.

Definition GetBattleground (instanceId bgTypeId : Z) (R : Realm) : option Z :=
  if instanceId =? 0 then None
  else if bgTypeId =? BATTLEGROUND_TYPE_NONE then first_instance instanceId (bgDataStore R)
  else match map_find bgTypeId (bgDataStore R) with
       | None => None
       | Some d => map_find instanceId (m_Battlegrounds d)
       end.

Definition GetBattlegroundTemplate (bgTypeId : Z) (R : Realm) : option Z :=
  match map_find bgTypeId (bgDataStore R) with
  | None => None
  | Some d => match m_Battlegrounds d with [] => None | (_, ptr) :: _ => Some ptr end
  end.

Fixpoint with_client_id (instanceId : Z) (l : list (Z * Z)) (R : Realm) : result fault (option Z) :=
  match l with
  | [] => Ok None
  | (_, ptr) :: l =>
      let? b := bg_at ptr R in
      if GetClientInstanceID b =? instanceId then Ok (Some ptr) else with_client_id instanceId l R
  end.

Definition GetBattlegroundThroughClientInstance (instanceId bgTypeId : Z) (R : Realm) : result fault (option Z) :=
  match GetBattlegroundTemplate bgTypeId R with
  | None => Ok None
  | Some t =>
      let? b := bg_at t R in
      if isArena b then Ok (GetBattleground instanceId bgTypeId R)
      else match map_find bgTypeId (bgDataStore R) with
           | None => Ok None
           | Some d => with_client_id instanceId (m_Battlegrounds d) R
           end
  end.

Definition IsArenaType (bgTypeId : Z) : bool :=
  (bgTypeId =? BATTLEGROUND_AA) || (bgTypeId =? BATTLEGROUND_BE) || (bgTypeId =? BATTLEGROUND_NA) ||
  (bgTypeId =? BATTLEGROUND_DS) || (bgTypeId =? BATTLEGROUND_RV) || (bgTypeId =? BATTLEGROUND_RL).

(** The loop of [CreateClientVisibleInstanceId], which never moves its iterator on;
    [itr] is what it points at. The second round always breaks. *)
Fixpoint client_loop (fuel : nat) (itr lastId : Z) : option Z :=
  match fuel with
  | O => None
  | S fuel => let lastId := u32 (lastId + 1) in if lastId =? itr then client_loop fuel itr itr else Some lastId
  end.

Definition CreateClientVisibleInstanceId (bgTypeId bracket_id : Z) (R : Realm) : result fault (Z * Realm) :=
  if IsArenaType bgTypeId then Ok (0, R)
  else if negb ((0 <=? bracket_id) && (bracket_id <? MAX_BATTLEGROUND_BRACKETS)) then Throw OutOfArray
  else
    let clientIds := default [] (m_ClientBattlegroundIds (data_of bgTypeId R) !! bracket_id) in
    match (match clientIds with [] => Some 0 | itr :: _ => client_loop 2 itr 0 end) with
    | None => Throw NoFuel
    | Some lastId =>
        let lastId := u32 (lastId + 1) in
        Ok (lastId, on_data bgTypeId (fun d =>
              mkData (m_Battlegrounds d) (<[bracket_id := set_add lastId clientIds]> (m_ClientBattlegroundIds d)) (BGFreeSlotQueue d)) R)
    end.

(** The cumulative search of [GetRandomBG]. *)
Fixpoint select_weight (selectedWeight weight : Z) (l : list (Z * Z)) : Z :=
  match l with
  | [] => BATTLEGROUND_TYPE_NONE
  | (t, w) :: l => let weight := u32 (weight + w) in if selectedWeight <? weight then t else select_weight selectedWeight weight l
  end.

Definition GetRandomBG (E : Env) (bgTypeId : Z) : Z :=
  let weights := if bgTypeId =? BATTLEGROUND_AA then m_ArenaSelectionWeights E
                 else if bgTypeId =? BATTLEGROUND_RB then m_BGSelectionWeights E else [] in
  let selectionWeights := filter (fun tw => tw.2 <> 0) weights in
  let weight := foldl (fun w tw => u32 (w + tw.2)) 0 selectionWeights in
  if weight =? 0 then BATTLEGROUND_TYPE_NONE else select_weight (urand E (weight - 1)) 0 selectionWeights.

(** The types with a class of their own, and the two that stand for others. *)
Definition known_type (t : Z) : bool :=
  bool_decide (t ∈ [BATTLEGROUND_AV; BATTLEGROUND_WS; BATTLEGROUND_AB; BATTLEGROUND_NA; BATTLEGROUND_BE; BATTLEGROUND_EY; BATTLEGROUND_RL;
    BATTLEGROUND_SA; BATTLEGROUND_DS; BATTLEGROUND_RV; BATTLEGROUND_IC; BATTLEGROUND_RB; BATTLEGROUND_AA]).

(** The pointer of the new battleground, null when there is no template. *)
Definition CreateNewBattleground (E : Env) (originalBgTypeId : Z) (bracketEntry : PvPDifficultyEntry) (arenaType : Z) (rated : bool)
    (R : Realm) : result fault (option Z * Realm) :=
  let isRandom := originalBgTypeId =? BATTLEGROUND_RB in
  let bgTypeId := if isRandom || (originalBgTypeId =? BATTLEGROUND_AA) then GetRandomBG E originalBgTypeId else originalBgTypeId in
  match GetBattlegroundTemplate bgTypeId R with
  | None => Ok (None, R)
  | Some t =>
      let? bg_template := bg_at t R in
      if negb (known_type bgTypeId) then Ok (None, R)
      else
        let bg := SetBracket bracketEntry bg_template in
        match GenerateInstanceId (grow E) (map_mgr R) with
        | Throw f => Throw (NoInstanceId f)
        | Ok (id, mm) =>
            let R := mkRealm (bgs R) (next_bg R) (bgDataStore R) (m_QueueUpdateScheduler R) mm (players R) (log R) in
            let? (client, R) := CreateClientVisibleInstanceId (if isRandom then BATTLEGROUND_RB else bgTypeId) (entry_bracket bracketEntry) R in
            let bg := SetStatus STATUS_WAIT_JOIN (Reset (SetClientInstanceID client (SetInstanceID id bg))) in
            let bg := SetRandom isRandom (SetRated rated (SetRandomTypeID bgTypeId (SetTypeID originalBgTypeId (SetArenaType arenaType bg)))) in
            let ptr := next_bg R in
            Ok (Some ptr, mkRealm (<[ptr := bg]> (bgs R)) (ptr + 1) (bgDataStore R) (m_QueueUpdateScheduler R) (map_mgr R) (players R) (log R))
        end
  end.

Definition AddBattleground (ptr : Z) (R : Realm) : result fault Realm :=
  let? b := bg_at ptr R in
  Ok (on_data (GetTypeID b) (fun d =>
        mkData (map_set (GetInstanceID b) ptr (m_Battlegrounds d)) (m_ClientBattlegroundIds d) (BGFreeSlotQueue d)) R).
Definition RemoveBattleground (bgTypeId instanceId : Z) (R : Realm) : Realm :=
  on_data bgTypeId (fun d => mkData (map_erase instanceId (m_Battlegrounds d)) (m_ClientBattlegroundIds d) (BGFreeSlotQueue d)) R.

Fixpoint erase_instance (instanceId : Z) (l : list Z) (R : Realm) : result fault (list Z) :=
  match l with
  | [] => Ok []
  | ptr :: l =>
      let? b := bg_at ptr R in
      if GetInstanceID b =? instanceId then Ok l else let? l := erase_instance instanceId l R in Ok (ptr :: l)
  end.

(** [Battleground::AddToBGFreeSlotQueue] and the method of the registry. *)
Definition AddToBGFreeSlotQueue (ptr : Z) (R : Realm) : result fault Realm :=
  let? b := bg_at ptr R in
  if negb (m_InBGFreeSlotQueue b) && isBattleground b then
    on_bg ptr (set_InBGFreeSlotQueue true)
      (on_data (GetTypeID b) (fun d => mkData (m_Battlegrounds d) (m_ClientBattlegroundIds d) (ptr :: BGFreeSlotQueue d)) R)
  else Ok R.
Definition RemoveFromBGFreeSlotQueue (ptr : Z) (R : Realm) : result fault Realm :=
  let? b := bg_at ptr R in
  if m_InBGFreeSlotQueue b then
    let? l := erase_instance (GetInstanceID b) (BGFreeSlotQueue (data_of (GetTypeID b) R)) R in
    on_bg ptr (set_InBGFreeSlotQueue false)
      (on_data (GetTypeID b) (fun d => mkData (m_Battlegrounds d) (m_ClientBattlegroundIds d) l) R)
  else Ok R.

Definition StartBattleground (ptr : Z) (R : Realm) : result fault Realm :=
  let? R := on_bg ptr (SetStartTime 0) R in
  let? R := AddToBGFreeSlotQueue ptr R in
  AddBattleground ptr R.

(** A battleground that is to be deleted, in [Update] of the registry: its entry, its
    client id and, in its destructor, what still refers to it. *)
Definition delete_battleground (bgTypeId instanceId : Z) (ptr : Z) (R : Realm) : result fault Realm :=
  let? b := bg_at ptr R in
  let R := on_data bgTypeId (fun d =>
    mkData (map_erase instanceId (m_Battlegrounds d))
      (alter (set_del (GetClientInstanceID b)) (GetBracketId b) (m_ClientBattlegroundIds d)) (BGFreeSlotQueue d)) R in
  let R := RemoveBattleground (GetTypeID b) (GetInstanceID b) R in
  let? R := RemoveFromBGFreeSlotQueue ptr R in
  Ok (set_bgs (delete ptr (bgs R)) R).

Definition BGQueueTypeId (bgTypeId arenaType : Z) : Z :=
  if bgTypeId =? BATTLEGROUND_AB then BATTLEGROUND_QUEUE_AB
  else if bgTypeId =? BATTLEGROUND_AV then BATTLEGROUND_QUEUE_AV
  else if bgTypeId =? BATTLEGROUND_EY then BATTLEGROUND_QUEUE_EY
  else if bgTypeId =? BATTLEGROUND_IC then BATTLEGROUND_QUEUE_IC
  else if bgTypeId =? BATTLEGROUND_RB then BATTLEGROUND_QUEUE_RB
  else if bgTypeId =? BATTLEGROUND_SA then BATTLEGROUND_QUEUE_SA
  else if bgTypeId =? BATTLEGROUND_WS then BATTLEGROUND_QUEUE_WS
  else if IsArenaType bgTypeId then
    if arenaType =? ARENA_TYPE_2v2 then BATTLEGROUND_QUEUE_2v2
    else if arenaType =? ARENA_TYPE_3v3 then BATTLEGROUND_QUEUE_3v3
    else if arenaType =? ARENA_TYPE_5v5 then BATTLEGROUND_QUEUE_5v5
    else BATTLEGROUND_QUEUE_NONE
  else BATTLEGROUND_QUEUE_NONE.

Definition BGTemplateId (q : Z) : Z :=
  if q =? BATTLEGROUND_QUEUE_WS then BATTLEGROUND_WS
  else if q =? BATTLEGROUND_QUEUE_AB then BATTLEGROUND_AB
  else if q =? BATTLEGROUND_QUEUE_AV then BATTLEGROUND_AV
  else if q =? BATTLEGROUND_QUEUE_EY then BATTLEGROUND_EY
  else if q =? BATTLEGROUND_QUEUE_SA then BATTLEGROUND_SA
  else if q =? BATTLEGROUND_QUEUE_IC then BATTLEGROUND_IC
  else if q =? BATTLEGROUND_QUEUE_RB then BATTLEGROUND_RB
  else if (q =? BATTLEGROUND_QUEUE_2v2) || (q =? BATTLEGROUND_QUEUE_3v3) || (q =? BATTLEGROUND_QUEUE_5v5) then BATTLEGROUND_AA
  else 0.

Definition BGArenaType (q : Z) : Z :=
  if q =? BATTLEGROUND_QUEUE_2v2 then ARENA_TYPE_2v2
  else if q =? BATTLEGROUND_QUEUE_3v3 then ARENA_TYPE_3v3
  else if q =? BATTLEGROUND_QUEUE_5v5 then ARENA_TYPE_5v5
  else 0.

Definition GetMaxRatingDifference (E : Env) : Z :=
  if CONFIG_ARENA_MAX_RATING_DIFFERENCE E =? 0 then 5000 else CONFIG_ARENA_MAX_RATING_DIFFERENCE E.
Definition GetRatingDiscardTimer (E : Env) : Z := CONFIG_ARENA_RATING_DISCARD_TIMER E.

(** The rating is shifted as a 64-bit number, the others as signed 32-bit ones. *)
Definition schedule_id (arenaMatchmakerRating arenaType q bgTypeId bracket_id : Z) : Z :=
  Z.lor (Z.lor (Z.lor (Z.lor (u64 (Z.shiftl arenaMatchmakerRating 32)) (u64 (s32 (Z.shiftl arenaType 24))))
    (u64 (s32 (Z.shiftl q 16)))) (u64 (s32 (Z.shiftl bgTypeId 8)))) (u64 bracket_id).
Definition ScheduleQueueUpdate (arenaMatchmakerRating arenaType q bgTypeId bracket_id : Z) (R : Realm) : Realm :=
  let scheduleId := schedule_id arenaMatchmakerRating arenaType q bgTypeId bracket_id in
  if bool_decide (scheduleId ∈ m_QueueUpdateScheduler R) then R
  else set_scheduler (m_QueueUpdateScheduler R ++ [scheduleId]) R.

Record Scheduled := mkScheduled { s_rating : Z; s_arenaType : Z; s_queue : Z; s_type : Z; s_bracket : Z }.
Definition decode_schedule (id : Z) : Scheduled :=
  mkScheduled (u32 (Z.shiftr id 32)) (Z.land (Z.shiftr id 24) 255) (Z.land (Z.shiftr id 16) 255)
    (Z.land (Z.shiftr id 8) 255) (Z.land id 255).

(** ** Packets *)
Definition BuildBattlegroundStatusPacket (bg : option Battleground) (QueueSlot StatusID Time1 Time2 arenatype : Z) (uiFrame : Z) : WorldPacket :=
  let short := mkPacket SMSG_BATTLEFIELD_STATUS [U32 (u8 QueueSlot); U64 0] in
  if StatusID =? 0 then short
  else match bg with
       | None => short
       | Some bg =>
           mkPacket SMSG_BATTLEFIELD_STATUS
             ([U32 (u8 QueueSlot); U8 (u8 arenatype); U8 (if isArena bg then 0xC else 0x2); U32 (GetTypeID bg); U16 0x1F90; U8 0; U8 0;
               U32 (GetClientInstanceID bg); U8 (if isRated bg then 1 else 0); U32 StatusID] ++
              (if StatusID =? STATUS_WAIT_QUEUE then [U32 Time1; U32 Time2]
               else if StatusID =? STATUS_WAIT_JOIN then [U32 (GetMapId bg); U64 0; U32 Time1]
               else if StatusID =? STATUS_IN_PROGRESS then [U32 (GetMapId bg); U64 0; U32 Time1; U32 Time2; U8 uiFrame]
               else []))
       end.

(** ** Scheduled updates *)
Lemma small_shift x i k : 0 <= x < 2 ^ i -> 0 <= i -> 0 <= k -> i + k <= 31 -> u64 (s32 (Z.shiftl x k)) = x * 2 ^ k.
Proof.
  intros Hx Hi Hk Hik. rewrite Z.shiftl_mul_pow2 by done.
  assert (0 <= x * 2 ^ k < 2 ^ 31).
  { split; [apply Z.mul_nonneg_nonneg; [lia|apply Z.pow_nonneg; lia]|].
    apply Z.lt_le_trans with (2 ^ i * 2 ^ k); [apply Z.mul_lt_mono_pos_r; [apply pow2_pos; lia|lia]|].
    rewrite <- Z.pow_add_r by lia. apply Z.pow_le_mono_r; lia. }
  rewrite swrap_id by width. apply wrap_id. width.
Qed.

Lemma schedule_id_sum mmr at_ q t b :
  in_u 32 mmr -> 0 <= at_ < 128 -> in_u 8 q -> in_u 8 t -> in_u 8 b ->
  schedule_id mmr at_ q t b = mmr * 2 ^ 32 + at_ * 2 ^ 24 + q * 2 ^ 16 + t * 2 ^ 8 + b.
Proof.
  intros Hm Ha Hq Ht Hb. unfold schedule_id, in_u in *.
  rewrite (small_shift at_ 7), (small_shift q 8), (small_shift t 8) by (norm_pow; lia).
  rewrite (wrap_id 64 b) by width. rewrite wrap_id by (rewrite Z.shiftl_mul_pow2 by lia; width).
  rewrite <- !(Z.shiftl_mul_pow2 _ _) by lia.
  assert (E : forall x y i, 0 <= i -> 0 <= y < 2 ^ i -> Z.lor (Z.shiftl x i) y = Z.shiftl x i + y).
  { intros x y i Hi Hy. rewrite Z.lor_comm, lor_shift_add by done. rewrite Z.shiftl_mul_pow2 by done. lia. }
  rewrite <- !Z.lor_assoc.
  rewrite (E t b 8), (E q _ 16), (E at_ _ 24), (E mmr _ 32); rewrite ?Z.shiftl_mul_pow2 by lia; norm_pow; lia.
Qed.

(** An update of a queue that is scheduled is the one that is run: the number it
    is stored as determines the rating, arena type, queue, type and bracket. *)
Theorem schedule_decode mmr at_ q t b :
  in_u 32 mmr -> 0 <= at_ < 128 -> in_u 8 q -> in_u 8 t -> in_u 8 b ->
  decode_schedule (schedule_id mmr at_ q t b) = mkScheduled mmr at_ q t b.
Proof.
  intros Hm Ha Hq Ht Hb. rewrite schedule_id_sum by done. unfold decode_schedule, in_u in *.
  rewrite !Z.shiftr_div_pow2 by lia. change 255 with (Z.ones 8). rewrite !Z.land_ones by lia.
  f_equal; [rewrite wrap_id by (split; dlia)|..]; dlia.
Qed.

Lemma schedule_decode_witness :
  decode_schedule (schedule_id 1523 3 BATTLEGROUND_QUEUE_3v3 BATTLEGROUND_AA 14) =
  mkScheduled 1523 3 BATTLEGROUND_QUEUE_3v3 BATTLEGROUND_AA 14.
Proof. apply schedule_decode; vm_compute; split; congruence. Defined.

(** ** Free places *)

Lemma GetInvitedCount_range t b : in_u 32 (m_InvitedAlliance b) -> in_u 32 (m_InvitedHorde b) -> in_u 32 (GetInvitedCount t b).
Proof. intros. unfold GetInvitedCount, of_team. by destruct (t =? ALLIANCE). Qed.

(** A battleground never has more free places for a team than it takes to fill it. *)
Lemma GetFreeSlotsForTeam_room t b :
  in_u 32 (m_InvitedAlliance b) -> in_u 32 (m_InvitedHorde b) -> in_u 32 (GetMaxPlayersPerTeam b) ->
  0 <= GetFreeSlotsForTeam t b <= Z.max 0 (GetMaxPlayersPerTeam b - GetInvitedCount t b).
Proof.
  intros Ha Hh Hm. pose proof (GetInvitedCount_range t b Ha Hh). unfold GetFreeSlotsForTeam. cbv zeta.
  set (room := if GetInvitedCount t b <? _ then _ else 0).
  assert (room = Z.max 0 (GetMaxPlayersPerTeam b - GetInvitedCount t b)) as ->.
  { unfold room. destruct (Z.ltb_spec (GetInvitedCount t b) (GetMaxPlayersPerTeam b)); [rewrite wrap_id by width|]; lia. }
  destruct (GetStatus b =? STATUS_WAIT_JOIN); [lia|]. destruct (GetStatus b =? STATUS_IN_PROGRESS); [|lia].
  assert (forall x, 0 <= u32 x) by (intros; apply wrap_range; lia).
  match goal with |- 0 <= Z.min (Z.min ?d _) ?d3 <= _ => assert (0 <= d) by (repeat case_match; auto; lia); assert (0 <= d3) by (repeat case_match; auto; lia) end.
  lia.
Qed.

(** The numbers of players a battleground counts and takes are in range. *)
Definition counts_ok (b : Battleground) : Prop :=
  in_u 32 (m_InvitedAlliance b) /\ in_u 32 (m_InvitedHorde b) /\ in_u 31 (GetMaxPlayersPerTeam b).

Lemma free_ok t b : counts_ok b -> 0 <= GetFreeSlotsForTeam t b < 2 ^ 31.
Proof.
  intros (Ha & Hh & Hm). pose proof (GetInvitedCount_range t b Ha Hh).
  assert (in_u 32 (GetMaxPlayersPerTeam b)) as Hm' by (unfold in_u in *; lia).
  pose proof (GetFreeSlotsForTeam_room t b Ha Hh Hm'). unfold in_u in *. lia.
Qed.

(** While a battleground runs it has at most one free place for a team that has as
    many players invited as the other, none for the larger team, and otherwise no more
    than the team is short of; it never has more than it takes to fill the team, and
    before it starts exactly that. *)
Theorem GetFreeSlotsForTeam_bounds t b :
  in_u 32 (m_InvitedAlliance b) -> in_u 32 (m_InvitedHorde b) -> in_u 32 (GetMaxPlayersPerTeam b) ->
  let invited := GetInvitedCount t b in
  let other := GetInvitedCount (if t =? ALLIANCE then HORDE else ALLIANCE) b in
  let free := GetFreeSlotsForTeam t b in
  0 <= free <= Z.max 0 (GetMaxPlayersPerTeam b - invited) /\
  (GetStatus b = STATUS_IN_PROGRESS -> free <= (if decide (invited = other) then 1 else Z.max 0 (other - invited))) /\
  (GetStatus b = STATUS_WAIT_JOIN -> free = Z.max 0 (GetMaxPlayersPerTeam b - invited)) /\
  (GetStatus b <> STATUS_WAIT_JOIN -> GetStatus b <> STATUS_IN_PROGRESS -> free = 0).
Proof.
  intros Ha Hh Hm. cbv zeta. split; [by apply GetFreeSlotsForTeam_room|].
  pose proof (GetInvitedCount_range t b Ha Hh) as H1. unfold GetFreeSlotsForTeam. cbv zeta.
  set (other := if t =? ALLIANCE then HORDE else ALLIANCE). pose proof (GetInvitedCount_range other b Ha Hh) as H2.
  set (x := GetInvitedCount t b) in *. set (y := GetInvitedCount other b) in *. set (M := GetMaxPlayersPerTeam b) in *.
  split_and!.
  - intros ->. change (STATUS_IN_PROGRESS =? STATUS_WAIT_JOIN) with false. rewrite Z.eqb_refl. cbn iota.
    rewrite decide_bool_decide. destruct (Z.eqb_spec y x) as [->|]; [rewrite bool_decide_true by done; lia|].
    rewrite bool_decide_false by lia. destruct (Z.ltb_spec x y); [rewrite (wrap_id 32 (y - x)) by width|]; lia.
  - intros ->. rewrite Z.eqb_refl. destruct (Z.ltb_spec x M); [rewrite wrap_id by width|]; lia.
  - intros E1 E2. by rewrite (proj2 (Z.eqb_neq _ _) E1), (proj2 (Z.eqb_neq _ _) E2).
Qed.

(** ** Client instance ids *)

(** A battleground gets the client id 1 when no other of its type and bracket has
    an id; otherwise it gets 3 when 1 is in use and 2 when it is not, whether or not
    another battleground has that id already. *)
Theorem CreateClientVisibleInstanceId_value bgTypeId bracket_id R :
  IsArenaType bgTypeId = false -> 0 <= bracket_id < MAX_BATTLEGROUND_BRACKETS ->
  let ids := default [] (m_ClientBattlegroundIds (data_of bgTypeId R) !! bracket_id) in
  StronglySorted Z.lt ids -> Forall (fun i => 1 <= i) ids ->
  exists R', CreateClientVisibleInstanceId bgTypeId bracket_id R = Ok (if decide (ids = []) then 1 else if decide (1 ∈ ids) then 3 else 2, R') /\
    default [] (m_ClientBattlegroundIds (data_of bgTypeId R') !! bracket_id) =
      set_add (if decide (ids = []) then 1 else if decide (1 ∈ ids) then 3 else 2) ids.
Proof.
  intros Ha Hb ids Hs Hp. unfold CreateClientVisibleInstanceId. rewrite Ha.
  rewrite (proj2 (Z.leb_le 0 bracket_id)), (proj2 (Z.ltb_lt _ _)) by lia. simpl negb. fold ids. cbn iota.
  set (r := match ids with [] => _ | _ => _ end).
  assert (r = Some (if decide (ids = []) then 0 else if decide (1 ∈ ids) then 2 else 1)) as ->.
  { unfold r. destruct ids as [|i l]; [done|]. rewrite decide_False by done. apply Forall_cons in Hp as [Hi _].
    apply StronglySorted_inv in Hs as [_ Hl]. rewrite Forall_forall in Hl. cbn [client_loop].
    change (u32 (0 + 1)) with 1. destruct (Z.eqb_spec 1 i) as [<-|].
    - change (u32 (1 + 1) =? 1) with false. rewrite decide_True by by left. done.
    - rewrite decide_False; [done|]. intros [|Hin]%elem_of_cons; [lia|]. specialize (Hl 1 Hin). lia. }
  cbn iota. set (id := if decide (ids = []) then 1 else _).
  assert (u32 ((if decide (ids = []) then 0 else if decide (1 ∈ ids) then 2 else 1) + 1) = id) as ->.
  { unfold id. repeat case_decide; done. }
  eexists. split; [done|]. unfold data_of at 1, on_data. cbn. rewrite map_find_set. cbn. by rewrite lookup_insert_eq.
Qed.

(** ** Random battlegrounds *)
Definition weight_sum (l : list (Z * Z)) : Z := foldr (fun tw acc => tw.2 + acc) 0 l.

Lemma weight_sum_nonneg l : Forall (fun tw => 0 <= tw.2) l -> 0 <= weight_sum l.
Proof. induction 1; simpl; lia. Qed.

Lemma fold_weights l w :
  Forall (fun tw => 0 <= tw.2) l -> 0 <= w -> w + weight_sum l < 2 ^ 32 -> foldl (fun w tw => u32 (w + tw.2)) w l = w + weight_sum l.
Proof.
  intros Hl. revert w. induction Hl as [|[t x] l Hx Hl IH]; intros w Hw Hs; simpl in *; [lia|].
  pose proof (weight_sum_nonneg l Hl). rewrite wrap_id by width. rewrite IH by lia. lia.
Qed.

Lemma select_weight_spec l r w :
  Forall (fun tw => 0 <= tw.2) l -> 0 <= w <= r -> r < w + weight_sum l -> w + weight_sum l < 2 ^ 32 ->
  exists l1 t x l2, l = l1 ++ (t, x) :: l2 /\ select_weight r w l = t /\ w + weight_sum l1 <= r < w + weight_sum l1 + x.
Proof.
  intros Hl. revert w. induction Hl as [|[t x] l Hx Hl IH]; intros w Hw Hr Hs; cbn [weight_sum foldr] in *; [lia|].
  fold (weight_sum l) in *. cbn [snd] in *. pose proof (weight_sum_nonneg l Hl).
  cbn [select_weight]. rewrite wrap_id by width. destruct (Z.ltb_spec r (w + x)).
  - exists [], t, x, l. simpl. split_and!; [done|done|lia|lia].
  - destruct (IH (w + x)) as (l1 & t' & x' & l2 & -> & Hsel & Hb); [lia..|].
    exists ((t, x) :: l1), t', x', l2. split_and!; [done|done|simpl; fold (weight_sum l1); lia..].
Qed.

(** Random battlegrounds are drawn in proportion to their weights: the number drawn
    lies in the range of the type that is returned, whose length is the weight. *)
Theorem GetRandomBG_proportional E :
  Forall (fun tw => 0 <= tw.2) (m_BGSelectionWeights E) ->
  let l := filter (fun tw => tw.2 <> 0) (m_BGSelectionWeights E) in
  0 < weight_sum l < 2 ^ 32 -> 0 <= urand E (weight_sum l - 1) <= weight_sum l - 1 ->
  exists l1 t x l2, l = l1 ++ (t, x) :: l2 /\ GetRandomBG E BATTLEGROUND_RB = t /\
    weight_sum l1 <= urand E (weight_sum l - 1) < weight_sum l1 + x.
Proof.
  intros Hw l Hs Hu. unfold GetRandomBG. change (BATTLEGROUND_RB =? BATTLEGROUND_AA) with false.
  rewrite Z.eqb_refl. cbn iota zeta. fold l.
  assert (Hl : Forall (fun tw => 0 <= tw.2) l).
  { apply Forall_forall. intros tw [_ Hin]%list_elem_of_filter. rewrite Forall_forall in Hw. by apply Hw. }
  clearbody l. rewrite fold_weights by (done || lia). rewrite Z.add_0_l, (proj2 (Z.eqb_neq _ _)) by lia.
  destruct (select_weight_spec l (urand E (weight_sum l - 1)) 0 Hl) as (l1 & t & x & l2 & -> & Hsel & Hb); [lia..|].
  exists l1, t, x, l2. split_and!; [done|done|lia..].
Qed.

(** ** Examples *)
Definition sample_bg : Battleground :=
  mkBattleground [] BATTLEGROUND_WS BATTLEGROUND_WS 7 1 0 STATUS_IN_PROGRESS 0 false false false 489 10 19 5 10 20 8 6 (7, 6) 13 0 0 true
    (0, 0) (0, 0).

Lemma GetFreeSlotsForTeam_bounds_witness :
  GetFreeSlotsForTeam HORDE sample_bg = 1 /\ GetFreeSlotsForTeam ALLIANCE sample_bg = 0 /\
  0 <= GetFreeSlotsForTeam HORDE sample_bg <= Z.max 0 (GetMaxPlayersPerTeam sample_bg - GetInvitedCount HORDE sample_bg).
Proof.
  split; [vm_compute; reflexivity|]. split; [vm_compute; reflexivity|].
  apply (GetFreeSlotsForTeam_bounds HORDE sample_bg); vm_compute; split; congruence.
Defined.

Definition sample_realm : Realm := mkRealm ∅ 0 [] [] started ∅ [].
(** The client ids of battlegrounds started one after the other. *)
Fixpoint client_ids (n : nat) (R : Realm) : list Z :=
  match n with
  | O => []
  | S n => match CreateClientVisibleInstanceId BATTLEGROUND_WS 0 R with Ok (id, R) => id :: client_ids n R | Throw _ => [] end
  end.
Example client_ids_repeat : client_ids 4 sample_realm = [1; 3; 3; 3].
Proof. vm_compute. reflexivity. Qed.

Definition sample_realm_one : Realm :=
  match CreateClientVisibleInstanceId BATTLEGROUND_WS 0 sample_realm with Ok (_, R) => R | Throw _ => sample_realm end.
Lemma CreateClientVisibleInstanceId_value_witness :
  exists R', CreateClientVisibleInstanceId BATTLEGROUND_WS 0 sample_realm_one = Ok (3, R').
Proof.
  destruct (CreateClientVisibleInstanceId_value BATTLEGROUND_WS 0 sample_realm_one) as (R' & H & _).
  - reflexivity.
  - vm_compute. split; congruence.
  - vm_compute. repeat constructor.
  - vm_compute. repeat constructor; congruence.
  - exists R'. exact H.
Defined.

End Battleground.
