(* ===== verification/BattlegroundRegistry.v ===== *)
(** * BattlegroundRegistry: the registry of battlegrounds

    The invariant of the registry of [Battleground]: what is registered or listed
    exists, under its type and instance. Creating, starting and deleting
    battlegrounds keep it, and use no deleted battleground. *)
From S2P Require Import Prelude OrderedMap InstanceIds Battleground.
Import Battleground.
#[global] Open Scope Z_scope.

Module BattlegroundRegistry.

(** ** The invariant *)

(** What is registered exists and is registered under its type and instance, whose id is
    in use; a battleground in the list of those with free slots exists, knows that it is
    there and is the only one of its instance there. Pointers are not used again. *)
Record realm_wf (R : Realm) : Prop := {
  wf_store : map_sorted (bgDataStore R);
  wf_sorted t : map_sorted (m_Battlegrounds (data_of t R));
  wf_registered t i ptr : map_find i (m_Battlegrounds (data_of t R)) = Some ptr ->
    exists b, bgs R !! ptr = Some b /\ GetTypeID b = t /\ GetInstanceID b = i;
  wf_free t ptr : ptr ∈ BGFreeSlotQueue (data_of t R) ->
    exists b, bgs R !! ptr = Some b /\ GetTypeID b = t /\ m_InBGFreeSlotQueue b = true /\
      1 <= GetInstanceID b /\ InstanceIds.used (map_mgr R) (GetInstanceID b) = true;
  wf_free_once t : NoDup (BGFreeSlotQueue (data_of t R));
  wf_free_instance t p q bp bq : p ∈ BGFreeSlotQueue (data_of t R) -> q ∈ BGFreeSlotQueue (data_of t R) ->
    bgs R !! p = Some bp -> bgs R !! q = Some bq -> GetInstanceID bp = GetInstanceID bq -> p = q;
  wf_next_bg ptr : is_Some (bgs R !! ptr) -> ptr < next_bg R;
  wf_ids : InstanceIds.wf (map_mgr R);
  wf_used t i ptr : map_find i (m_Battlegrounds (data_of t R)) = Some ptr -> i = 0 \/ (1 <= i /\ InstanceIds.used (map_mgr R) i = true)
}.

(** The parts of a realm that the invariant is about are the same. *)
Definition same_registry (R R' : Realm) : Prop :=
  bgs R' = bgs R /\ bgDataStore R' = bgDataStore R /\ next_bg R' = next_bg R /\ map_mgr R' = map_mgr R.

Lemma same_registry_trans R1 R2 R3 : same_registry R1 R2 -> same_registry R2 R3 -> same_registry R1 R3.
Proof. intros (? & ? & ? & ?) (? & ? & ? & ?). repeat split; congruence. Qed.
Lemma same_registry_wf R R' : same_registry R R' -> realm_wf R -> realm_wf R'.
Proof.
  intros (E1 & E2 & E3 & E4) [H0 H1 H2 H3 H4 H4' H5 H6 H7]. constructor; unfold data_of in *; rewrite ?E1, ?E2, ?E3, ?E4; eauto.
Qed.

(** What a battleground is registered as stays, in the later realm. *)
Definition later (R R' : Realm) : Prop :=
  forall ptr b, bgs R !! ptr = Some b ->
    exists b', bgs R' !! ptr = Some b' /\ GetTypeID b' = GetTypeID b /\ GetInstanceID b' = GetInstanceID b.
#[global] Instance later_refl : Reflexive later.
Proof. intros R ptr b H. by exists b. Qed.
#[global] Instance later_trans : Transitive later.
Proof.
  intros R1 R2 R3 H12 H23 ptr b H. destruct (H12 _ _ H) as (b2 & H2 & ? & ?). destruct (H23 _ _ H2) as (b3 & H3 & ? & ?).
  exists b3. split_and!; congruence.
Qed.
Lemma same_registry_later R R' : same_registry R R' -> later R R'.
Proof. intros (E1 & _) ptr b H. exists b. by rewrite E1. Qed.

(** A change of a battleground that keeps what the registry knows of it. *)
Definition keeps_identity (f : Battleground -> Battleground) : Prop :=
  forall b, GetTypeID (f b) = GetTypeID b /\ GetInstanceID (f b) = GetInstanceID b /\ m_InBGFreeSlotQueue (f b) = m_InBGFreeSlotQueue b.

Lemma keeps_Increase t : keeps_identity (IncreaseInvitedCount t).
Proof. intros b. unfold IncreaseInvitedCount. by destruct (t =? ALLIANCE). Qed.
Lemma keeps_Decrease t : keeps_identity (DecreaseInvitedCount t).
Proof. intros b. unfold DecreaseInvitedCount. by destruct (t =? ALLIANCE). Qed.
Lemma keeps_ArenaTeamId t i : keeps_identity (SetArenaTeamIdForTeam t i).
Proof. by intros b. Qed.
Lemma keeps_MMR t i : keeps_identity (SetArenaMatchmakerRating t i).
Proof. by intros b. Qed.
Lemma keeps_StartTime i : keeps_identity (SetStartTime i).
Proof. by intros b. Qed.
#[local] Hint Resolve keeps_Increase keeps_Decrease keeps_ArenaTeamId keeps_MMR keeps_StartTime : core.

(** A battleground changed by such a function, with the rest of the realm. *)
Lemma on_bg_unfold R ptr f b :
  bgs R !! ptr = Some b -> on_bg ptr f R = Ok (set_bgs (<[ptr := f b]> (bgs R)) R).
Proof. intros Hb. unfold on_bg, bg_at. by rewrite Hb. Qed.

Lemma set_bg_later R ptr f b : bgs R !! ptr = Some b -> keeps_identity f -> later R (set_bgs (<[ptr := f b]> (bgs R)) R).
Proof.
  intros Hb Hf p b' Hp. cbn. destruct (Hf b) as (? & ? & _). destruct (decide (p = ptr)) as [->|].
  - rewrite lookup_insert_eq. exists (f b). replace b' with b by congruence. done.
  - rewrite lookup_insert_ne by done. by exists b'.
Qed.

(** A battleground may say that it has free slots; it may say that it has none when it is
    in no list. *)
Lemma set_bg_wf R ptr f b :
  realm_wf R -> bgs R !! ptr = Some b -> GetTypeID (f b) = GetTypeID b -> GetInstanceID (f b) = GetInstanceID b ->
  m_InBGFreeSlotQueue (f b) = m_InBGFreeSlotQueue b \/ m_InBGFreeSlotQueue (f b) = true \/ (forall t, ptr ∉ BGFreeSlotQueue (data_of t R)) ->
  realm_wf (set_bgs (<[ptr := f b]> (bgs R)) R).
Proof.
  intros HR Hb Ft Fi Ff. destruct HR as [H0 H1 H2 H3 H4 H4' H5 H6 H7].
  assert (Hat : forall p b', <[ptr := f b]> (bgs R) !! p = Some b' -> exists b0, bgs R !! p = Some b0 /\ GetInstanceID b' = GetInstanceID b0).
  { intros p b' Hp. destruct (decide (p = ptr)) as [->|].
    - rewrite lookup_insert_eq in Hp. injection Hp as <-. by exists b.
    - rewrite lookup_insert_ne in Hp by done. by exists b'. }
  constructor; unfold data_of in *; cbn; auto.
  - intros t i p Hp. destruct (H2 t i p Hp) as (b' & Hb' & ? & ?). destruct (decide (p = ptr)) as [->|].
    + rewrite lookup_insert_eq. exists (f b). replace b' with b in * by congruence. split_and!; congruence.
    + rewrite lookup_insert_ne by done. by exists b'.
  - intros t p Hp. destruct (H3 t p Hp) as (b' & Hb' & ? & ? & ?). destruct (decide (p = ptr)) as [->|].
    + rewrite lookup_insert_eq. exists (f b). replace b' with b in * by congruence. rewrite Ft, Fi.
      destruct Ff as [-> |[-> |Hn]]; [done|done|]. by destruct (Hn t).
    + rewrite lookup_insert_ne by done. by exists b'.
  - intros t p q bp bq Hp Hq (b1 & Hb1 & E1)%Hat (b2 & Hb2 & E2)%Hat E. apply (H4' t p q b1 b2); congruence.
  - intros p Hp. apply H5. destruct (decide (p = ptr)) as [->|]; [by rewrite Hb|by rewrite lookup_insert_ne in Hp].
Qed.
Lemma set_bg_keeps_wf R ptr f b :
  realm_wf R -> bgs R !! ptr = Some b -> keeps_identity f -> realm_wf (set_bgs (<[ptr := f b]> (bgs R)) R).
Proof. intros HR Hb Hf. destruct (Hf b) as (? & ? & ?). apply set_bg_wf; auto. Qed.

Lemma data_of_on_data t t' f R : data_of t' (on_data t f R) = if decide (t' = t) then f (data_of t R) else data_of t' R.
Proof.
  unfold data_of at 1, on_data. cbn. case_decide as E; [subst; by rewrite map_find_set|by rewrite map_find_set_ne].
Qed.
Lemma on_data_sorted t f R : map_sorted (bgDataStore R) -> map_sorted (bgDataStore (on_data t f R)).
Proof. apply map_set_sorted. Qed.

Lemma data_of_set_bgs t v R : data_of t (set_bgs v R) = data_of t R.
Proof. done. Qed.

(** New entries of one type. *)
Lemma on_data_wf t f R :
  realm_wf R -> map_sorted (m_Battlegrounds (f (data_of t R))) ->
  (forall i p, map_find i (m_Battlegrounds (f (data_of t R))) = Some p -> map_find i (m_Battlegrounds (data_of t R)) = Some p \/
     exists b, bgs R !! p = Some b /\ GetTypeID b = t /\ GetInstanceID b = i /\ 1 <= i /\ InstanceIds.used (map_mgr R) i = true) ->
  (forall p, p ∈ BGFreeSlotQueue (f (data_of t R)) -> p ∈ BGFreeSlotQueue (data_of t R) \/
     exists b, bgs R !! p = Some b /\ GetTypeID b = t /\ m_InBGFreeSlotQueue b = true /\ 1 <= GetInstanceID b /\
       InstanceIds.used (map_mgr R) (GetInstanceID b) = true) ->
  NoDup (BGFreeSlotQueue (f (data_of t R))) ->
  (forall p q bp bq, p ∈ BGFreeSlotQueue (f (data_of t R)) -> q ∈ BGFreeSlotQueue (f (data_of t R)) ->
     bgs R !! p = Some bp -> bgs R !! q = Some bq -> GetInstanceID bp = GetInstanceID bq -> p = q) ->
  realm_wf (on_data t f R).
Proof.
  intros [H0 H1 H2 H3 H4 H4' H5 H6 H7] Hs Hr Hf Hn Hi. constructor; try done.
  - by apply on_data_sorted.
  - intros u. rewrite data_of_on_data. by case_decide.
  - intros u i p. rewrite data_of_on_data. case_decide as E; [subst u|apply H2].
    intros [Hp|(b & ? & ? & ? & _)]%Hr; [by apply H2|by exists b].
  - intros u p. rewrite data_of_on_data. case_decide as E; [subst u|apply H3]. intros [Hp|Hp]%Hf; [by apply H3|done].
  - intros u. rewrite data_of_on_data. by case_decide.
  - intros u p q bp bq. rewrite data_of_on_data. case_decide as E; [subst u; apply Hi|apply H4'].
  - intros u i p. rewrite data_of_on_data. case_decide as E; [subst u|apply H7].
    intros [Hp|(b & _ & _ & _ & ? & ?)]%Hr; [by apply (H7 t i p)|by right].
Qed.

(** ** Reading the registry *)
Lemma data_of_in R t d : realm_wf R -> (t, d) ∈ bgDataStore R -> data_of t R = d.
Proof. intros HR Hin. unfold data_of. apply map_find_elem in Hin as ->; [done|]. apply HR. Qed.

Lemma first_instance_in i l ptr : first_instance i l = Some ptr -> exists t d, (t, d) ∈ l /\ map_find i (m_Battlegrounds d) = Some ptr.
Proof.
  induction l as [|[t d] l IH]; cbn; [done|]. destruct (map_find i (m_Battlegrounds d)) eqn:E.
  - intros [= ->]. exists t, d. split; [by left|done].
  - intros (t' & d' & Hin & Hf)%IH. exists t', d'. split; [by right|done].
Qed.

Lemma GetBattleground_alive R i t ptr : realm_wf R -> GetBattleground i t R = Some ptr -> exists b, bgs R !! ptr = Some b.
Proof.
  intros HR. unfold GetBattleground. destruct (i =? 0); [done|]. destruct (t =? BATTLEGROUND_TYPE_NONE).
  - intros (t' & d & Hin & Hf)%first_instance_in. rewrite <- (data_of_in R t' d HR Hin) in Hf.
    destruct (wf_registered _ HR _ _ _ Hf) as (b & Hb & _). by exists b.
  - destruct (map_find t (bgDataStore R)) as [d|] eqn:E; [|done]. intros Hf.
    assert (data_of t R = d) as <- by (unfold data_of; by rewrite E). destruct (wf_registered _ HR _ _ _ Hf) as (b & Hb & _). by exists b.
Qed.

Lemma GetBattlegroundTemplate_alive R t ptr : realm_wf R -> GetBattlegroundTemplate t R = Some ptr -> exists b, bgs R !! ptr = Some b.
Proof.
  intros HR. unfold GetBattlegroundTemplate. destruct (map_find t (bgDataStore R)) as [d|] eqn:E; [|done].
  assert (data_of t R = d) as Ed by (unfold data_of; by rewrite E). destruct (m_Battlegrounds d) as [|[i p] l] eqn:El; [done|]. intros [= ->].
  destruct (wf_registered _ HR t i ptr) as (b & Hb & _); [|by exists b].
  apply map_find_elem; [apply HR|]. rewrite Ed, El. by left.
Qed.

(** ** Changing the registry *)

(** The faults that are not excluded. *)
Definition allowed (f : fault) : Prop :=
  match f with NoInstanceId _ | OutOfArray | PastTheEnd | EmptyPool | InvalidatedIterator => True | _ => False end.
Abbreviation safe := (ensures allowed).

Lemma bg_at_safe R ptr b (P : Battleground -> Prop) : bgs R !! ptr = Some b -> P b -> safe P (bg_at ptr R).
Proof. intros Hb HP. unfold bg_at. by rewrite Hb. Qed.

(** A new battleground before it is started: it is not registered. *)
Definition pending (ptr : Z) (R : Realm) : Prop :=
  exists b, bgs R !! ptr = Some b /\ m_InBGFreeSlotQueue b = false /\ 1 <= GetInstanceID b /\ InstanceIds.used (map_mgr R) (GetInstanceID b) = true /\
    (forall t, map_find (GetInstanceID b) (m_Battlegrounds (data_of t R)) = None) /\
    (forall t q bq, q ∈ BGFreeSlotQueue (data_of t R) -> bgs R !! q = Some bq -> GetInstanceID bq <> GetInstanceID b).

Lemma set_bg_pending R ptr f b p :
  bgs R !! ptr = Some b -> keeps_identity f -> pending p R -> pending p (set_bgs (<[ptr := f b]> (bgs R)) R).
Proof.
  intros Hb Hf (b' & Hb' & H1 & H2 & H3 & H4 & H5). destruct (Hf b) as (Ft & Fi & Ff).
  assert (Hq : forall q bq, <[ptr := f b]> (bgs R) !! q = Some bq -> exists b0, bgs R !! q = Some b0 /\ GetInstanceID bq = GetInstanceID b0).
  { intros q bq Hq. destruct (decide (q = ptr)) as [->|].
    - rewrite lookup_insert_eq in Hq. injection Hq as <-. by exists b.
    - rewrite lookup_insert_ne in Hq by done. by exists bq. }
  unfold pending. cbn. destruct (decide (p = ptr)) as [->|].
  - rewrite lookup_insert_eq. replace b' with b in * by congruence. exists (f b). rewrite Ff, Fi. split_and!; try done.
    intros t q bq Hin (b0 & Hb0 & ->)%Hq. by apply (H5 t q).
  - rewrite lookup_insert_ne by done. exists b'. split_and!; try done. intros t q bq Hin (b0 & Hb0 & ->)%Hq. by apply (H5 t q).
Qed.

Lemma client_loop_total itr : exists id, client_loop 2 itr 0 = Some id.
Proof.
  cbn [client_loop]. change (u32 (0 + 1)) with 1. destruct (Z.eqb_spec 1 itr) as [<-|]; [|by eexists]. by eexists.
Qed.

Lemma CreateClientVisibleInstanceId_safe t b R :
  realm_wf R ->
  safe (fun r => realm_wf r.2 /\ bgs r.2 = bgs R /\ next_bg r.2 = next_bg R /\ map_mgr r.2 = map_mgr R /\
    forall t, m_Battlegrounds (data_of t r.2) = m_Battlegrounds (data_of t R) /\ BGFreeSlotQueue (data_of t r.2) = BGFreeSlotQueue (data_of t R))
    (CreateClientVisibleInstanceId t b R).
Proof.
  intros HR. unfold CreateClientVisibleInstanceId. destruct (IsArenaType t); [done|]. destruct (negb _); [done|].
  set (r := match _ with [] => _ | _ => _ end).
  assert (exists id, r = Some id) as [id ->]. { unfold r. destruct (default [] _); [by eexists|apply client_loop_total]. }
  cbn [ensures snd]. split; [|split_and!; try done; intros u; rewrite data_of_on_data; by case_decide; subst].
  apply on_data_wf; cbn; try apply HR; auto.
Qed.

(** The environment of an update: reallocations reserve enough and there are fewer
    than 2^31 instances. *)
Record env_ok (E : Env) (R : Realm) : Prop := {
  env_grows : InstanceIds.grows (grow E);
  env_room : InstanceIds.capacity (map_mgr R) < 2 ^ 31
}.

(** The instance ids after a battleground may have been created. *)
Definition one_id (E : Env) (R R' : Realm) : Prop :=
  map_mgr R' = map_mgr R \/ exists id, InstanceIds.GenerateInstanceId (grow E) (map_mgr R) = Ok (id, map_mgr R').

Lemma CreateNewBattleground_safe E t e at_ rated R :
  realm_wf R -> env_ok E R ->
  safe (fun r => realm_wf r.2 /\ later R r.2 /\ one_id E R r.2 /\ forall ptr, r.1 = Some ptr -> pending ptr r.2)
    (CreateNewBattleground E t e at_ rated R).
Proof.
  intros HR HE. unfold CreateNewBattleground. cbv zeta. set (t' := if (t =? BATTLEGROUND_RB) || _ then _ else t).
  destruct (GetBattlegroundTemplate t' R) as [tp|] eqn:Et; [|by split_and!; [..|left|]].
  destruct (GetBattlegroundTemplate_alive _ _ _ HR Et) as [tb Htb].
  apply (ensures_bind _ (fun b => b = tb)); [by apply (bg_at_safe _ _ _ _ Htb)|]. intros ? ->.
  destruct (negb (known_type t')); [by split_and!; [..|left|]|].
  destruct HE as [HG Hcap]. destruct (decide (InstanceIds.full (map_mgr R))) as [Hfull|Hno].
  { by rewrite (InstanceIds.GenerateInstanceId_full _ _ HG (wf_ids _ HR) Hcap Hfull). }
  destruct (InstanceIds.GenerateInstanceId_ok _ _ HG (wf_ids _ HR) Hcap Hno) as (mm & Egen & Hmm & _ & Hu). rewrite Egen.
  set (id := InstanceIds.nextInstanceId (map_mgr R)) in *. pose proof (InstanceIds.wf_next _ (wf_ids _ HR)) as Hid. fold id in Hid.
  set (R1 := mkRealm _ _ _ _ mm _ _).
  assert (realm_wf R1) as HR1.
  { destruct HR as [H0 H1 H2 H3 H4 H4' H5 H6 H7]. constructor; unfold data_of in *; cbn; eauto.
    { intros u p Hp. destruct (H3 u p Hp) as (b & ? & ? & ? & ? & ?). exists b. split_and!; try done. rewrite Hu by lia. by case_decide. }
    intros u i p Hp.
    destruct (H7 u i p Hp) as [|[? Hi]]; [by left|right]. split; [done|]. rewrite Hu by lia. by case_decide. }
  apply (ensures_bind _ _ _ _ _ (CreateClientVisibleInstanceId_safe _ _ R1 HR1)).
  intros [client R2] (HR2 & Eb & En & Em & Ed). cbn [fst snd] in *. set (bg := SetRandom _ _).
  set (ptr := next_bg R2). assert (bgs R2 !! ptr = None) as Hnew.
  { apply eq_None_not_Some. intros Hs. apply HR2 in Hs. lia. }
  assert (Hreg : forall u, map_find id (m_Battlegrounds (data_of u R)) = None).
  { intros u. destruct (map_find id _) as [p|] eqn:Ep; [|done]. destruct (wf_used _ HR _ _ _ Ep) as [|[_ Hused]]; [lia|].
    pose proof (InstanceIds.wf_free _ (wf_ids _ HR)) as Hx. fold id in Hx. congruence. }
  assert (Hold : forall p b, p <> ptr -> <[ptr := bg]> (bgs R2) !! p = Some b -> bgs R2 !! p = Some b) by (intros p b ?; by rewrite lookup_insert_ne).
  assert (Hin : forall u p, p ∈ BGFreeSlotQueue (data_of u R2) -> p <> ptr).
  { intros u p Hp ->. destruct (wf_free _ HR2 _ _ Hp) as (b & Hb & _). congruence. }
  cbn [ensures fst snd]. split_and!.
  - destruct HR2 as [H0 H1 H2 H3 H4 H4' H5 H6 H7]. constructor; unfold data_of in *; cbn; auto.
    + intros u i p Hp. destruct (H2 u i p Hp) as (b & Hb & ?). exists b. rewrite lookup_insert_ne by congruence. done.
    + intros u p Hp. destruct (H3 u p Hp) as (b & Hb & ?). exists b. rewrite lookup_insert_ne by congruence. done.
    + intros u p q bp bq Hp Hq Hbp%Hold Hbq%Hold; [by apply (H4' u)|by eapply Hin|by eapply Hin].
    + intros p Hp. destruct (decide (p = ptr)) as [->|]; [unfold ptr; lia|]. rewrite lookup_insert_ne in Hp by done. specialize (H5 p Hp). lia.
  - intros p b Hb. exists b. cbn. rewrite lookup_insert_ne; [by rewrite Eb|]. intros <-. rewrite Eb in Hnew. cbn in Hnew. congruence.
  - right. exists id. cbn. by rewrite Em.
  - intros ? [= <-]. exists bg. cbn. rewrite lookup_insert_eq, Em. cbn. split_and!; [done|done|lia| | |].
    + rewrite Hu by lia. by rewrite decide_True.
    + intros u. transitivity (map_find id (m_Battlegrounds (data_of u R2))); [done|]. rewrite (proj1 (Ed u)). apply Hreg.
    + intros u q bq Hq Hbq. change (q ∈ BGFreeSlotQueue (data_of u R2)) in Hq. apply Hold in Hbq; [|by eapply Hin].
      rewrite (proj2 (Ed u)) in Hq. destruct (wf_free _ HR _ _ Hq) as (b' & Hb' & _ & _ & ? & Hused).
      rewrite Eb in Hbq. cbn in Hbq. replace b' with bq in * by congruence. intros Eid.
      pose proof (InstanceIds.wf_free _ (wf_ids _ HR)) as Hx. fold id in Hx. rewrite <- Eid in Hx. congruence.
Qed.

(** ** Starting and deleting battlegrounds *)

(** Entering the list of battlegrounds with free slots: a new battleground that is not
    an arena. *)
Lemma AddToBGFreeSlotQueue_ok ptr R :
  realm_wf R -> pending ptr R ->
  exists R', AddToBGFreeSlotQueue ptr R = Ok R' /\ realm_wf R' /\ later R R' /\ map_mgr R' = map_mgr R /\
    (forall t, m_Battlegrounds (data_of t R') = m_Battlegrounds (data_of t R)).
Proof.
  intros HR (b & Hb & Hfl & Hid & Hused & Hun & Hinst). unfold AddToBGFreeSlotQueue, bg_at. rewrite Hb. cbn [bind_result]. rewrite Hfl. cbn [negb andb].
  destruct (isBattleground b); [|by exists R]. set (f := fun d : BattlegroundData => _). erewrite on_bg_unfold by exact Hb.
  set (R1 := set_bgs (<[ptr := set_InBGFreeSlotQueue true b]> (bgs R)) R).
  assert (realm_wf R1) as HR1. { apply set_bg_wf; auto. }
  assert (later R R1) as HL.
  { intros p bp Hp. cbn. destruct (decide (p = ptr)) as [->|]; [rewrite lookup_insert_eq; eexists; split; [done|]; cbn; by replace bp with b by congruence|].
    rewrite lookup_insert_ne by done. by exists bp. }
  change (set_bgs _ (on_data (GetTypeID b) f R)) with (on_data (GetTypeID b) f R1).
  assert (Hnf : forall t, ptr ∉ BGFreeSlotQueue (data_of t R)) by (intros t Hin; by apply (Hinst t ptr b)).
  eexists. split; [done|]. split_and!; [|done|done|intros t; rewrite data_of_on_data; case_decide; by subst].
  apply on_data_wf; cbn; [done|apply HR1|auto| | |].
  - intros p [->|Hp]%elem_of_cons; [right|by left]. rewrite lookup_insert_eq. eexists. split; [done|]. done.
  - constructor; [apply Hnf|apply HR].
  - intros p q bp bq Hp Hq Hbp Hbq E.
    assert (Hne : forall x bx, x ∈ BGFreeSlotQueue (data_of (GetTypeID b) R1) -> <[ptr := set_InBGFreeSlotQueue true b]> (bgs R) !! x = Some bx ->
              x <> ptr /\ GetInstanceID bx <> GetInstanceID b).
    { intros x bx Hx Hbx. assert (x <> ptr) by (intros ->; by apply (Hnf (GetTypeID b))). split; [done|].
      rewrite lookup_insert_ne in Hbx by done. by apply (Hinst (GetTypeID b) x). }
    apply elem_of_cons in Hp as [->|Hp], Hq as [->|Hq]; [done| | |exact (wf_free_instance _ HR1 (GetTypeID b) p q bp bq Hp Hq Hbp Hbq E)].
    + rewrite lookup_insert_eq in Hbp. injection Hbp as <-. destruct (Hne q bq Hq Hbq) as [_ []]. done.
    + rewrite lookup_insert_eq in Hbq. injection Hbq as <-. destruct (Hne p bp Hp Hbp) as [_ []]. done.
Qed.

(** Starting a new battleground registers it. *)
Lemma StartBattleground_safe ptr R : realm_wf R -> pending ptr R -> safe (fun R' => realm_wf R' /\ later R R') (StartBattleground ptr R).
Proof.
  intros HR HP. pose proof HP as (b & Hb & _). unfold StartBattleground. rewrite (on_bg_unfold _ _ _ _ Hb). cbn [bind_result].
  set (R1 := set_bgs _ R).
  assert (realm_wf R1) as HR1 by (apply set_bg_keeps_wf; auto). assert (later R R1) as HL1 by (apply set_bg_later; auto).
  assert (pending ptr R1) as HP1 by (apply set_bg_pending; auto).
  destruct (AddToBGFreeSlotQueue_ok ptr R1 HR1 HP1) as (R2 & -> & HR2 & HL2 & Em2 & Ed2). cbn [bind_result].
  destruct HP1 as (b1 & Hb1 & _ & Hid & Hused & Hun & _). destruct (HL2 _ _ Hb1) as (b2 & Hb2 & Et & Ei).
  unfold AddBattleground, bg_at. rewrite Hb2. cbn [bind_result ensures]. split; [|exact (later_trans _ _ _ HL1 HL2)].
  apply on_data_wf; cbn; [done|apply map_set_sorted, HR2| |auto|apply HR2|exact (wf_free_instance _ HR2 _)].
  intros i p. destruct (decide (i = GetInstanceID b2)) as [->|].
  - rewrite map_find_set. intros [= <-]. right. exists b2. split_and!; try done; [lia|]. by rewrite Ei, Em2.
  - rewrite map_find_set_ne by done. by left.
Qed.

(** Leaving the list of battlegrounds with free slots. *)
Lemma erase_instance_ok i l R :
  Forall (fun p => is_Some (bgs R !! p)) l ->
  exists l', erase_instance i l R = Ok l' /\ l' `sublist_of` l /\
    (forall p b, p ∈ l -> bgs R !! p = Some b -> GetInstanceID b = i ->
       exists q bq, q ∈ l /\ bgs R !! q = Some bq /\ GetInstanceID bq = i /\ (NoDup l -> q ∉ l')).
Proof.
  induction 1 as [|q l [bq Hq] Hl IH]; cbn [erase_instance].
  { exists []. split_and!; try done. intros p b Hp. by apply not_elem_of_nil in Hp. }
  unfold bg_at. rewrite Hq. cbn [bind_result]. destruct (Z.eqb_spec (GetInstanceID bq) i) as [Ei|Hne].
  - exists l. split_and!; [done|by apply sublist_cons|]. intros p b Hp Hb Hi. exists q, bq. split_and!; try done; [by left|].
    by intros [? _]%NoDup_cons.
  - destruct IH as (l' & -> & Hsub & Hex). cbn [bind_result]. exists (q :: l'). split_and!; [done|by apply sublist_skip|].
    intros p b Hp Hb Hi. apply elem_of_cons in Hp as [->|Hp]; [congruence|].
    destruct (Hex p b Hp Hb Hi) as (q' & bq' & ? & Hq' & ? & Hn). exists q', bq'. split_and!; try done; [by right|].
    intros [? Hnd]%NoDup_cons. apply not_elem_of_cons. split; [intros ->; congruence|by apply Hn].
Qed.

Lemma free_alive t R : realm_wf R -> Forall (fun p => is_Some (bgs R !! p)) (BGFreeSlotQueue (data_of t R)).
Proof. intros HR. apply Forall_forall. intros p (b & Hb & _)%(wf_free _ HR). by exists b. Qed.

Lemma RemoveFromBGFreeSlotQueue_ok ptr b R :
  realm_wf R -> bgs R !! ptr = Some b ->
  exists R', RemoveFromBGFreeSlotQueue ptr R = Ok R' /\ realm_wf R' /\ later R R' /\ map_mgr R' = map_mgr R /\
    (forall t, m_Battlegrounds (data_of t R') = m_Battlegrounds (data_of t R) /\ ptr ∉ BGFreeSlotQueue (data_of t R')).
Proof.
  intros HR Hb. unfold RemoveFromBGFreeSlotQueue, bg_at. rewrite Hb. cbn [bind_result].
  destruct (m_InBGFreeSlotQueue b) eqn:Ef.
  2: { exists R. do 4 (split; [done|]). intros t. split; [done|]. intros (b' & Hb' & _ & Hf & _)%(wf_free _ HR). congruence. }
  destruct (erase_instance_ok (GetInstanceID b) _ R (free_alive (GetTypeID b) R HR)) as (l & -> & Hsub & Hex). cbn [bind_result].
  set (f := fun d : BattlegroundData => _). set (R1 := on_data _ f R). assert (bgs R1 !! ptr = Some b) as Hb1 by done. erewrite on_bg_unfold by exact Hb1.
  assert (Hl : forall p, p ∈ l -> p ∈ BGFreeSlotQueue (data_of (GetTypeID b) R)) by (intros p; by apply (sublist_subseteq _ _ Hsub)).
  assert (Hnot : ptr ∉ l).
  { intros Hin. destruct (Hex ptr b (Hl _ Hin) Hb eq_refl) as (q & bq & Hq & Hbq & Eq & Hn). apply Hn; [apply HR|].
    by rewrite (wf_free_instance _ HR _ q ptr bq b Hq (Hl _ Hin) Hbq Hb Eq). }
  assert (realm_wf R1) as HR1.
  { apply on_data_wf; cbn; [done|apply HR|auto|intros p Hp; left; by apply Hl| |].
    - exact (sublist_NoDup _ _ (wf_free_once _ HR _) Hsub).
    - intros p q bp bq Hp%Hl Hq%Hl. exact (wf_free_instance _ HR _ p q bp bq Hp Hq). }
  assert (Hgone : forall t, ptr ∉ BGFreeSlotQueue (data_of t R1)).
  { intros t. unfold R1. rewrite data_of_on_data. case_decide; [done|]. intros (b' & Hb' & Et & _)%(wf_free _ HR). congruence. }
  eexists. split; [done|]. split; [apply set_bg_wf; auto|]. split.
  - intros p bp Hp. cbn. destruct (decide (p = ptr)) as [->|]; [rewrite lookup_insert_eq; eexists; split; [done|]; cbn; by replace bp with b by congruence|].
    rewrite lookup_insert_ne by done. by exists bp.
  - split; [done|]. intros t. rewrite data_of_set_bgs. split; [|apply Hgone]. unfold R1. rewrite data_of_on_data. case_decide; by subst.
Qed.

(** Deleting a registered battleground. *)
Lemma delete_battleground_ok t i ptr R :
  realm_wf R -> map_find i (m_Battlegrounds (data_of t R)) = Some ptr ->
  exists R', delete_battleground t i ptr R = Ok R' /\ realm_wf R' /\ bgs R' !! ptr = None.
Proof.
  intros HR Hreg. destruct (wf_registered _ HR _ _ _ Hreg) as (b & Hb & Et & Ei). unfold delete_battleground.
  unfold bg_at at 1. rewrite Hb. cbn [bind_result]. set (f := fun d : BattlegroundData => _). unfold RemoveBattleground.
  set (g := fun d : BattlegroundData => mkData (map_erase (GetInstanceID b) (m_Battlegrounds d)) _ _). rewrite Et.
  assert (realm_wf (on_data t f R)) as HR1.
  { apply on_data_wf; cbn; [done|apply map_erase_sorted, HR| |auto|apply HR|exact (wf_free_instance _ HR _)].
    intros j p Hp. left. destruct (decide (j = i)) as [->|]; [by rewrite map_find_erase in Hp|by rewrite map_find_erase_ne in Hp]. }
  set (R1 := on_data t f R) in *. assert (realm_wf (on_data t g R1)) as HR2.
  { apply on_data_wf; cbn; [done|apply map_erase_sorted, HR1| |auto|apply HR1|exact (wf_free_instance _ HR1 _)].
    intros j p Hp. left. destruct (decide (j = GetInstanceID b)) as [->|]; [by rewrite map_find_erase in Hp|by rewrite map_find_erase_ne in Hp]. }
  set (R2 := on_data t g R1) in *. assert (bgs R2 !! ptr = Some b) as Hb2 by done.
  destruct (RemoveFromBGFreeSlotQueue_ok ptr b R2 HR2 Hb2) as (R3 & -> & HR3 & _ & _ & Hgone). cbn [bind_result].
  assert (Hno : forall u j, map_find j (m_Battlegrounds (data_of u R3)) <> Some ptr).
  { intros u j. rewrite (proj1 (Hgone u)). intros Hj. destruct (wf_registered _ HR2 _ _ _ Hj) as (b' & Hb' & Eu & Ej).
    replace b' with b in * by congruence. subst u j. unfold R2 in Hj. rewrite data_of_on_data, decide_True in Hj by congruence.
    unfold g in Hj. cbn in Hj. by rewrite map_find_erase in Hj. }
  eexists. split; [done|]. split; [|change (delete ptr (bgs R3) !! ptr = None); apply lookup_delete_eq].
  destruct HR3 as [H0 H1 H2 H3 H4 H4' H5 H6 H7]. constructor; try done.
  - intros u j p. rewrite data_of_set_bgs. intros Hp. destruct (H2 u j p Hp) as (b' & ? & ?). exists b'. cbn. rewrite lookup_delete_ne; [done|].
    intros <-. by apply (Hno u j).
  - intros u p. rewrite data_of_set_bgs. intros Hp. destruct (H3 u p Hp) as (b' & ? & ?). exists b'. cbn. rewrite lookup_delete_ne; [done|].
    intros <-. by apply (proj2 (Hgone u)).
  - intros u p q bp bq. rewrite !data_of_set_bgs. cbn. intros Hp Hq [_ Hbp]%lookup_delete_Some [_ Hbq]%lookup_delete_Some. by apply (H4' u).
  - intros p [bp Hbp]. cbn in Hbp. apply lookup_delete_Some in Hbp as [_ Hbp]. apply H5. by exists bp.
Qed.

(** ** Counters *)

(** The counters of every battleground are in range; no operation of the registry needs
    more for that. *)
Definition counts_wf (R : Realm) : Prop := forall ptr b, bgs R !! ptr = Some b -> counts_ok b.
Definition keeps_counts (f : Battleground -> Battleground) : Prop := forall b, counts_ok b -> counts_ok (f b).
Abbreviation counted := (ensures (fun _ : fault => True)).

Lemma counts_Increase t : keeps_counts (IncreaseInvitedCount t).
Proof. intros b (Ha & Hh & Hm). unfold IncreaseInvitedCount. destruct (t =? ALLIANCE); split_and!; try done; apply wrap_range; lia. Qed.
Lemma counts_Decrease t : keeps_counts (DecreaseInvitedCount t).
Proof. intros b (Ha & Hh & Hm). unfold DecreaseInvitedCount. destruct (t =? ALLIANCE); split_and!; try done; apply wrap_range; lia. Qed.
Lemma counts_ArenaTeamId t i : keeps_counts (SetArenaTeamIdForTeam t i).
Proof. by intros b. Qed.
Lemma counts_MMR t i : keeps_counts (SetArenaMatchmakerRating t i).
Proof. by intros b. Qed.

Lemma bg_at_counted R ptr : counts_wf R -> counted counts_ok (bg_at ptr R).
Proof. intros H. unfold bg_at. destruct (bgs R !! ptr) as [b|] eqn:Hb; [exact (H _ _ Hb)|done]. Qed.
Lemma insert_counted R ptr b : counts_wf R -> counts_ok b -> forall p b', <[ptr := b]> (bgs R) !! p = Some b' -> counts_ok b'.
Proof. intros H Hb p b'. destruct (decide (p = ptr)) as [->|]; [rewrite lookup_insert_eq; by intros [= <-]|rewrite lookup_insert_ne by done; apply H]. Qed.
Lemma on_bg_counted R ptr f : counts_wf R -> keeps_counts f -> counted counts_wf (on_bg ptr f R).
Proof.
  intros H Hf. unfold on_bg. apply (ensures_bind _ counts_ok); [by apply bg_at_counted|]. intros b Hb. cbn.
  intros p b'. apply insert_counted; [done|by apply Hf].
Qed.
Lemma anything {A} (m : result fault A) : counted (fun _ => True) m.
Proof. by destruct m. Qed.

Lemma CreateNewBattleground_counted E t e at_ rated R : counts_wf R -> counted (fun r => counts_wf r.2) (CreateNewBattleground E t e at_ rated R).
Proof.
  intros H. unfold CreateNewBattleground. destruct (GetBattlegroundTemplate _ R) as [tp|]; [|done].
  apply (ensures_bind _ counts_ok); [by apply bg_at_counted|]. intros tb (_ & _ & Hm).
  destruct (negb _); [done|]. destruct (InstanceIds.GenerateInstanceId _ _) as [[id mm]|]; [|done].
  apply (ensures_bind _ (fun r => counts_wf r.2)).
  { unfold CreateClientVisibleInstanceId. destruct (IsArenaType _); [done|]. destruct (negb _); [done|]. by destruct (match _ with [] => _ | _ => _ end). }
  intros [client R2] H2. cbn [ensures snd]. intros p b'. cbn. apply insert_counted; [done|].
  split_and!; [by cbn; unfold in_u; lia|by cbn; unfold in_u; lia|exact Hm].
Qed.

Lemma StartBattleground_counted ptr R : counts_wf R -> counted counts_wf (StartBattleground ptr R).
Proof.
  intros H. unfold StartBattleground. apply (ensures_bind _ counts_wf); [by apply on_bg_counted; [|intros b]|]. intros R1 H1.
  apply (ensures_bind _ counts_wf).
  - unfold AddToBGFreeSlotQueue. apply (ensures_bind _ (fun _ => True)); [apply anything|]. intros b _. destruct (_ && _); [by apply on_bg_counted; [|intros b']|done].
  - intros R2 H2. unfold AddBattleground. apply (ensures_bind _ (fun _ => True)); [apply anything|]. by intros b _.
Qed.

Lemma RemoveFromBGFreeSlotQueue_counted ptr R : counts_wf R -> counted counts_wf (RemoveFromBGFreeSlotQueue ptr R).
Proof.
  intros H. unfold RemoveFromBGFreeSlotQueue. apply (ensures_bind _ (fun _ => True)); [apply anything|]. intros b _.
  destruct (m_InBGFreeSlotQueue b); [|done]. apply (ensures_bind _ (fun _ => True)); [apply anything|]. intros l _. by apply on_bg_counted; [|intros b'].
Qed.

Lemma delete_battleground_counted t i ptr R : counts_wf R -> counted counts_wf (delete_battleground t i ptr R).
Proof.
  intros H. unfold delete_battleground. apply (ensures_bind _ (fun _ => True)); [apply anything|]. intros b _.
  apply (ensures_bind _ counts_wf); [by apply RemoveFromBGFreeSlotQueue_counted|]. intros R2 H2. cbn.
  intros p b' Hp. cbn in Hp. apply lookup_delete_Some in Hp as [_ Hp]. by apply (H2 p).
Qed.

End BattlegroundRegistry.
