(* ===== verification/BattlegroundQueue.v ===== *)
(** * BattlegroundQueue: the queues for battlegrounds and arenas

    [game/Battlegrounds/BattlegroundQueue.cpp]: joining and leaving, the choice of the
    groups for a match, the invitations and the events that remind of them and
    withdraw them. A queue holds its groups in a store addressed by pointers; using
    a deleted group, an iterator past the end of a queue or one that the container has
    invalidated is a fault. The operations of the eleven queues and the scheduler of
    [BattlegroundMgr.cpp] are on the world of all queues. *)
From S2P Require Import Prelude OrderedMap Timer InstanceIds Battleground.
Import Battleground.
#[global] Open Scope Z_scope.

Module BattlegroundQueue.

Definition TEAM_ALLIANCE := 0.
Definition TEAM_HORDE := 1.
Definition BG_TEAMS_COUNT := 2.
Definition BG_QUEUE_PREMADE_ALLIANCE := 0.
Definition BG_QUEUE_PREMADE_HORDE := 1.
Definition BG_QUEUE_NORMAL_ALLIANCE := 2.
Definition BG_QUEUE_NORMAL_HORDE := 3.
Definition COUNT_OF_PLAYERS_TO_AVERAGE_WAIT_TIME := 10.
Definition INVITATION_REMIND_TIME := 20000.
Definition INVITE_ACCEPT_WAIT_TIME := 40000.

(** ** Data *)

(** [Players] are the keys of the map, in order. *)
Record GroupQueueInfo := mkGroup {
  Players : list Z;
  Team : Z;
  BgTypeId : Z;
  IsRated : bool;
  ArenaType : Z;
  ArenaTeamId : Z;
  JoinTime : Z;
  RemoveInviteTime : Z;
  IsInvitedToBGInstanceGUID : Z;
  ArenaTeamRating : Z;
  ArenaMatchmakerRating : Z;
  OpponentsTeamRating : Z;
  OpponentsMatchmakerRating : Z
}.
Definition set_Players (v : list Z) (g : GroupQueueInfo) : GroupQueueInfo :=
  mkGroup v (Team g) (BgTypeId g) (IsRated g) (ArenaType g) (ArenaTeamId g) (JoinTime g)
    (RemoveInviteTime g) (IsInvitedToBGInstanceGUID g) (ArenaTeamRating g)
    (ArenaMatchmakerRating g) (OpponentsTeamRating g) (OpponentsMatchmakerRating g).
Definition set_Team (v : Z) (g : GroupQueueInfo) : GroupQueueInfo :=
  mkGroup (Players g) v (BgTypeId g) (IsRated g) (ArenaType g) (ArenaTeamId g) (JoinTime g)
    (RemoveInviteTime g) (IsInvitedToBGInstanceGUID g) (ArenaTeamRating g)
    (ArenaMatchmakerRating g) (OpponentsTeamRating g) (OpponentsMatchmakerRating g).
Definition set_invitation (t : Z) (v : Z) (g : GroupQueueInfo) : GroupQueueInfo :=
  mkGroup (Players g) (Team g) (BgTypeId g) (IsRated g) (ArenaType g) (ArenaTeamId g) (JoinTime g)
    t v (ArenaTeamRating g) (ArenaMatchmakerRating g) (OpponentsTeamRating g)
    (OpponentsMatchmakerRating g).
Definition set_opponents (r : Z) (m : Z) (g : GroupQueueInfo) : GroupQueueInfo :=
  mkGroup (Players g) (Team g) (BgTypeId g) (IsRated g) (ArenaType g) (ArenaTeamId g) (JoinTime g)
    (RemoveInviteTime g) (IsInvitedToBGInstanceGUID g) (ArenaTeamRating g)
    (ArenaMatchmakerRating g) r m.

Record PlayerQueueInfo := mkPlayerInfo { LastOnlineTime : Z; GroupInfo : Z }.
Record SelectionPool := mkPool { SelectedGroups : list Z; PlayerCount : Z }.

(** The last ten waiting times of a team and bracket, the index of the oldest, and
    their sum. *)
Record WaitTimes := mkWaitTimes { wait_times : list Z; WaitTimeLastPlayer : Z; SumOfWaitTimes : Z }.

Inductive BGEvent :=
| BGQueueInviteEvent (m_PlayerGuid m_BgInstanceGUID m_BgTypeId m_ArenaType m_RemoveTime : Z)
| BGQueueRemoveEvent (m_PlayerGuid m_BgInstanceGUID m_BgTypeId m_BgQueueTypeId m_RemoveTime : Z).

(** The groups in a queue by bracket and kind, the store of groups, the two pools, the
    waiting times by team and bracket, and the event queue with its clock. *)
Record BattlegroundQueue := mkQueue {
  m_QueuedPlayers : gmap Z PlayerQueueInfo;
  m_QueuedGroups : gmap (Z * Z) (list Z);
  groups : gmap Z GroupQueueInfo;
  next_group : Z;
  pool_alliance : SelectionPool;
  pool_horde : SelectionPool;
  m_WaitTimes : gmap (Z * Z) WaitTimes;
  m_time : Z;
  m_events : list (Z * BGEvent)
}.
Definition set_QueuedPlayers (v : gmap Z PlayerQueueInfo) (Q : BattlegroundQueue) : BattlegroundQueue :=
  mkQueue v (m_QueuedGroups Q) (groups Q) (next_group Q) (pool_alliance Q) (pool_horde Q)
    (m_WaitTimes Q) (m_time Q) (m_events Q).
Definition set_QueuedGroups (v : gmap (Z * Z) (list Z)) (Q : BattlegroundQueue) : BattlegroundQueue :=
  mkQueue (m_QueuedPlayers Q) v (groups Q) (next_group Q) (pool_alliance Q) (pool_horde Q)
    (m_WaitTimes Q) (m_time Q) (m_events Q).
Definition set_groups (v : gmap Z GroupQueueInfo) (Q : BattlegroundQueue) : BattlegroundQueue :=
  mkQueue (m_QueuedPlayers Q) (m_QueuedGroups Q) v (next_group Q) (pool_alliance Q) (pool_horde Q)
    (m_WaitTimes Q) (m_time Q) (m_events Q).
Definition set_pool_alliance (v : SelectionPool) (Q : BattlegroundQueue) : BattlegroundQueue :=
  mkQueue (m_QueuedPlayers Q) (m_QueuedGroups Q) (groups Q) (next_group Q) v (pool_horde Q)
    (m_WaitTimes Q) (m_time Q) (m_events Q).
Definition set_pool_horde (v : SelectionPool) (Q : BattlegroundQueue) : BattlegroundQueue :=
  mkQueue (m_QueuedPlayers Q) (m_QueuedGroups Q) (groups Q) (next_group Q) (pool_alliance Q) v
    (m_WaitTimes Q) (m_time Q) (m_events Q).
Definition set_WaitTimes (v : gmap (Z * Z) WaitTimes) (Q : BattlegroundQueue) : BattlegroundQueue :=
  mkQueue (m_QueuedPlayers Q) (m_QueuedGroups Q) (groups Q) (next_group Q) (pool_alliance Q)
    (pool_horde Q) v (m_time Q) (m_events Q).
Definition set_time (v : Z) (Q : BattlegroundQueue) : BattlegroundQueue :=
  mkQueue (m_QueuedPlayers Q) (m_QueuedGroups Q) (groups Q) (next_group Q) (pool_alliance Q)
    (pool_horde Q) (m_WaitTimes Q) v (m_events Q).
Definition set_events (v : list (Z * BGEvent)) (Q : BattlegroundQueue) : BattlegroundQueue :=
  mkQueue (m_QueuedPlayers Q) (m_QueuedGroups Q) (groups Q) (next_group Q) (pool_alliance Q)
    (pool_horde Q) (m_WaitTimes Q) (m_time Q) v.

Definition no_pool : SelectionPool := mkPool [] 0.
Definition no_times : WaitTimes := mkWaitTimes (replicate 10 0) 0 0.
Definition new_queue : BattlegroundQueue := mkQueue ∅ ∅ ∅ 0 no_pool no_pool ∅ 0 [].

Definition queued (bracket kind : Z) (Q : BattlegroundQueue) : list Z := default [] (m_QueuedGroups Q !! (bracket, kind)).
Definition set_queued (bracket kind : Z) (l : list Z) (Q : BattlegroundQueue) : BattlegroundQueue :=
  set_QueuedGroups (<[(bracket, kind) := l]> (m_QueuedGroups Q)) Q.
Definition push_front (bracket kind g : Z) (Q : BattlegroundQueue) : BattlegroundQueue :=
  set_queued bracket kind (g :: queued bracket kind Q) Q.
Definition erase_at (bracket kind : Z) (i : nat) (Q : BattlegroundQueue) : BattlegroundQueue :=
  set_queued bracket kind (delete i (queued bracket kind Q)) Q.
Definition pool (team : Z) (Q : BattlegroundQueue) : SelectionPool := if team =? TEAM_ALLIANCE then pool_alliance Q else pool_horde Q.
Definition set_pool (team : Z) (p : SelectionPool) (Q : BattlegroundQueue) : BattlegroundQueue :=
  if team =? TEAM_ALLIANCE then set_pool_alliance p Q else set_pool_horde p Q.
Definition set_group (ptr : Z) (g : GroupQueueInfo) (Q : BattlegroundQueue) : BattlegroundQueue :=
  set_groups (<[ptr := g]> (groups Q)) Q.

Definition group_at (ptr : Z) (gs : gmap Z GroupQueueInfo) : result fault GroupQueueInfo :=
  match gs !! ptr with Some g => Ok g | None => Throw DeletedGroup end.
Definition size (g : GroupQueueInfo) : Z := Z.of_nat (length (Players g)).
Definition invited (g : GroupQueueInfo) : bool := negb (IsInvitedToBGInstanceGUID g =? 0).

(** The index of a bracket is one of the arrays' indices. *)
Definition bracket_ok (bracket : Z) : bool := (0 <=? bracket) && (bracket <? MAX_BATTLEGROUND_BRACKETS).

(** ** Selection pools *)
Definition SelectionPool_Init (_ : SelectionPool) : SelectionPool := no_pool.

Fixpoint sizes_of (l : list Z) (gs : gmap Z GroupQueueInfo) : result fault (list Z) :=
  match l with
  | [] => Ok []
  | g :: l => let? gi := group_at g gs in let? s := sizes_of l gs in Ok (size gi :: s)
  end.

(** The search of [KickGroup] from the group [i] on: the index to kick so far and the
    size of its group. *)
Fixpoint kick_loop (wanted : Z) (sizes : list Z) (i groupToKick : nat) (kickSize : Z) (found : bool) : nat :=
  match sizes with
  | [] => groupToKick
  | s :: sizes =>
      if Z.abs (s32 (u64 (s - wanted))) <=? 1 then kick_loop wanted sizes (S i) i s true
      else if negb found && (kickSize <=? s) then kick_loop wanted sizes (S i) i s found
      else kick_loop wanted sizes (S i) groupToKick kickSize found
  end.

Definition SelectionPool_KickGroup (wanted : Z) (gs : gmap Z GroupQueueInfo) (p : SelectionPool) : result fault (bool * SelectionPool) :=
  let? sizes := sizes_of (SelectedGroups p) gs in
  let groupToKick := kick_loop wanted sizes 0 0 (default 0 (head sizes)) false in
  if PlayerCount p =? 0 then Ok (true, p)
  else match SelectedGroups p !! groupToKick with
       | None => Throw PastTheEnd
       | Some g =>
           let? ginfo := group_at g gs in
           Ok (negb (size ginfo <=? u32 (wanted + 1)),
               mkPool (delete groupToKick (SelectedGroups p)) (u32 (PlayerCount p - size ginfo)))
       end.

Definition SelectionPool_AddGroup (g desiredCount : Z) (gs : gmap Z GroupQueueInfo) (p : SelectionPool) : result fault (bool * SelectionPool) :=
  let? ginfo := group_at g gs in
  if negb (invited ginfo) && (PlayerCount p + size ginfo <=? desiredCount)
  then Ok (true, mkPool (SelectedGroups p ++ [g]) (u32 (PlayerCount p + size ginfo)))
  else Ok (PlayerCount p <? desiredCount, p).

(** ** Joining *)

(** The members of a group, or the leader alone. *)
Fixpoint add_players (members : list Z) (ptr lastOnlineTime : Z) (ps : gmap Z PlayerQueueInfo) (players_of : list Z) :
    gmap Z PlayerQueueInfo * list Z :=
  match members with
  | [] => (ps, players_of)
  | m :: members => add_players members ptr lastOnlineTime (<[m := mkPlayerInfo lastOnlineTime ptr]> ps) (set_add m players_of)
  end.

Fixpoint count_waiting (l : list Z) (gs : gmap Z GroupQueueInfo) (n : Z) : result fault Z :=
  match l with
  | [] => Ok n
  | g :: l => let? gi := group_at g gs in count_waiting l gs (if invited gi then n else u32 (n + size gi))
  end.

(** What is announced when a group joins a normal queue. *)
Definition announce (E : Env) (leader bgTypeId : Z) (bracketEntry : PvPDifficultyEntry) (Q : BattlegroundQueue) (R : Realm) :
    result fault Realm :=
  match GetBattlegroundTemplate bgTypeId R with
  | None => Ok R
  | Some t =>
      let? bg := bg_at t R in
      let MinPlayers := GetMinPlayersPerTeam bg in
      let bracketId := entry_bracket bracketEntry in
      let? qAlliance := count_waiting (queued bracketId BG_QUEUE_NORMAL_ALLIANCE Q) (groups Q) 0 in
      let? qHorde := count_waiting (queued bracketId BG_QUEUE_NORMAL_HORDE Q) (groups Q) 0 in
      let missing n := if n <? MinPlayers then u32 (MinPlayers - n) else 0 in
      let args := [Str (GetName bg); U32 (minLevel bracketEntry); U32 (maxLevel bracketEntry); U32 qAlliance; U32 (missing qAlliance);
                   U32 qHorde; U32 (missing qHorde)] in
      Ok (happened (if CONFIG_BATTLEGROUND_QUEUE_ANNOUNCER_PLAYERONLY E then PSendSysMessage leader LANG_BG_QUEUE_ANNOUNCE_SELF args
                    else SendWorldText LANG_BG_QUEUE_ANNOUNCE_WORLD args) R)
  end.

(** The kind of queue a group joins. *)
Definition kind_of (rated premade : bool) (t : Z) : Z :=
  (if negb rated && negb premade then BG_TEAMS_COUNT else 0) + (if t =? HORDE then 1 else 0).

(** [grp] are the online members of the leader's group, in its order. *)
Definition AddGroup (E : Env) (leader leader_team : Z) (grp : option (list Z)) (bgTypeId : Z) (bracketEntry : PvPDifficultyEntry)
    (arenaType : Z) (rated premade : bool) (arenaRating matchmakerRating arenateamid : Z) (Q : BattlegroundQueue) (R : Realm) :
    result fault (Z * BattlegroundQueue * Realm) :=
  let bracketId := entry_bracket bracketEntry in
  if negb (bracket_ok bracketId) then Throw OutOfArray
  else
    let index := kind_of rated premade leader_team in
    let R := if rated && CONFIG_ARENA_QUEUE_ANNOUNCER_ENABLE E
             then match arena_team E arenateamid with
                  | Some name => happened (SendWorldText LANG_ARENA_QUEUE_ANNOUNCE_WORLD_JOIN [Str name; U8 arenaType; U8 arenaType; U32 arenaRating]) R
                  | None => R
                  end
             else R in
    let ptr := next_group Q in
    let '(ps, keys) := add_players (default [leader] grp) ptr (now E) (m_QueuedPlayers Q) [] in
    let ginfo := mkGroup keys leader_team bgTypeId rated arenaType arenateamid (now E) 0 0 arenaRating matchmakerRating 0 0 in
    let Q := mkQueue ps (m_QueuedGroups Q) (<[ptr := ginfo]> (groups Q)) (ptr + 1) (pool_alliance Q) (pool_horde Q) (m_WaitTimes Q)
               (m_time Q) (m_events Q) in
    let Q := set_queued bracketId index (queued bracketId index Q ++ [ptr]) Q in
    let? R := if negb rated && negb premade && CONFIG_BATTLEGROUND_QUEUE_ANNOUNCER_ENABLE E
              then announce E leader bgTypeId bracketEntry Q R else Ok R in
    Ok (ptr, Q, R).

(** ** Waiting times *)
Definition wait_team (g : GroupQueueInfo) : Z :=
  if ArenaType g =? 0 then if Team g =? HORDE then TEAM_HORDE else TEAM_ALLIANCE
  else if IsRated g then TEAM_HORDE else TEAM_ALLIANCE.
Definition waits (team bracket : Z) (Q : BattlegroundQueue) : WaitTimes := default no_times (m_WaitTimes Q !! (team, bracket)).

Definition record_wait (timeInQueue : Z) (w : WaitTimes) : WaitTimes :=
  let last := WaitTimeLastPlayer w in
  let sum := u32 (SumOfWaitTimes w - default 0 (wait_times w !! Z.to_nat last)) in
  mkWaitTimes (<[Z.to_nat last := timeInQueue]> (wait_times w)) (u32 (last + 1) mod COUNT_OF_PLAYERS_TO_AVERAGE_WAIT_TIME)
    (u32 (sum + timeInQueue)).

Definition PlayerInvitedToBGUpdateAverageWaitTime (E : Env) (g : GroupQueueInfo) (bracket_id : Z) (Q : BattlegroundQueue) :
    result fault BattlegroundQueue :=
  if bracket_ok bracket_id then
    let team := wait_team g in
    Ok (set_WaitTimes (<[(team, bracket_id) := record_wait (Timer.getMSTimeDiff (JoinTime g) (now E)) (waits team bracket_id Q)]> (m_WaitTimes Q)) Q)
  else Throw OutOfArray.

Definition GetAverageQueueWaitTime (g : GroupQueueInfo) (bracket_id : Z) (Q : BattlegroundQueue) : result fault Z :=
  if bracket_ok bracket_id then
    let w := waits (wait_team g) bracket_id Q in
    if default 0 (wait_times w !! 9%nat) =? 0 then Ok 0 else Ok (SumOfWaitTimes w / COUNT_OF_PLAYERS_TO_AVERAGE_WAIT_TIME)
  else Throw OutOfArray.

(** ** Leaving *)
Fixpoint position (ptr : Z) (l : list Z) : option nat :=
  match l with [] => None | g :: l => if g =? ptr then Some O else S <$> position ptr l end.

(** The search of [RemovePlayer], from the last bracket down; of the two kinds of a
    bracket the second counts. *)
Fixpoint find_group (ptr index : Z) (brackets : list Z) (Q : BattlegroundQueue) : option (Z * Z * nat) :=
  match brackets with
  | [] => None
  | b :: brackets =>
      match position ptr (queued b (index + BG_TEAMS_COUNT) Q) with
      | Some i => Some (b, index + BG_TEAMS_COUNT, i)
      | None =>
          match position ptr (queued b index Q) with
          | Some i => Some (b, index, i)
          | None => find_group ptr index brackets Q
          end
      end
  end.
Definition brackets_down : list Z := rev (seqZ 0 MAX_BATTLEGROUND_BRACKETS).

(** The battleground of an invitation has one player less to wait for. *)
Definition release_invitation (g : GroupQueueInfo) (R : Realm) : result fault Realm :=
  match GetBattleground (IsInvitedToBGInstanceGUID g) (BgTypeId g) R with
  | Some b => on_bg b (DecreaseInvitedCount (Team g)) R
  | None => Ok R
  end.

Definition lose_match (E : Env) (guid : Z) (g : GroupQueueInfo) (R : Realm) : Realm :=
  match arena_team E (ArenaTeamId g) with
  | None => R
  | Some _ =>
      happened (SaveArenaTeam (ArenaTeamId g))
        (happened (match FindPlayer guid R with
                   | Some _ => MemberLost (ArenaTeamId g) guid (OpponentsMatchmakerRating g)
                   | None => OfflineMemberLost (ArenaTeamId g) guid (OpponentsMatchmakerRating g)
                   end) R)
  end.

(** The next player of a rated group is told that he leaves with it. *)
Definition tell_left (next : Z) (g : GroupQueueInfo) (R : Realm) : result fault Realm :=
  match FindPlayer next R with
  | None => Ok R
  | Some plr2 =>
      let? bg := match GetBattlegroundTemplate (BgTypeId g) R with
                 | None => Ok None
                 | Some t => let? b := bg_at t R in Ok (Some b)
                 end in
      let q := BGQueueTypeId (BgTypeId g) (ArenaType g) in
      let queueSlot := GetBattlegroundQueueIndex q plr2 in
      Ok (happened (SendPacket next (BuildBattlegroundStatusPacket bg queueSlot STATUS_NONE 0 0 0 1))
            (on_player next (RemoveBattlegroundQueueId q) R))
  end.

(** [fuel] bounds the recursion; each call takes a player out of the queue. *)
Fixpoint RemovePlayer_rec (fuel : nat) (E : Env) (guid : Z) (decreaseInvitedCount : bool) (Q : BattlegroundQueue) (R : Realm) :
    result fault (BattlegroundQueue * Realm) :=
  match fuel with
  | O => Throw NoFuel
  | S fuel =>
      match m_QueuedPlayers Q !! guid with
      | None => Ok (Q, R)
      | Some info =>
          let ptr := GroupInfo info in
          let? group := group_at ptr (groups Q) in
          let index := if Team group =? HORDE then BG_QUEUE_PREMADE_HORDE else BG_QUEUE_PREMADE_ALLIANCE in
          match find_group ptr index brackets_down Q with
          | None => Ok (Q, R)
          | Some (bracket_id, index, i) =>
              let group := set_Players (set_del guid (Players group)) group in
              let? R := if decreaseInvitedCount && invited group then release_invitation group R else Ok R in
              let Q := set_QueuedPlayers (delete guid (m_QueuedPlayers Q)) (set_group ptr group Q) in
              let empty := bool_decide (Players group = []) in
              let R := if negb (ArenaType group =? 0) && IsRated group && empty && CONFIG_ARENA_QUEUE_ANNOUNCER_ENABLE E
                       then match arena_team E (ArenaTeamId group) with
                            | Some name => happened (SendWorldText LANG_ARENA_QUEUE_ANNOUNCE_WORLD_EXIT
                                             [Str name; U8 (ArenaType group); U8 (ArenaType group); U32 (ArenaTeamRating group)]) R
                            | None => R
                            end
                       else R in
              let R := if invited group && IsRated group && decreaseInvitedCount then lose_match E guid group R else R in
              match Players group with
              | [] => Ok (set_groups (delete ptr (groups Q)) (erase_at bracket_id index i Q), R)
              | next :: _ =>
                  if negb (invited group) && IsRated group then
                    let? R := tell_left next group R in
                    RemovePlayer_rec fuel E next decreaseInvitedCount Q R
                  else Ok (Q, R)
              end
          end
      end
  end.

Definition RemovePlayer (E : Env) (guid : Z) (decreaseInvitedCount : bool) (Q : BattlegroundQueue) (R : Realm) :
    result fault (BattlegroundQueue * Realm) :=
  RemovePlayer_rec (S (base.size (m_QueuedPlayers Q))) E guid decreaseInvitedCount Q R.

(** The group of a player in the queue. *)
Definition GetPlayerGroupInfoData (guid : Z) (Q : BattlegroundQueue) : result fault (option GroupQueueInfo) :=
  match m_QueuedPlayers Q !! guid with
  | None => Ok None
  | Some info => let? g := group_at (GroupInfo info) (groups Q) in Ok (Some g)
  end.

Definition IsPlayerInvited (guid bgInstanceGuid removeTime : Z) (Q : BattlegroundQueue) : result fault bool :=
  match m_QueuedPlayers Q !! guid with
  | None => Ok false
  | Some info =>
      let? g := group_at (GroupInfo info) (groups Q) in
      Ok ((IsInvitedToBGInstanceGUID g =? bgInstanceGuid) && (RemoveInviteTime g =? removeTime))
  end.

Definition GetPlayersInQueue (team : Z) (Q : BattlegroundQueue) : Z := PlayerCount (pool team Q).

(** ** Invitations *)

(** A multimap: after the events with the same time. *)
Fixpoint insert_event (t : Z) (e : BGEvent) (l : list (Z * BGEvent)) : list (Z * BGEvent) :=
  match l with
  | [] => [(t, e)]
  | (t', e') :: l' => if t <? t' then (t, e) :: l else (t', e') :: insert_event t e l'
  end.
Definition AddEvent (e : BGEvent) (offset : Z) (Q : BattlegroundQueue) : BattlegroundQueue :=
  set_events (insert_event (m_time Q + offset) e (m_events Q)) Q.

(** One player of the group that is invited to the battleground [bgptr]. *)
Definition invite_player (E : Env) (ginfo : GroupQueueInfo) (bgptr guid : Z) (Q : BattlegroundQueue) (R : Realm) :
    result fault (BattlegroundQueue * Realm) :=
  match FindPlayer guid R with
  | None => Ok (Q, R)
  | Some player =>
      let? bg := bg_at bgptr R in
      let bgTypeId := GetTypeID bg in
      let q := BGQueueTypeId bgTypeId (GetArenaType bg) in
      let instance := IsInvitedToBGInstanceGUID ginfo in
      let? Q := PlayerInvitedToBGUpdateAverageWaitTime E ginfo (GetBracketId bg) Q in
      let? R := on_bg bgptr (IncreaseInvitedCount (Team ginfo)) R in
      let R := on_player guid (SetInviteForBattlegroundQueueType q instance) R in
      let Q := AddEvent (BGQueueInviteEvent guid instance bgTypeId (ArenaType ginfo) (RemoveInviteTime ginfo)) INVITATION_REMIND_TIME Q in
      let Q := AddEvent (BGQueueRemoveEvent guid instance bgTypeId q (RemoveInviteTime ginfo)) INVITE_ACCEPT_WAIT_TIME Q in
      let? bg := bg_at bgptr R in
      Ok (Q, happened (SendPacket guid (BuildBattlegroundStatusPacket (Some bg) (GetBattlegroundQueueIndex q player) STATUS_WAIT_JOIN
                                          INVITE_ACCEPT_WAIT_TIME 0 (ArenaType ginfo) 1)) R)
  end.

Fixpoint invite_players (E : Env) (ginfo : GroupQueueInfo) (bgptr : Z) (guids : list Z) (Q : BattlegroundQueue) (R : Realm) :
    result fault (BattlegroundQueue * Realm) :=
  match guids with
  | [] => Ok (Q, R)
  | guid :: guids => let? (Q, R) := invite_player E ginfo bgptr guid Q R in invite_players E ginfo bgptr guids Q R
  end.

Definition InviteGroupToBG (E : Env) (g bgptr side : Z) (Q : BattlegroundQueue) (R : Realm) : result fault (bool * BattlegroundQueue * Realm) :=
  let? ginfo := group_at g (groups Q) in
  let ginfo := if side =? 0 then ginfo else set_Team side ginfo in
  let Q := set_group g ginfo Q in
  if invited ginfo then Ok (false, Q, R)
  else
    let? bg := bg_at bgptr R in
    let ginfo := set_invitation (u32 (now E + INVITE_ACCEPT_WAIT_TIME)) (GetInstanceID bg) ginfo in
    let Q := set_group g ginfo Q in
    let? R := if isArena bg && isRated bg then on_bg bgptr (SetArenaTeamIdForTeam (Team ginfo) (ArenaTeamId ginfo)) R else Ok R in
    let? (Q, R) := invite_players E ginfo bgptr (Players ginfo) Q R in
    Ok (true, Q, R).

(** The groups of a pool, each with its own team. *)
Fixpoint invite_groups (E : Env) (bgptr : Z) (gs : list Z) (Q : BattlegroundQueue) (R : Realm) : result fault (BattlegroundQueue * Realm) :=
  match gs with
  | [] => Ok (Q, R)
  | g :: gs =>
      let? ginfo := group_at g (groups Q) in
      let? (_, Q, R) := InviteGroupToBG E g bgptr (Team ginfo) Q R in
      invite_groups E bgptr gs Q R
  end.
Definition invite_pools (E : Env) (bgptr : Z) (Q : BattlegroundQueue) (R : Realm) : result fault (BattlegroundQueue * Realm) :=
  let? (Q, R) := invite_groups E bgptr (SelectedGroups (pool TEAM_ALLIANCE Q)) Q R in
  invite_groups E bgptr (SelectedGroups (pool TEAM_HORDE Q)) Q R.
Definition init_pools (Q : BattlegroundQueue) : BattlegroundQueue :=
  set_pool TEAM_HORDE (SelectionPool_Init (pool TEAM_HORDE Q)) (set_pool TEAM_ALLIANCE (SelectionPool_Init (pool TEAM_ALLIANCE Q)) Q).

(** ** The choice of groups for a running battleground *)

(** [for (; index < count && AddGroup( *itr ); index++) ++itr]: what is left of the
    queue from the iterator on. *)
Fixpoint add_loop (desired : Z) (gs : gmap Z GroupQueueInfo) (l : list Z) (p : SelectionPool) : result fault (list Z * SelectionPool) :=
  match l with
  | [] => Ok ([], p)
  | g :: l' =>
      let? (more, p) := SelectionPool_AddGroup g desired gs p in
      if more then add_loop desired gs l' p else Ok (l, p)
  end.

(** A team's free places, what is left of its queue, and its pool. *)
Record Side := mkSide { free : Z; rest : list Z; selected : SelectionPool }.
Definition diff (s : Side) : Z := s32 (free s - s32 (PlayerCount (selected s))).

(** One round for the team with fewer places left over, whether it ends the loop, and
    both teams after it. *)
Definition balance_round (gs : gmap Z GroupQueueInfo) (dmine dtheirs : Z) (mine theirs : Side) : result fault (bool * Side * Side) :=
  let? (again, p) := SelectionPool_KickGroup (u32 (dtheirs - dmine)) gs (selected mine) in
  let? (r, p) := if again then add_loop (u32 (if dtheirs <=? free mine then free mine - dtheirs else 0)) gs (rest mine) p
                 else Ok (rest mine, p) in
  let mine := mkSide (free mine) r p in
  if PlayerCount p =? 0 then
    if free mine <=? dtheirs + 1 then Ok (true, mine, theirs)
    else let? (_, p') := SelectionPool_KickGroup (u32 (dtheirs - dmine)) gs (selected theirs) in
         Ok (false, mine, mkSide (free theirs) (rest theirs) p')
  else Ok (false, mine, theirs).

(** The balancing loop of [FillPlayersToBG]. *)
Fixpoint balance (fuel : nat) (gs : gmap Z GroupQueueInfo) (ali horde : Side) : result fault (Side * Side) :=
  match fuel with
  | O => Throw NoFuel
  | S fuel =>
      let diffAli := diff ali in
      let diffHorde := diff horde in
      if (1 <? Z.abs (diffAli - diffHorde)) && ((0 <? PlayerCount (selected horde)) || (0 <? PlayerCount (selected ali))) then
        if diffAli <? diffHorde then
          let? (stop, ali, horde) := balance_round gs diffAli diffHorde ali horde in
          if stop then Ok (ali, horde) else balance fuel gs ali horde
        else
          let? (stop, horde, ali) := balance_round gs diffHorde diffAli horde ali in
          if stop then Ok (ali, horde) else balance fuel gs ali horde
      else Ok (ali, horde)
  end.

(** Each round kicks a group or takes one from a queue, and a group that is kicked does
    not come back. *)
Definition side_measure (s : Side) : nat := (2 * length (rest s) + length (SelectedGroups (selected s)))%nat.

Definition FillPlayersToBG (E : Env) (bg : Battleground) (bracket_id : Z) (Q : BattlegroundQueue) : result fault BattlegroundQueue :=
  let hordeFree := s32 (GetFreeSlotsForTeam HORDE bg) in
  let aliFree := s32 (GetFreeSlotsForTeam ALLIANCE bg) in
  let gs := groups Q in
  let? (aliRest, pa) := add_loop (u32 aliFree) gs (queued bracket_id BG_QUEUE_NORMAL_ALLIANCE Q) (pool TEAM_ALLIANCE Q) in
  let? (hordeRest, ph) := add_loop (u32 hordeFree) gs (queued bracket_id BG_QUEUE_NORMAL_HORDE Q) (pool TEAM_HORDE Q) in
  if CONFIG_BATTLEGROUND_INVITATION_TYPE E =? 0 then Ok (set_pool TEAM_HORDE ph (set_pool TEAM_ALLIANCE pa Q))
  else
    let ali := mkSide aliFree aliRest pa in
    let horde := mkSide hordeFree hordeRest ph in
    let? (ali, horde) := balance (S (side_measure ali + side_measure horde)) gs ali horde in
    Ok (set_pool TEAM_HORDE (selected horde) (set_pool TEAM_ALLIANCE (selected ali) Q)).

(** ** New matches *)

(** The first group that is not invited. *)
Fixpoint first_waiting (gs : gmap Z GroupQueueInfo) (l : list Z) : result fault (option Z) :=
  match l with
  | [] => Ok None
  | g :: l => let? gi := group_at g gs in if invited gi then first_waiting gs l else Ok (Some g)
  end.

(** The groups that are not invited, until one finds the pool full. *)
Fixpoint fill_loop (desired : Z) (gs : gmap Z GroupQueueInfo) (l : list Z) (p : SelectionPool) : result fault SelectionPool :=
  match l with
  | [] => Ok p
  | g :: l =>
      let? gi := group_at g gs in
      if invited gi then fill_loop desired gs l p
      else let? (more, p) := SelectionPool_AddGroup g desired gs p in if more then fill_loop desired gs l p else Ok p
  end.

(** The first group of a premade queue goes to the normal queue when its time is up or
    it has become too small. *)
Definition move_premade (E : Env) (bracket_id MinPlayersPerTeam i : Z) (Q : BattlegroundQueue) : result fault BattlegroundQueue :=
  let time_before := u32 (now E - CONFIG_BATTLEGROUND_PREMADE_GROUP_WAIT_FOR_MATCH E) in
  match queued bracket_id (BG_QUEUE_PREMADE_ALLIANCE + i) Q with
  | [] => Ok Q
  | g :: _ =>
      let? gi := group_at g (groups Q) in
      if negb (invited gi) && ((JoinTime gi <? time_before) || (size gi <? MinPlayersPerTeam))
      then Ok (erase_at bracket_id (BG_QUEUE_PREMADE_ALLIANCE + i) 0 (push_front bracket_id (BG_QUEUE_NORMAL_ALLIANCE + i) g Q))
      else Ok Q
  end.

Definition CheckPremadeMatch (E : Env) (bracket_id MinPlayersPerTeam MaxPlayersPerTeam : Z) (Q : BattlegroundQueue) :
    result fault (bool * BattlegroundQueue) :=
  let gs := groups Q in
  let alis := queued bracket_id BG_QUEUE_PREMADE_ALLIANCE Q in
  let hordes := queued bracket_id BG_QUEUE_PREMADE_HORDE Q in
  let? first := match alis, hordes with
                | _ :: _, _ :: _ =>
                    let? a := first_waiting gs alis in
                    let? h := first_waiting gs hordes in
                    Ok (match a, h with Some a, Some h => Some (a, h) | _, _ => None end)
                | _, _ => Ok None
                end in
  match first with
  | Some (a, h) =>
      let? (_, pa) := SelectionPool_AddGroup a MaxPlayersPerTeam gs (pool TEAM_ALLIANCE Q) in
      let? (_, ph) := SelectionPool_AddGroup h MaxPlayersPerTeam gs (pool TEAM_HORDE Q) in
      let maxPlayers := Z.min (PlayerCount pa) (PlayerCount ph) in
      let? pa := fill_loop maxPlayers gs (queued bracket_id BG_QUEUE_NORMAL_ALLIANCE Q) pa in
      let? ph := fill_loop maxPlayers gs (queued bracket_id BG_QUEUE_NORMAL_HORDE Q) ph in
      Ok (true, set_pool TEAM_HORDE ph (set_pool TEAM_ALLIANCE pa Q))
  | None =>
      let? Q := move_premade E bracket_id MinPlayersPerTeam TEAM_ALLIANCE Q in
      let? Q := move_premade E bracket_id MinPlayersPerTeam TEAM_HORDE Q in
      Ok (false, Q)
  end.

(** Groups that are not invited, until the pool has enough players: the queue from the
    last one on, empty when the end was reached. *)
Fixpoint normal_loop (minPlayers maxPlayers : Z) (gs : gmap Z GroupQueueInfo) (l : list Z) (p : SelectionPool) :
    result fault (list Z * SelectionPool) :=
  match l with
  | [] => Ok ([], p)
  | g :: l' =>
      let? gi := group_at g gs in
      if invited gi then normal_loop minPlayers maxPlayers gs l' p
      else
        let? (_, p) := SelectionPool_AddGroup g maxPlayers gs p in
        if minPlayers <=? PlayerCount p then Ok (l, p) else normal_loop minPlayers maxPlayers gs l' p
  end.

(** The team with fewer players may get as many as the other. The iterators are where
    the first loops stopped. *)
Definition even_out (gs : gmap Z GroupQueueInfo) (itr_a itr_h : list Z) (pa ph : SelectionPool) : result fault (SelectionPool * SelectionPool) :=
  if PlayerCount ph <? PlayerCount pa then
    match itr_h with
    | [] => Throw PastTheEnd
    | _ :: l => let? ph := fill_loop (PlayerCount pa) gs l ph in Ok (pa, ph)
    end
  else
    match itr_a with
    | [] => Throw PastTheEnd
    | _ :: l => let? pa := fill_loop (PlayerCount ph) gs l pa in Ok (pa, ph)
    end.

Definition enough (minPlayers : Z) (pa ph : SelectionPool) : bool := (minPlayers <=? PlayerCount pa) && (minPlayers <=? PlayerCount ph).

(** What the check returns for these pools. *)
Definition may_start (E : Env) (bg_template : Battleground) (minPlayers : Z) (balanced : bool) (pa ph : SelectionPool) : bool :=
  if balanced && (2 <? Z.abs (s32 (u32 (PlayerCount ph - PlayerCount pa)))) then false
  else if isTesting E && isBattleground bg_template && (negb (PlayerCount pa =? 0) || negb (PlayerCount ph =? 0)) then true
  else enough minPlayers pa ph.

Definition CheckNormalMatch (E : Env) (bg_template : Battleground) (bracket_id minPlayers maxPlayers : Z) (Q : BattlegroundQueue) :
    result fault (bool * BattlegroundQueue) :=
  let gs := groups Q in
  let? (itr_a, pa) := normal_loop minPlayers maxPlayers gs (queued bracket_id BG_QUEUE_NORMAL_ALLIANCE Q) (pool TEAM_ALLIANCE Q) in
  let? (itr_h, ph) := normal_loop minPlayers maxPlayers gs (queued bracket_id BG_QUEUE_NORMAL_HORDE Q) (pool TEAM_HORDE Q) in
  let balanced := negb (CONFIG_BATTLEGROUND_INVITATION_TYPE E =? 0) && enough minPlayers pa ph in
  let? (pa, ph) := if balanced then even_out gs itr_a itr_h pa ph else Ok (pa, ph) in
  Ok (may_start E bg_template minPlayers balanced pa ph, set_pool TEAM_HORDE ph (set_pool TEAM_ALLIANCE pa Q)).

(** The last loop of [CheckSkirmishForSameFaction]: each group changes its team and
    moves to the front of the other team's queue. The search for it starts after the
    place [i] of the last group of the first pool; the iterator there is valid until
    something other than the last element is erased. *)
Fixpoint move_skirmish (bracket_id teamIndex otherTeam otherTeamId : Z) (i : nat) (valid : bool) (l : list Z) (Q : BattlegroundQueue) :
    result fault BattlegroundQueue :=
  match l with
  | [] => Ok Q
  | g :: l =>
      let? gi := group_at g (groups Q) in
      let Q := push_front bracket_id (BG_QUEUE_NORMAL_ALLIANCE + otherTeam) g (set_group g (set_Team otherTeamId gi) Q) in
      if negb valid then Throw InvalidatedIterator
      else
        let q := queued bracket_id (BG_QUEUE_NORMAL_ALLIANCE + teamIndex) Q in
        match position g (drop (S i) q) with
        | Some k =>
            move_skirmish bracket_id teamIndex otherTeam otherTeamId i (S i + k =? base.length q - 1)%nat l
              (erase_at bracket_id (BG_QUEUE_NORMAL_ALLIANCE + teamIndex) (S i + k) Q)
        | None => move_skirmish bracket_id teamIndex otherTeam otherTeamId i valid l Q
        end
  end.

Definition CheckSkirmishForSameFaction (bracket_id minPlayersPerTeam : Z) (Q : BattlegroundQueue) : result fault (bool * BattlegroundQueue) :=
  let gs := groups Q in
  if (PlayerCount (pool TEAM_ALLIANCE Q) <? minPlayersPerTeam) && (PlayerCount (pool TEAM_HORDE Q) <? minPlayersPerTeam) then Ok (false, Q)
  else
    let for_horde := PlayerCount (pool TEAM_HORDE Q) =? minPlayersPerTeam in
    let teamIndex := if for_horde then TEAM_HORDE else TEAM_ALLIANCE in
    let otherTeam := if for_horde then TEAM_ALLIANCE else TEAM_HORDE in
    let otherTeamId := if for_horde then ALLIANCE else HORDE in
    let Q := set_pool otherTeam (SelectionPool_Init (pool otherTeam Q)) Q in
    match last (SelectedGroups (pool teamIndex Q)) with
    | None => Throw EmptyPool
    | Some ginfo =>
        let q := queued bracket_id (BG_QUEUE_NORMAL_ALLIANCE + teamIndex) Q in
        match position ginfo q with
        | None => Ok (false, Q)
        | Some i =>
            let? p := fill_loop minPlayersPerTeam gs (drop (S i) q) (pool otherTeam Q) in
            let Q := set_pool otherTeam p Q in
            if negb (PlayerCount p =? minPlayersPerTeam) then Ok (false, Q)
            else let? Q := move_skirmish bracket_id teamIndex otherTeam otherTeamId i true (SelectedGroups p) Q in Ok (true, Q)
        end
    end.

(** ** Rated matches *)

(** Whether a group may play: its rating is in range or it has waited long enough. *)
Definition may_play (arenaMinRating arenaMaxRating discardTime : Z) (g : GroupQueueInfo) : bool :=
  negb (invited g) &&
  (((arenaMinRating <=? ArenaMatchmakerRating g) && (ArenaMatchmakerRating g <=? arenaMaxRating)) || (JoinTime g <? discardTime)).

(** The place of the first such group with the property [P] too, from place [i] on. *)
Fixpoint find_rated (P : GroupQueueInfo -> bool) (gs : gmap Z GroupQueueInfo) (i : nat) (l : list Z) : result fault (option (nat * Z)) :=
  match l with
  | [] => Ok None
  | g :: l => let? gi := group_at g gs in if P gi then Ok (Some (i, g)) else find_rated P gs (S i) l
  end.

(** The rating that is asked for: the one given, or that of the first group of the
    queues, the one that waits longer when there are two. Without groups there is none. *)
Definition wanted_rating (arenaRating bracket_id : Z) (Q : BattlegroundQueue) : result fault (option Z) :=
  if negb (arenaRating =? 0) then Ok (Some arenaRating)
  else
    let? front1 := match queued bracket_id BG_QUEUE_PREMADE_ALLIANCE Q with [] => Ok None | g :: _ => let? gi := group_at g (groups Q) in Ok (Some gi) end in
    let? front2 := match queued bracket_id BG_QUEUE_PREMADE_HORDE Q with [] => Ok None | g :: _ => let? gi := group_at g (groups Q) in Ok (Some gi) end in
    match front1, front2 with
    | Some g1, Some g2 => Ok (Some (if JoinTime g1 <? JoinTime g2 then ArenaMatchmakerRating g1 else ArenaMatchmakerRating g2))
    | Some g1, None => Ok (Some (ArenaMatchmakerRating g1))
    | None, Some g2 => Ok (Some (ArenaMatchmakerRating g2))
    | None, None => Ok None
    end.

(** The two teams, each with its queue and its place there. *)
Definition find_teams (E : Env) (arenaRating bracket_id : Z) (Q : BattlegroundQueue) : result fault (option ((Z * nat * Z) * (Z * nat * Z))) :=
  let gs := groups Q in
  let arenaMinRating := if arenaRating <=? GetMaxRatingDifference E then 0 else u32 (arenaRating - GetMaxRatingDifference E) in
  let arenaMaxRating := u32 (arenaRating + GetMaxRatingDifference E) in
  let discardTime := u32 (now E - GetRatingDiscardTimer E) in
  let ok := may_play arenaMinRating arenaMaxRating discardTime in
  let? a := find_rated ok gs 0 (queued bracket_id BG_QUEUE_PREMADE_ALLIANCE Q) in
  let? h := find_rated ok gs 0 (queued bracket_id BG_QUEUE_PREMADE_HORDE Q) in
  match a, h with
  | Some (i, g), Some (i', g') => Ok (Some ((BG_QUEUE_PREMADE_ALLIANCE, i, g), (BG_QUEUE_PREMADE_HORDE, i', g')))
  | None, None => Ok None
  | Some (i, g), None | None, Some (i, g) =>
      let team := if a is Some _ then BG_QUEUE_PREMADE_ALLIANCE else BG_QUEUE_PREMADE_HORDE in
      let? first := group_at g gs in
      let? second := find_rated (fun gi => ok gi && negb (ArenaTeamId first =? ArenaTeamId gi)) gs i (drop i (queued bracket_id team Q)) in
      Ok (match second with Some (i', g') => Some ((team, i, g), (team, i', g')) | None => None end)
  end.

Definition on_group (ptr : Z) (f : GroupQueueInfo -> GroupQueueInfo) (Q : BattlegroundQueue) : result fault BattlegroundQueue :=
  let? g := group_at ptr (groups Q) in Ok (set_group ptr (f g) Q).

(** A team whose faction is not that of its side moves to the front of that side's
    queue; it is erased from the other queue, into which its iterator must point. *)
Definition change_side (bracket_id side_queue other_queue side : Z) (where_ : Z * nat) (g : Z) (Q : BattlegroundQueue) :
    result fault BattlegroundQueue :=
  let? gi := group_at g (groups Q) in
  if Team gi =? side then Ok Q
  else if where_.1 =? other_queue then Ok (erase_at bracket_id other_queue where_.2 (push_front bracket_id side_queue g Q))
  else Throw InvalidatedIterator.

Definition start_rated (E : Env) (bgTypeId : Z) (bracketEntry : PvPDifficultyEntry) (bracket_id arenaType : Z)
    (teams : (Z * nat * Z) * (Z * nat * Z)) (Q : BattlegroundQueue) (R : Realm) : result fault (BattlegroundQueue * Realm) :=
  let '((qa, ia, aTeam), (qh, ih, hTeam)) := teams in
  let? (arena, R) := CreateNewBattleground E bgTypeId bracketEntry arenaType true R in
  match arena with
  | None => Ok (Q, R)
  | Some arena =>
      let? a := group_at aTeam (groups Q) in
      let? h := group_at hTeam (groups Q) in
      let? Q := on_group aTeam (set_opponents (ArenaTeamRating h) (ArenaMatchmakerRating h)) Q in
      let? Q := on_group hTeam (set_opponents (ArenaTeamRating a) (ArenaMatchmakerRating a)) Q in
      let? Q := change_side bracket_id BG_QUEUE_PREMADE_ALLIANCE BG_QUEUE_PREMADE_HORDE ALLIANCE (qa, ia) aTeam Q in
      let? Q := change_side bracket_id BG_QUEUE_PREMADE_HORDE BG_QUEUE_PREMADE_ALLIANCE HORDE (qh, ih) hTeam Q in
      let? R := on_bg arena (SetArenaMatchmakerRating ALLIANCE (ArenaMatchmakerRating a)) R in
      let? R := on_bg arena (SetArenaMatchmakerRating HORDE (ArenaMatchmakerRating h)) R in
      let? (_, Q, R) := InviteGroupToBG E aTeam arena ALLIANCE Q R in
      let? (_, Q, R) := InviteGroupToBG E hTeam arena HORDE Q R in
      let? R := StartBattleground arena R in
      Ok (Q, R)
  end.

(** ** BattlegroundQueueUpdate *)

(** Whether new players may be invited to a running battleground. *)
Definition accepts (bgTypeId bracket_id : Z) (bg : Battleground) : bool :=
  negb (isRated bg) && (GetTypeID bg =? bgTypeId) && (GetBracketId bg =? bracket_id) &&
  (STATUS_WAIT_QUEUE <? GetStatus bg) && (GetStatus bg <? STATUS_WAIT_LEAVE).

(** The battlegrounds with free slots. The iterator is moved on before a battleground is
    looked at, which may leave the list then. *)
Fixpoint fill_running (E : Env) (bgTypeId bracket_id : Z) (l : list Z) (Q : BattlegroundQueue) (R : Realm) : result fault (BattlegroundQueue * Realm) :=
  match l with
  | [] => Ok (Q, R)
  | ptr :: l =>
      let? bg := bg_at ptr R in
      if accepts bgTypeId bracket_id bg then
        let? Q := FillPlayersToBG E bg bracket_id (init_pools Q) in
        let? (Q, R) := invite_pools E ptr Q R in
        let? bg := bg_at ptr R in
        let? R := if HasFreeSlots bg then Ok R else RemoveFromBGFreeSlotQueue ptr R in
        fill_running E bgTypeId bracket_id l Q R
      else fill_running E bgTypeId bracket_id l Q R
  end.

(** A new battleground for the pools; without one the update ends. *)
Definition start_match (E : Env) (bgTypeId : Z) (bracketEntry : PvPDifficultyEntry) (arenaType : Z) (Q : BattlegroundQueue) (R : Realm) :
    result fault (bool * BattlegroundQueue * Realm) :=
  let? (bg2, R) := CreateNewBattleground E bgTypeId bracketEntry arenaType false R in
  match bg2 with
  | None => Ok (false, Q, R)
  | Some bg2 =>
      let? (Q, R) := invite_pools E bg2 Q R in
      let? R := StartBattleground bg2 R in
      Ok (true, Q, R)
  end.

(** The sizes of the teams of a new match. *)
Definition match_size (E : Env) (bg_template : Battleground) (arenaType : Z) : Z * Z :=
  if isArena bg_template then (if isArenaTesting E then 1 else arenaType, arenaType)
  else (if isTesting E then 1 else GetMinPlayersPerTeam bg_template, GetMaxPlayersPerTeam bg_template).

(** The part of the update that starts new matches. *)
Definition start_new (E : Env) (bgTypeId bracket_id arenaType : Z) (rated : bool) (arenaRating : Z) (bg_template : Battleground)
    (bracketEntry : PvPDifficultyEntry) (Q : BattlegroundQueue) (R : Realm) : result fault (BattlegroundQueue * Realm) :=
  let '(MinPlayersPerTeam, MaxPlayersPerTeam) := match_size E bg_template arenaType in
  let Q := init_pools Q in
  let? (go_on, Q, R) :=
    if isBattleground bg_template then
      let? (premade, Q) := CheckPremadeMatch E bracket_id MinPlayersPerTeam MaxPlayersPerTeam Q in
      if premade then
        let? (created, Q, R) := start_match E bgTypeId bracketEntry 0 Q R in
        Ok (created, if created : bool then init_pools Q else Q, R)
      else Ok (true, Q, R)
    else Ok (true, Q, R) in
  if negb go_on then Ok (Q, R)
  else if negb rated then
    let? (normal, Q) := CheckNormalMatch E bg_template bracket_id MinPlayersPerTeam MaxPlayersPerTeam Q in
    let? (found, Q) := if normal then Ok (true, Q)
                       else if isArena bg_template then CheckSkirmishForSameFaction bracket_id MinPlayersPerTeam Q
                       else Ok (false, Q) in
    if found then let? (_, Q, R) := start_match E bgTypeId bracketEntry arenaType Q R in Ok (Q, R)
    else Ok (Q, R)
  else if isArena bg_template then
    let? rating := wanted_rating arenaRating bracket_id Q in
    match rating with
    | None => Ok (Q, R)
    | Some rating =>
        let? teams := find_teams E rating bracket_id Q in
        match teams with
        | None => Ok (Q, R)
        | Some teams => start_rated E bgTypeId bracketEntry bracket_id arenaType teams Q R
        end
    end
  else Ok (Q, R).

Definition BattlegroundQueueUpdate (E : Env) (bgTypeId bracket_id arenaType : Z) (rated : bool) (arenaRating : Z)
    (Q : BattlegroundQueue) (R : Realm) : result fault (BattlegroundQueue * Realm) :=
  if negb (bracket_ok bracket_id) then Throw OutOfArray
  else if forallb (fun kind => bool_decide (queued bracket_id kind Q = [])) [0; 1; 2; 3] then Ok (Q, R)
  else
    let R := on_data bgTypeId id R in
    let? (Q, R) := fill_running E bgTypeId bracket_id (BGFreeSlotQueue (data_of bgTypeId R)) Q R in
    match GetBattlegroundTemplate bgTypeId R with
    | None => Ok (Q, R)
    | Some t =>
        let? bg_template := bg_at t R in
        match GetBattlegroundBracketById E (GetMapId bg_template) bracket_id with
        | None => Ok (Q, R)
        | Some bracketEntry => start_new E bgTypeId bracket_id arenaType rated arenaRating bg_template bracketEntry Q R
        end
    end.

(** ** The queues of the realm *)
Record World := mkWorld { queues : gmap Z BattlegroundQueue; realm : Realm }.
Definition GetBattlegroundQueue (q : Z) (W : World) : BattlegroundQueue := default new_queue (queues W !! q).
Definition on_queue (q : Z) (f : BattlegroundQueue -> Realm -> result fault (BattlegroundQueue * Realm)) (W : World) : result fault World :=
  let? (Q, R) := f (GetBattlegroundQueue q W) (realm W) in Ok (mkWorld (<[q := Q]> (queues W)) R).
Definition on_realm (f : Realm -> Realm) (W : World) : World := mkWorld (queues W) (f (realm W)).

Definition read_bg (ptr : option Z) (R : Realm) : result fault (option Battleground) :=
  match ptr with None => Ok None | Some ptr => let? b := bg_at ptr R in Ok (Some b) end.

Definition BGQueueInviteEvent_Execute (guid instance bgTypeId arenaType removeTime : Z) (W : World) : result fault World :=
  match FindPlayer guid (realm W) with
  | None => Ok W
  | Some player =>
      let? bg := read_bg (GetBattleground instance bgTypeId (realm W)) (realm W) in
      match bg with
      | None => Ok W
      | Some bg =>
          let q := BGQueueTypeId (GetTypeID bg) (GetArenaType bg) in
          let queueSlot := GetBattlegroundQueueIndex q player in
          if queueSlot <? PLAYER_MAX_BATTLEGROUND_QUEUES then
            let? yes := IsPlayerInvited guid instance removeTime (GetBattlegroundQueue q W) in
            if yes : bool then
              Ok (on_realm (happened (SendPacket guid (BuildBattlegroundStatusPacket (Some bg) queueSlot STATUS_WAIT_JOIN
                                                         (INVITE_ACCEPT_WAIT_TIME - INVITATION_REMIND_TIME) 0 arenaType 1))) W)
            else Ok W
          else Ok W
      end
  end.

Definition BGQueueRemoveEvent_Execute (E : Env) (guid instance bgTypeId q removeTime : Z) (W : World) : result fault World :=
  match FindPlayer guid (realm W) with
  | None => Ok W
  | Some player =>
      let ptr := GetBattleground instance bgTypeId (realm W) in
      let queueSlot := GetBattlegroundQueueIndex q player in
      if queueSlot <? PLAYER_MAX_BATTLEGROUND_QUEUES then
        let? yes := IsPlayerInvited guid instance removeTime (GetBattlegroundQueue q W) in
        if yes : bool then
          let W := on_realm (on_player guid (RemoveBattlegroundQueueId q)) W in
          let? W := on_queue q (RemovePlayer E guid true) W in
          let? bg := read_bg ptr (realm W) in
          let W := match bg with
                   | Some b => if isBattleground b && negb (GetStatus b =? STATUS_WAIT_LEAVE)
                               then on_realm (ScheduleQueueUpdate 0 0 q bgTypeId (GetBracketId b)) W else W
                   | None => W
                   end in
          Ok (on_realm (happened (SendPacket guid (BuildBattlegroundStatusPacket bg queueSlot STATUS_NONE 0 0 0 1))) W)
        else Ok W
      else Ok W
  end.

Definition Execute (E : Env) (e : BGEvent) (W : World) : result fault World :=
  match e with
  | BGQueueInviteEvent guid instance bgTypeId arenaType removeTime => BGQueueInviteEvent_Execute guid instance bgTypeId arenaType removeTime W
  | BGQueueRemoveEvent guid instance bgTypeId q removeTime => BGQueueRemoveEvent_Execute E guid instance bgTypeId q removeTime W
  end.

(** The due events of a queue, the first first; each is deleted. *)
Fixpoint run_events (fuel : nat) (E : Env) (q : Z) (W : World) : result fault World :=
  match fuel with
  | O => Throw NoFuel
  | S fuel =>
      let Q := GetBattlegroundQueue q W in
      match m_events Q with
      | [] => Ok W
      | (t, e) :: l =>
          if t <=? m_time Q then
            let? W := Execute E e (mkWorld (<[q := set_events l Q]> (queues W)) (realm W)) in
            run_events fuel E q W
          else Ok W
      end
  end.
Definition UpdateEvents (E : Env) (ms : Z) (q : Z) (W : World) : result fault World :=
  let Q := GetBattlegroundQueue q W in
  let Q := set_time (u64 (m_time Q + ms)) Q in
  run_events (S (length (m_events Q))) E q (mkWorld (<[q := Q]> (queues W)) (realm W)).

(** The loop over the updates that were scheduled; its counter [i] has eight bits. *)
Fixpoint run_scheduled (fuel : nat) (E : Env) (scheduled : list Z) (i : Z) (W : World) : result fault World :=
  match fuel with
  | O => Throw NoFuel
  | S fuel =>
      match scheduled !! Z.to_nat i with
      | None => Ok W
      | Some id =>
          let s := decode_schedule id in
          let? W := on_queue (s_queue s) (BattlegroundQueueUpdate E (s_type s) (s_bracket s) (s_arenaType s) (0 <? s_rating s) (s_rating s)) W in
          run_scheduled fuel E scheduled (u8 (i + 1)) W
      end
  end.
Definition update_scheduled (fuel : nat) (E : Env) (W : World) : result fault World :=
  let scheduled := m_QueueUpdateScheduler (realm W) in
  run_scheduled fuel E scheduled 0 (on_realm (set_scheduler []) W).

End BattlegroundQueue.
