(* ===== verification/BattlegroundMatch.v ===== *)
(** * BattlegroundMatch: who is invited

    The theorems on the choice of groups of [BattlegroundQueue]: what the selection
    pools hold, that the balancing of a running battleground ends and how, and what the
    teams of a new match are. *)
From S2P Require Import Prelude OrderedMap InstanceIds Battleground BattlegroundQueue.
Import Battleground BattlegroundQueue.
#[global] Open Scope Z_scope.

Module BattlegroundMatch.

(** ** Pools *)
Section Pools.
Context (gs : gmap Z GroupQueueInfo).

(** The players of a list of groups. *)
Definition players_in (g : Z) : Z := match gs !! g with Some gi => size gi | None => 0 end.
Definition total (l : list Z) : Z := foldr (fun g acc => players_in g + acc) 0 l.

Definition live (l : list Z) : Prop := Forall (fun g => is_Some (gs !! g)) l.
Definition waiting (g : Z) : Prop := exists gi, gs !! g = Some gi /\ invited gi = false.

(** The pool holds groups of [l] in their order, none invited, and its counter is right. *)
Record pool_ok (l : list Z) (p : SelectionPool) : Prop := {
  pool_sublist : SelectedGroups p `sublist_of` l;
  pool_waiting : Forall waiting (SelectedGroups p);
  pool_count : PlayerCount p = total (SelectedGroups p)
}.

Lemma players_in_nonneg g : 0 <= players_in g.
Proof. unfold players_in, size. destruct (gs !! g); lia. Qed.
Lemma total_nonneg l : 0 <= total l.
Proof. induction l as [|g l IH]; simpl; [lia|]. pose proof (players_in_nonneg g). lia. Qed.
Lemma total_app l l' : total (l ++ l') = total l + total l'.
Proof. induction l as [|g l IH]; simpl; lia. Qed.
Lemma total_sublist l l' : l `sublist_of` l' -> total l <= total l'.
Proof.
  induction 1 as [|g l l' _ IH|g l l' _ IH]; simpl; [lia|lia|]. pose proof (players_in_nonneg g). lia.
Qed.
Lemma total_delete i l g : l !! i = Some g -> total (delete i l) = total l - players_in g.
Proof.
  revert i. induction l as [|g' l IH]; intros [|i] H; simpl in *; try done; [injection H as ->; lia|].
  change (total (g' :: delete i l) = players_in g' + total l - players_in g). simpl. rewrite (IH i H). lia.
Qed.

Lemma no_pool_ok l : pool_ok l no_pool.
Proof. constructor; simpl; [apply sublist_nil_l|done|done]. Qed.
Lemma pool_ok_app l l' p : pool_ok l p -> pool_ok (l ++ l') p.
Proof. intros []. constructor; [|done|done]. by apply sublist_inserts_r. Qed.
Lemma pool_ok_le l p : pool_ok l p -> 0 <= PlayerCount p <= total l.
Proof. intros [? _ ->]. split; [apply total_nonneg|]. by apply total_sublist. Qed.

Lemma AddGroup_ok done g d p :
  is_Some (gs !! g) -> pool_ok done p -> total (done ++ [g]) < 2 ^ 32 ->
  exists b p', SelectionPool_AddGroup g d gs p = Ok (b, p') /\ pool_ok (done ++ [g]) p' /\
    PlayerCount p <= PlayerCount p' <= Z.max d (PlayerCount p) /\
    (b = false -> p' = p /\ d <= PlayerCount p) /\
    (p' = p \/ (SelectedGroups p' = SelectedGroups p ++ [g] /\ PlayerCount p' = PlayerCount p + players_in g)).
Proof.
  intros [gi Hg] Hp Ht. unfold SelectionPool_AddGroup, group_at. rewrite Hg. cbn [bind_result].
  pose proof (pool_ok_le _ _ Hp) as Hle. rewrite total_app in Ht. cbn [total foldr] in Ht.
  assert (players_in g = size gi) as E by (unfold players_in; by rewrite Hg). pose proof (players_in_nonneg g).
  destruct (invited gi) eqn:Hi; cbn [negb andb].
  { eexists _, p. split; [done|]. split_and!; [by apply pool_ok_app|lia|lia| |by left]. intros ?%Z.ltb_ge. split; [done|lia]. }
  destruct (Z.leb_spec (PlayerCount p + size gi) d).
  - eexists _, _. split; [done|]. rewrite wrap_id by width. cbn [PlayerCount SelectedGroups]. split_and!; [|lia|lia|done|right; split; [done|lia]].
    destruct Hp as [H1 H2 H3]. constructor; cbn [PlayerCount SelectedGroups].
    + by apply sublist_app.
    + apply Forall_app. split; [done|]. apply Forall_singleton. exists gi. done.
    + rewrite total_app. simpl. lia.
  - eexists _, p. split; [done|]. split_and!; [by apply pool_ok_app|lia|lia| |by left]. intros ?%Z.ltb_ge. split; [done|lia].
Qed.

(** The measure of a pool and a queue: what is taken from the queue counts less in the
    pool. *)
Definition measure_of (l : list Z) (p : SelectionPool) : nat := (2 * length l + length (SelectedGroups p))%nat.

Lemma add_loop_ok d l done p :
  live l -> pool_ok done p -> total (done ++ l) < 2 ^ 32 ->
  exists l1 l2 p', add_loop d gs l p = Ok (l2, p') /\ l = l1 ++ l2 /\ pool_ok (done ++ l1) p' /\
    PlayerCount p <= PlayerCount p' <= Z.max d (PlayerCount p) /\
    (measure_of l2 p' <= measure_of l p)%nat /\ (PlayerCount p' <> PlayerCount p -> (measure_of l2 p' < measure_of l p)%nat).
Proof.
  revert done p. induction l as [|g l IH]; intros dn p Hl Hp Ht; cbn [add_loop].
  { exists [], [], p. rewrite !app_nil_r. split_and!; try done; lia. }
  apply Forall_cons in Hl as [Hg Hl]. rewrite (cons_middle g dn l), app_assoc in Ht.
  assert (total (dn ++ [g]) < 2 ^ 32) as Hg32.
  { rewrite total_app in Ht. pose proof (total_nonneg l). lia. }
  destruct (AddGroup_ok dn g d p Hg Hp Hg32) as (b & p1 & -> & Hp1 & Hc & Hfull & Hsel). cbn [bind_result].
  destruct b.
  - destruct (IH (dn ++ [g]) p1 Hl Hp1 Ht) as (l1 & l2 & p' & -> & -> & Hp' & Hc' & Hm & Hm').
    exists (g :: l1), l2, p'. split; [done|]. split; [done|]. split; [by rewrite <- app_assoc in Hp'|]. split; [lia|].
    unfold measure_of in *. destruct Hsel as [->|[Hs _]]; [cbn [length]; split; intros; lia|].
    rewrite Hs, !length_app in Hm. cbn [length] in *. rewrite length_app. split; intros; lia.
  - destruct (Hfull eq_refl) as [-> _]. exists [], (g :: l), p. rewrite !app_nil_r. split_and!; try done; lia.
Qed.

Lemma fill_loop_ok d l done p :
  live l -> pool_ok done p -> total (done ++ l) < 2 ^ 32 ->
  exists p', fill_loop d gs l p = Ok p' /\ pool_ok (done ++ l) p' /\ PlayerCount p <= PlayerCount p' <= Z.max d (PlayerCount p).
Proof.
  revert done p. induction l as [|g l IH]; intros dn p Hl Hp Ht; cbn [fill_loop].
  { exists p. rewrite app_nil_r. split_and!; try done; lia. }
  apply Forall_cons in Hl as [[gi Hg] Hl]. rewrite (cons_middle g dn l), app_assoc in *. unfold group_at. rewrite Hg. cbn [bind_result].
  destruct (invited gi); [by apply IH, Ht; [|apply pool_ok_app]|].
  assert (total (dn ++ [g]) < 2 ^ 32) as Hg32.
  { rewrite total_app in Ht. pose proof (total_nonneg l). lia. }
  destruct (AddGroup_ok dn g d p (mk_is_Some _ _ Hg) Hp Hg32) as (b & p1 & -> & Hp1 & Hc & _ & _). cbn [bind_result].
  destruct b.
  - destruct (IH (dn ++ [g]) p1 Hl Hp1 Ht) as (p' & -> & Hp' & Hc'). exists p'. split_and!; [done|done|lia|lia].
  - exists p1. split_and!; [done|by apply pool_ok_app|lia|lia].
Qed.

(** ** Kicking *)
Lemma sizes_of_ok l : live l -> sizes_of l gs = Ok (map players_in l).
Proof.
  induction 1 as [|g l [gi Hg] _ IH]; [done|]. cbn [sizes_of]. unfold group_at. rewrite Hg. cbn [bind_result]. rewrite IH.
  cbn. unfold players_in. by rewrite Hg.
Qed.

Lemma kick_loop_bound w sizes i k ks f :
  kick_loop w sizes i k ks f = k \/ (i <= kick_loop w sizes i k ks f < i + length sizes)%nat.
Proof.
  revert i k ks f. induction sizes as [|s sizes IH]; intros i k ks f; cbn [kick_loop length]; [by left|].
  destruct (Z.abs _ <=? 1); [destruct (IH (S i) i s true); lia|].
  destruct (negb f && _); [destruct (IH (S i) i s f); lia|destruct (IH (S i) k ks f); lia].
Qed.

Lemma pool_live l p : pool_ok l p -> live (SelectedGroups p).
Proof. intros [_ H _]. apply (Forall_impl _ _ _ H). intros g (gi & Hg & _). by exists gi. Qed.

Lemma KickGroup_ok done w p :
  pool_ok done p -> total done < 2 ^ 32 ->
  exists b p', SelectionPool_KickGroup w gs p = Ok (b, p') /\ pool_ok done p' /\ 0 <= PlayerCount p' <= PlayerCount p /\
    (PlayerCount p = 0 -> b = true /\ p' = p) /\
    (0 < PlayerCount p -> length (SelectedGroups p) = S (length (SelectedGroups p'))).
Proof.
  intros Hp Ht. unfold SelectionPool_KickGroup. rewrite sizes_of_ok by (by eapply pool_live). cbn [bind_result].
  pose proof (pool_ok_le _ _ Hp) as Hle. destruct (Z.eqb_spec (PlayerCount p) 0) as [E0|Hne].
  { exists true, p. split_and!; try done; lia. }
  set (k := kick_loop _ _ _ _ _ _).
  assert (k < length (SelectedGroups p))%nat as Hk.
  { destruct (SelectedGroups p) as [|g l] eqn:E; [destruct Hp as [_ _ Hc]; rewrite E in Hc; simpl in Hc; lia|].
    destruct (kick_loop_bound w (map players_in (g :: l)) 0 0 (default 0 (head (map players_in (g :: l)))) false) as [Hb|Hb];
      fold k in Hb; rewrite ?length_map in Hb; cbn [length] in *; lia. }
  destruct (lookup_lt_is_Some_2 _ _ Hk) as [g Hg]. rewrite Hg.
  assert (waiting g) as (gi & Hgi & _).
  { destruct Hp as [_ Hw _]. rewrite Forall_forall in Hw. apply Hw. by eapply list_elem_of_lookup_2. }
  unfold group_at. rewrite Hgi. cbn [bind_result]. eexists _, _. split; [done|].
  assert (players_in g = size gi) as E by (unfold players_in; by rewrite Hgi).
  pose proof (total_delete k _ _ Hg) as Hd. destruct Hp as [H1 H2 H3].
  pose proof (total_nonneg (delete k (SelectedGroups p))). pose proof (players_in_nonneg g).
  cbn [PlayerCount SelectedGroups]. rewrite wrap_id by width. split_and!; [|lia|lia|lia|].
  - constructor; cbn [PlayerCount SelectedGroups]; [|by apply Forall_delete|lia].
    transitivity (SelectedGroups p); [apply sublist_delete|done].
  - intros _. rewrite length_delete by done. lia.
Qed.

Lemma normal_loop_ok lo hi l done p :
  live l -> pool_ok done p -> total (done ++ l) < 2 ^ 32 ->
  exists itr p', normal_loop lo hi gs l p = Ok (itr, p') /\ pool_ok (done ++ l) p' /\ PlayerCount p' <= Z.max hi (PlayerCount p) /\
    match itr with
    | [] => PlayerCount p < lo -> PlayerCount p' < lo
    | g :: l' => lo <= PlayerCount p' /\ exists dn, done ++ l = dn ++ l' /\ pool_ok dn p'
    end.
Proof.
  revert done p. induction l as [|g l IH]; intros dn p Hl Hp Ht; cbn [normal_loop].
  { exists [], p. rewrite app_nil_r. split_and!; try done; lia. }
  apply Forall_cons in Hl as [[gi Hg] Hl]. rewrite (cons_middle g dn l), app_assoc in *. unfold group_at. rewrite Hg. cbn [bind_result].
  destruct (invited gi); [by apply IH; [|apply pool_ok_app|]|].
  assert (total (dn ++ [g]) < 2 ^ 32) as Hg32.
  { rewrite total_app in Ht. pose proof (total_nonneg l). lia. }
  destruct (AddGroup_ok dn g hi p (mk_is_Some _ _ Hg) Hp Hg32) as (b & p1 & -> & Hp1 & Hc & _ & _). cbn [bind_result].
  destruct (Z.leb_spec lo (PlayerCount p1)).
  - exists (g :: l), p1. split_and!; [done|by apply pool_ok_app|lia|lia|]. by exists (dn ++ [g]).
  - destruct (IH (dn ++ [g]) p1 Hl Hp1 Ht) as (itr & p' & -> & Hp' & Hc' & Hi). exists itr, p'. split_and!; [done|done|lia|].
    destruct itr; [|done]. intros _. by apply Hi.
Qed.

(** ** Balancing *)

(** A team whose queue is [q]: the pool holds groups from the part that was looked at,
    and no more players than there are free places. *)
Record side_ok (q : list Z) (s : Side) : Prop := {
  side_free : PlayerCount (selected s) <= free s < 2 ^ 31;
  side_total : total q < 2 ^ 31;
  side_live : live q;
  side_pool : exists done, q = done ++ rest s /\ pool_ok done (selected s)
}.

Lemma side_count q s : side_ok q s -> 0 <= PlayerCount (selected s) <= total q.
Proof.
  intros [_ _ _ (dn & -> & Hp)]. pose proof (pool_ok_le _ _ Hp). rewrite total_app. pose proof (total_nonneg (rest s)). lia.
Qed.

Lemma diff_ok q s : side_ok q s -> diff s = free s - PlayerCount (selected s) /\ 0 <= diff s < 2 ^ 31.
Proof.
  intros H. pose proof (side_count _ _ H). destruct H as [Hf Ht _ _]. unfold diff.
  rewrite (swrap_id 32 (PlayerCount _)) by width. rewrite swrap_id by width. lia.
Qed.

Lemma KickGroup_side q w s :
  side_ok q s ->
  exists b p', SelectionPool_KickGroup w gs (selected s) = Ok (b, p') /\ side_ok q (mkSide (free s) (rest s) p') /\
    (PlayerCount (selected s) = 0 -> b = true /\ p' = selected s) /\
    (measure_of (rest s) p' <= measure_of (rest s) (selected s))%nat /\
    (0 < PlayerCount (selected s) -> (measure_of (rest s) p' < measure_of (rest s) (selected s))%nat).
Proof.
  intros [Hf Ht Hl (dn & -> & Hp)].
  destruct (KickGroup_ok dn w (selected s) Hp) as (b & p' & -> & Hp' & Hc & Hz & Hk).
  { rewrite total_app in Ht. pose proof (total_nonneg (rest s)). lia. }
  exists b, p'. pose proof (pool_ok_le _ _ Hp). split_and!; [done| |done| |]; unfold measure_of.
  - constructor; simpl; [lia|done|done|by exists dn].
  - destruct (Z.eq_dec (PlayerCount (selected s)) 0) as [E|]; [destruct (Hz E) as [_ ->]; lia|]. specialize (Hk ltac:(lia)). lia.
  - intros. specialize (Hk ltac:(lia)). lia.
Qed.

Lemma add_loop_side q d s :
  side_ok q s -> d <= free s ->
  exists r p', add_loop d gs (rest s) (selected s) = Ok (r, p') /\ side_ok q (mkSide (free s) r p') /\
    PlayerCount (selected s) <= PlayerCount p' /\
    (measure_of r p' <= measure_of (rest s) (selected s))%nat /\
    (PlayerCount p' <> PlayerCount (selected s) -> (measure_of r p' < measure_of (rest s) (selected s))%nat).
Proof.
  intros [Hf Ht Hl (dn & -> & Hp)] Hd. unfold live in Hl. apply Forall_app in Hl as [Hl1 Hl2].
  destruct (add_loop_ok d (rest s) dn (selected s) Hl2 Hp) as (l1 & l2 & p' & -> & E & Hp' & Hc & Hm & Hm'); [lia|].
  exists l2, p'. split_and!; [done| |lia|done|done]. constructor; simpl; [lia|done|by apply Forall_app|].
  exists (dn ++ l1). split; [by rewrite E, app_assoc|done].
Qed.

Lemma balance_round_ok q q' mine theirs :
  side_ok q mine -> side_ok q' theirs -> diff mine < diff theirs ->
  0 < PlayerCount (selected mine) \/ 0 < PlayerCount (selected theirs) ->
  exists stop mine' theirs', balance_round gs (diff mine) (diff theirs) mine theirs = Ok (stop, mine', theirs') /\
    side_ok q mine' /\ side_ok q' theirs' /\ free mine' = free mine /\ free theirs' = free theirs /\
    if stop : bool then PlayerCount (selected mine') = 0 /\ free mine' <= diff theirs' + 1
    else (side_measure mine' + side_measure theirs' < side_measure mine + side_measure theirs)%nat.
Proof.
  intros Hm Ht Hlt Hpos. unfold balance_round. destruct (diff_ok _ _ Hm) as [Em Hdm]. destruct (diff_ok _ _ Ht) as [Et Hdt].
  set (w := u32 (diff theirs - diff mine)).
  destruct (KickGroup_side q w mine Hm) as (again & p & -> & Hm1 & Hz1 & Hle1 & Hlt1). cbn [bind_result].
  set (d := u32 (if diff theirs <=? free mine then free mine - diff theirs else 0)).
  assert (d <= free mine) as Hd.
  { pose proof (side_free _ _ Hm). pose proof (side_count _ _ Hm). unfold d. destruct (Z.leb_spec (diff theirs) (free mine)); rewrite wrap_id by width; lia. }
  assert (exists r p2, (if again then add_loop d gs (rest mine) p else Ok (rest mine, p)) = Ok (r, p2) /\
            side_ok q (mkSide (free mine) r p2) /\ (measure_of r p2 <= measure_of (rest mine) (selected mine))%nat /\
            (0 < PlayerCount (selected mine) \/ 0 < PlayerCount p2 -> (measure_of r p2 < measure_of (rest mine) (selected mine))%nat))
    as (r & p2 & -> & Hm2 & Hle2 & Hlt2).
  { destruct again.
    - destruct (add_loop_side q d _ Hm1 Hd) as (r & p2 & Hr & Hok & Hc & Hle & Hlt'). cbn [rest selected free] in *.
      exists r, p2. split; [done|]. split; [done|]. split; [lia|]. intros Hor.
      destruct (decide (0 < PlayerCount (selected mine))) as [|Hno]; [specialize (Hlt1 ltac:(done)); lia|].
      pose proof (side_count _ _ Hm). destruct (Hz1 ltac:(lia)) as [_ ->]. apply Hlt'. lia.
    - exists (rest mine), p. split; [done|]. split; [done|]. split; [done|]. intros _. apply Hlt1.
      pose proof (side_count _ _ Hm). destruct (decide (PlayerCount (selected mine) = 0)) as [E0|]; [|lia].
      destruct (Hz1 E0) as [[=] _]. }
  cbn [bind_result]. pose proof (side_count _ _ Hm2) as Hc2. cbn [selected] in Hc2. unfold side_measure. fold (measure_of (rest mine) (selected mine)).
  destruct (Z.eqb_spec (PlayerCount p2) 0) as [E2|].
  - cbn [free]. destruct (Z.leb_spec (free mine) (diff theirs + 1)).
    + eexists _, _, _. split; [done|]. cbn [free selected]. done.
    + destruct (KickGroup_side q' w theirs Ht) as (b & p' & -> & Ht' & _ & Hle3 & Hlt3). cbn [bind_result].
      eexists _, _, _. split; [done|]. cbn [free selected rest]. split_and!; try done.
      fold (measure_of r p2) (measure_of (rest theirs) p') (measure_of (rest theirs) (selected theirs)).
      destruct Hpos as [Hpos|Hpos]; [specialize (Hlt2 (or_introl Hpos)); lia|specialize (Hlt3 Hpos); lia].
  - eexists _, _, _. split; [done|]. cbn [free selected rest]. split_and!; try done.
    fold (measure_of r p2) (measure_of (rest theirs) (selected theirs)). specialize (Hlt2 ltac:(right; lia)). lia.
Qed.

(** What the balancing reaches: as many places left over on both sides, but for one;
    or nobody to invite; or a side with nobody to invite that has no more room for the
    other side's players to wait for. *)
Definition balanced (ali horde : Side) : Prop :=
  Z.abs (diff ali - diff horde) <= 1 \/
  (PlayerCount (selected ali) = 0 /\ PlayerCount (selected horde) = 0) \/
  (PlayerCount (selected ali) = 0 /\ free ali <= diff horde + 1) \/
  (PlayerCount (selected horde) = 0 /\ free horde <= diff ali + 1).

Lemma balance_ok fuel qa qh ali horde :
  side_ok qa ali -> side_ok qh horde -> (side_measure ali + side_measure horde < fuel)%nat ->
  exists ali' horde', balance fuel gs ali horde = Ok (ali', horde') /\ side_ok qa ali' /\ side_ok qh horde' /\
    free ali' = free ali /\ free horde' = free horde /\ balanced ali' horde'.
Proof.
  revert ali horde. induction fuel as [|fuel IH]; intros ali horde Ha Hh Hf; [lia|]. cbn [balance]. cbv zeta.
  pose proof (side_count _ _ Ha) as Hca. pose proof (side_count _ _ Hh) as Hch.
  destruct (Z.ltb_spec 1 (Z.abs (diff ali - diff horde))) as [Habs|]; cbn [andb].
  2: { exists ali, horde. split_and!; try done. left. lia. }
  destruct (Z.ltb_spec 0 (PlayerCount (selected horde))), (Z.ltb_spec 0 (PlayerCount (selected ali))); cbn [orb].
  4: { exists ali, horde. split_and!; try done. right. left. lia. }
  all: destruct (Z.ltb_spec (diff ali) (diff horde)).
  1, 3, 5: destruct (balance_round_ok qa qh ali horde Ha Hh ltac:(lia) ltac:(lia)) as (stop & a' & h' & -> & Ha' & Hh' & Ef & Ef' & Hs);
    cbn [bind_result]; destruct stop.
  1, 3, 5: exists a', h'; split_and!; try done; right; right; left; lia.
  1, 2, 3: destruct (IH a' h' Ha' Hh' ltac:(lia)) as (a2 & h2 & -> & ? & ? & ? & ? & ?); exists a2, h2; split_and!; try done; congruence.
  all: destruct (balance_round_ok qh qa horde ali Hh Ha ltac:(lia) ltac:(lia)) as (stop & h' & a' & -> & Hh' & Ha' & Ef & Ef' & Hs);
    cbn [bind_result]; destruct stop.
  1, 3, 5: exists a', h'; split_and!; try done; right; right; right; lia.
  all: destruct (IH a' h' Ha' Hh' ltac:(lia)) as (a2 & h2 & -> & ? & ? & ? & ? & ?); exists a2, h2; split_and!; try done; congruence.
Qed.

End Pools.

(** ** Running battlegrounds *)

(** The normal queues of a bracket: their groups exist and are not too many. *)
Definition queue_ok (bracket_id kind : Z) (Q : BattlegroundQueue) : Prop :=
  live (groups Q) (queued bracket_id kind Q) /\ total (groups Q) (queued bracket_id kind Q) < 2 ^ 31.

(** The pools of a running battleground are those of two balanced sides. *)
Lemma FillPlayersToBG_ok E bg bracket_id Q :
  queue_ok bracket_id BG_QUEUE_NORMAL_ALLIANCE Q -> queue_ok bracket_id BG_QUEUE_NORMAL_HORDE Q -> counts_ok bg ->
  exists a h, FillPlayersToBG E bg bracket_id (init_pools Q) = Ok (set_pool TEAM_HORDE (selected h) (set_pool TEAM_ALLIANCE (selected a) Q)) /\
    side_ok (groups Q) (queued bracket_id BG_QUEUE_NORMAL_ALLIANCE Q) a /\ side_ok (groups Q) (queued bracket_id BG_QUEUE_NORMAL_HORDE Q) h /\
    free a = GetFreeSlotsForTeam ALLIANCE bg /\ free h = GetFreeSlotsForTeam HORDE bg /\
    (CONFIG_BATTLEGROUND_INVITATION_TYPE E <> 0 -> balanced a h).
Proof.
  intros [Hla Hta] [Hlh Hth] Hc. pose proof (free_ok ALLIANCE bg Hc) as Hfa. pose proof (free_ok HORDE bg Hc) as Hfh.
  set (aF := GetFreeSlotsForTeam ALLIANCE bg) in *. set (hF := GetFreeSlotsForTeam HORDE bg) in *.
  unfold FillPlayersToBG. fold aF hF. rewrite (swrap_id 32 aF), (swrap_id 32 hF), (wrap_id 32 aF), (wrap_id 32 hF) by width.
  change (groups (init_pools Q)) with (groups Q). set (qa := queued bracket_id BG_QUEUE_NORMAL_ALLIANCE Q) in *.
  set (qh := queued bracket_id BG_QUEUE_NORMAL_HORDE Q) in *.
  change (queued bracket_id BG_QUEUE_NORMAL_ALLIANCE (init_pools Q)) with qa. change (queued bracket_id BG_QUEUE_NORMAL_HORDE (init_pools Q)) with qh.
  change (pool TEAM_ALLIANCE (init_pools Q)) with no_pool. change (pool TEAM_HORDE (init_pools Q)) with no_pool.
  assert (Hs : forall q f, live (groups Q) q -> total (groups Q) q < 2 ^ 31 -> 0 <= f < 2 ^ 31 -> side_ok (groups Q) q (mkSide f q no_pool)).
  { intros q f ? ? ?. constructor; cbn; [lia|done|done|]. exists []. split; [done|apply no_pool_ok]. }
  destruct (add_loop_side (groups Q) qa aF _ (Hs qa aF Hla Hta Hfa)) as (ra & pa & Ha & Hsa & _); [cbn; lia|].
  destruct (add_loop_side (groups Q) qh hF _ (Hs qh hF Hlh Hth Hfh)) as (rh & ph & Hh & Hsh & _); [cbn; lia|].
  cbn [rest selected free] in *. rewrite Ha. cbn [bind_result]. rewrite Hh. cbn [bind_result].
  destruct (Z.eqb_spec (CONFIG_BATTLEGROUND_INVITATION_TYPE E) 0) as [|Hne].
  - exists (mkSide aF ra pa), (mkSide hF rh ph). split; [by destruct Q|]. by split_and!.
  - destruct (balance_ok (groups Q) (S (side_measure (mkSide aF ra pa) + side_measure (mkSide hF rh ph))) qa qh _ _ Hsa Hsh)
      as (a & h & -> & Ha' & Hh' & Ef & Ef' & Hb); [lia|]. cbn [bind_result free] in *.
    exists a, h. split; [by destruct Q|]. by split_and!.
Qed.

Lemma side_pool_ok gs q s : side_ok gs q s -> pool_ok gs q (selected s).
Proof. intros [_ _ _ (dn & -> & Hp)]. by apply pool_ok_app. Qed.

(** C26: inviting players to a running battleground always ends. Who is invited waits in
    the team's queue and is taken in its order, and a team gets no more players than it
    has free places; when the server balances the teams, the places left over differ by
    at most one, or nobody can be invited, or one team has nobody to invite and no more
    free places than the other, but for one. *)
Theorem FillPlayersToBG_balances E bg bracket_id Q :
  queue_ok bracket_id BG_QUEUE_NORMAL_ALLIANCE Q -> queue_ok bracket_id BG_QUEUE_NORMAL_HORDE Q -> counts_ok bg ->
  let aliFree := GetFreeSlotsForTeam ALLIANCE bg in
  let hordeFree := GetFreeSlotsForTeam HORDE bg in
  exists pa ph, FillPlayersToBG E bg bracket_id (init_pools Q) = Ok (set_pool TEAM_HORDE ph (set_pool TEAM_ALLIANCE pa Q)) /\
    pool_ok (groups Q) (queued bracket_id BG_QUEUE_NORMAL_ALLIANCE Q) pa /\ pool_ok (groups Q) (queued bracket_id BG_QUEUE_NORMAL_HORDE Q) ph /\
    PlayerCount pa <= aliFree /\ PlayerCount ph <= hordeFree /\
    (CONFIG_BATTLEGROUND_INVITATION_TYPE E <> 0 ->
       let aliLeft := aliFree - PlayerCount pa in
       let hordeLeft := hordeFree - PlayerCount ph in
       Z.abs (aliLeft - hordeLeft) <= 1 \/ (PlayerCount pa = 0 /\ PlayerCount ph = 0) \/
       (PlayerCount pa = 0 /\ aliFree <= hordeLeft + 1) \/ (PlayerCount ph = 0 /\ hordeFree <= aliLeft + 1)).
Proof.
  intros Ha Hh Hc. cbv zeta. destruct (FillPlayersToBG_ok E bg bracket_id Q Ha Hh Hc) as (a & h & -> & Hsa & Hsh & <- & <- & Hb).
  exists (selected a), (selected h). split; [done|]. split_and!; [by apply side_pool_ok|by apply side_pool_ok|apply (side_free _ _ _ Hsa)|apply (side_free _ _ _ Hsh)|].
  intros Hne. specialize (Hb Hne). destruct (diff_ok _ _ _ Hsa) as [Eda _]. destruct (diff_ok _ _ _ Hsh) as [Edh _].
  unfold balanced in Hb. rewrite Eda, Edh in Hb. exact Hb.
Qed.

(** ** New matches *)
Lemma set_pools_twice pa ph pa' ph' Q :
  set_pool TEAM_HORDE ph (set_pool TEAM_ALLIANCE pa (set_pool TEAM_HORDE ph' (set_pool TEAM_ALLIANCE pa' Q))) =
  set_pool TEAM_HORDE ph (set_pool TEAM_ALLIANCE pa Q).
Proof. by destruct Q. Qed.

Lemma may_start_iff E bg_template lo bal pa ph :
  0 <= PlayerCount pa < 2 ^ 31 -> 0 <= PlayerCount ph < 2 ^ 31 -> isTesting E = false -> (bal = true -> enough lo pa ph = true) ->
  may_start E bg_template lo bal pa ph = true <->
    lo <= PlayerCount pa /\ lo <= PlayerCount ph /\ (bal = true -> Z.abs (PlayerCount ph - PlayerCount pa) <= 2).
Proof.
  intros Ha Hh Ht Hb. unfold may_start, enough in *. rewrite Ht, swrap_wrap by width. cbn [andb].
  destruct bal; cbn [andb]; [destruct (Z.ltb_spec 2 (Z.abs (PlayerCount ph - PlayerCount pa)))|].
  - split; [done|]. intros (_ & _ & H'). specialize (H' eq_refl). lia.
  - rewrite andb_true_iff, !Z.leb_le. split; [intros []; split_and!; done|intros (? & ? & _); done].
  - rewrite andb_true_iff, !Z.leb_le. split; [intros []; split_and!; done|intros (? & ? & _); done].
Qed.

(** Where a pool stopped: the groups that follow can still be added. *)
Definition stopped (gs : gmap Z GroupQueueInfo) (lo : Z) (q itr : list Z) (p : SelectionPool) : Prop :=
  match itr with
  | [] => PlayerCount p < lo
  | _ :: l => exists dn, q = dn ++ l /\ pool_ok gs dn p
  end.

Lemma even_out_ok gs lo qa qh ia ih pa ph :
  live gs qa -> live gs qh -> total gs qa < 2 ^ 31 -> total gs qh < 2 ^ 31 -> pool_ok gs qa pa -> pool_ok gs qh ph ->
  enough lo pa ph = true -> stopped gs lo qa ia pa -> stopped gs lo qh ih ph ->
  exists pa' ph', even_out gs ia ih pa ph = Ok (pa', ph') /\ pool_ok gs qa pa' /\ pool_ok gs qh ph' /\ enough lo pa' ph' = true /\
    Z.max (PlayerCount pa') (PlayerCount ph') = Z.max (PlayerCount pa) (PlayerCount ph).
Proof.
  unfold enough. intros Hla Hlh Hta Hth Hpa Hph [He1%Z.leb_le He2%Z.leb_le]%andb_true_iff Hia Hih. unfold even_out.
  destruct (Z.ltb_spec (PlayerCount ph) (PlayerCount pa)).
  - destruct ih as [|g l]; cbn [stopped] in Hih; [lia|]. destruct Hih as (dn & -> & Hp). unfold live in Hlh. apply Forall_app in Hlh as [_ Hl].
    destruct (fill_loop_ok gs (PlayerCount pa) l dn ph Hl Hp) as (p' & -> & Hp' & Hc); [lia|]. cbn [bind_result].
    exists pa, p'. split_and!; try done; [|lia]. apply andb_true_iff. rewrite !Z.leb_le. lia.
  - destruct ia as [|g l]; cbn [stopped] in Hia; [lia|]. destruct Hia as (dn & -> & Hp). unfold live in Hla. apply Forall_app in Hla as [_ Hl].
    destruct (fill_loop_ok gs (PlayerCount ph) l dn pa Hl Hp) as (p' & -> & Hp' & Hc); [lia|]. cbn [bind_result].
    exists p', ph. split_and!; try done; [|lia]. apply andb_true_iff. rewrite !Z.leb_le. lia.
Qed.

(** A match is started, outside of testing, exactly if both teams have enough
    players, at least one, and, when the server balances the teams, they differ by two at most. The
    teams are groups that wait in their queues, taken in order, and are never larger
    than a team may be. *)
Theorem CheckNormalMatch_fair E bg_template bracket_id minPlayers maxPlayers Q :
  queue_ok bracket_id BG_QUEUE_NORMAL_ALLIANCE Q -> queue_ok bracket_id BG_QUEUE_NORMAL_HORDE Q -> 1 <= minPlayers ->
  exists start pa ph,
    CheckNormalMatch E bg_template bracket_id minPlayers maxPlayers (init_pools Q) =
      Ok (start, set_pool TEAM_HORDE ph (set_pool TEAM_ALLIANCE pa Q)) /\
    pool_ok (groups Q) (queued bracket_id BG_QUEUE_NORMAL_ALLIANCE Q) pa /\ pool_ok (groups Q) (queued bracket_id BG_QUEUE_NORMAL_HORDE Q) ph /\
    PlayerCount pa <= Z.max 0 maxPlayers /\ PlayerCount ph <= Z.max 0 maxPlayers /\
    (isTesting E = false ->
       start = true <-> minPlayers <= PlayerCount pa /\ minPlayers <= PlayerCount ph /\
         (CONFIG_BATTLEGROUND_INVITATION_TYPE E <> 0 -> Z.abs (PlayerCount ph - PlayerCount pa) <= 2)).
Proof.
  intros [Hla Hta] [Hlh Hth] Hmin. unfold CheckNormalMatch. cbv zeta. change (groups (init_pools Q)) with (groups Q).
  set (gs := groups Q) in *. set (qa := queued bracket_id BG_QUEUE_NORMAL_ALLIANCE Q) in *. set (qh := queued bracket_id BG_QUEUE_NORMAL_HORDE Q) in *.
  change (queued bracket_id BG_QUEUE_NORMAL_ALLIANCE (init_pools Q)) with qa. change (queued bracket_id BG_QUEUE_NORMAL_HORDE (init_pools Q)) with qh.
  change (pool TEAM_ALLIANCE (init_pools Q)) with no_pool. change (pool TEAM_HORDE (init_pools Q)) with no_pool.
  destruct (normal_loop_ok gs minPlayers maxPlayers qa [] no_pool Hla (no_pool_ok _ _)) as (ia & pa & -> & Hpa & Hca & Hia); [simpl; lia|].
  cbn [bind_result].
  destruct (normal_loop_ok gs minPlayers maxPlayers qh [] no_pool Hlh (no_pool_ok _ _)) as (ih & ph & -> & Hph & Hch & Hih); [simpl; lia|].
  cbn [bind_result app PlayerCount no_pool] in *. unfold init_pools.
  set (bal := negb _ && enough minPlayers pa ph).
  assert (exists pa' ph', (if bal then even_out gs ia ih pa ph else Ok (pa, ph)) = Ok (pa', ph') /\ pool_ok gs qa pa' /\ pool_ok gs qh ph' /\
    (bal = true -> enough minPlayers pa' ph' = true) /\ (bal = false -> pa' = pa /\ ph' = ph) /\
    Z.max (PlayerCount pa') (PlayerCount ph') = Z.max (PlayerCount pa) (PlayerCount ph)) as (pa' & ph' & -> & Hpa' & Hph' & Hen & Hsame & Hmax).
  { destruct bal eqn:Eb; [|exists pa, ph; done]. apply andb_true_iff in Eb as [_ He].
    destruct (even_out_ok gs minPlayers qa qh ia ih pa ph) as (pa' & ph' & ? & ? & ? & ? & ?); try done.
    - unfold stopped. destruct ia; [apply Hia; cbn; lia|]. apply Hia.
    - unfold stopped. destruct ih; [apply Hih; cbn; lia|]. apply Hih.
    - exists pa', ph'. done. }
  cbn [bind_result]. rewrite set_pools_twice. pose proof (pool_ok_le _ _ _ Hpa'). pose proof (pool_ok_le _ _ _ Hph').
  eexists _, pa', ph'. split; [done|]. split_and!; [done|done|lia|lia|]. intros Ht.
  rewrite may_start_iff by (done || lia). assert (bal = true <-> CONFIG_BATTLEGROUND_INVITATION_TYPE E <> 0 /\ enough minPlayers pa ph = true) as Hbal.
  { unfold bal. by rewrite andb_true_iff, negb_true_iff, Z.eqb_neq. }
  unfold enough in *. rewrite andb_true_iff, !Z.leb_le in *. destruct bal; [specialize (Hen eq_refl); tauto|].
  destruct (Hsame eq_refl) as [-> ->]. split; [intros (? & ? & _)|intros (? & ? & ?)]; split_and!; try done.
  intros Hne. destruct Hbal as [_ Hb]. discriminate Hb. done.
Qed.

(** ** Skirmishes within a faction *)
Lemma position_app x l1 l2 : x ∉ l1 -> position x (l1 ++ x :: l2) = Some (length l1).
Proof.
  induction l1 as [|y l1 IH]; intros Hx; cbn; [by rewrite Z.eqb_refl|].
  apply not_elem_of_cons in Hx as [Hne Hx]. rewrite (proj2 (Z.eqb_neq y x)) by done. by rewrite IH.
Qed.

Lemma NoDup_middle (l1 : list Z) x l2 : NoDup (l1 ++ x :: l2) -> x ∉ l1.
Proof. intros H Hx. apply NoDup_app in H as (_ & H & _). apply (H x Hx). by left. Qed.

Lemma queued_set b k l b' k' Q : queued b' k' (set_queued b k l Q) = if decide ((b, k) = (b', k')) then l else queued b' k' Q.
Proof.
  unfold queued, set_queued. destruct Q. cbn. case_decide as E; [rewrite E; by rewrite lookup_insert_eq|by rewrite lookup_insert_ne].
Qed.

(** The team whose pool is full enough, the other team and its faction. *)
Definition skirmish_team (m : Z) (Q : BattlegroundQueue) : Z * Z * Z :=
  if PlayerCount (pool TEAM_HORDE Q) =? m then (TEAM_HORDE, TEAM_ALLIANCE, ALLIANCE) else (TEAM_ALLIANCE, TEAM_HORDE, HORDE).

Lemma pool_set_same team p Q : team = TEAM_ALLIANCE \/ team = TEAM_HORDE -> pool team (set_pool team p Q) = p.
Proof. by intros [-> | ->]. Qed.

Lemma move_skirmish_eq b t o oid i g gi Q before l1 l2 :
  t <> o -> groups Q !! g = Some gi -> queued b (BG_QUEUE_NORMAL_ALLIANCE + t) Q = before ++ l1 ++ g :: l2 ->
  length before = S i -> g ∉ l1 ->
  move_skirmish b t o oid i true [g] Q =
    Ok (erase_at b (BG_QUEUE_NORMAL_ALLIANCE + t) (length before + length l1)
          (push_front b (BG_QUEUE_NORMAL_ALLIANCE + o) g (set_group g (set_Team oid gi) Q))).
Proof.
  intros Hne Hg Hq Hlen Hn. cbn [move_skirmish]. unfold group_at. rewrite Hg. cbn [bind_result negb].
  set (Q1 := push_front _ _ _ _).
  assert (queued b (BG_QUEUE_NORMAL_ALLIANCE + t) Q1 = before ++ l1 ++ g :: l2) as Hq1.
  { unfold Q1, push_front. rewrite queued_set, decide_False by (intros [=]; lia). by destruct Q. }
  rewrite Hq1, <- Hlen, drop_app_length, position_app by done. done.
Qed.

Lemma move_skirmish_one b t o oid i g gi Q before l1 l2 :
  t <> o -> groups Q !! g = Some gi -> queued b (BG_QUEUE_NORMAL_ALLIANCE + t) Q = before ++ l1 ++ g :: l2 ->
  length before = S i -> g ∉ l1 ->
  exists Q', move_skirmish b t o oid i true [g] Q = Ok Q' /\
    queued b (BG_QUEUE_NORMAL_ALLIANCE + t) Q' = before ++ l1 ++ l2 /\
    queued b (BG_QUEUE_NORMAL_ALLIANCE + o) Q' = g :: queued b (BG_QUEUE_NORMAL_ALLIANCE + o) Q /\
    groups Q' = <[g := set_Team oid gi]> (groups Q) /\ pool t Q' = pool t Q /\ pool o Q' = pool o Q.
Proof.
  intros Hne Hg Hq Hlen Hn. rewrite (move_skirmish_eq _ _ _ _ _ _ gi _ before l1 l2) by done. eexists. split; [done|].
  set (Q1 := push_front _ _ _ _).
  assert (queued b (BG_QUEUE_NORMAL_ALLIANCE + t) Q1 = before ++ l1 ++ g :: l2) as Hq1.
  { unfold Q1, push_front. rewrite queued_set, decide_False by (intros [=]; lia). by destruct Q. }
  unfold erase_at at 1 2. rewrite !queued_set, decide_True, Hq1 by done. rewrite decide_False by (intros [=]; lia). split_and!.
  - rewrite !app_assoc, <- length_app. apply delete_middle.
  - unfold Q1, push_front. rewrite queued_set, decide_True by done. by destruct Q.
  - by destruct Q.
  - by destruct Q.
  - by destruct Q.
Qed.

Lemma move_skirmish_two b t o oid i g1 g2 s Q before l1 l2 :
  t <> o -> is_Some (groups Q !! g1) -> is_Some (groups Q !! g2) -> queued b (BG_QUEUE_NORMAL_ALLIANCE + t) Q = before ++ l1 ++ g1 :: l2 ->
  length before = S i -> g1 ∉ l1 -> g2 ∈ l2 ->
  move_skirmish b t o oid i true (g1 :: g2 :: s) Q = Throw InvalidatedIterator.
Proof.
  intros Hne [gi1 Hg1] Hg2 Hq Hlen Hn Hin. cbn [move_skirmish]. unfold group_at at 1. rewrite Hg1. cbn [bind_result negb].
  set (Q1 := push_front _ _ _ _).
  assert (queued b (BG_QUEUE_NORMAL_ALLIANCE + t) Q1 = before ++ l1 ++ g1 :: l2) as Hq1.
  { unfold Q1, push_front. rewrite queued_set, decide_False by (intros [=]; lia). by destruct Q. }
  rewrite Hq1, <- Hlen, drop_app_length, position_app by done.
  assert (is_Some (groups (erase_at b (BG_QUEUE_NORMAL_ALLIANCE + t) (length before + length l1) Q1) !! g2)) as [gi2 Hg2'].
  { unfold Q1, erase_at, push_front. destruct Q. cbn in *. destruct (decide (g1 = g2)) as [->|]; [by rewrite lookup_insert_eq|by rewrite lookup_insert_ne]. }
  unfold group_at. rewrite Hg2'. cbn [bind_result].
  destruct (Nat.eqb_spec (length before + length l1) (length (before ++ l1 ++ g1 :: l2) - 1)) as [E|]; [|done].
  rewrite !length_app in E. cbn [length] in E. destruct l2; [by apply not_elem_of_nil in Hin|]. cbn [length] in E. lia.
Qed.

Lemma position_elem x l : x ∈ l -> exists l1 l2, l = l1 ++ (x :: l2) /\ (x ∉ l1) /\ position x l = Some (length l1).
Proof.
  intros Hx. destruct (list_elem_of_split_l l x Hx) as (l1 & l2 & -> & Hn). exists l1, l2. split_and!; [done|done|by apply position_app].
Qed.

Lemma sublist_two (g1 g2 : Z) s l : g1 :: g2 :: s `sublist_of` l -> exists l1 l2, l = l1 ++ g1 :: l2 /\ g2 ∈ l2.
Proof.
  intros (l1 & l2 & -> & H)%sublist_cons_l. exists l1, l2. split; [done|]. apply (sublist_subseteq _ _ H). by left.
Qed.

(** Players of one faction can be matched in a skirmish only if the opponents are one
    group: with exactly enough players in one group it changes its team and moves to the
    front of the other team's queue; with two groups or more the loop that moves them
    goes on from an iterator that erasing the first one has invalidated. Otherwise
    nothing is moved. *)
Theorem CheckSkirmish_outcome b m Q :
  let '(t, o, oid) := skirmish_team m Q in
  let q := queued b (BG_QUEUE_NORMAL_ALLIANCE + t) Q in
  let gs := groups Q in
  live gs q -> NoDup q -> total gs q < 2 ^ 31 -> pool_ok gs q (pool t Q) -> 1 <= m <= PlayerCount (pool t Q) ->
  exists before after p, q = before ++ after /\ last before = last (SelectedGroups (pool t Q)) /\ pool_ok gs after p /\ PlayerCount p <= m /\
    if decide (PlayerCount p = m) then
      match SelectedGroups p with
      | [g] =>
          exists Q' l1 l2, CheckSkirmishForSameFaction b m Q = Ok (true, Q') /\ after = l1 ++ g :: l2 /\
            queued b (BG_QUEUE_NORMAL_ALLIANCE + t) Q' = before ++ l1 ++ l2 /\
            queued b (BG_QUEUE_NORMAL_ALLIANCE + o) Q' = g :: queued b (BG_QUEUE_NORMAL_ALLIANCE + o) Q /\
            Team <$> groups Q' !! g = Some oid /\ pool t Q' = pool t Q /\ pool o Q' = p
      | _ => CheckSkirmishForSameFaction b m Q = Throw InvalidatedIterator
      end
    else CheckSkirmishForSameFaction b m Q = Ok (false, set_pool o p Q).
Proof.
  unfold skirmish_team, CheckSkirmishForSameFaction. set (h := PlayerCount (pool TEAM_HORDE Q) =? m).
  set (t := if h then TEAM_HORDE else TEAM_ALLIANCE). set (o := if h then TEAM_ALLIANCE else TEAM_HORDE).
  set (oid := if h then ALLIANCE else HORDE).
  assert ((if h then (TEAM_HORDE, TEAM_ALLIANCE, ALLIANCE) else (TEAM_ALLIANCE, TEAM_HORDE, HORDE)) = (t, o, oid)) as ->
    by (unfold t, o, oid; by destruct h).
  cbn iota zeta. set (q := queued b (BG_QUEUE_NORMAL_ALLIANCE + t) Q). set (gs := groups Q).
  assert (t <> o) as Hto by (unfold t, o; by destruct h).
  assert (Ht : t = TEAM_ALLIANCE \/ t = TEAM_HORDE) by (unfold t; destruct h; auto).
  assert (Ho : o = TEAM_ALLIANCE \/ o = TEAM_HORDE) by (unfold o; destruct h; auto).
  clearbody t o oid. intros Hl Hnd Htot Hp Hm.
  assert ((PlayerCount (pool TEAM_ALLIANCE Q) <? m) && (PlayerCount (pool TEAM_HORDE Q) <? m) = false) as ->.
  { apply andb_false_iff. rewrite !Z.ltb_ge. destruct Ht as [-> | ->]; lia. }
  set (Q1 := set_pool o _ Q).
  assert (pool t Q1 = pool t Q) as E1 by (unfold Q1; destruct Ht as [-> | ->], Ho as [-> | ->]; done).
  assert (pool o Q1 = no_pool) as E2 by (unfold Q1; by apply pool_set_same).
  assert (queued b (BG_QUEUE_NORMAL_ALLIANCE + t) Q1 = q) as E3 by (unfold Q1; destruct Ho as [-> | ->]; done).
  rewrite E1, E2, E3. destruct (last (SelectedGroups (pool t Q))) as [ginfo|] eqn:El.
  2: { apply last_None in El. destruct Hp as [_ _ Hc]. rewrite El in Hc. simpl in Hc. lia. }
  assert (ginfo ∈ q) as Hin. { apply (sublist_subseteq _ _ (pool_sublist _ _ _ Hp)). by apply last_Some_elem_of. }
  destruct (position_elem _ _ Hin) as (b1 & after & Eq & Hn & ->).
  assert (q = (b1 ++ [ginfo]) ++ after) as Eq' by (by rewrite Eq, <- app_assoc).
  assert (drop (S (length b1)) q = after) as -> by (rewrite Eq', drop_app; rewrite drop_ge by (rewrite length_app; cbn; lia);
    rewrite length_app; cbn [length]; replace (S (length b1) - (length b1 + 1))%nat with 0%nat by lia; done).
  unfold live in Hl. rewrite Eq' in Hl. apply Forall_app in Hl as [_ Hla].
  assert (total gs after < 2 ^ 31) as Hta. { rewrite Eq', total_app in Htot. pose proof (total_nonneg gs (b1 ++ [ginfo])). lia. }
  destruct (fill_loop_ok gs m after [] no_pool Hla (no_pool_ok _ _)) as (p & -> & Hpp & Hpc); [cbn [app]; lia|]. cbn [bind_result app] in *.
  exists (b1 ++ [ginfo]), after, p. split; [done|]. split; [by rewrite last_snoc|]. split; [done|]. split; [cbn in Hpc; lia|].
  assert (set_pool o p Q1 = set_pool o p Q) as -> by (unfold Q1; destruct Ho as [-> | ->]; by destruct Q).
  case_decide as Em; [rewrite Em, Z.eqb_refl|by rewrite (proj2 (Z.eqb_neq _ _)) by done]. cbn [negb].
  assert (Hq : queued b (BG_QUEUE_NORMAL_ALLIANCE + t) (set_pool o p Q) = q) by (destruct Ho as [-> | ->]; done).
  assert (Hg : groups (set_pool o p Q) = gs) by (destruct Ho as [-> | ->]; done).
  assert (NoDup after) as Hnda by (rewrite Eq' in Hnd; by apply NoDup_app in Hnd as (_ & _ & ?)).
  pose proof (pool_sublist _ _ _ Hpp) as Hsub. pose proof (pool_live _ _ _ Hpp) as Hlive.
  destruct (SelectedGroups p) as [|g1 [|g2 s]] eqn:Es.
  - destruct Hpp as [_ _ Hc]. rewrite Es in Hc. simpl in Hc. lia.
  - destruct (position_elem g1 after) as (l1 & l2 & Ea & Hn1 & _). { apply (sublist_subseteq _ _ Hsub). by left. }
    unfold live in Hlive. rewrite Forall_singleton in Hlive. destruct Hlive as [gi Hgi].
    destruct (move_skirmish_one b t o oid (length b1) g1 gi (set_pool o p Q) (b1 ++ [ginfo]) l1 l2 Hto) as (Q' & -> & H1 & H2 & H3 & H4 & H5);
      [by rewrite Hg|by rewrite Hq, Eq', Ea|by rewrite length_app; cbn; lia|done|].
    cbn [bind_result]. exists Q', l1, l2. split_and!; try done.
    + rewrite H2. by destruct Ho as [-> | ->].
    + rewrite H3, lookup_insert_eq. done.
    + rewrite H4. destruct Ht as [-> | ->], Ho as [-> | ->]; done.
    + rewrite H5. by apply pool_set_same.
  - destruct (sublist_two _ _ _ _ Hsub) as (l1 & l2 & Ea & Hin2). unfold live in Hlive. apply Forall_cons in Hlive as [Hl1 [Hl2 _]%Forall_cons].
    rewrite (move_skirmish_two b t o oid (length b1) g1 g2 s (set_pool o p Q) (b1 ++ [ginfo]) l1 l2); rewrite ?Hg; try done.
    + by rewrite Hq, Eq', Ea.
    + rewrite length_app. cbn. lia.
    + rewrite Ea in Hnda. by apply NoDup_middle in Hnda.
Qed.

(** ** Examples *)
Definition sample_env : Env :=
  mkEnv 100000 false false false false false 1 1800000 150 600000 (fun _ b => Some (mkEntry b 10 19)) (fun _ _ => Some (mkEntry 0 10 19))
    [(BATTLEGROUND_NA, 1)] [(BATTLEGROUND_WS, 1)] (fun _ => 0) (fun _ => None) InstanceIds.grow64.
Definition sample_group (t : Z) (ps : list Z) : GroupQueueInfo := mkGroup ps t BATTLEGROUND_WS false 0 0 90000 0 0 0 0 0 0.

(** Alliance: a pair and five single players; horde: three, a pair and a single player. *)
Definition sample_queue : BattlegroundQueue :=
  mkQueue ∅ (<[(0, 2) := [1; 2; 3; 4; 5; 6]]> (<[(0, 3) := [7; 8; 9]]> ∅))
    (list_to_map [(1, sample_group ALLIANCE [11; 12]); (2, sample_group ALLIANCE [13]); (3, sample_group ALLIANCE [14]);
       (4, sample_group ALLIANCE [15]); (5, sample_group ALLIANCE [16]); (6, sample_group ALLIANCE [17]);
       (7, sample_group HORDE [21; 22; 23]); (8, sample_group HORDE [24; 25]); (9, sample_group HORDE [26])])
    10 no_pool no_pool ∅ 0 [].

(** The battleground of [sample_bg] before its start, with room for two and four. *)
Definition sample_open : Battleground := set_invited 8 6 (SetStatus STATUS_WAIT_JOIN sample_bg).
Definition pools_of (r : result fault BattlegroundQueue) : list Z * list Z :=
  match r with Ok Q => (SelectedGroups (pool TEAM_ALLIANCE Q), SelectedGroups (pool TEAM_HORDE Q)) | Throw _ => ([], []) end.

Lemma sample_queue_ok k : k = BG_QUEUE_NORMAL_ALLIANCE \/ k = BG_QUEUE_NORMAL_HORDE -> queue_ok 0 k sample_queue.
Proof. intros [-> | ->]; (split; [repeat constructor; vm_compute; eexists; reflexivity|vm_compute; reflexivity]). Qed.

Lemma FillPlayersToBG_balances_witness :
  pools_of (FillPlayersToBG sample_env sample_open 0 (init_pools sample_queue)) = ([1], [7; 9]) /\
  exists pa ph, FillPlayersToBG sample_env sample_open 0 (init_pools sample_queue) =
      Ok (set_pool TEAM_HORDE ph (set_pool TEAM_ALLIANCE pa sample_queue)) /\
    PlayerCount pa <= 2 /\ PlayerCount ph <= 4.
Proof.
  split; [vm_compute; reflexivity|].
  destruct (FillPlayersToBG_balances sample_env sample_open 0 sample_queue) as (pa & ph & H & _ & _ & H1 & H2 & _).
  - apply sample_queue_ok. by left.
  - apply sample_queue_ok. by right.
  - vm_compute. repeat split; congruence.
  - exists pa, ph. split; [exact H|]. split; [exact H1|exact H2].
Defined.

Lemma CheckNormalMatch_fair_witness :
  exists pa ph, CheckNormalMatch sample_env sample_bg 0 5 10 (init_pools sample_queue) =
    Ok (true, set_pool TEAM_HORDE ph (set_pool TEAM_ALLIANCE pa sample_queue)) /\ 5 <= PlayerCount pa /\ Z.abs (PlayerCount ph - PlayerCount pa) <= 2.
Proof.
  destruct (CheckNormalMatch_fair sample_env sample_bg 0 5 10 sample_queue) as (b & pa & ph & H & _ & _ & _ & _ & Hiff).
  - apply sample_queue_ok. by left.
  - apply sample_queue_ok. by right.
  - lia.
  - assert (b = true) as ->.
    { assert (match CheckNormalMatch sample_env sample_bg 0 5 10 (init_pools sample_queue) with Ok (s, _) => s | Throw _ => false end = true) as E
        by (vm_compute; reflexivity). rewrite H in E. exact E. }
    exists pa, ph. destruct (Hiff eq_refl) as [Hs _]. destruct (Hs eq_refl) as (H1 & H2 & H3).
    split; [exact H|]. split; [exact H1|]. apply H3. discriminate.
Defined.

(** Three groups of hordes want a skirmish of two against two. *)
Definition sample_skirmish (third : list (Z * GroupQueueInfo)) : BattlegroundQueue :=
  mkQueue ∅ (<[(0, 3) := 1 :: third.*1]> ∅) (list_to_map ((1, sample_group HORDE [11; 12]) :: third)) 10 no_pool (mkPool [1] 2) ∅ 0 [].
Definition sample_pair : BattlegroundQueue := sample_skirmish [(2, sample_group HORDE [13; 14])].
Definition sample_singles : BattlegroundQueue := sample_skirmish [(2, sample_group HORDE [13]); (3, sample_group HORDE [14])].

Example singles_use_invalid_iterator : CheckSkirmishForSameFaction 0 2 sample_singles = Throw InvalidatedIterator.
Proof. vm_compute. reflexivity. Qed.

Lemma CheckSkirmish_outcome_witness :
  exists Q', CheckSkirmishForSameFaction 0 2 sample_pair = Ok (true, Q') /\ queued 0 BG_QUEUE_NORMAL_ALLIANCE Q' = [2].
Proof.
  pose proof (CheckSkirmish_outcome 0 2 sample_pair) as H. unfold skirmish_team in H.
  assert ((PlayerCount (pool TEAM_HORDE sample_pair) =? 2) = true) as E by reflexivity. rewrite E in H. clear E.
  destruct H as (before & after & p & Eq & El & Hp & Hc & H).
  - repeat constructor; vm_compute; eexists; reflexivity.
  - apply (bool_decide_unpack _). vm_compute. exact I.
  - vm_compute. reflexivity.
  - constructor; [apply sublist_skip, sublist_nil_l| |reflexivity]. repeat constructor. eexists. split; vm_compute; reflexivity.
  - vm_compute. split; congruence.
  - assert (before = [1] /\ after = [2]) as [-> ->].
    { destruct before as [|x before]; [done|]. vm_compute in Eq. injection Eq as <- Eq. destruct before as [|y before]; [done|].
      injection Eq as <- Eq. destruct before; [|done]. discriminate El. }
    assert (exists Q', CheckSkirmishForSameFaction 0 2 sample_pair = Ok (true, Q')) as [Q1 E1] by (eexists; vm_compute; reflexivity).
    case_decide; [|congruence]. destruct (SelectedGroups p) as [|g [|]]; [congruence| |congruence].
    destruct H as (Q' & l1 & l2 & HQ & Ea & _ & H2 & _). destruct l1 as [|? []]; [|discriminate|discriminate]. injection Ea as <- <-.
    exists Q'. split; [exact HQ|exact H2].
Defined.

(** With arena testing on, a match needs one player a team: two hordes who queue
    together are too many, and the queue looks for the last group of an empty pool. *)
Definition testing_env : Env :=
  mkEnv 100000 false true false false false 1 1800000 150 600000 (fun _ b => Some (mkEntry b 10 19)) (fun _ _ => Some (mkEntry 0 10 19))
    [(BATTLEGROUND_NA, 1)] [(BATTLEGROUND_WS, 1)] (fun _ => 0) (fun _ => None) InstanceIds.grow64.
Definition sample_arena : Battleground :=
  mkBattleground [] BATTLEGROUND_AA BATTLEGROUND_AA 0 0 0 STATUS_NONE 0 true false false 559 10 80 2 5 10 0 0 (0, 0) 0 0 0 false (0, 0) (0, 0).
Definition arena_realm : Realm :=
  mkRealm {[ 0 := sample_arena ]} 1 [(BATTLEGROUND_AA, mkData [(0, 0)] ∅ [])] [] InstanceIds.started ∅ [].
Example testing_empty_pool :
  BattlegroundQueueUpdate testing_env BATTLEGROUND_AA 0 ARENA_TYPE_2v2 false 0 (sample_skirmish []) arena_realm = Throw EmptyPool.
Proof. vm_compute. reflexivity. Qed.

End BattlegroundMatch.
