(* ===== verification/BattlegroundJoin.v ===== *)
(** * BattlegroundWorld: the queues over time

    The theorems on [BattlegroundQueue] over every sequence of operations: the
    invariants of the queues, that no deleted group or battleground is used, and what
    leaving a queue does. *)
From S2P Require Import Prelude OrderedMap InstanceIds Battleground BattlegroundRegistry BattlegroundQueue BattlegroundMatch.
From Stdlib Require Import Sorting.Sorted.
Import Battleground BattlegroundRegistry BattlegroundQueue BattlegroundMatch.
#[global] Open Scope Z_scope.

Module BattlegroundJoin.

(** ** The invariant of a queue *)

(** The players and the groups: a player in the queue is a member of his group, a
    member of a group is in the queue with it, and a group has members. *)
Record store_wf (ps : gmap Z PlayerQueueInfo) (gs : gmap Z GroupQueueInfo) (next : Z) : Prop := {
  wf_player p info : ps !! p = Some info -> exists g, gs !! GroupInfo info = Some g /\ p ∈ Players g;
  wf_member ptr g p : gs !! ptr = Some g -> p ∈ Players g -> GroupInfo <$> ps !! p = Some ptr;
  wf_members ptr g : gs !! ptr = Some g -> Players g <> [] /\ StronglySorted Z.lt (Players g);
  wf_next ptr : is_Some (gs !! ptr) -> ptr < next
}.

(** The places: every group that exists is in one queue, once, and those in the queues
    exist. *)
Record place_wf (qs : gmap (Z * Z) (list Z)) (gs : gmap Z GroupQueueInfo) : Prop := {
  wf_once b k : NoDup (default [] (qs !! (b, k)));
  wf_place b k ptr : ptr ∈ default [] (qs !! (b, k)) -> 0 <= b < MAX_BATTLEGROUND_BRACKETS /\ 0 <= k < 4 /\ is_Some (gs !! ptr);
  wf_one b k b' k' ptr : ptr ∈ default [] (qs !! (b, k)) -> ptr ∈ default [] (qs !! (b', k')) -> b' = b /\ k' = k;
  wf_placed ptr : is_Some (gs !! ptr) -> exists b k, ptr ∈ default [] (qs !! (b, k))
}.

(** The faction of the groups in a queue of a kind. *)
Definition faction (k : Z) : Z := if Z.odd k then HORDE else ALLIANCE.
Definition team_wf (qs : gmap (Z * Z) (list Z)) (gs : gmap Z GroupQueueInfo) : Prop :=
  forall b k ptr g, ptr ∈ default [] (qs !! (b, k)) -> gs !! ptr = Some g -> Team g = faction k.

Record queue_wf (Q : BattlegroundQueue) : Prop := {
  queue_store : store_wf (m_QueuedPlayers Q) (groups Q) (next_group Q);
  queue_place : place_wf (m_QueuedGroups Q) (groups Q);
  queue_team : team_wf (m_QueuedGroups Q) (groups Q)
}.

(** What the invariant is about is the same. *)
Definition same_groups (Q Q' : BattlegroundQueue) : Prop :=
  m_QueuedPlayers Q' = m_QueuedPlayers Q /\ m_QueuedGroups Q' = m_QueuedGroups Q /\ groups Q' = groups Q /\ next_group Q' = next_group Q.
#[global] Instance same_groups_refl : Reflexive same_groups.
Proof. done. Qed.
#[global] Instance same_groups_trans : Transitive same_groups.
Proof. intros Q1 Q2 Q3 (? & ? & ? & ?) (? & ? & ? & ?). repeat split; congruence. Qed.
Lemma same_groups_wf Q Q' : same_groups Q Q' -> queue_wf Q -> queue_wf Q'.
Proof. intros (E1 & E2 & E3 & E4) []. by constructor; rewrite ?E1, ?E2, ?E3, ?E4. Qed.

(** A group changed but for its members. *)
Lemma store_wf_set ps gs next ptr g g' :
  store_wf ps gs next -> gs !! ptr = Some g -> Players g' = Players g -> store_wf ps (<[ptr := g']> gs) next.
Proof.
  intros [H1 H2 H3 H4] Hg E. constructor.
  - intros p info Hp. destruct (H1 p info Hp) as (g0 & Hg0 & Hin). destruct (decide (GroupInfo info = ptr)) as [<-|].
    + rewrite lookup_insert_eq. exists g'. split; [done|]. rewrite E. congruence.
    + rewrite lookup_insert_ne by done. by exists g0.
  - intros p0 g0 p. destruct (decide (p0 = ptr)) as [->|].
    + rewrite lookup_insert_eq. intros [= <-]. rewrite E. by apply H2.
    + rewrite lookup_insert_ne by done. by apply H2.
  - intros p0 g0. destruct (decide (p0 = ptr)) as [->|].
    + rewrite lookup_insert_eq. intros [= <-]. rewrite E. by apply (H3 ptr).
    + rewrite lookup_insert_ne by done. by apply H3.
  - intros p0 Hp0. apply H4. destruct (decide (p0 = ptr)) as [->|]; [by rewrite Hg|by rewrite lookup_insert_ne in Hp0].
Qed.

Lemma is_Some_insert (gs : gmap Z GroupQueueInfo) ptr g p : is_Some (gs !! ptr) -> is_Some (<[ptr := g]> gs !! p) <-> is_Some (gs !! p).
Proof.
  intros Hg. destruct (decide (p = ptr)) as [->|]; [rewrite lookup_insert_eq; split; intros; [done|by exists g]|by rewrite lookup_insert_ne].
Qed.

Lemma place_wf_set qs gs ptr g : place_wf qs gs -> is_Some (gs !! ptr) -> place_wf qs (<[ptr := g]> gs).
Proof.
  intros [H1 H2 H3 H4] Hg. constructor; auto.
  - intros b k p Hp. rewrite is_Some_insert by done. by apply H2.
  - intros p. rewrite is_Some_insert by done. apply H4.
Qed.

Lemma team_wf_set qs gs ptr g g' : team_wf qs gs -> gs !! ptr = Some g -> Team g' = Team g -> team_wf qs (<[ptr := g']> gs).
Proof.
  intros H Hg E b k p g0 Hin. destruct (decide (p = ptr)) as [->|]; [|rewrite lookup_insert_ne by done; by apply (H b k p)].
  rewrite lookup_insert_eq. intros [= <-]. rewrite E. by apply (H b k ptr).
Qed.

Lemma queue_wf_set Q ptr g g' :
  queue_wf Q -> groups Q !! ptr = Some g -> Players g' = Players g -> Team g' = Team g -> queue_wf (set_group ptr g' Q).
Proof.
  intros [H1 H2 H3] Hg Ep Et. constructor; cbn.
  - by apply (store_wf_set _ _ _ _ g).
  - apply place_wf_set; [done|by exists g].
  - by apply (team_wf_set _ _ _ g).
Qed.

(** ** Groups entering, moving and leaving *)
Lemma at_insert (qs : gmap (Z * Z) (list Z)) b k l b' k' :
  default [] (<[(b, k) := l]> qs !! (b', k')) = if decide ((b', k') = (b, k)) then l else default [] (qs !! (b', k')).
Proof. case_decide as E; [by rewrite E, lookup_insert_eq|by rewrite lookup_insert_ne by congruence]. Qed.

Lemma elem_of_delete (l : list Z) i ptr p : NoDup l -> l !! i = Some ptr -> p ∈ delete i l <-> p ∈ l /\ p <> ptr.
Proof.
  intros Hnd Hi. destruct (list_elem_of_split_length _ _ _ Hi) as (l1 & l2 & -> & ->). rewrite delete_middle.
  apply NoDup_app in Hnd as (_ & Hd1 & [Hd2 _]%NoDup_cons). rewrite !elem_of_app, elem_of_cons. split.
  - intros [Hp|Hp]; (split; [tauto|intros ->]); [apply (Hd1 _ Hp); by left|done].
  - tauto.
Qed.
Lemma NoDup_delete (l : list Z) i : NoDup l -> NoDup (delete i l).
Proof. intros H. exact (sublist_NoDup _ _ H (sublist_delete l i)). Qed.

Lemma place_wf_append qs gs b k ptr g :
  place_wf qs gs -> gs !! ptr = None -> 0 <= b < MAX_BATTLEGROUND_BRACKETS -> 0 <= k < 4 ->
  place_wf (<[(b, k) := default [] (qs !! (b, k)) ++ [ptr]]> qs) (<[ptr := g]> gs).
Proof.
  intros [H1 H2 H3 H4] Hnew Hb Hk.
  assert (Hnot : forall b k, ptr ∉ default [] (qs !! (b, k))). { intros b' k' (_ & _ & [g' Hg'])%H2. congruence. }
  assert (Hat : forall b' k' p, p ∈ default [] (<[(b, k) := default [] (qs !! (b, k)) ++ [ptr]]> qs !! (b', k')) <->
    if decide (p = ptr) then (b', k') = (b, k) else p ∈ default [] (qs !! (b', k'))).
  { intros b' k' p. rewrite at_insert. case_decide as E.
    - injection E as -> ->. rewrite elem_of_app, list_elem_of_singleton. case_decide; [tauto|]. tauto.
    - case_decide as Ep; [subst|done]. split; [by intros ?%Hnot|done]. }
  constructor.
  - intros b' k'. rewrite at_insert. case_decide; [|apply H1]. apply NoDup_app. split_and!; [apply H1| |apply NoDup_singleton].
    intros p Hp ->%list_elem_of_singleton. by apply (Hnot b k).
  - intros b' k' p Hp%Hat. case_decide as E.
    + injection Hp as -> ->. rewrite E, lookup_insert_eq. split_and!; try lia; by eexists.
    + rewrite lookup_insert_ne by done. by apply H2.
  - intros b1 k1 b2 k2 p Hp1%Hat Hp2%Hat. case_decide; [by simplify_eq|by apply (H3 b1 k1 b2 k2 p)].
  - intros p Hp. destruct (decide (p = ptr)) as [->|Hne].
    + exists b, k. apply Hat. by rewrite decide_True.
    + rewrite lookup_insert_ne in Hp by done. destruct (H4 p Hp) as (b' & k' & Hin). exists b', k'. apply Hat. by rewrite decide_False.
Qed.

Lemma place_wf_erase qs gs b k i ptr :
  place_wf qs gs -> default [] (qs !! (b, k)) !! i = Some ptr ->
  place_wf (<[(b, k) := delete i (default [] (qs !! (b, k)))]> qs) (delete ptr gs).
Proof.
  intros [H1 H2 H3 H4] Hi. set (l := default [] (qs !! (b, k))) in *. pose proof (elem_of_delete l i ptr) as Hd.
  assert (Hin : ptr ∈ l) by (by eapply list_elem_of_lookup_2).
  assert (Hat : forall b' k' p, p ∈ default [] (<[(b, k) := delete i l]> qs !! (b', k')) <-> p ∈ default [] (qs !! (b', k')) /\ p <> ptr).
  { intros b' k' p. rewrite at_insert. case_decide as E; [injection E as -> ->; apply Hd; [apply H1|done]|].
    split; [|by intros []]. intros Hp. split; [done|]. intros ->. destruct (H3 _ _ _ _ _ Hin Hp) as [-> ->]. done. }
  constructor.
  - intros b' k'. rewrite at_insert. case_decide; [apply NoDup_delete|]; apply H1.
  - intros b' k' p [Hp Hne]%Hat. rewrite lookup_delete_ne by done. by apply H2.
  - intros b1 k1 b2 k2 p [Hp1 _]%Hat [Hp2 _]%Hat. by apply (H3 b1 k1 b2 k2 p).
  - intros p [g [Hne Hg]%lookup_delete_Some]. destruct (H4 p (mk_is_Some _ _ Hg)) as (b' & k' & Hp). exists b', k'. by apply Hat.
Qed.

(** A group that moves to the front of another queue of its bracket. *)
Lemma place_wf_move qs gs b k k' i ptr :
  place_wf qs gs -> default [] (qs !! (b, k)) !! i = Some ptr -> k <> k' -> 0 <= k' < 4 ->
  place_wf (<[(b, k) := delete i (default [] (qs !! (b, k)))]> (<[(b, k') := ptr :: default [] (qs !! (b, k'))]> qs)) gs.
Proof.
  intros [H1 H2 H3 H4] Hi Hne Hk'. set (l := default [] (qs !! (b, k))) in *. set (l' := default [] (qs !! (b, k'))) in *.
  pose proof (elem_of_delete l i ptr) as Hd. assert (Hin : ptr ∈ l) by (by eapply list_elem_of_lookup_2).
  assert (Hnl : ptr ∉ l') by (intros Hin'; destruct (H3 _ _ _ _ _ Hin Hin') as [_ ->]; done).
  assert (Hat : forall b1 k1 p, p ∈ default [] (<[(b, k) := delete i l]> (<[(b, k') := ptr :: l']> qs) !! (b1, k1)) <->
    if decide (p = ptr) then (b1, k1) = (b, k') else p ∈ default [] (qs !! (b1, k1))).
  { intros b1 k1 p. rewrite !at_insert. case_decide as E; [|case_decide as E'].
    - injection E as -> ->. rewrite Hd by (apply H1 || done). case_decide; [|tauto]. split; [tauto|congruence].
    - injection E' as -> ->. rewrite elem_of_cons. case_decide; [tauto|]. tauto.
    - case_decide as Ep; [subst|done]. split; [|done]. intros Hp. destruct (H3 _ _ _ _ _ Hin Hp) as [-> ->]. done. }
  constructor.
  - intros b1 k1. rewrite !at_insert. case_decide; [apply NoDup_delete, H1|]. case_decide; [|apply H1]. constructor; [done|apply H1].
  - intros b1 k1 p Hp%Hat. case_decide as E; [|by apply H2]. injection Hp as -> ->. subst p. destruct (H2 _ _ _ Hin) as (? & _ & ?). done.
  - intros b1 k1 b2 k2 p Hp1%Hat Hp2%Hat. case_decide; [by simplify_eq|]. by apply (H3 b1 k1 b2 k2 p).
  - intros p Hp. destruct (decide (p = ptr)) as [->|].
    + exists b, k'. apply Hat. by rewrite decide_True.
    + destruct (H4 p Hp) as (b' & k1 & Hin'). exists b', k1. apply Hat. by rewrite decide_False.
Qed.

(** ** Joining *)
Lemma add_players_ok (ms : list Z) ptr t ps l :
  let '(ps', keys) := add_players ms ptr t ps l in
  (forall p, ps' !! p = if decide (p ∈ ms) then Some (mkPlayerInfo t ptr) else ps !! p) /\
  (forall p, p ∈ keys <-> p ∈ ms \/ p ∈ l) /\ (StronglySorted Z.lt l -> StronglySorted Z.lt keys).
Proof.
  revert ps l. induction ms as [|m ms IH]; intros ps l; cbn [add_players].
  { split_and!; [done| |done]. intros p. rewrite elem_of_nil. tauto. }
  specialize (IH (<[m := mkPlayerInfo t ptr]> ps) (set_add m l)). destruct (add_players _ _ _ _ _) as [ps' keys].
  destruct IH as (H1 & H2 & H3). split_and!.
  - intros p. rewrite H1. destruct (decide (p ∈ ms)) as [Hin|Hin]; [by rewrite decide_True by (by right)|].
    destruct (decide (p = m)) as [->|Hne]; [by rewrite lookup_insert_eq, decide_True by (by left)|].
    rewrite lookup_insert_ne by done. rewrite decide_False; [done|]. by intros [|]%elem_of_cons.
  - intros p. rewrite H2, elem_of_set_add, elem_of_cons. tauto.
  - intros Hl. by apply H3, set_add_sorted.
Qed.

Lemma store_wf_join ps gs next (ms : list Z) t g :
  store_wf ps gs next -> (forall p, p ∈ Players g <-> p ∈ ms) -> Players g <> [] -> StronglySorted Z.lt (Players g) ->
  (forall p, p ∈ ms -> ps !! p = None) ->
  forall ps', (forall p, ps' !! p = if decide (p ∈ ms) then Some (mkPlayerInfo t next) else ps !! p) ->
  store_wf ps' (<[next := g]> gs) (next + 1).
Proof.
  intros [H1 H2 H3 H4] Hms Hne Hs Hnew ps' Hps.
  assert (Hfresh : gs !! next = None). { apply eq_None_not_Some. intros Hx%H4. lia. }
  constructor.
  - intros p info. rewrite Hps. case_decide as Hp.
    + intros [= <-]. exists g. rewrite lookup_insert_eq. split; [done|by apply Hms].
    + intros (g' & Hg' & ?)%H1. exists g'. rewrite lookup_insert_ne by (intros E; cbn in E; rewrite <- E in Hg'; congruence). done.
  - intros ptr g' p. destruct (decide (ptr = next)) as [->|].
    + rewrite lookup_insert_eq. intros [= <-] Hp%Hms. by rewrite Hps, decide_True.
    + rewrite lookup_insert_ne by done. intros Hg' Hp. rewrite Hps. case_decide as Hin; [|by apply (H2 ptr g')].
      specialize (H2 ptr g' p Hg' Hp). by rewrite (Hnew p Hin) in H2.
  - intros ptr g'. destruct (decide (ptr = next)) as [->|]; [rewrite lookup_insert_eq; by intros [= <-]|rewrite lookup_insert_ne by done; apply H3].
  - intros ptr Hptr. destruct (decide (ptr = next)) as [->|]; [lia|]. rewrite lookup_insert_ne in Hptr by done. specialize (H4 ptr Hptr). lia.
Qed.

Lemma count_waiting_ok l gs n : Forall (fun g => is_Some (gs !! g)) l -> exists m, count_waiting l gs n = Ok m.
Proof.
  intros Hl. revert n. induction Hl as [|g l [gi Hg] Hl IH]; intros n; cbn [count_waiting]; [by exists n|].
  unfold group_at. rewrite Hg. cbn [bind_result]. apply IH.
Qed.

Lemma queued_alive Q b k : queue_wf Q -> Forall (fun g => is_Some (groups Q !! g)) (queued b k Q).
Proof. intros [_ H _]. apply Forall_forall. intros g Hg. apply (wf_place _ _ H b k g Hg). Qed.

Lemma announce_ok E leader t e Q R :
  queue_wf Q -> realm_wf R -> exists R', announce E leader t e Q R = Ok R' /\ same_registry R R'.
Proof.
  intros HQ HR. unfold announce. destruct (GetBattlegroundTemplate t R) as [tp|] eqn:Et; [|by exists R].
  destruct (GetBattlegroundTemplate_alive _ _ _ HR Et) as [b Hb]. unfold bg_at. rewrite Hb. cbn [bind_result].
  destruct (count_waiting_ok _ _ 0 (queued_alive Q (entry_bracket e) BG_QUEUE_NORMAL_ALLIANCE HQ)) as [a ->]. cbn [bind_result].
  destruct (count_waiting_ok _ _ 0 (queued_alive Q (entry_bracket e) BG_QUEUE_NORMAL_HORDE HQ)) as [h ->]. cbn [bind_result].
  eexists. split; [done|]. by destruct (CONFIG_BATTLEGROUND_QUEUE_ANNOUNCER_PLAYERONLY E).
Qed.

Lemma kind_of_faction rated premade t :
  t = ALLIANCE \/ t = HORDE -> 0 <= kind_of rated premade t < 4 /\ faction (kind_of rated premade t) = t.
Proof. by intros [-> | ->]; destruct rated, premade. Qed.

Lemma bracket_ok_iff b : bracket_ok b = true <-> 0 <= b < MAX_BATTLEGROUND_BRACKETS.
Proof. unfold bracket_ok. rewrite andb_true_iff, Z.leb_le, Z.ltb_lt. lia. Qed.

(** A group that joins is put at the end of the queue of its bracket, faction and
    kind with all its members, each of whom is then in the queue with it; the other
    groups keep their places, and the invariant of the queue is kept. *)
Lemma AddGroup_joins E leader team grp t e at_ rated premade ar mmr tid Q R :
  queue_wf Q -> realm_wf R -> 0 <= entry_bracket e < MAX_BATTLEGROUND_BRACKETS -> team = ALLIANCE \/ team = HORDE ->
  default [leader] grp <> [] -> (forall p, p ∈ default [leader] grp -> m_QueuedPlayers Q !! p = None) ->
  exists Q' R' g, AddGroup E leader team grp t e at_ rated premade ar mmr tid Q R = Ok (next_group Q, Q', R') /\
    queue_wf Q' /\ same_registry R R' /\
    groups Q' = <[next_group Q := g]> (groups Q) /\ (forall p, p ∈ Players g <-> p ∈ default [leader] grp) /\
    Team g = team /\ invited g = false /\ JoinTime g = now E /\
    (forall b k, queued b k Q' = queued b k Q ++ if decide ((b, k) = (entry_bracket e, kind_of rated premade team)) then [next_group Q] else []) /\
    (forall p, GroupInfo <$> m_QueuedPlayers Q' !! p =
       if decide (p ∈ default [leader] grp) then Some (next_group Q) else GroupInfo <$> m_QueuedPlayers Q !! p).
Proof.
  intros HQ HR Hb Ht Hne Hnew. unfold AddGroup. cbv zeta. rewrite (proj2 (bracket_ok_iff _) Hb). cbn [negb].
  set (R1 := if rated && _ then _ else R). assert (same_registry R R1) as HS1 by (unfold R1; repeat case_match; done).
  pose proof (same_registry_wf _ _ HS1 HR) as HR1. clearbody R1. set (ms := default [leader] grp) in *. set (next := next_group Q) in *.
  pose proof (add_players_ok ms next (now E) (m_QueuedPlayers Q) []) as Hadd. destruct (add_players _ _ _ _ _) as [ps keys].
  destruct Hadd as (Hps & Hkeys & Hsorted). specialize (Hsorted (SSorted_nil _)).
  assert (Hkeys' : forall p, p ∈ keys <-> p ∈ ms) by (intros p; rewrite Hkeys, elem_of_nil; tauto).
  set (g := mkGroup keys _ _ _ _ _ _ _ _ _ _ _ _). set (Q1 := mkQueue _ _ _ _ _ _ _ _ _). set (Q2 := set_queued _ _ _ Q1).
  assert (Players g <> []) as Hg. { destruct ms as [|m ms']; [done|]. intros E0. cut (m ∈ keys); [|apply Hkeys'; by left].
    change keys with (Players g). rewrite E0. apply not_elem_of_nil. }
  assert (groups Q !! next = None) as Hfresh. { apply eq_None_not_Some. intros Hx%(wf_next _ _ _ (queue_store _ HQ)). unfold next in Hx. lia. }
  destruct (kind_of_faction rated premade team Ht) as [Hk Hf].
  assert (queue_wf Q2) as HQ2.
  { destruct HQ as [HS HP HT]. constructor.
    - exact (store_wf_join _ _ _ ms (now E) g HS Hkeys' Hg Hsorted Hnew ps Hps).
    - exact (place_wf_append _ _ _ _ _ g HP Hfresh Hb Hk).
    - intros b k p g0. change (m_QueuedGroups Q2) with (<[(entry_bracket e, kind_of rated premade team) := queued (entry_bracket e) (kind_of rated premade team) Q ++ [next]]> (m_QueuedGroups Q)).
      change (groups Q2) with (<[next := g]> (groups Q)). rewrite at_insert. destruct (decide (p = next)) as [->|Hpn].
      + rewrite lookup_insert_eq. intros Hin [= <-]. case_decide as Ek; [injection Ek as -> ->; done|].
        destruct (wf_place _ _ HP _ _ _ Hin) as (_ & _ & [? ?]). congruence.
      + rewrite lookup_insert_ne by done. case_decide as Ek; [injection Ek as -> ->|apply HT].
        intros [Hin|?%list_elem_of_singleton]%elem_of_app; [exact (HT _ _ _ _ Hin)|done]. }
  assert (exists R', (if negb rated && negb premade && CONFIG_BATTLEGROUND_QUEUE_ANNOUNCER_ENABLE E then announce E leader t e Q2 R1 else Ok R1) = Ok R' /\
    same_registry R1 R') as (R' & -> & HS2). { destruct (_ && _); [by apply announce_ok|by exists R1]. }
  cbn [bind_result]. exists Q2, R', g. split; [done|]. split; [done|]. split.
  { destruct HS1 as (? & ? & ? & ?), HS2 as (? & ? & ? & ?). repeat split; congruence. }
  split_and!; try done.
  - intros b k. unfold Q2. rewrite queued_set. case_decide as E1; case_decide as E2; try congruence.
    + by injection E1 as <- <-.
    + by rewrite app_nil_r.
  - intros p. change (m_QueuedPlayers Q2) with ps. rewrite Hps. by case_decide.
Qed.

(** ** Leaving *)
Lemma position_none x l : x ∉ l -> position x l = None.
Proof.
  induction l as [|y l IH]; intros Hx; cbn; [done|]. apply not_elem_of_cons in Hx as [Hne Hx].
  rewrite (proj2 (Z.eqb_neq y x)) by done. by rewrite IH.
Qed.

(** The search finds the group where it is. *)
Lemma find_group_ok Q ptr index bs b k :
  place_wf (m_QueuedGroups Q) (groups Q) -> ptr ∈ queued b k Q -> k = index \/ k = index + BG_TEAMS_COUNT -> b ∈ bs ->
  exists i, find_group ptr index bs Q = Some (b, k, i) /\ queued b k Q !! i = Some ptr.
Proof.
  intros HP Hin Hk Hb.
  assert (Helse : forall b' k', (b', k') <> (b, k) -> position ptr (queued b' k' Q) = None).
  { intros b' k' Hne. apply position_none. intros Hin'. destruct (wf_one _ _ HP _ _ _ _ _ Hin' Hin) as [-> ->]. done. }
  assert (exists i, position ptr (queued b k Q) = Some i /\ queued b k Q !! i = Some ptr) as (i & Hi & Hat).
  { destruct (position_elem _ _ Hin) as (l1 & l2 & -> & _ & ->). eexists. split; [done|]. by rewrite list_lookup_middle. }
  exists i. split; [|done]. clear Hin. induction bs as [|b' bs IH]; [by apply not_elem_of_nil in Hb|]. cbn [find_group].
  change BG_TEAMS_COUNT with 2 in *. destruct (decide (b' = b)) as [->|Hne].
  - destruct Hk as [-> | ->]; [|by rewrite Hi]. rewrite (Helse b (index + 2)) by (intros [=]; lia). by rewrite Hi.
  - rewrite !Helse by congruence. apply IH. by apply elem_of_cons in Hb as [|].
Qed.

Lemma elem_of_brackets_down b : b ∈ brackets_down <-> 0 <= b < MAX_BATTLEGROUND_BRACKETS.
Proof. unfold brackets_down. rewrite list_elem_of_In, <- in_rev, <- list_elem_of_In, elem_of_seqZ. unfold MAX_BATTLEGROUND_BRACKETS. lia. Qed.

(** The group of a player in the queue, and its place. *)
Lemma player_group Q guid info :
  queue_wf Q -> m_QueuedPlayers Q !! guid = Some info ->
  exists g b k i, groups Q !! GroupInfo info = Some g /\ guid ∈ Players g /\ queued b k Q !! i = Some (GroupInfo info) /\
    find_group (GroupInfo info) (if Team g =? HORDE then BG_QUEUE_PREMADE_HORDE else BG_QUEUE_PREMADE_ALLIANCE) brackets_down Q = Some (b, k, i).
Proof.
  intros [HS HP HT] Hp. destruct (wf_player _ _ _ HS _ _ Hp) as (g & Hg & Hin).
  destruct (wf_placed _ _ HP (GroupInfo info)) as (b & k & Hplace); [by exists g|].
  destruct (wf_place _ _ HP _ _ _ Hplace) as (Hb & Hk & _). pose proof (HT b k _ g Hplace Hg) as Hteam.
  destruct (find_group_ok Q (GroupInfo info) (if Team g =? HORDE then BG_QUEUE_PREMADE_HORDE else BG_QUEUE_PREMADE_ALLIANCE) brackets_down b k HP Hplace)
    as (i & Hf & Hi); [|by apply elem_of_brackets_down|by exists g, b, k, i].
  rewrite Hteam. assert (k = 0 \/ k = 1 \/ k = 2 \/ k = 3) as [-> |[-> |[-> | ->]]] by lia; vm_compute; auto.
Qed.

Lemma store_wf_leave ps gs next guid ptr g g' :
  store_wf ps gs next -> gs !! ptr = Some g -> guid ∈ Players g -> Players g' = set_del guid (Players g) -> Players g' <> [] ->
  store_wf (delete guid ps) (<[ptr := g']> gs) next.
Proof.
  intros [H1 H2 H3 H4] Hg Hin Ep Hne. constructor.
  - intros p info [Hpn Hp]%lookup_delete_Some. destruct (H1 p info Hp) as (g0 & Hg0 & Hin0).
    destruct (decide (GroupInfo info = ptr)) as [<-|].
    + exists g'. rewrite lookup_insert_eq. split; [done|]. rewrite Ep, elem_of_set_del. split; [done|congruence].
    + exists g0. by rewrite lookup_insert_ne.
  - intros p0 g0 p. destruct (decide (p0 = ptr)) as [->|Hpp].
    + rewrite lookup_insert_eq. intros [= <-]. rewrite Ep. intros [Hpn Hp]%elem_of_set_del. rewrite lookup_delete_ne by done. by apply (H2 ptr g).
    + rewrite lookup_insert_ne by done. intros Hg0 Hp. rewrite lookup_delete_ne; [by apply (H2 p0 g0)|].
      intros <-. pose proof (H2 _ _ _ Hg0 Hp) as Ha. rewrite (H2 _ _ _ Hg Hin) in Ha. congruence.
  - intros p0 g0. destruct (decide (p0 = ptr)) as [->|]; [|rewrite lookup_insert_ne by done; by apply H3].
    rewrite lookup_insert_eq. intros [= <-]. split; [done|]. rewrite Ep. by apply set_del_sorted, (H3 ptr).
  - intros p0 Hp0. apply H4. destruct (decide (p0 = ptr)) as [->|]; [by rewrite Hg|by rewrite lookup_insert_ne in Hp0].
Qed.

Lemma store_wf_last ps gs next guid ptr g :
  store_wf ps gs next -> gs !! ptr = Some g -> guid ∈ Players g -> set_del guid (Players g) = [] ->
  store_wf (delete guid ps) (delete ptr gs) next.
Proof.
  intros [H1 H2 H3 H4] Hg Hin Ee. constructor.
  - intros p info [Hpn Hp]%lookup_delete_Some. destruct (H1 p info Hp) as (g0 & Hg0 & Hin0). exists g0. split; [|done].
    rewrite lookup_delete_ne; [done|]. intros ->. replace g0 with g in * by congruence.
    assert (p ∈ set_del guid (Players g)) as Hx by (by apply elem_of_set_del). rewrite Ee in Hx. by apply not_elem_of_nil in Hx.
  - intros p0 g0 p [Hpp Hg0]%lookup_delete_Some Hp. rewrite lookup_delete_ne; [by apply (H2 p0 g0)|].
    intros <-. pose proof (H2 _ _ _ Hg0 Hp) as Ha. rewrite (H2 _ _ _ Hg Hin) in Ha. congruence.
  - intros p0 g0 [_ Hg0]%lookup_delete_Some. by apply (H3 p0).
  - intros p0 [g0 [_ Hg0]%lookup_delete_Some]. apply H4. by exists g0.
Qed.

(** The queue after a player has left it: his group without him, or gone with its
    place. *)
Definition left_group (guid ptr : Z) (g : GroupQueueInfo) (b k : Z) (i : nat) (Q : BattlegroundQueue) : BattlegroundQueue :=
  let Q' := set_QueuedPlayers (delete guid (m_QueuedPlayers Q)) (set_group ptr g Q) in
  match Players g with [] => set_groups (delete ptr (groups Q')) (erase_at b k i Q') | _ => Q' end.

Lemma left_group_wf Q guid ptr g g' b k i :
  queue_wf Q -> groups Q !! ptr = Some g -> guid ∈ Players g -> queued b k Q !! i = Some ptr ->
  Players g' = set_del guid (Players g) -> Team g' = Team g -> queue_wf (left_group guid ptr g' b k i Q).
Proof.
  intros [HS HP HT] Hg Hin Hi Ep Et. unfold left_group. destruct (Players g') as [|p0 l] eqn:El.
  - constructor.
    + cbn. rewrite delete_insert_eq. by apply (store_wf_last _ _ _ _ _ g).
    + cbn. rewrite delete_insert_eq. by apply place_wf_erase.
    + cbn. rewrite delete_insert_eq. intros b' k' p g0 Hp [_ Hg0]%lookup_delete_Some. apply (HT b' k' p g0); [|done].
      revert Hp. unfold queued. cbn. rewrite at_insert. case_decide as E; [injection E as -> ->|done].
      apply sublist_subseteq, sublist_delete.
  - constructor; cbn.
    + apply (store_wf_leave _ _ _ _ _ g); try done; [by rewrite El|by rewrite El].
    + apply place_wf_set; [done|by exists g].
    + by apply (team_wf_set _ _ _ g).
Qed.

(** *** What leaving changes *)

(** A group without some players: none when nobody is left. *)
Definition without (l : list Z) (g : GroupQueueInfo) : option GroupQueueInfo :=
  match filter (fun p => p ∉ l) (Players g) with [] => None | ps => Some (set_Players ps g) end.

(** The players [l] are out of the queue and of their groups, groups with nobody left are
    gone with their places, and all others stay as and where they were. *)
Record took (l : list Z) (Q Q' : BattlegroundQueue) : Prop := {
  took_players p : m_QueuedPlayers Q' !! p = if decide (p ∈ l) then None else m_QueuedPlayers Q !! p;
  took_groups ptr : groups Q' !! ptr = groups Q !! ptr ≫= without l;
  took_queued b k : queued b k Q' = filter (fun ptr => is_Some (groups Q' !! ptr)) (queued b k Q)
}.

Lemma without_others l g : (forall p, p ∈ Players g -> p ∉ l) -> Players g <> [] -> without l g = Some g.
Proof. intros H Hne. unfold without. rewrite filter_all by done. destruct g as [ps]. cbn in *. by destruct ps. Qed.

Lemma without_app l l' g : without l g ≫= without l' = without (l ++ l') g.
Proof.
  unfold without. transitivity (match filter (fun p => p ∉ l') (filter (fun p => p ∉ l) (Players g)) with [] => None | ps => Some (set_Players ps g) end).
  - destruct (filter (fun p => p ∉ l) (Players g)); done.
  - rewrite list_filter_filter. erewrite list_filter_iff; [done|]. intros p. cbn. rewrite not_elem_of_app. tauto.
Qed.

Lemma took_nil Q : queue_wf Q -> took [] Q Q.
Proof.
  intros HQ. constructor.
  - intros p. by rewrite decide_False by apply not_elem_of_nil.
  - intros ptr. destruct (groups Q !! ptr) as [g|] eqn:Hg; [|done]. cbn. rewrite without_others; [done| |].
    + intros p _. apply not_elem_of_nil.
    + apply (wf_members _ _ _ (queue_store _ HQ) ptr g Hg).
  - intros b k. symmetry. apply filter_all. pose proof (queued_alive Q b k HQ) as Ha. rewrite Forall_forall in Ha. exact Ha.
Qed.

Lemma took_app l l' Q Q' Q'' : took l Q Q' -> took l' Q' Q'' -> took (l ++ l') Q Q''.
Proof.
  intros [P1 G1 O1] [P2 G2 O2]. constructor.
  - intros p. rewrite P2, P1. destruct (decide (p ∈ l')), (decide (p ∈ l)), (decide (p ∈ l ++ l')) as [H|H]; rewrite elem_of_app in H; tauto.
  - intros ptr. rewrite G2, G1. destruct (groups Q !! ptr); [|done]. cbn. apply without_app.
  - intros b k. rewrite O2, O1, list_filter_filter. apply list_filter_iff. intros ptr. split; [by intros []|]. intros H. split; [done|].
    rewrite G2 in H. destruct (groups Q' !! ptr); [done|by destruct H].
Qed.

Lemma took_iff l l' Q Q' : (forall p, p ∈ l <-> p ∈ l') -> took l Q Q' -> took l' Q Q'.
Proof.
  intros H [P1 G1 O1]. constructor; [| |done].
  - intros p. rewrite P1. apply decide_ext, H.
  - intros ptr. rewrite G1. destruct (groups Q !! ptr) as [g|]; [|done]. cbn. unfold without.
    erewrite list_filter_iff; [done|]. intros p. cbn. by rewrite H.
Qed.

Lemma took_left Q guid ptr g b k i :
  queue_wf Q -> groups Q !! ptr = Some g -> guid ∈ Players g -> queued b k Q !! i = Some ptr ->
  took [guid] Q (left_group guid ptr (set_Players (set_del guid (Players g)) g) b k i Q).
Proof.
  intros HQ Hg Hin Hi. set (g' := set_Players _ g). set (Q' := left_group _ _ _ _ _ _ _). pose proof (queue_place _ HQ) as HP.
  assert (Hgroups : groups Q' = if decide (Players g' = []) then delete ptr (groups Q) else <[ptr := g']> (groups Q)).
  { unfold Q', left_group. destruct (Players g'); [cbn; by rewrite delete_insert_eq|done]. }
  assert (Hwithout : without [guid] g = if decide (Players g' = []) then None else Some g').
  { unfold without. rewrite (list_filter_iff (fun p => p ∉ [guid]) (fun p => p <> guid)) by (intros p; by rewrite list_elem_of_singleton).
    change (filter (fun p => p <> guid) (Players g)) with (Players g').
    assert (g' = set_Players (Players g') g) as Eg by done. clear Hgroups Q'. clearbody g'. destruct (Players g'); by rewrite Eg. }
  constructor.
  - intros p. assert (m_QueuedPlayers Q' = delete guid (m_QueuedPlayers Q)) as -> by (unfold Q', left_group; by destruct (Players g')).
    destruct (decide (p ∈ [guid])) as [Hp|Hp]; rewrite list_elem_of_singleton in Hp; [subst; by rewrite lookup_delete_eq|by rewrite lookup_delete_ne].
  - intros p. rewrite Hgroups. destruct (decide (p = ptr)) as [->|Hne].
    + rewrite Hg. change (Some g ≫= without [guid]) with (without [guid] g). rewrite Hwithout. destruct (decide (Players g' = [])); [by rewrite lookup_delete_eq|by rewrite lookup_insert_eq].
    + transitivity (groups Q !! p); [destruct (decide (Players g' = [])); [by rewrite lookup_delete_ne|by rewrite lookup_insert_ne]|].
      destruct (groups Q !! p) as [g0|] eqn:Hg0; [|done]. change (Some g0 ≫= without [guid]) with (without [guid] g0). rewrite without_others; [done| |apply (wf_members _ _ _ (queue_store _ HQ) p g0 Hg0)].
      intros p0 Hp0 ->%list_elem_of_singleton. pose proof (wf_member _ _ _ (queue_store _ HQ) _ _ _ Hg0 Hp0) as Ha.
      rewrite (wf_member _ _ _ (queue_store _ HQ) _ _ _ Hg Hin) in Ha. congruence.
  - intros b' k'. pose proof (queued_alive Q b' k' HQ) as Ha. rewrite Forall_forall in Ha.
    assert (Hlive : forall p, p <> ptr -> p ∈ queued b' k' Q -> is_Some (groups Q' !! p)).
    { intros p Hne Hp. rewrite Hgroups. case_decide; [rewrite lookup_delete_ne by done|rewrite lookup_insert_ne by done]; by apply Ha. }
    destruct (decide (Players g' = [])) as [Ee|Ene].
    + assert (Hq : queued b' k' Q' = if decide ((b, k) = (b', k')) then delete i (queued b k Q) else queued b' k' Q).
      { unfold Q', left_group. rewrite Ee. unfold erase_at. rewrite <- queued_set. by destruct Q. }
      rewrite Hq. destruct (decide ((b, k) = (b', k'))) as [E|E].
      * injection E as <- <-. pose proof (wf_once _ _ HP b k) as Hnd. fold (queued b k Q) in Hnd.
        destruct (list_elem_of_split_length _ _ _ Hi) as (l1 & l2 & El & ->). rewrite El in *. rewrite delete_middle.
        rewrite filter_app, filter_cons_False by (rewrite Hgroups, lookup_delete_eq; by intros []).
        apply NoDup_app in Hnd as (_ & Hd1 & [Hd2 _]%NoDup_cons).
        rewrite !filter_all; [done| |]; intros p Hp; apply Hlive.
        -- by intros ->.
        -- apply elem_of_app. right. by right.
        -- intros ->. apply (Hd1 _ Hp). by left.
        -- apply elem_of_app. by left.
      * symmetry. apply filter_all. intros p Hp. apply Hlive; [|done]. intros ->. apply E.
        destruct (wf_one _ _ HP b k b' k' ptr) as [-> ->]; [by eapply list_elem_of_lookup_2|done|done].
    + assert (queued b' k' Q' = queued b' k' Q) as -> by (unfold Q', left_group; by destruct (Players g')).
      symmetry. apply filter_all. intros p Hp. destruct (decide (p = ptr)) as [->|]; [|by apply Hlive]. rewrite Hgroups, lookup_insert_eq. by eexists.
Qed.

(** *** RemovePlayer *)
Lemma release_invitation_ok g R :
  realm_wf R -> exists R', release_invitation g R = Ok R' /\ realm_wf R' /\ later R R'.
Proof.
  intros HR. unfold release_invitation. destruct (GetBattleground _ _ R) as [ptr|] eqn:E; [|by exists R].
  destruct (GetBattleground_alive _ _ _ _ HR E) as [b Hb]. rewrite (on_bg_unfold _ _ _ _ Hb). eexists. split; [done|].
  split; [apply set_bg_keeps_wf|apply set_bg_later]; auto using keeps_Decrease.
Qed.

Lemma tell_left_ok next g R : realm_wf R -> exists R', tell_left next g R = Ok R' /\ same_registry R R'.
Proof.
  intros HR. unfold tell_left. destruct (FindPlayer next R); [|by exists R].
  destruct (GetBattlegroundTemplate (BgTypeId g) R) as [t|] eqn:Et; cbn [bind_result]; [|by eexists].
  destruct (GetBattlegroundTemplate_alive _ _ _ HR Et) as [b Hb]. unfold bg_at. rewrite Hb. cbn [bind_result]. by eexists.
Qed.

(** One call: the player leaves, and the recursion for the next one of a rated group. *)
Lemma RemovePlayer_step fuel E guid dec Q R info :
  queue_wf Q -> realm_wf R -> m_QueuedPlayers Q !! guid = Some info ->
  exists g b k i R1, groups Q !! GroupInfo info = Some g /\ guid ∈ Players g /\ queued b k Q !! i = Some (GroupInfo info) /\
    realm_wf R1 /\ later R R1 /\
    let g' := set_Players (set_del guid (Players g)) g in
    let Q1 := left_group guid (GroupInfo info) g' b k i Q in
    RemovePlayer_rec (S fuel) E guid dec Q R =
      match Players g' with
      | [] => Ok (Q1, R1)
      | next :: _ =>
          if negb (invited g) && IsRated g then let? R := tell_left next g' R1 in RemovePlayer_rec fuel E next dec Q1 R else Ok (Q1, R1)
      end.
Proof.
  intros HQ HR Hp. destruct (player_group Q guid info HQ Hp) as (g & b & k & i & Hg & Hin & Hi & Hf).
  cbn [RemovePlayer_rec]. rewrite Hp. unfold group_at. rewrite Hg. cbn [bind_result]. rewrite Hf.
  set (g' := set_Players _ g). change (invited g') with (invited g). change (IsRated g') with (IsRated g).
  assert (exists R0, (if dec && invited g then release_invitation g' R else Ok R) = Ok R0 /\ realm_wf R0 /\ later R R0) as (R0 & -> & HR0 & HL0).
  { destruct (dec && invited g); [by apply release_invitation_ok|by exists R]. }
  cbn [bind_result]. set (R1 := if negb (_ =? 0) && _ && _ && _ then _ else R0). set (R2 := if _ && _ && dec then _ else R1).
  assert (same_registry R0 R2) as HS.
  { apply (same_registry_trans R0 R1); [unfold R1|unfold R2, lose_match]; repeat case_match; done. }
  exists g, b, k, i, R2. split_and!; try done; [exact (same_registry_wf _ _ HS HR0)|exact (later_trans _ _ _ HL0 (same_registry_later _ _ HS))|].
  cbv zeta. fold g'. unfold left_group. destruct (Players g') as [|next l]; done.
Qed.

(** Who leaves with a player: with a rated group that is not invited, all its members. *)
Definition leaving (guid : Z) (Q : BattlegroundQueue) : list Z :=
  match m_QueuedPlayers Q !! guid with
  | None => []
  | Some info =>
      match groups Q !! GroupInfo info with
      | Some g => if negb (invited g) && IsRated g then Players g else [guid]
      | None => []
      end
  end.

Lemma RemovePlayer_rec_ok fuel E guid dec Q R :
  queue_wf Q -> realm_wf R -> (base.size (m_QueuedPlayers Q) < fuel)%nat ->
  exists Q' R', RemovePlayer_rec fuel E guid dec Q R = Ok (Q', R') /\ queue_wf Q' /\ realm_wf R' /\ later R R' /\ took (leaving guid Q) Q Q'.
Proof.
  revert guid Q R. induction fuel as [|fuel IH]; intros guid Q R HQ HR Hf; [lia|]. unfold leaving.
  destruct (m_QueuedPlayers Q !! guid) as [info|] eqn:Hp.
  2: { exists Q, R. cbn [RemovePlayer_rec]. rewrite Hp. split_and!; try done. by apply took_nil. }
  destruct (RemovePlayer_step fuel E guid dec Q R info HQ HR Hp) as (g & b & k & i & R1 & Hg & Hin & Hi & HR1 & HL1 & ->).
  rewrite Hg. set (g' := set_Players _ g). set (Q1 := left_group _ _ g' _ _ _ _).
  assert (queue_wf Q1) as HQ1 by (by apply (left_group_wf _ _ _ g)).
  assert (took [guid] Q Q1) as HT1 by (by apply took_left).
  assert (Hmem : forall p, p ∈ Players g <-> p = guid \/ p ∈ Players g').
  { intros p. cbn. rewrite elem_of_set_del. destruct (decide (p = guid)) as [->|]; tauto. }
  destruct (Players g') as [|next l] eqn:El.
  { exists Q1, R1. split_and!; try done. destruct (_ && _); [|done]. apply (took_iff [guid]); [|done].
    intros p. rewrite list_elem_of_singleton, Hmem, elem_of_nil. tauto. }
  destruct (negb (invited g) && IsRated g) eqn:Er; [|by exists Q1, R1].
  destruct (tell_left_ok next g' R1 HR1) as (R2 & -> & HS2). cbn [bind_result]. pose proof (same_registry_wf _ _ HS2 HR1) as HR2.
  assert (base.size (m_QueuedPlayers Q1) < fuel)%nat as Hf1.
  { assert (m_QueuedPlayers Q1 = delete guid (m_QueuedPlayers Q)) as -> by (unfold Q1, left_group; by rewrite El).
    rewrite map_size_delete_Some by done. pose proof (map_size_ne_0_lookup_2 (m_QueuedPlayers Q) guid ltac:(by exists info)). lia. }
  destruct (IH next Q1 R2 HQ1 HR2 Hf1) as (Q' & R' & -> & HQ' & HR' & HL' & HT'). exists Q', R'. split; [done|]. split; [done|]. split; [done|].
  split; [exact (later_trans _ _ _ HL1 (later_trans _ _ _ (same_registry_later _ _ HS2) HL'))|].
  apply (took_iff ([guid] ++ leaving next Q1)); [|by apply (took_app _ _ _ Q1)].
  assert (groups Q1 !! GroupInfo info = Some g') as Hg1 by (unfold Q1, left_group; rewrite El; cbn; by rewrite lookup_insert_eq).
  assert (next ∈ Players g') as Hnext by (rewrite El; by left).
  pose proof (wf_member _ _ _ (queue_store _ HQ1) _ _ _ Hg1 Hnext) as Hinfo.
  destruct (m_QueuedPlayers Q1 !! next) as [info1|] eqn:Hp1; [|done]. injection Hinfo as Hinfo.
  unfold leaving. rewrite Hp1, Hinfo, Hg1. change (invited g') with (invited g). change (IsRated g') with (IsRated g). rewrite Er, El.
  intros p. rewrite elem_of_app, list_elem_of_singleton, Hmem. tauto.
Qed.

(** The counters of the battlegrounds and the events of the queue while somebody
    leaves. *)
Lemma RemovePlayer_rec_keeps fuel E guid dec Q R :
  counts_wf R -> counted (fun r => counts_wf r.2 /\ m_events r.1 = m_events Q) (RemovePlayer_rec fuel E guid dec Q R).
Proof.
  revert guid Q R. induction fuel as [|fuel IH]; intros guid Q R HR; cbn [RemovePlayer_rec]; [done|].
  destruct (m_QueuedPlayers Q !! guid) as [info|]; [|done].
  apply (ensures_bind _ (fun _ => True)); [apply anything|]. intros g _. destruct (find_group _ _ _ _) as [[[b k] i]|]; [|done].
  set (g' := set_Players _ g). apply (ensures_bind _ counts_wf).
  { destruct (dec && invited g'); [|done]. unfold release_invitation. destruct (GetBattleground _ _ R); [|done].
    apply on_bg_counted; [done|apply counts_Decrease]. }
  intros R0 H0. set (R1 := if negb (_ =? 0) && _ && _ && _ then _ else R0). set (R2 := if _ && _ && dec then _ else R1).
  assert (counts_wf R2) as H2 by (unfold R2, R1, lose_match; repeat case_match; done). clearbody R1 R2.
  destruct (Players g') as [|next l]; [done|]. destruct (negb (invited g') && IsRated g'); [|done].
  apply (ensures_bind _ counts_wf).
  { unfold tell_left. destruct (FindPlayer next R2); [|done]. apply (ensures_bind _ (fun _ => True)); [apply anything|done]. }
  intros R3 H3. apply (ensures_weaken _ _ _ _ (IH next _ R3 H3)). intros [Q4 R4] [H4 HE]. done.
Qed.

(** C25: leaving a queue always ends and keeps its invariant. A player who leaves takes
    his whole group with him when it is rated and not yet invited, and nobody else
    otherwise; groups with nobody left are gone with their places, and all other
    players, groups and places stay as they were. *)
Theorem RemovePlayer_leaves E guid dec Q R :
  queue_wf Q -> realm_wf R ->
  exists Q' R', RemovePlayer E guid dec Q R = Ok (Q', R') /\ queue_wf Q' /\ realm_wf R' /\ later R R' /\
    (forall p, m_QueuedPlayers Q' !! p = if decide (p ∈ leaving guid Q) then None else m_QueuedPlayers Q !! p) /\
    (forall ptr, groups Q' !! ptr = groups Q !! ptr ≫= without (leaving guid Q)) /\
    (forall b k, queued b k Q' = filter (fun ptr => is_Some (groups Q' !! ptr)) (queued b k Q)).
Proof.
  intros HQ HR. unfold RemovePlayer. destruct (RemovePlayer_rec_ok _ E guid dec Q R HQ HR (Nat.lt_succ_diag_r _)) as (Q' & R' & -> & ? & ? & ? & []).
  by exists Q', R'.
Qed.

(** ** Waiting times *)

(** The ring of waiting times from the oldest on. *)
Definition oldest_first (w : WaitTimes) : list Z :=
  let k := Z.to_nat (WaitTimeLastPlayer w) in drop k (wait_times w) ++ take k (wait_times w).
Definition sum_of (l : list Z) : Z := foldr Z.add 0 l.

Lemma sum_of_nonneg l : Forall (fun t => 0 < t) l -> 0 <= sum_of l.
Proof. unfold sum_of. induction 1; cbn; lia. Qed.

Record ring_ok (w : WaitTimes) : Prop := {
  ring_length : length (wait_times w) = 10%nat;
  ring_index : 0 <= WaitTimeLastPlayer w < 10;
  ring_sum : SumOfWaitTimes w = u32 (sum_of (wait_times w))
}.

Lemma sum_of_app l l' : sum_of (l ++ l') = sum_of l + sum_of l'.
Proof. unfold sum_of. induction l as [|x l IH]; cbn; lia. Qed.

Lemma record_wait_ok t w :
  ring_ok w -> ring_ok (record_wait t w) /\ oldest_first (record_wait t w) = drop 1 (oldest_first w) ++ [t] /\
    WaitTimeLastPlayer (record_wait t w) = (WaitTimeLastPlayer w + 1) mod 10.
Proof.
  intros [Hl Hi Hs]. unfold record_wait, oldest_first. cbn [wait_times WaitTimeLastPlayer SumOfWaitTimes].
  change COUNT_OF_PLAYERS_TO_AVERAGE_WAIT_TIME with 10. rewrite (wrap_id 32 (WaitTimeLastPlayer w + 1)) by width.
  set (k := Z.to_nat (WaitTimeLastPlayer w)). destruct (lookup_lt_is_Some_2 (wait_times w) k ltac:(lia)) as [x Hx].
  destruct (list_elem_of_split_length _ _ _ Hx) as (l1 & l2 & El & Ek). rewrite El, Ek in *. rewrite length_app in Hl. cbn [length] in Hl.
  rewrite list_lookup_middle, insert_app_r_alt, Nat.sub_diag by lia. cbn [default insert list_insert].
  assert (drop (length l1) (l1 ++ x :: l2) ++ take (length l1) (l1 ++ x :: l2) = x :: l2 ++ l1) as -> by (by rewrite drop_app_length, take_app_length).
  split; [constructor|split; [|done]]; cbn [wait_times WaitTimeLastPlayer SumOfWaitTimes].
  - rewrite length_app. cbn. lia.
  - dlia.
  - rewrite Hs, !sum_of_app. cbn [sum_of foldr]. fold (sum_of l2).
    rewrite wrap_add_l by lia. unfold id. replace (u32 (sum_of l1 + (x + sum_of l2)) - x + t) with (u32 (sum_of l1 + (x + sum_of l2)) + (t - x)) by lia.
    rewrite wrap_add_l by lia. f_equal. lia.
  - cbn [drop]. destruct (decide (WaitTimeLastPlayer w = 9)) as [E9|].
    + rewrite E9. change ((9 + 1) mod 10) with 0. cbn [Z.to_nat drop take]. destruct l2 as [|y l2]; [|cbn [length] in Hl; lia]. by rewrite app_nil_r.
    + rewrite Z.mod_small by lia. replace (Z.to_nat (WaitTimeLastPlayer w + 1)) with (length (l1 ++ [t])) by (rewrite length_app; cbn; lia).
      change (l1 ++ t :: l2) with (l1 ++ [t] ++ l2). rewrite app_assoc, drop_app_length, take_app_length, app_assoc. done.
Qed.

Lemma record_all ts w :
  ring_ok w -> let w' := foldl (fun w t => record_wait t w) w ts in
  ring_ok w' /\ oldest_first w' = drop (length ts) (oldest_first w ++ ts) /\
  WaitTimeLastPlayer w' = (WaitTimeLastPlayer w + Z.of_nat (length ts)) mod 10.
Proof.
  cbv zeta. revert w. induction ts as [|t ts IH]; intros w Hw; cbn [foldl length].
  { split; [done|]. rewrite app_nil_r, Z.add_0_r, Z.mod_small by apply Hw. done. }
  destruct (record_wait_ok t w Hw) as (Hw1 & E1 & K1). destruct (IH _ Hw1) as (Hw2 & E2 & K2). split; [done|]. split.
  - rewrite E2, E1. assert (length (oldest_first w) = 10%nat) as Hl.
    { unfold oldest_first. rewrite length_app, length_drop, length_take. destruct Hw. lia. }
    destruct (oldest_first w) as [|x l]; [done|]. cbn [drop app]. by rewrite <- app_assoc.
  - rewrite K2, K1, Z.add_mod_idemp_l by lia. f_equal. lia.
Qed.

Lemma no_times_ok : ring_ok no_times.
Proof. by constructor. Qed.

(** The last ten of a list. *)
Definition last_ten (ts : list Z) : list Z := drop (length ts - 10) ts.

(** The average waiting time that is shown for a team and bracket is that of the last
    ten players who were invited, as long as nobody is invited in the millisecond he
    joins, and 0 while there were fewer than ten. *)
Theorem GetAverageQueueWaitTime_last_ten g b Q ts :
  waits (wait_team g) b Q = foldl (fun w t => record_wait t w) no_times ts ->
  0 <= b < MAX_BATTLEGROUND_BRACKETS -> Forall (fun t => 0 < t) ts -> sum_of (last_ten ts) < 2 ^ 32 ->
  GetAverageQueueWaitTime g b Q = Ok (if decide (length ts < 10)%nat then 0 else sum_of (last_ten ts) / 10).
Proof.
  intros Hw Hb Hpos Hsum. unfold GetAverageQueueWaitTime. rewrite (proj2 (bracket_ok_iff b) Hb), Hw.
  destruct (record_all ts no_times no_times_ok) as ([Hl Hi Hs] & Ho & Hk). cbv zeta. set (w := foldl _ _ ts) in *.
  change (oldest_first no_times) with (replicate 10 0) in Ho. change (WaitTimeLastPlayer no_times) with 0 in Hk. rewrite Z.add_0_l in Hk.
  unfold oldest_first in Ho. set (k := Z.to_nat (WaitTimeLastPlayer w)) in *. rewrite drop_app, length_replicate in Ho.
  destruct (decide (length ts < 10)%nat) as [Hlt|Hge].
  - rewrite Z.mod_small in Hk by lia. assert (k = length ts) as Ek by (unfold k; lia).
    assert (wait_times w !! 9%nat = Some 0) as ->; [|done].
    replace (length ts - 10)%nat with 0%nat in Ho by lia. rewrite drop_replicate in Ho.
    assert ((drop k (wait_times w) ++ take k (wait_times w)) !! (9 - k)%nat = Some 0) as H9.
    { rewrite Ho, lookup_app_l by (rewrite length_replicate; lia). apply lookup_replicate_2. lia. }
    rewrite lookup_app_l in H9 by (rewrite length_drop; lia). rewrite lookup_drop in H9. by replace (k + (9 - k))%nat with 9%nat in H9 by lia.
  - rewrite (drop_ge (replicate 10 0)) in Ho by (rewrite length_replicate; lia). cbn [app] in Ho. fold (last_ten ts) in Ho.
    assert (sum_of (wait_times w) = sum_of (last_ten ts)) as Esum.
    { rewrite <- Ho, <- (take_drop k (wait_times w)) at 1. rewrite !sum_of_app. lia. }
    assert (Forall (fun t => 0 < t) (wait_times w)) as Hall.
    { assert (Forall (fun t => 0 < t) (last_ten ts)) as H by (by apply Forall_drop). rewrite <- Ho in H.
      rewrite <- (take_drop k (wait_times w)). apply Forall_app in H as [H1 H2]. by apply Forall_app. }
    destruct (lookup_lt_is_Some_2 (wait_times w) 9 ltac:(lia)) as [x Hx]. rewrite Hx. rewrite Forall_forall in Hall.
    specialize (Hall x (list_elem_of_lookup_2 _ _ _ Hx)). change (default 0 (Some x)) with x. rewrite (proj2 (Z.eqb_neq x 0)) by lia.
    rewrite Hs, Esum, wrap_id; [done|]. split; [|done]. by apply sum_of_nonneg, Forall_drop.
Qed.

(** ** Examples *)

(** A rated team of two in its queue. *)
Lemma empty_queue_wf : queue_wf new_queue.
Proof.
  constructor.
  - by constructor; cbn; intros *; rewrite ?lookup_empty; [..|intros []].
  - constructor; cbn; intros *; rewrite ?lookup_empty; [constructor|by intros ?%not_elem_of_nil..|by intros [? ?]].
  - intros b k p g. cbn. rewrite lookup_empty. by intros ?%not_elem_of_nil.
Qed.
Lemma sample_realm_wf : realm_wf sample_realm.
Proof.
  assert (Hd : forall t, data_of t sample_realm = no_data) by done.
  constructor; intros *; rewrite ?Hd; cbn; try done; try (by intros ?%not_elem_of_nil); try (by intros [? ?%lookup_empty_Some]).
  - constructor.
  - constructor.
  - constructor.
  - apply InstanceIds.check_wf. vm_compute. done.
Qed.

Definition sample_pair_joins : result fault (Z * BattlegroundQueue * Realm) :=
  AddGroup sample_env 11 ALLIANCE (Some [12; 11]) BATTLEGROUND_AA (mkEntry 14 80 80) ARENA_TYPE_2v2 true true 1500 1500 7 new_queue sample_realm.
Definition queue_after (r : result fault (Z * BattlegroundQueue * Realm)) : BattlegroundQueue := match r with Ok (_, Q, _) => Q | Throw _ => new_queue end.

Lemma sample_pair_wf : queue_wf (queue_after sample_pair_joins).
Proof.
  destruct (AddGroup_joins sample_env 11 ALLIANCE (Some [12; 11]) BATTLEGROUND_AA (mkEntry 14 80 80) ARENA_TYPE_2v2 true true 1500 1500 7 new_queue
    sample_realm empty_queue_wf sample_realm_wf) as (Q' & R' & g & E & HQ & _); [by vm_compute|by left|done|done|].
  unfold sample_pair_joins. by rewrite E.
Qed.

Lemma RemovePlayer_leaves_witness :
  exists Q' R', RemovePlayer sample_env 11 false (queue_after sample_pair_joins) sample_realm = Ok (Q', R') /\ m_QueuedPlayers Q' !! 12 = None.
Proof.
  destruct (RemovePlayer_leaves sample_env 11 false (queue_after sample_pair_joins) sample_realm sample_pair_wf sample_realm_wf)
    as (Q' & R' & E & _ & _ & _ & Hp & _).
  exists Q', R'. split; [exact E|]. rewrite (Hp 12). rewrite decide_True; [reflexivity|]. apply (bool_decide_unpack _). vm_compute. exact I.
Defined.

(** Twelve players who waited for 1 to 12 seconds. *)
Definition sample_times : list Z := map (fun i => i * 1000) (seqZ 1 12).
Definition sample_waits : BattlegroundQueue :=
  set_WaitTimes {[ (TEAM_ALLIANCE, 0) := foldl (fun w t => record_wait t w) no_times sample_times ]} new_queue.
Lemma GetAverageQueueWaitTime_last_ten_witness : GetAverageQueueWaitTime (sample_group ALLIANCE [11]) 0 sample_waits = Ok 7500.
Proof.
  rewrite (GetAverageQueueWaitTime_last_ten (sample_group ALLIANCE [11]) 0 sample_waits sample_times).
  - vm_compute. reflexivity.
  - vm_compute. reflexivity.
  - vm_compute. split; congruence.
  - vm_compute. repeat constructor.
  - vm_compute. reflexivity.
Defined.

End BattlegroundJoin.
