(* ===== verification/BattlegroundWorld.v ===== *)
(** * BattlegroundWorld: the queues over time

    The theorems on [BattlegroundQueue] over every sequence of operations on the queues
    and the registry: inviting, the update of a queue, its events and the updates that
    are scheduled keep the invariants of both, and no deleted group or battleground is
    used. *)
From S2P Require Import Prelude OrderedMap InstanceIds Battleground BattlegroundRegistry BattlegroundQueue BattlegroundMatch BattlegroundJoin.
From Stdlib Require Import Sorting.Sorted.
Import Battleground BattlegroundRegistry BattlegroundQueue BattlegroundMatch BattlegroundJoin.
#[global] Open Scope Z_scope.

Module BattlegroundWorld.

(** ** The realm *)
Definition realm_ok (R : Realm) : Prop := realm_wf R /\ counts_wf R.

(** What an operation that neither creates nor registers battlegrounds does to a good
    realm. *)
Record onward (R R' : Realm) : Prop := {
  onward_ok : realm_ok R';
  onward_later : later R R';
  onward_pending ptr : pending ptr R -> pending ptr R';
  onward_ids : map_mgr R' = map_mgr R
}.
Lemma onward_refl R : realm_ok R -> onward R R.
Proof. by constructor. Qed.
Lemma onward_trans R1 R2 R3 : onward R1 R2 -> onward R2 R3 -> onward R1 R3.
Proof. intros [] []. constructor; [done|by eapply later_trans|auto|congruence]. Qed.

Lemma onward_same R R' : realm_ok R -> same_registry R R' -> onward R R'.
Proof.
  intros [HR HC] HS. pose proof HS as (E1 & E2 & E3 & E4). constructor.
  - split; [exact (same_registry_wf _ _ HS HR)|]. unfold counts_wf. by rewrite E1.
  - exact (same_registry_later _ _ HS).
  - unfold pending, data_of. by rewrite E1, E2, E4.
  - done.
Qed.

Lemma onward_bg R ptr f b :
  realm_ok R -> bgs R !! ptr = Some b -> keeps_identity f -> keeps_counts f ->
  exists R', on_bg ptr f R = Ok R' /\ onward R R'.
Proof.
  intros [HR HC] Hb Hf Hc. rewrite (on_bg_unfold _ _ _ _ Hb). eexists. split; [done|]. constructor.
  - split; [by apply set_bg_keeps_wf|]. intros p b' Hp. cbn in Hp. revert Hp. apply insert_counted; [done|]. by apply Hc, (HC ptr).
  - by apply set_bg_later.
  - intros p. by apply set_bg_pending.
  - done.
Qed.

Lemma later_alive R R' ptr : later R R' -> is_Some (bgs R !! ptr) -> is_Some (bgs R' !! ptr).
Proof. intros H [b Hb]. destruct (H _ _ Hb) as (b' & Hb' & _). by exists b'. Qed.
Lemma onward_alive R R' ptr : onward R R' -> is_Some (bgs R !! ptr) -> is_Some (bgs R' !! ptr).
Proof. intros H. apply later_alive, (onward_later _ _ H). Qed.

(** ** Inviting *)

(** The queue after an invitation: only the groups in [l] have changed, and not their
    players; [side] is the faction they are given, 0 when they keep theirs. *)
Record same_places (Q Q' : BattlegroundQueue) : Prop := {
  same_players : m_QueuedPlayers Q' = m_QueuedPlayers Q;
  same_queued : m_QueuedGroups Q' = m_QueuedGroups Q;
  same_next : next_group Q' = next_group Q;
  same_alliance : pool_alliance Q' = pool_alliance Q;
  same_horde : pool_horde Q' = pool_horde Q
}.
Lemma same_places_refl Q : same_places Q Q.
Proof. done. Qed.
Lemma same_places_trans Q1 Q2 Q3 : same_places Q1 Q2 -> same_places Q2 Q3 -> same_places Q1 Q3.
Proof. intros [] []. constructor; congruence. Qed.

Lemma invite_player_safe E ginfo ptr guid Q R :
  realm_ok R -> is_Some (bgs R !! ptr) ->
  safe (fun r => same_places Q r.1 /\ groups r.1 = groups Q /\ onward R r.2) (invite_player E ginfo ptr guid Q R).
Proof.
  intros HR [b Hb]. unfold invite_player. destruct (FindPlayer guid R); [|by split_and!; [..|apply onward_refl]].
  unfold bg_at at 1. rewrite Hb. cbn [bind_result].
  apply (ensures_bind _ (fun Q' => same_places Q Q' /\ groups Q' = groups Q)).
  { unfold PlayerInvitedToBGUpdateAverageWaitTime. by destruct (bracket_ok _). }
  intros Q1 [HS HG].
  destruct (onward_bg R ptr (IncreaseInvitedCount (Team ginfo)) b HR Hb (keeps_Increase _) (counts_Increase _)) as (R1 & -> & H1).
  cbn [bind_result]. set (q := BGQueueTypeId _ _). set (R2 := on_player _ _ R1).
  assert (onward R1 R2) as H2 by (apply onward_same; [apply H1|done]).
  destruct (onward_alive R R2 ptr (onward_trans _ _ _ H1 H2)) as [b2 Hb2]; [by exists b|].
  unfold bg_at. rewrite Hb2. cbn [bind_result ensures fst snd]. split; [|split; [done|]].
  - destruct HS. by constructor.
  - apply (onward_trans _ _ _ (onward_trans _ _ _ H1 H2)). apply onward_same; [apply H2|done].
Qed.

Lemma invite_players_safe E ginfo ptr guids Q R :
  realm_ok R -> is_Some (bgs R !! ptr) ->
  safe (fun r => same_places Q r.1 /\ groups r.1 = groups Q /\ onward R r.2) (invite_players E ginfo ptr guids Q R).
Proof.
  revert Q R. induction guids as [|guid guids IH]; intros Q R HR Hb; cbn [invite_players]; [by split_and!; [..|apply onward_refl]|].
  apply (ensures_bind _ _ _ _ _ (invite_player_safe E ginfo ptr guid Q R HR Hb)). intros [Q1 R1] (HS & HG & HO). cbn [fst snd] in *.
  apply (ensures_weaken _ _ _ _ (IH Q1 R1 (onward_ok _ _ HO) (onward_alive _ _ _ HO Hb))).
  intros [Q2 R2] (HS2 & HG2 & HO2). cbn [fst snd] in *. split_and!; [by eapply same_places_trans|congruence|by eapply onward_trans].
Qed.

Lemma InviteGroupToBG_safe E g gi ptr side Q R :
  realm_ok R -> is_Some (bgs R !! ptr) -> groups Q !! g = Some gi ->
  safe (fun r => same_places Q r.1.2 /\ onward R r.2 /\
      exists gi', groups r.1.2 = <[g := gi']> (groups Q) /\ Players gi' = Players gi /\ Team gi' = if side =? 0 then Team gi else side)
    (InviteGroupToBG E g ptr side Q R).
Proof.
  intros HR [b Hb] Hg. unfold InviteGroupToBG, group_at. rewrite Hg. cbn [bind_result].
  set (gi1 := if side =? 0 then gi else set_Team side gi).
  assert (Players gi1 = Players gi /\ Team gi1 = if side =? 0 then Team gi else side) as [Ep Et] by (unfold gi1; by destruct (side =? 0)).
  destruct (invited gi1). { split; [done|]. split; [by apply onward_refl|]. by exists gi1. }
  unfold bg_at at 1. rewrite Hb. cbn [bind_result]. set (gi2 := set_invitation _ _ gi1). set (Q2 := set_group g gi2 _).
  assert (exists R1, (if isArena b && isRated b then on_bg ptr (SetArenaTeamIdForTeam (Team gi2) (ArenaTeamId gi2)) R else Ok R) = Ok R1 /\ onward R R1)
    as (R1 & -> & H1).
  { destruct (_ && _); [|exists R; split; [done|by apply onward_refl]]. apply (onward_bg _ _ _ b); auto using keeps_ArenaTeamId, counts_ArenaTeamId. }
  cbn [bind_result].
  apply (ensures_bind _ _ _ _ _ (invite_players_safe E gi2 ptr (Players gi2) Q2 R1 (onward_ok _ _ H1) (onward_alive _ _ _ H1 (mk_is_Some _ _ Hb)))).
  intros [Q3 R3] (HS & HG & HO). cbn [ensures fst snd] in *. split; [by destruct HS|]. split; [by eapply onward_trans|].
  exists gi2. split; [|done]. rewrite HG. unfold Q2. cbn. apply insert_insert_eq.
Qed.

(** Groups invited as what they are: the queue is as good as it was. *)
Record invites (Q Q' : BattlegroundQueue) : Prop := {
  invites_places : same_places Q Q';
  invites_wf : queue_wf Q';
  invites_alive g : is_Some (groups Q !! g) -> is_Some (groups Q' !! g)
}.
Lemma invites_refl Q : queue_wf Q -> invites Q Q.
Proof. intros H. constructor; auto using same_places_refl. Qed.
Lemma invites_trans Q1 Q2 Q3 : invites Q1 Q2 -> invites Q2 Q3 -> invites Q1 Q3.
Proof. intros [] []. constructor; [by eapply same_places_trans|done|auto]. Qed.

Lemma invites_set Q Q' g gi gi' :
  queue_wf Q -> same_places Q Q' -> groups Q !! g = Some gi -> groups Q' = <[g := gi']> (groups Q) ->
  Players gi' = Players gi -> Team gi' = Team gi -> invites Q Q'.
Proof.
  intros HQ HS Hg HG Ep Et. constructor; [done| |].
  - apply (same_groups_wf (set_group g gi' Q)); [|by apply (queue_wf_set _ _ gi)]. destruct HS. by split_and!.
  - intros p Hp. rewrite HG. apply is_Some_insert; [by exists gi|done].
Qed.

Lemma invite_groups_safe E ptr l Q R :
  queue_wf Q -> realm_ok R -> is_Some (bgs R !! ptr) -> live (groups Q) l ->
  safe (fun r => invites Q r.1 /\ onward R r.2) (invite_groups E ptr l Q R).
Proof.
  revert Q R. induction l as [|g l IH]; intros Q R HQ HR Hb Hl; cbn [invite_groups].
  { split; [by apply invites_refl|by apply onward_refl]. }
  apply Forall_cons in Hl as [[gi Hg] Hl]. unfold group_at. rewrite Hg. cbn [bind_result].
  apply (ensures_bind _ _ _ _ _ (InviteGroupToBG_safe E g gi ptr (Team gi) Q R HR Hb Hg)).
  intros [[x Q1] R1] (HS & HO & gi' & HG & Ep & Et). cbn [fst snd] in *.
  assert (invites Q Q1) as HI. { apply (invites_set _ _ g gi gi'); try done. rewrite Et. by destruct (Team gi =? 0). }
  assert (live (groups Q1) l) as Hl1 by (apply (Forall_impl _ _ _ Hl); intros; by apply HI).
  apply (ensures_weaken _ _ _ _ (IH Q1 R1 (invites_wf _ _ HI) (onward_ok _ _ HO) (onward_alive _ _ _ HO Hb) Hl1)).
  intros [Q2 R2] [HI2 HO2]. cbn [fst snd] in *. split; [by eapply invites_trans|by eapply onward_trans].
Qed.

(** Both pools hold groups that exist. *)
Definition pools_live (Q : BattlegroundQueue) : Prop :=
  live (groups Q) (SelectedGroups (pool_alliance Q)) /\ live (groups Q) (SelectedGroups (pool_horde Q)).

Lemma invite_pools_safe E ptr Q R :
  queue_wf Q -> realm_ok R -> is_Some (bgs R !! ptr) -> pools_live Q ->
  safe (fun r => invites Q r.1 /\ onward R r.2) (invite_pools E ptr Q R).
Proof.
  intros HQ HR Hb [Ha Hh]. unfold invite_pools.
  apply (ensures_bind _ _ _ _ _ (invite_groups_safe E ptr _ Q R HQ HR Hb Ha)). intros [Q1 R1] [HI HO]. cbn [fst snd] in *.
  assert (pool TEAM_HORDE Q1 = pool_horde Q) as -> by apply (same_horde _ _ (invites_places _ _ HI)).
  assert (live (groups Q1) (SelectedGroups (pool_horde Q))) as Hl by (apply (Forall_impl _ _ _ Hh); intros; by apply HI).
  apply (ensures_weaken _ _ _ _ (invite_groups_safe E ptr _ Q1 R1 (invites_wf _ _ HI) (onward_ok _ _ HO) (onward_alive _ _ _ HO Hb) Hl)).
  intros [Q2 R2] [HI2 HO2]. cbn [fst snd] in *. split; [by eapply invites_trans|by eapply onward_trans].
Qed.

(** ** Counting the players of a queue *)
Definition fits (Q : BattlegroundQueue) : Prop := Z.of_nat (base.size (m_QueuedPlayers Q)) < 2 ^ 31.

Definition members_of (gs : gmap Z GroupQueueInfo) (g : Z) : list Z := match gs !! g with Some gi => Players gi | None => [] end.

Lemma total_members gs l : total gs l = Z.of_nat (length (concat (map (members_of gs) l))).
Proof.
  induction l as [|g l IH]; [done|]. cbn [map concat total foldr]. fold (total gs l). rewrite length_app, IH. unfold players_in, members_of, BattlegroundQueue.size.
  destruct (gs !! g); cbn [length]; lia.
Qed.

Lemma sorted_NoDup l : StronglySorted Z.lt l -> NoDup l.
Proof.
  induction 1 as [|x l _ IH Hall]; [constructor|]. constructor; [|done]. intros Hx. rewrite Forall_forall in Hall. specialize (Hall x Hx). lia.
Qed.

Lemma total_fits Q l : queue_wf Q -> NoDup l -> total (groups Q) l <= Z.of_nat (base.size (m_QueuedPlayers Q)).
Proof.
  intros HQ Hl. pose proof (queue_store _ HQ) as HS. set (L := concat (map (members_of (groups Q)) l)).
  assert (Hin : forall l p, p ∈ concat (map (members_of (groups Q)) l) -> exists g, g ∈ l /\ GroupInfo <$> m_QueuedPlayers Q !! p = Some g).
  { clear -HS. intros l p. rewrite list_elem_of_In, in_concat. intros (ps & Hps & Hp). apply in_map_iff in Hps as (g & <- & Hg).
    rewrite <- list_elem_of_In in *. unfold members_of in Hp. destruct (groups Q !! g) as [gi|] eqn:E; [|by apply not_elem_of_nil in Hp].
    exists g. split; [done|]. by apply (wf_member _ _ _ HS g gi). }
  assert (NoDup L) as HL.
  { subst L. induction Hl as [|g l Hg Hl IH]; cbn; [constructor|]. apply NoDup_app. split_and!; [| |done].
    - unfold members_of. destruct (groups Q !! g) as [gi|] eqn:E; [|constructor]. apply sorted_NoDup, (wf_members _ _ _ HS g gi E).
    - intros p Hp Hp'. destruct (Hin l p Hp') as (g' & Hg' & E1). destruct (Hin [g] p) as (g'' & ->%list_elem_of_singleton & E2).
      { cbn. by rewrite app_nil_r. } congruence. }
  rewrite total_members. fold L. apply inj_le. rewrite <- (size_list_to_set (C := gset Z) L HL), <- (size_dom (D := gset Z)). apply subseteq_size.
  intros p Hp%elem_of_list_to_set. apply elem_of_dom. destruct (Hin l p Hp) as (g & _ & E). destruct (m_QueuedPlayers Q !! p); [by eexists|done].
Qed.

Lemma queued_NoDup Q b k : queue_wf Q -> NoDup (queued b k Q).
Proof. intros HQ. apply (wf_once _ _ (queue_place _ HQ)). Qed.

Lemma queue_ok_wf Q b k : queue_wf Q -> fits Q -> queue_ok b k Q.
Proof.
  intros HQ HF. split; [by apply queued_alive|]. pose proof (total_fits Q _ HQ (queued_NoDup Q b k HQ)). unfold fits in HF. lia.
Qed.

(** ** Running battlegrounds *)

(** A queue that is good and not too long, and a step that keeps it so and keeps its
    groups. *)
Definition queue_good (Q : BattlegroundQueue) : Prop := queue_wf Q /\ fits Q.

Record forth (R R' : Realm) : Prop := {
  forth_ok : realm_ok R';
  forth_later : later R R';
  forth_ids : map_mgr R' = map_mgr R
}.
Lemma forth_refl R : realm_ok R -> forth R R.
Proof. by constructor. Qed.
Lemma forth_trans R1 R2 R3 : forth R1 R2 -> forth R2 R3 -> forth R1 R3.
Proof. intros [] []. constructor; [done|by eapply later_trans|congruence]. Qed.
Lemma onward_forth R R' : onward R R' -> forth R R'.
Proof. intros []. by constructor. Qed.
Lemma forth_alive R R' ptr : forth R R' -> is_Some (bgs R !! ptr) -> is_Some (bgs R' !! ptr).
Proof. intros H. apply later_alive, (forth_later _ _ H). Qed.

Lemma set_pools_good Q la lh pa ph :
  queue_good Q -> pool_ok (groups Q) la pa -> pool_ok (groups Q) lh ph ->
  let Q' := set_pool TEAM_HORDE ph (set_pool TEAM_ALLIANCE pa Q) in queue_good Q' /\ pools_live Q' /\ same_groups Q Q'.
Proof.
  intros [HQ HF] Ha Hh. cbv zeta. set (Q' := set_pool _ _ _). assert (same_groups Q Q') as HS by done.
  split; [split; [by apply (same_groups_wf Q)|done]|]. split; [|done]. split; by eapply pool_live.
Qed.

Lemma invites_good Q Q' : queue_good Q -> invites Q Q' -> queue_good Q'.
Proof. intros [_ HF] [HS HW _]. split; [done|]. unfold fits. by rewrite (same_players _ _ HS). Qed.

Lemma fill_running_safe E t bracket l Q R :
  queue_good Q -> realm_ok R -> Forall (fun p => is_Some (bgs R !! p)) l ->
  safe (fun r => queue_good r.1 /\ forth R r.2) (fill_running E t bracket l Q R).
Proof.
  revert Q R. induction l as [|ptr l IH]; intros Q R HQ HR Hl; cbn [fill_running]; [split; [done|by apply forth_refl]|].
  apply Forall_cons in Hl as [[b Hb] Hl]. unfold bg_at at 1. rewrite Hb. cbn [bind_result].
  destruct (accepts t bracket b); [|by apply IH].
  destruct (FillPlayersToBG_ok E b bracket Q (queue_ok_wf _ _ _ (proj1 HQ) (proj2 HQ)) (queue_ok_wf _ _ _ (proj1 HQ) (proj2 HQ)) (proj2 HR _ _ Hb))
    as (a & h & -> & Hsa & Hsh & _). cbn [bind_result].
  destruct (set_pools_good Q _ _ (selected a) (selected h) HQ (side_pool_ok _ _ _ Hsa) (side_pool_ok _ _ _ Hsh)) as (HQ1 & HP1 & _).
  set (Q1 := set_pool TEAM_HORDE _ _) in *.
  apply (ensures_bind _ _ _ _ _ (invite_pools_safe E ptr Q1 R (proj1 HQ1) HR (mk_is_Some _ _ Hb) HP1)).
  intros [Q2 R2] [HI HO]. cbn [fst snd] in *. pose proof (invites_good _ _ HQ1 HI) as HQ2.
  destruct (onward_alive _ _ ptr HO (mk_is_Some _ _ Hb)) as [b2 Hb2]. unfold bg_at. rewrite Hb2. cbn [bind_result].
  assert (exists R3, (if HasFreeSlots b2 then Ok R2 else RemoveFromBGFreeSlotQueue ptr R2) = Ok R3 /\ forth R2 R3) as (R3 & -> & H3).
  { destruct (HasFreeSlots b2); [exists R2; split; [done|]; apply forth_refl, HO|].
    destruct (onward_ok _ _ HO) as [HR2 HC2].
    destruct (RemoveFromBGFreeSlotQueue_ok ptr b2 R2 HR2 Hb2) as (R3 & E3 & HR3 & HL3 & Ei & _). exists R3. split; [done|].
    pose proof (RemoveFromBGFreeSlotQueue_counted ptr R2 HC2) as HC3. rewrite E3 in HC3. by constructor. }
  cbn [bind_result]. pose proof (forth_trans _ _ _ (onward_forth _ _ HO) H3) as H13.
  assert (Forall (fun p => is_Some (bgs R3 !! p)) l) as Hl3 by (apply (Forall_impl _ _ _ Hl); intros; by apply (forth_alive R)).
  apply (ensures_weaken _ _ _ _ (IH Q2 R3 HQ2 (forth_ok _ _ H3) Hl3)). intros [Q4 R4] [HQ4 H4]. cbn [fst snd] in *.
  split; [done|]. by eapply forth_trans.
Qed.

(** ** New matches *)

(** A group that moves to the front of another queue of its bracket, perhaps with a new
    faction. *)
Lemma move_group_good Q b k k' i g gi gi' :
  queue_good Q -> queued b k Q !! i = Some g -> groups Q !! g = Some gi -> Players gi' = Players gi -> Team gi' = faction k' ->
  k <> k' -> 0 <= k' < 4 ->
  queue_good (erase_at b k i (push_front b k' g (set_group g gi' Q))).
Proof.
  intros [[HS HP HT] HF] Hi Hg Ep Et Hne Hk'. set (Q1 := set_group g gi' Q). split; [|done].
  assert (Hq : queued b k (push_front b k' g Q1) = queued b k Q).
  { unfold push_front. rewrite queued_set, decide_False by congruence. done. }
  set (Q2 := erase_at _ _ _ _).
  assert (m_QueuedGroups Q2 = <[(b, k) := delete i (queued b k Q)]> (<[(b, k') := g :: queued b k' Q]> (m_QueuedGroups Q))) as Eq.
  { unfold Q2, erase_at. rewrite Hq. done. }
  constructor.
  - by apply (store_wf_set _ _ _ _ gi).
  - rewrite Eq. change (groups Q2) with (<[g := gi']> (groups Q)). apply place_wf_set; [|by exists gi].
    by apply place_wf_move.
  - rewrite Eq. change (groups Q2) with (<[g := gi']> (groups Q)). intros b1 k1 p g0. rewrite !at_insert.
    assert (Hin : g ∈ queued b k Q) by (by eapply list_elem_of_lookup_2).
    assert (Hold : forall b1 k1 p g0, p ∈ queued b1 k1 Q -> p <> g -> <[g := gi']> (groups Q) !! p = Some g0 -> Team g0 = faction k1).
    { intros b2 k2 p0 g2 Hp Hpn. rewrite lookup_insert_ne by done. by apply (HT b2 k2 p0 g2). }
    assert (Hd : forall p, p ∈ delete i (queued b k Q) <-> p ∈ queued b k Q /\ p <> g).
    { intros p0. apply elem_of_delete; [apply HP|done]. }
    case_decide as E1; [injection E1 as -> ->; intros [Hp Hpn]%Hd; by apply (Hold b k)|].
    case_decide as E2; [injection E2 as -> ->|].
    + intros [->|Hp]%elem_of_cons; [rewrite lookup_insert_eq; by intros [= <-]|].
      destruct (decide (p = g)) as [->|]; [rewrite lookup_insert_eq; by intros [= <-]|by apply (Hold b k')].
    + intros Hp. apply (Hold b1 k1); [done|]. intros ->. destruct (wf_one _ _ HP _ _ _ _ _ Hin Hp) as [-> ->]. done.
Qed.

Definition no_pools (Q : BattlegroundQueue) : Prop := pool_alliance Q = no_pool /\ pool_horde Q = no_pool.

Lemma first_waiting_ok gs l : live gs l -> exists r, first_waiting gs l = Ok r /\ forall g, r = Some g -> g ∈ l.
Proof.
  induction 1 as [|g l [gi Hg] _ IH]; cbn [first_waiting]; [by exists None|]. unfold group_at. rewrite Hg. cbn [bind_result].
  destruct (invited gi); [|exists (Some g); split; [done|]; intros ? [= ->]; by left].
  destruct IH as (r & -> & Hr). exists r. split; [done|]. intros g' Hg'. right. by apply Hr.
Qed.

Lemma set_group_id Q g gi : groups Q !! g = Some gi -> set_group g gi Q = Q.
Proof. intros Hg. unfold set_group. rewrite insert_id by done. by destruct Q. Qed.

Lemma move_premade_safe E b lo i Q :
  queue_good Q -> i = TEAM_ALLIANCE \/ i = TEAM_HORDE -> no_pools Q ->
  safe (fun Q' => queue_good Q' /\ no_pools Q') (move_premade E b lo i Q).
Proof.
  intros HQ Hi HN. unfold move_premade. destruct (queued b (BG_QUEUE_PREMADE_ALLIANCE + i) Q) as [|g l] eqn:Eq; [done|].
  pose proof (queued_alive Q b (BG_QUEUE_PREMADE_ALLIANCE + i) (proj1 HQ)) as Hl. rewrite Eq in Hl. apply Forall_cons in Hl as [[gi Hg] _].
  unfold group_at. rewrite Hg. cbn [bind_result]. destruct (_ && _); [|done]. cbn [ensures]. split; [|done].
  rewrite <- (set_group_id Q g gi Hg) at 1. apply (move_group_good Q b _ _ 0 g gi gi); try done; [by rewrite Eq| | |].
  - rewrite (queue_team _ (proj1 HQ) b (BG_QUEUE_PREMADE_ALLIANCE + i) g gi); [by destruct Hi as [-> | ->]| |done].
    change (g ∈ queued b (BG_QUEUE_PREMADE_ALLIANCE + i) Q). rewrite Eq. by left.
  - unfold BG_QUEUE_PREMADE_ALLIANCE, BG_QUEUE_NORMAL_ALLIANCE. lia.
  - destruct Hi as [-> | ->]; vm_compute; split; congruence.
Qed.

(** Pools filled from the first group of a premade queue and the normal queue. *)
Lemma premade_pool Q b k k' a hi :
  queue_good Q -> a ∈ queued b k Q -> k <> k' ->
  exists x pa, SelectionPool_AddGroup a hi (groups Q) no_pool = Ok (x, pa) /\
    forall n, exists pa', fill_loop n (groups Q) (queued b k' Q) pa = Ok pa' /\ pool_ok (groups Q) (a :: queued b k' Q) pa'.
Proof.
  intros [HQ HF] Ha Hk. pose proof (queue_place _ HQ) as HP.
  assert (Hfit : forall l, NoDup l -> total (groups Q) l < 2 ^ 32). { intros l Hl. pose proof (total_fits Q l HQ Hl). unfold fits in HF. lia. }
  assert (NoDup (a :: queued b k' Q)) as Hnd.
  { constructor; [|by apply queued_NoDup]. intros Ha'. destruct (wf_one _ _ HP _ _ _ _ _ Ha Ha') as [_ ->]. done. }
  destruct (wf_place _ _ HP _ _ _ Ha) as (_ & _ & Hlive).
  destruct (AddGroup_ok (groups Q) [] a hi no_pool Hlive (no_pool_ok _ _) (Hfit [a] (NoDup_singleton a))) as (x & pa & -> & Hpa & _).
  exists x, pa. split; [done|]. intros m.
  destruct (fill_loop_ok (groups Q) m (queued b k' Q) [a] pa (queued_alive Q b k' HQ) Hpa (Hfit _ Hnd)) as (pa' & -> & Hpa' & _).
  by exists pa'.
Qed.

Lemma CheckPremadeMatch_safe E b lo hi Q :
  queue_good Q -> no_pools Q ->
  safe (fun r => queue_good r.2 /\ if r.1 : bool then pools_live r.2 else no_pools r.2) (CheckPremadeMatch E b lo hi Q).
Proof.
  intros HQ HN. unfold CheckPremadeMatch. cbv zeta. set (qa := queued b BG_QUEUE_PREMADE_ALLIANCE Q). set (qh := queued b BG_QUEUE_PREMADE_HORDE Q).
  assert (exists first, match qa, qh with
                | _ :: _, _ :: _ =>
                    let? a := first_waiting (groups Q) qa in
                    let? h := first_waiting (groups Q) qh in
                    Ok (match a, h with Some a, Some h => Some (a, h) | _, _ => None end)
                | _, _ => Ok None
                end = Ok first /\ forall a h, first = Some (a, h) -> a ∈ qa /\ h ∈ qh) as (first & Hf & Hin).
  { destruct (first_waiting_ok (groups Q) qa) as (ra & Ea & Ha); [apply queued_alive, HQ|].
    destruct (first_waiting_ok (groups Q) qh) as (rh & Eh & Hh); [apply queued_alive, HQ|].
    destruct qa as [|a0 la] eqn:Eqa; [by exists None|]. destruct qh as [|h0 lh] eqn:Eqh; [by exists None|].
    rewrite Ea. cbn [bind_result]. rewrite Eh. cbn [bind_result]. eexists. split; [done|]. intros a h.
    destruct ra as [ra|]; [|done]. destruct rh as [rh|]; [|done]. intros [= <- <-]. auto. }
  rewrite Hf. cbn [bind_result]. destruct HN as [HNa HNh]. destruct first as [[a h]|].
  - destruct (Hin a h eq_refl) as [Ha Hh]. change (pool TEAM_ALLIANCE Q) with (pool_alliance Q). change (pool TEAM_HORDE Q) with (pool_horde Q).
    rewrite HNa, HNh.
    destruct (premade_pool Q b _ BG_QUEUE_NORMAL_ALLIANCE a hi HQ Ha) as (xa & pa & -> & Hfa); [done|]. cbn [bind_result].
    destruct (premade_pool Q b _ BG_QUEUE_NORMAL_HORDE h hi HQ Hh) as (xh & ph & -> & Hfh); [done|]. cbn [bind_result].
    destruct (Hfa (Z.min (PlayerCount pa) (PlayerCount ph))) as (pa' & -> & Hpa). cbn [bind_result].
    destruct (Hfh (Z.min (PlayerCount pa) (PlayerCount ph))) as (ph' & -> & Hph). cbn [bind_result ensures fst snd].
    destruct (set_pools_good Q _ _ pa' ph' HQ Hpa Hph) as (? & ? & _). done.
  - apply (ensures_bind _ _ _ _ _ (move_premade_safe E b lo TEAM_ALLIANCE Q HQ (or_introl eq_refl) (conj HNa HNh))).
    intros Q1 [HQ1 HN1]. apply (ensures_bind _ _ _ _ _ (move_premade_safe E b lo TEAM_HORDE Q1 HQ1 (or_intror eq_refl) HN1)).
    by intros Q2 [HQ2 HN2].
Qed.

(** What the pools of a normal match hold. *)
Definition normal_pools (b : Z) (Q : BattlegroundQueue) : Prop :=
  pool_ok (groups Q) (queued b BG_QUEUE_NORMAL_ALLIANCE Q) (pool_alliance Q) /\
  pool_ok (groups Q) (queued b BG_QUEUE_NORMAL_HORDE Q) (pool_horde Q).

Lemma fill_rest_ok gs d q dn l p :
  live gs q -> total gs q < 2 ^ 31 -> q = dn ++ l -> pool_ok gs dn p -> exists p', fill_loop d gs l p = Ok p' /\ pool_ok gs q p'.
Proof.
  intros Hl Ht -> Hp. unfold live in Hl. apply Forall_app in Hl as [_ Hl].
  destruct (fill_loop_ok gs d l dn p Hl Hp) as (p' & -> & Hp' & _); [lia|]. by exists p'.
Qed.

Lemma even_out_safe gs qa qh ia ih pa ph :
  live gs qa -> live gs qh -> total gs qa < 2 ^ 31 -> total gs qh < 2 ^ 31 -> pool_ok gs qa pa -> pool_ok gs qh ph ->
  (forall g l, ia = g :: l -> exists dn, qa = dn ++ l /\ pool_ok gs dn pa) -> (forall g l, ih = g :: l -> exists dn, qh = dn ++ l /\ pool_ok gs dn ph) ->
  safe (fun r => pool_ok gs qa r.1 /\ pool_ok gs qh r.2) (even_out gs ia ih pa ph).
Proof.
  intros Hla Hlh Hta Hth Hpa Hph Hia Hih. unfold even_out. destruct (PlayerCount ph <? PlayerCount pa).
  - destruct ih as [|g l]; [done|]. destruct (Hih g l eq_refl) as (dn & E & Hp).
    destruct (fill_rest_ok gs (PlayerCount pa) qh dn l ph Hlh Hth E Hp) as (p' & -> & Hp'). done.
  - destruct ia as [|g l]; [done|]. destruct (Hia g l eq_refl) as (dn & E & Hp).
    destruct (fill_rest_ok gs (PlayerCount ph) qa dn l pa Hla Hta E Hp) as (p' & -> & Hp'). done.
Qed.

Lemma CheckNormalMatch_safe E t b lo hi Q :
  queue_good Q -> no_pools Q -> safe (fun r => queue_good r.2 /\ normal_pools b r.2) (CheckNormalMatch E t b lo hi Q).
Proof.
  intros HQ [HNa HNh]. unfold CheckNormalMatch. cbv zeta. change (pool TEAM_ALLIANCE Q) with (pool_alliance Q). change (pool TEAM_HORDE Q) with (pool_horde Q).
  rewrite HNa, HNh. destruct (queue_ok_wf Q b BG_QUEUE_NORMAL_ALLIANCE (proj1 HQ) (proj2 HQ)) as [Hla Hta].
  destruct (queue_ok_wf Q b BG_QUEUE_NORMAL_HORDE (proj1 HQ) (proj2 HQ)) as [Hlh Hth].
  set (qa := queued b BG_QUEUE_NORMAL_ALLIANCE Q) in *. set (qh := queued b BG_QUEUE_NORMAL_HORDE Q) in *.
  destruct (normal_loop_ok (groups Q) lo hi qa [] no_pool Hla (no_pool_ok _ _)) as (ia & pa & -> & Hpa & _ & Hia); [cbn [app]; lia|]. cbn [bind_result].
  destruct (normal_loop_ok (groups Q) lo hi qh [] no_pool Hlh (no_pool_ok _ _)) as (ih & ph & -> & Hph & _ & Hih); [cbn [app]; lia|]. cbn [bind_result app] in *.
  set (bal := negb _ && _). apply (ensures_bind _ (fun r => pool_ok (groups Q) qa r.1 /\ pool_ok (groups Q) qh r.2)).
  - destruct bal; [|done]. apply even_out_safe; try done.
    + intros g l ->. apply Hia.
    + intros g l ->. apply Hih.
  - intros [pa' ph'] [Ha Hh]. cbn [ensures fst snd] in *. destruct (set_pools_good Q _ _ pa' ph' HQ Ha Hh) as (? & _ & _). done.
Qed.

Lemma position_some x l i : position x l = Some i -> is_Some (l !! i).
Proof.
  revert i. induction l as [|y l IH]; intros i; cbn; [done|]. destruct (y =? x); [intros [= <-]; by exists y|].
  destruct (position x l) as [j|] eqn:E; [|done]. intros [= <-]. by apply IH.
Qed.

(** The team of the first pool and the other team. *)
Definition teams (t o oid : Z) : Prop :=
  (t = TEAM_ALLIANCE /\ o = TEAM_HORDE /\ oid = HORDE) \/ (t = TEAM_HORDE /\ o = TEAM_ALLIANCE /\ oid = ALLIANCE).

Lemma move_skirmish_safe b t o oid i p Q before after :
  queue_good Q -> teams t o oid -> queued b (BG_QUEUE_NORMAL_ALLIANCE + t) Q = before ++ after -> length before = S i ->
  pool_ok (groups Q) after p ->
  safe (fun Q' => queue_good Q' /\ pool_alliance Q' = pool_alliance Q /\ pool_horde Q' = pool_horde Q /\
      forall g, is_Some (groups Q !! g) -> is_Some (groups Q' !! g)) (move_skirmish b t o oid i true (SelectedGroups p) Q).
Proof.
  intros HQ Hteams Hq Hlen Hp. assert (t <> o) as Hto by (destruct Hteams as [(-> & -> & _)|(-> & -> & _)]; done).
  pose proof (pool_sublist _ _ _ Hp) as Hsub. pose proof (pool_live _ _ _ Hp) as Hlive.
  destruct (SelectedGroups p) as [|g1 [|g2 s]]; [by split_and!| |].
  - destruct (position_elem g1 after) as (l1 & l2 & Ea & Hn1 & _). { apply (sublist_subseteq _ _ Hsub). by left. }
    apply Forall_cons in Hlive as [[gi Hgi] _]. rewrite (move_skirmish_eq b t o oid i g1 gi Q before l1 l2) by (rewrite ?Hq, ?Ea; done).
    cbn [ensures]. split_and!; [|done|done|intros g; cbn; apply is_Some_insert; by exists gi].
    apply (move_group_good Q b _ _ _ g1 gi (set_Team oid gi)); try done.
    + rewrite Hq, Ea, app_assoc, <- length_app. by apply list_lookup_middle.
    + by destruct Hteams as [(_ & -> & ->)|(_ & -> & ->)].
    + unfold BG_QUEUE_NORMAL_ALLIANCE. lia.
    + destruct Hteams as [(_ & -> & _)|(_ & -> & _)]; vm_compute; split; congruence.
  - destruct (sublist_two _ _ _ _ Hsub) as (l1 & l2 & Ea & Hin2). apply Forall_cons in Hlive as [Hl1 [Hl2 _]%Forall_cons].
    rewrite (move_skirmish_two b t o oid i g1 g2 s Q before l1 l2); try done; [by rewrite Hq, Ea|].
    pose proof (queued_NoDup Q b (BG_QUEUE_NORMAL_ALLIANCE + t) (proj1 HQ)) as Hnd. rewrite Hq, Ea in Hnd.
    apply NoDup_app in Hnd as (_ & _ & Hnd). by apply NoDup_middle in Hnd.
Qed.

(** A pool that is replaced. *)
Lemma set_pool_other t o oid p Q :
  teams t o oid -> same_groups Q (set_pool o p Q) /\ pool t (set_pool o p Q) = pool t Q /\ pool o (set_pool o p Q) = p.
Proof. by intros [(-> & -> & _)|(-> & -> & _)]. Qed.
Lemma same_groups_good Q Q' : same_groups Q Q' -> queue_good Q -> queue_good Q'.
Proof. intros HS [HQ HF]. split; [by apply (same_groups_wf Q)|]. unfold fits. by rewrite (proj1 HS). Qed.

Lemma CheckSkirmish_safe b m Q :
  queue_good Q -> normal_pools b Q ->
  safe (fun r => queue_good r.2 /\ (r.1 = true -> pools_live r.2)) (CheckSkirmishForSameFaction b m Q).
Proof.
  intros HQ [Hpa Hph]. unfold CheckSkirmishForSameFaction. cbv zeta. destruct (_ && _); [done|].
  set (h := PlayerCount (pool TEAM_HORDE Q) =? m). set (t := if h then TEAM_HORDE else TEAM_ALLIANCE). set (o := if h then TEAM_ALLIANCE else TEAM_HORDE).
  set (oid := if h then ALLIANCE else HORDE).
  assert (teams t o oid /\ live (groups Q) (SelectedGroups (pool t Q))) as [Hteams Hlt].
  { unfold teams, t, o, oid. destruct h; (split; [tauto|]); [apply (pool_live _ _ _ Hph)|apply (pool_live _ _ _ Hpa)]. }
  clearbody t o oid. set (Q1 := set_pool o _ Q). destruct (set_pool_other t o oid (SelectionPool_Init (pool o Q)) Q Hteams) as (HS1 & E1 & E2).
  fold Q1 in HS1, E1, E2. change (SelectionPool_Init (pool o Q)) with no_pool in E2. rewrite E1, E2. pose proof (same_groups_good _ _ HS1 HQ) as HQ1.
  destruct (last (SelectedGroups (pool t Q))) as [ginfo|]; [|done].
  set (q := queued b (BG_QUEUE_NORMAL_ALLIANCE + t) Q1). destruct (position ginfo q) as [i|] eqn:Epos; [|done].
  destruct (queue_ok_wf Q1 b (BG_QUEUE_NORMAL_ALLIANCE + t) (proj1 HQ1) (proj2 HQ1)) as [Hl Ht]. fold q in Hl, Ht.
  set (before := take (S i) q). set (after := drop (S i) q). assert (q = before ++ after) as Eq by (symmetry; apply take_drop).
  assert (length before = S i) as Hlen.
  { unfold before. rewrite length_take. destruct (position_some ginfo q i Epos) as [x Hx]. apply lookup_lt_Some in Hx. lia. }
  assert (groups Q = groups Q1) as Eg by (symmetry; apply HS1). rewrite Eg.
  assert (exists p, fill_loop m (groups Q1) after no_pool = Ok p /\ pool_ok (groups Q1) after p) as (p & Hfill & Hpp).
  { rewrite Eq, total_app in Ht. pose proof (total_nonneg (groups Q1) before). unfold live in Hl. rewrite Eq in Hl. apply Forall_app in Hl as [_ Hl].
    destruct (fill_loop_ok (groups Q1) m after [] no_pool Hl (no_pool_ok _ _)) as (p & ? & ? & _); [cbn [app]; lia|]. by exists p. }
  rewrite Hfill. cbn [bind_result]. destruct (set_pool_other t o oid p Q1 Hteams) as (HS2 & F1 & F2). set (Q2 := set_pool o p Q1) in *.
  pose proof (same_groups_good _ _ HS2 HQ1) as HQ2. destruct (negb _); [done|].
  assert (groups Q2 = groups Q1) as Eg2 by apply HS2.
  assert (queued b (BG_QUEUE_NORMAL_ALLIANCE + t) Q2 = before ++ after) as Hq2 by (unfold queued; rewrite (proj1 (proj2 HS2)); exact Eq).
  apply (ensures_bind _ _ _ _ _ (move_skirmish_safe b t o oid i p Q2 before after HQ2 Hteams Hq2 Hlen ltac:(by rewrite Eg2))).
  intros Q3 (HQ3 & Ea & Eh & Hg). cbn [ensures fst snd]. split; [done|]. intros _. unfold pools_live. rewrite Ea, Eh.
  change (pool_alliance Q2) with (pool TEAM_ALLIANCE Q2). change (pool_horde Q2) with (pool TEAM_HORDE Q2).
  pose proof (pool_live _ _ _ Hpp) as Hlo. rewrite Eg2, <- Eg in Hg. rewrite <- Eg in Hlo.
  destruct Hteams as [(-> & -> & _)|(-> & -> & _)]; rewrite F1, F2, E1; split; (eapply Forall_impl; [eassumption|done]).
Qed.

(** A battleground is created for the pools and started. *)
Record grown (E : Env) (R R' : Realm) : Prop := {
  grown_ok : realm_ok R';
  grown_later : later R R';
  grown_ids : one_id E R R'
}.
Lemma forth_grown E R R' : forth R R' -> grown E R R'.
Proof. intros []. constructor; [done|done|by left]. Qed.

Lemma create_safe E t e at_ rated R :
  realm_ok R -> env_ok E R -> safe (fun r => grown E R r.2 /\ forall ptr, r.1 = Some ptr -> pending ptr r.2) (CreateNewBattleground E t e at_ rated R).
Proof.
  intros [HR HC] HE.
  apply (ensures_weaken _ _ _ _ (ensures_and _ _ _ _ _ (CreateNewBattleground_safe E t e at_ rated R HR HE) (CreateNewBattleground_counted E t e at_ rated R HC))).
  intros [x R1] [(H1 & H2 & H3 & H4) H5]. split; [by constructor|done].
Qed.

Lemma start_safe ptr R : realm_ok R -> pending ptr R -> safe (fun R' => realm_ok R' /\ later R R') (StartBattleground ptr R).
Proof.
  intros [HR HC] HP. apply (ensures_weaken _ _ _ _ (ensures_and _ _ _ _ _ (StartBattleground_safe ptr R HR HP) (StartBattleground_counted ptr R HC))).
  by intros R1 [[? ?] ?].
Qed.

Lemma pending_alive ptr R : pending ptr R -> is_Some (bgs R !! ptr).
Proof. intros (b & Hb & _). by exists b. Qed.

(** [StartBattleground] makes no instance id, so that of the creation counts. *)
Lemma start_ids ptr R : ensures (fun _ => True) (fun R' => map_mgr R' = map_mgr R) (StartBattleground ptr R).
Proof.
  assert (Hon : forall f R, counted (fun R' => map_mgr R' = map_mgr R) (on_bg ptr f R)).
  { intros f R0. unfold on_bg. apply (ensures_bind _ (fun _ => True)); [apply anything|done]. }
  unfold StartBattleground. apply (ensures_bind _ _ _ _ _ (Hon _ _)). intros R1 <-.
  apply (ensures_bind _ (fun R' => map_mgr R' = map_mgr R1)).
  - unfold AddToBGFreeSlotQueue. apply (ensures_bind _ (fun _ => True)); [apply anything|]. intros b _. destruct (_ && _); [|done]. apply (ensures_weaken _ _ _ _ (Hon _ _)). by intros R2 ->.
  - intros R2 E2. unfold AddBattleground. apply (ensures_bind _ (fun _ => True)); [apply anything|]. by intros b _.
Qed.

(** The end of every match: what has been created is started. *)
Lemma start_grown E ptr R0 R1 R2 :
  grown E R0 R1 -> onward R1 R2 -> pending ptr R2 -> safe (fun R' => grown E R0 R') (StartBattleground ptr R2).
Proof.
  intros [HG1 HG2 HG3] HO HP.
  apply (ensures_weaken _ _ _ _ (ensures_and _ _ _ _ _ (start_safe ptr R2 (onward_ok _ _ HO) HP) (start_ids ptr R2))).
  intros R3 [[HR3 HL3] Ei]. constructor; [done|exact (later_trans _ _ _ HG2 (later_trans _ _ _ (onward_later _ _ HO) HL3))|].
  unfold one_id in *. by rewrite Ei, (onward_ids _ _ HO).
Qed.

Lemma start_match_safe E t e at_ Q R :
  queue_good Q -> pools_live Q -> realm_ok R -> env_ok E R ->
  safe (fun r => queue_good r.1.2 /\ grown E R r.2) (start_match E t e at_ Q R).
Proof.
  intros HQ HP HR HE. unfold start_match. apply (ensures_bind _ _ _ _ _ (create_safe E t e at_ false R HR HE)).
  intros [[ptr|] R1] [HG Hpend]; [|done]. cbn [fst snd] in *. specialize (Hpend ptr eq_refl).
  apply (ensures_bind _ _ _ _ _ (invite_pools_safe E ptr Q R1 (proj1 HQ) (grown_ok _ _ _ HG) (pending_alive _ _ Hpend) HP)).
  intros [Q2 R2] [HI HO]. cbn [fst snd] in *.
  apply (ensures_bind _ _ _ _ _ (start_grown E ptr R R1 R2 HG HO (onward_pending _ _ HO ptr Hpend))). intros R3 HG3.
  cbn [ensures fst snd]. split; [by apply (invites_good Q)|done].
Qed.

(** ** Rated matches *)
Lemma find_rated_ok P gs i l :
  live gs l -> exists r, find_rated P gs i l = Ok r /\
    forall j g, r = Some (j, g) -> (i <= j)%nat /\ l !! (j - i)%nat = Some g /\ exists gi, gs !! g = Some gi /\ P gi = true.
Proof.
  intros Hl. revert i. induction Hl as [|g l [gi Hg] _ IH]; intros i; cbn [find_rated]; [by exists None|].
  unfold group_at. rewrite Hg. cbn [bind_result]. destruct (P gi) eqn:EP.
  - exists (Some (i, g)). split; [done|]. intros j g' [= <- <-]. rewrite Nat.sub_diag. split; [lia|]. split; [done|]. by exists gi.
  - destruct (IH (S i)) as (r & -> & Hr). exists r. split; [done|]. intros j g' E. destruct (Hr j g' E) as (Hj & Hat & Hgi).
    split; [lia|]. split; [|done]. by replace (j - i)%nat with (S (j - S i)) by lia.
Qed.

Lemma wanted_rating_ok r b Q : queue_wf Q -> exists w, wanted_rating r b Q = Ok w.
Proof.
  intros HQ. unfold wanted_rating. destruct (negb (r =? 0)); [by eexists|].
  assert (Hf : forall k, exists f, match queued b k Q with [] => Ok None | g :: _ => let? gi := group_at g (groups Q) in Ok (Some gi) end = Ok f :> result fault _).
  { intros k. pose proof (queued_alive Q b k HQ) as Hl. destruct (queued b k Q) as [|g l]; [by eexists|].
    apply Forall_cons in Hl as [[gi Hg] _]. unfold group_at. rewrite Hg. by eexists. }
  destruct (Hf BG_QUEUE_PREMADE_ALLIANCE) as [f1 ->]. cbn [bind_result]. destruct (Hf BG_QUEUE_PREMADE_HORDE) as [f2 ->]. cbn [bind_result].
  by destruct f1, f2; eexists.
Qed.

(** The two teams are different groups in their places, one in each queue or both in
    one. *)
Definition teams_found (b : Z) (Q : BattlegroundQueue) (a h : Z * nat * Z) : Prop :=
  queued b a.1.1 Q !! a.1.2 = Some a.2 /\ queued b h.1.1 Q !! h.1.2 = Some h.2 /\ a.2 <> h.2 /\
  ((a.1.1 = BG_QUEUE_PREMADE_ALLIANCE /\ h.1.1 = BG_QUEUE_PREMADE_HORDE) \/
   (a.1.1 = h.1.1 /\ (a.1.1 = BG_QUEUE_PREMADE_ALLIANCE \/ a.1.1 = BG_QUEUE_PREMADE_HORDE))).

Lemma second_team P b k i g gi0 Q :
  queue_wf Q -> k = BG_QUEUE_PREMADE_ALLIANCE \/ k = BG_QUEUE_PREMADE_HORDE -> queued b k Q !! i = Some g -> groups Q !! g = Some gi0 ->
  exists r, find_rated (fun gi => P gi && negb (ArenaTeamId gi0 =? ArenaTeamId gi)) (groups Q) i (drop i (queued b k Q)) = Ok r /\
    forall j h, r = Some (j, h) -> teams_found b Q (k, i, g) (k, j, h).
Proof.
  intros HQ Hk Hi Hg. pose proof (queued_alive Q b k HQ) as Hl.
  destruct (find_rated_ok (fun gi => P gi && negb (ArenaTeamId gi0 =? ArenaTeamId gi)) (groups Q) i (drop i (queued b k Q)))
    as (r & -> & Hr); [by apply Forall_drop|].
  exists r. split; [done|]. intros j h E. destruct (Hr j h E) as (Hj & Hat & gi & Hh & HP). rewrite lookup_drop in Hat.
  replace (i + (j - i))%nat with j in Hat by lia. unfold teams_found. cbn. split_and!; [done|done| |right; tauto].
  intros ->. replace gi0 with gi in * by congruence. apply andb_true_iff in HP as [_ HP]. by rewrite Z.eqb_refl in HP.
Qed.

Lemma find_teams_ok E r b Q :
  queue_wf Q -> exists t, find_teams E r b Q = Ok t /\ forall a h, t = Some (a, h) -> teams_found b Q a h.
Proof.
  intros HQ. unfold find_teams. cbv zeta. set (P := may_play _ _ _).
  destruct (find_rated_ok P (groups Q) 0 (queued b BG_QUEUE_PREMADE_ALLIANCE Q)) as (ra & -> & Ha); [by apply queued_alive|]. cbn [bind_result].
  destruct (find_rated_ok P (groups Q) 0 (queued b BG_QUEUE_PREMADE_HORDE Q)) as (rh & -> & Hh); [by apply queued_alive|]. cbn [bind_result].
  destruct ra as [[i g]|], rh as [[i' g']|].
  - eexists. split; [done|]. intros ? ? [= <- <-]. destruct (Ha i g eq_refl) as (_ & Hi & _). destruct (Hh i' g' eq_refl) as (_ & Hi' & _).
    rewrite Nat.sub_0_r in *. unfold teams_found. cbn. split_and!; [done|done| |by left]. intros ->.
    destruct (wf_one _ _ (queue_place _ HQ) b BG_QUEUE_PREMADE_ALLIANCE b BG_QUEUE_PREMADE_HORDE g') as [_ [=]]; by eapply list_elem_of_lookup_2.
  - destruct (Ha i g eq_refl) as (_ & Hi & gi & Hg & _). rewrite Nat.sub_0_r in Hi. unfold group_at. rewrite Hg. cbn [bind_result].
    destruct (second_team P b BG_QUEUE_PREMADE_ALLIANCE i g gi Q HQ (or_introl eq_refl) Hi Hg) as (s & -> & Hs). cbn [bind_result].
    eexists. split; [done|]. intros a h. destruct s as [[j h']|]; [|done]. intros [= <- <-]. by apply Hs.
  - destruct (Hh i' g' eq_refl) as (_ & Hi & gi & Hg & _). rewrite Nat.sub_0_r in Hi. unfold group_at. rewrite Hg. cbn [bind_result].
    destruct (second_team P b BG_QUEUE_PREMADE_HORDE i' g' gi Q HQ (or_intror eq_refl) Hi Hg) as (s & -> & Hs). cbn [bind_result].
    eexists. split; [done|]. intros a h. destruct s as [[j h']|]; [|done]. intros [= <- <-]. by apply Hs.
  - by exists None.
Qed.

(** Both teams on their sides: at most one of them moves to the other queue, and with the
    factions of the sides the queue is good again. *)
Lemma set_group_good Q g gi gi' :
  queue_good Q -> groups Q !! g = Some gi -> Players gi' = Players gi -> Team gi' = Team gi -> queue_good (set_group g gi' Q).
Proof. intros [HQ HF] Hg Ep Et. split; [by apply (queue_wf_set _ _ gi)|done]. Qed.

Definition regrouped (Q Q' : BattlegroundQueue) (a h : Z) (ga gh : GroupQueueInfo) : Prop :=
  same_places Q Q' /\ exists ga' gh', groups Q' = <[h := gh']> (<[a := ga']> (groups Q)) /\
    Players ga' = Players ga /\ Players gh' = Players gh /\ Team ga' = ALLIANCE /\ Team gh' = HORDE.

Lemma change_sides_ok b Q qa ia a qh ih h ga gh :
  queue_good Q -> teams_found b Q (qa, ia, a) (qh, ih, h) -> groups Q !! a = Some ga -> groups Q !! h = Some gh ->
  exists Q1 Q2, change_side b BG_QUEUE_PREMADE_ALLIANCE BG_QUEUE_PREMADE_HORDE ALLIANCE (qa, ia) a Q = Ok Q1 /\
    change_side b BG_QUEUE_PREMADE_HORDE BG_QUEUE_PREMADE_ALLIANCE HORDE (qh, ih) h Q1 = Ok Q2 /\ groups Q2 = groups Q /\
    forall Q', regrouped Q2 Q' a h ga gh -> queue_good Q'.
Proof.
  intros HQ (Ha & Hh & Hne & Hk) Hga Hgh. cbn in Ha, Hh, Hne, Hk. pose proof (queue_team _ (proj1 HQ)) as HT.
  assert (Team ga = faction qa) as Eta by (apply (HT b qa a); [by eapply list_elem_of_lookup_2|done]).
  assert (Team gh = faction qh) as Eth by (apply (HT b qh h); [by eapply list_elem_of_lookup_2|done]).
  assert (Hgood : forall ga' gh', Players ga' = Players ga -> Players gh' = Players gh -> Team ga' = Team ga -> Team gh' = Team gh ->
    queue_good (set_group h gh' (set_group a ga' Q))).
  { intros ga' gh' ? ? ? ?. apply (set_group_good _ _ gh); [by apply (set_group_good _ _ ga)| |done|done]. cbn. by rewrite lookup_insert_ne. }
  assert (Hend : forall Q1 Q2, queue_good Q1 -> same_places Q2 Q1 -> groups Q1 = groups Q2 -> queue_good Q2).
  { intros Q1 Q2 HQ1 [] EG. apply (same_groups_good Q1); [by split_and!|done]. }
  unfold change_side, group_at. rewrite Hga. cbn [bind_result].
  assert (Hcase : (qa = 0 /\ qh = 1) \/ (qa = 0 /\ qh = 0) \/ (qa = 1 /\ qh = 1)).
  { unfold BG_QUEUE_PREMADE_ALLIANCE, BG_QUEUE_PREMADE_HORDE in Hk. lia. }
  destruct Hcase as [[-> ->]|[[-> ->]|[-> ->]]]; rewrite Eta.
  - change (faction 0 =? ALLIANCE) with true. exists Q, Q. rewrite Hgh. cbn [bind_result]. rewrite Eth. split_and!; try done.
    intros Q' (HS & ga' & gh' & EG & Ea & Eh & Ta & Th). apply (Hend _ _ (Hgood ga' gh' Ea Eh ltac:(by rewrite Ta, Eta) ltac:(by rewrite Th, Eth))).
    + destruct HS. by constructor.
    + by rewrite EG.
  - change (faction 0 =? ALLIANCE) with true. exists Q. eexists. rewrite Hgh. cbn [bind_result]. rewrite Eth. split_and!; try done.
    intros Q' (HS & ga' & gh' & EG & Ea & Eh & Ta & Th).
    assert (queue_good (set_group a ga' Q)) as HQa by (apply (set_group_good _ _ ga); [done|done|done|by rewrite Ta, Eta]).
    apply (Hend (erase_at b 0 ih (push_front b 1 h (set_group h gh' (set_group a ga' Q))))).
    + apply (move_group_good (set_group a ga' Q) b 0 1 ih h gh gh'); try done. cbn. by rewrite lookup_insert_ne.
    + destruct HS. by constructor.
    + by rewrite EG.
  - change (faction 1 =? ALLIANCE) with false. change ((1, ia).1 =? BG_QUEUE_PREMADE_HORDE) with true. eexists. eexists. split; [done|].
    set (Q1 := erase_at _ _ _ _). assert (groups Q1 !! h = Some gh) as -> by exact Hgh. cbn [bind_result]. rewrite Eth.
    split_and!; try done. intros Q' (HS & ga' & gh' & EG & Ea & Eh & Ta & Th).
    assert (queue_good (set_group h gh' Q)) as HQh by (apply (set_group_good _ _ gh); [done|done|done|by rewrite Th, Eth]).
    apply (Hend (erase_at b 1 ia (push_front b 0 a (set_group a ga' (set_group h gh' Q))))).
    + apply (move_group_good (set_group h gh' Q) b 1 0 ia a ga ga'); try done. cbn. by rewrite lookup_insert_ne.
    + destruct HS. by constructor.
    + rewrite EG. cbn. by rewrite insert_insert_ne.
Qed.

Lemma start_rated_safe E t e b at_ a h Q R :
  queue_good Q -> teams_found b Q a h -> realm_ok R -> env_ok E R ->
  safe (fun r => queue_good r.1 /\ grown E R r.2) (start_rated E t e b at_ (a, h) Q R).
Proof.
  destruct a as [[qa ia] a], h as [[qh ih] h]. intros HQ HT HR HE. unfold start_rated.
  apply (ensures_bind _ _ _ _ _ (create_safe E t e at_ true R HR HE)). intros [[arena|] R1] [HG Hpend]; [|done].
  cbn [fst snd] in *. specialize (Hpend arena eq_refl). pose proof HT as (Ha & Hh & Hne & _). cbn in Ha, Hh, Hne.
  pose proof (queued_alive Q b qa (proj1 HQ)) as Hla. rewrite Forall_forall in Hla. destruct (Hla a (list_elem_of_lookup_2 _ _ _ Ha)) as [ga Hga].
  pose proof (queued_alive Q b qh (proj1 HQ)) as Hlh. rewrite Forall_forall in Hlh. destruct (Hlh h (list_elem_of_lookup_2 _ _ _ Hh)) as [gh Hgh].
  unfold on_group, group_at. rewrite Hga, Hgh. cbn [bind_result].
  set (ga1 := set_opponents _ _ ga). set (Q1 := set_group a ga1 Q).
  assert (groups Q1 !! h = Some gh) as Hgh1 by (cbn; by rewrite lookup_insert_ne). rewrite Hgh1. cbn [bind_result].
  set (gh1 := set_opponents _ _ gh). set (Q2 := set_group h gh1 Q1).
  assert (queue_good Q2) as HQ2 by (apply (set_group_good _ _ gh); [by apply (set_group_good _ _ ga)|done..]).
  assert (groups Q2 !! a = Some ga1) as Hga2 by (cbn; rewrite lookup_insert_ne by done; apply lookup_insert_eq).
  assert (groups Q2 !! h = Some gh1) as Hgh2 by (cbn; apply lookup_insert_eq).
  destruct (change_sides_ok b Q2 qa ia a qh ih h ga1 gh1 HQ2 HT Hga2 Hgh2) as (Q3 & Q4 & E3 & E4 & EG & Hend).
  rewrite E3. cbn [bind_result]. rewrite E4. cbn [bind_result].
  destruct (pending_alive _ _ Hpend) as [bg Hbg].
  destruct (onward_bg R1 arena (SetArenaMatchmakerRating ALLIANCE (ArenaMatchmakerRating ga)) bg (grown_ok _ _ _ HG) Hbg (keeps_MMR _ _) (counts_MMR _ _))
    as (R2 & -> & H2). cbn [bind_result]. destruct (onward_alive _ _ _ H2 (mk_is_Some _ _ Hbg)) as [bg2 Hbg2].
  destruct (onward_bg R2 arena (SetArenaMatchmakerRating HORDE (ArenaMatchmakerRating gh)) bg2 (onward_ok _ _ H2) Hbg2 (keeps_MMR _ _) (counts_MMR _ _))
    as (R3 & -> & H3). cbn [bind_result]. pose proof (onward_trans _ _ _ H2 H3) as H13. clear R2 H2 H3 bg2 Hbg2.
  assert (is_Some (bgs R3 !! arena)) as Hb3 by (by apply (onward_alive _ _ _ H13); exists bg).
  assert (groups Q4 !! a = Some ga1) as Hga4 by (by rewrite EG).
  apply (ensures_bind _ _ _ _ _ (InviteGroupToBG_safe E a ga1 arena ALLIANCE Q4 R3 (onward_ok _ _ H13) Hb3 Hga4)).
  intros [[x Q5] R5] (HS5 & HO5 & ga2 & EG5 & Ep5 & Et5). cbn [fst snd] in *.
  assert (groups Q5 !! h = Some gh1) as Hgh5 by (rewrite EG5, lookup_insert_ne by done; by rewrite EG).
  apply (ensures_bind _ _ _ _ _ (InviteGroupToBG_safe E h gh1 arena HORDE Q5 R5 (onward_ok _ _ HO5) (onward_alive _ _ _ HO5 Hb3) Hgh5)).
  intros [[y Q6] R6] (HS6 & HO6 & gh2 & EG6 & Ep6 & Et6). cbn [fst snd] in *.
  pose proof (onward_trans _ _ _ H13 (onward_trans _ _ _ HO5 HO6)) as H16.
  apply (ensures_bind _ _ _ _ _ (start_grown E arena R R1 R6 HG H16 (onward_pending _ _ H16 arena Hpend))). intros R7 HG7.
  cbn [ensures fst snd]. split; [|done]. apply Hend. split; [by eapply same_places_trans|]. exists ga2, gh2. by rewrite EG6, EG5.
Qed.

(** ** The update of a queue *)

(** There is room for the id of one more instance, and of another after that. *)
Definition roomy (E : Env) (R : Realm) : Prop :=
  env_ok E R /\ forall id m, InstanceIds.GenerateInstanceId (grow E) (map_mgr R) = Ok (id, m) -> InstanceIds.capacity m < 2 ^ 31.

Lemma roomy_grown E R R' : roomy E R -> grown E R R' -> env_ok E R'.
Proof.
  intros [[HG Hc] Hn] [_ _ [Ei|[id Hid]]]; constructor; [done|by rewrite Ei|done|by apply (Hn id)].
Qed.
Lemma roomy_forth E R R' : roomy E R -> forth R R' -> roomy E R'.
Proof. intros [[] Hn] [_ _ Ei]. unfold roomy. rewrite Ei. split; [constructor; by rewrite ?Ei|done]. Qed.

Lemma init_pools_good Q : queue_good Q -> queue_good (init_pools Q) /\ no_pools (init_pools Q).
Proof. intros HQ. by split; [apply (same_groups_good Q)|]. Qed.

(** The new battleground of a premade match, if there is one. *)
Lemma premade_safe E t b at_ lo hi e Q R :
  queue_good Q -> no_pools Q -> realm_ok R -> roomy E R ->
  safe (fun r => queue_good r.1.2 /\ realm_ok r.2 /\ later R r.2 /\ (r.1.1 = true -> no_pools r.1.2 /\ env_ok E r.2))
    (let? (premade, Q) := CheckPremadeMatch E b lo hi Q in
     if premade then
       let? (created, Q, R) := start_match E t e at_ Q R in
       Ok (created, if created : bool then init_pools Q else Q, R)
     else Ok (true, Q, R)).
Proof.
  intros HQ HN HR HE. apply (ensures_bind _ _ _ _ _ (CheckPremadeMatch_safe E b lo hi Q HQ HN)). intros [premade Q1] [HQ1 HP1]. cbn [fst snd] in *.
  destruct premade; [|by split_and!; [..|split; [|apply HE]]].
  apply (ensures_bind _ _ _ _ _ (start_match_safe E t e at_ Q1 R HQ1 HP1 HR (proj1 HE))). intros [[created Q2] R2] [HQ2 HG2]. cbn [ensures fst snd] in *.
  split; [destruct created; [by apply init_pools_good|done]|]. split; [apply HG2|]. split; [apply HG2|]. intros ->. split; [done|]. by apply (roomy_grown _ R).
Qed.

Lemma start_new_safe E t b at_ rated rating tmpl e Q R :
  queue_good Q -> realm_ok R -> roomy E R ->
  safe (fun r => queue_good r.1 /\ realm_ok r.2 /\ later R r.2) (start_new E t b at_ rated rating tmpl e Q R).
Proof.
  intros HQ HR HE. unfold start_new. destruct (match_size E tmpl at_) as [lo hi]. destruct (init_pools_good Q HQ) as [HQ0 HN0].
  apply (ensures_bind _ (fun r => queue_good r.1.2 /\ realm_ok r.2 /\ later R r.2 /\ (r.1.1 = true -> no_pools r.1.2 /\ env_ok E r.2))).
  { destruct (isBattleground tmpl); [by apply premade_safe|by split_and!; [..|split; [|apply HE]]]. }
  intros [[go_on Q1] R1] (HQ1 & HR1 & HL1 & Hgo). cbn [fst snd] in *. destruct go_on; cbn [negb]; [|done]. destruct (Hgo eq_refl) as [HN1 HE1].
  destruct (negb rated).
  - apply (ensures_bind _ _ _ _ _ (CheckNormalMatch_safe E tmpl b lo hi Q1 HQ1 HN1)). intros [normal Q2] [HQ2 HP2]. cbn [fst snd] in *.
    apply (ensures_bind _ (fun r => queue_good r.2 /\ (r.1 = true -> pools_live r.2))).
    { destruct normal; [split; [done|]; intros _; destruct HP2; split; by eapply pool_live|]. destruct (isArena tmpl); [by apply CheckSkirmish_safe|done]. }
    intros [found Q3] [HQ3 HP3]. cbn [fst snd] in *. destruct found; [|done].
    apply (ensures_bind _ _ _ _ _ (start_match_safe E t e at_ Q3 R1 HQ3 (HP3 eq_refl) HR1 HE1)).
    intros [[x Q4] R4] [HQ4 HG4]. cbn [ensures fst snd] in *. split; [done|]. split; [apply HG4|]. exact (later_trans _ _ _ HL1 (grown_later _ _ _ HG4)).
  - destruct (isArena tmpl); [|done]. destruct (wanted_rating_ok rating b Q1 (proj1 HQ1)) as [w ->]. cbn [bind_result]. destruct w as [w|]; [|done].
    destruct (find_teams_ok E w b Q1 (proj1 HQ1)) as (ts & -> & Hts). cbn [bind_result]. destruct ts as [[a h]|]; [|done].
    apply (ensures_weaken _ _ _ _ (start_rated_safe E t e b at_ a h Q1 R1 HQ1 (Hts a h eq_refl) HR1 HE1)).
    intros [Q4 R4] [HQ4 HG4]. cbn [fst snd] in *. split; [done|]. split; [apply HG4|]. exact (later_trans _ _ _ HL1 (grown_later _ _ _ HG4)).
Qed.

(** Looking the list of battlegrounds with free slots up makes an empty entry for a type
    without one. *)
Lemma forth_lookup t R : realm_ok R -> forth R (on_data t id R).
Proof.
  intros [HR HC]. constructor; [|intros p b Hb; by exists b|done]. split; [|done].
  apply on_data_wf; [done|apply HR|by left|by left|apply HR|exact (wf_free_instance _ HR t)].
Qed.

Lemma BattlegroundQueueUpdate_safe E t b at_ rated rating Q R :
  queue_good Q -> realm_ok R -> roomy E R ->
  safe (fun r => queue_good r.1 /\ realm_ok r.2 /\ later R r.2) (BattlegroundQueueUpdate E t b at_ rated rating Q R).
Proof.
  intros HQ HR HE. unfold BattlegroundQueueUpdate. destruct (negb (bracket_ok b)); [done|]. destruct (forallb _ _); [done|].
  pose proof (forth_lookup t R HR) as H1. set (R1 := on_data t id R) in *.
  apply (ensures_bind _ _ _ _ _ (fill_running_safe E t b _ Q R1 HQ (forth_ok _ _ H1) (free_alive t R1 (proj1 (forth_ok _ _ H1))))).
  intros [Q2 R2] [HQ2 H2]. cbn [fst snd] in *. pose proof (forth_trans _ _ _ H1 H2) as H12.
  destruct (GetBattlegroundTemplate t R2) as [tp|] eqn:Et; [|split; [done|]; split; apply H12].
  destruct (GetBattlegroundTemplate_alive _ _ _ (proj1 (forth_ok _ _ H12)) Et) as [tb Htb]. unfold bg_at. rewrite Htb. cbn [bind_result].
  destruct (GetBattlegroundBracketById E _ b) as [e|]; [|split; [done|]; split; apply H12].
  apply (ensures_weaken _ _ _ _ (start_new_safe E t b at_ rated rating tb e Q2 R2 HQ2 (forth_ok _ _ H12) (roomy_forth _ _ _ HE H12))).
  intros [Q3 R3] (HQ3 & HR3 & HL3). cbn [fst snd] in *. split; [done|]. split; [done|]. exact (later_trans _ _ _ (forth_later _ _ H12) HL3).
Qed.

(** ** The world *)

Record world_wf (W : World) : Prop := {
  world_queue q : queue_wf (GetBattlegroundQueue q W);
  world_realm : realm_ok (realm W)
}.

Lemma queue_insert q q' Q W R :
  GetBattlegroundQueue q' (mkWorld (<[q := Q]> (queues W)) R) = if decide (q' = q) then Q else GetBattlegroundQueue q' W.
Proof.
  unfold GetBattlegroundQueue. cbn. case_decide as E; [subst; by rewrite lookup_insert_eq|by rewrite lookup_insert_ne].
Qed.
Lemma world_insert q Q W R : world_wf W -> queue_wf Q -> realm_ok R -> world_wf (mkWorld (<[q := Q]> (queues W)) R).
Proof. intros [HW _] HQ HR. constructor; [|done]. intros q'. rewrite queue_insert. by case_decide. Qed.
Lemma realm_ok_same R R' : realm_ok R -> same_registry R R' -> realm_ok R'.
Proof. intros HR HS. apply (onward_ok R), onward_same; done. Qed.
Lemma world_on_realm f W : world_wf W -> same_registry (realm W) (f (realm W)) -> world_wf (on_realm f W).
Proof. intros [HW HR] HS. constructor; [done|]. by apply (realm_ok_same (realm W)). Qed.

Lemma on_queue_safe q f W (P : Realm -> Prop) :
  world_wf W -> safe (fun r => queue_wf r.1 /\ realm_ok r.2 /\ P r.2) (f (GetBattlegroundQueue q W) (realm W)) ->
  safe (fun W' => world_wf W' /\ P (realm W')) (on_queue q f W).
Proof.
  intros HW Hf. unfold on_queue. apply (ensures_bind _ _ _ _ _ Hf). intros [Q R] (HQ & HR & HP). cbn [ensures]. split; [|done].
  by apply world_insert.
Qed.

Lemma read_bg_ok ptr R : (forall p, ptr = Some p -> is_Some (bgs R !! p)) -> exists b, read_bg ptr R = Ok b.
Proof.
  intros H. unfold read_bg. destruct ptr as [p|]; [|by eexists]. destruct (H p eq_refl) as [b Hb]. unfold bg_at. rewrite Hb. by eexists.
Qed.

Lemma IsPlayerInvited_ok guid i t Q : queue_wf Q -> exists b, IsPlayerInvited guid i t Q = Ok b.
Proof.
  intros HQ. unfold IsPlayerInvited. destruct (m_QueuedPlayers Q !! guid) as [info|] eqn:E; [|by eexists].
  destruct (wf_player _ _ _ (queue_store _ HQ) _ _ E) as (g & Hg & _). unfold group_at. rewrite Hg. by eexists.
Qed.

Lemma RemovePlayer_safe E guid dec Q R :
  queue_wf Q -> realm_ok R ->
  safe (fun r => queue_wf r.1 /\ realm_ok r.2 /\ later R r.2 /\ m_events r.1 = m_events Q) (RemovePlayer E guid dec Q R).
Proof.
  intros HQ [HR HC]. pose proof (RemovePlayer_rec_keeps (S (base.size (m_QueuedPlayers Q))) E guid dec Q R HC) as Hk.
  unfold RemovePlayer. destruct (RemovePlayer_rec_ok _ E guid dec Q R HQ HR (Nat.lt_succ_diag_r _)) as (Q' & R' & E' & HQ' & HR' & HL' & _).
  rewrite E' in *. cbn in *. by destruct Hk.
Qed.

(** The events a queue has left. *)
Definition pending_events (q : Z) (W : World) : nat := length (m_events (GetBattlegroundQueue q W)).

Lemma Execute_safe E e W :
  world_wf W -> safe (fun W' => world_wf W' /\ forall q, m_events (GetBattlegroundQueue q W') = m_events (GetBattlegroundQueue q W)) (Execute E e W).
Proof.
  intros HW. pose proof (world_realm _ HW) as HR. destruct e as [guid i t at_ rt|guid i t q rt]; cbn [Execute].
  - unfold BGQueueInviteEvent_Execute. destruct (FindPlayer guid (realm W)) as [pl|]; [|done].
    destruct (read_bg_ok (GetBattleground i t (realm W)) (realm W)) as [bg ->].
    { intros p Hp. destruct (GetBattleground_alive _ _ _ _ (proj1 HR) Hp) as [b Hb]. by exists b. }
    cbn [bind_result]. destruct bg as [bg|]; [|done]. destruct (_ <? _); [|done].
    destruct (IsPlayerInvited_ok guid i rt _ (world_queue _ HW (BGQueueTypeId (GetTypeID bg) (GetArenaType bg)))) as [yes ->]. cbn [bind_result].
    destruct yes; [|done]. cbn [ensures]. split; [|done]. by apply world_on_realm.
  - unfold BGQueueRemoveEvent_Execute. destruct (FindPlayer guid (realm W)) as [pl|]; [|done]. destruct (_ <? _); [|done].
    destruct (IsPlayerInvited_ok guid i rt _ (world_queue _ HW q)) as [yes ->]. cbn [bind_result]. destruct yes; [|done].
    set (W1 := on_realm _ W). assert (world_wf W1) as HW1 by (by apply world_on_realm).
    apply (ensures_bind _ (fun W' => (world_wf W' /\ later (realm W) (realm W')) /\
      forall q', m_events (GetBattlegroundQueue q' W') = m_events (GetBattlegroundQueue q' W))).
    { unfold on_queue. apply (ensures_bind _ _ _ _ _ (RemovePlayer_safe E guid true _ _ (world_queue _ HW1 q) (world_realm _ HW1))).
      intros [Q2 R2] (HQ2 & HR2 & HL2 & HE2). cbn [ensures fst snd realm] in *. split; [split; [by apply world_insert|done]|].
      intros q'. rewrite queue_insert. case_decide; [by subst|done]. }
    intros W2 [[HW2 HL2] HE2]. destruct (read_bg_ok (GetBattleground i t (realm W)) (realm W2)) as [bg ->].
    { intros p Hp. destruct (GetBattleground_alive _ _ _ _ (proj1 HR) Hp) as [b Hb]. apply (later_alive (realm W)); [done|by exists b]. }
    cbn [bind_result ensures]. set (W3 := match bg with Some b => _ | None => _ end).
    assert (world_wf W3 /\ forall q', GetBattlegroundQueue q' W3 = GetBattlegroundQueue q' W2) as [HW3 HE3].
    { unfold W3. destruct bg as [b|]; [|done]. destruct (_ && _); [|done]. split; [|done]. apply world_on_realm; [done|].
      unfold ScheduleQueueUpdate. by case_bool_decide. }
    split; [by apply world_on_realm|]. intros q'. rewrite <- HE2, <- HE3. done.
Qed.

Lemma run_events_safe fuel E q W : world_wf W -> (pending_events q W < fuel)%nat -> safe world_wf (run_events fuel E q W).
Proof.
  revert W. induction fuel as [|fuel IH]; intros W HW Hf; [lia|]. cbn [run_events]. unfold pending_events in *.
  destruct (m_events (GetBattlegroundQueue q W)) as [|[t e] l] eqn:Ee; [done|]. destruct (t <=? _); [|done].
  set (W1 := mkWorld _ _). assert (world_wf W1) as HW1.
  { apply world_insert; [done| |apply HW]. by apply (same_groups_wf (GetBattlegroundQueue q W)), HW. }
  apply (ensures_bind _ _ _ _ _ (Execute_safe E e W1 HW1)). intros W2 [HW2 HE2]. apply IH; [done|].
  rewrite HE2. unfold W1. rewrite queue_insert, decide_True by done. cbn [m_events set_events]. cbn [length] in Hf. lia.
Qed.

(** All updates that were scheduled, one after the other. *)
Fixpoint run_all (E : Env) (scheduled : list Z) (W : World) : result fault World :=
  match scheduled with
  | [] => Ok W
  | id :: scheduled =>
      let s := decode_schedule id in
      let? W := on_queue (s_queue s) (BattlegroundQueueUpdate E (s_type s) (s_bracket s) (s_arenaType s) (0 <? s_rating s) (s_rating s)) W in
      run_all E scheduled W
  end.

Lemma run_scheduled_all fuel E l i W :
  (length l < 256)%nat -> 0 <= i -> (length l - Z.to_nat i < fuel)%nat -> (Z.to_nat i <= length l)%nat ->
  run_scheduled fuel E l i W = run_all E (drop (Z.to_nat i) l) W.
Proof.
  intros Hl. revert i W. induction fuel as [|fuel IH]; intros i W Hi Hf Hle; [lia|]. cbn [run_scheduled].
  destruct (l !! Z.to_nat i) as [id|] eqn:Hid.
  - rewrite (drop_S _ _ _ Hid). cbn [run_all]. pose proof (lookup_lt_Some _ _ _ Hid).
    destruct (on_queue _ _ W) as [W1|]; [|done]. cbn [bind_result]. rewrite wrap_id by width. rewrite IH by lia.
    by replace (Z.to_nat (i + 1)) with (S (Z.to_nat i)) by lia.
  - apply lookup_ge_None in Hid. by rewrite drop_ge.
Qed.

(** Each update finds fewer than 2^31 players in its queue and room for new instances. *)
Fixpoint updates_fit (E : Env) (scheduled : list Z) (W : World) : Prop :=
  match scheduled with
  | [] => True
  | id :: scheduled =>
      let s := decode_schedule id in
      fits (GetBattlegroundQueue (s_queue s) W) /\ roomy E (realm W) /\
      forall W', on_queue (s_queue s) (BattlegroundQueueUpdate E (s_type s) (s_bracket s) (s_arenaType s) (0 <? s_rating s) (s_rating s)) W = Ok W' ->
        updates_fit E scheduled W'
  end.
Lemma update_safe E q t b at_ rated rating W :
  world_wf W -> fits (GetBattlegroundQueue q W) -> roomy E (realm W) -> safe world_wf (on_queue q (BattlegroundQueueUpdate E t b at_ rated rating) W).
Proof.
  intros HW Hf Hr. apply (ensures_weaken _ (fun W' => world_wf W' /\ True)); [|by intros ? []]. apply (on_queue_safe q _ W (fun _ => True) HW).
  apply (ensures_weaken _ _ _ _ (BattlegroundQueueUpdate_safe E t b at_ rated rating _ _ (conj (world_queue _ HW q) Hf) (world_realm _ HW) Hr)).
  intros [Q' R'] [[? _] [? _]]. done.
Qed.
Lemma run_all_safe E l W : world_wf W -> updates_fit E l W -> safe world_wf (run_all E l W).
Proof.
  revert W. induction l as [|id l IH]; intros W HW; [done|]. cbn [updates_fit run_all]. intros (Hf & Hr & Hn).
  pose proof (update_safe E (s_queue (decode_schedule id)) (s_type (decode_schedule id)) (s_bracket (decode_schedule id))
    (s_arenaType (decode_schedule id)) (0 <? s_rating (decode_schedule id)) (s_rating (decode_schedule id)) W HW Hf Hr) as Hs.
  destruct (on_queue _ _ W) as [W1|f]; [|exact Hs]. apply IH; [exact Hs|by apply Hn].
Qed.

(** What can happen to the queues and the registry. [Course] is the course of a
    battleground, which does not change what it is, and [Players] the coming and going
    of players. *)
Inductive command :=
| Join (q leader team : Z) (grp : option (list Z)) (t : Z) (e : PvPDifficultyEntry) (at_ : Z) (rated premade : bool) (ar mmr tid : Z)
| Leave (q guid : Z) (dec : bool)
| Update (q t b at_ : Z) (rated : bool) (rating : Z)
| Events (q ms : Z)
| Scheduled
| Delete (t i : Z)
| Course (ptr : Z) (f : Battleground -> Battleground)
| PlayersChange (ps : gmap Z Player).

Definition run (E : Env) (c : command) (W : World) : result fault World :=
  match c with
  | Join q leader team grp t e at_ rated premade ar mmr tid =>
      on_queue q (fun Q R => let? (_, Q, R) := AddGroup E leader team grp t e at_ rated premade ar mmr tid Q R in Ok (Q, R)) W
  | Leave q guid dec => on_queue q (RemovePlayer E guid dec) W
  | Update q t b at_ rated rating => on_queue q (BattlegroundQueueUpdate E t b at_ rated rating) W
  | Events q ms => UpdateEvents E ms q W
  | Scheduled => update_scheduled (S (length (m_QueueUpdateScheduler (realm W)))) E W
  | Delete t i =>
      match map_find i (m_Battlegrounds (data_of t (realm W))) with
      | Some ptr => let? R := delete_battleground t i ptr (realm W) in Ok (mkWorld (queues W) R)
      | None => Ok W
      end
  | Course ptr f => let? R := on_bg ptr f (realm W) in Ok (mkWorld (queues W) R)
  | PlayersChange ps => Ok (on_realm (set_players ps) W)
  end.

(** When it can happen: who joins a queue is not in it yet; there is room for new
    instances, and fewer than 2^31 players are in a queue that is updated; fewer than 256
    updates are scheduled. *)
Definition may (E : Env) (c : command) (W : World) : Prop :=
  match c with
  | Join q leader team grp _ e _ _ _ _ _ _ =>
      0 <= entry_bracket e < MAX_BATTLEGROUND_BRACKETS /\ (team = ALLIANCE \/ team = HORDE) /\ default [leader] grp <> [] /\
      forall p, p ∈ default [leader] grp -> m_QueuedPlayers (GetBattlegroundQueue q W) !! p = None
  | Update q _ _ _ _ _ => fits (GetBattlegroundQueue q W) /\ roomy E (realm W)
  | Scheduled => (length (m_QueueUpdateScheduler (realm W)) < 256)%nat /\
      updates_fit E (m_QueueUpdateScheduler (realm W)) (on_realm (set_scheduler []) W)
  | Course ptr f => is_Some (bgs (realm W) !! ptr) /\ keeps_identity f /\ keeps_counts f
  | Leave _ _ _ | Events _ _ | Delete _ _ | PlayersChange _ => True
  end.

Lemma run_safe E c W : world_wf W -> may E c W -> safe world_wf (run E c W).
Proof.
  intros HW Hmay. pose proof (world_realm _ HW) as HR.
  assert (Hon : forall q f, safe (fun r => queue_wf r.1 /\ realm_ok r.2) (f (GetBattlegroundQueue q W) (realm W)) -> safe world_wf (on_queue q f W)).
  { intros q f Hf. apply (ensures_weaken _ (fun W' => world_wf W' /\ True)); [|by intros ? []]. apply (on_queue_safe q f W (fun _ => True) HW).
    apply (ensures_weaken _ _ _ _ Hf). tauto. }
  destruct c; cbn [run may] in *.
  - destruct Hmay as (Hb & Ht & Hne & Hnew). apply Hon.
    destruct (AddGroup_joins E leader team grp t e at_ rated premade ar mmr tid _ _ (world_queue _ HW q) (proj1 HR) Hb Ht Hne Hnew)
      as (Q' & R' & g & -> & HQ' & HS & _). cbn. split; [done|]. by apply (onward_same (realm W)).
  - apply Hon. apply (ensures_weaken _ _ _ _ (RemovePlayer_safe E guid dec _ _ (world_queue _ HW q) HR)). tauto.
  - destruct Hmay as [Hf Hr]. by apply update_safe.
  - unfold UpdateEvents. set (Q := set_time _ _). apply run_events_safe.
    + apply world_insert; [done| |done]. by apply (same_groups_wf (GetBattlegroundQueue q W)), HW.
    + unfold pending_events. rewrite queue_insert, decide_True by done. lia.
  - destruct Hmay as [Hl Hu]. unfold update_scheduled. rewrite run_scheduled_all by lia. apply run_all_safe; [by apply world_on_realm|done].
  - destruct (map_find i _) as [ptr|] eqn:Ei; [|done].
    destruct (delete_battleground_ok t i ptr (realm W) (proj1 HR) Ei) as (R' & E' & HR' & _).
    pose proof (delete_battleground_counted t i ptr (realm W) (proj2 HR)) as HC'. rewrite E' in *. cbn. constructor; [apply HW|done].
  - destruct Hmay as ([b Hb] & Hf & Hc). destruct (onward_bg (realm W) ptr f b HR Hb Hf Hc) as (R' & -> & HO). cbn. constructor; [apply HW|apply HO].
  - cbn. by apply world_on_realm.
Qed.

(** The worlds that can come about, each step with a clock and a configuration of its
    own. *)
Inductive reachable : World -> Prop :=
| reachable_start R : realm_ok R -> reachable (mkWorld ∅ R)
| reachable_step E c W W' : reachable W -> may E c W -> run E c W = Ok W' -> reachable W'.

Lemma reachable_wf W : reachable W -> world_wf W.
Proof.
  induction 1 as [R HR|E c W W' _ IH Hmay Hrun].
  - constructor; [|done]. intros q. unfold GetBattlegroundQueue. cbn. rewrite lookup_empty. apply empty_queue_wf.
  - pose proof (run_safe E c W IH Hmay) as H. by rewrite Hrun in H.
Qed.

(** C9: through every sequence of operations on the queues and the registry, a player
    in a queue is a member of exactly the group the queue has for him; every group has
    members and stands in exactly one place, in a queue of its faction; and what stands
    in a queue exists. *)
Theorem queues_consistent W q :
  reachable W ->
  let Q := GetBattlegroundQueue q W in
  (forall p ptr, GroupInfo <$> m_QueuedPlayers Q !! p = Some ptr <-> exists g, groups Q !! ptr = Some g /\ p ∈ Players g) /\
  (forall ptr g, groups Q !! ptr = Some g -> Players g <> [] /\
     exists b k, 0 <= b < MAX_BATTLEGROUND_BRACKETS /\ 0 <= k < 4 /\ Team g = faction k /\ NoDup (queued b k Q) /\
       forall b' k', ptr ∈ queued b' k' Q <-> b' = b /\ k' = k) /\
  (forall b k ptr, ptr ∈ queued b k Q -> is_Some (groups Q !! ptr)).
Proof.
  intros HW Q. destruct (world_queue _ (reachable_wf _ HW) q) as [HS HP HT]. fold Q in HS, HP, HT. split_and!.
  - intros p ptr. split; [|intros (g & Hg & Hp); by apply (wf_member _ _ _ HS ptr g)].
    destruct (m_QueuedPlayers Q !! p) as [info|] eqn:E; [|done]. intros [= <-]. by apply (wf_player _ _ _ HS p).
  - intros ptr g Hg. split; [apply (wf_members _ _ _ HS ptr g Hg)|]. destruct (wf_placed _ _ HP ptr) as (b & k & Hin); [by exists g|].
    destruct (wf_place _ _ HP _ _ _ Hin) as (Hb & Hk & _). exists b, k. split_and!; try lia; [by apply (HT b k ptr)|apply HP|].
    intros b' k'. split; [|by intros [-> ->]]. intros Hin'. exact (wf_one _ _ HP b k b' k' ptr Hin Hin').
  - intros b k ptr Hin. apply (wf_place _ _ HP b k ptr Hin).
Qed.

(** C8: in every state that is reached, to join or leave a queue, to update one or run its
    events, to run the updates that are scheduled, of which there are fewer than 256, and to
    delete a battleground neither uses a group nor a battleground that has been deleted, and
    the loops of each of them end; who joins is not in the queue yet, and a queue that is
    updated has fewer than 2^31 players and room for new instances. *)
Theorem no_deleted_group E c W :
  reachable W -> may E c W ->
  ensures (fun f => f <> DeletedGroup /\ f <> DeletedBattleground /\ f <> NoFuel) reachable (run E c W).
Proof.
  intros HW Hmay. pose proof (run_safe E c W (reachable_wf _ HW) Hmay) as H. destruct (run E c W) as [W'|f] eqn:Er; cbn in *.
  - by apply (reachable_step E c W).
  - destruct f; try done; by split_and!.
Qed.

(** ** Scheduled updates *)

Lemma run_scheduled_never fuel E l i W W' : (256 <= length l)%nat -> 0 <= i < 256 -> run_scheduled fuel E l i W <> Ok W'.
Proof.
  intros Hl. revert i W. induction fuel as [|fuel IH]; intros i W Hi; [done|]. cbn [run_scheduled].
  destruct (lookup_lt_is_Some_2 l (Z.to_nat i) ltac:(lia)) as [id ->]. destruct (on_queue _ _ W) as [W1|]; [|done]. cbn [bind_result].
  apply IH. apply (wrap_range 8). lia.
Qed.

(** C28: the loop over the scheduled updates runs each of them once, in their order, when
    there are fewer than 256; with 256 or more it never ends, as its counter has eight
    bits. *)
Theorem update_scheduled_ends E W :
  let scheduled := m_QueueUpdateScheduler (realm W) in
  if decide (length scheduled < 256)%nat
  then forall fuel, (length scheduled < fuel)%nat -> update_scheduled fuel E W = run_all E scheduled (on_realm (set_scheduler []) W)
  else forall fuel W', update_scheduled fuel E W <> Ok W'.
Proof.
  cbv zeta. unfold update_scheduled. case_decide as Hl.
  - intros fuel Hf. rewrite run_scheduled_all by lia. done.
  - intros fuel W'. apply run_scheduled_never; lia.
Qed.

(** ** Examples *)

(** A realm with one template. *)
Definition template_realm (b : Battleground) (ps : gmap Z Player) : Realm :=
  mkRealm {[ 0 := b ]} 1 [(GetTypeID b, mkData [(0, 0)] ∅ [])] [] InstanceIds.started ps [].

Lemma template_realm_ok b ps : GetInstanceID b = 0 -> counts_ok b -> realm_ok (template_realm b ps).
Proof.
  intros Hi Hc. assert (Hd : forall t, data_of t (template_realm b ps) = if decide (t = GetTypeID b) then mkData [(0, 0)] ∅ [] else no_data).
  { intros t. unfold data_of. cbn. case_decide as E; [subst; by rewrite Z.eqb_refl|by rewrite (proj2 (Z.eqb_neq _ _) E)]. }
  assert (Hm : forall t i ptr, map_find i (m_Battlegrounds (data_of t (template_realm b ps))) = Some ptr -> t = GetTypeID b /\ i = 0 /\ ptr = 0).
  { intros t i ptr. rewrite Hd. case_decide; [|done]. cbn. destruct (Z.eqb_spec i 0); [by intros [= <-]|done]. }
  assert (Hf : forall t, BGFreeSlotQueue (data_of t (template_realm b ps)) = []) by (intros t; rewrite Hd; by case_decide).
  split; [constructor|].
  - repeat constructor.
  - intros t. rewrite Hd. case_decide; repeat constructor.
  - intros t i ptr (-> & -> & ->)%Hm. exists b. split; [apply lookup_singleton_eq|done].
  - intros t ptr. rewrite Hf. by intros ?%not_elem_of_nil.
  - intros t. rewrite Hf. constructor.
  - intros t p q bp bq. rewrite Hf. by intros ?%not_elem_of_nil.
  - intros ptr [b' Hb']. cbn in *. apply lookup_singleton_Some in Hb' as [<- _]. lia.
  - apply InstanceIds.check_wf. vm_compute. done.
  - intros t i ptr (_ & -> & _)%Hm. by left.
  - intros ptr b' Hb'. cbn in Hb'. by apply lookup_singleton_Some in Hb' as [_ <-].
Qed.

(** A battleground for teams of one, and two players who have a place for its queue. *)
Definition sample_duel : Battleground :=
  mkBattleground [] BATTLEGROUND_WS BATTLEGROUND_WS 0 0 0 STATUS_NONE 0 false false false 489 10 19 1 10 20 0 0 (0, 0) 0 0 0 false (0, 0) (0, 0).
Definition sample_player (t : Z) : Player := mkPlayer [mkRec BATTLEGROUND_QUEUE_WS 0; mkRec 0 0] t 15 0 0 0.
Definition sample_world : World :=
  mkWorld ∅ (template_realm sample_duel {[ 11 := sample_player ALLIANCE; 21 := sample_player HORDE ]}).
Definition sample_join (guid t : Z) : command :=
  Join BATTLEGROUND_QUEUE_WS guid t None BATTLEGROUND_WS (mkEntry 0 10 19) 0 false false 0 0 0.
Definition sample_update : command := Update BATTLEGROUND_QUEUE_WS BATTLEGROUND_WS 0 0 false 0.

Definition world_of (r : result fault World) : World := match r with Ok W => W | Throw _ => sample_world end.
Definition sample_joined : World := world_of (run sample_env (sample_join 21 HORDE) (world_of (run sample_env (sample_join 11 ALLIANCE) sample_world))).
Definition sample_started : World := world_of (run sample_env sample_update sample_joined).
Definition sample_expired : World := world_of (run sample_env (Events BATTLEGROUND_QUEUE_WS INVITE_ACCEPT_WAIT_TIME) sample_started).

(** The instances the players of a queue are invited to. *)
Definition invitations (W : World) : list (Z * Z) :=
  map (fun pi => (pi.1, match groups (GetBattlegroundQueue BATTLEGROUND_QUEUE_WS W) !! GroupInfo pi.2 with
                        | Some g => IsInvitedToBGInstanceGUID g | None => -1 end))
    (map_to_list (m_QueuedPlayers (GetBattlegroundQueue BATTLEGROUND_QUEUE_WS W))).

(** The update makes an instance and invites both; neither enters, and both are out of
    the queue when the time is up. *)
Example duel_starts : invitations sample_started = [(11, 1); (21, 1)] /\ invitations sample_expired = [].
Proof. split; vm_compute; reflexivity. Qed.

Lemma roomy_start W : map_mgr (realm W) = InstanceIds.started -> roomy sample_env (realm W).
Proof.
  intros E. unfold roomy. split; [constructor; [apply InstanceIds.grow64_grows|by rewrite E]|]. rewrite E. intros id m H. vm_compute in H.
  injection H as _ <-. vm_compute. reflexivity.
Qed.

Lemma sample_joined_reachable : reachable sample_joined.
Proof.
  assert (reachable sample_world) as H0.
  { apply reachable_start, template_realm_ok; [done|]. vm_compute. repeat split; congruence. }
  assert (Hjoin : forall guid t W, reachable W -> t = ALLIANCE \/ t = HORDE -> m_QueuedPlayers (GetBattlegroundQueue BATTLEGROUND_QUEUE_WS W) !! guid = None ->
    (exists W', run sample_env (sample_join guid t) W = Ok W') -> reachable (world_of (run sample_env (sample_join guid t) W))).
  { intros guid t W HW Ht Hnew [W' E]. apply (reachable_step sample_env (sample_join guid t) W); [done| |by rewrite E].
    split; [vm_compute; split; congruence|]. split; [done|]. split; [done|]. intros p ->%list_elem_of_singleton. done. }
  apply Hjoin; [|by right|vm_compute; reflexivity|eexists; vm_compute; reflexivity].
  apply Hjoin; [done|by left|vm_compute; reflexivity|eexists; vm_compute; reflexivity].
Qed.

Lemma queues_consistent_witness :
  exists g, groups (GetBattlegroundQueue BATTLEGROUND_QUEUE_WS sample_joined) !! 1 = Some g /\ 21 ∈ Players g.
Proof.
  destruct (queues_consistent sample_joined BATTLEGROUND_QUEUE_WS sample_joined_reachable) as (H & _ & _).
  apply (H 21 1). vm_compute. reflexivity.
Defined.

Lemma no_deleted_group_witness :
  ensures (fun f => f <> DeletedGroup /\ f <> DeletedBattleground /\ f <> NoFuel) reachable (run sample_env sample_update sample_joined) /\
  exists W, run sample_env sample_update sample_joined = Ok W.
Proof.
  split; [|eexists; vm_compute; reflexivity]. apply (no_deleted_group sample_env sample_update sample_joined sample_joined_reachable).
  split; [vm_compute; reflexivity|]. apply roomy_start. vm_compute. reflexivity.
Defined.

End BattlegroundWorld.
