(* ===== verification/Guild.v ===== *)
(** * Guild: a player guild

    [game/Guilds/Guild.cpp]: the ranks of a guild with their rights, its members, the
    money and the tabs of its bank and the logs of what happened. An operation takes the
    world, the guild with the players in the game and what has happened so far, and
    returns it; the clock, the configuration and what the database answers are arguments.
    Strings are lists of bytes. The packets of players are in [GuildHandlers]. *)
From S2P Require Import Prelude OrderedMap Utf8 Util.
Import Util.
#[global] Open Scope Z_scope.

Module Guild.

(** ** Constants *)
Definition GUILD_BANK_MAX_TABS := 6.
Definition GUILD_BANK_MAX_SLOTS := 98.
Definition GUILD_BANK_MONEY_LOGS_TAB := 100.
Definition GUILD_RANKS_MIN_COUNT := 5.
Definition GUILD_RANKS_MAX_COUNT := 10.
Definition GUILD_RANK_NONE := 0xFF.
Definition GUILD_WITHDRAW_MONEY_UNLIMITED := 0xFFFFFFFF.
Definition GUILD_WITHDRAW_SLOT_UNLIMITED := 0xFFFFFFFF.
Definition GUILD_EVENT_LOG_GUID_UNDEFINED := 0xFFFFFFFF.
Definition TAB_UNDEFINED := 0xFF.
Definition GUILD_MEMBER_DATA_ZONEID := 0.
Definition GUILD_MEMBER_DATA_LEVEL := 1.
Definition GR_GUILDMASTER := 0.
Definition GR_OFFICER := 1.

Definition GR_RIGHT_EMPTY := 0x40.
Definition GR_RIGHT_GCHATLISTEN := Z.lor GR_RIGHT_EMPTY 0x1.
Definition GR_RIGHT_GCHATSPEAK := Z.lor GR_RIGHT_EMPTY 0x2.
Definition GR_RIGHT_OFFCHATLISTEN := Z.lor GR_RIGHT_EMPTY 0x4.
Definition GR_RIGHT_OFFCHATSPEAK := Z.lor GR_RIGHT_EMPTY 0x8.
Definition GR_RIGHT_INVITE := Z.lor GR_RIGHT_EMPTY 0x10.
Definition GR_RIGHT_REMOVE := Z.lor GR_RIGHT_EMPTY 0x20.
Definition GR_RIGHT_PROMOTE := Z.lor GR_RIGHT_EMPTY 0x80.
Definition GR_RIGHT_DEMOTE := Z.lor GR_RIGHT_EMPTY 0x100.
Definition GR_RIGHT_SETMOTD := Z.lor GR_RIGHT_EMPTY 0x1000.
Definition GR_RIGHT_EPNOTE := Z.lor GR_RIGHT_EMPTY 0x2000.
Definition GR_RIGHT_EOFFNOTE := Z.lor GR_RIGHT_EMPTY 0x8000.
Definition GR_RIGHT_MODIFY_GUILD_INFO := Z.lor GR_RIGHT_EMPTY 0x10000.
Definition GR_RIGHT_WITHDRAW_REPAIR := 0x40000.
Definition GR_RIGHT_WITHDRAW_GOLD := 0x80000.
Definition GR_RIGHT_ALL := 0x1DF1FF.

Definition GUILD_COMMAND_CREATE := 0.
Definition GUILD_COMMAND_INVITE := 1.
Definition GUILD_COMMAND_QUIT := 3.
Definition GUILD_COMMAND_ROSTER := 5.
Definition GUILD_COMMAND_PROMOTE := 6.
Definition GUILD_COMMAND_DEMOTE := 7.
Definition GUILD_COMMAND_REMOVE := 8.
Definition GUILD_COMMAND_CHANGE_LEADER := 10.
Definition GUILD_COMMAND_EDIT_MOTD := 11.
Definition GUILD_COMMAND_CHANGE_RANK := 16.
Definition GUILD_COMMAND_PUBLIC_NOTE := 19.
Definition GUILD_COMMAND_VIEW_TAB := 21.

Definition ERR_GUILD_COMMAND_SUCCESS := 0.
Definition ERR_ALREADY_IN_GUILD_S := 3.
Definition ERR_ALREADY_INVITED_TO_GUILD_S := 5.
Definition ERR_GUILD_NAME_INVALID := 6.
Definition ERR_GUILD_NAME_EXISTS_S := 7.
Definition ERR_GUILD_LEADER_LEAVE := 8.
Definition ERR_GUILD_PERMISSIONS := 8.
Definition ERR_GUILD_PLAYER_NOT_IN_GUILD := 9.
Definition ERR_GUILD_PLAYER_NOT_FOUND_S := 11.
Definition ERR_GUILD_NOT_ALLIED := 12.
Definition ERR_GUILD_RANK_TOO_HIGH_S := 13.
Definition ERR_GUILD_RANK_TOO_LOW_S := 14.

Definition GE_PROMOTION := 0.
Definition GE_DEMOTION := 1.
Definition GE_MOTD := 2.
Definition GE_JOINED := 3.
Definition GE_LEFT := 4.
Definition GE_REMOVED := 5.
Definition GE_LEADER_CHANGED := 7.
Definition GE_DISBANDED := 8.
Definition GE_RANK_UPDATED := 10.
Definition GE_RANK_DELETED := 11.
Definition GE_SIGNED_ON := 12.
Definition GE_SIGNED_OFF := 13.
Definition GE_BANK_TAB_PURCHASED := 15.
Definition GE_BANK_TAB_UPDATED := 16.
Definition GE_BANK_MONEY_CHANGED := 18.

Definition GUILD_BANK_RIGHT_VIEW_TAB := 0x01.
Definition GUILD_BANK_RIGHT_PUT_ITEM := 0x02.
Definition GUILD_BANK_RIGHT_DEPOSIT_ITEM := Z.lor GUILD_BANK_RIGHT_VIEW_TAB GUILD_BANK_RIGHT_PUT_ITEM.
Definition GUILD_BANK_RIGHT_FULL := 0xFF.

Definition GUILD_BANK_LOG_DEPOSIT_ITEM := 1.
Definition GUILD_BANK_LOG_WITHDRAW_ITEM := 2.
Definition GUILD_BANK_LOG_MOVE_ITEM := 3.
Definition GUILD_BANK_LOG_DEPOSIT_MONEY := 4.
Definition GUILD_BANK_LOG_WITHDRAW_MONEY := 5.
Definition GUILD_BANK_LOG_REPAIR_MONEY := 6.
Definition GUILD_BANK_LOG_MOVE_ITEM2 := 7.
Definition GUILD_EVENT_LOG_INVITE_PLAYER := 1.
Definition GUILD_EVENT_LOG_JOIN_GUILD := 2.
Definition GUILD_EVENT_LOG_PROMOTE_PLAYER := 3.
Definition GUILD_EVENT_LOG_DEMOTE_PLAYER := 4.
Definition GUILD_EVENT_LOG_UNINVITE_PLAYER := 5.
Definition GUILD_EVENT_LOG_LEAVE_GUILD := 6.

Definition ERR_GUILDEMBLEM_SUCCESS := 0.
Definition ERR_GUILDEMBLEM_NOGUILD := 2.
Definition ERR_GUILDEMBLEM_NOTGUILDMASTER := 3.
Definition ERR_GUILDEMBLEM_NOTENOUGHMONEY := 4.
Definition ERR_GUILDEMBLEM_INVALIDVENDOR := 5.
Definition PETITION_TURN_OK := 0.
Definition PETITION_TURN_ALREADY_IN_GUILD := 2.
Definition PETITION_TURN_NEED_MORE_SIGNATURES := 4.
Definition GUILDMEMBER_STATUS_NONE := 0.
Definition GUILDMEMBER_STATUS_ONLINE := 1.
Definition MAX_GUILD_BANK_TAB_TEXT_LEN := 500.
Definition GOLD := 10000.
Definition EMBLEM_PRICE := 10 * GOLD.
Definition MAX_MONEY_AMOUNT := 0x7FFFFFFF - 1.
Definition CLASS_WARRIOR := 1.
Definition MAX_CLASSES := 12.
Definition CHAT_MSG_GUILD := 4.
Definition CHAT_MSG_OFFICER := 5.
Definition CALENDAR_MAX_INVITES := 100.
Definition LANG_GUILD_MASTER := 811.
Definition DEFAULT_LOCALE := 0.
Definition EQUIP_ERR_OK := 0.
Definition EQUIP_ERR_ITEM_DOESNT_GO_INTO_BAG := 15.
Definition EQUIP_ERR_ITEM_CANT_STACK := 19.
Definition EQUIP_ERR_ITEM_NOT_FOUND := 23.
Definition EQUIP_ERR_CANT_DROP_SOULBOUND := 24.
Definition EQUIP_ERR_BANK_FULL := 51.
Definition EQUIP_ERR_TOO_MUCH_GOLD := 77.
Definition NULL_SLOT := 255.
Definition MAX_ENCHANTMENT_SLOT := 12.

Definition GUID_LOPART (guid : Z) : Z := Z.land guid 0xFFFFFFFF.

(** ** Data *)

(** What C++ leaves undefined. *)
Inductive fault :=
| NullPlayer                 (* the player of a session is not in the world *)
| NullMember | NullRank | NullItem   (* a null pointer is dereferenced *)
| EmptyLog                   (* [front] of an empty list *)
| DivideByZero
| OutOfArray
| TextOverflow
| ItemGuids                  (* the assertion that there is another guid for an item *)
| NoFuel.

Record EmblemInfo := mkEmblem { m_style : Z; m_color : Z; m_borderStyle : Z; m_borderColor : Z; m_backgroundColor : Z }.
Record GuildBankRightsAndSlots := mkRights { tabId : Z; rights : Z; slots : Z }.

(** [m_bankWithdraw] has what was taken today from each tab, and the money last. *)
Record Member := mkMember {
  m_guid : Z;
  m_name : list Z;
  m_zoneId : Z;
  m_level : Z;
  m_class : Z;
  m_flags : Z;
  m_logoutTime : Z;
  m_accountId : Z;
  m_rankId : Z;
  m_publicNote : list Z;
  m_officerNote : list Z;
  m_bankWithdraw : list Z
}.

Record RankInfo := mkRank {
  r_rankId : Z;
  r_name : list Z;
  r_rights : Z;
  r_bankMoneyPerDay : Z;
  r_tabs : list GuildBankRightsAndSlots
}.

Inductive LogEntry :=
| EventLogEntry (guid timestamp eventType playerGuid1 playerGuid2 newRank : Z)
| BankEventLogEntry (guid timestamp eventType bankTabId playerGuid itemOrMoney itemStackCount destTabId : Z).
Definition entry_guid (e : LogEntry) : Z :=
  match e with EventLogEntry g _ _ _ _ _ | BankEventLogEntry g _ _ _ _ _ _ _ => g end.
Record LogHolder := mkLog { m_log : list LogEntry; m_maxRecords : Z; m_nextGUID : Z }.

(** An item in the bank; [i_enchantments] are the ids by enchantment slot. *)
Record Item := mkItem {
  i_guid : Z;
  i_entry : Z;
  i_count : Z;
  i_soulbound : bool;
  i_randomPropertyId : Z;
  i_suffixFactor : Z;
  i_spellCharges : Z;
  i_enchantments : list Z
}.
Record BankTab := mkTab { t_tabId : Z; t_items : gmap Z Item; t_name : list Z; t_icon : list Z; t_text : list Z }.

(** [m_members] is keyed by the low part of the guid. In the code it is a hash map, whose
    order is not fixed; here the keys are in order. *)
Record Guild := mkGuild {
  m_id : Z;
  m_guildName : list Z;
  m_leaderGuid : Z;
  m_motd : list Z;
  m_info : list Z;
  m_createdDate : Z;
  m_emblemInfo : EmblemInfo;
  m_accountsNumber : Z;
  m_bankMoney : Z;
  m_ranks : list RankInfo;
  m_members : list (Z * Member);
  m_bankTabs : list BankTab;
  m_eventLog : LogHolder;
  m_bankEventLog : list LogHolder
}.

(** What a guild reads and writes of a player in the world. *)
Record Player := mkPlayer {
  p_name : list Z;
  p_level : Z;
  p_class : Z;
  p_zone : Z;
  p_account : Z;
  p_team : Z;
  p_chatTag : Z;
  p_ignores : list Z;          (* low parts of guids *)
  p_money : Z;
  p_guildId : Z;
  p_rank : Z;
  p_guildIdInvited : Z
}.

(** What the rest of the server answers. [GetGuildIdFromDB] is 0 for no guild;
    [CharData] is the row of a character: name, level, class, zone and account.
    [NewItemCharges] has the charges of the first spell of a new item of an entry; it is
    [None] for a bag with too many slots, which is not created. [uninitialised] is what
    the memory of a new [Member] has for its flags, and [next_to_amount] the four bytes
    after an amount on the stack. *)
Record Env := mkEnv {
  now : Z;
  CONFIG_GUILD_EVENT_LOG_COUNT : Z;
  CONFIG_GUILD_BANK_EVENT_LOG_COUNT : Z;
  CONFIG_ALLOW_TWO_SIDE_INTERACTION_GUILD : bool;
  AllowMultipleGuildMaster : bool;
  GetGuildIdFromDB : Z -> Z;
  CharData : Z -> option (list Z * Z * Z * Z * Z);
  GetZoneIdFromDB : Z -> Z;
  GetLevelFromDB : Z -> Z;
  GetPlayerTeamByGUID : Z -> Z;
  GetTrinityString : Z -> Z -> list Z;
  GetMaxStackCount : Z -> Z;   (* by the entry of the item *)
  NewItemCharges : Z -> option Z;
  PackedTime : Z -> Z;         (* of a time, in the local time zone *)
  uninitialised : Z;
  next_to_amount : list Z
}.

(** ** Effects *)

(** A field of a packet or statement with its width; [FloatDays s] is [s] seconds as a
    float in days. *)
Inductive field := U8 (z : Z) | U16 (z : Z) | U32 (z : Z) | U64 (z : Z) | Str (s : list Z) | FloatDays (z : Z) | PackGUID (z : Z).
Inductive opcode :=
| SMSG_GUILD_COMMAND_RESULT | MSG_SAVE_GUILD_EMBLEM | MSG_QUERY_GUILD_BANK_TEXT | SMSG_GUILD_ROSTER | SMSG_GUILD_QUERY_RESPONSE
| SMSG_GUILD_INVITE | SMSG_GUILD_EVENT | SMSG_GUILD_INFO | MSG_GUILD_EVENT_LOG_QUERY | MSG_GUILD_BANK_LOG_QUERY
| MSG_GUILD_PERMISSIONS | MSG_GUILD_BANK_MONEY_WITHDRAWN | SMSG_GUILD_BANK_LIST | SMSG_MESSAGECHAT | SMSG_CALENDAR_FILTER_GUILD
| SMSG_TURN_IN_PETITION_RESULTS.
Record WorldPacket := mkPacket { op : opcode; body : list field }.

Inductive statement :=
| CHAR_INS_GUILD | CHAR_DEL_GUILD | CHAR_DEL_GUILD_MEMBERS | CHAR_INS_GUILD_MEMBER | CHAR_DEL_GUILD_MEMBER
| CHAR_INS_GUILD_RANK | CHAR_DEL_GUILD_RANKS | CHAR_DEL_GUILD_LOWEST_RANK | CHAR_INS_GUILD_BANK_TAB | CHAR_DEL_GUILD_BANK_TAB
| CHAR_DEL_GUILD_BANK_TABS | CHAR_INS_GUILD_BANK_ITEM | CHAR_DEL_GUILD_BANK_ITEM | CHAR_DEL_GUILD_BANK_ITEMS
| CHAR_DEL_NONEXISTENT_GUILD_BANK_ITEM
| CHAR_INS_GUILD_BANK_RIGHT | CHAR_DEL_GUILD_BANK_RIGHTS | CHAR_DEL_GUILD_BANK_RIGHTS_FOR_RANK
| CHAR_INS_GUILD_BANK_EVENTLOG | CHAR_DEL_GUILD_BANK_EVENTLOG | CHAR_DEL_GUILD_BANK_EVENTLOGS
| CHAR_INS_GUILD_EVENTLOG | CHAR_DEL_GUILD_EVENTLOG | CHAR_DEL_GUILD_EVENTLOGS
| CHAR_UPD_GUILD_MEMBER_PNOTE | CHAR_UPD_GUILD_MEMBER_OFFNOTE | CHAR_UPD_GUILD_MEMBER_RANK | CHAR_UPD_GUILD_MOTD
| CHAR_UPD_GUILD_INFO | CHAR_UPD_GUILD_LEADER | CHAR_UPD_GUILD_RANK_NAME | CHAR_UPD_GUILD_RANK_RIGHTS
| CHAR_UPD_GUILD_EMBLEM_INFO | CHAR_UPD_GUILD_BANK_TAB_INFO | CHAR_UPD_GUILD_BANK_MONEY | CHAR_UPD_GUILD_RANK_BANK_MONEY
| CHAR_UPD_GUILD_BANK_TAB_TEXT | CHAR_INS_GUILD_MEMBER_WITHDRAW
| CHAR_DEL_PETITION_BY_GUID | CHAR_DEL_PETITION_SIGNATURE_BY_GUID.

Inductive hook :=
| OnGuildAddMember | OnGuildRemoveMember | OnGuildMOTDChanged | OnGuildInfoChanged | OnGuildCreate | OnGuildDisband
| OnGuildMemberWitdrawMoney | OnGuildMemberDepositMoney | OnGuildItemMove | OnGuildEvent | OnGuildBankEvent.

(** The scripts registered for guilds are none: a hook leaves its arguments as they
    are. *)
Inductive effect :=
| SendPacket (receiver : Z) (data : WorldPacket)
| Execute (stmt : statement) (args : list field)
| Script (h : hook) (args : list field)
| SendEquipError (receiver msg : Z)
| OnPlayerMoneyChanged (guid d : Z)
| SaveGoldToDB (guid : Z)
| RemovePetitionsAndSigns (guid : Z)
| RemovePlayerGuildEventsAndSignups (guid guildId : Z)
| SendCalendarInvitesExceeded (guid : Z)
| DeleteItem (guid : Z) (fromDB : bool)
| SaveItem (guid entry count : Z)
| DestroyItem (owner guid : Z)
| StopNow.

(** [players] are those in the world; [GuildStore] has the ids and names of the guilds
    that are registered; [hiItemGuid] is the next guid of an item. *)
Record World := mkWorld {
  guild : Guild;
  players : list (Z * Player);
  GuildStore : list (Z * list Z);
  NextGuildId : Z;
  hiItemGuid : Z;
  trace : list effect
}.

(** ** Setters *)
Definition set_leaderGuid (v : Z) (g : Guild) : Guild :=
  mkGuild (m_id g) (m_guildName g) v (m_motd g) (m_info g) (m_createdDate g) (m_emblemInfo g)
    (m_accountsNumber g) (m_bankMoney g) (m_ranks g) (m_members g) (m_bankTabs g) (m_eventLog g)
    (m_bankEventLog g).
Definition set_motd (v : list Z) (g : Guild) : Guild :=
  mkGuild (m_id g) (m_guildName g) (m_leaderGuid g) v (m_info g) (m_createdDate g)
    (m_emblemInfo g) (m_accountsNumber g) (m_bankMoney g) (m_ranks g) (m_members g) (m_bankTabs g)
    (m_eventLog g) (m_bankEventLog g).
Definition set_info (v : list Z) (g : Guild) : Guild :=
  mkGuild (m_id g) (m_guildName g) (m_leaderGuid g) (m_motd g) v (m_createdDate g)
    (m_emblemInfo g) (m_accountsNumber g) (m_bankMoney g) (m_ranks g) (m_members g) (m_bankTabs g)
    (m_eventLog g) (m_bankEventLog g).
Definition set_emblem (v : EmblemInfo) (g : Guild) : Guild :=
  mkGuild (m_id g) (m_guildName g) (m_leaderGuid g) (m_motd g) (m_info g) (m_createdDate g) v
    (m_accountsNumber g) (m_bankMoney g) (m_ranks g) (m_members g) (m_bankTabs g) (m_eventLog g)
    (m_bankEventLog g).
Definition set_accountsNumber (v : Z) (g : Guild) : Guild :=
  mkGuild (m_id g) (m_guildName g) (m_leaderGuid g) (m_motd g) (m_info g) (m_createdDate g)
    (m_emblemInfo g) v (m_bankMoney g) (m_ranks g) (m_members g) (m_bankTabs g) (m_eventLog g)
    (m_bankEventLog g).
Definition set_bankMoney (v : Z) (g : Guild) : Guild :=
  mkGuild (m_id g) (m_guildName g) (m_leaderGuid g) (m_motd g) (m_info g) (m_createdDate g)
    (m_emblemInfo g) (m_accountsNumber g) v (m_ranks g) (m_members g) (m_bankTabs g)
    (m_eventLog g) (m_bankEventLog g).
Definition set_ranks (v : list RankInfo) (g : Guild) : Guild :=
  mkGuild (m_id g) (m_guildName g) (m_leaderGuid g) (m_motd g) (m_info g) (m_createdDate g)
    (m_emblemInfo g) (m_accountsNumber g) (m_bankMoney g) v (m_members g) (m_bankTabs g)
    (m_eventLog g) (m_bankEventLog g).
Definition set_members (v : list (Z * Member)) (g : Guild) : Guild :=
  mkGuild (m_id g) (m_guildName g) (m_leaderGuid g) (m_motd g) (m_info g) (m_createdDate g)
    (m_emblemInfo g) (m_accountsNumber g) (m_bankMoney g) (m_ranks g) v (m_bankTabs g)
    (m_eventLog g) (m_bankEventLog g).
Definition set_bankTabs (v : list BankTab) (g : Guild) : Guild :=
  mkGuild (m_id g) (m_guildName g) (m_leaderGuid g) (m_motd g) (m_info g) (m_createdDate g)
    (m_emblemInfo g) (m_accountsNumber g) (m_bankMoney g) (m_ranks g) (m_members g) v
    (m_eventLog g) (m_bankEventLog g).
Definition set_eventLog (v : LogHolder) (g : Guild) : Guild :=
  mkGuild (m_id g) (m_guildName g) (m_leaderGuid g) (m_motd g) (m_info g) (m_createdDate g)
    (m_emblemInfo g) (m_accountsNumber g) (m_bankMoney g) (m_ranks g) (m_members g) (m_bankTabs g)
    v (m_bankEventLog g).
Definition set_bankEventLog (v : list LogHolder) (g : Guild) : Guild :=
  mkGuild (m_id g) (m_guildName g) (m_leaderGuid g) (m_motd g) (m_info g) (m_createdDate g)
    (m_emblemInfo g) (m_accountsNumber g) (m_bankMoney g) (m_ranks g) (m_members g) (m_bankTabs g)
    (m_eventLog g) v.
Definition SetZoneID (v : Z) (m : Member) : Member :=
  mkMember (m_guid m) (m_name m) v (m_level m) (m_class m) (m_flags m) (m_logoutTime m)
    (m_accountId m) (m_rankId m) (m_publicNote m) (m_officerNote m) (m_bankWithdraw m).
Definition SetLevel (v : Z) (m : Member) : Member :=
  mkMember (m_guid m) (m_name m) (m_zoneId m) v (m_class m) (m_flags m) (m_logoutTime m)
    (m_accountId m) (m_rankId m) (m_publicNote m) (m_officerNote m) (m_bankWithdraw m).
Definition set_flags (v : Z) (m : Member) : Member :=
  mkMember (m_guid m) (m_name m) (m_zoneId m) (m_level m) (m_class m) v (m_logoutTime m)
    (m_accountId m) (m_rankId m) (m_publicNote m) (m_officerNote m) (m_bankWithdraw m).
Definition set_logoutTime (v : Z) (m : Member) : Member :=
  mkMember (m_guid m) (m_name m) (m_zoneId m) (m_level m) (m_class m) (m_flags m) v
    (m_accountId m) (m_rankId m) (m_publicNote m) (m_officerNote m) (m_bankWithdraw m).
Definition set_rankId (v : Z) (m : Member) : Member :=
  mkMember (m_guid m) (m_name m) (m_zoneId m) (m_level m) (m_class m) (m_flags m) (m_logoutTime m)
    (m_accountId m) v (m_publicNote m) (m_officerNote m) (m_bankWithdraw m).
Definition set_publicNote (v : list Z) (m : Member) : Member :=
  mkMember (m_guid m) (m_name m) (m_zoneId m) (m_level m) (m_class m) (m_flags m) (m_logoutTime m)
    (m_accountId m) (m_rankId m) v (m_officerNote m) (m_bankWithdraw m).
Definition set_officerNote (v : list Z) (m : Member) : Member :=
  mkMember (m_guid m) (m_name m) (m_zoneId m) (m_level m) (m_class m) (m_flags m) (m_logoutTime m)
    (m_accountId m) (m_rankId m) (m_publicNote m) v (m_bankWithdraw m).
Definition set_bankWithdraw (v : list Z) (m : Member) : Member :=
  mkMember (m_guid m) (m_name m) (m_zoneId m) (m_level m) (m_class m) (m_flags m) (m_logoutTime m)
    (m_accountId m) (m_rankId m) (m_publicNote m) (m_officerNote m) v.
Definition set_name (v : list Z) (r : RankInfo) : RankInfo :=
  mkRank (r_rankId r) v (r_rights r) (r_bankMoneyPerDay r) (r_tabs r).
Definition set_rights (v : Z) (r : RankInfo) : RankInfo :=
  mkRank (r_rankId r) (r_name r) v (r_bankMoneyPerDay r) (r_tabs r).
Definition set_bankMoneyPerDay (v : Z) (r : RankInfo) : RankInfo :=
  mkRank (r_rankId r) (r_name r) (r_rights r) v (r_tabs r).
Definition set_tabs (v : list GuildBankRightsAndSlots) (r : RankInfo) : RankInfo :=
  mkRank (r_rankId r) (r_name r) (r_rights r) (r_bankMoneyPerDay r) v.
Definition set_money (v : Z) (p : Player) : Player :=
  mkPlayer (p_name p) (p_level p) (p_class p) (p_zone p) (p_account p) (p_team p) (p_chatTag p)
    (p_ignores p) v (p_guildId p) (p_rank p) (p_guildIdInvited p).
Definition SetInGuild (v : Z) (p : Player) : Player :=
  mkPlayer (p_name p) (p_level p) (p_class p) (p_zone p) (p_account p) (p_team p) (p_chatTag p)
    (p_ignores p) (p_money p) v (p_rank p) (p_guildIdInvited p).
Definition SetRank (v : Z) (p : Player) : Player :=
  mkPlayer (p_name p) (p_level p) (p_class p) (p_zone p) (p_account p) (p_team p) (p_chatTag p)
    (p_ignores p) (p_money p) (p_guildId p) v (p_guildIdInvited p).
Definition SetGuildIdInvited (v : Z) (p : Player) : Player :=
  mkPlayer (p_name p) (p_level p) (p_class p) (p_zone p) (p_account p) (p_team p) (p_chatTag p)
    (p_ignores p) (p_money p) (p_guildId p) (p_rank p) v.
Definition set_guild (v : Guild) (w : World) : World :=
  mkWorld v (players w) (GuildStore w) (NextGuildId w) (hiItemGuid w) (trace w).
Definition set_players (v : list (Z * Player)) (w : World) : World :=
  mkWorld (guild w) v (GuildStore w) (NextGuildId w) (hiItemGuid w) (trace w).
Definition set_store (v : list (Z * list Z)) (w : World) : World :=
  mkWorld (guild w) (players w) v (NextGuildId w) (hiItemGuid w) (trace w).
Definition set_next_id (v : Z) (w : World) : World :=
  mkWorld (guild w) (players w) (GuildStore w) v (hiItemGuid w) (trace w).
Definition set_hiItemGuid (v : Z) (w : World) : World :=
  mkWorld (guild w) (players w) (GuildStore w) (NextGuildId w) v (trace w).
Definition set_trace (v : list effect) (w : World) : World :=
  mkWorld (guild w) (players w) (GuildStore w) (NextGuildId w) (hiItemGuid w) v.

(** ** The world *)
Definition emit (es : list effect) (w : World) : World := set_trace (trace w ++ es) w.
Definition on_this (f : Guild -> Guild) (w : World) : World := set_guild (f (guild w)) w.
Definition FindPlayer (guid : Z) (w : World) : option Player := map_find guid (players w).
Definition on_player (guid : Z) (f : Player -> Player) (w : World) : World :=
  match FindPlayer guid w with Some p => set_players (map_set guid (f p) (players w)) w | None => w end.

(** The player of a session. *)
Definition GetPlayer (guid : Z) (w : World) : result fault Player :=
  match FindPlayer guid w with Some p => Ok p | None => Throw NullPlayer end.

Definition tolower (c : Z) : Z := if (65 <=? c) && (c <=? 90) then c + 32 else c.
Fixpoint find_name (name : list Z) (l : list (Z * Player)) : option (Z * Player) :=
  match l with
  | [] => None
  | (g, p) :: l => if decide (name = map tolower (p_name p)) then Some (g, p) else find_name name l
  end.
Definition FindPlayerByName (name : list Z) (w : World) : option (Z * Player) := find_name (map tolower name) (players w).

(** [Player::ModifyMoney]; [d] is an [int32]. *)
Definition SetMoney (guid value : Z) (w : World) : World := on_player guid (set_money value) w.
Definition ModifyMoney (guid d : Z) (w : World) : World :=
  let w := emit [OnPlayerMoneyChanged guid d] w in
  match FindPlayer guid w with
  | None => w
  | Some p =>
      let money := p_money p in
      if d <? 0 then SetMoney guid (if u32 (- d) <? money then u32 (money + d) else 0) w
      else if money <? u32 (MAX_MONEY_AMOUNT - d) then SetMoney guid (u32 (money + d)) w
      else
        let w := if d =? 0 then w else emit [SendEquipError guid EQUIP_ERR_TOO_MUCH_GOLD] w in
        SetMoney guid MAX_MONEY_AMOUNT w
  end.
Definition HasEnoughMoney (p : Player) (amount : Z) : bool := amount <=? p_money p.

(** ** Logs *)
Definition new_log (maxRecords : Z) : LogHolder := mkLog [] maxRecords GUILD_EVENT_LOG_GUID_UNDEFINED.
Definition size {A} (l : list A) : Z := Z.of_nat (length l).
Definition CanInsert (l : LogHolder) : bool := size (m_log l) <? m_maxRecords l.
Definition LoadEvent (e : LogEntry) (l : LogHolder) : LogHolder :=
  mkLog (e :: m_log l) (m_maxRecords l)
    (if m_nextGUID l =? GUILD_EVENT_LOG_GUID_UNDEFINED then entry_guid e else m_nextGUID l).
Definition AddEvent (e : LogEntry) (l : LogHolder) : result fault LogHolder :=
  let? log := if m_maxRecords l <=? size (m_log l) then match m_log l with [] => Throw EmptyLog | _ :: log => Ok log end
              else Ok (m_log l) in
  Ok (mkLog (log ++ [e]) (m_maxRecords l) (m_nextGUID l)).
Definition GetNextGUID (l : LogHolder) : result fault (Z * LogHolder) :=
  let? next := if m_nextGUID l =? GUILD_EVENT_LOG_GUID_UNDEFINED then Ok 0
               else if m_maxRecords l =? 0 then Throw DivideByZero else Ok (u32 (m_nextGUID l + 1) mod m_maxRecords l) in
  Ok (next, mkLog (m_log l) (m_maxRecords l) next).

Definition IsMoneyEvent (eventType : Z) : bool :=
  (eventType =? GUILD_BANK_LOG_DEPOSIT_MONEY) || (eventType =? GUILD_BANK_LOG_WITHDRAW_MONEY) || (eventType =? GUILD_BANK_LOG_REPAIR_MONEY).

Definition LogEntry_SaveToDB (guildId : Z) (e : LogEntry) : list effect :=
  match e with
  | EventLogEntry guid ts ty p1 p2 rank =>
      [Execute CHAR_DEL_GUILD_EVENTLOG [U32 guildId; U32 guid];
       Execute CHAR_INS_GUILD_EVENTLOG [U32 guildId; U32 guid; U8 (u8 ty); U32 p1; U32 p2; U8 rank; U64 ts]]
  | BankEventLogEntry guid ts ty tab p itemOrMoney stack dest =>
      [Execute CHAR_DEL_GUILD_BANK_EVENTLOG [U32 guildId; U32 guid; U8 tab];
       Execute CHAR_INS_GUILD_BANK_EVENTLOG
         [U32 guildId; U32 guid; U8 tab; U8 (u8 ty); U32 p; U32 itemOrMoney; U16 stack; U8 dest; U64 ts]]
  end.

Definition LogEntry_WritePacket (E : Env) (e : LogEntry) : list field :=
  match e with
  | EventLogEntry _ ts ty p1 p2 rank =>
      [U8 (u8 ty); U64 p1]
      ++ (if negb (ty =? GUILD_EVENT_LOG_JOIN_GUILD) && negb (ty =? GUILD_EVENT_LOG_LEAVE_GUILD) then [U64 p2] else [])
      ++ (if (ty =? GUILD_EVENT_LOG_PROMOTE_PLAYER) || (ty =? GUILD_EVENT_LOG_DEMOTE_PLAYER) then [U8 rank] else [])
      ++ [U32 (u32 (now E - ts))]
  | BankEventLogEntry _ ts ty _ p itemOrMoney stack dest =>
      [U8 (u8 ty); U64 p]
      ++ (if (ty =? GUILD_BANK_LOG_DEPOSIT_ITEM) || (ty =? GUILD_BANK_LOG_WITHDRAW_ITEM) then [U32 itemOrMoney; U32 stack]
          else if (ty =? GUILD_BANK_LOG_MOVE_ITEM) || (ty =? GUILD_BANK_LOG_MOVE_ITEM2) then [U32 itemOrMoney; U32 stack; U8 dest]
          else [U64 itemOrMoney])
      ++ [U32 (u32 (now E - ts))]
  end.
Definition LogHolder_WritePacket (E : Env) (l : LogHolder) : list field :=
  U8 (u8 (size (m_log l))) :: (m_log l ≫= LogEntry_WritePacket E).

Definition _LogEvent (E : Env) (eventType playerGuid1 playerGuid2 newRank : Z) (w : World) : result fault World :=
  let? (guid, log) := GetNextGUID (m_eventLog (guild w)) in
  let e := EventLogEntry guid (now E) eventType playerGuid1 playerGuid2 newRank in
  let? log := AddEvent e log in
  Ok (emit (LogEntry_SaveToDB (m_id (guild w)) e ++ [Script OnGuildEvent [U8 (u8 eventType); U32 playerGuid1; U32 playerGuid2; U8 newRank]])
        (on_this (set_eventLog log) w)).

Definition _LogBankEvent (E : Env) (eventType tabId lowguid itemOrMoney itemStackCount destTabId : Z) (w : World) : result fault World :=
  if GUILD_BANK_MAX_TABS <? tabId then Ok w
  else if (eventType =? GUILD_BANK_LOG_MOVE_ITEM) && (tabId =? destTabId) then Ok w
  else
    let '(tabId, dbTabId) := if IsMoneyEvent eventType then (GUILD_BANK_MAX_TABS, GUILD_BANK_MONEY_LOGS_TAB) else (tabId, tabId) in
    match m_bankEventLog (guild w) !! Z.to_nat tabId with
    | None => Throw OutOfArray
    | Some pLog =>
        let? (guid, log) := GetNextGUID pLog in
        let e := BankEventLogEntry guid (now E) eventType dbTabId lowguid itemOrMoney itemStackCount destTabId in
        let? log := AddEvent e log in
        Ok (emit (LogEntry_SaveToDB (m_id (guild w)) e
                  ++ [Script OnGuildBankEvent [U8 (u8 eventType); U8 tabId; U32 lowguid; U32 itemOrMoney; U16 itemStackCount; U8 destTabId]])
              (on_this (fun g => set_bankEventLog (<[Z.to_nat tabId := log]> (m_bankEventLog g)) g) w))
    end.

(** ** Ranks *)
Definition GetTabId (r : GuildBankRightsAndSlots) : Z := s8 (tabId r).
Definition GetSlots (r : GuildBankRightsAndSlots) : Z := s32 (slots r).
Definition GetRights (r : GuildBankRightsAndSlots) : Z := s8 (rights r).
Definition no_rights : GuildBankRightsAndSlots := mkRights TAB_UNDEFINED 0 0.
Definition SetGuildMasterValues (r : GuildBankRightsAndSlots) : GuildBankRightsAndSlots :=
  mkRights (tabId r) GUILD_BANK_RIGHT_FULL GUILD_WITHDRAW_SLOT_UNLIMITED.
Definition new_rank (rankId : Z) (name : list Z) (rights money : Z) : RankInfo :=
  mkRank rankId name rights money (replicate (Z.to_nat GUILD_BANK_MAX_TABS) no_rights).

Definition RankInfo_SaveToDB (guildId : Z) (r : RankInfo) : list effect :=
  [Execute CHAR_INS_GUILD_RANK [U32 guildId; U8 (r_rankId r); Str (r_name r); U32 (r_rights r)]].

Definition save_right (guildId rankId : Z) (r : GuildBankRightsAndSlots) : effect :=
  Execute CHAR_INS_GUILD_BANK_RIGHT [U32 guildId; U8 (u8 (GetTabId r)); U8 rankId; U8 (u8 (GetRights r)); U32 (u32 (GetSlots r))].

(** The entries from the tab [i] on. *)
Fixpoint missing_tabs (guildId rankId i tabs : Z) (l : list GuildBankRightsAndSlots) : list GuildBankRightsAndSlots * list effect :=
  match l with
  | [] => ([], [])
  | r :: l =>
      let '(l', es) := missing_tabs guildId rankId (i + 1) tabs l in
      if (i <? tabs) && negb (GetTabId r =? i) then
        let r := mkRights i (rights r) (slots r) in
        let r := if rankId =? GR_GUILDMASTER then SetGuildMasterValues r else r in
        (r :: l', Execute CHAR_INS_GUILD_BANK_RIGHT [U32 guildId; U8 i; U8 rankId; U8 (u8 (GetRights r)); U32 (u32 (GetSlots r))] :: es)
      else (r :: l', es)
  end.
Definition CreateMissingTabsIfNeeded (guildId tabs : Z) (r : RankInfo) : RankInfo * list effect :=
  let '(l, es) := missing_tabs guildId (r_rankId r) 0 tabs (r_tabs r) in (set_tabs l r, es).

Definition RankInfo_WritePacket (r : RankInfo) : list field :=
  [U32 (r_rights r); U32 (r_bankMoneyPerDay r)] ++ (r_tabs r ≫= fun t => [U32 (u32 (GetRights t)); U32 (u32 (GetSlots t))]).

Definition SetName (guildId : Z) (name : list Z) (r : RankInfo) : RankInfo * list effect :=
  if decide (r_name r = name) then (r, [])
  else (set_name name r, [Execute CHAR_UPD_GUILD_RANK_NAME [Str name; U8 (r_rankId r); U32 guildId]]).
Definition SetRights (guildId rights : Z) (r : RankInfo) : RankInfo * list effect :=
  let rights := if r_rankId r =? GR_GUILDMASTER then GR_RIGHT_ALL else rights in
  if r_rights r =? rights then (r, [])
  else (set_rights rights r, [Execute CHAR_UPD_GUILD_RANK_RIGHTS [U32 rights; U8 (r_rankId r); U32 guildId]]).
Definition SetBankMoneyPerDay (guildId money : Z) (r : RankInfo) : RankInfo * list effect :=
  let money := if r_rankId r =? GR_GUILDMASTER then GUILD_WITHDRAW_MONEY_UNLIMITED else money in
  if r_bankMoneyPerDay r =? money then (r, [])
  else (set_bankMoneyPerDay money r, [Execute CHAR_UPD_GUILD_RANK_BANK_MONEY [U32 money; U8 (r_rankId r); U32 guildId]]).
Definition SetBankTabSlotsAndRights (guildId : Z) (saveToDB : bool) (rs : GuildBankRightsAndSlots) (r : RankInfo) :
    result fault (RankInfo * list effect) :=
  let rs := if r_rankId r =? GR_GUILDMASTER then SetGuildMasterValues rs else rs in
  if (0 <=? GetTabId rs) && (GetTabId rs <? GUILD_BANK_MAX_TABS)
  then Ok (set_tabs (<[Z.to_nat (GetTabId rs) := rs]> (r_tabs r)) r, if saveToDB then [save_right guildId (r_rankId r) rs] else [])
  else Throw OutOfArray.

Definition _GetRanksSize (g : Guild) : Z := u8 (size (m_ranks g)).
Definition _GetLowestRankId (g : Guild) : Z := u8 (size (m_ranks g) - 1).
Definition GetRankInfo (rankId : Z) (g : Guild) : option RankInfo :=
  if rankId <? _GetRanksSize g then m_ranks g !! Z.to_nat rankId else None.
Definition on_rank (rankId : Z) (r : RankInfo) (es : list effect) (w : World) : World :=
  emit es (on_this (fun g => set_ranks (<[Z.to_nat rankId := r]> (m_ranks g)) g) w).

Definition _GetRankName (rankId : Z) (g : Guild) : list Z :=
  match GetRankInfo rankId g with Some r => r_name r | None => [60; 117; 110; 107; 110; 111; 119; 110; 62] (* <unknown> *) end.
Definition _GetRankRights (rankId : Z) (g : Guild) : Z :=
  match GetRankInfo rankId g with Some r => r_rights r | None => 0 end.
Definition _GetRankBankMoneyPerDay (rankId : Z) (g : Guild) : Z :=
  match GetRankInfo rankId g with Some r => s32 (r_bankMoneyPerDay r) | None => 0 end.
Definition GetBankTabRights (tabId : Z) (r : RankInfo) : Z :=
  if tabId <? GUILD_BANK_MAX_TABS then match r_tabs r !! Z.to_nat tabId with Some t => GetRights t | None => 0 end else 0.
Definition GetBankTabSlotsPerDay (tabId : Z) (r : RankInfo) : Z :=
  if tabId <? GUILD_BANK_MAX_TABS then match r_tabs r !! Z.to_nat tabId with Some t => GetSlots t | None => 0 end else 0.
Definition _GetPurchasedTabsSize (g : Guild) : Z := u8 (size (m_bankTabs g)).
Definition _GetRankBankTabSlotsPerDay (rankId tabId : Z) (g : Guild) : Z :=
  if tabId <? _GetPurchasedTabsSize g
  then match GetRankInfo rankId g with Some r => GetBankTabSlotsPerDay tabId r | None => 0 end else 0.
Definition _GetRankBankTabRights (rankId tabId : Z) (g : Guild) : Z :=
  match GetRankInfo rankId g with Some r => GetBankTabRights tabId r | None => 0 end.

Definition _SetRankBankMoneyPerDay (rankId moneyPerDay : Z) (w : World) : World :=
  match GetRankInfo rankId (guild w) with
  | Some r => let '(r, es) := SetBankMoneyPerDay (m_id (guild w)) moneyPerDay r in on_rank rankId r es w
  | None => w
  end.
Definition _SetRankBankTabRightsAndSlots (rankId : Z) (saveToDB : bool) (rs : GuildBankRightsAndSlots) (w : World) : result fault World :=
  if _GetPurchasedTabsSize (guild w) <=? GetTabId rs then Ok w
  else match GetRankInfo rankId (guild w) with
       | Some r => let? (r, es) := SetBankTabSlotsAndRights (m_id (guild w)) saveToDB rs r in Ok (on_rank rankId r es w)
       | None => Ok w
       end.

(** ** Members *)
Definition new_member (E : Env) (guid rankId : Z) : Member :=
  mkMember guid [] 0 0 0 (uninitialised E) (now E) 0 rankId [] [] (replicate (Z.to_nat (GUILD_BANK_MAX_TABS + 1)) 0).
Definition SetStats (name : list Z) (level class zoneId accountId : Z) (m : Member) : Member :=
  mkMember (m_guid m) name zoneId level class (m_flags m) (m_logoutTime m) accountId (m_rankId m) (m_publicNote m) (m_officerNote m)
    (m_bankWithdraw m).
Definition SetStats_player (p : Player) : Member -> Member := SetStats (p_name p) (p_level p) (p_class p) (p_zone p) (p_account p).
Definition AddFlag (var : Z) (m : Member) : Member := set_flags (Z.lor (m_flags m) var) m.
Definition RemFlag (var : Z) (m : Member) : Member := set_flags (Z.ldiff (m_flags m) var) m.
Definition ResetFlags (m : Member) : Member := set_flags GUILDMEMBER_STATUS_NONE m.
Definition UpdateLogoutTime (E : Env) (m : Member) : Member := set_logoutTime (now E) m.
Definition ResetValues (m : Member) : Member := set_bankWithdraw (map (fun _ => 0) (m_bankWithdraw m)) m.
Definition CheckStats (m : Member) : bool :=
  negb (m_level m <? 1) && negb ((m_class m <? CLASS_WARRIOR) || (MAX_CLASSES <=? m_class m)).
Definition IsRank (rankId : Z) (m : Member) : bool := m_rankId m =? rankId.
Definition IsRankNotLower (rankId : Z) (m : Member) : bool := m_rankId m <=? rankId.
Definition IsSamePlayer (guid : Z) (m : Member) : bool := m_guid m =? guid.

Definition Member_SaveToDB (guildId : Z) (m : Member) : list effect :=
  [Execute CHAR_INS_GUILD_MEMBER [U32 guildId; U32 (GUID_LOPART (m_guid m)); U8 (m_rankId m); Str (m_publicNote m); Str (m_officerNote m)]].
Definition Member_WritePacket (E : Env) (m : Member) : list field :=
  [U64 (m_guid m); U8 (m_flags m); Str (m_name m); U32 (m_rankId m); U8 (m_level m); U8 (m_class m); U8 0; U32 (m_zoneId m)]
  ++ (if m_flags m =? 0 then [FloatDays (u64 (now E - m_logoutTime m))] else [])
  ++ [Str (m_publicNote m); Str (m_officerNote m)].

Definition UpdateBankWithdrawValue (tabId amount : Z) (m : Member) : Member * list effect :=
  let l := <[Z.to_nat tabId := s32 (u32 (default 0 (m_bankWithdraw m !! Z.to_nat tabId) + amount))]> (m_bankWithdraw m) in
  (set_bankWithdraw l m, [Execute CHAR_INS_GUILD_MEMBER_WITHDRAW (U32 (GUID_LOPART (m_guid m)) :: map (fun v => U32 (u32 v)) l)]).
Definition GetBankWithdrawValue (tabId : Z) (m : Member) : Z :=
  if IsRank GR_GUILDMASTER m
  then s32 (if tabId =? GUILD_BANK_MAX_TABS then GUILD_WITHDRAW_MONEY_UNLIMITED else GUILD_WITHDRAW_SLOT_UNLIMITED)
  else default 0 (m_bankWithdraw m !! Z.to_nat tabId).

Definition GetMember (guid : Z) (g : Guild) : option Member := map_find (GUID_LOPART guid) (m_members g).
Fixpoint find_member (name : list Z) (l : list (Z * Member)) : option (Z * Member) :=
  match l with
  | [] => None
  | (low, m) :: l => if decide (m_name m = name) then Some (low, m) else find_member name l
  end.
(** A member with the key under which he is found. *)
Definition GetMember_name (name : list Z) (g : Guild) : option (Z * Member) := find_member name (m_members g).

Definition put_member (low : Z) (m : Member) (w : World) : World := on_this (fun g => set_members (map_set low m (m_members g)) g) w.
Definition update_member (low : Z) (f : Member -> Member) (w : World) : World :=
  match map_find low (m_members (guild w)) with Some m => put_member low (f m) w | None => w end.

Definition SetPublicNote (low : Z) (note : list Z) (m : Member) (w : World) : World :=
  if decide (m_publicNote m = note) then w
  else emit [Execute CHAR_UPD_GUILD_MEMBER_PNOTE [Str note; U32 (GUID_LOPART (m_guid m))]] (put_member low (set_publicNote note m) w).
Definition SetOfficerNote (low : Z) (note : list Z) (m : Member) (w : World) : World :=
  if decide (m_officerNote m = note) then w
  else emit [Execute CHAR_UPD_GUILD_MEMBER_OFFNOTE [Str note; U32 (GUID_LOPART (m_guid m))]] (put_member low (set_officerNote note m) w).

(** The member with the key [low]. *)
Definition ChangeRank (low newRank : Z) (w : World) : World :=
  match map_find low (m_members (guild w)) with
  | None => w
  | Some m =>
      let w := put_member low (set_rankId newRank m) w in
      let w := on_player (m_guid m) (SetRank newRank) w in
      emit [Execute CHAR_UPD_GUILD_MEMBER_RANK [U8 newRank; U32 (GUID_LOPART (m_guid m))]] w
  end.

(** ** Rights *)
Definition has_right (rights right : Z) : bool := negb (Z.land rights right =? GR_RIGHT_EMPTY).
Definition _HasRankRight (player right : Z) (g : Guild) : bool :=
  match GetMember player g with Some m => has_right (_GetRankRights (m_rankId m) g) right | None => false end.
Definition _IsLeader (player : Z) (g : Guild) : bool :=
  if player =? m_leaderGuid g then true
  else match GetMember player g with Some m => IsRank GR_GUILDMASTER m | None => false end.

Definition remaining (limit taken : Z) : Z := let r := s32 (limit - taken) in if 0 <? r then r else 0.
Definition _GetMemberRemainingSlots (m : Member) (tabId : Z) (g : Guild) : Z :=
  let rankId := m_rankId m in
  if rankId =? GR_GUILDMASTER then s32 GUILD_WITHDRAW_SLOT_UNLIMITED
  else if has_right (_GetRankBankTabRights rankId tabId g) GUILD_BANK_RIGHT_VIEW_TAB
  then remaining (_GetRankBankTabSlotsPerDay rankId tabId g) (GetBankWithdrawValue tabId m) else 0.
Definition _GetMemberRemainingMoney (m : Member) (g : Guild) : Z :=
  let rankId := m_rankId m in
  if rankId =? GR_GUILDMASTER then s32 GUILD_WITHDRAW_MONEY_UNLIMITED
  else if has_right (_GetRankRights rankId g) (Z.lor GR_RIGHT_WITHDRAW_REPAIR GR_RIGHT_WITHDRAW_GOLD)
  then remaining (_GetRankBankMoneyPerDay rankId g) (GetBankWithdrawValue GUILD_BANK_MAX_TABS m) else 0.

Definition save_withdraw (low tabId amount : Z) (m : Member) (w : World) : World :=
  let '(m, es) := UpdateBankWithdrawValue tabId amount m in emit es (put_member low m w).
Definition _UpdateMemberWithdrawSlots (guid tabId : Z) (w : World) : World :=
  match GetMember guid (guild w) with
  | Some m =>
      if negb (m_rankId m =? GR_GUILDMASTER)
         && (GetBankWithdrawValue tabId m <? _GetRankBankTabSlotsPerDay (m_rankId m) tabId (guild w))
      then save_withdraw (GUID_LOPART guid) tabId 1 m w else w
  | None => w
  end.
Definition _MemberHasTabRights (guid tabId rights : Z) (g : Guild) : bool :=
  match GetMember guid g with
  | Some m =>
      if IsRank GR_GUILDMASTER m || (m_leaderGuid g =? guid) then true
      else Z.land (u32 (_GetRankBankTabRights (m_rankId m) tabId g)) rights =? rights
  | None => false
  end.

(** ** Sending *)
Definition SendCommandResult (session type errCode : Z) (param : list Z) : World -> World :=
  emit [SendPacket session (mkPacket SMSG_GUILD_COMMAND_RESULT [U32 type; Str param; U32 errCode])].
Definition SendSaveEmblemResult (session errCode : Z) : World -> World :=
  emit [SendPacket session (mkPacket MSG_SAVE_GUILD_EMBLEM [U32 errCode])].

(** The members in the world. *)
Definition online (w : World) : list (Z * Member) :=
  filter (fun m => is_Some (FindPlayer (m_guid m.2) w)) (m_members (guild w)).
Definition BroadcastPacket (data : WorldPacket) (w : World) : World :=
  emit (map (fun m => SendPacket (m_guid m.2) data) (online w)) w.
Definition BroadcastPacketToRank (data : WorldPacket) (rankId : Z) (w : World) : World :=
  emit (map (fun m => SendPacket (m_guid m.2) data) (filter (fun m => IsRank rankId m.2 = true) (online w))) w.
Definition _BroadcastEvent (guildEvent guid : Z) (params : list (list Z)) : World -> World :=
  BroadcastPacket (mkPacket SMSG_GUILD_EVENT
    ([U8 guildEvent; U8 (size params)] ++ map Str params ++ if guid =? 0 then [] else [U64 guid])).

Definition HandleRoster (E : Env) (session : option Z) (w : World) : World :=
  let g := guild w in
  let data := mkPacket SMSG_GUILD_ROSTER
    ([U32 (u32 (size (m_members g))); Str (m_motd g); Str (m_info g); U32 (_GetRanksSize g)]
     ++ (m_ranks g ≫= RankInfo_WritePacket) ++ (m_members g ≫= fun m => Member_WritePacket E m.2)) in
  match session with Some s => emit [SendPacket s data] w | None => BroadcastPacket data w end.

Definition EmblemInfo_WritePacket (e : EmblemInfo) : list field :=
  [U32 (m_style e); U32 (m_color e); U32 (m_borderStyle e); U32 (m_borderColor e); U32 (m_backgroundColor e)].
Definition EmblemInfo_SaveToDB (guildId : Z) (e : EmblemInfo) : list effect :=
  [Execute CHAR_UPD_GUILD_EMBLEM_INFO (EmblemInfo_WritePacket e ++ [U32 guildId])].
Definition HandleQuery (session : Z) (w : World) : World :=
  let g := guild w in
  emit [SendPacket session (mkPacket SMSG_GUILD_QUERY_RESPONSE
    ([U32 (m_id g); Str (m_guildName g)]
     ++ map (fun i => if i <? _GetRanksSize g then Str (default [] (r_name <$> m_ranks g !! Z.to_nat i)) else U8 0)
          (seqZ 0 GUILD_RANKS_MAX_COUNT)
     ++ EmblemInfo_WritePacket (m_emblemInfo g) ++ [U32 (_GetRanksSize g)]))] w.

(** ** The contents of the bank *)
Definition GetBankTab (tabId : Z) (g : Guild) : option BankTab :=
  if tabId <? size (m_bankTabs g) then m_bankTabs g !! Z.to_nat tabId else None.
Definition GetItem (slotId : Z) (t : BankTab) : option Item := if slotId <? GUILD_BANK_MAX_SLOTS then t_items t !! slotId else None.
Definition _GetItem (tabId slotId : Z) (g : Guild) : option Item :=
  match GetBankTab tabId g with Some t => GetItem slotId t | None => None end.

Fixpoint write_enchantments (i : Z) (ids : list Z) : Z * list field :=
  match ids with
  | [] => (0, [])
  | id :: ids =>
      let '(n, fs) := write_enchantments (i + 1) ids in
      if id =? 0 then (n, fs) else (n + 1, [U8 i; U32 id] ++ fs)
  end.
Definition WriteSlotPacket (slotId : Z) (ignoreEmpty : bool) (t : BankTab) : bool * list field :=
  let entry := match GetItem slotId t with Some it => i_entry it | None => 0 end in
  if (entry =? 0) && ignoreEmpty then (false, [])
  else
    (true, [U8 slotId; U32 entry]
      ++ match GetItem slotId t with
         | Some it =>
             if entry =? 0 then []
             else
               let '(n, enchantments) := write_enchantments 0 (i_enchantments it) in
               [U32 0]
               ++ (if u32 (i_randomPropertyId it) =? 0 then [U32 0] else [U32 (u32 (i_randomPropertyId it)); U32 (i_suffixFactor it)])
               ++ [U32 (i_count it); U32 0; U8 (u8 (Z.abs (i_spellCharges it))); U8 (u8 n)] ++ enchantments
         | None => []
         end).
Definition BankTab_WritePacket (t : BankTab) : list field :=
  let written := map (fun s => WriteSlotPacket s true t) (seqZ 0 GUILD_BANK_MAX_SLOTS) in
  U8 (u8 (size (filter (fun x => x.1 = true) written))) :: (written ≫= snd).
Definition WriteInfoPacket (t : BankTab) : list field := [Str (t_name t); Str (t_icon t)].

Definition bank_list (numSlots tabId : Z) (sendAllSlots : bool) (slots : option (list Z)) (g : Guild) : WorldPacket :=
  mkPacket SMSG_GUILD_BANK_LIST
    ([U64 (m_bankMoney g); U8 tabId; U32 (u32 numSlots); U8 (Z.b2z sendAllSlots)]
     ++ (if sendAllSlots && (tabId =? 0)
         then U8 (_GetPurchasedTabsSize g) :: (take (Z.to_nat (_GetPurchasedTabsSize g)) (m_bankTabs g) ≫= WriteInfoPacket) else [])
     ++ match GetBankTab tabId g with
        | None => [U8 0]
        | Some tab =>
            if sendAllSlots then BankTab_WritePacket tab
            else match slots with
                 | Some ((_ :: _) as l) => U8 (u8 (size l)) :: (l ≫= fun s => (WriteSlotPacket s false tab).2)
                 | _ => [U8 0]
                 end
        end).
Definition _SendBankList (session : option Z) (tabId : Z) (sendAllSlots : bool) (slots : option (list Z)) (w : World) : World :=
  let g := guild w in
  let data n := bank_list n tabId sendAllSlots slots g in
  match session with
  | Some s =>
      emit [SendPacket s (data (match GetMember s g with Some m => _GetMemberRemainingSlots m tabId g | None => 0 end))] w
  | None =>
      emit (map (fun m => SendPacket (m_guid m.2) (data (_GetMemberRemainingSlots m.2 tabId g)))
              (filter (fun m => _MemberHasTabRights (m_guid m.2) tabId GUILD_BANK_RIGHT_VIEW_TAB g = true) (online w))) w
  end.
Definition SendBankTabsInfo (session : Z) (sendAllSlots : bool) : World -> World := _SendBankList (Some session) 0 sendAllSlots None.
Definition _SendBankContent (session tabId : Z) (w : World) : World :=
  if _MemberHasTabRights session tabId GUILD_BANK_RIGHT_VIEW_TAB (guild w) then _SendBankList (Some session) tabId true None w else w.
Definition SendBankTabData (session tabId : Z) (w : World) : World :=
  if tabId <? _GetPurchasedTabsSize (guild w) then _SendBankContent session tabId w else w.
Definition SendBankTabText (session tabId : Z) (w : World) : World :=
  match GetBankTab tabId (guild w) with
  | Some t => emit [SendPacket session (mkPacket MSG_QUERY_GUILD_BANK_TEXT [U8 (t_tabId t); Str (t_text t)])] w
  | None => w
  end.

Definition SendInfo (E : Env) (session : Z) (w : World) : World :=
  let g := guild w in
  emit [SendPacket session (mkPacket SMSG_GUILD_INFO
          [Str (m_guildName g); U32 (PackedTime E (m_createdDate g)); U32 (u32 (size (m_members g))); U32 (m_accountsNumber g)])] w.
Definition SendEventLog (E : Env) (session : Z) (w : World) : World :=
  emit [SendPacket session (mkPacket MSG_GUILD_EVENT_LOG_QUERY (LogHolder_WritePacket E (m_eventLog (guild w))))] w.
Definition SendBankLog (E : Env) (session tabId : Z) (w : World) : result fault World :=
  if (tabId <? _GetPurchasedTabsSize (guild w)) || (tabId =? GUILD_BANK_MAX_TABS)
  then match m_bankEventLog (guild w) !! Z.to_nat tabId with
       | Some l => Ok (emit [SendPacket session (mkPacket MSG_GUILD_BANK_LOG_QUERY (U8 tabId :: LogHolder_WritePacket E l))] w)
       | None => Throw OutOfArray
       end
  else Ok w.
Definition SendPermissions (session : Z) (w : World) : World :=
  let g := guild w in
  match GetMember session g with
  | None => w
  | Some m =>
      emit [SendPacket session (mkPacket MSG_GUILD_PERMISSIONS
        ([U32 (m_rankId m); U32 (_GetRankRights (m_rankId m) g); U32 (u32 (_GetMemberRemainingMoney m g)); U8 (_GetPurchasedTabsSize g)]
         ++ (seqZ 0 GUILD_BANK_MAX_TABS ≫= fun t =>
               [U32 (u32 (_GetRankBankTabRights (m_rankId m) t g)); U32 (u32 (_GetMemberRemainingSlots m t g))])))] w
  end.
Definition SendMoneyInfo (session : Z) (w : World) : World :=
  match GetMember session (guild w) with
  | None => w
  | Some m => emit [SendPacket session (mkPacket MSG_GUILD_BANK_MONEY_WITHDRAWN [U32 (u32 (_GetMemberRemainingMoney m (guild w)))])] w
  end.

Definition SendLoginInfo (E : Env) (session : Z) (w : World) : result fault World :=
  let w := emit [SendPacket session (mkPacket SMSG_GUILD_EVENT [U8 GE_MOTD; U8 1; Str (m_motd (guild w))])] w in
  let w := SendBankTabsInfo session false w in
  let? player := GetPlayer session w in
  let w := HandleRoster E (Some session) w in
  let w := _BroadcastEvent GE_SIGNED_ON session [p_name player] w in
  Ok (update_member (GUID_LOPART session) (fun m => AddFlag GUILDMEMBER_STATUS_ONLINE (SetStats_player player m)) w).

(** ** Members joining and leaving *)
Definition distinct (l : list Z) : list Z := foldr set_add [] l.
Definition _UpdateAccountsNumber (w : World) : World :=
  on_this (fun g => set_accountsNumber (u32 (size (distinct (map (fun m => m_accountId m.2) (m_members g))))) g) w.
Definition _DeleteMemberFromDB (lowguid : Z) : effect := Execute CHAR_DEL_GUILD_MEMBER [U32 lowguid].

(** What [AddMember] does when the member is in the map. *)
Definition added (E : Env) (guid rankId : Z) (name : list Z) (w : World) : result fault World :=
  let lowguid := GUID_LOPART guid in
  let w := emit (match map_find lowguid (m_members (guild w)) with Some m => Member_SaveToDB (m_id (guild w)) m | None => [] end) w in
  let w := _UpdateAccountsNumber w in
  let? w := _LogEvent E GUILD_EVENT_LOG_JOIN_GUILD lowguid 0 0 w in
  let w := _BroadcastEvent GE_JOINED guid [name] w in
  Ok (emit [Script OnGuildAddMember [U64 guid; U8 rankId]] w).

Definition AddMember (E : Env) (guid rankId : Z) (w : World) : result fault (bool * World) :=
  let lowguid := GUID_LOPART guid in
  let rankId' := if rankId =? GUILD_RANK_NONE then _GetLowestRankId (guild w) else rankId in
  match FindPlayer guid w with
  | Some player =>
      if negb (p_guildId player =? 0) then Ok (false, w)
      else
        let w := emit [RemovePetitionsAndSigns guid] w in
        let w := put_member lowguid (new_member E guid rankId') w in
        let w := on_player guid (fun p => SetRank rankId' (SetGuildIdInvited 0 (SetInGuild (m_id (guild w)) p))) w in
        let w := update_member lowguid (SetStats_player player) w in
        let? w := SendLoginInfo E guid w in
        let? w := added E guid rankId' (p_name player) w in
        Ok (true, w)
  | None =>
      if negb (GetGuildIdFromDB E guid =? 0) then Ok (false, w)
      else
        let w := emit [RemovePetitionsAndSigns guid] w in
        match CharData E lowguid with
        | None => Ok (false, w)
        | Some (name, level, class, zone, account) =>
            let m := SetStats name level class zone account (ResetFlags (new_member E guid rankId')) in
            if CheckStats m then let? w := added E guid rankId' name (put_member lowguid m w) in Ok (true, w) else Ok (false, w)
        end
  end.

Definition _SetLeaderGUID (low : Z) (w : World) : World :=
  match map_find low (m_members (guild w)) with
  | None => w
  | Some m =>
      let w := ChangeRank low GR_GUILDMASTER (on_this (set_leaderGuid (m_guid m)) w) in
      emit [Execute CHAR_UPD_GUILD_LEADER [U32 (GUID_LOPART (m_guid m)); U32 (m_id (guild w))]] w
  end.

(** The end of [DeleteMember], and all of it when the guild disbands. *)
Definition remove_member (guid : Z) (isDisbanding isKicked : bool) (w : World) : World :=
  let lowguid := GUID_LOPART guid in
  let w := emit [Script OnGuildRemoveMember [U64 guid; U8 (Z.b2z isDisbanding); U8 (Z.b2z isKicked)]] w in
  let w := on_this (fun g => set_members (map_erase lowguid (m_members g)) g) w in
  let w := on_player guid (fun p => SetRank 0 (SetInGuild 0 p)) w in
  let w := emit [_DeleteMemberFromDB lowguid] w in
  if isDisbanding then w else _UpdateAccountsNumber w.

(** The loop of [Disband]: the first member, until there is none. *)
Fixpoint disband_loop (fuel : nat) (w : World) : result fault World :=
  match m_members (guild w) with
  | [] => Ok w
  | (_, m) :: _ => match fuel with O => Throw NoFuel | S fuel => disband_loop fuel (remove_member (m_guid m) true false w) end
  end.
Definition tab_items (t : BankTab) : list Item := omap (fun s => t_items t !! s) (seqZ 0 GUILD_BANK_MAX_SLOTS).
Definition _DeleteBankItems (removeItemsFromDB : bool) (w : World) : World :=
  let tabs := take (Z.to_nat (_GetPurchasedTabsSize (guild w))) (m_bankTabs (guild w)) in
  on_this (set_bankTabs []) (emit (map (fun it => DeleteItem (i_guid it) removeItemsFromDB) (tabs ≫= tab_items)) w).
Definition RemoveGuild (guildId : Z) (w : World) : World := set_store (map_erase guildId (GuildStore w)) w.
Definition Disband (w : World) : result fault World :=
  let w := emit [Script OnGuildDisband []] w in
  let w := _BroadcastEvent GE_DISBANDED 0 [] w in
  let? w := disband_loop (length (m_members (guild w))) w in
  let id := m_id (guild w) in
  let w := emit [Execute CHAR_DEL_GUILD [U32 id]; Execute CHAR_DEL_GUILD_RANKS [U32 id]; Execute CHAR_DEL_GUILD_BANK_TABS [U32 id]] w in
  let w := _DeleteBankItems true w in
  let w := emit [Execute CHAR_DEL_GUILD_BANK_ITEMS [U32 id]; Execute CHAR_DEL_GUILD_BANK_RIGHTS [U32 id];
                 Execute CHAR_DEL_GUILD_BANK_EVENTLOGS [U32 id]; Execute CHAR_DEL_GUILD_EVENTLOGS [U32 id]] w in
  Ok (RemoveGuild id w).

(** The member with the highest rank apart from [lowguid], the first of them. *)
Fixpoint successor (lowguid : Z) (l : list (Z * Member)) (newLeader : option (Z * Member)) : option (Z * Member) :=
  match l with
  | [] => newLeader
  | (low, m) :: l =>
      successor lowguid l
        (if low =? lowguid then newLeader
         else match newLeader with
              | Some (_, n) => if m_rankId m <? m_rankId n then Some (low, m) else newLeader
              | None => Some (low, m)
              end)
  end.
Definition DeleteMember (guid : Z) (isDisbanding isKicked : bool) (w : World) : result fault World :=
  let lowguid := GUID_LOPART guid in
  if (m_leaderGuid (guild w) =? guid) && negb isDisbanding then
    match successor lowguid (m_members (guild w)) None with
    | None => Disband w
    | Some (low, newLeader) =>
        let oldLeader := map_find lowguid (m_members (guild w)) in
        let w := _SetLeaderGUID low w in
        let w := on_player (m_guid newLeader) (SetRank GR_GUILDMASTER) w in
        let w := match oldLeader with
                 | Some old => _BroadcastEvent GE_LEFT guid [m_name old] (_BroadcastEvent GE_LEADER_CHANGED 0 [m_name old; m_name newLeader] w)
                 | None => w
                 end in
        Ok (remove_member guid isDisbanding isKicked w)
    end
  else Ok (remove_member guid isDisbanding isKicked w).

Definition ChangeMemberRank (guid newRank : Z) (w : World) : bool * World :=
  if newRank <=? _GetLowestRankId (guild w)
  then match GetMember guid (guild w) with Some _ => (true, ChangeRank (GUID_LOPART guid) newRank w) | None => (false, w) end
  else (false, w).

(** ** Creating a guild *)
Definition _CreateRank (name : list Z) (rights : Z) (w : World) : bool * World :=
  let newRankId := _GetRanksSize (guild w) in
  if GUILD_RANKS_MAX_COUNT <=? newRankId then (false, w)
  else
    let id := m_id (guild w) in
    let info := new_rank newRankId name rights 0 in
    let w := on_this (fun g => set_ranks (m_ranks g ++ [info]) g) w in
    let '(info, es) := CreateMissingTabsIfNeeded id (_GetPurchasedTabsSize (guild w)) info in
    (true, emit (es ++ RankInfo_SaveToDB id info) w).
Definition _CreateDefaultGuildRanks (E : Env) (loc : Z) (w : World) : World :=
  let id := m_id (guild w) in
  let name i := GetTrinityString E (LANG_GUILD_MASTER + i) loc in
  let chat := Z.lor GR_RIGHT_GCHATLISTEN GR_RIGHT_GCHATSPEAK in
  let w := emit [Execute CHAR_DEL_GUILD_RANKS [U32 id]; Execute CHAR_DEL_GUILD_BANK_RIGHTS [U32 id]] w in
  let w := (_CreateRank (name 0) GR_RIGHT_ALL w).2 in
  let w := (_CreateRank (name 1) GR_RIGHT_ALL w).2 in
  let w := (_CreateRank (name 2) chat w).2 in
  let w := (_CreateRank (name 3) chat w).2 in
  (_CreateRank (name 4) chat w).2.

Definition no_message : list Z := [78; 111; 32; 109; 101; 115; 115; 97; 103; 101; 32; 115; 101; 116; 46].
Definition toupper (c : Z) : Z := if (97 <=? c) && (c <=? 122) then c - 32 else c.
Fixpoint GetGuildByName (name : list Z) (store : list (Z * list Z)) : option Z :=
  match store with
  | [] => None
  | (id, n) :: store => if decide (map toupper name = map toupper n) then Some id else GetGuildByName name store
  end.
Definition GenerateGuildId (w : World) : Z * World :=
  let w := if 0xFFFFFFFE <=? NextGuildId w then emit [StopNow] w else w in
  (NextGuildId w, set_next_id (u32 (NextGuildId w + 1)) w).
Definition AddGuild (w : World) : World := set_store (map_set (m_id (guild w)) (m_guildName (guild w)) (GuildStore w)) w.

Definition no_emblem : EmblemInfo := mkEmblem 0 0 0 0 0.
Definition created_guild (E : Env) (id leader : Z) (name : list Z) : Guild :=
  mkGuild id name leader no_message [] (now E) no_emblem 0 0 [] [] [] (new_log (CONFIG_GUILD_EVENT_LOG_COUNT E))
    (replicate (Z.to_nat (GUILD_BANK_MAX_TABS + 1)) (new_log (CONFIG_GUILD_BANK_EVENT_LOG_COUNT E))).

(** [Create] on a new object: the guild of the result. *)
Definition Create (E : Env) (leader loc : Z) (name : list Z) (w : World) : result fault (bool * World) :=
  match GetGuildByName name (GuildStore w) with
  | Some _ => Ok (false, w)
  | None =>
      let '(id, w) := GenerateGuildId w in
      let g := created_guild E id leader name in
      let w := set_guild g w in
      let w := emit [Execute CHAR_DEL_GUILD_MEMBERS [U32 id];
                     Execute CHAR_INS_GUILD ([U32 id; Str name; U32 (GUID_LOPART leader); Str []; Str no_message; U64 (u32 (now E))]
                       ++ EmblemInfo_WritePacket no_emblem ++ [U64 0])] w in
      let w := _CreateDefaultGuildRanks E loc w in
      let? (ret, w) := AddMember E leader GR_GUILDMASTER w in
      Ok (ret, if ret then emit [Script OnGuildCreate [U64 leader; Str name]] w else w)
  end.

(** ** The commands of players *)
Definition UpdateMemberData (player dataid value : Z) (w : World) : World :=
  if dataid =? GUILD_MEMBER_DATA_ZONEID then update_member (GUID_LOPART player) (SetZoneID value) w
  else if dataid =? GUILD_MEMBER_DATA_LEVEL then update_member (GUID_LOPART player) (SetLevel (u8 value)) w
  else w.
Definition OnPlayerStatusChange (player flag : Z) (state : bool) (w : World) : World :=
  update_member (GUID_LOPART player) (if state then AddFlag (u8 flag) else RemFlag (u8 flag)) w.

Definition HandleSetMOTD (session : Z) (motd : list Z) (w : World) : World :=
  if decide (m_motd (guild w) = motd) then w
  else if negb (_HasRankRight session GR_RIGHT_SETMOTD (guild w))
  then SendCommandResult session GUILD_COMMAND_EDIT_MOTD ERR_GUILD_PERMISSIONS [] w
  else
    let w := on_this (set_motd motd) w in
    let w := emit [Script OnGuildMOTDChanged [Str motd]; Execute CHAR_UPD_GUILD_MOTD [Str motd; U32 (m_id (guild w))]] w in
    _BroadcastEvent GE_MOTD 0 [motd] w.
Definition HandleSetInfo (session : Z) (info : list Z) (w : World) : World :=
  if decide (m_info (guild w) = info) then w
  else if _HasRankRight session GR_RIGHT_MODIFY_GUILD_INFO (guild w) then
    let w := on_this (set_info info) w in
    emit [Script OnGuildInfoChanged [Str info]; Execute CHAR_UPD_GUILD_INFO [Str info; U32 (m_id (guild w))]] w
  else w.

Definition HandleSetEmblem (session : Z) (e : EmblemInfo) (w : World) : result fault World :=
  let? player := GetPlayer session w in
  if negb (_IsLeader session (guild w)) then Ok (SendSaveEmblemResult session ERR_GUILDEMBLEM_NOTGUILDMASTER w)
  else if negb (HasEnoughMoney player EMBLEM_PRICE) then Ok (SendSaveEmblemResult session ERR_GUILDEMBLEM_NOTENOUGHMONEY w)
  else
    let w := ModifyMoney session (- EMBLEM_PRICE) w in
    let w := emit (EmblemInfo_SaveToDB (m_id (guild w)) e) (on_this (set_emblem e) w) in
    Ok (HandleQuery session (SendSaveEmblemResult session ERR_GUILDEMBLEM_SUCCESS w)).

(** The two members can be the same. *)
Definition HandleSetLeader (session : Z) (name : list Z) (w : World) : result fault World :=
  let? player := GetPlayer session w in
  if negb (_IsLeader session (guild w)) then Ok (SendCommandResult session GUILD_COMMAND_CHANGE_LEADER ERR_GUILD_PERMISSIONS [] w)
  else match GetMember session (guild w), GetMember_name name (guild w) with
       | Some pOldLeader, Some (low, pNewLeader) =>
           let w := _SetLeaderGUID low w in
           let w := ChangeRank (GUID_LOPART session) GR_OFFICER w in
           Ok (_BroadcastEvent GE_LEADER_CHANGED 0 [p_name player; name] w)
       | _, _ => Ok w
       end.

Definition on_tab (tabId : Z) (t : BankTab) (w : World) : World :=
  on_this (fun g => set_bankTabs (<[Z.to_nat tabId := t]> (m_bankTabs g)) g) w.
Definition HandleSetBankTabInfo (tabId : Z) (name icon : list Z) (w : World) : World :=
  match GetBankTab tabId (guild w) with
  | None => w
  | Some t =>
      let w := if decide (t_name t = name /\ t_icon t = icon) then w
               else emit [Execute CHAR_UPD_GUILD_BANK_TAB_INFO [Str name; Str icon; U32 (m_id (guild w)); U8 (t_tabId t)]]
                      (on_tab tabId (mkTab (t_tabId t) (t_items t) name icon (t_text t)) w) in
      _BroadcastEvent GE_BANK_TAB_UPDATED 0 [decimal tabId; name; icon] w
  end.
Definition SetBankTabText (tabId : Z) (text : list Z) (w : World) : result fault World :=
  match GetBankTab tabId (guild w) with
  | None => Ok w
  | Some t =>
      let? (t, w) :=
        if decide (t_text t = text) then Ok (t, w)
        else match utf8truncate text MAX_GUILD_BANK_TAB_TEXT_LEN with
             | Throw _ => Throw TextOverflow
             | Ok text =>
                 let t := mkTab (t_tabId t) (t_items t) (t_name t) (t_icon t) text in
                 Ok (t, emit [Execute CHAR_UPD_GUILD_BANK_TAB_TEXT [Str text; U32 (m_id (guild w)); U8 (t_tabId t)]] (on_tab tabId t w))
             end in
      Ok (BroadcastPacket (mkPacket MSG_QUERY_GUILD_BANK_TEXT [U8 (t_tabId t); Str (t_text t)]) w)
  end.

Definition HandleSetMemberNote (E : Env) (session : Z) (name note : list Z) (isPublic : bool) (w : World) : World :=
  if negb (_HasRankRight session (if isPublic then GR_RIGHT_EPNOTE else GR_RIGHT_EOFFNOTE) (guild w))
  then SendCommandResult session GUILD_COMMAND_PUBLIC_NOTE ERR_GUILD_PERMISSIONS [] w
  else match GetMember_name name (guild w) with
       | Some (low, m) => HandleRoster E (Some session) ((if isPublic then SetPublicNote else SetOfficerNote) low note m w)
       | None => w
       end.

Fixpoint set_tab_rights (rankId : Z) (l : list GuildBankRightsAndSlots) (w : World) : result fault World :=
  match l with
  | [] => Ok w
  | rs :: l => let? w := _SetRankBankTabRightsAndSlots rankId true rs w in set_tab_rights rankId l w
  end.
Definition HandleSetRankInfo (session rankId : Z) (name : list Z) (rights moneyPerDay : Z) (rightsAndSlots : list GuildBankRightsAndSlots)
    (w : World) : result fault World :=
  if negb (_IsLeader session (guild w)) then Ok (SendCommandResult session GUILD_COMMAND_CHANGE_RANK ERR_GUILD_PERMISSIONS [] w)
  else match GetRankInfo rankId (guild w) with
       | None => Ok w
       | Some r =>
           let id := m_id (guild w) in
           let '(r, es1) := SetName id name r in
           let '(r, es2) := SetRights id rights r in
           let w := on_rank rankId r (es1 ++ es2) w in
           let w := _SetRankBankMoneyPerDay rankId moneyPerDay w in
           let? w := set_tab_rights rankId rightsAndSlots w in
           Ok (_BroadcastEvent GE_RANK_UPDATED 0 [decimal rankId; name] w)
       end.

Definition _GetGuildBankTabPrice (tabId : Z) : Z :=
  if tabId =? 0 then 100 else if tabId =? 1 then 250 else if tabId =? 2 then 500 else if tabId =? 3 then 1000
  else if tabId =? 4 then 2500 else if tabId =? 5 then 5000 else 0.
Fixpoint create_missing_tabs (guildId tabs : Z) (l : list RankInfo) : list RankInfo * list effect :=
  match l with
  | [] => ([], [])
  | r :: l =>
      let '(r, es) := CreateMissingTabsIfNeeded guildId tabs r in
      let '(l, es') := create_missing_tabs guildId tabs l in (r :: l, es ++ es')
  end.
Definition _CreateNewBankTab (w : World) : World :=
  let id := m_id (guild w) in
  let tabId := _GetPurchasedTabsSize (guild w) in
  let w := on_this (fun g => set_bankTabs (m_bankTabs g ++ [mkTab tabId ∅ [] [] []]) g) w in
  let w := emit [Execute CHAR_DEL_GUILD_BANK_TAB [U32 id; U8 tabId]; Execute CHAR_INS_GUILD_BANK_TAB [U32 id; U8 tabId]] w in
  let '(ranks, es) := create_missing_tabs id (u8 (tabId + 1)) (m_ranks (guild w)) in
  emit es (on_this (set_ranks ranks) w).
Definition HandleBuyBankTab (session tabId : Z) (w : World) : World :=
  match FindPlayer session w, GetMember session (guild w) with
  | Some player, Some _ =>
      let n := _GetPurchasedTabsSize (guild w) in
      let tabCost := u32 (_GetGuildBankTabPrice tabId * GOLD) in
      if (GUILD_BANK_MAX_TABS <=? n) || negb (tabId =? n) || (tabCost =? 0) || negb (HasEnoughMoney player tabCost) then w
      else
        let w := _CreateNewBankTab (ModifyMoney session (- tabCost) w) in
        SendPermissions session (_BroadcastEvent GE_BANK_TAB_PURCHASED 0 [] w)
  | _, _ => w
  end.

Definition HandleInviteMember (E : Env) (session : Z) (name : list Z) (w : World) : result fault World :=
  let reply err param := Ok (SendCommandResult session GUILD_COMMAND_INVITE err param w) in
  match FindPlayerByName name w with
  | None => reply ERR_GUILD_PLAYER_NOT_FOUND_S name
  | Some (invitee, pInvitee) =>
      let? player := GetPlayer session w in
      if bool_decide (GUID_LOPART session ∈ p_ignores pInvitee) then Ok w
      else if negb (CONFIG_ALLOW_TWO_SIDE_INTERACTION_GUILD E) && negb (p_team pInvitee =? p_team player) then reply ERR_GUILD_NOT_ALLIED name
      else if negb (p_guildId pInvitee =? 0) then reply ERR_ALREADY_IN_GUILD_S name
      else if negb (p_guildIdInvited pInvitee =? 0) then reply ERR_ALREADY_INVITED_TO_GUILD_S name
      else if negb (_HasRankRight session GR_RIGHT_INVITE (guild w)) then reply ERR_GUILD_PERMISSIONS []
      else
        let w := SendCommandResult session GUILD_COMMAND_INVITE ERR_GUILD_COMMAND_SUCCESS name w in
        let w := on_player invitee (SetGuildIdInvited (m_id (guild w))) w in
        let? w := _LogEvent E GUILD_EVENT_LOG_INVITE_PLAYER (GUID_LOPART session) (GUID_LOPART invitee) 0 w in
        Ok (emit [SendPacket invitee (mkPacket SMSG_GUILD_INVITE [Str (p_name player); Str (m_guildName (guild w))])] w)
  end.

Definition HandleAcceptMember (E : Env) (session : Z) (w : World) : result fault World :=
  let? player := GetPlayer session w in
  if negb (CONFIG_ALLOW_TWO_SIDE_INTERACTION_GUILD E) && negb (p_team player =? GetPlayerTeamByGUID E (m_leaderGuid (guild w))) then Ok w
  else let? (_, w) := AddMember E session GUILD_RANK_NONE w in Ok w.

Definition HandleLeaveMember (E : Env) (session : Z) (w : World) : result fault World :=
  let? player := GetPlayer session w in
  let id := m_id (guild w) in
  let? w :=
    if _IsLeader session (guild w) then
      if (1 <? length (m_members (guild w)))%nat then Ok (SendCommandResult session GUILD_COMMAND_QUIT ERR_GUILD_LEADER_LEAVE [] w)
      else Disband w
    else
      let? w := DeleteMember session false false w in
      let? w := _LogEvent E GUILD_EVENT_LOG_LEAVE_GUILD (GUID_LOPART session) 0 0 w in
      let w := _BroadcastEvent GE_LEFT session [p_name player] w in
      Ok (SendCommandResult session GUILD_COMMAND_QUIT ERR_GUILD_COMMAND_SUCCESS (m_guildName (guild w)) w) in
  Ok (emit [RemovePlayerGuildEventsAndSignups session id] w).

Definition HandleRemoveMember (E : Env) (session : Z) (name : list Z) (w : World) : result fault World :=
  let? player := GetPlayer session w in
  let reply err param := Ok (SendCommandResult session GUILD_COMMAND_REMOVE err param w) in
  if negb (_HasRankRight session GR_RIGHT_REMOVE (guild w)) then reply ERR_GUILD_PERMISSIONS []
  else match GetMember_name name (guild w) with
       | None => Ok w
       | Some (_, member) =>
           if IsRank GR_GUILDMASTER member then reply ERR_GUILD_LEADER_LEAVE []
           else match GetMember session (guild w) with
                | None => reply ERR_GUILD_RANK_TOO_HIGH_S name
                | Some memberMe =>
                    if IsRankNotLower (m_rankId memberMe) member then reply ERR_GUILD_RANK_TOO_HIGH_S name
                    else
                      let guid := m_guid member in
                      let? w := DeleteMember guid false true w in
                      let? w := _LogEvent E GUILD_EVENT_LOG_UNINVITE_PLAYER (GUID_LOPART session) (GUID_LOPART guid) 0 w in
                      Ok (_BroadcastEvent GE_REMOVED 0 [name; p_name player] w)
                end
       end.

Definition HandleUpdateMemberRank (E : Env) (session : Z) (name : list Z) (demote : bool) (w : World) : result fault World :=
  let? player := GetPlayer session w in
  let type := if demote then GUILD_COMMAND_DEMOTE else GUILD_COMMAND_PROMOTE in
  let reply err param := Ok (SendCommandResult session type err param w) in
  if negb (_HasRankRight session (if demote then GR_RIGHT_DEMOTE else GR_RIGHT_PROMOTE) (guild w)) then reply ERR_GUILD_PERMISSIONS []
  else match GetMember_name name (guild w) with
       | None => Ok w
       | Some (low, member) =>
           if IsSamePlayer session member then reply ERR_GUILD_NAME_INVALID []
           else match GetMember session (guild w) with
                | None => Throw NullMember
                | Some memberMe =>
                    let rankId := m_rankId memberMe in
                    if demote && IsRankNotLower rankId member then reply ERR_GUILD_RANK_TOO_HIGH_S name
                    else if demote && (_GetLowestRankId (guild w) <=? m_rankId member) then reply ERR_GUILD_RANK_TOO_LOW_S name
                    else if negb demote && IsRankNotLower (u8 (rankId + 1)) member then reply ERR_GUILD_RANK_TOO_HIGH_S name
                    else
                      let newRankId := u32 (m_rankId member + (if demote then 1 else -1)) in
                      let w := ChangeRank low (u8 newRankId) w in
                      let? w := _LogEvent E (if demote then GUILD_EVENT_LOG_DEMOTE_PLAYER else GUILD_EVENT_LOG_PROMOTE_PLAYER)
                                  (GUID_LOPART session) (GUID_LOPART (m_guid member)) (u8 newRankId) w in
                      Ok (_BroadcastEvent (if demote then GE_DEMOTION else GE_PROMOTION) 0
                            [p_name player; name; _GetRankName (u8 newRankId) (guild w)] w)
                end
       end.

Definition HandleAddNewRank (session : Z) (name : list Z) (w : World) : World :=
  let size := _GetRanksSize (guild w) in
  if GUILD_RANKS_MAX_COUNT <=? size then w
  else if _IsLeader session (guild w) then
    let '(ok, w) := _CreateRank name (Z.lor GR_RIGHT_GCHATLISTEN GR_RIGHT_GCHATSPEAK) w in
    if ok then _BroadcastEvent GE_RANK_UPDATED 0 [decimal size; name] w else w
  else w.
Definition HandleRemoveRank (session rankId : Z) (w : World) : World :=
  if (_GetRanksSize (guild w) <=? GUILD_RANKS_MIN_COUNT) || (_GetRanksSize (guild w) <=? rankId) || negb (_IsLeader session (guild w)) then w
  else
    let id := m_id (guild w) in
    let w := emit [Execute CHAR_DEL_GUILD_BANK_RIGHTS_FOR_RANK [U32 id; U8 rankId]; Execute CHAR_DEL_GUILD_LOWEST_RANK [U32 id; U8 rankId]] w in
    let w := on_this (fun g => set_ranks (removelast (m_ranks g)) g) w in
    _BroadcastEvent GE_RANK_DELETED 0 [] w.
Definition HandleRemoveLowestRank (session : Z) (w : World) : World := HandleRemoveRank session (_GetLowestRankId (guild w)) w.

(** ** The money of the bank *)
Definition _ModifyBankMoney (amount : Z) (add : bool) (w : World) : bool * World :=
  let save w := emit [Execute CHAR_UPD_GUILD_BANK_MONEY [U64 (m_bankMoney (guild w)); U32 (m_id (guild w))]] w in
  if add then (true, save (on_this (fun g => set_bankMoney (u64 (m_bankMoney g + amount)) g) w))
  else if m_bankMoney (guild w) <? amount then (false, w)
  else (true, save (on_this (fun g => set_bankMoney (m_bankMoney g - amount) g) w)).

Definition hex_digit (d : Z) : Z := if d <? 10 then 48 + d else 55 + d.
Definition hex2 (b : Z) : list Z := [hex_digit (b / 16); hex_digit (b mod 16)].
(** [ByteArrayToHexStr] from the last byte on. *)
Definition ByteArrayToHexStr_reverse (bytes : list Z) : list Z := rev bytes ≫= hex2.
(** The amount has four bytes and eight are read. *)
Definition amount_text (E : Env) (amount : Z) : list Z := ByteArrayToHexStr_reverse (take 8 (le_bytes 4 amount ++ next_to_amount E)).

Definition HandleMemberDepositMoney (E : Env) (session amount : Z) (w : World) : result fault World :=
  let? player := GetPlayer session w in
  let w := emit [Script OnGuildMemberDepositMoney [U64 session; U32 amount]] w in
  let '(_, w) := _ModifyBankMoney amount true w in
  let w := ModifyMoney session (s32 (- s32 amount)) w in
  let w := emit [SaveGoldToDB session] w in
  let? w := _LogBankEvent E GUILD_BANK_LOG_DEPOSIT_MONEY 0 (GUID_LOPART session) amount 0 0 w in
  Ok (_BroadcastEvent GE_BANK_MONEY_CHANGED 0 [amount_text E amount] w).

Definition HandleMemberWithdrawMoney (E : Env) (session amount : Z) (repair : bool) (w : World) : result fault (bool * World) :=
  if m_bankMoney (guild w) <? amount then Ok (false, w)
  else
    let? player := GetPlayer session w in
    match GetMember session (guild w) with
    | None => Ok (false, w)
    | Some member =>
        if u32 (_GetMemberRemainingMoney member (guild w)) <? amount then Ok (false, w)
        else
          let w := emit [Script OnGuildMemberWitdrawMoney [U64 session; U32 amount; U8 (Z.b2z repair)]] w in
          let w := save_withdraw (GUID_LOPART session) GUILD_BANK_MAX_TABS amount member w in
          let '(_, w) := _ModifyBankMoney amount false w in
          let w := if repair then w else emit [SaveGoldToDB session] (ModifyMoney session (s32 amount) w) in
          let? w := _LogBankEvent E (if repair then GUILD_BANK_LOG_REPAIR_MONEY else GUILD_BANK_LOG_WITHDRAW_MONEY) 0
                      (GUID_LOPART session) amount 0 0 w in
          Ok (true, _BroadcastEvent GE_BANK_MONEY_CHANGED 0 [amount_text E amount] w)
    end.

(** ** Logging out, disbanding, talking *)
Definition HandleMemberLogout (E : Env) (session : Z) (w : World) : result fault World :=
  let? player := GetPlayer session w in
  let w := update_member (GUID_LOPART session) (fun m => ResetFlags (UpdateLogoutTime E (SetStats_player player m))) w in
  Ok (_BroadcastEvent GE_SIGNED_OFF session [p_name player] w).
Definition HandleDisband (session : Z) (w : World) : result fault World :=
  if _IsLeader session (guild w) then Disband w else Ok w.

Definition BroadcastToGuild (session : Z) (officerOnly : bool) (msg : list Z) (language : Z) (w : World) : World :=
  match FindPlayer session w with
  | None => w
  | Some player =>
      if _HasRankRight session (if officerOnly then GR_RIGHT_OFFCHATSPEAK else GR_RIGHT_GCHATSPEAK) (guild w) then
        let data := mkPacket SMSG_MESSAGECHAT
          [U8 (if officerOnly then CHAT_MSG_OFFICER else CHAT_MSG_GUILD); U32 language; U64 session; U32 0; U64 session;
           U32 (u32 (size msg + 1)); Str msg; U8 (p_chatTag player)] in
        emit (m_members (guild w) ≫= fun m =>
                match FindPlayer (m_guid m.2) w with
                | Some p =>
                    if _HasRankRight (m_guid m.2) (if officerOnly then GR_RIGHT_OFFCHATLISTEN else GR_RIGHT_GCHATLISTEN) (guild w)
                       && negb (bool_decide (GUID_LOPART session ∈ p_ignores p))
                    then [SendPacket (m_guid m.2) data] else []
                | None => []
                end) w
      else w
  end.

(** The members that are listed, or [None] when there are more than a hundred before
    the end of the list. *)
Fixpoint mass_invite (E : Env) (session minLevel maxLevel minRank count : Z) (l : list (Z * Member)) : option (list Z) :=
  match l with
  | [] => Some []
  | (_, m) :: l =>
      if CALENDAR_MAX_INVITES <=? count then None
      else
        let level := GetLevelFromDB E (m_guid m) in
        if negb (m_guid m =? session) && (minLevel <=? level) && (level <=? maxLevel) && IsRankNotLower (u8 minRank) m
        then cons (m_guid m) <$> mass_invite E session minLevel maxLevel minRank (u32 (count + 1)) l
        else mass_invite E session minLevel maxLevel minRank count l
  end.
Definition MassInviteToEvent (E : Env) (session minLevel maxLevel minRank : Z) (w : World) : World :=
  match mass_invite E session minLevel maxLevel minRank 0 (m_members (guild w)) with
  | None => emit [SendCalendarInvitesExceeded session] w
  | Some l => emit [SendPacket session (mkPacket SMSG_CALENDAR_FILTER_GUILD (U32 (u32 (size l)) :: (l ≫= fun g => [PackGUID g; U8 0])))] w
  end.

Definition ResetTimes (w : World) : result fault World :=
  let w := on_this (fun g => set_members (map (fun lm => (lm.1, ResetValues lm.2)) (m_members g)) g) w in
  match GetRankInfo 0 (guild w) with
  | None => Throw NullRank
  | Some r => Ok (_BroadcastEvent GE_RANK_UPDATED 0 [[48]; r_name r] w)
  end.

(** ** Loading *)
Definition LoadFromDB (E : Env) (id : Z) (name : list Z) (leader style color borderStyle borderColor backgroundColor : Z)
    (info motd : list Z) (createdate bankMoney tabs : Z) : Guild :=
  let purchasedTabs := u8 tabs in
  let purchasedTabs := if GUILD_BANK_MAX_TABS <? purchasedTabs then GUILD_BANK_MAX_TABS else purchasedTabs in
  mkGuild id name leader motd info createdate (mkEmblem style color borderStyle borderColor backgroundColor) 0 bankMoney [] []
    (map (fun i => mkTab i ∅ [] [] []) (seqZ 0 purchasedTabs)) (new_log (CONFIG_GUILD_EVENT_LOG_COUNT E))
    (replicate (Z.to_nat (GUILD_BANK_MAX_TABS + 1)) (new_log (CONFIG_GUILD_BANK_EVENT_LOG_COUNT E))).
Definition LoadRankFromDB (rid : Z) (rname : list Z) (rights money : Z) (w : World) : World :=
  let rights := if rid =? GR_GUILDMASTER then Z.lor rights GR_RIGHT_ALL else rights in
  on_this (fun g => set_ranks (m_ranks g ++ [new_rank rid rname rights money]) g) w.
Definition Member_LoadFromDB (E : Env) (pnote offnote : list Z) (withdraw : list Z) (name : list Z) (level class zone account logout : Z)
    (m : Member) : option Member :=
  let m := set_bankWithdraw (map s32 withdraw) (set_officerNote offnote (set_publicNote pnote m)) in
  let m := set_logoutTime logout (SetStats name level class zone account m) in
  if CheckStats m then Some (ResetFlags (if m_zoneId m =? 0 then SetZoneID (GetZoneIdFromDB E (m_guid m)) m else m)) else None.
Definition LoadMemberFromDB (E : Env) (lowguid rank : Z) (pnote offnote : list Z) (withdraw : list Z) (name : list Z)
    (level class zone account logout : Z) (w : World) : bool * World :=
  match Member_LoadFromDB E pnote offnote withdraw name level class zone account logout (new_member E lowguid rank) with
  | None => (false, emit [_DeleteMemberFromDB lowguid] w)
  | Some m => (true, put_member lowguid m w)
  end.
Definition LoadBankRightFromDB (tab rid gbright slotPerDay : Z) (w : World) : result fault World :=
  _SetRankBankTabRightsAndSlots rid false (mkRights tab gbright slotPerDay) w.
Definition LoadEventLogFromDB (e : LogEntry) (w : World) : bool * World :=
  if CanInsert (m_eventLog (guild w)) then (true, on_this (fun g => set_eventLog (LoadEvent e (m_eventLog g)) g) w) else (false, w).
Definition LoadBankEventLogFromDB (dbTabId guid eventType playerGuid itemOrMoney stack dest timestamp : Z) (w : World) :
    result fault (bool * World) :=
  let isMoneyTab := dbTabId =? GUILD_BANK_MONEY_LOGS_TAB in
  if (dbTabId <? _GetPurchasedTabsSize (guild w)) || isMoneyTab then
    let tabId := if isMoneyTab then GUILD_BANK_MAX_TABS else dbTabId in
    match m_bankEventLog (guild w) !! Z.to_nat tabId with
    | None => Throw OutOfArray
    | Some pLog =>
        if CanInsert pLog then
          if negb (Bool.eqb (IsMoneyEvent eventType) isMoneyTab) then Ok (false, w)
          else
            let e := BankEventLogEntry guid timestamp eventType dbTabId playerGuid itemOrMoney stack dest in
            Ok (true, on_this (fun g => set_bankEventLog (<[Z.to_nat tabId := LoadEvent e pLog]> (m_bankEventLog g)) g) w)
        else Ok (true, w)
    end
  else Ok (true, w).
Definition LoadBankTabFromDB (tab : Z) (name icon text : list Z) (w : World) : World :=
  if _GetPurchasedTabsSize (guild w) <=? tab then w
  else match m_bankTabs (guild w) !! Z.to_nat tab with
       | Some t => on_tab tab (mkTab (t_tabId t) (t_items t) name icon text) w
       | None => w
       end.

(** The loop of [Validate] over the ranks: whether they are broken, and the ranks. *)
Fixpoint check_ranks (guildId tabs rankId : Z) (l : list RankInfo) : bool * list RankInfo * list effect :=
  match l with
  | [] => (false, [], [])
  | r :: l =>
      let '(broken, l', es') := check_ranks guildId tabs (rankId + 1) l in
      if r_rankId r =? rankId
      then let '(r, es) := CreateMissingTabsIfNeeded guildId tabs r in (broken, r :: l', es ++ es')
      else (true, r :: l', es')
  end.
Definition validate_ranks (E : Env) (w : World) : World :=
  let g := guild w in
  let ranks := _GetRanksSize g in
  let '(broken, w) :=
    if (ranks <? GUILD_RANKS_MIN_COUNT) || (GUILD_RANKS_MAX_COUNT <? ranks) then (true, w)
    else let '(broken, l, es) := check_ranks (m_id g) (_GetPurchasedTabsSize g) 0 (m_ranks g) in
         (broken, emit es (on_this (set_ranks l) w)) in
  if broken then _CreateDefaultGuildRanks E DEFAULT_LOCALE (on_this (set_ranks []) w) else w.
(** Members whose rank is [bad] get another. *)
Fixpoint change_ranks (lows : list Z) (bad : Guild -> Member -> bool) (newRank : Guild -> Z) (w : World) : World :=
  match lows with
  | [] => w
  | low :: lows =>
      change_ranks lows bad newRank
        (match map_find low (m_members (guild w)) with
         | Some m => if bad (guild w) m then ChangeRank low (newRank (guild w)) w else w
         | None => w
         end)
  end.
(** The leader, who has to be a member: whether the guild is left. *)
Definition validate_leader (w : World) : result fault (bool * World) :=
  match GetMember (m_leaderGuid (guild w)) (guild w) with
  | None =>
      let? w := DeleteMember (m_leaderGuid (guild w)) false false w in
      if decide (m_members (guild w) = []) then let? w := Disband w in Ok (false, w) else Ok (true, w)
  | Some pLeader =>
      Ok (true, if IsRank GR_GUILDMASTER pLeader then w else _SetLeaderGUID (GUID_LOPART (m_leaderGuid (guild w))) w)
  end.
Definition Validate (E : Env) (w : World) : result fault (bool * World) :=
  let w := validate_ranks E w in
  let w := change_ranks ((m_members (guild w)).*1) (fun g m => _GetRanksSize g <? m_rankId m) _GetLowestRankId w in
  let? (stays, w) := validate_leader w in
  if negb stays then Ok (false, w)
  else
    let w := if AllowMultipleGuildMaster E then w
             else change_ranks ((m_members (guild w)).*1)
                    (fun g m => IsRank GR_GUILDMASTER m && negb (IsSamePlayer (m_leaderGuid g) m)) (fun _ => GR_OFFICER) w in
    Ok (true, _UpdateAccountsNumber w).

End Guild.
