(* ===== verification/GuildBank.v ===== *)
(** * GuildBank: items in the bank of a guild

    The moves of items between slots of the bank of [game/Guilds/Guild.cpp]
    ([BankMoveItemData], [SwapItems]) and the loading of its items. An item is a value in
    its slot and its guid stands for its address; while an operation holds the item of a
    slot nothing else changes it, so that the copies agree. Items that a player puts into
    the bank or takes out go through [PlayerMoveItemData] and his bags, which are not
    modelled. *)
From S2P Require Import Prelude OrderedMap Utf8 Util Guild.
Import Guild.
#[global] Open Scope Z_scope.

Module GuildBank.

Definition set_count (v : Z) (it : Item) : Item :=
  mkItem (i_guid it) (i_entry it) v (i_soulbound it) (i_randomPropertyId it) (i_suffixFactor it) (i_spellCharges it) (i_enchantments it).
Definition set_items (v : gmap Z Item) (t : BankTab) : BankTab := mkTab (t_tabId t) v (t_name t) (t_icon t) (t_text t).

(** ** New items *)

(** The maximal stack is positive, so that the assertion on the count holds. *)
Definition CreateItem (E : Env) (item count : Z) (w : World) : result fault (option Item * World) :=
  if count <? 1 then Ok (None, w)
  else
    let count := if GetMaxStackCount E item <? count then GetMaxStackCount E item else count in
    let guid := hiItemGuid w in
    if 0xFFFFFFFE <=? guid then Throw ItemGuids
    else
      let w := set_hiItemGuid (guid + 1) w in
      match NewItemCharges E item with
      | None => Ok (None, w)
      | Some charges => Ok (Some (mkItem guid item count false 0 0 charges (replicate (Z.to_nat MAX_ENCHANTMENT_SLOT) 0)), w)
      end.
(** The flags of an item are copied, its enchantments and properties are not. *)
Definition Item_CloneItem (E : Env) (it : Item) (count : Z) (w : World) : result fault (option Item * World) :=
  let? (copy, w) := CreateItem E (i_entry it) count w in
  Ok ((fun c => mkItem (i_guid c) (i_entry c) (i_count c) (i_soulbound it) (i_randomPropertyId c) (i_suffixFactor c)
                  (i_spellCharges c) (i_enchantments c)) <$> copy, w).

(** ** Tabs *)
Definition save_item (it : Item) : effect := SaveItem (i_guid it) (i_entry it) (i_count it).
(** What is in a slot changes. *)
Definition put_item (tabId slotId : Z) (it : Item) (w : World) : World :=
  match GetBankTab tabId (guild w) with
  | Some t => on_tab tabId (set_items (<[slotId := it]> (t_items t)) t) w
  | None => w
  end.
Definition SetItem (tabId slotId : Z) (item : option Item) (w : World) : bool * World :=
  match GetBankTab tabId (guild w) with
  | None => (false, w)
  | Some t =>
      if GUILD_BANK_MAX_SLOTS <=? slotId then (false, w)
      else
        let w := on_tab tabId (set_items (partial_alter (fun _ => item) slotId (t_items t)) t) w in
        let id := m_id (guild w) in
        let w := emit [Execute CHAR_DEL_GUILD_BANK_ITEM [U32 id; U8 (t_tabId t); U8 slotId]] w in
        (true, match item with
               | Some it => emit [Execute CHAR_INS_GUILD_BANK_ITEM [U32 id; U8 (t_tabId t); U8 slotId; U32 (i_guid it)]; save_item it] w
               | None => w
               end)
  end.
Definition _RemoveItem (tabId slotId : Z) (w : World) : World := (SetItem tabId slotId None w).2.

(** [known] is whether the entry has a template, and [item] what the row of the item
    gives, if it can be loaded. *)
Definition LoadItemFromDB (tabId slotId : Z) (known : bool) (item : option Item) (w : World) : bool * World :=
  if GUILD_BANK_MAX_SLOTS <=? slotId then (false, w)
  else if negb known then (false, w)
  else match item with
       | None => (false, emit [Execute CHAR_DEL_NONEXISTENT_GUILD_BANK_ITEM [U32 (m_id (guild w)); U8 tabId; U8 slotId]] w)
       | Some it => (true, put_item tabId slotId it w)
       end.
Definition LoadBankItemFromDB (tabId slotId : Z) (known : bool) (item : option Item) (w : World) : bool * World :=
  if _GetPurchasedTabsSize (guild w) <=? tabId then (false, w) else LoadItemFromDB tabId slotId known item w.

(** ** One side of a move *)

(** [m_vec] has slots and how many of the items go there. *)
Record MoveItemData := mkMove {
  m_container : Z;
  m_slotId : Z;
  m_pItem : option Item;
  m_pClonedItem : option Item;
  m_vec : list (Z * Z)
}.
Definition BankMoveItemData (container slotId : Z) : MoveItemData := mkMove container slotId None None [].
Definition set_vec (v : list (Z * Z)) (d : MoveItemData) : MoveItemData := mkMove (m_container d) (m_slotId d) (m_pItem d) (m_pClonedItem d) v.
Definition set_clone (v : option Item) (d : MoveItemData) : MoveItemData := mkMove (m_container d) (m_slotId d) (m_pItem d) v (m_vec d).

Definition InitItem (d : MoveItemData) (w : World) : MoveItemData :=
  mkMove (m_container d) (m_slotId d) (_GetItem (m_container d) (m_slotId d) (guild w)) (m_pClonedItem d) (m_vec d).
(** The amount to split off, 0 for all of the stack, or [None]. *)
Definition CheckItem (splitedAmount : Z) (it : Item) : option Z :=
  if i_count it <? splitedAmount then None else Some (if splitedAmount =? i_count it then 0 else splitedAmount).
Definition HasStoreRights (player : Z) (d pOther : MoveItemData) (g : Guild) : bool :=
  if m_container pOther =? m_container d then true else _MemberHasTabRights player (m_container d) GUILD_BANK_RIGHT_DEPOSIT_ITEM g.
Definition HasWithdrawRights (player : Z) (d pOther : MoveItemData) (g : Guild) : bool :=
  if m_container pOther =? m_container d then true
  else negb (match GetMember player g with Some m => _GetMemberRemainingSlots m (m_container d) g | None => 0 end =? 0).

(** ** Where items fit *)
Definition isContainedIn (slotId : Z) (vec : list (Z * Z)) : bool := existsb (fun p => p.1 =? slotId) vec.

(** What is left to place and the places so far. *)
Abbreviation places := (Z * list (Z * Z))%type.
Definition reserve (slotId space : Z) (cv : places) : places :=
  let required := Z.min space cv.1 in
  if isContainedIn slotId cv.2 then cv else (cv.1 - required, cv.2 ++ [(slotId, required)]).
Definition _ReserveSpace (E : Env) (slotId : Z) (it : Item) (dest : option Item) (cv : places) : bool * places :=
  let max := GetMaxStackCount E (i_entry it) in
  match dest with
  | Some d =>
      if negb (i_entry d =? i_entry it) || (max <=? i_count d) then (false, cv) else (true, reserve slotId (max - i_count d) cv)
  | None => (true, reserve slotId max cv)
  end.
(** The item of a slot, unless it is the one that moves. *)
Definition other_item (it : Item) (dest : option Item) : option Item :=
  match dest with Some d => if i_guid d =? i_guid it then None else Some d | None => None end.
Fixpoint CanStoreItemInTab (E : Env) (g : Guild) (tabId : Z) (it : Item) (skipSlotId : Z) (merge : bool) (slots : list Z) (cv : places) : places :=
  match slots with
  | [] => cv
  | slotId :: slots =>
      if 0 <? cv.1 then
        CanStoreItemInTab E g tabId it skipSlotId merge slots
          (if slotId =? skipSlotId then cv
           else
             let dest := other_item it (_GetItem tabId slotId g) in
             if Bool.eqb (bool_decide (is_Some dest)) merge then (_ReserveSpace E slotId it dest cv).2 else cv)
      else cv
  end.
Definition all_slots : list Z := seqZ 0 GUILD_BANK_MAX_SLOTS.

(** The slot of the destination first, then stacks of the same entry, then free slots. *)
Definition CanStore_bank (E : Env) (d : MoveItemData) (it : Item) (swap : bool) (g : Guild) : Z * list (Z * Z) :=
  let find merge := CanStoreItemInTab E g (m_container d) it (m_slotId d) merge all_slots in
  if i_soulbound it then (EQUIP_ERR_CANT_DROP_SOULBOUND, [])
  else if _GetPurchasedTabsSize g <=? m_container d then (EQUIP_ERR_ITEM_DOESNT_GO_INTO_BAG, [])
  else
    let named := negb (m_slotId d =? NULL_SLOT) in
    let '(ok, cv) :=
      if named
      then _ReserveSpace E (m_slotId d) it (if swap then None else other_item it (_GetItem (m_container d) (m_slotId d) g)) (i_count it, [])
      else (true, (i_count it, [])) in
    if negb ok then (EQUIP_ERR_ITEM_CANT_STACK, cv.2)
    else if named && (cv.1 =? 0) then (EQUIP_ERR_OK, cv.2)
    else
      let stacks := 1 <? GetMaxStackCount E (i_entry it) in
      let cv := if stacks then find true cv else cv in
      if stacks && (cv.1 =? 0) then (EQUIP_ERR_OK, cv.2)
      else
        let cv := find false cv in
        (if cv.1 =? 0 then EQUIP_ERR_OK else EQUIP_ERR_BANK_FULL, cv.2).
Definition CanStore (E : Env) (player : Z) (d : MoveItemData) (it : Item) (swap sendError : bool) (w : World) : bool * MoveItemData * World :=
  let '(msg, vec) := CanStore_bank E d it swap (guild w) in
  (msg =? EQUIP_ERR_OK, set_vec vec d,
   if sendError && negb (msg =? EQUIP_ERR_OK) then emit [SendEquipError player msg] w else w).

(** ** Taking out and putting in *)
Definition RemoveItem (player : Z) (d pOther : MoveItemData) (splitedAmount : Z) (w : World) : result fault World :=
  match m_pItem d with
  | None => Throw NullItem
  | Some it =>
      let w := if splitedAmount =? 0 then _RemoveItem (m_container d) (m_slotId d) w
               else let it := set_count (u32 (i_count it - splitedAmount)) it in
                    emit [save_item it] (put_item (m_container d) (m_slotId d) it w) in
      Ok (if m_container pOther =? m_container d then w else _UpdateMemberWithdrawSlots player (m_container d) w)
  end.
Definition _StoreItem (E : Env) (tabId : Z) (it : Item) (pos : Z * Z) (clone : bool) (w : World) : result fault World :=
  match _GetItem tabId pos.1 (guild w) with
  | Some dest =>
      let dest := set_count (u32 (i_count dest + pos.2)) dest in
      let w := emit [save_item dest] (put_item tabId pos.1 dest w) in
      Ok (if clone then w else emit [DeleteItem (i_guid it) true] w)
  | None =>
      let? (it, w) := if clone then Item_CloneItem E it pos.2 w else Ok (Some (set_count pos.2 it), w) in
      Ok (match it with Some it => (SetItem tabId pos.1 (Some it) w).2 | None => w end)
  end.
Fixpoint store_loop (E : Env) (tabId : Z) (it : Item) (vec : list (Z * Z)) (w : World) : result fault World :=
  match vec with
  | [] => Ok w
  | pos :: vec => let? w := _StoreItem E tabId it pos (negb (bool_decide (vec = []))) w in store_loop E tabId it vec w
  end.
Definition StoreItem (E : Env) (d : MoveItemData) (it : Item) (w : World) : result fault World :=
  match GetBankTab (m_container d) (guild w) with None => Ok w | Some _ => store_loop E (m_container d) it (m_vec d) w end.

(** ** Records of a move *)
Definition LogAction (player : Z) (d pFrom : MoveItemData) (w : World) : result fault World :=
  match m_pItem pFrom with
  | None => Throw NullItem
  | Some it =>
      Ok (emit [Script OnGuildItemMove [U64 player; U32 (i_guid it); U8 1; U8 (m_container pFrom); U8 (m_slotId pFrom);
                                        U8 1; U8 (m_container d); U8 (m_slotId d)]] w)
  end.
Definition LogBankEvent (E : Env) (player : Z) (d pFrom : MoveItemData) (count : Z) (w : World) : result fault World :=
  match m_pItem pFrom with
  | None => Throw NullItem
  | Some it =>
      _LogBankEvent E GUILD_BANK_LOG_MOVE_ITEM (m_container pFrom) (GUID_LOPART player) (i_entry it) (u16 count) (m_container d) w
  end.
Definition CopySlots (d : MoveItemData) (slots : list Z) : list Z := distinct (map (fun p => u8 p.1) (m_vec d) ++ slots).
Definition send_slots (tabId : Z) (slots : list Z) : World -> World := _SendBankList None tabId false (Some slots).
Definition _SendBankContentUpdate (pSrc pDest : MoveItemData) (w : World) : World :=
  if m_container pDest =? m_container pSrc then send_slots (m_container pSrc) (CopySlots pDest [m_slotId pSrc]) w
  else send_slots (m_container pSrc) [m_slotId pSrc] (send_slots (m_container pDest) (CopySlots pDest []) w).

(** ** Moving *)

(** Whether the items have moved, with both sides after it. *)
Definition _DoItemsMove (E : Env) (player : Z) (pSrc pDest : MoveItemData) (sendError : bool) (splitedAmount : Z) (w : World) :
    result fault (bool * MoveItemData * World) :=
  let pDestItem := m_pItem pDest in
  let swap := bool_decide (is_Some pDestItem) in
  match (if splitedAmount =? 0 then m_pItem pSrc else m_pClonedItem pSrc) with
  | None => Throw NullItem
  | Some pSrcItem =>
      let '(ok, pDest, w) := CanStore E player pDest pSrcItem swap sendError w in
      if negb ok then Ok (false, pDest, w)
      else
        let '(ok, pSrc, w) := match pDestItem with
                              | Some it => CanStore E player pSrc it true true w
                              | None => (true, pSrc, w)
                              end in
        if negb ok then Ok (false, pDest, w)
        else
          let? w := LogAction player pDest pSrc w in
          let? w := if swap then LogAction player pSrc pDest w else Ok w in
          let? w := LogBankEvent E player pDest pSrc (i_count pSrcItem) w in
          let? w := match pDestItem with Some it => LogBankEvent E player pSrc pDest (i_count it) w | None => Ok w end in
          let? w := RemoveItem player pSrc pDest splitedAmount w in
          let? w := if swap then RemoveItem player pDest pSrc 0 w else Ok w in
          let? w := StoreItem E pDest pSrcItem w in
          let? w := match pDestItem with Some it => StoreItem E pSrc it w | None => Ok w end in
          Ok (true, pDest, w)
  end.
Definition _MoveItems (E : Env) (player : Z) (pSrc pDest : MoveItemData) (splitedAmount : Z) (w : World) : result fault World :=
  let pSrc := InitItem pSrc w in
  match m_pItem pSrc with
  | None => Ok w
  | Some it =>
      match CheckItem splitedAmount it with
      | None => Ok w
      | Some splitedAmount =>
          if negb (HasStoreRights player pDest pSrc (guild w)) then Ok w
          else if negb (HasWithdrawRights player pSrc pDest (guild w)) then Ok w
          else if negb (splitedAmount =? 0) then
            let? (copy, w) := Item_CloneItem E it splitedAmount w in
            match copy with
            | None => Ok (emit [SendEquipError player EQUIP_ERR_ITEM_NOT_FOUND] w)
            | Some _ =>
                let? (_, pDest, w) := _DoItemsMove E player (set_clone copy pSrc) pDest true splitedAmount w in
                Ok (_SendBankContentUpdate pSrc pDest w)
            end
          else
            let? (moved, pDest, w) := _DoItemsMove E player pSrc pDest false 0 w in
            if moved then Ok (_SendBankContentUpdate pSrc pDest w)
            else
              let pDest := InitItem pDest w in
              if bool_decide (m_pItem pDest = None) then Ok w
              else if negb (HasStoreRights player pSrc pDest (guild w)) then Ok w
              else if negb (HasWithdrawRights player pDest pSrc (guild w)) then Ok w
              else
                let? (_, pDest, w) := _DoItemsMove E player pSrc pDest true 0 w in
                Ok (_SendBankContentUpdate pSrc pDest w)
      end
  end.
Definition SwapItems (E : Env) (player tabId slotId destTabId destSlotId splitedAmount : Z) (w : World) : result fault World :=
  let tabs := _GetPurchasedTabsSize (guild w) in
  if (tabs <=? tabId) || (GUILD_BANK_MAX_SLOTS <=? slotId) || (tabs <=? destTabId) || (GUILD_BANK_MAX_SLOTS <=? destSlotId) then Ok w
  else if (tabId =? destTabId) && (slotId =? destSlotId) then Ok w
  else _MoveItems E player (BankMoveItemData tabId slotId) (BankMoveItemData destTabId destSlotId) splitedAmount w.

End GuildBank.
