(* ===== verification/GuildHandlers.v ===== *)
(** * GuildHandlers: the packets of guild members

    [game/Handlers/GuildHandler.cpp] and the other callers of [Guild]: entering and
    leaving the world, the chat, repairs, the calendar and the daily reset. A handler has
    the player of its session and the fields of the packet as arguments; [near] is
    whether the player is close enough to the vault or vendor that the packet names. A
    player of another guild reaches that guild, which is not part of the world here. *)
From S2P Require Import Prelude OrderedMap Utf8 Util Guild GuildBank.
Import Guild GuildBank.
#[global] Open Scope Z_scope.

Module GuildHandlers.

(** [GetPlayer()->GetGuild()], with what is done without a guild. *)
Definition with_guild_or (session : Z) (f none : World -> result fault World) (w : World) : result fault World :=
  match FindPlayer session w with
  | None => Ok w
  | Some p =>
      match (if p_guildId p =? 0 then None else map_find (p_guildId p) (GuildStore w)) with
      | None => none w
      | Some _ => if p_guildId p =? m_id (guild w) then f w else Ok w
      end
  end.
Definition with_guild (session : Z) (f : World -> result fault World) : World -> result fault World := with_guild_or session f Ok.

(** The name of a player in a packet, normalised; without one the handler returns. *)
Definition with_name (name : list Z) (f : list Z -> World -> result fault World) (w : World) : result fault World :=
  match Util.normalizePlayerName name with
  | Throw _ => Throw TextOverflow
  | Ok (ok, name) => if ok then f name w else Ok w
  end.

(** ** Guilds and members *)
Definition HandleGuildQueryOpcode (session guildId : Z) (w : World) : World :=
  if guildId =? 0 then w
  else match map_find guildId (GuildStore w) with
       | Some _ => if guildId =? m_id (guild w) then HandleQuery session w else w
       | None => w
       end.
(** The guild of the result is the new one, if there is one. *)
Definition HandleGuildCreateOpcode (E : Env) (session loc : Z) (name : list Z) (w : World) : result fault World :=
  match FindPlayer session w with
  | None => Ok w
  | Some p => if p_guildId p =? 0 then let? (ok, w') := Create E session loc name w in Ok (if ok then AddGuild w' else set_guild (guild w) w') else Ok w
  end.

(** A petition for a guild is turned in: [has_item] is whether the player has it,
    [row] its owner and name in the database and [signed] who signed it. *)
Definition turn_in_result (session result : Z) : World -> World :=
  emit [SendPacket session (mkPacket SMSG_TURN_IN_PETITION_RESULTS [U32 result])].
Fixpoint add_signers (E : Env) (l : list Z) (w : World) : result fault World :=
  match l with
  | [] => Ok w
  | guid :: l => let? (_, w) := AddMember E guid GUILD_RANK_NONE w in add_signers E l w
  end.
Definition HandleTurnInPetitionOpcode (E : Env) (session loc petitionGuid : Z) (has_item : bool) (row : option (Z * list Z)) (signed : list Z)
    (CONFIG_MIN_PETITION_SIGNS : Z) (w : World) : result fault World :=
  match FindPlayer session w, row with
  | Some p, Some (ownerguidlo, name) =>
      if negb has_item || negb (GUID_LOPART session =? ownerguidlo) then Ok w
      else if negb (p_guildId p =? 0) then Ok (turn_in_result session PETITION_TURN_ALREADY_IN_GUILD w)
      else if bool_decide (is_Some (GetGuildByName name (GuildStore w)))
      then Ok (SendCommandResult session GUILD_COMMAND_CREATE ERR_GUILD_NAME_EXISTS_S name w)
      else
        let signatures := u8 (size signed) in
        if signatures <? CONFIG_MIN_PETITION_SIGNS then Ok (turn_in_result session PETITION_TURN_NEED_MORE_SIGNATURES w)
        else
          let? (ok, w') := Create E session loc name (emit [DestroyItem session petitionGuid] w) in
          if negb ok then Ok (set_guild (guild w) w')
          else
            let w := SendCommandResult session GUILD_COMMAND_CREATE ERR_GUILD_COMMAND_SUCCESS name (AddGuild w') in
            let? w := add_signers E (take (Z.to_nat signatures) signed) w in
            let w := emit [Execute CHAR_DEL_PETITION_BY_GUID [U32 (GUID_LOPART petitionGuid)];
                           Execute CHAR_DEL_PETITION_SIGNATURE_BY_GUID [U32 (GUID_LOPART petitionGuid)]] w in
            Ok (turn_in_result session PETITION_TURN_OK w)
  | _, _ => Ok w
  end.
Definition HandleGuildInviteOpcode (E : Env) (session : Z) (invitedName : list Z) : World -> result fault World :=
  with_name invitedName (fun name => with_guild session (HandleInviteMember E session name)).
Definition HandleGuildRemoveOpcode (E : Env) (session : Z) (playerName : list Z) : World -> result fault World :=
  with_name playerName (fun name => with_guild session (HandleRemoveMember E session name)).
Definition HandleGuildAcceptOpcode (E : Env) (session : Z) (w : World) : result fault World :=
  match FindPlayer session w with
  | None => Ok w
  | Some p =>
      if p_guildId p =? 0 then
        match map_find (p_guildIdInvited p) (GuildStore w) with
        | Some _ => if p_guildIdInvited p =? m_id (guild w) then HandleAcceptMember E session w else Ok w
        | None => Ok w
        end
      else Ok w
  end.
Definition HandleGuildDeclineOpcode (session : Z) : World -> World :=
  on_player session (fun p => SetInGuild 0 (SetGuildIdInvited 0 p)).
Definition HandleGuildInfoOpcode (E : Env) (session : Z) : World -> result fault World :=
  with_guild session (fun w => Ok (SendInfo E session w)).
Definition HandleGuildRosterOpcode (E : Env) (session : Z) : World -> result fault World :=
  with_guild_or session (fun w => Ok (HandleRoster E (Some session) w))
    (fun w => Ok (SendCommandResult session GUILD_COMMAND_ROSTER ERR_GUILD_PLAYER_NOT_IN_GUILD [] w)).
Definition HandleGuildPromoteOpcode (E : Env) (session : Z) (playerName : list Z) : World -> result fault World :=
  with_name playerName (fun name => with_guild session (HandleUpdateMemberRank E session name false)).
Definition HandleGuildDemoteOpcode (E : Env) (session : Z) (playerName : list Z) : World -> result fault World :=
  with_name playerName (fun name => with_guild session (HandleUpdateMemberRank E session name true)).
Definition HandleGuildLeaveOpcode (E : Env) (session : Z) : World -> result fault World := with_guild session (HandleLeaveMember E session).
Definition HandleGuildDisbandOpcode (session : Z) : World -> result fault World := with_guild session (HandleDisband session).
Definition HandleGuildLeaderOpcode (session : Z) (name : list Z) : World -> result fault World :=
  with_name name (fun name => with_guild session (HandleSetLeader session name)).
Definition HandleGuildMOTDOpcode (session : Z) (motd : list Z) : World -> result fault World :=
  with_guild session (fun w => Ok (HandleSetMOTD session motd w)).
Definition HandleGuildSetPublicNoteOpcode (E : Env) (session : Z) (playerName note : list Z) : World -> result fault World :=
  with_name playerName (fun name => with_guild session (fun w => Ok (HandleSetMemberNote E session name note true w))).
Definition HandleGuildSetOfficerNoteOpcode (E : Env) (session : Z) (playerName note : list Z) : World -> result fault World :=
  with_name playerName (fun name => with_guild session (fun w => Ok (HandleSetMemberNote E session name note false w))).
Definition HandleGuildChangeInfoTextOpcode (session : Z) (info : list Z) : World -> result fault World :=
  with_guild session (fun w => Ok (HandleSetInfo session info w)).
Definition HandleSaveGuildEmblemOpcode (session : Z) (emblemInfo : EmblemInfo) (near : bool) : World -> result fault World :=
  if near
  then with_guild_or session (HandleSetEmblem session emblemInfo) (fun w => Ok (SendSaveEmblemResult session ERR_GUILDEMBLEM_NOGUILD w))
  else fun w => Ok (SendSaveEmblemResult session ERR_GUILDEMBLEM_INVALIDVENDOR w).
Definition HandleGuildEventLogQueryOpcode (E : Env) (session : Z) : World -> result fault World :=
  with_guild session (fun w => Ok (SendEventLog E session w)).

(** ** Ranks *)

(** [bankRights] and [slots] are those of each tab, all of them [uint32]s. *)
Definition rank_tabs (bankRights slots : Z -> Z) : list GuildBankRightsAndSlots :=
  map (fun t => mkRights t (u8 (bankRights t)) (u32 (slots t))) (seqZ 0 GUILD_BANK_MAX_TABS).
Definition HandleGuildRankOpcode (session rankId rights : Z) (rankName : list Z) (money : Z) (bankRights slots : Z -> Z) :
    World -> result fault World :=
  with_guild session (HandleSetRankInfo session (u8 rankId) rankName rights money (rank_tabs bankRights slots)).
Definition HandleGuildAddRankOpcode (session : Z) (rankName : list Z) : World -> result fault World :=
  with_guild session (fun w => Ok (HandleAddNewRank session rankName w)).
Definition HandleGuildDelRankOpcode (session : Z) : World -> result fault World :=
  with_guild session (fun w => Ok (HandleRemoveLowestRank session w)).

(** ** The bank *)
Definition HandleGuildBankMoneyWithdrawn (session : Z) : World -> result fault World :=
  with_guild session (fun w => Ok (SendMoneyInfo session w)).
Definition HandleGuildPermissions (session : Z) : World -> result fault World := with_guild session (fun w => Ok (SendPermissions session w)).
Definition HandleGuildBankerActivate (session : Z) (sendAllSlots : bool) : World -> result fault World :=
  with_guild_or session (fun w => Ok (SendBankTabsInfo session sendAllSlots w))
    (fun w => Ok (SendCommandResult session GUILD_COMMAND_VIEW_TAB ERR_GUILD_PLAYER_NOT_IN_GUILD [] w)).
Definition HandleGuildBankQueryTab (session tabId : Z) (near : bool) (w : World) : result fault World :=
  if near then with_guild session (fun w => Ok (SendBankTabData session tabId w)) w else Ok w.
Definition HandleGuildBankDepositMoney (E : Env) (session money : Z) (near : bool) (w : World) : result fault World :=
  match FindPlayer session w with
  | None => Ok w
  | Some p =>
      if near && negb (money =? 0) && HasEnoughMoney p money then with_guild session (HandleMemberDepositMoney E session money) w else Ok w
  end.
Definition HandleGuildBankWithdrawMoney (E : Env) (session money : Z) (near : bool) (w : World) : result fault World :=
  if negb (money =? 0) && near
  then with_guild session (fun w => let? (_, w) := HandleMemberWithdrawMoney E session money false w in Ok w) w else Ok w.
(** The packet that moves items within the bank. *)
Definition HandleGuildBankSwapItems (E : Env) (session tabId slotId destTabId destSlotId splitedAmount : Z) (near : bool) (w : World) :
    result fault World :=
  if near then with_guild session (SwapItems E session tabId slotId destTabId destSlotId splitedAmount) w else Ok w.
Definition HandleGuildBankBuyTab (session tabId : Z) (near : bool) (w : World) : result fault World :=
  if near then with_guild session (fun w => Ok (HandleBuyBankTab session tabId w)) w else Ok w.
Definition HandleGuildBankUpdateTab (session tabId : Z) (name icon : list Z) (near : bool) (w : World) : result fault World :=
  if negb (bool_decide (name = [])) && negb (bool_decide (icon = [])) && near
  then with_guild session (fun w => Ok (HandleSetBankTabInfo tabId name icon w)) w else Ok w.
Definition HandleGuildBankLogQuery (E : Env) (session tabId : Z) : World -> result fault World :=
  with_guild session (SendBankLog E session tabId).
Definition HandleQueryGuildBankTabText (session tabId : Z) : World -> result fault World :=
  with_guild session (fun w => Ok (SendBankTabText session tabId w)).
Definition HandleSetGuildBankTabText (session tabId : Z) (text : list Z) : World -> result fault World :=
  with_guild session (SetBankTabText tabId text).

(** ** Other callers *)

(** The part of [HandlePlayerLogin] about guilds; [row] is what the database has of the
    player's guild and rank. *)
Definition login_guild (E : Env) (session : Z) (row : option (Z * Z)) (w : World) : result fault World :=
  let w := on_player session (fun p => match row with
             | Some (guildid, rank) => SetRank rank (SetInGuild guildid p)
             | None => if p_guildId p =? 0 then p else SetRank 0 (SetInGuild 0 p)
             end) w in
  with_guild_or session (SendLoginInfo E session) (fun w => Ok (on_player session (SetInGuild 0) w)) w.
(** A player is created in the world and logs in; he leaves it. *)
Definition enter_world (E : Env) (session : Z) (p : Player) (row : option (Z * Z)) (w : World) : result fault World :=
  login_guild E session row (set_players (map_set session p (players w)) w).
Definition leave_world (E : Env) (session : Z) (w : World) : result fault World :=
  let? w := with_guild session (HandleMemberLogout E session) w in Ok (set_players (map_erase session (players w)) w).

Definition guild_chat (session : Z) (officer : bool) (msg : list Z) (lang : Z) : World -> result fault World :=
  with_guild session (fun w => Ok (BroadcastToGuild session officer msg lang w)).
(** A repair at the cost of the guild: whether it was paid. *)
Definition guild_repair (E : Env) (session costs : Z) : World -> result fault World :=
  with_guild session (fun w => let? (_, w) := HandleMemberWithdrawMoney E session costs true w in Ok w).
Definition HandleCalendarGuildFilter (E : Env) (session minLevel maxLevel minRank : Z) : World -> result fault World :=
  with_guild session (fun w => Ok (MassInviteToEvent E session minLevel maxLevel minRank w)).
Definition GiveLevel_guild (session level : Z) : World -> result fault World :=
  with_guild session (fun w => Ok (UpdateMemberData session GUILD_MEMBER_DATA_LEVEL level w)).
Definition UpdateZone_guild (session newZone : Z) : World -> result fault World :=
  with_guild session (fun w => Ok (UpdateMemberData session GUILD_MEMBER_DATA_ZONEID newZone w)).
(** [GuildMgr::ResetTimes] for the guild. *)
Definition reset_times (w : World) : result fault World :=
  match map_find (m_id (guild w)) (GuildStore w) with Some _ => ResetTimes w | None => Ok w end.

(** ** The commands of game masters

    [scripts/Commands/cs_guild.cpp], after the arguments are parsed. *)
Definition named_guild (guildName : list Z) (f : World -> result fault World) (w : World) : result fault World :=
  match GetGuildByName guildName (GuildStore w) with
  | Some id => if id =? m_id (guild w) then f w else Ok w
  | None => Ok w
  end.
(** The guild of a player, who need not be in the world. *)
Definition guild_of (E : Env) (targetGuid : Z) (f : World -> result fault World) (w : World) : result fault World :=
  let guildId := match FindPlayer targetGuid w with Some p => p_guildId p | None => GetGuildIdFromDB E targetGuid end in
  match (if guildId =? 0 then None else map_find guildId (GuildStore w)) with
  | Some _ => if guildId =? m_id (guild w) then f w else Ok w
  | None => Ok w
  end.
Definition HandleGuildDeleteCommand (guildName : list Z) : World -> result fault World := named_guild guildName Disband.
Definition HandleGuildInviteCommand (E : Env) (targetGuid : Z) (guildName : list Z) : World -> result fault World :=
  named_guild guildName (fun w => let? (_, w) := AddMember E targetGuid GUILD_RANK_NONE w in Ok w).
Definition HandleGuildUninviteCommand (E : Env) (targetGuid : Z) : World -> result fault World :=
  guild_of E targetGuid (DeleteMember targetGuid false true).
Definition HandleGuildRankCommand (E : Env) (targetGuid newRank : Z) : World -> result fault World :=
  guild_of E targetGuid (fun w => Ok (ChangeMemberRank targetGuid (u8 newRank) w).2).
(** The part about guilds of deleting a character and of changing his faction. *)
Definition DeleteFromDB_guild (E : Env) (playerguid : Z) (w : World) : result fault World :=
  let guildId := GetGuildIdFromDB E playerguid in
  match (if guildId =? 0 then None else map_find guildId (GuildStore w)) with
  | Some _ => if guildId =? m_id (guild w) then DeleteMember (GUID_LOPART playerguid) false false w else Ok w
  | None => Ok w
  end.

End GuildHandlers.
