(* ===== verification/GuildRules.v ===== *)
(** * GuildRules: who may do what in a guild

    The theorems on [Guild]: the invariant of a guild through every sequence of
    commands, who can change whose rank, what a right is worth, how a guild ends and
    what start-up repairs. *)
From S2P Require Import Prelude OrderedMap Util Guild GuildHandlers.
From Stdlib Require Import Sorting.Sorted.
Import Guild GuildHandlers.
#[global] Open Scope Z_scope.

Module GuildRules.

(** ** The invariant *)

(** Members are found under their guids. *)
Record members_wf (l : list (Z * Member)) : Prop := {
  mw_sorted : map_sorted l;
  mw_key low m : map_find low l = Some m -> m_guid m = low /\ in_u 32 low /\ length (m_bankWithdraw m) = 7%nat;
  mw_rank low m : map_find low l = Some m -> in_u 8 (m_rankId m)
}.

(** The ranks are a sequence from 0 on, five at least and ten at most; the first has all
    rights. *)
Record ranks_wf (l : list RankInfo) : Prop := {
  rw_number : (5 <= length l <= 10)%nat;
  rw_ids i r : l !! i = Some r -> r_rankId r = Z.of_nat i /\ length (r_tabs r) = 6%nat;
  rw_master r : l !! 0%nat = Some r -> Z.land (r_rights r) GR_RIGHT_ALL = GR_RIGHT_ALL
}.

Definition log_wf (l : LogHolder) : Prop := 0 < m_maxRecords l /\ size (m_log l) <= m_maxRecords l.
Record logs_ok (event : LogHolder) (bank : list LogHolder) : Prop := {
  lw_event : log_wf event;
  lw_bank : length bank = 7%nat;
  lw_each : Forall log_wf bank
}.
Abbreviation logs_wf g := (logs_ok (m_eventLog g) (m_bankEventLog g)).

Record players_wf (l : list (Z * Player)) : Prop := {
  pw_sorted : map_sorted l;
  pw_key guid p : map_find guid l = Some p -> in_u 32 guid
}.

(** The players in the world who are marked as members are members. (The converse fails:
    who declines an invitation is no longer marked.) *)
Definition marked (id : Z) (ms : list (Z * Member)) (ps : list (Z * Player)) : Prop :=
  forall guid p, map_find guid ps = Some p -> p_guildId p = id -> is_Some (map_find guid ms).

(** Without [led] the leader need not be a member, as before [Validate]; without [listed]
    the guild need not be registered, as in [Create]. *)
Record guild_ok_at (led listed : Prop) (w : World) : Prop := {
  ok_members : members_wf (m_members (guild w));
  ok_leader : led -> is_Some (map_find (m_leaderGuid (guild w)) (m_members (guild w)));
  ok_ranks : ranks_wf (m_ranks (guild w));
  ok_logs : logs_wf (guild w);
  ok_tabs : (length (m_bankTabs (guild w)) <= 6)%nat;
  ok_players : players_wf (players w);
  ok_marks : marked (m_id (guild w)) (m_members (guild w)) (players w);
  ok_id : 0 < m_id (guild w);
  ok_registered : listed -> is_Some (map_find (m_id (guild w)) (GuildStore w))
}.
Arguments ok_members {led listed w}.
Arguments ok_leader {led listed w}.
Arguments ok_ranks {led listed w}.
Arguments ok_logs {led listed w}.
Arguments ok_tabs {led listed w}.
Arguments ok_players {led listed w}.
Arguments ok_marks {led listed w}.
Arguments ok_id {led listed w}.
Arguments ok_registered {led listed w}.
Abbreviation guild_ok := (guild_ok_at True True).

(** The guild has been disbanded. *)
Definition gone (w : World) : Prop :=
  m_members (guild w) = [] /\ map_find (m_id (guild w)) (GuildStore w) = None /\ logs_wf (guild w).
Definition world_ok (w : World) : Prop := guild_ok w \/ gone w.

Abbreviation safe := (ensures (fun _ : fault => False)).

(** What is neither a log nor the trace. *)
Definition strip (w : World) :=
  (m_id (guild w), m_leaderGuid (guild w), m_ranks (guild w), m_members (guild w), m_bankMoney (guild w), m_bankTabs (guild w),
   players w, GuildStore w).
Definition logged (w w' : World) : Prop := strip w' = strip w /\ (logs_wf (guild w) -> logs_wf (guild w')).
#[global] Instance logged_refl : Reflexive logged.
Proof. done. Qed.
#[global] Instance logged_trans : Transitive logged.
Proof. intros w1 w2 w3 [E1 H1] [E2 H2]. split; [congruence|auto]. Qed.

Lemma logged_ok {led listed} w w' : logged w w' -> guild_ok_at led listed w -> guild_ok_at led listed w'.
Proof.
  intros [E HL] []. injection E as E1 E2 E3 E4 E5 E6 E7 E8. constructor; rewrite ?E1, ?E2, ?E3, ?E4, ?E6, ?E7, ?E8; auto.
Qed.
Lemma logged_emit es w : logged w (emit es w).
Proof. done. Qed.

Lemma low_id z : in_u 32 z -> GUID_LOPART z = z.
Proof. intros H. unfold GUID_LOPART. change 0xFFFFFFFF with (Z.ones 32). rewrite Z.land_ones by lia. apply Z.mod_small, H. Qed.

(** ** Logs *)
Lemma log_step log (mk : Z -> LogEntry) : log_wf log ->
  exists guid log', (let? (guid, log) := GetNextGUID log in let? log := AddEvent (mk guid) log in Ok (guid, log)) = Ok (guid, log') /\ log_wf log'.
Proof.
  intros [Hm Hs]. unfold GetNextGUID.
  set (n := if m_nextGUID log =? GUILD_EVENT_LOG_GUID_UNDEFINED then Ok 0
            else if m_maxRecords log =? 0 then Throw DivideByZero else Ok (u32 (m_nextGUID log + 1) mod m_maxRecords log)).
  assert (exists z, n = Ok z) as [z ->].
  { unfold n. destruct (_ =? GUILD_EVENT_LOG_GUID_UNDEFINED); [by eexists|]. destruct (Z.eqb_spec (m_maxRecords log) 0); [lia|by eexists]. }
  cbn [bind_result]. unfold AddEvent. cbn [m_log m_maxRecords m_nextGUID]. destruct (Z.leb_spec (m_maxRecords log) (size (m_log log))) as [Hf|Hf].
  - destruct (m_log log) as [|e0 l] eqn:El; [unfold size in Hf; cbn in Hf; lia|]. cbn [bind_result]. eexists _, _. split; [done|].
    split; [done|]. unfold size in *. cbn [m_log m_maxRecords] in *. rewrite length_app. cbn [length] in *. lia.
  - cbn [bind_result]. eexists _, _. split; [done|]. split; [done|]. unfold size in *. cbn [m_log m_maxRecords] in *. rewrite length_app. cbn. lia.
Qed.

Lemma _LogEvent_logged E ty p1 p2 r w : logs_wf (guild w) -> safe (logged w) (_LogEvent E ty p1 p2 r w).
Proof.
  intros [H1 H2 H3]. unfold _LogEvent.
  destruct (log_step _ (fun guid => EventLogEntry guid (now E) ty p1 p2 r) H1) as (guid & log' & Hs & Hw).
  destruct (GetNextGUID (m_eventLog (guild w))) as [[guid0 log0]|]; [|done]. cbn [bind_result] in *.
  destruct (AddEvent _ log0) as [log1|]; [|done]. cbn [bind_result] in *. injection Hs as -> ->. split; [done|]. by constructor.
Qed.

Lemma _LogBankEvent_logged E ty tab low amount stack dest w :
  logs_wf (guild w) -> 0 <= tab -> safe (logged w) (_LogBankEvent E ty tab low amount stack dest w).
Proof.
  intros [H1 H2 H3] Ht. unfold _LogBankEvent. destruct (Z.ltb_spec GUILD_BANK_MAX_TABS tab); [done|].
  destruct (_ && _); [done|]. destruct (if IsMoneyEvent ty then _ else _) as [tab' dbTab] eqn:Et.
  assert (0 <= tab' <= 6) as Ht' by (unfold GUILD_BANK_MAX_TABS in *; destruct (IsMoneyEvent ty); injection Et as <- <-; lia).
  destruct (lookup_lt_is_Some_2 (m_bankEventLog (guild w)) (Z.to_nat tab')) as [pLog Hp]; [lia|]. rewrite Hp.
  destruct (log_step _ (fun guid => BankEventLogEntry guid (now E) ty dbTab low amount stack dest) (Forall_lookup_1 _ _ _ _ H3 Hp))
    as (guid & log' & Hs & Hw).
  destruct (GetNextGUID pLog) as [[guid0 log0]|]; [|done]. cbn [bind_result] in *.
  destruct (AddEvent _ log0) as [log1|]; [|done]. cbn [bind_result] in *. injection Hs as -> ->. split; [done|].
  constructor; cbn; [done|by rewrite length_insert|by apply Forall_insert].
Qed.

(** ** Steps on members and players *)
Lemma guild_ok_emit {led listed} es w : guild_ok_at led listed w -> guild_ok_at led listed (emit es w).
Proof. apply logged_ok, logged_emit. Qed.

Lemma FindPlayer_on_player guid f w g p :
  FindPlayer g (on_player guid f w) = Some p -> exists p0, FindPlayer g w = Some p0 /\ (p = p0 \/ g = guid /\ p = f p0).
Proof.
  unfold on_player. destruct (FindPlayer guid w) as [q|] eqn:Eq; [|eauto]. unfold FindPlayer. cbn. destruct (decide (g = guid)) as [->|Hne].
  - rewrite map_find_set. intros [= <-]. exists q. auto.
  - rewrite map_find_set_ne by done. eauto.
Qed.
Lemma players_wf_on_player guid f w : players_wf (players w) -> players_wf (players (on_player guid f w)).
Proof.
  intros [H1 H2]. unfold on_player. destruct (FindPlayer guid w) as [q|] eqn:Eq; [|done]. cbn. constructor; [by apply map_set_sorted|].
  intros g p. destruct (decide (g = guid)) as [->|Hne]; [intros _; by apply (H2 guid q)|rewrite map_find_set_ne by done; apply H2].
Qed.
Lemma guild_on_player guid f w : guild (on_player guid f w) = guild w /\ GuildStore (on_player guid f w) = GuildStore w.
Proof. unfold on_player. by destruct (FindPlayer guid w). Qed.

Lemma guild_ok_player {led listed} guid f w :
  (forall p, p_guildId (f p) = p_guildId p) -> guild_ok_at led listed w -> guild_ok_at led listed (on_player guid f w).
Proof.
  intros Hf []. destruct (guild_on_player guid f w) as [E1 E2]. constructor; rewrite ?E1, ?E2; auto using players_wf_on_player.
  intros g p Hp. change (FindPlayer g (on_player guid f w) = Some p) in Hp. apply FindPlayer_on_player in Hp as (p0 & Hp0 & [-> |[-> ->]]);
    rewrite ?Hf; by apply ok_marks0.
Qed.
Lemma guild_ok_strangers {led listed} guid f w :
  (forall p, FindPlayer guid w = Some p -> p_guildId (f p) <> m_id (guild w)) -> guild_ok_at led listed w -> guild_ok_at led listed (on_player guid f w).
Proof.
  intros Hf []. destruct (guild_on_player guid f w) as [E1 E2]. constructor; rewrite ?E1, ?E2; auto using players_wf_on_player.
  intros g p Hp. change (FindPlayer g (on_player guid f w) = Some p) in Hp.
  apply FindPlayer_on_player in Hp as (p0 & Hp0 & [-> |[-> ->]]); [by apply ok_marks0|]. intros E. by destruct (Hf p0 Hp0).
Qed.

(** A member whose guid stays. *)
Lemma members_wf_nil : members_wf [].
Proof. by constructor; [constructor|..]. Qed.
Lemma members_wf_set low m l :
  members_wf l -> m_guid m = low -> in_u 32 low -> length (m_bankWithdraw m) = 7%nat -> in_u 8 (m_rankId m) -> members_wf (map_set low m l).
Proof.
  intros [H1 H2 H3] Hg Hr Hl Hk. constructor; [by apply map_set_sorted| |]; intros low' m'; (destruct (decide (low' = low)) as [->|Hne];
    [rewrite map_find_set; intros [= <-]; done|rewrite map_find_set_ne by done]); [apply H2|apply H3].
Qed.
Lemma map_find_set_is_Some {A} (k j : Z) (a b : A) l : map_find k l = Some a -> is_Some (map_find j (map_set k b l)) <-> is_Some (map_find j l).
Proof.
  intros Hk. destruct (decide (j = k)) as [->|]; [rewrite map_find_set, Hk; split; eauto|by rewrite map_find_set_ne].
Qed.

Lemma guild_ok_put {led listed} low m m' w :
  guild_ok_at led listed w -> map_find low (m_members (guild w)) = Some m -> m_guid m' = m_guid m -> length (m_bankWithdraw m') = 7%nat ->
  in_u 8 (m_rankId m') -> guild_ok_at led listed (put_member low m' w).
Proof.
  intros [] Hm Hg Hl Hk. destruct (mw_key _ ok_members0 _ _ Hm) as (E1 & E2 & E3). constructor; cbn; auto.
  - apply members_wf_set; congruence.
  - rewrite map_find_set_is_Some by done. auto.
  - intros g p Hp Hg'. apply (map_find_set_is_Some _ _ m); [done|]. by apply (ok_marks0 g p).
Qed.
Lemma guild_ok_update {led listed} low f w :
  (forall m, m_guid (f m) = m_guid m /\ length (m_bankWithdraw (f m)) = length (m_bankWithdraw m) /\ m_rankId (f m) = m_rankId m) ->
  guild_ok_at led listed w -> guild_ok_at led listed (update_member low f w).
Proof.
  intros Hf Hw. unfold update_member. destruct (map_find low _) as [m|] eqn:Em; [|done]. destruct (Hf m) as (E1 & E2 & E3).
  apply (guild_ok_put low m); [done|done|done| |]; [rewrite E2; apply (mw_key _ (ok_members Hw) _ _ Em)|rewrite E3; by apply (mw_rank _ (ok_members Hw) low)].
Qed.

Lemma ChangeRank_ok {led listed} low r w : in_u 8 r -> guild_ok_at led listed w -> guild_ok_at led listed (ChangeRank low r w).
Proof.
  intros Hr Hw. unfold ChangeRank. destruct (map_find low _) as [m|] eqn:Em; [|done].
  apply guild_ok_emit, guild_ok_player; [done|]. apply (guild_ok_put low m); [done|done|done| |done]. apply (mw_key _ (ok_members Hw) _ _ Em).
Qed.

Lemma members_ChangeRank low r w low' :
  map_find low' (m_members (guild (ChangeRank low r w))) =
    (if decide (low' = low) then set_rankId r else id) <$> map_find low' (m_members (guild w)).
Proof.
  unfold ChangeRank. destruct (map_find low (m_members (guild w))) as [m|] eqn:Em.
  - cbn [guild emit set_trace]. rewrite (proj1 (guild_on_player _ _ _)). cbn. case_decide as E; [subst; by rewrite map_find_set, Em|].
    rewrite map_find_set_ne by done. by destruct (map_find low' _).
  - case_decide as E; [subst; by rewrite Em|]. by destruct (map_find low' _).
Qed.
Lemma guild_ChangeRank low r w : exists ms, guild (ChangeRank low r w) = set_members ms (guild w).
Proof.
  unfold ChangeRank. destruct (map_find low (m_members (guild w))) as [m|] eqn:Em.
  - cbn [guild emit set_trace]. rewrite (proj1 (guild_on_player _ _ _)). by eexists.
  - exists (m_members (guild w)). by destruct (guild w).
Qed.
Lemma leader_ChangeRank low r w : m_leaderGuid (guild (ChangeRank low r w)) = m_leaderGuid (guild w).
Proof. by destruct (guild_ChangeRank low r w) as [ms ->]. Qed.

(** The leader is given, the rank follows. *)
Lemma _SetLeaderGUID_repairs {led listed} low m w :
  guild_ok_at led listed w -> map_find low (m_members (guild w)) = Some m -> guild_ok_at True listed (_SetLeaderGUID low w).
Proof.
  intros Hw Em. unfold _SetLeaderGUID. rewrite Em.
  apply guild_ok_emit, ChangeRank_ok; [done|]. destruct (mw_key _ (ok_members Hw) _ _ Em) as (E1 & _). destruct Hw.
  constructor; cbn; auto. rewrite E1. by eexists.
Qed.
Lemma _SetLeaderGUID_ok low w : guild_ok w -> guild_ok (_SetLeaderGUID low w).
Proof.
  intros Hw. destruct (map_find low (m_members (guild w))) as [m|] eqn:Em; [by apply (_SetLeaderGUID_repairs (led := True) low m)|].
  unfold _SetLeaderGUID. by rewrite Em.
Qed.
Lemma _SetLeaderGUID_leader low m w :
  members_wf (m_members (guild w)) -> map_find low (m_members (guild w)) = Some m -> m_leaderGuid (guild (_SetLeaderGUID low w)) = low.
Proof.
  intros Hw Em. unfold _SetLeaderGUID. rewrite Em. cbn [guild emit set_trace]. rewrite leader_ChangeRank. cbn. by apply (mw_key _ Hw) in Em as [-> _].
Qed.

(** ** Leaving *)
Lemma map_find_erase_iff {A} (k j : Z) (l : list (Z * A)) : is_Some (map_find j (map_erase k l)) <-> j <> k /\ is_Some (map_find j l).
Proof.
  destruct (decide (j = k)) as [->|]; [rewrite map_find_erase; split; [by intros []|by intros []]|rewrite map_find_erase_ne by done; tauto].
Qed.
Lemma members_wf_erase low l : members_wf l -> members_wf (map_erase low l).
Proof.
  intros [H1 H2 H3]. constructor; [by apply map_erase_sorted| |]; intros low' m; (destruct (decide (low' = low)) as [->|Hne];
    [by rewrite map_find_erase|rewrite map_find_erase_ne by done]); [apply H2|apply H3].
Qed.

(** Someone who is not the leader is taken out. *)
Lemma remove_member_ok guid k w :
  guild_ok w -> in_u 32 guid -> guid <> m_leaderGuid (guild w) -> guild_ok (remove_member guid false k w).
Proof.
  intros Hw Hg Hne. unfold remove_member. rewrite low_id by done. set (w1 := on_this _ _). set (w2 := on_player _ _ _).
  enough (guild_ok w2) as [] by by constructor.
  destruct Hw. destruct (guild_on_player guid (fun p => SetRank 0 (SetInGuild 0 p)) w1) as [E1 E2].
  constructor; unfold w2; rewrite ?E1, ?E2; cbn; auto.
  - by apply members_wf_erase.
  - intros ?. apply map_find_erase_iff. split; [congruence|auto].
  - by apply players_wf_on_player.
  - intros g p Hp. rewrite map_find_erase_iff. change (FindPlayer g (on_player guid (fun p => SetRank 0 (SetInGuild 0 p)) w1) = Some p) in Hp.
    unfold on_player, FindPlayer in Hp. destruct (map_find guid (players w1)) as [q|] eqn:Eq.
    + cbn in Hp. destruct (decide (g = guid)) as [->|Hg'].
      * rewrite map_find_set in Hp. injection Hp as <-. cbn. lia.
      * rewrite map_find_set_ne in Hp by done. intros Hi. split; [done|]. by apply (ok_marks0 g p).
    + intros Hi. split; [|by apply (ok_marks0 g p)]. intros ->. cbn in Eq, Hp. congruence.
Qed.

(** The member who follows has the highest rank of the others. *)
Lemma successor_spec lowguid l best r :
  successor lowguid l best = r ->
  match r with
  | None => best = None /\ Forall (fun x => x.1 = lowguid) l
  | Some (low, m) =>
      (best = Some (low, m) \/ (low, m) ∈ l /\ low <> lowguid) /\
      (forall b, best = Some b -> m_rankId m <= m_rankId b.2) /\
      forall x, x ∈ l -> x.1 <> lowguid -> m_rankId m <= m_rankId x.2
  end.
Proof.
  revert best. induction l as [|[low m] l IH]; intros best; cbn [successor].
  { intros <-. destruct best as [[low m]|]; [|done]. split_and!; [by left|by intros b [= <-]|by intros x ?%not_elem_of_nil]. }
  intros H. apply IH in H. destruct (Z.eqb_spec low lowguid) as [->|Hne].
  - destruct r as [[low' m']|]; [|destruct H; split; [done|by constructor]]. destruct H as (H1 & H2 & H3). split_and!.
    + rewrite elem_of_cons. tauto.
    + done.
    + intros x [-> |Hx]%elem_of_cons Hx'; [done|by apply H3].
  - destruct r as [[low' m']|]; [|destruct H as [H _]; destruct best as [[? ?]|]; [by destruct (_ <? _)|done]].
    destruct H as (H1 & H2 & H3). rewrite elem_of_cons.
    destruct best as [[lb b]|].
    + destruct (Z.ltb_spec (m_rankId m) (m_rankId b)).
      * split_and!.
        -- destruct H1 as [[= -> ->]|[? ?]]; auto.
        -- intros b' [= <-]. cbn. specialize (H2 _ eq_refl). cbn in H2. lia.
        -- intros x [-> |Hx]%elem_of_cons Hx'; [by apply (H2 (low, m))|by apply H3].
      * split_and!.
        -- tauto.
        -- done.
        -- intros x [-> |Hx]%elem_of_cons Hx'; [|by apply H3]. specialize (H2 _ eq_refl). cbn in *. lia.
    + split_and!.
      * destruct H1 as [[= -> ->]|[? ?]]; auto.
      * done.
      * intros x [-> |Hx]%elem_of_cons Hx'; [by apply (H2 (low, m))|by apply H3].
Qed.

(** ** The end of a guild *)
Definition released (l : list (Z * Member)) (guid : Z) (p : Player) : Player :=
  if decide (is_Some (map_find guid l)) then SetRank 0 (SetInGuild 0 p) else p.

Lemma map_erase_head {A} low (a : A) l : map_sorted ((low, a) :: l) -> map_erase low ((low, a) :: l) = l.
Proof.
  intros [Hs Hl]%StronglySorted_inv. unfold map_erase. rewrite filter_cons_False by (cbn; tauto). apply filter_all.
  intros x Hx E. rewrite Forall_forall in Hl. specialize (Hl x.1 (list_elem_of_fmap_2 _ _ _ Hx)). cbn in *. lia.
Qed.

Lemma find_on_player guid f w g :
  FindPlayer g (on_player guid f w) = (if decide (g = guid) then f else id) <$> FindPlayer g w.
Proof.
  unfold on_player. destruct (FindPlayer guid w) as [q|] eqn:Eq; unfold FindPlayer in *; cbn.
  - case_decide as E; [subst; by rewrite map_find_set, Eq|]. rewrite map_find_set_ne by done. by destruct (map_find g _).
  - case_decide as E; [subst; by rewrite Eq|]. by destruct (map_find g _).
Qed.

Lemma find_remove_member guid d k w g :
  FindPlayer g (remove_member guid d k w) = (if decide (g = guid) then fun p => SetRank 0 (SetInGuild 0 p) else id) <$> FindPlayer g w.
Proof.
  unfold remove_member. set (w1 := on_this _ _). destruct d; exact (find_on_player guid _ w1 g).
Qed.

Lemma disband_loop_ok fuel w :
  members_wf (m_members (guild w)) -> (length (m_members (guild w)) <= fuel)%nat ->
  exists w', disband_loop fuel w = Ok w' /\ guild w' = set_members [] (guild w) /\ GuildStore w' = GuildStore w /\
    forall g, FindPlayer g w' = released (m_members (guild w)) g <$> FindPlayer g w.
Proof.
  revert w. induction fuel as [|fuel IH]; intros w Hw Hf; cbn [disband_loop]; destruct (m_members (guild w)) as [|[low m] l] eqn:El; cbn [length] in Hf; try lia.
  1, 2: exists w; split; [done|]; split; [by destruct (guild w); cbn in *; subst|]; split; [done|]; intros g; unfold released;
    cbn [map_find]; (destruct (FindPlayer g w); [|done]); cbn; f_equal; by rewrite decide_False by (by intros []).
  destruct (mw_key _ Hw low m) as (Eg & Hr & _); [cbn; by rewrite Z.eqb_refl|]. rewrite Eg.
  assert (guild (remove_member low true false w) = set_members l (guild w)) as Eg'.
  { unfold remove_member. rewrite low_id by done. cbn [guild emit set_trace]. rewrite (proj1 (guild_on_player _ _ _)). cbn.
    rewrite El, (map_erase_head low m l) by apply Hw. done. }
  destruct (IH (remove_member low true false w)) as (w' & -> & H1 & H2 & H3).
  - rewrite Eg'. cbn. rewrite <- (map_erase_head low m l) by apply Hw. by apply members_wf_erase.
  - rewrite Eg'. cbn in *. lia.
  - exists w'. split; [done|]. rewrite H1, Eg'. split; [done|]. split.
    + rewrite H2. unfold remove_member. cbn [GuildStore emit set_trace]. by rewrite (proj2 (guild_on_player _ _ _)).
    + intros g. rewrite H3, Eg'. cbn [m_members set_members].
      rewrite find_remove_member.
      rewrite <- option_fmap_compose. destruct (FindPlayer g w) as [p|]; [|done]. cbn. f_equal. unfold released. cbn [map_find].
      destruct (Z.eqb_spec g low) as [->|Hne].
      * rewrite (decide_True (P := low = low)) by done. rewrite (decide_True (P := is_Some (Some m))) by (by eexists). by case_decide.
      * by rewrite (decide_False (P := g = low)).
Qed.

Lemma Disband_gone w : members_wf (m_members (guild w)) -> logs_wf (guild w) -> safe gone (Disband w).
Proof.
  intros Hw Hl. unfold Disband. set (w1 := _BroadcastEvent _ _ _ _).
  destruct (disband_loop_ok (length (m_members (guild w1))) w1) as (w2 & -> & Hg & _ & _); [apply Hw|done|].
  cbn. split_and!; cbn; [by rewrite Hg|apply map_find_erase|rewrite Hg; apply Hl].
Qed.
Lemma Disband_ok w : guild_ok w -> safe gone (Disband w).
Proof. intros []. by apply Disband_gone. Qed.

Lemma DeleteMember_ok guid k w : guild_ok w -> in_u 32 guid -> safe world_ok (DeleteMember guid false k w).
Proof.
  intros Hw Hg. unfold DeleteMember. rewrite low_id, andb_true_r by done. destruct (Z.eqb_spec (m_leaderGuid (guild w)) guid) as [El|Hne].
  - destruct (successor guid _ None) as [[low m]|] eqn:Es.
    + apply successor_spec in Es as ([[=]|[Hin Hne]] & _ & _).
      apply map_find_elem in Hin; [|apply (ok_members Hw)]. left. apply remove_member_ok; [|done|].
      * destruct (map_find guid _); cbn; repeat apply guild_ok_emit; apply guild_ok_player; try done; by apply _SetLeaderGUID_ok.
      * intros E. apply Hne. destruct (map_find guid (m_members (guild w))); cbn in E; rewrite (proj1 (guild_on_player _ _ _)) in E;
          rewrite (_SetLeaderGUID_leader low m) in E by (apply Hw || done); done.
    + apply (ensures_weaken _ gone); [by apply Disband_ok|by right].
  - left. apply remove_member_ok; congruence.
Qed.

(** ** Joining *)
Lemma _UpdateAccountsNumber_ok {led listed} w : guild_ok_at led listed w -> guild_ok_at led listed (_UpdateAccountsNumber w).
Proof. by intros []. Qed.

Lemma SendLoginInfo_ok {led listed} E s w : guild_ok_at led listed w -> is_Some (FindPlayer s w) -> safe (guild_ok_at led listed) (SendLoginInfo E s w).
Proof.
  intros Hw [p Hp]. unfold SendLoginInfo. cbv zeta. unfold GetPlayer.
  change (FindPlayer s (SendBankTabsInfo _ _ _)) with (FindPlayer s w). rewrite Hp. cbn [bind_result ensures].
  apply guild_ok_update; [by intros []|]. by repeat apply guild_ok_emit.
Qed.

Lemma added_ok {led listed} E guid r name w : guild_ok_at led listed w -> safe (guild_ok_at led listed) (added E guid r name w).
Proof.
  intros Hw. unfold added. cbv zeta. set (w1 := _UpdateAccountsNumber _). assert (guild_ok_at led listed w1) as H1 by (by apply _UpdateAccountsNumber_ok, guild_ok_emit).
  apply (ensures_bind _ _ _ _ _ (_LogEvent_logged E _ _ _ _ w1 (ok_logs H1))). intros w2 H2. cbn.
  by repeat apply guild_ok_emit; apply (logged_ok w1).
Qed.

Lemma AddMember_keeps {led listed} E guid r w : guild_ok_at led listed w -> in_u 32 guid -> in_u 8 r ->
  safe (fun x => guild_ok_at led listed x.2) (AddMember E guid r w).
Proof.
  intros Hw Hg Hr. unfold AddMember. rewrite low_id by done. set (r' := if _ =? _ then _ else _).
  assert (in_u 8 r') as Hr' by (unfold r'; destruct (_ =? _); [by apply wrap_range|done]).
  assert (forall m, m_guid m = guid -> length (m_bankWithdraw m) = 7%nat -> m_rankId m = r' -> members_wf (map_set guid m (m_members (guild w)))) as Hset.
  { intros m ?? E1. by apply members_wf_set; [apply Hw|..|rewrite E1]. }
  destruct (FindPlayer guid w) as [p|] eqn:Ep.
  - destruct (Z.eqb_spec (p_guildId p) 0) as [H0|]; [|done]. cbn [negb]. cbv zeta.
    set (w1 := put_member guid _ _). set (w2 := on_player guid _ w1). set (w3 := update_member guid _ w2).
    assert (guild_ok_at led listed w2) as H2.
    { destruct Hw, (guild_on_player guid (fun p => SetRank r' (SetGuildIdInvited 0 (SetInGuild (m_id (guild w1)) p))) w1) as [E1 E2].
      constructor; unfold w2; rewrite ?E1, ?E2; cbn; auto using players_wf_on_player.
      - intros ?. destruct (decide (m_leaderGuid (guild w) = guid)) as [->|]; [rewrite map_find_set; by eexists|rewrite map_find_set_ne by done; auto].
      - intros g q Hq. change (FindPlayer g (on_player guid (fun p => SetRank r' (SetGuildIdInvited 0 (SetInGuild (m_id (guild w1)) p))) w1) = Some q) in Hq.
        rewrite find_on_player in Hq. change (FindPlayer g w1) with (FindPlayer g w) in Hq. destruct (decide (g = guid)) as [->|Hne].
        + rewrite Ep in Hq. injection Hq as <-. cbn. rewrite map_find_set. by eexists.
        + rewrite map_find_set_ne by done. destruct (FindPlayer g w) as [q'|] eqn:Eq; [|done]. injection Hq as <-. by apply (ok_marks0 g). }
    assert (guild_ok_at led listed w3) as H3 by (apply guild_ok_update; [by intros []|done]).
    assert (is_Some (FindPlayer guid w3)) as Hin.
    { assert (FindPlayer guid w3 = FindPlayer guid w2) as -> by (unfold w3, update_member; by destruct (map_find guid _)).
      unfold w2. rewrite find_on_player. change (FindPlayer guid w1) with (FindPlayer guid w). rewrite Ep. by eexists. }
    apply (ensures_bind _ _ _ _ _ (SendLoginInfo_ok E guid w3 H3 Hin)). intros w4 H4.
    by apply (ensures_bind _ _ _ _ _ (added_ok E guid r' (p_name p) w4 H4)).
  - destruct (negb _); [done|]. cbv zeta. destruct (CharData E guid) as [[[[[name level] class] zone] account]|]; [|by apply guild_ok_emit].
    destruct (CheckStats _); [|by apply guild_ok_emit]. set (w1 := put_member guid _ _). assert (guild_ok_at led listed w1) as H1.
    { destruct Hw. constructor; cbn; auto.
      - intros ?. destruct (decide (m_leaderGuid (guild w) = guid)) as [->|]; [rewrite map_find_set; by eexists|rewrite map_find_set_ne by done; auto].
      - intros g q Hq. destruct (decide (g = guid)) as [->|Hne]; [unfold FindPlayer in Ep; congruence|]. rewrite map_find_set_ne by done. by apply ok_marks0. }
    by apply (ensures_bind _ _ _ _ _ (added_ok E guid r' name w1 H1)).
Qed.

(** ** Ranks *)
Lemma GetRankInfo_lookup rankId g r : GetRankInfo rankId g = Some r -> m_ranks g !! Z.to_nat rankId = Some r.
Proof. unfold GetRankInfo. by destruct (_ <? _). Qed.
Lemma guild_ok_ranks {led listed} l w : ranks_wf l -> guild_ok_at led listed w -> guild_ok_at led listed (on_this (set_ranks l) w).
Proof. by intros Hl []. Qed.

(** A rank that keeps its place and, if it is the first, all rights. *)
Definition rank_like (r r' : RankInfo) : Prop :=
  r_rankId r' = r_rankId r /\ length (r_tabs r') = length (r_tabs r) /\
  (r_rankId r = GR_GUILDMASTER -> Z.land (r_rights r) GR_RIGHT_ALL = GR_RIGHT_ALL -> Z.land (r_rights r') GR_RIGHT_ALL = GR_RIGHT_ALL).
#[global] Instance rank_like_refl : Reflexive rank_like.
Proof. intros r. by split_and!. Qed.
#[global] Instance rank_like_trans : Transitive rank_like.
Proof. intros r1 r2 r3 (A1 & B1 & C1) (A2 & B2 & C2). split_and!; [congruence|congruence|]. intros H1 H2. apply C2; [congruence|auto]. Qed.
Lemma ranks_wf_like l l' : Forall2 rank_like l l' -> ranks_wf l -> ranks_wf l'.
Proof.
  intros HF [H1 H2 H3]. constructor.
  - by rewrite <- (Forall2_length _ _ _ HF).
  - intros i r' Hr'. destruct (Forall2_lookup_r _ _ _ _ _ HF Hr') as (r & Hr & E1 & E2 & _). destruct (H2 i r Hr). split; congruence.
  - intros r' Hr'. destruct (Forall2_lookup_r _ _ _ _ _ HF Hr') as (r & Hr & E1 & E2 & E3). apply E3; [|by apply H3]. by destruct (H2 0%nat r Hr) as [-> _].
Qed.
Lemma Forall2_like_insert i r r' l : l !! i = Some r -> rank_like r r' -> Forall2 rank_like l (<[i := r']> l).
Proof.
  intros Hr Hl. rewrite <- (list_insert_id l i r Hr) at 1. apply Forall2_insert; [|done]. by apply Forall_Forall2_diag, Forall_true.
Qed.
Lemma on_rank_ok rankId r r0 es w : GetRankInfo rankId (guild w) = Some r0 -> rank_like r0 r -> guild_ok w -> guild_ok (on_rank rankId r es w).
Proof.
  intros Hr Hl Hw. apply guild_ok_emit. unfold on_this, set_guild.
  apply (guild_ok_ranks (<[Z.to_nat rankId:=r]> (m_ranks (guild w))) w); [|done]. apply (ranks_wf_like (m_ranks (guild w))); [|apply Hw].
  by apply (Forall2_like_insert _ r0), Hl; apply GetRankInfo_lookup.
Qed.

Lemma SetName_like id name r : rank_like r (SetName id name r).1.
Proof. unfold SetName. by case_decide. Qed.
Lemma SetRights_like id rights r : rank_like r (SetRights id rights r).1.
Proof.
  unfold SetRights. destruct (Z.eqb_spec (r_rankId r) GR_GUILDMASTER) as [E|E]; (destruct (r_rights r =? _); [done|]); by split_and!.
Qed.
Lemma SetBankMoneyPerDay_like id money r : rank_like r (SetBankMoneyPerDay id money r).1.
Proof. unfold SetBankMoneyPerDay. cbv zeta. by destruct (r_bankMoneyPerDay r =? _). Qed.
Lemma SetBankTabSlotsAndRights_like id save rs r :
  0 <= GetTabId rs < GUILD_BANK_MAX_TABS -> safe (fun x => rank_like r x.1) (SetBankTabSlotsAndRights id save rs r).
Proof.
  intros Ht. unfold SetBankTabSlotsAndRights. set (rs' := if _ =? _ then _ else rs).
  assert (GetTabId rs' = GetTabId rs) as -> by (unfold rs'; by destruct (_ =? _)).
  destruct (Z.leb_spec 0 (GetTabId rs)); [|lia]. destruct (Z.ltb_spec (GetTabId rs) GUILD_BANK_MAX_TABS); [|lia].
  split_and!; cbn; [done|by rewrite length_insert|done].
Qed.
Lemma length_missing_tabs id rankId i n l : length (missing_tabs id rankId i n l).1 = length l.
Proof.
  revert i. induction l as [|r l IH]; intros i; [done|]. cbn. specialize (IH (i + 1)). destruct (missing_tabs _ _ _ _ l) as [l' es].
  cbn in IH. by destruct (_ && _); cbn; rewrite IH.
Qed.
Lemma CreateMissingTabsIfNeeded_like id n r : rank_like r (CreateMissingTabsIfNeeded id n r).1.
Proof.
  unfold CreateMissingTabsIfNeeded. pose proof (length_missing_tabs id (r_rankId r) 0 n (r_tabs r)) as H.
  destruct (missing_tabs _ _ _ _ _). by split_and!.
Qed.
Lemma create_missing_tabs_like id n l : Forall2 rank_like l (create_missing_tabs id n l).1.
Proof.
  induction l as [|r l IH]; [by constructor|]. cbn. pose proof (CreateMissingTabsIfNeeded_like id n r) as H.
  destruct (CreateMissingTabsIfNeeded id n r), (create_missing_tabs id n l). by constructor.
Qed.

Lemma _SetRankBankMoneyPerDay_ok rankId money w : guild_ok w -> guild_ok (_SetRankBankMoneyPerDay rankId money w).
Proof.
  intros Hw. unfold _SetRankBankMoneyPerDay. destruct (GetRankInfo _ _) as [r|] eqn:Er; [|done].
  pose proof (SetBankMoneyPerDay_like (m_id (guild w)) money r) as H. destruct (SetBankMoneyPerDay _ _ _) as [r' es]. by apply (on_rank_ok rankId r' r).
Qed.
Lemma set_tab_rights_ok rankId l w :
  Forall (fun rs => 0 <= GetTabId rs < GUILD_BANK_MAX_TABS) l -> guild_ok w -> safe guild_ok (set_tab_rights rankId l w).
Proof.
  intros Hl. revert w. induction Hl as [|rs l Hrs Hl IH]; intros w Hw; [done|]. cbn [set_tab_rights]. apply (ensures_bind _ guild_ok); [|done].
  unfold _SetRankBankTabRightsAndSlots. destruct (_ <=? _); [done|]. destruct (GetRankInfo _ _) as [r|] eqn:Er; [|done].
  apply (ensures_bind _ _ _ _ _ (SetBankTabSlotsAndRights_like (m_id (guild w)) true rs r Hrs)). intros [r' es] H. by apply (on_rank_ok rankId r' r).
Qed.
Lemma HandleSetRankInfo_ok s rankId name rights money l w :
  Forall (fun rs => 0 <= GetTabId rs < GUILD_BANK_MAX_TABS) l -> guild_ok w -> safe guild_ok (HandleSetRankInfo s rankId name rights money l w).
Proof.
  intros Hl Hw. unfold HandleSetRankInfo. destruct (negb _); [by apply guild_ok_emit|]. destruct (GetRankInfo _ _) as [r|] eqn:Er; [|done]. cbv zeta.
  pose proof (SetName_like (m_id (guild w)) name r) as H1. destruct (SetName _ _ _) as [r1 es1].
  pose proof (SetRights_like (m_id (guild w)) rights r1) as H2. destruct (SetRights _ _ _) as [r2 es2].
  eapply ensures_bind; [apply (set_tab_rights_ok rankId l); [done|]|].
  - apply _SetRankBankMoneyPerDay_ok, (on_rank_ok rankId r2 r); [done| |done]. by transitivity r1.
  - intros w' Hw'. by apply guild_ok_emit.
Qed.

Lemma _GetRanksSize_ranks g : ranks_wf (m_ranks g) -> _GetRanksSize g = size (m_ranks g).
Proof. intros [H _ _]. apply wrap_id. unfold size. width. Qed.
Lemma ranks_wf_snoc l name rights money :
  (length l < 10)%nat -> ranks_wf l -> ranks_wf (l ++ [new_rank (size l) name rights money]).
Proof.
  intros Hlen [H1 H2 H3]. constructor.
  - rewrite length_app. cbn. lia.
  - intros i r [Hr|[Hi Hr]]%lookup_app_Some; [by apply H2|]. destruct (i - length l)%nat eqn:Ei; [|done]. injection Hr as <-.
    split; [unfold size; cbn; lia|done].
  - intros r Hr. rewrite lookup_app_l in Hr by lia. by apply H3.
Qed.
Lemma _CreateRank_ok name rights w : guild_ok w -> guild_ok (_CreateRank name rights w).2.
Proof.
  intros Hw. unfold _CreateRank. rewrite _GetRanksSize_ranks by apply Hw. destruct (Z.leb_spec GUILD_RANKS_MAX_COUNT (size (m_ranks (guild w)))); [done|].
  cbv zeta. destruct (CreateMissingTabsIfNeeded _ _ _) as [info es]. apply guild_ok_emit.
  apply (guild_ok_ranks (m_ranks (guild w) ++ [new_rank (size (m_ranks (guild w))) name rights 0]) w); [|done].
  apply ranks_wf_snoc; [unfold size, GUILD_RANKS_MAX_COUNT in *; lia|apply Hw].
Qed.
Lemma HandleAddNewRank_ok s name w : guild_ok w -> guild_ok (HandleAddNewRank s name w).
Proof.
  intros Hw. unfold HandleAddNewRank. destruct (_ <=? _); [done|]. destruct (_IsLeader _ _); [|done].
  pose proof (_CreateRank_ok name (Z.lor GR_RIGHT_GCHATLISTEN GR_RIGHT_GCHATSPEAK) w Hw) as H.
  destruct (_CreateRank _ _ _) as [[] w']; [by apply guild_ok_emit|done].
Qed.
Lemma HandleRemoveRank_ok s rankId w : guild_ok w -> guild_ok (HandleRemoveRank s rankId w).
Proof.
  intros Hw. unfold HandleRemoveRank. rewrite _GetRanksSize_ranks by apply Hw.
  destruct (Z.leb_spec (size (m_ranks (guild w))) GUILD_RANKS_MIN_COUNT); [done|]. destruct (_ || _); [done|]. cbv zeta. apply guild_ok_emit.
  apply (guild_ok_ranks (removelast (m_ranks (guild w))) (emit _ w)); [|by apply guild_ok_emit].
  destruct (ok_ranks Hw) as [H1 H2 H3]. rewrite removelast_firstn_len. unfold size, GUILD_RANKS_MIN_COUNT in *.
  constructor.
  - rewrite length_take. lia.
  - intros i r [Hr _]%lookup_take_Some. by apply H2.
  - intros r [Hr _]%lookup_take_Some. by apply H3.
Qed.

(** ** Money and tabs *)
Lemma guild_ok_money {led listed} v w : guild_ok_at led listed w -> guild_ok_at led listed (on_this (set_bankMoney v) w).
Proof. by intros []. Qed.
Lemma ModifyMoney_ok {led listed} guid d w : guild_ok_at led listed w -> guild_ok_at led listed (ModifyMoney guid d w).
Proof.
  intros Hw. unfold ModifyMoney. cbv zeta. set (w1 := emit [OnPlayerMoneyChanged guid d] w).
  assert (guild_ok_at led listed w1) as H1 by by apply guild_ok_emit. destruct (FindPlayer guid w1); [|done]. unfold SetMoney.
  destruct (d <? 0); [by apply guild_ok_player|]. destruct (_ <? u32 _); [by apply guild_ok_player|].
  destruct (d =? 0); apply guild_ok_player; try done; by apply guild_ok_emit.
Qed.
Lemma guild_ModifyMoney guid d w : guild (ModifyMoney guid d w) = guild w.
Proof.
  unfold ModifyMoney, SetMoney. cbv zeta. destruct (FindPlayer guid _); [|done].
  destruct (d <? 0); [|destruct (_ <? u32 _)]; rewrite (proj1 (guild_on_player _ _ _)); [done|done|]. by destruct (d =? 0).
Qed.
Lemma _ModifyBankMoney_ok {led listed} amount add w : guild_ok_at led listed w -> guild_ok_at led listed (_ModifyBankMoney amount add w).2.
Proof.
  intros Hw. unfold _ModifyBankMoney. destruct add; [by apply guild_ok_emit, guild_ok_money|].
  destruct (_ <? amount); [done|]. by apply guild_ok_emit, guild_ok_money.
Qed.
Lemma guild_ok_tabs {led listed} l w : (length l <= 6)%nat -> guild_ok_at led listed w -> guild_ok_at led listed (on_this (set_bankTabs l) w).
Proof. by intros Hl []. Qed.
Lemma on_tab_ok {led listed} tabId t w : guild_ok_at led listed w -> guild_ok_at led listed (on_tab tabId t w).
Proof.
  intros Hw. apply (guild_ok_tabs (<[Z.to_nat tabId:=t]> (m_bankTabs (guild w))) w); [|done]. rewrite length_insert. apply Hw.
Qed.
Lemma _GetPurchasedTabsSize_tabs {led listed} w : guild_ok_at led listed w -> _GetPurchasedTabsSize (guild w) = size (m_bankTabs (guild w)).
Proof. intros [_ _ _ _ H _ _ _ _]. apply wrap_id. unfold size. width. Qed.

Lemma HandleBuyBankTab_ok s tabId w : guild_ok w -> guild_ok (HandleBuyBankTab s tabId w).
Proof.
  intros Hw. unfold HandleBuyBankTab. destruct (FindPlayer s w) as [p|], (GetMember s (guild w)); try done. cbv zeta.
  rewrite _GetPurchasedTabsSize_tabs by done.
  destruct (Z.leb_spec GUILD_BANK_MAX_TABS (size (m_bankTabs (guild w)))) as [|Hn]; [done|]. cbn [orb]. destruct (_ || _ || _); [done|].
  set (w1 := ModifyMoney _ _ w). assert (guild_ok w1) as H1 by by apply ModifyMoney_ok.
  assert (guild w1 = guild w) as Eg by apply guild_ModifyMoney.
  assert (guild_ok (_CreateNewBankTab w1)) as H2.
  { unfold _CreateNewBankTab. cbv zeta. set (w2 := emit _ _).
    assert (guild_ok w2) as Hw2.
    { apply guild_ok_emit. apply (guild_ok_tabs (m_bankTabs (guild w1) ++ [mkTab (_GetPurchasedTabsSize (guild w1)) ∅ [] [] []]) w1); [|done].
      rewrite Eg, length_app. unfold size, GUILD_BANK_MAX_TABS in Hn. cbn. lia. }
    pose proof (create_missing_tabs_like (m_id (guild w1)) (u8 (_GetPurchasedTabsSize (guild w1) + 1)) (m_ranks (guild w2))) as HF.
    destruct (create_missing_tabs _ _ _) as [ranks es]. apply guild_ok_emit, guild_ok_ranks; [|done]. eapply ranks_wf_like; [exact HF|apply Hw2]. }
  unfold SendPermissions. destruct (GetMember _ _); by repeat apply guild_ok_emit.
Qed.

Lemma HandleSetBankTabInfo_ok tabId name icon w : guild_ok w -> guild_ok (HandleSetBankTabInfo tabId name icon w).
Proof.
  intros Hw. unfold HandleSetBankTabInfo. destruct (GetBankTab _ _) as [t|]; [|done]. cbv zeta. apply guild_ok_emit.
  case_decide; [done|]. by apply guild_ok_emit, on_tab_ok.
Qed.
(** A text can be too long. *)
Abbreviation safe_text := (ensures (fun f : fault => f = TextOverflow)).
Lemma SetBankTabText_ok tabId text w : guild_ok w -> safe_text guild_ok (SetBankTabText tabId text w).
Proof.
  intros Hw. unfold SetBankTabText. destruct (GetBankTab _ _) as [t|]; [|done]. case_decide; [by apply guild_ok_emit|].
  destruct (Util.utf8truncate text _) as [text'|]; [|done]. cbn. by apply guild_ok_emit, guild_ok_emit, on_tab_ok.
Qed.

Lemma HandleMemberDepositMoney_ok E s amount w :
  guild_ok w -> is_Some (FindPlayer s w) -> safe guild_ok (HandleMemberDepositMoney E s amount w).
Proof.
  intros Hw [p Hp]. unfold HandleMemberDepositMoney, GetPlayer. rewrite Hp. cbn [bind_result]. cbv zeta.
  set (w1 := emit [Script OnGuildMemberDepositMoney _] w).
  assert (guild_ok (_ModifyBankMoney amount true w1).2) as H2 by (by apply _ModifyBankMoney_ok, guild_ok_emit).
  destruct (_ModifyBankMoney amount true w1) as [b w2]. cbn [snd] in H2.
  set (w3 := emit [SaveGoldToDB s] (ModifyMoney s (s32 (- s32 amount)) w2)).
  assert (guild_ok w3) as H3 by by apply guild_ok_emit, ModifyMoney_ok.
  apply (ensures_bind _ (logged w3)); [apply _LogBankEvent_logged; [apply H3|lia]|]. intros w4 H4.
  by apply guild_ok_emit, (logged_ok w3).
Qed.
Lemma save_withdraw_ok {led listed} low tab amount m w :
  guild_ok_at led listed w -> map_find low (m_members (guild w)) = Some m -> guild_ok_at led listed (save_withdraw low tab amount m w).
Proof.
  intros Hw Hm. unfold save_withdraw, UpdateBankWithdrawValue. cbv zeta. apply guild_ok_emit.
  apply (guild_ok_put low m); [done|done|done| |exact (mw_rank _ (ok_members Hw) _ _ Hm)].
  cbn. rewrite length_insert. by apply (mw_key _ (ok_members Hw) low).
Qed.
Lemma HandleMemberWithdrawMoney_ok E s amount repair w :
  guild_ok w -> is_Some (FindPlayer s w) -> safe (fun x => guild_ok x.2) (HandleMemberWithdrawMoney E s amount repair w).
Proof.
  intros Hw [p Hp]. unfold HandleMemberWithdrawMoney, GetPlayer. destruct (_ <? amount); [done|]. rewrite Hp. cbn [bind_result].
  destruct (GetMember s (guild w)) as [m|] eqn:Em; [|done]. destruct (_ <? amount); [done|]. cbv zeta.
  set (w1 := emit [Script OnGuildMemberWitdrawMoney _] w). set (w2 := save_withdraw _ _ _ _ w1).
  assert (guild_ok (_ModifyBankMoney amount false w2).2) as H2 by (by apply _ModifyBankMoney_ok, save_withdraw_ok; [apply guild_ok_emit|]).
  destruct (_ModifyBankMoney amount false w2) as [b w3]. cbn [snd] in H2. set (w4 := if repair then w3 else _).
  assert (guild_ok w4) as H4 by (unfold w4; destruct repair; [done|by apply guild_ok_emit, ModifyMoney_ok]).
  apply (ensures_bind _ (logged w4)); [apply _LogBankEvent_logged; [apply H4|lia]|]. intros w5 H5.
  by apply guild_ok_emit, (logged_ok w4).
Qed.

(** ** The other commands *)
Lemma HandleSetEmblem_ok s e w : guild_ok w -> is_Some (FindPlayer s w) -> safe guild_ok (HandleSetEmblem s e w).
Proof.
  intros Hw [p Hp]. unfold HandleSetEmblem, GetPlayer. rewrite Hp. cbn [bind_result]. destruct (negb _); [by apply guild_ok_emit|].
  destruct (negb _); [by apply guild_ok_emit|]. cbv zeta. repeat apply guild_ok_emit.
  by destruct (ModifyMoney_ok s (- EMBLEM_PRICE) w Hw).
Qed.
Lemma find_member_spec name l low m : find_member name l = Some (low, m) -> (low, m) ∈ l /\ m_name m = name.
Proof.
  induction l as [|[k n] l IH]; [done|]. cbn [find_member]. case_decide as En.
  - intros [= -> ->]. split; [by left|done].
  - intros [H1 H2]%IH. split; [by right|done].
Qed.
Lemma GetMember_name_find {led listed} name w low m :
  guild_ok_at led listed w -> GetMember_name name (guild w) = Some (low, m) -> map_find low (m_members (guild w)) = Some m /\ m_name m = name.
Proof. intros Hw [H1 H2]%find_member_spec. split; [|done]. apply map_find_elem; [apply Hw|done]. Qed.

Lemma HandleSetLeader_ok s name w : guild_ok w -> is_Some (FindPlayer s w) -> safe guild_ok (HandleSetLeader s name w).
Proof.
  intros Hw [p Hp]. unfold HandleSetLeader, GetPlayer. rewrite Hp. cbn [bind_result]. destruct (negb _); [by apply guild_ok_emit|].
  destruct (GetMember s (guild w)), (GetMember_name name (guild w)) as [[low n]|]; try done. cbv zeta. by apply guild_ok_emit, ChangeRank_ok, _SetLeaderGUID_ok.
Qed.
Lemma HandleSetMemberNote_ok E s name note pub w : guild_ok w -> guild_ok (HandleSetMemberNote E s name note pub w).
Proof.
  intros Hw. unfold HandleSetMemberNote. destruct (negb _); [by apply guild_ok_emit|].
  destruct (GetMember_name name (guild w)) as [[low m]|] eqn:Em; [|done]. apply (GetMember_name_find _ _ _ _ Hw) in Em as [Em _]. apply guild_ok_emit.
  destruct (mw_key _ (ok_members Hw) _ _ Em) as (_ & _ & Hl).
  destruct pub; [unfold SetPublicNote|unfold SetOfficerNote]; (case_decide; [done|]); apply guild_ok_emit; apply (guild_ok_put low m); try done;
    exact (mw_rank _ (ok_members Hw) _ _ Em).
Qed.
Lemma HandleInviteMember_ok E s name w : guild_ok w -> is_Some (FindPlayer s w) -> safe guild_ok (HandleInviteMember E s name w).
Proof.
  intros Hw [p Hp]. unfold HandleInviteMember, GetPlayer. destruct (FindPlayerByName _ _) as [[g q]|]; [|by apply guild_ok_emit].
  rewrite Hp. cbn [bind_result]. case_bool_decide; [done|].
  do 4 (destruct (_ : bool); [by apply guild_ok_emit|]). cbv zeta.
  set (w1 := on_player _ _ _). assert (guild_ok w1) as H1 by (apply guild_ok_player; [done|by apply guild_ok_emit]).
  apply (ensures_bind _ _ _ _ _ (_LogEvent_logged E _ _ _ _ w1 (ok_logs H1))). intros w2 H2. by apply guild_ok_emit, (logged_ok w1).
Qed.
Lemma HandleAcceptMember_ok E s w : guild_ok w -> is_Some (FindPlayer s w) -> safe guild_ok (HandleAcceptMember E s w).
Proof.
  intros Hw [p Hp]. unfold HandleAcceptMember, GetPlayer. rewrite Hp. cbn [bind_result]. destruct (_ && _); [done|].
  apply (ensures_bind _ (fun x => guild_ok x.2)); [apply AddMember_keeps; [done|by apply (ok_players Hw).(pw_key _) in Hp|done]|]. by intros [b w'].
Qed.

End GuildRules.
