(* ===== verification/GuildBankRules.v ===== *)
(** * GuildBankRules: moves within the bank keep a guild consistent

    The rules for [GuildBank], and that the only fault of a move is that there are no
    more guids for items. *)
From S2P Require Import Prelude OrderedMap Guild GuildBank GuildHandlers GuildRules.
Import Guild GuildBank GuildHandlers GuildRules.
#[global] Open Scope Z_scope.

Module GuildBankRules.

(** The faults of a move. *)
Abbreviation safe_items := (ensures (fun f : fault => f = ItemGuids)).

Lemma safe_items_safe {A} (P : A -> Prop) (m : result fault A) : ensures (fun _ => False) P m -> safe_items P m.
Proof. by destruct m. Qed.

Lemma SetItem_ok tab slot o w : guild_ok w -> guild_ok (SetItem tab slot o w).2.
Proof.
  intros Hw. unfold SetItem. destruct (GetBankTab tab _) as [t|]; [|done]. destruct (_ <=? slot); [done|]. cbv zeta. cbn [snd].
  assert (guild_ok (on_tab tab (set_items (partial_alter (fun _ => o) slot (t_items t)) t) w)) as H by by apply on_tab_ok.
  destruct o; by repeat apply guild_ok_emit.
Qed.
Lemma put_item_ok tab slot it w : guild_ok w -> guild_ok (put_item tab slot it w).
Proof. intros Hw. unfold put_item. destruct (GetBankTab tab _); [by apply on_tab_ok|done]. Qed.
Lemma Item_CloneItem_ok E it count w : guild_ok w -> safe_items (fun x => guild_ok x.2) (Item_CloneItem E it count w).
Proof.
  intros Hw. unfold Item_CloneItem, CreateItem. destruct (count <? 1); [done|]. cbv zeta. destruct (_ <=? hiItemGuid w); [done|].
  assert (guild_ok (set_hiItemGuid (hiItemGuid w + 1) w)) by by destruct Hw. destruct (NewItemCharges E _); done.
Qed.
Lemma _UpdateMemberWithdrawSlots_ok s tab w : guild_ok w -> guild_ok (_UpdateMemberWithdrawSlots s tab w).
Proof.
  intros Hw. unfold _UpdateMemberWithdrawSlots. destruct (GetMember s (guild w)) as [m|] eqn:Em; [|done]. destruct (_ && _); [|done].
  by apply save_withdraw_ok.
Qed.
Lemma RemoveItem_ok player d other n w : guild_ok w -> is_Some (m_pItem d) -> safe_items guild_ok (RemoveItem player d other n w).
Proof.
  intros Hw [it Hit]. unfold RemoveItem. rewrite Hit. cbv zeta. set (w1 := if n =? 0 then _ else _).
  assert (guild_ok w1) by (unfold w1; destruct (n =? 0); [by apply SetItem_ok|by apply guild_ok_emit, put_item_ok]).
  clearbody w1. cbn. destruct (_ =? _); [done|by apply _UpdateMemberWithdrawSlots_ok].
Qed.
Lemma _StoreItem_ok E tab it pos clone w : guild_ok w -> safe_items guild_ok (_StoreItem E tab it pos clone w).
Proof.
  intros Hw. unfold _StoreItem. destruct (_GetItem tab pos.1 _).
  - cbv zeta. cbn. destruct clone; repeat apply guild_ok_emit; by apply put_item_ok.
  - apply (ensures_bind _ (fun x => guild_ok x.2)).
    + destruct clone; [by apply Item_CloneItem_ok|done].
    + intros [[it'|] w']; [by apply SetItem_ok|done].
Qed.
Lemma StoreItem_ok E d it w : guild_ok w -> safe_items guild_ok (StoreItem E d it w).
Proof.
  intros Hw. unfold StoreItem. destruct (GetBankTab _ _); [|done]. revert w Hw. induction (m_vec d) as [|pos vec IH]; intros w Hw; [done|].
  cbn [store_loop]. apply (ensures_bind _ guild_ok); [by apply _StoreItem_ok|]. intros w'. apply IH.
Qed.
Lemma LogBankEvent_ok E s d from n w :
  guild_ok w -> is_Some (m_pItem from) -> 0 <= m_container from -> safe_items guild_ok (LogBankEvent E s d from n w).
Proof.
  intros Hw [it Hit] Hc. unfold LogBankEvent. rewrite Hit. apply safe_items_safe.
  apply (ensures_weaken _ (logged w)); [apply _LogBankEvent_logged; [apply Hw|done]|]. intros w' H'. by apply (logged_ok w).
Qed.
Lemma LogAction_ok s d from w : guild_ok w -> is_Some (m_pItem from) -> safe_items guild_ok (LogAction s d from w).
Proof. intros Hw [it Hit]. unfold LogAction. rewrite Hit. by apply guild_ok_emit. Qed.
Lemma CanStore_frame E s d it swap send w ok d' w' :
  CanStore E s d it swap send w = (ok, d', w') ->
  m_container d' = m_container d /\ m_slotId d' = m_slotId d /\ m_pItem d' = m_pItem d /\ m_pClonedItem d' = m_pClonedItem d /\
  exists es, w' = emit es w /\ Forall (fun e => exists msg, e = SendEquipError s msg) es.
Proof.
  unfold CanStore. destruct (CanStore_bank _ _ _ _ _) as [msg vec]. intros [= <- <- <-]. split_and!; [done..|].
  destruct (send && _); [exists [SendEquipError s msg]|exists []]; (split; [|repeat constructor; by eexists]); [done|].
  unfold emit. rewrite app_nil_r. by destruct w.
Qed.

Definition bank_side (d : MoveItemData) : Prop := 0 <= m_container d.
Lemma _DoItemsMove_ok E s src dst send n w :
  guild_ok w -> bank_side src -> bank_side dst -> is_Some (m_pItem src) -> (n <> 0 -> is_Some (m_pClonedItem src)) ->
  safe_items (fun x => guild_ok x.2 /\ bank_side x.1.2) (_DoItemsMove E s src dst send n w).
Proof.
  intros Hw Hs Hd Hsrc Hn. unfold _DoItemsMove. cbv zeta.
  destruct (if n =? 0 then _ else _) as [it|] eqn:Eit.
  2:{ destruct (Z.eqb_spec n 0); [rewrite Eit in Hsrc; by destruct Hsrc|]. rewrite Eit in Hn. by destruct Hn. }
  destruct (CanStore E s dst it _ send w) as [[ok dst'] w1] eqn:E1.
  apply CanStore_frame in E1 as (F1 & F2 & F3 & F4 & es & -> & _). assert (guild_ok (emit es w)) as H1 by by apply guild_ok_emit.
  set (w1 := emit es w) in *. destruct ok; [|split; [done|unfold bank_side in *; cbn; by rewrite F1]]. cbn [negb].
  destruct (match m_pItem dst with Some _ => _ | None => _ end) as [[ok src'] w2] eqn:E2.
  assert (m_container src' = m_container src /\ m_pItem src' = m_pItem src /\ guild_ok w2) as (G1 & G3 & H2).
  { destruct (m_pItem dst); [|by injection E2 as <- <- <-]. apply CanStore_frame in E2 as (? & ? & ? & ? & es' & -> & _).
    split_and!; [done..|by apply guild_ok_emit]. }
  assert (bank_side dst') as Hd' by (unfold bank_side; by rewrite F1). destruct ok; [|done]. cbn [negb]. unfold bank_side in *.
  assert (is_Some (m_pItem src')) as Hi by by rewrite G3.
  apply (ensures_bind _ guild_ok); [by apply LogAction_ok|]. intros w3 H3.
  apply (ensures_bind _ guild_ok); [case_bool_decide as Hb; [apply LogAction_ok; [done|by rewrite F3]|done]|]. intros w4 H4.
  apply (ensures_bind _ guild_ok); [apply LogBankEvent_ok; [done|done|lia]|]. intros w5 H5.
  apply (ensures_bind _ guild_ok).
  { destruct (m_pItem dst) as [dit|] eqn:Ed; [apply LogBankEvent_ok; [done|by rewrite F3|lia]|done]. } intros w6 H6.
  apply (ensures_bind _ guild_ok); [by apply RemoveItem_ok|]. intros w7 H7.
  apply (ensures_bind _ guild_ok); [case_bool_decide as Hb; [apply RemoveItem_ok; [done|by rewrite F3]|done]|]. intros w8 H8.
  apply (ensures_bind _ guild_ok); [by apply StoreItem_ok|]. intros w9 H9.
  apply (ensures_bind _ guild_ok); [destruct (m_pItem dst); [by apply StoreItem_ok|done]|]. done.
Qed.
Lemma _SendBankContentUpdate_ok a b w : guild_ok w -> guild_ok (_SendBankContentUpdate a b w).
Proof. intros Hw. unfold _SendBankContentUpdate, send_slots, _SendBankList. case_match; by repeat apply guild_ok_emit. Qed.
Lemma SwapItems_ok E s tab slot dtab dslot n w :
  guild_ok w -> 0 <= tab -> 0 <= dtab -> safe_items guild_ok (SwapItems E s tab slot dtab dslot n w).
Proof.
  intros Hw Ht Hdt. unfold SwapItems. cbv zeta. destruct (_ || _ || _ || _); [done|]. destruct (_ && _); [done|]. unfold _MoveItems. cbv zeta.
  set (src := InitItem _ w). set (dst := BankMoveItemData dtab dslot). assert (bank_side src /\ bank_side dst) as [Hs Hd] by done.
  destruct (m_pItem src) as [it|] eqn:Es; [|done]. destruct (CheckItem n it) as [n'|]; [|done]. destruct (negb _); [done|]. destruct (negb _); [done|].
  assert (is_Some (m_pItem src)) as Hi by by rewrite Es.
  destruct (Z.eqb_spec n' 0) as [|Hn]; cbn [negb].
  - eapply ensures_bind; [by apply _DoItemsMove_ok|]. intros [[moved dst'] w1] [H1 Hd1]. cbn [fst snd] in H1, Hd1.
    destruct moved; [by apply _SendBankContentUpdate_ok|]. case_bool_decide; [done|]. destruct (negb _); [done|]. destruct (negb _); [done|].
    eapply ensures_bind; [by apply _DoItemsMove_ok|]. intros [[b d] w2] [H2 _]. by apply _SendBankContentUpdate_ok.
  - eapply ensures_bind; [by apply Item_CloneItem_ok|]. intros [[copy|] w1] H1; [|by apply guild_ok_emit].
    eapply ensures_bind; [apply _DoItemsMove_ok; try done; by eexists|]. intros [[b d] w2] [H2 _]. by apply _SendBankContentUpdate_ok.
Qed.

End GuildBankRules.
