(* ===== verification/GuildStart.v ===== *)
(** * GuildStart: founding and loading guilds

    What [Create] makes of a founder, and what [Validate] makes of the rows of the
    database, is a guild with the invariant of [GuildRules]. *)
From S2P Require Import Prelude OrderedMap Util Guild GuildBank GuildHandlers GuildRules.
From Stdlib Require Import Sorting.Sorted.
Import Guild GuildBank GuildHandlers GuildRules.
#[global] Open Scope Z_scope.

Module GuildStart.

(** ** An example: three players, the first of whom founds a guild with the second *)
Definition E0 : Env :=
  mkEnv 1000 100 25 true false (fun _ => 0) (fun _ => None) (fun _ => 0) (fun _ => 1) (fun _ => 0) (fun i _ => [i]) (fun _ => 20) (fun _ => Some 0) (fun t => t) 0 [].
Definition ann : Player := mkPlayer [65; 110; 110] 10 1 1 1 0 0 [] 500000 0 0 0.
Definition bob : Player := mkPlayer [66; 111; 98] 10 1 1 2 0 0 [] 500000 0 0 0.
Definition cyd : Player := mkPlayer [67; 121; 100] 10 1 1 3 0 0 [] 500000 0 0 0.
Definition no_guild : Guild := mkGuild 0 [] 0 [] [] 0 no_emblem 0 0 [] [] [] (new_log 0) [].
Definition ex0 : World := mkWorld no_guild [(1, ann); (2, bob); (3, cyd)] [] 7 50 [].
Definition or_else {A} (d : A) (m : result fault A) : A := match m with Ok a => a | Throw _ => d end.
Definition ex_founded : World := AddGuild (or_else (false, ex0) (Create E0 1 0 [71] ex0)).2.
Definition ex : World := (or_else (false, ex0) (AddMember E0 2 GUILD_RANK_NONE ex_founded)).2.
(** Three rows of members, none of whom is the leader that the row of the guild names. *)
Definition ex_loaded : World :=
  let m low rank w := (LoadMemberFromDB E0 low rank [] [] (replicate 7 0) [65 + low] 10 1 1 low 0 w).2 in
  m 13 0 (m 12 9 (m 11 0 (LoadRankFromDB 0 [65] 0 0
    (mkWorld (LoadFromDB E0 7 [71] 10 0 0 0 0 0 [] [] 0 0 0) [] [(7, [71])] 8 50 [])))).

Lemma ex0_players : players_wf (players ex0).
Proof.
  constructor; [repeat constructor|]. intros guid p Hp. cbn [players ex0 map_find] in Hp.
  destruct (Z.eqb_spec guid 1) as [->|]; [done|]. destruct (Z.eqb_spec guid 2) as [->|]; [done|]. by destruct (Z.eqb_spec guid 3) as [->|].
Qed.
Lemma ex0_fresh g q : FindPlayer g ex0 = Some q -> p_guildId q <> NextGuildId ex0.
Proof. unfold FindPlayer. cbn [players ex0 map_find]. by repeat (destruct (_ =? _); [by intros [= <-]|]). Qed.

(** ** Founding a guild *)
Lemma _CreateRank_spec name rights w :
  (length (m_ranks (guild w)) < 10)%nat ->
  let w' := (_CreateRank name rights w).2 in
  guild w' = set_ranks (m_ranks (guild w) ++ [new_rank (size (m_ranks (guild w))) name rights 0]) (guild w) /\
  players w' = players w /\ GuildStore w' = GuildStore w.
Proof.
  intros Hn. assert (_GetRanksSize (guild w) = size (m_ranks (guild w))) as Es by (apply wrap_id; unfold size; width).
  unfold _CreateRank. rewrite Es. destruct (Z.leb_spec GUILD_RANKS_MAX_COUNT (size (m_ranks (guild w)))) as [Hm|_]; [unfold size, GUILD_RANKS_MAX_COUNT in Hm; lia|].
  cbv zeta. by destruct (CreateMissingTabsIfNeeded _ _ _).
Qed.
Lemma set_ranks_set_ranks l l' g : set_ranks l (set_ranks l' g) = set_ranks l g.
Proof. done. Qed.

Lemma create_ranks_spec l w :
  (length (m_ranks (guild w)) + length l <= 10)%nat ->
  let w' := fold_left (fun w nr => (_CreateRank nr.1 nr.2 w).2) l w in
  guild w' = set_ranks (fold_left (fun acc nr => acc ++ [new_rank (size acc) nr.1 nr.2 0]) l (m_ranks (guild w))) (guild w) /\
  players w' = players w /\ GuildStore w' = GuildStore w.
Proof.
  revert w. induction l as [|[name rights] l IH]; intros w Hl; cbn in *; [by destruct (guild w)|].
  destruct (_CreateRank_spec name rights w) as (E1 & E2 & E3); [lia|]. set (w1 := (_CreateRank name rights w).2) in *.
  destruct (IH w1) as (F1 & F2 & F3); [rewrite E1; cbn; rewrite length_app; cbn; lia|]. rewrite F1, F2, F3, E1, E2, E3. done.
Qed.
Definition default_ranks (E : Env) (loc : Z) : list (list Z * Z) :=
  let name i := GetTrinityString E (LANG_GUILD_MASTER + i) loc in
  let chat := Z.lor GR_RIGHT_GCHATLISTEN GR_RIGHT_GCHATSPEAK in
  [(name 0, GR_RIGHT_ALL); (name 1, GR_RIGHT_ALL); (name 2, chat); (name 3, chat); (name 4, chat)].
Lemma _CreateDefaultGuildRanks_fold E loc w :
  _CreateDefaultGuildRanks E loc w =
    fold_left (fun w nr => (_CreateRank nr.1 nr.2 w).2) (default_ranks E loc)
      (emit [Execute CHAR_DEL_GUILD_RANKS [U32 (m_id (guild w))]; Execute CHAR_DEL_GUILD_BANK_RIGHTS [U32 (m_id (guild w))]] w).
Proof. unfold default_ranks. cbn [fold_left fst snd]. reflexivity. Qed.
Lemma _CreateDefaultGuildRanks_spec E loc w :
  m_ranks (guild w) = [] ->
  exists l, ranks_wf l /\ guild (_CreateDefaultGuildRanks E loc w) = set_ranks l (guild w) /\
    players (_CreateDefaultGuildRanks E loc w) = players w /\ GuildStore (_CreateDefaultGuildRanks E loc w) = GuildStore w.
Proof.
  intros H0. rewrite _CreateDefaultGuildRanks_fold. set (w0 := emit _ w).
  assert (m_ranks (guild w0) = []) as Hr by done. destruct (create_ranks_spec (default_ranks E loc) w0) as (F1 & F2 & F3); [rewrite Hr; cbn; lia|].
  rewrite F1, F2, F3, Hr. eexists. split_and!; [|done..]. constructor; [cbn; lia| |].
  - intros i r Hi. do 5 (destruct i as [|i]; [injection Hi as <-; done|]). by destruct i.
  - intros r [= <-]. done.
Qed.

(** Who is in the world and in no guild becomes a member. *)
Definition joined (guid rank : Z) (w w' : World) : Prop :=
  exists m p', m_members (guild w') = map_set guid m (m_members (guild w)) /\ m_rankId m = rank /\
    players w' = map_set guid p' (players w) /\ p_guildId p' = m_id (guild w) /\
    m_leaderGuid (guild w') = m_leaderGuid (guild w) /\ m_id (guild w') = m_id (guild w) /\ GuildStore w' = GuildStore w.
Lemma strip_fields w w' : strip w' = strip w ->
  m_id (guild w') = m_id (guild w) /\ m_leaderGuid (guild w') = m_leaderGuid (guild w) /\ m_members (guild w') = m_members (guild w) /\
  players w' = players w /\ GuildStore w' = GuildStore w.
Proof. intros E. injection E as ?????. done. Qed.

Lemma joined_strip guid rank w w1 w2 : strip w2 = strip w1 -> joined guid rank w w1 -> joined guid rank w w2.
Proof.
  intros (E1 & E2 & E3 & E4 & E5)%strip_fields (m & p & H). exists m, p. by rewrite E1, E2, E3, E4, E5.
Qed.
Lemma joined_update guid rank f w w1 :
  (forall m, m_rankId (f m) = m_rankId m) -> joined guid rank w w1 -> joined guid rank w (update_member guid f w1).
Proof.
  intros Hf (m & p & Em & Er & H). unfold update_member. rewrite Em, map_find_set. exists (f m), p. rewrite Hf. split_and!; try apply H; try done.
  cbn. by rewrite Em, map_set_set.
Qed.
Lemma AddMember_joins E guid r w p :
  logs_wf (guild w) -> in_u 32 guid -> FindPlayer guid w = Some p -> p_guildId p = 0 ->
  exists w', AddMember E guid r w = Ok (true, w') /\ joined guid (if r =? GUILD_RANK_NONE then _GetLowestRankId (guild w) else r) w w'.
Proof.
  intros Hl Hg Hp H0. unfold AddMember. rewrite low_id, Hp, H0 by done. cbn [Z.eqb negb]. cbv zeta. set (rk := if r =? _ then _ else _).
  set (w1 := put_member guid _ _). set (f := fun p : Player => SetRank rk _). set (w2 := on_player guid f w1). set (w3 := update_member guid _ w2).
  assert (joined guid rk w w2) as J2.
  { destruct (guild_on_player guid f w1) as [G1 G2]. fold w2 in G1, G2. exists (new_member E guid rk), (f p). rewrite G1, G2. split_and!; try done.
    unfold w2, on_player. change (FindPlayer guid w1) with (FindPlayer guid w). by rewrite Hp. }
  assert (joined guid rk w w3) as J3 by by apply joined_update.
  assert (logs_wf (guild w3)) as L3.
  { unfold w3, update_member. destruct (map_find guid _); cbn; unfold w2; by rewrite (proj1 (guild_on_player _ _ _)). }
  unfold SendLoginInfo, GetPlayer. cbv zeta. set (w4 := SendBankTabsInfo _ _ _). assert (joined guid rk w w4) as (m & p' & _ & _ & Ep & _) by done.
  unfold FindPlayer. rewrite Ep, map_find_set. cbn [bind_result]. set (w5 := _BroadcastEvent _ _ _ _). rewrite low_id by done. set (w6 := update_member guid _ w5).
  assert (joined guid rk w w6) as J6 by by apply joined_update.
  assert (logs_wf (guild w6)) as L6 by (unfold w6, update_member; destruct (map_find guid _); apply L3).
  unfold added. cbv zeta. set (w7 := _UpdateAccountsNumber _). assert (joined guid rk w w7) as J7 by done.
  pose proof (_LogEvent_logged E GUILD_EVENT_LOG_JOIN_GUILD (GUID_LOPART guid) 0 0 w7 L6) as HL.
  destruct (_LogEvent _ _ _ _ _ _) as [w8|]; [|done]. destruct HL as [HL _]. cbn [bind_result]. eexists. split; [done|].
  by apply (joined_strip guid rk w w8), (joined_strip guid rk w w7).
Qed.

Lemma new_log_wf n : 0 < n -> log_wf (new_log n).
Proof. intros H. split; [done|]. unfold size. cbn. lia. Qed.

(** A player in no guild founds one with a new name: it gets the next id, consistent
    ranks and logs, and the founder as its leader, guild master and only member. *)
Lemma Create_founds E leader loc name w p :
  players_wf (players w) -> FindPlayer leader w = Some p -> p_guildId p = 0 -> GetGuildByName name (GuildStore w) = None ->
  0 < NextGuildId w -> (forall g q, FindPlayer g w = Some q -> p_guildId q <> NextGuildId w) ->
  0 < CONFIG_GUILD_EVENT_LOG_COUNT E -> 0 < CONFIG_GUILD_BANK_EVENT_LOG_COUNT E ->
  exists w' m p', Create E leader loc name w = Ok (true, w') /\ guild_ok (AddGuild w') /\
    m_id (guild w') = NextGuildId w /\ m_leaderGuid (guild w') = leader /\
    m_members (guild w') = [(leader, m)] /\ m_rankId m = GR_GUILDMASTER /\ players w' = map_set leader p' (players w) /\
    p_guildId p' = NextGuildId w.
Proof.
  intros Hps Hp H0 Hn Hid Hfresh Hc1 Hc2. assert (in_u 32 leader) as Hlead by by apply (pw_key _ Hps leader p).
  unfold Create. rewrite Hn. unfold GenerateGuildId. cbv zeta. set (w1 := if _ <=? NextGuildId w then _ else w).
  assert (NextGuildId w1 = NextGuildId w /\ players w1 = players w) as [N1 P1] by (unfold w1; by destruct (_ <=? _)). rewrite N1.
  set (id := NextGuildId w) in *. set (g := created_guild E id leader name). set (w2 := emit _ _).
  destruct (_CreateDefaultGuildRanks_spec E loc w2 eq_refl) as (l & Hl & G3 & P3 & S3). set (w3 := _CreateDefaultGuildRanks E loc w2) in *. clearbody w3.
  assert (players w3 = players w) as P3' by by rewrite P3.
  assert (guild_ok_at False False w3) as H3.
  { constructor; rewrite ?G3, ?P3'; try done; cbn.
    - apply members_wf_nil.
    - constructor; [by apply new_log_wf|done|by apply Forall_replicate, new_log_wf].
    - lia.
    - intros g' q Hq Hi. destruct (Hfresh g' q Hq Hi). }
  destruct (AddMember_joins E leader GR_GUILDMASTER w3 p) as (w4 & E4 & m & p' & Em & Er & Ep & Ei & El & Eid & Es); [apply H3|done| |done|].
  { unfold FindPlayer. by rewrite P3'. }
  pose proof (AddMember_keeps E leader GR_GUILDMASTER w3 H3 Hlead ltac:(done)) as H4. rewrite E4 in *. cbn [bind_result ensures snd] in *.
  rewrite G3 in Em, Er, El, Eid. cbn in Em, Er, El, Eid. rewrite G3 in Ei. eexists _, m, p'. split; [done|]. cbn [guild emit set_trace players]. split_and!; try done.
  - destruct H4. constructor; cbn; try done.
    + intros _. rewrite El, Em. cbn. rewrite Z.eqb_refl. by eexists.
    + intros _. rewrite map_find_set. by eexists.
  - by rewrite Ep, P3'.
Qed.

(** *** Petitions *)
Definition grows (w w' : World) : Prop :=
  m_leaderGuid (guild w') = m_leaderGuid (guild w) /\ m_id (guild w') = m_id (guild w) /\
  (forall g, is_Some (map_find g (m_members (guild w))) -> is_Some (map_find g (m_members (guild w')))) /\
  (forall g q, FindPlayer g w = Some q -> exists q', FindPlayer g w' = Some q' /\ (p_guildId q' = p_guildId q \/ p_guildId q' = m_id (guild w))).
Lemma grows_strip w w' : strip w' = strip w -> grows w w'.
Proof. intros (E1 & E2 & E3 & E4 & E5)%strip_fields. unfold grows, FindPlayer. rewrite E1, E2, E3, E4. split_and!; eauto. Qed.
Lemma grows_trans w1 w2 w3 : grows w1 w2 -> grows w2 w3 -> grows w1 w3.
Proof.
  intros (A1 & A2 & A3 & A4) (B1 & B2 & B3 & B4). split_and!; [congruence|congruence|auto|]. intros g q Hq.
  destruct (A4 g q Hq) as (q2 & H2 & E2), (B4 g q2) as (q3 & H3 & E3); [done|]. exists q3. split; [done|]. rewrite A2 in E3. destruct E3 as [->|]; auto.
Qed.
Lemma grows_put guid (m : Member) w w' :
  m_leaderGuid (guild w') = m_leaderGuid (guild w) -> m_id (guild w') = m_id (guild w) ->
  m_members (guild w') = map_set guid m (m_members (guild w)) ->
  (forall g q, FindPlayer g w = Some q -> exists q', FindPlayer g w' = Some q' /\ (p_guildId q' = p_guildId q \/ p_guildId q' = m_id (guild w))) ->
  grows w w'.
Proof.
  intros E1 E2 E3 E4. split_and!; [done|done| |done]. intros g [x Hx]. rewrite E3. destruct (decide (g = guid)) as [->|]; [rewrite map_find_set; by eexists|].
  rewrite map_find_set_ne by done. by exists x.
Qed.
Lemma AddMember_grows E guid r w :
  guild_ok w -> in_u 32 guid -> in_u 8 r ->
  exists b w', AddMember E guid r w = Ok (b, w') /\ guild_ok w' /\ grows w w' /\
    forall q, FindPlayer guid w = Some q -> p_guildId q = 0 -> is_Some (map_find guid (m_members (guild w'))).
Proof.
  intros Hw Hg Hr. pose proof (AddMember_keeps E guid r w Hw Hg Hr) as Hok. destruct (FindPlayer guid w) as [p|] eqn:Ep.
  - destruct (decide (p_guildId p = 0)) as [H0|Hn].
    + destruct (AddMember_joins E guid r w p (ok_logs Hw) Hg Ep H0) as (w' & E1 & m & p' & J1 & _ & J3 & J4 & J5 & J6 & _).
      rewrite E1 in *. exists true, w'. split; [done|]. split; [done|]. split; [|intros q _ _; rewrite J1, map_find_set; by eexists].
      apply (grows_put guid m); [done..|]. intros g q Hq. unfold FindPlayer in *. rewrite J3. destruct (decide (g = guid)) as [->|].
      * rewrite map_find_set. exists p'. auto.
      * rewrite map_find_set_ne by done. eauto.
    + assert (AddMember E guid r w = Ok (false, w)) as E1 by (unfold AddMember; rewrite Ep; by destruct (Z.eqb_spec (p_guildId p) 0)).
      exists false, w. split_and!; [done|done|by apply grows_strip|]. intros q [= <-]. done.
  - assert (forall b w', AddMember E guid r w = Ok (b, w') -> grows w w') as Hgrow.
    { unfold AddMember. rewrite Ep. destruct (negb _); [intros b w' [= <- <-]; by apply grows_strip|]. cbv zeta.
      destruct (CharData E _) as [[[[[name level] class] zone] account]|]; [|intros b w' [= <- <-]; by apply grows_strip].
      destruct (CheckStats _); [|intros b w' [= <- <-]; by apply grows_strip]. intros b w'. set (m := SetStats _ _ _ _ _ _). set (w1 := put_member _ m _).
      unfold added. cbv zeta. set (w2 := _UpdateAccountsNumber _).
      pose proof (_LogEvent_logged E GUILD_EVENT_LOG_JOIN_GUILD (GUID_LOPART guid) 0 0 w2 (ok_logs Hw)) as HL.
      destruct (_LogEvent _ _ _ _ _ w2) as [w3|]; [|done]. destruct HL as [HL _]. intros [= <- <-].
      apply (grows_trans w w2), grows_strip, HL. apply (grows_put (GUID_LOPART guid) m); [done..|]. intros g q Hq. exists q. auto. }
    destruct (AddMember E guid r w) as [[b w']|]; [|done]. exists b, w'. split_and!; [done|done|by apply (Hgrow b)|done].
Qed.
Lemma add_signers_grows E l w :
  guild_ok w -> Forall (in_u 32) l ->
  exists w', add_signers E l w = Ok w' /\ guild_ok w' /\ grows w w' /\
    forall g q, g ∈ l -> FindPlayer g w = Some q -> p_guildId q = 0 -> is_Some (map_find g (m_members (guild w'))).
Proof.
  intros Hw Hl. revert w Hw. induction Hl as [|guid l Hg Hl IH]; intros w Hw; cbn [add_signers].
  { exists w. split_and!; [done|done|by apply grows_strip|]. intros g q Hg. by apply not_elem_of_nil in Hg. }
  destruct (AddMember_grows E guid GUILD_RANK_NONE w Hw Hg) as (b & w1 & -> & H1 & G1 & J1); [done|]. cbn [bind_result].
  destruct (IH w1 H1) as (w' & -> & H2 & G2 & J2). exists w'. split_and!; [done|done|by apply (grows_trans w w1)|].
  intros g q Hin Hq H0. apply elem_of_cons in Hin as [->|Hin]; [apply G2; by apply (J1 q)|].
  destruct G1 as (_ & Ei & _ & Hpl). destruct (Hpl g q Hq) as (q' & Hq' & [Eq|Eq]); [apply (J2 g q' Hin Hq'); congruence|].
  apply G2. apply (ok_marks H1 g q' Hq'). congruence.
Qed.

(** C27: turning in a petition with enough signatures founds the guild: it has the next id
    and is consistent, the owner of the petition leads it, and every signer who is in the
    world without a guild is a member. *)
Theorem petition_founds E s loc petition name signed N w p :
  players_wf (players w) -> FindPlayer s w = Some p -> p_guildId p = 0 -> GetGuildByName name (GuildStore w) = None ->
  0 < NextGuildId w -> (forall g q, FindPlayer g w = Some q -> p_guildId q <> NextGuildId w) ->
  0 < CONFIG_GUILD_EVENT_LOG_COUNT E -> 0 < CONFIG_GUILD_BANK_EVENT_LOG_COUNT E ->
  Forall (in_u 32) signed -> N <= u8 (size signed) ->
  exists w', HandleTurnInPetitionOpcode E s loc petition true (Some (GUID_LOPART s, name)) signed N w = Ok w' /\ guild_ok w' /\
    m_leaderGuid (guild w') = s /\ m_id (guild w') = NextGuildId w /\ is_Some (map_find s (m_members (guild w'))) /\
    forall g q, g ∈ take (Z.to_nat (u8 (size signed))) signed -> FindPlayer g w = Some q -> p_guildId q = 0 ->
      is_Some (map_find g (m_members (guild w'))).
Proof.
  intros Hps Hp H0 Hn Hid Hfresh Hc1 Hc2 Hl HN. set (w0 := emit [DestroyItem s petition] w).
  destruct (Create_founds E s loc name w0 p) as (w1 & m & p' & E1 & H1 & I1 & L1 & M1 & _ & P1 & Ip); [done..|].
  unfold HandleTurnInPetitionOpcode. rewrite Hp, Z.eqb_refl, H0, Hn. cbn [negb orb Z.eqb]. rewrite bool_decide_false by (by intros []).
  destruct (Z.ltb_spec (u8 (size signed)) N); [lia|]. fold w0. rewrite E1. cbn [bind_result negb].
  set (w2 := SendCommandResult _ _ _ _ _). assert (guild_ok w2) as H2 by by apply guild_ok_emit.
  destruct (add_signers_grows E (take (Z.to_nat (u8 (size signed))) signed) w2 H2 ltac:(by apply Forall_take)) as (w3 & -> & H3 & (A1 & A2 & A3 & _) & J3).
  cbn [bind_result]. eexists. split; [done|]. split; [by repeat apply guild_ok_emit|]. change (guild (turn_in_result _ _ (emit _ w3))) with (guild w3).
  rewrite A1, A2. change (guild w2) with (guild w1) in *. split_and!; [done|done|apply A3; rewrite M1; cbn; rewrite Z.eqb_refl; by eexists|].
  intros g q Hg Hq Hq0. destruct (decide (g = s)) as [->|Hne]; [apply A3; rewrite M1; cbn; rewrite Z.eqb_refl; by eexists|].
  apply (J3 g q Hg); [|done]. unfold FindPlayer in *. change (players w2) with (players w1). by rewrite P1, map_find_set_ne.
Qed.

(** ** Loading *)

(** What the rows of one guild can make of it. The keys of the tables are unique; the
    number of a tab is below 128. *)
Inductive loading (E : Env) : World -> Prop :=
| load_guild id name leader style color borderStyle borderColor backgroundColor info motd createdate bankMoney tabs store next items tr :
    0 < id -> in_u 32 leader -> is_Some (map_find id store) ->
    0 < CONFIG_GUILD_EVENT_LOG_COUNT E -> 0 < CONFIG_GUILD_BANK_EVENT_LOG_COUNT E ->
    loading E (mkWorld (LoadFromDB E id name leader style color borderStyle borderColor backgroundColor info motd createdate bankMoney tabs)
                 [] store next items tr)
| load_rank w rid rname rights money :
    loading E w -> in_u 8 rid -> rid ∉ map r_rankId (m_ranks (guild w)) -> loading E (LoadRankFromDB rid rname rights money w)
| load_member w lowguid rank pnote offnote withdraw name level class zone account logout :
    loading E w -> in_u 32 lowguid -> in_u 8 rank -> length withdraw = 7%nat ->
    loading E (LoadMemberFromDB E lowguid rank pnote offnote withdraw name level class zone account logout w).2
| load_right w w' tab rid gbright slotPerDay :
    loading E w -> 0 <= tab < 128 -> LoadBankRightFromDB tab rid gbright slotPerDay w = Ok w' -> loading E w'
| load_event w e : loading E w -> loading E (LoadEventLogFromDB e w).2
| load_bank_event w b w' dbTabId guid eventType playerGuid itemOrMoney stack dest timestamp :
    loading E w -> LoadBankEventLogFromDB dbTabId guid eventType playerGuid itemOrMoney stack dest timestamp w = Ok (b, w') -> loading E w'
| load_tab w tab name icon text : loading E w -> loading E (LoadBankTabFromDB tab name icon text w)
| load_item w tab slot known item : loading E w -> loading E (LoadBankItemFromDB tab slot known item w).2.

Record loaded (w : World) : Prop := {
  ld_members : members_wf (m_members (guild w));
  ld_ranks : Forall (fun r => in_u 8 (r_rankId r) /\ length (r_tabs r) = 6%nat /\
                      (r_rankId r = GR_GUILDMASTER -> Z.land (r_rights r) GR_RIGHT_ALL = GR_RIGHT_ALL)) (m_ranks (guild w));
  ld_ids : NoDup (map r_rankId (m_ranks (guild w)));
  ld_logs : logs_wf (guild w);
  ld_tabs : (length (m_bankTabs (guild w)) <= 6)%nat;
  ld_players : players w = [];
  ld_leader : in_u 32 (m_leaderGuid (guild w));
  ld_id : 0 < m_id (guild w);
  ld_registered : is_Some (map_find (m_id (guild w)) (GuildStore w))
}.

Lemma log_wf_load e l : log_wf l -> CanInsert l = true -> log_wf (LoadEvent e l).
Proof. intros [H1 H2] Hc%Z.ltb_lt. split; [done|]. unfold size in *. cbn [m_log m_maxRecords LoadEvent length] in *. lia. Qed.
Lemma loaded_ranks_like w l : Forall2 rank_like (m_ranks (guild w)) l -> loaded w -> loaded (on_this (set_ranks l) w).
Proof.
  intros HF []. constructor; try done; cbn.
  - apply Forall_lookup. intros i r' Hr'. destruct (Forall2_lookup_r _ _ _ _ _ HF Hr') as (r & Hr & E1 & E2 & E3).
    destruct (Forall_lookup_1 _ _ _ _ ld_ranks0 Hr) as (F1 & F2 & F3). rewrite E1, E2. auto.
  - assert (map r_rankId l = map r_rankId (m_ranks (guild w))) as ->; [|done].
    symmetry. clear -HF. induction HF as [|r r' l l' (E & _) HF IH]; [done|]. cbn. by rewrite E, IH.
Qed.
Lemma loading_loaded E w : loading E w -> loaded w.
Proof.
  induction 1 as [|w rid rname rights money _ [] Hr Hn|w lowguid rank pnote offnote withdraw name level class zone account logout _ [] Hl Hk Hw
    |w w' tab rid gbright slotPerDay _ IH Ht HL|w e _ []|w b w' dbTabId guid eventType playerGuid itemOrMoney stack dest timestamp _ [] HL|w tab name icon text _ []|w tab slot known item _ []].
  - constructor; try done; cbn; [apply members_wf_nil|constructor| |].
    + constructor; [by apply new_log_wf|done|by apply Forall_replicate, new_log_wf].
    + rewrite length_map, length_seqZ. case_match eqn:Ec; [unfold GUILD_BANK_MAX_TABS; lia|apply Z.ltb_ge in Ec; unfold GUILD_BANK_MAX_TABS in Ec; lia].
  - constructor; try done; cbn.
    + apply Forall_app. split; [done|]. constructor; [|constructor]. split_and!; [done|done|]. cbn. intros ->. cbn.
      rewrite Z.land_lor_distr_l, Z.land_diag. change (Z.lor (Z.land rights GR_RIGHT_ALL) GR_RIGHT_ALL = GR_RIGHT_ALL).
      apply Z.bits_inj'. intros n _. rewrite Z.lor_spec, Z.land_spec. by destruct (Z.testbit rights n), (Z.testbit GR_RIGHT_ALL n).
    + rewrite map_app. apply NoDup_app. split_and!; [done| |constructor; [by apply not_elem_of_nil|constructor]].
      intros x Hx ->%list_elem_of_singleton. done.
  - unfold LoadMemberFromDB. destruct (Member_LoadFromDB _ _ _ _ _ _ _ _ _ _ (new_member E lowguid rank)) as [m|] eqn:Em; [|by constructor].
    assert (m_guid m = lowguid /\ length (m_bankWithdraw m) = 7%nat /\ m_rankId m = rank) as (E1 & E2 & E3).
    { unfold Member_LoadFromDB in Em. cbv zeta in Em. destruct (CheckStats _); [|done]. injection Em as <-.
      case_match; cbn; by rewrite length_map. }
    constructor; try done; cbn. apply members_wf_set; congruence.
  - unfold LoadBankRightFromDB, _SetRankBankTabRightsAndSlots in HL. destruct (_ <=? _) eqn:Et; [by injection HL as <-|].
    destruct (GetRankInfo rid (guild w)) as [r|] eqn:Er; [|by injection HL as <-].
    set (rs := mkRights tab gbright slotPerDay) in *. assert (GetTabId rs = tab) as Eg by (apply swrap_id; [lia|]; cbn; width).
    pose proof (SetBankTabSlotsAndRights_like (m_id (guild w)) false rs r) as HS. destruct (SetBankTabSlotsAndRights _ _ _ _) as [[r' es]|]; [|done].
    injection HL as <-. apply (loaded_ranks_like w (<[Z.to_nat rid := r']> (m_ranks (guild w)))) in IH; [by destruct IH|].
    apply (Forall2_like_insert _ r); [by apply GetRankInfo_lookup|]. apply HS. rewrite Eg. apply Z.leb_gt in Et.
    rewrite Eg in Et. unfold _GetPurchasedTabsSize in Et. pose proof (ld_tabs _ IH). unfold size in Et. rewrite wrap_id in Et by width.
    unfold GUILD_BANK_MAX_TABS. lia.
  - unfold LoadEventLogFromDB. destruct (CanInsert _) eqn:Ec; [|by constructor]. constructor; try done; cbn.
    destruct ld_logs0. constructor; try done. by apply log_wf_load.
  - unfold LoadBankEventLogFromDB in HL. destruct (_ || _); [|by injection HL as <- <-; constructor].
    destruct (m_bankEventLog (guild w) !! _) as [pLog|] eqn:Ep; [|done]. destruct (CanInsert pLog) eqn:Ec; [|by injection HL as <- <-; constructor].
    destruct (negb _); injection HL as <- <-; constructor; try done; cbn. destruct ld_logs0. constructor; [done|by rewrite length_insert|].
    apply Forall_insert; [done|]. apply log_wf_load; [|done]. by apply (Forall_lookup_1 _ _ _ _ lw_each0 Ep).
  - unfold LoadBankTabFromDB. destruct (_ <=? tab); [by constructor|]. destruct (_ !! _); constructor; try done. cbn. by rewrite length_insert.
  - unfold LoadBankItemFromDB, LoadItemFromDB, put_item. destruct (_ <=? tab); [by constructor|]. destruct (_ <=? slot); [by constructor|].
    destruct (negb known); [by constructor|]. destruct item as [it|]; [|by constructor].
    cbn [snd]. destruct (GetBankTab tab _); constructor; try done. cbn. by rewrite length_insert.
Qed.

(** ** Start-up repairs *)
Lemma loaded_ranks_bound w : loaded w -> (length (m_ranks (guild w)) <= 256)%nat.
Proof.
  intros Hw. rewrite <- (length_map r_rankId). change 256%nat with (length (seqZ 0 256)). apply submseteq_length, NoDup_submseteq; [apply Hw|].
  intros x Hx. rewrite elem_of_seqZ. apply list_elem_of_fmap in Hx as (r & -> & Hr).
  destruct (proj1 (Forall_forall _ _) (ld_ranks _ Hw) r Hr) as (Hi & _). width.
Qed.

Lemma check_ranks_spec id tabs k l :
  let '(broken, l', _) := check_ranks id tabs k l in
  Forall2 rank_like l l' /\ (broken = false -> forall i r, l !! i = Some r -> r_rankId r = k + Z.of_nat i).
Proof.
  revert k. induction l as [|r l IH]; intros k; cbn; [split; [constructor|done]|]. specialize (IH (k + 1)).
  destruct (check_ranks _ _ _ l) as [[broken l'] es']. destruct IH as [IH1 IH2]. destruct (Z.eqb_spec (r_rankId r) k) as [Hk|Hk].
  - pose proof (CreateMissingTabsIfNeeded_like id tabs r) as Hr. destruct (CreateMissingTabsIfNeeded _ _ _) as [r' es].
    split; [by constructor|]. intros Hb [|i] q Hq; [injection Hq as <-; lia|]. rewrite (IH2 Hb i q Hq). lia.
  - split; [|done]. by constructor.
Qed.

(** After the ranks are checked they are a sequence; the rest is as before. *)
Lemma validate_ranks_ok E w :
  loaded w ->
  exists l, ranks_wf l /\ guild (validate_ranks E w) = set_ranks l (guild w) /\ players (validate_ranks E w) = players w /\
    GuildStore (validate_ranks E w) = GuildStore w.
Proof.
  intros Hw. assert (forall w0, guild w0 = guild w -> players w0 = players w -> GuildStore w0 = GuildStore w -> exists l, ranks_wf l /\
    guild (_CreateDefaultGuildRanks E DEFAULT_LOCALE (on_this (set_ranks []) w0)) = set_ranks l (guild w) /\
    players (_CreateDefaultGuildRanks E DEFAULT_LOCALE (on_this (set_ranks []) w0)) = players w /\
    GuildStore (_CreateDefaultGuildRanks E DEFAULT_LOCALE (on_this (set_ranks []) w0)) = GuildStore w) as Hdef.
  { intros w0 G P S. destruct (_CreateDefaultGuildRanks_spec E DEFAULT_LOCALE (on_this (set_ranks []) w0) eq_refl) as (l & H1 & H2 & H3 & H4).
    exists l. rewrite H2, H3, H4. cbn. by rewrite G, P, S. }
  unfold validate_ranks. cbv zeta. destruct (_ || _) eqn:Eb; [by apply Hdef|].
  apply orb_false_iff in Eb as [E1%Z.ltb_ge E2%Z.ltb_ge]. pose proof (loaded_ranks_bound w Hw) as Hlen.
  assert (5 <= length (m_ranks (guild w)) <= 10)%nat as Hn.
  { unfold _GetRanksSize, size, wrap, GUILD_RANKS_MIN_COUNT, GUILD_RANKS_MAX_COUNT in *. change (2 ^ 8) with 256 in *.
    destruct (decide (length (m_ranks (guild w)) = 256)%nat) as [E3|]; [rewrite E3 in *; done|]. rewrite Z.mod_small in * by lia. lia. }
  pose proof (check_ranks_spec (m_id (guild w)) (_GetPurchasedTabsSize (guild w)) 0 (m_ranks (guild w))) as Hc.
  destruct (check_ranks _ _ _ _) as [[broken l] es]. destruct Hc as [HF Hi]. destruct broken.
  - destruct (_CreateDefaultGuildRanks_spec E DEFAULT_LOCALE (on_this (set_ranks []) (emit es (on_this (set_ranks l) w))) eq_refl) as (l' & H1 & H2 & H3 & H4).
    exists l'. by rewrite H2, H3, H4.
  - exists l. split_and!; try done. specialize (Hi eq_refl).
    apply (ranks_wf_like (m_ranks (guild w))); [done|]. constructor; [done| |].
    + intros i r Hr. rewrite (Hi i r Hr). split; [lia|]. by destruct (Forall_lookup_1 _ _ _ _ (ld_ranks _ Hw) Hr) as (_ & -> & _).
    + intros r Hr. destruct (Forall_lookup_1 _ _ _ _ (ld_ranks _ Hw) Hr) as (_ & _ & Hm). apply Hm. by rewrite (Hi _ _ Hr).
Qed.

Lemma loaded_guild_ok w w' l :
  loaded w -> ranks_wf l -> guild w' = set_ranks l (guild w) -> players w' = players w -> GuildStore w' = GuildStore w -> guild_ok_at False True w'.
Proof.
  intros [] Hl G P S. constructor; rewrite ?G, ?P, ?S, ?ld_players0; try done; cbn.
  constructor; [constructor|done].
Qed.

(** The members with a [bad] rank get the new one. *)
Lemma change_ranks_spec lows bad new w :
  (forall ms g m, bad (set_members ms g) m = bad g m) -> (forall ms g, new (set_members ms g) = new g) ->
  (forall m, bad (guild w) (set_rankId (new (guild w)) m) = false) ->
  let w' := change_ranks lows bad new w in
  (exists ms, guild w' = set_members ms (guild w)) /\
  forall low, map_find low (m_members (guild w')) =
    (fun m => if bool_decide (low ∈ lows) && bad (guild w) m then set_rankId (new (guild w)) m else m) <$> map_find low (m_members (guild w)).
Proof.
  intros Hb Hn Hi. revert w Hi. induction lows as [|low lows IH]; intros w Hi; cbn [change_ranks].
  { split; [exists (m_members (guild w)); by destruct (guild w)|]. intros low. rewrite bool_decide_false by apply not_elem_of_nil. by destruct (map_find low _). }
  set (w1 := match map_find low _ with Some _ => _ | None => w end).
  assert ((exists ms, guild w1 = set_members ms (guild w)) /\ forall j, map_find j (m_members (guild w1)) =
    (fun m => if bool_decide (j = low) && bad (guild w) m then set_rankId (new (guild w)) m else m) <$> map_find j (m_members (guild w))) as [[ms1 G1] F1].
  { assert (exists ms, guild w = set_members ms (guild w)) as Hself by (exists (m_members (guild w)); by destruct (guild w)).
    unfold w1. destruct (map_find low (m_members (guild w))) as [m|] eqn:Em; [destruct (bad (guild w) m) eqn:Ebad|].
    - split; [apply guild_ChangeRank|]. intros j. rewrite members_ChangeRank. case_decide as Ej.
      + subst. rewrite Em, bool_decide_true by done. cbn. by rewrite Ebad.
      + rewrite bool_decide_false by done. by destruct (map_find j _).
    - split; [done|]. intros j. case_bool_decide; [subst; rewrite Em; cbn; by rewrite Ebad|by destruct (map_find j _)].
    - split; [done|]. intros j. case_bool_decide; [subst; by rewrite Em|by destruct (map_find j _)]. }
  destruct (IH w1) as [[ms2 G2] F2].
  { intros m. by rewrite G1, Hb, Hn. }
  split; [exists ms2; by rewrite G2, G1|]. intros j. rewrite F2, F1, G1, <- option_fmap_compose.
  destruct (map_find j (m_members (guild w))) as [m|]; [|done]. cbn [fmap option_fmap option_map compose]. f_equal. rewrite Hb, Hn.
  destruct (decide (j = low)) as [->|Hne].
  - rewrite (bool_decide_true (low = low)), (bool_decide_true (low ∈ low :: lows)) by (done || by left). cbn [andb].
    destruct (bad (guild w) m) eqn:Em; [by rewrite Hi, andb_false_r|by rewrite Em, andb_false_r].
  - rewrite (bool_decide_false (j = low)) by done. cbn [andb]. rewrite (bool_decide_ext (j ∈ low :: lows) (j ∈ lows)); [done|].
    rewrite elem_of_cons. tauto.
Qed.
Lemma change_ranks_ok {led listed} lows bad new w :
  (forall g, in_u 8 (new g)) -> guild_ok_at led listed w -> guild_ok_at led listed (change_ranks lows bad new w).
Proof.
  intros Hn. revert w. induction lows as [|low lows IH]; intros w Hw; [done|]. cbn. apply IH. destruct (map_find low _); [|done].
  destruct (bad _ _); [by apply ChangeRank_ok|done].
Qed.

Definition ranks_exist (g : Guild) : Prop := forall low m, map_find low (m_members g) = Some m -> m_rankId m <= size (m_ranks g).
Definition is_master (low : Z) (g : Guild) : Prop := exists m, map_find low (m_members g) = Some m /\ m_rankId m = GR_GUILDMASTER.

Lemma find_some_key (ms : list (Z * Member)) low m : map_sorted ms -> map_find low ms = Some m -> low ∈ ms.*1.
Proof. intros Hs Hm. apply map_find_elem in Hm; [|done]. change low with ((low, m).1). by apply list_elem_of_fmap_2. Qed.

Lemma members_SetLeaderGUID low m w low' :
  map_find low (m_members (guild w)) = Some m ->
  map_find low' (m_members (guild (_SetLeaderGUID low w))) = (if decide (low' = low) then set_rankId GR_GUILDMASTER else id) <$> map_find low' (m_members (guild w)).
Proof. intros Hm. unfold _SetLeaderGUID. rewrite Hm. cbn [guild emit set_trace]. by rewrite members_ChangeRank. Qed.
Lemma ranks_SetLeaderGUID low w : m_ranks (guild (_SetLeaderGUID low w)) = m_ranks (guild w).
Proof.
  unfold _SetLeaderGUID. destruct (map_find low _) as [m|]; [|done]. cbn [guild emit set_trace].
  by destruct (guild_ChangeRank low GR_GUILDMASTER (on_this (set_leaderGuid (m_guid m)) w)) as [ms ->].
Qed.

Lemma validate_leader_ok w :
  guild_ok_at False True w -> in_u 32 (m_leaderGuid (guild w)) -> ranks_exist (guild w) ->
  safe (fun x : bool * World => if x.1 then guild_ok x.2 /\ ranks_exist (guild x.2) /\ is_master (m_leaderGuid (guild x.2)) (guild x.2) else gone x.2)
    (validate_leader w).
Proof.
  intros Hw Hl Hr. unfold validate_leader, GetMember. rewrite low_id by done. set (leader := m_leaderGuid (guild w)) in *.
  destruct (map_find leader (m_members (guild w))) as [m|] eqn:Em.
  - cbn. unfold IsRank. destruct (Z.eqb_spec (m_rankId m) GR_GUILDMASTER) as [Em0|].
    + split_and!; [|done|by exists m]. destruct Hw. constructor; auto.
    + split_and!.
      * by apply (_SetLeaderGUID_repairs (led := False) leader m).
      * intros low q. rewrite (members_SetLeaderGUID leader m), ranks_SetLeaderGUID by done. destruct (map_find low _) as [n0|] eqn:En; [|done].
        intros [= <-]. case_decide; [cbn; unfold size, GR_GUILDMASTER; lia|by apply (Hr low)].
      * rewrite (_SetLeaderGUID_leader leader m) by (apply Hw || done). exists (set_rankId GR_GUILDMASTER m).
        by rewrite (members_SetLeaderGUID leader m), Em, decide_True.
  - unfold DeleteMember. rewrite Z.eqb_refl, low_id by done. cbn [andb negb]. destruct (successor leader _ None) as [[low m]|] eqn:Es.
    + apply successor_spec in Es as ([[=]|[Hin Hne]] & _ & _). apply map_find_elem in Hin; [|apply Hw]. rewrite Em.
      set (w1 := _SetLeaderGUID low w). set (w2 := on_player _ _ w1).
      assert (guild_ok w2) as H2 by (apply guild_ok_player; [done|by apply (_SetLeaderGUID_repairs (led := False) low m)]).
      destruct (guild_on_player (m_guid m) (SetRank GR_GUILDMASTER) w1) as [G2 _]. fold w2 in G2.
      assert (m_leaderGuid (guild w2) = low) as L2 by (rewrite G2; apply (_SetLeaderGUID_leader low m); [apply Hw|done]).
      assert (guild_ok (remove_member leader false false w2)) as H3 by (apply remove_member_ok; [done|done|congruence]).
      assert (exists n, guild (remove_member leader false false w2) = set_accountsNumber n (set_members (map_erase leader (m_members (guild w2))) (guild w2))) as [n G3].
      { unfold remove_member. rewrite low_id by done. cbn [guild _UpdateAccountsNumber on_this set_guild emit set_trace].
        rewrite !(proj1 (guild_on_player _ _ _)). by eexists. }
      set (w3 := remove_member leader false false w2) in *. clearbody w3. cbn [bind_result]. rewrite decide_False.
      2: { rewrite G3. cbn. intros E0. destruct (ok_leader H3 I) as [x Hx]. rewrite G3 in Hx. cbn in Hx. by rewrite E0 in Hx. }
      cbn. split_and!; [done| |].
      * rewrite G3. intros j q. cbn. rewrite G2. unfold w1. rewrite ranks_SetLeaderGUID. destruct (decide (j = leader)) as [->|]; [by rewrite map_find_erase|].
        rewrite map_find_erase_ne, (members_SetLeaderGUID low m) by done. destruct (map_find j _) as [q0|] eqn:Eq; [|done].
        intros [= <-]. case_decide; [cbn; unfold size, GR_GUILDMASTER; lia|by apply (Hr j)].
      * rewrite G3. cbn. rewrite L2. exists (set_rankId GR_GUILDMASTER m). cbn. rewrite map_find_erase_ne, G2 by done.
        split; [|done]. unfold w1. by rewrite (members_SetLeaderGUID low m), Hin, decide_True.
    + apply successor_spec in Es as [_ Hall]. assert (m_members (guild w) = []) as E0.
      { destruct (m_members (guild w)) as [|[k x] l]; [done|]. apply Forall_cons_1 in Hall as [Hk _]. cbn in Hk. subst k. cbn in Em. by rewrite Z.eqb_refl in Em. }
      pose proof (Disband_gone w (ok_members Hw) (ok_logs Hw)) as H1. destruct (Disband w) as [w1|]; [|done]. cbn [bind_result] in *.
      destruct H1 as (M1 & S1 & L1). rewrite decide_True by done.
      assert (members_wf (m_members (guild w1))) as W1 by (rewrite M1; apply members_wf_nil).
      pose proof (Disband_gone w1 W1 L1) as H2. by destruct (Disband w1).
Qed.

Lemma Validate_ok E w :
  loading E w ->
  exists ok w', Validate E w = Ok (ok, w') /\
    if ok : bool
    then guild_ok w' /\ is_master (m_leaderGuid (guild w')) (guild w') /\ ranks_exist (guild w') /\
         (AllowMultipleGuildMaster E = false ->
          forall low m, map_find low (m_members (guild w')) = Some m -> m_rankId m = GR_GUILDMASTER -> low = m_leaderGuid (guild w'))
    else gone w'.
Proof.
  intros Hld%loading_loaded. destruct (validate_ranks_ok E w Hld) as (l & Hl & G1 & P1 & S1). unfold Validate. cbv zeta.
  set (w1 := validate_ranks E w) in *. clearbody w1. assert (guild_ok_at False True w1) as H1 by by apply (loaded_guild_ok w w1 l).
  assert (_GetRanksSize (guild w1) = size (m_ranks (guild w1))) as Es by (apply _GetRanksSize_ranks, H1).
  pose proof (ok_ranks H1) as [Hn _ _].
  set (bad1 := fun g m => _GetRanksSize g <? m_rankId m). set (w2 := change_ranks _ bad1 _ w1).
  assert (guild_ok_at False True w2) as H2 by (apply change_ranks_ok; [intros g; by apply wrap_range|done]).
  destruct (change_ranks_spec (m_members (guild w1)).*1 bad1 _GetLowestRankId w1) as [[ms2 G2] F2]; [done|done| |].
  { intros m. unfold bad1. rewrite Es. cbn. unfold _GetLowestRankId, size. rewrite wrap_id by width. apply Z.ltb_ge. lia. }
  fold w2 in G2, F2.
  assert (ranks_exist (guild w2)) as R2.
  { intros low m. rewrite F2, G2. cbn. destruct (map_find low (m_members (guild w1))) as [m0|] eqn:Em0; [|done]. intros [= <-].
    rewrite bool_decide_true by (apply (find_some_key _ _ m0); [apply H1|done]). cbn [andb]. unfold bad1. rewrite Es.
    destruct (Z.ltb_spec (size (m_ranks (guild w1))) (m_rankId m0)); [|done]. cbn. unfold _GetLowestRankId, size. rewrite wrap_id by width. lia. }
  assert (in_u 32 (m_leaderGuid (guild w2))) as L2 by (rewrite G2, G1; apply Hld).
  pose proof (validate_leader_ok w2 H2 L2 R2) as H3. destruct (validate_leader w2) as [[[] w3]|]; [|by exists false, w3|done].
  cbn [ensures fst snd bind_result negb] in *. destruct H3 as (H3 & R3 & M3). exists true. eexists. split; [done|].
  set (bad2 := fun g m => IsRank GR_GUILDMASTER m && negb (IsSamePlayer (m_leaderGuid g) m)).
  destruct (AllowMultipleGuildMaster E) eqn:Em; [split_and!; [by apply _UpdateAccountsNumber_ok|done|done|done]|].
  destruct (change_ranks_spec (m_members (guild w3)).*1 bad2 (fun _ => GR_OFFICER) w3) as [[ms4 G4] F4]; [done|done|done|].
  set (w4 := change_ranks _ bad2 _ w3) in *. assert (guild_ok w4) as H4 by by apply change_ranks_ok. clearbody w4.
  split; [by apply _UpdateAccountsNumber_ok|]. cbn [guild _UpdateAccountsNumber on_this set_guild m_leaderGuid set_accountsNumber m_members m_ranks].
  assert (forall low m, map_find low (m_members (guild w4)) = Some m -> exists m0, map_find low (m_members (guild w3)) = Some m0 /\
    m = if IsRank GR_GUILDMASTER m0 && negb (m_leaderGuid (guild w3) =? low) then set_rankId GR_OFFICER m0 else m0) as F4'.
  { intros low m. rewrite F4. destruct (map_find low (m_members (guild w3))) as [m0|] eqn:Em0; [|done]. intros [= <-]. exists m0. split; [done|].
    rewrite bool_decide_true by (apply (find_some_key _ _ m0); [apply H3|done]). unfold bad2, IsSamePlayer.
    destruct (mw_key _ (ok_members H3) _ _ Em0) as [-> _]. cbn [andb]. by rewrite (Z.eqb_sym low). }
  assert (m_leaderGuid (guild w4) = m_leaderGuid (guild w3) /\ m_ranks (guild w4) = m_ranks (guild w3)) as [L4 Rk4] by by rewrite G4.
  split_and!.
  - destruct M3 as (m & Hm & Hr). pose proof (ok_leader H4 I) as [m4 Hm4]. exists m4. split; [done|].
    destruct (F4' _ _ Hm4) as (m0 & Hm0 & ->). rewrite L4 in Hm0. assert (m0 = m) as -> by congruence. by rewrite L4, Z.eqb_refl, andb_false_r.
  - intros low m Hm. cbn in Hm. destruct (F4' _ _ Hm) as (m0 & Hm0 & ->). cbn. rewrite Rk4. pose proof (R3 _ _ Hm0). destruct (_ && _); [|done].
    cbn. pose proof (rw_number _ (ok_ranks H4)) as Hk. rewrite Rk4 in Hk. unfold size, GR_OFFICER. lia.
  - intros _ low m Hm Hr. cbn in Hm. destruct (F4' _ _ Hm) as (m0 & Hm0 & ->). cbn. rewrite L4.
    unfold IsRank in Hr. destruct (Z.eqb_spec (m_rankId m0) GR_GUILDMASTER), (Z.eqb_spec (m_leaderGuid (guild w3)) low); try done.
Qed.

(** After loading, [Validate] either gives a guild up, which has no members then and is
    not registered, or leaves it consistent: the ranks are a sequence, the leader is a
    member and the guild master, the only one unless the configuration allows more, and
    no member is below the last rank by more than one. *)
Theorem Validate_repairs E w :
  loading E w ->
  exists ok w', Validate E w = Ok (ok, w') /\
    if ok : bool
    then guild_ok w' /\ is_master (m_leaderGuid (guild w')) (guild w') /\ ranks_exist (guild w') /\
         (AllowMultipleGuildMaster E = false ->
          forall low m, map_find low (m_members (guild w')) = Some m -> m_rankId m = GR_GUILDMASTER -> low = m_leaderGuid (guild w'))
    else gone w'.
Proof. apply Validate_ok. Qed.

Lemma ex_founded_ok : guild_ok ex_founded.
Proof.
  destruct (Create_founds E0 1 0 [71] ex0 ann ex0_players) as (w & m & p' & E1 & H & _); [done|done|done|done|apply ex0_fresh|done|done|].
  unfold ex_founded. by rewrite E1.
Qed.
Lemma ex_ok : guild_ok ex.
Proof. unfold ex. pose proof (AddMember_keeps E0 2 GUILD_RANK_NONE ex_founded ex_founded_ok ltac:(done) ltac:(done)) as H. destruct (AddMember _ _ _ _) as [[b w]|]; [by apply H|destruct H]. Qed.

Lemma petition_founds_witness :
  exists w', HandleTurnInPetitionOpcode E0 1 0 77 true (Some (1, [71])) [2; 3] 2 ex0 = Ok w' /\ guild_ok w' /\
    m_leaderGuid (guild w') = 1 /\ m_id (guild w') = NextGuildId ex0 /\ is_Some (map_find 1 (m_members (guild w'))) /\
    forall g q, g ∈ take (Z.to_nat (u8 (size [2; 3]))) [2; 3] -> FindPlayer g ex0 = Some q -> p_guildId q = 0 ->
      is_Some (map_find g (m_members (guild w'))).
Proof.
  apply (petition_founds E0 1 0 77 [71] [2; 3] 2 ex0 ann); try done; [apply ex0_players|apply ex0_fresh|].
  by repeat apply Forall_cons_2; [| |apply Forall_nil_2].
Defined.
Lemma Validate_repairs_witness :
  exists ok w', Validate E0 ex_loaded = Ok (ok, w') /\
    if ok : bool
    then guild_ok w' /\ is_master (m_leaderGuid (guild w')) (guild w') /\ ranks_exist (guild w') /\
         (AllowMultipleGuildMaster E0 = false ->
          forall low m, map_find low (m_members (guild w')) = Some m -> m_rankId m = GR_GUILDMASTER -> low = m_leaderGuid (guild w'))
    else gone w'.
Proof.
  apply (Validate_repairs E0 ex_loaded). unfold ex_loaded. cbv zeta. do 3 (apply load_member; [|done..]).
  apply load_rank; [|done|by apply not_elem_of_nil]. apply load_guild; try done.
Defined.

End GuildStart.
