(* ===== verification/GuildReach.v ===== *)
(** * GuildReach: guilds through every sequence of packets

    Every step of [GuildHandlers] keeps the invariant of [GuildRules], or the guild is
    disbanded; the worlds it starts from are those after the founding of a guild and
    those that start-up has loaded and validated. *)
From S2P Require Import Prelude OrderedMap Util Guild GuildBank GuildHandlers GuildRules GuildBankRules GuildStart.
Import Guild GuildBank GuildHandlers GuildRules GuildBankRules GuildStart.
#[global] Open Scope Z_scope.

Module GuildReach.

(** ** Steps that can end the guild *)
Lemma logs_world_ok w : world_ok w -> logs_wf (guild w).
Proof. by intros [[]|(_ & _ & H)]. Qed.
Lemma logged_world w w' : logged w w' -> world_ok w -> world_ok w'.
Proof.
  intros HL [H|(H1 & H2 & H3)]; [left; by apply (logged_ok w)|right]. destruct HL as [E HL]. injection E as E1 E2 E3 E4 E5 E6 E7 E8.
  split_and!; [congruence|by rewrite E1, E8|auto].
Qed.
Lemma world_ok_emit es w : world_ok w -> world_ok (emit es w).
Proof. apply logged_world, logged_emit. Qed.

Lemma HandleLeaveMember_ok E s w : guild_ok w -> is_Some (FindPlayer s w) -> safe world_ok (HandleLeaveMember E s w).
Proof.
  intros Hw [p Hp]. assert (in_u 32 s) as Hs by by apply (pw_key _ (ok_players Hw) s p).
  unfold HandleLeaveMember, GetPlayer. rewrite Hp. cbn [bind_result]. cbv zeta. apply (ensures_bind _ world_ok).
  2: { intros w' Hw'. by apply world_ok_emit. }
  destruct (_IsLeader s (guild w)).
  - destruct (_ <? _)%nat; [left; by apply guild_ok_emit|]. eapply ensures_weaken; [by apply Disband_ok|]. by right.
  - eapply ensures_bind; [by apply DeleteMember_ok|]. intros w1 H1.
    eapply ensures_bind; [apply _LogEvent_logged; by apply logs_world_ok|]. intros w2 H2. apply world_ok_emit, world_ok_emit. by apply (logged_world w1).
Qed.
Lemma HandleRemoveMember_ok E s name w : guild_ok w -> is_Some (FindPlayer s w) -> safe world_ok (HandleRemoveMember E s name w).
Proof.
  intros Hw [p Hp]. assert (guild_ok w -> world_ok w) as Hl by by left. unfold HandleRemoveMember, GetPlayer. rewrite Hp. cbn [bind_result].
  destruct (negb _); [left; by apply guild_ok_emit|]. destruct (GetMember_name name _) as [[low m]|] eqn:Em; [|by left].
  apply (GetMember_name_find _ _ _ _ Hw) in Em as [Em _]. destruct (mw_key _ (ok_members Hw) _ _ Em) as (Eg & Hr & _).
  destruct (IsRank _ m); [left; by apply guild_ok_emit|]. destruct (GetMember s (guild w)) as [me|]; [|left; by apply guild_ok_emit].
  destruct (IsRankNotLower _ m); [left; by apply guild_ok_emit|]. cbv zeta.
  eapply ensures_bind; [apply DeleteMember_ok; [done|by rewrite Eg]|]. intros w1 H1.
  eapply ensures_bind; [apply _LogEvent_logged; by apply logs_world_ok|]. intros w2 H2. apply world_ok_emit. by apply (logged_world w1).
Qed.
Lemma HandleDisband_ok s w : guild_ok w -> safe world_ok (HandleDisband s w).
Proof.
  intros Hw. unfold HandleDisband. destruct (_IsLeader _ _); [|by left]. eapply ensures_weaken; [by apply Disband_ok|]. by right.
Qed.
Lemma HandleUpdateMemberRank_ok E s name d w : guild_ok w -> is_Some (FindPlayer s w) -> safe guild_ok (HandleUpdateMemberRank E s name d w).
Proof.
  intros Hw [p Hp]. unfold HandleUpdateMemberRank, GetPlayer. rewrite Hp. cbn [bind_result].
  destruct (_HasRankRight s _ _) eqn:Er; cbn [negb]; [|by apply guild_ok_emit].
  assert (is_Some (GetMember s (guild w))) as [me Hme] by (unfold _HasRankRight in Er; destruct (GetMember s (guild w)); [by eexists|done]).
  destruct (GetMember_name name (guild w)) as [[low m]|]; [|done]. destruct (IsSamePlayer _ _); [by apply guild_ok_emit|]. rewrite Hme.
  do 3 (destruct (_ && _); [by apply guild_ok_emit|]). cbv zeta. set (w1 := ChangeRank _ _ w). assert (guild_ok w1) as H1 by (apply ChangeRank_ok; [by apply wrap_range|done]).
  apply (ensures_bind _ _ _ _ _ (_LogEvent_logged E _ _ _ _ w1 (ok_logs H1))). intros w2 H2. by apply guild_ok_emit, (logged_ok w1).
Qed.
Lemma HandleMemberLogout_ok E s w : guild_ok w -> is_Some (FindPlayer s w) -> safe guild_ok (HandleMemberLogout E s w).
Proof.
  intros Hw [p Hp]. unfold HandleMemberLogout, GetPlayer. rewrite Hp. apply guild_ok_emit, guild_ok_update; [by intros []|done].
Qed.
Lemma UpdateMemberData_ok s d v w : guild_ok w -> guild_ok (UpdateMemberData s d v w).
Proof. intros Hw. unfold UpdateMemberData. do 2 (destruct (_ =? _); [apply guild_ok_update; [by intros []|done]|]). done. Qed.
Lemma ResetTimes_ok w : guild_ok w -> safe guild_ok (ResetTimes w).
Proof.
  intros Hw. unfold ResetTimes. set (w1 := on_this _ w). assert (guild_ok w1) as H1.
  { assert (forall low, map_find low (m_members (guild w1)) = ResetValues <$> map_find low (m_members (guild w))) as Hf
      by (intros low; apply (map_find_fmap ResetValues)).
    destruct Hw as [[Hs Hk Hr]]. constructor; try done.
    - constructor; [unfold map_sorted; cbn; rewrite map_map; exact Hs| |]; intros low m; rewrite Hf;
        (destruct (map_find low _) as [m0|] eqn:Em0; [|done]); intros [= <-]; cbn; [rewrite length_map; by apply Hk|by apply (Hr low)].
    - rewrite Hf, fmap_is_Some. done.
    - intros g p Hp. rewrite Hf, fmap_is_Some. exact (ok_marks0 g p Hp). }
  destruct (ok_ranks H1) as [Hn _ _]. unfold GetRankInfo. rewrite _GetRanksSize_ranks by apply H1.
  destruct (lookup_lt_is_Some_2 (m_ranks (guild w1)) 0) as [r Hr]; [lia|].
  destruct (Z.ltb_spec 0 (size (m_ranks (guild w1)))) as [|Hz]; [|unfold size in Hz; lia]. change (Z.to_nat 0) with 0%nat. rewrite Hr. by apply guild_ok_emit.
Qed.
Lemma SendBankLog_ok E s tab w : guild_ok w -> in_u 8 tab -> safe guild_ok (SendBankLog E s tab w).
Proof.
  intros Hw Ht. unfold SendBankLog. rewrite _GetPurchasedTabsSize_tabs by done. destruct (_ || _) eqn:Eb; [|done].
  destruct (lookup_lt_is_Some_2 (m_bankEventLog (guild w)) (Z.to_nat tab)) as [l ->]; [|by apply guild_ok_emit].
  rewrite (lw_bank _ _ (ok_logs Hw)). pose proof (ok_tabs Hw). unfold size, GUILD_BANK_MAX_TABS in *. unfold in_u in Ht.
  apply orb_true_iff in Eb as [Eb%Z.ltb_lt|Eb%Z.eqb_eq]; lia.
Qed.

(** ** Handlers *)
Lemma with_guild_or_ok (F : fault -> Prop) s f none w :
  world_ok w ->
  (guild_ok w -> is_Some (FindPlayer s w) -> ensures F world_ok (f w)) ->
  ensures F world_ok (none w) ->
  ensures F world_ok (with_guild_or s f none w).
Proof.
  intros Hw Hf Hn. unfold with_guild_or. destruct (FindPlayer s w) as [p|] eqn:Ep; [|done].
  destruct (if p_guildId p =? 0 then _ else _) as [n|] eqn:En.
  - destruct (Z.eqb_spec (p_guildId p) (m_id (guild w))) as [Ei|]; [|done].
    destruct Hw as [Hw|(_ & Hg & _)]; [auto|]. destruct (p_guildId p =? 0); [done|congruence].
  - done.
Qed.
Lemma with_guild_ok (F : fault -> Prop) s f w :
  world_ok w -> (guild_ok w -> is_Some (FindPlayer s w) -> ensures F world_ok (f w)) -> ensures F world_ok (with_guild s f w).
Proof. intros Hw Hf. by apply with_guild_or_ok. Qed.
Lemma with_name_safe name f w : world_ok w -> (forall n, safe_text world_ok (f n w)) -> safe_text world_ok (with_name name f w).
Proof. intros Hw Hf. unfold with_name. by destruct (Util.normalizePlayerName name) as [[[] n]|]; cbn. Qed.
Lemma still (F : fault -> Prop) (P : World -> Prop) (m : result fault World) : safe P m -> (forall w, P w -> world_ok w) -> ensures F world_ok m.
Proof. intros H HQ. destruct m; cbn in *; [auto|done]. Qed.
Lemma still_guild (F : fault -> Prop) (m : result fault World) : safe guild_ok m -> ensures F world_ok m.
Proof. intros H. apply (still F guild_ok); [done|by left]. Qed.
Lemma still_snd {A} (m : result fault (A * World)) : safe (fun x => guild_ok x.2) m -> safe guild_ok (let? (_, w) := m in Ok w).
Proof. destruct m as [[a w]|]; done. Qed.

(** A step of the server: the packets, the other callers and the commands of game
    masters. *)
Inductive event :=
| Query (s id : Z) | Invite (s : Z) (name : list Z) | Remove (s : Z) (name : list Z) | Accept (s : Z) | Decline (s : Z)
| Info (s : Z) | Roster (s : Z) | Promote (s : Z) (name : list Z) | Demote (s : Z) (name : list Z) | Leave (s : Z) | DisbandGuild (s : Z)
| Leader (s : Z) (name : list Z) | MOTD (s : Z) (motd : list Z) | PublicNote (s : Z) (name note : list Z) | OfficerNote (s : Z) (name note : list Z)
| InfoText (s : Z) (info : list Z) | Emblem (s : Z) (e : EmblemInfo) (near : bool) | EventLog (s : Z)
| Rank (s rankId rights : Z) (name : list Z) (money : Z) (bankRights slots : Z -> Z) | AddRank (s : Z) (name : list Z) | DelRank (s : Z)
| MoneyWithdrawn (s : Z) | Permissions (s : Z) | BankerActivate (s : Z) (all : bool) | QueryTab (s tab : Z) (near : bool)
| Deposit (s money : Z) (near : bool) | Withdraw (s money : Z) (near : bool) | Repair (s costs : Z) | BuyTab (s tab : Z) (near : bool)
| UpdateTab (s tab : Z) (name icon : list Z) (near : bool) | BankLog (s tab : Z) | QueryTabText (s tab : Z) | SetTabText (s tab : Z) (text : list Z)
| SwapBankItems (s tab slot destTab destSlot n : Z) (near : bool)
| Enter (s : Z) (p : Player) (row : option (Z * Z)) | Exit (s : Z) | Chat (s : Z) (officer : bool) (msg : list Z) (lang : Z)
| CalendarFilter (s minLevel maxLevel minRank : Z) | LevelUp (s level : Z) | Zone (s zone : Z) | DailyReset
| GmInvite (guid : Z) (name : list Z) | GmUninvite (guid : Z) | GmRank (guid rank : Z) | GmDelete (name : list Z) | DeleteCharacter (guid : Z).

Definition run (E : Env) (e : event) : World -> result fault World :=
  match e with
  | Query s id => fun w => Ok (HandleGuildQueryOpcode s id w)
  | Invite s n => HandleGuildInviteOpcode E s n
  | Remove s n => HandleGuildRemoveOpcode E s n
  | Accept s => HandleGuildAcceptOpcode E s
  | Decline s => fun w => Ok (HandleGuildDeclineOpcode s w)
  | Info s => HandleGuildInfoOpcode E s
  | Roster s => HandleGuildRosterOpcode E s
  | Promote s n => HandleGuildPromoteOpcode E s n
  | Demote s n => HandleGuildDemoteOpcode E s n
  | Leave s => HandleGuildLeaveOpcode E s
  | DisbandGuild s => HandleGuildDisbandOpcode s
  | Leader s n => HandleGuildLeaderOpcode s n
  | MOTD s m => HandleGuildMOTDOpcode s m
  | PublicNote s n note => HandleGuildSetPublicNoteOpcode E s n note
  | OfficerNote s n note => HandleGuildSetOfficerNoteOpcode E s n note
  | InfoText s i => HandleGuildChangeInfoTextOpcode s i
  | Emblem s e near => HandleSaveGuildEmblemOpcode s e near
  | EventLog s => HandleGuildEventLogQueryOpcode E s
  | Rank s rankId rights name money bankRights slots => HandleGuildRankOpcode s rankId rights name money bankRights slots
  | AddRank s n => HandleGuildAddRankOpcode s n
  | DelRank s => HandleGuildDelRankOpcode s
  | MoneyWithdrawn s => HandleGuildBankMoneyWithdrawn s
  | Permissions s => HandleGuildPermissions s
  | BankerActivate s all => HandleGuildBankerActivate s all
  | QueryTab s t near => HandleGuildBankQueryTab s t near
  | Deposit s m near => HandleGuildBankDepositMoney E s m near
  | Withdraw s m near => HandleGuildBankWithdrawMoney E s m near
  | Repair s c => guild_repair E s c
  | BuyTab s t near => HandleGuildBankBuyTab s t near
  | UpdateTab s t n i near => HandleGuildBankUpdateTab s t n i near
  | BankLog s t => HandleGuildBankLogQuery E s t
  | QueryTabText s t => HandleQueryGuildBankTabText s t
  | SetTabText s t text => HandleSetGuildBankTabText s t text
  | SwapBankItems s tab slot destTab destSlot n near => HandleGuildBankSwapItems E s tab slot destTab destSlot n near
  | Enter s p row => enter_world E s p row
  | Exit s => leave_world E s
  | Chat s o m l => guild_chat s o m l
  | CalendarFilter s a b c => HandleCalendarGuildFilter E s a b c
  | LevelUp s l => GiveLevel_guild s l
  | Zone s z => UpdateZone_guild s z
  | DailyReset => reset_times
  | GmInvite g n => HandleGuildInviteCommand E g n
  | GmUninvite g => HandleGuildUninviteCommand E g
  | GmRank g r => HandleGuildRankCommand E g r
  | GmDelete n => HandleGuildDeleteCommand n
  | DeleteCharacter g => DeleteFromDB_guild E g
  end.

(** The one fault of an event, if it has any: a name or text of a player can be longer
    than its buffer, and a move of items can need a guid when there is none. *)
Definition fault_of (e : event) : option fault :=
  match e with
  | Invite _ _ | Remove _ _ | Promote _ _ | Demote _ _ | Leader _ _ | PublicNote _ _ _ | OfficerNote _ _ _ | SetTabText _ _ _ => Some TextOverflow
  | SwapBankItems _ _ _ _ _ _ _ => Some ItemGuids
  | _ => None
  end.

(** What the database has of the guild of a player who enters is what the guild has;
    guids and tabs have their widths. *)
Definition may (e : event) (w : World) : Prop :=
  match e with
  | Enter s _ (Some (id, _)) => in_u 32 s /\ (id = m_id (guild w) -> is_Some (map_find s (m_members (guild w))))
  | Enter s _ None => in_u 32 s
  | GmInvite g _ | GmUninvite g | DeleteCharacter g => in_u 32 g
  | BankLog _ tab => in_u 8 tab
  | SwapBankItems _ tab _ destTab _ _ _ => in_u 8 tab /\ in_u 8 destTab
  | _ => True
  end.

Lemma enter_world_ok E s p row w : world_ok w -> may (Enter s p row) w -> safe world_ok (enter_world E s p row w).
Proof.
  intros Hw Hm. assert (in_u 32 s) as Hs by by destruct row as [[id rank]|]; [apply Hm|apply Hm]. unfold enter_world, login_guild. cbv zeta. set (f := fun p : Player => match row with Some _ => _ | None => _ end).
  set (w0 := set_players _ w). assert (Hf : p_guildId (f p) = match row with Some (id, _) => id | None => 0 end).
  { unfold f. destruct row as [[id rank]|]; [done|]. by destruct (Z.eqb_spec (p_guildId p) 0). }
  assert (players (on_player s f w0) = map_set s (f p) (players w)) as Ep.
  { unfold on_player, FindPlayer. cbn. by rewrite map_find_set; cbn; rewrite map_set_set. }
  destruct (guild_on_player s f w0) as [E1 E2]. set (w1 := on_player s f w0) in *. change (guild w0) with (guild w) in E1. change (GuildStore w0) with (GuildStore w) in E2.
  assert (guild_ok w -> guild_ok w1) as Hk.
  { intros []. constructor; rewrite ?E1, ?E2, ?Ep; auto.
    - destruct ok_players0 as [H1 H2]. constructor; [by apply map_set_sorted|]. intros g q. destruct (decide (g = s)) as [->|]; [done|].
      rewrite map_find_set_ne by done. apply H2.
    - intros g q. destruct (decide (g = s)) as [->|]; [rewrite map_find_set; intros [= <-]; rewrite Hf; destruct row as [[id rank]|]; [apply Hm|lia]|].
      rewrite map_find_set_ne by done. apply ok_marks0. }
  assert (world_ok w1) as H1.
  { destruct Hw as [Hw|(G1 & G2 & G3)]; [left; auto|right]. unfold gone. by rewrite E1, E2. }
  apply with_guild_or_ok; [done| |].
  - intros Hg Hp. apply still_guild. by apply SendLoginInfo_ok.
  - cbn. destruct H1 as [H1|(G1 & G2 & G3)].
    + left. apply guild_ok_strangers; [|done]. intros q _. cbn. pose proof (ok_id H1). lia.
    + right. unfold gone. destruct (guild_on_player s (SetInGuild 0) w1) as [F1 F2]. by rewrite F1, F2.
Qed.

Lemma named_guild_ok name f w : world_ok w -> (guild_ok w -> safe world_ok (f w)) -> safe world_ok (named_guild name f w).
Proof.
  intros Hw Hf. unfold named_guild. destruct (GetGuildByName name (GuildStore w)) as [id|] eqn:En; [|done].
  destruct (Z.eqb_spec id (m_id (guild w))) as [->|]; [|done]. destruct Hw as [Hw|(_ & Hg & _)]; [auto|]. exfalso.
  apply map_find_None in Hg. apply Hg. clear Hg Hf. induction (GuildStore w) as [|[id n] l IH]; [done|]. cbn [GetGuildByName] in En.
  case_decide; [injection En as ->; by left|]. right. by apply IH.
Qed.
Lemma registered_ok id f w :
  world_ok w -> (guild_ok w -> safe world_ok (f w)) ->
  safe world_ok (match (if id =? 0 then None else map_find id (GuildStore w)) with
                 | Some _ => if id =? m_id (guild w) then f w else Ok w | None => Ok w end).
Proof.
  intros Hw Hf. destruct (if id =? 0 then _ else _) as [n|] eqn:En; [|done]. destruct (Z.eqb_spec id (m_id (guild w))) as [->|]; [|done].
  destruct Hw as [Hw|(_ & Hg & _)]; [auto|]. destruct (_ =? 0); [done|congruence].
Qed.

Lemma named_text_ok name f s w :
  world_ok w -> (forall n, guild_ok w -> is_Some (FindPlayer s w) -> safe world_ok (f n w)) ->
  safe_text world_ok (with_name name (fun n => with_guild s (f n)) w).
Proof.
  intros Hw Hf. apply with_name_safe; [done|]. intros n. apply with_guild_ok; [done|]. intros H1 H2. by eapply still; [apply Hf|].
Qed.
(** A guild stays one. *)
Lemma guild_steps s f w : world_ok w -> (guild_ok w -> is_Some (FindPlayer s w) -> safe guild_ok (f w)) -> safe world_ok (with_guild s f w).
Proof. intros Hw Hf. apply with_guild_ok; [done|]. intros H1 H2. apply still_guild. auto. Qed.

Lemma leave_world_ok E s w : world_ok w -> safe world_ok (leave_world E s w).
Proof.
  intros Hw. unfold leave_world. eapply ensures_bind; [apply guild_steps; [done|intros; by apply HandleMemberLogout_ok]|].
  intros w' [[]|H]; [left|by right]. constructor; cbn; auto.
  - destruct ok_players0 as [H1 H2]. constructor; [by apply map_erase_sorted|]. intros g p Hp. apply (H2 g p).
    destruct (decide (g = s)) as [->|]; [by rewrite map_find_erase in Hp|by rewrite map_find_erase_ne in Hp].
  - intros g p Hp. apply ok_marks0. destruct (decide (g = s)) as [->|]; [by rewrite map_find_erase in Hp|by rewrite map_find_erase_ne in Hp].
Qed.

Lemma rank_tabs_range bankRights slots : Forall (fun rs => 0 <= GetTabId rs < GUILD_BANK_MAX_TABS) (rank_tabs bankRights slots).
Proof. repeat constructor; done. Qed.

(** What only sends packets. *)
Definition sends (w w' : World) : Prop := exists es, w' = emit es w.
Lemma sends_emit es w : sends w (emit es w).
Proof. by eexists. Qed.
Lemma sends_same w : sends w w.
Proof. exists []. unfold emit, set_trace. rewrite app_nil_r. by destruct w. Qed.
Lemma sends_ok w w' : sends w w' -> guild_ok w -> guild_ok w'.
Proof. intros [es ->]. apply guild_ok_emit. Qed.
Ltac sends := repeat first [apply sends_same | apply sends_emit | case_match].
Lemma HandleQuery_sends s w : sends w (HandleQuery s w).
Proof. apply sends_emit. Qed.
Lemma SendMoneyInfo_sends s w : sends w (SendMoneyInfo s w).
Proof. unfold SendMoneyInfo. sends. Qed.
Lemma SendPermissions_sends s w : sends w (SendPermissions s w).
Proof. unfold SendPermissions. sends. Qed.
Lemma SendBankTabText_sends s tab w : sends w (SendBankTabText s tab w).
Proof. unfold SendBankTabText. sends. Qed.
Lemma SendBankTabData_sends s tab w : sends w (SendBankTabData s tab w).
Proof. unfold SendBankTabData, _SendBankContent, _SendBankList. sends. Qed.
Lemma BroadcastToGuild_sends s o msg l w : sends w (BroadcastToGuild s o msg l w).
Proof. unfold BroadcastToGuild. sends. Qed.
Lemma MassInviteToEvent_sends E s a b c w : sends w (MassInviteToEvent E s a b c w).
Proof. unfold MassInviteToEvent. sends. Qed.
Lemma HandleSetMOTD_ok s m w : guild_ok w -> guild_ok (HandleSetMOTD s m w).
Proof. intros []. unfold HandleSetMOTD. case_decide; [done|]. by destruct (negb _). Qed.
Lemma HandleSetInfo_ok s i w : guild_ok w -> guild_ok (HandleSetInfo s i w).
Proof. intros []. unfold HandleSetInfo. case_decide; [done|]. by destruct (_HasRankRight _ _ _). Qed.

Create HintDb guild discriminated.
#[export] Hint Resolve HandleSetEmblem_ok HandleAddNewRank_ok HandleRemoveRank_ok SendBankLog_ok HandleMemberDepositMoney_ok
  HandleBuyBankTab_ok HandleSetBankTabInfo_ok UpdateMemberData_ok HandleSetMOTD_ok HandleSetInfo_ok guild_ok_emit sends_ok
  HandleQuery_sends SendMoneyInfo_sends SendPermissions_sends SendBankTabText_sends SendBankTabData_sends BroadcastToGuild_sends
  MassInviteToEvent_sends : guild.
(** A handler that reaches the guild, or one that only does so near a vault. *)
Ltac guild_event := apply guild_steps; [done|intros; cbn [ensures]; solve [eauto with guild]].

Lemma run_named E e w : world_ok w -> fault_of e = Some TextOverflow -> safe_text world_ok (run E e w).
Proof.
  intros Hw He. destruct e; try done; cbn [run].
  - apply named_text_ok; [done|]. intros. apply still_guild. by apply HandleInviteMember_ok.
  - apply named_text_ok; [done|]. intros. by apply HandleRemoveMember_ok.
  - apply named_text_ok; [done|]. intros. apply still_guild. by apply HandleUpdateMemberRank_ok.
  - apply named_text_ok; [done|]. intros. apply still_guild. by apply HandleUpdateMemberRank_ok.
  - apply named_text_ok; [done|]. intros. apply still_guild. by apply HandleSetLeader_ok.
  - apply (named_text_ok name (fun n w => Ok (HandleSetMemberNote E s n note true w))); [done|]. intros. left. by apply HandleSetMemberNote_ok.
  - apply (named_text_ok name (fun n w => Ok (HandleSetMemberNote E s n note false w))); [done|]. intros. left. by apply HandleSetMemberNote_ok.
  - apply with_guild_ok; [done|]. intros H1 _. pose proof (SetBankTabText_ok tab text w H1) as H.
    destruct (SetBankTabText tab text w); [by left|done].
Qed.

Lemma run_swap E e w : world_ok w -> may e w -> fault_of e = Some ItemGuids -> safe_items world_ok (run E e w).
Proof.
  intros Hw Hm He. destruct e; try done; cbn [run]. unfold HandleGuildBankSwapItems. destruct near; [|done]. apply with_guild_ok; [done|].
  intros H1 _. destruct Hm as [[Ht _] [Hd _]]. pose proof (SwapItems_ok E s tab slot destTab destSlot n w) as H.
  destruct (SwapItems _ _ _ _ _ _ _ w); [left|]; by apply H.
Qed.

Lemma run_rest E e w : world_ok w -> may e w -> fault_of e = None -> safe world_ok (run E e w).
Proof.
  intros Hw Hm He. destruct e; try done; cbn [run]; clear He; try guild_event;
    try (destruct near; [guild_event|done]).
  - unfold HandleGuildQueryOpcode. destruct (id =? 0); [done|]. destruct (map_find id _); [|done]. destruct (_ =? _); [|done]. by apply world_ok_emit.
  - unfold HandleGuildAcceptOpcode. destruct (FindPlayer s w) as [p|] eqn:Ep; [|done]. destruct (_ =? 0); [|done].
    destruct (map_find _ _) as [n|] eqn:En; [|done]. destruct (Z.eqb_spec (p_guildIdInvited p) (m_id (guild w))) as [Ei|]; [|done].
    destruct Hw as [Hw|(_ & Hg & _)]; [|congruence]. apply still_guild. apply HandleAcceptMember_ok; [done|by eexists].
  - destruct Hw as [Hw|Hg]; [left|right].
    + apply guild_ok_strangers; [|done]. intros p _. cbn. pose proof (ok_id Hw). lia.
    + unfold HandleGuildDeclineOpcode, gone. by destruct (guild_on_player s (fun p => SetInGuild 0 (SetGuildIdInvited 0 p)) w) as [-> ->].
  - apply with_guild_or_ok; [done|intros; left; by apply guild_ok_emit|by apply world_ok_emit].
  - apply with_guild_ok; [done|]. apply HandleLeaveMember_ok.
  - apply with_guild_ok; [done|]. intros. by apply HandleDisband_ok.
  - unfold HandleSaveGuildEmblemOpcode. destruct near; [|by apply world_ok_emit].
    apply with_guild_or_ok; [done|intros; apply still_guild; by apply HandleSetEmblem_ok|by apply world_ok_emit].
  - apply guild_steps; [done|]. intros. by apply HandleSetRankInfo_ok; [apply rank_tabs_range|].
  - apply with_guild_or_ok; [done|intros; left; by apply guild_ok_emit|by apply world_ok_emit].
  - unfold HandleGuildBankDepositMoney. destruct (FindPlayer s w); [|done]. destruct (_ && _); [guild_event|done].
  - unfold HandleGuildBankWithdrawMoney. destruct (_ && _); [|done]. apply guild_steps; [done|]. intros. by apply still_snd, HandleMemberWithdrawMoney_ok.
  - apply guild_steps; [done|]. intros. by apply still_snd, HandleMemberWithdrawMoney_ok.
  - unfold HandleGuildBankUpdateTab. destruct (_ && _); [guild_event|done].
  - by apply enter_world_ok.
  - by apply leave_world_ok.
  - unfold reset_times. destruct (map_find _ _) eqn:En; [|done]. destruct Hw as [Hw|(_ & Hg & _)]; [|congruence]. by apply still_guild, ResetTimes_ok.
  - apply named_guild_ok; [done|]. intros. by apply still_guild, still_snd, AddMember_keeps.
  - apply registered_ok; [done|]. intros. by apply DeleteMember_ok.
  - apply (registered_ok _ (fun w => Ok (ChangeMemberRank guid (u8 rank) w).2)); [done|]. intros H. left. unfold ChangeMemberRank.
    destruct (_ <=? _); [|done]. destruct (GetMember _ _); [apply ChangeRank_ok; [by apply wrap_range|done]|done].
  - apply named_guild_ok; [done|]. intros. eapply ensures_weaken; [by apply Disband_ok|by right].
  - apply (registered_ok _ (DeleteMember (GUID_LOPART guid) false false)); [done|]. intros. by apply DeleteMember_ok; [|rewrite low_id].
Qed.

(** ** Every sequence of steps *)
Inductive reachable : World -> Prop :=
| founded E leader loc name w w' p :
    players_wf (players w) -> FindPlayer leader w = Some p -> p_guildId p = 0 -> GetGuildByName name (GuildStore w) = None ->
    0 < NextGuildId w -> (forall g q, FindPlayer g w = Some q -> p_guildId q <> NextGuildId w) ->
    0 < CONFIG_GUILD_EVENT_LOG_COUNT E -> 0 < CONFIG_GUILD_BANK_EVENT_LOG_COUNT E ->
    Create E leader loc name w = Ok (true, w') -> reachable (AddGuild w')
| validated E w w' : loading E w -> Validate E w = Ok (true, w') -> reachable w'
| stepped E e w w' : reachable w -> may e w -> run E e w = Ok w' -> reachable w'.

Lemma run_keeps E e w : world_ok w -> may e w -> ensures (fun f => fault_of e = Some f) world_ok (run E e w).
Proof.
  intros Hw Hm. destruct (fault_of e) as [f|] eqn:He; [|pose proof (run_rest E e w Hw Hm He) as H; by destruct (run E e w)].
  assert (f = TextOverflow \/ f = ItemGuids) as [->| ->] by (destruct e; try done; injection He as <-; auto).
  - pose proof (run_named E e w Hw He) as H. destruct (run E e w); cbn in *; congruence || done.
  - pose proof (run_swap E e w Hw Hm He) as H. destruct (run E e w); cbn in *; congruence || done.
Qed.
Lemma validated_ok E w w' : loading E w -> Validate E w = Ok (true, w') -> guild_ok w'.
Proof. intros H1 H2. destruct (Validate_ok E w H1) as (ok & w2 & E2 & H). rewrite H2 in E2. injection E2 as <- <-. apply H. Qed.
Lemma reachable_keeps w : reachable w -> world_ok w.
Proof.
  induction 1 as [E leader loc name w w' p H1 H2 H3 H4 H5 H6 H7 H8 HC|E w w' Hl HV|E e w w' _ IH Hm HR].
  - left. destruct (Create_founds E leader loc name w p) as (w2 & m & p' & E2 & H & _); try done. rewrite HC in E2. by injection E2 as <-.
  - left. by apply (validated_ok E w).
  - pose proof (run_keeps E e w IH Hm) as H. by rewrite HR in H.
Qed.

(** C10: through every sequence of packets, logins, repairs, resets and commands of game
    masters, a guild that was founded or loaded stays consistent or is gone. Consistent
    means: the leader is a member; members are found under their guids; the ranks are a
    sequence of five to ten of which the first has all rights; no log is longer than
    configured; there are six tabs at most; and every player in the world who counts as a
    member is one. *)
Theorem guild_consistent w : reachable w -> guild_ok w \/ gone w.
Proof. apply reachable_keeps. Qed.

(** C19: in every state of a guild that was founded or loaded with log sizes above 0, no
    step dereferences a null pointer, leaves an array, divides by zero or takes from an
    empty log; the only faults are a name or text that is longer than its buffer, in the
    packets that have one, and that there is no guid for an item that a move splits. *)
Theorem guild_steps_run E e w :
  reachable w -> may e w -> (exists w', run E e w = Ok w') \/ (exists f, run E e w = Throw f /\ fault_of e = Some f).
Proof.
  intros Hw%reachable_keeps Hm. pose proof (run_keeps E e w Hw Hm) as H. destruct (run E e w) as [w'|f]; [left; by exists w'|right].
  by exists f.
Qed.

Lemma ex_reachable : reachable ex.
Proof.
  assert (may (GmInvite 2 [71]) ex_founded) as Hm by (change (in_u 32 2); done).
  assert (run E0 (GmInvite 2 [71]) ex_founded = Ok ex) as HR by (vm_compute; reflexivity).
  refine (stepped E0 _ _ _ _ Hm HR). clear Hm HR.
  destruct (Create_founds E0 1 0 [71] ex0 ann ex0_players) as (w & m & p' & E1 & _); [done|done|done|done|apply ex0_fresh|done|done|].
  unfold ex_founded. rewrite E1. apply (founded E0 1 0 [71] ex0 w ann ex0_players); [done|done|done|done|apply ex0_fresh|done|done|exact E1].
Qed.
Lemma guild_consistent_witness : guild_ok ex \/ gone ex.
Proof. apply (guild_consistent ex), ex_reachable. Defined.
Lemma guild_steps_run_witness :
  (exists w', run E0 (Promote 1 [98; 111; 98]) ex = Ok w') \/
  (exists f, run E0 (Promote 1 [98; 111; 98]) ex = Throw f /\ fault_of (Promote 1 [98; 111; 98]) = Some f).
Proof. apply (guild_steps_run E0 (Promote 1 [98; 111; 98]) ex); [apply ex_reachable|exact I]. Defined.

End GuildReach.
