(* ===== verification/GuildOutcomes.v ===== *)
(** * GuildOutcomes: what the commands of a guild do

    The theorems on [Guild] command by command: who can be removed, promoted or demoted by
    whom, what a withdrawal takes, what rights a rank gives, and what the logs of the
    database restore. *)
From S2P Require Import Prelude OrderedMap Util Guild GuildHandlers GuildRules GuildStart.
From Stdlib Require Import Sorting.Sorted.
From stdpp Require Import sorting.
Import Guild GuildHandlers GuildRules GuildStart.
#[global] Open Scope Z_scope.

Module GuildOutcomes.

(** ** The end of a guild *)

(** C30: disbanding a guild ends. It has no members and no tabs then and is not
    registered; every member in the world is in no guild and no player there is marked as
    a member, and the other players stay as they were. *)
Theorem guild_disbands w :
  guild_ok w ->
  exists w', Disband w = Ok w' /\ gone w' /\ m_bankTabs (guild w') = [] /\
    (forall g, FindPlayer g w' = released (m_members (guild w)) g <$> FindPlayer g w) /\
    (forall g p, FindPlayer g w' = Some p -> p_guildId p <> m_id (guild w)).
Proof.
  intros Hw. unfold Disband. set (w1 := _BroadcastEvent _ _ _ _).
  destruct (disband_loop_ok (length (m_members (guild w1))) w1) as (w2 & E2 & Hg & Hs & Hp); [apply Hw|done|].
  rewrite E2. cbn [bind_result]. eexists. split; [done|]. cbn. split_and!.
  - split_and!; cbn; [by rewrite Hg|apply map_find_erase|rewrite Hg; apply Hw].
  - done.
  - exact Hp.
  - intros g p E. change (FindPlayer g w2 = Some p) in E. rewrite Hp in E. change (FindPlayer g w1) with (FindPlayer g w) in E.
    destruct (FindPlayer g w) as [q|] eqn:Eq; [|done]. injection E as <-. unfold released. pose proof (ok_id Hw). case_decide as Hm; [cbn; lia|].
    intros Hi. apply Hm. by apply (ok_marks Hw g q).
Qed.
Lemma guild_disbands_witness :
  exists w', Disband ex = Ok w' /\ gone w' /\ m_bankTabs (guild w') = [] /\
    (forall g, FindPlayer g w' = released (m_members (guild ex)) g <$> FindPlayer g ex) /\
    (forall g p, FindPlayer g w' = Some p -> p_guildId p <> m_id (guild ex)).
Proof. apply (guild_disbands ex), ex_ok. Defined.

(** ** Ranks and removal *)
Lemma logged_members w w' : logged w w' -> m_members (guild w') = m_members (guild w).
Proof. intros [E _]. by injection E. Qed.

Lemma Ok_inj {A} (a b : A) : @Ok fault A a = Ok b -> a = b.
Proof. congruence. Qed.

(** The members after [remove_member] are the others. *)
Lemma members_remove_member guid d k w :
  in_u 32 guid -> m_members (guild (remove_member guid d k w)) = map_erase guid (m_members (guild w)).
Proof.
  intros Hg. unfold remove_member. rewrite low_id by done.
  destruct d; cbn; rewrite (proj1 (guild_on_player _ _ _)); done.
Qed.
Lemma DeleteMember_members guid k w w' low :
  guild_ok w -> in_u 32 guid -> DeleteMember guid false k w = Ok w' -> low <> guid ->
  is_Some (map_find low (m_members (guild w))) -> is_Some (map_find low (m_members (guild w'))).
Proof.
  intros Hw Hg HD Hne Hl. unfold DeleteMember in HD. rewrite low_id in HD by done. rewrite andb_true_r in HD.
  destruct (_ =? guid); [|apply Ok_inj in HD as <-; by rewrite members_remove_member, map_find_erase_ne].
  destruct (successor guid _ None) as [[k' m]|] eqn:Es.
  - apply Ok_inj in HD as <-. rewrite members_remove_member, map_find_erase_ne by done.
    apply successor_spec in Es as ([[=]|[Hin _]] & _ & _). apply map_find_elem in Hin; [|apply Hw].
    assert (forall w1, m_members (guild w1) = m_members (guild (_SetLeaderGUID k' w)) -> is_Some (map_find low (m_members (guild w1)))) as Hk.
    { intros w1 ->. unfold _SetLeaderGUID. rewrite Hin. cbn [guild emit set_trace]. rewrite members_ChangeRank. by apply fmap_is_Some. }
    destruct (map_find guid _); apply Hk; cbn; by rewrite (proj1 (guild_on_player _ _ _)).
  - apply successor_spec in Es as [_ Hall]. destruct Hl as [x Hx]. apply map_find_elem in Hx; [|apply Hw].
    by destruct Hne; apply (proj1 (Forall_forall _ _) Hall (low, x)).
Qed.

(** C21: a member loses his place by [HandleRemoveMember] only to a member above him whose
    rank has the right to remove: his rank is below that of the one who removes, he is not
    a guild master, and he has the given name. *)
Theorem removed_from_above E s name w w' low m :
  guild_ok w -> HandleRemoveMember E s name w = Ok w' ->
  map_find low (m_members (guild w)) = Some m -> map_find low (m_members (guild w')) = None ->
  m_name m = name /\ m_rankId m <> GR_GUILDMASTER /\ _HasRankRight s GR_RIGHT_REMOVE (guild w) = true /\
  exists me, GetMember s (guild w) = Some me /\ m_rankId me < m_rankId m.
Proof.
  intros Hw HR Hm Hgone. unfold HandleRemoveMember in HR. destruct (GetPlayer s w) as [p|]; [|done]. cbn [bind_result] in HR.
  assert (forall es, @Ok fault World (emit es w) = Ok w' -> False) as Hemit by (intros es [= <-]; cbn in Hgone; congruence).
  destruct (_HasRankRight s _ _) eqn:Er; cbn [negb] in HR; [|by destruct (Hemit _ HR)].
  destruct (GetMember_name name _) as [[low' n]|] eqn:En; [|injection HR as <-; congruence].
  apply (GetMember_name_find _ _ _ _ Hw) in En as [En Ename]. destruct (mw_key _ (ok_members Hw) _ _ En) as (Eg & Hr & _).
  unfold IsRank in HR. destruct (Z.eqb_spec (m_rankId n) GR_GUILDMASTER) as [|Hmaster]; [by destruct (Hemit _ HR)|].
  destruct (GetMember s (guild w)) as [me|] eqn:Eme; [|by destruct (Hemit _ HR)]. unfold IsRankNotLower in HR.
  destruct (Z.leb_spec (m_rankId n) (m_rankId me)) as [|Hlt]; [by destruct (Hemit _ HR)|]. cbv zeta in HR. rewrite Eg in HR.
  destruct (DeleteMember low' false true w) as [w1|] eqn:ED; [|done]. cbn [bind_result] in HR.
  pose proof (DeleteMember_ok low' true w Hw Hr) as H1. rewrite ED in H1.
  assert (logs_wf (guild w1)) as L1 by (destruct H1 as [[]|(_ & _ & ?)]; done).
  pose proof (_LogEvent_logged E GUILD_EVENT_LOG_UNINVITE_PLAYER (GUID_LOPART s) (GUID_LOPART low') 0 w1 L1) as H2.
  destruct (_LogEvent _ _ _ _ _ w1) as [w2|]; [|done]. cbn [bind_result] in HR. injection HR as <-. apply logged_members in H2.
  destruct (decide (low = low')) as [->|Hne]; [assert (m = n) as -> by congruence; split_and!; try done; by exists me|].
  destruct (DeleteMember_members low' true w w1 low Hw Hr ED Hne) as [x Hx]; [by exists m|].
  cbn in Hgone. rewrite H2 in Hgone. congruence.
Qed.

(** A promotion or demotion changes the rank of the named member only, who is not the
    sender, by one, and the sender has the right for it. The rank of the one who demotes is
    above the old rank, and the new one is not below the last; the one who promotes stays
    above the new rank, which need not be a rank that there is, when the old one was not. *)
Theorem rank_moves_below E s name demote w w' low m m' :
  guild_ok w -> HandleUpdateMemberRank E s name demote w = Ok w' ->
  map_find low (m_members (guild w)) = Some m -> map_find low (m_members (guild w')) = Some m' -> m_rankId m' <> m_rankId m ->
  m_name m = name /\ s <> low /\ _HasRankRight s (if demote then GR_RIGHT_DEMOTE else GR_RIGHT_PROMOTE) (guild w) = true /\
  exists me, GetMember s (guild w) = Some me /\
    if demote : bool
    then m_rankId me < m_rankId m /\ m_rankId m' = m_rankId m + 1 /\ m_rankId m' <= _GetLowestRankId (guild w)
    else m_rankId m' = m_rankId m - 1 /\ (m_rankId me < 255 -> m_rankId me < m_rankId m').
Proof.
  intros Hw HR Hm Hm' Hne. unfold HandleUpdateMemberRank in HR. destruct (GetPlayer s w) as [p|]; [|done]. cbn [bind_result] in HR.
  assert (forall es, @Ok fault World (emit es w) = Ok w' -> False) as Hemit by (intros es [= <-]; cbn in Hm'; congruence).
  destruct (_HasRankRight s _ _) eqn:Er; cbn [negb] in HR; [|by destruct (Hemit _ HR)].
  destruct (GetMember_name name _) as [[low' n]|] eqn:En; [|injection HR as <-; congruence].
  apply (GetMember_name_find _ _ _ _ Hw) in En as [En Ename]. destruct (mw_key _ (ok_members Hw) _ _ En) as (Eg & Hr & _).
  pose proof (mw_rank _ (ok_members Hw) _ _ En) as Hk.
  unfold IsSamePlayer in HR. destruct (Z.eqb_spec (m_guid n) s) as [|Hself]; [by destruct (Hemit _ HR)|].
  destruct (GetMember s (guild w)) as [me|] eqn:Eme; [|done]. assert (in_u 8 (m_rankId me)) as Hkme by apply (mw_rank _ (ok_members Hw) _ _ Eme).
  unfold IsRankNotLower in HR.
  destruct (demote && (m_rankId n <=? m_rankId me)) eqn:C1; [by destruct (Hemit _ HR)|].
  destruct (demote && (_GetLowestRankId (guild w) <=? m_rankId n)) eqn:C2; [by destruct (Hemit _ HR)|].
  destruct (negb demote && (m_rankId n <=? u8 (m_rankId me + 1))) eqn:C3; [by destruct (Hemit _ HR)|]. cbv zeta in HR.
  set (newRank := u8 (u32 (m_rankId n + (if demote then 1 else -1)))) in *.
  set (w1 := ChangeRank low' newRank w) in *. assert (guild_ok w1) as H1 by (apply ChangeRank_ok; [by apply wrap_range|done]).
  assert (logged w1 w' \/ False) as [HL|[]].
  { left. pose proof (_LogEvent_logged E (if demote then GUILD_EVENT_LOG_DEMOTE_PLAYER else GUILD_EVENT_LOG_PROMOTE_PLAYER) (GUID_LOPART s)
      (GUID_LOPART (m_guid n)) newRank w1 (ok_logs H1)) as H2.
    destruct (_LogEvent _ _ _ _ _ w1) as [w2|]; [|done]. cbn [bind_result] in HR. injection HR as <-. by transitivity w2. }
  rewrite (logged_members _ _ HL) in Hm'. unfold w1 in Hm'. rewrite members_ChangeRank, Hm in Hm'. injection Hm' as Hm'.
  destruct (decide (low = low')) as [->|]; [|by subst m'; destruct Hne]. assert (m = n) as -> by congruence. subst m'. cbn in *.
  split_and!; [done|congruence|done|]. exists me. split; [done|]. unfold in_u in *. change (2 ^ 8) with 256 in *. assert (0 <= _GetLowestRankId (guild w) < 256) as Hlow by by apply (wrap_range 8).
  destruct demote; cbn [andb negb] in *.
  - apply Z.leb_gt in C1, C2. assert (newRank = m_rankId n + 1) as -> by (unfold newRank; rewrite (wrap_id 32), (wrap_id 8); width). lia.
  - apply Z.leb_gt in C3. pose proof (wrap_range 8 (m_rankId me + 1) ltac:(lia)) as Hu. unfold in_u in Hu. change (2 ^ 8) with 256 in Hu.
    assert (newRank = m_rankId n - 1) as -> by (unfold newRank; rewrite (wrap_id 32), (wrap_id 8); width). split; [lia|]. intros Hlt.
    rewrite wrap_id in C3 by width. lia.
Qed.

(** ** Rights *)

(** C34: a member has a right exactly if his rank has the bit of the right, or lacks the
    bit that every right has: a rank without any right in the database, and a rank that
    was deleted, give every right. *)
Theorem rights_of_a_rank player m k g :
  GetMember player g = Some m -> 0 <= k -> k <> 6 ->
  _HasRankRight player (Z.lor GR_RIGHT_EMPTY (Z.shiftl 1 k)) g =
    Z.testbit (_GetRankRights (m_rankId m) g) k || negb (Z.testbit (_GetRankRights (m_rankId m) g) 6).
Proof.
  intros Hm Hk Hk6. unfold _HasRankRight, has_right. rewrite Hm. set (r := _GetRankRights (m_rankId m) g).
  assert (forall i, 0 <= i -> Z.testbit (Z.land r (Z.lor GR_RIGHT_EMPTY (Z.shiftl 1 k))) i = Z.testbit r i && ((i =? 6) || (i =? k))) as Hbit.
  { intros i Hi. rewrite Z.land_spec, Z.lor_spec. f_equal. f_equal.
    - change GR_RIGHT_EMPTY with (2 ^ 6). rewrite Z.pow2_bits_eqb by lia. by rewrite Z.eqb_sym.
    - rewrite Z.shiftl_1_l, Z.pow2_bits_eqb by lia. by rewrite Z.eqb_sym. }
  destruct (Z.eqb_spec (Z.land r (Z.lor GR_RIGHT_EMPTY (Z.shiftl 1 k))) GR_RIGHT_EMPTY) as [E|E]; cbn [negb].
  - assert (forall i, 0 <= i -> Z.testbit r i && ((i =? 6) || (i =? k)) = (i =? 6)) as H.
    { intros i Hi. rewrite <- Hbit, E by done. change GR_RIGHT_EMPTY with (2 ^ 6). rewrite Z.pow2_bits_eqb by lia. by rewrite Z.eqb_sym. }
    pose proof (H 6 ltac:(lia)) as H6. pose proof (H k Hk) as Hk'. rewrite Z.eqb_refl, orb_true_r, andb_true_r in Hk'.
    rewrite Z.eqb_refl, orb_true_l, andb_true_r in H6. rewrite H6, Hk'. cbn [negb orb]. rewrite orb_false_r. destruct (Z.eqb_spec k 6); [lia|done].
  - destruct (Z.testbit r k) eqn:Ek; [done|]. destruct (Z.testbit r 6) eqn:E6; [|done]. destruct E.
    apply Z.bits_inj'. intros i Hi. rewrite Hbit by done. change GR_RIGHT_EMPTY with (2 ^ 6). rewrite Z.pow2_bits_eqb, (Z.eqb_sym 6) by lia.
    destruct (Z.eqb_spec i 6) as [->|]; [by rewrite E6|]. destruct (Z.eqb_spec i k) as [->|]; [by rewrite Ek|by rewrite andb_false_r].
Qed.

(** ** Money *)
(** The money of a player who had [money] and is given [amount] as an [int32]: up to the
    most he can have; one more than that is added as it is; from [2 ^ 31] on it is taken
    from him. *)
Definition money_given (money amount : Z) : Z :=
  if amount <=? MAX_MONEY_AMOUNT then Z.min (money + amount) MAX_MONEY_AMOUNT
  else if amount <? 2 ^ 31 then money + amount
  else Z.max 0 (money - (2 ^ 32 - amount)).
Lemma ModifyMoney_gives guid amount w p :
  0 <= amount < 2 ^ 32 -> FindPlayer guid w = Some p -> 0 <= p_money p <= MAX_MONEY_AMOUNT ->
  players (ModifyMoney guid (s32 amount) w) = map_set guid (set_money (money_given (p_money p) amount) p) (players w).
Proof.
  intros Ha Hp Hm. unfold ModifyMoney, SetMoney, on_player. cbv zeta.
  assert (forall es, FindPlayer guid (emit es w) = Some p) as Hf by done. rewrite Hf. unfold money_given, MAX_MONEY_AMOUNT in *.
  destruct (Z.leb_spec amount (0x7FFFFFFF - 1)) as [Hle|Hgt].
  { rewrite swrap_id by width. destruct (Z.ltb_spec amount 0); [lia|]. rewrite (wrap_id 32 (_ - amount)) by width.
    destruct (Z.ltb_spec (p_money p) (0x7FFFFFFF - 1 - amount)).
    - cbn. rewrite Z.min_l by lia. by rewrite wrap_id by width.
    - unfold FindPlayer in *. destruct (amount =? 0); cbn; rewrite Hp; cbn; by rewrite Z.min_r by lia. }
  destruct (Z.ltb_spec amount (2 ^ 31)) as [Hlt|Hge].
  - assert (amount = 2 ^ 31 - 1) as -> by lia. change (s32 (2 ^ 31 - 1)) with (2 ^ 31 - 1). cbn [Z.ltb].
    change (u32 (0x7FFFFFFF - 1 - (2 ^ 31 - 1))) with (2 ^ 32 - 1). destruct (Z.ltb_spec (2 ^ 31 - 1) 0); [lia|].
    destruct (Z.ltb_spec (p_money p) (2 ^ 32 - 1)); [|lia]. cbn. by rewrite wrap_id by width.
  - assert (s32 amount = amount - 2 ^ 32) as ->.
    { unfold s32, swrap. replace (amount + 2 ^ (32 - 1)) with (amount - 2 ^ 31 + 1 * 2 ^ 32) by lia. rewrite Z.mod_add, Z.mod_small by lia. lia. }
    destruct (Z.ltb_spec (amount - 2 ^ 32) 0); [|lia]. rewrite (wrap_id 32 (- _)) by width.
    destruct (Z.ltb_spec (- (amount - 2 ^ 32)) (p_money p)).
    + rewrite wrap_id by width. rewrite Z.max_r by lia. by replace (p_money p - (2 ^ 32 - amount)) with (p_money p + (amount - 2 ^ 32)) by lia.
    + by rewrite Z.max_l by lia.
Qed.

(** What a member took today and what he may take in all. *)
Definition taken (m : Member) : Z := default 0 (m_bankWithdraw m !! 6%nat).

Lemma limit_kept m amount g :
  m_rankId m <> GR_GUILDMASTER -> 0 < amount -> 0 <= taken m < 2 ^ 31 -> 0 <= _GetRankBankMoneyPerDay (m_rankId m) g ->
  length (m_bankWithdraw m) = 7%nat -> amount <= u32 (_GetMemberRemainingMoney m g) ->
  taken (UpdateBankWithdrawValue GUILD_BANK_MAX_TABS amount m).1 = taken m + amount /\ taken m + amount <= _GetRankBankMoneyPerDay (m_rankId m) g.
Proof.
  intros Hk Ha Ht Hl Hn Hr. unfold _GetMemberRemainingMoney in Hr. destruct (Z.eqb_spec (m_rankId m) GR_GUILDMASTER); [done|].
  assert (GetBankWithdrawValue GUILD_BANK_MAX_TABS m = taken m) as Et.
  { unfold GetBankWithdrawValue, IsRank. by destruct (Z.eqb_spec (m_rankId m) GR_GUILDMASTER). }
  assert (in_s 32 (_GetRankBankMoneyPerDay (m_rankId m) g)) as Hs by (unfold _GetRankBankMoneyPerDay; destruct (GetRankInfo _ _); [by apply swrap_range|done]).
  set (limit := _GetRankBankMoneyPerDay (m_rankId m) g) in *.
  assert (taken m + amount <= limit) as Hle.
  { destruct (has_right _ _); [|change (u32 0) with 0 in Hr; lia]. unfold remaining in Hr. rewrite Et, swrap_id in Hr by width.
    destruct (Z.ltb_spec 0 (limit - taken m)); [rewrite wrap_id in Hr by width; lia|change (u32 0) with 0 in Hr; lia]. }
  split; [|done]. unfold taken. cbn. change (Z.to_nat GUILD_BANK_MAX_TABS) with 6%nat. rewrite list_lookup_insert_eq by lia. cbn.
  change (default 0 (m_bankWithdraw m !! 6%nat)) with (taken m). rewrite wrap_id by width. apply swrap_id; width.
Qed.

(** C23: a withdrawal takes the amount from the bank, which has it. It counts towards what
    a member below the guild master took today, and when neither that nor the limit of his
    rank is negative, he stays within the limit. A repair leaves the
    players as they were; otherwise a member who has no more money than a player can have
    receives the amount up to that, for amounts below 2^31 - 1; the amount 2^31 - 1 is added
    without regard to it, and for an amount of 2^31 or more he loses what is missing to
    2^32, or all he has. *)
Theorem withdraw_within_limit E s amount repair w w' :
  guild_ok w -> 0 < amount < 2 ^ 32 -> HandleMemberWithdrawMoney E s amount repair w = Ok (true, w') ->
  exists m m', GetMember s (guild w) = Some m /\ m_members (guild w') = map_set s m' (m_members (guild w)) /\
    m_rankId m' = m_rankId m /\ amount <= m_bankMoney (guild w) /\ m_bankMoney (guild w') = m_bankMoney (guild w) - amount /\
    (m_rankId m <> GR_GUILDMASTER -> 0 <= taken m < 2 ^ 31 -> 0 <= _GetRankBankMoneyPerDay (m_rankId m) (guild w) ->
     taken m' = taken m + amount /\ taken m' <= _GetRankBankMoneyPerDay (m_rankId m) (guild w)) /\
    if repair : bool then players w' = players w
    else forall p, FindPlayer s w = Some p -> 0 <= p_money p <= MAX_MONEY_AMOUNT ->
         players w' = map_set s (set_money (money_given (p_money p) amount) p) (players w).
Proof.
  intros Hw Ha HR. unfold HandleMemberWithdrawMoney, GetPlayer in HR. destruct (Z.ltb_spec (m_bankMoney (guild w)) amount) as [|Hb]; [done|].
  destruct (FindPlayer s w) as [p|] eqn:Ep; [|done]. cbn [bind_result] in HR. assert (in_u 32 s) as Hs by by apply (pw_key _ (ok_players Hw) s p).
  destruct (GetMember s (guild w)) as [m|] eqn:Em; [|done].
  destruct (Z.ltb_spec (u32 (_GetMemberRemainingMoney m (guild w))) amount) as [|Hrem]; [done|]. cbv zeta in HR.
  assert (map_find s (m_members (guild w)) = Some m) as Em' by (unfold GetMember in Em; by rewrite low_id in Em).
  set (w1 := emit [Script OnGuildMemberWitdrawMoney _] w) in *. set (w2 := save_withdraw _ _ _ _ w1) in *.
  set (m' := (UpdateBankWithdrawValue GUILD_BANK_MAX_TABS amount m).1).
  assert (guild w2 = set_members (map_set s m' (m_members (guild w))) (guild w) /\ players w2 = players w) as [G2 P2].
  { unfold w2, save_withdraw, UpdateBankWithdrawValue. cbn. by rewrite low_id. }
  assert (logs_wf (guild w2)) as L2 by (rewrite G2; apply Hw).
  clearbody w2. unfold _ModifyBankMoney in HR. rewrite G2 in HR. cbn [m_bankMoney set_members] in HR. destruct (Z.ltb_spec (m_bankMoney (guild w)) amount); [lia|].
  set (w3 := emit [Execute CHAR_UPD_GUILD_BANK_MONEY _] _) in *. set (w4 := if repair then w3 else _) in *.
  assert (guild w4 = set_bankMoney (m_bankMoney (guild w) - amount) (guild w2)) as G4.
  { unfold w4. destruct repair; [by unfold w3; cbn; rewrite G2|]. cbn [guild emit set_trace]. rewrite guild_ModifyMoney. unfold w3. cbn. by rewrite G2. }
  assert (logged w4 w') as [HL _].
  { pose proof (_LogBankEvent_logged E (if repair then GUILD_BANK_LOG_REPAIR_MONEY else GUILD_BANK_LOG_WITHDRAW_MONEY) 0 (GUID_LOPART s) amount 0 0 w4) as H5.
    destruct (_LogBankEvent _ _ _ _ _ _ _ w4) as [w5|]; [|destruct H5; [by rewrite G4|lia]]. cbn [bind_result] in HR. apply Ok_inj in HR.
    assert (w' = _BroadcastEvent GE_BANK_MONEY_CHANGED 0 [amount_text E amount] w5) as -> by congruence. transitivity w5; [apply H5; [by rewrite G4|lia]|done]. }
  injection HL as E1 E2 E3 E4 E5 E6 E7 E8. exists m, m'. rewrite E4, E5, E7, G4, G2. split_and!; try done.
  - intros Hk Ht Hl. destruct (limit_kept m amount (guild w)) as [E9 ?]; try done; [lia|by apply (mw_key _ (ok_members Hw) _ _ Em')|].
    fold m' in E9. by rewrite E9.
  - unfold w4. destruct repair; [by cbn; rewrite P2|]. intros q [= <-] Hq. cbn [players emit set_trace].
    rewrite (ModifyMoney_gives s amount w3 p); [|lia|by unfold FindPlayer in *; cbn; rewrite P2|done]. cbn. by rewrite P2.
Qed.

(** ** Logs *)

(** The entries have successive numbers modulo the size; the last number is the last
    entry's. *)
Record ring (n : Z) (l : LogHolder) : Prop := {
  rg_max : m_maxRecords l = n;
  rg_len : size (m_log l) <= n;
  rg_next : m_nextGUID l = match last (m_log l) with Some e => entry_guid e | None => GUILD_EVENT_LOG_GUID_UNDEFINED end;
  rg_numbers : exists s, 0 <= s /\ (size (m_log l) < n -> s = 0) /\
    forall i e, m_log l !! i = Some e -> entry_guid e = (s + Z.of_nat i) mod n
}.

Lemma filter_none {A} (P : A -> Prop) `{forall x, Decision (P x)} (l : list A) : (forall x, x ∈ l -> ~ P x) -> filter P l = [].
Proof.
  induction l as [|x l IH]; intros Hl; [done|]. rewrite filter_cons_False by (apply Hl; by left). apply IH. intros y Hy. apply Hl. by right.
Qed.

Lemma mod_apart s j n : 0 < j < n -> (s + j) mod n <> s mod n.
Proof.
  intros Hj. rewrite <- Z.add_mod_idemp_l by lia. pose proof (Z.mod_pos_bound s n ltac:(lia)) as Hr. set (r := s mod n) in *. clearbody r.
  destruct (decide (r + j < n)); [rewrite Z.mod_small; lia|]. rewrite <- (Z.mod_add (r + j) (-1) n), Z.mod_small by lia. lia.
Qed.
Lemma ring_snoc s n log e :
  (forall i x, log !! i = Some x -> entry_guid x = (s + Z.of_nat i) mod n) -> entry_guid e = (s + size log) mod n ->
  forall i x, (log ++ [e]) !! i = Some x -> entry_guid x = (s + Z.of_nat i) mod n.
Proof.
  intros Hl He i x [Hi|[Hi Hx]]%lookup_app_Some; [by apply Hl|].
  destruct (i - length log)%nat eqn:Ei; [|done]. injection Hx as <-. rewrite He. unfold size. do 2 f_equal. lia.
Qed.

(** A new entry takes the next number; the entry that had it goes. *)
Lemma ring_step n l (mk : Z -> LogEntry) :
  0 < n < 2 ^ 32 -> (forall g, entry_guid (mk g) = g) -> ring n l ->
  exists g l', (let? (guid, log) := GetNextGUID l in let? log := AddEvent (mk guid) log in Ok (guid, log)) = Ok (g, l') /\
    m_log l' = filter (fun e => entry_guid e <> g) (m_log l) ++ [mk g] /\ ring n l' /\ 0 <= g < n.
Proof.
  intros Hn Hmk [Hm Hlen Hnext (s & Hs & Hs0 & Hnum)].
  set (g := (s + size (m_log l)) mod n). assert (0 <= g < n) as Hg by (apply Z.mod_pos_bound; lia).
  assert (GetNextGUID l = Ok (g, mkLog (m_log l) n g)) as ->.
  { unfold GetNextGUID. rewrite Hm. destruct (last (m_log l)) as [e|] eqn:El.
    - rewrite last_lookup in El. assert (0 < size (m_log l)) as Hp by (apply lookup_lt_Some in El; unfold size; lia).
      apply Hnum in El. rewrite Hnext, El. set (x := (s + Z.of_nat (Nat.pred (length (m_log l)))) mod n).
      assert (0 <= x < n) as Hx by (apply Z.mod_pos_bound; lia). unfold GUILD_EVENT_LOG_GUID_UNDEFINED. destruct (Z.eqb_spec x 0xFFFFFFFF); [lia|].
      destruct (Z.eqb_spec n 0); [lia|]. rewrite wrap_id by width. cbn [bind_result]. assert ((x + 1) mod n = g) as ->; [|done].
      unfold x, g. rewrite Zplus_mod_idemp_l. f_equal. unfold size in *. lia.
    - rewrite Hnext. cbn. apply last_None in El. unfold g, size in *. rewrite El in *. cbn in *. rewrite Hs0 by lia. done. }
  cbn [bind_result]. unfold AddEvent. cbn [m_log m_maxRecords m_nextGUID].
  assert (forall log : list LogEntry, last (log ++ [mk g]) = Some (mk g)) as Hlast by (intros; apply last_snoc).
  destruct (Z.leb_spec n (size (m_log l))) as [Hfull|Hroom].
  - destruct (m_log l) as [|e0 log]; [unfold size in Hfull; cbn in Hfull; lia|]. assert (size (e0 :: log) = n) as Hsz by lia.
    cbn [bind_result]. eexists _, _. split; [done|]. cbn [m_log]. assert (g = s mod n) as Eg by (unfold g; by rewrite Hsz, <- Z.add_mod_idemp_r, Z.mod_same, Z.add_0_r by lia).
    split; [|split; [|done]].
    + rewrite filter_cons_False, filter_all; [done| |].
      * intros e (i & Hi)%list_elem_of_lookup. rewrite (Hnum (S i) e Hi), Eg. apply mod_apart. apply lookup_lt_Some in Hi. unfold size in Hsz. cbn in Hsz. lia.
      * intros Hne. apply Hne. rewrite (Hnum 0%nat e0 eq_refl), Eg. by rewrite Z.add_0_r.
    + assert (size log = n - 1) as Hsl by (unfold size in *; cbn in Hsz; lia). constructor; cbn [m_log m_maxRecords m_nextGUID].
      * done.
      * unfold size in *. rewrite length_app. cbn. lia.
      * by rewrite Hlast, Hmk.
      * exists (s + 1). split; [lia|]. split; [intros H; unfold size in *; rewrite length_app in H; cbn in H; lia|]. apply ring_snoc.
        -- intros i e Hi. rewrite (Hnum (S i) e Hi). f_equal. lia.
        -- rewrite Hmk, Hsl. unfold g. rewrite Hsz. f_equal. lia.
  - cbn [bind_result]. eexists _, _. split; [done|]. cbn [m_log]. assert (s = 0) as -> by auto. assert (g = size (m_log l)) as Eg.
    { unfold g. rewrite Z.add_0_l. apply Z.mod_small. unfold size in *. lia. }
    split; [|split; [|done]].
    + rewrite filter_all; [done|]. intros e (i & Hi)%list_elem_of_lookup. rewrite (Hnum i e Hi), Eg. pose proof (lookup_lt_Some _ _ _ Hi).
      rewrite Z.mod_small by (unfold size in *; lia). unfold size. lia.
    + constructor; cbn [m_log m_maxRecords m_nextGUID].
      * done.
      * unfold size in *. rewrite length_app. cbn. lia.
      * by rewrite Hlast, Hmk.
      * exists 0. split; [lia|]. split; [done|]. apply ring_snoc; [done|]. by rewrite Hmk.
Qed.

Lemma sublist_sorted {A} (R : A -> A -> Prop) (l1 l2 : list A) : sublist l1 l2 -> StronglySorted R l2 -> StronglySorted R l1.
Proof.
  induction 1 as [|x l1 l2 Hs IH|x l1 l2 Hs IH]; intros H; [done| |]; apply StronglySorted_inv in H as [H1 H2]; [|auto].
  constructor; [auto|]. rewrite Forall_forall in *. intros y Hy. apply H2. by eapply elem_of_submseteq, sublist_submseteq.
Qed.

(** The table of the database: deletions and insertions of the rows of one guild. *)
Definition eventlog_row (guildId : Z) (t : list LogEntry) (e : effect) : list LogEntry :=
  match e with
  | Execute CHAR_DEL_GUILD_EVENTLOG [U32 g; U32 k] => if g =? guildId then filter (fun x => entry_guid x <> k) t else t
  | Execute CHAR_INS_GUILD_EVENTLOG [U32 g; U32 k; U8 ty; U32 p1; U32 p2; U8 r; U64 ts] =>
      if g =? guildId then t ++ [EventLogEntry k ts ty p1 p2 r] else t
  | _ => t
  end.
Definition eventlog_table (guildId : Z) (t : list LogEntry) (es : list effect) : list LogEntry := fold_left (eventlog_row guildId) es t.

(** Events at their times, logged one after the other. *)
Fixpoint log_events (l : list (Env * (Z * Z * Z * Z))) (w : World) : result fault World :=
  match l with
  | [] => Ok w
  | (E, (ty, p1, p2, r)) :: l => let? w := _LogEvent E ty p1 p2 r w in log_events l w
  end.
Definition entry_time (e : LogEntry) : Z :=
  match e with EventLogEntry _ ts _ _ _ _ | BankEventLogEntry _ ts _ _ _ _ _ _ => ts end.

Lemma log_events_table n l w t0 :
  0 < n < 2 ^ 32 -> ring n (m_eventLog (guild w)) -> eventlog_table (m_id (guild w)) t0 (trace w) = m_log (m_eventLog (guild w)) ->
  Forall (fun x => in_u 8 x.2.1.1.1) l ->
  StronglySorted Z.lt (map entry_time (m_log (m_eventLog (guild w))) ++ map (fun x => now x.1) l) ->
  exists w', log_events l w = Ok w' /\ m_id (guild w') = m_id (guild w) /\ ring n (m_eventLog (guild w')) /\
    eventlog_table (m_id (guild w)) t0 (trace w') = m_log (m_eventLog (guild w')) /\
    StronglySorted Z.lt (map entry_time (m_log (m_eventLog (guild w')))).
Proof.
  intros Hn. revert w. induction l as [|[E [[[ty p1] p2] r]] l IH]; intros w Hr Ht Hl Hs; cbn [log_events].
  { exists w. rewrite app_nil_r in Hs. done. }
  apply Forall_cons in Hl as [Hty Hl]. cbn in Hty.
  destruct (ring_step n (m_eventLog (guild w)) (fun g => EventLogEntry g (now E) ty p1 p2 r) Hn ltac:(done) Hr) as (g & l' & Hstep & Hlog & Hr' & Hg).
  unfold _LogEvent. destruct (GetNextGUID (m_eventLog (guild w))) as [[g0 log0]|]; [|done]. cbn [bind_result] in Hstep |- *.
  destruct (AddEvent _ log0) as [log1|]; [|done]. cbn [bind_result] in Hstep |- *. injection Hstep as -> ->.
  match goal with |- context [log_events l ?w1] => destruct (IH w1) as (w' & E1 & E2 & E3 & E4 & E5) end; [done| |done| |].
  - cbn [guild emit on_this set_guild m_id set_eventLog trace set_trace m_eventLog]. unfold eventlog_table in *. rewrite !fold_left_app, Ht.
    cbn. rewrite Z.eqb_refl, Hlog. by rewrite wrap_id.
  - cbn. rewrite Hlog, map_app, <- app_assoc. cbn in Hs |- *. eapply sublist_sorted; [|exact Hs].
    apply sublist_app; [|done]. apply fmap_sublist, sublist_filter.
  - exists w'. split_and!; [done|by rewrite E2|done| |done]. by rewrite <- E4.
Qed.

(** The order of the query that loads the rows. *)
Definition newest_first (a b : LogEntry) : Prop :=
  entry_time b < entry_time a \/ entry_time a = entry_time b /\ entry_guid b <= entry_guid a.
Definition load_events (rows : list LogEntry) (w : World) : World := fold_left (fun w e => (LoadEventLogFromDB e w).2) rows w.

Lemma load_events_rows rows w :
  m_nextGUID (m_eventLog (guild w)) <> GUILD_EVENT_LOG_GUID_UNDEFINED ->
  size (m_log (m_eventLog (guild w))) + size rows <= m_maxRecords (m_eventLog (guild w)) ->
  m_eventLog (guild (load_events rows w)) =
    mkLog (rev rows ++ m_log (m_eventLog (guild w))) (m_maxRecords (m_eventLog (guild w))) (m_nextGUID (m_eventLog (guild w))).
Proof.
  revert w. induction rows as [|e rows IH]; intros w Hn Hs; cbn [load_events fold_left]; [by destruct (m_eventLog (guild w))|].
  change (fold_left _ rows ?w1) with (load_events rows w1). set (w1 := (LoadEventLogFromDB e w).2).
  assert (m_eventLog (guild w1) = mkLog (e :: m_log (m_eventLog (guild w))) (m_maxRecords (m_eventLog (guild w))) (m_nextGUID (m_eventLog (guild w)))) as E1.
  { unfold w1, LoadEventLogFromDB, CanInsert. destruct (Z.ltb_spec (size (m_log (m_eventLog (guild w)))) (m_maxRecords (m_eventLog (guild w)))) as [_|Hc].
    - cbn. unfold LoadEvent. by destruct (Z.eqb_spec (m_nextGUID (m_eventLog (guild w))) GUILD_EVENT_LOG_GUID_UNDEFINED).
    - unfold size in *. cbn in Hs. lia. }
  rewrite IH; rewrite E1; cbn [m_log m_maxRecords m_nextGUID rev]; [by rewrite <- app_assoc|done|].
  unfold size in *. cbn [length] in *. lia.
Qed.
Lemma load_events_ring n l w :
  0 < n < 2 ^ 32 -> ring n l -> m_eventLog (guild w) = new_log n -> m_eventLog (guild (load_events (rev (m_log l)) w)) = l.
Proof.
  intros Hn [Hm Hlen Hnext (s & Hs & _ & Hnum)] Hw. destruct l as [log mx next]. cbn in *. subst mx. destruct (last log) as [e|] eqn:El.
  - apply last_Some in El as [l' ->]. rewrite rev_app_distr. cbn. change (fold_left _ (rev l') ?w1) with (load_events (rev l') w1).
    assert (0 <= entry_guid e < n) as Hg.
    { rewrite (Hnum (length l') e) by (rewrite lookup_app_r by done; by rewrite Nat.sub_diag). apply Z.mod_pos_bound. lia. }
    set (w1 := (LoadEventLogFromDB e w).2). assert (m_eventLog (guild w1) = mkLog [e] n (entry_guid e)) as E1.
    { unfold w1, LoadEventLogFromDB. rewrite Hw. unfold CanInsert. destruct (Z.ltb_spec (size (m_log (new_log n))) (m_maxRecords (new_log n))) as [_|Hc]; [cbn; by rewrite Hw|].
      unfold size in Hc. cbn in Hc. lia. }
    rewrite load_events_rows; rewrite E1; cbn [m_log m_maxRecords m_nextGUID].
    + by rewrite rev_involutive, Hnext.
    + unfold GUILD_EVENT_LOG_GUID_UNDEFINED. lia.
    + unfold size in *. rewrite length_app in Hlen. rewrite length_rev. cbn [length] in *. lia.
  - apply last_None in El as ->. cbn. by rewrite Hw, Hnext.
Qed.

Lemma sorted_times_inj {A} (f : A -> Z) l x y : StronglySorted Z.lt (map f l) -> x ∈ l -> y ∈ l -> f x = f y -> x = y.
Proof.
  induction l as [|a l IH]; intros Hs Hx Hy E; [by apply not_elem_of_nil in Hx|]. apply StronglySorted_inv in Hs as [Hs Ha].
  rewrite Forall_forall in Ha. assert (forall z, z ∈ l -> f a < f z) as Hlt by (intros z Hz; by apply Ha, list_elem_of_fmap_2).
  apply elem_of_cons in Hx as [->|Hx], Hy as [->|Hy]; [done|specialize (Hlt _ Hy); lia|specialize (Hlt _ Hx); lia|by apply IH].
Qed.
Lemma newest_first_rev l : StronglySorted Z.lt (map entry_time l) -> StronglySorted newest_first (rev l).
Proof.
  induction l as [|a l IH]; intros Hs; cbn; [constructor|]. apply StronglySorted_inv in Hs as [Hs Ha]. rewrite Forall_forall in Ha.
  apply StronglySorted_app_2; [|auto|by constructor; [constructor|]].
  intros x y Hx ->%list_elem_of_singleton. left. apply Ha, list_elem_of_fmap_2. by rewrite Permutation_rev.
Qed.

(** C38: the log of events that start-up loads is the log as it was: after any number of
    events, each later than the one before, the rows in the database, taken in the order
    of the query, give the same entries, the same next number and the same size. *)
Theorem event_log_restored n l w w2 :
  0 < n < 2 ^ 32 -> m_eventLog (guild w) = new_log n -> eventlog_table (m_id (guild w)) [] (trace w) = [] ->
  Forall (fun x => in_u 8 x.2.1.1.1) l -> StronglySorted Z.lt (map (fun x => now x.1) l) -> m_eventLog (guild w2) = new_log n ->
  exists w', log_events l w = Ok w' /\
    forall rows, rows ≡ₚ eventlog_table (m_id (guild w)) [] (trace w') -> StronglySorted newest_first rows ->
      m_eventLog (guild (load_events rows w2)) = m_eventLog (guild w').
Proof.
  intros Hn Hw Ht Hl Hs Hw2. destruct (log_events_table n l w [] Hn) as (w' & E1 & E2 & E3 & E4 & E5).
  - rewrite Hw. constructor; try done; [unfold size; cbn; lia|].
    exists 0. split_and!; [done|done|]. by intros [|i] e Hi.
  - by rewrite Ht, Hw.
  - done.
  - by rewrite Hw.
  - exists w'. split; [done|]. intros rows Hp Hr. rewrite E4 in Hp. rewrite <- (load_events_ring n (m_eventLog (guild w')) w2) by done.
    do 2 f_equal. f_equal. apply (StronglySorted_unique_strong newest_first); [|done|by apply newest_first_rev|rewrite Hp; apply Permutation_rev].
    intros x y Hx Hy H1 H2. rewrite Hp in Hx. rewrite <- Permutation_rev in Hy. apply (sorted_times_inj entry_time (m_log (m_eventLog (guild w')))); try done.
    unfold newest_first in *. lia.
Qed.


(** ** Examples *)
Definition bobs_name : list Z := [66; 111; 98].
Definition or_ex (m : result fault World) : World := match m with Ok w => w | Throw _ => ex end.
Definition ex_removed : World := or_ex (HandleRemoveMember E0 1 bobs_name ex).
Definition ex_promoted : World := or_ex (HandleUpdateMemberRank E0 1 bobs_name false ex).
Definition bobs_member (w : World) : Member := match map_find 2 (m_members (guild w)) with Some m => m | None => new_member E0 0 0 end.
Definition ex_rich : World := or_ex (HandleMemberDepositMoney E0 1 900 ex).
Definition ex_withdrawn : World := match HandleMemberWithdrawMoney E0 1 400 false ex_rich with Ok (_, w) => w | Throw _ => ex end.
Definition ex_times (t : Z) : Env :=
  mkEnv t 2 25 true false (fun _ => 0) (fun _ => None) (fun _ => 0) (fun _ => 1) (fun _ => 0) (fun i _ => [i]) (fun _ => 20) (fun _ => Some 0) (fun t => t) 0 [].
Definition ex_events : list (Env * (Z * Z * Z * Z)) :=
  [(ex_times 10, (2, 5, 0, 0)); (ex_times 20, (3, 1, 5, 2)); (ex_times 31, (6, 5, 0, 0))].
Definition ex_log (n : Z) : World := on_this (set_eventLog (new_log n)) ex0.

Lemma ex_rich_ok : guild_ok ex_rich.
Proof.
  unfold ex_rich. pose proof (HandleMemberDepositMoney_ok E0 1 900 ex ex_ok ltac:(vm_compute; by eexists)) as H.
  destruct (HandleMemberDepositMoney _ _ _ _) as [w|]; [exact H|destruct H].
Qed.

Lemma removed_from_above_witness :
  m_name (bobs_member ex) = bobs_name /\ m_rankId (bobs_member ex) <> GR_GUILDMASTER /\ _HasRankRight 1 GR_RIGHT_REMOVE (guild ex) = true /\
  exists me, GetMember 1 (guild ex) = Some me /\ m_rankId me < m_rankId (bobs_member ex).
Proof.
  apply (removed_from_above E0 1 bobs_name ex ex_removed 2 (bobs_member ex)); [apply ex_ok|vm_compute; reflexivity..].
Defined.
Lemma rank_moves_below_witness :
  m_name (bobs_member ex) = bobs_name /\ 1 <> 2 /\ _HasRankRight 1 GR_RIGHT_PROMOTE (guild ex) = true /\
  exists me, GetMember 1 (guild ex) = Some me /\
    m_rankId (bobs_member ex_promoted) = m_rankId (bobs_member ex) - 1 /\ (m_rankId me < 255 -> m_rankId me < m_rankId (bobs_member ex_promoted)).
Proof.
  apply (rank_moves_below E0 1 bobs_name false ex ex_promoted 2 (bobs_member ex) (bobs_member ex_promoted));
    [apply ex_ok|vm_compute; reflexivity|vm_compute; reflexivity|vm_compute; reflexivity|vm_compute; discriminate].
Defined.
Lemma rights_of_a_rank_witness :
  _HasRankRight 2 GR_RIGHT_INVITE (guild ex) =
    Z.testbit (_GetRankRights (m_rankId (bobs_member ex)) (guild ex)) 4 || negb (Z.testbit (_GetRankRights (m_rankId (bobs_member ex)) (guild ex)) 6).
Proof. apply (rights_of_a_rank 2 (bobs_member ex) 4 (guild ex)); [vm_compute; reflexivity|done|done]. Defined.
Lemma withdraw_within_limit_witness :
  exists m m', GetMember 1 (guild ex_rich) = Some m /\ m_members (guild ex_withdrawn) = map_set 1 m' (m_members (guild ex_rich)) /\
    m_rankId m' = m_rankId m /\ 400 <= m_bankMoney (guild ex_rich) /\ m_bankMoney (guild ex_withdrawn) = m_bankMoney (guild ex_rich) - 400 /\
    (m_rankId m <> GR_GUILDMASTER -> 0 <= taken m < 2 ^ 31 -> 0 <= _GetRankBankMoneyPerDay (m_rankId m) (guild ex_rich) ->
     taken m' = taken m + 400 /\ taken m' <= _GetRankBankMoneyPerDay (m_rankId m) (guild ex_rich)) /\
    forall p, FindPlayer 1 ex_rich = Some p -> 0 <= p_money p <= MAX_MONEY_AMOUNT ->
      players ex_withdrawn = map_set 1 (set_money (money_given (p_money p) 400) p) (players ex_rich).
Proof. apply (withdraw_within_limit E0 1 400 false ex_rich ex_withdrawn); [apply ex_rich_ok|done|vm_compute; reflexivity]. Defined.
Lemma event_log_restored_witness :
  exists w', log_events ex_events (ex_log 2) = Ok w' /\
    forall rows, rows ≡ₚ eventlog_table (m_id (guild (ex_log 2))) [] (trace w') -> StronglySorted newest_first rows ->
      m_eventLog (guild (load_events rows (ex_log 2))) = m_eventLog (guild w').
Proof.
  apply (event_log_restored 2 ex_events (ex_log 2) (ex_log 2)); try done; [by repeat apply Forall_cons_2; [..|apply Forall_nil_2]|].
  repeat constructor.
Defined.


(** ** Surprises *)

(** A member who declines an invitation is still a member and counts as in no guild. *)
Example decline_unmarks :
  is_Some (GetMember 2 (guild (HandleGuildDeclineOpcode 2 ex))) /\
  p_guildId <$> FindPlayer 2 (HandleGuildDeclineOpcode 2 ex) = Some 0.
Proof. vm_compute. split; [by eexists|reflexivity]. Qed.
(** A leader who hands the guild to himself leads it as an officer. *)
Example leader_to_self :
  (fun w => (m_leaderGuid (guild w), m_rankId <$> GetMember 1 (guild w))) (or_ex (HandleSetLeader 1 [65; 110; 110] ex)) = (1, Some 1).
Proof. by vm_compute. Qed.
(** The rank of a member is deleted: he stays in it and has every right. *)
Example deleted_rank_has_all_rights :
  let w := (ChangeMemberRank 2 5 (HandleAddNewRank 1 [90] ex)).2 in
  let w := HandleRemoveLowestRank 1 w in
  m_rankId <$> GetMember 2 (guild w) = Some 5 /\ GetRankInfo 5 (guild w) = None /\
  _HasRankRight 2 GR_RIGHT_REMOVE (guild w) = true /\ _HasRankRight 2 GR_RIGHT_PROMOTE (guild w) = true.
Proof. by vm_compute. Qed.
(** Whoever takes 2 ^ 31 or more out of the bank loses money himself. *)
Example withdraw_half :
  let rich := on_this (set_bankMoney (2 ^ 33)) ex in
  (fun x : bool * World => (x.1, m_bankMoney (guild x.2), p_money <$> FindPlayer 1 x.2))
    (or_else (false, ex) (HandleMemberWithdrawMoney E0 1 (2 ^ 31 + 7) false rich)) = (true, 2 ^ 33 - 2 ^ 31 - 7, Some 0).
Proof. by vm_compute. Qed.
(** Two events of one second whose numbers wrap come back in the wrong order. *)
Example log_of_one_second :
  let w' := or_ex (log_events [(ex_times 10, (2, 5, 0, 0)); (ex_times 20, (2, 6, 0, 0)); (ex_times 20, (2, 7, 0, 0))] (ex_log 2)) in
  let rows := reverse (merge_sort (fun a b => entry_time a < entry_time b \/ entry_time a = entry_time b /\ entry_guid a <= entry_guid b)
                         (m_log (m_eventLog (guild w')))) in
  m_log (m_eventLog (guild (load_events rows (ex_log 2)))) <> m_log (m_eventLog (guild w')).
Proof. by vm_compute. Qed.

End GuildOutcomes.
