(* ===== verification/GuildStock.v ===== *)
(** * GuildStock: nothing is lost or doubled in the bank of a guild

    A move within the bank ([GuildBank]) keeps the number of items of each entry, never
    makes a stack larger than its maximum, and leaves the tables of the database
    describing the bank. *)
From S2P Require Import Prelude OrderedMap Guild GuildBank GuildRules GuildBankRules GuildStart.
Import Guild GuildBank GuildRules GuildBankRules GuildStart.
#[global] Open Scope Z_scope.

Module GuildStock.

(** ** The contents of the bank *)

(** The slots of the bank, by tab and slot. *)
Definition place (p : Z * Z) : Prop := 0 <= p.1 < GUILD_BANK_MAX_TABS /\ 0 <= p.2 < GUILD_BANK_MAX_SLOTS.
Definition view (w : World) (p : Z * Z) : option Item := _GetItem p.1 p.2 (guild w).
Definition all_places : list (Z * Z) := t ← seqZ 0 GUILD_BANK_MAX_TABS; s ← seqZ 0 GUILD_BANK_MAX_SLOTS; [(t, s)].

(** How many items of the entry there are. *)
Definition count_of (entry : Z) (o : option Item) : Z :=
  match o with Some it => if i_entry it =? entry then i_count it else 0 | None => 0 end.
Fixpoint total (f : Z * Z -> Z) (l : list (Z * Z)) : Z := match l with [] => 0 | p :: l => f p + total f l end.
Definition stored (entry : Z) (w : World) : Z := total (fun p => count_of entry (view w p)) all_places.

(** The rows of the slots and of the items, after statements and saved items. *)
Definition rows : Type := gmap (Z * Z) Z * gmap Z (Z * Z).
Definition bank_row (guildId : Z) (r : rows) (e : effect) : rows :=
  match e with
  | Execute CHAR_DEL_GUILD_BANK_ITEM [U32 g; U8 t; U8 s] => if g =? guildId then (delete (t, s) r.1, r.2) else r
  | Execute CHAR_INS_GUILD_BANK_ITEM [U32 g; U8 t; U8 s; U32 it] => if g =? guildId then (<[(t, s) := it]> r.1, r.2) else r
  | SaveItem it entry count => (r.1, <[it := (entry, count)]> r.2)
  | DeleteItem it true => (r.1, delete it r.2)
  | _ => r
  end.
Definition bank_rows (guildId : Z) (r : rows) (es : list effect) : rows := fold_left (bank_row guildId) es r.

(** Starting from the rows [r], the tables have the items of the bank. *)
Definition saved (r : rows) (w : World) : Prop :=
  forall p, place p ->
    (bank_rows (m_id (guild w)) r (trace w)).1 !! p = i_guid <$> view w p /\
    forall it, view w p = Some it -> (bank_rows (m_id (guild w)) r (trace w)).2 !! i_guid it = Some (i_entry it, i_count it).

Section Bank.
Context (E : Env).

(** Stacks are neither empty nor too large, and an item is in one place. *)
Record bank_ok (w : World) : Prop := {
  bk_tabs : (length (m_bankTabs (guild w)) <= 6)%nat;
  bk_ids i t : m_bankTabs (guild w) !! i = Some t -> t_tabId t = Z.of_nat i;
  bk_count p it : place p -> view w p = Some it -> 1 <= i_count it <= GetMaxStackCount E (i_entry it);
  bk_guid p it : place p -> view w p = Some it -> i_guid it < hiItemGuid w;
  bk_one p q a b : place p -> place q -> view w p = Some a -> view w q = Some b -> i_guid a = i_guid b -> p = q
}.

Lemma all_places_place p : p ∈ all_places <-> place p.
Proof.
  unfold all_places, place. rewrite list_elem_of_bind. split.
  - intros (t & H & Ht%elem_of_seqZ). apply list_elem_of_bind in H as (s & ->%list_elem_of_singleton & Hs%elem_of_seqZ). cbn. lia.
  - destruct p as [t s]. intros [Ht Hs]. exists t. split; [|by apply elem_of_seqZ]. apply list_elem_of_bind. exists s.
    split; [by apply list_elem_of_singleton|by apply elem_of_seqZ].
Qed.
Lemma all_places_NoDup : NoDup all_places.
Proof. apply (bool_decide_unpack _). vm_compute. exact I. Qed.

Lemma total_ext f g l : (forall p, p ∈ l -> f p = g p) -> total f l = total g l.
Proof. induction l as [|x l IH]; intros H; cbn; [done|]. rewrite (H x) by by left. rewrite IH; [done|]. intros p Hp. apply H. by right. Qed.
Lemma total_one f g l p : NoDup l -> p ∈ l -> (forall q, q ∈ l -> q <> p -> f q = g q) -> total f l = total g l - g p + f p.
Proof.
  induction l as [|x l IH]; intros Hl Hp H; [by apply not_elem_of_nil in Hp|]. apply NoDup_cons in Hl as [Hx Hl]. cbn.
  apply elem_of_cons in Hp as [->|Hp].
  - rewrite (total_ext f g); [lia|]. intros q Hq. apply H; [by right|by intros ->].
  - rewrite IH; [|done|done|intros q Hq; apply H; by right]. rewrite (H x); [lia|by left|by intros ->].
Qed.
(** One slot changes. *)
Lemma stored_one e w w' p o :
  place p -> (forall q, place q -> view w' q = if decide (q = p) then o else view w q) ->
  stored e w' = stored e w - count_of e (view w p) + count_of e o.
Proof.
  intros Hp H. unfold stored. rewrite (total_one _ (fun q => count_of e (view w q)) _ p all_places_NoDup).
  - rewrite H by done. by rewrite decide_True.
  - by apply all_places_place.
  - intros q Hq%all_places_place Hne. cbn. by rewrite H, decide_False.
Qed.

(** ** What a step changes *)

(** The bank stays as it is, in memory and in the tables. *)
Record quiet (w w' : World) : Prop := {
  q_tabs : m_bankTabs (guild w') = m_bankTabs (guild w);
  q_id : m_id (guild w') = m_id (guild w);
  q_guid : hiItemGuid w' = hiItemGuid w;
  q_trace : exists es, trace w' = trace w ++ es /\ Forall (fun e => forall id r, bank_row id r e = r) es
}.
#[global] Instance quiet_refl : Reflexive quiet.
Proof. intros w. constructor; try done. exists []. by rewrite app_nil_r. Qed.
#[global] Instance quiet_trans : Transitive quiet.
Proof.
  intros w1 w2 w3 [A1 A2 A3 (es & A4 & A5)] [B1 B2 B3 (es' & B4 & B5)]. constructor; try congruence.
  exists (es ++ es'). split; [by rewrite B4, A4, app_assoc|by apply Forall_app].
Qed.
Lemma quiet_view w w' p : quiet w w' -> view w' p = view w p.
Proof. intros [H _ _ _]. unfold view, _GetItem, GetBankTab. by rewrite H. Qed.
Lemma quiet_rows r w w' : quiet w w' -> bank_rows (m_id (guild w')) r (trace w') = bank_rows (m_id (guild w)) r (trace w).
Proof.
  intros [_ -> _ (es & -> & Hes)]. unfold bank_rows. rewrite fold_left_app. generalize (fold_left (bank_row (m_id (guild w))) (trace w) r).
  induction Hes as [|e es He _ IH]; intros x; cbn; [done|]. by rewrite He.
Qed.
Lemma quiet_stored e w w' : quiet w w' -> stored e w' = stored e w.
Proof. intros H. apply total_ext. intros p _. cbn. by rewrite (quiet_view w w'). Qed.
Lemma quiet_ok w w' : quiet w w' -> bank_ok w -> bank_ok w'.
Proof.
  intros H []. pose proof (fun p => quiet_view w w' p H) as Hv. destruct H as [H1 H2 H3 _].
  constructor; rewrite ?H1, ?H3; [done|done|..]; intros *; rewrite !Hv; eauto.
Qed.
Lemma quiet_saved r w w' : quiet w w' -> saved r w -> saved r w'.
Proof. intros H Hs p Hp. rewrite (quiet_rows r w w' H), (quiet_view w w' p H). by apply Hs. Qed.

Lemma emit_quiet es w : Forall (fun e => forall id r, bank_row id r e = r) es -> quiet w (emit es w).
Proof. intros H. constructor; try done. by exists es. Qed.

(** ** One slot *)

(** The slot [p] has [o] now; nothing else changes. *)
Record changes (w w' : World) (p : Z * Z) (o : option Item) : Prop := {
  ch_view q : place q -> view w' q = if decide (q = p) then o else view w q;
  ch_tabs : length (m_bankTabs (guild w')) = length (m_bankTabs (guild w));
  ch_ids i t : m_bankTabs (guild w') !! i = Some t -> exists t0, m_bankTabs (guild w) !! i = Some t0 /\ t_tabId t = t_tabId t0;
  ch_id : m_id (guild w') = m_id (guild w);
  ch_guid : hiItemGuid w' = hiItemGuid w
}.
(** An item that can be put into [p]. *)
Definition fresh (w : World) (p : Z * Z) (it : Item) : Prop :=
  1 <= i_count it <= GetMaxStackCount E (i_entry it) /\ i_guid it < hiItemGuid w /\
  forall q b, place q -> q <> p -> view w q = Some b -> i_guid b <> i_guid it.

Lemma changes_ok w w' p o : bank_ok w -> changes w w' p o -> (forall it, o = Some it -> fresh w p it) -> bank_ok w'.
Proof.
  intros [] [Hv Ht Hi _ Hg] Ho. constructor.
  - by rewrite Ht.
  - intros i t Hl. destruct (Hi i t Hl) as (t0 & Hl0 & ->). by apply bk_ids0.
  - intros q it Hq. rewrite Hv by done. case_decide; [intros ->; by apply Ho|by apply bk_count0].
  - intros q it Hq. rewrite Hv, Hg by done. case_decide; [intros ->; by apply (Ho it)|by apply bk_guid0].
  - intros q q' a b Hq Hq'. rewrite !Hv by done. destruct (decide (q = p)) as [->|], (decide (q' = p)) as [->|]; [done| | |eauto].
    + intros -> Hb Eg. destruct (Ho a) as (_ & _ & H); [done|]. by destruct (H q' b).
    + intros Ha -> Eg. destruct (Ho b) as (_ & _ & H); [done|]. by destruct (H q a).
Qed.
Lemma changes_saved r w w' p o :
  saved r w -> changes w w' p o ->
  (bank_rows (m_id (guild w)) r (trace w')).1 !! p = i_guid <$> o ->
  (forall it, o = Some it -> (bank_rows (m_id (guild w)) r (trace w')).2 !! i_guid it = Some (i_entry it, i_count it)) ->
  (forall q, q <> p -> (bank_rows (m_id (guild w)) r (trace w')).1 !! q = (bank_rows (m_id (guild w)) r (trace w)).1 !! q) ->
  (forall q b, place q -> q <> p -> view w q = Some b ->
     (bank_rows (m_id (guild w)) r (trace w')).2 !! i_guid b = (bank_rows (m_id (guild w)) r (trace w)).2 !! i_guid b) ->
  saved r w'.
Proof.
  intros Hs [Hv _ _ Hi _] H1 H2 H3 H4 q Hq. rewrite Hi, Hv by done. destruct (decide (q = p)) as [->|Hne]; [by split|].
  destruct (Hs q Hq) as [Hs1 Hs2]. split; [by rewrite H3|]. intros it Hit. rewrite (H4 q it) by done. by apply Hs2.
Qed.

Lemma GetBankTab_lookup t g T : 0 <= t -> GetBankTab t g = Some T <-> m_bankTabs g !! Z.to_nat t = Some T.
Proof.
  intros Ht. unfold GetBankTab. destruct (Z.ltb_spec t (size (m_bankTabs g))) as [|Hge]; [done|]. split; [done|].
  intros H%lookup_lt_Some. unfold size in Hge. lia.
Qed.
(** The items of a tab change in one slot. *)
Lemma on_tab_changes w t s T o :
  place (t, s) -> GetBankTab t (guild w) = Some T ->
  changes w (on_tab t (set_items (partial_alter (fun _ => o) s (t_items T)) T) w) (t, s) o.
Proof.
  intros [Ht Hs] HT. cbn in Ht, Hs. pose proof HT as HT'. apply GetBankTab_lookup in HT'; [|lia]. pose proof (lookup_lt_Some _ _ _ HT') as Hlt.
  constructor; try done; cbn.
  - intros [t' s'] [Ht' Hs']. cbn in Ht', Hs'. unfold view, _GetItem, GetBankTab, size. cbn. rewrite length_insert.
    destruct (Z.ltb_spec t' (Z.of_nat (length (m_bankTabs (guild w))))) as [Hl|Hl]; [|rewrite decide_False; [done|intros [= -> ->]; lia]].
    destruct (decide (t' = t)) as [->|Hne].
    + rewrite list_lookup_insert_eq by done. rewrite HT'. unfold GetItem. destruct (s' <? _) eqn:Es; [|apply Z.ltb_ge in Es; lia].
      cbn. destruct (decide (s' = s)) as [->|Hn]; [rewrite decide_True by done; apply lookup_partial_alter_eq|].
      rewrite decide_False by congruence. by apply lookup_partial_alter_ne.
    + rewrite decide_False by congruence. rewrite list_lookup_insert_ne by lia. done.
  - by rewrite length_insert.
  - intros i t'. destruct (decide (Z.to_nat t = i)) as [<-|]; [|rewrite list_lookup_insert_ne by done; by exists t'].
    rewrite list_lookup_insert_eq by done. intros [= <-]. by exists T.
Qed.
Lemma changes_quiet w w1 w' p o : changes w w1 p o -> m_bankTabs (guild w') = m_bankTabs (guild w1) -> m_id (guild w') = m_id (guild w1) ->
  hiItemGuid w' = hiItemGuid w1 -> changes w w' p o.
Proof.
  intros [] E1 E2 E3. constructor; rewrite ?E1, ?E2, ?E3; try done. intros q Hq. rewrite <- ch_view0 by done.
  unfold view, _GetItem, GetBankTab. by rewrite E1.
Qed.

(** Consistent, in the tables too if rows are given. *)
Definition good (o : option rows) (w : World) : Prop := bank_ok w /\ forall r, o = Some r -> saved r w.
Definition has_tab (t : Z) (w : World) : Prop := is_Some (GetBankTab t (guild w)).
Lemma changes_tab w w' p o t : changes w w' p o -> 0 <= t -> has_tab t w -> has_tab t w'.
Proof.
  intros [_ Hl _ _ _] Ht [T HT]. apply GetBankTab_lookup in HT; [|done]. apply lookup_lt_Some in HT.
  destruct (lookup_lt_is_Some_2 (m_bankTabs (guild w')) (Z.to_nat t)) as [T' HT']; [lia|]. exists T'. by apply GetBankTab_lookup.
Qed.
Lemma quiet_tab w w' t : quiet w w' -> has_tab t w -> has_tab t w'.
Proof. intros [H _ _ _]. unfold has_tab, GetBankTab. by rewrite H. Qed.
Lemma quiet_good r w w' : quiet w w' -> good r w -> good r w'.
Proof. intros H [Hk Hs]. split; [by apply (quiet_ok w)|]. intros r' Hr. by apply (quiet_saved r' w), Hs. Qed.
Lemma view_tab w p it : place p -> view w p = Some it -> has_tab p.1 w.
Proof. unfold view, _GetItem. intros _ H. by destruct (GetBankTab _ _) eqn:E1; [exists b|]. Qed.

Lemma bank_rows_app g r a b : bank_rows g r (a ++ b) = bank_rows g (bank_rows g r a) b.
Proof. apply fold_left_app. Qed.

Lemma SetItem_changes r w t s o :
  good r w -> place (t, s) -> has_tab t w -> (forall it, o = Some it -> fresh w (t, s) it) ->
  changes w (SetItem t s o w).2 (t, s) o /\ good r (SetItem t s o w).2.
Proof.
  intros [Hk Hs] Hp [T HT] Ho. pose proof Hp as [Ht Hl]. cbn in Ht, Hl.
  assert (t_tabId T = t) as Hid.
  { apply GetBankTab_lookup in HT; [|lia]. rewrite (bk_ids _ Hk _ _ HT). lia. }
  pose proof (on_tab_changes w t s T o Hp HT) as Hch. set (w1 := on_tab _ _ w) in Hch.
  assert (changes w (SetItem t s o w).2 (t, s) o) as Hc.
  { unfold SetItem. rewrite HT. destruct (Z.leb_spec GUILD_BANK_MAX_SLOTS s); [lia|]. fold w1. by destruct o; apply (changes_quiet w w1). }
  split; [done|]. split; [by apply (changes_ok w _ _ _ Hk Hc)|]. intros r' Hr. apply (changes_saved r' w _ _ _ (Hs r' Hr) Hc).
  all: unfold SetItem; rewrite HT; (destruct (Z.leb_spec GUILD_BANK_MAX_SLOTS s); [lia|]); fold w1; cbv zeta; cbn [snd].
  all: assert (trace w1 = trace w) as Et by done; assert (m_id (guild w1) = m_id (guild w)) as Ei by done.
  all: destruct o as [it|]; cbn [trace emit set_trace guild]; rewrite !bank_rows_app, Et, Ei, Hid; cbn; rewrite !Z.eqb_refl; cbn.
  - apply lookup_insert_eq.
  - apply lookup_delete_eq.
  - intros it' [= <-]. apply lookup_insert_eq.
  - done.
  - intros q Hq. rewrite lookup_insert_ne by done. by rewrite lookup_delete_ne by done.
  - intros q Hq. by rewrite lookup_delete_ne by done.
  - intros q b Hq Hne Hb. rewrite lookup_insert_ne; [done|]. destruct (Ho it) as (_ & _ & Hf); [done|]. intros Eg. by apply (Hf q b).
  - done.
Qed.
(** The number of an item changes. *)
Lemma set_count_changes r w p it c :
  good r w -> place p -> view w p = Some it -> 1 <= c <= GetMaxStackCount E (i_entry it) ->
  let w' := emit [save_item (set_count c it)] (put_item p.1 p.2 (set_count c it) w) in
  changes w w' p (Some (set_count c it)) /\ good r w'.
Proof.
  intros [Hk Hs] Hp Hit Hc. destruct p as [t s]. cbn [fst snd]. destruct (view_tab _ _ _ Hp Hit) as [T HT]. cbn [fst] in HT.
  pose proof (on_tab_changes w t s T (Some (set_count c it)) Hp HT) as Hch. unfold put_item. rewrite HT.
  change (<[s:=set_count c it]> (t_items T)) with (partial_alter (fun _ => Some (set_count c it)) s (t_items T)). set (w1 := on_tab _ _ w) in *.
  assert (changes w (emit [save_item (set_count c it)] w1) (t, s) (Some (set_count c it))) as Hch' by by apply (changes_quiet w w1).
  assert (fresh w (t, s) (set_count c it)) as Hf.
  { split_and!; [apply Hc|apply Hc|by apply (bk_guid _ Hk (t, s) it)|]. intros q b Hq Hne Hb Eg. apply Hne. by apply (bk_one _ Hk q (t, s) b it). }
  split; [done|]. split; [apply (changes_ok w _ _ _ Hk Hch'); by intros it' [= <-]|]. intros r' Hr. specialize (Hs r' Hr). apply (changes_saved r' w _ _ _ Hs Hch').
  all: cbn [trace emit set_trace]; assert (trace w1 = trace w) as -> by done; rewrite bank_rows_app; cbn.
  - destruct (Hs (t, s) Hp) as [H _]. by rewrite H, Hit.
  - intros it' [= <-]. apply lookup_insert_eq.
  - done.
  - intros q b Hq Hne Hb. apply lookup_insert_ne. intros Eg. by apply (proj2 (proj2 Hf) q b).
Qed.
(** An item that is in no slot is deleted. *)
Lemma DeleteItem_good r w g : good r w -> (forall q b, place q -> view w q = Some b -> i_guid b <> g) -> good r (emit [DeleteItem g true] w).
Proof.
  intros [Hk Hs] Hg. split; [by destruct Hk|]. intros r' Hr p Hp. destruct (Hs r' Hr p Hp) as [H1 H2]. cbn [trace emit set_trace guild]. rewrite bank_rows_app. cbn.
  split; [done|]. intros it Hit. rewrite lookup_delete_ne; [by apply H2|]. intros Eg. by apply (Hg p it).
Qed.

(** ** Putting an item into its places *)
Context (Emax : forall entry, GetMaxStackCount E entry < 2 ^ 32).

(** The places fit: stacks of the same entry with room, and at the end perhaps a free
    slot. [V] is what the slots of the tab have. *)
Fixpoint fits (it : Item) (V : Z -> option Item) (vec : list (Z * Z)) : Prop :=
  match vec with
  | [] => True
  | (s, c) :: vec =>
      0 <= s < GUILD_BANK_MAX_SLOTS /\ 1 <= c /\ (s ∉ vec.*1) /\
      match V s with
      | Some d => i_entry d = i_entry it /\ i_count d + c <= GetMaxStackCount E (i_entry it)
      | None => c <= GetMaxStackCount E (i_entry it) /\ vec = []
      end /\ fits it V vec
  end.
(** Stacks with more room fit as well. *)
Lemma fits_mono it V V' vec :
  (forall s, s ∈ vec.*1 -> match V s with
                           | Some d => exists d', V' s = Some d' /\ i_entry d' = i_entry d /\ i_count d' <= i_count d
                           | None => V' s = None
                           end) ->
  fits it V vec -> fits it V' vec.
Proof.
  induction vec as [|[s c] vec IH]; intros H; cbn; [done|]. intros (H1 & H2 & H3 & H4 & H5).
  split_and!; [lia..|done| |apply IH; [intros s' Hs'; apply H; by right|done]].
  specialize (H s ltac:(by left)). destruct (V s) as [d|]; [destruct H as (d' & -> & E1 & E2); rewrite E1; split; [tauto|lia]|by rewrite H].
Qed.
Definition amount (vec : list (Z * Z)) : Z := total snd vec.

Lemma store_loop_spec r t it vec w :
  good r w -> 0 <= t < GUILD_BANK_MAX_TABS -> has_tab t w -> vec <> [] -> fits it (fun s => view w (t, s)) vec ->
  i_guid it < hiItemGuid w -> (forall q b, place q -> view w q = Some b -> i_guid b <> i_guid it) ->
  exists w', store_loop E t it vec w = Ok w' /\ good r w' /\ (forall e, stored e w' = stored e w + (if i_entry it =? e then amount vec else 0)).
Proof.
  intros Hw Ht. revert w Hw. induction vec as [|[s c] vec IH]; intros w Hw Htab Hne Hf Hg Hfresh; [done|]. clear Hne.
  destruct Hf as (Hs & Hc & Hn & Hslot & Hf). assert (place (t, s)) as Hp by by split. cbn [store_loop]. unfold _StoreItem. cbn [fst snd].
  change (_GetItem t s (guild w)) with (view w (t, s)). destruct (view w (t, s)) as [d|] eqn:Ed.
  - destruct Hslot as [Ee Hm]. pose proof (bk_count _ (proj1 Hw) _ _ Hp Ed) as Hd.
    assert (u32 (i_count d + c) = i_count d + c) as -> by (apply wrap_id; pose proof (Emax (i_entry it)); width).
    destruct (set_count_changes r w (t, s) d (i_count d + c) Hw Hp Ed) as [Hch Hw1]; [rewrite Ee; lia|]. cbn [fst snd] in Hch, Hw1.
    set (w1 := emit _ (put_item _ _ _ _)) in *.
    assert (forall e, stored e w1 = stored e w + (if i_entry it =? e then c else 0)) as Hst.
    { intros e. rewrite (stored_one e w w1 _ _ Hp (ch_view _ _ _ _ Hch)), Ed. cbn. rewrite Ee. destruct (_ =? e); lia. }
    assert (forall q b, place q -> view w1 q = Some b -> i_guid b <> i_guid it) as Hfresh1.
    { intros q b Hq. rewrite (ch_view _ _ _ _ Hch) by done. case_decide; [intros [= <-]; exact (Hfresh (t, s) d Hp Ed)|by apply Hfresh]. }
    case_bool_decide as Hv; cbn [negb bind_result].
    + subst vec. cbn. eexists. split_and!; [done|by apply DeleteItem_good|]. intros e. change (stored e w1 = stored e w + (if i_entry it =? e then c + 0 else 0)).
      rewrite Hst. destruct (_ =? e); lia.
    + destruct (IH w1) as (w' & E1 & G1 & S1); [done|by apply (changes_tab w w1 _ _ t Hch); [lia|]|done| |by rewrite (ch_guid _ _ _ _ Hch)|done|].
      { apply (fits_mono _ (fun s => view w (t, s))); [|done]. intros s' Hs'. rewrite (ch_view _ _ _ _ Hch).
        2:{ split; [done|]. clear -Hf Hs'. cbn. induction vec as [|[s1 c1] vec IH]; [by apply not_elem_of_nil in Hs'|].
            destruct Hf as (? & _ & _ & _ & Hf). apply elem_of_cons in Hs' as [->|Hs']; [done|auto]. }
        rewrite decide_False by congruence. destruct (view w (t, s')) as [d'|]; [by exists d'|done]. }
      exists w'. split_and!; [done|done|]. intros e. rewrite S1, Hst. cbn. destruct (_ =? e); unfold amount; lia.
  - destruct Hslot as [Hm ->]. cbn [bind_result negb].
    destruct (SetItem_changes r w t s (Some (set_count c it)) Hw Hp Htab) as [Hch Hw1].
    { intros it' [= <-]. split_and!; [done|done|done|]. intros q b Hq _. by apply Hfresh. }
    cbn. eexists. split_and!; [done|done|]. intros e. rewrite (stored_one e w _ _ _ Hp (ch_view _ _ _ _ Hch)), Ed. cbn. destruct (_ =? e); lia.
Qed.

(** ** The search for places *)
Lemma fits_snoc it V vec s c :
  fits it V vec -> Forall (fun p => is_Some (V p.1)) vec -> 0 <= s < GUILD_BANK_MAX_SLOTS -> 1 <= c -> s ∉ vec.*1 ->
  match V s with
  | Some d => i_entry d = i_entry it /\ i_count d + c <= GetMaxStackCount E (i_entry it)
  | None => c <= GetMaxStackCount E (i_entry it)
  end -> fits it V (vec ++ [(s, c)]).
Proof.
  intros Hf Ha Hs Hc Hn Hm. induction vec as [|[s' c'] vec IH]; cbn.
  - split_and!; [lia..|by apply not_elem_of_nil| |done]. destruct (V s); [done|by split].
  - destruct Hf as (H1 & H2 & H3 & H4 & H5). apply Forall_cons in Ha as [[d Hd] Ha]. cbn in Hd, Hn. rewrite Hd in H4 |- *.
    apply not_elem_of_cons in Hn as [Hne Hn]. split_and!; [lia..| |tauto|tauto|auto]. rewrite fmap_app. apply not_elem_of_app.
    split; [done|]. intros ->%list_elem_of_singleton. done.
Qed.
Lemma contained_spec s vec : isContainedIn s vec = true <-> s ∈ vec.*1.
Proof.
  unfold isContainedIn. rewrite existsb_exists. split.
  - intros (p & Hp%list_elem_of_In & <-%Z.eqb_eq). by apply list_elem_of_fmap_2.
  - intros (p & -> & Hp)%list_elem_of_fmap. exists p. split; [by apply list_elem_of_In|by apply Z.eqb_eq].
Qed.
Lemma amount_app a b : amount (a ++ b) = amount a + amount b.
Proof. unfold amount. induction a; cbn; lia. Qed.

(** What is left to place and the places make up the stack. *)
Definition placing (it : Item) (V : Z -> option Item) (cv : places) : Prop :=
  0 <= cv.1 /\ cv.1 + amount cv.2 = i_count it /\ fits it V cv.2 /\ (0 < cv.1 -> Forall (fun p => is_Some (V p.1)) cv.2).
Lemma _ReserveSpace_placing it V s cv :
  1 <= i_count it <= GetMaxStackCount E (i_entry it) -> 0 <= s < GUILD_BANK_MAX_SLOTS ->
  0 < cv.1 -> placing it V cv -> placing it V (_ReserveSpace E s it (V s) cv).2.
Proof.
  intros Hit Hs Hpos (H1 & H2 & H3 & H4). destruct cv as [c vec]. cbn [fst snd] in *. assert (placing it V (c, vec)) as Hcv by by split_and!.
  specialize (H4 Hpos).
  assert (amount vec >= 0) as Ha.
  { clear -H3. unfold amount. induction vec as [|[s c] vec IH]; cbn; [lia|]. destruct H3 as (_ & Hc & _ & _ & H3). specialize (IH H3). lia. }
  assert (forall space, 1 <= space -> match V s with
            | Some d => i_entry d = i_entry it /\ i_count d + space <= GetMaxStackCount E (i_entry it)
            | None => space = GetMaxStackCount E (i_entry it) end -> placing it V (reserve s space (c, vec))) as Hr.
  { intros space Hsp Hv. unfold reserve. cbn [fst snd]. destruct (isContainedIn s vec) eqn:Ec; [done|].
    assert (s ∉ vec.*1) as Hn by (intros Hin%contained_spec; congruence). unfold placing. cbn. rewrite amount_app. cbn. split_and!; [lia|lia| |].
    - apply fits_snoc; try done; [lia|]. destruct (V s); lia.
    - intros Hlt. apply Forall_app. split; [done|]. constructor; [|constructor]. cbn. destruct (V s); [done|lia]. }
  unfold _ReserveSpace. cbv zeta. destruct (V s) as [d|]; [|apply Hr; lia].
  destruct (Z.eqb_spec (i_entry d) (i_entry it)) as [Ee|]; [|done]. cbn [negb orb].
  destruct (Z.leb_spec (GetMaxStackCount E (i_entry it)) (i_count d)); [done|]. apply Hr; lia.
Qed.
Lemma CanStoreItemInTab_placing it V g t skip merge slots cv :
  1 <= i_count it <= GetMaxStackCount E (i_entry it) -> Forall (fun s => 0 <= s < GUILD_BANK_MAX_SLOTS) slots ->
  (forall s, 0 <= s < GUILD_BANK_MAX_SLOTS -> other_item it (_GetItem t s g) = V s) ->
  placing it V cv -> placing it V (CanStoreItemInTab E g t it skip merge slots cv).
Proof.
  intros Hit Hs HV. revert cv. induction Hs as [|s slots Hs _ IH]; intros cv Hcv; cbn; [done|]. destruct (Z.ltb_spec 0 cv.1); [|done].
  apply IH. rewrite HV by done. destruct (s =? skip); [done|]. destruct (Bool.eqb _ _); [|done]. by apply _ReserveSpace_placing.
Qed.
Lemma all_slots_range : Forall (fun s => 0 <= s < GUILD_BANK_MAX_SLOTS) all_slots.
Proof. rewrite Forall_forall. intros x Hx. unfold all_slots in Hx. rewrite elem_of_seqZ in Hx. lia. Qed.
Lemma CanStore_bank_places it V d g vec :
  1 <= i_count it <= GetMaxStackCount E (i_entry it) -> 0 <= m_slotId d < GUILD_BANK_MAX_SLOTS ->
  (forall s, 0 <= s < GUILD_BANK_MAX_SLOTS -> other_item it (_GetItem (m_container d) s g) = V s) ->
  CanStore_bank E d it false g = (EQUIP_ERR_OK, vec) -> fits it V vec /\ amount vec = i_count it /\ vec <> [].
Proof.
  intros Hit Hd HV. unfold CanStore_bank. destruct (i_soulbound it); [done|]. destruct (_ <=? _); [done|]. cbv zeta.
  destruct (Z.eqb_spec (m_slotId d) NULL_SLOT) as [Hnull|]; [unfold NULL_SLOT, GUILD_BANK_MAX_SLOTS in *; lia|]. cbn [negb andb].
  rewrite HV by done. pose proof (_ReserveSpace_placing it V (m_slotId d) (i_count it, []) Hit Hd) as H0.
  destruct (_ReserveSpace E _ it _ _) as [ok cv0] eqn:E0. assert (placing it V cv0) as P0.
  { apply H0; cbn; [lia|]. split_and!; cbn; [lia|lia|done|by constructor]. }
  assert (forall cv vec', placing it V cv -> cv.1 = 0 -> cv.2 = vec' -> fits it V vec' /\ amount vec' = i_count it /\ vec' <> []) as Hdone.
  { intros cv vec' (_ & P2 & P3 & _) Hz <-. split_and!; [done|lia|]. intros Hv. rewrite Hv in P2. cbn in P2. lia. }
  destruct ok; [|done]. cbn [negb]. destruct (Z.eqb_spec cv0.1 0); [intros [= <-]; by apply (Hdone cv0)|].
  pose proof all_slots_range as Hall. revert Hall. generalize all_slots. intros slots Hall.
  set (cv1 := if 1 <? _ then _ else cv0). assert (placing it V cv1) as P1 by (unfold cv1; destruct (1 <? _); [by apply CanStoreItemInTab_placing|done]).
  destruct (1 <? _), (Z.eqb_spec cv1.1 0); cbn [andb]; try (intros [= <-]; by apply (Hdone cv1)).
  all: set (cv2 := CanStoreItemInTab _ _ _ _ _ false _ cv1); assert (placing it V cv2) as P2 by by apply CanStoreItemInTab_placing.
  all: destruct (Z.eqb_spec cv2.1 0); [intros [= <-]; by apply (Hdone cv2)|done].
Qed.
(** A swapped item goes to the named slot. *)
Lemma CanStore_bank_swap it d g vec :
  1 <= i_count it <= GetMaxStackCount E (i_entry it) -> 0 <= m_slotId d < GUILD_BANK_MAX_SLOTS ->
  CanStore_bank E d it true g = (EQUIP_ERR_OK, vec) -> vec = [(m_slotId d, i_count it)].
Proof.
  intros Hit Hd. unfold CanStore_bank. destruct (i_soulbound it); [done|]. destruct (_ <=? _); [done|]. cbv zeta.
  destruct (Z.eqb_spec (m_slotId d) NULL_SLOT) as [Hnull|]; [unfold NULL_SLOT, GUILD_BANK_MAX_SLOTS in *; lia|]. cbn [negb andb].
  unfold _ReserveSpace, reserve. cbn. rewrite Z.min_r, Z.sub_diag by lia. cbn. by intros [= <-].
Qed.

(** ** Moving *)

(** The bank is consistent after it and has as many items of each entry as before. *)
Definition kept (r : option rows) (w w' : World) : Prop := good r w' /\ forall e, stored e w' = stored e w.
Lemma quiet_kept r w w' : quiet w w' -> good r w -> kept r w w'.
Proof. intros H Hw. split; [by apply (quiet_good r w)|]. intros e. by apply quiet_stored. Qed.
Lemma kept_steps r w1 w2 w3 : kept r w1 w2 -> kept r w2 w3 -> kept r w1 w3.
Proof. intros [H1 H2] [H3 H4]. split; [done|]. intros e. by rewrite H4. Qed.

Lemma view_quiet_changes w w1 w2 p o q : changes w w1 p o -> quiet w1 w2 -> place q -> view w2 q = if decide (q = p) then o else view w q.
Proof. intros Hc Hq Hp. by rewrite (quiet_view w1 w2), (ch_view _ _ _ _ Hc). Qed.

Lemma take_out r w p it w2 :
  good r w -> place p -> view w p = Some it -> quiet (_RemoveItem p.1 p.2 w) w2 ->
  good r w2 /\ (forall q, place q -> view w2 q = if decide (q = p) then None else view w q) /\
  (forall e, stored e w2 = stored e w - (if i_entry it =? e then i_count it else 0)) /\
  hiItemGuid w2 = hiItemGuid w /\ (forall t, 0 <= t -> has_tab t w -> has_tab t w2) /\
  i_guid it < hiItemGuid w2 /\ (forall q b, place q -> view w2 q = Some b -> i_guid b <> i_guid it).
Proof.
  intros Hw Hp Hit Hq. destruct p as [t s]. cbn [fst snd] in Hq.
  destruct (SetItem_changes r w t s None Hw Hp (view_tab _ _ _ Hp Hit)) as [Hch H1]; [done|]. unfold _RemoveItem in Hq.
  assert (forall q, place q -> view w2 q = if decide (q = (t, s)) then None else view w q) as Hv by (intros q Hq'; by apply (view_quiet_changes w _ w2 _ _ _ Hch)).
  split_and!; [by apply (quiet_good r _ _ Hq)|done| | | | |].
  - intros e. rewrite (stored_one e w w2 _ _ Hp Hv), Hit. cbn. destruct (_ =? e); lia.
  - by rewrite (q_guid _ _ Hq), (ch_guid _ _ _ _ Hch).
  - intros t' Ht' H'. apply (quiet_tab _ _ _ Hq). by apply (changes_tab _ _ _ _ _ Hch).
  - rewrite (q_guid _ _ Hq), (ch_guid _ _ _ _ Hch). by apply (bk_guid _ (proj1 Hw) (t, s)).
  - intros q b Hpq. rewrite Hv by done. case_decide as Hd; [done|]. intros Hb Eg. apply Hd. by apply (bk_one _ (proj1 Hw) q (t, s) b it).
Qed.
Lemma other_view r w p it t s :
  good r w -> place p -> view w p = Some it -> place (t, s) ->
  other_item it (view w (t, s)) = if decide ((t, s) = p) then None else view w (t, s).
Proof.
  intros Hw Hp Hit Hq. unfold other_item. case_decide as Hd; [by rewrite Hd, Hit, Z.eqb_refl|].
  destruct (view w (t, s)) as [b|] eqn:Eb; [|done]. destruct (Z.eqb_spec (i_guid b) (i_guid it)) as [Eg|]; [|done].
  destruct Hd. by apply (bk_one _ (proj1 Hw) (t, s) p b it).
Qed.
Lemma fits_ext it V V' vec : (forall s, 0 <= s < GUILD_BANK_MAX_SLOTS -> V s = V' s) -> fits it V vec -> fits it V' vec.
Proof.
  intros H. induction vec as [|[s c] vec IH]; cbn; [done|]. intros (H1 & H2 & H3 & H4 & H5). rewrite <- (H s) by done. tauto.
Qed.

(** A whole stack moves. *)
Lemma move_whole r w p it t vec w2 :
  good r w -> place p -> view w p = Some it -> 0 <= t < GUILD_BANK_MAX_TABS -> has_tab t w ->
  fits it (fun s => other_item it (view w (t, s))) vec -> amount vec = i_count it -> vec <> [] ->
  quiet (_RemoveItem p.1 p.2 w) w2 -> exists w', store_loop E t it vec w2 = Ok w' /\ kept r w w'.
Proof.
  intros Hw Hp Hit Ht Htab Hf Ha Hne Hq. destruct (take_out r w p it w2 Hw Hp Hit Hq) as (H2 & Hv & Hs & _ & Htab2 & Hg & Hfr).
  destruct (store_loop_spec r t it vec w2) as (w' & E1 & G1 & S1); [done|done|apply Htab2; [lia|done]|done| |done|done|].
  - revert Hf. apply fits_ext. intros s Hsl. assert (place (t, s)) as Hpl by (by split). by rewrite Hv, (other_view r w p).
  - exists w'. split; [done|]. split; [done|]. intros e. rewrite S1, Hs, Ha. lia.
Qed.
(** Part of a stack moves as a new item. *)
Lemma move_split r w p it copy t vec w2 :
  good r w -> place p -> view w p = Some it -> 0 <= t < GUILD_BANK_MAX_TABS -> has_tab t w ->
  i_entry copy = i_entry it -> 1 <= i_count copy < i_count it -> i_guid copy < hiItemGuid w ->
  (forall q b, place q -> view w q = Some b -> i_guid b <> i_guid copy) ->
  fits copy (fun s => view w (t, s)) vec -> amount vec = i_count copy -> vec <> [] ->
  let left := set_count (i_count it - i_count copy) it in
  quiet (emit [save_item left] (put_item p.1 p.2 left w)) w2 -> exists w', store_loop E t copy vec w2 = Ok w' /\ kept r w w'.
Proof.
  intros Hw Hp Hit Ht Htab Ee Hc Hg Hfr Hf Ha Hne left Hq. pose proof (bk_count _ (proj1 Hw) _ _ Hp Hit) as Hm.
  destruct (set_count_changes r w p it (i_count it - i_count copy) Hw Hp Hit) as [Hch H1]; [lia|]. fold left in Hch, H1.
  assert (forall q, place q -> view w2 q = if decide (q = p) then Some left else view w q) as Hv by (intros q Hq'; by apply (view_quiet_changes w _ w2 _ _ _ Hch)).
  destruct (store_loop_spec r t copy vec w2) as (w' & E1 & G1 & S1); try done.
  - by apply (quiet_good r _ _ Hq).
  - apply (quiet_tab _ _ _ Hq). apply (changes_tab _ _ _ _ _ Hch); [lia|done].
  - apply (fits_mono _ (fun s => view w (t, s))); [|exact Hf]. intros s Hs. destruct (decide (0 <= s < GUILD_BANK_MAX_SLOTS)) as [Hsl|Hsl].
    + assert (place (t, s)) as Hpl by (by split). rewrite Hv by done. case_decide as Hd; [|destruct (view w (t, s)) as [d|]; [by exists d|done]].
      rewrite Hd, Hit. exists left. split_and!; [done|done|cbn; lia].
    + exfalso. clear -Hf Hs Hsl. induction vec as [|[s' c'] vec IH]; [by apply not_elem_of_nil in Hs|]. destruct Hf as (? & _ & _ & _ & Hf).
      apply elem_of_cons in Hs as [->|Hs]; [done|auto].
  - by rewrite (q_guid _ _ Hq), (ch_guid _ _ _ _ Hch).
  - intros q b Hpq. rewrite Hv by done. case_decide as Hd; [intros [= <-]; by apply (Hfr p it)|by apply Hfr].
  - exists w'. split; [done|]. split; [done|]. intros e. rewrite S1, Ha, Ee, (stored_one e w w2 _ _ Hp Hv), Hit. cbn. destruct (_ =? e); lia.
Qed.
(** Two stacks change places. *)
Lemma move_swap r w p q a b w2 w3 :
  good r w -> place p -> place q -> p <> q -> view w p = Some a -> view w q = Some b ->
  quiet (_RemoveItem p.1 p.2 w) w2 -> quiet (_RemoveItem q.1 q.2 w2) w3 ->
  exists w4 w5, store_loop E q.1 a [(q.2, i_count a)] w3 = Ok w4 /\ has_tab p.1 w4 /\ store_loop E p.1 b [(p.2, i_count b)] w4 = Ok w5 /\ kept r w w5.
Proof.
  intros Hw Hp Hq Hne Ha Hb Hq1 Hq2. destruct (take_out r w p a w2 Hw Hp Ha Hq1) as (H2 & Hv2 & Hs2 & Hh2 & Ht2 & Hg2 & Hf2).
  assert (view w2 q = Some b) as Hb2 by by rewrite Hv2, decide_False.
  destruct (take_out r w2 q b w3 H2 Hq Hb2 Hq2) as (H3 & Hv3 & Hs3 & Hh3 & Ht3 & Hg3 & Hf3).
  pose proof (bk_count _ (proj1 Hw) _ _ Hp Ha) as Ca. pose proof (bk_count _ (proj1 Hw) _ _ Hq Hb) as Cb.
  pose proof (view_tab _ _ _ Hp Ha) as Tp. pose proof (view_tab _ _ _ Hq Hb) as Tq. destruct p as [t s], q as [t' s']. cbn [fst snd] in *.
  assert (view w3 (t', s') = None) as N3 by by rewrite Hv3, decide_True. assert (place (t', s')) as [Hq1' Hq2'] by done. assert (place (t, s)) as [Hp1' Hp2'] by done. cbn [fst snd] in *.
  assert (forall it n, 1 <= n <= GetMaxStackCount E (i_entry it) -> forall V s, V s = None -> 0 <= s < GUILD_BANK_MAX_SLOTS -> fits it V [(s, n)]) as Hone.
  { intros it n Hn V s0 HV Hs0. cbn. rewrite HV. split_and!; try lia; [by apply not_elem_of_nil|done]. }
  destruct (SetItem_changes r w3 t' s' (Some (set_count (i_count a) a)) H3 Hq) as [Hch Hw4].
  { apply Ht3, Ht2; [lia|lia|done]. }
  { intros it' [= <-]. split_and!; [apply Ca|apply Ca|cbn; lia|]. intros x y Hx _. rewrite Hv3 by done. case_decide; [done|]. by apply Hf2. }
  assert (store_loop E t' a [(s', i_count a)] w3 = Ok (SetItem t' s' (Some (set_count (i_count a) a)) w3).2) as E4.
  { cbn [store_loop]. unfold _StoreItem. cbn [fst snd]. change (_GetItem t' s' (guild w3)) with (view w3 (t', s')). by rewrite N3. }
  set (w4 := (SetItem t' s' _ w3).2) in *. exists w4.
  assert (has_tab t w4) as T4 by (apply (changes_tab _ _ _ _ _ Hch); [lia|]; apply Ht3, Ht2; [lia|lia|done]).
  destruct (store_loop_spec r t b [(s, i_count b)] w4) as (w5 & E5 & G5 & S5); try done.
  - apply Hone; [done| |done]. rewrite (ch_view _ _ _ _ Hch) by done. rewrite decide_False by done. rewrite Hv3, decide_False by done. by rewrite Hv2, decide_True.
  - rewrite (ch_guid _ _ _ _ Hch). done.
  - intros x y Hx. rewrite (ch_view _ _ _ _ Hch) by done. case_decide as Hd; [|by apply Hf3]. intros [= <-]. cbn. intros Eg.
    apply Hne. by apply (bk_one _ (proj1 Hw) (t, s) (t', s') a b).
  - exists w5. do 4 (split; [done|]). intros e. rewrite S5, (stored_one e w3 w4 _ _ Hq (ch_view _ _ _ _ Hch)), N3, Hs3, Hs2. cbn.
    destruct (i_entry a =? e), (i_entry b =? e); lia.
Qed.

(** ** What does not touch the bank *)
Lemma _LogBankEvent_quiet ty tab low amount stack dest w w' : _LogBankEvent E ty tab low amount stack dest w = Ok w' -> quiet w w'.
Proof.
  unfold _LogBankEvent. destruct (_ <? tab); [by intros [= <-]|]. destruct (_ && _); [by intros [= <-]|].
  destruct (if IsMoneyEvent ty then _ else _) as [tab' dbTab]. destruct (_ !! _) as [pLog|]; [|done].
  destruct (GetNextGUID pLog) as [[guid log]|]; [|done]. cbn [bind_result]. destruct (AddEvent _ log) as [log'|]; [|done]. intros [= <-].
  constructor; try done. eexists. split; [done|]. by repeat constructor.
Qed.
Lemma LogBankEvent_quiet s d from n w w' : LogBankEvent E s d from n w = Ok w' -> quiet w w'.
Proof. unfold LogBankEvent. destruct (m_pItem from); [apply _LogBankEvent_quiet|done]. Qed.
Lemma LogAction_quiet s d from w w' : LogAction s d from w = Ok w' -> quiet w w'.
Proof. unfold LogAction. destruct (m_pItem from); [|done]. intros [= <-]. apply emit_quiet. by repeat constructor. Qed.
Lemma send_error_quiet (b : bool) s msg w : quiet w (if b then emit [SendEquipError s msg] w else w).
Proof. destruct b; [|done]. apply emit_quiet. by repeat constructor. Qed.
Lemma _UpdateMemberWithdrawSlots_quiet s tab w : quiet w (_UpdateMemberWithdrawSlots s tab w).
Proof.
  unfold _UpdateMemberWithdrawSlots. destruct (GetMember s _) as [m|]; [|done]. destruct (_ && _); [|done].
  unfold save_withdraw, UpdateBankWithdrawValue. cbv zeta. constructor; try done. eexists. split; [done|]. by repeat constructor.
Qed.
Lemma send_slots_quiet tab l w : quiet w (send_slots tab l w).
Proof.
  unfold send_slots, _SendBankList. apply emit_quiet. apply Forall_forall. intros e He. apply list_elem_of_fmap in He as (m & -> & _). done.
Qed.
Lemma _SendBankContentUpdate_quiet a b w : quiet w (_SendBankContentUpdate a b w).
Proof. unfold _SendBankContentUpdate. case_match; [apply send_slots_quiet|]. etrans; apply send_slots_quiet. Qed.
Lemma RemoveItem_quiet s d other n it w w' :
  m_pItem d = Some it -> RemoveItem s d other n w = Ok w' ->
  quiet (if n =? 0 then _RemoveItem (m_container d) (m_slotId d) w
         else emit [save_item (set_count (u32 (i_count it - n)) it)] (put_item (m_container d) (m_slotId d) (set_count (u32 (i_count it - n)) it) w)) w'.
Proof.
  intros Hit. unfold RemoveItem. rewrite Hit. cbv zeta. destruct (n =? 0); intros [= <-]; (destruct (_ =? _); [done|]); apply _UpdateMemberWithdrawSlots_quiet.
Qed.

(** A side of a move is at a slot, of a tab that there is. *)
Definition side (d : MoveItemData) (w : World) : Prop := place (m_container d, m_slotId d) /\ has_tab (m_container d) w.
Definition item_of (d : MoveItemData) (w : World) : option Item := view w (m_container d, m_slotId d).

Lemma quiet_bind (m : result fault World) (k : World -> result fault (bool * MoveItemData * World)) x w :
  bind_result m k = Ok x -> (forall w', m = Ok w' -> quiet w w') -> exists w', quiet w w' /\ k w' = Ok x.
Proof. destruct m as [w'|]; [|done]. cbn. intros Hk H. exists w'. auto. Qed.

Lemma _DoItemsMove_whole r s src dst send w it b dst' w' :
  good r w -> side src w -> side dst w -> m_pItem src = Some it -> item_of src w = Some it -> m_pItem dst = None ->
  _DoItemsMove E s src dst send 0 w = Ok (b, dst', w') ->
  kept r w w' /\ m_container dst' = m_container dst /\ m_slotId dst' = m_slotId dst /\ (b = false -> quiet w w').
Proof.
  intros Hw [Hp Ts] [Hq Td] Es Hit Ed HR. unfold _DoItemsMove in HR. rewrite Es, Ed in HR. cbv zeta in HR.
  change (0 =? 0) with true in HR. cbv iota in HR. rewrite bool_decide_false in HR by (by intros []). unfold CanStore in HR.
  destruct (CanStore_bank E dst it false (guild w)) as [msg vec] eqn:Ec. set (w1 := if send && _ then _ else w) in HR.
  assert (quiet w w1) as Q1 by apply send_error_quiet. destruct (Z.eqb_spec msg EQUIP_ERR_OK) as [->|]; cbn [negb] in HR.
  2:{ injection HR as <- <- <-. split_and!; try done. by apply quiet_kept. }
  apply (quiet_bind _ _ _ w1) in HR as (w2 & Q2 & HR); [|apply LogAction_quiet]. cbn [bind_result] in HR.
  apply (quiet_bind _ _ _ w2) in HR as (w3 & Q3 & HR); [|intros ?; apply LogBankEvent_quiet].
  destruct (RemoveItem s src _ 0 w3) as [w4|] eqn:E4; [|done]. apply (RemoveItem_quiet _ _ _ _ it) in E4; [|done]. cbn [bind_result] in HR.
  assert (quiet w w3) as Q by (etrans; [exact Q1|]; etrans; [exact Q2|exact Q3]). pose proof (quiet_good r _ _ Q Hw) as H3.
  assert (view w3 (m_container src, m_slotId src) = Some it) as Hit3 by by rewrite (quiet_view w w3).
  destruct (CanStore_bank_places it (fun x => other_item it (view w (m_container dst, x))) dst (guild w) vec) as (F1 & F2 & F3); try done.
  { by apply (bk_count _ (proj1 Hw) (m_container src, m_slotId src)). } { apply Hq. }
  destruct (move_whole r w3 (m_container src, m_slotId src) it (m_container dst) vec w4) as (w5 & E5 & K5); try done.
  { apply Hq. } { by apply (quiet_tab w). }
  { revert F1. apply fits_ext. intros x _. by rewrite (quiet_view w w3). }
  unfold StoreItem in HR. cbn [m_container set_vec m_vec] in HR. destruct (GetBankTab (m_container dst) (guild w4)) as [T|] eqn:ET.
  2:{ exfalso. assert (has_tab (m_container dst) w4) as [T HT]; [|congruence]. apply (take_out r w3 _ it w4 H3 Hp Hit3 E4); [apply Hq|by apply (quiet_tab w)]. }
  rewrite E5 in HR. cbn [bind_result] in HR. injection HR as <- <- <-. split_and!; try done. by apply (kept_steps r w w3); [apply quiet_kept|].
Qed.

Lemma _DoItemsMove_split r s src dst w it copy b dst' w' :
  good r w -> side src w -> side dst w -> m_pItem src = Some it -> item_of src w = Some it -> m_pItem dst = None -> m_pClonedItem src = Some copy ->
  i_entry copy = i_entry it -> 1 <= i_count copy < i_count it -> i_guid copy < hiItemGuid w ->
  (forall q b, place q -> view w q = Some b -> i_guid b <> i_guid copy) ->
  _DoItemsMove E s src dst true (i_count copy) w = Ok (b, dst', w') -> kept r w w'.
Proof.
  intros Hw [Hp Ts] [Hq Td] Es Hit Ed Hcl Ee Hc Hg Hfr HR. unfold _DoItemsMove in HR. rewrite Hcl, Ed in HR. cbv zeta in HR.
  destruct (Z.eqb_spec (i_count copy) 0) as [|Hn0]; [lia|]. rewrite bool_decide_false in HR by (by intros []). unfold CanStore in HR.
  pose proof (bk_count _ (proj1 Hw) (m_container src, m_slotId src) it Hp Hit) as Hm. pose proof (Emax (i_entry it)) as HM.
  destruct (CanStore_bank E dst copy false (guild w)) as [msg vec] eqn:Ec. set (w1 := if true && _ then _ else w) in HR.
  assert (quiet w w1) as Q1 by apply send_error_quiet. destruct (Z.eqb_spec msg EQUIP_ERR_OK) as [->|]; cbn [negb] in HR.
  2:{ injection HR as <- <- <-. by apply quiet_kept. }
  apply (quiet_bind _ _ _ w1) in HR as (w2 & Q2 & HR); [|apply LogAction_quiet]. cbn [bind_result] in HR.
  apply (quiet_bind _ _ _ w2) in HR as (w3 & Q3 & HR); [|intros ?; apply LogBankEvent_quiet].
  destruct (RemoveItem s src _ _ w3) as [w4|] eqn:E4; [|done]. apply (RemoveItem_quiet _ _ _ _ it) in E4; [|done]. cbn [bind_result] in HR.
  destruct (Z.eqb_spec (i_count copy) 0) as [|_]; [lia|]. rewrite wrap_id in E4 by width.
  assert (quiet w w3) as Q by (etrans; [exact Q1|]; etrans; [exact Q2|exact Q3]). pose proof (quiet_good r _ _ Q Hw) as H3.
  assert (view w3 (m_container src, m_slotId src) = Some it) as Hit3 by by rewrite (quiet_view w w3).
  assert (forall x, 0 <= x < GUILD_BANK_MAX_SLOTS -> other_item copy (view w (m_container dst, x)) = view w (m_container dst, x)) as Ho.
  { intros x Hx. unfold other_item. destruct (view w (m_container dst, x)) as [d|] eqn:Edx; [|done].
    destruct (Z.eqb_spec (i_guid d) (i_guid copy)) as [Eg|]; [|done]. destruct (Hfr (m_container dst, x) d); [by split; [apply Hq|]|done|done]. }
  destruct (CanStore_bank_places copy (fun x => view w (m_container dst, x)) dst (guild w) vec) as (F1 & F2 & F3); [rewrite Ee; lia|apply Hq|exact Ho|done|].
  destruct (move_split r w3 (m_container src, m_slotId src) it copy (m_container dst) vec w4) as (w5 & E5 & K5); try done.
  { apply Hq. } { by apply (quiet_tab w). } { by rewrite (q_guid _ _ Q). } { intros q d Hpq. rewrite (quiet_view w w3) by done. by apply Hfr. }
  { revert F1. apply fits_ext. intros x _. by rewrite (quiet_view w w3). }
  unfold StoreItem in HR. cbn [m_container set_vec m_vec] in HR. destruct (GetBankTab (m_container dst) (guild w4)) as [T|] eqn:ET.
  2:{ exfalso. assert (has_tab (m_container dst) w4) as [T HT]; [|congruence].
      apply (quiet_tab _ _ _ E4). destruct (set_count_changes r w3 (m_container src, m_slotId src) it (i_count it - i_count copy) H3 Hp Hit3) as [Hch _]; [lia|].
      apply (changes_tab _ _ _ _ _ Hch); [apply Hq|by apply (quiet_tab w)]. }
  rewrite E5 in HR. cbn [bind_result] in HR. injection HR as <- <- <-. by apply (kept_steps r w w3); [apply quiet_kept|].
Qed.
Lemma _DoItemsMove_swap r s src dst w it itd b dst' w' :
  good r w -> side src w -> side dst w -> (m_container src, m_slotId src) <> (m_container dst, m_slotId dst) ->
  m_pItem src = Some it -> item_of src w = Some it -> m_pItem dst = Some itd -> item_of dst w = Some itd ->
  _DoItemsMove E s src dst true 0 w = Ok (b, dst', w') -> kept r w w'.
Proof.
  intros Hw [Hp Ts] [Hq Td] Hne Es Hit Ed Hitd HR. unfold _DoItemsMove in HR. rewrite Es, Ed in HR. cbv zeta in HR.
  change (0 =? 0) with true in HR. cbv iota in HR. rewrite bool_decide_true in HR by by eexists. unfold CanStore in HR.
  destruct (CanStore_bank E dst it true (guild w)) as [msg vec] eqn:Ec. set (w1 := if true && _ then _ else w) in HR.
  assert (quiet w w1) as Q1 by apply send_error_quiet. destruct (Z.eqb_spec msg EQUIP_ERR_OK) as [->|]; cbn [negb] in HR.
  2:{ injection HR as <- <- <-. by apply quiet_kept. }
  destruct (CanStore_bank E src itd true (guild w1)) as [msg2 vec2] eqn:Ec2. set (w2 := if true && _ then _ else w1) in HR.
  assert (quiet w1 w2) as Q2 by apply send_error_quiet. destruct (Z.eqb_spec msg2 EQUIP_ERR_OK) as [->|]; cbn [negb] in HR.
  2:{ injection HR as <- <- <-. apply quiet_kept; [etrans; [exact Q1|exact Q2]|done]. }
  apply (quiet_bind _ _ _ w2) in HR as (w3 & Q3 & HR); [|apply LogAction_quiet].
  apply (quiet_bind _ _ _ w3) in HR as (w4 & Q4 & HR); [|apply LogAction_quiet].
  apply (quiet_bind _ _ _ w4) in HR as (w5 & Q5 & HR); [|intros ?; apply LogBankEvent_quiet].
  apply (quiet_bind _ _ _ w5) in HR as (w6 & Q6 & HR); [|intros ?; apply LogBankEvent_quiet].
  assert (quiet w w6) as Q by (etrans; [exact Q1|]; etrans; [exact Q2|]; etrans; [exact Q3|]; etrans; [exact Q4|]; etrans; [exact Q5|exact Q6]). pose proof (quiet_good r _ _ Q Hw) as H6.
  destruct (RemoveItem s _ _ 0 w6) as [w7|] eqn:E7; [|done]. apply (RemoveItem_quiet _ _ _ _ it) in E7; [|done]. cbn [bind_result] in HR.
  destruct (RemoveItem s _ _ 0 w7) as [w8|] eqn:E8; [|done]. apply (RemoveItem_quiet _ _ _ _ itd) in E8; [|done]. cbn [bind_result] in HR.
  assert (view w6 (m_container src, m_slotId src) = Some it) as V1 by by rewrite (quiet_view w w6).
  assert (view w6 (m_container dst, m_slotId dst) = Some itd) as V2 by by rewrite (quiet_view w w6).
  apply CanStore_bank_swap in Ec as ->; [|by apply (bk_count _ (proj1 Hw) (m_container src, m_slotId src))|apply Hq].
  apply CanStore_bank_swap in Ec2 as ->; [|by apply (bk_count _ (proj1 Hw) (m_container dst, m_slotId dst))|apply Hp].
  destruct (move_swap r w6 (m_container src, m_slotId src) (m_container dst, m_slotId dst) it itd w7 w8) as (w9 & w10 & E9 & [T' HT'] & E10 & K); try done.
  destruct (take_out r w6 _ it w7 H6 Hp V1 E7) as (G7 & Hv7 & _ & _ & T7 & _).
  assert (view w7 (m_container dst, m_slotId dst) = Some itd) as V3 by (rewrite Hv7 by done; rewrite decide_False by congruence; done).
  destruct (take_out r w7 _ itd w8 G7 Hq V3 E8) as (G8 & _ & _ & _ & T8 & _).
  cbn [fst snd] in E9, E10. unfold StoreItem in HR. cbn [m_container m_slotId set_vec m_vec] in HR.
  assert (has_tab (m_container dst) w8) as [T HT] by (apply T8, T7; [apply Hq|apply Hq|by apply (quiet_tab w)]). rewrite HT, E9 in HR. cbn [bind_result] in HR.
  assert (kept r w w10) as K10 by (apply (kept_steps r w w6); [by apply quiet_kept|done]).
  cbn [fst] in HT'. rewrite HT', E10 in HR. cbn [bind_result] in HR. by injection HR as <- <- <-.
Qed.

(** A new item is in no slot. *)
Lemma Item_CloneItem_spec r it n w o w' :
  good r w -> 1 <= n <= GetMaxStackCount E (i_entry it) -> Item_CloneItem E it n w = Ok (o, w') ->
  kept r w w' /\ (forall p, view w' p = view w p) /\ (forall t, has_tab t w -> has_tab t w') /\
  forall copy, o = Some copy -> i_entry copy = i_entry it /\ i_count copy = n /\ i_guid copy < hiItemGuid w' /\
    forall q b, place q -> view w q = Some b -> i_guid b <> i_guid copy.
Proof.
  intros [[] Hs] Hn. unfold Item_CloneItem, CreateItem. destruct (Z.ltb_spec n 1) as [|_]; [lia|].
  destruct (Z.ltb_spec (GetMaxStackCount E (i_entry it)) n) as [|_]; [lia|]. cbv zeta. destruct (_ <=? _); [done|].
  assert (kept r w (set_hiItemGuid (hiItemGuid w + 1) w)) as Hk.
  { split; [|done]. split; [|done]. constructor; try done. intros p a Hp Ha. cbn. pose proof (bk_guid0 p a Hp Ha). lia. }
  destruct (NewItemCharges E (i_entry it)) as [charges|]; cbn; intros [= <- <-]; (split; [done|]); (split; [done|]); (split; [done|]); [|done].
  intros copy [= <-]. cbn. split_and!; [done|done|lia|]. intros q b Hq Hb. pose proof (bk_guid0 q b Hq Hb). lia.
Qed.

Lemma SwapItems_kept r s t1 s1 t2 s2 n w w' :
  good r w -> 0 <= t1 -> 0 <= s1 -> 0 <= t2 -> 0 <= s2 -> 0 <= n -> SwapItems E s t1 s1 t2 s2 n w = Ok w' -> kept r w w'.
Proof.
  intros Hw Ht1 Hs1 Ht2 Hs2 Hn. assert (kept r w w) as Hrefl by by apply quiet_kept.
  assert (_GetPurchasedTabsSize (guild w) = size (m_bankTabs (guild w))) as Ez by (apply wrap_id; pose proof (bk_tabs _ (proj1 Hw)); unfold size; width).
  assert (forall t, 0 <= t -> t < size (m_bankTabs (guild w)) -> t < GUILD_BANK_MAX_TABS /\ has_tab t w) as Htab.
  { intros t H0 Hlt. pose proof (bk_tabs _ (proj1 Hw)). unfold size, GUILD_BANK_MAX_TABS in *. split; [lia|].
    destruct (lookup_lt_is_Some_2 (m_bankTabs (guild w)) (Z.to_nat t)) as [T HT]; [lia|]. exists T. by apply GetBankTab_lookup. }
  unfold SwapItems. cbv zeta. rewrite Ez. destruct (_ || _ || _ || _) eqn:Eb; [by intros [= <-]|].
  apply orb_false_iff in Eb as [Eb B4%Z.leb_gt]. apply orb_false_iff in Eb as [Eb B3%Z.leb_gt]. apply orb_false_iff in Eb as [B1%Z.leb_gt B2%Z.leb_gt].
  destruct (Htab t1 Ht1 B1) as [L1 T1], (Htab t2 Ht2 B3) as [L2 T2].
  destruct (_ && _) eqn:Ene; [by intros [= <-]|].
  assert ((t1, s1) <> (t2, s2)) as Hne by (intros [= -> ->]; by rewrite !Z.eqb_refl in Ene). unfold _MoveItems. cbv zeta.
  set (src := InitItem _ w). set (dst := BankMoveItemData t2 s2).
  assert (side src w /\ side dst w) as [Sd1 Sd2] by (split; (split; [split; cbn; lia|done])).
  destruct (m_pItem src) as [it|] eqn:Es; [|by intros [= <-]]. assert (item_of src w = Some it) as Hit by exact Es.
  pose proof (bk_count _ (proj1 Hw) _ _ (proj1 Sd1) Hit) as Hcount.
  unfold CheckItem. destruct (Z.ltb_spec (i_count it) n) as [|Hle]; [by intros [= <-]|].
  set (n' := if n =? i_count it then 0 else n). assert (0 <= n' < i_count it) as Hn' by (unfold n'; destruct (Z.eqb_spec n (i_count it)); lia).
  clearbody n'. do 2 (destruct (negb _); [by intros [= <-]|]). destruct (Z.eqb_spec n' 0) as [->|Hnz]; cbn [negb].
  - destruct (_DoItemsMove E s src dst false 0 w) as [[[b dst'] w1]|] eqn:E1; [|done]. cbn [bind_result].
    destruct (_DoItemsMove_whole r s src dst false w it b dst' w1 Hw Sd1 Sd2 Es Hit eq_refl E1) as (K1 & C1 & C2 & Hq).
    destruct b; [intros [= <-]; apply (kept_steps r w w1 _ K1), quiet_kept; [apply _SendBankContentUpdate_quiet|apply K1]|].
    specialize (Hq eq_refl). set (dst2 := InitItem dst' w1). case_bool_decide as Hd; [by intros [= <-]|]. do 2 (destruct (negb _); [by intros [= <-]|]).
    destruct (m_pItem dst2) as [itd|] eqn:Ed; [|done]. cbn [bind_result].
    destruct (_DoItemsMove E s src dst2 true 0 w1) as [[[b d3] w2]|] eqn:E2; [|done]. cbn [bind_result]. intros [= <-].
    assert (kept r w1 w2) as K2.
    { apply (_DoItemsMove_swap r s src dst2 w1 it itd b d3 w2); try done; [apply K1|..].
      - split; [apply Sd1|]. apply (quiet_tab w _ _ Hq), Sd1.
      - unfold side. cbn. rewrite C1, C2. split; [apply Sd2|]. apply (quiet_tab w _ _ Hq), Sd2.
      - cbn. by rewrite C1, C2.
      - unfold item_of. by rewrite (quiet_view w w1). }
    apply (kept_steps r w w1 _ K1), (kept_steps r w1 w2 _ K2), quiet_kept; [apply _SendBankContentUpdate_quiet|apply K2].
  - destruct (Item_CloneItem E it n' w) as [[o w1]|] eqn:Ecl; [|done]. cbn [bind_result].
    destruct (Item_CloneItem_spec r it n' w o w1 Hw ltac:(lia) Ecl) as (K1 & V1 & Tk & Ho). destruct o as [copy|].
    2:{ intros [= <-]. apply (kept_steps r w w1 _ K1), quiet_kept; [apply (send_error_quiet true)|apply K1]. }
    destruct (Ho copy eq_refl) as (O1 & O2 & O3 & O4). rewrite <- O2.
    destruct (_DoItemsMove E s _ dst true (i_count copy) w1) as [[[b d3] w2]|] eqn:E2; [|done]. cbn [bind_result]. intros [= <-].
    assert (kept r w1 w2) as K2.
    { apply (_DoItemsMove_split r s (set_clone (Some copy) src) dst w1 it copy b d3 w2); try done; [apply K1|..|lia|].
      - split; [apply Sd1|]. apply Tk, Sd1.
      - split; [apply Sd2|]. apply Tk, Sd2.
      - unfold item_of. cbn. by rewrite V1.
      - intros q x Hq. rewrite V1. by apply O4. }
    apply (kept_steps r w w1 _ K1), (kept_steps r w1 w2 _ K2), quiet_kept; [apply _SendBankContentUpdate_quiet|apply K2].
Qed.

(** C11: a move of items within the bank loses and doubles nothing: there are as many items
    of each entry as before, no stack is empty or larger than its maximum, and every item
    is in one slot. *)
Theorem SwapItems_conserves s t1 s1 t2 s2 n w w' :
  bank_ok w -> 0 <= t1 -> 0 <= s1 -> 0 <= t2 -> 0 <= s2 -> 0 <= n -> SwapItems E s t1 s1 t2 s2 n w = Ok w' ->
  bank_ok w' /\ forall entry, stored entry w' = stored entry w.
Proof.
  intros Hw H1 H2 H3 H4 H5 HR. destruct (SwapItems_kept None s t1 s1 t2 s2 n w w') as [[Hk _] Hs]; try done.
Qed.
(** C35: after a move the tables of the database describe the bank as it is: which item is
    in which slot, and its entry and number. *)
Theorem SwapItems_saves r s t1 s1 t2 s2 n w w' :
  bank_ok w -> saved r w -> 0 <= t1 -> 0 <= s1 -> 0 <= t2 -> 0 <= s2 -> 0 <= n -> SwapItems E s t1 s1 t2 s2 n w = Ok w' ->
  saved r w'.
Proof.
  intros Hw Hr H1 H2 H3 H4 H5 HR. destruct (SwapItems_kept (Some r) s t1 s1 t2 s2 n w w') as [[_ Hk] _]; try done; [|by apply Hk].
  split; [done|]. by intros r' [= <-].
Qed.

(** A move between two tabs changes what is in the bank only for a member who may put
    items into the tab of the destination and has a withdrawal left for the source. *)
Theorem SwapItems_rights s t1 s1 t2 s2 n w w' p :
  t1 <> t2 -> SwapItems E s t1 s1 t2 s2 n w = Ok w' -> view w' p <> view w p ->
  _MemberHasTabRights s t2 GUILD_BANK_RIGHT_DEPOSIT_ITEM (guild w) = true /\
  exists m, GetMember s (guild w) = Some m /\ _GetMemberRemainingSlots m t1 (guild w) <> 0.
Proof.
  intros Hne HR Hv. unfold SwapItems in HR. cbv zeta in HR. destruct (_ || _ || _ || _); [by injection HR as <-|].
  destruct (_ && _); [by injection HR as <-|]. unfold _MoveItems in HR. cbv zeta in HR. set (src := InitItem _ w) in HR.
  destruct (m_pItem src); [|by injection HR as <-]. destruct (CheckItem _ _); [|by injection HR as <-].
  destruct (HasStoreRights s _ src (guild w)) eqn:E1; cbn [negb] in HR; [|by injection HR as <-].
  destruct (HasWithdrawRights s src _ (guild w)) eqn:E2; cbn [negb] in HR; [|by injection HR as <-]. clear HR.
  unfold HasStoreRights in E1. unfold HasWithdrawRights in E2. cbn in E1, E2.
  destruct (Z.eqb_spec t1 t2); [done|]. destruct (Z.eqb_spec t2 t1); [congruence|]. split; [done|].
  destruct (GetMember s (guild w)) as [m|]; [|done]. exists m. split; [done|]. by apply negb_true_iff, Z.eqb_neq in E2.
Qed.

End Bank.

(** ** An example: two tabs with cloth, of which stacks have at most 20 *)
Definition cloth (guid count : Z) : Item := mkItem guid 2589 count false 0 0 0 (replicate 12 0).
Definition thread (guid count : Z) : Item := mkItem guid 2320 count false 0 0 0 (replicate 12 0).
Definition ex_bank : World :=
  on_this (set_bankTabs [mkTab 0 (<[0 := cloth 40 15]> (<[1 := cloth 41 18]> ∅)) [] [] []; mkTab 1 (<[3 := thread 42 5]> ∅) [] [] []])
    ex.

Definition ex_items : list ((Z * Z) * Item) := [((0, 0), cloth 40 15); ((0, 1), cloth 41 18); ((1, 3), thread 42 5)].
Definition ex_rows : rows :=
  (list_to_map (map (fun x => (x.1, i_guid x.2)) ex_items), list_to_map (map (fun x => (i_guid x.2, (i_entry x.2, i_count x.2))) ex_items)).

Lemma ex_view p it : place p -> view ex_bank p = Some it -> (p, it) ∈ ex_items.
Proof.
  intros Hp Hv. assert (omap (fun p => (p,.) <$> view ex_bank p) all_places = ex_items) as <- by (vm_compute; reflexivity).
  apply list_elem_of_omap. exists p. split; [by apply all_places_place|]. by rewrite Hv.
Qed.
Ltac ex_item H :=
  apply ex_view in H; [|done]; unfold ex_items in H; rewrite !elem_of_cons, elem_of_nil in H; destruct H as [[= -> ->]|[[= -> ->]|[[= -> ->]|[]]]].
Lemma ex_bank_ok : bank_ok E0 ex_bank.
Proof.
  constructor.
  - vm_compute. lia.
  - intros [|[|i]] t; [by intros [= <-]|by intros [= <-]|done].
  - intros p it Hp Hv. ex_item Hv; vm_compute; split; discriminate.
  - intros p it Hp Hv. ex_item Hv; vm_compute; reflexivity.
  - intros p q a b Hp Hq Ha Hb. ex_item Ha; ex_item Hb; done.
Qed.
Lemma ex_saved : saved ex_rows ex_bank.
Proof.
  assert (forallb (fun p => bool_decide ((bank_rows (m_id (guild ex_bank)) ex_rows (trace ex_bank)).1 !! p = i_guid <$> view ex_bank p) &&
            match view ex_bank p with
            | Some it => bool_decide ((bank_rows (m_id (guild ex_bank)) ex_rows (trace ex_bank)).2 !! i_guid it = Some (i_entry it, i_count it))
            | None => true
            end) all_places = true) as H by (vm_compute; reflexivity).
  intros p Hp. rewrite forallb_forall in H. specialize (H p (proj1 (list_elem_of_In _ _) (proj2 (all_places_place p) Hp))).
  apply andb_true_iff in H as [H1%bool_decide_eq_true H2]. split; [done|]. intros it Hit. rewrite Hit in H2. by apply bool_decide_eq_true in H2.
Qed.
Lemma E0_max entry : GetMaxStackCount E0 entry < 2 ^ 32.
Proof. cbn. lia. Qed.

(** Cloth of the first slot fills the second; the rest goes back to the first. *)
Definition ex_merged : World := match SwapItems E0 1 0 0 0 1 0 ex_bank with Ok w => w | Throw _ => ex_bank end.
Example ex_merged_items : omap (fun p => (p,.) <$> view ex_merged p) all_places = [((0, 0), cloth 40 13); ((0, 1), cloth 41 20); ((1, 3), thread 42 5)].
Proof. vm_compute. reflexivity. Qed.

Lemma SwapItems_conserves_witness : bank_ok E0 ex_merged /\ forall entry, stored entry ex_merged = stored entry ex_bank.
Proof.
  apply (SwapItems_conserves E0 E0_max 1 0 0 0 1 0 ex_bank ex_merged); [apply ex_bank_ok|lia|lia|lia|lia|lia|vm_compute; reflexivity].
Defined.
Lemma SwapItems_saves_witness : saved ex_rows ex_merged.
Proof.
  apply (SwapItems_saves E0 E0_max ex_rows 1 0 0 0 1 0 ex_bank ex_merged); [apply ex_bank_ok|apply ex_saved|lia|lia|lia|lia|lia|vm_compute; reflexivity].
Defined.

(** Thread of the second tab goes to the first, moved by the guild master. *)
Definition ex_moved : World := match SwapItems E0 1 1 3 0 7 0 ex_bank with Ok w => w | Throw _ => ex_bank end.
Lemma SwapItems_rights_witness :
  _MemberHasTabRights 1 0 GUILD_BANK_RIGHT_DEPOSIT_ITEM (guild ex_bank) = true /\
  exists m, GetMember 1 (guild ex_bank) = Some m /\ _GetMemberRemainingSlots m 1 (guild ex_bank) <> 0.
Proof. apply (SwapItems_rights E0 1 1 3 0 7 0 ex_bank ex_moved (0, 7)); [lia|vm_compute; reflexivity|vm_compute; discriminate]. Defined.

End GuildStock.
