(* ===== verification/ArenaTables.v ===== *)
(** * ArenaTables: what the character database has of arena teams

    The tables [arena_team], [arena_team_member] and [character_arena_stats] and those of
    petitions, as finite maps from their primary keys [sql/base/characters_database.sql],
    and the statements of [shared/Database/Implementation/CharacterDatabase.cpp] that
    write them. A statement whose connection is asynchronous is put in a queue; a worker
    thread executes the queue in its order, while queries read the tables at once. *)
From S2P Require Import Prelude.
#[global] Open Scope Z_scope.

Module ArenaTables.

(** ** Rows *)
Record Emblem := mkEmblem { BackgroundColor : Z; EmblemStyle : Z; EmblemColor : Z; BorderStyle : Z; BorderColor : Z }.
Record ArenaTeamStats := mkStats { Rating : Z; s_WeekGames : Z; s_WeekWins : Z; s_SeasonGames : Z; s_SeasonWins : Z; Rank : Z }.

(** [arena_team] *)
Record TeamRow := mkTeamRow { tr_name : list Z; tr_captain : Z; tr_type : Z; tr_emblem : Emblem; tr_stats : ArenaTeamStats }.
(** [arena_team_member] *)
Record MemberRow := mkMemberRow {
  mr_weekGames : Z; mr_weekWins : Z; mr_seasonGames : Z; mr_seasonWins : Z; mr_personalRating : Z }.
(** [petition] by owner and type, [petition_sign] by petition and player. *)
Record PetitionRow := mkPetition { pe_guid : Z; pe_name : list Z }.
Record SignRow := mkSign { sg_owner : Z; sg_account : Z; sg_type : Z }.

#[global] Instance Emblem_eq_dec : EqDecision Emblem.
Proof. solve_decision. Defined.
#[global] Instance ArenaTeamStats_eq_dec : EqDecision ArenaTeamStats.
Proof. solve_decision. Defined.
#[global] Instance TeamRow_eq_dec : EqDecision TeamRow.
Proof. solve_decision. Defined.
#[global] Instance MemberRow_eq_dec : EqDecision MemberRow.
Proof. solve_decision. Defined.

Record Tables := mkTables {
  arena_team : gmap Z TeamRow;
  arena_team_member : gmap (Z * Z) MemberRow;        (* team and player *)
  character_arena_stats : gmap (Z * Z) Z;            (* player and slot *)
  petition : gmap (Z * Z) PetitionRow;
  petition_sign : gmap (Z * Z) SignRow;
  arenaPoints : gmap Z Z                             (* a column of [characters] *)
}.

(** ** Statements *)
Inductive statement :=
| CHAR_INS_ARENA_TEAM (id : Z) (name : list Z) (captain type rating : Z) (e : Emblem)
| CHAR_INS_ARENA_TEAM_MEMBER (id guid : Z)
| CHAR_DEL_ARENA_TEAM (id : Z)
| CHAR_DEL_ARENA_TEAM_MEMBERS (id : Z)
| CHAR_UPD_ARENA_TEAM_CAPTAIN (captain id : Z)
| CHAR_DEL_ARENA_TEAM_MEMBER (id guid : Z)
| CHAR_UPD_ARENA_TEAM_STATS (rating weekGames weekWins seasonGames seasonWins rank id : Z)
| CHAR_UPD_ARENA_TEAM_MEMBER (personalRating weekGames weekWins seasonGames seasonWins id guid : Z)
| CHAR_REP_CHARACTER_ARENA_STATS (guid slot matchMakerRating : Z)
| DELETE_stray_members
| CHAR_UPD_CHAR_ARENA_POINTS (points guid : Z)
| CHAR_UDP_CHAR_ARENA_POINTS (points guid : Z)
| CHAR_INS_PETITION (owner petitionguid : Z) (name : list Z) (type : Z)
| CHAR_INS_PETITION_SIGNATURE (owner petitionguid player account : Z)
| CHAR_UPD_PETITION_NAME (name : list Z) (petitionguid : Z)
| CHAR_DEL_ALL_PETITION_SIGNATURES (player : Z)
| CHAR_DEL_PETITION_SIGNATURE (player type : Z)
| CHAR_DEL_PETITION_BY_OWNER (owner : Z)
| CHAR_DEL_PETITION_SIGNATURE_BY_OWNER (owner : Z)
| CHAR_DEL_PETITION_BY_OWNER_AND_TYPE (owner type : Z)
| CHAR_DEL_PETITION_SIGNATURE_BY_OWNER_AND_TYPE (owner type : Z)
| CHAR_DEL_PETITION_BY_GUID (petitionguid : Z)
| CHAR_DEL_PETITION_SIGNATURE_BY_GUID (petitionguid : Z)
| DELETE_petitions (guids : list Z)
| DELETE_petition_signs (guids : list Z).

Definition on_team_rows (f : gmap Z TeamRow -> gmap Z TeamRow) (T : Tables) : Tables :=
  mkTables (f (arena_team T)) (arena_team_member T) (character_arena_stats T) (petition T) (petition_sign T) (arenaPoints T).
Definition on_member_rows (f : gmap (Z * Z) MemberRow -> gmap (Z * Z) MemberRow) (T : Tables) : Tables :=
  mkTables (arena_team T) (f (arena_team_member T)) (character_arena_stats T) (petition T) (petition_sign T) (arenaPoints T).
Definition on_arena_stats (f : gmap (Z * Z) Z -> gmap (Z * Z) Z) (T : Tables) : Tables :=
  mkTables (arena_team T) (arena_team_member T) (f (character_arena_stats T)) (petition T) (petition_sign T) (arenaPoints T).
Definition on_petitions (f : gmap (Z * Z) PetitionRow -> gmap (Z * Z) PetitionRow) (T : Tables) : Tables :=
  mkTables (arena_team T) (arena_team_member T) (character_arena_stats T) (f (petition T)) (petition_sign T) (arenaPoints T).
Definition on_signs (f : gmap (Z * Z) SignRow -> gmap (Z * Z) SignRow) (T : Tables) : Tables :=
  mkTables (arena_team T) (arena_team_member T) (character_arena_stats T) (petition T) (f (petition_sign T)) (arenaPoints T).
Definition on_points (f : gmap Z Z -> gmap Z Z) (T : Tables) : Tables :=
  mkTables (arena_team T) (arena_team_member T) (character_arena_stats T) (petition T) (petition_sign T) (f (arenaPoints T)).

(** [INSERT]: an error, and no row, when the key is there. *)
Definition insert_new {K A} `{Countable K} (k : K) (a : A) (m : gmap K A) : gmap K A :=
  match m !! k with Some _ => m | None => <[k := a]> m end.

Definition set_captain (captain : Z) (r : TeamRow) : TeamRow := mkTeamRow (tr_name r) captain (tr_type r) (tr_emblem r) (tr_stats r).
Definition set_stats (s : ArenaTeamStats) (r : TeamRow) : TeamRow := mkTeamRow (tr_name r) (tr_captain r) (tr_type r) (tr_emblem r) s.

(** The defaults of the columns that [CHAR_INS_ARENA_TEAM] and
    [CHAR_INS_ARENA_TEAM_MEMBER] leave out. *)
Definition new_stats (rating : Z) : ArenaTeamStats := mkStats rating 0 0 0 0 0.
Definition new_member_row : MemberRow := mkMemberRow 0 0 0 0 0.

Definition exec (s : statement) (T : Tables) : Tables :=
  match s with
  | CHAR_INS_ARENA_TEAM id name captain type rating e =>
      on_team_rows (insert_new id (mkTeamRow name captain type e (new_stats rating))) T
  | CHAR_INS_ARENA_TEAM_MEMBER id guid => on_member_rows (insert_new (id, guid) new_member_row) T
  | CHAR_DEL_ARENA_TEAM id => on_team_rows (delete id) T
  | CHAR_DEL_ARENA_TEAM_MEMBERS id => on_member_rows (filter (fun kv => kv.1.1 <> id)) T
  | CHAR_UPD_ARENA_TEAM_CAPTAIN captain id => on_team_rows (alter (set_captain captain) id) T
  | CHAR_DEL_ARENA_TEAM_MEMBER id guid => on_member_rows (delete (id, guid)) T
  | CHAR_UPD_ARENA_TEAM_STATS rating wg ww sg sw rank id => on_team_rows (alter (set_stats (mkStats rating wg ww sg sw rank)) id) T
  | CHAR_UPD_ARENA_TEAM_MEMBER rating wg ww sg sw id guid =>
      on_member_rows (alter (fun _ => mkMemberRow wg ww sg sw rating) (id, guid)) T
  | CHAR_REP_CHARACTER_ARENA_STATS guid slot mmr => on_arena_stats (insert (guid, slot) mmr) T
  | DELETE_stray_members => on_member_rows (filter (fun kv => kv.1.1 ∈ dom (arena_team T))) T
  | CHAR_UPD_CHAR_ARENA_POINTS points guid => on_points (alter (Z.add points) guid) T
  | CHAR_UDP_CHAR_ARENA_POINTS points guid => on_points (alter (fun _ => points) guid) T
  | CHAR_INS_PETITION owner guid name type => on_petitions (insert_new (owner, type) (mkPetition guid name)) T
  | CHAR_INS_PETITION_SIGNATURE owner guid player account => on_signs (insert_new (guid, player) (mkSign owner account 0)) T
  | CHAR_UPD_PETITION_NAME name guid =>
      on_petitions (fmap (fun r => if pe_guid r =? guid then mkPetition guid name else r)) T
  | CHAR_DEL_ALL_PETITION_SIGNATURES player => on_signs (filter (fun kv => kv.1.2 <> player)) T
  | CHAR_DEL_PETITION_SIGNATURE player type => on_signs (filter (fun kv => ~ (kv.1.2 = player /\ sg_type kv.2 = type))) T
  | CHAR_DEL_PETITION_BY_OWNER owner => on_petitions (filter (fun kv => kv.1.1 <> owner)) T
  | CHAR_DEL_PETITION_SIGNATURE_BY_OWNER owner => on_signs (filter (fun kv => sg_owner kv.2 <> owner)) T
  | CHAR_DEL_PETITION_BY_OWNER_AND_TYPE owner type => on_petitions (delete (owner, type)) T
  | CHAR_DEL_PETITION_SIGNATURE_BY_OWNER_AND_TYPE owner type =>
      on_signs (filter (fun kv => ~ (sg_owner kv.2 = owner /\ sg_type kv.2 = type))) T
  | CHAR_DEL_PETITION_BY_GUID guid => on_petitions (filter (fun kv => pe_guid kv.2 <> guid)) T
  | CHAR_DEL_PETITION_SIGNATURE_BY_GUID guid => on_signs (filter (fun kv => kv.1.1 <> guid)) T
  | DELETE_petitions guids => on_petitions (filter (fun kv => pe_guid kv.2 ∉ guids)) T
  | DELETE_petition_signs guids => on_signs (filter (fun kv => kv.1.1 ∉ guids)) T
  end.

(** A transaction is a sequence of statements that nothing comes between. *)
Definition exec_all (l : list statement) (T : Tables) : Tables := foldl (fun T s => exec s T) T l.

Lemma exec_all_cons s l T : exec_all (s :: l) T = exec_all l (exec s T).
Proof. done. Qed.
#[global] Arguments exec_all : simpl never.
Lemma exec_all_app l1 l2 T : exec_all (l1 ++ l2) T = exec_all l2 (exec_all l1 T).
Proof. apply foldl_app. Qed.

(** ** Queries *)

(** [CHAR_SEL_ARENA_TEAM_ID_BY_PLAYER_GUID]: the teams of a type that a player is a member
    of; [CHAR_SEL_PLAYER_ARENA_TEAMS]: those of all types. *)
Definition teams_of (guid : Z) (ok : TeamRow -> bool) (T : Tables) : list Z :=
  omap (fun kv => if (kv.1.2 =? guid) && match arena_team T !! kv.1.1 with Some r => ok r | None => false end
                  then Some kv.1.1 else None) (map_to_list (arena_team_member T)).
Definition team_id_by_guid (guid type : Z) (T : Tables) : option Z := head (teams_of guid (fun r => tr_type r =? type) T).
Definition player_arena_teams (guid : Z) (T : Tables) : list Z := teams_of guid (fun _ => true) T.

(** [CHAR_SEL_PETITION]: owner, name and type. *)
Definition sel_petition (guid : Z) (T : Tables) : option (Z * list Z * Z) :=
  head (omap (fun kv => if pe_guid kv.2 =? guid then Some (kv.1.1, pe_name kv.2, kv.1.2) else None) (map_to_list (petition T))).
(** [CHAR_SEL_PETITION_SIGNATURE]: the players. *)
Definition sel_signatures (guid : Z) (T : Tables) : list Z :=
  omap (fun kv => if kv.1.1 =? guid then Some kv.1.2 else None) (map_to_list (petition_sign T)).
(** [CHAR_SEL_PETITION_SIG_BY_ACCOUNT]. *)
Definition signed_by_account (account guid : Z) (T : Tables) : bool :=
  existsb (fun kv => (sg_account kv.2 =? account) && (kv.1.1 =? guid)) (map_to_list (petition_sign T)).
(** [CHAR_SEL_PETITION_SIG_BY_GUID_TYPE], [CHAR_SEL_PETITION_SIG_BY_GUID]: owners and
    petitions. *)
Definition signs_of (player : Z) (ok : SignRow -> bool) (T : Tables) : list (Z * Z) :=
  omap (fun kv => if (kv.1.2 =? player) && ok kv.2 then Some (sg_owner kv.2, kv.1.1) else None) (map_to_list (petition_sign T)).
(** [CHAR_SEL_PETITION_BY_OWNER]. *)
Definition petition_by_owner (owner type : Z) (T : Tables) : list Z :=
  match petition T !! (owner, type) with Some r => [pe_guid r] | None => [] end.

Lemma elem_of_teams_of guid ok T id :
  id ∈ teams_of guid ok T <-> is_Some (arena_team_member T !! (id, guid)) /\ exists r, arena_team T !! id = Some r /\ ok r = true.
Proof.
  unfold teams_of. rewrite list_elem_of_omap. split.
  - intros ([[i g] m] & Hin & H). apply elem_of_map_to_list in Hin. cbn in H. destruct (Z.eqb_spec g guid) as [->|]; [|done].
    destruct (arena_team T !! i) as [r|] eqn:Hr; [|done]. cbn in H. destruct (ok r) eqn:Ho; [|done]. naive_solver.
  - intros [[m Hm] (r & Hr & Ho)]. exists (id, guid, m). split; [by apply elem_of_map_to_list|]. cbn.
    by rewrite Z.eqb_refl, Hr, Ho.
Qed.

Lemma team_id_by_guid_None guid type T :
  team_id_by_guid guid type T = None <->
  forall id r, arena_team T !! id = Some r -> tr_type r = type -> arena_team_member T !! (id, guid) = None.
Proof.
  unfold team_id_by_guid. rewrite head_None. split.
  - intros He id r Hr <-. destruct (arena_team_member T !! (id, guid)) eqn:Hm; [|done].
    assert (id ∈ teams_of guid (fun r' => tr_type r' =? tr_type r) T) as Hin; [|rewrite He in Hin; set_solver].
    apply elem_of_teams_of. split; [by eexists|]. exists r. by rewrite Z.eqb_refl.
  - intros H. destruct (teams_of guid _ T) as [|id l] eqn:He; [done|].
    assert (id ∈ teams_of guid (fun r => tr_type r =? type) T) as Hin; [rewrite He; set_solver|].
    apply elem_of_teams_of in Hin as [[m Hm] (r & Hr & Ht%Z.eqb_eq)]. by rewrite (H id r Hr Ht) in Hm.
Qed.

End ArenaTables.
