(* ===== verification/ArenaTeam.v ===== *)
(** * ArenaTeam: teams for rated arena matches

    [game/Battlegrounds/ArenaTeam.cpp] and [ArenaTeamMgr.cpp]: the members and the captain
    of a team, its ratings and counters, the registry of teams, the load of all teams and
    the weekly distribution of arena points, with what [Player] keeps of its teams. An
    operation takes a team and the world (the players in the game, the registry, the
    tables with the queue of their writes, and what was sent) and returns them. The
    statements are in [ArenaTables], the packets of players in [ArenaHandlers], and the
    end of a match in [ArenaMatch]. Strings are lists of bytes. *)
From stdpp Require Import sorting.
From S2P Require Import Prelude Float32 Guild ArenaTables.
Import ArenaTables.
#[global] Open Scope Z_scope.

Module ArenaTeam.

(** ** Constants *)
Definition ERR_ARENA_TEAM_CREATE_S := 0x00.
Definition ERR_ARENA_TEAM_INVITE_SS := 0x01.
Definition ERR_ARENA_TEAM_QUIT_S := 0x03.
Definition ERR_ARENA_TEAM_INTERNAL := 0x01.
Definition ERR_ALREADY_IN_ARENA_TEAM := 0x02.
Definition ERR_ALREADY_IN_ARENA_TEAM_S := 0x03.
Definition ERR_ALREADY_INVITED_TO_ARENA_TEAM_S := 0x05.
Definition ERR_ARENA_TEAM_NAME_INVALID := 0x06.
Definition ERR_ARENA_TEAM_NAME_EXISTS_S := 0x07.
Definition ERR_ARENA_TEAM_LEADER_LEAVE_S := 0x08.
Definition ERR_ARENA_TEAM_PERMISSIONS := 0x08.
Definition ERR_ARENA_TEAM_PLAYER_NOT_IN_TEAM := 0x09.
Definition ERR_ARENA_TEAM_PLAYER_NOT_FOUND_S := 0x0B.
Definition ERR_ARENA_TEAM_NOT_ALLIED := 0x0C.
Definition ERR_ARENA_TEAM_TARGET_TOO_LOW_S := 0x15.
Definition ERR_ARENA_TEAM_TOO_MANY_MEMBERS_S := 0x17.
Definition ERR_ARENA_TEAM_JOIN_SS := 3.
Definition ERR_ARENA_TEAM_LEAVE_SS := 4.
Definition ERR_ARENA_TEAM_REMOVE_SSS := 5.
Definition ERR_ARENA_TEAM_LEADER_CHANGED_SSS := 7.
Definition ERR_ARENA_TEAM_DISBANDED_S := 8.
Definition ARENA_TEAM_2v2 := 2.
Definition ARENA_TEAM_3v3 := 3.
Definition ARENA_TEAM_5v5 := 5.
Definition MAX_ARENA_SLOT := 3.
Definition ARENA_TEAM_ID := 0.
Definition ARENA_TEAM_TYPE := 1.
Definition ARENA_TEAM_MEMBER := 2.
Definition ARENA_TEAM_GAMES_WEEK := 3.
Definition ARENA_TEAM_GAMES_SEASON := 4.
Definition ARENA_TEAM_WINS_SEASON := 5.
Definition ARENA_TEAM_PERSONAL_RATING := 6.
Definition ARENA_TEAM_END := 7.
Definition ACHIEVEMENT_CRITERIA_TYPE_HIGHEST_TEAM_RATING := 38.
Definition ACHIEVEMENT_CRITERIA_TYPE_HIGHEST_PERSONAL_RATING := 39.
Definition GUILD_CHARTER_TYPE := 9.
Definition ITEM_ARENA_POINTS_ID := 43307.
Definition LANG_DIST_ARENA_POINTS_START := 741.
Definition LANG_DIST_ARENA_POINTS_ONLINE_START := 742.
Definition LANG_DIST_ARENA_POINTS_ONLINE_END := 743.
Definition LANG_DIST_ARENA_POINTS_TEAM_START := 744.
Definition LANG_DIST_ARENA_POINTS_TEAM_END := 745.
Definition LANG_DIST_ARENA_POINTS_END := 746.

Definition GUID_LOPART (guid : Z) : Z := Z.land guid 0xFFFFFFFF.
Definition HIGHGUID_PLAYER := 0x0000.
(** [MAKE_NEW_GUID(l, 0, HIGHGUID_PLAYER)]. *)
Definition MAKE_PLAYER_GUID (l : Z) : Z := Z.lor l (Z.lor (Z.shiftl 0 24) (Z.shiftl HIGHGUID_PLAYER 48)).

(** ** Data *)

(** A null player is dereferenced; the assertion on the index of a field of a player; a
    text that is too long for the buffer of its normalisation. *)
Inductive fault := NullPlayer | BadInfoField | TextOverflow.

Record ArenaTeamMember := mkMember {
  Guid : Z;
  Name : list Z;
  m_Class : Z;
  WeekGames : Z;
  WeekWins : Z;
  SeasonGames : Z;
  SeasonWins : Z;
  PersonalRating : Z;
  MatchMakerRating : Z
}.

Record ArenaTeam := mkTeam {
  TeamId : Z;
  Type_ : Z;
  TeamName : list Z;
  CaptainGuid : Z;
  emblem : Emblem;
  Members : list ArenaTeamMember;
  Stats : ArenaTeamStats
}.

(** What arena teams read and write of a player in the world: [p_inArena] is
    [InArena()], [p_onArenaMap] is [GetMap()->IsBattleArena()], [p_info] are the fields
    from [PLAYER_FIELD_ARENA_TEAM_INFO_1_1] on, seven for each slot. *)
Record Player := mkPlayer {
  p_name : list Z;
  p_class : Z;
  p_level : Z;
  p_team : Z;
  p_account : Z;
  p_ignores : list Z;          (* low parts of guids *)
  p_inArena : bool;
  p_onArenaMap : bool;
  p_info : list Z;
  p_invited : Z;
  p_arenaPoints : Z;
  p_guildId : Z;
  p_guildIdInvited : Z
}.

(** The configuration and what the rest of the server and the library answer: [CharData]
    is the name and class in [characters]; [expf] and [logf] are those of [cmath] on
    [float]. *)
Record Env := mkEnv {
  CONFIG_ARENA_START_RATING : Z;
  CONFIG_ARENA_START_PERSONAL_RATING : Z;
  CONFIG_ARENA_START_MATCHMAKER_RATING : Z;
  CONFIG_ARENA_SEASON_ID : Z;
  CONFIG_MAX_ARENA_POINTS : Z;
  CONFIG_MAX_PLAYER_LEVEL : Z;
  CONFIG_MIN_PETITION_SIGNS : Z;
  CONFIG_ALLOW_TWO_SIDE_INTERACTION_GUILD : bool;
  CharData : Z -> option (list Z * Z);
  GetPlayerTeamByGUID : Z -> Z;
  IsReservedName : list Z -> bool;
  IsValidCharterName : list Z -> bool;
  expf : Float32.float -> Float32.float;
  logf : Float32.float -> Float32.float
}.

(** ** Effects *)
Inductive field := U8 (z : Z) | U16 (z : Z) | U32 (z : Z) | U64 (z : Z) | Str (s : list Z) | PackGUID (z : Z).
Inductive opcode :=
| SMSG_ARENA_TEAM_ROSTER | SMSG_ARENA_TEAM_QUERY_RESPONSE | SMSG_ARENA_TEAM_STATS | MSG_INSPECT_ARENA_TEAMS
| SMSG_ARENA_TEAM_EVENT | SMSG_CALENDAR_ARENA_TEAM | SMSG_ARENA_TEAM_COMMAND_RESULT | SMSG_ARENA_TEAM_INVITE
| SMSG_ARENA_ERROR | SMSG_PETITION_QUERY_RESPONSE | SMSG_PETITION_SIGN_RESULTS | SMSG_TURN_IN_PETITION_RESULTS
| MSG_PETITION_RENAME | MSG_PETITION_DECLINE | SMSG_PETITION_SHOW_SIGNATURES | SMSG_CHAR_DELETE | SMSG_GUILD_COMMAND_RESULT.
Record WorldPacket := mkPacket { op : opcode; body : list field }.

Inductive effect :=
| SendPacket (receiver : Z) (data : WorldPacket)
| UpdateAchievementCriteria (guid type a b : Z)
| ResetAchievementCriteria (guid type condition : Z)
| AddKnownCurrency (guid itemId : Z)
| SendWorldText (stringId : Z)
| DestroyItem (owner guid : Z)
| StopNow.

(** The registry is a hash map; a loop over it takes the order of [map_to_list], which
    like that of the hash map is none in particular. A transaction is one element of
    [queue]. *)
Record World := mkWorld {
  players : gmap Z Player;
  ArenaTeamStore : gmap Z ArenaTeam;
  NextArenaTeamId : Z;
  db : Tables;
  queue : list (list statement);
  trace : list effect
}.

(** ** Setters *)
Definition set_Members (v : list ArenaTeamMember) (t : ArenaTeam) : ArenaTeam :=
  mkTeam (TeamId t) (Type_ t) (TeamName t) (CaptainGuid t) (emblem t) v (Stats t).
Definition set_CaptainGuid (v : Z) (t : ArenaTeam) : ArenaTeam :=
  mkTeam (TeamId t) (Type_ t) (TeamName t) v (emblem t) (Members t) (Stats t).
Definition set_Stats (v : ArenaTeamStats) (t : ArenaTeam) : ArenaTeam :=
  mkTeam (TeamId t) (Type_ t) (TeamName t) (CaptainGuid t) (emblem t) (Members t) v.
Definition set_info (v : list Z) (p : Player) : Player :=
  mkPlayer (p_name p) (p_class p) (p_level p) (p_team p) (p_account p) (p_ignores p) (p_inArena p) (p_onArenaMap p) v
    (p_invited p) (p_arenaPoints p) (p_guildId p) (p_guildIdInvited p).
Definition set_invited (v : Z) (p : Player) : Player :=
  mkPlayer (p_name p) (p_class p) (p_level p) (p_team p) (p_account p) (p_ignores p) (p_inArena p) (p_onArenaMap p) (p_info p)
    v (p_arenaPoints p) (p_guildId p) (p_guildIdInvited p).
Definition set_arenaPoints (v : Z) (p : Player) : Player :=
  mkPlayer (p_name p) (p_class p) (p_level p) (p_team p) (p_account p) (p_ignores p) (p_inArena p) (p_onArenaMap p) (p_info p)
    (p_invited p) v (p_guildId p) (p_guildIdInvited p).
Definition set_place (inArena onArenaMap : bool) (p : Player) : Player :=
  mkPlayer (p_name p) (p_class p) (p_level p) (p_team p) (p_account p) (p_ignores p) inArena onArenaMap (p_info p)
    (p_invited p) (p_arenaPoints p) (p_guildId p) (p_guildIdInvited p).
Definition set_players (v : gmap Z Player) (w : World) : World :=
  mkWorld v (ArenaTeamStore w) (NextArenaTeamId w) (db w) (queue w) (trace w).
Definition set_store (v : gmap Z ArenaTeam) (w : World) : World :=
  mkWorld (players w) v (NextArenaTeamId w) (db w) (queue w) (trace w).
Definition set_next (v : Z) (w : World) : World :=
  mkWorld (players w) (ArenaTeamStore w) v (db w) (queue w) (trace w).
Definition set_db (T : Tables) (q : list (list statement)) (w : World) : World :=
  mkWorld (players w) (ArenaTeamStore w) (NextArenaTeamId w) T q (trace w).
Definition set_trace (v : list effect) (w : World) : World :=
  mkWorld (players w) (ArenaTeamStore w) (NextArenaTeamId w) (db w) (queue w) v.

(** ** The world *)
Definition emit (es : list effect) (w : World) : World := set_trace (trace w ++ es) w.
Definition CommitTransaction (trans : list statement) (w : World) : World := set_db (db w) (queue w ++ [trans]) w.
Definition Execute (s : statement) : World -> World := CommitTransaction [s].
(** The worker thread takes the next statement or transaction. *)
Definition worker (w : World) : World :=
  match queue w with [] => w | trans :: q => set_db (exec_all trans (db w)) q w end.
(** The tables when the queue is executed. *)
Definition latest (w : World) : Tables := exec_all (concat (queue w)) (db w).

Definition FindPlayer (guid : Z) (w : World) : option Player := players w !! guid.
Definition on_player (guid : Z) (f : Player -> Player) (w : World) : World := set_players (alter f guid (players w)) w.
(** The player of a session. *)
Definition GetPlayer (guid : Z) (w : World) : result fault Player :=
  match FindPlayer guid w with Some p => Ok p | None => Throw NullPlayer end.

(** Fields of a player; a slot other than 0, 1, 2 is past the last field. *)
Definition info_index (slot type : Z) : nat := Z.to_nat (slot * ARENA_TEAM_END + type).
Definition SetArenaTeamInfoField (guid slot type value : Z) (w : World) : result fault World :=
  let? p := GetPlayer guid w in
  if (info_index slot type <? length (p_info p))%nat
  then Ok (on_player guid (set_info (<[info_index slot type := value]> (p_info p))) w) else Throw BadInfoField.
Definition GetInfoField (slot type : Z) (p : Player) : result fault Z :=
  match p_info p !! info_index slot type with Some v => Ok v | None => Throw BadInfoField end.
Definition GetArenaTeamId (slot : Z) (p : Player) : result fault Z := GetInfoField slot ARENA_TEAM_ID p.
Definition GetArenaPersonalRating (slot : Z) (p : Player) : result fault Z := GetInfoField slot ARENA_TEAM_PERSONAL_RATING p.
Definition SetInArenaTeam (guid teamId slot type : Z) (w : World) : result fault World :=
  let? w := SetArenaTeamInfoField guid slot ARENA_TEAM_ID teamId w in
  SetArenaTeamInfoField guid slot ARENA_TEAM_TYPE type w.
Definition SetArenaTeamIdInvited (guid v : Z) : World -> World := on_player guid (set_invited v).
(** The first [n] fields of a slot are set to 0. *)
Fixpoint clear_info (guid slot : Z) (n : nat) (w : World) : result fault World :=
  match n with
  | O => Ok w
  | S n => let? w := clear_info guid slot n w in SetArenaTeamInfoField guid slot (Z.of_nat n) 0 w
  end.

Definition SendArenaTeamCommandResult (session teamAction : Z) (team player : list Z) (errorId : Z) : World -> World :=
  emit [SendPacket session (mkPacket SMSG_ARENA_TEAM_COMMAND_RESULT [U32 teamAction; Str team; Str player; U32 errorId])].

(** ** Accessors of a team *)
Definition GetSlotByType (type : Z) : Z :=
  if type =? ARENA_TEAM_2v2 then 0 else if type =? ARENA_TEAM_3v3 then 1 else if type =? ARENA_TEAM_5v5 then 2 else 0xFF.
Definition GetSlot (t : ArenaTeam) : Z := GetSlotByType (Type_ t).
Definition GetMembersSize (t : ArenaTeam) : Z := Z.of_nat (length (Members t)).
Definition GetRating (t : ArenaTeam) : Z := Rating (Stats t).
Fixpoint find_member (P : ArenaTeamMember -> bool) (l : list ArenaTeamMember) : option ArenaTeamMember :=
  match l with [] => None | m :: l => if P m then Some m else find_member P l end.
Definition GetMember (guid : Z) (t : ArenaTeam) : option ArenaTeamMember := find_member (fun m => Guid m =? guid) (Members t).
Definition GetMember_name (name : list Z) (t : ArenaTeam) : option ArenaTeamMember :=
  find_member (fun m => bool_decide (Name m = name)) (Members t).
Definition IsMember (guid : Z) (t : ArenaTeam) : bool := existsb (fun m => Guid m =? guid) (Members t).
Definition IsFighting (t : ArenaTeam) (w : World) : bool :=
  existsb (fun m => match FindPlayer (Guid m) w with Some p => p_onArenaMap p | None => false end) (Members t).

(** ** Packets *)
Definition BroadcastPacket (data : WorldPacket) (t : ArenaTeam) (w : World) : World :=
  emit (omap (fun m => match FindPlayer (Guid m) w with Some _ => Some (SendPacket (Guid m) data) | None => None end) (Members t)) w.
(** [strs] are the first [strCount] of the three strings. *)
Definition BroadcastEvent (event guid : Z) (strs : list (list Z)) (t : ArenaTeam) (w : World) : World :=
  if (3 <? length strs)%nat then w
  else BroadcastPacket (mkPacket SMSG_ARENA_TEAM_EVENT
         ([U8 event; U8 (Z.of_nat (length strs))] ++ map Str strs ++ (if guid =? 0 then [] else [U64 guid]))) t w.
Definition SendStats (session : Z) (t : ArenaTeam) : World -> World :=
  emit [SendPacket session (mkPacket SMSG_ARENA_TEAM_STATS
    [U32 (TeamId t); U32 (Rating (Stats t)); U32 (s_WeekGames (Stats t)); U32 (s_WeekWins (Stats t));
     U32 (s_SeasonGames (Stats t)); U32 (s_SeasonWins (Stats t)); U32 (Rank (Stats t))])].
Definition NotifyStatsChanged (t : ArenaTeam) (w : World) : World :=
  foldl (fun w m => match FindPlayer (Guid m) w with Some _ => SendStats (Guid m) t w | None => w end) w (Members t).
Definition roster_line (t : ArenaTeam) (w : World) (m : ArenaTeamMember) : list field :=
  let player := FindPlayer (Guid m) w in
  [U64 (Guid m); U8 (if player is Some _ then 1 else 0); Str (Name m); U32 (if Guid m =? CaptainGuid t then 0 else 1);
   U8 (match player with Some p => p_level p | None => 0 end); U8 (m_Class m); U32 (WeekGames m); U32 (WeekWins m);
   U32 (SeasonGames m); U32 (SeasonWins m); U32 (PersonalRating m)].
Definition Roster (session : Z) (t : ArenaTeam) (w : World) : World :=
  emit [SendPacket session (mkPacket SMSG_ARENA_TEAM_ROSTER
    ([U32 (TeamId t); U8 0; U32 (GetMembersSize t); U32 (Type_ t)] ++ (Members t ≫= roster_line t w)))] w.
Definition Query (session : Z) (t : ArenaTeam) : World -> World :=
  emit [SendPacket session (mkPacket SMSG_ARENA_TEAM_QUERY_RESPONSE
    [U32 (TeamId t); Str (TeamName t); U32 (Type_ t); U32 (BackgroundColor (emblem t)); U32 (EmblemStyle (emblem t));
     U32 (EmblemColor (emblem t)); U32 (BorderStyle (emblem t)); U32 (BorderColor (emblem t))])].
Definition Inspect (session guid : Z) (t : ArenaTeam) (w : World) : World :=
  match GetMember guid t with
  | None => w
  | Some m =>
      emit [SendPacket session (mkPacket MSG_INSPECT_ARENA_TEAMS
        [U64 guid; U8 (GetSlot t); U32 (TeamId t); U32 (Rating (Stats t)); U32 (s_SeasonGames (Stats t));
         U32 (s_SeasonWins (Stats t)); U32 (SeasonGames m); U32 (PersonalRating m)])] w
  end.
Definition MassInviteToEvent (session : Z) (t : ArenaTeam) : World -> World :=
  emit [SendPacket session (mkPacket SMSG_CALENDAR_ARENA_TEAM
    (U32 (u32 (GetMembersSize t - 1)) ::
     (Members t ≫= fun m => if Guid m =? session then [] else [PackGUID (Guid m); U8 0])))].

(** ** Petitions of a player *)

(** [SendPetitionQueryOpcode] of the session of [session]. *)
Definition SendPetitionQueryOpcode (E : Env) (session petitionguid : Z) (w : World) : World :=
  match sel_petition (GUID_LOPART petitionguid) (db w) with
  | None => w
  | Some (owner, name, type) =>
      let needed := if type =? GUILD_CHARTER_TYPE then CONFIG_MIN_PETITION_SIGNS E else u32 (type - 1) in
      emit [SendPacket session (mkPacket SMSG_PETITION_QUERY_RESPONSE
        ([U32 (GUID_LOPART petitionguid); U64 (MAKE_PLAYER_GUID owner); Str name; U8 0; U32 needed; U32 needed;
          U32 (if type =? GUILD_CHARTER_TYPE then 0 else type)] ++
         [U32 0; U32 0; U32 0; U32 0; U16 0; U32 0; U32 0; U32 0] ++ repeat (U8 0) 10 ++
         [U32 0; U32 (if type =? GUILD_CHARTER_TYPE then 0 else 1)]))] w
  end.

(** [HIGHGUID_ITEM] is in the high part. *)
Definition HIGHGUID_ITEM := 0x4000.
Definition MAKE_ITEM_GUID (l : Z) : Z := Z.lor l (Z.lor (Z.shiftl 0 24) (Z.shiftl HIGHGUID_ITEM 48)).

Definition RemovePetitionsAndSigns (E : Env) (guid type : Z) (w : World) : World :=
  let lo := GUID_LOPART guid in
  let result := signs_of lo (fun r => if type =? 10 then true else sg_type r =? u8 type) (db w) in
  let w := foldl (fun w op => let owner := MAKE_PLAYER_GUID op.1 in
             match FindPlayer owner w with Some _ => SendPetitionQueryOpcode E owner (MAKE_ITEM_GUID op.2) w | None => w end) w result in
  let w := match result with
           | [] => w
           | _ => Execute (if type =? 10 then CHAR_DEL_ALL_PETITION_SIGNATURES lo else CHAR_DEL_PETITION_SIGNATURE lo (u8 type)) w
           end in
  CommitTransaction (if type =? 10 then [CHAR_DEL_PETITION_BY_OWNER lo; CHAR_DEL_PETITION_SIGNATURE_BY_OWNER lo]
                     else [CHAR_DEL_PETITION_BY_OWNER_AND_TYPE lo (u8 type); CHAR_DEL_PETITION_SIGNATURE_BY_OWNER_AND_TYPE lo (u8 type)]) w.

Definition GetArenaTeamIdFromDB (guid type : Z) (w : World) : Z := default 0 (team_id_by_guid (GUID_LOPART guid) type (db w)).

(** ** Members *)
Definition personal_rating (E : Env) (rating : Z) : Z :=
  if 0 <? CONFIG_ARENA_START_PERSONAL_RATING E then CONFIG_ARENA_START_PERSONAL_RATING E else if 1000 <=? rating then 1000 else 0.

(** The player who joins is told. *)
Definition inform_joined (guid : Z) (t : ArenaTeam) (w : World) : result fault World :=
  match FindPlayer guid w with
  | None => Ok w
  | Some _ =>
      let? w := SetInArenaTeam guid (TeamId t) (GetSlot t) (Type_ t) w in
      let w := SetArenaTeamIdInvited guid 0 w in
      if CaptainGuid t =? guid then Ok w else SetArenaTeamInfoField guid (GetSlot t) ARENA_TEAM_MEMBER 1 w
  end.

Definition new_member (E : Env) (guid : Z) (name : list Z) (cls : Z) (t : ArenaTeam) (w : World) : ArenaTeamMember :=
  mkMember guid name cls 0 0 0 0 (u16 (personal_rating E (GetRating t)))
    (u16 (default (CONFIG_ARENA_START_MATCHMAKER_RATING E) (character_arena_stats (db w) !! (GUID_LOPART guid, GetSlot t)))).

Definition AddMember (E : Env) (playerGuid : Z) (tw : ArenaTeam * World) : result fault (bool * (ArenaTeam * World)) :=
  let '(t, w) := tw in
  if Type_ t * 2 <=? GetMembersSize t then Ok (false, tw)
  else
    let player := FindPlayer playerGuid w in
    match (match player with Some p => Some (p_name p, p_class p) | None => CharData E (GUID_LOPART playerGuid) end) with
    | None => Ok (false, tw)
    | Some (playerName, playerClass) =>
        let? own := match player with Some p => GetArenaTeamId (GetSlot t) p | None => Ok 0 end in
        if negb (own =? 0) || negb (GetArenaTeamIdFromDB playerGuid (Type_ t) w =? 0) then Ok (false, tw)
        else
          let m := new_member E playerGuid playerName playerClass t w in
          let w := RemovePetitionsAndSigns E playerGuid (Type_ t) w in
          let t := set_Members (Members t ++ [m]) t in
          let w := Execute (CHAR_INS_ARENA_TEAM_MEMBER (TeamId t) (GUID_LOPART playerGuid)) w in
          let? w := inform_joined playerGuid t w in
          Ok (true, (t, w))
    end.

(** The first member with the guid is taken out. *)
Fixpoint erase_member (guid : Z) (l : list ArenaTeamMember) : list ArenaTeamMember :=
  match l with [] => [] | m :: l => if Guid m =? guid then l else m :: erase_member guid l end.

Definition DelMember (guid : Z) (cleanDb : bool) (tw : ArenaTeam * World) : result fault (ArenaTeam * World) :=
  let '(t, w) := tw in
  let t := set_Members (erase_member guid (Members t)) t in
  let? w := match FindPlayer guid w with
            | None => Ok w
            | Some _ => clear_info guid (GetSlot t) 7 (SendArenaTeamCommandResult guid ERR_ARENA_TEAM_QUIT_S (TeamName t) [] 0 w)
            end in
  Ok (t, if cleanDb then Execute (CHAR_DEL_ARENA_TEAM_MEMBER (TeamId t) (GUID_LOPART guid)) w else w).

Definition SetCaptain (guid : Z) (tw : ArenaTeam * World) : result fault (ArenaTeam * World) :=
  let '(t, w) := tw in
  let? w := match FindPlayer (CaptainGuid t) w with
            | None => Ok w
            | Some _ => SetArenaTeamInfoField (CaptainGuid t) (GetSlot t) ARENA_TEAM_MEMBER 1 w
            end in
  let t := set_CaptainGuid guid t in
  let w := Execute (CHAR_UPD_ARENA_TEAM_CAPTAIN (GUID_LOPART guid) (TeamId t)) w in
  let? w := match FindPlayer guid w with
            | None => Ok w
            | Some _ => SetArenaTeamInfoField guid (GetSlot t) ARENA_TEAM_MEMBER 0 w
            end in
  Ok (t, w).

(** ** The registry *)
Definition GetArenaTeamById (id : Z) (w : World) : option ArenaTeam := ArenaTeamStore w !! id.
Definition GetArenaTeamByName (name : list Z) (w : World) : option ArenaTeam :=
  head (filter (fun t => map Guild.toupper name = map Guild.toupper (TeamName t)) (map_to_list (ArenaTeamStore w)).*2).
Definition GetArenaTeamByCaptain (guid : Z) (w : World) : option ArenaTeam :=
  head (filter (fun t => CaptainGuid t = guid) (map_to_list (ArenaTeamStore w)).*2).
Definition AddArenaTeam (t : ArenaTeam) (w : World) : World := set_store (<[TeamId t := t]> (ArenaTeamStore w)) w.
Definition RemoveArenaTeam (id : Z) (w : World) : World := set_store (delete id (ArenaTeamStore w)) w.
Definition GenerateArenaTeamId (w : World) : Z * World :=
  let w := if 0xFFFFFFFE <=? NextArenaTeamId w then emit [StopNow] w else w in
  (NextArenaTeamId w, set_next (u32 (NextArenaTeamId w + 1)) w).

(** ** Foundation and end of a team *)
Definition no_emblem : Emblem := mkEmblem 0 0 0 0 0.
Definition new_team (E : Env) : ArenaTeam := mkTeam 0 0 [] 0 no_emblem [] (new_stats (u16 (CONFIG_ARENA_START_RATING E))).

(** The name that is looked up is the one the team has before it gets the new one. *)
Definition Create (E : Env) (captainGuid type : Z) (teamName : list Z) (e : Emblem) (tw : ArenaTeam * World) :
    result fault (bool * (ArenaTeam * World)) :=
  let '(t, w) := tw in
  match FindPlayer captainGuid w with
  | None => Ok (false, tw)
  | Some _ =>
      match GetArenaTeamByName (TeamName t) w with
      | Some _ => Ok (false, tw)
      | None =>
          let '(id, w) := GenerateArenaTeamId w in
          let t := mkTeam id type teamName captainGuid e (Members t) (Stats t) in
          let w := Execute (CHAR_INS_ARENA_TEAM id teamName (GUID_LOPART captainGuid) type (Rating (Stats t)) e) w in
          let? (_, tw) := AddMember E captainGuid (t, w) in
          Ok (true, tw)
      end
  end.

Fixpoint disband_members (l : list ArenaTeamMember) (tw : ArenaTeam * World) : result fault (ArenaTeam * World) :=
  match l with [] => Ok tw | m :: l => let? tw := DelMember (Guid m) false tw in disband_members l tw end.
Definition DefaultPlayerName : list Z := [60; 110; 111; 110; 101; 62].   (* "<none>" *)

(** [session] is the player who disbands the team, if one does. *)
Definition Disband (session : option Z) (tw : ArenaTeam * World) : result fault (ArenaTeam * World) :=
  let? (t, w) := disband_members (Members tw.1) tw in
  let w := match session with
           | None => w
           | Some s =>
               let name := match FindPlayer s w with Some p => p_name p | None => DefaultPlayerName end in
               BroadcastEvent ERR_ARENA_TEAM_DISBANDED_S 0 [name; TeamName t] t w
           end in
  let w := CommitTransaction [CHAR_DEL_ARENA_TEAM (TeamId t); CHAR_DEL_ARENA_TEAM_MEMBERS (TeamId t)] w in
  Ok (t, RemoveArenaTeam (TeamId t) w).

(** ** Loading *)

(** A row of the join of [arena_team_member] with [characters] and
    [character_arena_stats]: the name is empty and the rating 0 when there is no row to
    join. *)
Record LoadRow := mkLoadRow { lr_team : Z; lr_guid : Z; lr_row : MemberRow; lr_name : list Z; lr_class : Z; lr_mmr : Z }.

Definition LoadArenaTeamFromDB (row : Z * TeamRow) : ArenaTeam :=
  let '(id, r) := row in mkTeam id (tr_type r) (tr_name r) (MAKE_PLAYER_GUID (tr_captain r)) (tr_emblem r) [] (tr_stats r).
Definition loaded_member (r : LoadRow) : ArenaTeamMember :=
  mkMember (MAKE_PLAYER_GUID (lr_guid r)) (lr_name r) (lr_class r) (mr_weekGames (lr_row r)) (mr_weekWins (lr_row r))
    (mr_seasonGames (lr_row r)) (mr_seasonWins (lr_row r)) (mr_personalRating (lr_row r))
    (if 0 <? lr_mmr r then lr_mmr r else 1500).

(** The loop of [LoadMembersFromDB]: the rows that are left, and whether the captain was
    there. *)
Fixpoint load_members (rows : list LoadRow) (captainPresentInTeam : bool) (tw : ArenaTeam * World) :
    result fault (bool * list LoadRow * (ArenaTeam * World)) :=
  match rows with
  | [] => Ok (captainPresentInTeam, [], tw)
  | r :: rest =>
      if TeamId tw.1 <? lr_team r then Ok (captainPresentInTeam, rows, tw)
      else
        let m := loaded_member r in
        if decide (Name m = []) then let? tw := DelMember (Guid m) true tw in load_members rest captainPresentInTeam tw
        else load_members rest (captainPresentInTeam || (Guid m =? CaptainGuid tw.1)) (set_Members (Members tw.1 ++ [m]) tw.1, tw.2)
  end.
Definition LoadMembersFromDB (rows : list LoadRow) (tw : ArenaTeam * World) : result fault (bool * list LoadRow * (ArenaTeam * World)) :=
  let? (present, rows, tw) := load_members rows false tw in
  Ok (negb (bool_decide (Members tw.1 = []) || negb present), rows, tw).

Fixpoint load_teams (teams : list (Z * TeamRow)) (rows : list LoadRow) (w : World) : result fault World :=
  match teams with
  | [] => Ok w
  | row :: teams =>
      let? (ok, rows, (t, w)) := LoadMembersFromDB rows (LoadArenaTeamFromDB row, w) in
      let? w := if ok then Ok (AddArenaTeam t w) else let? (_, w) := Disband None (t, w) in Ok w in
      load_teams teams rows w
  end.
(** [teams] and [rows] are what the two queries answer, in the order of the teams. *)
Definition LoadArenaTeams (teams : list (Z * TeamRow)) (rows : list LoadRow) (w : World) : result fault World :=
  load_teams teams rows (Execute DELETE_stray_members w).

(** ** Ratings *)
Definition f_of (n d : Z) : Float32.float := Float32.div (Float32.of_Z n) (Float32.of_Z d).
Definition one : Float32.float := Float32.of_Z 1.

Definition GetChanceAgainst (E : Env) (ownRating opponentRating : Z) : Float32.float :=
  let d := Float32.sub (Float32.of_Z opponentRating) (Float32.of_Z ownRating) in
  Float32.div one (Float32.add one (expf E (Float32.div (Float32.mul (logf E (Float32.of_Z 10)) d) (Float32.of_Z 650)))).
Definition won_mod (won : bool) : Float32.float := Float32.of_Z (if won then 1 else 0).
Definition GetMatchmakerRatingMod (E : Env) (ownRating opponentRating : Z) (won : bool) : Z :=
  let mod_ := Float32.sub (won_mod won) (GetChanceAgainst E ownRating opponentRating) in
  Float32.int32_of (Float32.ceil (Float32.mul mod_ (Float32.of_Z 24))).
Definition GetRatingMod (E : Env) (ownRating opponentRating : Z) (won : bool) : Z :=
  let d := Float32.sub (won_mod won) (GetChanceAgainst E ownRating opponentRating) in
  let factor :=
    if won && (ownRating <? 1300) then
      if ownRating <? 1000 then Float32.of_Z 48
      else Float32.add (Float32.of_Z 24)
             (Float32.div (Float32.mul (Float32.of_Z 24) (Float32.sub (Float32.of_Z 1300) (Float32.of_Z ownRating))) (Float32.of_Z 300))
    else Float32.of_Z 24 in
  Float32.int32_of (Float32.ceil (Float32.mul factor d)).

(** A [uint16] rating changed by an [int32]: not below 0. *)
Definition modify_rating (rating d : Z) : Z := if swrap 32 (rating + d) <? 0 then 0 else u16 (rating + d).
Definition set_PersonalRating (v : Z) (m : ArenaTeamMember) : ArenaTeamMember :=
  mkMember (Guid m) (Name m) (m_Class m) (WeekGames m) (WeekWins m) (SeasonGames m) (SeasonWins m) v (MatchMakerRating m).
Definition set_MatchMakerRating (v : Z) (m : ArenaTeamMember) : ArenaTeamMember :=
  mkMember (Guid m) (Name m) (m_Class m) (WeekGames m) (WeekWins m) (SeasonGames m) (SeasonWins m) (PersonalRating m) v.
Definition set_games (wg ww sg sw : Z) (m : ArenaTeamMember) : ArenaTeamMember :=
  mkMember (Guid m) (Name m) (m_Class m) wg ww sg sw (PersonalRating m) (MatchMakerRating m).
Definition ModifyPersonalRating (d : Z) (m : ArenaTeamMember) : ArenaTeamMember := set_PersonalRating (modify_rating (PersonalRating m) d) m.
Definition ModifyMatchmakerRating (d : Z) (m : ArenaTeamMember) : ArenaTeamMember :=
  set_MatchMakerRating (modify_rating (MatchMakerRating m) d) m.
(** What the player is told of the personal rating. *)
Definition inform_rating (guid type rating : Z) (w : World) : result fault World :=
  let? w := SetArenaTeamInfoField guid (GetSlotByType type) ARENA_TEAM_PERSONAL_RATING rating w in
  Ok (emit [UpdateAchievementCriteria guid ACHIEVEMENT_CRITERIA_TYPE_HIGHEST_PERSONAL_RATING rating type] w).

Definition add_game (m : ArenaTeamMember) : ArenaTeamMember :=
  set_games (u16 (WeekGames m + 1)) (WeekWins m) (u16 (SeasonGames m + 1)) (SeasonWins m) m.
Definition add_win (m : ArenaTeamMember) : ArenaTeamMember :=
  set_games (WeekGames m) (u16 (WeekWins m + 1)) (SeasonGames m) (u16 (SeasonWins m + 1)) m.
Fixpoint update_member (guid : Z) (f : ArenaTeamMember -> ArenaTeamMember) (l : list ArenaTeamMember) : list ArenaTeamMember :=
  match l with [] => [] | m :: l => if Guid m =? guid then f m :: l else m :: update_member guid f l end.
Definition inform_games (guid : Z) (t : ArenaTeam) (m : ArenaTeamMember) (w : World) : result fault World :=
  let? w := SetArenaTeamInfoField guid (GetSlot t) ARENA_TEAM_GAMES_WEEK (WeekGames m) w in
  SetArenaTeamInfoField guid (GetSlot t) ARENA_TEAM_GAMES_SEASON (SeasonGames m) w.

(** A participant's ratings and counters after a match; the player is online. *)
Definition played (E : Env) (won : bool) (against MatchmakerRatingChange : Z) (m : ArenaTeamMember) : ArenaTeamMember :=
  let m := add_game (ModifyMatchmakerRating MatchmakerRatingChange (ModifyPersonalRating (GetRatingMod E (PersonalRating m) against won) m)) in
  if won then add_win m else m.
Definition member_played (E : Env) (won : bool) (guid against MatchmakerRatingChange : Z) (tw : ArenaTeam * World) :
    result fault (ArenaTeam * World) :=
  let '(t, w) := tw in
  match GetMember guid t with
  | None => Ok tw
  | Some m =>
      let m' := played E won against MatchmakerRatingChange m in
      let? w := inform_rating guid (Type_ t) (PersonalRating m') w in
      let? w := inform_games guid t m' w in
      Ok (set_Members (update_member guid (fun _ => m') (Members t)) t, w)
  end.
Definition MemberWon (E : Env) : Z -> Z -> Z -> ArenaTeam * World -> result fault (ArenaTeam * World) := member_played E true.
Definition MemberLost (E : Env) : Z -> Z -> Z -> ArenaTeam * World -> result fault (ArenaTeam * World) := member_played E false.
Definition OfflineMemberLost (E : Env) (guid against MatchmakerRatingChange : Z) (t : ArenaTeam) : ArenaTeam :=
  set_Members (update_member guid (played E false against MatchmakerRatingChange) (Members t)) t.

(** ** A match of the team *)
Definition set_Rank (v : Z) (s : ArenaTeamStats) : ArenaTeamStats :=
  mkStats (Rating s) (s_WeekGames s) (s_WeekWins s) (s_SeasonGames s) (s_SeasonWins s) v.
Definition add_team_game (rating : Z) (s : ArenaTeamStats) : ArenaTeamStats :=
  mkStats rating (u16 (s_WeekGames s + 1)) (s_WeekWins s) (u16 (s_SeasonGames s + 1)) (s_SeasonWins s) (Rank s).
Definition add_team_win (s : ArenaTeamStats) : ArenaTeamStats :=
  mkStats (Rating s) (s_WeekGames s) (u16 (s_WeekWins s + 1)) (s_SeasonGames s) (u16 (s_SeasonWins s + 1)) (Rank s).

(** The teams of the registry that are better; [t] is in the registry as it is now. *)
Definition better_teams (t : ArenaTeam) (w : World) : list ArenaTeam :=
  filter (fun u => Type_ u = Type_ t /\ Rating (Stats t) < Rating (Stats u))
    (map_to_list (alter (fun _ => t) (TeamId t) (ArenaTeamStore w))).*2.
Definition FinishGame (d : Z) (tw : ArenaTeam * World) : ArenaTeam * World :=
  let '(t, w) := tw in
  let rating := modify_rating (GetRating t) d in
  let w := if swrap 32 (GetRating t + d) <? 0 then w
           else emit (omap (fun m => match FindPlayer (Guid m) w with
                                     | Some _ => Some (UpdateAchievementCriteria (Guid m) ACHIEVEMENT_CRITERIA_TYPE_HIGHEST_TEAM_RATING rating (Type_ t))
                                     | None => None end) (Members t)) w in
  let t := set_Stats (add_team_game rating (Stats t)) t in
  (set_Stats (set_Rank (1 + Z.of_nat (length (better_teams t w))) (Stats t)) t, w).

(** The change of the matchmaker rating, and that of the rating of the team. *)
Definition WonAgainst (E : Env) (Own_MMRating Opponent_MMRating : Z) (tw : ArenaTeam * World) : Z * Z * (ArenaTeam * World) :=
  let rating_change := GetRatingMod E (GetRating tw.1) Opponent_MMRating true in
  let '(t, w) := FinishGame rating_change tw in
  (GetMatchmakerRatingMod E Own_MMRating Opponent_MMRating true, rating_change, (set_Stats (add_team_win (Stats t)) t, w)).
Definition LostAgainst (E : Env) (Own_MMRating Opponent_MMRating : Z) (tw : ArenaTeam * World) : Z * Z * (ArenaTeam * World) :=
  let rating_change := GetRatingMod E (GetRating tw.1) Opponent_MMRating false in
  (GetMatchmakerRatingMod E Own_MMRating Opponent_MMRating false, rating_change, FinishGame rating_change tw).

(** [group] has the guids of the members of the group. *)
Definition GetAverageMMR (group : option (list Z)) (t : ArenaTeam) (w : World) : Z :=
  match group with
  | None => 0
  | Some group =>
      let there := filter (fun m => is_Some (FindPlayer (Guid m) w) /\ Guid m ∈ group) (Members t) in
      foldl (fun s m => u32 (s + MatchMakerRating m)) 0 there / (if decide (there = []) then 1 else Z.of_nat (length there))
  end.

Definition save_member (t : ArenaTeam) (m : ArenaTeamMember) : list statement :=
  [CHAR_UPD_ARENA_TEAM_MEMBER (PersonalRating m) (WeekGames m) (WeekWins m) (SeasonGames m) (SeasonWins m) (TeamId t) (GUID_LOPART (Guid m));
   CHAR_REP_CHARACTER_ARENA_STATS (GUID_LOPART (Guid m)) (GetSlot t) (MatchMakerRating m)].
Definition SaveToDB (t : ArenaTeam) : World -> World :=
  CommitTransaction (CHAR_UPD_ARENA_TEAM_STATS (Rating (Stats t)) (s_WeekGames (Stats t)) (s_WeekWins (Stats t))
    (s_SeasonGames (Stats t)) (s_SeasonWins (Stats t)) (Rank (Stats t)) (TeamId t) :: (Members t ≫= save_member t)).

(** ** The week *)
Definition GetPoints (E : Env) (memberRating : Z) (t : ArenaTeam) : Z :=
  let rating := if u32 (memberRating + 150) <? GetRating t then memberRating else GetRating t in
  let points :=
    if rating <=? 1500 then
      if CONFIG_ARENA_SEASON_ID E <? 6 then Float32.add (Float32.mul (Float32.of_Z rating) (f_of 22 100)) (Float32.of_Z 14)
      else Float32.of_Z 344
    else Float32.div (f_of 151126 100)
           (Float32.add one (Float32.mul (f_of 163928 100) (expf E (Float32.mul (f_of (-412) 100000) (Float32.of_Z rating))))) in
  Float32.to_uint32
    (if Type_ t =? ARENA_TEAM_2v2 then Float32.mul points (f_of 76 100)
     else if Type_ t =? ARENA_TEAM_3v3 then Float32.mul points (f_of 88 100) else points).

(** [ceil(Stats.WeekGames * 0.3f)]. *)
Definition requiredGames (t : ArenaTeam) : Z :=
  match Float32.ceil (Float32.mul (Float32.of_Z (s_WeekGames (Stats t))) (f_of 3 10)) with Some z => z | None => 0 end.
Definition member_points (E : Env) (t : ArenaTeam) (m : ArenaTeamMember) : Z :=
  if requiredGames t <=? WeekGames m then GetPoints E (PersonalRating m) t else 0.
Definition UpdateArenaPointsHelper (E : Env) (t : ArenaTeam) (playerPoints : gmap Z Z) : gmap Z Z :=
  if s_WeekGames (Stats t) <? 10 then playerPoints
  else foldl (fun pp m =>
         let pointsToAdd := member_points E t m in
         match pp !! GUID_LOPART (Guid m) with
         | Some p => if p <? pointsToAdd then <[GUID_LOPART (Guid m) := pointsToAdd]> pp else pp
         | None => <[GUID_LOPART (Guid m) := pointsToAdd]> pp
         end) playerPoints (Members t).

Definition week_member (m : ArenaTeamMember) : ArenaTeamMember := set_games 0 0 (SeasonGames m) (SeasonWins m) m.
Definition FinishWeek (t : ArenaTeam) : ArenaTeam :=
  set_Members (map week_member (Members t))
    (set_Stats (mkStats (Rating (Stats t)) 0 0 (s_SeasonGames (Stats t)) (s_SeasonWins (Stats t)) (Rank (Stats t))) t).

(** [Player::SetArenaPoints], and [ModifyArenaPoints] with the statement it appends. *)
Definition SetArenaPoints (E : Env) (guid value : Z) (w : World) : World :=
  let value := Z.min value (CONFIG_MAX_ARENA_POINTS E) in
  let w := on_player guid (set_arenaPoints value) w in
  if value =? 0 then w else emit [AddKnownCurrency guid ITEM_ARENA_POINTS_ID] w.
Definition ModifyArenaPoints (E : Env) (guid value : Z) (w : World) : statement * World :=
  let points := match FindPlayer guid w with Some p => p_arenaPoints p | None => 0 end in
  let newValue := Z.max 0 (swrap 32 (swrap 32 points + value)) in
  (CHAR_UDP_CHAR_ARENA_POINTS newValue (GUID_LOPART guid), SetArenaPoints E guid newValue w).

(** One player gets the points: [HashMapHolder<Player>::Find] has the low part of the
    guid. *)
Definition give_points (E : Env) (acc : list statement * World) (gp : Z * Z) : list statement * World :=
  match FindPlayer gp.1 acc.2 with
  | Some _ => let '(s, w) := ModifyArenaPoints E gp.1 (swrap 32 gp.2) acc.2 in (acc.1 ++ [s], w)
  | None => (acc.1 ++ [CHAR_UPD_CHAR_ARENA_POINTS gp.2 gp.1], acc.2)
  end.
Definition end_week (w : World) (it : Z * ArenaTeam) : World :=
  let t := FinishWeek it.2 in
  NotifyStatsChanged t (SaveToDB t (set_store (<[it.1 := t]> (ArenaTeamStore w)) w)).
Definition player_points (E : Env) (w : World) : gmap Z Z :=
  foldl (fun pp t => UpdateArenaPointsHelper E t pp) ∅ (map_to_list (ArenaTeamStore w)).*2.
(** A [std::map] is passed through in the order of its keys. *)
Definition key_le (a b : Z * Z) : Prop := a.1 <= b.1.
#[global] Instance key_le_dec : RelDecision key_le := fun a b => Z.le_dec a.1 b.1.
Definition by_player (pp : gmap Z Z) : list (Z * Z) := merge_sort key_le (map_to_list pp).
Definition DistributeArenaPoints (E : Env) (w : World) : World :=
  let w := emit [SendWorldText LANG_DIST_ARENA_POINTS_START; SendWorldText LANG_DIST_ARENA_POINTS_ONLINE_START] w in
  let '(trans, w) := foldl (give_points E) ([], w) (by_player (player_points E w)) in
  let w := CommitTransaction trans w in
  let w := emit [SendWorldText LANG_DIST_ARENA_POINTS_ONLINE_END; SendWorldText LANG_DIST_ARENA_POINTS_TEAM_START] w in
  let w := foldl end_week w (map_to_list (ArenaTeamStore w)) in
  emit [SendWorldText LANG_DIST_ARENA_POINTS_TEAM_END; SendWorldText LANG_DIST_ARENA_POINTS_END] w.

(** ** A player's teams *)
Definition GetMaxPersonalArenaRatingRequirement (minarenaslot : Z) (p : Player) (w : World) : result fault Z :=
  foldr (fun i acc =>
    let? max_personal_rating := acc in
    let? id := GetArenaTeamId i p in
    match GetArenaTeamById id w with
    | None => Ok max_personal_rating
    | Some at_ => let? p_rating := GetArenaPersonalRating i p in Ok (Z.max max_personal_rating (Z.min p_rating (GetRating at_)))
    end) (Ok 0) (rev (seqZ minarenaslot (MAX_ARENA_SLOT - minarenaslot))).

(** [LeaveAllArenaTeams]: of each team in the table that is registered. *)
Fixpoint leave_teams (guid : Z) (ids : list Z) (w : World) : result fault World :=
  match ids with
  | [] => Ok w
  | id :: ids =>
      let? w := match (if id =? 0 then None else GetArenaTeamById id w) with
                | None => Ok w
                | Some t => let? (t, w) := DelMember guid true (t, w) in Ok (set_store (<[id := t]> (ArenaTeamStore w)) w)
                end in
      leave_teams guid ids w
  end.
Definition LeaveAllArenaTeams (guid : Z) (w : World) : result fault World :=
  leave_teams guid (player_arena_teams (GUID_LOPART guid) (db w)) w.

(** [_LoadArenaTeamInfo]: the fields from the rows of the player, by team, and
    [LoadFromDB]'s check of the teams after it. The personal ratings, which the code
    collects and writes last, are written with the other fields of their row. *)
Definition load_info_row (guid : Z) (w : World) (info : result fault (list Z)) (row : Z * MemberRow) : result fault (list Z) :=
  let? info := info in
  match GetArenaTeamById row.1 w with
  | None => Ok info
  | Some t =>
      let i type := info_index (GetSlot t) type in
      if (i ARENA_TEAM_PERSONAL_RATING <? length info)%nat
      then Ok (<[i ARENA_TEAM_PERSONAL_RATING := mr_personalRating row.2]> (<[i ARENA_TEAM_WINS_SEASON := mr_seasonWins row.2]>
              (<[i ARENA_TEAM_GAMES_SEASON := mr_seasonGames row.2]> (<[i ARENA_TEAM_GAMES_WEEK := mr_weekGames row.2]>
              (<[i ARENA_TEAM_MEMBER := if CaptainGuid t =? guid then 0 else 1]>
              (<[i ARENA_TEAM_TYPE := Type_ t]> (<[i ARENA_TEAM_ID := row.1]> info)))))))
      else Throw BadInfoField
  end.
Definition _LoadArenaTeamInfo (guid : Z) (rows : list (Z * MemberRow)) (w : World) : result fault (list Z) :=
  foldl (load_info_row guid w) (Ok (repeat 0 21)) rows.
(** The first six of the seven fields of a slot are set to 0. *)
Definition check_slot (guid : Z) (w : World) (info : list Z) (slot : Z) : list Z :=
  let id := nth (info_index slot ARENA_TEAM_ID) info 0 in
  if id =? 0 then info
  else if match GetArenaTeamById id w with Some t => IsMember guid t | None => false end then info
  else foldl (fun info j => <[info_index slot j := 0]> info) info (seqZ 0 6).
Definition load_arena_info (guid : Z) (rows : list (Z * MemberRow)) (w : World) : result fault (list Z) :=
  let? info := _LoadArenaTeamInfo guid rows w in Ok (foldl (check_slot guid w) info (seqZ 0 MAX_ARENA_SLOT)).

End ArenaTeam.
