(* ===== verification/ArenaHandlers.v ===== *)
(** * ArenaHandlers: the packets of players about arena teams

    [game/Handlers/ArenaTeamHandler.cpp], the arena part of
    [game/Handlers/PetitionsHandler.cpp], and the other callers of [ArenaTeam]: the
    calendar, the deletion of a character, entering and leaving the world. A handler has
    the guid of the player of its session and the fields of the packet as arguments. *)
From S2P Require Import Prelude Utf8 Util Guild ArenaTables ArenaTeam.
Import ArenaTables ArenaTeam.
#[global] Open Scope Z_scope.

Module ArenaHandlers.

Definition PETITION_SIGN_OK := 0.
Definition PETITION_SIGN_ALREADY_SIGNED := 1.
Definition CHAR_DELETE_FAILED_ARENA_CAPTAIN := 0x4B.

(** The team with an id, if there is one. *)
Definition with_team (arenaTeamId : Z) (f : ArenaTeam -> World -> result fault World) (w : World) : result fault World :=
  match GetArenaTeamById arenaTeamId w with Some t => f t w | None => Ok w end.
(** The team as an operation leaves it. *)
Definition put (tw : ArenaTeam * World) : World := set_store (<[TeamId tw.1 := tw.1]> (ArenaTeamStore tw.2)) tw.2.
Definition with_name (name : list Z) (f : list Z -> World -> result fault World) (w : World) : result fault World :=
  match Util.normalizePlayerName name with
  | Throw _ => Throw TextOverflow
  | Ok (ok, name) => if ok then f name w else Ok w
  end.
Definition FindPlayerByName (name : list Z) (w : World) : option (Z * Player) :=
  head (filter (fun gp => map Guild.tolower name = map Guild.tolower (p_name gp.2)) (map_to_list (players w))).

(** ** Queries *)
Fixpoint inspect_slots (session guid : Z) (p : Player) (slots : list Z) (w : World) : result fault World :=
  match slots with
  | [] => Ok w
  | i :: slots =>
      let? a_id := GetArenaTeamId i p in
      inspect_slots session guid p slots
        (if a_id =? 0 then w else match GetArenaTeamById a_id w with Some t => Inspect session guid t w | None => w end)
  end.
Definition HandleInspectArenaTeamsOpcode (session guid : Z) (w : World) : result fault World :=
  match FindPlayer guid w with Some p => inspect_slots session guid p (seqZ 0 MAX_ARENA_SLOT) w | None => Ok w end.
Definition HandleArenaTeamQueryOpcode (session arenaTeamId : Z) : World -> result fault World :=
  with_team arenaTeamId (fun t w => Ok (SendStats session t (Query session t w))).
Definition HandleArenaTeamRosterOpcode (session arenaTeamId : Z) : World -> result fault World :=
  with_team arenaTeamId (fun t w => Ok (Roster session t w)).
Definition HandleCalendarArenaTeam (session arenaTeamId : Z) : World -> result fault World :=
  with_team arenaTeamId (fun t w => Ok (MassInviteToEvent session t w)).
Definition SendNotInArenaTeamPacket (session type : Z) : World -> World :=
  emit [SendPacket session (mkPacket SMSG_ARENA_ERROR [U32 0; U8 (u8 type)])].

(** ** Invitations *)

(** The checks of an invitation once the player is found. *)
Definition invite_player (E : Env) (session arenaTeamId guid : Z) (player : Player) (w : World) : result fault World :=
  let? me := GetPlayer session w in
  if p_level player <? CONFIG_MAX_PLAYER_LEVEL E
  then Ok (SendArenaTeamCommandResult session ERR_ARENA_TEAM_CREATE_S [] (p_name player) ERR_ARENA_TEAM_TARGET_TOO_LOW_S w)
  else match GetArenaTeamById arenaTeamId w with
  | None => Ok (SendArenaTeamCommandResult session ERR_ARENA_TEAM_CREATE_S [] [] ERR_ARENA_TEAM_PLAYER_NOT_IN_TEAM w)
  | Some t =>
      if bool_decide (GUID_LOPART session ∈ p_ignores player) then Ok w
      else if negb (CONFIG_ALLOW_TWO_SIDE_INTERACTION_GUILD E) && negb (p_team player =? p_team me)
      then Ok (SendArenaTeamCommandResult session ERR_ARENA_TEAM_INVITE_SS [] [] ERR_ARENA_TEAM_NOT_ALLIED w)
      else
        let? id := GetArenaTeamId (GetSlot t) player in
        if negb (id =? 0)
        then Ok (SendArenaTeamCommandResult session ERR_ARENA_TEAM_INVITE_SS [] (p_name player) ERR_ALREADY_IN_ARENA_TEAM_S w)
        else if negb (p_invited player =? 0)
        then Ok (SendArenaTeamCommandResult session ERR_ARENA_TEAM_INVITE_SS [] (p_name player) ERR_ALREADY_INVITED_TO_ARENA_TEAM_S w)
        else if Type_ t * 2 <=? GetMembersSize t
        then Ok (SendArenaTeamCommandResult session ERR_ARENA_TEAM_CREATE_S (TeamName t) [] ERR_ARENA_TEAM_TOO_MANY_MEMBERS_S w)
        else Ok (emit [SendPacket guid (mkPacket SMSG_ARENA_TEAM_INVITE [Str (p_name me); Str (TeamName t)])]
                   (SetArenaTeamIdInvited guid (TeamId t) w))
  end.
Definition HandleArenaTeamInviteOpcode (E : Env) (session arenaTeamId : Z) (invitedName : list Z) (w : World) : result fault World :=
  let not_found name w := Ok (SendArenaTeamCommandResult session ERR_ARENA_TEAM_CREATE_S [] name ERR_ARENA_TEAM_PLAYER_NOT_FOUND_S w) in
  if decide (invitedName = []) then not_found invitedName w
  else with_name invitedName (fun name w =>
    match FindPlayerByName name w with
    | None => not_found name w
    | Some (guid, player) => invite_player E session arenaTeamId guid player w
    end) w.

Definition HandleArenaTeamAcceptOpcode (E : Env) (session : Z) (w : World) : result fault World :=
  let? me := GetPlayer session w in
  with_team (p_invited me) (fun t w =>
    let? id := GetArenaTeamId (GetSlot t) me in
    if negb (id =? 0) then Ok (SendArenaTeamCommandResult session ERR_ARENA_TEAM_CREATE_S [] [] ERR_ALREADY_IN_ARENA_TEAM w)
    else if negb (CONFIG_ALLOW_TWO_SIDE_INTERACTION_GUILD E) && negb (p_team me =? GetPlayerTeamByGUID E (CaptainGuid t))
    then Ok (SendArenaTeamCommandResult session ERR_ARENA_TEAM_CREATE_S [] [] ERR_ARENA_TEAM_NOT_ALLIED w)
    else
      let? (ok, (t, w)) := AddMember E session (t, w) in
      if ok then Ok (BroadcastEvent ERR_ARENA_TEAM_JOIN_SS session [p_name me; TeamName t] t (put (t, w)))
      else Ok (SendArenaTeamCommandResult session ERR_ARENA_TEAM_CREATE_S [] [] ERR_ARENA_TEAM_INTERNAL w)) w.
Definition HandleArenaTeamDeclineOpcode (session : Z) (w : World) : result fault World :=
  let? _ := GetPlayer session w in Ok (SetArenaTeamIdInvited session 0 w).

(** ** Leaving, removing, disbanding *)
Definition HandleArenaTeamLeaveOpcode (session arenaTeamId : Z) : World -> result fault World :=
  with_team arenaTeamId (fun t w =>
    let? me := GetPlayer session w in
    if p_inArena me then Ok (SendArenaTeamCommandResult session ERR_ARENA_TEAM_QUIT_S [] [] ERR_ARENA_TEAM_INTERNAL w)
    else if (session =? CaptainGuid t) && (1 <? GetMembersSize t)
    then Ok (SendArenaTeamCommandResult session ERR_ARENA_TEAM_QUIT_S [] [] ERR_ARENA_TEAM_LEADER_LEAVE_S w)
    else if session =? CaptainGuid t
    then let? (_, w) := Disband (Some session) (t, w) in Ok w
    else
      let? (t, w) := DelMember session true (t, w) in
      let w := BroadcastEvent ERR_ARENA_TEAM_LEAVE_SS session [p_name me; TeamName t] t (put (t, w)) in
      Ok (SendArenaTeamCommandResult session ERR_ARENA_TEAM_QUIT_S (TeamName t) [] 0 w)).
Definition HandleArenaTeamDisbandOpcode (session arenaTeamId : Z) : World -> result fault World :=
  with_team arenaTeamId (fun t w =>
    if negb (CaptainGuid t =? session) || IsFighting t w then Ok w
    else let? (_, w) := Disband (Some session) (t, w) in Ok w).

(** A captain names a member of the team. *)
Definition with_member (session arenaTeamId : Z) (name : list Z)
    (f : Player -> ArenaTeam -> list Z -> ArenaTeamMember -> World -> result fault World) : World -> result fault World :=
  with_team arenaTeamId (fun t w =>
    let? me := GetPlayer session w in
    if negb (CaptainGuid t =? session)
    then Ok (SendArenaTeamCommandResult session ERR_ARENA_TEAM_CREATE_S [] [] ERR_ARENA_TEAM_PERMISSIONS w)
    else with_name name (fun name w =>
      match GetMember_name name t with
      | None => Ok (SendArenaTeamCommandResult session ERR_ARENA_TEAM_CREATE_S [] name ERR_ARENA_TEAM_PLAYER_NOT_FOUND_S w)
      | Some m => f me t name m w
      end) w).
Definition HandleArenaTeamRemoveOpcode (session arenaTeamId : Z) (name : list Z) : World -> result fault World :=
  with_member session arenaTeamId name (fun me t name m w =>
    if CaptainGuid t =? Guid m
    then Ok (SendArenaTeamCommandResult session ERR_ARENA_TEAM_QUIT_S [] [] ERR_ARENA_TEAM_LEADER_LEAVE_S w)
    else
      let? (t, w) := DelMember (Guid m) true (t, w) in
      Ok (BroadcastEvent ERR_ARENA_TEAM_REMOVE_SSS 0 [name; TeamName t; p_name me] t (put (t, w)))).
Definition HandleArenaTeamLeaderOpcode (session arenaTeamId : Z) (name : list Z) : World -> result fault World :=
  with_member session arenaTeamId name (fun me t name m w =>
    if CaptainGuid t =? Guid m then Ok w
    else
      let? (t, w) := SetCaptain (Guid m) (t, w) in
      Ok (BroadcastEvent ERR_ARENA_TEAM_LEADER_CHANGED_SSS 0 [p_name me; name; TeamName t] t (put (t, w)))).

(** ** Petitions *)
Definition SendGuildCommandResult (session type errCode : Z) (param : list Z) : World -> World :=
  emit [SendPacket session (mkPacket SMSG_GUILD_COMMAND_RESULT [U32 type; Str param; U32 errCode])].

Definition sign_result (receiver petitionGuid guid code : Z) : effect :=
  SendPacket receiver (mkPacket SMSG_PETITION_SIGN_RESULTS [U64 petitionGuid; U64 guid; U32 code]).
(** The signer is told, and the owner if online. *)
Definition tell_signer (session owner petitionGuid code : Z) (w : World) : World :=
  emit (sign_result session petitionGuid session code ::
        match FindPlayer owner w with Some _ => [sign_result owner petitionGuid session code] | None => [] end) w.

(** Whether a player may sign a petition: [None], or what is done instead. *)
Definition may_sign (E : Env) (session type : Z) (me : Player) : result fault (option (World -> World)) :=
  if type =? GUILD_CHARTER_TYPE then
    Ok (if negb (p_guildId me =? 0)
        then Some (SendGuildCommandResult session Guild.GUILD_COMMAND_INVITE Guild.ERR_ALREADY_IN_GUILD_S (p_name me))
        else if negb (p_guildIdInvited me =? 0)
        then Some (SendGuildCommandResult session Guild.GUILD_COMMAND_INVITE Guild.ERR_ALREADY_INVITED_TO_GUILD_S (p_name me))
        else None)
  else if p_level me <? CONFIG_MAX_PLAYER_LEVEL E
  then Ok (Some (SendArenaTeamCommandResult session ERR_ARENA_TEAM_CREATE_S [] (p_name me) ERR_ARENA_TEAM_TARGET_TOO_LOW_S))
  else if MAX_ARENA_SLOT <=? GetSlotByType type then Ok (Some id)
  else
    let? id_ := GetArenaTeamId (GetSlotByType type) me in
    Ok (if negb (id_ =? 0) then Some (SendArenaTeamCommandResult session ERR_ARENA_TEAM_INVITE_SS [] (p_name me) ERR_ALREADY_IN_ARENA_TEAM_S)
        else if negb (p_invited me =? 0)
        then Some (SendArenaTeamCommandResult session ERR_ARENA_TEAM_INVITE_SS [] (p_name me) ERR_ALREADY_INVITED_TO_ARENA_TEAM_S)
        else None).

Definition HandlePetitionSignOpcode (E : Env) (session petitionGuid : Z) (w : World) : result fault World :=
  match sel_petition (GUID_LOPART petitionGuid) (db w) with
  | None => Ok w
  | Some (owner, _, type) =>
      let? me := GetPlayer session w in
      let ownerGuid := MAKE_PLAYER_GUID owner in
      let signs := Z.of_nat (length (sel_signatures (GUID_LOPART petitionGuid) (db w))) in
      if GUID_LOPART ownerGuid =? GUID_LOPART session then Ok w
      else if negb (CONFIG_ALLOW_TWO_SIDE_INTERACTION_GUILD E) && negb (p_team me =? GetPlayerTeamByGUID E ownerGuid)
      then Ok (if type =? GUILD_CHARTER_TYPE then SendGuildCommandResult session Guild.GUILD_COMMAND_CREATE Guild.ERR_GUILD_NOT_ALLIED [] w
               else SendArenaTeamCommandResult session ERR_ARENA_TEAM_INVITE_SS [] [] ERR_ARENA_TEAM_NOT_ALLIED w)
      else
        let? refused := may_sign E session type me in
        match refused with
        | Some f => Ok (f w)
        | None =>
            if type <? signs + 1 then Ok w
            else if signed_by_account (p_account me) (GUID_LOPART petitionGuid) (db w)
            then Ok (tell_signer session ownerGuid petitionGuid PETITION_SIGN_ALREADY_SIGNED w)
            else Ok (tell_signer session ownerGuid petitionGuid PETITION_SIGN_OK
                       (Execute (CHAR_INS_PETITION_SIGNATURE (GUID_LOPART ownerGuid) (GUID_LOPART petitionGuid) (GUID_LOPART session) (p_account me)) w))
        end
  end.
Definition HandlePetitionDeclineOpcode (session petitionguid : Z) (w : World) : result fault World :=
  match sel_petition (GUID_LOPART petitionguid) (db w) with
  | None => Ok w
  | Some (owner, _, _) =>
      Ok match FindPlayer (MAKE_PLAYER_GUID owner) w with
         | Some _ => emit [SendPacket (MAKE_PLAYER_GUID owner) (mkPacket MSG_PETITION_DECLINE [U64 session])] w
         | None => w
         end
  end.

(** The signatures are shown to the owner, or offered to a player. *)
Definition show_signatures (session receiver petitionguid : Z) (w : World) : World :=
  let signed := sel_signatures (GUID_LOPART petitionguid) (db w) in
  let signs := u8 (Z.of_nat (length signed)) in
  emit [SendPacket receiver (mkPacket SMSG_PETITION_SHOW_SIGNATURES
    ([U64 petitionguid; U64 session; U32 (GUID_LOPART petitionguid); U8 signs] ++
     (take (Z.to_nat signs) signed ≫= fun g => [U64 (MAKE_PLAYER_GUID g); U32 0])))] w.
Definition HandlePetitionShowSignOpcode (session petitionguid : Z) (w : World) : result fault World :=
  match sel_petition (GUID_LOPART petitionguid) (db w) with
  | None => Ok w
  | Some (_, _, type) =>
      let? me := GetPlayer session w in
      Ok (if (type =? GUILD_CHARTER_TYPE) && negb (p_guildId me =? 0) then w else show_signatures session session petitionguid w)
  end.

(** Whether a charter may be offered to [player]; the names in the replies are those of the
    code. *)
Definition may_offer (E : Env) (session type : Z) (me player : Player) : result fault (option (World -> World)) :=
  if type =? GUILD_CHARTER_TYPE then
    Ok (if negb (p_guildId player =? 0)
        then Some (SendGuildCommandResult session Guild.GUILD_COMMAND_INVITE Guild.ERR_ALREADY_IN_GUILD_S (p_name me))
        else if negb (p_guildIdInvited player =? 0)
        then Some (SendGuildCommandResult session Guild.GUILD_COMMAND_INVITE Guild.ERR_ALREADY_INVITED_TO_GUILD_S (p_name me))
        else None)
  else if p_level player <? CONFIG_MAX_PLAYER_LEVEL E
  then Ok (Some (SendArenaTeamCommandResult session ERR_ARENA_TEAM_CREATE_S (p_name player) [] ERR_ARENA_TEAM_TARGET_TOO_LOW_S))
  else if MAX_ARENA_SLOT <=? GetSlotByType type then Ok (Some id)
  else
    let? id_ := GetArenaTeamId (GetSlotByType type) player in
    Ok (if negb (id_ =? 0) then Some (SendArenaTeamCommandResult session ERR_ARENA_TEAM_CREATE_S (p_name player) [] ERR_ALREADY_IN_ARENA_TEAM_S)
        else if negb (p_invited player =? 0)
        then Some (SendArenaTeamCommandResult session ERR_ARENA_TEAM_INVITE_SS [] (p_name me) ERR_ALREADY_INVITED_TO_ARENA_TEAM_S)
        else None).
Definition HandleOfferPetitionOpcode (E : Env) (session petitionguid plguid : Z) (w : World) : result fault World :=
  match FindPlayer plguid w with
  | None => Ok w
  | Some player =>
      match sel_petition (GUID_LOPART petitionguid) (db w) with
      | None => Ok w
      | Some (_, _, type) =>
          let? me := GetPlayer session w in
          if negb (CONFIG_ALLOW_TWO_SIDE_INTERACTION_GUILD E) && negb (p_team me =? p_team player)
          then Ok (if type =? GUILD_CHARTER_TYPE then SendGuildCommandResult session Guild.GUILD_COMMAND_CREATE Guild.ERR_GUILD_NOT_ALLIED [] w
                   else SendArenaTeamCommandResult session ERR_ARENA_TEAM_INVITE_SS [] [] ERR_ARENA_TEAM_NOT_ALLIED w)
          else
            let? refused := may_offer E session type me player in
            Ok (match refused with Some f => f w | None => show_signatures session plguid petitionguid w end)
      end
  end.

(** An arena charter is renamed; [has_item] is whether the player has it. *)
Definition rename_arena_charter (E : Env) (session petitionGuid : Z) (has_item : bool) (newName : list Z) (w : World) : World :=
  match sel_petition (GUID_LOPART petitionGuid) (db w) with
  | None => w
  | Some (_, _, type) =>
      if negb has_item || (type =? GUILD_CHARTER_TYPE) then w
      else match GetArenaTeamByName newName w with
      | Some _ => SendArenaTeamCommandResult session ERR_ARENA_TEAM_CREATE_S newName [] ERR_ARENA_TEAM_NAME_EXISTS_S w
      | None =>
          if IsReservedName E newName || negb (IsValidCharterName E newName)
          then SendArenaTeamCommandResult session ERR_ARENA_TEAM_CREATE_S newName [] ERR_ARENA_TEAM_NAME_INVALID w
          else emit [SendPacket session (mkPacket MSG_PETITION_RENAME [U64 petitionGuid; Str newName])]
                 (Execute (CHAR_UPD_PETITION_NAME newName (GUID_LOPART petitionGuid)) w)
      end
  end.

(** The charter that is bought is registered: [HandlePetitionBuyOpcode] when the charter is
    in the bags of the player, with its guid, name and type. *)
Definition register_petition (session charter : Z) (name : list Z) (type : Z) (w : World) : World :=
  let invalid := petition_by_owner (GUID_LOPART session) (u8 type) (db w) ++ [charter] in
  CommitTransaction [DELETE_petitions invalid; DELETE_petition_signs invalid;
                     CHAR_INS_PETITION (GUID_LOPART session) charter name (u8 type)] w.

(** The signers of a petition join the new team. *)
Fixpoint add_signers (E : Env) (l : list Z) (tw : ArenaTeam * World) : result fault (ArenaTeam * World) :=
  match l with
  | [] => Ok tw
  | memberGUID :: l => let? (_, tw) := AddMember E (MAKE_PLAYER_GUID memberGUID) tw in add_signers E l tw
  end.
Definition turn_in_result (session result : Z) : World -> World :=
  emit [SendPacket session (mkPacket SMSG_TURN_IN_PETITION_RESULTS [U32 result])].

(** A petition for an arena team is turned in; that of a guild is in [GuildHandlers]. [e]
    is the emblem of the packet, of which the styles are cut to a byte. *)
Definition packet_emblem (background icon iconcolor border bordercolor : Z) : Emblem :=
  mkEmblem background (u8 icon) iconcolor (u8 border) bordercolor.
Definition turn_in_arena_petition (E : Env) (session petitionGuid : Z) (has_item : bool) (e : Emblem) (w : World) : result fault World :=
  match sel_petition (GUID_LOPART petitionGuid) (db w) with
  | None => Ok w
  | Some (ownerguidlo, name, type) =>
      let? me := GetPlayer session w in
      if negb has_item || negb (GUID_LOPART session =? ownerguidlo) || (type =? GUILD_CHARTER_TYPE) then Ok w
      else if MAX_ARENA_SLOT <=? GetSlotByType type then Ok w
      else
        let? own := GetArenaTeamId (GetSlotByType type) me in
        if negb (own =? 0) then Ok (SendArenaTeamCommandResult session ERR_ARENA_TEAM_CREATE_S name [] ERR_ALREADY_IN_ARENA_TEAM w)
        else match GetArenaTeamByName name w with
        | Some _ => Ok (SendArenaTeamCommandResult session ERR_ARENA_TEAM_CREATE_S name [] ERR_ARENA_TEAM_NAME_EXISTS_S w)
        | None =>
            let signed := sel_signatures (GUID_LOPART petitionGuid) (db w) in
            let signatures := u8 (Z.of_nat (length signed)) in
            if signatures <? u32 (type - 1) then Ok (turn_in_result session Guild.PETITION_TURN_NEED_MORE_SIGNATURES w)
            else
              let w := emit [DestroyItem session petitionGuid] w in
              let? (ok, (t, w)) := Create E session type name e (new_team E, w) in
              if negb ok then Ok w
              else
                let? (t, w) := add_signers E (take (Z.to_nat signatures) signed) (t, AddArenaTeam t w) in
                Ok (turn_in_result session Guild.PETITION_TURN_OK
                  (CommitTransaction [CHAR_DEL_PETITION_BY_GUID (GUID_LOPART petitionGuid);
                                      CHAR_DEL_PETITION_SIGNATURE_BY_GUID (GUID_LOPART petitionGuid)] (put (t, w))))
        end
  end.

(** ** Characters *)

(** What [Player::DeleteFromDB] does for arena teams and petitions, and the check of
    [HandleCharDeleteOpcode] that a captain meets; the character leads no guild and is of
    the account. *)
Definition DeleteFromDB_arena (E : Env) (guid : Z) (w : World) : result fault World :=
  let? w := LeaveAllArenaTeams guid w in Ok (RemovePetitionsAndSigns E guid 10 w).
Definition HandleCharDelete_arena (E : Env) (session guid : Z) (w : World) : result fault World :=
  match FindPlayer guid w with
  | Some _ => Ok w
  | None =>
      match GetArenaTeamByCaptain guid w with
      | Some _ => Ok (emit [SendPacket session (mkPacket SMSG_CHAR_DELETE [U8 CHAR_DELETE_FAILED_ARENA_CAPTAIN])] w)
      | None => DeleteFromDB_arena E guid w
      end
  end.

(** A character enters the world, with the fields of its teams from its rows and the points
    it has saved, and leaves it. *)
Definition login_rows (guid : Z) (T : Tables) : list (Z * MemberRow) :=
  omap (fun kv => if kv.1.2 =? guid then Some (kv.1.1, kv.2) else None) (map_to_list (arena_team_member T)).
Definition enter_world (E : Env) (guid : Z) (p : Player) (w : World) : result fault World :=
  let? info := load_arena_info guid (login_rows (GUID_LOPART guid) (db w)) w in
  Ok (SetArenaPoints E guid (p_arenaPoints p) (set_players (<[guid := set_invited 0 (set_info info p)]> (players w)) w)).
Definition leave_world (guid : Z) (w : World) : World := set_players (delete guid (players w)) w.

End ArenaHandlers.
