(* ===== verification/ArenaMatch.v ===== *)
(** * ArenaMatch: the end of a rated arena match

    The part of [Battleground::EndBattleground] and [RemovePlayerAtLeave]
    [game/Battlegrounds/Battleground.cpp] that changes arena teams: the ratings of the two
    teams, the ratings and counters of the players, and what is saved and sent. A match
    has what a battleground keeps for it; [m_Players] are its players with their team and
    whether they are offline, in the order of their guids. *)
From S2P Require Import Prelude Battleground ArenaTables ArenaTeam ArenaHandlers.
Import ArenaTables ArenaTeam ArenaHandlers.
#[global] Open Scope Z_scope.

Module ArenaMatch.

Definition WINNER_NONE := 2.
Definition ARENA_TIMELIMIT_POINTS_LOSS := -16.
Definition ACHIEVEMENT_CRITERIA_TYPE_WIN_ARENA := 32.
Definition ACHIEVEMENT_CRITERIA_TYPE_WIN_RATED_ARENA := 37.
Definition ACHIEVEMENT_CRITERIA_CONDITION_NO_LOSE := 4.

Record Match := mkMatch {
  m_ArenaTeamIds : Z * Z;
  m_ArenaTeamMMR : Z * Z;
  m_ArenaTeamRatingChanges : Z * Z;
  m_Players : list (Z * Z * bool)
}.
Definition GetOtherTeam (team : Z) : Z :=
  if team =? 0 then 0 else if team =? Battleground.ALLIANCE then Battleground.HORDE else Battleground.ALLIANCE.
Definition GetArenaTeamIdForTeam (team : Z) (m : Match) : Z := Battleground.of_team team (m_ArenaTeamIds m).
Definition GetArenaMatchmakerRating (team : Z) (m : Match) : Z := Battleground.of_team team (m_ArenaTeamMMR m).
Definition SetArenaMatchmakerRating (team v : Z) (m : Match) : Match :=
  mkMatch (m_ArenaTeamIds m) (Battleground.set_of_team team v (m_ArenaTeamMMR m)) (m_ArenaTeamRatingChanges m) (m_Players m).
Definition SetArenaTeamRatingChangeForTeam (team v : Z) (m : Match) : Match :=
  mkMatch (m_ArenaTeamIds m) (m_ArenaTeamMMR m) (Battleground.set_of_team team v (m_ArenaTeamRatingChanges m)) (m_Players m).

(** An operation on a registered team. *)
Definition on_team (id : Z) (f : ArenaTeam * World -> result fault (ArenaTeam * World)) (w : World) : result fault World :=
  match GetArenaTeamById id w with Some t => let? tw := f (t, w) in Ok (put tw) | None => Ok w end.

(** The two teams, when both are there and they are not the same. *)
Definition two_teams (winner : Z) (m : Match) (w : World) : option (Z * Z) :=
  let a := GetArenaTeamIdForTeam winner m in let b := GetArenaTeamIdForTeam (GetOtherTeam winner) m in
  match GetArenaTeamById a w, GetArenaTeamById b w with
  | Some _, Some _ => if a =? b then None else Some (a, b)
  | _, _ => None
  end.

(** What [EndBattleground] keeps of the ratings: the matchmaker ratings of the winner and
    the loser, and their changes. *)
Record Ratings := mkRatings { winnerMMR : Z; loserMMR : Z; winnerMMChange : Z; loserMMChange : Z }.

Definition end_ratings (E : Env) (winner winnerId loserId : Z) (m : Match) (w : World) : result fault (Ratings * Match * World) :=
  match GetArenaTeamById winnerId w, GetArenaTeamById loserId w with
  | Some wt, Some lt =>
      if winner =? WINNER_NONE then
        let m := SetArenaTeamRatingChangeForTeam Battleground.HORDE ARENA_TIMELIMIT_POINTS_LOSS
                   (SetArenaTeamRatingChangeForTeam Battleground.ALLIANCE ARENA_TIMELIMIT_POINTS_LOSS m) in
        let w := put (FinishGame ARENA_TIMELIMIT_POINTS_LOSS (wt, w)) in
        Ok (mkRatings 0 0 0 0, m, put (FinishGame ARENA_TIMELIMIT_POINTS_LOSS (lt, w)))
      else
        let lr := GetArenaMatchmakerRating (GetOtherTeam winner) m in
        let wr := GetArenaMatchmakerRating winner m in
        let '(wc, winnerChange, tw) := WonAgainst E wr lr (wt, w) in
        let '(lc, loserChange, tw') := LostAgainst E lr wr (lt, put tw) in
        let m := SetArenaMatchmakerRating (GetOtherTeam winner) (u32 (lr + lc)) (SetArenaMatchmakerRating winner (u32 (wr + wc)) m) in
        let m := SetArenaTeamRatingChangeForTeam (GetOtherTeam winner) loserChange (SetArenaTeamRatingChangeForTeam winner winnerChange m) in
        Ok (mkRatings wr lr wc lc, m, put tw')
  | _, _ => Ok (mkRatings 0 0 0 0, m, w)
  end.

(** The part for one player; [map] is the map of the arena. *)
Definition end_player (E : Env) (winner winnerId loserId map : Z) (r : Ratings) (p : Z * Z * bool) (w : World) : result fault World :=
  let '(guid, team, offline) := p in
  if offline then
    if team =? winner then on_team winnerId (fun tw => Ok (OfflineMemberLost E guid (loserMMR r) (winnerMMChange r) tw.1, tw.2)) w
    else on_team loserId (fun tw => Ok (OfflineMemberLost E guid (winnerMMR r) (loserMMChange r) tw.1, tw.2)) w
  else match FindPlayer guid w with
  | None => Ok w
  | Some player =>
      if team =? winner then
        on_team winnerId (fun tw =>
          let? rating := GetArenaPersonalRating (GetSlot tw.1) player in
          let w := emit [UpdateAchievementCriteria guid ACHIEVEMENT_CRITERIA_TYPE_WIN_RATED_ARENA (if rating =? 0 then 1 else rating) 0;
                         UpdateAchievementCriteria guid ACHIEVEMENT_CRITERIA_TYPE_WIN_ARENA map 0] tw.2 in
          MemberWon E guid (loserMMR r) (winnerMMChange r) (tw.1, w)) w
      else
        let? w := on_team loserId (MemberLost E guid (winnerMMR r) (loserMMChange r)) w in
        Ok (emit [ResetAchievementCriteria guid ACHIEVEMENT_CRITERIA_TYPE_WIN_RATED_ARENA ACHIEVEMENT_CRITERIA_CONDITION_NO_LOSE] w)
  end.
Fixpoint end_players (E : Env) (winner winnerId loserId map : Z) (r : Ratings) (ps : list (Z * Z * bool)) (w : World) : result fault World :=
  match ps with
  | [] => Ok w
  | p :: ps => let? w := end_player E winner winnerId loserId map r p w in end_players E winner winnerId loserId map r ps w
  end.

(** The team as it is saved and its members are told. *)
Definition save_team (id : Z) (w : World) : World := match GetArenaTeamById id w with Some t => SaveToDB t w | None => w end.
Definition notify_team (id : Z) (w : World) : World := match GetArenaTeamById id w with Some t => NotifyStatsChanged t w | None => w end.

(** A rated arena match ends. *)
Definition EndBattleground_rated (E : Env) (winner map : Z) (m : Match) (w : World) : result fault (Match * World) :=
  match two_teams winner m w with
  | None => Ok (SetArenaTeamRatingChangeForTeam Battleground.HORDE 0 (SetArenaTeamRatingChangeForTeam Battleground.ALLIANCE 0 m), w)
  | Some (winnerId, loserId) =>
      let? (r, m, w) := end_ratings E winner winnerId loserId m w in
      let? w := end_players E winner winnerId loserId map r (m_Players m) w in
      Ok (m, notify_team loserId (notify_team winnerId (save_team loserId (save_team winnerId w))))
  end.
(** No winner after the time limit. *)
Definition CheckArenaAfterTimerConditions (E : Env) (map : Z) (m : Match) (w : World) : result fault (Match * World) :=
  EndBattleground_rated E WINNER_NONE map m w.

(** A player leaves a rated match in progress; an offline one is only looked up in its own
    team. *)
Definition RemovePlayerAtLeave_rated (E : Env) (guid team : Z) (m : Match) (w : World) : result fault World :=
  let mine := GetArenaTeamIdForTeam team m in
  let theirs := GetArenaTeamIdForTeam (GetOtherTeam team) m in
  let against := GetArenaMatchmakerRating (GetOtherTeam team) m in
  match GetArenaTeamById theirs w, GetArenaTeamById mine w with
  | Some _, Some _ =>
      match FindPlayer guid w with
      | Some _ => if mine =? theirs then Ok w else on_team mine (MemberLost E guid against (-12)) w
      | None => on_team mine (fun tw => Ok (OfflineMemberLost E guid against (-12) tw.1, tw.2)) w
      end
  | _, _ => Ok w
  end.

End ArenaMatch.
