(* ===== verification/ArenaRules.v ===== *)
(** * ArenaRules: what the operations on arena teams keep

    A team in order has one of the three types, its captain among its members and at most
    twice as many members as its type says. Here are the lemmas that every operation and
    every packet keeps the teams in order and does not go wrong; [ArenaReach] has the
    sequences of packets, [ArenaStock] the tables. *)
From S2P Require Import Prelude Utf8 Util Guild ArenaTables ArenaTeam ArenaHandlers Battleground ArenaMatch.
Import ArenaTables ArenaTeam ArenaHandlers ArenaMatch.
#[global] Open Scope Z_scope.

Create HintDb arena.

Definition guids (t : ArenaTeam) : list Z := Guid <$> Members t.
Definition type_ok (type : Z) : Prop := type = 2 \/ type = 3 \/ type = 5.
Record team_ok (id : Z) (t : ArenaTeam) : Prop := {
  ok_id : TeamId t = id;
  ok_type : type_ok (Type_ t);
  ok_captain : CaptainGuid t ∈ guids t;
  ok_size : GetMembersSize t <= 2 * Type_ t
}.
Definition store_ok (w : World) : Prop := forall id t, ArenaTeamStore w !! id = Some t -> team_ok id t.
Definition players_ok (w : World) : Prop := forall g p, players w !! g = Some p -> in_u 32 g /\ length (p_info p) = 21%nat.

(** The tables of teams once the queue is executed. *)
Definition arena_rows (T : Tables) : gmap Z TeamRow * gmap (Z * Z) MemberRow := (arena_team T, arena_team_member T).

(** The column of the players who signed has 32 bits. *)
Definition sign_in_range (s : statement) : bool :=
  match s with CHAR_INS_PETITION_SIGNATURE _ _ player _ => bool_decide (in_u 32 player) | _ => true end.
Definition signs_ok (T : Tables) : Prop := forall k r, petition_sign T !! k = Some r -> in_u 32 k.2.
Definition signs_inv (w : World) : Prop := signs_ok (db w) /\ forallb sign_in_range (concat (queue w)) = true.

Lemma exec_signs s T : sign_in_range s = true -> signs_ok T -> signs_ok (exec s T).
Proof.
  intros Hs HT. unfold signs_ok. destruct s; cbn; try done; intros k r; try (rewrite map_lookup_filter_Some; intros [Hk _]; by eapply HT).
  unfold insert_new. case_match; [by apply HT|]. rewrite lookup_insert_Some. intros [[<- _]|[_ Hk]]; [|by eapply HT].
  by apply bool_decide_eq_true in Hs.
Qed.
Lemma exec_all_signs l T : forallb sign_in_range l = true -> signs_ok T -> signs_ok (exec_all l T).
Proof.
  revert T. induction l as [|s l IH]; intros T; [done|]. cbn. intros [Hs Hl]%andb_true_iff HT. rewrite exec_all_cons. by apply IH, exec_signs.
Qed.
Lemma signs_commit l w : forallb sign_in_range l = true -> signs_inv w -> signs_inv (CommitTransaction l w).
Proof.
  intros Hl [Hd Hq]. split; [done|]. cbn. rewrite concat_app, forallb_app, Hq. cbn. by rewrite app_nil_r.
Qed.

(** [w'] is [w] but for what players are told, for other tables, and for the statements [l]
    on the tables of teams. *)
Record change (l : list statement) (w w' : World) : Prop := {
  fr_store : ArenaTeamStore w' = ArenaTeamStore w;
  fr_next : NextArenaTeamId w' = NextArenaTeamId w;
  fr_db : db w' = db w;
  fr_dom : dom (players w') = dom (players w);
  fr_players : players_ok w -> players_ok w';
  fr_signs : signs_inv w -> signs_inv w';
  fr_rows : arena_rows (latest w') = arena_rows (exec_all l (latest w))
}.
Abbreviation frame := (change []).

Lemma exec_rows s T T' : arena_rows T = arena_rows T' -> arena_rows (exec s T) = arena_rows (exec s T').
Proof. unfold arena_rows. intros [= H1 H2]. destruct s; cbn; by rewrite ?H1, ?H2. Qed.
Lemma exec_all_rows l T T' : arena_rows T = arena_rows T' -> arena_rows (exec_all l T) = arena_rows (exec_all l T').
Proof. revert T T'. induction l as [|s l IH]; intros T T' H; [done|]. rewrite !exec_all_cons. by apply IH, exec_rows. Qed.

Lemma change_trans l1 l2 a b c : change l1 a b -> change l2 b c -> change (l1 ++ l2) a c.
Proof.
  intros Hab Hbc. destruct Hab as [? ? ? ? ? ? Hr], Hbc as [? ? ? ? ? ? Hr']. constructor; try (by etrans); auto.
  rewrite Hr', exec_all_app. by apply exec_all_rows.
Qed.
Lemma frame_change l a b c : frame a b -> change l b c -> change l a c.
Proof. apply (change_trans []). Qed.
Lemma change_frame l a b c : change l a b -> frame b c -> change l a c.
Proof. intros Hab Hbc. rewrite <- (app_nil_r l). by eapply change_trans. Qed.
#[global] Instance frame_preorder : PreOrder frame.
Proof. split; [by constructor|]. intros a b c. apply frame_change. Qed.

Lemma latest_commit l w : latest (CommitTransaction l w) = exec_all l (latest w).
Proof. unfold latest, CommitTransaction, set_db, queue, db. by rewrite concat_app, exec_all_app, concat_cons, concat_nil, app_nil_r. Qed.

(** A statement on petitions and other tables. *)
Definition other_statement (s : statement) : bool :=
  match s with
  | CHAR_INS_ARENA_TEAM _ _ _ _ _ _ | CHAR_INS_ARENA_TEAM_MEMBER _ _ | CHAR_DEL_ARENA_TEAM _ | CHAR_DEL_ARENA_TEAM_MEMBERS _
  | CHAR_UPD_ARENA_TEAM_CAPTAIN _ _ | CHAR_DEL_ARENA_TEAM_MEMBER _ _ | CHAR_UPD_ARENA_TEAM_STATS _ _ _ _ _ _ _
  | CHAR_UPD_ARENA_TEAM_MEMBER _ _ _ _ _ _ _ | DELETE_stray_members => false
  | _ => true
  end.
Lemma exec_all_other l T : forallb other_statement l = true -> arena_rows (exec_all l T) = arena_rows T.
Proof.
  revert T. induction l as [|s l IH]; intros T; cbn; [done|]. intros [Hs Hl]%andb_true_iff. rewrite exec_all_cons, IH by done. by destruct s.
Qed.

Lemma change_commit l w : forallb sign_in_range l = true -> change l w (CommitTransaction l w).
Proof. intros Hl. constructor; try done; [by apply signs_commit|by rewrite latest_commit]. Qed.
Lemma change_execute s w : sign_in_range s = true -> change [s] w (Execute s w).
Proof. intros Hs. apply change_commit. cbn. by rewrite Hs. Qed.
Lemma frame_emit es w : frame w (emit es w).
Proof. by constructor. Qed.
Lemma frame_commit l w : forallb other_statement l = true -> forallb sign_in_range l = true -> frame w (CommitTransaction l w).
Proof. intros Hl Hr. constructor; try done; [by apply signs_commit|by rewrite latest_commit, exec_all_other]. Qed.
Lemma frame_on_player g f w :
  (forall p, length (p_info (f p)) = length (p_info p)) -> frame w (on_player g f w).
Proof.
  intros Hf. constructor; try done; cbn; [by rewrite dom_alter_L|].
  intros Hp g' p'. unfold on_player. cbn. rewrite lookup_alter_Some. intros [(-> & q & Hq & ->)|[_ Hq]]; [|by apply Hp].
  rewrite Hf. by apply (Hp g').
Qed.
#[export] Hint Resolve frame_emit frame_on_player frame_commit : arena.

Lemma frame_invited g v w : frame w (SetArenaTeamIdInvited g v w).
Proof. by apply frame_on_player. Qed.
Lemma frame_command_result s a t p e w : frame w (SendArenaTeamCommandResult s a t p e w).
Proof. apply frame_emit. Qed.
Lemma frame_broadcast d t w : frame w (BroadcastPacket d t w).
Proof. apply frame_emit. Qed.
Lemma frame_event e g l t w : frame w (BroadcastEvent e g l t w).
Proof. unfold BroadcastEvent. case_match; [done|apply frame_broadcast]. Qed.
Lemma frame_foldl {A} (f : World -> A -> World) l w : (forall w a, frame w (f w a)) -> frame w (foldl f w l).
Proof. intros Hf. revert w. induction l as [|a l IH]; intros w; cbn; [done|]. etrans; [apply Hf|apply IH]. Qed.
Lemma frame_notify t w : frame w (NotifyStatsChanged t w).
Proof. apply frame_foldl. intros w' m. case_match; [apply frame_emit|done]. Qed.
#[export] Hint Resolve frame_invited frame_command_result frame_broadcast frame_event frame_notify : arena.

(** *** Fields of players *)
Lemma SetArenaTeamInfoField_frame g slot type v w :
  players_ok w -> is_Some (FindPlayer g w) -> 0 <= slot < 3 -> 0 <= type < 7 ->
  exists w', SetArenaTeamInfoField g slot type v w = Ok w' /\ frame w w'.
Proof.
  intros Hp [p Hg] Hs Ht. unfold SetArenaTeamInfoField, GetPlayer. rewrite Hg. cbn [bind_result].
  destruct (Hp g p Hg) as [_ Hl]. rewrite (proj2 (Nat.ltb_lt _ _)); [|rewrite Hl; unfold info_index, ARENA_TEAM_END; lia].
  eexists. split; [done|].
  constructor; try done; cbn; [by rewrite dom_alter_L|]. intros _ g' p'. unfold on_player. cbn.
  rewrite lookup_alter_Some. intros [(-> & q & Hq & ->)|[_ Hq]]; [|by apply Hp].
  cbn. rewrite length_insert. split; [by apply (Hp g' q)|done].
Qed.
Lemma change_find l g w w' : change l w w' -> is_Some (FindPlayer g w) <-> is_Some (FindPlayer g w').
Proof. intros Hf. unfold FindPlayer. by rewrite <- !elem_of_dom, (fr_dom _ _ _ Hf). Qed.

Lemma clear_info_frame g slot n w :
  players_ok w -> is_Some (FindPlayer g w) -> 0 <= slot < 3 -> (n <= 7)%nat -> exists w', clear_info g slot n w = Ok w' /\ frame w w'.
Proof.
  intros Hp Hg Hs. induction n as [|n IH]; intros Hn; cbn; [by exists w|].
  destruct IH as (w1 & -> & Hf1); [lia|]. cbn.
  destruct (SetArenaTeamInfoField_frame g slot (Z.of_nat n) 0 w1) as (w2 & -> & Hf2); [by apply (fr_players _ _ _ Hf1)| |done|lia|].
  - by rewrite <- (change_find _ _ _ _ Hf1).
  - exists w2. split; [done|by etrans].
Qed.

Lemma slot_range t : type_ok (Type_ t) -> 0 <= GetSlot t < 3.
Proof. unfold GetSlot. intros [-> | [-> | ->]]; cbn; lia. Qed.
Lemma GetInfoField_ok slot type p : length (p_info p) = 21%nat -> 0 <= slot < 3 -> 0 <= type < 7 -> exists v, GetInfoField slot type p = Ok v.
Proof.
  intros Hl Hs Ht. unfold GetInfoField. destruct (p_info p !! info_index slot type) as [v|] eqn:Hv; [by exists v|].
  apply lookup_ge_None in Hv. unfold info_index, ARENA_TEAM_END in Hv. lia.
Qed.

(** ** Operations on a team *)

(** One field of a player who may be away. *)
Lemma maybe_field g slot type v w :
  players_ok w -> 0 <= slot < 3 -> 0 <= type < 7 ->
  exists w', (match FindPlayer g w with None => Ok w | Some _ => SetArenaTeamInfoField g slot type v w end) = Ok w' /\ frame w w'.
Proof.
  intros Hp Hs Ht. destruct (FindPlayer g w) as [p|] eqn:Hg; [|by exists w].
  apply SetArenaTeamInfoField_frame; eauto.
Qed.

Lemma RemovePetitionsAndSigns_frame E g type w : frame w (RemovePetitionsAndSigns E g type w).
Proof.
  unfold RemovePetitionsAndSigns. etrans; [|apply frame_commit; by case_match].
  set (r := signs_of _ _ _). etrans.
  - apply (frame_foldl (fun w op => let owner := MAKE_PLAYER_GUID op.1 in
      match FindPlayer owner w with Some _ => SendPetitionQueryOpcode E owner (MAKE_ITEM_GUID op.2) w | None => w end) r).
    intros w' [o p]. cbn. case_match; [|done]. unfold SendPetitionQueryOpcode. repeat case_match; (apply frame_emit || done).
  - destruct r; [done|]. apply frame_commit; by case_match.
Qed.

Lemma inform_joined_frame g t w : type_ok (Type_ t) -> players_ok w -> exists w', inform_joined g t w = Ok w' /\ frame w w'.
Proof.
  intros Ht Hp. unfold inform_joined. destruct (FindPlayer g w) as [p|] eqn:Hg; [|by exists w].
  assert (is_Some (FindPlayer g w)) as Hs by (by eexists). unfold SetInArenaTeam.
  destruct (SetArenaTeamInfoField_frame g (GetSlot t) ARENA_TEAM_ID (TeamId t) w) as (w1 & -> & H1);
    [done|done|by apply slot_range|unfold ARENA_TEAM_ID; lia|]. cbn [bind_result].
  destruct (SetArenaTeamInfoField_frame g (GetSlot t) ARENA_TEAM_TYPE (Type_ t) w1) as (w2 & -> & H2);
    [by apply (fr_players _ _ _ H1)|by apply (change_find _ _ _ _ H1)|by apply slot_range|unfold ARENA_TEAM_TYPE; lia|]. cbn [bind_result].
  assert (frame w (SetArenaTeamIdInvited g 0 w2)) as H3 by (etrans; [exact H1|]; etrans; [exact H2|apply frame_invited]).
  case_match; [by eexists|].
  destruct (SetArenaTeamInfoField_frame g (GetSlot t) ARENA_TEAM_MEMBER 1 (SetArenaTeamIdInvited g 0 w2)) as (w4 & -> & H4);
    [by apply (fr_players _ _ _ H3)|by apply (change_find _ _ _ _ H3)|by apply slot_range|unfold ARENA_TEAM_MEMBER; lia|].
  exists w4. split; [done|by etrans].
Qed.

(** [AddMember] refuses and changes nothing, or adds the player at the end, who has no
    team of the type in the table. *)
Lemma AddMember_cases E g t w :
  type_ok (Type_ t) -> players_ok w ->
  AddMember E g (t, w) = Ok (false, (t, w)) \/
  exists m w', AddMember E g (t, w) = Ok (true, (set_Members (Members t ++ [m]) t, w')) /\ Guid m = g /\
    GetMembersSize t < 2 * Type_ t /\ GetArenaTeamIdFromDB g (Type_ t) w = 0 /\
    change [CHAR_INS_ARENA_TEAM_MEMBER (TeamId t) (GUID_LOPART g)] w w'.
Proof.
  intros Ht Hp. unfold AddMember. destruct (Z.leb_spec (Type_ t * 2) (GetMembersSize t)); [by left|].
  destruct (match FindPlayer g w with Some p => _ | None => _ end) as [[name cls]|] eqn:Hd; [|by left].
  assert (exists own, match FindPlayer g w with Some p => GetArenaTeamId (GetSlot t) p | None => Ok 0 end = Ok own) as [own ->].
  { destruct (FindPlayer g w) as [p|] eqn:Hg; [|by eexists].
    apply GetInfoField_ok; [by apply (Hp g p)|by apply slot_range|unfold ARENA_TEAM_ID; lia]. }
  cbn [bind_result]. destruct (negb (own =? 0) || _) eqn:Hb; [by left|]. apply orb_false_iff in Hb as [_ Hb]. right.
  set (m := new_member _ _ _ _ _ _). set (t' := set_Members _ t). set (w1 := Execute _ _).
  assert (change [CHAR_INS_ARENA_TEAM_MEMBER (TeamId t) (GUID_LOPART g)] w w1) as Hc.
  { eapply frame_change; [apply RemovePetitionsAndSigns_frame|by apply change_execute]. }
  destruct (inform_joined_frame g t' w1) as (w2 & -> & Hf); [done|by apply (fr_players _ _ _ Hc)|]. cbn [bind_result].
  exists m, w2. split_and!; [done|done|lia| |by eapply change_frame].
  by destruct (Z.eqb_spec (GetArenaTeamIdFromDB g (Type_ t) w) 0).
Qed.

Lemma DelMember_spec g clean t w :
  type_ok (Type_ t) -> players_ok w ->
  exists w', DelMember g clean (t, w) = Ok (set_Members (erase_member g (Members t)) t, w') /\
    change (if clean then [CHAR_DEL_ARENA_TEAM_MEMBER (TeamId t) (GUID_LOPART g)] else []) w w'.
Proof.
  intros Ht Hp. unfold DelMember.
  assert (exists w1, match FindPlayer g w with None => Ok w | Some _ =>
     clear_info g (GetSlot t) 7 (SendArenaTeamCommandResult g ERR_ARENA_TEAM_QUIT_S (TeamName t) [] 0 w) end = Ok w1 /\ frame w w1) as (w1 & Hw & Hf).
  { destruct (FindPlayer g w) as [p|] eqn:Hg; [|by exists w].
    destruct (clear_info_frame g (GetSlot t) 7 (SendArenaTeamCommandResult g ERR_ARENA_TEAM_QUIT_S (TeamName t) [] 0 w)) as (w1 & -> & Hf);
      [done|by eexists|by apply slot_range|lia|]. exists w1. split; [done|]. by etrans; [apply frame_command_result|]. }
  cbn [TeamName set_Members]. change (GetSlot (set_Members _ t)) with (GetSlot t). rewrite Hw. cbn [bind_result].
  eexists. split; [done|]. destruct clean; [|done]. by eapply frame_change; [|apply change_execute].
Qed.

Lemma SetCaptain_spec g t w :
  type_ok (Type_ t) -> players_ok w ->
  exists w', SetCaptain g (t, w) = Ok (set_CaptainGuid g t, w') /\ change [CHAR_UPD_ARENA_TEAM_CAPTAIN (GUID_LOPART g) (TeamId t)] w w'.
Proof.
  intros Ht Hp. unfold SetCaptain.
  destruct (maybe_field (CaptainGuid t) (GetSlot t) ARENA_TEAM_MEMBER 1 w) as (w1 & -> & H1);
    [done|by apply slot_range|unfold ARENA_TEAM_MEMBER; lia|]. cbn [bind_result].
  set (w2 := Execute _ w1). assert (change [CHAR_UPD_ARENA_TEAM_CAPTAIN (GUID_LOPART g) (TeamId t)] w w2) as H2.
  { eapply frame_change; [exact H1|by apply change_execute]. }
  destruct (maybe_field g (GetSlot (set_CaptainGuid g t)) ARENA_TEAM_MEMBER 0 w2) as (w3 & -> & H3);
    [by apply (fr_players _ _ _ H2)|by apply slot_range|unfold ARENA_TEAM_MEMBER; lia|]. cbn [bind_result].
  exists w3. split; [done|by eapply change_frame].
Qed.

Lemma disband_members_spec l t w :
  type_ok (Type_ t) -> players_ok w -> Members t = l -> exists w', disband_members l (t, w) = Ok (set_Members [] t, w') /\ frame w w'.
Proof.
  revert t w. induction l as [|m l IH]; intros t w Ht Hp Hl; cbn [disband_members].
  - exists w. destruct t; cbn in *. by subst.
  - destruct (DelMember_spec (Guid m) false t w Ht Hp) as (w1 & -> & H1). cbn [bind_result].
    destruct (IH (set_Members (erase_member (Guid m) (Members t)) t) w1) as (w2 & -> & H2);
      [done|by apply (fr_players _ _ _ H1)|rewrite Hl; cbn; by rewrite Z.eqb_refl|].
    exists w2. split; [by destruct t|by etrans].
Qed.

Definition disband_rows (id : Z) : list statement := [CHAR_DEL_ARENA_TEAM id; CHAR_DEL_ARENA_TEAM_MEMBERS id].
Lemma Disband_spec s t w :
  type_ok (Type_ t) -> players_ok w ->
  exists w', Disband s (t, w) = Ok (set_Members [] t, RemoveArenaTeam (TeamId t) w') /\ change (disband_rows (TeamId t)) w w'.
Proof.
  intros Ht Hp. unfold Disband. cbn [fst]. destruct (disband_members_spec (Members t) t w Ht Hp eq_refl) as (w1 & -> & H1). cbn [bind_result].
  eexists. split; [done|]. eapply frame_change; [exact H1|]. eapply frame_change; [|by apply change_commit].
  destruct s; [apply frame_event|done].
Qed.

(** ** Packets as transitions of the registry *)

(** [w'] has the registry [S] and the next id [n]; but for that it is [w] as in
    [change]. *)
Record moves (S : gmap Z ArenaTeam) (n : Z) (l : list statement) (w w' : World) : Prop := {
  mv_store : ArenaTeamStore w' = S;
  mv_next : NextArenaTeamId w' = n;
  mv_db : db w' = db w;
  mv_dom : dom (players w') = dom (players w);
  mv_players : players_ok w -> players_ok w';
  mv_signs : signs_inv w -> signs_inv w';
  mv_rows : arena_rows (latest w') = arena_rows (exec_all l (latest w))
}.
Lemma change_moves l w w' : change l w w' -> moves (ArenaTeamStore w) (NextArenaTeamId w) l w w'.
Proof. intros []. by constructor. Qed.
Lemma moves_frame S n l a b c : moves S n l a b -> frame b c -> moves S n l a c.
Proof.
  intros [? ? ? ? ? ? Hr] [? ? ? ? ? ? Hr']. constructor; try (by etrans); auto.
Qed.
Lemma change_store l w w' S : change l w w' -> moves S (NextArenaTeamId w) l w (set_store S w').
Proof. intros []. by constructor. Qed.
Lemma moves_change S n l l' a b c : moves S n l a b -> change l' b c -> moves S n (l ++ l') a c.
Proof.
  intros [? ? ? ? ? ? Hr] [? ? ? ? ? ? Hr']. constructor; try (by etrans); auto.
  rewrite Hr', exec_all_app. by apply exec_all_rows.
Qed.
Lemma moves_store S n l a b S' : moves S n l a b -> moves S' n l a (set_store S' b).
Proof. intros []. by constructor. Qed.

(** What a packet of [s] may do to the teams: nothing; its sender joins a team; the sender
    leaves a team, or the captain removes another; the captain passes the lead, or ends
    the team; and when [founds], the sender founds a team, whose members had none of its type. *)
Inductive transition (s : Z) (founds : bool) (w : World) : gmap Z ArenaTeam -> Z -> list statement -> Prop :=
| tr_none : transition s founds w (ArenaTeamStore w) (NextArenaTeamId w) []
| tr_join id t m :
    ArenaTeamStore w !! id = Some t -> Guid m = s -> GetMembersSize t < 2 * Type_ t ->
    GetArenaTeamIdFromDB s (Type_ t) w = 0 ->
    transition s founds w (<[id := set_Members (Members t ++ [m]) t]> (ArenaTeamStore w)) (NextArenaTeamId w)
      [CHAR_INS_ARENA_TEAM_MEMBER id (GUID_LOPART s)]
| tr_part id t g :
    ArenaTeamStore w !! id = Some t -> g = s \/ CaptainGuid t = s /\ g ∈ guids t -> g <> CaptainGuid t ->
    transition s founds w (<[id := set_Members (erase_member g (Members t)) t]> (ArenaTeamStore w)) (NextArenaTeamId w)
      [CHAR_DEL_ARENA_TEAM_MEMBER id (GUID_LOPART g)]
| tr_captain id t g :
    ArenaTeamStore w !! id = Some t -> CaptainGuid t = s -> g ∈ guids t ->
    transition s founds w (<[id := set_CaptainGuid g t]> (ArenaTeamStore w)) (NextArenaTeamId w)
      [CHAR_UPD_ARENA_TEAM_CAPTAIN (GUID_LOPART g) id]
| tr_disband id t :
    ArenaTeamStore w !! id = Some t -> CaptainGuid t = s ->
    transition s founds w (delete id (ArenaTeamStore w)) (NextArenaTeamId w) (disband_rows id)
| tr_found t rating petition :
    founds = true -> TeamId t = NextArenaTeamId w -> sel_petition petition (db w) = Some (GUID_LOPART s, TeamName t, Type_ t) -> type_ok (Type_ t) -> CaptainGuid t = s ->
    GetMembersSize t <= 2 * Type_ t -> NoDup (guids t) ->
    s ∈ guids t \/ GetArenaTeamIdFromDB s (Type_ t) w <> 0 ->
    (forall g, g ∈ guids t -> in_u 32 g /\ GetArenaTeamIdFromDB g (Type_ t) w = 0) ->
    transition s founds w (<[TeamId t := t]> (ArenaTeamStore w)) (u32 (NextArenaTeamId w + 1))
      (CHAR_INS_ARENA_TEAM (TeamId t) (TeamName t) (GUID_LOPART s) (Type_ t) rating (emblem t) ::
       ((fun g => CHAR_INS_ARENA_TEAM_MEMBER (TeamId t) (GUID_LOPART g)) <$> guids t)).

(** A packet goes as one of these, or the text of a name is too long for its buffer. *)
Definition goes (s : Z) (founds : bool) (w : World) (r : result fault World) : Prop :=
  ensures (fun e => e = TextOverflow) (fun w' => exists S n l, transition s founds w S n l /\ moves S n l w w') r.

(** The registry as the handlers need it. *)
Definition types_ok (w : World) : Prop := forall id t, ArenaTeamStore w !! id = Some t -> TeamId t = id /\ type_ok (Type_ t).
Lemma store_types w : store_ok w -> types_ok w.
Proof. intros Hs id t Ht. by destruct (Hs id t Ht). Qed.

Lemma goes_frame s founds w w' : frame w w' -> goes s founds w (Ok w').
Proof. intros Hf. exists (ArenaTeamStore w), (NextArenaTeamId w), []. split; [constructor|by apply change_moves]. Qed.
Lemma goes_refl s founds w : goes s founds w (Ok w).
Proof. by apply goes_frame. Qed.
#[export] Hint Resolve goes_refl : arena.

Lemma with_team_goes s founds id f w : (forall t, ArenaTeamStore w !! id = Some t -> goes s founds w (f t w)) -> goes s founds w (with_team id f w).
Proof. intros Hf. unfold with_team, GetArenaTeamById. destruct (_ !! id) eqn:Ht; [by apply Hf|apply goes_refl]. Qed.
Lemma with_name_goes s founds name f w : (forall n, goes s founds w (f n w)) -> goes s founds w (with_name name f w).
Proof. intros Hf. unfold with_name. destruct (Util.normalizePlayerName name) as [[[] n]|]; [apply Hf|apply goes_refl|done]. Qed.
Lemma GetPlayer_ok s w : is_Some (FindPlayer s w) -> exists p, GetPlayer s w = Ok p /\ FindPlayer s w = Some p.
Proof. intros [p Hp]. exists p. unfold GetPlayer. by rewrite Hp. Qed.
(** What is sent after the team was put back. *)
Lemma put_moves l t w w1 w2 id :
  change l w w1 -> TeamId t = id -> frame (put (t, w1)) w2 -> moves (<[id := t]> (ArenaTeamStore w)) (NextArenaTeamId w) l w w2.
Proof.
  intros Hc <- Hf. eapply moves_frame; [|exact Hf]. unfold put. cbn [fst snd]. rewrite (fr_store _ _ _ Hc). by apply change_store.
Qed.
Lemma GetMember_name_elem n t m : GetMember_name n t = Some m -> Guid m ∈ guids t.
Proof.
  unfold GetMember_name, guids. induction (Members t) as [|m' l IH]; cbn; [done|]. case_match; [intros [= ->]; set_solver|set_solver].
Qed.

(** ** The handlers *)
Section handlers.
Context (E : Env) (s : Z) (founds : bool) (w : World).
Hypothesis (Htypes : types_ok w) (Hplayers : players_ok w) (Hs : is_Some (FindPlayer s w)).

Lemma own_id_ok slot p : FindPlayer s w = Some p -> 0 <= slot < 3 -> exists v, GetArenaTeamId slot p = Ok v.
Proof. intros Hp Hr. apply GetInfoField_ok; [by apply (Hplayers s p)|done|unfold ARENA_TEAM_ID; lia]. Qed.
Lemma info_ok g slot p type : FindPlayer g w = Some p -> 0 <= slot < 3 -> 0 <= type < 7 -> exists v, GetInfoField slot type p = Ok v.
Proof. intros Hp. apply GetInfoField_ok. by apply (Hplayers g p). Qed.

Lemma inspect_goes g : goes s founds w (HandleInspectArenaTeamsOpcode s g w).
Proof.
  unfold HandleInspectArenaTeamsOpcode. destruct (FindPlayer g w) as [p|] eqn:Hg; [|apply goes_refl].
  assert (forall slots w', Forall (fun i => 0 <= i < 3) slots -> exists w2, inspect_slots s g p slots w' = Ok w2 /\ frame w' w2) as H.
  { induction slots as [|i slots IH]; intros w' Hf; cbn [inspect_slots]; [by exists w'|]. inversion_clear Hf as [|? ? Hi Hf'].
    destruct (info_ok g i p ARENA_TEAM_ID) as [v Hv]; [done|done|unfold ARENA_TEAM_ID; lia|]. unfold GetArenaTeamId. rewrite Hv. cbn [bind_result].
    edestruct IH as (w2 & -> & Hw2); [done|]. exists w2. split; [done|]. etrans; [|exact Hw2].
    repeat case_match; try done. unfold Inspect. case_match; [apply frame_emit|done]. }
  destruct (H (seqZ 0 MAX_ARENA_SLOT) w) as (w2 & -> & Hf); [|by apply goes_frame].
  apply Forall_forall. intros i Hi%elem_of_seqZ. unfold MAX_ARENA_SLOT in Hi. lia.
Qed.
Lemma query_goes id : goes s founds w (HandleArenaTeamQueryOpcode s id w).
Proof. apply with_team_goes. intros t _. apply goes_frame. etrans; apply frame_emit. Qed.
Lemma roster_goes id : goes s founds w (HandleArenaTeamRosterOpcode s id w).
Proof. apply with_team_goes. intros t _. apply goes_frame, frame_emit. Qed.
Lemma calendar_goes id : goes s founds w (HandleCalendarArenaTeam s id w).
Proof. apply with_team_goes. intros t _. apply goes_frame, frame_emit. Qed.

Lemma FindPlayerByName_Some n g p : FindPlayerByName n w = Some (g, p) -> FindPlayer g w = Some p.
Proof.
  unfold FindPlayerByName. intros H%head_Some_elem_of. apply list_elem_of_filter in H as [_ H]. by apply elem_of_map_to_list in H.
Qed.
Lemma invite_goes id name : goes s founds w (HandleArenaTeamInviteOpcode E s id name w).
Proof.
  unfold HandleArenaTeamInviteOpcode. case_decide; [apply goes_frame, frame_command_result|]. apply with_name_goes. intros n.
  destruct (FindPlayerByName n w) as [[g p]|] eqn:Hn; [|apply goes_frame, frame_command_result].
  apply FindPlayerByName_Some in Hn. unfold invite_player. destruct (GetPlayer_ok s w Hs) as (me & -> & Hme). cbn [bind_result].
  case_match; [apply goes_frame, frame_command_result|]. unfold GetArenaTeamById.
  destruct (ArenaTeamStore w !! id) as [t|] eqn:Ht; [|apply goes_frame, frame_command_result].
  case_match; [apply goes_refl|]. case_match; [apply goes_frame, frame_command_result|].
  destruct (info_ok g (GetSlot t) p ARENA_TEAM_ID) as [v Hv]; [done|by eapply slot_range, Htypes|unfold ARENA_TEAM_ID; lia|].
  unfold GetArenaTeamId. rewrite Hv. cbn [bind_result].
  repeat (case_match; [apply goes_frame, frame_command_result|]). apply goes_frame. etrans; [apply frame_invited|apply frame_emit].
Qed.
Lemma decline_goes : goes s founds w (HandleArenaTeamDeclineOpcode s w).
Proof.
  unfold HandleArenaTeamDeclineOpcode. destruct (GetPlayer_ok s w Hs) as (me & -> & _). cbn [bind_result]. apply goes_frame, frame_invited.
Qed.

Lemma accept_goes : goes s founds w (HandleArenaTeamAcceptOpcode E s w).
Proof.
  unfold HandleArenaTeamAcceptOpcode. destruct (GetPlayer_ok s w Hs) as (me & -> & Hme). cbn [bind_result].
  apply with_team_goes. intros t Ht. destruct (Htypes _ _ Ht) as [Hid Hty].
  destruct (own_id_ok (GetSlot t) me) as [v ->]; [done|by apply slot_range|]. cbn [bind_result].
  repeat (case_match; [apply goes_frame, frame_command_result|]).
  destruct (AddMember_cases E s t w) as [->|(m & w1 & -> & Hm & Hl & Hdb & Hc)]; [done|done| |]; cbn [bind_result].
  - apply goes_frame, frame_command_result.
  - eexists _, _, _. split; [by eapply (tr_join s founds w (p_invited me) t m)|]. rewrite <- Hid. eapply put_moves; [exact Hc|done|apply frame_event].
Qed.

Lemma disband_goes id t : ArenaTeamStore w !! id = Some t -> CaptainGuid t = s -> goes s founds w (let? (_, w) := Disband (Some s) (t, w) in Ok w).
Proof.
  intros Ht Hc. destruct (Htypes _ _ Ht) as [Hid Hty]. destruct (Disband_spec (Some s) t w) as (w1 & -> & Hch); [done|done|]. cbn [bind_result].
  eexists _, _, _. split; [by eapply (tr_disband s founds w id t)|]. rewrite <- Hid. unfold RemoveArenaTeam. rewrite (fr_store _ _ _ Hch).
  by apply change_store.
Qed.
Lemma leave_goes id : goes s founds w (HandleArenaTeamLeaveOpcode s id w).
Proof.
  apply with_team_goes. intros t Ht. destruct (Htypes _ _ Ht) as [Hid Hty]. destruct (GetPlayer_ok s w Hs) as (me & -> & Hme). cbn [bind_result].
  case_match; [apply goes_frame, frame_command_result|]. case_match; [apply goes_frame, frame_command_result|].
  destruct (Z.eqb_spec s (CaptainGuid t)) as [Hc|Hc]; [by eapply disband_goes|].
  destruct (DelMember_spec s true t w) as (w1 & -> & Hch); [done|done|]. cbn [bind_result].
  eexists _, _, _. split; [eapply (tr_part s founds w id t s); auto|]. rewrite <- Hid. eapply put_moves; [exact Hch|done|].
  etrans; [apply frame_event|apply frame_command_result].
Qed.
Lemma disband_packet_goes id : goes s founds w (HandleArenaTeamDisbandOpcode s id w).
Proof.
  apply with_team_goes. intros t Ht. destruct (Z.eqb_spec (CaptainGuid t) s) as [Hc|]; cbn [negb orb]; [|apply goes_refl].
  case_match; [apply goes_refl|]. by eapply disband_goes.
Qed.
Lemma with_member_goes id name f :
  (forall me t n m, ArenaTeamStore w !! id = Some t -> CaptainGuid t = s -> Guid m ∈ guids t -> goes s founds w (f me t n m w)) ->
  goes s founds w (with_member s id name f w).
Proof.
  intros Hf. apply with_team_goes. intros t Ht. destruct (GetPlayer_ok s w Hs) as (me & -> & _). cbn [bind_result].
  destruct (Z.eqb_spec (CaptainGuid t) s) as [Hc|]; cbn [negb]; [|apply goes_frame, frame_command_result].
  apply with_name_goes. intros n. destruct (GetMember_name n t) as [m|] eqn:Hm; [|apply goes_frame, frame_command_result].
  apply Hf; [done|done|by eapply GetMember_name_elem].
Qed.
Lemma remove_goes id name : goes s founds w (HandleArenaTeamRemoveOpcode s id name w).
Proof.
  apply with_member_goes. intros me t n m Ht Hc Hm. destruct (Htypes _ _ Ht) as [Hid Hty].
  destruct (Z.eqb_spec (CaptainGuid t) (Guid m)); [apply goes_frame, frame_command_result|].
  destruct (DelMember_spec (Guid m) true t w) as (w1 & -> & Hch); [done|done|]. cbn [bind_result].
  eexists _, _, _. split; [eapply (tr_part s founds w id t (Guid m)); auto|]. rewrite <- Hid. eapply put_moves; [exact Hch|done|apply frame_event].
Qed.
Lemma leader_goes id name : goes s founds w (HandleArenaTeamLeaderOpcode s id name w).
Proof.
  apply with_member_goes. intros me t n m Ht Hc Hm. destruct (Htypes _ _ Ht) as [Hid Hty].
  case_match; [apply goes_refl|]. destruct (SetCaptain_spec (Guid m) t w) as (w1 & -> & Hch); [done|done|]. cbn [bind_result].
  eexists _, _, _. split; [by eapply (tr_captain s founds w id t (Guid m))|]. rewrite <- Hid. eapply put_moves; [exact Hch|done|apply frame_event].
Qed.

Lemma GUID_LOPART_range g : in_u 32 (GUID_LOPART g).
Proof. unfold GUID_LOPART. change 0xFFFFFFFF with (Z.ones 32). rewrite Z.land_ones by lia. apply wrap_range. lia. Qed.
Lemma may_sign_ok type p : FindPlayer s w = Some p ->
  exists r, may_sign E s type p = Ok r /\ (forall f, r = Some f -> forall w', frame w' (f w')).
Proof.
  intros Hp. unfold may_sign. case_match.
  - eexists. split; [done|]. intros f. repeat case_match; intros [= <-] w'; apply frame_emit.
  - case_match; [eexists; split; [done|]; intros f [= <-] w'; apply frame_emit|].
    destruct (Z.leb_spec MAX_ARENA_SLOT (GetSlotByType type)) as [|Hlt]; [eexists; split; [done|]; by intros f [= <-] w'|].
    destruct (own_id_ok (GetSlotByType type) p) as [v ->]; [done| |].
    + revert Hlt. unfold GetSlotByType, MAX_ARENA_SLOT. repeat case_match; lia.
    + cbn [bind_result]. eexists. split; [done|]. intros f. repeat case_match; intros [= <-] w'; apply frame_emit.
Qed.
Lemma sign_goes guid : goes s founds w (HandlePetitionSignOpcode E s guid w).
Proof.
  unfold HandlePetitionSignOpcode. destruct (sel_petition _ _) as [[[owner name] type]|]; [|apply goes_refl].
  destruct (GetPlayer_ok s w Hs) as (me & -> & Hme). cbn [bind_result].
  case_match; [apply goes_refl|]. case_match; [apply goes_frame; case_match; apply frame_emit|].
  destruct (may_sign_ok type me Hme) as (r & -> & Hr). cbn [bind_result]. destruct r as [f|]; [by apply goes_frame, Hr|].
  case_match; [apply goes_refl|]. case_match; apply goes_frame; [apply frame_emit|]. etrans; [|apply frame_emit]. apply frame_commit; [done|].
  cbn. by rewrite bool_decide_eq_true_2 by apply GUID_LOPART_range.
Qed.
Lemma show_sign_goes guid : goes s founds w (HandlePetitionShowSignOpcode s guid w).
Proof.
  unfold HandlePetitionShowSignOpcode. destruct (sel_petition _ _) as [[[owner name] type]|]; [|apply goes_refl].
  destruct (GetPlayer_ok s w Hs) as (me & -> & _). cbn [bind_result]. case_match; [apply goes_refl|]. apply goes_frame, frame_emit.
Qed.
Lemma may_offer_ok type me g p : FindPlayer g w = Some p ->
  exists r, may_offer E s type me p = Ok r /\ (forall f, r = Some f -> forall w', frame w' (f w')).
Proof.
  intros Hp. unfold may_offer. case_match.
  - eexists. split; [done|]. intros f. repeat case_match; intros [= <-] w'; apply frame_emit.
  - case_match; [eexists; split; [done|]; intros f [= <-] w'; apply frame_emit|].
    destruct (Z.leb_spec MAX_ARENA_SLOT (GetSlotByType type)) as [|Hlt]; [eexists; split; [done|]; by intros f [= <-] w'|].
    destruct (info_ok g (GetSlotByType type) p ARENA_TEAM_ID Hp) as [v Hv]; [|unfold ARENA_TEAM_ID; lia|].
    + revert Hlt. unfold GetSlotByType, MAX_ARENA_SLOT. repeat case_match; lia.
    + unfold GetArenaTeamId. rewrite Hv. cbn [bind_result]. eexists. split; [done|]. intros f. repeat case_match; intros [= <-] w'; apply frame_emit.
Qed.
Lemma offer_goes guid player : goes s founds w (HandleOfferPetitionOpcode E s guid player w).
Proof.
  unfold HandleOfferPetitionOpcode. destruct (FindPlayer player w) as [p|] eqn:Hpl; [|apply goes_refl].
  destruct (sel_petition _ _) as [[[owner name] type]|]; [|apply goes_refl]. destruct (GetPlayer_ok s w Hs) as (me & -> & _). cbn [bind_result].
  case_match; [apply goes_frame; case_match; apply frame_emit|]. destruct (may_offer_ok type me player p Hpl) as (r & -> & Hr). cbn [bind_result].
  apply goes_frame. destruct r as [f|]; [by apply Hr|apply frame_emit].
Qed.
Lemma sign_decline_goes guid : goes s founds w (HandlePetitionDeclineOpcode s guid w).
Proof.
  unfold HandlePetitionDeclineOpcode. repeat case_match; try apply goes_refl. apply goes_frame, frame_emit.
Qed.
Lemma rename_goes guid has name : goes s founds w (Ok (rename_arena_charter E s guid has name w)).
Proof.
  unfold rename_arena_charter. repeat case_match; try apply goes_refl; apply goes_frame; try apply frame_emit.
  etrans; [|apply frame_emit]; by apply frame_commit.
Qed.
Lemma register_goes charter name type : goes s founds w (Ok (register_petition s charter name type w)).
Proof. by apply goes_frame, frame_commit. Qed.
End handlers.
