(* ===== verification/ArenaFound.v ===== *)
(** * ArenaFound: turning in a petition for an arena team

    [turn_in_arena_petition] makes the team and adds the captain and the signers; the
    transition of the registry that it is, and that nobody is added twice. *)
From S2P Require Import Prelude Utf8 Util Guild ArenaTables ArenaTeam ArenaHandlers Battleground ArenaMatch ArenaRules.
Import ArenaTables ArenaTeam ArenaHandlers ArenaMatch.
#[global] Open Scope Z_scope.

(** ** The captain's field while others join *)
Definition has_field (g slot v : Z) (w : World) : Prop :=
  exists p, FindPlayer g w = Some p /\ GetArenaTeamId slot p = Ok v.

Lemma RemovePetitionsAndSigns_players E g type w : players (RemovePetitionsAndSigns E g type w) = players w.
Proof.
  assert (forall l w, players (foldl (fun w op => let owner := MAKE_PLAYER_GUID op.1 in
      match FindPlayer owner w with Some _ => SendPetitionQueryOpcode E owner (MAKE_ITEM_GUID op.2) w | None => w end) w l) = players w) as H.
  { induction l as [|[o p] l IH]; intros w'; cbn [foldl]; [done|]. rewrite IH. cbn. unfold SendPetitionQueryOpcode. by repeat case_match. }
  unfold RemovePetitionsAndSigns. set (r := signs_of _ _ _). specialize (H r w). by destruct r.
Qed.

Lemma SetArenaTeamInfoField_other g g' slot type v w w' :
  g' <> g -> SetArenaTeamInfoField g' slot type v w = Ok w' -> FindPlayer g w' = FindPlayer g w.
Proof.
  intros Hg. unfold SetArenaTeamInfoField. destruct (GetPlayer g' w); cbn [bind_result]; [|done].
  case_match; intros [= <-]. unfold FindPlayer, on_player. cbn. by apply lookup_alter_ne.
Qed.
Lemma bound_Ok {X Y} (m : result fault X) (k : X -> result fault Y) y : bind_result m k = Ok y -> exists x, m = Ok x /\ k x = Ok y.
Proof. destruct m as [x|]; [|done]. intros H. by exists x. Qed.

Lemma inform_joined_other g g' t w w' : g' <> g -> inform_joined g' t w = Ok w' -> FindPlayer g w' = FindPlayer g w.
Proof.
  intros Hg. unfold inform_joined, SetInArenaTeam. destruct (FindPlayer g' w); [|by intros [= ->]].
  intros (w2 & (w1 & H1 & H2)%bound_Ok & H3)%bound_Ok.
  assert (FindPlayer g (SetArenaTeamIdInvited g' 0 w2) = FindPlayer g w) as Hi.
  { etrans; [by apply lookup_alter_ne|]. etrans; [by eapply SetArenaTeamInfoField_other|by eapply SetArenaTeamInfoField_other]. }
  case_match; [by injection H3 as <-|]. etrans; [by eapply SetArenaTeamInfoField_other|done].
Qed.
Lemma AddMember_other E g g' t w b tw : g' <> g -> AddMember E g' (t, w) = Ok (b, tw) -> FindPlayer g tw.2 = FindPlayer g w.
Proof.
  intros Hg. unfold AddMember. case_match; [by intros [= <- <-]|]. destruct (match FindPlayer g' w with Some p => _ | None => _ end) as [[n c]|];
    [|by intros [= <- <-]].
  intros (own & _ & H2)%bound_Ok. destruct (_ || _); [by injection H2 as <- <-|].
  apply bound_Ok in H2 as (w2 & H2 & [= <- <-]). etrans; [by eapply inform_joined_other|].
  change (players (RemovePetitionsAndSigns E g' (Type_ t) w) !! g = players w !! g). by rewrite RemovePetitionsAndSigns_players.
Qed.

Lemma SetArenaTeamInfoField_get g slot type v w w' :
  SetArenaTeamInfoField g slot type v w = Ok w' ->
  exists p, FindPlayer g w' = Some p /\ GetInfoField slot type p = Ok v /\
    (type <> ARENA_TEAM_ID -> 0 <= slot -> 0 <= type -> forall v', has_field g slot v' w -> GetArenaTeamId slot p = Ok v').
Proof.
  unfold SetArenaTeamInfoField, GetPlayer. destruct (FindPlayer g w) as [p|] eqn:Hg; [|done]. cbn [bind_result].
  destruct (Nat.ltb_spec (info_index slot type) (length (p_info p))) as [Hl|]; [|done]. intros [= <-].
  exists (set_info (<[info_index slot type := v]> (p_info p)) p). split_and!.
  - unfold FindPlayer, on_player in *. cbn. by rewrite lookup_alter_eq, Hg.
  - unfold GetInfoField. cbn. by rewrite list_lookup_insert_eq.
  - intros Hne Hs Ht v' (p' & Hp' & Hv). rewrite Hg in Hp'. injection Hp' as <-. revert Hv. unfold GetArenaTeamId, GetInfoField. cbn.
    rewrite list_lookup_insert_ne; [done|]. unfold info_index, ARENA_TEAM_END, ARENA_TEAM_ID in *. lia.
Qed.

(** The captain who was added has the id of the team in its field. *)
Lemma AddMember_field E g t w tw :
  type_ok (Type_ t) -> CaptainGuid t = g -> is_Some (FindPlayer g w) -> AddMember E g (t, w) = Ok (true, tw) -> has_field g (GetSlot t) (TeamId t) tw.2.
Proof.
  intros Ht Hc Hp. unfold AddMember. case_match; [done|]. destruct Hp as [p Hp]. rewrite Hp.
  intros (own & _ & H')%bound_Ok. destruct (_ || _); [done|]. set (t' := set_Members _ t) in H'. set (w1 := Execute _ _) in H'.
  apply bound_Ok in H' as (w' & H' & [= <-]). cbn [snd]. revert H'. unfold inform_joined.
  assert (FindPlayer g w1 = Some p) as ->.
  { change (players (RemovePetitionsAndSigns E g (Type_ t) w) !! g = Some p). by rewrite RemovePetitionsAndSigns_players. }
  unfold SetInArenaTeam. intros (w3 & (w2 & H1 & H2)%bound_Ok & H3)%bound_Ok. change (CaptainGuid t') with (CaptainGuid t) in H3.
  rewrite Hc, Z.eqb_refl in H3. injection H3 as <-.
  destruct (SetArenaTeamInfoField_get _ _ _ _ _ _ H1) as (p2 & Hp2 & Hv2 & _).
  destruct (SetArenaTeamInfoField_get _ _ _ _ _ _ H2) as (p3 & Hp3 & _ & Hk).
  exists (set_invited 0 p3). split; [unfold FindPlayer, SetArenaTeamIdInvited, on_player in *; cbn; by rewrite lookup_alter_eq, Hp3|].
  apply Hk; [done|by apply (slot_range t)|done|by exists p2].
Qed.
Lemma AddMember_refused E g t w v b tw : has_field g (GetSlot t) v w -> v <> 0 -> AddMember E g (t, w) = Ok (b, tw) -> b = false.
Proof.
  intros (p & Hp & Hv) Hne. unfold AddMember. case_match; [by intros [= <- _]|]. rewrite Hp, Hv. cbn [bind_result].
  rewrite (proj2 (Z.eqb_neq v 0) Hne). cbn. by intros [= <- _].
Qed.
(** A player in the world without a team in its field, and room: only the table
    refuses. *)
Lemma AddMember_only_table E g t w tw :
  has_field g (GetSlot t) 0 w -> GetMembersSize t < 2 * Type_ t -> AddMember E g (t, w) = Ok (false, tw) -> GetArenaTeamIdFromDB g (Type_ t) w <> 0.
Proof.
  intros (p & Hp & Hv) Hl. unfold AddMember. destruct (Z.leb_spec (Type_ t * 2) (GetMembersSize t)); [lia|].
  rewrite Hp, Hv. cbn [bind_result]. rewrite Z.eqb_refl. cbn [negb orb].
  destruct (Z.eqb_spec (GetArenaTeamIdFromDB g (Type_ t) w) 0); [|done]. cbn [negb].
  by intros (w' & _ & [=])%bound_Ok.
Qed.

(** ** The signers *)
Definition ins_members (id : Z) (gs : list Z) : list statement := (fun g => CHAR_INS_ARENA_TEAM_MEMBER id (GUID_LOPART g)) <$> gs.

Lemma MAKE_PLAYER_GUID_id l : MAKE_PLAYER_GUID l = l.
Proof. unfold MAKE_PLAYER_GUID, HIGHGUID_PLAYER. rewrite !Z.shiftl_0_l. cbn. by rewrite Z.lor_0_r. Qed.
Lemma set_Members_Members l l' t : set_Members l (set_Members l' t) = set_Members l t.
Proof. done. Qed.

Lemma add_signers_spec E c v l t w :
  type_ok (Type_ t) -> players_ok w -> GetMembersSize t <= 2 * Type_ t -> v <> 0 ->
  exists ms w', add_signers E l (t, w) = Ok (set_Members (Members t ++ ms) t, w') /\ Guid <$> ms `sublist_of` l /\
    GetMembersSize t + Z.of_nat (length ms) <= 2 * Type_ t /\
    (forall g, g ∈ Guid <$> ms -> GetArenaTeamIdFromDB g (Type_ t) w = 0) /\
    (has_field c (GetSlot t) v w -> c ∉ Guid <$> ms) /\
    change (ins_members (TeamId t) (Guid <$> ms)) w w'.
Proof.
  intros Ht Hp Hl Hv. revert t w Ht Hp Hl. induction l as [|g l IH]; intros t w Ht Hp Hl; cbn [add_signers].
  { exists [], w. rewrite app_nil_r. split_and!; [by destruct t|done|cbn; lia|set_solver|set_solver|done]. }
  rewrite MAKE_PLAYER_GUID_id. destruct (AddMember_cases E g t w Ht Hp) as [Ha|(m & w1 & Ha & Hm & Hl' & Hdb & Hc)];
    rewrite Ha; cbn [bind_result].
  { destruct (IH t w Ht Hp Hl) as (ms & w' & He & Hsub & Hrest). exists ms, w'. split; [done|]. split; [by apply sublist_cons|done]. }
  destruct (IH (set_Members (Members t ++ [m]) t) w1) as (ms & w' & He & Hsub & Hsz & Hd & Hf & Hc');
    [done|by apply (fr_players _ _ _ Hc)|unfold GetMembersSize in *; cbn; rewrite length_app; cbn; lia|].
  exists (m :: ms), w'. rewrite He. cbn [Members set_Members Type_ TeamId] in *. rewrite <- app_assoc. split_and!.
  - done.
  - cbn. rewrite Hm. by apply sublist_skip.
  - revert Hsz. unfold GetMembersSize. cbn. rewrite length_app. cbn. lia.
  - intros g' [->|Hg']%elem_of_cons; [by rewrite Hm|]. rewrite <- (Hd g' Hg'). unfold GetArenaTeamIdFromDB. by rewrite (fr_db _ _ _ Hc).
  - intros Hcf. cbn. rewrite not_elem_of_cons. destruct (decide (c = g)) as [->|Hne].
    { exfalso. assert (true = false); [|done]. by eapply AddMember_refused. }
    split; [by rewrite Hm|]. apply Hf. destruct Hcf as (p & Hpc & Hvc). exists p. split; [|done]. rewrite <- Hpc.
    apply (AddMember_other E c g t w true (set_Members (Members t ++ [m]) t, w1)); [done|done].
  - cbn. rewrite Hm. by eapply (change_trans [_]).
Qed.

Lemma sel_signatures_NoDup guid T : NoDup (sel_signatures guid T).
Proof.
  unfold sel_signatures. pose proof (NoDup_map_to_list (petition_sign T)) as Hn.
  assert (forall l : list ((Z * Z) * SignRow), NoDup (l.*1) -> NoDup (omap (fun kv => if kv.1.1 =? guid then Some kv.1.2 else None) l)) as H.
  { induction l as [|[[pe pl] r] l IH]; cbn; [intros _; constructor|]. intros [Hx Hl]%NoDup_cons.
    destruct (Z.eqb_spec pe guid) as [->|]; [|by apply IH]. constructor; [|by apply IH].
    rewrite list_elem_of_omap. intros ([[pe' pl'] r'] & Hin & Hq). cbn in Hq. destruct (Z.eqb_spec pe' guid) as [->|]; [|done].
    injection Hq as ->. apply Hx. apply list_elem_of_fmap. by exists (guid, pl, r'). }
  apply H. apply NoDup_fst_map_to_list.
Qed.
Lemma sel_signatures_range guid T g : signs_ok T -> g ∈ sel_signatures guid T -> in_u 32 g.
Proof.
  intros HT. unfold sel_signatures. rewrite list_elem_of_omap. intros ([[pe pl] r] & Hin & Hq). apply elem_of_map_to_list in Hin.
  cbn in Hq. case_match; [|done]. injection Hq as <-. by apply (HT (pe, pl) r).
Qed.

(** [Create]: refused with the charter gone, or a team with the next id and the captain,
    if the table lets the captain in. *)
Lemma Create_cases E s type name e w :
  type_ok type -> players_ok w -> has_field s (GetSlotByType type) 0 w ->
  Create E s type name e (new_team E, w) = Ok (false, (new_team E, w)) \/
  exists ms w', let t := mkTeam (NextArenaTeamId w) type name s e ms (Stats (new_team E)) in
    Create E s type name e (new_team E, w) = Ok (true, (t, w')) /\
    (ms = [] /\ GetArenaTeamIdFromDB s type w <> 0 \/
     exists m, ms = [m] /\ Guid m = s /\ GetArenaTeamIdFromDB s type w = 0 /\ has_field s (GetSlot t) (NextArenaTeamId w) w') /\
    moves (ArenaTeamStore w) (u32 (NextArenaTeamId w + 1))
      (CHAR_INS_ARENA_TEAM (NextArenaTeamId w) name (GUID_LOPART s) type (Rating (Stats (new_team E))) e ::
       ins_members (NextArenaTeamId w) (Guid <$> ms)) w w'.
Proof.
  intros Ht Hp (p & Hs & Hf). unfold Create. rewrite Hs. destruct (GetArenaTeamByName _ w); [by left|]. right.
  unfold GenerateArenaTeamId. set (w0 := if 0xFFFFFFFE <=? NextArenaTeamId w then emit [StopNow] w else w).
  assert (frame w w0) as H0 by (unfold w0; case_match; [apply frame_emit|done]).
  assert (NextArenaTeamId w0 = NextArenaTeamId w) as -> by apply (fr_next _ _ _ H0).
  set (w1 := set_next _ w0). set (t0 := mkTeam _ _ _ _ _ _ _). set (w2 := Execute _ w1).
  assert (moves (ArenaTeamStore w) (u32 (NextArenaTeamId w + 1)) [] w w1) as H1 by (destruct H0; by constructor).
  assert (moves (ArenaTeamStore w) (u32 (NextArenaTeamId w + 1))
     [CHAR_INS_ARENA_TEAM (NextArenaTeamId w) name (GUID_LOPART s) type (Rating (Stats t0)) e] w w2) as H2.
  { eapply (moves_change _ _ [] [_]); [exact H1|by apply change_execute]. }
  assert (FindPlayer s w2 = Some p) as Hs2 by (unfold w2, w1, w0; cbn; by case_match).
  assert (players_ok w2) as Hp2 by (by apply (mv_players _ _ _ _ _ H2)).
  assert (GetArenaTeamIdFromDB s (Type_ t0) w2 = GetArenaTeamIdFromDB s type w) as Hdb by (unfold GetArenaTeamIdFromDB; by rewrite (mv_db _ _ _ _ _ H2)).
  destruct (AddMember_cases E s t0 w2) as [Ha|(m & w3 & Ha & Hm & _ & Hd & Hc)]; [done|done| |]; rewrite Ha; cbn [bind_result].
  - exists [], w2. split_and!; [done| |done]. left. split; [done|]. rewrite <- Hdb.
    eapply AddMember_only_table; [by exists p|unfold GetMembersSize; cbn; destruct Ht as [-> | [-> | ->]]; lia|done].
  - exists [m], w3. split_and!; [done| |].
    + right. exists m. split_and!; [done|done|by rewrite <- Hdb|].
      change (has_field s (GetSlot t0) (TeamId t0) (set_Members (Members t0 ++ [m]) t0, w3).2).
      eapply (AddMember_field E); [done|done|by eexists|exact Ha].
    + cbn. rewrite Hm. by eapply (moves_change _ _ [_] [_]).
Qed.

Lemma slot_of_type type : GetSlotByType type < MAX_ARENA_SLOT -> type_ok type.
Proof. unfold GetSlotByType, MAX_ARENA_SLOT, type_ok. repeat case_match; unfold ARENA_TEAM_2v2, ARENA_TEAM_3v3, ARENA_TEAM_5v5 in *; lia. Qed.

Lemma turn_in_goes E s guid has e w :
  types_ok w -> players_ok w -> is_Some (FindPlayer s w) -> signs_inv w -> 0 < NextArenaTeamId w ->
  goes s true w (turn_in_arena_petition E s guid has e w).
Proof.
  intros Hty Hp Hs [Hsd _] Hn. unfold turn_in_arena_petition. destruct (sel_petition _ _) as [[[owner name] type]|] eqn:Hsel; [|apply goes_refl].
  destruct (GetPlayer_ok s w Hs) as (me & -> & Hme). cbn [bind_result].
  destruct (negb has || negb (GUID_LOPART s =? owner) || (type =? GUILD_CHARTER_TYPE)) eqn:Hb; [apply goes_refl|].
  apply orb_false_iff in Hb as [[_ Hb]%orb_false_iff _]. apply negb_false_iff, Z.eqb_eq in Hb as <-.
  destruct (Z.leb_spec MAX_ARENA_SLOT (GetSlotByType type)) as [|Hsl]; [apply goes_refl|]. apply slot_of_type in Hsl as Ht.
  destruct (own_id_ok s w Hp (GetSlotByType type) me) as [v Hv]; [done|by apply (slot_range (mkTeam 0 type [] 0 no_emblem [] (new_stats 0)))|].
  rewrite Hv. cbn [bind_result]. destruct (Z.eqb_spec v 0) as [->|]; cbn [negb]; [|apply goes_frame, frame_command_result].
  case_match; [apply goes_frame, frame_command_result|]. case_match; [apply goes_frame, frame_emit|].
  set (signed := take _ _). set (w1 := emit _ w). assert (frame w w1) as Hw1 by apply frame_emit.
  destruct (Create_cases E s type name e w1) as [->|(ms & w2 & Hcr & Hcap & Hm)]; [done|done|by exists me| |]; cbn [bind_result].
  { cbn [negb]. by apply goes_frame. }
  rewrite Hcr. cbn [bind_result negb]. set (t := mkTeam _ _ _ _ _ _ _) in *.
  assert (moves (<[TeamId t := t]> (ArenaTeamStore w)) (u32 (NextArenaTeamId w + 1))
    (CHAR_INS_ARENA_TEAM (NextArenaTeamId w) name (GUID_LOPART s) type (Rating (Stats (new_team E))) e ::
       ins_members (NextArenaTeamId w) (Guid <$> ms)) w (AddArenaTeam t w2)) as Hm2.
  { unfold AddArenaTeam. rewrite (mv_store _ _ _ _ _ Hm). eapply moves_store. destruct Hm. by constructor. }
  destruct (add_signers_spec E s (NextArenaTeamId w) signed t (AddArenaTeam t w2)) as (ms' & w3 & Had & Hsub & Hsz & Hdb & Hnot & Hch);
    [done|by apply (mv_players _ _ _ _ _ Hm2)| |lia|].
  { destruct Hcap as [[-> _]|(m & -> & _)]; unfold GetMembersSize; cbn; destruct Ht as [-> | [-> | ->]]; lia. }
  rewrite Had. cbn [bind_result]. set (t' := set_Members (Members t ++ ms') t).
  assert (guids t' = (Guid <$> ms) ++ (Guid <$> ms')) as Hg by (unfold guids, t'; cbn; by rewrite fmap_app).
  assert (forall g, GetArenaTeamIdFromDB g type (AddArenaTeam t w2) = GetArenaTeamIdFromDB g type w) as Hdb'.
  { intros g. unfold GetArenaTeamIdFromDB. by rewrite (mv_db _ _ _ _ _ Hm2). }
  assert (forall g, g ∈ Guid <$> ms' -> in_u 32 g /\ GetArenaTeamIdFromDB g type w = 0) as Hms'.
  { intros g Hin. split; [|rewrite <- Hdb'; by apply Hdb]. eapply sel_signatures_range; [exact Hsd|].
    eapply elem_of_sublist; [|apply sublist_take]. by eapply elem_of_sublist. }
  eexists _, _, _. split.
  - eapply (tr_found s true w t' (Rating (Stats (new_team E))) (GUID_LOPART guid)); try done.
    + revert Hsz. unfold GetMembersSize. cbn. rewrite length_app. lia.
    + rewrite Hg. apply NoDup_app. split_and!.
      * destruct Hcap as [[-> _]|(m & -> & _)]; [constructor|apply NoDup_singleton].
      * destruct Hcap as [[-> _]|(m & -> & Hm' & _ & Hf)]; [set_solver|]. cbn. intros g ->%list_elem_of_singleton. rewrite Hm'. by apply Hnot.
      * eapply sublist_NoDup; [|exact Hsub]. eapply sublist_NoDup; [apply sel_signatures_NoDup|apply sublist_take].
    + rewrite Hg. destruct Hcap as [[_ Hd]|(m & -> & Hm' & _)]; [by right|left]. cbn. set_solver.
    + intros g. rewrite Hg, elem_of_app. intros [Hin|Hin]; [|by apply Hms'].
      destruct Hcap as [[-> _]|(m & -> & Hm' & Hd & _)]; [set_solver|]. apply list_elem_of_singleton in Hin as ->. rewrite Hm'.
      split; [by apply (Hp s me)|done].
  - eapply moves_frame; [|apply frame_emit]. eapply moves_frame; [|by apply frame_commit].
    unfold put. cbn [fst snd]. rewrite (fr_store _ _ _ Hch). cbn [AddArenaTeam set_store ArenaTeamStore].
    rewrite (mv_store _ _ _ _ _ Hm). change (TeamId t') with (TeamId t). cbn [AddArenaTeam]. rewrite insert_insert_eq.
    rewrite Hg. fold (ins_members (TeamId t) ((Guid <$> ms) ++ (Guid <$> ms'))). unfold ins_members at 1. rewrite fmap_app.
    eapply moves_store. eapply (moves_change _ _ (_ :: _)); [exact Hm2|exact Hch].
Qed.
