(* ===== verification/ArenaPlay.v ===== *)
(** * ArenaPlay: matches and weeks keep the teams

    The end of a match, a player who leaves it and the weekly distribution change ratings
    and counters; the teams, their members and captains stay, in the registry and in the
    tables, and nothing goes wrong. *)
From S2P Require Import Prelude Utf8 Util Guild ArenaTables ArenaTeam ArenaHandlers Battleground ArenaMatch ArenaRules.
Import ArenaTables ArenaTeam ArenaHandlers ArenaMatch.
#[global] Open Scope Z_scope.

Record same_team (t t' : ArenaTeam) : Prop := {
  sm_id : TeamId t' = TeamId t;
  sm_type : Type_ t' = Type_ t;
  sm_name : TeamName t' = TeamName t;
  sm_captain : CaptainGuid t' = CaptainGuid t;
  sm_emblem : emblem t' = emblem t;
  sm_guids : guids t' = guids t
}.
#[global] Instance same_team_preorder : PreOrder same_team.
Proof. split; [by constructor|]. intros a b c [] []. constructor; by etrans. Qed.

(** Two tables with the same teams and members. *)
Definition same_row (r r' : TeamRow) : Prop := tr_name r' = tr_name r /\ tr_captain r' = tr_captain r /\ tr_type r' = tr_type r /\ tr_emblem r' = tr_emblem r.
Record same_rows (T T' : Tables) : Prop := {
  sr_teams : forall id, option_Forall2 same_row (arena_team T !! id) (arena_team T' !! id);
  sr_members : dom (arena_team_member T') = dom (arena_team_member T)
}.
#[global] Instance same_rows_preorder : PreOrder same_rows.
Proof.
  split.
  - intros T. split; [|done]. intros id. destruct (_ !! id); constructor. done.
  - intros a b c [H1 H2] [H1' H2']. split; [|by etrans]. intros id. specialize (H1 id). specialize (H1' id).
    destruct H1; inversion H1'; subst; constructor. unfold same_row in *. intuition congruence.
Qed.

(** [w'] is [w] but for ratings, counters and what players are told. *)
Record counts (w w' : World) : Prop := {
  co_store : forall id, option_Forall2 same_team (ArenaTeamStore w !! id) (ArenaTeamStore w' !! id);
  co_next : NextArenaTeamId w' = NextArenaTeamId w;
  co_db : db w' = db w;
  co_dom : dom (players w') = dom (players w);
  co_players : players_ok w -> players_ok w';
  co_signs : signs_inv w -> signs_inv w';
  co_rows : same_rows (latest w) (latest w')
}.
#[global] Instance counts_preorder : PreOrder counts.
Proof.
  split.
  - intros w. by constructor.
  - intros a b c [H1 ? ? ? ? ? ?] [H1' ? ? ? ? ? ?]. constructor; try (by etrans); auto.
    intros id. specialize (H1 id). specialize (H1' id). destruct H1; inversion H1'; subst; constructor. by etrans.
Qed.
Lemma arena_rows_same T T' : arena_rows T' = arena_rows T -> same_rows T T'.
Proof.
  unfold arena_rows. intros [= H1 H2]. split; [|by rewrite H2]. intros id. rewrite H1. destruct (_ !! id); by constructor.
Qed.
Lemma frame_counts w w' : frame w w' -> counts w w'.
Proof.
  intros [Hst ? ? ? ? ? Hr]. constructor; try done; [|by apply arena_rows_same].
  intros id. rewrite Hst. destruct (_ !! id); by constructor.
Qed.
Lemma counts_types w w' : counts w w' -> types_ok w -> types_ok w'.
Proof.
  intros Hc Ht id t' Hi. pose proof (co_store _ _ Hc id) as Hf. rewrite Hi in Hf. inversion Hf as [t ? Hs Hl|]; subst.
  destruct (Ht id t) as [Hid Hty]; [done|]. by rewrite (sm_id _ _ Hs), (sm_type _ _ Hs).
Qed.
Lemma counts_find g w w' : counts w w' -> is_Some (FindPlayer g w) <-> is_Some (FindPlayer g w').
Proof. intros Hc. unfold FindPlayer. by rewrite <- !elem_of_dom, (co_dom _ _ Hc). Qed.

(** A team is put back with other numbers. *)
Lemma put_counts id t t' w w1 :
  ArenaTeamStore w !! id = Some t -> TeamId t = id -> same_team t t' -> frame w w1 -> counts w (put (t', w1)).
Proof.
  intros Ht Hid Hs [H1 ? ? ? ? ? H7]. constructor; try done; [|by apply arena_rows_same].
  intros id'. unfold put. cbn. rewrite H1, (sm_id _ _ Hs), Hid. destruct (decide (id' = id)) as [->|Hne].
  - rewrite lookup_insert_eq, Ht. by constructor.
  - rewrite lookup_insert_ne by done. destruct (_ !! id'); by constructor.
Qed.

(** ** Statements that write numbers *)
Definition number_statement (s : statement) : bool :=
  match s with
  | CHAR_UPD_ARENA_TEAM_STATS _ _ _ _ _ _ _ | CHAR_UPD_ARENA_TEAM_MEMBER _ _ _ _ _ _ _ | CHAR_REP_CHARACTER_ARENA_STATS _ _ _
  | CHAR_UPD_CHAR_ARENA_POINTS _ _ | CHAR_UDP_CHAR_ARENA_POINTS _ _ => true
  | _ => false
  end.
Lemma exec_numbers l T : forallb number_statement l = true -> same_rows T (exec_all l T).
Proof.
  revert T. induction l as [|s l IH]; intros T; [done|]. cbn. intros [Hs Hl]%andb_true_iff. rewrite exec_all_cons.
  etrans; [|by apply IH]. destruct s; try done; split; cbn; try done; try (by rewrite dom_alter_L);
    intros i; try (by destruct (arena_team T !! i); constructor).
  destruct (decide (i = id)) as [->|Hne]; [rewrite lookup_alter_eq|rewrite lookup_alter_ne by done]; by destruct (arena_team T !! _); constructor.
Qed.
Lemma numbers_signs l : forallb number_statement l = true -> forallb sign_in_range l = true.
Proof. induction l as [|s l IH]; [done|]. cbn. intros [Hs Hl]%andb_true_iff. rewrite IH by done. by destruct s. Qed.
Lemma counts_commit l w : forallb number_statement l = true -> counts w (CommitTransaction l w).
Proof.
  intros Hl. constructor; try done.
  - by apply signs_commit, numbers_signs.
  - rewrite latest_commit. by apply exec_numbers.
Qed.
Lemma SaveToDB_counts t w : counts w (SaveToDB t w).
Proof. apply counts_commit. cbn. induction (Members t) as [|m l IH]; [done|]. by cbn. Qed.

(** ** Members *)
Lemma guids_update g f l : (forall m, Guid (f m) = Guid m) -> Guid <$> update_member g f l = Guid <$> l.
Proof. intros Hf. induction l as [|m l IH]; [done|]. cbn. destruct (Guid m =? g); cbn; [by rewrite Hf|by rewrite IH]. Qed.
Lemma guids_update_to g m' l : Guid m' = g -> Guid <$> update_member g (fun _ => m') l = Guid <$> l.
Proof.
  intros Hg. induction l as [|m l IH]; [done|]. cbn. destruct (Z.eqb_spec (Guid m) g) as [->|]; cbn; [by rewrite Hg|by rewrite IH].
Qed.
Lemma played_guid E won a c m : Guid (played E won a c m) = Guid m.
Proof. unfold played. by destruct won. Qed.
Lemma GetMember_guid g t m : GetMember g t = Some m -> Guid m = g.
Proof. unfold GetMember. induction (Members t) as [|m' l IH]; cbn; [done|]. destruct (Z.eqb_spec (Guid m') g); [by intros [= <-]|done]. Qed.

Lemma member_played_spec E won g a c t w :
  type_ok (Type_ t) -> players_ok w -> is_Some (FindPlayer g w) ->
  exists t' w', member_played E won g a c (t, w) = Ok (t', w') /\ same_team t t' /\ frame w w'.
Proof.
  intros Ht Hp Hg. unfold member_played. destruct (GetMember g t) as [m|] eqn:Hm; [|by exists t, w].
  set (m' := played _ _ _ _ _). unfold inform_rating, inform_games.
  destruct (SetArenaTeamInfoField_frame g (GetSlotByType (Type_ t)) ARENA_TEAM_PERSONAL_RATING (PersonalRating m') w) as (w1 & -> & H1);
    [done|done|by apply (slot_range t)|unfold ARENA_TEAM_PERSONAL_RATING; lia|]. cbn [bind_result].
  set (w2 := emit _ w1). assert (frame w w2) as H2 by (etrans; [exact H1|apply frame_emit]).
  destruct (SetArenaTeamInfoField_frame g (GetSlot t) ARENA_TEAM_GAMES_WEEK (WeekGames m') w2) as (w3 & -> & H3);
    [by apply (fr_players _ _ _ H2)|by apply (change_find _ _ _ _ H2)|by apply slot_range|unfold ARENA_TEAM_GAMES_WEEK; lia|]. cbn [bind_result].
  assert (frame w w3) as H3' by (by etrans).
  destruct (SetArenaTeamInfoField_frame g (GetSlot t) ARENA_TEAM_GAMES_SEASON (SeasonGames m') w3) as (w4 & -> & H4);
    [by apply (fr_players _ _ _ H3')|by apply (change_find _ _ _ _ H3')|by apply slot_range|unfold ARENA_TEAM_GAMES_SEASON; lia|]. cbn [bind_result].
  eexists _, w4. split; [done|]. split; [|by etrans]. constructor; try done. unfold guids. cbn. apply guids_update_to.
  unfold m'. rewrite played_guid. by eapply GetMember_guid.
Qed.
Lemma offline_same E g a c t : same_team t (OfflineMemberLost E g a c t).
Proof. constructor; try done. unfold guids. cbn. apply guids_update. intros m. apply played_guid. Qed.

(** ** Matches *)
Section match_.
Context (E : Env).

Lemma on_team_counts id f w :
  types_ok w -> players_ok w ->
  (forall t, ArenaTeamStore w !! id = Some t -> type_ok (Type_ t) -> exists t' w', f (t, w) = Ok (t', w') /\ same_team t t' /\ frame w w') ->
  exists w', on_team id f w = Ok w' /\ counts w w'.
Proof.
  intros Ht Hp Hf. unfold on_team, GetArenaTeamById. destruct (ArenaTeamStore w !! id) as [t|] eqn:Hi; [|by exists w].
  destruct (Ht id t Hi) as [Hid Hty]. destruct (Hf t eq_refl Hty) as (t' & w' & -> & Hs & Hfr). cbn [bind_result].
  eexists. split; [done|]. by eapply put_counts.
Qed.
Lemma FinishGame_same d t w : exists t' w', FinishGame d (t, w) = (t', w') /\ same_team t t' /\ frame w w'.
Proof. unfold FinishGame. eexists _, _. split; [done|]. split; [done|]. case_match; [done|apply frame_emit]. Qed.

Lemma end_player_counts winner a b map r p w : types_ok w -> players_ok w -> exists w', end_player E winner a b map r p w = Ok w' /\ counts w w'.
Proof.
  intros Ht Hp. destruct p as [[g team] offline]. unfold end_player. destruct offline.
  { case_match; apply on_team_counts; try done; intros t Hi Hty; cbn [fst snd]; eexists _, _; (split; [done|]; split; [apply offline_same|done]). }
  destruct (FindPlayer g w) as [p|] eqn:Hg; [|by exists w]. case_match.
  - apply on_team_counts; [done|done|]. intros t Hi Hty. cbn [fst snd].
    destruct (info_ok w Hp g (GetSlot t) p ARENA_TEAM_PERSONAL_RATING) as [v Hv]; [done|by apply slot_range|unfold ARENA_TEAM_PERSONAL_RATING; lia|].
    unfold GetArenaPersonalRating. rewrite Hv. cbn [bind_result]. set (w1 := emit _ w). assert (frame w w1) as H1 by apply frame_emit.
    destruct (member_played_spec E true g (loserMMR r) (winnerMMChange r) t w1) as (t' & w' & Hm & Hs & Hf); [done|by apply (fr_players _ _ _ H1)| |].
    { apply (change_find _ _ _ _ H1). by eexists. }
    exists t', w'. split; [done|]. split; [done|by etrans].
  - destruct (on_team_counts b (MemberLost E g (winnerMMR r) (loserMMChange r)) w) as (w1 & -> & Hc); [done|done| |].
    { intros t Hi Hty. apply member_played_spec; [done|done|by eexists]. }
    cbn [bind_result]. eexists. split; [done|]. etrans; [exact Hc|]. apply frame_counts, frame_emit.
Qed.
Lemma end_players_counts winner a b map r ps w : types_ok w -> players_ok w -> exists w', end_players E winner a b map r ps w = Ok w' /\ counts w w'.
Proof.
  revert w. induction ps as [|p ps IH]; intros w Ht Hp; cbn [end_players]; [by exists w|].
  destruct (end_player_counts winner a b map r p w Ht Hp) as (w1 & -> & H1). cbn [bind_result].
  destruct (IH w1) as (w2 & -> & H2); [by eapply counts_types|by apply (co_players _ _ H1)|]. exists w2. split; [done|by etrans].
Qed.

Lemma stored_later id w w' t : counts w w' -> types_ok w -> ArenaTeamStore w !! id = Some t -> exists t', ArenaTeamStore w' !! id = Some t' /\ same_team t t'.
Proof. intros Hc Ht Hi. pose proof (co_store _ _ Hc id) as Hf. rewrite Hi in Hf. inversion Hf; subst; eauto. Qed.
Lemma put_step id t0 t t' w0 w w1 :
  counts w0 w -> types_ok w0 -> ArenaTeamStore w0 !! id = Some t0 -> same_team t0 t -> same_team t t' -> frame w w1 -> counts w0 (put (t', w1)).
Proof.
  intros Hc Ht Hi Hs Hs' Hf. destruct (stored_later id w0 w t0 Hc Ht Hi) as (u & Hu & Hsu). etrans; [exact Hc|].
  destruct (Ht id t0 Hi) as [Hid _]. eapply (put_counts id u); [done|by rewrite (sm_id _ _ Hsu)| |done].
  destruct Hs, Hs', Hsu. constructor; congruence.
Qed.

Lemma WonAgainst_same o p t w : exists a b t' w', WonAgainst E o p (t, w) = (a, b, (t', w')) /\ same_team t t' /\ frame w w'.
Proof.
  unfold WonAgainst. cbn [fst]. destruct (FinishGame_same (GetRatingMod E (GetRating t) p true) t w) as (t1 & w1 & -> & Hs & Hf).
  eexists _, _, _, _. split; [done|]. split; [|done]. destruct Hs. by constructor.
Qed.
Lemma LostAgainst_same o p t w : exists a b t' w', LostAgainst E o p (t, w) = (a, b, (t', w')) /\ same_team t t' /\ frame w w'.
Proof.
  unfold LostAgainst. cbn [fst]. destruct (FinishGame_same (GetRatingMod E (GetRating t) p false) t w) as (t1 & w1 & -> & Hs & Hf). eauto 10.
Qed.
Lemma end_ratings_counts winner a b m w : types_ok w -> exists r m' w', end_ratings E winner a b m w = Ok (r, m', w') /\ counts w w' /\ m_Players m' = m_Players m.
Proof.
  intros Ht. unfold end_ratings, GetArenaTeamById. destruct (ArenaTeamStore w !! a) as [wt|] eqn:Ha; [|by eexists _, _, w].
  destruct (ArenaTeamStore w !! b) as [lt|] eqn:Hb; [|by eexists _, _, w]. case_match.
  - destruct (FinishGame_same ARENA_TIMELIMIT_POINTS_LOSS wt w) as (t1 & w1 & -> & Hs1 & Hf1).
    assert (counts w (put (t1, w1))) as Hc1 by (by apply (put_step a wt wt t1 w w w1)).
    destruct (FinishGame_same ARENA_TIMELIMIT_POINTS_LOSS lt (put (t1, w1))) as (t2 & w2 & -> & Hs2 & Hf2).
    eexists _, _, _. split; [done|]. split; [|done]. by apply (put_step b lt lt t2 w (put (t1, w1)) w2).
  - destruct (WonAgainst_same (GetArenaMatchmakerRating winner m) (GetArenaMatchmakerRating (GetOtherTeam winner) m) wt w) as (x & y & t1 & w1 & -> & Hs1 & Hf1).
    assert (counts w (put (t1, w1))) as Hc1 by (by apply (put_step a wt wt t1 w w w1)).
    destruct (LostAgainst_same (GetArenaMatchmakerRating (GetOtherTeam winner) m) (GetArenaMatchmakerRating winner m) lt (put (t1, w1)))
      as (x' & y' & t2 & w2 & -> & Hs2 & Hf2).
    eexists _, _, _. split; [done|]. split; [|done]. by apply (put_step b lt lt t2 w (put (t1, w1)) w2).
Qed.
Lemma EndBattleground_counts winner map m w : types_ok w -> players_ok w -> exists m' w', EndBattleground_rated E winner map m w = Ok (m', w') /\ counts w w'.
Proof.
  intros Ht Hp. unfold EndBattleground_rated. destruct (two_teams winner m w) as [[a b]|]; [|by eexists _, w].
  destruct (end_ratings_counts winner a b m w Ht) as (r & m' & w1 & -> & Hc & Hm). cbn [bind_result].
  destruct (end_players_counts winner a b map r (m_Players m') w1) as (w2 & -> & Hc2); [by eapply counts_types|by apply (co_players _ _ Hc)|].
  cbn [bind_result]. eexists _, _. split; [done|].
  assert (forall id w, counts w (save_team id w)) as Hsave by (intros id w'; unfold save_team; case_match; [apply SaveToDB_counts|done]).
  assert (forall id w, counts w (notify_team id w)) as Hnot by (intros id w'; unfold notify_team; case_match; [apply frame_counts, frame_notify|done]).
  etrans; [exact Hc|]. etrans; [exact Hc2|]. etrans; [apply Hsave|]. etrans; [apply Hsave|]. etrans; apply Hnot.
Qed.
Lemma RemovePlayerAtLeave_counts g team m w : types_ok w -> players_ok w -> exists w', RemovePlayerAtLeave_rated E g team m w = Ok w' /\ counts w w'.
Proof.
  intros Ht Hp. unfold RemovePlayerAtLeave_rated. repeat (case_match; try (by exists w)).
  - apply on_team_counts; [done|done|]. intros t' Hi Hty. apply member_played_spec; [done|done|by eexists].
  - apply on_team_counts; [done|done|]. intros t' Hi Hty. eexists _, _. split; [done|]. split; [apply offline_same|done].
Qed.

(** ** The week *)
Lemma FinishWeek_same t : same_team t (FinishWeek t).
Proof. constructor; try done. unfold guids. cbn. rewrite <- list_fmap_compose. done. Qed.
Lemma end_weeks_counts l w :
  types_ok w -> (forall id t, (id, t) ∈ l -> exists u, ArenaTeamStore w !! id = Some u /\ same_team u t) -> NoDup l.*1 ->
  counts w (foldl end_week w l).
Proof.
  revert w. induction l as [|[id t] l IH]; intros w Ht Hl Hn; [done|]. cbn [foldl]. apply NoDup_cons in Hn as [Hid Hn].
  destruct (Hl id t) as (u & Hu & Hsu); [set_solver|].
  assert (counts w (end_week w (id, t))) as Hc.
  { unfold end_week. cbn [fst snd]. etrans; [|apply frame_counts, frame_notify]. etrans; [|apply SaveToDB_counts].
    pose proof (put_counts id u (FinishWeek t) w w Hu) as H. unfold put in H. cbn [fst snd] in H.
    assert (same_team u (FinishWeek t)) as Hs by (etrans; [exact Hsu|apply FinishWeek_same]).
    destruct (Ht id u Hu) as [Hi _]. rewrite (sm_id _ _ Hs), Hi in H. by apply H. }
  etrans; [exact Hc|]. apply IH; [by eapply counts_types| |done].
  intros id' t' Hin. destruct (Hl id' t') as (u' & Hu' & Hs'); [set_solver|]. exists u'. split; [|done].
  unfold end_week, NotifyStatsChanged. cbn [fst snd].
  assert (forall ms w, ArenaTeamStore (foldl (fun w m => match FindPlayer (Guid m) w with Some _ => SendStats (Guid m) (FinishWeek t) w | None => w end) w ms) = ArenaTeamStore w) as Hn'.
  { induction ms as [|m ms IHm]; intros w'; cbn [foldl]; [done|]. rewrite IHm. by case_match. }
  rewrite Hn'. cbn. rewrite lookup_insert_ne; [done|]. intros ->. apply Hid. apply list_elem_of_fmap. by exists (id', t').
Qed.

Lemma give_points_frame l s w : forallb number_statement s = true ->
  frame w (foldl (give_points E) (s, w) l).2 /\ forallb number_statement (foldl (give_points E) (s, w) l).1 = true.
Proof.
  revert s w. induction l as [|[g v] l IH]; intros s w Hs; cbn [foldl]; [done|].
  unfold give_points at 2 4. cbn [fst snd]. destruct (FindPlayer g w) as [p|] eqn:Hg.
  - unfold ModifyArenaPoints. rewrite Hg. set (w1 := SetArenaPoints _ _ _ w).
    assert (frame w w1) as H1.
    { unfold w1, SetArenaPoints. set (v' := Z.min _ _). destruct (v' =? 0); [by apply frame_on_player|].
      etrans; [|apply frame_emit]. by apply frame_on_player. }
    set (s1 := s ++ _). destruct (IH s1 w1) as [Hf Hb]; [unfold s1; rewrite forallb_app, Hs; done|]. split; [by etrans|done].
  - apply IH. by rewrite forallb_app, Hs.
Qed.
Lemma Distribute_counts w : types_ok w -> counts w (DistributeArenaPoints E w).
Proof.
  intros Ht. unfold DistributeArenaPoints. set (w0 := emit _ w). assert (frame w w0) as H0 by apply frame_emit.
  destruct (foldl (give_points E) ([], w0) (by_player (player_points E w0))) as [trans w1] eqn:Hg.
  destruct (give_points_frame (by_player (player_points E w0)) [] w0) as [Hf Hb]; [done|]. rewrite Hg in Hf, Hb. cbn [fst snd] in *.
  set (w2 := emit _ (CommitTransaction trans w1)).
  assert (counts w w2) as H2.
  { etrans; [apply frame_counts; by etrans|]. etrans; [by apply counts_commit|]. apply frame_counts, frame_emit. }
  etrans; [exact H2|]. etrans; [|apply frame_counts, frame_emit]. apply end_weeks_counts; [by eapply counts_types| |apply NoDup_fst_map_to_list].
  intros id t Hin%elem_of_map_to_list. by exists t.
Qed.
End match_.
