(* ===== verification/ArenaReach.v ===== *)
(** * ArenaReach: teams through every sequence of packets

    The packets of players about arena teams and the other events that reach them: the
    worker of the database, characters that enter and leave the world or are deleted,
    matches and weeks. Every packet goes as a transition of the registry that its sender
    is allowed, and the teams stay in order through every sequence. *)
From S2P Require Import Prelude Utf8 Util Guild ArenaTables ArenaTeam ArenaHandlers Battleground ArenaMatch ArenaRules ArenaFound ArenaPlay.
Import ArenaTables ArenaTeam ArenaHandlers ArenaMatch.
#[global] Open Scope Z_scope.

(** ** Packets *)
Inductive packet :=
| MSG_INSPECT (guid : Z) | CMSG_ARENA_TEAM_QUERY (id : Z) | CMSG_ARENA_TEAM_ROSTER (id : Z) | CMSG_CALENDAR_ARENA_TEAM (id : Z)
| CMSG_ARENA_TEAM_INVITE (id : Z) (name : list Z) | CMSG_ARENA_TEAM_ACCEPT | CMSG_ARENA_TEAM_DECLINE
| CMSG_ARENA_TEAM_LEAVE (id : Z) | CMSG_ARENA_TEAM_DISBAND (id : Z)
| CMSG_ARENA_TEAM_REMOVE (id : Z) (name : list Z) | CMSG_ARENA_TEAM_LEADER (id : Z) (name : list Z)
| CMSG_PETITION_SHOW_SIGNATURES (petition : Z) | CMSG_OFFER_PETITION (petition player : Z)
| CMSG_PETITION_SIGN (petition : Z) | MSG_PETITION_DECLINED (petition : Z)
| MSG_PETITION_RENAMED (petition : Z) (has_item : bool) (name : list Z)
| CMSG_PETITION_BUY (charter : Z) (name : list Z) (type : Z)
| CMSG_TURN_IN_PETITION (petition : Z) (has_item : bool) (e : Emblem).

Definition handle (E : Env) (s : Z) (p : packet) (w : World) : result fault World :=
  match p with
  | MSG_INSPECT guid => HandleInspectArenaTeamsOpcode s guid w
  | CMSG_ARENA_TEAM_QUERY id => HandleArenaTeamQueryOpcode s id w
  | CMSG_ARENA_TEAM_ROSTER id => HandleArenaTeamRosterOpcode s id w
  | CMSG_CALENDAR_ARENA_TEAM id => HandleCalendarArenaTeam s id w
  | CMSG_ARENA_TEAM_INVITE id name => HandleArenaTeamInviteOpcode E s id name w
  | CMSG_ARENA_TEAM_ACCEPT => HandleArenaTeamAcceptOpcode E s w
  | CMSG_ARENA_TEAM_DECLINE => HandleArenaTeamDeclineOpcode s w
  | CMSG_ARENA_TEAM_LEAVE id => HandleArenaTeamLeaveOpcode s id w
  | CMSG_ARENA_TEAM_DISBAND id => HandleArenaTeamDisbandOpcode s id w
  | CMSG_ARENA_TEAM_REMOVE id name => HandleArenaTeamRemoveOpcode s id name w
  | CMSG_ARENA_TEAM_LEADER id name => HandleArenaTeamLeaderOpcode s id name w
  | CMSG_PETITION_SHOW_SIGNATURES petition => HandlePetitionShowSignOpcode s petition w
  | CMSG_OFFER_PETITION petition player => HandleOfferPetitionOpcode E s petition player w
  | CMSG_PETITION_SIGN petition => HandlePetitionSignOpcode E s petition w
  | MSG_PETITION_DECLINED petition => HandlePetitionDeclineOpcode s petition w
  | MSG_PETITION_RENAMED petition has_item name => Ok (rename_arena_charter E s petition has_item name w)
  | CMSG_PETITION_BUY charter name type => Ok (register_petition s charter name type w)
  | CMSG_TURN_IN_PETITION petition has_item e => turn_in_arena_petition E s petition has_item e w
  end.

(** ** Events *)
Inductive event :=
| Packet (s : Z) (p : packet)
| Worker
| Enter (guid : Z) (p : Player)
| Leave (guid : Z)
| Place (guid : Z) (inArena onArenaMap : bool)
| CharDelete (session guid : Z)
| MatchEnd (winner map : Z) (m : Match)
| MatchLeave (guid team : Z) (m : Match)
| Week.

Definition happens (E : Env) (ev : event) (w : World) : result fault World :=
  match ev with
  | Packet s p => handle E s p w
  | Worker => Ok (worker w)
  | Enter guid p => enter_world E guid p w
  | Leave guid => Ok (leave_world guid w)
  | Place guid a b => Ok (on_player guid (set_place a b) w)
  | CharDelete session guid => HandleCharDelete_arena E session guid w
  | MatchEnd winner map m => let? (_, w) := EndBattleground_rated E winner map m w in Ok w
  | MatchLeave guid team m => RemovePlayerAtLeave_rated E guid team m w
  | Week => Ok (DistributeArenaPoints E w)
  end.

(** A packet comes from a player in the world; who turns in a petition has no team of its
    type in the table, and the ids have not run out; guids have 32 bits. *)
Definition allowed (ev : event) (w : World) : Prop :=
  match ev with
  | Packet s p =>
      is_Some (FindPlayer s w) /\
      match p with
      | CMSG_TURN_IN_PETITION _ _ _ =>
          NextArenaTeamId w < 0xFFFFFFFE /\
          forall petition name type, sel_petition petition (db w) = Some (GUID_LOPART s, name, type) -> type_ok type ->
            GetArenaTeamIdFromDB s type w = 0
      | _ => True
      end
  | Enter guid _ => in_u 32 guid
  | _ => True
  end.

Record arena_ok (w : World) : Prop := {
  ao_store : store_ok w;
  ao_players : players_ok w;
  ao_signs : signs_inv w;
  ao_next : 0 < NextArenaTeamId w;
  ao_ids : forall id, is_Some (ArenaTeamStore w !! id) -> 0 < id < NextArenaTeamId w
}.
Inductive reach (E : Env) : World -> World -> Prop :=
| reach_refl w : reach E w w
| reach_step w w1 w2 ev : reach E w w1 -> allowed ev w1 -> happens E ev w1 = Ok w2 -> reach E w w2.

(** ** Packets *)
Definition founds (p : packet) : bool := match p with CMSG_TURN_IN_PETITION _ _ _ => true | _ => false end.

Lemma packet_goes E s p w :
  types_ok w -> players_ok w -> is_Some (FindPlayer s w) -> signs_inv w -> 0 < NextArenaTeamId w -> goes s (founds p) w (handle E s p w).
Proof.
  intros Ht Hp Hs Hg Hn. destruct p; cbn [handle founds]; eauto using inspect_goes, query_goes, roster_goes, calendar_goes, invite_goes,
    accept_goes, decline_goes, leave_goes, disband_packet_goes, remove_goes, leader_goes, show_sign_goes, offer_goes, sign_goes, sign_decline_goes, rename_goes,
    register_goes, turn_in_goes.
Qed.

Lemma erase_length g l : (length (erase_member g l) <= length l)%nat.
Proof. induction l as [|m l IH]; cbn; [lia|]. case_match; cbn; lia. Qed.
Lemma erase_keeps g c l : c <> g -> c ∈ Guid <$> erase_member g l <-> c ∈ Guid <$> l.
Proof. intros Hne. induction l as [|m l IH]; cbn; [done|]. destruct (Z.eqb_spec (Guid m) g) as [He|]; cbn; set_solver. Qed.

(** A transition keeps the teams in order, when the founder of a team had none. *)
Lemma transition_store s f w S n l :
  store_ok w -> transition s f w S n l ->
  (f = true -> forall petition name type, sel_petition petition (db w) = Some (GUID_LOPART s, name, type) -> type_ok type -> GetArenaTeamIdFromDB s type w = 0) ->
  forall id t, S !! id = Some t -> team_ok id t.
Proof.
  intros Hs Htr Hf id t'. destruct Htr as [|i t m Ht Hm Hl _|i t g Ht _ Hg|i t g Ht _ Hg|i t Ht _|t r pe Hb Hid Hpe Hty Hc Hsz _ Hin _].
  - apply Hs.
  - rewrite lookup_insert_Some. intros [[<- <-]|[_ H]]; [|by apply Hs]. destruct (Hs i t Ht) as [Hid Hty Hc Hsz].
    split; cbn; try done; unfold guids, GetMembersSize in *; cbn; [rewrite fmap_app; set_solver|rewrite length_app; cbn; lia].
  - rewrite lookup_insert_Some. intros [[<- <-]|[_ H]]; [|by apply Hs]. destruct (Hs i t Ht) as [Hid Hty Hc Hsz].
    split; cbn; try done; unfold guids, GetMembersSize in *; cbn; [by apply erase_keeps|pose proof (erase_length g (Members t)); lia].
  - rewrite lookup_insert_Some. intros [[<- <-]|[_ H]]; [|by apply Hs]. by destruct (Hs i t Ht).
  - rewrite lookup_delete_Some. intros [_ H]. by apply Hs.
  - rewrite lookup_insert_Some. intros [[<- <-]|[_ H]]; [|by apply Hs]. split; try done. rewrite Hc.
    destruct Hin as [|Hne]; [done|]. destruct Hne. by eapply Hf.
Qed.
Lemma transition_ids s f w S n l :
  (forall id, is_Some (ArenaTeamStore w !! id) -> 0 < id < NextArenaTeamId w) -> transition s f w S n l ->
  0 < NextArenaTeamId w -> (f = true -> NextArenaTeamId w < 0xFFFFFFFE) -> 0 < n /\ forall id, is_Some (S !! id) -> 0 < id < n.
Proof.
  intros Hi Htr Hn Hf. destruct Htr as [|i t m Ht|i t g Ht|i t g Ht|i t Ht|t r pe Hb Hid]; try (split; [done|]); intros;
    try (by apply Hi); try (apply Hi; match goal with H : is_Some _ |- _ => apply lookup_insert_is_Some in H as [<-|[_ ?]]; [by eexists|done] end).
  - apply Hi. match goal with H : is_Some _ |- _ => by apply lookup_delete_is_Some in H as [_ ?] end.
  - specialize (Hf Hb). rewrite wrap_id by width. split; [lia|]. intros id [<-|[_ Hx]]%lookup_insert_is_Some; [lia|]. specialize (Hi id Hx). lia.
Qed.

Lemma counts_store_ok w w' : counts w w' -> store_ok w -> store_ok w'.
Proof.
  intros Hc Hs id t' Hi. pose proof (co_store _ _ Hc id) as Hf. rewrite Hi in Hf. inversion Hf as [t ? Hst Hl|]; subst.
  destruct (Hs id t) as [? ? ? Hz]; [done|]. destruct Hst as [H1 H2 H3 H4 H5 H6].
  assert (GetMembersSize t' = GetMembersSize t) as Hsz.
  { unfold GetMembersSize. f_equal. apply (f_equal length) in H6. unfold guids in H6. by rewrite !length_fmap in H6. }
  split; congruence.
Qed.
Lemma counts_ok w w' : counts w w' -> arena_ok w -> arena_ok w'.
Proof.
  intros Hc [Hs Hp Hg Hn Hi]. split; [by eapply counts_store_ok|by apply (co_players _ _ Hc)|by apply (co_signs _ _ Hc)|by rewrite (co_next _ _ Hc)|].
  intros id [t' Ht']. rewrite (co_next _ _ Hc). apply Hi. pose proof (co_store _ _ Hc id) as Hf. rewrite Ht' in Hf. inversion Hf; by eexists.
Qed.

(** ** The other events *)
Lemma worker_signs w : signs_inv w -> signs_inv (worker w).
Proof.
  intros [Hd Hq]. unfold worker. destruct (queue w) as [|tr q] eqn:E; [by split; [|rewrite E]|]. cbn in Hq. rewrite forallb_app in Hq.
  apply andb_true_iff in Hq as [H1 H2]. split; [by apply exec_all_signs|done].
Qed.
Lemma load_info_ok g w rows info : types_ok w -> length info = 21%nat ->
  exists info', foldl (load_info_row g w) (Ok info) rows = Ok info' /\ length info' = 21%nat.
Proof.
  intros Ht. revert info. induction rows as [|row rows IH]; intros info Hl; cbn [foldl]; [by exists info|].
  unfold load_info_row at 2. cbn [bind_result]. unfold GetArenaTeamById. destruct (ArenaTeamStore w !! row.1) as [t|] eqn:Hi; [|by apply IH].
  destruct (Ht _ _ Hi) as [_ Hty]. apply slot_range in Hty.
  rewrite (proj2 (Nat.ltb_lt _ _)); [|rewrite Hl; unfold info_index, ARENA_TEAM_END, ARENA_TEAM_PERSONAL_RATING; lia].
  apply IH. by rewrite !length_insert.
Qed.
Lemma clear_length slot js info : length (foldl (fun info j => <[info_index slot j := 0]> info) info js) = length info.
Proof. revert info. induction js as [|j js IH]; intros info; [done|]. cbn [foldl]. by rewrite IH, length_insert. Qed.
Lemma check_slots_length g w slots info : length (foldl (check_slot g w) info slots) = length info.
Proof.
  revert info. induction slots as [|i slots IH]; intros info; [done|]. cbn [foldl]. rewrite IH. unfold check_slot.
  repeat case_match; try done; apply clear_length.
Qed.
Definition entered (E : Env) (g : Z) (p : Player) (info : list Z) (w : World) : World :=
  let points := Z.min (p_arenaPoints p) (CONFIG_MAX_ARENA_POINTS E) in
  emit (if points =? 0 then [] else [AddKnownCurrency g ITEM_ARENA_POINTS_ID])
    (set_players (<[g := set_arenaPoints points (set_invited 0 (set_info info p))]> (players w)) w).
Lemma enter_world_goes E g p w : types_ok w -> exists info, enter_world E g p w = Ok (entered E g p info w) /\ length info = 21%nat.
Proof.
  intros Ht. unfold enter_world, load_arena_info, _LoadArenaTeamInfo.
  destruct (load_info_ok g w (login_rows (GUID_LOPART g) (db w)) (repeat 0 21) Ht) as (info & -> & Hl); [done|]. cbn [bind_result].
  eexists. split; [|by rewrite check_slots_length]. unfold SetArenaPoints, entered, on_player. cbn. rewrite alter_insert_eq.
  case_match; [|done]. unfold emit, set_trace, set_players. cbn. by rewrite app_nil_r.
Qed.

(** A deleted character leaves its teams, of which it is not the captain. *)
Lemma leave_teams_ok g ids w :
  arena_ok w -> (forall id t, ArenaTeamStore w !! id = Some t -> CaptainGuid t <> g) -> exists w', leave_teams g ids w = Ok w' /\ arena_ok w'.
Proof.
  revert w. induction ids as [|id ids IH]; intros w Hw Hc; cbn [leave_teams]; [by exists w|].
  destruct (if id =? 0 then None else GetArenaTeamById id w) as [t|] eqn:Ht; [|by apply IH].
  assert (ArenaTeamStore w !! id = Some t) as Hi by (by destruct (id =? 0)). pose proof Hw as [Hs Hp Hg Hn Hids].
  destruct (Hs id t Hi) as [Hid Hty Hcap Hsz].
  destruct (DelMember_spec g true t w) as (w1 & -> & Hch); [done|done|]. cbn [bind_result].
  assert (moves (<[id := set_Members (erase_member g (Members t)) t]> (ArenaTeamStore w)) (NextArenaTeamId w)
     [CHAR_DEL_ARENA_TEAM_MEMBER (TeamId t) (GUID_LOPART g)] w (set_store (<[id := set_Members (erase_member g (Members t)) t]> (ArenaTeamStore w1)) w1)) as Hm.
  { rewrite (fr_store _ _ _ Hch). by apply change_store. }
  assert (transition g false w (<[id := set_Members (erase_member g (Members t)) t]> (ArenaTeamStore w)) (NextArenaTeamId w)
     [CHAR_DEL_ARENA_TEAM_MEMBER id (GUID_LOPART g)]) as Htr by (apply tr_part; [done|by left|intros ->; by eapply (Hc id t)]).
  apply IH.
  - split; cbn.
    + intros i u. rewrite (fr_store _ _ _ Hch). by apply (transition_store _ _ _ _ _ _ Hs Htr).
    + by apply (mv_players _ _ _ _ _ Hm).
    + by apply (mv_signs _ _ _ _ _ Hm).
    + by rewrite (fr_next _ _ _ Hch).
    + rewrite (fr_store _ _ _ Hch), (fr_next _ _ _ Hch). by apply (transition_ids _ _ _ _ _ _ Hids Htr).
  - cbn. intros i u. rewrite (fr_store _ _ _ Hch), lookup_insert_Some. intros [[<- <-]|[_ H]]; [by apply (Hc id t)|by apply (Hc i u)].
Qed.
Lemma captain_None g w id t : GetArenaTeamByCaptain g w = None -> ArenaTeamStore w !! id = Some t -> CaptainGuid t <> g.
Proof.
  unfold GetArenaTeamByCaptain. intros Hn%head_None Ht Hg. assert (t ∈ filter (fun t => CaptainGuid t = g) (map_to_list (ArenaTeamStore w)).*2) as Hin.
  { apply list_elem_of_filter. split; [done|]. apply list_elem_of_fmap. exists (id, t). split; [done|]. by apply elem_of_map_to_list. }
  rewrite Hn in Hin. set_solver.
Qed.

(** Every event that is allowed keeps the teams in order, and only a name that is too long
    for its buffer stops one. *)
Lemma event_keeps E ev w :
  arena_ok w -> allowed ev w -> ensures (fun e => e = TextOverflow) arena_ok (happens E ev w).
Proof.
  intros Hw Ha. pose proof Hw as [Hs Hp Hg Hn Hi]. pose proof (store_types _ Hs) as Ht.
  destruct ev as [s p| |g p|g|g a b|session g|winner map m|g team m|]; cbn [happens allowed] in *.
  - destruct Ha as [Hsome Ha]. eapply ensures_weaken; [by apply packet_goes|]. intros w' (S & n & l & Htr & Hm).
    assert (founds p = true -> NextArenaTeamId w < 0xFFFFFFFE) as H1 by (destruct p; try done; intros _; apply Ha).
    destruct (transition_ids _ _ _ _ _ _ Hi Htr Hn H1) as [Hn' Hi'].
    split; rewrite ?(mv_store _ _ _ _ _ Hm), ?(mv_next _ _ _ _ _ Hm); try done.
    + intros id t. rewrite (mv_store _ _ _ _ _ Hm). apply (transition_store _ _ _ _ _ _ Hs Htr). destruct p; try done. intros _. apply Ha.
    + by apply (mv_players _ _ _ _ _ Hm).
    + by apply (mv_signs _ _ _ _ _ Hm).
  - pose proof (worker_signs w Hg). unfold worker in *. destruct (queue w); by split.
  - destruct (enter_world_goes E g p w Ht) as (info & -> & Hl). split; try done. intros g' p'. cbn. rewrite lookup_insert_Some.
    intros [[<- <-]|[_ H]]; [by split|by apply Hp].
  - split; try done. intros g' p'. cbn. rewrite lookup_delete_Some. intros [_ H]. by apply Hp.
  - apply (counts_ok w); [|done]. by apply frame_counts, frame_on_player.
  - unfold HandleCharDelete_arena. destruct (FindPlayer g w); [done|]. destruct (GetArenaTeamByCaptain g w) eqn:Hc.
    { apply (counts_ok w); [|done]. apply frame_counts, frame_emit. }
    unfold DeleteFromDB_arena, LeaveAllArenaTeams.
    destruct (leave_teams_ok g (player_arena_teams (GUID_LOPART g) (db w)) w Hw) as (w1 & -> & Hw1); [intros id t; by apply captain_None|].
    cbn [bind_result]. apply (counts_ok w1); [|done]. apply frame_counts, RemovePetitionsAndSigns_frame.
  - destruct (EndBattleground_counts E winner map m w Ht Hp) as (m' & w' & -> & Hc). by apply (counts_ok w).
  - destruct (RemovePlayerAtLeave_counts E g team m w Ht Hp) as (w' & -> & Hc). by apply (counts_ok w).
  - apply (counts_ok w); [|done]. by apply Distribute_counts.
Qed.
