(* ===== verification/ArenaStock.v ===== *)
(** * ArenaStock: the tables of arena teams, and one team of a type for each player

    When the worker of the database has caught up before each event, the tables have the
    teams and members of the registry, nobody is in a team twice, and nobody is in two
    teams of a type. *)
From S2P Require Import Prelude Utf8 Util Guild ArenaTables ArenaTeam ArenaHandlers Battleground ArenaMatch ArenaRules ArenaFound ArenaPlay ArenaReach.
Import ArenaTables ArenaTeam ArenaHandlers ArenaMatch.
#[global] Open Scope Z_scope.

Definition row_of (t : ArenaTeam) (r : TeamRow) : Prop :=
  tr_type r = Type_ t /\ tr_captain r = GUID_LOPART (CaptainGuid t) /\ tr_name r = TeamName t /\ tr_emblem r = emblem t.
Definition in_team (S : gmap Z ArenaTeam) (id g : Z) : Prop := exists t, S !! id = Some t /\ g ∈ guids t.

(** The tables [R] and the registry [S] agree. *)
Record stock (R : gmap Z TeamRow * gmap (Z * Z) MemberRow) (S : gmap Z ArenaTeam) : Prop := {
  sk_teams : forall id, option_Forall2 row_of (S !! id) (R.1 !! id);
  sk_members : forall id g, is_Some (R.2 !! (id, g)) <-> in_team S id g;
  sk_range : forall id g, in_team S id g -> in_u 32 g;
  sk_once : forall id t, S !! id = Some t -> NoDup (guids t);
  sk_one : forall i j t u g, S !! i = Some t -> S !! j = Some u -> Type_ t = Type_ u -> g ∈ guids t -> g ∈ guids u -> i = j
}.
(** The worker has caught up. *)
Definition in_step (w : World) : Prop := queue w = [] /\ stock (arena_rows (db w)) (ArenaTeamStore w).
Definition settle (w : World) : World := set_db (latest w) [] w.

Lemma settle_worker w : settle w = Nat.iter (length (queue w)) worker w.
Proof.
  remember (queue w) as q eqn:Hq. revert w Hq. induction q as [|tr q IH]; intros w Hq.
  - destruct w. cbn in *. subst. done.
  - cbn [length]. rewrite Nat.iter_succ_r, <- (IH (worker w)); unfold worker; rewrite <- Hq; [|done].
    unfold settle, latest. rewrite <- Hq. cbn [concat]. by rewrite exec_all_app.
Qed.
Lemma settle_latest w : latest (settle w) = latest w.
Proof. done. Qed.

Lemma GUID_LOPART_id g : in_u 32 g -> GUID_LOPART g = g.
Proof. intros Hg. unfold GUID_LOPART. change 0xFFFFFFFF with (Z.ones 32). rewrite Z.land_ones by lia. by apply wrap_id. Qed.

(** *** In a registry with one team changed *)
Lemma in_team_insert S id t i g : in_team (<[id := t]> S) i g <-> i = id /\ g ∈ guids t \/ i <> id /\ in_team S i g.
Proof.
  unfold in_team. destruct (decide (i = id)) as [->|Hne].
  - rewrite lookup_insert_eq. naive_solver.
  - rewrite lookup_insert_ne by done. naive_solver.
Qed.
Lemma insert_new_is_Some {K A} `{Countable K} (k j : K) (a : A) (m : gmap K A) : is_Some (insert_new k a m !! j) <-> j = k \/ is_Some (m !! j).
Proof.
  unfold insert_new. destruct (m !! k) eqn:Hk; [split; [tauto|intros [->|?]; [by eexists|done]]|].
  rewrite lookup_insert_is_Some. destruct (decide (k = j)); naive_solver.
Qed.

Section stocked.
Context (R : gmap Z TeamRow * gmap (Z * Z) MemberRow) (S : gmap Z ArenaTeam).
Hypothesis (Hst : stock R S).

(** [t] becomes [t'], of the same type. *)
Lemma stock_update id t t' R' :
  S !! id = Some t -> Type_ t' = Type_ t -> NoDup (guids t') ->
  (forall g, g ∈ guids t' -> g ∈ guids t \/ in_u 32 g /\ forall j u, S !! j = Some u -> Type_ u = Type_ t -> g ∉ guids u) ->
  (forall i, option_Forall2 row_of (<[id := t']> S !! i) (R'.1 !! i)) ->
  (forall i g, is_Some (R'.2 !! (i, g)) <-> in_team (<[id := t']> S) i g) ->
  stock R' (<[id := t']> S).
Proof.
  intros Ht Hty Hnd Hin Hrow Hmem. destruct Hst as [H1 H2 H3 H4 H5]. split; [done|done| | |].
  - intros i g. rewrite in_team_insert. intros [[-> Hg]|[_ Hg]]; [|by eapply H3]. destruct (Hin g Hg) as [|[? _]]; [|done].
    apply (H3 id). by exists t.
  - intros i u. rewrite lookup_insert_Some. intros [[<- <-]|[_ H]]; [done|by eapply H4].
  - intros i j u v g. rewrite !lookup_insert_Some. intros [[<- <-]|[Hi Hu]] [[<- <-]|[Hj Hv]] Huv Hgu Hgv; [done| | |by eapply H5].
    + destruct (Hin g Hgu) as [Hg|[_ Hg]]; [apply (H5 id j t v g); congruence|]. exfalso. apply (Hg j v); [done|congruence|done].
    + destruct (Hin g Hgv) as [Hg|[_ Hg]]; [apply (H5 i id u t g); congruence|]. exfalso. apply (Hg i u); [done|congruence|done].
Qed.
Lemma rows_update id t t' r f :
  S !! id = Some t -> R.1 !! id = Some r -> row_of t' (f r) -> forall i, option_Forall2 row_of (<[id := t']> S !! i) (alter f id R.1 !! i).
Proof.
  intros Ht Hr Hrow i. destruct (decide (i = id)) as [->|Hne].
  - rewrite lookup_insert_eq, lookup_alter_eq, Hr. by constructor.
  - rewrite lookup_insert_ne, lookup_alter_ne by done. apply (sk_teams _ _ Hst).
Qed.
Lemma rows_same id t t' :
  S !! id = Some t -> (forall r, row_of t r -> row_of t' r) -> forall i, option_Forall2 row_of (<[id := t']> S !! i) (R.1 !! i).
Proof.
  intros Ht Hrow i. pose proof (sk_teams _ _ Hst i) as Hi. destruct (decide (i = id)) as [->|Hne].
  - rewrite lookup_insert_eq. rewrite Ht in Hi. inversion Hi; subst. constructor. auto.
  - by rewrite lookup_insert_ne.
Qed.
Lemma row_there id t : S !! id = Some t -> exists r, R.1 !! id = Some r /\ row_of t r.
Proof. intros Ht. pose proof (sk_teams _ _ Hst id) as Hi. rewrite Ht in Hi. inversion Hi; subst. eauto. Qed.

Lemma stock_join id t m :
  S !! id = Some t -> in_u 32 (Guid m) -> (forall j u, S !! j = Some u -> Type_ u = Type_ t -> Guid m ∉ guids u) ->
  stock (R.1, insert_new (id, Guid m) new_member_row R.2) (<[id := set_Members (Members t ++ [m]) t]> S).
Proof.
  intros Ht Hr Hno. assert (guids (set_Members (Members t ++ [m]) t) = guids t ++ [Guid m]) as Hg by (unfold guids; cbn; by rewrite fmap_app).
  apply (stock_update id t); [done|done| | | |].
  - rewrite Hg. apply NoDup_app. split_and!; [by eapply (sk_once _ _ Hst)| |apply NoDup_singleton].
    intros g Hin ->%list_elem_of_singleton. by apply (Hno id t).
  - intros g. rewrite Hg, elem_of_app, list_elem_of_singleton. intros [?| ->]; auto.
  - by apply (rows_same id t).
  - intros i g. cbn. rewrite insert_new_is_Some, in_team_insert, (sk_members _ _ Hst), Hg, elem_of_app, list_elem_of_singleton.
    split; [intros [ [= -> ->]|Hi]; [auto|destruct (decide (i = id)) as [->|]; [|auto]; destruct Hi as (t0 & Ht0 & Hin)]|].
    + left. rewrite Ht in Ht0. injection Ht0 as <-. auto.
    + intros [[-> [Hin| ->]]|[_ Hi]]; [right; by exists t|by left|by right].
Qed.
Lemma erase_guids g (l : list ArenaTeamMember) : NoDup (Guid <$> l) -> NoDup (Guid <$> erase_member g l) /\ g ∉ Guid <$> erase_member g l.
Proof.
  induction l as [|m l IH]; cbn; [split; [done|set_solver]|]. intros [Hm Hl]%NoDup_cons. destruct (Z.eqb_spec (Guid m) g) as [<-|Hne]; [done|].
  destruct (IH Hl) as [H1 H2]. cbn. split; [|set_solver]. constructor; [|done]. intros Hin. apply Hm. by apply erase_keeps in Hin.
Qed.
Lemma stock_part id t g :
  S !! id = Some t -> in_u 32 g -> stock (R.1, delete (id, g) R.2) (<[id := set_Members (erase_member g (Members t)) t]> S).
Proof.
  intros Ht Hg. destruct (erase_guids g (Members t)) as [Hn Hnot]; [by eapply (sk_once _ _ Hst)|].
  assert (forall c, c ∈ guids (set_Members (erase_member g (Members t)) t) <-> c <> g /\ c ∈ guids t) as Hgu.
  { intros c. unfold guids. cbn. destruct (decide (c = g)) as [->|Hne]; [tauto|]. rewrite (erase_keeps g c) by done. tauto. }
  apply (stock_update id t); [done|done|done| | |].
  - intros c Hc. left. by apply Hgu.
  - by apply (rows_same id t).
  - intros i c. cbn. rewrite lookup_delete_is_Some, in_team_insert, (sk_members _ _ Hst), Hgu. split.
    + intros [Hne Hi]. destruct (decide (i = id)) as [->|]; [left|auto]. destruct Hi as (t0 & Ht0 & Hin). rewrite Ht in Ht0.
      injection Ht0 as <-. split; [done|]. split; [congruence|done].
    + intros [[-> [Hne Hin]]|[Hne Hi]]; (split; [congruence|]); [by exists t|done].
Qed.
Lemma stock_captain id t g : S !! id = Some t -> stock (alter (set_captain (GUID_LOPART g)) id R.1, R.2) (<[id := set_CaptainGuid g t]> S).
Proof.
  intros Ht. destruct (row_there id t Ht) as (r & Hr & H1 & H2 & H3 & H4).
  apply (stock_update id t); [done|done|exact (sk_once _ _ Hst id t Ht)|auto| |].
  - by apply (rows_update id t _ r).
  - intros i c. cbn. rewrite (sk_members _ _ Hst), in_team_insert. change (guids (set_CaptainGuid g t)) with (guids t). split.
    + intros (u & Hu & Hc). destruct (decide (i = id)) as [->|]; [left; by simplify_eq|right; split; [done|by exists u]].
    + intros [[-> Hc]|[_ Hi]]; [by exists t|done].
Qed.
Lemma stock_disband id : stock (delete id R.1, filter (fun kv => kv.1.1 <> id) R.2) (delete id S).
Proof.
  destruct Hst as [H1 H2 H3 H4 H5].
  assert (forall i g, in_team (delete id S) i g <-> i <> id /\ in_team S i g) as Hd.
  { intros i g. unfold in_team. split; [intros (t & [Hne Ht]%lookup_delete_Some & Hg); split; [congruence|by exists t]|].
    intros [Hne (t & Ht & Hg)]. exists t. split; [|done]. by rewrite lookup_delete_ne. }
  split; cbn.
  - intros i. destruct (decide (i = id)) as [->|Hne]; [rewrite !lookup_delete_eq; constructor|by rewrite !lookup_delete_ne].
  - intros i g. rewrite Hd, <- H2. unfold is_Some. setoid_rewrite map_lookup_filter_Some. cbn. naive_solver.
  - intros i g [_ Hi]%Hd. by eapply H3.
  - intros i t [_ Hi]%lookup_delete_Some. by eapply H4.
  - intros i j t u g [_ Hi]%lookup_delete_Some [_ Hj]%lookup_delete_Some. by eapply H5.
Qed.
Lemma stock_new t r R2 :
  S !! TeamId t = None -> NoDup (guids t) -> row_of t r -> (forall g, g ∈ guids t -> in_u 32 g /\ forall j u, S !! j = Some u -> Type_ u = Type_ t -> g ∉ guids u) ->
  (forall i g, is_Some (R2 !! (i, g)) <-> (i = TeamId t /\ g ∈ guids t) \/ is_Some (R.2 !! (i, g))) ->
  stock (insert_new (TeamId t) r R.1, R2) (<[TeamId t := t]> S).
Proof.
  intros Hfresh Hnd Hrow Hin Hmem. destruct Hst as [H1 H2 H3 H4 H5].
  assert (R.1 !! TeamId t = None) as Hr by (specialize (H1 (TeamId t)); rewrite Hfresh in H1; by inversion H1).
  assert (forall i g, in_team S i g -> i <> TeamId t) as Hne by (intros i g (u & Hu & _) ->; congruence).
  split; cbn.
  - intros i. unfold insert_new. rewrite Hr. destruct (decide (i = TeamId t)) as [->|]; [rewrite !lookup_insert_eq; by constructor|by rewrite !lookup_insert_ne].
  - intros i g. rewrite Hmem, in_team_insert, H2. split; [intros [|Hi]; [by left|right; eauto]|intros [|[_ Hi]]; auto].
  - intros i g. rewrite in_team_insert. intros [[_ Hg]|[_ Hi]]; [by apply Hin|by eapply H3].
  - intros i u. rewrite lookup_insert_Some. intros [[_ <-]|[_ Hu]]; [done|by eapply H4].
  - intros i j u v g. rewrite !lookup_insert_Some. intros [[<- <-]|[Hi Hu]] [[<- <-]|[Hj Hv]] Huv Hgu Hgv; [done| | |by eapply H5].
    + exfalso. apply (proj2 (Hin g Hgu) j v); [done|congruence|done].
    + exfalso. apply (proj2 (Hin g Hgv) i u); [done|congruence|done].
Qed.
End stocked.

(** ** Packets *)
Lemma in_step_latest w : queue w = [] -> latest w = db w.
Proof. intros Hq. unfold latest. by rewrite Hq. Qed.

(** What the table answers is so in the registry. *)
Lemma table_absent w g type :
  in_step w -> (forall id, is_Some (ArenaTeamStore w !! id) -> 0 < id < NextArenaTeamId w) -> in_u 32 g ->
  GetArenaTeamIdFromDB g type w = 0 -> forall j u, ArenaTeamStore w !! j = Some u -> Type_ u = type -> g ∉ guids u.
Proof.
  intros [Hq Hst] Hids Hg Hdb j u Hu Hty Hin. unfold GetArenaTeamIdFromDB in Hdb. rewrite GUID_LOPART_id in Hdb by done.
  destruct (row_there _ _ Hst j u Hu) as (r & Hr & Hrt & _).
  assert (is_Some (arena_team_member (db w) !! (j, g))) as Hm by (apply (sk_members _ _ Hst); by exists u).
  destruct (team_id_by_guid g type (db w)) as [id|] eqn:Hid.
  - cbn in Hdb. subst id. unfold team_id_by_guid in Hid. apply head_Some_elem_of, elem_of_teams_of in Hid as [_ (r0 & Hr0 & _)].
    pose proof (sk_teams _ _ Hst 0) as H0. cbn in H0. rewrite Hr0 in H0. inversion H0 as [t0 ? _ Ht0|]; subst.
    assert (0 < 0 < NextArenaTeamId w) as Hbad by (apply Hids; by rewrite <- Ht0). lia.
  - rewrite team_id_by_guid_None in Hid. rewrite (Hid j r) in Hm; [by destruct Hm|done|congruence].
Qed.

Lemma ins_members_rows id gs T :
  arena_team (exec_all (ins_members id gs) T) = arena_team T /\
  forall i g, is_Some (arena_team_member (exec_all (ins_members id gs) T) !! (i, g)) <->
    (i = id /\ g ∈ GUID_LOPART <$> gs) \/ is_Some (arena_team_member T !! (i, g)).
Proof.
  revert T. induction gs as [|c gs IH]; intros T; cbn [ins_members fmap list_fmap]; [split; [done|]; intros i g; set_solver|].
  rewrite exec_all_cons. destruct (IH (exec (CHAR_INS_ARENA_TEAM_MEMBER id (GUID_LOPART c)) T)) as [H1 H2].
  split; [done|]. intros i g. unfold ins_members in H2. rewrite H2. cbn. rewrite insert_new_is_Some, elem_of_cons. naive_solver.
Qed.
Lemma lopart_guids (gs : list Z) : (forall g, g ∈ gs -> in_u 32 g) -> GUID_LOPART <$> gs = gs.
Proof.
  induction gs as [|g gs IH]; intros Hr; [done|]. cbn. rewrite GUID_LOPART_id by (apply Hr; set_solver). by rewrite IH by (intros; apply Hr; set_solver).
Qed.

Lemma transition_stock s f w S n l :
  arena_ok w -> in_step w -> is_Some (FindPlayer s w) -> transition s f w S n l -> stock (arena_rows (exec_all l (latest w))) S.
Proof.
  intros [Hs Hp Hg Hn Hids] Hw [p Hsp] Htr. pose proof Hw as [Hq Hst]. rewrite in_step_latest by done.
  assert (in_u 32 s) as Hs32 by (by apply (Hp s p)).
  destruct Htr as [|i t m Ht Hm Hl Hdb|i t g Ht Hwho Hg'|i t g Ht _ Hg'|i t Ht _|t r pe Hb Hid Hpe Hty Hc Hsz Hnd Hin Hno]; [done|..].
  - change (stock (arena_team (db w), insert_new (i, GUID_LOPART s) new_member_row (arena_team_member (db w))) (<[i := set_Members (Members t ++ [m]) t]> (ArenaTeamStore w))).
    rewrite GUID_LOPART_id, <- Hm by done. apply (stock_join (arena_rows (db w))); [done|done|by rewrite Hm|].
    rewrite Hm. intros j u Hu Hty. by eapply table_absent.
  - change (stock (arena_team (db w), delete (i, GUID_LOPART g) (arena_team_member (db w))) (<[i := set_Members (erase_member g (Members t)) t]> (ArenaTeamStore w))).
    assert (in_u 32 g) as Hg32 by (destruct Hwho as [->|[_ Hin]]; [done|apply (sk_range _ _ Hst i); by exists t]).
    rewrite GUID_LOPART_id by done. by apply (stock_part (arena_rows (db w))).
  - by apply (stock_captain (arena_rows (db w))).
  - by apply (stock_disband (arena_rows (db w))).
  - rewrite exec_all_cons. set (T1 := exec _ (db w)).
    assert (ArenaTeamStore w !! TeamId t = None) as Hfresh.
    { destruct (ArenaTeamStore w !! TeamId t) eqn:E; [|done]. assert (0 < TeamId t < NextArenaTeamId w) by (apply Hids; by rewrite E). lia. }
    destruct (ins_members_rows (TeamId t) (guids t) T1) as [H1 H2]. unfold ins_members in H1, H2.
    unfold arena_rows. rewrite H1. unfold T1 at 1. cbn [exec on_team_rows arena_team].
    apply (stock_new (arena_rows (db w))); [done|done|done|by rewrite <- Hc| |].
    + intros g Hgt. destruct (Hno g Hgt) as [Hg32 Hg0]. split; [done|]. by apply table_absent.
    + intros i g. rewrite H2, lopart_guids by (intros g' Hg'; by apply Hno). done.
Qed.

(** ** Every event *)
Lemma stock_counts w w' : counts w w' -> stock (arena_rows (latest w)) (ArenaTeamStore w) -> stock (arena_rows (latest w')) (ArenaTeamStore w').
Proof.
  intros Hc [H1 H2 H3 H4 H5]. destruct (co_rows _ _ Hc) as [Hr Hd].
  assert (forall i t', ArenaTeamStore w' !! i = Some t' -> exists t, ArenaTeamStore w !! i = Some t /\ same_team t t') as Hback.
  { intros i t' Hi. pose proof (co_store _ _ Hc i) as Hf. rewrite Hi in Hf. inversion Hf; subst; eauto. }
  assert (forall i g, in_team (ArenaTeamStore w') i g <-> in_team (ArenaTeamStore w) i g) as Hin.
  { intros i g. unfold in_team. split.
    - intros (t' & Hi & Hg). destruct (Hback i t' Hi) as (t & Ht & Hs). exists t. split; [done|]. by rewrite <- (sm_guids _ _ Hs).
    - intros (t & Hi & Hg). pose proof (co_store _ _ Hc i) as Hf. rewrite Hi in Hf. inversion Hf as [? t' Hs|]; subst.
      exists t'. split; [done|]. by rewrite (sm_guids _ _ Hs). }
  split; cbn in *.
  - intros i. specialize (H1 i). specialize (Hr i). pose proof (co_store _ _ Hc i) as Hf.
    destruct Hf as [t t' Hs|]; inversion H1 as [? r Hrow|]; subst; destruct Hr as [r0 r' Hrr|]; simplify_eq; constructor.
    destruct Hs, Hrow as (? & ? & ? & ?), Hrr as (? & ? & ? & ?). unfold row_of. repeat split; congruence.
  - intros i g. rewrite Hin, <- H2, <- !elem_of_dom, Hd. done.
  - intros i g Hi. eapply H3, Hin, Hi.
  - intros i t' Hi. destruct (Hback i t' Hi) as (t & Ht & Hs). rewrite (sm_guids _ _ Hs). by eapply H4.
  - intros i j t' u' g Hi Hj Hty Hg Hg'. destruct (Hback i t' Hi) as (t & Ht & Hs), (Hback j u' Hj) as (u & Hu & Hs').
    rewrite (sm_guids _ _ Hs) in Hg. rewrite (sm_guids _ _ Hs') in Hg'. apply (H5 i j t u g); try done.
    by rewrite <- (sm_type _ _ Hs), <- (sm_type _ _ Hs').
Qed.
Lemma leave_teams_stock g ids w :
  arena_ok w -> in_u 32 g -> stock (arena_rows (latest w)) (ArenaTeamStore w) ->
  ensures (fun _ => True) (fun w' => stock (arena_rows (latest w')) (ArenaTeamStore w')) (leave_teams g ids w).
Proof.
  intros [Hs Hp _ _ _] Hg. pose proof (store_types _ Hs) as Ht. clear Hs. revert w Ht Hp.
  induction ids as [|id ids IH]; intros w Ht Hp Hst; cbn [leave_teams]; [done|].
  destruct (if id =? 0 then None else GetArenaTeamById id w) as [t|] eqn:Hi0; [|by apply IH].
  assert (ArenaTeamStore w !! id = Some t) as Hi by (by destruct (id =? 0)). destruct (Ht id t Hi) as [Hid Hty].
  destruct (DelMember_spec g true t w) as (w1 & -> & Hch); [done|done|]. cbn [bind_result].
  apply IH; [|by apply (fr_players _ _ _ Hch)|].
  - intros i u. cbn. rewrite (fr_store _ _ _ Hch), lookup_insert_Some. intros [[<- <-]|[_ Hu]]; [done|by apply Ht].
  - change (latest (set_store ?S w1)) with (latest w1). rewrite (fr_rows _ _ _ Hch), Hid, GUID_LOPART_id by done.
    cbn [set_store ArenaTeamStore]. rewrite (fr_store _ _ _ Hch).
    change (stock ((arena_rows (latest w)).1, delete (id, g) (arena_rows (latest w)).2)
      (<[id := set_Members (erase_member g (Members t)) t]> (ArenaTeamStore w))).
    by apply stock_part.
Qed.

Definition allowed32 (ev : event) : Prop := match ev with CharDelete _ guid => in_u 32 guid | _ => True end.
Lemma event_stock E ev w w' :
  arena_ok w -> in_step w -> allowed ev w -> allowed32 ev -> happens E ev w = Ok w' -> stock (arena_rows (latest w')) (ArenaTeamStore w').
Proof.
  intros Hw Hin Ha H32. pose proof Hw as [Hs Hp Hg Hn Hi]. pose proof (store_types _ Hs) as Ht.
  pose proof Hin as [Hq Hst0]. assert (stock (arena_rows (latest w)) (ArenaTeamStore w)) as Hst by (by rewrite in_step_latest).
  destruct ev as [s p| |g p|g|g a b|session g|winner map m|g team m|]; cbn [happens allowed allowed32] in *.
  - destruct Ha as [Hsome _]. pose proof (packet_goes E s p w Ht Hp Hsome Hg Hn) as Hgo. intros Hh. rewrite Hh in Hgo.
    destruct Hgo as (S & n & l & Htr & Hm). rewrite (mv_rows _ _ _ _ _ Hm), (mv_store _ _ _ _ _ Hm). by eapply transition_stock.
  - intros [= <-]. unfold worker. by rewrite Hq.
  - destruct (enter_world_goes E g p w Ht) as (info & -> & _). by intros [= <-].
  - by intros [= <-].
  - by intros [= <-].
  - unfold HandleCharDelete_arena. destruct (FindPlayer g w); [by intros [= <-]|].
    destruct (GetArenaTeamByCaptain g w); [by intros [= <-]|]. unfold DeleteFromDB_arena, LeaveAllArenaTeams.
    pose proof (leave_teams_stock g (player_arena_teams (GUID_LOPART g) (db w)) w Hw H32 Hst) as Hl.
    destruct (leave_teams _ _ w) as [w1|]; [|done]. cbn [bind_result]. intros [= <-].
    eapply stock_counts; [|exact Hl]. apply frame_counts, RemovePetitionsAndSigns_frame.
  - destruct (EndBattleground_counts E winner map m w Ht Hp) as (m' & w1 & -> & Hc). cbn [bind_result]. intros [= <-]. by eapply stock_counts.
  - destruct (RemovePlayerAtLeave_counts E g team m w Ht Hp) as (w1 & -> & Hc). intros [= <-]. by eapply stock_counts.
  - intros [= <-]. eapply stock_counts; [|exact Hst]. by apply Distribute_counts.
Qed.

(** Events with the worker's work done after each. *)
Inductive prompt (E : Env) : World -> World -> Prop :=
| prompt_refl w : prompt E w w
| prompt_step w w1 w2 ev : prompt E w w1 -> allowed ev w1 -> allowed32 ev -> happens E ev w1 = Ok w2 -> prompt E w (settle w2).

Lemma settle_ok w : arena_ok w -> arena_ok (settle w).
Proof.
  intros [? ? [Hd Hq] ? ?]. split; try done. split; [|done]. unfold settle. cbn. by apply exec_all_signs.
Qed.
Lemma prompt_keeps E w w' : arena_ok w -> in_step w -> prompt E w w' -> arena_ok w' /\ in_step w'.
Proof.
  intros Hw Hs. induction 1 as [w|w w1 w2 ev _ IH Ha H32 Hh]; [done|]. destruct (IH Hw Hs) as [Hw1 Hs1].
  pose proof (event_keeps E ev w1 Hw1 Ha) as Hk. rewrite Hh in Hk. split; [by apply settle_ok|]. split; [done|].
  change (stock (arena_rows (latest w2)) (ArenaTeamStore w2)). exact (event_stock E ev w1 w2 Hw1 Hs1 Ha H32 Hh).
Qed.
