(* ===== verification/ArenaOutcomes.v ===== *)
(** * ArenaOutcomes: what holds of arena teams

    The theorems on sequences of packets and events, on what one packet may do, on the
    week's arena points, the end of a match and the load of teams, each with a concrete
    instance. *)
From S2P Require Import Prelude Float32 Utf8 Util Guild ArenaTables ArenaTeam ArenaHandlers Battleground ArenaMatch.
From S2P Require Import ArenaRules ArenaFound ArenaPlay ArenaReach ArenaStock.
Import ArenaTables ArenaTeam ArenaHandlers ArenaMatch.
From Stdlib Require Import Sorting.Sorted.
#[global] Open Scope Z_scope.

(** ** Sequences of events *)

(** C12: from a world whose teams are in order, through every sequence of packets of players
    in the world, worker steps, logins, logouts, deletions, matches and weeks, a registered
    team has its key as its id, one of the three types, its captain among its members and
    at most twice as many members as its type; as long as ids have not run out and the
    table has no team of the type for one who turns in an arena charter. *)
Theorem arena_teams_in_order E w w' :
  arena_ok w -> reach E w w' ->
  forall id t, ArenaTeamStore w' !! id = Some t ->
    TeamId t = id /\ (Type_ t = 2 \/ Type_ t = 3 \/ Type_ t = 5) /\ CaptainGuid t ∈ guids t /\ GetMembersSize t <= 2 * Type_ t.
Proof.
  intros Hw Hr. assert (arena_ok w') as Hw'.
  { induction Hr as [|w w1 w2 ev _ IH Ha Hh]; [done|]. pose proof (event_keeps E ev w1 (IH Hw) Ha) as Hk. by rewrite Hh in Hk. }
  intros id t Ht. by destruct (ao_store _ Hw' id t Ht).
Qed.

(** C13: when all statements are executed before the next event, from teams in order whose
    tables agree with the registry, nobody is in two teams of a type, nor twice in one,
    and the table of members has a row for exactly the members of the registry. *)
Theorem one_team_per_type E w w' :
  arena_ok w -> in_step w -> prompt E w w' ->
  (forall i j t u g, ArenaTeamStore w' !! i = Some t -> ArenaTeamStore w' !! j = Some u -> Type_ t = Type_ u ->
     g ∈ guids t -> g ∈ guids u -> i = j) /\
  (forall i t, ArenaTeamStore w' !! i = Some t -> NoDup (guids t)) /\
  (forall i g, is_Some (arena_team_member (db w') !! (i, g)) <-> exists t, ArenaTeamStore w' !! i = Some t /\ g ∈ guids t).
Proof.
  intros Hw Hs Hp. destruct (prompt_keeps E w w' Hw Hs Hp) as [_ [_ [_ H2 _ H4 H5]]]. done.
Qed.

(** ** One packet *)

(** A packet of a player does not go wrong, but for a name too long for its buffer,
    and is one of the transitions that its sender is allowed, with the statements of it
    for the tables. *)
Theorem arena_packet_refines E s p w :
  arena_ok w -> is_Some (FindPlayer s w) ->
  ensures (fun e => e = TextOverflow)
    (fun w' => exists S n l, transition s (founds p) w S n l /\ ArenaTeamStore w' = S /\ NextArenaTeamId w' = n /\
       arena_rows (latest w') = arena_rows (exec_all l (latest w))) (handle E s p w).
Proof.
  intros [Hs Hp Hg Hn _] Hsome. eapply ensures_weaken; [apply packet_goes; by try apply store_types|].
  intros w' (S & n & l & Htr & Hm). exists S, n, l. destruct Hm. done.
Qed.

(** A packet of a player who is not the captain of a team leaves the team with its
    captain and all its members but, at most, the sender. *)
Theorem packet_authority E s p w w' id t :
  arena_ok w -> is_Some (FindPlayer s w) -> handle E s p w = Ok w' ->
  ArenaTeamStore w !! id = Some t -> CaptainGuid t <> s ->
  exists t', ArenaTeamStore w' !! id = Some t' /\ CaptainGuid t' = CaptainGuid t /\ forall g, g <> s -> g ∈ guids t' <-> g ∈ guids t.
Proof.
  intros [Hs Hp Hg Hn Hids] Hsome Hh Ht Hc. pose proof (packet_goes E s p w (store_types _ Hs) Hp Hsome Hg Hn) as Hgo. rewrite Hh in Hgo.
  destruct Hgo as (S & n & l & Htr & Hm). rewrite (mv_store _ _ _ _ _ Hm).
  assert (forall (i : Z) (u : ArenaTeam), (i = id -> CaptainGuid u = CaptainGuid t /\ forall g, g <> s -> g ∈ guids u <-> g ∈ guids t) ->
     exists t', <[i := u]> (ArenaTeamStore w) !! id = Some t' /\ CaptainGuid t' = CaptainGuid t /\ forall g, g <> s -> g ∈ guids t' <-> g ∈ guids t) as Hins.
  { intros i u Hu. destruct (decide (i = id)) as [->|Hne]; [rewrite lookup_insert_eq; by exists u; split; [|apply Hu]|].
    rewrite lookup_insert_ne by done. by exists t. }
  destruct Htr as [|i u m Hu Hm' _ _|i u g Hu Hwho _|i u g Hu Hcap _|i u Hu Hcap|u r pe _ Hid].
  - by exists t.
  - apply Hins. intros ->. rewrite Ht in Hu. injection Hu as <-. split; [done|]. intros g Hg'. unfold guids. cbn.
    rewrite fmap_app, elem_of_app. cbn. rewrite list_elem_of_singleton. naive_solver.
  - apply Hins. intros ->. rewrite Ht in Hu. injection Hu as <-. split; [done|]. intros c Hc'. unfold guids. cbn. apply erase_keeps.
    destruct Hwho as [->|[? _]]; done.
  - apply Hins. intros ->. rewrite Ht in Hu. by injection Hu as <-.
  - destruct (decide (i = id)) as [->|Hne]; [rewrite Ht in Hu; by injection Hu as <-|]. rewrite lookup_delete_ne by done. by exists t.
  - apply Hins. intros <-. assert (0 < TeamId u < NextArenaTeamId w) by (apply Hids; by rewrite Ht). lia.
Qed.

(** ** Arena points *)

(** The points of a player: the most that a team with ten games gives it. *)
Definition team_points (E : Env) (g : Z) (t : ArenaTeam) : list Z :=
  if s_WeekGames (Stats t) <? 10 then []
  else member_points E t <$> filter (fun m => GUID_LOPART (Guid m) = g) (Members t).
Definition best (l : list Z) : option Z :=
  match l with [] => None | p :: l => Some (foldr Z.max p l) end.

Lemma foldr_max_app (p : Z) l1 l2 : foldr Z.max p (l1 ++ l2) = Z.max (foldr Z.max p l1) (foldr Z.max p l2).
Proof. induction l1 as [|x l1 IH]; cbn; [induction l2; cbn; lia|]. rewrite IH. lia. Qed.
Lemma foldr_max_le (p : Z) l : p <= foldr Z.max p l.
Proof. induction l; cbn; lia. Qed.
Lemma best_snoc l p : best (l ++ [p]) = Some (match best l with Some q => Z.max q p | None => p end).
Proof. destruct l as [|q l]; [done|]. cbn. f_equal. rewrite foldr_max_app. cbn. pose proof (foldr_max_le q l). lia. Qed.

Lemma helper_points E g t pp l0 :
  pp !! g = best l0 -> UpdateArenaPointsHelper E t pp !! g = best (l0 ++ team_points E g t).
Proof.
  intros Hpp. unfold UpdateArenaPointsHelper, team_points. case_match; [by rewrite app_nil_r|]. clear H.
  generalize (Members t). intros ms. revert pp l0 Hpp. induction ms as [|m ms IH]; intros pp l0 Hpp; cbn [foldl]; [by rewrite app_nil_r|].
  rewrite filter_cons. set (v := member_points E t m). destruct (decide (GUID_LOPART (Guid m) = g)) as [He|Hne].
  - rewrite fmap_cons. change (member_points E t m) with v. rewrite (cons_middle v), app_assoc. apply IH. rewrite best_snoc, He, Hpp.
    destruct (best l0) as [q|]; [|by rewrite lookup_insert_eq]. destruct (Z.ltb_spec q v).
    + rewrite lookup_insert_eq. f_equal. lia.
    + rewrite Hpp. f_equal. lia.
  - apply IH. repeat case_match; rewrite ?lookup_insert_ne by done; done.
Qed.

(** In the weekly distribution a player gets the most points that one of its teams
    with ten games gives, whatever the order of the teams, and no entry without such a
    team. *)
Theorem player_points_best E w g :
  player_points E w !! g = best ((map_to_list (ArenaTeamStore w)).*2 ≫= team_points E g).
Proof.
  unfold player_points. assert (forall ts pp l0, pp !! g = best l0 ->
    foldl (fun pp t => UpdateArenaPointsHelper E t pp) pp ts !! g = best (l0 ++ (ts ≫= team_points E g))) as H.
  { induction ts as [|t ts IH]; intros pp l0 Hpp; cbn; [by rewrite app_nil_r|]. rewrite app_assoc. apply IH. by apply helper_points. }
  by rewrite (H _ ∅ []).
Qed.






Lemma SetArenaTeamInfoField_store g slot type v w w' : SetArenaTeamInfoField g slot type v w = Ok w' -> ArenaTeamStore w' = ArenaTeamStore w.
Proof. unfold SetArenaTeamInfoField. intros (p & _ & H)%bound_Ok. case_match; [by injection H as <-|done]. Qed.
Lemma member_played_kept E won g a c t w t' w' :
  member_played E won g a c (t, w) = Ok (t', w') -> TeamId t' = TeamId t /\ Stats t' = Stats t /\ ArenaTeamStore w' = ArenaTeamStore w.
Proof.
  unfold member_played. case_match; [|by intros [= <- <-]]. unfold inform_rating, inform_games.
  intros (w2 & (w1 & H1 & [= <-])%bound_Ok & (w4 & (w3 & H3 & H4)%bound_Ok & [= <- <-])%bound_Ok)%bound_Ok. split_and!; [done|done|].
  rewrite (SetArenaTeamInfoField_store _ _ _ _ _ _ H4), (SetArenaTeamInfoField_store _ _ _ _ _ _ H3). cbn.
  by rewrite (SetArenaTeamInfoField_store _ _ _ _ _ _ H1).
Qed.



Lemma notify_frame id w : frame w (notify_team id w).
Proof. unfold notify_team. case_match; [apply frame_notify|done]. Qed.


Lemma on_team_elsewhere a b f w w' :
  a <> b -> types_ok w -> (forall t w t' w', f (t, w) = Ok (t', w') -> TeamId t' = TeamId t /\ ArenaTeamStore w' = ArenaTeamStore w) ->
  on_team b f w = Ok w' -> ArenaTeamStore w' !! a = ArenaTeamStore w !! a.
Proof.
  intros Hab Ht Hf. unfold on_team, GetArenaTeamById. destruct (ArenaTeamStore w !! b) as [v|] eqn:Hv; [|by intros [= <-]].
  intros ([v' w1] & Hfv & [= <-])%bound_Ok. destruct (Hf _ _ _ _ Hfv) as [H1 H2]. unfold put. cbn. rewrite H1, (proj1 (Ht b v Hv)), H2.
  by rewrite lookup_insert_ne.
Qed.
(** Without a winner all players are looked up in the team of the loser. *)
Lemma end_player_elsewhere E a b map r p w w' :
  a <> b -> types_ok w -> p.1.2 <> WINNER_NONE -> end_player E WINNER_NONE a b map r p w = Ok w' -> ArenaTeamStore w' !! a = ArenaTeamStore w !! a.
Proof.
  intros Hab Ht. destruct p as [[g team] off]. cbn [fst snd]. intros Hne. unfold end_player. rewrite (proj2 (Z.eqb_neq _ _) Hne). destruct off.
  { apply on_team_elsewhere; [done|done|]. by intros t0 w0 t' w1 [= <- <-]. }
  destruct (FindPlayer g w); [|by intros [= <-]]. intros (w1 & H1 & [= <-])%bound_Ok. change (ArenaTeamStore w1 !! a = ArenaTeamStore w !! a).
  revert H1. apply on_team_elsewhere; [done|done|]. intros t0 w0 t' w2 H2. apply member_played_kept in H2 as (? & _ & ?). done.
Qed.
Lemma end_players_elsewhere E a b map r ps w :
  a <> b -> types_ok w -> players_ok w -> (forall p, p ∈ ps -> p.1.2 <> WINNER_NONE) ->
  exists w', end_players E WINNER_NONE a b map r ps w = Ok w' /\ ArenaTeamStore w' !! a = ArenaTeamStore w !! a.
Proof.
  intros Hab. revert w. induction ps as [|p ps IH]; intros w Ht Hp Hps; cbn [end_players]; [by exists w|].
  destruct (end_player_counts E WINNER_NONE a b map r p w Ht Hp) as (w1 & He & Hc). rewrite He. cbn [bind_result].
  destruct (IH w1) as (w2 & -> & H2); [by eapply counts_types|by apply (co_players _ _ Hc)|intros; apply Hps; set_solver|].
  exists w2. split; [done|]. rewrite H2. eapply end_player_elsewhere; [done|done| |exact He]. apply Hps. set_solver.
Qed.

(** A match without a winner: the players of the team of [HORDE] keep their ratings and
    counters, whatever those of the other team lose. *)
Theorem time_limit_one_sided E map m w a b t :
  arena_ok w -> two_teams WINNER_NONE m w = Some (a, b) -> ArenaTeamStore w !! a = Some t ->
  (forall p, p ∈ m_Players m -> p.1.2 <> WINNER_NONE) ->
  exists m' w' t', CheckArenaAfterTimerConditions E map m w = Ok (m', w') /\ ArenaTeamStore w' !! a = Some t' /\ Members t' = Members t.
Proof.
  intros [Hs Hp _ _ _] H2 Ha Hps. pose proof (store_types _ Hs) as Ht. unfold CheckArenaAfterTimerConditions, EndBattleground_rated. rewrite H2.
  assert (exists u, ArenaTeamStore w !! b = Some u /\ a <> b) as (u & Hb & Hab).
  { revert H2. unfold two_teams, GetArenaTeamById. repeat case_match; intros [= <- <-]. eexists. split; [done|]. by apply Z.eqb_neq. }
  destruct (Ht a t Ha) as [Hia _], (Ht b u Hb) as [Hib _].
  destruct (end_ratings_counts E WINNER_NONE a b m w Ht) as (r & m1 & w1 & He & Hc & Hpl). rewrite He. cbn [bind_result].
  assert (exists t1, ArenaTeamStore w1 !! a = Some t1 /\ Members t1 = Members t) as (t1 & Ht1 & Hm1).
  { revert He. unfold end_ratings, GetArenaTeamById. rewrite Ha, Hb. cbn [Z.eqb WINNER_NONE]. unfold FinishGame. intros [= _ _ <-].
    unfold put. cbn. rewrite Hib, lookup_insert_ne by done. repeat case_match; cbn; rewrite Hia, lookup_insert_eq; eexists; by split. }
  destruct (end_players_elsewhere E a b map r (m_Players m1) w1) as (w2 & -> & Ht2);
    [done|by eapply counts_types|by apply (co_players _ _ Hc)|by rewrite Hpl|]. cbn [bind_result].
  eexists _, _, t1. split; [done|]. split; [|done].
  assert (forall id w, ArenaTeamStore (save_team id w) = ArenaTeamStore w) as Hsave by (intros id w'; unfold save_team; by case_match).
  rewrite (fr_store _ _ _ (notify_frame _ _)), (fr_store _ _ _ (notify_frame _ _)), !Hsave. congruence.
Qed.

(** ** The load of all teams *)

(** The team that the rows of one team give, if its captain is among its members. *)
Definition loads (id : Z) (r : TeamRow) (rs : list LoadRow) : option ArenaTeam :=
  let t := set_Members (loaded_member <$> filter (fun x => lr_name x <> []) rs) (LoadArenaTeamFromDB (id, r)) in
  if bool_decide (CaptainGuid t ∈ guids t) then Some t else None.

(** Nobody is in the world, and [w'] is [w] but for a registry and fewer rows of teams. *)
Record loading (w w' : World) : Prop := {
  lo_players : players w' = players w;
  lo_rows : forall i, arena_team (latest w') !! i = arena_team (latest w) !! i \/ arena_team (latest w') !! i = None
}.
#[global] Instance loading_preorder : PreOrder loading.
Proof.
  split; [intros w; split; auto|]. intros a b c [H1 H2] [H3 H4]. split; [by etrans|]. intros i.
  destruct (H4 i) as [->|]; auto.
Qed.
Lemma erase_absent g l : g ∉ Guid <$> l -> erase_member g l = l.
Proof. induction l as [|m l IH]; cbn; [done|]. rewrite not_elem_of_cons. intros [Hne Hl]. destruct (Z.eqb_spec (Guid m) g); [congruence|]. by rewrite IH. Qed.
Lemma DelMember_away g clean t w :
  players w = ∅ -> g ∉ guids t ->
  DelMember g clean (t, w) = Ok (t, if clean then Execute (CHAR_DEL_ARENA_TEAM_MEMBER (TeamId t) (GUID_LOPART g)) w else w).
Proof.
  intros Hp Hg. unfold DelMember, FindPlayer. rewrite Hp, lookup_empty. cbn [bind_result]. rewrite erase_absent by done. by destruct t.
Qed.
Lemma execute_del_member id g w : loading w (Execute (CHAR_DEL_ARENA_TEAM_MEMBER id g) w) /\ ArenaTeamStore (Execute (CHAR_DEL_ARENA_TEAM_MEMBER id g) w) = ArenaTeamStore w.
Proof. split; [|done]. split; [done|]. intros i. left. unfold Execute. by rewrite latest_commit. Qed.

Lemma load_members_spec rs rest present t w :
  players w = ∅ -> Forall (fun x => lr_team x <= TeamId t) rs -> Forall (fun x => TeamId t < lr_team x) rest ->
  NoDup (guids t ++ (Guid ∘ loaded_member <$> rs)) ->
  let ms := loaded_member <$> filter (fun x => lr_name x <> []) rs in
  exists w', load_members (rs ++ rest) present (t, w) =
      Ok (present || bool_decide (CaptainGuid t ∈ Guid <$> ms), rest, (set_Members (Members t ++ ms) t, w')) /\
    loading w w' /\ ArenaTeamStore w' = ArenaTeamStore w.
Proof.
  intros Hp Hrs Hrest. revert present t w Hp Hrs Hrest.
  induction rs as [|r rs IH]; intros present t w Hp Hrs Hrest Hnd; cbn zeta.
  { exists w. cbn [app]. rewrite app_nil_r. replace (set_Members (Members t) t) with t by (by destruct t).
    replace (present || bool_decide (CaptainGuid t ∈ Guid <$> (loaded_member <$> filter (fun x => lr_name x <> []) []))) with present by (by rewrite filter_nil, orb_false_r).
    split; [|done]. destruct rest as [|x rest]; [done|]. cbn [load_members fst]. inversion_clear Hrest. by rewrite (proj2 (Z.ltb_lt _ _)). }
  inversion_clear Hrs as [|? ? Hr Hrs']. cbn [app load_members fst]. rewrite (proj2 (Z.ltb_ge _ _)) by lia. rewrite fmap_cons in Hnd. cbn [snd].
  change (Name (loaded_member r)) with (lr_name r). rewrite filter_cons. destruct (decide (lr_name r = [])) as [He|He].
  - rewrite decide_False by tauto. rewrite DelMember_away; [|done|]. 2:{ apply NoDup_app in Hnd as (_ & Hd & _). intros Hin. by apply (Hd _ Hin), list_elem_of_here. }
    cbn [bind_result]. destruct (execute_del_member (TeamId t) (GUID_LOPART (Guid (loaded_member r))) w) as [Hl Hst].
    destruct (IH present t (Execute (CHAR_DEL_ARENA_TEAM_MEMBER (TeamId t) (GUID_LOPART (Guid (loaded_member r)))) w)) as (w' & Heq & Hlo & Hss); try done.
    { apply NoDup_app in Hnd as (H1 & H2 & H3). apply NoDup_app. split_and!; [done|set_solver|by apply NoDup_cons in H3 as [_ ?]]. }
    exists w'. split; [exact Heq|]. split; [by etrans|congruence].
  - rewrite decide_True by done. set (t' := set_Members (Members t ++ [loaded_member r]) t).
    destruct (IH (present || (Guid (loaded_member r) =? CaptainGuid t)) t' w) as (w' & Heq & Hlo & Hss); try done.
    { unfold guids, t'. cbn. rewrite fmap_app, <- app_assoc. done. }
    exists w'. split; [|done]. rewrite Heq. unfold t'. cbn [Members set_Members CaptainGuid]. rewrite fmap_cons, <- app_assoc. cbn [app].
    f_equal. f_equal. f_equal. rewrite <- orb_assoc. f_equal. rewrite fmap_cons.
    destruct (Z.eqb_spec (Guid (loaded_member r)) (CaptainGuid t)) as [Hc|Hc]; cbn [orb].
    + symmetry. apply bool_decide_eq_true. rewrite Hc. set_solver.
    + apply bool_decide_ext. rewrite elem_of_cons. split; [by right|intros [?|?]; [congruence|done]].
Qed.
Lemma disband_away l t w : players w = ∅ -> Members t = l -> disband_members l (t, w) = Ok (set_Members [] t, w).
Proof.
  intros Hp. revert t. induction l as [|m l IH]; intros t Hl; cbn [disband_members]; [destruct t; cbn in *; by subst|].
  unfold DelMember, FindPlayer. rewrite Hp, lookup_empty. cbn [bind_result].
  rewrite (IH (set_Members (erase_member (Guid m) (Members t)) t)); [done|]. rewrite Hl. cbn. by rewrite Z.eqb_refl.
Qed.

(** One team is loaded: registered, or disbanded with its rows. *)
Lemma load_team_spec id r rs rest teams w :
  players w = ∅ -> Forall (fun x => lr_team x = id) rs -> Forall (fun x => id < lr_team x) rest -> NoDup (Guid ∘ loaded_member <$> rs) ->
  exists w', load_teams ((id, r) :: teams) (rs ++ rest) w = load_teams teams rest w' /\ loading w w' /\
    ArenaTeamStore w' = (match loads id r rs with Some t => <[id := t]> | None => delete id end) (ArenaTeamStore w) /\
    (loads id r rs = None -> arena_team (latest w') !! id = None).
Proof.
  intros Hp Hrs Hrest Hnd. cbn [load_teams]. unfold LoadMembersFromDB.
  destruct (load_members_spec rs rest false (LoadArenaTeamFromDB (id, r)) w) as (w1 & Heq & Hlo & Hst); [done| |done|done|].
  { eapply Forall_impl; [exact Hrs|]. cbn. intros x ->. lia. }
  rewrite Heq. cbn [bind_result]. cbn [app orb]. change (Members (LoadArenaTeamFromDB (id, r)) ++ ?l) with l.
  set (ms := loaded_member <$> filter _ rs) in *. set (t := set_Members ms (LoadArenaTeamFromDB (id, r))).
  assert (bool_decide (CaptainGuid (LoadArenaTeamFromDB (id, r)) ∈ Guid <$> ms) = bool_decide (CaptainGuid t ∈ guids t)) as Hb by done.
  cbn [fst Members set_Members]. unfold loads. fold ms. fold t. rewrite Hb.
  destruct (decide (CaptainGuid t ∈ guids t)) as [Hc|Hc]; [rewrite !(bool_decide_true (CaptainGuid t ∈ guids t) Hc)|
    rewrite !(bool_decide_false (CaptainGuid t ∈ guids t) Hc)]; cbn [negb].
  - assert (ms <> []) as Hne by (intros Hnil; unfold guids in Hc; change (Members t) with ms in Hc; rewrite Hnil in Hc; set_solver).
    rewrite bool_decide_false by done. cbn [orb negb bind_result].
    exists (AddArenaTeam t w1). split; [done|]. split; [|split; [by cbn; rewrite Hst|done]]. etrans; [exact Hlo|]. split; auto.
  - rewrite orb_true_r. cbn [negb]. unfold Disband. cbn [fst].
    rewrite (disband_away (Members t) t w1); [|by rewrite (lo_players _ _ Hlo)|done]. cbn [bind_result].
    set (w2 := CommitTransaction _ w1). exists (RemoveArenaTeam id w2). split; [done|].
    assert (arena_team (latest (RemoveArenaTeam id w2)) = delete id (arena_team (latest w1))) as Hdel by exact (f_equal arena_team (latest_commit _ w1)).
    split_and!.
    + etrans; [exact Hlo|]. split; [done|]. intros i. rewrite Hdel. destruct (decide (i = id)) as [->|]; [rewrite lookup_delete_eq; by right|rewrite lookup_delete_ne by done; by left].
    + cbn. by rewrite Hst.
    + intros _. rewrite Hdel. apply lookup_delete_eq.
Qed.

Definition load_input (l : list (Z * TeamRow * list LoadRow)) : Prop :=
  StronglySorted Z.lt (l.*1.*1) /\ Forall (fun e => Forall (fun x => lr_team x = e.1.1) e.2 /\ NoDup (Guid ∘ loaded_member <$> e.2)) l.

Lemma load_teams_spec l w :
  players w = ∅ -> load_input l ->
  exists w', load_teams (l.*1) (concat l.*2) w = Ok w' /\ loading w w' /\
    (forall id r rs, (id, r, rs) ∈ l -> ArenaTeamStore w' !! id = loads id r rs /\ (loads id r rs = None -> arena_team (latest w') !! id = None)) /\
    forall id, id ∉ l.*1.*1 -> ArenaTeamStore w' !! id = ArenaTeamStore w !! id.
Proof.
  revert w. induction l as [|[[id r] rs] l IH]; intros w Hp [Hs Hf]; [exists w; split_and!; try done; set_solver|].
  rewrite !fmap_cons in *. inversion Hs as [|? ? Hs' Hall]; subst. inversion Hf as [|? ? [Hrs Hnd] Hf']; subst. cbn [fst snd concat] in *.
  destruct (load_team_spec id r rs (concat l.*2) (l.*1) w Hp Hrs) as (w1 & Heq & Hlo & Hst & Hdel); [|done|].
  { apply Forall_concat, Forall_forall. intros xs Hxs. apply list_elem_of_fmap in Hxs as ([[id' r'] rs'] & -> & Hin).
    rewrite Forall_forall in Hf'. destruct (Hf' _ Hin) as [Hrs' _]. cbn in *. eapply Forall_impl; [exact Hrs'|]. cbn. intros x ->.
    rewrite Forall_forall in Hall. apply Hall. apply list_elem_of_fmap. exists (id', r'). split; [done|]. apply list_elem_of_fmap. by exists (id', r', rs'). }
  destruct (IH w1) as (w2 & Heq2 & Hlo2 & Hin2 & Hout2); [by rewrite (lo_players _ _ Hlo)|done|].
  assert (id ∉ l.*1.*1) as Hnot by (intros Hin; rewrite Forall_forall in Hall; specialize (Hall id Hin); lia).
  exists w2. rewrite Heq. split_and!; [done|by etrans| |].
  - intros id' r' rs' [[= -> -> ->]|Hin]%elem_of_cons; [|by apply Hin2]. rewrite (Hout2 id Hnot), Hst. split.
    + destruct (loads id r rs); [by rewrite lookup_insert_eq|by rewrite lookup_delete_eq].
    + intros Hn. destruct (lo_rows _ _ Hlo2 id) as [->|]; auto.
  - intros id' Hid'. rewrite not_elem_of_cons in Hid'. destruct Hid' as [Hne Hid']. rewrite Hout2, Hst by done.
    destruct (loads id r rs); [by rewrite lookup_insert_ne|by rewrite lookup_delete_ne].
Qed.

(** The load registers every team whose captain has a row among its members, with the
    members that have a name in the order of the rows, and deletes the others from the
    tables. *)
Theorem LoadArenaTeams_registers l w :
  players w = ∅ -> load_input l ->
  exists w', LoadArenaTeams (l.*1) (concat l.*2) w = Ok w' /\
    (forall id r rs, (id, r, rs) ∈ l -> ArenaTeamStore w' !! id = loads id r rs /\ (loads id r rs = None -> arena_team (latest w') !! id = None)) /\
    forall id, id ∉ l.*1.*1 -> ArenaTeamStore w' !! id = ArenaTeamStore w !! id.
Proof.
  intros Hp Hl. unfold LoadArenaTeams. destruct (load_teams_spec l (Execute DELETE_stray_members w)) as (w' & H1 & _ & H2 & H3); [done|done|].
  by exists w'.
Qed.

(** ** A concrete world *)

(** Four players of level 80, without teams; then 1 and 2 found a team for two against two,
    and 3 and 4 another one. *)
Definition ex_env : Env :=
  mkEnv 0 0 1500 8 10000 80 9 false (fun _ => None) (fun _ => 469) (fun _ => false) (fun _ => true) (fun _ => one) (fun _ => one).
Definition ex_player (g : Z) : Player := mkPlayer [64 + g] 1 80 469 (10 + g) [] false false (repeat 0 21) 0 0 0 0.
Definition no_tables : Tables := mkTables ∅ ∅ ∅ ∅ ∅ ∅.
Definition ex_start : World := mkWorld (list_to_map ((fun g => (g, ex_player g)) <$> [1; 2; 3; 4])) ∅ 1 no_tables [] [].
Definition after (ev : event) (w : World) : World := settle (match happens ex_env ev w with Ok w' => w' | Throw _ => w end).
Definition charter (owner signer guid : Z) (name : list Z) (w : World) : World :=
  after (Packet signer (CMSG_PETITION_SIGN guid)) (after (Packet owner (CMSG_PETITION_BUY guid name 2)) w).
Definition ex_signed : World := charter 1 2 100 [88] ex_start.
Definition ex_one : World := after (Packet 1 (CMSG_TURN_IN_PETITION 100 true no_emblem)) ex_signed.
Definition ex_signed2 : World := charter 3 4 101 [89] ex_one.
Definition ex_two : World := after (Packet 3 (CMSG_TURN_IN_PETITION 101 true no_emblem)) ex_signed2.
Definition ex_team (id : Z) (w : World) : ArenaTeam := default (new_team ex_env) (ArenaTeamStore w !! id).

Lemma ex_start_ok : arena_ok ex_start /\ in_step ex_start.
Proof.
  split; split; try done.
  - intros g p H. apply elem_of_list_to_map_2, list_elem_of_fmap in H as (? & [= -> ->] & Hin). split; [|done].
    unfold in_u. set_unfold. destruct Hin as [->|[->|[->|[->|[]]]]]; cbn; lia.
  - intros id [? H]. cbn in H. by rewrite lookup_empty in H.
  - assert (forall id g, in_team ∅ id g -> False) as Hno by (intros id g (t & Ht & _); by rewrite lookup_empty in Ht).
    split; cbn; try done; intros.
    + rewrite !lookup_empty. constructor.
    + split; [rewrite lookup_empty; by intros [? ?]|by intros ?%Hno].
    + by destruct (Hno id g).
Qed.
Lemma prompt_after w ev :
  prompt ex_env ex_start w -> allowed ev w -> allowed32 ev -> (match happens ex_env ev w with Ok _ => true | Throw _ => false end) = true ->
  prompt ex_env ex_start (after ev w).
Proof. intros Hp Ha H32 Hok. unfold after. destruct (happens ex_env ev w) eqn:Hh; [|done]. by eapply prompt_step. Qed.
Lemma prompt_charter owner signer guid name w :
  prompt ex_env ex_start w -> is_Some (FindPlayer owner w) -> is_Some (FindPlayer signer (after (Packet owner (CMSG_PETITION_BUY guid name 2)) w)) ->
  (match happens ex_env (Packet signer (CMSG_PETITION_SIGN guid)) (after (Packet owner (CMSG_PETITION_BUY guid name 2)) w) with
   Ok _ => true | Throw _ => false end) = true -> prompt ex_env ex_start (charter owner signer guid name w).
Proof. intros Hp Ho Hs Hk. unfold charter. apply prompt_after; [by apply prompt_after|by split|done|done]. Qed.
Lemma ex_signed_prompt : prompt ex_env ex_start ex_signed.
Proof. apply prompt_charter; [constructor|by eexists; vm_compute..|by vm_compute]. Qed.
Lemma ex_one_prompt : prompt ex_env ex_start ex_one.
Proof.
  apply prompt_after; [apply ex_signed_prompt| |done|by vm_compute]. split; [by eexists; vm_compute|]. split; [by vm_compute|].
  intros petition name type _ _. by vm_compute.
Qed.
Lemma ex_two_prompt : prompt ex_env ex_start ex_two.
Proof.
  apply prompt_after; [apply prompt_charter; [apply ex_one_prompt|by eexists; vm_compute..|by vm_compute]| |done|by vm_compute].
  split; [by eexists; vm_compute|]. split; [by vm_compute|]. intros petition name type _ _. by vm_compute.
Qed.
Lemma ex_prompt_keeps w : prompt ex_env ex_start w -> arena_ok w /\ in_step w.
Proof. apply prompt_keeps; apply ex_start_ok. Qed.
(** The worker may be one event among others. *)
Lemma prompt_reach E w w' : prompt E w w' -> reach E w w'.
Proof.
  induction 1 as [w|w w1 w2 ev _ IH Ha _ Hh]; [constructor|]. rewrite settle_worker.
  assert (reach E w w2) as Hr by (by eapply reach_step). revert Hr. generalize (length (queue w2)). intros n Hr.
  induction n as [|n IHn]; [done|]. by apply (reach_step E _ _ _ Worker IHn).
Qed.

Lemma arena_teams_in_order_witness :
  CaptainGuid (ex_team 2 ex_two) = 3 /\ Type_ (ex_team 2 ex_two) = 2 /\
  CaptainGuid (ex_team 2 ex_two) ∈ guids (ex_team 2 ex_two) /\ GetMembersSize (ex_team 2 ex_two) <= 2 * Type_ (ex_team 2 ex_two).
Proof.
  split; [by vm_compute|]. split; [by vm_compute|].
  apply (arena_teams_in_order ex_env ex_start ex_two (proj1 ex_start_ok) (prompt_reach _ _ _ ex_two_prompt) 2). by vm_compute.
Defined.
Lemma one_team_per_type_witness :
  guids (ex_team 1 ex_two) = [1; 2] /\ NoDup (guids (ex_team 1 ex_two)) /\
  (is_Some (arena_team_member (db ex_two) !! (2, 4)) <-> exists t, ArenaTeamStore ex_two !! 2 = Some t /\ 4 ∈ guids t).
Proof.
  split; [by vm_compute|]. destruct (one_team_per_type ex_env ex_start ex_two) as (_ & H2 & H3);
    [apply ex_start_ok..|apply ex_two_prompt|]. split; [apply (H2 1); by vm_compute|apply H3].
Defined.
Lemma arena_packet_refines_witness :
  ensures (fun e => e = TextOverflow)
    (fun w' => exists S n l, transition 1 true ex_signed S n l /\ ArenaTeamStore w' = S /\ NextArenaTeamId w' = n /\
       arena_rows (latest w') = arena_rows (exec_all l (latest ex_signed))) (handle ex_env 1 (CMSG_TURN_IN_PETITION 100 true no_emblem) ex_signed).
Proof. apply (arena_packet_refines ex_env 1 (CMSG_TURN_IN_PETITION 100 true no_emblem)); [apply ex_prompt_keeps, ex_signed_prompt|by eexists; vm_compute]. Defined.
Definition ex_left : World := match handle ex_env 2 (CMSG_ARENA_TEAM_LEAVE 1) ex_two with Ok w => w | Throw _ => ex_two end.
Lemma packet_authority_witness :
  exists t', ArenaTeamStore ex_left !! 1 = Some t' /\ CaptainGuid t' = CaptainGuid (ex_team 1 ex_two) /\ forall g, g <> 2 -> g ∈ guids t' <-> g ∈ guids (ex_team 1 ex_two).
Proof.
  apply (packet_authority ex_env 2 (CMSG_ARENA_TEAM_LEAVE 1) ex_two ex_left 1 (ex_team 1 ex_two));
    [apply ex_prompt_keeps, ex_two_prompt|by eexists; vm_compute|by vm_compute|by vm_compute|by vm_compute].
Defined.

(** The team of 1 and 2 wins against that of 3 and 4, of whom 4 is away. *)
Definition ex_match : Match := mkMatch (2, 1) (1500, 1500) (0, 0) [(1, Battleground.HORDE, false); (2, Battleground.HORDE, false);
  (3, Battleground.ALLIANCE, false); (4, Battleground.ALLIANCE, true)].
Example ex_match_rating :
  match EndBattleground_rated ex_env Battleground.HORDE 559 ex_match ex_two with
  | Ok (_, w) => (GetRating (ex_team 1 w), GetRating (ex_team 2 w), map (fun m => (WeekGames m, WeekWins m)) (Members (ex_team 2 w)))
  | Throw _ => (0, 0, []) end = (24, 0, [(1, 0); (1, 0)]).
Proof. by vm_compute. Qed.

(** The captain of the second team has no row. *)
Definition ex_rows : list (Z * TeamRow * list LoadRow) :=
  let row := mkTeamRow [88] 1 2 no_emblem (new_stats 0) in
  [(1, row, [mkLoadRow 1 1 new_member_row [65] 1 0; mkLoadRow 1 2 new_member_row [66] 1 1600]);
   (2, mkTeamRow [89] 3 2 no_emblem (new_stats 0), [mkLoadRow 2 4 new_member_row [68] 1 0])].
Definition ex_boot : World := mkWorld ∅ ∅ 3 (mkTables (list_to_map (ex_rows.*1)) ∅ ∅ ∅ ∅ ∅) [] [].
Lemma LoadArenaTeams_registers_witness :
  exists w', LoadArenaTeams (ex_rows.*1) (concat ex_rows.*2) ex_boot = Ok w' /\
    (guids <$> ArenaTeamStore w' !! 1) = Some [1; 2] /\ ArenaTeamStore w' !! 2 = None /\ arena_team (latest w') !! 2 = None.
Proof.
  destruct (LoadArenaTeams_registers ex_rows ex_boot) as (w' & Heq & Hin & _); [done| |].
  { split; [repeat constructor|]. repeat constructor; cbn; try done; apply (bool_decide_unpack _); by vm_compute. }
  exists w'. split; [done|]. destruct (Hin 1 (mkTeamRow [88] 1 2 no_emblem (new_stats 0)) _ ltac:(apply list_elem_of_here)) as [-> _].
  destruct (Hin 2 _ _ ltac:(apply list_elem_of_further, list_elem_of_here)) as [-> H2]. split_and!; [by vm_compute|by vm_compute|].
  apply H2. by vm_compute.
Defined.

(** ** Surprises *)

(** Thirty per cent of 50 games is 15, and the constant is above 0.3. *)
Example required_games_of_50 : requiredGames (set_Stats (mkStats 0 50 0 50 0 1) (ex_team 1 ex_two)) = 16.
Proof. by vm_compute. Qed.
(** Who leaves a team of which it is not a member is still in its own, and its fields say
    that it has none. *)
Definition ex_wiped : World := after (Packet 1 (CMSG_ARENA_TEAM_LEAVE 2)) ex_two.
Example leave_other_team :
  guids (ex_team 1 ex_wiped) = [1; 2] /\ guids (ex_team 2 ex_wiped) = [3; 4] /\ (p_info <$> FindPlayer 1 ex_wiped) = Some (repeat 0 21).
Proof. by vm_compute. Qed.
(** It may then found another team, in which it is the captain and not a member. *)
Example captain_outside :
  let w := charter 1 5 102 [90] (after (Enter 5 (ex_player 5)) ex_wiped) in
  let t := ex_team 3 (after (Packet 1 (CMSG_TURN_IN_PETITION 102 true no_emblem)) w) in
  CaptainGuid t = 1 /\ guids t = [5].
Proof. by vm_compute. Qed.
(** A team with an empty name stops the foundation of any other, once the charter is
    destroyed. *)
Example nameless_team_blocks :
  let w := set_store (<[9 := mkTeam 9 2 [] 4 no_emblem [] (new_stats 0)]> (ArenaTeamStore ex_signed)) ex_signed in
  let w' := after (Packet 1 (CMSG_TURN_IN_PETITION 100 true no_emblem)) w in
  ArenaTeamStore w' !! 1 = None /\ trace w' = trace w ++ [DestroyItem 1 100].
Proof. by vm_compute. Qed.
(** Nobody hears that a team is disbanded: its members are taken out first. *)
Example disband_unheard :
  existsb (fun e => match e with SendPacket _ d => if op d is SMSG_ARENA_TEAM_EVENT then true else false | _ => false end)
    (trace (after (Packet 1 (CMSG_ARENA_TEAM_DISBAND 1)) (set_trace [] ex_two))) = false.
Proof. by vm_compute. Qed.
